(* ===== verification/_CoqProject ===== *)
-Q . S2P
Prelude.v
IndexMap.v
Gba.v
PinPolicy.v
SessionStore.v
SessionStoreFacts.v
Crypto.v
Jose.v
Cbor.v
Cose.v
Engagement.v
Concrete.v
JoseFacts.v
Mdoc.v
MdocSigning.v
CoseEquiv.v
ResponseCbor.v
MdocFacts.v
DisclosureFacts.v
Holder.v
HolderFacts.v
HolderResponse.v
Protocol.v
Configuration.v
ConfigurationFacts.v
ConfigurationWitness.v
PresentationExchange.v
Issuer.v
IssuerFacts.v
IssuerWitness.v
OpenId4vp.v
Verifier.v
VerifierFacts.v
VerifierWitness.v
DisclosureSession.v
DisclosureSessionFacts.v
IsoMessages.v
IsoVerifier.v
IsoVerifierFacts.v
IsoHolder.v
IsoHolderFacts.v
IsoProtocol.v
HolderWitness.v
IsoWitness.v
Signed.v
WalletUsers.v
AccountServer.v
WalletUserFacts.v
AccountServerFacts.v
AccountServerRuns.v
AccountServerFlow.v
AccountServerWitness.v
PinValidation.v
Document.v
DocumentFacts.v
PidIssuer.v
Digid.v
WalletStorage.v
WalletStorageFacts.v
WalletStorageQueries.v
AccountClient.v
InstructionClient.v
InstructionFacts.v
IssuanceSession.v
IssuanceSessionFacts.v
WalletSessions.v
WalletApp.v
WalletFlows.v
PidIssuerFacts.v
WalletFrames.v
WalletAppFacts.v
WalletRuns.v
WalletDisclosureFacts.v
WalletSource.v
WalletWitness.v
WalletAppWitness.v
PidWitness.v
HttpServer.v
HttpServerFacts.v
Pkcs11.v
