(* ===== verification/Prelude.v ===== *)
(** * The core of the NL Wallet: a verified model

    ** The program

    [src/wallet_core] is the Rust core of the Dutch reference wallet: a library
    for the phone and the servers that it talks to.  Its parts are
    - the wallet app ([wallet]): registration, PIN, lock, an encrypted database
      with mdocs and a history, issuance and disclosure sessions;
    - the wallet provider ([wallet_provider]): the account server, where a wallet
      registers, has its PIN checked, and uses private keys that are kept in an
      HSM;
    - the issuance server and the disclosure server ([openid4vc], run by
      [wallet_server]), with the sessions of OpenID4VCI and OpenID4VP in a
      session store; the issuer of person identification documents takes its
      attributes from DigiD and the personal records, which [gba_hc_converter]
      puts into the form of a newer interface;
    - the configuration server ([configuration_server]), which serves the wallet
      its signed configuration;
    - the data format ([mdoc]): ISO 18013-5 mdocs, their signatures, digests and
      session transcripts, in CBOR and COSE, and sessions of that standard
      between a wallet and a verifier;
    - what they share ([wallet_common]): tokens, signed messages, errors.

    The wallet registers at the account server with two keys, a hardware key and
    one derived from the PIN; every later instruction is signed with both and
    answers a challenge.  The issuance server gives the wallet mdocs that are
    bound to keys of the wallet provider, with the attributes of the person who
    logged in at DigiD.  To disclose, the wallet verifies the
    signed request of a verifier, matches it with its mdocs, lets the user
    confirm with the PIN, has the wallet provider sign, and sends the encrypted
    response, which the disclosure server verifies and hands to the relying
    party.

    ** The files

    Every operation of the code is a function of the same name; a definition
    that stands for code says in a comment what it models.

    Shared: [Prelude] (outcomes, the state monad, machine integers, remote
    resources and their faults, relations that calls stay within), [IndexMap]
    (crate [indexmap]), [Crypto] (interfaces of the cryptographic crates),
    [Concrete] (one instance of each interface).

    Data: [Cbor] ([mdoc/src/utils/serialization.rs]), [Cose] ([crypto.rs],
    [cose.rs], [x509.rs]), [Engagement] ([mdoc/src/iso/engagement.rs]), [Mdoc]
    and [MdocSigning] ([mdoc/src/iso], [mdoc/src/issuer.rs], verification in
    [mdoc/src/verifier.rs]), [ResponseCbor] and [IsoMessages] (the CBOR form of
    responses and of the messages of a session, [mdoc/src/iso]), [Jose]
    ([wallet_common/src/jwt.rs], [openid4vc/src/jwt.rs], [dpop.rs]), [Signed]
    ([wallet_common/src/account]), [Protocol] and [PresentationExchange]
    ([openid4vc/src]).

    Servers: [SessionStore] ([mdoc/src/server_state.rs],
    [wallet_server/src/store]), [Issuer] ([openid4vc/src/issuer.rs]), [OpenId4vp]
    and [Verifier] ([openid4vc/src/openid4vp.rs], [verifier.rs]), [HttpServer]
    ([wallet_server/src/verifier.rs], [issuer.rs], [errors.rs], [server],
    [settings], and [openid4vc/src/errors.rs]), [PidIssuer] and [Digid]
    ([wallet_server/src/pid], [wallet/src/issuance], [openid4vc/src/oidc]), [Gba]
    ([gba_hc_converter]), [Configuration] ([configuration_server], with
    [wallet/src/config]), [IsoVerifier] (the sessions of [mdoc/src/verifier.rs]),
    [PinPolicy], [WalletUsers] and [AccountServer] ([wallet_provider]), [Pkcs11]
    ([wallet_provider/service/src/hsm.rs], [keys.rs]).

    Wallet: [Holder] and [IsoHolder] ([mdoc/src/holder]), [DisclosureSession] and
    [IssuanceSession] ([openid4vc/src/disclosure_session.rs],
    [issuance_session.rs]), [PinValidation] ([wallet/src/pin]), [Document]
    ([wallet/src/document]), [WalletStorage] ([wallet/src/storage]),
    [AccountClient] and [InstructionClient] ([wallet/src/account_provider],
    [wallet/src/instruction]), [WalletSessions], [WalletApp] and [WalletFlows]
    ([wallet/src/wallet], [wallet/src/disclosure]).

    A file [XFacts] holds the theorems about [X]; [CoseEquiv],
    [AccountServerRuns], [AccountServerFlow], [HolderResponse], [IsoProtocol],
    [WalletStorageQueries], [WalletFrames], [WalletRuns] and [WalletSource]
    continue them; [PidIssuerFacts] is about [Digid] too.  The files [...Witness]
    apply the theorems to concrete runs; [Gba], [HttpServerFacts] and [Pkcs11] do
    so at their end.

    ** How code is modelled

    A function that can fail returns an [outcome]: a value, an error of the type
    of the source, or a panic ([unwrap], [assert!], a checked overflow).  A
    function with state is in the state monad [ST].  Recursion is structural
    everywhere; no function takes fuel.  Machine integers are integers with the
    bounds of their width written out where the code can reach them (the
    counters of PIN attempts, sequence numbers, limbs of big numbers, CBOR
    integers).

    Random values and the clock are arguments of the operations that draw them.
    Databases, the HSM and the device are a [remote]: contents with a list of
    faults, which says of each of the coming calls whether it fails, so that a
    theorem about all lists is one about all failures.  A transaction works on a
    copy that a commit makes the contents.  Peers (the account server, issuers
    and verifiers as the wallet sees them) are arbitrary functions from the
    messages that were sent to them to an answer.

    Crates that are not in the repository are type classes: [Ecdsa], [Sha256],
    [MacLib], [Ciborium], [Coset], [X509Lib], [JwtLib], [Josekit], [UrlLib] and
    others.  Their laws are the documented behaviour that the code relies on,
    such as that parsing undoes printing and that a signature verifies; none says
    that something cannot be forged, and theorems on authenticity say which
    message was signed or which digests agree.  All laws are satisfied together
    by the instances of [Concrete] and the witness files.

    Instants are integers: nanoseconds in [PinPolicy] and the account server,
    seconds in tokens, microseconds elsewhere (the resolution of the databases).

    ** What is proved

    Account server: in every run of requests that are handled one after the other,
    with whatever orders and failures, the number of answered PIN guesses is bounded
    by the policy while no instruction verifies, an instruction
    was signed by both keys over the pending challenge, nothing is replayed, a
    blocked wallet stays blocked ([AccountServerRuns]); a policy whose attempts fit
    in a byte decides as specified without overflow ([PinPolicy]); an honest wallet
    is served ([AccountServerFlow]); overlapping requests can lift a block, are
    answered on one counter, and two copies of an instruction are both carried out
    ([AccountServerRuns], [AccountServerWitness]).  The
    interface that it has of an HSM is met by the operations on a PKCS#11 token, in
    every run of them ([Pkcs11]).

    Issuance and disclosure servers, against any store with the contract of
    [SessionStore]: the life of a session; a credential, alone or in a batch, needs
    the token, a DPoP proof and a proof of possession; an honest wallet gets an
    attestation that verifies with the offered attributes; attributes that a relying
    party obtains come from a verified response to the request of the session that
    was created under its token ([IssuerFacts], [VerifierFacts]).  The
    PostgreSQL store refines the in-memory one as long as updates keep the
    progress of a session, and loses the result of a session otherwise
    ([SessionStoreFacts]).  The clients of the wallet, connected over HTTP to these
    servers, hear the outcome of every handler, errors with their code (but of
    an error to an error report only the status); the routes
    for relying parties are served to those only whom the settings allow
    ([HttpServerFacts]).

    Person identification documents: the attributes that are offered are those of
    the person who logged in for the request of this wallet, and the wallet shows the
    data of the person in the records ([PidIssuerFacts]); the converter of the
    records keeps exactly the nationalities that are not terminated, and every
    outcome of its handler is known ([Gba]).

    Configuration: in every run of a phone with stops and failing writes the
    configuration in use is trusted and never older than the one before; an update
    of the server whose tag is new to the client arrives, and what a stop in the middle of writing one leaves
    ([ConfigurationFacts]).

    Mdocs: what an issuer signs verifies with the offered attributes; what
    verifies was signed under a trusted certificate, attribute by attribute; a
    document is bound to its session ([MdocFacts], [DisclosureFacts]).  The sessions
    of ISO 18013-5: what a verifier obtains was verified over the transcript of the
    session, the wallet proposes only to a registered reader that signed the request,
    at most two messages that do not overlap are answered, and a session of two that
    follow the protocol completes ([IsoVerifierFacts], [IsoHolderFacts], [IsoProtocol]).

    Disclosure by the wallet: matching a request is equivalent to its
    specification; proposals stay within the registration of the verifier;
    sending is reported truthfully; a verifier accepts what the wallet sends and
    ends with what the user was shown ([HolderFacts],
    [DisclosureSessionFacts]).

    Wallet app: invariants of the database and of the app over all runs with
    failures, restarts and resets; the sequence numbers in the messages only
    increase; a locked wallet talks to no verifier or issuer; disclosures are counted
    before they are sent, and logged, also when sending them ends in an error; what a PIN timeout leaves; what is accepted from an issuer; the
    history, the documents shown, PIN rules and the PIN key
    ([WalletStorageFacts], [InstructionFacts], [WalletRuns],
    [WalletDisclosureFacts], [IssuanceSessionFacts], [DocumentFacts],
    [PinValidation]).

    ** Not modelled

    The user interface and its bindings ([wallet_app], [flutter_api],
    [platform_support]: generated code, conversions and platform calls); the web
    framework under the servers (extractors of requests are parameters), tracing,
    reading settings from files and the environment, and the routes of the wallet
    provider, which only call the operations of the account server; the PKCS#11
    library under the HSM; database migrations; XML and the tables of codes of the
    personal records; generating certificates; test code, tools and mock relying
    parties.

    In the runs of the servers a request is one step: requests of one wallet, or to
    one session, are handled one after the other.  The code reads and writes in
    separate transactions, or without a lock on a session, so that such requests can
    overlap; their interleavings are not part of the runs.  What they lead to is
    stated apart, with the second half of a handler on what an earlier first half
    has read ([AccountServerRuns.overlapping_instruction_lifts_block],
    [IssuerFacts.overlapping_requests_both_succeed], the end of
    [AccountServerWitness]).  The wallet is exclusively borrowed by each of its
    operations. *)
From stdpp Require Import base gmap strings list fin_maps sorting.
From Stdlib Require Import ZArith Lia.

#[global] Open Scope Z_scope.

(** ** Outcomes of fallible code

    Rust code returns [Result<A, E>] or aborts the task with a panic ([assert!],
    [unwrap], [expect], an overflow check).  [outcome E A] has one constructor
    per case; code that cannot fail uses [Empty_set] for [E]. *)
Inductive outcome (E A : Type) : Type :=
  | Ok (a : A)
  | Err (e : E)
  | Panic.
Arguments Ok {E A} a.
Arguments Err {E A} e.
Arguments Panic {E A}.

(** Sequencing ([?] on a [Result], a plain statement otherwise). *)
Definition obind {E A B} (m : outcome E A) (k : A → outcome E B) : outcome E B :=
  match m with Ok a => k a | Err e => Err e | Panic => Panic end.

(** [Result::map] *)
Definition omap {E A B} (f : A → B) (m : outcome E A) : outcome E B :=
  match m with Ok a => Ok (f a) | Err e => Err e | Panic => Panic end.

Declare Scope wallet_scope.
Delimit Scope wallet_scope with wallet.
Notation "'let*' x ':=' m 'in' k" := (obind m (λ x, k))
  (at level 10, x pattern, m at level 100, k at level 200) : wallet_scope.
#[global] Open Scope wallet_scope.

(** [Result::map_err] (and the conversion the [?] operator inserts). *)
Definition map_err {E F A} (f : E → F) (m : outcome E A) : outcome F A :=
  match m with Ok a => Ok a | Err e => Err (f e) | Panic => Panic end.

(** [Option::ok_or]. *)
Definition ok_or {E A} (e : E) (o : option A) : outcome E A :=
  match o with Some a => Ok a | None => Err e end.

(** [Option::unwrap], [Result::unwrap] and [expect]. *)
Definition unwrap {E A} (o : option A) : outcome E A :=
  match o with Some a => Ok a | None => Panic end.

(** Code whose error type is empty, used where another error type is expected. *)
Definition never {E A} (m : outcome Empty_set A) : outcome E A := map_err (λ e : Empty_set, match e with end) m.

(** [assert!] *)
Definition rust_assert {E} (b : bool) : outcome E unit := if b then Ok tt else Panic.

(** An early [return Err(e)] under a condition. *)
Definition guard_err {E} (b : bool) (e : E) : outcome E unit := if b then Ok tt else Err e.

Definition is_ok {E A} (m : outcome E A) : bool :=
  match m with Ok _ => true | _ => false end.

#[global] Instance outcome_eq_dec {E A} `{EqDecision E, EqDecision A} : EqDecision (outcome E A).
Proof. solve_decision. Defined.

Lemma bind_Ok {E A B} (m : outcome E A) (k : A → outcome E B) b :
  obind m k = Ok b ↔ ∃ a, m = Ok a ∧ k a = Ok b.
Proof. destruct m; simpl; naive_solver. Qed.

Lemma bind_Err {E A B} (m : outcome E A) (k : A → outcome E B) e :
  obind m k = Err e ↔ m = Err e ∨ ∃ a, m = Ok a ∧ k a = Err e.
Proof. destruct m; simpl; naive_solver. Qed.

Lemma bind_Panic {E A B} (m : outcome E A) (k : A → outcome E B) :
  obind m k = Panic ↔ m = Panic ∨ ∃ a, m = Ok a ∧ k a = Panic.
Proof. destruct m; simpl; naive_solver. Qed.

Lemma omap_Ok {E A B} (m : outcome E A) (f : A → B) b :
  omap f m = Ok b ↔ ∃ a, m = Ok a ∧ b = f a.
Proof. destruct m; simpl; naive_solver. Qed.

Lemma map_err_Ok {E F A} (f : E → F) (m : outcome E A) a :
  map_err f m = Ok a ↔ m = Ok a.
Proof. destruct m; simpl; naive_solver. Qed.

Lemma map_err_Err {E F A} (f : E → F) (m : outcome E A) e :
  map_err f m = Err e ↔ ∃ e', m = Err e' ∧ e = f e'.
Proof. destruct m; simpl; naive_solver. Qed.

Lemma map_err_Panic {E F A} (f : E → F) (m : outcome E A) :
  map_err f m = Panic ↔ m = Panic.
Proof. destruct m; simpl; naive_solver. Qed.

Lemma ok_or_Ok {E A} (e : E) (o : option A) a : ok_or e o = Ok a ↔ o = Some a.
Proof. destruct o; simpl; naive_solver. Qed.

Lemma ok_or_Err {E A} (e e' : E) (o : option A) : ok_or e o = Err e' ↔ o = None ∧ e' = e.
Proof. destruct o; simpl; naive_solver. Qed.

Lemma ok_or_Panic {E A} (e : E) (o : option A) : ok_or e o = Panic ↔ False.
Proof. destruct o; simpl; naive_solver. Qed.

Lemma unwrap_Ok {E A} (o : option A) a : unwrap (E:=E) o = Ok a ↔ o = Some a.
Proof. destruct o; simpl; naive_solver. Qed.

Lemma unwrap_Err {E A} (o : option A) (e : E) : unwrap o = Err e ↔ False.
Proof. destruct o; simpl; naive_solver. Qed.

Lemma unwrap_Panic {E A} (o : option A) : unwrap (E:=E) o = Panic ↔ o = None.
Proof. destruct o; simpl; naive_solver. Qed.

Lemma guard_err_Ok {E} b (e : E) u : guard_err b e = Ok u ↔ b = true.
Proof. destruct b, u; simpl; naive_solver. Qed.

Lemma guard_err_Err {E} b (e e' : E) : guard_err b e = Err e' ↔ b = false ∧ e' = e.
Proof. destruct b; simpl; naive_solver. Qed.

Lemma guard_err_Panic {E} b (e : E) : guard_err b e = Panic ↔ False.
Proof. destruct b; simpl; naive_solver. Qed.

Lemma rust_assert_Ok {E} b u : rust_assert (E:=E) b = Ok u ↔ b = true.
Proof. destruct b, u; simpl; naive_solver. Qed.

Lemma rust_assert_Err {E} b (e : E) : rust_assert b = Err e ↔ False.
Proof. destruct b; simpl; naive_solver. Qed.

(** ** Stateful code

    A method that reads and writes shared state [S] is a function of the state,
    returning its outcome and the state it leaves behind: the state survives an
    error, and also a panic. *)
Definition ST (S E A : Type) : Type := S → outcome E A * S.

Definition sret {S E A} (a : A) : ST S E A := λ s, (Ok a, s).
Definition sbind {S E A B} (m : ST S E A) (k : A → ST S E B) : ST S E B := λ s,
  match m s with
  | (Ok a, s') => k a s'
  | (Err e, s') => (Err e, s')
  | (Panic, s') => (Panic, s')
  end.
Notation "'let!' x ':=' m 'in' k" := (sbind m (λ x, k))
  (at level 10, x pattern, m at level 100, k at level 200) : wallet_scope.

Definition st_lift {S E A} (m : outcome E A) : ST S E A := λ s, (m, s).
Definition st_get {S E} : ST S E S := λ s, (Ok s, s).
Definition st_put {S E} (s : S) : ST S E unit := λ _, (Ok tt, s).
Definition st_map_err {S E F A} (f : E → F) (m : ST S E A) : ST S F A := λ s,
  let '(r, s') := m s in (map_err f r, s').
Definition st_throw {S E A} (e : E) : ST S E A := λ s, (Err e, s).

(** A computation whose error is inspected. *)
Definition st_try {S E F A} (m : ST S E A) : ST S F (outcome E A) := λ s,
  match m s with (Panic, s') => (Panic, s') | (o, s') => (Ok o, s') end.

Lemma st_bind_inv {S E A B} (m : ST S E A) (k : A → ST S E B) s r s' :
  sbind m k s = (r, s') ↔
    (∃ a s1, m s = (Ok a, s1) ∧ k a s1 = (r, s')) ∨
    (∃ e, m s = (Err e, s') ∧ r = Err e) ∨
    (m s = (Panic, s') ∧ r = Panic).
Proof. unfold sbind. destruct (m s) as [[a|e|] s1]; naive_solver. Qed.

Lemma bind_lift_inv {S E A B} (m : outcome E A) (k : A → ST S E B) s r s' : sbind (st_lift m) k s = (r, s') →
  (∃ a, m = Ok a ∧ k a s = (r, s')) ∨ (∃ e, m = Err e ∧ r = Err e ∧ s' = s) ∨ m = Panic ∧ r = Panic ∧ s' = s.
Proof. unfold sbind, st_lift. destruct m; naive_solver. Qed.

(** *** Effects

    [within R m]: whatever [m] returns, it changes the state within [R]. *)
Definition within {S E A} (R : relation S) (m : ST S E A) : Prop := ∀ s o s', m s = (o, s') → R s s'.

Section Within.
Context {S : Type} (R : relation S) `{!PreOrder R}.

Lemma within_ret {E A} (a : A) : within R (sret (E:=E) a).
Proof. intros s o s' [= _ <-]. reflexivity. Qed.
Lemma within_lift {E A} (m : outcome E A) : within R (st_lift m).
Proof. intros s o s' [= _ <-]. reflexivity. Qed.
Lemma within_throw {E A} (e : E) : within R (st_throw (A:=A) e).
Proof. intros s o s' [= _ <-]. reflexivity. Qed.
Lemma within_get {E} : within R (st_get (E:=E)).
Proof. intros s o s' [= _ <-]. reflexivity. Qed.
Lemma within_bind {E A B} (m : ST S E A) (k : A → ST S E B) : within R m → (∀ a, within R (k a)) → within R (sbind m k).
Proof. intros Hm Hk s o s' [(a & s1 & H1 & H2)|[(e & H1 & _)|[H1 _]]]%st_bind_inv; [|by eapply Hm..]. etrans; [by eapply Hm|by eapply Hk]. Qed.
Lemma within_bind_eq {E A B} (m : ST S E A) (k : A → ST S E B) :
  within R m → (∀ a s s1, m s = (Ok a, s1) → within R (k a)) → within R (sbind m k).
Proof. intros Hm Hk s o s' [(a & s1 & H1 & H2)|[(e & H1 & _)|[H1 _]]]%st_bind_inv; [|by eapply Hm..]. etrans; [by eapply Hm|by eapply Hk]. Qed.
Lemma within_map_err {E F A} (f : E → F) (m : ST S E A) : within R m → within R (st_map_err f m).
Proof. intros Hm s o s'. unfold st_map_err. destruct (m s) eqn:Hs. intros [= _ <-]. by eapply Hm. Qed.
Lemma within_try {E F A} (m : ST S E A) : within R m → within R (st_try (F:=F) m).
Proof. intros Hm s o s'. unfold st_try. destruct (m s) as [[] ?] eqn:Hs; intros [= _ <-]; by eapply Hm. Qed.
End Within.
Lemma within_impl {S E A} (R R' : relation S) (m : ST S E A) : (∀ s s', R s s' → R' s s') → within R m → within R' m.
Proof. intros Hi Hm s o s' Hs. eapply Hi, Hm, Hs. Qed.

Create HintDb within.
#[export] Hint Resolve within_ret within_lift within_throw within_get within_map_err within_try : within.
(** Down to the calls that the hints know. *)
Ltac solve_within :=
  repeat first
    [ match goal with |- ∀ _, _ => intros ? end
    | match goal with |- within _ (let _ := _ in _) => cbv zeta end
    | match goal with |- within _ (sbind _ _) => apply within_bind; [typeclasses eauto| |] end
    | solve [eauto 4 with within typeclass_instances]
    | match goal with |- within _ (match ?x with _ => _ end) => destruct x end ].

(** ** External stores

    A database behind a connection: its contents, and for each of the coming
    calls whether that call fails.  The list ranges over every pattern of
    connection failures; once it is exhausted all calls succeed. *)
Record remote (D : Type) := Remote { contents : D; faults : list bool }.
Arguments Remote {D} contents faults.
Arguments contents {D} r.
Arguments faults {D} r.

(** One round trip to the store: it fails with [e] when the fault list says so. *)
Definition round_trip {D E} (e : E) : ST (remote D) E unit := λ r,
  match faults r with
  | true :: fs => (Err e, Remote (contents r) fs)
  | false :: fs => (Ok tt, Remote (contents r) fs)
  | [] => (Ok tt, r)
  end.

Definition set_contents {D E} (d : D) : ST (remote D) E unit := λ r,
  (Ok tt, Remote d (faults r)).

Lemma round_trip_contents {D E} (e : E) (r : remote D) o r' :
  round_trip e r = (o, r') → contents r' = contents r ∧ (o = Ok tt ∨ o = Err e).
Proof. unfold round_trip. destruct (faults r) as [|[] ?]; naive_solver. Qed.

(** ** Machine integers

    Rust integers of [w] bits.  An arithmetic operation that leaves the range
    panics when the crate is compiled with overflow checks (the [dev] and
    [test] profiles) and wraps around otherwise (the [release] profile). *)
Inductive profile := Debug | Release.

Definition in_range (w z : Z) : bool := (0 <=? z) && (z <? 2 ^ w).

Definition arith {E} (prof : profile) (w z : Z) : outcome E Z :=
  if in_range w z then Ok z
  else match prof with Debug => Panic | Release => Ok (z mod 2 ^ w) end.

Definition u8 (z : Z) : Prop := 0 ≤ z < 256.
Definition u64 (z : Z) : Prop := 0 ≤ z < 2 ^ 64.
Definition u8_MAX : Z := 255.
Definition i64_MAX : Z := 2 ^ 63 - 1.

Lemma in_range_spec w z : in_range w z = true ↔ 0 ≤ z < 2 ^ w.
Proof. unfold in_range. rewrite andb_true_iff, Z.leb_le, Z.ltb_lt. lia. Qed.

Lemma arith_u8 {E} prof z : u8 z → arith (E:=E) prof 8 z = Ok z.
Proof.
  unfold u8, arith. intros Hz.
  destruct (in_range 8 z) eqn:R; [done|].
  assert (in_range 8 z = true) by (apply in_range_spec; change (2 ^ 8) with 256; lia).
  congruence.
Qed.

(** Both profiles agree whenever the debug profile does not panic. *)
Lemma arith_debug {E} prof w z z' : arith (E:=E) Debug w z = Ok z' → arith (E:=E) prof w z = Ok z'.
Proof. unfold arith. destruct (in_range w z); [done|discriminate]. Qed.

(** ** Strings *)
Lemma string_app_assoc (a b c : string) : (a +:+ b) +:+ c = a +:+ (b +:+ c).
Proof. induction a as [|x a IH]; [done|]. exact (f_equal (String x) IH). Qed.

(** ** Sorting ([slice::sort_by] and [sort_by_key], which are stable)

    [leb a b]: [a] may stay in front of [b]. *)
Section Sorting.
Context {A : Type} (leb : A → A → bool).

Fixpoint insert_by (x : A) (l : list A) : list A :=
  match l with
  | [] => [x]
  | y :: l => if leb x y then x :: y :: l else y :: insert_by x l
  end.
Definition sort_by (l : list A) : list A := foldr insert_by [] l.

Lemma insert_by_perm x l : insert_by x l ≡ₚ x :: l.
Proof.
  induction l as [|y l IH]; cbn; [done|]. destruct (leb x y); [done|]. rewrite IH. constructor.
Qed.
Lemma sort_by_perm l : sort_by l ≡ₚ l.
Proof. induction l as [|x l IH]; cbn; [done|]. by rewrite insert_by_perm, IH. Qed.

Hypothesis leb_trans : ∀ x y z, leb x y = true → leb y z = true → leb x z = true.
Hypothesis leb_total : ∀ x y, leb x y = false → leb y x = true.

Lemma insert_by_sorted x l : StronglySorted leb l → StronglySorted leb (insert_by x l).
Proof.
  induction 1 as [|y l Hs IH Hy]; cbn; [by repeat constructor|]. destruct (leb x y) eqn:Hxy.
  - constructor; [by constructor|]. constructor; [by rewrite Hxy|].
    eapply Forall_impl; [exact Hy|]. intros z Hz. apply Is_true_eq_left. by eapply leb_trans; [|apply Is_true_eq_true].
  - constructor; [done|]. rewrite insert_by_perm. constructor; [by apply Is_true_eq_left, leb_total|done].
Qed.
Lemma sort_by_sorted l : StronglySorted leb (sort_by l).
Proof. induction l as [|x l IH]; cbn; [constructor|]. by apply insert_by_sorted. Qed.
End Sorting.

(** ** Automation *)
Create Rewrite HintDb outcomes.
#[export] Hint Rewrite @bind_Ok @bind_Err @bind_Panic @omap_Ok @map_err_Ok @map_err_Err @map_err_Panic
  @ok_or_Ok @ok_or_Err @ok_or_Panic @unwrap_Ok @unwrap_Err @unwrap_Panic
  @guard_err_Ok @guard_err_Err @guard_err_Panic @rust_assert_Ok @rust_assert_Err : outcomes.

(** Break a hypothesis saying that a computation returned [Ok] (or a conjunction
    of such facts) into one hypothesis per step. *)
Ltac run_ok H :=
  cbn beta in H; autorewrite with outcomes in H;
  lazymatch type of H with
  | ex _ => let x := fresh "x" in destruct H as [x H]; run_ok H
  | _ ∧ _ => let H1 := fresh "Hrun" in destruct H as [H1 H]; run_ok H1; run_ok H
  | Ok _ = Ok _ => first [injection H as H; try subst | clear H]
  | _ => idtac
  end.

(** Refutes that a computation panics when none of its steps can. *)
Ltac no_panic H :=
  cbn beta in H; autorewrite with outcomes in H;
  lazymatch type of H with
  | _ ∨ _ => destruct H as [H|H]; no_panic H
  | ex _ => let x := fresh "x" in destruct H as (x & _ & H); no_panic H
  | False => destruct H
  | _ => try discriminate H
  end.

(** Case analysis on the scrutinee of a [match] or an [if] in the goal. *)
Ltac case_goal :=
  match goal with
  | |- context [match ?x with _ => _ end] =>
      lazymatch x with context [match _ with _ => _ end] => fail | _ => idtac end;
      destruct x eqn:?; simplify_eq/=
  end.

Ltac case_hyp H :=
  match type of H with
  | context [match ?x with _ => _ end] =>
      lazymatch x with context [match _ with _ => _ end] => fail | _ => idtac end;
      destruct x eqn:?; simplify_eq/=
  end.

(** Use what reading an optional field gives. *)
Ltac use_read R := first [injection R as <- | rewrite R].

(** Reflect boolean comparisons on [Z] into propositions. *)
Ltac zbool :=
  repeat match goal with
  | H : (_ && _) = true |- _ => apply andb_true_iff in H; destruct H
  | H : (_ || _) = false |- _ => apply orb_false_iff in H; destruct H
  | H : negb _ = true |- _ => apply negb_true_iff in H
  | H : negb _ = false |- _ => apply negb_false_iff in H
  | H : (_ <? _) = true |- _ => apply Z.ltb_lt in H
  | H : (_ <? _) = false |- _ => apply Z.ltb_ge in H
  | H : (_ <=? _) = true |- _ => apply Z.leb_le in H
  | H : (_ <=? _) = false |- _ => apply Z.leb_gt in H
  | H : (_ =? _) = true |- _ => apply Z.eqb_eq in H
  | H : (_ =? _) = false |- _ => apply Z.eqb_neq in H
  | H : bool_decide _ = true |- _ => apply bool_decide_eq_true in H
  | H : bool_decide _ = false |- _ => apply bool_decide_eq_false in H
  end.
