(* ===== verification/IndexMap.v ===== *)
(** * Insertion-ordered maps

    The crate [indexmap], which the code uses for every map that is serialized:
    a list of entries in insertion order without duplicate keys.  Inserting an
    existing key replaces its value and keeps its position. *)
From stdpp Require Import base list option sets.
From Stdlib Require Import ZArith Lia.
From S2P Require Import Prelude.

Abbreviation imap K V := (list (K * V)).

Section IndexMap.
Context {K V : Type} `{!EqDecision K}.
Implicit Types (m : imap K V) (k : K) (v : V).

(** [IndexMap::get] *)
Fixpoint im_get m k : option V :=
  match m with
  | [] => None
  | (k', v) :: m => if decide (k = k') then Some v else im_get m k
  end.

(** [IndexMap::contains_key] *)
Definition im_contains_key m k : bool := match im_get m k with Some _ => true | None => false end.

(** [IndexMap::insert] *)
Fixpoint im_insert k v m : imap K V :=
  match m with
  | [] => [(k, v)]
  | (k', v') :: m => if decide (k = k') then (k', v) :: m else (k', v') :: im_insert k v m
  end.

(** [collect::<IndexMap<_, _>>()]: insert the pairs one after the other. *)
Definition im_collect (l : list (K * V)) : imap K V :=
  fold_left (λ m kv, im_insert kv.1 kv.2 m) l [].

Lemma im_get_insert m k v k' : im_get (im_insert k v m) k' = if decide (k' = k) then Some v else im_get m k'.
Proof.
  induction m as [|[k0 v0] m IH]; simpl; [done|].
  repeat (case_decide; simplify_eq/=; try done).
Qed.

Lemma im_insert_keys m k v k' : k' ∈ (im_insert k v m).*1 ↔ k' = k ∨ k' ∈ m.*1.
Proof.
  induction m as [|[k0 v0] m IH]; simpl; [set_solver|].
  case_decide; simpl; set_solver.
Qed.

Lemma im_insert_NoDup m k v : NoDup m.*1 → NoDup (im_insert k v m).*1.
Proof.
  induction m as [|[k0 v0] m IH]; simpl; [intros _; apply NoDup_singleton|].
  rewrite NoDup_cons. intros [Hn Hd]. case_decide as Hk; simpl; rewrite NoDup_cons.
  - done.
  - rewrite im_insert_keys. naive_solver.
Qed.

Lemma im_insert_fresh m k v : k ∉ m.*1 → im_insert k v m = m ++ [(k, v)].
Proof.
  induction m as [|[k0 v0] m IH]; simpl; [done|].
  intros Hk. rewrite decide_False by set_solver. by rewrite IH by set_solver.
Qed.

Lemma im_get_Some_elem m k v : im_get m k = Some v → (k, v) ∈ m.
Proof.
  induction m as [|[k0 v0] m IH]; simpl; [done|].
  case_decide; naive_solver set_solver.
Qed.

Lemma im_get_None m k : im_get m k = None ↔ k ∉ m.*1.
Proof.
  induction m as [|[k0 v0] m IH]; simpl; [set_solver|].
  case_decide; set_solver.
Qed.

Lemma im_elem_get m k v : NoDup m.*1 → (k, v) ∈ m → im_get m k = Some v.
Proof.
  induction m as [|[k0 v0] m IH]; simpl; [set_solver|].
  rewrite NoDup_cons. intros [Hn Hd] Hin. apply elem_of_cons in Hin as [[= -> ->]|Hin].
  - by rewrite decide_True.
  - rewrite decide_False; [auto|]. intros ->. apply Hn. apply list_elem_of_fmap. by exists (k0, v).
Qed.

Lemma fold_insert_NoDup (l : list (K * V)) m :
  NoDup m.*1 → NoDup (fold_left (λ m kv, im_insert kv.1 kv.2 m) l m).*1.
Proof. revert m. induction l as [|[k v] l IH]; simpl; auto using im_insert_NoDup. Qed.

Lemma im_collect_NoDup (l : list (K * V)) : NoDup (im_collect l).*1.
Proof. apply fold_insert_NoDup. constructor. Qed.

Lemma fold_insert_id (l : list (K * V)) m :
  NoDup (m ++ l).*1 → fold_left (λ m kv, im_insert kv.1 kv.2 m) l m = m ++ l.
Proof.
  revert m. induction l as [|[k v] l IH]; intros m; simpl; [by rewrite app_nil_r|].
  intros Hd. rewrite im_insert_fresh.
  - rewrite IH; [by rewrite <-app_assoc|]. by rewrite <-app_assoc.
  - rewrite fmap_app in Hd. simpl in Hd. apply NoDup_app in Hd as (_ & Hd & _). set_solver.
Qed.

(** Collecting entries with distinct keys keeps them as they are. *)
Lemma im_collect_id (l : list (K * V)) : NoDup l.*1 → im_collect l = l.
Proof. intros Hd. by apply (fold_insert_id l []). Qed.

Lemma im_collect_snoc (l : list (K * V)) k v : im_collect (l ++ [(k, v)]) = im_insert k v (im_collect l).
Proof. unfold im_collect. by rewrite fold_left_app. Qed.

(** The keys of a collected map are those of the pairs; the value is that of the
    last pair with the key. *)
Lemma im_collect_keys (l : list (K * V)) k : k ∈ (im_collect l).*1 ↔ k ∈ l.*1.
Proof.
  induction l as [|[k' v'] l IH] using rev_ind; [done|].
  rewrite im_collect_snoc, im_insert_keys, IH, fmap_app. set_solver.
Qed.

Lemma im_get_collect_snoc (l : list (K * V)) k v k' :
  im_get (im_collect (l ++ [(k, v)])) k' = if decide (k' = k) then Some v else im_get (im_collect l) k'.
Proof. by rewrite im_collect_snoc, im_get_insert. Qed.

Lemma im_collect_elem (l : list (K * V)) kv : kv ∈ im_collect l → kv ∈ l.
Proof.
  destruct kv as [k v]. intros Hin.
  apply (im_elem_get _ _ _ (im_collect_NoDup l)) in Hin. revert Hin.
  induction l as [|[k' v'] l IH] using rev_ind; [done|].
  rewrite im_get_collect_snoc. case_decide; naive_solver set_solver.
Qed.

Lemma im_collect_nonempty (l : list (K * V)) : l ≠ [] → im_collect l ≠ [].
Proof.
  destruct l as [|[k v] l] using rev_ind; [done|].
  intros _. rewrite im_collect_snoc. destruct (im_collect l) as [|[k0 v0] m]; simpl; [done|].
  by case_decide.
Qed.
End IndexMap.

(** A later pair wins over an earlier one. *)
Lemma im_get_collect_app {K V} `{!EqDecision K} (l1 l2 : list (K * V)) k :
  im_get (im_collect (l1 ++ l2)) k =
    match im_get (im_collect l2) k with Some v => Some v | None => im_get (im_collect l1) k end.
Proof.
  induction l2 as [|[k' v'] l2 IH] using rev_ind; [by rewrite app_nil_r|].
  rewrite app_assoc, !im_get_collect_snoc. by case_decide.
Qed.

(** Renaming the keys with an injective function. *)
Lemma im_get_collect_rename {K L V} `{!EqDecision K, !EqDecision L} (f : K → L) `{!Inj (=) (=) f}
    (l : list (K * V)) k :
  im_get (im_collect ((λ kv, (f kv.1, kv.2)) <$> l)) (f k) = im_get (im_collect l) k.
Proof.
  induction l as [|[k' v'] l IH] using rev_ind; [done|].
  rewrite fmap_app. csimpl. rewrite !im_get_collect_snoc, IH.
  destruct (decide (k = k')) as [->|Hne]; [by rewrite !decide_True|].
  rewrite !decide_False; [done..|]. by intros ?%(inj f).
Qed.

Lemma im_get_collect_outside {K L V} `{!EqDecision L} (f : K → L) (l : list (K * V)) k :
  (∀ k', k ≠ f k') → im_get (im_collect ((λ kv, (f kv.1, kv.2)) <$> l)) k = None.
Proof.
  intros Hk. apply im_get_None. rewrite im_collect_keys, <-list_fmap_compose. intros Hin.
  apply list_elem_of_fmap in Hin as ([k' v'] & Heq & _). by apply (Hk k').
Qed.

(** Mapping the values of a map leaves its keys alone. *)
Lemma im_get_fmap {K V W} `{!EqDecision K} (f : K → V → W) (m : imap K V) k :
  im_get ((λ kv, (kv.1, f kv.1 kv.2)) <$> m) k = f k <$> im_get m k.
Proof. induction m as [|[k0 v0] m IH]; simpl; [done|]. by case_decide; simplify_eq/=. Qed.

Lemma im_fmap_keys {K V W} (f : K → V → W) (m : imap K V) : ((λ kv, (kv.1, f kv.1 kv.2)) <$> m).*1 = m.*1.
Proof. induction m as [|[k v] m IH]; [done|]. csimpl. f_equal. exact IH. Qed.

(** ** Fallible iteration: [iter().map(f).collect::<Result<Vec<_>, _>>()] *)
Fixpoint try_map {E A B} (f : A → outcome E B) (l : list A) : outcome E (list B) :=
  match l with
  | [] => Ok []
  | a :: l => let* b := f a in let* bs := try_map f l in Ok (b :: bs)
  end.

Lemma try_map_Ok {E A B} (f : A → outcome E B) l bs :
  try_map f l = Ok bs ↔ Forall2 (λ a b, f a = Ok b) l bs.
Proof.
  revert bs. induction l as [|a l IH]; intros bs; simpl.
  - split; [intros [= <-]; constructor|]. by inversion 1.
  - split.
    + intros Hr. run_ok Hr. constructor; [done|]. by apply IH.
    + inversion 1; subst. match goal with H : f a = _ |- _ => rewrite H end. simpl.
      match goal with H : Forall2 _ l _ |- _ => apply IH in H; by rewrite H end.
Qed.

Lemma try_map_Err {E A B} (f : A → outcome E B) l e : try_map f l = Err e → ∃ a, a ∈ l ∧ f a = Err e.
Proof.
  induction l as [|a l IH]; cbn; [done|]. intros [He|(b & _ & [He|(? & _ & [=])]%bind_Err)]%bind_Err; [exists a; split; [by left|done]|].
  destruct (IH He) as (a' & ? & ?). exists a'. split; [by right|done].
Qed.
Lemma try_map_Panic {E A B} (f : A → outcome E B) l : try_map f l = Panic → ∃ a, a ∈ l ∧ f a = Panic.
Proof.
  induction l as [|a l IH]; simpl; [done|]. intros Hp. apply bind_Panic in Hp as [Hp|(b & _ & Hp)]; [set_solver|].
  apply bind_Panic in Hp as [Hp|(bs & _ & ?)]; [|done]. destruct (IH Hp) as (a' & ? & ?). set_solver.
Qed.

Lemma try_map_total {E A B} (f : A → outcome E B) (g : A → B) l :
  (∀ a, a ∈ l → f a = Ok (g a)) → try_map f l = Ok (g <$> l).
Proof.
  intros Hf. induction l as [|a l IH]; simpl; [done|].
  rewrite Hf by set_solver. simpl. rewrite IH; [done|]. set_solver.
Qed.

Lemma try_map_perm {E A B} (f : A → outcome E B) l l' bs : l ≡ₚ l' → try_map f l = Ok bs → ∃ bs', try_map f l' = Ok bs' ∧ bs ≡ₚ bs'.
Proof.
  intros Hp. revert bs. induction Hp as [|a l l' _ IH|a b l|l1 l2 l3 _ IH1 _ IH2]; intros bs Hbs; cbn [try_map] in *.
  - by exists bs.
  - apply bind_Ok in Hbs as (b & Hb & (l1 & Hl & [= <-])%bind_Ok). destruct (IH _ Hl) as (bs' & Hbs' & Hp).
    simpl. rewrite Hb. simpl. rewrite Hbs'. simpl. eexists. split; [done|]. by constructor.
  - apply bind_Ok in Hbs as (fb & Hb & Hbs). apply bind_Ok in Hbs as (l1 & (fa & Ha & (l2 & Hl & [= <-])%bind_Ok)%bind_Ok & [= <-]).
    simpl. rewrite Ha. simpl. rewrite Hb. simpl. rewrite Hl. simpl. eexists. split; [done|]. constructor.
  - destruct (IH1 _ Hbs) as (bs1 & Hbs1 & ?). destruct (IH2 _ Hbs1) as (bs2 & ? & ?). exists bs2. split; [done|]. by etrans.
Qed.

Lemma try_map_filter {E A B} (f : A → outcome E B) (P : A → Prop) (Q : B → Prop) `{∀ a, Decision (P a), ∀ b, Decision (Q b)} l bs :
  (∀ a b, a ∈ l → f a = Ok b → P a ↔ Q b) → try_map f l = Ok bs → try_map f (filter P l) = Ok (filter Q bs).
Proof.
  revert bs. induction l as [|a l IH]; intros bs HPQ Hbs; cbn [try_map] in Hbs; [by injection Hbs as <-|].
  apply bind_Ok in Hbs as (b & Hb & (l1 & Hl & [= <-])%bind_Ok).
  assert (try_map f (filter P l) = Ok (filter Q l1)) as Hrest by (apply IH; [set_solver|done]).
  assert (P a ↔ Q b) as Hab by (apply HPQ; [set_solver|done]).
  rewrite !filter_cons. destruct (decide (P a)), (decide (Q b)); try tauto. simpl. by rewrite Hb, Hrest.
Qed.

Lemma try_map_app {E A B} (f : A → outcome E B) l1 l2 :
  try_map f (l1 ++ l2) = let* b1 := try_map f l1 in let* b2 := try_map f l2 in Ok (b1 ++ b2).
Proof.
  induction l1 as [|a l1 IH]; simpl; [by destruct (try_map f l2)|].
  destruct (f a); simpl; [|done..]. rewrite IH. destruct (try_map f l1); simpl; [|done..]. by destruct (try_map f l2).
Qed.

Lemma try_map_length {E A B} (f : A → outcome E B) l bs : try_map f l = Ok bs → length bs = length l.
Proof. rewrite try_map_Ok. intros Hf. symmetry. by eapply Forall2_length. Qed.

Lemma try_map_no_panic {E A B} (f : A → outcome E B) l : (∀ a, f a ≠ Panic) → try_map f l ≠ Panic.
Proof.
  intros Hf. induction l as [|a l IH]; simpl; [done|].
  destruct (f a) eqn:Hfa; simpl; [|done|by destruct (Hf a)]. by destruct (try_map f l).
Qed.

(** [iter().enumerate()] with a starting index. *)
Fixpoint enumerate_from {A} (i : Z) (l : list A) : list (Z * A) :=
  match l with [] => [] | a :: l => (i, a) :: enumerate_from (i + 1) l end.
Definition enumerate {A} (l : list A) : list (Z * A) := enumerate_from 0 l.

Lemma enumerate_from_keys {A} (l : list A) i j : j ∈ (enumerate_from i l).*1 → i ≤ j < i + Z.of_nat (length l).
Proof.
  revert i. induction l as [|a l IH]; intros i; simpl; [set_solver|].
  rewrite elem_of_cons. intros [->|Hj]; [lia|]. apply IH in Hj. lia.
Qed.

Lemma enumerate_from_NoDup {A} (l : list A) i : NoDup (enumerate_from i l).*1.
Proof.
  revert i. induction l as [|a l IH]; intros i; simpl; [constructor|].
  constructor; [|apply IH]. intros Hin. apply enumerate_from_keys in Hin. lia.
Qed.

Lemma enumerate_from_snd {A} (l : list A) i : (enumerate_from i l).*2 = l.
Proof. revert i. induction l as [|a l IH]; intros i; csimpl; [done|]. by rewrite IH. Qed.

Lemma enumerate_from_fmap {A B} (f : Z → A → B) (l : list A) i :
  enumerate_from i ((λ p, f p.1 p.2) <$> enumerate_from i l) = (λ p, (p.1, f p.1 p.2)) <$> enumerate_from i l.
Proof. revert i. induction l as [|a l IH]; intros i; csimpl; [done|]. by rewrite IH. Qed.

Lemma enumerate_from_lookup {A} (l : list A) k i j a :
  enumerate_from k l !! i = Some (j, a) → j = k + Z.of_nat i ∧ l !! i = Some a.
Proof.
  revert k i. induction l as [|b l IH]; intros k [|i]; simpl; try done.
  - intros [= <- <-]. split; [lia|done].
  - intros Hi. apply IH in Hi as [-> ?]. split; [lia|done].
Qed.
Lemma enumerate_lookup {A} (l : list A) i j a : enumerate l !! i = Some (j, a) → j = Z.of_nat i ∧ l !! i = Some a.
Proof. apply enumerate_from_lookup. Qed.

Lemma filter_all {A} (P : A → Prop) `{!∀ x, Decision (P x)} (l : list A) : Forall P l → filter P l = l.
Proof. induction 1; [done|]. rewrite filter_cons_True by done. by f_equal. Qed.

Lemma forallb_false_elem {A} (p : A → bool) l : forallb p l = false → ∃ x, x ∈ l ∧ p x = false.
Proof.
  induction l as [|a l IH]; simpl; [done|]. destruct (p a) eqn:E; simpl; [|exists a; set_solver].
  intros Hl. destruct (IH Hl) as (x & ? & ?). exists x. set_solver.
Qed.
