(* ===== verification/Gba.v ===== *)
(** * The converter of the personal records

    Models [gba_hc_converter]: the answers of the GBA-V, as categories of numbered
    elements ([gba/data.rs], [gba/client.rs]), their conversion to the persons of the
    Haal Centraal interface ([haal_centraal.rs]), and the handler with its error
    codes ([server.rs], [error.rs]).

    Reading XML, the tables with the names of codes, and the network are
    parameters.  At the end: which nationalities are kept, and every outcome of a
    request for a person. *)
From stdpp Require Import base gmap strings list option.
From Stdlib Require Import ZArith Lia Ascii.
From S2P Require Import Prelude IndexMap.

(** ** Answers of the GBA-V *)
Record GbaResult := mkGbaResult { result_code : string; letter : string; result_description : string; reference : string }.
Abbreviation Elementen := (imap Z string) (only parsing).
Record Categorievoorkomen := mkCategorievoorkomen { categorienummer : Z; elementen : Elementen }.
Record GbaResponse := mkGbaResponse { gba_result : GbaResult; categorievoorkomens : list Categorievoorkomen }.
Inductive GbaError :=
  | GbaTransport | GbaSerde | XmlDeserialization | GbaXml
  | MissingCategorie (n : Z) | MissingElement (n : Z)
  | GbaIo | UnexpectedResponse | GbaErrorResponse (r : GbaResult).

Definition EMPTY_RESULT_CODE : string := "33".
Definition EMPTY_RESULT_LETTER : string := "G".
(** [GbaResult::empty] and [is_empty] *)
Definition GbaResult_empty : GbaResult :=
  mkGbaResult EMPTY_RESULT_CODE EMPTY_RESULT_LETTER "Geen gegevens gevonden." "xxxxxxxx-xxxx-xxxx-xxxx-xxxxxxxxxxxx".
Definition GbaResult_is_empty (r : GbaResult) : bool :=
  bool_decide (result_code r = EMPTY_RESULT_CODE) && bool_decide (letter r = EMPTY_RESULT_LETTER).
(** [GbaResponse] *)
Definition GbaResponse_empty : GbaResponse := mkGbaResponse GbaResult_empty [].
Definition GbaResponse_is_empty (r : GbaResponse) : bool :=
  GbaResult_is_empty (gba_result r) && bool_decide (length (categorievoorkomens r) = 0%nat).
Definition get_mandatory_voorkomen (r : GbaResponse) (category_number : Z) : outcome GbaError Categorievoorkomen :=
  ok_or (MissingCategorie category_number) (snd <$> list_find (λ v, categorienummer v = category_number) (categorievoorkomens r)).
Definition get_voorkomens (r : GbaResponse) (category_number : Z) : list Categorievoorkomen :=
  filter (λ v, categorienummer v = category_number) (categorievoorkomens r).
Definition is_error (r : GbaResponse) : bool := bool_decide (letter (gba_result r) ≠ "A") && bool_decide (letter (gba_result r) ≠ "G").
Definition as_error (r : GbaResponse) : outcome GbaError unit := guard_err (negb (is_error r)) (GbaErrorResponse (gba_result r)).
(** [Elementen], and [unwrap_list]: of several items with one number the last one
    counts *)
Definition get_mandatory (e : Elementen) (element_number : Z) : outcome GbaError string := ok_or (MissingElement element_number) (im_get e element_number).
Definition get_optional (e : Elementen) (element_number : Z) : option string := im_get e element_number.
Definition unwrap_list (items : list (Z * string)) : Elementen := im_collect items.

(** ** Numbers of categories and elements *)
Inductive Category := CatPerson | CatNationality | CatMarriagePartnership | CatAddress.
Definition category_code (c : Category) : Z :=
  match c with CatPerson => 1 | CatNationality => 4 | CatMarriagePartnership => 5 | CatAddress => 8 end.
Inductive Element :=
  | Bsn | Voornamen | Voorvoegsel | Geslachtsnaam | Geboortedatum | Geboorteplaats | Geboorteland | Geslacht | Nationality
  | DatumAangaanHuwelijk | PlaatsAangaanHuwelijk | LandAangaanHuwelijk | DatumOntbindingHuwelijk
  | Straatnaam | NaamOpenbareRuimte | Huisnummer | Huisletter | Huisnummertoevoeging | Postcode | Woonplaats
  | SoortVerbintenis | IndicatieNaamgebruik | RedenOpnameNationaliteit | RedenBeeindigenNationaliteit
  | AanduidingBijzonderNederlanderschap | AangifteAdreshouding | AanduidingInOnderzoek | DatumIngangOnderzoek | IngangsdatumGeldigheid.
Definition element_code (e : Element) : Z :=
  match e with
  | Bsn => 120 | Voornamen => 210 | Voorvoegsel => 230 | Geslachtsnaam => 240 | Geboortedatum => 310 | Geboorteplaats => 320
  | Geboorteland => 330 | Geslacht => 410 | Nationality => 510 | DatumAangaanHuwelijk => 610 | PlaatsAangaanHuwelijk => 620
  | LandAangaanHuwelijk => 630 | DatumOntbindingHuwelijk => 710 | Straatnaam => 1110 | NaamOpenbareRuimte => 1115
  | Huisnummer => 1120 | Huisletter => 1130 | Huisnummertoevoeging => 1140 | Postcode => 1160 | Woonplaats => 1170
  | SoortVerbintenis => 1510 | IndicatieNaamgebruik => 6110 | RedenOpnameNationaliteit => 6310 | RedenBeeindigenNationaliteit => 6410
  | AanduidingBijzonderNederlanderschap => 6510 | AangifteAdreshouding => 7210 | AanduidingInOnderzoek => 8310
  | DatumIngangOnderzoek => 8320 | IngangsdatumGeldigheid => 8510
  end.

(** ** Persons; a [GbaCode] is its code *)
Record GbaCodeDescription := mkCodeDescription { gcd_code : option string; gcd_description : option string }.
Record GbaInvestigation := mkInvestigation { data_investigated : option string; start_date : option string }.
Record GbaName := mkGbaName { gn_given_names : option string; gn_family_name_prefix : option string; gn_family_name : string; gn_name_usage : string }.
Record GbaBirth := mkGbaBirth { gbi_date : string; gbi_country : option GbaCodeDescription; gbi_place : option GbaCodeDescription }.
Record GbaAddress := mkGbaAddress {
  ga_short_street_name : string; ga_official_street_name : string; ga_house_number : Z; ga_house_letter : option string;
  ga_house_number_addition : option string; ga_postal_code : option string; ga_city : string; ga_address_function : option string
}.
Record GbaNationality := mkGbaNationality {
  nationality : option GbaCodeDescription; indication_special_citizenship : option string; reason_termination : option string;
  reason_intake : option string; gna_investigation : option GbaInvestigation; date_start_validity : option string
}.
Record GbaMarriagePartnershipStart := mkMarriageStart { gms_date : string; gms_place : option GbaCodeDescription; gms_country : option GbaCodeDescription }.
Record GbaMarriagePartnershipEnd := mkMarriageEnd { gme_date : string }.
Record GbaPartner := mkGbaPartner {
  gp_gender : option string; gp_name : GbaName; gp_birth : option GbaBirth; gp_kind : string;
  gp_start : option GbaMarriagePartnershipStart; gp_end : option GbaMarriagePartnershipEnd; gp_investigation : option GbaInvestigation
}.
Record GbaPerson := mkGbaPerson {
  gpe_bsn : string; gpe_gender : string; gpe_name : GbaName; gpe_birth : GbaBirth; gpe_investigation : option GbaInvestigation;
  gpe_partners : list GbaPartner; gpe_nationalities : list GbaNationality; gpe_address : GbaAddress
}.
Record PersonsResponse := mkPersonsResponse { prs_type : string; prs_persons : list GbaPerson }.

(** ** Tables *)
(** [read_csv]: the first two columns of the records that have them *)
Definition read_csv (records : list (list string)) : gmap string string :=
  foldl (λ m record, match record with code :: description :: _ => <[code := description]> m | _ => m end) ∅ records.
(** The tables of nationalities, municipalities and countries, and the regular
    expression of four digits. *)
Class GbaTables := {
  NATIONALITY_TABLE : gmap string string;
  MUNICIPALITIES_TABLE : gmap string string;
  COUNTRIES_TABLE : gmap string string;
  four_digits : string → bool
}.

(** [u32::from_str]: an optional plus sign and at least one digit *)
Definition digit (a : ascii) : option Z :=
  let n := Z.of_nat (nat_of_ascii a) in if (48 <=? n) && (n <=? 57) then Some (n - 48) else None.
Fixpoint parse_digits (acc : Z) (s : string) : option Z :=
  match s with
  | EmptyString => Some acc
  | String a s => d ← digit a; let acc := acc * 10 + d in if acc <? 2 ^ 32 then parse_digits acc s else None
  end.
Definition parse_u32 (s : string) : option Z :=
  let s := match s with String "+" s => s | _ => s end in
  match s with EmptyString => None | _ => parse_digits 0 s end.

Section Conversion.
Context `{!GbaTables}.

Definition municipalities_code_description (code : string) : GbaCodeDescription :=
  if four_digits code then mkCodeDescription (Some code) (MUNICIPALITIES_TABLE !! code) else mkCodeDescription None (Some code).
Definition country_code_description (code : string) : GbaCodeDescription := mkCodeDescription (Some code) (COUNTRIES_TABLE !! code).
Definition nationality_code_description (code : string) : GbaCodeDescription := mkCodeDescription (Some code) (NATIONALITY_TABLE !! code).

(** [TryFrom<&Categorievoorkomen>] *)
Definition to_investigation (v : Categorievoorkomen) : GbaInvestigation :=
  mkInvestigation (get_optional (elementen v) (element_code AanduidingInOnderzoek)) (get_optional (elementen v) (element_code DatumIngangOnderzoek)).
Definition investigation_of (v : Categorievoorkomen) : option GbaInvestigation :=
  (λ _, to_investigation v) <$> get_optional (elementen v) (element_code AanduidingInOnderzoek).
Definition to_name (v : Categorievoorkomen) : outcome GbaError GbaName :=
  let* family_name := get_mandatory (elementen v) (element_code Geslachtsnaam) in
  Ok (mkGbaName (get_optional (elementen v) (element_code Voornamen)) (get_optional (elementen v) (element_code Voorvoegsel)) family_name
        (default "E" (get_optional (elementen v) (element_code IndicatieNaamgebruik)))).
Definition to_birth (v : Categorievoorkomen) : outcome GbaError GbaBirth :=
  let* date := get_mandatory (elementen v) (element_code Geboortedatum) in
  Ok (mkGbaBirth date (country_code_description <$> get_optional (elementen v) (element_code Geboorteland))
        (municipalities_code_description <$> get_optional (elementen v) (element_code Geboorteplaats))).
Definition to_nationality (v : Categorievoorkomen) : outcome GbaError GbaNationality :=
  Ok {| nationality := nationality_code_description <$> get_optional (elementen v) (element_code Nationality);
        indication_special_citizenship := get_optional (elementen v) (element_code AanduidingBijzonderNederlanderschap);
        reason_intake := get_optional (elementen v) (element_code RedenOpnameNationaliteit);
        reason_termination := get_optional (elementen v) (element_code RedenBeeindigenNationaliteit);
        date_start_validity := get_optional (elementen v) (element_code IngangsdatumGeldigheid);
        gna_investigation := investigation_of v |}.
(** [Option::map(..).transpose()] *)
Definition transpose {E A} (o : option (outcome E A)) : outcome E (option A) :=
  match o with Some m => omap Some m | None => Ok None end.
Definition to_partner (v : Categorievoorkomen) : outcome GbaError GbaPartner :=
  let* name := to_name v in
  let* birth := transpose ((λ _, to_birth v) <$> get_optional (elementen v) (element_code Geboortedatum)) in
  let* kind := get_mandatory (elementen v) (element_code SoortVerbintenis) in
  Ok {| gp_name := name; gp_birth := birth; gp_gender := get_optional (elementen v) (element_code Geslacht); gp_kind := kind;
        gp_start := (λ date, mkMarriageStart date
            (municipalities_code_description <$> get_optional (elementen v) (element_code PlaatsAangaanHuwelijk))
            (country_code_description <$> get_optional (elementen v) (element_code LandAangaanHuwelijk)))
          <$> get_optional (elementen v) (element_code DatumAangaanHuwelijk);
        gp_end := mkMarriageEnd <$> get_optional (elementen v) (element_code DatumOntbindingHuwelijk);
        gp_investigation := investigation_of v |}.
Definition to_address (v : Categorievoorkomen) : outcome GbaError GbaAddress :=
  let* short_street_name := get_mandatory (elementen v) (element_code Straatnaam) in
  let* official_street_name := get_mandatory (elementen v) (element_code NaamOpenbareRuimte) in
  let* huisnummer := get_mandatory (elementen v) (element_code Huisnummer) in
  let* house_number := unwrap (parse_u32 huisnummer) in
  let* city := get_mandatory (elementen v) (element_code Woonplaats) in
  Ok {| ga_short_street_name := short_street_name; ga_official_street_name := official_street_name; ga_house_number := house_number;
        ga_house_letter := get_optional (elementen v) (element_code Huisletter);
        ga_house_number_addition := get_optional (elementen v) (element_code Huisnummertoevoeging);
        ga_postal_code := get_optional (elementen v) (element_code Postcode); ga_city := city;
        ga_address_function := get_optional (elementen v) (element_code AangifteAdreshouding) |}.
(** [TryFrom<GbaResponse> for Vec<GbaPerson>] *)
Definition to_persons (r : GbaResponse) : outcome GbaError (list GbaPerson) :=
  if GbaResponse_is_empty r then Ok [] else
  let* cat1 := get_mandatory_voorkomen r (category_code CatPerson) in
  let cat4s := get_voorkomens r (category_code CatNationality) in
  let cat5s := get_voorkomens r (category_code CatMarriagePartnership) in
  let* cat8 := get_mandatory_voorkomen r (category_code CatAddress) in
  let* bsn := get_mandatory (elementen cat1) (element_code Bsn) in
  let* gender := get_mandatory (elementen cat1) (element_code Geslacht) in
  let* name := to_name cat1 in
  let* birth := to_birth cat1 in
  let* nationalities := try_map to_nationality cat4s in
  let* partners := try_map to_partner cat5s in
  let* address := to_address cat8 in
  Ok [{| gpe_bsn := bsn; gpe_gender := gender; gpe_name := name; gpe_birth := birth; gpe_nationalities := nationalities;
         gpe_partners := partners; gpe_address := address; gpe_investigation := investigation_of cat1 |}].
Definition PersonsResponse_create (r : GbaResponse) : outcome GbaError PersonsResponse :=
  let* persons := to_persons r in
  Ok (mkPersonsResponse "RaadpleegMetBurgerservicenummer" persons).

(** The loop of [filter_terminated_nationalities]: what is left of the list, and
    what is kept. *)
Fixpoint filter_loop (keep nationalities : list GbaNationality) : list GbaNationality :=
  match nationalities with
  | [] => keep
  | n :: rest =>
      filter_loop
        (if bool_decide (reason_termination n = None) && bool_decide (is_Some (nationality n)) then keep ++ [n]
         else if bool_decide (is_Some (reason_termination n)) && negb (bool_decide (length keep = 0%nat)) then removelast keep
         else keep) rest
  end.
Definition filter_person (p : GbaPerson) : GbaPerson :=
  {| gpe_bsn := gpe_bsn p; gpe_gender := gpe_gender p; gpe_name := gpe_name p; gpe_birth := gpe_birth p; gpe_investigation := gpe_investigation p;
     gpe_partners := gpe_partners p; gpe_nationalities := filter_loop [] (gpe_nationalities p); gpe_address := gpe_address p |}.
Definition filter_terminated_nationalities (r : PersonsResponse) : PersonsResponse :=
  mkPersonsResponse (prs_type r) (filter_person <$> prs_persons r).

(** ** The handler *)
(** The validation of a [Bsn]: eight or nine digits *)
Fixpoint all_digits (s : string) : bool :=
  match s with EmptyString => true | String a s => bool_decide (is_Some (digit a)) && all_digits s end.
Definition bsn_valid (s : string) : bool := all_digits s && ((String.length s =? 8)%nat || (String.length s =? 9)%nat).
Record PersonQuery := mkPersonQuery { pq_type : string; pq_bsn : list string; registration_municipality : option string; pq_fields : list string }.

(** [GbavClient::vraag]: of the network, of files with the network behind them, and
    of nothing *)
Abbreviation GbavClient := (string → outcome GbaError GbaResponse) (only parsing).
Section Clients.
Variable parse_response_xml : string → outcome GbaError GbaResponse.
(** The request template is a function of the number. *)
Definition http_vraag (post : string → outcome unit string) (template : string → string) : GbavClient := λ bsn,
  let* body := map_err (λ _, GbaTransport) (post (template bsn)) in
  parse_response_xml body.
Definition file_vraag (exists_ : string → bool) (read_to_string : string → option string) (client : GbavClient) : GbavClient := λ bsn,
  let xml_file := bsn +:+ ".xml" in
  if exists_ xml_file then
    let* xml := ok_or GbaIo (read_to_string xml_file) in
    parse_response_xml xml
  else client bsn.
Definition noop_vraag : GbavClient := λ _, Ok GbaResponse_empty.
End Clients.

Inductive ConverterError := ConverterGba (e : GbaError) | ConverterConversion (e : GbaError).
Definition request_personen (gbav_client : GbavClient) (bsn : string) : outcome ConverterError PersonsResponse :=
  let* gba_response := map_err ConverterGba (gbav_client bsn) in
  let* _ := map_err ConverterGba (as_error gba_response) in
  let* response := map_err ConverterConversion (PersonsResponse_create gba_response) in
  Ok (filter_terminated_nationalities response).

(** [ErrorType], its status codes, and the handler [personen] *)
Inductive ErrorType := ErrTransport | ErrGba | ErrConversion.
Definition error_type (e : ConverterError) : ErrorType :=
  match e with ConverterGba GbaTransport => ErrTransport | ConverterGba _ => ErrGba | ConverterConversion _ => ErrConversion end.
Definition status_code (t : ErrorType) : Z := match t with ErrTransport => 500 | ErrGba | ErrConversion => 412 end.
Definition personen (gbav_client : GbavClient) (payload : PersonQuery) : outcome ErrorType (Z * PersonsResponse) :=
  let* bsn := unwrap (head (pq_bsn payload)) in
  let* body := map_err error_type (request_personen gbav_client bsn) in
  Ok (200, body).
End Conversion.

(** ** Nationalities *)
Definition proper (n : GbaNationality) : Prop := reason_termination n = None ∧ is_Some (nationality n).
Definition terminates (n : GbaNationality) : Prop := is_Some (reason_termination n).
#[global] Instance proper_dec n : Decision (proper n) := _.
#[global] Instance terminates_dec n : Decision (terminates n) := _.
(** No beginning of the entries that follow terminates more nationalities than it
    adds. *)
Definition survives (rest : list GbaNationality) : Prop :=
  Forall (λ k, (length (filter terminates (take k rest)) ≤ length (filter proper (take k rest)))%nat) (seq 0 (S (length rest))).
Fixpoint surviving (l : list GbaNationality) : list GbaNationality :=
  match l with
  | [] => []
  | n :: rest => (if decide (proper n ∧ survives rest) then [n] else []) ++ surviving rest
  end.

(** How many entries before a list are terminated in it. *)
Fixpoint deficit (l : list GbaNationality) : nat :=
  match l with
  | [] => 0
  | n :: rest => if decide (proper n) then deficit rest - 1 else if decide (terminates n) then S (deficit rest) else deficit rest
  end%nat.
Lemma deficit_le l d : (deficit l ≤ d)%nat ↔ ∀ k, (length (filter terminates (take k l)) ≤ d + length (filter proper (take k l)))%nat.
Proof.
  revert d. induction l as [|n rest IH]; intros d; cbn [deficit].
  - split; [|lia]. intros _ k. rewrite take_nil. cbn. lia.
  - assert (∀ (a b c : nat), (∀ k, (length (filter terminates (take k (n :: rest))) ≤ d + length (filter proper (take k (n :: rest))))%nat) ↔
      ∀ k, (length (filter terminates (n :: take k rest)) ≤ d + length (filter proper (n :: take k rest)))%nat) as Hk.
    { intros _ _ _. split; intros Hall k; [exact (Hall (S k))|]. destruct k; [cbn; lia|exact (Hall k)]. }
    rewrite (Hk 0 0 0)%nat. clear Hk. destruct (decide (proper n)) as [Hp|Hp].
    + assert (¬ terminates n) as Ht by (intros [x Hx]; destruct Hp as [Hp _]; congruence).
      transitivity (deficit rest ≤ S d)%nat; [lia|]. rewrite IH. apply forall_proper. intros k.
      rewrite filter_cons_False, filter_cons_True by done. cbn. lia.
    + destruct (decide (terminates n)) as [Ht|Ht].
      * transitivity (∃ d', d = S d' ∧ deficit rest ≤ d')%nat.
        { split; [intros ?; exists (pred d); lia|intros (d' & -> & ?); lia]. }
        split.
        -- intros (d' & -> & Hd) k. rewrite filter_cons_True, filter_cons_False by done. cbn. apply le_n_S. by apply IH.
        -- intros Hall. destruct d as [|d].
           ++ specialize (Hall 0%nat). rewrite filter_cons_True, filter_cons_False in Hall by done. rewrite take_0 in Hall. cbn in Hall. lia.
           ++ exists d. split; [done|]. apply IH. intros k. specialize (Hall k). rewrite filter_cons_True, filter_cons_False in Hall by done. cbn in Hall. lia.
      * rewrite IH. apply forall_proper. intros k. by rewrite !filter_cons_False.
Qed.
Lemma survives_deficit l : survives l ↔ deficit l = 0%nat.
Proof.
  transitivity (deficit l ≤ 0)%nat; [|lia]. rewrite deficit_le. unfold survives. rewrite list.Forall_forall. split.
  - intros Hall k. destruct (decide (k ≤ length l)%nat) as [Hk|Hk]; [apply Hall, elem_of_seq; lia|].
    rewrite take_ge by lia. rewrite <- (take_ge l (length l)) by lia. apply Hall, elem_of_seq. lia.
  - intros Hall k _. apply Hall.
Qed.
(** The loop takes the terminated entries from the end of what it has kept. *)
Lemma filter_loop_spec keep l : filter_loop keep l = take (length keep - deficit l) keep ++ surviving l.
Proof.
  revert keep. induction l as [|n rest IH]; intros keep; cbn [filter_loop deficit surviving].
  - rewrite app_nil_r, take_ge; [done|lia].
  - rewrite IH. destruct (decide (proper n)) as [Hp|Hp].
    + rewrite !bool_decide_true by apply Hp. cbn [andb]. rewrite length_app. cbn [length].
      destruct (decide (proper n ∧ survives rest)) as [[_ Hs]|Hs].
      * apply survives_deficit in Hs. rewrite Hs, !take_ge by (rewrite ?length_app; cbn; lia). by rewrite <- app_assoc.
      * assert (deficit rest ≠ 0%nat) by (intros ?%survives_deficit; naive_solver). rewrite take_app_le by lia. f_equal. f_equal. lia.
    + rewrite (decide_False (P:=proper n ∧ survives rest)) by tauto.
      replace (bool_decide (reason_termination n = None) && bool_decide (is_Some (nationality n))) with false
        by (symmetry; apply andb_false_iff; rewrite !bool_decide_eq_false; unfold proper in Hp;
            destruct (decide (reason_termination n = None)), (decide (is_Some (nationality n))); tauto).
      cbn [app]. destruct (decide (terminates n)) as [Ht|Ht].
      * rewrite bool_decide_true by done. cbn [andb]. f_equal. destruct (bool_decide_reflect (length keep = 0)%nat) as [Hk|Hk]; cbn [negb].
        -- by destruct keep.
        -- destruct keep as [|x keep _] using rev_ind; [done|]. rewrite removelast_last, length_app. cbn [length].
           rewrite take_app_le by lia. f_equal. lia.
      * rewrite bool_decide_false by done. done.
Qed.

(** Nationalities that were terminated: the loop that discards them keeps exactly
    the entries that name a nationality, do not terminate one themselves, and are not
    terminated by a later entry, in their order.  An entry is terminated when some
    stretch of the entries after it terminates more nationalities than it adds. *)
Theorem terminated_nationalities_dropped l :
  filter_loop [] l = surviving l ∧ (∀ n, n ∈ filter_loop [] l → n ∈ l ∧ proper n) ∧ filter_loop [] l `sublist_of` l.
Proof.
  assert (filter_loop [] l = surviving l) as -> by (rewrite filter_loop_spec; by rewrite take_nil).
  split; [done|]. induction l as [|n rest [IH1 IH2]]; [split; [by intros n ?%elem_of_nil|done]|]. cbn [surviving].
  destruct (decide _) as [[Hp Hs]|_]; cbn [app].
  - split; [|by apply sublist_skip]. intros m [->|Hm]%elem_of_cons; [split; [by left|done]|]. split; [right|]; by apply IH1.
  - split; [|by apply sublist_cons]. intros m Hm. split; [right|]; by apply IH1.
Qed.

(** ** Requests for a person *)
Section Requests.
Context `{!GbaTables}.

(** The elements that a category must have. *)
Definition mandatory (category : Z) : list Z :=
  if decide (category = 1) then [120; 410; 240; 310]
  else if decide (category = 5) then [240; 1510]
  else if decide (category = 8) then [1110; 1115; 1120; 1170] else [].
(** What is missing from an answer, by the error that says so. *)
Definition missing (r : GbaResponse) (e : GbaError) : Prop :=
  match e with
  | MissingCategorie n => (n = 1 ∨ n = 8) ∧ Forall (λ v, categorienummer v ≠ n) (categorievoorkomens r)
  | MissingElement n => ∃ v, v ∈ categorievoorkomens r ∧ n ∈ mandatory (categorienummer v) ∧ im_get (elementen v) n = None
  | _ => False
  end.
Definition bad_house_number (r : GbaResponse) : Prop :=
  ∃ v s, v ∈ categorievoorkomens r ∧ categorienummer v = 8 ∧ im_get (elementen v) 1120 = Some s ∧ parse_u32 s = None.

Lemma voorkomen_Ok r n v : get_mandatory_voorkomen r n = Ok v → v ∈ categorievoorkomens r ∧ categorienummer v = n.
Proof.
  unfold get_mandatory_voorkomen. intros (x & Hx & ->)%ok_or_Ok%fmap_Some. destruct x as [i v']. apply list_find_Some in Hx as (Hi & Hn & _).
  split; [by eapply list_elem_of_lookup_2|done].
Qed.
Lemma voorkomen_Err r n e : get_mandatory_voorkomen r n = Err e → e = MissingCategorie n ∧ Forall (λ v, categorienummer v ≠ n) (categorievoorkomens r).
Proof. unfold get_mandatory_voorkomen. by intros [Hn%fmap_None%list_find_None ->]%ok_or_Err. Qed.
Lemma voorkomens_elem r n v : v ∈ get_voorkomens r n → v ∈ categorievoorkomens r ∧ categorienummer v = n.
Proof. unfold get_voorkomens. by intros [? ?]%list_elem_of_filter. Qed.
Lemma mandatory_Err m n e : get_mandatory m n = Err e → e = MissingElement n ∧ im_get m n = None.
Proof. unfold get_mandatory. by intros [? ->]%ok_or_Err. Qed.
Lemma mandatory_Panic m n : get_mandatory m n ≠ Panic.
Proof. unfold get_mandatory. by destruct (im_get m n). Qed.

(** The error of a conversion of a category names an element that it must have. *)
Definition lacks (v : Categorievoorkomen) (elements : list Element) (e : GbaError) : Prop :=
  ∃ n, e = MissingElement n ∧ n ∈ element_code <$> elements ∧ im_get (elementen v) n = None.
Lemma lacks_missing r v elements e : v ∈ categorievoorkomens r → (∀ n, n ∈ element_code <$> elements → n ∈ mandatory (categorienummer v)) →
  lacks v elements e → missing r e.
Proof. intros Hv Hm (n & -> & Hn & Hg). exists v. auto. Qed.
Lemma lacks_one v x elements e : x ∈ elements → get_mandatory (elementen v) (element_code x) = Err e → lacks v elements e.
Proof. intros Hx [-> Hg]%mandatory_Err. exists (element_code x). split; [done|]. split; [by apply list_elem_of_fmap_2|done]. Qed.
Lemma to_name_Err v e : to_name v = Err e → lacks v [Geslachtsnaam] e.
Proof. unfold to_name. intros [He|(a & _ & He)]%bind_Err; [|done]. eapply lacks_one; [|exact He]. by left. Qed.
Lemma to_birth_Err v e : to_birth v = Err e → lacks v [Geboortedatum] e.
Proof. unfold to_birth. intros [He|(a & _ & He)]%bind_Err; [|done]. eapply lacks_one; [|exact He]. by left. Qed.
Lemma to_name_no_panic v : to_name v ≠ Panic.
Proof. unfold to_name. intros [He|(a & _ & He)]%bind_Panic; [by apply mandatory_Panic in He|done]. Qed.
Lemma to_birth_no_panic v : to_birth v ≠ Panic.
Proof. unfold to_birth. intros [He|(a & _ & He)]%bind_Panic; [by apply mandatory_Panic in He|done]. Qed.
(** The birth of a partner is only converted when its date is there. *)
Lemma birth_optional v : ∃ o, transpose ((λ _, to_birth v) <$> get_optional (elementen v) (element_code Geboortedatum)) = Ok o.
Proof. unfold to_birth, get_mandatory, get_optional. destruct (im_get _ _); cbn; eauto. Qed.
Lemma to_partner_Err v e : to_partner v = Err e → lacks v [Geslachtsnaam; SoortVerbintenis] e.
Proof.
  unfold to_partner. destruct (birth_optional v) as [o ->]. intros [He|(a & _ & He)]%bind_Err.
  - apply to_name_Err in He as (n & -> & Hn & Hg). exists n. split; [done|]. split; [|done]. cbn in *. set_solver.
  - cbn [obind] in He. apply bind_Err in He as [He|(k & _ & He)]; [|done]. eapply lacks_one; [|exact He]. set_solver.
Qed.
Lemma to_partner_no_panic v : to_partner v ≠ Panic.
Proof.
  unfold to_partner. destruct (birth_optional v) as [o ->]. intros [He|(a & _ & He)]%bind_Panic; [by apply to_name_no_panic in He|].
  cbn [obind] in He. apply bind_Panic in He as [He|(k & _ & He)]; [by apply mandatory_Panic in He|done].
Qed.
Lemma to_address_Err v e : to_address v = Err e → lacks v [Straatnaam; NaamOpenbareRuimte; Huisnummer; Woonplaats] e.
Proof.
  unfold to_address. intros [He|(a1 & _ & He)]%bind_Err; [eapply lacks_one; [|exact He]; set_solver|].
  apply bind_Err in He as [He|(a2 & _ & He)]; [eapply lacks_one; [|exact He]; set_solver|].
  apply bind_Err in He as [He|(a3 & _ & He)]; [eapply lacks_one; [|exact He]; set_solver|].
  apply bind_Err in He as [He%unwrap_Err|(a4 & _ & He)]; [done|].
  apply bind_Err in He as [He|(a5 & _ & He)]; [eapply lacks_one; [|exact He]; set_solver|done].
Qed.
Lemma to_address_Panic v : to_address v = Panic → ∃ s, im_get (elementen v) (element_code Huisnummer) = Some s ∧ parse_u32 s = None.
Proof.
  unfold to_address. intros [He|(a1 & _ & He)]%bind_Panic; [by apply mandatory_Panic in He|].
  apply bind_Panic in He as [He|(a2 & _ & He)]; [by apply mandatory_Panic in He|].
  apply bind_Panic in He as [He|(a3 & H3 & He)]; [by apply mandatory_Panic in He|].
  apply bind_Panic in He as [He%unwrap_Panic|(a4 & _ & He)]; [exists a3; split; [by apply ok_or_Ok in H3|done]|].
  apply bind_Panic in He as [He|(a5 & _ & He)]; [by apply mandatory_Panic in He|done].
Qed.

Lemma lacks_weaken v l l' e : l ⊆ l' → lacks v l e → lacks v l' e.
Proof. intros Hl (n & -> & (x & -> & Hx)%list_elem_of_fmap & Hg). exists (element_code x). split; [done|]. split; [|done]. by apply list_elem_of_fmap_2, Hl. Qed.
Lemma person_missing r v l e : v ∈ categorievoorkomens r → categorienummer v = category_code CatPerson →
  l ⊆ [Bsn; Geslacht; Geslachtsnaam; Geboortedatum] → lacks v l e → missing r e.
Proof. intros Hv Hn Hl Hlacks. eapply lacks_missing, lacks_weaken; [exact Hv| |exact Hl|exact Hlacks]. by rewrite Hn. Qed.
Lemma to_persons_Err r e : to_persons r = Err e → missing r e.
Proof.
  unfold to_persons. destruct (GbaResponse_is_empty r); [done|].
  intros [[-> Hf]%voorkomen_Err|(cat1 & [H1 Hn1]%voorkomen_Ok & He)]%bind_Err; [split; [by left|done]|].
  apply bind_Err in He as [[-> Hf]%voorkomen_Err|(cat8 & [H8 Hn8]%voorkomen_Ok & He)]; [split; [by right|done]|].
  apply bind_Err in He as [He|(bsn & _ & He)]; [eapply (person_missing r cat1 [Bsn]), lacks_one; [done|done|set_solver| |exact He]; set_solver|].
  apply bind_Err in He as [He|(gender & _ & He)]; [eapply (person_missing r cat1 [Geslacht]), lacks_one; [done|done|set_solver| |exact He]; set_solver|].
  apply bind_Err in He as [He|(name & _ & He)]; [eapply (person_missing r cat1), to_name_Err; [done|done|set_solver|exact He]|].
  apply bind_Err in He as [He|(birth & _ & He)]; [eapply (person_missing r cat1), to_birth_Err; [done|done|set_solver|exact He]|].
  apply bind_Err in He as [(v & _ & [=])%try_map_Err|(nationalities & _ & He)].
  apply bind_Err in He as [(v & [Hv Hn]%voorkomens_elem & He)%try_map_Err|(partners & _ & He)].
  { apply to_partner_Err in He. eapply lacks_missing; [exact Hv| |exact He]. by rewrite Hn. }
  apply bind_Err in He as [He|(address & _ & He)]; [|done]. apply to_address_Err in He. eapply lacks_missing; [exact H8| |exact He]. by rewrite Hn8.
Qed.
Lemma to_persons_Panic r : to_persons r = Panic → bad_house_number r.
Proof.
  unfold to_persons. destruct (GbaResponse_is_empty r); [done|].
  assert (∀ n, get_mandatory_voorkomen r n ≠ Panic) as Hv by (intros n; unfold get_mandatory_voorkomen; by destruct (snd <$> _)).
  intros [He|(cat1 & _ & He)]%bind_Panic; [by apply Hv in He|].
  apply bind_Panic in He as [He|(cat8 & [H8 Hn8]%voorkomen_Ok & He)]; [by apply Hv in He|].
  apply bind_Panic in He as [He|(bsn & _ & He)]; [by apply mandatory_Panic in He|].
  apply bind_Panic in He as [He|(gender & _ & He)]; [by apply mandatory_Panic in He|].
  apply bind_Panic in He as [He|(name & _ & He)]; [by apply to_name_no_panic in He|].
  apply bind_Panic in He as [He|(birth & _ & He)]; [by apply to_birth_no_panic in He|].
  apply bind_Panic in He as [(v & _ & [=])%try_map_Panic|(nationalities & _ & He)].
  apply bind_Panic in He as [(v & _ & He)%try_map_Panic|(partners & _ & He)]; [by apply to_partner_no_panic in He|].
  apply bind_Panic in He as [He|(address & _ & He)]; [|done]. apply to_address_Panic in He as (s & Hs & Hp). by exists cat8, s.
Qed.
(** *** What a conversion must give, by the numbers of the categories and elements *)

(** The first category with this number. *)
Definition first_category (r : GbaResponse) (n : Z) (v : Categorievoorkomen) : Prop :=
  ∃ before after, categorievoorkomens r = before ++ v :: after ∧ categorienummer v = n ∧ Forall (λ w, categorienummer w ≠ n) before.
Definition all_categories (r : GbaResponse) (n : Z) : list Categorievoorkomen := filter (λ v, categorienummer v = n) (categorievoorkomens r).
Definition el (v : Categorievoorkomen) (n : Z) : option string := im_get (elementen v) n.

(** A code with its name in a table; a place that is not four digits is a name. *)
Definition coded (table : gmap string string) (code : option string) (d : option GbaCodeDescription) : Prop :=
  match code, d with
  | None, None => True
  | Some c, Some d => gcd_code d = Some c ∧ gcd_description d = table !! c
  | _, _ => False
  end.
Definition coded_place (code : option string) (d : option GbaCodeDescription) : Prop :=
  match code, d with
  | None, None => True
  | Some c, Some d => if four_digits c then gcd_code d = Some c ∧ gcd_description d = MUNICIPALITIES_TABLE !! c
                      else gcd_code d = None ∧ gcd_description d = Some c
  | _, _ => False
  end.
Definition has_investigation (v : Categorievoorkomen) (i : option GbaInvestigation) : Prop :=
  match el v 8310, i with
  | None, None => True
  | Some what, Some i => data_investigated i = Some what ∧ start_date i = el v 8320
  | _, _ => False
  end.
Record has_name (v : Categorievoorkomen) (n : GbaName) : Prop := {
  hn_given : gn_given_names n = el v 210;
  hn_prefix : gn_family_name_prefix n = el v 230;
  hn_family : el v 240 = Some (gn_family_name n);
  hn_usage : gn_name_usage n = default "E" (el v 6110)
}.
Record has_birth (v : Categorievoorkomen) (b : GbaBirth) : Prop := {
  hb_date : el v 310 = Some (gbi_date b);
  hb_place : coded_place (el v 320) (gbi_place b);
  hb_country : coded COUNTRIES_TABLE (el v 330) (gbi_country b)
}.
Record has_nationality (v : Categorievoorkomen) (n : GbaNationality) : Prop := {
  hna_code : coded NATIONALITY_TABLE (el v 510) (nationality n);
  hna_special : indication_special_citizenship n = el v 6510;
  hna_intake : reason_intake n = el v 6310;
  hna_termination : reason_termination n = el v 6410;
  hna_validity : date_start_validity n = el v 8510;
  hna_investigation : has_investigation v (gna_investigation n)
}.
Record has_partner (v : Categorievoorkomen) (q : GbaPartner) : Prop := {
  hp_gender : gp_gender q = el v 410;
  hp_name : has_name v (gp_name q);
  hp_birth : match gp_birth q with Some b => has_birth v b | None => el v 310 = None end;
  hp_kind : el v 1510 = Some (gp_kind q);
  hp_start : match gp_start q with
             | Some m => el v 610 = Some (gms_date m) ∧ coded_place (el v 620) (gms_place m) ∧ coded COUNTRIES_TABLE (el v 630) (gms_country m)
             | None => el v 610 = None
             end;
  hp_end : gme_date <$> gp_end q = el v 710;
  hp_investigation : has_investigation v (gp_investigation q)
}.
Record has_address (v : Categorievoorkomen) (a : GbaAddress) : Prop := {
  ha_short : el v 1110 = Some (ga_short_street_name a);
  ha_official : el v 1115 = Some (ga_official_street_name a);
  ha_number : ∃ s, el v 1120 = Some s ∧ parse_u32 s = Some (ga_house_number a);
  ha_letter : ga_house_letter a = el v 1130;
  ha_addition : ga_house_number_addition a = el v 1140;
  ha_postal_code : ga_postal_code a = el v 1160;
  ha_city : el v 1170 = Some (ga_city a);
  ha_function : ga_address_function a = el v 7210
}.
(** A person that comes out of a conversion: the data of the first categories 1 and
    8, and one nationality and partner for every category 4 and 5. *)
Record converted (r : GbaResponse) (p : GbaPerson) : Prop := {
  converted_person : ∃ v, first_category r 1 v ∧ el v 120 = Some (gpe_bsn p) ∧ el v 410 = Some (gpe_gender p) ∧ has_name v (gpe_name p) ∧
    has_birth v (gpe_birth p) ∧ has_investigation v (gpe_investigation p);
  converted_address : ∃ v, first_category r 8 v ∧ has_address v (gpe_address p);
  converted_partners : Forall2 has_partner (all_categories r 5) (gpe_partners p);
  converted_nationalities : Forall2 has_nationality (all_categories r 4) (gpe_nationalities p)
}.

Lemma voorkomen_first r n v : get_mandatory_voorkomen r n = Ok v → first_category r n v.
Proof.
  unfold get_mandatory_voorkomen. intros ([i v'] & (Hi & Hn & Hb)%list_find_Some & ->)%ok_or_Ok%fmap_Some.
  exists (take i (categorievoorkomens r)), (drop (S i) (categorievoorkomens r)).
  split; [by rewrite take_drop_middle|]. split; [done|]. apply Forall_lookup. intros j w [Hj Hlt]%lookup_take_Some. by eapply Hb.
Qed.
Lemma coded_country o : coded COUNTRIES_TABLE o (country_code_description <$> o).
Proof. by destruct o. Qed.
Lemma coded_municipality o : coded_place o (municipalities_code_description <$> o).
Proof. destruct o as [c|]; [|done]. cbn. unfold municipalities_code_description. by destruct (four_digits c). Qed.
Lemma investigation_has v : has_investigation v (investigation_of v).
Proof. unfold has_investigation, investigation_of, to_investigation, get_optional, el. cbn [element_code]. by destruct (im_get _ 8310). Qed.

Lemma to_name_has v n : to_name v = Ok n → has_name v n.
Proof. unfold to_name. intros (f & Hf%ok_or_Ok & [= <-])%bind_Ok. by split. Qed.
Lemma to_birth_has v b : to_birth v = Ok b → has_birth v b.
Proof. unfold to_birth. intros (d & Hd%ok_or_Ok & [= <-])%bind_Ok. split; [done|apply coded_municipality|apply coded_country]. Qed.
Lemma to_nationality_has v n : to_nationality v = Ok n → has_nationality v n.
Proof. unfold to_nationality. intros [= <-]. split; try done; [|apply investigation_has]. cbn. unfold el, get_optional. by destruct (im_get _ 510). Qed.
Lemma to_partner_has v q : to_partner v = Ok q → has_partner v q.
Proof.
  unfold to_partner. intros (n & Hn%to_name_has & (b & Hb & (k & Hk%ok_or_Ok & [= <-])%bind_Ok)%bind_Ok)%bind_Ok.
  split; cbn; try done; [| | |apply investigation_has].
  - unfold get_optional in Hb. unfold el. destruct (im_get _ (element_code Geboortedatum)) eqn:Hd; cbn in Hb; [|by injection Hb as <-].
    apply bind_Ok in Hb as (b' & Hb%to_birth_has & [= <-]). done.
  - unfold el, get_optional. cbn. destruct (im_get _ 610); [|done]. cbn. split; [done|]. split; [apply coded_municipality|apply coded_country].
  - unfold el, get_optional. cbn. by destruct (im_get _ 710).
Qed.
Lemma to_address_has v a : to_address v = Ok a → has_address v a.
Proof.
  unfold to_address. intros (s & Hs%ok_or_Ok & (o & Ho%ok_or_Ok & (h & Hh%ok_or_Ok & (n & Hn%unwrap_Ok & (c & Hc%ok_or_Ok & [= <-])%bind_Ok)%bind_Ok)%bind_Ok)%bind_Ok)%bind_Ok.
  split; try done. by exists h.
Qed.

Lemma to_persons_Ok r l : to_persons r = Ok l → if GbaResponse_is_empty r then l = [] else ∃ p, l = [p] ∧ converted r p.
Proof.
  unfold to_persons. destruct (GbaResponse_is_empty r); [by intros [= <-]|].
  intros (cat1 & H1%voorkomen_first & He)%bind_Ok. apply bind_Ok in He as (cat8 & H8%voorkomen_first & He). apply bind_Ok in He as (bsn & Hb%ok_or_Ok & He).
  apply bind_Ok in He as (gender & Hg%ok_or_Ok & He). apply bind_Ok in He as (name & Hname%to_name_has & He). apply bind_Ok in He as (birth & Hbirth%to_birth_has & He).
  apply bind_Ok in He as (nationalities & Hn%try_map_Ok & He). apply bind_Ok in He as (partners & Hp%try_map_Ok & He).
  apply bind_Ok in He as (address & Ha%to_address_has & He). injection He as <-. eexists. split; [done|]. split; cbn.
  - exists cat1. split_and!; [done..|apply investigation_has].
  - by exists cat8.
  - eapply Forall2_impl; [apply to_partner_has|exact Hp].
  - eapply Forall2_impl; [apply to_nationality_has|exact Hn].
Qed.

End Requests.

(** ** An answer with two nationalities of which one was terminated *)
#[local] Instance gba_tables : GbaTables := {|
  NATIONALITY_TABLE := read_csv [["0001"; "Nederlandse"]; ["0052"; "Belgische"]]; MUNICIPALITIES_TABLE := read_csv [["0518"; "'s-Gravenhage"]];
  COUNTRIES_TABLE := read_csv [["6030"; "Nederland"]]; four_digits s := all_digits s && (String.length s =? 4)%nat
|}.
Definition ex_gba : GbaResponse := mkGbaResponse (mkGbaResult "0" "A" "" "ref")
  [mkCategorievoorkomen 1 (unwrap_list [(120, "999991772"); (210, "Willeke"); (240, "Bruijn"); (310, "19970510"); (320, "0518"); (330, "6030"); (410, "V")]);
   mkCategorievoorkomen 4 (unwrap_list [(510, "0001")]); mkCategorievoorkomen 4 (unwrap_list [(510, "0052")]);
   mkCategorievoorkomen 4 (unwrap_list [(6410, "401")]);
   mkCategorievoorkomen 8 (unwrap_list [(1110, "Turfmarkt"); (1115, "Turfmarkt"); (1120, "147"); (1160, "2511DP"); (1170, "Den Haag")])].
Definition ex_gbav (bsn : string) : outcome GbaError GbaResponse := Ok (if decide (bsn = "999991772") then ex_gba else GbaResponse_empty).
Definition ex_query : PersonQuery := mkPersonQuery "RaadpleegMetBurgerservicenummer" ["999991772"] None [].
