(* ===== verification/PinPolicy.v ===== *)
(** * The PIN retry policy of the wallet provider

    Models [wallet_provider/service/src/pin_policy.rs] (the [PinPolicy] that
    decides after how many wrong PINs a wallet is timed out or blocked) and the
    [PinPolicyEvaluation] type of [wallet_provider/domain/src/model/pin_policy.rs].
    Attempt counts are [u8]; [chrono] instants and durations are integers, in
    nanoseconds, without the bounds of [chrono]: adding a timeout to an instant
    panics there beyond the year 262142. *)
From stdpp Require Import base list.
From Stdlib Require Import ZArith Lia.
From S2P Require Import Prelude.

Inductive PinPolicyEvaluation :=
  | Failed (attempts_left_in_round : Z) (is_final_round : bool)
  | Timeout (timeout : Z)
  | InTimeout (timeout : Z)
  | BlockedPermanently.

#[global] Instance PinPolicyEvaluation_eq_dec : EqDecision PinPolicyEvaluation.
Proof. solve_decision. Defined.

Record PinPolicy := {
  rounds : Z;
  attempts_per_round : Z;
  timeouts : list Z
}.

(** The interface of [PinPolicyEvaluator]: what the account server asks of a policy. *)
Class PinPolicyEvaluator (P : Type) :=
  evaluate : P → Z → option Z → Z → outcome Empty_set PinPolicyEvaluation.

Section Policy.
Variable prof : profile.

(** [PinPolicy::new]: the subtraction is done on [usize]. *)
Definition new (rounds attempts_per_round : Z) (timeouts : list Z) : outcome Empty_set PinPolicy :=
  let* n := arith prof 64 (rounds - 1) in
  let* _ := rust_assert (Z.of_nat (length timeouts) =? n) in
  Ok {| rounds := rounds; attempts_per_round := attempts_per_round; timeouts := timeouts |}.

Variable self : PinPolicy.

(** [u8] division and remainder: a zero divisor panics in every profile. *)
Definition u8_div (a b : Z) : outcome Empty_set Z := if b =? 0 then Panic else Ok (a / b).
Definition u8_rem (a b : Z) : outcome Empty_set Z := if b =? 0 then Panic else Ok (a mod b).

Definition current_round (attempts : Z) : outcome Empty_set Z :=
  let* _ := rust_assert (0 <? attempts) in
  let* q := u8_div attempts (attempts_per_round self) in
  let* r := u8_rem attempts (attempts_per_round self) in
  if q =? 0 then Ok 1
  else if r =? 0 then Ok q
  else arith prof 8 (q + 1).

Definition is_blocked (attempts : Z) : outcome Empty_set bool :=
  let* _ := rust_assert (0 <? attempts) in
  let* total_attempts := arith prof 8 (rounds self * attempts_per_round self) in
  Ok (total_attempts <=? attempts).

Definition is_final_round (attempts : Z) : outcome Empty_set bool :=
  let* _ := rust_assert (0 <? attempts) in
  let* blocked := is_blocked attempts in
  if blocked then Ok true
  else let* round := current_round attempts in Ok (round =? rounds self).

Definition attempts_left_in_round (attempts : Z) : outcome Empty_set Z :=
  let* _ := rust_assert (0 <? attempts) in
  let* blocked := is_blocked attempts in
  if blocked then Ok 0
  else let* r := u8_rem attempts (attempts_per_round self) in
       arith prof 8 (attempts_per_round self - r).

Definition current_timeout (attempts : Z) : outcome Empty_set (option Z) :=
  let* _ := rust_assert (0 <? attempts) in
  let* i := u8_div attempts (attempts_per_round self) in
  let* blocked := is_blocked attempts in
  if negb blocked && (1 <? attempts) && (0 <? i)
  then Ok (timeouts self !! Z.to_nat (i - 1))
  else Ok None.

Definition policy_evaluate (attempts : Z) (last_failed_pin : option Z) (current_datetime : Z)
    : outcome Empty_set PinPolicyEvaluation :=
  let is_first_attempt := bool_decide (last_failed_pin = None) && (attempts =? 1) in
  let has_failed_earlier := negb (bool_decide (last_failed_pin = None)) && (1 <? attempts) in
  let* _ := rust_assert (is_first_attempt || has_failed_earlier) in
  let* blocked := is_blocked attempts in
  if (blocked : bool) then Ok BlockedPermanently else
  let failed :=
    let* rest := attempts_left_in_round attempts in
    let* final := is_final_round attempts in
    Ok (Failed rest final) in
  let* timeout := current_timeout attempts in
  match last_failed_pin, timeout with
  | Some last_failed, Some timeout =>
      let timed_out_until := last_failed + timeout in
      let is_already_in_timeout := current_datetime <? timed_out_until in
      let* rest := attempts_left_in_round attempts in
      let* rest1 := arith prof 8 (rest + 1) in
      let end_of_round := attempts_per_round self =? rest in
      let start_of_next_round := attempts_per_round self =? rest1 in
      if end_of_round then Ok (Timeout timeout)
      else if is_already_in_timeout && start_of_next_round
      then Ok (InTimeout (timed_out_until - current_datetime))
      else failed
  | _, _ => failed
  end.
End Policy.

#[global] Instance PinPolicy_evaluator (prof : profile) : PinPolicyEvaluator PinPolicy :=
  policy_evaluate prof.

(** ** Well-formed policies

    What [new] and the [u8] types give, plus the requirement that the total
    number of attempts fits in a [u8]. *)
Record wf (p : PinPolicy) : Prop := {
  wf_rounds : 0 < rounds p;
  wf_attempts : 0 < attempts_per_round p;
  wf_total : rounds p * attempts_per_round p ≤ u8_MAX;
  wf_timeouts : Z.of_nat (length (timeouts p)) = rounds p - 1
}.

(** What a policy decides, over unbounded integers and without any of the
    helper functions: [a] is the number of the current attempt. *)
Definition spec_total (p : PinPolicy) : Z := rounds p * attempts_per_round p.

Definition spec_evaluate (p : PinPolicy) (a : Z) (last_failed : option Z) (now : Z) : PinPolicyEvaluation :=
  let apr := attempts_per_round p in
  let timeout := timeouts p !! Z.to_nat (a / apr - 1) in
  if decide (spec_total p ≤ a) then BlockedPermanently
  else match last_failed, timeout with
  | Some last, Some t =>
      if decide (apr ≤ a ∧ a mod apr = 0 ∧ 1 < a) then Timeout t
      else if decide (apr ≤ a ∧ a mod apr = 1 ∧ now < last + t) then InTimeout (last + t - now)
      else Failed (apr - a mod apr) (bool_decide ((a - 1) / apr + 1 = rounds p))
  | _, _ => Failed (apr - a mod apr) (bool_decide ((a - 1) / apr + 1 = rounds p))
  end.

(** The starting points [evaluate] accepts. *)
Definition consistent (a : Z) (last_failed : option Z) : Prop :=
  match last_failed with None => a = 1 | Some _ => 1 < a end.

Section Facts.
Context (prof : profile) (p : PinPolicy) (Hwf : wf p).

Lemma total_u8 : arith (E:=Empty_set) prof 8 (rounds p * attempts_per_round p) = Ok (spec_total p).
Proof. destruct Hwf. unfold spec_total. rewrite arith_u8; [done|]. unfold u8, u8_MAX in *. nia. Qed.

Lemma is_blocked_spec a : 0 < a → is_blocked prof p a = Ok (spec_total p <=? a).
Proof.
  intros Ha. unfold is_blocked. rewrite total_u8.
  rewrite (proj2 (Z.ltb_lt 0 a)) by lia. done.
Qed.

Lemma u8_div_pos a : u8_div a (attempts_per_round p) = Ok (a / attempts_per_round p).
Proof. destruct Hwf. unfold u8_div. destruct (Z.eqb_spec (attempts_per_round p) 0); [lia|done]. Qed.

Lemma u8_rem_pos a : u8_rem a (attempts_per_round p) = Ok (a mod attempts_per_round p).
Proof. destruct Hwf. unfold u8_rem. destruct (Z.eqb_spec (attempts_per_round p) 0); [lia|done]. Qed.

Lemma left_spec a : 0 < a → a < spec_total p →
  attempts_left_in_round prof p a = Ok (attempts_per_round p - a mod attempts_per_round p).
Proof.
  intros Ha Hlt. unfold attempts_left_in_round.
  rewrite (proj2 (Z.ltb_lt 0 a)) by lia. simpl.
  rewrite is_blocked_spec, u8_rem_pos by done.
  rewrite (proj2 (Z.leb_gt _ _)) by lia. simpl.
  destruct Hwf. pose proof (Z.mod_pos_bound a (attempts_per_round p)).
  apply arith_u8. unfold u8, u8_MAX in *. nia.
Qed.

(** The match on quotient and remainder computes the rounded-up quotient. *)
Lemma current_round_ceil a : 0 < a ≤ u8_MAX →
  current_round prof p a = Ok ((a - 1) / attempts_per_round p + 1).
Proof.
  intros Ha. unfold current_round.
  rewrite (proj2 (Z.ltb_lt 0 a)) by lia. simpl. rewrite u8_div_pos, u8_rem_pos. simpl.
  destruct Hwf as [_ Hapr _ _]. set (n := attempts_per_round p) in *.
  pose proof (Z.div_mod a n). pose proof (Z.mod_pos_bound a n).
  assert (Hq : 0 ≤ a / n) by (apply Z.div_pos; lia).
  destruct (Z.eqb_spec (a / n) 0) as [E0|E0].
  { f_equal. rewrite (Z.div_small (a - 1)); nia. }
  destruct (Z.eqb_spec (a mod n) 0) as [R0|R0].
  - f_equal. assert ((a - 1) / n = a / n - 1); [|lia].
    symmetry. apply Z.div_unique with (n - 1); nia.
  - assert (E : (a - 1) / n = a / n).
    { symmetry. apply Z.div_unique with (a mod n - 1); nia. }
    rewrite E. apply arith_u8. unfold u8, u8_MAX in *.
    assert (n ≠ 1) by (intros ->; rewrite Z.mod_1_r in R0; lia). nia.
Qed.

Lemma final_spec a : 0 < a → a < spec_total p →
  is_final_round prof p a = Ok (bool_decide ((a - 1) / attempts_per_round p + 1 = rounds p)).
Proof.
  intros Ha Hlt. unfold is_final_round.
  rewrite (proj2 (Z.ltb_lt 0 a)) by lia. simpl.
  rewrite is_blocked_spec, (proj2 (Z.leb_gt _ _)) by lia. simpl.
  destruct Hwf. rewrite current_round_ceil by (unfold spec_total in *; lia). simpl.
  f_equal. case_bool_decide; [by apply Z.eqb_eq|by apply Z.eqb_neq].
Qed.

Lemma current_timeout_spec a : 0 < a → a < spec_total p →
  current_timeout prof p a =
    Ok (if decide (1 < a ∧ attempts_per_round p ≤ a)
        then timeouts p !! Z.to_nat (a / attempts_per_round p - 1) else None).
Proof.
  intros Ha Hlt. unfold current_timeout.
  rewrite (proj2 (Z.ltb_lt 0 a)) by lia. simpl. rewrite u8_div_pos. simpl.
  rewrite is_blocked_spec, (proj2 (Z.leb_gt _ _)) by lia. simpl.
  destruct Hwf as [_ Hapr _ _]. set (n := attempts_per_round p) in *.
  assert (Hn : (0 <? a / n) = true ↔ n ≤ a).
  { rewrite Z.ltb_lt. split; intros H.
    - apply Z.nlt_ge. intros ?. rewrite Z.div_small in H; lia.
    - apply Z.div_str_pos. lia. }
  case_decide as D.
  - rewrite (proj2 (Z.ltb_lt 1 a)), (proj2 Hn) by lia. done.
  - destruct (Z.ltb_spec 1 a); [|done].
    destruct (0 <? a / n) eqn:R; [|done]. exfalso. apply D. split; [done|]. by apply Hn.
Qed.
End Facts.

(** ** Correctness *)
Section Correctness.
Context (prof : profile) (p : PinPolicy).

Lemma failed_spec a (Hwf : wf p) : 0 < a → a < spec_total p →
  (let* rest := attempts_left_in_round prof p a in
   let* final := is_final_round prof p a in Ok (Failed rest final))
  = Ok (Failed (attempts_per_round p - a mod attempts_per_round p)
          (bool_decide ((a - 1) / attempts_per_round p + 1 = rounds p))).
Proof. intros. by rewrite left_spec, final_spec. Qed.

Lemma consistent_assert a last : consistent a last →
  (bool_decide (last = None) && (a =? 1) || negb (bool_decide (last = None)) && (1 <? a)) = true.
Proof.
  destruct last; simpl; intros H; [|by subst].
  rewrite (proj2 (Z.ltb_lt 1 a)) by done. done.
Qed.

Lemma policy_evaluate_spec a last now (Hwf : wf p) (Hc : consistent a last) :
  policy_evaluate prof p a last now = Ok (spec_evaluate p a last now).
Proof.
  assert (Ha : 0 < a) by (destruct last; simpl in *; lia).
  unfold policy_evaluate, spec_evaluate.
  rewrite consistent_assert by done. simpl.
  rewrite is_blocked_spec by done. simpl.
  case_decide as B; [by rewrite (proj2 (Z.leb_le _ _))|].
  rewrite (proj2 (Z.leb_gt _ _)), current_timeout_spec, failed_spec, left_spec by (done || lia). simpl.
  destruct last as [last|]; [|done]. simpl in Hc.
  destruct Hwf as [Hr Hapr Htot _]. set (n := attempts_per_round p) in *.
  pose proof (Z.mod_pos_bound a n ltac:(lia)) as Hm.
  assert (Hn : n ≤ 255) by (unfold spec_total, u8_MAX in *; fold n in B; nia).
  destruct (decide (1 < a ∧ n ≤ a)) as [[_ Hle]|Hgt].
  - destruct (timeouts p !! Z.to_nat (a / n - 1)) as [t|]; [|done].
    destruct (Z.eq_dec (a mod n) 0) as [M0|M0].
    + rewrite decide_True by done. rewrite M0, Z.sub_0_r.
      destruct (Z.eq_dec n 255) as [E255|N255].
      { exfalso. unfold spec_total, u8_MAX in *. fold n in B, Htot. nia. }
      rewrite arith_u8 by (unfold u8; lia). simpl.
      by rewrite (proj2 (Z.eqb_eq n n)).
    + rewrite decide_False by naive_solver.
      rewrite arith_u8 by (unfold u8; lia). simpl.
      rewrite (proj2 (Z.eqb_neq n (n - a mod n))) by lia.
      case_decide as D.
      * rewrite (proj2 (Z.ltb_lt _ _)), (proj2 (Z.eqb_eq n _)) by lia. done.
      * destruct (Z.ltb_spec now (last + t)); [|done].
        destruct (Z.eqb_spec n (n - a mod n + 1)); [|done]. exfalso. apply D. lia.
  - assert (Hlt : a < n) by (destruct (Z.lt_ge_cases a n); [done|exfalso; apply Hgt; lia]).
    destruct (timeouts p !! Z.to_nat (a / n - 1)); [|done].
    rewrite !decide_False by lia. done.
Qed.

(** C26. For a policy whose total number of attempts fits in a [u8] - which
    [PinPolicy::new] does not check, see [total_overflow] - and as long as instants
    stay within the range of [chrono], on every consistent starting point
    [PinPolicy::evaluate] terminates
    without panicking and without overflow, in either build profile, and takes
    exactly the decision of [spec_evaluate]: blocked from attempt
    [rounds * attempts_per_round] on, a timeout on the last attempt of a round,
    "still in timeout" on the first attempt of the next round as long as the
    timeout runs, and otherwise the attempts left in the round and whether
    this is the final round. *)
Theorem evaluate_meets_spec a last now (Hwf : wf p) (Hc : consistent a last) :
  policy_evaluate prof p a last now = Ok (spec_evaluate p a last now).
Proof. by apply policy_evaluate_spec. Qed.

(** [evaluate] panics on every inconsistent starting point (no failed
    attempt on record but a later attempt, or a failed attempt on record for
    the first attempt), whatever the policy. *)
Theorem evaluate_rejects_inconsistent a last now (Hc : ¬ consistent a last) :
  policy_evaluate prof p a last now = Panic.
Proof.
  unfold policy_evaluate.
  destruct last; simpl in *; [by rewrite (proj2 (Z.ltb_ge _ _)) by lia|].
  by rewrite (proj2 (Z.eqb_neq _ _)).
Qed.

(** With more than one attempt per round the timeouts are enforced: as long
    as the timeout of the round that just ended runs, the next attempt is
    answered [InTimeout] with the time that is left, so no PIN is checked. *)
Theorem timeout_enforced k t last now (Hwf : wf p) (Hapr : 1 < attempts_per_round p)
    (Hk : 0 < k < rounds p) (Ht : timeouts p !! Z.to_nat (k - 1) = Some t) (Hnow : now < last + t) :
  policy_evaluate prof p (k * attempts_per_round p + 1) (Some last) now
    = Ok (InTimeout (last + t - now)).
Proof.
  set (n := attempts_per_round p) in *.
  rewrite policy_evaluate_spec by (done || (simpl; nia)). unfold spec_evaluate. fold n.
  rewrite decide_False by (unfold spec_total; fold n; nia).
  replace ((k * n + 1) / n) with k by (apply Z.div_unique with 1; nia).
  replace ((k * n + 1) mod n) with 1 by (apply Z.mod_unique with k; nia).
  rewrite Ht. rewrite decide_False by lia. rewrite decide_True by nia. done.
Qed.

(** With a single attempt per round no attempt is ever answered
    [InTimeout]: the configured timeouts are announced but never enforced,
    and only the final block remains. *)
Theorem single_attempt_rounds_never_in_timeout a last now r (Hwf : wf p) (Hc : consistent a last)
    (Hapr : attempts_per_round p = 1) :
  policy_evaluate prof p a last now ≠ Ok (InTimeout r).
Proof.
  rewrite policy_evaluate_spec by done. unfold spec_evaluate.
  rewrite Hapr, Z.mod_1_r. intros He. injection He.
  repeat (case_decide || case_match); naive_solver lia.
Qed.
End Correctness.

(** The policy of the example configuration: 4 rounds of 4 attempts with
    timeouts of one minute, five minutes and one hour. *)
Definition default_policy : PinPolicy :=
  {| rounds := 4; attempts_per_round := 4;
     timeouts := [60000000000; 300000000000; 3600000000000] |}.

Lemma default_policy_wf : wf default_policy.
Proof. by constructor. Qed.

(** The cases of the repository's own unit test, evaluated. *)
Example default_policy_run :
  policy_evaluate Debug default_policy 3 (Some 7) 8 = Ok (Failed 1 false) ∧
  policy_evaluate Debug default_policy 4 (Some 7) 8 = Ok (Timeout 60000000000) ∧
  policy_evaluate Release default_policy 15 (Some 7) 8 = Ok (Failed 1 true) ∧
  policy_evaluate Release default_policy 16 (Some 7) 8 = Ok BlockedPermanently.
Proof. vm_compute; repeat split. Qed.

(** In the release profile a total of 256 attempts wraps around to 0 and blocks
    the wallet on its first attempt; the debug profile panics. *)
Example total_overflow now :
  policy_evaluate Release {| rounds := 64; attempts_per_round := 4; timeouts := [] |} 1 None now
    = Ok BlockedPermanently ∧
  policy_evaluate Debug {| rounds := 64; attempts_per_round := 4; timeouts := [] |} 1 None now = Panic.
Proof. done. Qed.

Lemma evaluate_meets_spec_witness :
  policy_evaluate Debug default_policy 5 (Some 100) 200 = Ok (InTimeout (100 + 60000000000 - 200)).
Proof. rewrite (evaluate_meets_spec Debug default_policy 5 (Some 100) 200 default_policy_wf eq_refl). reflexivity. Defined.

Lemma evaluate_rejects_inconsistent_witness : policy_evaluate Debug default_policy 2 None 0 = Panic.
Proof. apply (evaluate_rejects_inconsistent Debug default_policy 2 None 0). simpl. lia. Defined.

Lemma timeout_enforced_witness :
  policy_evaluate Release default_policy (2 * 4 + 1) (Some 50) 60 = Ok (InTimeout (50 + 300000000000 - 60)).
Proof.
  apply (timeout_enforced Release default_policy 2 300000000000 50 60 default_policy_wf);
    simpl; (lia || reflexivity).
Defined.

Definition one_attempt_policy : PinPolicy :=
  {| rounds := 3; attempts_per_round := 1; timeouts := [60000000000; 300000000000] |}.

Lemma single_attempt_rounds_never_in_timeout_witness :
  policy_evaluate Debug one_attempt_policy 2 (Some 50) 60 ≠ Ok (InTimeout 1).
Proof.
  apply (single_attempt_rounds_never_in_timeout Debug one_attempt_policy 2 (Some 50) 60 1);
    [by constructor|simpl; lia|reflexivity].
Defined.
