(* ===== verification/SessionStore.v ===== *)
(** * Session stores of the issuance and disclosure servers

    Models [mdoc/src/server_state.rs] (the [SessionStore] trait, its timeouts
    and the in-memory implementation), [wallet_server/src/store/postgres.rs]
    (the PostgreSQL implementation over the table of
    [wallet_server/src/entity/session_state.rs]) and
    [wallet_server/src/store/mod.rs] (the variant type that picks one of them).
    Instants and durations are integers in microseconds, the resolution of the
    database.  [serde_json] is a parameter of the PostgreSQL store. *)
From stdpp Require Import base gmap strings list fin_maps option.
From Stdlib Require Import ZArith Lia.
From S2P Require Import Prelude.

(** ** Sessions *)
Abbreviation SessionToken := string (only parsing).

Inductive Progress := Active | Finished (has_succeeded : bool).
#[global] Instance Progress_eq_dec : EqDecision Progress.
Proof. solve_decision. Defined.

Class HasProgress (T : Type) := progress : T → Progress.
Class Expirable (T : Type) := { is_expired : T → bool; expire : T → T }.

(** What session data must satisfy for the stores to make sense of it. *)
Class ExpirableLaws (T : Type) `{!HasProgress T, !Expirable T} := {
  is_expired_expire (d : T) : is_expired (expire d) = true;
  progress_expire (d : T) : progress (expire d) = Finished false;
  is_expired_not_active (d : T) : is_expired d = true → progress d = Finished false;
  expire_is_expired (d : T) : is_expired d = true → expire d = d
}.

Record SessionState (T : Type) := mkSessionState {
  data : T;
  token : SessionToken;
  last_active : Z
}.
Arguments mkSessionState {T}.
Arguments data {T}.
Arguments token {T}.
Arguments last_active {T}.

(** [SessionState::new]: [now] is the current time. *)
Definition SessionState_new {T} (now : Z) (tok : SessionToken) (d : T) : SessionState T :=
  {| data := d; token := tok; last_active := now |}.

Inductive SessionStoreError :=
  | DuplicateToken (tok : SessionToken)
  | Serialize
  | Deserialize
  | Other.
#[global] Instance SessionStoreError_eq_dec : EqDecision SessionStoreError.
Proof. solve_decision. Defined.

Record SessionStoreTimeouts := {
  expiration : Z;
  successful_deletion : Z;
  failed_deletion : Z
}.

Definition seconds (n : Z) : Z := n * 1000000.

(** [SessionStoreTimeouts::default] *)
Definition default_timeouts : SessionStoreTimeouts := {|
  expiration := seconds (30 * 60);
  successful_deletion := seconds (5 * 60);
  failed_deletion := seconds (4 * 60 * 60)
|}.

(** The [SessionStore] trait: a store of type [S] holding sessions of type [T].
    [cleanup] takes the time its generator yields. *)
Class SessionStore (T S : Type) := {
  store_get : SessionToken → ST S SessionStoreError (option (SessionState T));
  store_write : SessionState T → bool → ST S SessionStoreError unit;
  store_cleanup : Z → ST S SessionStoreError unit
}.

(** ** The abstract store

    What the store promises its clients, as a partial map from tokens to
    sessions: the fate of one session in a cleanup at time [now]. *)
Section Abstract.
Context {T : Type} `{!HasProgress T, !Expirable T}.
Variable to : SessionStoreTimeouts.

Definition cleanup_keeps (now : Z) (s : SessionState T) : bool :=
  if is_expired (data s) then now - failed_deletion to <=? last_active s
  else match progress (data s) with
       | Active => true
       | Finished true => now - successful_deletion to <=? last_active s
       | Finished false => now - failed_deletion to <=? last_active s
       end.

Definition must_expire (now : Z) (s : SessionState T) : bool :=
  negb (is_expired (data s)) && bool_decide (progress (data s) = Active)
    && (last_active s <? now - expiration to).

Definition expire_session (now : Z) (s : SessionState T) : SessionState T :=
  {| data := expire (data s); token := token s; last_active := now |}.

Definition cleanup_session (now : Z) (s : SessionState T) : option (SessionState T) :=
  if cleanup_keeps now s
  then Some (if must_expire now s then expire_session now s else s)
  else None.

Definition abstract_cleanup (now : Z) (m : gmap SessionToken (SessionState T))
    : gmap SessionToken (SessionState T) :=
  base.omap (cleanup_session now) m.
End Abstract.

(** A store implements the abstract store when [view] reads its contents. *)
Class SessionStoreSpec (T S : Type) `{!HasProgress T, !Expirable T, !SessionStore T S} := {
  view : S → gmap SessionToken (SessionState T);
  view_timeouts : S → SessionStoreTimeouts;
  get_spec tok s : store_get tok s = (Ok (view s !! tok), s);
  write_new_occupied sess s : is_Some (view s !! token sess) →
    store_write sess true s = (Err (DuplicateToken (token sess)), s);
  write_spec sess is_new s : is_new = false ∨ view s !! token sess = None →
    ∃ s', store_write sess is_new s = (Ok tt, s') ∧
      view s' = <[token sess := sess]> (view s) ∧ view_timeouts s' = view_timeouts s;
  cleanup_spec now s :
    ∃ s', store_cleanup now s = (Ok tt, s') ∧
      view s' = abstract_cleanup (view_timeouts s) now (view s) ∧ view_timeouts s' = view_timeouts s
}.

(** ** The in-memory store *)
Record MemorySessionStore (T : Type) := mkMemory {
  timeouts : SessionStoreTimeouts;
  sessions : gmap SessionToken (SessionState T)
}.
Arguments mkMemory {T}.
Arguments timeouts {T}.
Arguments sessions {T}.

(** [MemorySessionStore::new_with_time] *)
Definition memory_new {T} (to : SessionStoreTimeouts) : MemorySessionStore T :=
  {| timeouts := to; sessions := ∅ |}.

Section Memory.
Context {T : Type} `{!HasProgress T, !Expirable T}.

Definition memory_get (tok : SessionToken)
    : ST (MemorySessionStore T) SessionStoreError (option (SessionState T)) := λ st,
  (Ok (sessions st !! tok), st).

Definition memory_write (session : SessionState T) (is_new : bool)
    : ST (MemorySessionStore T) SessionStoreError unit := λ st,
  match sessions st !! token session with
  | Some _ => if is_new then (Err (DuplicateToken (token session)), st)
              else (Ok tt, mkMemory (timeouts st) (<[token session := session]> (sessions st)))
  | None => (Ok tt, mkMemory (timeouts st) (<[token session := session]> (sessions st)))
  end.

(** The closure passed to [retain]. *)
Definition memory_retain (succeeded_cutoff failed_cutoff : Z) (session : SessionState T) : bool :=
  match progress (data session), is_expired (data session) with
  | Finished true, false => succeeded_cutoff <=? last_active session
  | Finished _, false | _, true => failed_cutoff <=? last_active session
  | _, _ => true
  end.

Definition memory_cleanup (now : Z) : ST (MemorySessionStore T) SessionStoreError unit := λ st,
  let succeeded_cutoff := now - successful_deletion (timeouts st) in
  let failed_cutoff := now - failed_deletion (timeouts st) in
  let expiry_cutoff := now - expiration (timeouts st) in
  let retained := filter (λ kv : SessionToken * SessionState T,
                     memory_retain succeeded_cutoff failed_cutoff kv.2 = true) (sessions st) in
  let expired := (λ session : SessionState T,
    if negb (is_expired (data session)) && bool_decide (progress (data session) = Active)
         && (last_active session <? expiry_cutoff)
    then {| data := expire (data session); token := token session; last_active := now |}
    else session) <$> retained in
  (Ok tt, mkMemory (timeouts st) expired).

#[global] Instance memory_store : SessionStore T (MemorySessionStore T) := {
  store_get := memory_get;
  store_write := memory_write;
  store_cleanup := memory_cleanup
}.
End Memory.
#[global] Arguments memory_cleanup : simpl never.

(** ** The PostgreSQL store *)
Inductive SessionStatus := SActive | SSucceeded | SFailed | SExpired.
#[global] Instance SessionStatus_eq_dec : EqDecision SessionStatus.
Proof. solve_decision. Defined.

(** [From<Progress> for SessionStatus] *)
Definition status_from_progress (p : Progress) : SessionStatus :=
  match p with
  | Active => SActive
  | Finished true => SSucceeded
  | Finished false => SFailed
  end.

(** The derived [Display] and [FromStr] of [SessionStatus], in snake case. *)
Definition status_to_string (s : SessionStatus) : string :=
  match s with
  | SActive => "active" | SSucceeded => "succeeded" | SFailed => "failed" | SExpired => "expired"
  end.

Definition status_parse (s : string) : option SessionStatus :=
  if bool_decide (s = "active") then Some SActive
  else if bool_decide (s = "succeeded") then Some SSucceeded
  else if bool_decide (s = "failed") then Some SFailed
  else if bool_decide (s = "expired") then Some SExpired
  else None.

Lemma status_parse_to_string s : status_parse (status_to_string s) = Some s.
Proof. by destruct s. Qed.

(** The trait [SessionDataType] and the JSON codec of the session data. *)
Class SessionDataType (T : Type) := TYPE : string.

Class SerdeJson (T J : Type) := {
  to_value : T → option J;
  from_value : J → option T
}.
Class SerdeJsonLaws (T J : Type) `{!SerdeJson T J} := {
  from_to_value (d : T) v : to_value d = Some v → from_value v = Some d;
  to_value_total (d : T) : is_Some (to_value d)
}.

(** A row of the table [session_state], whose primary key is (type, token). *)
Record Row (J : Type) := mkRow {
  row_data : J;
  row_status : string;
  row_last_active : Z
}.
Arguments mkRow {J}.
Arguments row_data {J}.
Arguments row_status {J}.
Arguments row_last_active {J}.

Abbreviation Table J := (gmap (string * string) (Row J)).

Record PostgresSessionStore (J : Type) := mkPostgres {
  pg_timeouts : SessionStoreTimeouts;
  connection : remote (Table J)
}.
Arguments mkPostgres {J}.
Arguments pg_timeouts {J}.
Arguments connection {J}.

Definition on_connection {J E A} (m : ST (remote (Table J)) E A) : ST (PostgresSessionStore J) E A := λ st,
  let '(r, c) := m (connection st) in (r, mkPostgres (pg_timeouts st) c).

Section Postgres.
Context {T J : Type} `{!HasProgress T, !Expirable T, !SessionDataType T, !SerdeJson T J}.

(** What [get] makes of the row it found. *)
Definition decode_row (tok : SessionToken) (row : Row J) : outcome SessionStoreError (SessionState T) :=
  let* status := ok_or Deserialize (status_parse (row_status row)) in
  let* d := ok_or Deserialize (from_value (row_data row)) in
  let d := if bool_decide (status = SExpired) then expire d else d in
  Ok {| data := d; token := tok; last_active := row_last_active row |}.

Definition postgres_get (tok : SessionToken)
    : ST (PostgresSessionStore J) SessionStoreError (option (SessionState T)) :=
  on_connection
    (let! _ := round_trip Other in
     let! r := st_get in
     match contents r !! (TYPE, tok) with
     | None => sret None
     | Some row => st_lift (omap Some (decode_row tok row))
     end).

(** The row that [write] inserts; the status column is never [expired]. *)
Definition encode_row (session : SessionState T) (v : J) : Row J := {|
  row_data := v;
  row_status := status_to_string (status_from_progress (progress (data session)));
  row_last_active := last_active session
|}.

(** [ON CONFLICT (type, token) DO UPDATE SET data, last_active_date_time]. *)
Definition update_row (old new : Row J) : Row J := {|
  row_data := row_data new;
  row_status := row_status old;
  row_last_active := row_last_active new
|}.

Definition postgres_write (session : SessionState T) (is_new : bool)
    : ST (PostgresSessionStore J) SessionStoreError unit :=
  on_connection
    (let! v := st_lift (ok_or Serialize (to_value (data session))) in
     let row := encode_row session v in
     let key := (TYPE, token session) in
     let! _ := round_trip Other in
     let! r := st_get in
     match contents r !! key with
     | None => set_contents (<[key := row]> (contents r))
     | Some old => if is_new then st_throw (DuplicateToken (token session))
                   else set_contents (<[key := update_row old row]> (contents r))
     end).

Definition delete_where (P : string * string → Row J → bool) (t : Table J) : Table J :=
  filter (λ kv : (string * string) * Row J, P kv.1 kv.2 = false) t.
Definition update_where (P : string * string → Row J → bool) (f : Row J → Row J) (t : Table J) : Table J :=
  map_imap (λ k row, Some (if P k row then f row else row)) t.

Definition is_succeeded_before (cutoff : Z) (k : string * string) (row : Row J) : bool :=
  bool_decide (k.1 = TYPE) && bool_decide (row_status row = status_to_string SSucceeded)
    && (row_last_active row <? cutoff).
Definition is_failed_before (cutoff : Z) (k : string * string) (row : Row J) : bool :=
  bool_decide (k.1 = TYPE)
    && (bool_decide (row_status row = status_to_string SFailed)
        || bool_decide (row_status row = status_to_string SExpired))
    && (row_last_active row <? cutoff).
Definition is_active_before (cutoff : Z) (k : string * string) (row : Row J) : bool :=
  bool_decide (k.1 = TYPE) && bool_decide (row_status row = status_to_string SActive)
    && (row_last_active row <? cutoff).
Definition set_expired (now : Z) (row : Row J) : Row J := {|
  row_data := row_data row;
  row_status := status_to_string SExpired;
  row_last_active := now
|}.

(** The three statements of [cleanup], run in one transaction: when any round
    trip fails (including BEGIN and COMMIT) the table is left as it was. *)
Definition postgres_cleanup (now : Z) : ST (PostgresSessionStore J) SessionStoreError unit := λ st,
  let succeeded_cutoff := now - successful_deletion (pg_timeouts st) in
  let failed_cutoff := now - failed_deletion (pg_timeouts st) in
  let expiry_cutoff := now - expiration (pg_timeouts st) in
  on_connection
    (let! _ := round_trip Other in
     let! r := st_get in
     let t1 := delete_where (is_succeeded_before succeeded_cutoff) (contents r) in
     let! _ := round_trip Other in
     let t2 := delete_where (is_failed_before failed_cutoff) t1 in
     let! _ := round_trip Other in
     let t3 := update_where (is_active_before expiry_cutoff) (set_expired now) t2 in
     let! _ := round_trip Other in
     let! _ := round_trip Other in
     set_contents t3) st.

#[global] Instance postgres_store : SessionStore T (PostgresSessionStore J) := {
  store_get := postgres_get;
  store_write := postgres_write;
  store_cleanup := postgres_cleanup
}.
End Postgres.
#[global] Arguments postgres_cleanup : simpl never.

(** ** The variant type that the servers use *)
Inductive SessionStoreVariant (T J : Type) :=
  | VPostgres (store : PostgresSessionStore J)
  | VMemory (store : MemorySessionStore T).
Arguments VPostgres {T J} store.
Arguments VMemory {T J} store.

(** [SessionStoreVariant::clone_into]: the connection pool is shared, an
    in-memory store starts empty. *)
Definition clone_into {T R J} (v : SessionStoreVariant T J) : SessionStoreVariant R J :=
  match v with
  | VPostgres store => VPostgres store
  | VMemory store => VMemory (memory_new (timeouts store))
  end.

Section Variant.
Context {T J : Type} `{!HasProgress T, !Expirable T, !SessionDataType T, !SerdeJson T J}.

(** Forward an operation to the store inside the variant. *)
Definition forward {A} (pg : ST (PostgresSessionStore J) SessionStoreError A)
    (mem : ST (MemorySessionStore T) SessionStoreError A)
    : ST (SessionStoreVariant T J) SessionStoreError A := λ v,
  match v with
  | VPostgres store => let '(r, store') := pg store in (r, VPostgres store')
  | VMemory store => let '(r, store') := mem store in (r, VMemory store')
  end.

Definition variant_get (tok : SessionToken) := forward (postgres_get tok) (memory_get tok).
Definition variant_write (session : SessionState T) (is_new : bool) :=
  forward (postgres_write session is_new) (memory_write session is_new).
Definition variant_cleanup (now : Z) := forward (postgres_cleanup now) (memory_cleanup now).

#[global] Instance variant_store : SessionStore T (SessionStoreVariant T J) := {
  store_get := variant_get;
  store_write := variant_write;
  store_cleanup := variant_cleanup
}.
End Variant.
