(* ===== verification/SessionStoreFacts.v ===== *)
(** * Correctness of the session stores

    The in-memory store implements the abstract store; both stores evict stale
    sessions; the PostgreSQL store is atomic under connection failures and
    answers like the in-memory store as long as updates do not change the
    progress of a session - and differs from it when they do. *)
From stdpp Require Import base gmap strings list fin_maps option.
From Stdlib Require Import ZArith Lia.
From S2P Require Import Prelude SessionStore.

(** ** The in-memory store *)
Section MemoryFacts.
Context {T : Type} `{!HasProgress T, !Expirable T}.

Lemma memory_retain_keeps to now (s : SessionState T) :
  memory_retain (now - successful_deletion to) (now - failed_deletion to) s = cleanup_keeps to now s.
Proof. unfold memory_retain, cleanup_keeps. by destruct (progress (data s)) as [|[]], (is_expired (data s)). Qed.

Lemma memory_cleanup_view to (m : gmap string (SessionState T)) now :
  memory_cleanup now (mkMemory to m) = (Ok tt, mkMemory to (abstract_cleanup to now m)).
Proof.
  unfold memory_cleanup, abstract_cleanup. simpl. do 2 f_equal.
  apply map_eq. intros k. rewrite lookup_fmap, map_lookup_filter, lookup_omap.
  destruct (m !! k) as [s|]; [|done]. simpl.
  unfold cleanup_session. rewrite memory_retain_keeps.
  destruct (cleanup_keeps to now s); [|by rewrite option_guard_False].
  rewrite option_guard_True by done. simpl. by unfold must_expire, expire_session.
Qed.

#[global] Instance memory_store_spec : SessionStoreSpec T (MemorySessionStore T).
Proof.
  refine {| view := sessions; view_timeouts := timeouts |}.
  - done.
  - intros sess s [x Hx]. simpl. unfold memory_write. by rewrite Hx.
  - intros sess n s H. simpl. unfold memory_write.
    destruct (sessions s !! token sess) eqn:L; [|eauto].
    destruct H as [->|?]; [eauto|congruence].
  - intros now [to m]. simpl. rewrite memory_cleanup_view. eauto.
Defined.
End MemoryFacts.

(** ** Clients of any store *)
Section StoreClients.
Context {T S : Type} `{SP : SessionStoreSpec T S, !ExpirableLaws T}.

Lemma write_inv sess is_new s o s' : store_write sess is_new s = (o, s') →
  (o = Ok tt ∧ (is_new = false ∨ view s !! token sess = None) ∧
     view s' = <[token sess := sess]> (view s) ∧ view_timeouts s' = view_timeouts s) ∨
  (o = Err (DuplicateToken (token sess)) ∧ is_new = true ∧ is_Some (view s !! token sess) ∧ s' = s).
Proof.
  intros H. destruct (view s !! token sess) as [x|] eqn:L; [destruct is_new|].
  - right. rewrite write_new_occupied in H by eauto. naive_solver.
  - destruct (write_spec sess false s) as (? & E & ?); [eauto|]. rewrite H in E. naive_solver.
  - destruct (write_spec sess is_new s) as (? & E & ?); [eauto|]. rewrite H in E. naive_solver.
Qed.

Lemma get_inv tok s o s' : store_get (T:=T) tok s = (o, s') → o = Ok (view s !! tok) ∧ s' = s.
Proof. rewrite get_spec. naive_solver. Qed.

Lemma cleanup_inv now s o s' : store_cleanup (T:=T) now s = (o, s') →
  o = Ok tt ∧ view s' = abstract_cleanup (view_timeouts s) now (view s) ∧ view_timeouts s' = view_timeouts s.
Proof. destruct (cleanup_spec now s) as (? & -> & ?). naive_solver. Qed.

(** Sessions are stored under their own token. *)
Definition keyed (s : S) : Prop := ∀ tok (sess : SessionState T), view s !! tok = Some sess → token sess = tok.

Lemma keyed_insert s s' (sess : SessionState T) :
  keyed s → view s' = <[token sess := sess]> (view s) → keyed s'.
Proof.
  intros Hk Hv tok x. rewrite Hv. destruct (decide (token sess = tok)) as [<-|Hne].
  - rewrite lookup_insert_eq. by intros [= <-].
  - rewrite lookup_insert_ne by done. apply Hk.
Qed.

Lemma write_false (sess : SessionState T) s : ∃ s',
  store_write sess false s = (Ok tt, s') ∧ view s' = <[token sess := sess]> (view s).
Proof. destruct (write_spec sess false s) as (s' & ? & ? & _); eauto. Qed.

(** The data stored under a token. *)
Definition session_data (s : S) (tok : SessionToken) : option T := data <$> view s !! tok.

Lemma session_data_insert s s' (sess : SessionState T) tok :
  view s' = <[token sess := sess]> (view s) →
  session_data s' tok = if decide (token sess = tok) then Some (data sess) else session_data s tok.
Proof.
  intros Hv. unfold session_data. rewrite Hv. case_decide as Ht; [subst; by rewrite lookup_insert_eq|].
  by rewrite lookup_insert_ne.
Qed.

(** An expired session, left alone, is removed by the first cleanup that runs
    more than [failed_deletion] after it was last touched. *)
Lemma expired_removed to now (s : SessionState T) :
  is_expired (data s) = true → last_active s < now - failed_deletion to → cleanup_session to now s = None.
Proof.
  intros E L. unfold cleanup_session, cleanup_keeps. rewrite E.
  by rewrite (proj2 (Z.leb_gt _ _)) by lia.
Qed.

Lemma active_expires to now (s : SessionState T) :
  is_expired (data s) = false → progress (data s) = Active → last_active s < now - expiration to →
  cleanup_session to now s = Some (expire_session now s).
Proof.
  intros E P L. unfold cleanup_session, cleanup_keeps, must_expire. rewrite E, P. simpl.
  by rewrite (proj2 (Z.ltb_lt _ _)).
Qed.
End StoreClients.

Section Eviction.
Context {T : Type} `{!HasProgress T, !Expirable T, !ExpirableLaws T}.

(** Stale sessions do not accumulate: in every store that implements the
    contract, whatever state a session is in and as long as nobody writes it
    again, two cleanups of which the first runs more than [expiration] after the
    session was last touched and the second more than both deletion timeouts
    after the first remove it. *)
Theorem stale_session_evicted {S} `{!SessionStore T S, !SessionStoreSpec T S}
    (st st1 st2 : S) tok (s : SessionState T) t1 t2 o1 o2
    (Hlook : view st !! tok = Some s)
    (Hpast : last_active s ≤ t1)
    (Hexp : last_active s < t1 - expiration (view_timeouts st))
    (Hfail : t1 < t2 - failed_deletion (view_timeouts st))
    (Hsucc : t1 < t2 - successful_deletion (view_timeouts st))
    (H1 : store_cleanup t1 st = (o1, st1)) (H2 : store_cleanup t2 st1 = (o2, st2)) :
  store_get tok st2 = (Ok None, st2).
Proof.
  apply cleanup_inv in H1 as (_ & V1 & T1). apply cleanup_inv in H2 as (_ & V2 & T2).
  rewrite get_spec, V2, V1, T1. unfold abstract_cleanup. rewrite !lookup_omap, Hlook. simpl.
  set (to := view_timeouts st) in *.
  destruct (cleanup_session to t1 s) as [s1|] eqn:C1; [|done]. simpl.
  destruct (is_expired (data s)) eqn:E.
  { unfold cleanup_session in C1. unfold must_expire in C1. rewrite E in C1. simpl in C1.
    case_match; simplify_eq. by rewrite expired_removed by (done || lia). }
  destruct (progress (data s)) as [|ok] eqn:P.
  - rewrite active_expires in C1 by done. simplify_eq.
    rewrite expired_removed; [done|apply is_expired_expire|simpl; lia].
  - assert (s1 = s) as ->.
    { unfold cleanup_session, must_expire in C1. rewrite P, E in C1. simpl in C1. by case_match; simplify_eq. }
    unfold cleanup_session, cleanup_keeps. rewrite E, P.
    by destruct ok; rewrite (proj2 (Z.leb_gt _ _)) by lia.
Qed.
End Eviction.

(** ** The PostgreSQL store *)

(** The operations of a store, run in sequence. *)
Inductive op (T : Type) :=
  | OGet (tok : string)
  | OWrite (session : SessionState T) (is_new : bool)
  | OCleanup (now : Z).
Arguments OGet {T}.
Arguments OWrite {T}.
Arguments OCleanup {T}.

Inductive answer (T : Type) :=
  | AGet (r : outcome SessionStoreError (option (SessionState T)))
  | ADone (r : outcome SessionStoreError unit).
Arguments AGet {T}.
Arguments ADone {T}.

Section Runs.
Context {T S : Type} `{!SessionStore T S}.

Definition run_op (o : op T) (s : S) : answer T * S :=
  match o with
  | OGet tok => let '(r, s') := store_get tok s in (AGet r, s')
  | OWrite sess n => let '(r, s') := store_write sess n s in (ADone r, s')
  | OCleanup now => let '(r, s') := store_cleanup now s in (ADone r, s')
  end.

Fixpoint run (ops : list (op T)) (s : S) : list (answer T) * S :=
  match ops with
  | [] => ([], s)
  | o :: ops => let '(a, s1) := run_op o s in let '(l, s2) := run ops s1 in (a :: l, s2)
  end.
End Runs.

Section PostgresFacts.
Context {T J : Type} `{!HasProgress T, !Expirable T, !SessionDataType T, !SerdeJson T J}.
Implicit Types (st : PostgresSessionStore J).

Definition table st : Table J := contents (connection st).

Lemma run_get_table tok st a st' : run_op (T:=T) (OGet tok) st = (a, st') → table st' = table st.
Proof.
  unfold run_op. simpl. unfold postgres_get, on_connection, sbind, round_trip, table.
  intros H. repeat case_hyp H; destruct (faults (connection st)) as [|[] ?]; naive_solver.
Qed.

(** Every operation of the PostgreSQL store is atomic under any pattern of
    connection failures: when it returns an error (a failed round trip, a
    duplicate token, data that does not serialize) the table is exactly what it
    was before, in particular a cleanup that fails half way deletes nothing. *)
Theorem postgres_atomic (o : op T) st e st'
    (H : run_op o st = (ADone (Err e), st')) : table st' = table st.
Proof.
  destruct o as [tok|sess n|now]; unfold run_op in H; simpl in H.
  - by repeat case_hyp H.
  - unfold postgres_write, on_connection, sbind, st_lift, st_get, st_throw, set_contents, round_trip, table in *.
    destruct (to_value (data sess)); simpl in H; [|naive_solver].
    destruct (faults (connection st)) as [|[] ?]; repeat case_hyp H; naive_solver.
  - unfold postgres_cleanup, on_connection, sbind, st_get, set_contents, round_trip, table in *.
    repeat case_hyp H; naive_solver.
Qed.

(** The row of a session and the session read from it are in sync: the status
    column agrees with what the data says. *)
Definition in_sync (row : Row J) (s : SessionState T) : Prop :=
  if is_expired (data s)
  then row_status row = "failed" ∨ row_status row = "expired"
  else row_status row = status_to_string (status_from_progress (progress (data s))).

Definition row_of (tok : string) (row : Row J) (s : SessionState T) : Prop :=
  decode_row tok row = Ok s ∧ in_sync row s.

(** The simulation relation between the table and an in-memory store. *)
Definition simulates st (m : gmap string (SessionState T)) : Prop :=
  ∀ tok, option_Forall2 (row_of tok) (table st !! (TYPE, tok)) (m !! tok).

(** An operation that does not change the progress of a session it updates. *)
Definition keeps_progress (m : gmap string (SessionState T)) (o : op T) : Prop :=
  match o with
  | OWrite sess false =>
      ∀ old, m !! token sess = Some old →
        progress (data sess) = progress (data old) ∧ is_expired (data sess) = is_expired (data old)
  | _ => True
  end.

Fixpoint all_keep_progress (to : SessionStoreTimeouts) (m : gmap string (SessionState T)) (ops : list (op T)) : Prop :=
  match ops with
  | [] => True
  | o :: ops => keeps_progress m o ∧ all_keep_progress to (sessions (run_op o (mkMemory to m)).2) ops
  end.

Section Simulation.
Context `{!ExpirableLaws T, !SerdeJsonLaws T J}.

Lemma decode_token tok row s : decode_row tok row = Ok s → token s = tok ∧ last_active s = row_last_active row.
Proof. unfold decode_row. intros H. run_ok H. by subst. Qed.

Lemma decode_expired tok row (s : SessionState T) : row_status row = "expired" → decode_row tok row = Ok s →
  is_expired (data s) = true.
Proof. unfold decode_row. intros E H. rewrite E in H. run_ok H.
  injection Hrun as <-. apply is_expired_expire. Qed.

Lemma encode_in_sync (sess : SessionState T) v : to_value (data sess) = Some v → row_of (token sess) (encode_row sess v) sess.
Proof.
  intros Hv. split.
  - unfold decode_row. simpl. rewrite status_parse_to_string, (from_to_value _ v) by done. simpl.
    rewrite bool_decide_eq_false_2 by (by destruct (progress (data sess)) as [|[]]). by destruct sess.
  - unfold in_sync. simpl. destruct (is_expired (data sess)) eqn:E; [|done].
    left. by rewrite is_expired_not_active.
Qed.

Lemma update_in_sync (sess old : SessionState T) row v :
  to_value (data sess) = Some v → row_of (token sess) row old →
  progress (data sess) = progress (data old) → is_expired (data sess) = is_expired (data old) →
  row_of (token sess) (update_row row (encode_row sess v)) sess.
Proof.
  intros Hv [Hd Hs] Hp He. unfold row_of, in_sync in *. simpl. rewrite He, Hp. split; [|done].
  unfold decode_row. simpl. rewrite (from_to_value _ v) by done.
  unfold in_sync in Hs. destruct (is_expired (data old)) eqn:E.
  - destruct Hs as [->| ->]; simpl; [|rewrite expire_is_expired by done]; by destruct sess.
  - rewrite Hs. rewrite status_parse_to_string. simpl.
    rewrite bool_decide_eq_false_2 by (by destruct (progress (data old)) as [|[]]). by destruct sess.
Qed.

(** The combined effect of the three statements of a cleanup on one row. *)
Definition cleanup_row (to : SessionStoreTimeouts) (now : Z) (row : Row J) : option (Row J) :=
  let k := (TYPE (T:=T), "") in
  if is_succeeded_before (T:=T) (now - successful_deletion to) k row then None
  else if is_failed_before (T:=T) (now - failed_deletion to) k row then None
  else Some (if is_active_before (T:=T) (now - expiration to) k row then set_expired now row else row).

Lemma cleanup_table_lookup (to : SessionStoreTimeouts) (now : Z) (t : Table J) (tok : string) :
  update_where (is_active_before (T:=T) (now - expiration to)) (set_expired now)
    (delete_where (is_failed_before (T:=T) (now - failed_deletion to))
       (delete_where (is_succeeded_before (T:=T) (now - successful_deletion to)) t)) !! (TYPE (T:=T), tok)
  = t !! (TYPE (T:=T), tok) ≫= cleanup_row to now.
Proof.
  unfold update_where, delete_where. rewrite map_lookup_imap, !map_lookup_filter.
  destruct (t !! _) as [row|]; [|done]. simpl. unfold cleanup_row.
  change (is_succeeded_before (T:=T) ?c (TYPE, "") row) with (is_succeeded_before (T:=T) c (TYPE (T:=T), tok) row).
  change (is_failed_before (T:=T) ?c (TYPE, "") row) with (is_failed_before (T:=T) c (TYPE (T:=T), tok) row).
  change (is_active_before (T:=T) ?c (TYPE, "") row) with (is_active_before (T:=T) c (TYPE (T:=T), tok) row).
  destruct (is_succeeded_before _ _ row); [by rewrite option_guard_False|].
  rewrite option_guard_True by done. simpl.
  destruct (is_failed_before _ _ row); [by rewrite option_guard_False|].
  by rewrite option_guard_True.
Qed.

Lemma decode_set_expired tok row (s : SessionState T) now :
  row_status row = "active" → decode_row tok row = Ok s →
  row_of tok (set_expired now row) (expire_session now s).
Proof.
  unfold row_of, decode_row, in_sync. intros E H. rewrite E in H. run_ok H. injection Hrun as <-. simpl.
  rewrite is_expired_expire. rewrite Hrun0. simpl. auto.
Qed.

Lemma cleanup_row_sync to now tok row (s : SessionState T) : row_of tok row s →
  option_Forall2 (row_of tok) (cleanup_row to now row) (cleanup_session to now s).
Proof.
  intros [Hd Hs]. pose proof (decode_token _ _ _ Hd) as [_ Hl].
  unfold cleanup_row, cleanup_session, cleanup_keeps, must_expire,
    is_succeeded_before, is_failed_before, is_active_before. rewrite Hl. simpl.
  rewrite (bool_decide_eq_true_2 (TYPE = TYPE)) by done.
  unfold in_sync in Hs. rewrite !Z.leb_antisym. simpl.
  destruct (is_expired (data s)) eqn:E; simpl.
  { destruct Hs as [Hs|Hs]; rewrite Hs; simpl;
      destruct (_ <? now - failed_deletion to); constructor; (split; [done|]; unfold in_sync; rewrite E; auto). }
  destruct (progress (data s)) as [|[]] eqn:P; simpl in Hs |- *; rewrite Hs; simpl.
  - destruct (_ <? now - expiration to); constructor; [by apply decode_set_expired|].
    split; [done|]. unfold in_sync. by rewrite E, P.
  - destruct (_ <? now - successful_deletion to); constructor. split; [done|]. unfold in_sync. by rewrite E, P.
  - destruct (_ <? now - failed_deletion to); constructor. split; [done|]. unfold in_sync. by rewrite E, P.
Qed.

Definition quiet st : Prop := faults (connection st) = [].

Lemma sim_step (o : op T) st (m : gmap string (SessionState T)) :
  quiet st → simulates st m → keeps_progress m o →
  ∃ st', run_op o st = ((run_op o (mkMemory (pg_timeouts st) m)).1, st') ∧
    simulates st' (sessions (run_op o (mkMemory (pg_timeouts st) m)).2) ∧
    timeouts (run_op o (mkMemory (pg_timeouts st) m)).2 = pg_timeouts st ∧
    quiet st' ∧ pg_timeouts st' = pg_timeouts st.
Proof.
  destruct st as [to [t fs]]. unfold quiet, simulates, table. simpl. intros -> Hsim Hk.
  destruct o as [tok|sess n|now]; unfold run_op.
  - simpl. unfold postgres_get, on_connection, sbind, round_trip. simpl.
    pose proof (Hsim tok) as Ht. inversion Ht as [row s [Hd _] Er Es|Er Es]; simpl.
    + unfold st_lift. rewrite Hd. simpl. eauto 10.
    + unfold sret. eauto 10.
  - simpl. unfold postgres_write, memory_write, on_connection, sbind, st_lift, round_trip, st_get, st_throw, set_contents.
    destruct (to_value_total (data sess)) as [v Hv]. rewrite Hv. simpl.
    pose proof (Hsim (token sess)) as Ht.
    assert (Hins : ∀ row, row_of (token sess) row sess → ∀ tok,
      option_Forall2 (row_of tok) (<[(TYPE, token sess):=row]> t !! (TYPE, tok)) (<[token sess:=sess]> m !! tok)).
    { intros row Hrow tok. destruct (decide (token sess = tok)) as [<-|Hne].
      - rewrite !lookup_insert_eq. by constructor.
      - rewrite !lookup_insert_ne by congruence. apply Hsim. }
    inversion Ht as [row s Hrow Er Es|Er Es]; simpl.
    + destruct n; simpl; [eauto 10|]. eexists. split_and!; [done| |done..]. apply Hins.
      destruct (Hk s) as [Hp He]; [done|]. by apply update_in_sync with s.
    + destruct n; eexists; (split_and!; [done| |done..]); by apply Hins, encode_in_sync.
  - change (store_cleanup now (mkMemory to m)) with (memory_cleanup now (mkMemory to m)).
    rewrite memory_cleanup_view.
    unfold store_cleanup, postgres_store, postgres_cleanup, on_connection, sbind, round_trip, st_get, set_contents.
    simpl. eexists. split_and!; [done| |done..].
    intros tok. simpl. rewrite cleanup_table_lookup. unfold abstract_cleanup. rewrite lookup_omap.
    destruct (Hsim tok); simpl; [by apply cleanup_row_sync|constructor].
Qed.

Lemma sim_run ops : ∀ st (m : gmap string (SessionState T)),
  quiet st → simulates st m → all_keep_progress (pg_timeouts st) m ops →
  (run ops st).1 = (run ops (mkMemory (pg_timeouts st) m)).1.
Proof.
  induction ops as [|o ops IH]; [done|]. intros st m Hq Hs [Hk Hks].
  destruct (sim_step o st m Hq Hs Hk) as (st' & E & Hs' & Ht & Hq' & Hto). simpl. rewrite E.
  destruct (run_op o (mkMemory _ m)) as [a [to' m']]. simpl in *. subst to'.
  rewrite <-Hto in Hks |- *. specialize (IH st' m' Hq' Hs' Hks).
  destruct (run ops st'), (run ops (mkMemory _ m')). simpl in *. by subst.
Qed.

(** C22. As long as connections do not fail and no update changes the progress of
    a session that is in the store, any sequence of reads, writes and cleanups on
    a PostgreSQL store without sessions of this type gives, operation for
    operation, the answers of an empty in-memory store with the same timeouts. *)
Theorem postgres_answers_like_memory (ops : list (op T)) st
    (Hq : quiet st) (He : ∀ tok, table st !! (TYPE (T:=T), tok) = None)
    (Hk : all_keep_progress (pg_timeouts st) ∅ ops) :
  (run ops st).1 = (run ops (memory_new (T:=T) (pg_timeouts st))).1.
Proof. apply sim_run; [done| |done]. intros tok. rewrite He, lookup_empty. constructor. Qed.

(** The life of a session that is created, then finished successfully by an
    update, then looked up after a cleanup. *)
Definition finish_and_read (tok : string) (d0 d1 : T) (t0 t1 now : Z) : list (op T) :=
  [OWrite (mkSessionState d0 tok t0) true; OWrite (mkSessionState d1 tok t1) false; OCleanup now; OGet tok].

#[local] Opaque memory_cleanup.

(** The PostgreSQL store does not record that a session finished: an update
    rewrites the data but not the status column, so a session that was created
    active and then finished successfully is reported as expired, its result
    lost, after the first cleanup past the expiration timeout - where the
    in-memory store keeps such a session unchanged or deletes it. *)
Theorem postgres_update_loses_result (tok : string) (d0 d1 : T) t0 t1 now st
    (Hq : quiet st) (He : table st !! (TYPE (T:=T), tok) = None)
    (H0 : is_expired d0 = false ∧ progress d0 = Active)
    (H1 : is_expired d1 = false ∧ progress d1 = Finished true)
    (Hnow : t1 < now - expiration (pg_timeouts st)) :
  (run (finish_and_read tok d0 d1 t0 t1 now) st).1 !! 3%nat
    = Some (AGet (Ok (Some (mkSessionState (expire d1) tok now)))) ∧
  (run (finish_and_read tok d0 d1 t0 t1 now) (memory_new (pg_timeouts st))).1 !! 3%nat
    = Some (AGet (Ok (if now - successful_deletion (pg_timeouts st) <=? t1
                      then Some (mkSessionState d1 tok t1) else None))).
Proof.
  destruct st as [to [t fs]]. unfold quiet, table in *. simpl in *. subst fs.
  destruct (to_value_total d0) as [v0 V0], (to_value_total d1) as [v1 V1].
  destruct H0 as [E0 P0], H1 as [E1 P1]. unfold finish_and_read. split.
  - unfold run, run_op, store_write, store_cleanup, store_get, postgres_store, postgres_write,
      postgres_cleanup, postgres_get, on_connection, sbind, st_lift, st_get, round_trip, set_contents.
    simpl. rewrite V0. simpl. rewrite He. simpl. rewrite V1. simpl. rewrite lookup_insert_eq. simpl.
    rewrite cleanup_table_lookup, lookup_insert_eq. simpl.
    unfold cleanup_row, is_succeeded_before, is_failed_before, is_active_before. simpl. rewrite P0. simpl.
    rewrite (bool_decide_eq_true_2 (TYPE = TYPE)) by done. simpl.
    rewrite (proj2 (Z.ltb_lt _ _)) by done. simpl.
    unfold decode_row. simpl. by rewrite (from_to_value d1 v1).
  - unfold run, run_op, store_write, store_get, store_cleanup, memory_store, memory_write, memory_get, memory_new.
    cbn [sessions timeouts token]. rewrite lookup_empty.
    cbn [sessions timeouts token]. rewrite lookup_insert_eq, memory_cleanup_view. simpl.
    rewrite insert_insert_eq. unfold abstract_cleanup. rewrite lookup_omap, lookup_insert_eq. simpl.
    unfold cleanup_session, cleanup_keeps, must_expire. simpl. rewrite E1, P1. simpl.
    by destruct (_ <=? t1).
Qed.

#[local] Transparent memory_cleanup.
End Simulation.
End PostgresFacts.

(** ** A concrete kind of session data, for the witnesses *)
Inductive MockData := MockActive | MockSucceeded | MockFailed | MockExpired.

#[global] Instance MockData_progress : HasProgress MockData := λ d,
  match d with MockActive => Active | MockSucceeded => Finished true | _ => Finished false end.
#[global] Instance MockData_expirable : Expirable MockData := {
  is_expired := λ d, match d with MockExpired => true | _ => false end;
  expire := λ _, MockExpired
}.
#[global] Instance MockData_laws : ExpirableLaws MockData.
Proof. split; by intros []. Qed.
#[global] Instance MockData_type : SessionDataType MockData := "mock_data".
#[global] Instance MockData_serde : SerdeJson MockData MockData := { to_value := Some; from_value := Some }.
#[global] Instance MockData_serde_laws : SerdeJsonLaws MockData MockData.
Proof. split; simpl; [naive_solver|eauto]. Qed.

Definition mock_postgres (fs : list bool) : PostgresSessionStore MockData :=
  mkPostgres default_timeouts (Remote ∅ fs).

Definition mock_memory : MemorySessionStore MockData :=
  mkMemory default_timeouts {[ "tok" := mkSessionState MockActive "tok" 0 ]}.

Lemma stale_session_evicted_witness :
  let st1 := (store_cleanup (T:=MockData) (seconds 2000) mock_memory).2 in
  let st2 := (store_cleanup (T:=MockData) (seconds 20000) st1).2 in
  store_get "tok" st2 = (Ok (None (A:=SessionState MockData)), st2).
Proof.
  set (st1 := (store_cleanup (T:=MockData) (seconds 2000) mock_memory).2).
  apply (stale_session_evicted (T:=MockData) mock_memory st1
    (store_cleanup (T:=MockData) (seconds 20000) st1).2
    "tok" (mkSessionState MockActive "tok" 0) (seconds 2000) (seconds 20000) (Ok tt) (Ok tt));
    reflexivity || (vm_compute; congruence).
Defined.

Lemma postgres_atomic_witness :
  table (run_op (T:=MockData) (OCleanup 5) (mock_postgres [false; false; true])).2 = ∅.
Proof.
  apply (postgres_atomic (T:=MockData) (OCleanup 5) (mock_postgres [false; false; true]) Other).
  reflexivity.
Defined.

Definition mock_ops : list (op MockData) :=
  [OWrite (mkSessionState MockActive "a" 0) true; OWrite (mkSessionState MockActive "a" 1) true;
   OWrite (mkSessionState MockActive "a" 2) false; OCleanup (seconds 2000); OGet "a"; OGet "b"].

Lemma postgres_answers_like_memory_witness :
  (run mock_ops (mock_postgres [])).1 = (run mock_ops (memory_new (T:=MockData) default_timeouts)).1.
Proof.
  apply (postgres_answers_like_memory mock_ops (mock_postgres [])); [reflexivity|reflexivity|].
  unfold mock_ops, all_keep_progress, keeps_progress.
  split_and!; try exact I; intros o Ho; vm_compute in Ho; simplify_eq; split; reflexivity.
Defined.

Lemma postgres_update_loses_result_witness :
  let ops := finish_and_read "a" MockActive MockSucceeded 0 10 (seconds 2000) in
  (run ops (mock_postgres [])).1 !! 3%nat = Some (AGet (Ok (Some (mkSessionState MockExpired "a" (seconds 2000))))) ∧
  (run ops (memory_new default_timeouts)).1 !! 3%nat = Some (AGet (Ok None)).
Proof.
  intros ops.
  destruct (postgres_update_loses_result "a" MockActive MockSucceeded 0 10 (seconds 2000) (mock_postgres []))
    as [A B]; [reflexivity|reflexivity|by split|by split|reflexivity|].
  split; [exact A|]. vm_compute in B. vm_compute. exact B.
Defined.
