(* ===== verification/Crypto.v ===== *)
(** * Cryptographic primitives

    The crates [p256], [sha2], [base64], [ring] and [rand] are not part of the
    repository.  The classes below list the functions of them that the code
    calls, with the documented behaviour that the code relies on as laws.  No
    law says that a signature or a digest cannot be forged: theorems that need
    it state what a forgery would be instead.  Byte strings are [string]s. *)
From stdpp Require Import base list option strings.
From Stdlib Require Import ZArith Lia.
From S2P Require Import Prelude.

(** ** ECDSA keys ([p256::ecdsa]) *)
Class Ecdsa := {
  SigningKey : Type;
  VerifyingKey : Type;
  Signature : Type;
  VerifyingKey_eq_dec :: EqDecision VerifyingKey;
  verifying_key : SigningKey → VerifyingKey;
  ecdsa_sign : SigningKey → string → Signature;
  ecdsa_verify : VerifyingKey → string → Signature → bool;
  ecdsa_correct k m : ecdsa_verify (verifying_key k) m (ecdsa_sign k m) = true;
  (** The fixed-size encoding of a signature. *)
  signature_to_bytes : Signature → string;
  signature_from_bytes : string → option Signature;
  signature_from_to s : signature_from_bytes (signature_to_bytes s) = Some s;
  (** The affine coordinates of a public key, and back. *)
  to_point : VerifyingKey → option (string * string);
  from_point : string → string → option VerifyingKey;
  from_to_point k x y : to_point k = Some (x, y) → from_point x y = Some k
}.

(** ** SHA-256 *)
Class Sha256 := sha256 : string → string.

(** ** Base64 *)
Class Base64 := {
  b64_encode : string → string;
  b64_decode : string → option string;
  b64_decode_encode s : b64_decode (b64_encode s) = Some s
}.

(** ** Diffie-Hellman, HKDF and HMAC ([p256::ecdh], [ring]) *)
Class MacLib `{!Ecdsa} := {
  SecretKey : Type;
  HmacKey : Type;
  diffie_hellman : SecretKey → VerifyingKey → string;
  (** [hkdf(ikm, salt, info, len)] *)
  hkdf : string → string → string → Z → option string;
  hmac_key_new : string → HmacKey;
  hmac_verify : HmacKey → string → string → bool
}.

(** ** Dates ([chrono]); instants are in microseconds *)
Class Chrono := {
  to_rfc3339 : Z → string;
  parse_from_rfc3339 : string → option Z;
  (** Printing drops the fraction of a second. *)
  parse_to_rfc3339 t : parse_from_rfc3339 (to_rfc3339 t) = Some (t / 1000000 * 1000000)
}.
