(* ===== verification/Jose.v ===== *)
(** * Keys, JSON web tokens and DPoP

    Models [wallet_common/src/jwt.rs] (signing and verifying JWTs),
    [openid4vc/src/jwt.rs] (JWK conversion) and [openid4vc/src/dpop.rs] (proof
    of possession of the key that an access token is bound to).

    The crates [jsonwebtoken] and [serde_json] are the class [JwtLib], whose laws
    state what their documentation promises. *)
From stdpp Require Import base gmap strings list option.
From Stdlib Require Import ZArith Lia.
From S2P Require Import Prelude Crypto.

(** ** JWKs *)
Inductive EllipticCurve := P256 | OtherCurve.
Inductive AlgorithmParameters :=
  | EllipticCurveParams (curve : EllipticCurve) (x y : string)
  | OtherParams.
Record Jwk := { algorithm : AlgorithmParameters }.

Inductive JwkConversionError :=
  | UnsupportedJwkEcCurve (found : EllipticCurve)
  | UnsupportedJwkAlgorithm
  | Base64Error
  | VerifyingKeyConstruction
  | MissingCoordinate
  | VerifyingKeyFromPrivateKey.

(** ** The [jsonwebtoken] and [base64] crates *)
Inductive Algorithm := ES256 | OtherAlgorithm.
#[global] Instance Algorithm_eq_dec : EqDecision Algorithm.
Proof. solve_decision. Defined.

Record Header := {
  alg : Algorithm;
  typ : option string;
  kid : option string;
  jwk : option Jwk;
  x5c : option (list string)
}.

Record Validation := {
  algorithms : list Algorithm;
  required_spec_claims : list string;
  leeway : Z;
  validate_exp : bool;
  iss : option (list string);
  aud : option (list string)
}.

(** [Validation::new]: requires and checks [exp], with a leeway of a minute. *)
Definition Validation_new (a : Algorithm) : Validation := {|
  algorithms := [a]; required_spec_claims := ["exp"]; leeway := 60; validate_exp := true;
  iss := None; aud := None
|}.

(** [Header::default] with the algorithm set. *)
Definition Header_default (a : Algorithm) : Header := {|
  alg := a; typ := Some "JWT"; kid := None; jwk := None; x5c := None
|}.

Record TokenData (C : Type) := mkTokenData { td_header : Header; td_claims : C }.
Arguments mkTokenData {C}.
Arguments td_header {C}.
Arguments td_claims {C}.

(** Encoding and decoding of tokens with claims of type [C].  [now] is the time
    against which expiry is checked. *)
Class JwtLib (C : Type) `{!Ecdsa} := {
  encode_header : Header → option string;
  encode_claims : C → option string;
  encode_signature : Signature → string;
  decode_header : string → option Header;
  decode : Z → string → VerifyingKey → Validation → option (TokenData C);
  claims_valid : Z → Validation → C → bool;
  decode_header_encoded h eh rest :
    encode_header h = Some eh → decode_header (eh +:+ "." +:+ rest) = Some h;
  decode_encoded now h c eh ec sig vk v :
    encode_header h = Some eh → encode_claims c = Some ec → alg h ∈ algorithms v →
    claims_valid now v c = true → ecdsa_verify vk (eh +:+ "." +:+ ec) sig = true →
    decode now ((eh +:+ "." +:+ ec) +:+ "." +:+ encode_signature sig) vk v = Some (mkTokenData h c)
}.

(** ** [wallet_common::jwt] *)
Inductive JwtError := JsonParsing | JwtValidation | JwtSigning.

Section Jwt.
Context `{!Ecdsa} {C : Type} `{!JwtLib C}.

(** [Jwt::sign]; the key is a software key, which always signs. *)
Definition Jwt_sign (payload : C) (header : Header) (privkey : SigningKey) : outcome JwtError string :=
  let* encoded_header := ok_or JsonParsing (encode_header header) in
  let* encoded_claims := ok_or JsonParsing (encode_claims payload) in
  let message := encoded_header +:+ "." +:+ encoded_claims in
  let signature := ecdsa_sign privkey message in
  Ok (message +:+ "." +:+ encode_signature signature).

(** [Jwt::parse_and_verify] *)
Definition Jwt_parse_and_verify (now : Z) (jwt : string) (pubkey : VerifyingKey) (v : Validation)
    : outcome JwtError C :=
  let* token := ok_or JwtValidation (decode now jwt pubkey v) in
  Ok (td_claims token).

(** [validations()]: no claim is required, in particular not [exp]. *)
Definition validations : Validation := {|
  algorithms := [ES256]; required_spec_claims := []; leeway := 60; validate_exp := true;
  iss := None; aud := None
|}.

(** [Jwt::parse_and_verify_with_sub]: the presence of [sub] is required, its
    value is not looked at. *)
Definition Jwt_parse_and_verify_with_sub (now : Z) (jwt : string) (pubkey : VerifyingKey) : outcome JwtError C :=
  let v := {| algorithms := algorithms validations;
              required_spec_claims := "sub" :: required_spec_claims validations;
              leeway := leeway validations; validate_exp := validate_exp validations;
              iss := iss validations; aud := aud validations |} in
  Jwt_parse_and_verify now jwt pubkey v.

(** The header of [Jwt::sign_with_sub]. *)
Definition header_with_kid : Header := {|
  alg := ES256; typ := Some "JWT"; kid := Some "0"; jwk := None; x5c := None
|}.

(** A token signed with a key verifies under its public key and gives back the
    payload, provided the claims pass the validation options. *)
Lemma Jwt_sign_verify now payload header privkey jwt v :
  Jwt_sign payload header privkey = Ok jwt → alg header ∈ algorithms v → claims_valid now v payload = true →
  decode now jwt (verifying_key privkey) v = Some (mkTokenData header payload).
Proof.
  unfold Jwt_sign. intros Hs Ha Hv. run_ok Hs.
  apply decode_encoded; auto using ecdsa_correct.
Qed.
End Jwt.

(** ** JWK conversion ([openid4vc::jwt]) *)
Section JwkConversion.
Context `{!Ecdsa, !Base64}.

Definition jwk_from_p256 (value : VerifyingKey) : outcome JwkConversionError Jwk :=
  let* xy := ok_or MissingCoordinate (to_point value) in
  let '(x, y) := xy in
  Ok {| algorithm := EllipticCurveParams P256 (b64_encode x) (b64_encode y) |}.

Definition jwk_to_p256 (value : Jwk) : outcome JwkConversionError VerifyingKey :=
  match algorithm value with
  | OtherParams => Err UnsupportedJwkAlgorithm
  | EllipticCurveParams curve x y =>
      match curve with
      | P256 =>
          let* x := ok_or Base64Error (b64_decode x) in
          let* y := ok_or Base64Error (b64_decode y) in
          ok_or VerifyingKeyConstruction (from_point x y)
      | _ => Err (UnsupportedJwkEcCurve curve)
      end
  end.

Definition jwk_jwt_header (t : string) (key : SigningKey) : outcome JwkConversionError Header :=
  let* j := jwk_from_p256 (verifying_key key) in
  Ok {| alg := ES256; typ := Some t; kid := None; jwk := Some j; x5c := None |}.

Lemma jwk_round_trip k j : jwk_from_p256 k = Ok j → jwk_to_p256 j = Ok k.
Proof.
  unfold jwk_from_p256. destruct (to_point k) as [[x y]|] eqn:P; simpl; [|done].
  intros [= <-]. unfold jwk_to_p256. simpl. rewrite !b64_decode_encode. simpl.
  by rewrite (from_to_point k).
Qed.
End JwkConversion.

(** ** Access tokens ([openid4vc::token]) *)
Abbreviation AuthorizationCode := string (only parsing).
Abbreviation AccessToken := string (only parsing).

(** UTF-8 continuation bytes are 0x80-0xBF; [str::get] refuses to cut in front of one. *)
Definition is_continuation_byte (a : Ascii.ascii) : bool :=
  let n := Ascii.nat_of_ascii a in (128 <=? Z.of_nat n) && (Z.of_nat n <? 192).

Definition starts_char (s : string) : bool :=
  match s with EmptyString => true | String a _ => negb (is_continuation_byte a) end.

(** [s.get(n..)] *)
Fixpoint str_get_from (n : nat) (s : string) : option string :=
  match n, s with
  | O, _ => if starts_char s then Some s else None
  | S n, String _ s => str_get_from n s
  | S _, EmptyString => None
  end.

(** [AccessToken::new] on a random prefix of 32 characters. *)
Definition AccessToken_new (random : string) (code : AuthorizationCode) : AccessToken := random +:+ code.

(** [AccessToken::code] *)
Definition AccessToken_code (t : AccessToken) : option AuthorizationCode := str_get_from 32 t.

Lemma str_get_from_app (r s : string) : starts_char s = true → str_get_from (String.length r) (r +:+ s) = Some s.
Proof.
  intros Hc. induction r as [|a r IH]; [|exact IH].
  change (String.length "") with O. change ("" +:+ s) with s. destruct s; simpl in *; by rewrite ?Hc.
Qed.

(** ** DPoP *)
Inductive DpopError :=
  | UnsupportedJwtAlgorithm (expected : string) (found : option string)
  | IncorrectMethod | IncorrectUrl | IncorrectNonce | IncorrectAccessTokenHash
  | MissingJwk | IncorrectJwkPublicKey
  | JwkConversion (e : JwkConversionError)
  | JwtDecodingFailed
  | DpopJwt (e : JwtError).

Record DpopPayload := {
  http_url : string;
  http_method : string;
  access_token_hash : option string;
  nonce : option string;
  jti : string;
  iat : Z
}.

Definition OPENID4VCI_DPOP_JWT_TYPE : string := "dpop+jwt".

Section Dpop.
Context `{!Ecdsa, !Base64, !Sha256, !JwtLib DpopPayload}.

(** [Dpop::new]; [random] is the fresh [jti]. *)
Definition Dpop_new (random : string) (now : Z) (private_key : SigningKey) (url method : string)
    (access_token : option AccessToken) (n : option string) : outcome DpopError string :=
  let* header := map_err JwkConversion (jwk_jwt_header OPENID4VCI_DPOP_JWT_TYPE private_key) in
  let payload := {| jti := random; iat := now; http_method := method; http_url := url; nonce := n;
                    access_token_hash := sha256 <$> access_token |} in
  map_err DpopJwt (Jwt_sign payload header private_key).

(** [Dpop::verify_signature] *)
Definition Dpop_validation : Validation := {|
  algorithms := [ES256]; required_spec_claims := []; leeway := 60; validate_exp := true;
  iss := None; aud := None
|}.
Definition Dpop_verify_signature (now : Z) (dpop : string) (key : VerifyingKey)
    : outcome DpopError (TokenData DpopPayload) :=
  ok_or JwtDecodingFailed (decode now dpop key Dpop_validation).

(** [Dpop::verify_data] *)
Definition Dpop_verify_data (token_data : TokenData DpopPayload) (url method : string)
    (access_token : option AccessToken) (n : option string) : outcome DpopError unit :=
  let* _ := guard_err (bool_decide (typ (td_header token_data) = Some OPENID4VCI_DPOP_JWT_TYPE))
              (UnsupportedJwtAlgorithm OPENID4VCI_DPOP_JWT_TYPE (typ (td_header token_data))) in
  let* _ := guard_err (bool_decide (http_method (td_claims token_data) = method)) IncorrectMethod in
  let* _ := guard_err (bool_decide (http_url (td_claims token_data) = url)) IncorrectUrl in
  let* _ := guard_err (bool_decide (access_token_hash (td_claims token_data) = sha256 <$> access_token))
              IncorrectAccessTokenHash in
  guard_err (bool_decide (nonce (td_claims token_data) = n)) IncorrectNonce.

(** [Dpop::verify]: under the key in the token's own header, which is returned. *)
Definition Dpop_verify (now : Z) (dpop url method : string) (access_token : option AccessToken)
    : outcome DpopError VerifyingKey :=
  let* header := ok_or JwtDecodingFailed (decode_header dpop) in
  let* j := ok_or MissingJwk (jwk header) in
  let* verifying_key := map_err JwkConversion (jwk_to_p256 j) in
  let* token_data := Dpop_verify_signature now dpop verifying_key in
  let* _ := Dpop_verify_data token_data url method access_token None in
  Ok verifying_key.

(** [Dpop::verify_expecting_key] *)
Definition Dpop_verify_expecting_key (now : Z) (dpop : string) (expected : VerifyingKey) (url method : string)
    (access_token : option AccessToken) (n : option string) : outcome DpopError unit :=
  let* token_data := Dpop_verify_signature now dpop expected in
  let* _ := Dpop_verify_data token_data url method access_token n in
  let* j := ok_or MissingJwk (jwk (td_header token_data)) in
  let* contained_key := map_err JwkConversion (jwk_to_p256 j) in
  guard_err (bool_decide (contained_key = expected)) IncorrectJwkPublicKey.

Lemma verify_data_Ok td url method at_ n u :
  Dpop_verify_data td url method at_ n = Ok u ↔
    typ (td_header td) = Some OPENID4VCI_DPOP_JWT_TYPE ∧ http_method (td_claims td) = method ∧
    http_url (td_claims td) = url ∧ access_token_hash (td_claims td) = sha256 <$> at_ ∧
    nonce (td_claims td) = n.
Proof.
  unfold Dpop_verify_data. split.
  - intros Hd. run_ok Hd. zbool. done.
  - intros (-> & -> & -> & -> & ->). rewrite !bool_decide_eq_true_2 by done. by destruct u.
Qed.

(** What a DPoP that is accepted for an access token proves. *)
Lemma verify_expecting_key_Ok now dpop k url method at_ n u :
  Dpop_verify_expecting_key now dpop k url method at_ n = Ok u →
  ∃ td, decode now dpop k Dpop_validation = Some td ∧
    http_method (td_claims td) = method ∧ http_url (td_claims td) = url ∧
    access_token_hash (td_claims td) = sha256 <$> at_ ∧ nonce (td_claims td) = n.
Proof.
  unfold Dpop_verify_expecting_key, Dpop_verify_signature. intros Hd. run_ok Hd.
  eexists. split; [done|]. apply verify_data_Ok in Hrun0. naive_solver.
Qed.
End Dpop.
