(* ===== verification/Cbor.v ===== *)
(** * CBOR serialization

    Models [mdoc/src/utils/serialization.rs]: the wrapper types that change how
    a value is serialized.  The crate [ciborium] is the class [Ciborium], which
    turns values of its type [Value] into bytes and back; what [serde] derives
    for a struct is written out as an instance of [SerdeCbor].  The derived
    deserializers are modelled on maps with text keys; byte strings are
    [string]s. *)
From stdpp Require Import base list option strings sets countable pretty.
From Stdlib Require Import ZArith Lia.
From S2P Require Import Prelude IndexMap.

(** ** Values ([ciborium::value::Value]) *)
Inductive Value :=
  | VInteger (n : Z)
  | VBytes (b : string)
  | VText (s : string)
  | VFloat (bits : Z)
  | VBool (b : bool)
  | VNull
  | VTag (t : Z) (v : Value)
  | VArray (l : list Value)
  | VMap (l : list (Value * Value)).

(** Equality of 64-bit floats given by their bits: NaN differs from itself and
    the two zeros are equal. *)
Definition float_is_nan (b : Z) : bool :=
  (Z.land b (2 ^ 63 - 1) >? Z.shiftl 2047 52).
Definition float_eqb (a b : Z) : bool :=
  negb (float_is_nan a) && negb (float_is_nan b)
  && ((a =? b) || ((Z.land a (2 ^ 63 - 1) =? 0) && (Z.land b (2 ^ 63 - 1) =? 0))).

(** The derived [PartialEq] of [Value]. *)
Fixpoint value_eqb (v w : Value) {struct v} : bool :=
  match v, w with
  | VInteger n, VInteger m => n =? m
  | VBytes a, VBytes b | VText a, VText b => bool_decide (a = b)
  | VFloat a, VFloat b => float_eqb a b
  | VBool a, VBool b => Bool.eqb a b
  | VNull, VNull => true
  | VTag t v, VTag u w => (t =? u) && value_eqb v w
  | VArray l, VArray k =>
      (fix go l k := match l, k with
        | [], [] => true
        | v :: l, w :: k => value_eqb v w && go l k
        | _, _ => false
        end) l k
  | VMap l, VMap k =>
      (fix go l k := match l, k with
        | [], [] => true
        | (a, b) :: l, (c, d) :: k => value_eqb a c && value_eqb b d && go l k
        | _, _ => false
        end) l k
  | _, _ => false
  end.

Definition is_null (v : Value) : bool := match v with VNull => true | _ => false end.
Definition as_bytes (v : Value) : option string := match v with VBytes b => Some b | _ => None end.
Definition as_text (v : Value) : option string := match v with VText s => Some s | _ => None end.
Definition as_integer (v : Value) : option Z := match v with VInteger n => Some n | _ => None end.

(** ** The crates [ciborium] and [serde] *)
Class Ciborium := {
  into_writer : Value → option string;
  from_reader : string → option Value;
  from_into v b : into_writer v = Some b → from_reader b = Some v
}.

(** [Serialize] and [Deserialize] through [Value]. *)
Class SerdeCbor (T : Type) := {
  serialized : T → option Value;
  deserialized : Value → option T
}.
(** Deserializing gives back the value, where the value satisfies the invariant
    of its type ([serde_wf]: the keys of a map are distinct). *)
Class SerdeCborLaws (T : Type) `{!SerdeCbor T} := {
  serde_wf : T → Prop;
  deserialized_serialized (x : T) v : serde_wf x → serialized x = Some v → deserialized v = Some x
}.

(** [serde_introspect]: the names of the fields of a struct. *)
Class Fields (T : Type) := fields : list string.

Inductive CborError := CborDeserialization | CborSerialization.

Definition cbor_serialize `{!Ciborium} {T} `{!SerdeCbor T} (o : T) : outcome CborError string :=
  ok_or CborSerialization (serialized o ≫= into_writer).
Definition cbor_deserialize `{!Ciborium} {T} `{!SerdeCbor T} (bts : string) : outcome CborError T :=
  ok_or CborDeserialization (from_reader bts ≫= deserialized).

Lemma cbor_round_trip `{!Ciborium} {T} `{!SerdeCbor T, !SerdeCborLaws T} (o : T) bts :
  serde_wf o → cbor_serialize o = Ok bts → cbor_deserialize bts = Ok o.
Proof.
  unfold cbor_serialize, cbor_deserialize. intros Hwf Hs. run_ok Hs.
  apply bind_Some in Hs as (v & Hv & Hb). rewrite (from_into _ _ Hb). simpl.
  by rewrite (deserialized_serialized _ _ Hwf Hv).
Qed.

(** *** Strings, byte strings and integers *)
#[global] Instance serde_string : SerdeCbor string := {|
  serialized s := Some (VText s); deserialized := as_text |}.
#[global] Instance serde_string_laws : SerdeCborLaws string.
Proof. refine {| serde_wf _ := True |}. intros x v _. simpl. by intros [= <-]. Defined.

Record ByteBuf := mkByteBuf { bytes : string }.
#[global] Instance ByteBuf_eq_dec : EqDecision ByteBuf.
Proof. solve_decision. Defined.
#[global] Instance serde_bytebuf : SerdeCbor ByteBuf := {|
  serialized b := Some (VBytes (bytes b)); deserialized v := mkByteBuf <$> as_bytes v |}.
#[global] Instance serde_bytebuf_laws : SerdeCborLaws ByteBuf.
Proof. refine {| serde_wf _ := True |}. intros [b] v _. simpl. by intros [= <-]. Defined.

#[global] Instance serde_value : SerdeCbor Value := {| serialized := Some; deserialized := Some |}.
#[global] Instance serde_value_laws : SerdeCborLaws Value.
Proof. refine {| serde_wf _ := True |}. intros x v _. simpl. by intros [= <-]. Defined.

(** [u64] *)
Definition in_u64 (n : Z) : bool := in_range 64 n.
Definition serialize_u64 (n : Z) : option Value := if in_u64 n then Some (VInteger n) else None.
Definition deserialize_u64 (v : Value) : option Z :=
  match v with VInteger n => if in_u64 n then Some n else None | _ => None end.
Lemma deserialize_serialize_u64 n v : serialize_u64 n = Some v → deserialize_u64 v = Some n.
Proof. unfold serialize_u64, deserialize_u64. destruct (in_u64 n) eqn:E; [|done]. intros [= <-]. by rewrite E. Qed.

(** *** Sequences and optional values *)
#[global] Instance serde_list {T} `{!SerdeCbor T} : SerdeCbor (list T) := {|
  serialized l := VArray <$> mapM serialized l;
  deserialized v := match v with VArray l => mapM deserialized l | _ => None end |}.
Lemma list_round_trip {T} `{!SerdeCbor T, !SerdeCborLaws T} (l : list T) (vs : list Value) :
  Forall serde_wf l → mapM serialized l = Some vs → mapM deserialized vs = Some l.
Proof.
  rewrite !mapM_Some. intros Hwf Hvs. apply Forall2_flip.
  induction Hvs as [|x v l vs Hx Hvs IH]; constructor; inversion Hwf; subst.
  - by apply deserialized_serialized.
  - by apply IH.
Qed.
#[global] Instance serde_list_laws {T} `{!SerdeCbor T, !SerdeCborLaws T} : SerdeCborLaws (list T).
Proof.
  refine {| serde_wf := Forall serde_wf |}. intros l v Hwf. simpl. intros Hv.
  apply fmap_Some in Hv as (vs & Hvs & ->). by apply list_round_trip.
Defined.

(** [Option<T>] of a [T] that never serializes to null. *)
Definition serialize_option {T} `{!SerdeCbor T} (o : option T) : option Value :=
  match o with None => Some VNull | Some x => serialized x end.
Definition deserialize_option {T} `{!SerdeCbor T} (v : Value) : option (option T) :=
  if is_null v then Some None else Some <$> deserialized v.
Class NeverNull (T : Type) `{!SerdeCbor T} := never_null (x : T) v : serialized x = Some v → is_null v = false.

Lemma deserialize_serialize_option {T} `{!SerdeCbor T, !SerdeCborLaws T, !NeverNull T} (o : option T) v :
  from_option serde_wf True o → serialize_option o = Some v → deserialize_option v = Some o.
Proof.
  unfold deserialize_option. destruct o as [x|]; simpl; intros Hwf.
  - intros Hv. rewrite (never_null _ _ Hv), (deserialized_serialized _ _ Hwf Hv). done.
  - by intros [= <-].
Qed.

(** *** Maps: an [IndexMap] of keys and values that serialize *)
Section SerdeMap.
Context {K V : Type} `{!EqDecision K}.
Variables (sk : K → option Value) (sv : V → option Value) (dk : Value → option K) (dv : Value → option V).

Definition serialize_entry (kv : K * V) : option (Value * Value) :=
  k ← sk kv.1; v ← sv kv.2; Some (k, v).
Definition deserialize_entry (kv : Value * Value) : option (K * V) :=
  k ← dk kv.1; v ← dv kv.2; Some (k, v).
Definition serialize_map (m : imap K V) : option Value := VMap <$> mapM serialize_entry m.
Definition deserialize_map (v : Value) : option (imap K V) :=
  match v with VMap l => im_collect <$> mapM deserialize_entry l | _ => None end.

Lemma deserialize_serialize_map (m : imap K V) v :
  (∀ k w, sk k = Some w → dk w = Some k) →
  Forall (λ kv, ∀ w, sv kv.2 = Some w → dv w = Some kv.2) m →
  NoDup m.*1 → serialize_map m = Some v → deserialize_map v = Some m.
Proof.
  intros Hk Hv Hd. unfold serialize_map, deserialize_map. intros Hs.
  apply fmap_Some in Hs as (l & Hl & ->). apply mapM_Some in Hl.
  assert (mapM deserialize_entry l = Some m) as ->.
  { apply mapM_Some, Forall2_flip. clear Hd. induction Hl as [|[k x] [w y] m l Hx Hl IH]; constructor.
    - unfold serialize_entry, deserialize_entry in *. simpl in *.
      apply bind_Some in Hx as (w' & Hw & Hx). apply bind_Some in Hx as (y' & Hy & [= <- <-]).
      rewrite (Hk _ _ Hw). simpl. inversion Hv as [|? ? Hv1 Hv2]; subst. simpl in Hv1. by rewrite (Hv1 _ Hy).
    - apply IH. by inversion Hv. }
  simpl. by rewrite im_collect_id.
Qed.
End SerdeMap.

(** *** Structs *)

(** The entries of a struct, in the order of its fields. *)
Definition struct_value (l : list (string * Value)) : Value := VMap ((λ kv, (VText kv.1, kv.2)) <$> l).

(** The values stored under a field name; [None] when some key is not a text. *)
Fixpoint field_values (name : string) (l : list (Value * Value)) : option (list Value) :=
  match l with
  | [] => Some []
  | (VText k, v) :: l => vs ← field_values name l; Some (if String.eqb k name then v :: vs else vs)
  | _ :: _ => None
  end.

(** A field that must be present, exactly once. *)
Definition required_field (name : string) (l : list (Value * Value)) : option Value :=
  match field_values name l with Some [v] => Some v | _ => None end.
(** A field of type [Option<_>]: absent, or present once. *)
Definition optional_field (name : string) (l : list (Value * Value)) : option Value :=
  match field_values name l with Some [] => Some VNull | Some [v] => Some v | _ => None end.

Definition entries (v : Value) : option (list (Value * Value)) := match v with VMap l => Some l | _ => None end.

(** ** [TaggedBytes]: a CBOR value inside a byte string, with tag 24 *)
Definition CBOR_TAG_ENC_CBOR : Z := 24.
Record TaggedBytes (T : Type) := mkTagged { untag : T }.
Arguments mkTagged {T}.
Arguments untag {T}.

#[global] Instance serde_tagged_bytes `{!Ciborium} {T} `{!SerdeCbor T} : SerdeCbor (TaggedBytes T) := {|
  serialized t :=
    match cbor_serialize (untag t) with
    | Ok buf => Some (VTag CBOR_TAG_ENC_CBOR (VBytes buf))
    | _ => None
    end;
  deserialized v :=
    match v with
    | VTag t (VBytes buf) =>
        if t =? CBOR_TAG_ENC_CBOR
        then match cbor_deserialize buf with Ok x => Some (mkTagged x) | _ => None end
        else None
    | _ => None
    end
|}.
#[global] Instance serde_tagged_bytes_laws `{!Ciborium} {T} `{!SerdeCbor T, !SerdeCborLaws T} :
  SerdeCborLaws (TaggedBytes T).
Proof.
  refine {| serde_wf t := serde_wf (untag t) |}.
  intros [x] v Hwf. simpl. destruct (cbor_serialize x) as [buf| |] eqn:E; [|done..]. intros [= <-].
  simpl. by rewrite (cbor_round_trip _ _ Hwf E).
Defined.

(** ** [CborSeq]: the values of a struct without their names *)
Record CborSeq (T : Type) := mkSeq { seq : T }.
Arguments mkSeq {T}.
Arguments seq {T}.

(** The serializer panics when the struct does not serialize to a map. *)
Definition CborSeq_serialize {T} `{!SerdeCbor T} (s : CborSeq T) : outcome CborError Value :=
  let* v := ok_or CborSerialization (serialized (seq s)) in
  match v with
  | VMap map => Ok (VArray map.*2)
  | _ => Panic
  end.
Definition CborSeq_deserialize {T} `{!SerdeCbor T, !Fields T} (v : Value) : outcome CborError (CborSeq T) :=
  let* values := ok_or CborDeserialization (match v with VArray l => Some l | _ => None end) in
  let named := VMap (zip (VText <$> fields (T:=T)) values) in
  let* x := ok_or CborDeserialization (deserialized named) in
  Ok (mkSeq x).

(** A struct all of whose fields are always serialized, in order. *)
Class PlainStruct (T : Type) `{!SerdeCbor T, !Fields T} :=
  serialized_plain (x : T) v : serialized x = Some v →
    ∃ vs, v = struct_value (zip (fields (T:=T)) vs) ∧ length vs = length (fields (T:=T)).

#[global] Instance serde_seq {T} `{!SerdeCbor T, !Fields T} : SerdeCbor (CborSeq T) := {|
  serialized s := match CborSeq_serialize s with Ok v => Some v | _ => None end;
  deserialized v := match CborSeq_deserialize v with Ok x => Some x | _ => None end
|}.

Section CborSeqFacts.
Context {T : Type} `{!SerdeCbor T, !Fields T, !SerdeCborLaws T, !PlainStruct T}.

Lemma CborSeq_never_panics (s : CborSeq T) : CborSeq_serialize s ≠ Panic.
Proof.
  unfold CborSeq_serialize. destruct (serialized (seq s)) as [v|] eqn:E; simpl; [|done].
  by apply serialized_plain in E as (vs & -> & _).
Qed.

Lemma struct_values (names : list string) (vs : list Value) : length vs = length names →
  ((λ kv : string * Value, (VText kv.1, kv.2)) <$> zip names vs).*2 = vs.
Proof.
  intros Hl. rewrite <-list_fmap_compose.
  rewrite (list_fmap_ext _ snd) by done. apply snd_zip. lia.
Qed.

Lemma struct_zip (names : list string) (vs : list Value) :
  zip (VText <$> names) vs = (λ kv : string * Value, (VText kv.1, kv.2)) <$> zip names vs.
Proof. revert vs. induction names as [|n names IH]; intros [|v vs]; csimpl; [done..|]. by rewrite IH. Qed.

Lemma CborSeq_round_trip (s : CborSeq T) v :
  serde_wf (seq s) → CborSeq_serialize s = Ok v → CborSeq_deserialize v = Ok s.
Proof.
  destruct s as [x]. intros Hwf. unfold CborSeq_serialize, CborSeq_deserialize. simpl.
  destruct (serialized x) as [w|] eqn:E; simpl; [|done].
  destruct (serialized_plain _ _ E) as (vs & -> & Hl). intros [= <-].
  simpl. rewrite struct_values by done. rewrite struct_zip.
  apply deserialized_serialized in E; [|done]. unfold struct_value in E. by rewrite E.
Qed.

#[global] Instance serde_seq_laws : SerdeCborLaws (CborSeq T).
Proof.
  refine {| serde_wf s := serde_wf (seq s) |}.
  intros s v Hwf. simpl. destruct (CborSeq_serialize s) as [w| |] eqn:E; [|done..]. intros [= ->].
  by rewrite (CborSeq_round_trip _ _ Hwf E).
Defined.

#[global] Instance seq_never_null : NeverNull (CborSeq T).
Proof.
  intros [s] v. simpl. unfold CborSeq_serialize. simpl. destruct (serialized s) as [[]|]; simpl; try done.
  by intros [= <-].
Qed.
End CborSeqFacts.

(** ** [CborIntMap]: a struct with the index of each field as its key *)
Record CborIntMap (T : Type) := mkIntMap { int_map : T }.
Arguments mkIntMap {T}.
Arguments int_map {T}.

(** The key written for the field with index [i]. *)
Definition index_key (STRING : bool) (i : Z) : Value :=
  if STRING then VText (pretty (Z.to_N i)) else VInteger i.

Section CborIntMap.
Context {T : Type} `{!SerdeCbor T, !Fields T}.
Variable STRING : bool.

Definition field_name_indices : imap string Value :=
  im_collect ((λ p : Z * string, (p.2, index_key STRING p.1)) <$> enumerate (fields (T:=T))).

(** The serializer panics on a key that is not the name of a field. *)
Definition index_entry (entry : Value * Value) : outcome CborError (Value * Value) :=
  let* name := unwrap (as_text entry.1) in
  let* index := unwrap (im_get field_name_indices name) in
  Ok (index, entry.2).

Definition CborIntMap_serialize (m : CborIntMap T) : outcome CborError Value :=
  let* v := ok_or CborSerialization (serialized (int_map m)) in
  match v with
  | VMap map =>
      let* map := try_map index_entry (filter (λ entry, is_null entry.2 = false) map) in
      Ok (VMap map)
  | _ => Panic
  end.

(** [usize::try_from] on an integer, then the field at that position. *)
Definition name_entry (entry : Value * Value) : outcome CborError (Value * Value) :=
  let* index := ok_or CborDeserialization (as_integer entry.1) in
  let* _ := guard_err (in_range 64 index) CborDeserialization in
  let* fieldname := ok_or CborDeserialization (fields (T:=T) !! Z.to_nat index) in
  Ok (VText fieldname, entry.2).

Definition CborIntMap_deserialize (v : Value) : outcome CborError (CborIntMap T) :=
  let* ordered_map := ok_or CborDeserialization (entries v) in
  let* with_fieldnames := try_map name_entry ordered_map in
  let* x := ok_or CborDeserialization (deserialized (VMap with_fieldnames)) in
  Ok (mkIntMap x).
End CborIntMap.

#[global] Instance serde_int_map {T} `{!SerdeCbor T, !Fields T} : SerdeCbor (CborIntMap T) := {|
  serialized m := match CborIntMap_serialize false m with Ok v => Some v | _ => None end;
  deserialized v := match CborIntMap_deserialize v with Ok x => Some x | _ => None end
|}.

(** A struct whose optional fields are skipped when absent: its entries are
    named after distinct fields and none of them is null. *)
Class SkippingStruct (T : Type) `{!SerdeCbor T, !Fields T} := {
  fields_NoDup : NoDup (fields (T:=T));
  fields_fit : Z.of_nat (length (fields (T:=T))) < 2 ^ 64;
  serialized_skipping (x : T) v : serialized x = Some v →
    ∃ l, v = struct_value l ∧ Forall (λ kv, kv.1 ∈ fields (T:=T) ∧ is_null kv.2 = false) l
}.

Section CborIntMapFacts.
Context {T : Type} `{!SerdeCbor T, !Fields T, !SerdeCborLaws T, !SkippingStruct T}.

Lemma im_get_indices (names : list string) i j name : NoDup names → names !! j = Some name →
  im_get (im_collect ((λ p : Z * string, (p.2, VInteger p.1)) <$> enumerate_from i names)) name
    = Some (VInteger (i + Z.of_nat j)).
Proof.
  intros Hd Hj. rewrite im_collect_id.
  - revert i j Hj Hd. induction names as [|n names IH]; intros i j; [done|].
    intros Hj Hd. apply NoDup_cons in Hd as [Hn Hd]. destruct j as [|j]; csimpl.
    + injection Hj as ->. rewrite decide_True by done. do 2 f_equal. lia.
    + rewrite decide_False.
      * rewrite (IH (i + 1) j) by done. do 2 f_equal. lia.
      * intros ->. by apply Hn, (list_elem_of_lookup_2 _ j).
  - rewrite <-list_fmap_compose. rewrite (list_fmap_ext _ snd) by done. by rewrite enumerate_from_snd.
Qed.

Lemma index_name_entry (k : string) (v : Value) : k ∈ fields (T:=T) →
  ∃ e, index_entry (T:=T) false (VText k, v) = Ok e ∧ name_entry (T:=T) e = Ok (VText k, v).
Proof.
  intros Hk. apply list_elem_of_lookup in Hk as [j Hj].
  unfold index_entry, field_name_indices, enumerate, index_key. simpl.
  rewrite (im_get_indices _ 0 j k) by (apply fields_NoDup || done). simpl. eexists. split; [done|].
  unfold name_entry. simpl.
  assert (in_range 64 (0 + Z.of_nat j) = true) as ->.
  { apply in_range_spec. pose proof fields_fit as Hf. apply lookup_lt_Some in Hj. lia. }
  cbn [guard_err obind]. rewrite Z.add_0_l, Nat2Z.id, Hj. done.
Qed.

Lemma index_name_entries (l : list (string * Value)) :
  Forall (λ kv, kv.1 ∈ fields (T:=T) ∧ is_null kv.2 = false) l →
  ∃ es, try_map (index_entry (T:=T) false) ((λ kv, (VText kv.1, kv.2)) <$> l) = Ok es ∧
    try_map (name_entry (T:=T)) es = Ok ((λ kv, (VText kv.1, kv.2)) <$> l).
Proof.
  induction 1 as [|[k v] l [Hk Hv] _ (es & H1 & H2)]; [by exists []|].
  simpl in Hk, Hv. destruct (index_name_entry k v Hk) as (e & E1 & E2).
  exists (e :: es). csimpl. rewrite E1. simpl. rewrite H1. simpl. rewrite E2. simpl. by rewrite H2.
Qed.

Lemma CborIntMap_serialize_struct (x : T) v : serialized x = Some v →
  ∃ es, CborIntMap_serialize false (mkIntMap x) = Ok (VMap es) ∧
    ∃ l, v = VMap l ∧ try_map (name_entry (T:=T)) es = Ok l.
Proof.
  intros Hx. destruct (serialized_skipping _ _ Hx) as (l & -> & Hl).
  destruct (index_name_entries _ Hl) as (es & H1 & H2).
  exists es. unfold CborIntMap_serialize. simpl. rewrite Hx. simpl.
  rewrite filter_all.
  - rewrite H1. split; [done|]. by eexists.
  - apply Forall_fmap. eapply Forall_impl; [exact Hl|]. naive_solver.
Qed.

Lemma CborIntMap_round_trip_full (m : CborIntMap T) : serde_wf (int_map m) →
  CborIntMap_serialize false m ≠ Panic ∧
  ∀ v, CborIntMap_serialize false m = Ok v → CborIntMap_deserialize v = Ok m.
Proof.
  destruct m as [x]. simpl. intros Hwf. destruct (serialized x) as [w|] eqn:E.
  - destruct (CborIntMap_serialize_struct _ _ E) as (es & S & l & -> & N).
    rewrite S. split; [done|]. intros v [= <-]. unfold CborIntMap_deserialize. simpl.
    rewrite N. simpl. by rewrite (deserialized_serialized _ _ Hwf E).
  - unfold CborIntMap_serialize. simpl. by rewrite E.
Qed.

#[global] Instance serde_int_map_laws : SerdeCborLaws (CborIntMap T).
Proof.
  refine {| serde_wf m := serde_wf (int_map m) |}.
  intros m v Hwf. simpl. destruct (CborIntMap_serialize false m) as [w| |] eqn:E; [|done..]. intros [= ->].
  by rewrite (proj2 (CborIntMap_round_trip_full m Hwf) _ E).
Defined.
End CborIntMapFacts.

(** ** [RequiredValue]: a constant *)
Class RequiredValueTrait (R : Type) := REQUIRED_VALUE : string.
Record RequiredValue (R : Type) := mkRequired {}.
Arguments mkRequired {R}.

(** For constants that are texts; other values are refused. *)
#[global] Instance serde_required {R} `{!RequiredValueTrait R} : SerdeCbor (RequiredValue R) := {|
  serialized _ := Some (VText (REQUIRED_VALUE (R:=R)));
  deserialized v :=
    found ← as_text v;
    if decide (found = REQUIRED_VALUE (R:=R)) then Some mkRequired else None
|}.
#[global] Instance serde_required_laws {R} `{!RequiredValueTrait R} : SerdeCborLaws (RequiredValue R).
Proof. refine {| serde_wf _ := True |}. intros [] v _. simpl. intros [= <-]. simpl. by rewrite decide_True. Defined.

Inductive DeviceAuthenticationString := .
#[global] Instance device_authentication_string : RequiredValueTrait DeviceAuthenticationString := "DeviceAuthentication".
Inductive ReaderAuthenticationString := .
#[global] Instance reader_authentication_string : RequiredValueTrait ReaderAuthenticationString := "ReaderAuthentication".

(** ** Dates: [Tdate], a text with tag 0 *)
Record Tdate := mkTdate { tdate : string }.
#[global] Instance Tdate_eq_dec : EqDecision Tdate.
Proof. solve_decision. Defined.
#[global] Instance serde_tdate : SerdeCbor Tdate := {|
  serialized d := Some (VTag 0 (VText (tdate d)));
  deserialized v := match v with VTag 0 (VText s) => Some (mkTdate s) | _ => None end
|}.
#[global] Instance serde_tdate_laws : SerdeCborLaws Tdate.
Proof. refine {| serde_wf _ := True |}. intros [s] v _. simpl. by intros [= <-]. Defined.

(** ** Origin infos *)
Inductive OriginInfoType := Website (url : string) | OnDeviceQRCode | MessageData.
#[global] Instance OriginInfoType_eq_dec : EqDecision OriginInfoType.
Proof. solve_decision. Defined.

(** The entries that an origin info type contributes to its origin info. *)
Definition serialize_origin_info_type (t : OriginInfoType) : list (string * Value) :=
  match t with
  | Website url => [("type", VInteger 1); ("Details", struct_value [("ReferrerUrl", VText url)])]
  | OnDeviceQRCode => [("type", VInteger 2); ("Details", VNull)]
  | MessageData => [("type", VInteger 4); ("Details", VNull)]
  end.

(** [Url]s are texts that the crate [url] parses; parsing is the argument [parse_url]. *)
Definition deserialize_origin_info_type (parse_url : string → option string) (l : list (Value * Value))
    : option OriginInfoType :=
  typ ← (v ← required_field "type" l; deserialize_u64 v);
  details ← required_field "Details" l;
  if typ =? 1 then
    l ← entries details;
    url ← (v ← required_field "ReferrerUrl" l; s ← as_text v; parse_url s);
    Some (Website url)
  else if typ =? 2 then Some OnDeviceQRCode
  else if typ =? 4 then Some MessageData
  else None.

Lemma origin_info_type_round_trip parse_url (t : OriginInfoType) :
  (∀ url, t = Website url → parse_url url = Some url) →
  deserialize_origin_info_type parse_url ((λ kv, (VText kv.1, kv.2)) <$> serialize_origin_info_type t) = Some t.
Proof. intros Hu. destruct t; try reflexivity. vm_compute. by rewrite (Hu _ eq_refl). Qed.
