(* ===== verification/Cose.v ===== *)
(** * Certificates, COSE keys and COSE signatures

    Models [mdoc/src/utils/crypto.rs] (COSE keys, digests, MAC keys),
    [mdoc/src/utils/x509.rs] (certificates), [mdoc/src/utils/cose.rs] (signing
    and verifying COSE structures) and [mdoc/src/server_keys.rs].  The crate
    [coset] is the class [Coset]; the crates [webpki] and [x509_parser] are the
    class [X509Lib]. *)
From stdpp Require Import base list option strings sets.
From Stdlib Require Import ZArith Lia.
From S2P Require Import Prelude IndexMap Crypto Cbor.

(** ** COSE structures ([coset]) *)
Inductive Label := LInt (n : Z) | LText (s : string).
#[global] Instance Label_eq_dec : EqDecision Label.
Proof. solve_decision. Defined.

Inductive KeyType := EC2 | OtherKeyType (n : Z).
#[global] Instance KeyType_eq_dec : EqDecision KeyType.
Proof. solve_decision. Defined.

Record CoseKey := mkCoseKey { kty : KeyType; params : list (Label * Value) }.

(** [CoseKeyBuilder::new_ec2_pub_key(P_256, x, y)] *)
Definition new_ec2_pub_key (x y : string) : CoseKey := {|
  kty := EC2;
  params := [(LInt (-1), VInteger 1); (LInt (-2), VBytes x); (LInt (-3), VBytes y)]
|}.

Inductive CoseAlgorithm := AlgES256 | AlgOther (n : Z).
Record CoseHeader := mkCoseHeader { cose_alg : option CoseAlgorithm; rest : list (Label * Value) }.
Record ProtectedHeader := mkProtected { original_data : option string; header : CoseHeader }.

Record CoseSign1 := mkSign1 {
  signature : string;
  payload : option string;
  protected : ProtectedHeader;
  unprotected : CoseHeader
}.
Record CoseMac0 := mkMac0 {
  mac_tag : string;
  mac_payload : option string;
  mac_protected : ProtectedHeader;
  mac_unprotected : CoseHeader
}.

(** The bytes that are signed or authenticated, and the CBOR form of a key. *)
Class Coset := {
  sig_structure_data : ProtectedHeader → string → string;
  mac_structure_data : ProtectedHeader → string → string;
  serde_cose_key :: SerdeCbor CoseKey;
  serde_cose_key_laws :: SerdeCborLaws CoseKey;
  serde_cose_key_never_null :: NeverNull CoseKey;
  (** Public keys of the kind that the code makes survive serialization. *)
  ec2_pub_key_wf x y : serde_wf (new_ec2_pub_key x y)
}.

(** ** Keys ([utils::crypto]) *)
Inductive CryptoError :=
  | Hkdf | KeyMissingCoordinate | KeyWrongType | KeyMissingKeyID
  | KeyUnepectedCoseLabel | KeyCoordinateParseFailed | KeyParseFailed
  | Aes | MissingCiphertext.

Section Keys.
Context `{!Ecdsa}.

(** [TryFrom<&VerifyingKey> for CoseKey] *)
Definition cose_key_from_verifying_key (key : VerifyingKey) : outcome CryptoError CoseKey :=
  let* xy := ok_or KeyMissingCoordinate (to_point key) in
  let '(x, y) := xy in
  Ok (new_ec2_pub_key x y).

(** [TryFrom<&CoseKey> for VerifyingKey] *)
Definition verifying_key_from_cose_key (key : CoseKey) : outcome CryptoError VerifyingKey :=
  let* _ := guard_err (bool_decide (kty key = EC2)) KeyWrongType in
  let* keyid := ok_or KeyMissingKeyID (params key !! 0%nat) in
  let* _ := guard_err (bool_decide (keyid.1 = LInt (-1)) && value_eqb keyid.2 (VInteger 1)) KeyWrongType in
  let* x := ok_or KeyMissingCoordinate (params key !! 1%nat) in
  let* _ := guard_err (bool_decide (x.1 = LInt (-2))) KeyUnepectedCoseLabel in
  let* y := ok_or KeyMissingCoordinate (params key !! 2%nat) in
  let* _ := guard_err (bool_decide (y.1 = LInt (-3))) KeyUnepectedCoseLabel in
  let* xb := ok_or KeyCoordinateParseFailed (as_bytes x.2) in
  let* yb := ok_or KeyCoordinateParseFailed (as_bytes y.2) in
  ok_or KeyParseFailed (from_point xb yb).

Lemma cose_key_round_trip k ck :
  cose_key_from_verifying_key k = Ok ck → verifying_key_from_cose_key ck = Ok k.
Proof.
  unfold cose_key_from_verifying_key. destruct (to_point k) as [[x y]|] eqn:P; simpl; [|done].
  intros [= <-]. unfold verifying_key_from_cose_key. simpl. by rewrite (from_to_point k).
Qed.

(** [dh_hmac_key] and [hmac_key] *)
Definition hmac_key `{!Sha256, !MacLib} (input_key_material salt info : string) (len : Z)
    : outcome CryptoError HmacKey :=
  let* bts := ok_or Hkdf (hkdf input_key_material (sha256 salt) info len) in
  Ok (hmac_key_new bts).
Definition dh_hmac_key `{!Sha256, !MacLib} (privkey : SecretKey) (pubkey : VerifyingKey) (salt info : string)
    (len : Z) : outcome CryptoError HmacKey :=
  hmac_key (diffie_hellman privkey pubkey) salt info len.
End Keys.

(** [cbor_digest] *)
Definition cbor_digest `{!Sha256, !Ciborium} {T} `{!SerdeCbor T} (val : T) : outcome CborError string :=
  let* bts := cbor_serialize val in
  Ok (sha256 bts).

(** ** Certificates ([utils::x509]) *)
Definition Certificate : Type := string.

Inductive CertificateError :=
  | CertVerification | ValidationParsing | ContentParsing | KeyParsingFailed
  | IncorrectEkuCount (n : Z) | IncorrectEku (oid : list Z)
  | DerEncodingError | JsonEncodingError | X509Error.

Inductive CertificateUsage := Mdl | ReaderAuthUsage.
#[global] Instance CertificateUsage_eq_dec : EqDecision CertificateUsage.
Proof. solve_decision. Defined.

Definition EXTENDED_KEY_USAGE_MDL : list Z := [40; 129; 140; 93; 5; 1; 2].
Definition EXTENDED_KEY_USAGE_READER_AUTH : list Z := [40; 129; 140; 93; 5; 1; 6].

Definition to_eku (u : CertificateUsage) : list Z :=
  match u with Mdl => EXTENDED_KEY_USAGE_MDL | ReaderAuthUsage => EXTENDED_KEY_USAGE_READER_AUTH end.

(** What [x509_parser] reads from a certificate: a common name may fail to be
    text, the extended key usages may fail to parse, the extensions are pairs
    of an object identifier and the bytes of the value, and the alternative
    names are those that are DNS names or not. *)
Record X509Certificate := mkX509 {
  public_key_raw : string;
  common_names : list (option string);
  extended_key_usage : option (option (list (list Z)));
  extensions : list (list Z * string);
  subject_alternative_name : option (option (list (option string)))
}.

Class X509Lib `{!Ecdsa} := {
  TrustAnchor : Type;
  EndEntityCert : Type;
  end_entity_from_der : string → option EndEntityCert;
  (** [verify_for_usage]: trust anchors, intermediates, time in seconds, usage. *)
  verify_for_usage : EndEntityCert → list TrustAnchor → list string → Z → list Z → bool;
  x509_from_der : string → option X509Certificate;
  from_public_key_der : string → option VerifyingKey
}.

Section Certificates.
Context `{!Ecdsa, !X509Lib}.

(** [Certificate::verify]; the time goes through [timestamp() as u64]. *)
Definition Certificate_verify (cert : Certificate) (usage : CertificateUsage) (intermediate_certs : list string)
    (time : Z) (trust_anchors : list TrustAnchor) : outcome CertificateError unit :=
  let* ee := ok_or ValidationParsing (end_entity_from_der cert) in
  guard_err (verify_for_usage ee trust_anchors intermediate_certs ((time / 1000000) mod 2 ^ 64) (to_eku usage))
    CertVerification.

Definition to_x509 (cert : Certificate) : outcome CertificateError X509Certificate :=
  ok_or ContentParsing (x509_from_der cert).

(** [Certificate::public_key] *)
Definition Certificate_public_key (cert : Certificate) : outcome CertificateError VerifyingKey :=
  let* x509 := to_x509 cert in
  ok_or KeyParsingFailed (from_public_key_der (public_key_raw x509)).

(** [Certificate::iter_common_name] *)
Definition iter_common_name (cert : Certificate) : outcome CertificateError (list string) :=
  let* x509 := to_x509 cert in
  try_map (ok_or X509Error) (common_names x509).

(** [CertificateUsage::from_certificate] and [from_key_usage] *)
Definition from_key_usage (other : list (list Z)) : outcome CertificateError CertificateUsage :=
  match other with
  | [key_usage_oid] =>
      if decide (key_usage_oid = EXTENDED_KEY_USAGE_MDL) then Ok Mdl
      else if decide (key_usage_oid = EXTENDED_KEY_USAGE_READER_AUTH) then Ok ReaderAuthUsage
      else Err (IncorrectEku key_usage_oid)
  | _ => Err (IncorrectEkuCount (Z.of_nat (length other)))
  end.
Definition usage_from_certificate (cert : Certificate) : outcome CertificateError CertificateUsage :=
  let* x509 := to_x509 cert in
  let* eku := ok_or X509Error (extended_key_usage x509) in
  match eku with
  | Some other => from_key_usage other
  | None => Err (IncorrectEkuCount 0)
  end.

(** [Certificate::san_dns_name]: the first alternative name that is a DNS name. *)
Fixpoint find_dns (names : list (option string)) : option string :=
  match names with
  | [] => None
  | Some name :: _ => Some name
  | None :: names => find_dns names
  end.
Definition san_dns_name (cert : Certificate) : outcome CertificateError (option string) :=
  let* x509 := to_x509 cert in
  let* san := ok_or X509Error (subject_alternative_name x509) in
  Ok (san ≫= find_dns).
End Certificates.

(** The derived usage is the inverse of [to_eku]. *)
Lemma from_key_usage_to_eku u : from_key_usage [to_eku u] = Ok u.
Proof. by destruct u. Qed.

(** ** Server keys ([server_keys]) *)
Record KeyPair `{!Ecdsa} := mkKeyPair { private_key : SigningKey; certificate : Certificate }.
Arguments mkKeyPair {_}.

(** ** COSE signatures ([utils::cose]) *)
Inductive CoseError :=
  | MissingPayload
  | MissingLabel (l : Label)
  | EcdsaSignatureParsingFailed
  | EcdsaSignatureVerificationFailed
  | MacVerificationFailed
  | CoseCbor (e : CborError)
  | CertificateUnexpectedHeaderType
  | CoseCertificate (e : CertificateError)
  | Signing
  | SignatureMissing.

Definition COSE_X5CHAIN_HEADER_LABEL : Z := 33.

Definition new_certificate_header (cert : Certificate) : CoseHeader := {|
  cose_alg := None; rest := [(LInt COSE_X5CHAIN_HEADER_LABEL, VBytes cert)]
|}.

(** [ClonePayload] *)
Definition sign1_with_payload (c : CoseSign1) (bts : string) : CoseSign1 := {|
  signature := signature c; payload := Some bts;
  protected := mkProtected None (header (protected c)); unprotected := unprotected c
|}.
Definition sign1_without_payload (c : CoseSign1) : CoseSign1 := {|
  signature := signature c; payload := None;
  protected := mkProtected None (header (protected c)); unprotected := unprotected c
|}.
Definition mac0_with_payload (c : CoseMac0) (bts : string) : CoseMac0 := {|
  mac_tag := mac_tag c; mac_payload := Some bts;
  mac_protected := mkProtected None (header (mac_protected c)); mac_unprotected := mac_unprotected c
|}.

Section Cose.
Context `{!Ecdsa, !Coset}.

(** [Cose for CoseSign1] *)
Definition sign1_verify (c : CoseSign1) (key : VerifyingKey) : outcome CoseError unit :=
  let data := sig_structure_data (protected c) (default "" (payload c)) in
  match payload c with
  | None => Err MissingPayload
  | Some _ =>
      let* sig := ok_or EcdsaSignatureParsingFailed (signature_from_bytes (signature c)) in
      guard_err (ecdsa_verify key data sig) EcdsaSignatureVerificationFailed
  end.

(** [Cose for CoseMac0] *)
Definition mac0_verify `{!MacLib} (c : CoseMac0) (key : HmacKey) : outcome CoseError unit :=
  match mac_payload c with
  | None => Err MissingPayload
  | Some p => guard_err (hmac_verify key (mac_structure_data (mac_protected c) p) (mac_tag c)) MacVerificationFailed
  end.

(** [MdocCose::dangerous_parse_unverified] and [verify_and_parse] *)
Definition dangerous_parse_unverified `{!Ciborium} {T} `{!SerdeCbor T} (c : CoseSign1) : outcome CoseError T :=
  let* p := ok_or MissingPayload (payload c) in
  map_err CoseCbor (cbor_deserialize p).
Definition verify_and_parse `{!Ciborium} {T} `{!SerdeCbor T} (c : CoseSign1) (key : VerifyingKey)
    : outcome CoseError T :=
  let* _ := sign1_verify c key in
  dangerous_parse_unverified c.

(** [MdocCose::unprotected_header_item] *)
Definition unprotected_header_item (c : CoseSign1) (label : Label) : outcome CoseError Value :=
  ok_or (MissingLabel label) (im_get (rest (unprotected c)) label).

(** [MdocCose::signing_cert] *)
Definition signing_cert (c : CoseSign1) : outcome CoseError Certificate :=
  let* item := unprotected_header_item c (LInt COSE_X5CHAIN_HEADER_LABEL) in
  ok_or CertificateUnexpectedHeaderType (as_bytes item).

(** [MdocCose::verify_against_trust_anchors] *)
Definition cose_verify_against_trust_anchors `{!Ciborium, !X509Lib} {T} `{!SerdeCbor T} (c : CoseSign1)
    (usage : CertificateUsage) (time : Z) (trust_anchors : list TrustAnchor) : outcome CoseError T :=
  let* cert := signing_cert c in
  let* _ := map_err CoseCertificate (Certificate_verify cert usage [] time trust_anchors) in
  let* issuer_pk := map_err CoseCertificate (Certificate_public_key cert) in
  verify_and_parse c issuer_pk.

(** [signature_data_and_header] *)
Definition es256_header : ProtectedHeader := mkProtected None (mkCoseHeader (Some AlgES256) []).
Definition signature_data_and_header (p : string) : string * ProtectedHeader :=
  (sig_structure_data es256_header p, es256_header).

(** [sign_cose] with a software key. *)
Definition sign_cose (p : string) (unprotected_header : CoseHeader) (key : SigningKey) (include_payload : bool)
    : outcome CoseError CoseSign1 :=
  let '(sig_data, protected_header) := signature_data_and_header p in
  let sig := signature_to_bytes (ecdsa_sign key sig_data) in
  Ok {| signature := sig; payload := if include_payload then Some p else None;
        protected := protected_header; unprotected := unprotected_header |}.

(** [MdocCose::sign] *)
Definition MdocCose_sign `{!Ciborium} {T} `{!SerdeCbor T} (obj : T) (unprotected_header : CoseHeader)
    (key : SigningKey) (include_payload : bool) : outcome CoseError CoseSign1 :=
  let* p := map_err CoseCbor (cbor_serialize obj) in
  sign_cose p unprotected_header key include_payload.

(** [sign_coses]: the signatures come from the key factory, one list of
    signatures per challenge. *)
Definition sign_coses {Key} (sign_multiple : list (string * Key) → option (list (list Signature)))
    (keys_and_challenges : list (Key * string)) (unprotected_header : CoseHeader) (include_payload : bool)
    : outcome CoseError (list CoseSign1) :=
  let keys_and_signature_data :=
    (λ kc : Key * string, (sig_structure_data es256_header kc.2, kc.1)) <$> keys_and_challenges in
  let* signatures := ok_or Signing (sign_multiple keys_and_signature_data) in
  try_map (λ sp : list Signature * string,
    let* sig := ok_or SignatureMissing (head sp.1) in
    Ok {| signature := signature_to_bytes sig; payload := if include_payload then Some sp.2 else None;
          protected := es256_header; unprotected := unprotected_header |})
    (zip signatures keys_and_challenges.*2).

Lemma sign_cose_verifies p uh key (incl : bool) c :
  sign_cose p uh key incl = Ok c →
  sign1_verify (sign1_with_payload c p) (verifying_key key) = Ok tt ∧
  (incl = true → sign1_verify c (verifying_key key) = Ok tt).
Proof.
  intros [= <-]. unfold sign1_verify. split; [|intros ->]; simpl;
    rewrite signature_from_to; simpl; fold es256_header; by rewrite ecdsa_correct.
Qed.

Lemma MdocCose_sign_parses `{!Ciborium} {T} `{!SerdeCbor T, !SerdeCborLaws T} (obj : T) uh key c :
  serde_wf obj → MdocCose_sign obj uh key true = Ok c → verify_and_parse c (verifying_key key) = Ok obj.
Proof.
  unfold MdocCose_sign, verify_and_parse. intros Hwf Hs. run_ok Hs.
  pose proof (sign_cose_verifies _ _ _ _ _ Hs) as [_ Hv]. rewrite Hv by done. simpl.
  injection Hs as <-. unfold dangerous_parse_unverified. simpl.
  by rewrite (cbor_round_trip _ _ Hwf Hrun).
Qed.

(** A payload that verifies was signed, in the sense of [ecdsa_verify], under
    the public key of a certificate that chains to a trust anchor. *)
Lemma verify_against_trust_anchors_Ok `{!Ciborium, !X509Lib} {T} `{!SerdeCbor T} c usage time anchors (x : T) :
  cose_verify_against_trust_anchors c usage time anchors = Ok x →
  ∃ cert pk p, signing_cert c = Ok cert ∧ Certificate_verify cert usage [] time anchors = Ok tt ∧
    Certificate_public_key cert = Ok pk ∧ sign1_verify c pk = Ok tt ∧ payload c = Some p ∧
    cbor_deserialize p = Ok x.
Proof.
  unfold cose_verify_against_trust_anchors, verify_and_parse, dangerous_parse_unverified.
  intros Hv. run_ok Hv. repeat match goal with u : unit |- _ => destruct u end. naive_solver.
Qed.
End Cose.
