(* ===== verification/Engagement.v ===== *)
(** * Engagements and session transcripts

    Models [mdoc/src/iso/engagement.rs]: the messages with which reader and
    device first meet, and the transcript of the session that the device signs.
    URLs are their serialization; parsing them is the class [UrlLib]. *)
From stdpp Require Import base list option strings sets.
From Stdlib Require Import ZArith Lia.
From S2P Require Import Prelude IndexMap Crypto Cbor Cose.

(** The crate [url]: the normalized form of a URL, if it is one. *)
Class UrlLib := {
  url_parse : string → option string;
  url_parse_idem s u : url_parse s = Some u → url_parse u = Some u
}.

(** An optional entry of a struct with [skip_serializing_none]. *)
Definition opt_entry (name : string) (o : option Value) : list (string * Value) :=
  match o with Some v => [(name, v)] | None => [] end.

(** ** Origin infos *)
Inductive OriginInfoDirection := Delivered | Received.
#[global] Instance OriginInfoDirection_eq_dec : EqDecision OriginInfoDirection.
Proof. solve_decision. Defined.
Record OriginInfo := mkOriginInfo { cat : OriginInfoDirection; typ : OriginInfoType }.
#[global] Instance OriginInfo_eq_dec : EqDecision OriginInfo.
Proof. solve_decision. Defined.

Definition direction_repr (d : OriginInfoDirection) : Z := match d with Delivered => 0 | Received => 1 end.
Definition direction_of_repr (n : Z) : option OriginInfoDirection :=
  if n =? 0 then Some Delivered else if n =? 1 then Some Received else None.

#[global] Instance serde_origin_info `{!UrlLib} : SerdeCbor OriginInfo := {|
  serialized o := Some (struct_value
    (("cat", VInteger (direction_repr (cat o))) :: serialize_origin_info_type (typ o)));
  deserialized v :=
    l ← entries v;
    c ← (c ← required_field "cat" l; n ← as_integer c; direction_of_repr n);
    t ← deserialize_origin_info_type url_parse l;
    Some (mkOriginInfo c t)
|}.

Definition origin_info_wf `{!UrlLib} (o : OriginInfo) : Prop :=
  match typ o with Website url => url_parse url = Some url | _ => True end.
#[global] Instance serde_origin_info_laws `{!UrlLib} : SerdeCborLaws OriginInfo.
Proof.
  refine {| serde_wf := origin_info_wf |}. intros [c t] v Hwf [= <-]. unfold origin_info_wf in Hwf. simpl in Hwf.
  destruct c, t; cbv -[url_parse]; try reflexivity; by rewrite Hwf.
Defined.

(** ** Security: the ephemeral key of the sender *)
Record SecurityKeyed := mkSecurity { e_sender_key_bytes : TaggedBytes CoseKey }.
Definition CIPHER_SUITE_P256 : Z := 1.
#[global] Instance security_fields : Fields SecurityKeyed := ["cipher_suite_identifier"; "e_sender_key_bytes"].
Definition security_serialize `{!Ecdsa, !Coset, !Ciborium} (s : SecurityKeyed) : option Value :=
  k ← serialized (e_sender_key_bytes s);
  Some (struct_value [("cipher_suite_identifier", VInteger CIPHER_SUITE_P256); ("e_sender_key_bytes", k)]).
Definition security_deserialize `{!Ecdsa, !Coset, !Ciborium} (v : Value) : option SecurityKeyed :=
  l ← entries v;
  c ← required_field "cipher_suite_identifier" l;
  n ← as_integer c;
  k ← (k ← required_field "e_sender_key_bytes" l; deserialized k);
  if n =? CIPHER_SUITE_P256 then Some (mkSecurity k) else None.
#[global] Instance serde_security `{!Ecdsa, !Coset, !Ciborium} : SerdeCbor SecurityKeyed := {|
  serialized := security_serialize; deserialized := security_deserialize |}.
#[global] Instance serde_security_laws `{!Ecdsa, !Coset, !Ciborium} : SerdeCborLaws SecurityKeyed.
Proof.
  refine {| serde_wf s := serde_wf (e_sender_key_bytes s) |}. intros [k] v Hwf Hs. simpl e_sender_key_bytes in Hwf.
  change (security_serialize (mkSecurity k) = Some v) in Hs. unfold security_serialize in Hs. simpl e_sender_key_bytes in Hs.
  apply bind_Some in Hs as (w & Hw & [= <-]). pose proof (deserialized_serialized _ _ Hwf Hw) as Hd.
  change (security_deserialize (struct_value [("cipher_suite_identifier", VInteger CIPHER_SUITE_P256); ("e_sender_key_bytes", w)]) = Some (mkSecurity k)). unfold security_deserialize.
  cbn -[deserialized]. by rewrite Hd.
Defined.
#[global] Instance security_plain `{!Ecdsa, !Coset, !Ciborium} : PlainStruct SecurityKeyed.
Proof.
  intros [k] v Hs. change (security_serialize (mkSecurity k) = Some v) in Hs. unfold security_serialize in Hs. apply bind_Some in Hs as (w & _ & [= <-]).
  exists [VInteger CIPHER_SUITE_P256; w]. done.
Qed.
Abbreviation Security := (CborSeq SecurityKeyed).

(** ** Connection methods *)
Record RestApiOptionsKeyed := mkRestApi { uri : string }.
#[global] Instance rest_api_fields : Fields RestApiOptionsKeyed := ["uri"].
#[global] Instance serde_rest_api `{!UrlLib} : SerdeCbor RestApiOptionsKeyed := {|
  serialized r := Some (struct_value [("uri", VText (uri r))]);
  deserialized v :=
    l ← entries v;
    u ← (u ← required_field "uri" l; s ← as_text u; url_parse s);
    Some (mkRestApi u)
|}.
#[global] Instance serde_rest_api_laws `{!UrlLib} : SerdeCborLaws RestApiOptionsKeyed.
Proof.
  refine {| serde_wf r := url_parse (uri r) = Some (uri r) |}. intros [u] v Hwf [= <-].
  simpl in Hwf. cbv -[url_parse]. by rewrite Hwf.
Defined.
#[global] Instance rest_api_plain `{!UrlLib} : PlainStruct RestApiOptionsKeyed.
Proof. intros [u] v [= <-]. by exists [VText u]. Qed.

Record ConnectionMethodKeyed := mkConnectionMethod { connection_options : CborSeq RestApiOptionsKeyed }.
Definition CONNECTION_METHOD_TYPE : Z := 4.
Definition CONNECTION_METHOD_VERSION : Z := 1.
#[global] Instance connection_method_fields : Fields ConnectionMethodKeyed := ["typ"; "version"; "connection_options"].
Definition connection_method_serialize `{!UrlLib} (c : ConnectionMethodKeyed) : option Value :=
  o ← serialized (connection_options c);
  Some (struct_value [("typ", VInteger CONNECTION_METHOD_TYPE); ("version", VInteger CONNECTION_METHOD_VERSION);
                      ("connection_options", o)]).
Definition connection_method_deserialize `{!UrlLib} (v : Value) : option ConnectionMethodKeyed :=
  l ← entries v;
  t ← (t ← required_field "typ" l; as_integer t);
  w ← (w ← required_field "version" l; as_integer w);
  o ← (o ← required_field "connection_options" l; deserialized o);
  if (t =? CONNECTION_METHOD_TYPE) && (w =? CONNECTION_METHOD_VERSION) then Some (mkConnectionMethod o) else None.
#[global] Instance serde_connection_method `{!UrlLib} : SerdeCbor ConnectionMethodKeyed := {|
  serialized := connection_method_serialize; deserialized := connection_method_deserialize |}.
#[global] Instance serde_connection_method_laws `{!UrlLib} : SerdeCborLaws ConnectionMethodKeyed.
Proof.
  refine {| serde_wf c := serde_wf (connection_options c) |}. intros [k] v Hwf Hs. simpl connection_options in Hwf.
  change (connection_method_serialize (mkConnectionMethod k) = Some v) in Hs. unfold connection_method_serialize in Hs. simpl connection_options in Hs.
  apply bind_Some in Hs as (w & Hw & [= <-]). pose proof (deserialized_serialized _ _ Hwf Hw) as Hd.
  change (connection_method_deserialize (struct_value [("typ", VInteger CONNECTION_METHOD_TYPE); ("version", VInteger CONNECTION_METHOD_VERSION);
    ("connection_options", w)]) = Some (mkConnectionMethod k)). unfold connection_method_deserialize.
  cbn -[deserialized]. by rewrite Hd.
Defined.
#[global] Instance connection_method_plain `{!UrlLib} : PlainStruct ConnectionMethodKeyed.
Proof.
  intros [k] v Hs. change (connection_method_serialize (mkConnectionMethod k) = Some v) in Hs. unfold connection_method_serialize in Hs. apply bind_Some in Hs as (w & _ & [= <-]).
  by exists [VInteger CONNECTION_METHOD_TYPE; VInteger CONNECTION_METHOD_VERSION; w].
Qed.

(** ** Engagements *)
Record Engagement := mkEngagement {
  security : option Security;
  connection_methods : option (list (CborSeq ConnectionMethodKeyed));
  origin_infos : list OriginInfo
}.
Definition ENGAGEMENT_VERSION : string := "1.0".
#[global] Instance engagement_fields : Fields Engagement :=
  ["version"; "security"; "connection_methods"; "origin_infos"].
Abbreviation DeviceEngagement := (CborIntMap Engagement).
Abbreviation ReaderEngagement := (CborIntMap Engagement).

#[global] Instance list_never_null {T} `{!SerdeCbor T} : NeverNull (list T).
Proof. intros l v Hs. apply fmap_Some in Hs as (vs & _ & ->). done. Qed.

Section EngagementSerde.
Context `{!Ecdsa, !Coset, !Ciborium, !UrlLib}.

Definition engagement_serialize (e : Engagement) : option Value :=
  s ← serialize_option (security e);
  c ← serialize_option (connection_methods e);
  o ← serialized (origin_infos e);
  Some (struct_value (
    ("version", VText ENGAGEMENT_VERSION)
    :: (if security e then [("security", s)] else [])
    ++ (if connection_methods e then [("connection_methods", c)] else [])
    ++ (if origin_infos e then [] else [("origin_infos", o)]))).
Definition engagement_deserialize (v : Value) : option Engagement :=
  l ← entries v;
  w ← (w ← required_field "version" l; as_text w);
  s ← (s ← optional_field "security" l; deserialize_option s);
  c ← (c ← optional_field "connection_methods" l; deserialize_option c);
  o ← (vs ← field_values "origin_infos" l;
       match vs with [] => Some [] | [o] => deserialized o | _ => None end);
  if decide (w = ENGAGEMENT_VERSION) then Some (mkEngagement s c o) else None.
#[global] Instance serde_engagement : SerdeCbor Engagement := {|
  serialized := engagement_serialize; deserialized := engagement_deserialize |}.

Definition engagement_wf (e : Engagement) : Prop :=
  from_option serde_wf True (security e) ∧ from_option serde_wf True (connection_methods e)
  ∧ Forall serde_wf (origin_infos e).

#[global] Instance serde_engagement_laws : SerdeCborLaws Engagement.
Proof.
  refine {| serde_wf := engagement_wf |}. intros [s c o] v (Ws & Wc & Wo) Hs.
  simpl security in Ws. simpl connection_methods in Wc. simpl origin_infos in Wo.
  change (engagement_serialize (mkEngagement s c o) = Some v) in Hs. unfold engagement_serialize in Hs. simpl security in Hs. simpl connection_methods in Hs.
  simpl origin_infos in Hs. apply bind_Some in Hs as (vs & Es & Hs). apply bind_Some in Hs as (vc & Ec & Hs).
  apply bind_Some in Hs as (vo & Eo & [= <-]).
  pose proof (deserialize_serialize_option _ _ Ws Es) as Ds.
  pose proof (deserialize_serialize_option _ _ Wc Ec) as Dc.
  pose proof (deserialized_serialized o vo Wo Eo) as Do.
  match goal with |- deserialized ?w = _ => change (engagement_deserialize w = Some (mkEngagement s c o)) end.
  unfold engagement_deserialize.
  destruct s, c, o; cbn -[deserialize_option deserialized];
    rewrite ?Ds, ?Dc, ?Do; simpl in Es, Ec; simplify_eq; done.
Defined.

#[global] Instance engagement_skipping : SkippingStruct Engagement.
Proof.
  split.
  - apply (bool_decide_unpack _). by vm_compute.
  - by vm_compute.
  - intros [s c o] v Hs. change (engagement_serialize (mkEngagement s c o) = Some v) in Hs. unfold engagement_serialize in Hs. simpl security in Hs.
    simpl connection_methods in Hs. simpl origin_infos in Hs.
    apply bind_Some in Hs as (vs & Es & Hs). apply bind_Some in Hs as (vc & Ec & Hs).
    apply bind_Some in Hs as (vo & Eo & [= <-]). eexists. split; [done|].
    assert (∀ name w, bool_decide (name ∈ fields (T:=Engagement)) = true → is_null w = false →
      name ∈ fields (T:=Engagement) ∧ is_null w = false) as Hentry.
    { intros name w Hn Hw. split; [by apply bool_decide_eq_true in Hn|done]. }
    apply (never_null (T:=list OriginInfo)) in Eo.
    apply Forall_cons. split; [by apply Hentry|]. rewrite !Forall_app. split_and!.
    + destruct s as [s|]; [|constructor]. apply (never_null s) in Es.
      apply Forall_singleton. by apply Hentry.
    + destruct c as [c|]; [|constructor]. apply (never_null c) in Ec.
      apply Forall_singleton. by apply Hentry.
    + destruct o; [constructor|]. apply Forall_singleton. by apply Hentry.
Qed.
End EngagementSerde.

(** ** Handovers *)
Record OID4VPHandover := mkOid4vpHandover {
  client_id_hash : ByteBuf;
  response_uri_hash : ByteBuf;
  handover_nonce : string
}.
#[global] Instance oid4vp_handover_fields : Fields OID4VPHandover := ["client_id_hash"; "response_uri_hash"; "nonce"].
#[global] Instance serde_oid4vp_handover : SerdeCbor OID4VPHandover := {|
  serialized h := Some (struct_value
    [("client_id_hash", VBytes (bytes (client_id_hash h))); ("response_uri_hash", VBytes (bytes (response_uri_hash h)));
     ("nonce", VText (handover_nonce h))]);
  deserialized v :=
    l ← entries v;
    c ← (c ← required_field "client_id_hash" l; as_bytes c);
    r ← (r ← required_field "response_uri_hash" l; as_bytes r);
    n ← (n ← required_field "nonce" l; as_text n);
    Some (mkOid4vpHandover (mkByteBuf c) (mkByteBuf r) n)
|}.
#[global] Instance serde_oid4vp_handover_laws : SerdeCborLaws OID4VPHandover.
Proof. refine {| serde_wf _ := True |}. by intros [[c] [r] n] v _ [= <-]. Defined.
#[global] Instance oid4vp_handover_plain : PlainStruct OID4VPHandover.
Proof. intros [[c] [r] n] v [= <-]. by exists [VBytes c; VBytes r; VText n]. Qed.

Record NFCHandover := mkNfcHandover {
  handover_select_message : ByteBuf;
  handover_request_message : option ByteBuf
}.

Inductive Handover :=
  | QrHandover
  | NfcHandover (h : CborSeq NFCHandover)
  | SchemeHandoverBytes (e : TaggedBytes ReaderEngagement)
  | Oid4vpHandover (h : CborSeq OID4VPHandover).

Record SessionTranscriptKeyed := mkTranscript {
  device_engagement_bytes : option (TaggedBytes DeviceEngagement);
  ereader_key_bytes : option (TaggedBytes CoseKey);
  handover : Handover
}.
Abbreviation SessionTranscript := (CborSeq SessionTranscriptKeyed).

Inductive SessionType := SameDevice | CrossDevice.
#[global] Instance SessionType_eq_dec : EqDecision SessionType.
Proof. solve_decision. Defined.

Inductive SessionTranscriptError := MissingReaderEngagementSecurity.

(** [SessionTranscript::new_iso] *)
Definition SessionTranscript_new_iso (session_type : SessionType) (reader_engagement : ReaderEngagement)
    (device_engagement : DeviceEngagement) : outcome SessionTranscriptError SessionTranscript :=
  let* reader_security := ok_or MissingReaderEngagementSecurity (security (int_map reader_engagement)) in
  Ok (mkSeq {|
    device_engagement_bytes := Some (mkTagged device_engagement);
    ereader_key_bytes := Some (e_sender_key_bytes (seq reader_security));
    handover := match session_type with
                | SameDevice => SchemeHandoverBytes (mkTagged reader_engagement)
                | CrossDevice => QrHandover
                end
  |}).

Section Transcripts.
Context `{!Ecdsa, !Coset, !Ciborium, !UrlLib, !Sha256}.

(** [SessionTranscript::new_oid4vp]; the serialization of two texts is unwrapped. *)
Definition SessionTranscript_new_oid4vp (response_uri client_id nonce mdoc_nonce : string)
    : outcome Empty_set SessionTranscript :=
  let hash_pair (a b : string) : outcome Empty_set ByteBuf :=
    match cbor_serialize [a; b] with Ok bts => Ok (mkByteBuf (sha256 bts)) | _ => Panic end in
  let* client_id_hash := hash_pair client_id mdoc_nonce in
  let* response_uri_hash := hash_pair response_uri mdoc_nonce in
  Ok (mkSeq {|
    device_engagement_bytes := None;
    ereader_key_bytes := None;
    handover := Oid4vpHandover (mkSeq (mkOid4vpHandover client_id_hash response_uri_hash nonce))
  |}).

(** The derived serializers of the types that are signed but never parsed: the
    untagged [Handover], and the fields of a transcript in order. *)
Definition nfc_handover_serialize (h : NFCHandover) : option Value :=
  Some (VArray [VBytes (bytes (handover_select_message h));
                match handover_request_message h with Some b => VBytes (bytes b) | None => VNull end]).
Definition handover_serialize (h : Handover) : option Value :=
  match h with
  | QrHandover => Some VNull
  | NfcHandover h => nfc_handover_serialize (seq h)
  | SchemeHandoverBytes e => serialized e
  | Oid4vpHandover h => serialized h
  end.
Definition session_transcript_serialize (t : SessionTranscript) : option Value :=
  d ← serialize_option (device_engagement_bytes (seq t));
  k ← serialize_option (ereader_key_bytes (seq t));
  h ← handover_serialize (handover (seq t));
  Some (VArray [d; k; h]).

(** The serialization of a [TaggedBytes] of such a type. *)
Definition tagged_serialize (v : option Value) : outcome CborError string :=
  ok_or CborSerialization
    (w ← v; b ← into_writer w; into_writer (VTag CBOR_TAG_ENC_CBOR (VBytes b))).

(** [DeviceAuthenticationKeyed::new], serialized: the device adds no attributes
    of its own, so the last item holds the empty map. *)
Record DeviceAuthenticationKeyed := mkDeviceAuthentication {
  session_transcript : SessionTranscript;
  da_doc_type : string;
  device_name_spaces_bytes : list (string * list (string * Value))
}.
Definition DeviceAuthenticationKeyed_new (doc_type : string) (t : SessionTranscript) : DeviceAuthenticationKeyed := {|
  session_transcript := t; da_doc_type := doc_type; device_name_spaces_bytes := []
|}.
Definition device_name_spaces_value (n : list (string * list (string * Value))) : Value :=
  struct_value ((λ ns, (ns.1, struct_value ns.2)) <$> n).
Definition device_authentication_serialize (d : DeviceAuthenticationKeyed) : option Value :=
  t ← session_transcript_serialize (session_transcript d);
  b ← into_writer (device_name_spaces_value (device_name_spaces_bytes d));
  Some (VArray [VText (REQUIRED_VALUE (R:=DeviceAuthenticationString)); t; VText (da_doc_type d);
                VTag CBOR_TAG_ENC_CBOR (VBytes b)]).
Definition device_authentication_bytes (doc_type : string) (t : SessionTranscript) : outcome CborError string :=
  tagged_serialize (device_authentication_serialize (DeviceAuthenticationKeyed_new doc_type t)).

(** The bytes that the device signs determine the document type and the
    transcript's own serialization: what is signed in one session does not
    verify in another one. *)
Lemma into_writer_inj v w b : into_writer v = Some b → into_writer w = Some b → v = w.
Proof. intros Hv Hw. apply from_into in Hv, Hw. congruence. Qed.

Lemma device_authentication_bytes_inj d1 t1 d2 t2 b :
  device_authentication_bytes d1 t1 = Ok b → device_authentication_bytes d2 t2 = Ok b →
  d1 = d2 ∧ session_transcript_serialize t1 = session_transcript_serialize t2.
Proof.
  unfold device_authentication_bytes, tagged_serialize. rewrite !ok_or_Ok.
  intros Ha Hb. apply bind_Some in Ha as (v1 & E1 & Ha), Hb as (v2 & E2 & Hb).
  apply bind_Some in Ha as (b1 & W1 & Ha), Hb as (b2 & W2 & Hb).
  pose proof (into_writer_inj _ _ _ Ha Hb) as [= ->]. pose proof (into_writer_inj _ _ _ W1 W2) as ->.
  unfold device_authentication_serialize in E1, E2. simpl in E1, E2.
  apply bind_Some in E1 as (s1 & T1 & E1), E2 as (s2 & T2 & E2).
  apply bind_Some in E1 as (n1 & _ & [= <-]), E2 as (n2 & _ & [= <- <- _]). by rewrite T1, T2.
Qed.
End Transcripts.
