(* ===== verification/Concrete.v ===== *)
(** * Concrete instances of the external interfaces

    One executable instance of every class that stands for a crate, so that the
    laws of those classes are satisfied together and the theorems can be
    evaluated on inputs.  Keys are their own public keys, a signature is the key
    with a checksum of the message, and data is encoded through [Countable]. *)
From stdpp Require Import base list option strings sets countable pretty.
From Stdlib Require Import ZArith Lia Ascii.
From S2P Require Import Prelude IndexMap Crypto Cbor Cose Engagement Jose.

(** ** Bytes: seven bits of a number per byte, the last byte marked *)
Fixpoint pos_bits (p : positive) : list bool :=
  match p with xH => [] | xO p => false :: pos_bits p | xI p => true :: pos_bits p end.
Fixpoint bits_pos (l : list bool) : positive :=
  match l with [] => xH | false :: l => xO (bits_pos l) | true :: l => xI (bits_pos l) end.
Lemma bits_pos_bits p : bits_pos (pos_bits p) = p.
Proof. induction p; simpl; by f_equal. Qed.

Fixpoint pack (l : list bool) : string :=
  match l with
  | b0 :: b1 :: b2 :: b3 :: b4 :: b5 :: b6 :: l => String (Ascii b0 b1 b2 b3 b4 b5 b6 true) (pack l)
  | [b0; b1; b2; b3; b4; b5] => String (Ascii b0 b1 b2 b3 b4 b5 true false) EmptyString
  | [b0; b1; b2; b3; b4] => String (Ascii b0 b1 b2 b3 b4 true false false) EmptyString
  | [b0; b1; b2; b3] => String (Ascii b0 b1 b2 b3 true false false false) EmptyString
  | [b0; b1; b2] => String (Ascii b0 b1 b2 true false false false false) EmptyString
  | [b0; b1] => String (Ascii b0 b1 true false false false false false) EmptyString
  | [b0] => String (Ascii b0 true false false false false false false) EmptyString
  | [] => String (Ascii true false false false false false false false) EmptyString
  end.
Fixpoint strip (l : list bool) : list bool :=
  match l with false :: l => strip l | true :: l => l | [] => [] end.
Fixpoint unpack (s : string) : list bool :=
  match s with
  | EmptyString => []
  | String (Ascii b0 b1 b2 b3 b4 b5 b6 true) s => b0 :: b1 :: b2 :: b3 :: b4 :: b5 :: b6 :: unpack s
  | String (Ascii b0 b1 b2 b3 b4 b5 b6 false) _ => reverse (strip [b6; b5; b4; b3; b2; b1; b0])
  end.
Lemma unpack_pack l : unpack (pack l) = l.
Proof.
  remember (length l) as n eqn:Hn. revert l Hn. induction n as [n IH] using lt_wf_ind. intros l ->.
  destruct l as [|b0 [|b1 [|b2 [|b3 [|b4 [|b5 [|b6 l]]]]]]]; try reflexivity.
  change (b0 :: b1 :: b2 :: b3 :: b4 :: b5 :: b6 :: unpack (pack l) = b0 :: b1 :: b2 :: b3 :: b4 :: b5 :: b6 :: l).
  do 7 f_equal. apply (IH (length l)); simpl; lia.
Qed.

Definition to_bytes {A} `{Countable A} (a : A) : string := pack (pos_bits (encode a)).
Definition of_bytes {A} `{Countable A} (s : string) : option A := countable.decode (bits_pos (unpack s)).
Lemma of_to_bytes {A} `{Countable A} (a : A) : of_bytes (to_bytes a) = Some a.
Proof. unfold of_bytes, to_bytes. by rewrite unpack_pack, bits_pos_bits, decode_encode. Qed.

(** A second encoding, over the digits 0 and 1, without dots. *)
Fixpoint bits_string (l : list bool) : string :=
  match l with [] => "" | b :: l => String (if b then "1" else "0")%char (bits_string l) end.
Fixpoint string_bits (s : string) : list bool :=
  match s with EmptyString => [] | String c s => Ascii.eqb c "1" :: string_bits s end.
Lemma string_bits_string l : string_bits (bits_string l) = l.
Proof. induction l as [|[] l IH]; simpl; by f_equal. Qed.
Definition to_digits {A} `{Countable A} (a : A) : string := bits_string (pos_bits (encode a)).
Definition of_digits {A} `{Countable A} (s : string) : option A := countable.decode (bits_pos (string_bits s)).
Lemma of_to_digits {A} `{Countable A} (a : A) : of_digits (to_digits a) = Some a.
Proof. unfold of_digits, to_digits. by rewrite string_bits_string, bits_pos_bits, decode_encode. Qed.

(** The part of a string before its first dot, and what follows that dot. *)
Fixpoint split_dot (s : string) : string * string :=
  match s with
  | EmptyString => (EmptyString, EmptyString)
  | String c s => if Ascii.eqb c "." then (EmptyString, s)
                  else let '(a, b) := split_dot s in (String c a, b)
  end.
Lemma split_dot_digits l r : split_dot (bits_string l +:+ "." +:+ r) = (bits_string l, r).
Proof.
  induction l as [|b l IH]; [done|]. change (bits_string (b :: l)) with (String (if b then "1" else "0")%char (bits_string l)).
  change (String ?c ?a +:+ ?b) with (String c (a +:+ b)). simpl. rewrite IH. by destruct b.
Qed.

(** ** CBOR values *)
Definition leaf : Type := Z + string + string + Z + bool + unit.
Definition leaf_int (n : Z) : leaf := inl (inl (inl (inl (inl n)))).
Fixpoint value_to_tree (v : Value) : gen_tree leaf :=
  match v with
  | VInteger n => GenLeaf (leaf_int n)
  | VBytes s => GenLeaf (inl (inl (inl (inl (inr s)))))
  | VText s => GenLeaf (inl (inl (inl (inr s))))
  | VFloat n => GenLeaf (inl (inl (inr n)))
  | VBool b => GenLeaf (inl (inr b))
  | VNull => GenLeaf (inr tt)
  | VTag t v => GenNode 0 [GenLeaf (leaf_int t); value_to_tree v]
  | VArray l => GenNode 1 (value_to_tree <$> l)
  | VMap l => GenNode 2 ((λ p, GenNode 3 [value_to_tree p.1; value_to_tree p.2]) <$> l)
  end.
Fixpoint tree_to_value (t : gen_tree leaf) : Value :=
  match t with
  | GenLeaf (inl (inl (inl (inl (inl n))))) => VInteger n
  | GenLeaf (inl (inl (inl (inl (inr s))))) => VBytes s
  | GenLeaf (inl (inl (inl (inr s)))) => VText s
  | GenLeaf (inl (inl (inr n))) => VFloat n
  | GenLeaf (inl (inr b)) => VBool b
  | GenLeaf (inr _) => VNull
  | GenNode 0 [GenLeaf (inl (inl (inl (inl (inl n))))); v] => VTag n (tree_to_value v)
  | GenNode 1 l => VArray (tree_to_value <$> l)
  | GenNode 2 l => VMap ((λ t, match t with
      | GenNode 3 [k; v] => (tree_to_value k, tree_to_value v) | _ => (VNull, VNull) end) <$> l)
  | _ => VNull
  end.

Fixpoint tree_value (v : Value) : tree_to_value (value_to_tree v) = v.
Proof.
  destruct v as [| | | | | |t v|l|l]; try reflexivity; simpl.
  - by rewrite tree_value.
  - f_equal. induction l as [|x l IH]; [reflexivity|]. csimpl. f_equal; [apply tree_value|exact IH].
  - f_equal. induction l as [|[k x] l IH]; [reflexivity|]. csimpl. f_equal; [f_equal; apply tree_value|exact IH].
Qed.
#[global] Instance Value_eq_dec : EqDecision Value.
Proof.
  refine (λ v w, cast_if (decide (value_to_tree v = value_to_tree w))); [|congruence].
  abstract (by rewrite <-(tree_value v), <-(tree_value w); f_equal).
Defined.
#[global] Instance Value_countable : Countable Value :=
  inj_countable' value_to_tree tree_to_value tree_value.

(** A checksum in place of a digest. *)
Fixpoint checksum (s : string) : N :=
  match s with EmptyString => 7 | String c s => (N_of_ascii c + 31 * checksum s) mod 65521 end.

(** The first [n] characters, with zeros when there are fewer. *)
Fixpoint stretch (n : nat) (s : string) : string :=
  match n with
  | O => ""
  | S n => match s with EmptyString => String "0" (stretch n "") | String c s => String c (stretch n s) end
  end.
Lemma stretch_length n s : String.length (stretch n s) = n.
Proof. revert s. induction n as [|n IH]; intros [|c s]; simpl; by f_equal. Qed.

Module Crates.
#[export] Instance ciborium : Ciborium.
Proof.
  refine {| into_writer v := Some (to_bytes v); from_reader := of_bytes |}.
  intros v b [= <-]. apply of_to_bytes. Defined.

#[export] Instance ecdsa : Ecdsa.
Proof.
  refine {|
    SigningKey := string;
    VerifyingKey := string;
    Signature := string * N;
    verifying_key k := k;
    ecdsa_sign k m := (k, checksum m);
    ecdsa_verify k m s := bool_decide (s = (k, checksum m));
    signature_to_bytes := to_bytes;
    signature_from_bytes := of_bytes;
    to_point k := Some (k, "y");
    from_point x _ := Some x
  |}.
  - intros k m. by apply bool_decide_eq_true.
  - apply of_to_bytes.
  - by intros k x y [= -> _].
Defined.

#[export] Instance sha256_checksum : Sha256 := λ s, pretty (checksum s).
#[export] Instance base64 : Base64.
Proof.
  refine {| b64_encode s := s; b64_decode s := Some s |}.
  done. Defined.
#[export] Instance url_lib : UrlLib.
Proof.
  refine {| url_parse := Some |}.
  by intros s u [= <-]. Defined.
#[export] Instance mac_lib : MacLib := {|
  SecretKey := string; HmacKey := string; diffie_hellman sk pk := pretty (checksum sk + checksum pk)%N;
  hkdf ikm salt info len := if len <? 0 then None else Some (stretch (Z.to_nat len) (pretty (checksum (ikm +:+ salt +:+ info))));
  hmac_key_new b := b; hmac_verify k d t := bool_decide (t = k +:+ d)
|}.
#[export] Instance chrono : Chrono.
Proof.
  refine {|
    to_rfc3339 t := to_bytes (t / 1000000);
    parse_from_rfc3339 s := (λ n, n * 1000000) <$> of_bytes s
  |}.
  intros t. by rewrite of_to_bytes. Defined.

(** *** COSE *)
Definition label_value (l : Label) : Value := match l with LInt n => VInteger n | LText s => VText s end.
Definition value_label (v : Value) : option Label :=
  match v with VInteger n => Some (LInt n) | VText s => Some (LText s) | _ => None end.
Lemma value_label_value l : value_label (label_value l) = Some l.
Proof. by destruct l. Qed.
Definition kty_value (k : KeyType) : Value := match k with EC2 => VInteger 2 | OtherKeyType n => VArray [VInteger n] end.
Definition value_kty (v : Value) : option KeyType :=
  match v with VInteger 2 => Some EC2 | VArray [VInteger n] => Some (OtherKeyType n) | _ => None end.
Lemma value_kty_value k : value_kty (kty_value k) = Some k.
Proof. by destruct k. Qed.
#[export] Instance serde_key : SerdeCbor CoseKey := {|
  serialized k := Some (VMap ((VInteger 1, kty_value (kty k)) :: ((λ p, (label_value p.1, p.2)) <$> params k)));
  deserialized v :=
    match v with
    | VMap ((_, t) :: ps) =>
        k ← value_kty t; ps ← mapM (λ p, l ← value_label p.1; Some (l, p.2)) ps; Some (mkCoseKey k ps)
    | _ => None
    end
|}.
#[export] Instance serde_key_laws : SerdeCborLaws CoseKey.
Proof.
  refine {| serde_wf _ := True |}. intros [k ps] v _ [= <-]. simpl. rewrite value_kty_value. simpl.
  assert (mapM (λ p : Value * Value, l ← value_label p.1; Some (l, p.2)) ((λ p : Label * Value, (label_value p.1, p.2)) <$> ps)
    = Some ps) as ->; [|done].
  apply mapM_Some, Forall2_fmap_l, Forall_Forall2_diag, Forall_true. intros [l x]. simpl.
  by rewrite value_label_value.
Defined.
#[export] Instance coset : Coset.
Proof.
  refine {|
    sig_structure_data _ p := "Signature1" +:+ p;
    mac_structure_data _ p := "MAC0" +:+ p;
    serde_cose_key := serde_key;
    serde_cose_key_laws := serde_key_laws
  |}.
  - intros k v. by intros [= <-].
  - intros x y. exact I.
Defined.

(** *** Certificates: an issuer, a public key, a common name, which is also the
    value of the extension for readers, and a usage *)
Definition cert_bytes (ca pk cn : string) (eku : list Z) : string := to_bytes (ca, pk, cn, eku).
#[export] Instance x509_lib : X509Lib := {|
  TrustAnchor := string;
  EndEntityCert := string * string * string * list Z;
  end_entity_from_der := of_bytes;
  verify_for_usage c anchors _ _ eku :=
    let '(ca, _, _, u) := c in bool_decide (ca ∈ anchors) && bool_decide (u = eku);
  x509_from_der s :=
    c ← of_bytes s;
    let '(ca, pk, cn, eku) := (c : string * string * string * list Z) in
    Some {| public_key_raw := pk; common_names := [Some cn]; extended_key_usage := Some (Some [eku]);
            extensions := [([2; 1; 123; 1], cn)]; subject_alternative_name := Some (Some [Some cn]) |};
  from_public_key_der := Some
|}.
(** *** Tokens *)
Definition algorithm_code (a : Algorithm) : bool := match a with ES256 => true | OtherAlgorithm => false end.
#[export] Instance Algorithm_countable : Countable Algorithm.
Proof. by refine (inj_countable' algorithm_code (λ b, if b : bool then ES256 else OtherAlgorithm) _); intros []. Defined.
Definition jwk_code (j : Jwk) : option (bool * string * string) :=
  match algorithm j with
  | EllipticCurveParams P256 x y => Some (true, x, y)
  | EllipticCurveParams OtherCurve x y => Some (false, x, y)
  | OtherParams => None
  end.
Definition code_jwk (c : option (bool * string * string)) : Jwk := {| algorithm :=
  match c with
  | Some (true, x, y) => EllipticCurveParams P256 x y
  | Some (false, x, y) => EllipticCurveParams OtherCurve x y
  | None => OtherParams
  end |}.
#[export] Instance EllipticCurve_eq_dec : EqDecision EllipticCurve.
Proof. solve_decision. Defined.
#[export] Instance AlgorithmParameters_eq_dec : EqDecision AlgorithmParameters.
Proof. solve_decision. Defined.
#[export] Instance Jwk_eq_dec : EqDecision Jwk.
Proof. solve_decision. Defined.
#[export] Instance Jwk_countable : Countable Jwk.
Proof. by refine (inj_countable' jwk_code code_jwk _); intros [[[] ? ?|]]. Defined.
#[export] Instance Header_eq_dec : EqDecision Jose.Header.
Proof. solve_decision. Defined.
(** Records are encoded as lists, which keeps the numbers short. *)
Definition item : Type := option string + Z + list string.
Definition text (o : option string) : item := inl (inl o).
Definition header_code (h : Jose.Header) : list item :=
  [inl (inr (if algorithm_code (Jose.alg h) then 1 else 0)); text (Jose.typ h); text (Jose.kid h)]
  ++ match Jose.jwk h with
     | None => []
     | Some j => match jwk_code j with
                 | Some (c, x, y) => [inl (inr (if c : bool then 1 else 0)); text (Some x); text (Some y)]
                 | None => [inl (inr 2)]
                 end
     end
  ++ match Jose.x5c h with Some l => [inr l] | None => [] end.
Definition code_header (l : list item) : option Jose.Header :=
  match l with
  | inl (inr a) :: inl (inl ty) :: inl (inl k) :: l =>
      '(j, l) ← match l with
                | inl (inr c) :: inl (inl (Some x)) :: inl (inl (Some y)) :: l =>
                    Some (Some (code_jwk (Some (c =? 1, x, y))), l)
                | inl (inr _) :: l => Some (Some (code_jwk None), l)
                | l => Some (None, l)
                end;
      Some {| Jose.alg := if a =? 1 then ES256 else OtherAlgorithm; Jose.typ := ty; Jose.kid := k; Jose.jwk := j;
              Jose.x5c := match l with [inr l] => Some l | _ => None end |}
  | _ => None
  end.
#[export] Instance Header_countable : Countable Jose.Header.
Proof.
  refine (inj_countable header_code code_header _).
  by intros [[] ? ? [[[[] ? ?|]]|] []].
Defined.
#[export] Instance DpopPayload_eq_dec : EqDecision DpopPayload.
Proof. solve_decision. Defined.
#[export] Instance DpopPayload_countable : Countable DpopPayload.
Proof.
  refine (inj_countable
    (λ p, [text (Some (http_url p)); text (Some (http_method p)); text (access_token_hash p); text (nonce p);
           text (Some (jti p)); inl (inr (iat p))])
    (λ l : list item, match l with
      | [inl (inl (Some u)); inl (inl (Some m)); inl (inl a); inl (inl n); inl (inl (Some j)); inl (inr i)] =>
          Some {| http_url := u; http_method := m; access_token_hash := a; nonce := n; jti := j; iat := i |}
      | _ => None end) _).
  by intros [].
Defined.

Definition jwt_decode {C} `{Countable C} (s vk : string) (v : Validation) : option (TokenData C) :=
  let '(eh, r) := split_dot s in
  let '(ec, es) := split_dot r in
  h ← of_digits eh; c ← of_digits ec; sig ← of_digits es;
  if bool_decide (Jose.alg h ∈ algorithms v) && ecdsa_verify (vk : VerifyingKey) (eh +:+ "." +:+ ec) sig
  then Some (mkTokenData h c) else None.

#[export] Instance jwt_lib C `{Countable C} : JwtLib C.
Proof.
  refine {|
    encode_header h := Some (to_digits h); encode_claims c := Some (to_digits c);
    encode_signature s := to_digits (s : string * N);
    decode_header s := of_digits (split_dot s).1;
    Jose.decode _ s vk v := jwt_decode s vk v;
    claims_valid _ _ _ := true
  |}.
  - intros h eh rest [= <-]. unfold to_digits. rewrite split_dot_digits. apply (of_to_digits h).
  - intros now h c eh ec sig vk v [= <-] [= <-] Ha _ Hs. unfold jwt_decode.
    rewrite !string_app_assoc. unfold to_digits at 1. rewrite split_dot_digits.
    unfold to_digits at 1. rewrite split_dot_digits.
    fold (to_digits h) (to_digits c). rewrite !of_to_digits. simpl.
    rewrite bool_decide_eq_true_2 by done. simpl in Hs. by rewrite Hs.
Defined.
End Crates.
