(* ===== verification/JoseFacts.v ===== *)
(** * Correctness of DPoP proofs and access tokens *)
From stdpp Require Import base list option strings countable.
From Stdlib Require Import ZArith Lia.
From S2P Require Import Prelude IndexMap Crypto Jose Concrete.

Section DpopFacts.
Context `{!Ecdsa, !Base64, !Sha256, !JwtLib DpopPayload}.

Definition dpop_payload (random : string) (now : Z) (url method : string) (at_ : option AccessToken) (n : option string)
    : DpopPayload := {|
  jti := random; iat := now; http_method := method; http_url := url; nonce := n; access_token_hash := sha256 <$> at_
|}.

Lemma Dpop_new_decodes random now sk url method at_ n d t :
  Dpop_new random now sk url method at_ n = Ok d →
  claims_valid t Dpop_validation (dpop_payload random now url method at_ n) = true →
  ∃ j, jwk_from_p256 (verifying_key sk) = Ok j ∧
    let header := {| alg := ES256; typ := Some OPENID4VCI_DPOP_JWT_TYPE; kid := None; jwk := Some j; x5c := None |} in
    decode_header d = Some header ∧
    decode t d (verifying_key sk) Dpop_validation =
      Some (mkTokenData header (dpop_payload random now url method at_ n)).
Proof.
  unfold Dpop_new, jwk_jwt_header. intros Hn Hc. run_ok Hn. eexists. split; [done|]. simpl. split.
  - unfold Jwt_sign in Hn. run_ok Hn. rewrite string_app_assoc.
    rewrite string_app_assoc. by apply decode_header_encoded.
  - eapply Jwt_sign_verify; [exact Hn|left|done].
Qed.

Lemma dpop_accepted random now sk url method at_ n d t
    (Hnew : Dpop_new random now sk url method at_ n = Ok d)
    (Hclaims : claims_valid t Dpop_validation (dpop_payload random now url method at_ n) = true) :
  Dpop_verify_expecting_key t d (verifying_key sk) url method at_ n = Ok tt ∧
  (n = None → Dpop_verify t d url method at_ = Ok (verifying_key sk)).
Proof.
  destruct (Dpop_new_decodes _ _ _ _ _ _ _ _ _ Hnew Hclaims) as (j & Hj & Hh & Hd). pose proof (jwk_round_trip _ _ Hj) as Hk.
  assert (∀ h, typ h = Some OPENID4VCI_DPOP_JWT_TYPE →
    Dpop_verify_data (mkTokenData h (dpop_payload random now url method at_ n)) url method at_ n = Ok tt) as Hvd.
  { intros h Ht. by apply verify_data_Ok. }
  split.
  - unfold Dpop_verify_expecting_key, Dpop_verify_signature. rewrite Hd. simpl. rewrite Hvd by done. simpl.
    rewrite Hk. simpl. by rewrite bool_decide_eq_true_2.
  - intros ->. unfold Dpop_verify, Dpop_verify_signature. rewrite Hh. simpl. rewrite Hk. simpl. rewrite Hd. simpl.
    by rewrite Hvd.
Qed.

(** A DPoP that the wallet makes is accepted by the issuer: with the key of
    the wallet expected and the same URL, method, access token and nonce, and -
    for the first request, which has neither access token nor nonce - under the
    key in its own header, which is then the wallet's key. *)
Theorem honest_dpop_accepted random now sk url method at_ n d t
    (Hnew : Dpop_new random now sk url method at_ n = Ok d)
    (Hclaims : claims_valid t Dpop_validation (dpop_payload random now url method at_ n) = true) :
  Dpop_verify_expecting_key t d (verifying_key sk) url method at_ n = Ok tt ∧
  (n = None → Dpop_verify t d url method at_ = Ok (verifying_key sk)).
Proof. by eapply dpop_accepted. Qed.

(** A DPoP that is accepted for a request was signed for that request: under
    the expected key, over a payload with exactly the method, the URL, the hash
    of the access token and the nonce of the request.  So a DPoP cannot be
    reused for another endpoint, another access token or after the nonce has
    changed. *)
Theorem accepted_dpop_is_bound t d k url method at_ n url' method' at' n'
    (Hacc : Dpop_verify_expecting_key t d k url method at_ n = Ok tt)
    (Hdiff : url' ≠ url ∨ method' ≠ method ∨ sha256 <$> at' ≠ sha256 <$> at_ ∨ n' ≠ n) :
  (∃ td, decode t d k Dpop_validation = Some td ∧ http_method (td_claims td) = method ∧
     http_url (td_claims td) = url ∧ access_token_hash (td_claims td) = sha256 <$> at_ ∧ nonce (td_claims td) = n) ∧
  is_ok (Dpop_verify_expecting_key t d k url' method' at' n') = false.
Proof.
  pose proof (verify_expecting_key_Ok _ _ _ _ _ _ _ _ Hacc) as (td & Hd & Hm & Hu & Ha & Hn).
  split; [by exists td|].
  destruct (Dpop_verify_expecting_key t d k url' method' at' n') as [u| |] eqn:E; [|done..].
  apply verify_expecting_key_Ok in E as (td' & Hd' & Hm' & Hu' & Ha' & Hn').
  rewrite Hd in Hd'. injection Hd' as <-. exfalso. naive_solver congruence.
Qed.
End DpopFacts.

(** The authorization code can be read back from an access token made for
    it, because the random prefix has a fixed length: this is how the issuer
    finds the session of a credential request. *)
Theorem access_token_code random code
    (Hlen : String.length random = 32%nat) (Hchar : starts_char code = true) :
  AccessToken_code (AccessToken_new random code) = Some code.
Proof. unfold AccessToken_code, AccessToken_new. rewrite <-Hlen. by apply str_get_from_app. Qed.

(** ** Evaluated on concrete tokens *)
Import Crates.

Definition example_dpop (sk : SigningKey) (at_ : option AccessToken) (n : option string) : string :=
  match Dpop_new "jti" 5 sk "https://issuer/token" "POST" at_ n with Ok d => d | _ => "" end.

Definition wallet_key : SigningKey := "w".
Definition wallet_pk : VerifyingKey := "w".

Lemma honest_dpop_accepted_witness :
  Dpop_verify_expecting_key 9 (example_dpop wallet_key (Some "at") (Some "n")) wallet_pk
    "https://issuer/token" "POST" (Some "at") (Some "n") = Ok tt ∧
  Dpop_verify 9 (example_dpop wallet_key None None) "https://issuer/token" "POST" None = Ok wallet_pk.
Proof.
  split.
  - refine (proj1 (honest_dpop_accepted "jti" 5 wallet_key "https://issuer/token" "POST" (Some "at") (Some "n")
      (example_dpop wallet_key (Some "at") (Some "n")) 9 _ _)); [vm_compute; reflexivity|reflexivity].
  - refine (proj2 (honest_dpop_accepted "jti" 5 wallet_key "https://issuer/token" "POST" None None
      (example_dpop wallet_key None None) 9 _ _) _); [vm_compute; reflexivity|reflexivity|reflexivity].
Defined.

Lemma accepted_dpop_is_bound_witness :
  is_ok (Dpop_verify_expecting_key 9 (example_dpop wallet_key (Some "at") (Some "n")) wallet_pk
    "https://issuer/token" "POST" (Some "at") (Some "other")) = false.
Proof.
  apply (accepted_dpop_is_bound 9 (example_dpop wallet_key (Some "at") (Some "n")) wallet_pk
    "https://issuer/token" "POST" (Some "at") (Some "n")).
  - vm_compute. reflexivity.
  - right. right. right. discriminate.
Defined.

Lemma access_token_code_witness :
  AccessToken_code (AccessToken_new "0123456789abcdef0123456789abcdef" "code") = Some "code".
Proof. apply access_token_code; reflexivity. Defined.
