(* ===== verification/Mdoc.v ===== *)
(** * Mdocs: data, issuance and verification

    Models [mdoc/src/iso/unsigned.rs], [mdoc/src/iso/mdocs.rs] and
    [mdoc/src/iso/disclosure.rs] (data), [mdoc/src/issuer.rs] (signing an mdoc),
    [mdoc/src/verifier.rs] (verifying issuer-signed data, documents and device
    responses), [mdoc/src/identifiers.rs] and [mdoc/src/holder/mdocs.rs].
    Instants are in microseconds. *)
From stdpp Require Import base list option strings sets.
From Stdlib Require Import ZArith Lia.
From S2P Require Import Prelude IndexMap Crypto Cbor Cose Engagement.

Abbreviation NameSpace := string (only parsing).
Abbreviation DocType := string (only parsing).
Abbreviation DataElementIdentifier := string (only parsing).

(** ** Unsigned mdocs *)
Record Entry := mkEntry { entry_name : DataElementIdentifier; entry_value : Value }.

Record UnsignedMdoc := mkUnsigned {
  u_doc_type : DocType;
  u_valid_from : Tdate;
  u_valid_until : Tdate;
  u_attributes : imap NameSpace (list Entry);
  u_copy_count : Z
}.

(** The validation of [UnsignedAttributes], whose map has distinct keys. *)
Definition unsigned_attributes_valid (attributes : imap NameSpace (list Entry)) : bool :=
  match attributes with [] => false | _ => true end
  && forallb (λ ns, match ns.2 with [] => false | _ => true end) attributes.
Definition unsigned_wf (u : UnsignedMdoc) : Prop :=
  unsigned_attributes_valid (u_attributes u) = true ∧ NoDup (u_attributes u).*1.

(** ** Issuer-signed data *)
Record IssuerSignedItem := mkItem {
  digest_id : Z;
  random : ByteBuf;
  element_identifier : DataElementIdentifier;
  element_value : Value
}.
Abbreviation IssuerSignedItemBytes := (TaggedBytes IssuerSignedItem).
Abbreviation Attributes := (list IssuerSignedItemBytes).
Abbreviation IssuerNameSpaces := (imap NameSpace Attributes).

Definition item_serialize (i : IssuerSignedItem) : option Value :=
  d ← serialize_u64 (digest_id i);
  Some (struct_value [("digestID", d); ("random", VBytes (bytes (random i)));
                      ("elementIdentifier", VText (element_identifier i)); ("elementValue", element_value i)]).
Definition item_deserialize (v : Value) : option IssuerSignedItem :=
  l ← entries v;
  d ← (d ← required_field "digestID" l; deserialize_u64 d);
  r ← (r ← required_field "random" l; as_bytes r);
  e ← (e ← required_field "elementIdentifier" l; as_text e);
  x ← required_field "elementValue" l;
  Some (mkItem d (mkByteBuf r) e x).
#[global] Instance serde_item : SerdeCbor IssuerSignedItem := {|
  serialized := item_serialize; deserialized := item_deserialize |}.
#[global] Instance serde_item_laws : SerdeCborLaws IssuerSignedItem.
Proof.
  refine {| serde_wf _ := True |}. intros [d [r] e x] v _ Hs.
  change (item_serialize (mkItem d (mkByteBuf r) e x) = Some v) in Hs. unfold item_serialize in Hs.
  simpl digest_id in Hs. apply bind_Some in Hs as (w & Hw & [= <-]).
  apply deserialize_serialize_u64 in Hw.
  match goal with |- deserialized ?w = _ => change (item_deserialize w = Some (mkItem d (mkByteBuf r) e x)) end.
  unfold item_deserialize. cbn -[deserialize_u64]. by rewrite Hw.
Defined.

Record ValidityInfo := mkValidity {
  signed : Tdate;
  valid_from : Tdate;
  valid_until : Tdate;
  expected_update : option Tdate
}.
Definition validity_serialize (i : ValidityInfo) : option Value :=
  s ← serialized (signed i); f ← serialized (valid_from i); u ← serialized (valid_until i);
  e ← serialize_option (expected_update i);
  Some (struct_value ([("signed", s); ("validFrom", f); ("validUntil", u)]
    ++ (if expected_update i then [("expectedUpdate", e)] else []))).
Definition validity_deserialize (v : Value) : option ValidityInfo :=
  l ← entries v;
  s ← (s ← required_field "signed" l; deserialized s);
  f ← (f ← required_field "validFrom" l; deserialized f);
  u ← (u ← required_field "validUntil" l; deserialized u);
  e ← (e ← optional_field "expectedUpdate" l; deserialize_option e);
  Some (mkValidity s f u e).
Lemma validity_round_trip i v : validity_serialize i = Some v → validity_deserialize v = Some i.
Proof. by destruct i as [[s] [f] [u] [[e]|]]; intros [= <-]. Qed.

Record KeyAuthorizations := mkKeyAuthorizations {
  ka_name_spaces : option (list NameSpace);
  ka_data_elements : option (imap NameSpace (list DataElementIdentifier))
}.
Record DeviceKeyInfo := mkDeviceKeyInfo {
  device_key : CoseKey;
  key_authorizations : option KeyAuthorizations;
  key_info : option (imap Z Value)
}.
(** [From<CoseKey> for DeviceKeyInfo] *)
Definition device_key_info_from (key : CoseKey) : DeviceKeyInfo := mkDeviceKeyInfo key None None.

Definition data_elements_serialize : imap NameSpace (list DataElementIdentifier) → option Value :=
  serialize_map serialized serialized.
Definition data_elements_deserialize : Value → option (imap NameSpace (list DataElementIdentifier)) :=
  deserialize_map deserialized deserialized.
Definition skip_none {A} (s : A → option Value) (name : string) (o : option A) : option (list (string * Value)) :=
  match o with None => Some [] | Some a => v ← s a; Some [(name, v)] end.
Definition read_optional {A} (d : Value → option A) (name : string) (l : list (Value * Value)) : option (option A) :=
  v ← optional_field name l;
  if is_null v then Some None else Some <$> d v.

Definition key_authorizations_serialize (k : KeyAuthorizations) : option Value :=
  n ← skip_none serialized "nameSpaces" (ka_name_spaces k);
  d ← skip_none data_elements_serialize "dataElements" (ka_data_elements k);
  Some (struct_value (n ++ d)).
Definition key_authorizations_deserialize (v : Value) : option KeyAuthorizations :=
  l ← entries v;
  n ← read_optional deserialized "nameSpaces" l;
  d ← read_optional data_elements_deserialize "dataElements" l;
  Some (mkKeyAuthorizations n d).

Definition i32_serialize (n : Z) : option Value := if (-2 ^ 31 <=? n) && (n <? 2 ^ 31) then Some (VInteger n) else None.
Definition i32_deserialize (v : Value) : option Z :=
  match v with VInteger n => if (-2 ^ 31 <=? n) && (n <? 2 ^ 31) then Some n else None | _ => None end.

Section DeviceKeyInfoSerde.
Context `{!Ecdsa, !Coset}.

Definition device_key_info_serialize (i : DeviceKeyInfo) : option Value :=
  k ← serialized (device_key i);
  a ← skip_none key_authorizations_serialize "keyAuthorizations" (key_authorizations i);
  n ← skip_none (serialize_map i32_serialize Some) "keyInfo" (key_info i);
  Some (struct_value (("deviceKey", k) :: a ++ n)).
Definition device_key_info_deserialize (v : Value) : option DeviceKeyInfo :=
  l ← entries v;
  k ← (k ← required_field "deviceKey" l; deserialized k);
  a ← read_optional key_authorizations_deserialize "keyAuthorizations" l;
  n ← read_optional (deserialize_map i32_deserialize Some) "keyInfo" l;
  Some (mkDeviceKeyInfo k a n).
End DeviceKeyInfoSerde.

(** *** The object that the issuer signs *)
Record MobileSecurityObject := mkMso {
  value_digests : imap NameSpace (imap Z ByteBuf);
  device_key_info : DeviceKeyInfo;
  mso_doc_type : DocType;
  validity_info : ValidityInfo
}.
Definition MSO_VERSION : string := "1.0".
Definition DIGEST_ALGORITHM : string := "SHA-256".

Definition digest_ids_serialize : imap Z ByteBuf → option Value := serialize_map serialize_u64 serialized.
Definition digest_ids_deserialize : Value → option (imap Z ByteBuf) := deserialize_map deserialize_u64 deserialized.
Definition value_digests_serialize : imap NameSpace (imap Z ByteBuf) → option Value :=
  serialize_map serialized digest_ids_serialize.
Definition value_digests_deserialize : Value → option (imap NameSpace (imap Z ByteBuf)) :=
  deserialize_map deserialized digest_ids_deserialize.

Section MsoSerde.
Context `{!Ecdsa, !Coset}.

Definition mso_serialize (m : MobileSecurityObject) : option Value :=
  d ← value_digests_serialize (value_digests m);
  k ← device_key_info_serialize (device_key_info m);
  i ← validity_serialize (validity_info m);
  Some (struct_value [("version", VText MSO_VERSION); ("digestAlgorithm", VText DIGEST_ALGORITHM);
    ("valueDigests", d); ("deviceKeyInfo", k); ("docType", VText (mso_doc_type m)); ("validityInfo", i)]).
Definition mso_deserialize (v : Value) : option MobileSecurityObject :=
  l ← entries v;
  w ← (w ← required_field "version" l; as_text w);
  a ← (a ← required_field "digestAlgorithm" l; as_text a);
  d ← (d ← required_field "valueDigests" l; value_digests_deserialize d);
  k ← (k ← required_field "deviceKeyInfo" l; device_key_info_deserialize k);
  t ← (t ← required_field "docType" l; as_text t);
  i ← (i ← required_field "validityInfo" l; validity_deserialize i);
  if decide (w = MSO_VERSION ∧ a = DIGEST_ALGORITHM) then Some (mkMso d k t i) else None.
#[global] Instance serde_mso : SerdeCbor MobileSecurityObject := {|
  serialized := mso_serialize; deserialized := mso_deserialize |}.
End MsoSerde.

(** The CBOR form of an MSO is faithful when its maps have distinct keys. *)
Section MsoLaws.
Context `{!Ecdsa, !Coset}.

Lemma i32_round_trip n v : i32_serialize n = Some v → i32_deserialize v = Some n.
Proof. unfold i32_serialize, i32_deserialize. destruct (_ && _) eqn:E; [|done]. intros [= <-]. by rewrite E. Qed.

Lemma string_round_trip (s : string) v : serialized s = Some v → deserialized v = Some s.
Proof. by intros [= <-]. Qed.

Lemma strings_round_trip (l : list string) v : serialized l = Some v → deserialized v = Some l.
Proof. apply deserialized_serialized. simpl. by apply Forall_true. Qed.

Lemma map_not_null {K V} (sk : K → option Value) (sv : V → option Value) m v :
  serialize_map sk sv m = Some v → is_null v = false.
Proof. unfold serialize_map. intros Hs. by apply fmap_Some in Hs as (l & _ & ->). Qed.

Definition first_value (es : list (string * Value)) : Value := match es with [] => VNull | e :: _ => e.2 end.
Lemma skip_none_read {A} (s : A → option Value) (d : Value → option A) name (o : option A) es :
  skip_none s name o = Some es →
  (∀ a w, o = Some a → s a = Some w → is_null w = false ∧ d w = Some a) →
  (if is_null (first_value es) then Some None else Some <$> d (first_value es)) = Some o.
Proof.
  intros Hs Hd. destruct o as [a|]; simpl in Hs.
  - apply bind_Some in Hs as (w & Hw & [= <-]). destruct (Hd a w) as [Hn Hr]; [done..|]. simpl. by rewrite Hn, Hr.
  - by injection Hs as <-.
Qed.

Lemma skip_none_shape {A} (s : A → option Value) name (o : option A) es :
  skip_none s name o = Some es → es = [] ∨ ∃ w, es = [(name, w)].
Proof. destruct o; simpl; intros Hs; [apply bind_Some in Hs as (w & _ & [= <-]); eauto|injection Hs; eauto]. Qed.

Definition key_authorizations_wf (k : KeyAuthorizations) : Prop :=
  from_option (λ m, NoDup m.*1) True (ka_data_elements k).
Lemma key_authorizations_round_trip k v : key_authorizations_wf k →
  key_authorizations_serialize k = Some v → is_null v = false ∧ key_authorizations_deserialize v = Some k.
Proof.
  destruct k as [n d]. intros Hwf Hs. unfold key_authorizations_serialize in Hs.
  unfold key_authorizations_wf in Hwf. cbn [ka_name_spaces ka_data_elements] in Hwf, Hs.
  apply bind_Some in Hs as (en & En & Hs). apply bind_Some in Hs as (ed & Ed & [= <-]). split; [done|].
  pose proof (skip_none_read _ deserialized _ _ _ En) as Rn.
  pose proof (skip_none_read _ data_elements_deserialize _ _ _ Ed) as Rd.
  assert (∀ a w, d = Some a → data_elements_serialize a = Some w →
    is_null w = false ∧ data_elements_deserialize w = Some a) as Hd.
  { intros m w -> Hw. split; [by eapply map_not_null|]. simpl in Hwf.
    revert Hw. apply deserialize_serialize_map; [apply string_round_trip| |done].
    apply Forall_true. intros ? ?. apply strings_round_trip. }
  assert (∀ a w, n = Some a → serialized a = Some w → is_null w = false ∧ deserialized w = Some a) as Hn.
  { intros l w _ Hw. split; [by apply (never_null l)|by apply strings_round_trip]. }
  specialize (Rn Hn). specialize (Rd Hd).
  unfold key_authorizations_deserialize, read_optional.
  destruct (skip_none_shape _ _ _ _ En) as [->|[wn ->]], (skip_none_shape _ _ _ _ Ed) as [->|[wd ->]];
    cbn -[deserialized data_elements_deserialize] in *; use_read Rn;
    cbn -[deserialized data_elements_deserialize]; by use_read Rd.
Qed.

Definition device_key_info_wf (i : DeviceKeyInfo) : Prop :=
  serde_wf (device_key i) ∧ from_option key_authorizations_wf True (key_authorizations i)
  ∧ from_option (λ m, NoDup m.*1) True (key_info i).
Lemma device_key_info_round_trip i v : device_key_info_wf i →
  device_key_info_serialize i = Some v → device_key_info_deserialize v = Some i.
Proof.
  destruct i as [k a n]. intros (Wk & Wa & Wn) Hs. unfold device_key_info_serialize in Hs.
  cbn [device_key key_authorizations key_info] in *.
  apply bind_Some in Hs as (vk & Ek & Hs). apply bind_Some in Hs as (ea & Ea & Hs).
  apply bind_Some in Hs as (en & En & [= <-]).
  pose proof (deserialized_serialized _ _ Wk Ek) as Rk.
  pose proof (skip_none_read _ key_authorizations_deserialize _ _ _ Ea) as Ra.
  pose proof (skip_none_read _ (deserialize_map i32_deserialize Some) _ _ _ En) as Rn.
  assert (∀ b w, a = Some b → key_authorizations_serialize b = Some w →
    is_null w = false ∧ key_authorizations_deserialize w = Some b) as Ha.
  { intros b w ->. by apply key_authorizations_round_trip. }
  assert (∀ m w, n = Some m → serialize_map i32_serialize Some m = Some w →
    is_null w = false ∧ deserialize_map i32_deserialize Some w = Some m) as Hn.
  { intros m w -> Hw. split; [by eapply map_not_null|].
    revert Hw. apply deserialize_serialize_map; [apply i32_round_trip| |done].
    apply Forall_true. by intros ? ? [= <-]. }
  specialize (Ra Ha). specialize (Rn Hn).
  unfold device_key_info_deserialize, read_optional.
  destruct (skip_none_shape _ _ _ _ Ea) as [->|[wa ->]], (skip_none_shape _ _ _ _ En) as [->|[wn ->]];
    cbn -[deserialized key_authorizations_deserialize deserialize_map] in *; rewrite Rk;
    cbn -[deserialized key_authorizations_deserialize deserialize_map]; use_read Ra;
    cbn -[deserialized key_authorizations_deserialize deserialize_map]; by use_read Rn.
Qed.

Definition value_digests_wf (d : imap NameSpace (imap Z ByteBuf)) : Prop :=
  NoDup d.*1 ∧ Forall (λ ns, NoDup ns.2.*1) d.
Lemma value_digests_round_trip d v : value_digests_wf d →
  value_digests_serialize d = Some v → value_digests_deserialize v = Some d.
Proof.
  intros [Hd Hi]. apply deserialize_serialize_map; [apply string_round_trip| |done].
  eapply Forall_impl; [exact Hi|]. intros [ns ids] Hids w.
  apply deserialize_serialize_map; [apply deserialize_serialize_u64| |done].
  apply Forall_true. intros [i [b]] w'. simpl. by intros [= <-].
Qed.

Definition mso_wf (m : MobileSecurityObject) : Prop :=
  value_digests_wf (value_digests m) ∧ device_key_info_wf (device_key_info m).
#[global] Instance serde_mso_laws : SerdeCborLaws MobileSecurityObject.
Proof.
  refine {| serde_wf := mso_wf |}. intros [d k t i] v [Wd Wk] Hs. cbn [value_digests device_key_info] in Wd, Wk.
  change (mso_serialize (mkMso d k t i) = Some v) in Hs. unfold mso_serialize in Hs.
  cbn [value_digests device_key_info mso_doc_type validity_info] in Hs.
  apply bind_Some in Hs as (vd & Ed & Hs). apply bind_Some in Hs as (vk & Ek & Hs).
  apply bind_Some in Hs as (vi & Ei & [= <-]).
  pose proof (value_digests_round_trip _ _ Wd Ed) as Rd.
  pose proof (device_key_info_round_trip _ _ Wk Ek) as Rk.
  pose proof (validity_round_trip _ _ Ei) as Ri.
  match goal with |- deserialized ?w = _ => change (mso_deserialize w = Some (mkMso d k t i)) end.
  unfold mso_deserialize.
  cbn -[value_digests_deserialize device_key_info_deserialize validity_deserialize decide].
  rewrite Rd. cbn -[device_key_info_deserialize validity_deserialize decide].
  rewrite Rk. cbn -[validity_deserialize decide]. rewrite Ri. done.
Defined.
End MsoLaws.
