(* ===== verification/MdocSigning.v ===== *)
(** * Issuing and verifying mdocs

    Models [mdoc/src/issuer.rs] ([IssuerSigned::sign]), the verification half of
    [mdoc/src/verifier.rs] ([IssuerSigned::verify], [Document::verify],
    [DeviceResponse::verify], [ItemsRequests::match_against_response]),
    [mdoc/src/identifiers.rs], [mdoc/src/iso/disclosure.rs],
    [mdoc/src/iso/device_retrieval.rs] and [mdoc/src/holder/mdocs.rs].
    The time generator of the source is an instant [time]. *)
From stdpp Require Import base list option strings sets.
From Stdlib Require Import ZArith Lia.
From S2P Require Import Prelude IndexMap Crypto Cbor Cose Engagement Mdoc.

(** ** Errors *)
Record AttributeIdentifier := mkAttributeIdentifier {
  ai_doc_type : DocType;
  ai_namespace : NameSpace;
  ai_attribute : DataElementIdentifier
}.
#[global] Instance AttributeIdentifier_eq_dec : EqDecision AttributeIdentifier.
Proof. solve_decision. Defined.

Inductive ValidityError :=
  | ParsingFailed
  | NotYetValid (from : string)
  | Expired (at_ : string).

Inductive VerificationError :=
  | DeviceResponseErrors (errors : list (imap DocType Z))
  | UnexpectedStatus (status : Z)
  | NoDocuments
  | WrongDocType (document mso : DocType)
  | MissingNamespace (ns : NameSpace)
  | MissingDigestID (id : Z)
  | AttributeVerificationFailed
  | EphemeralKeyMissing
  | Validity (e : ValidityError)
  | MissingAttributes (missing : list AttributeIdentifier).

Inductive MdocError :=
  | MCrypto (e : CryptoError)
  | MCose (e : CoseError)
  | MCbor (e : CborError)
  | MVerification (e : VerificationError)
  | MKeys
  | MCertificate (e : CertificateError).

(** ** Data of a disclosure *)
Record IssuerSigned := mkIssuerSigned {
  name_spaces : option IssuerNameSpaces;
  issuer_auth : CoseSign1
}.

Inductive DeviceAuth := DeviceSignature (sig : CoseSign1) | DeviceMac (mac : CoseMac0).
Record DeviceSigned := mkDeviceSigned {
  ds_name_spaces : imap NameSpace (imap DataElementIdentifier Value);
  device_auth : DeviceAuth
}.
Record Document := mkDocument {
  doc_type : DocType;
  issuer_signed : IssuerSigned;
  device_signed : DeviceSigned;
  doc_errors : option (imap NameSpace (imap DataElementIdentifier Z))
}.
Record DeviceResponse := mkDeviceResponse {
  documents : option (list Document);
  document_errors : option (list (imap DocType Z));
  status : Z
}.

Record ItemsRequest := mkItemsRequest {
  req_doc_type : DocType;
  req_name_spaces : imap NameSpace (imap DataElementIdentifier bool);
  request_info : option (imap string Value)
}.
Record DocRequest := mkDocRequest {
  items_request : TaggedBytes ItemsRequest;
  reader_auth : option CoseSign1
}.
Record DeviceRequest := mkDeviceRequest {
  doc_requests : list DocRequest;
  return_url : option string
}.

Record DocumentDisclosedAttributes := mkDisclosed {
  disclosed_attributes : imap NameSpace (list Entry);
  issuer : list string;
  disclosed_validity : ValidityInfo
}.
Abbreviation DisclosedAttributes := (imap DocType DocumentDisclosedAttributes).

(** ** Signing *)

(** [IssuerSignedItem::new], with the random bytes it generates. *)
Definition IssuerSignedItem_new (rnd : string) (id : Z) (name : DataElementIdentifier) (v : Value) : IssuerSignedItem :=
  {| digest_id := id; random := mkByteBuf rnd; element_identifier := name; element_value := v |}.

(** [TryFrom<Vec<Entry>> for Attributes] by way of a map: an attribute that
    occurs twice keeps its first position and its last value.  The result must
    not be empty. *)
Definition attributes_from_entries (rng : Z → string) (l : list Entry) : option Attributes :=
  let map := im_collect ((λ e, (entry_name e, entry_value e)) <$> l) in
  let items := (λ p : Z * (string * Value), mkTagged (IssuerSignedItem_new (rng p.1) p.1 p.2.1 p.2.2)) <$> enumerate map in
  match items with [] => None | _ => Some items end.

(** [From<UnsignedAttributes> for IssuerNameSpaces]: both conversions are unwrapped. *)
Definition issuer_name_spaces_from {E} (rng : NameSpace → Z → string) (attributes : imap NameSpace (list Entry))
    : outcome E IssuerNameSpaces :=
  let* l := try_map (λ ns : NameSpace * list Entry,
              let* attrs := unwrap (attributes_from_entries (rng ns.1) ns.2) in Ok (ns.1, attrs)) attributes in
  match im_collect l with [] => Panic | m => Ok m end.

Section Digests.
Context `{!Ciborium, !Sha256}.

(** [TryFrom<&Attributes> for DigestIDs]: keyed by the position of the attribute. *)
Definition digest_ids_from (attrs : Attributes) : outcome CborError (imap Z ByteBuf) :=
  let* l := try_map (λ p : Z * IssuerSignedItemBytes,
              let* d := cbor_digest p.2 in Ok (p.1, mkByteBuf d)) (enumerate attrs) in
  Ok (im_collect l).

(** [TryFrom<&IssuerNameSpaces> for ValueDigests] *)
Definition value_digests_from (ns : IssuerNameSpaces) : outcome CborError (imap NameSpace (imap Z ByteBuf)) :=
  let* l := try_map (λ p : NameSpace * Attributes,
              let* ids := digest_ids_from p.2 in Ok (p.1, ids)) ns in
  Ok (im_collect l).
End Digests.

Section Mdocs.
Context `{!Ecdsa, !Coset, !Ciborium, !Sha256, !X509Lib, !Chrono, !UrlLib, !MacLib}.

(** [From<DateTime<Utc>> for Tdate] and back *)
Definition tdate_from (t : Z) : Tdate := mkTdate (to_rfc3339 t).
Definition tdate_time (t : Tdate) : outcome ValidityError Z := ok_or ParsingFailed (parse_from_rfc3339 (tdate t)).

(** [IssuerSigned::sign] at the time [now]. *)
Definition IssuerSigned_sign (now : Z) (rng : NameSpace → Z → string) (unsigned_mdoc : UnsignedMdoc)
    (device_public_key : CoseKey) (key : KeyPair) : outcome MdocError IssuerSigned :=
  let validity := {| signed := tdate_from now; valid_from := u_valid_from unsigned_mdoc;
                     valid_until := u_valid_until unsigned_mdoc; expected_update := None |} in
  let* attrs := issuer_name_spaces_from rng (u_attributes unsigned_mdoc) in
  let* digests := map_err MCbor (value_digests_from attrs) in
  let mso := {| mso_doc_type := u_doc_type unsigned_mdoc; value_digests := digests;
                device_key_info := device_key_info_from device_public_key; validity_info := validity |} in
  let headers := new_certificate_header (certificate key) in
  let* issuer_auth := map_err MCose (MdocCose_sign (mkTagged mso) headers (private_key key) true) in
  Ok {| name_spaces := Some attrs; issuer_auth := issuer_auth |}.

(** ** Verification *)
Inductive ValidityRequirement := AllowNotYetValid | Valid.

(** [ValidityInfo::verify_is_valid_at] *)
Definition verify_is_valid_at (i : ValidityInfo) (time : Z) (validity : ValidityRequirement)
    : outcome ValidityError unit :=
  let* not_yet := match validity with
                  | Valid => let* from := tdate_time (valid_from i) in Ok (time <? from)
                  | AllowNotYetValid => Ok false
                  end in
  if (not_yet : bool) then Err (NotYetValid (tdate (valid_from i)))
  else
    let* until := tdate_time (valid_until i) in
    if until <? time then Err (Expired (tdate (valid_from i))) else Ok tt.

(** [MobileSecurityObject::verify_attr_digest] *)
Definition verify_attr_digest (mso : MobileSecurityObject) (namespace : NameSpace) (item : IssuerSignedItemBytes)
    : outcome MdocError unit :=
  let digest_id := digest_id (untag item) in
  let* ids := ok_or (MVerification (MissingNamespace namespace)) (im_get (value_digests mso) namespace) in
  let* digest := ok_or (MVerification (MissingDigestID digest_id)) (im_get ids digest_id) in
  let* d := map_err MCbor (cbor_digest item) in
  guard_err (bool_decide (digest = mkByteBuf d)) (MVerification AttributeVerificationFailed).

Definition entry_of_item (item : IssuerSignedItemBytes) : Entry :=
  mkEntry (element_identifier (untag item)) (element_value (untag item)).

(** [MobileSecurityObject::verify_attrs_in_namespace] *)
Definition verify_attrs_in_namespace (mso : MobileSecurityObject) (attrs : Attributes) (namespace : NameSpace)
    : outcome MdocError (list Entry) :=
  try_map (λ item, let* _ := verify_attr_digest mso namespace item in Ok (entry_of_item item)) attrs.

(** [IssuerSigned::verify] *)
Definition IssuerSigned_verify (s : IssuerSigned) (validity : ValidityRequirement) (time : Z)
    (trust_anchors : list TrustAnchor) : outcome MdocError (DocumentDisclosedAttributes * MobileSecurityObject) :=
  let* tagged := map_err MCose (cose_verify_against_trust_anchors (T:=TaggedBytes MobileSecurityObject)
                                  (issuer_auth s) Mdl time trust_anchors) in
  let mso := untag tagged in
  let* _ := map_err (λ e, MVerification (Validity e)) (verify_is_valid_at (validity_info mso) time validity) in
  let* attrs := match name_spaces s with
                | None => Ok []
                | Some ns =>
                    omap im_collect (try_map (λ p : NameSpace * Attributes,
                      let* es := verify_attrs_in_namespace mso p.2 p.1 in Ok (p.1, es)) ns)
                end in
  let* cert := map_err MCose (signing_cert (issuer_auth s)) in
  let* names := map_err MCertificate (iter_common_name cert) in
  Ok ({| disclosed_attributes := attrs; issuer := names; disclosed_validity := validity_info mso |}, mso).

(** [Document::verify] *)
Definition Document_verify (d : Document) (eph_reader_key : option SecretKey) (session_transcript : SessionTranscript)
    (time : Z) (trust_anchors : list TrustAnchor) : outcome MdocError (DocType * DocumentDisclosedAttributes) :=
  let* am := IssuerSigned_verify (issuer_signed d) Valid time trust_anchors in
  let '(attrs, mso) := am in
  let* _ := guard_err (bool_decide (doc_type d = mso_doc_type mso))
              (MVerification (WrongDocType (doc_type d) (mso_doc_type mso))) in
  let* session_transcript_bts := map_err MCbor (tagged_serialize (session_transcript_serialize session_transcript)) in
  let* device_authentication_bts := map_err MCbor (device_authentication_bytes (doc_type d) session_transcript) in
  let* device_key := map_err MCrypto (verifying_key_from_cose_key (device_key (device_key_info mso))) in
  let* _ := match device_auth (device_signed d) with
            | DeviceSignature sig =>
                map_err MCose (sign1_verify (sign1_with_payload sig device_authentication_bts) device_key)
            | DeviceMac mac =>
                let* eph := ok_or (MVerification EphemeralKeyMissing) eph_reader_key in
                let* mac_key := map_err MCrypto (dh_hmac_key eph device_key session_transcript_bts "EMacKey" 32) in
                map_err MCose (mac0_verify (mac0_with_payload mac device_authentication_bts) mac_key)
            end in
  Ok (mso_doc_type mso, attrs).

(** The loop of [DeviceResponse::verify] over the documents. *)
Fixpoint verify_documents (docs : list Document) (eph_reader_key : option SecretKey)
    (session_transcript : SessionTranscript) (time : Z) (trust_anchors : list TrustAnchor)
    (attrs : DisclosedAttributes) : outcome MdocError DisclosedAttributes :=
  match docs with
  | [] => Ok attrs
  | d :: docs =>
      let* da := Document_verify d eph_reader_key session_transcript time trust_anchors in
      verify_documents docs eph_reader_key session_transcript time trust_anchors (im_insert da.1 da.2 attrs)
  end.

(** [DeviceResponse::verify] *)
Definition DeviceResponse_verify (r : DeviceResponse) (eph_reader_key : option SecretKey)
    (session_transcript : SessionTranscript) (time : Z) (trust_anchors : list TrustAnchor)
    : outcome MdocError DisclosedAttributes :=
  match document_errors r with
  | Some errors => Err (MVerification (DeviceResponseErrors errors))
  | None =>
      if negb (status r =? 0) then Err (MVerification (UnexpectedStatus (status r)))
      else match documents r with
           | None => Err (MVerification NoDocuments)
           | Some docs => verify_documents docs eph_reader_key session_transcript time trust_anchors []
           end
  end.

(** ** Holders ([holder::mdocs]) *)
Inductive MdocKeyType := Software | Remote.
Record Mdoc := mkMdoc {
  m_doc_type : DocType;
  private_key_id : string;
  m_issuer_signed : IssuerSigned;
  key_type : MdocKeyType
}.

(** [Mdoc::new] for keys of type [kt]. *)
Definition Mdoc_new (kt : MdocKeyType) (key_id : string) (s : IssuerSigned) (time : Z)
    (trust_anchors : list TrustAnchor) : outcome MdocError Mdoc :=
  let* am := IssuerSigned_verify s AllowNotYetValid time trust_anchors in
  Ok {| m_doc_type := mso_doc_type am.2; private_key_id := key_id; m_issuer_signed := s; key_type := kt |}.
End Mdocs.

(** [From<&Attributes> for Vec<Entry>] and [Mdoc::attributes] *)
Definition entries_of_attributes (attrs : Attributes) : list Entry := entry_of_item <$> attrs.
Definition Mdoc_attributes (m : Mdoc) : imap NameSpace (list Entry) :=
  match name_spaces (m_issuer_signed m) with
  | Some ns => im_collect ((λ p : NameSpace * Attributes, (p.1, entries_of_attributes p.2)) <$> ns)
  | None => []
  end.

Definition Mdoc_issuer_certificate `{!Ecdsa} (m : Mdoc) : outcome CoseError Certificate :=
  signing_cert (issuer_auth (m_issuer_signed m)).

(** [flatten_map] *)
Definition flatten_map (doctype : DocType) (attrs : imap NameSpace (list Entry)) : imap AttributeIdentifier Value :=
  im_collect (mjoin ((λ p : NameSpace * list Entry,
    (λ e, (mkAttributeIdentifier doctype p.1 (entry_name e), entry_value e)) <$> p.2) <$> attrs)).

(** The entries of [from] that are absent from [other] or have another value there. *)
Definition mismatches (from other : imap AttributeIdentifier Value) : list AttributeIdentifier :=
  (filter (λ p : AttributeIdentifier * Value,
     match im_get other p.1 with Some v => negb (value_eqb v p.2) | None => true end = true) from).*1.

Record IssuedAttributesMismatch := mkMismatch {
  missing : list AttributeIdentifier;
  unexpected : list AttributeIdentifier
}.

(** [Mdoc::compare_unsigned] *)
Definition compare_unsigned (m : Mdoc) (unsigned : UnsignedMdoc) : outcome IssuedAttributesMismatch unit :=
  let our_attrs := flatten_map (m_doc_type m) (Mdoc_attributes m) in
  let expected_attrs := flatten_map (u_doc_type unsigned) (u_attributes unsigned) in
  let missing := mismatches expected_attrs our_attrs in
  let unexpected := mismatches our_attrs expected_attrs in
  match missing, unexpected with
  | [], [] => Ok tt
  | _, _ => Err (mkMismatch missing unexpected)
  end.

(** ** Attribute identifiers ([identifiers]) *)

(** [collect::<IndexSet<_>>()] *)
Fixpoint is_collect {A} `{!EqDecision A} (seen l : list A) : list A :=
  match l with
  | [] => []
  | a :: l => if decide (a ∈ seen) then is_collect seen l else a :: is_collect (a :: seen) l
  end.
Definition IndexSet_collect {A} `{!EqDecision A} (l : list A) : list A := is_collect [] l.

(** [IssuerSigned::attribute_identifiers] *)
Definition issuer_signed_attribute_identifiers (s : IssuerSigned) (dt : DocType) : list AttributeIdentifier :=
  match name_spaces s with
  | Some ns => IndexSet_collect (mjoin ((λ p : NameSpace * Attributes,
      (λ i : IssuerSignedItemBytes, mkAttributeIdentifier dt p.1 (element_identifier (untag i))) <$> p.2) <$> ns))
  | None => []
  end.
Definition Document_attribute_identifiers (d : Document) : list AttributeIdentifier :=
  issuer_signed_attribute_identifiers (issuer_signed d) (doc_type d).
Definition Mdoc_attribute_identifiers (m : Mdoc) : list AttributeIdentifier :=
  issuer_signed_attribute_identifiers (m_issuer_signed m) (m_doc_type m).

(** [AttributeIdentifierHolder] *)
Class AttributeIdentifierHolder (T : Type) := attribute_identifiers : T → list AttributeIdentifier.

#[global] Instance items_request_holder : AttributeIdentifierHolder ItemsRequest := λ r,
  IndexSet_collect (mjoin ((λ p : NameSpace * imap DataElementIdentifier bool,
    (λ a : DataElementIdentifier * bool, mkAttributeIdentifier (req_doc_type r) p.1 a.1) <$> p.2) <$> req_name_spaces r)).
#[global] Instance device_request_holder : AttributeIdentifierHolder DeviceRequest := λ r,
  IndexSet_collect (mjoin ((λ d, attribute_identifiers (untag (items_request d))) <$> doc_requests r)).

(** [AttributeIdentifierHolder::difference] *)
Definition difference {A B} `{!AttributeIdentifierHolder A, !AttributeIdentifierHolder B} (a : A) (b : B)
    : list AttributeIdentifier :=
  let other_attributes := attribute_identifiers b in
  IndexSet_collect (filter (λ attribute, attribute ∉ other_attributes) (attribute_identifiers a)).

(** [ItemsRequest::match_against_issuer_signed] *)
Definition match_against_issuer_signed (r : ItemsRequest) (d : Document) : list AttributeIdentifier :=
  let document_identifiers := Document_attribute_identifiers d in
  filter (λ attribute, attribute ∉ document_identifiers) (attribute_identifiers r).

(** [ItemsRequests::match_against_response] *)
Definition match_against_response (requests : list ItemsRequest) (response : DeviceResponse) : outcome MdocError unit :=
  let not_found := mjoin ((λ r,
    match docs ← documents response; snd <$> list_find (λ d, doc_type d = req_doc_type r) docs with
    | None => attribute_identifiers r
    | Some d => match_against_issuer_signed r d
    end) <$> requests) in
  match not_found with
  | [] => Ok tt
  | _ => Err (MVerification (MissingAttributes not_found))
  end.

Lemma is_collect_elem {A} `{!EqDecision A} (l seen : list A) a :
  a ∈ is_collect seen l ↔ a ∈ l ∧ a ∉ seen.
Proof.
  revert seen. induction l as [|b l IH]; intros seen; simpl; [set_solver|].
  case_decide; [|rewrite elem_of_cons]; rewrite IH; [set_solver|]. destruct (decide (a = b)); set_solver.
Qed.

Lemma IndexSet_elem {A} `{!EqDecision A} (l : list A) a : a ∈ IndexSet_collect l ↔ a ∈ l.
Proof. unfold IndexSet_collect. rewrite is_collect_elem. set_solver. Qed.
