(* ===== verification/CoseEquiv.v ===== *)
(** * Signatures after transport

    A COSE structure that was parsed keeps the bytes of its protected header next
    to the header itself, so that it is not the structure that was serialized; but
    it has the same signature, payload and headers, and the same bytes to be signed.
    Equivalence of structures in this sense, of documents and of responses, and
    that verification does not tell equivalent ones apart. *)
From stdpp Require Import base list option strings.
From Stdlib Require Import ZArith Lia.
From S2P Require Import Prelude IndexMap Crypto Cbor Cose Engagement Mdoc MdocSigning.

Section CoseEquiv.
Context `{!Ecdsa, !Coset}.

Record sign1_equiv (c c' : CoseSign1) : Prop := {
  se_signature : signature c = signature c';
  se_payload : payload c = payload c';
  se_unprotected : unprotected c = unprotected c';
  se_header : header (protected c) = header (protected c');
  se_protected p : sig_structure_data (protected c) p = sig_structure_data (protected c') p
}.
#[export] Instance sign1_equivalence : Equivalence sign1_equiv.
Proof.
  split.
  - by intros c.
  - intros c c' [? ? ? ? Hp]. by split.
  - intros c c' c'' [Hs Hp Hu Hh Hd] [Hs' Hp' Hu' Hh' Hd']. split; [by rewrite Hs|by rewrite Hp|by rewrite Hu|by rewrite Hh|]. intros p. by rewrite Hd.
Qed.
Record mac0_equiv (c c' : CoseMac0) : Prop := {
  me_tag : mac_tag c = mac_tag c';
  me_header : header (mac_protected c) = header (mac_protected c')
}.

#[export] Instance sign1_with_payload_proper : Proper (sign1_equiv ==> eq ==> sign1_equiv) sign1_with_payload.
Proof. intros c c' [Hs _ Hu Hh _] p _ <-. unfold sign1_with_payload. by rewrite Hs, Hu, Hh. Qed.
#[export] Instance sign1_verify_proper : Proper (sign1_equiv ==> eq ==> eq) sign1_verify.
Proof. intros c c' [Hs Hp _ _ Hd] k _ <-. unfold sign1_verify. by rewrite Hs, Hp, Hd. Qed.
#[export] Instance signing_cert_proper : Proper (sign1_equiv ==> eq) signing_cert.
Proof. intros c c' [_ _ Hu _ _]. unfold signing_cert, unprotected_header_item. by rewrite Hu. Qed.
Lemma parse_equiv `{!Ciborium} {T} `{!SerdeCbor T} c c' : sign1_equiv c c' → dangerous_parse_unverified (T:=T) c = dangerous_parse_unverified c'.
Proof. intros [_ Hp _ _ _]. unfold dangerous_parse_unverified. by rewrite Hp. Qed.
Lemma verify_anchors_equiv `{!Ciborium, !X509Lib} {T} `{!SerdeCbor T} c c' usage time anchors : sign1_equiv c c' →
  cose_verify_against_trust_anchors (T:=T) c usage time anchors = cose_verify_against_trust_anchors c' usage time anchors.
Proof.
  intros He. unfold cose_verify_against_trust_anchors, verify_and_parse. rewrite (signing_cert_proper _ _ He).
  destruct (signing_cert c') as [cert| |]; [|done..]. cbn. destruct (Certificate_verify _ _ _ _ _); [|done..]. cbn.
  destruct (Certificate_public_key cert) as [pk| |]; [|done..]. cbn. rewrite (sign1_verify_proper _ _ He _ _ eq_refl).
  by rewrite (parse_equiv _ _ He).
Qed.
Lemma mac0_verify_equiv `{!MacLib} c c' p k : mac0_equiv c c' → mac0_verify (mac0_with_payload c p) k = mac0_verify (mac0_with_payload c' p) k.
Proof. intros [Ht Hh]. unfold mac0_verify. cbn. by rewrite Ht, Hh. Qed.

(** ** Documents and responses *)
Definition issuer_signed_equiv (s s' : IssuerSigned) : Prop :=
  name_spaces s = name_spaces s' ∧ sign1_equiv (issuer_auth s) (issuer_auth s').
Definition device_auth_equiv (a a' : DeviceAuth) : Prop :=
  match a, a' with
  | DeviceSignature c, DeviceSignature c' => sign1_equiv c c'
  | DeviceMac c, DeviceMac c' => mac0_equiv c c'
  | _, _ => False
  end.
Record document_equiv (d d' : Document) : Prop := {
  de_type : doc_type d = doc_type d';
  de_issuer : issuer_signed_equiv (issuer_signed d) (issuer_signed d');
  de_device : device_auth_equiv (device_auth (device_signed d)) (device_auth (device_signed d'))
}.
Record response_equiv (r r' : DeviceResponse) : Prop := {
  re_documents : option_Forall2 (Forall2 document_equiv) (documents r) (documents r');
  re_errors : document_errors r = document_errors r';
  re_status : status r = status r'
}.

Context `{!Ciborium, !Sha256, !X509Lib, !Chrono, !UrlLib, !MacLib}.

Lemma issuer_signed_verify_equiv s s' validity time anchors : issuer_signed_equiv s s' →
  IssuerSigned_verify s validity time anchors = IssuerSigned_verify s' validity time anchors.
Proof.
  intros [Hn Ha]. unfold IssuerSigned_verify. rewrite (verify_anchors_equiv _ _ _ _ _ Ha), Hn.
  destruct (map_err MCose (cose_verify_against_trust_anchors _ _ _ _)) as [t| |]; [|done..]. cbn. by rewrite (signing_cert_proper _ _ Ha).
Qed.
Lemma document_verify_equiv d d' eph t time anchors : document_equiv d d' →
  Document_verify d eph t time anchors = Document_verify d' eph t time anchors.
Proof.
  intros [Ht Hi Hd]. unfold Document_verify. rewrite (issuer_signed_verify_equiv _ _ _ _ _ Hi), Ht.
  destruct (IssuerSigned_verify _ _ _ _) as [[attrs mso]| |]; [|done..]. cbn [obind]. destruct (guard_err _ _); [|done..]. cbn [obind].
  destruct (map_err MCbor (tagged_serialize _)) as [bts| |]; [|done..]. cbn [obind].
  destruct (map_err MCbor (device_authentication_bytes _ _)) as [ch| |]; [|done..]. cbn [obind].
  destruct (map_err MCrypto (verifying_key_from_cose_key _)) as [k| |]; [|done..]. cbn [obind].
  destruct (device_auth (device_signed d)) as [c|c], (device_auth (device_signed d')) as [c'|c']; try done; cbn in Hd.
  - by rewrite (sign1_verify_proper _ _ (sign1_with_payload_proper _ _ Hd ch ch eq_refl) k k eq_refl).
  - destruct eph as [e|]; [|done]. cbn [ok_or obind]. destruct (map_err MCrypto _); [|done..]. cbn [obind]. by rewrite (mac0_verify_equiv _ _ _ _ Hd).
Qed.
Lemma response_verify_equiv r r' eph t time anchors : response_equiv r r' →
  DeviceResponse_verify r eph t time anchors = DeviceResponse_verify r' eph t time anchors.
Proof.
  intros [Hd He Hs]. unfold DeviceResponse_verify. rewrite He, Hs. destruct (document_errors r'); [done|]. destruct (negb _); [done|].
  destruct Hd as [l l' Hl|]; [|done]. generalize (@nil (DocType * DocumentDisclosedAttributes)).
  induction Hl as [|d d' l l' Hd _ IH]; intros acc; [done|]. cbn. rewrite (document_verify_equiv _ _ _ _ _ _ Hd).
  destruct (Document_verify d' eph t time anchors); [|done..]. apply IH.
Qed.
Lemma document_identifiers_equiv d d' : document_equiv d d' → Document_attribute_identifiers d = Document_attribute_identifiers d'.
Proof. intros [Ht [Hn _] _]. unfold Document_attribute_identifiers, issuer_signed_attribute_identifiers. by rewrite Ht, Hn. Qed.
Lemma response_match_equiv requests r r' : response_equiv r r' → match_against_response requests r = match_against_response requests r'.
Proof.
  intros [Hd _ _]. unfold match_against_response. assert (∀ x : ItemsRequest,
    match docs ← documents r; snd <$> list_find (λ d, doc_type d = req_doc_type x) docs with
    | None => attribute_identifiers x | Some d => match_against_issuer_signed x d end =
    match docs ← documents r'; snd <$> list_find (λ d, doc_type d = req_doc_type x) docs with
    | None => attribute_identifiers x | Some d => match_against_issuer_signed x d end) as Hx.
  { intros x. destruct Hd as [l l' Hl|]; [|done]. cbn. induction Hl as [|d d' l l' Hd _ IH]; [done|]. cbn. rewrite <- (de_type _ _ Hd).
    case_decide; [cbn; unfold match_against_issuer_signed; by rewrite (document_identifiers_equiv _ _ Hd)|].
    destruct (list_find _ l) as [[]|], (list_find _ l') as [[]|]; done. }
  assert ((λ x, match docs ← documents r; snd <$> list_find (λ d, doc_type d = req_doc_type x) docs with
    | None => attribute_identifiers x | Some d => match_against_issuer_signed x d end) <$> requests =
    (λ x, match docs ← documents r'; snd <$> list_find (λ d, doc_type d = req_doc_type x) docs with
    | None => attribute_identifiers x | Some d => match_against_issuer_signed x d end) <$> requests) as ->; [|done].
  apply list_fmap_ext. intros i x _. apply Hx.
Qed.
End CoseEquiv.
