(* ===== verification/ResponseCbor.v ===== *)
(** * The CBOR form of a disclosure

    Models what [serde] derives for the structures of [mdoc/src/iso/disclosure.rs]:
    [IssuerSigned], [DeviceSigned], [DeviceAuth], [Document] and [DeviceResponse],
    with the checks of [IssuerNameSpaces] and [Attributes] ([mdoc/src/iso/mdocs.rs])
    that they are not empty.  The CBOR form of a COSE structure is that of the
    crate [coset], of which it is only used that parsing gives an equivalent
    structure; the same is proved of a response. *)
From stdpp Require Import base list option strings.
From Stdlib Require Import ZArith Lia.
From S2P Require Import Prelude IndexMap Crypto Cbor Cose Engagement Mdoc MdocSigning CoseEquiv.

(** [coset]: what is parsed is equivalent to what was serialized. *)
Class CoseSerde `{!Ecdsa, !Coset} := {
  serde_sign1 :: SerdeCbor CoseSign1;
  serde_mac0 :: SerdeCbor CoseMac0;
  serde_sign1_never_null :: NeverNull CoseSign1;
  sign1_transport c v : serialized c = Some v → ∃ c', deserialized v = Some c' ∧ sign1_equiv c c';
  mac0_transport c v : serialized c = Some v → ∃ c', deserialized v = Some c' ∧ mac0_equiv c c'
}.

(** ** Transport: what is read is related to what was written *)
Lemma mapM_transport {A B} (s : A → option Value) (d : Value → option B) (R : A → B → Prop) l vs :
  Forall (λ a, ∀ v, s a = Some v → ∃ b, d v = Some b ∧ R a b) l → mapM s l = Some vs → ∃ l', mapM d vs = Some l' ∧ Forall2 R l l'.
Proof.
  intros Hl Hs. apply mapM_Some in Hs. induction Hs as [|a v l vs Ha _ IH]; [by exists []|]. inversion Hl as [|? ? Hd Hl']; subst.
  destruct (Hd _ Ha) as (b & Hb & Hr). destruct (IH Hl') as (l' & Hl2 & Hf). exists (b :: l'). split; [cbn; by rewrite Hb, Hl2|by constructor].
Qed.
Lemma skip_none_transport {A} (s : A → option Value) (d : Value → option A) (R : A → A → Prop) name (o : option A) es :
  skip_none s name o = Some es →
  (∀ a w, o = Some a → s a = Some w → is_null w = false ∧ ∃ a', d w = Some a' ∧ R a a') →
  ∃ o', (if is_null (first_value es) then Some None else Some <$> d (first_value es)) = Some o' ∧ option_Forall2 R o o'.
Proof.
  intros Hs Hd. destruct o as [a|]; cbn in Hs.
  - apply bind_Some in Hs as (w & Hw & [= <-]). destruct (Hd a w) as [Hn (a' & Ha & Hr)]; [done..|]. exists (Some a').
    cbn. rewrite Hn, Ha. split; [done|by constructor].
  - injection Hs as <-. exists None. split; [done|constructor].
Qed.

Section ResponseCbor.
Context `{!Ecdsa, !Coset, !Ciborium, !CoseSerde}.

(** ** Issuer-signed data *)
Definition attributes_deserialize (v : Value) : option Attributes :=
  items ← deserialized v;
  match items with [] => None | _ => Some items end.
Definition issuer_name_spaces_serialize : IssuerNameSpaces → option Value := serialize_map serialized serialized.
Definition issuer_name_spaces_deserialize (v : Value) : option IssuerNameSpaces :=
  name_spaces ← deserialize_map deserialized attributes_deserialize v;
  match name_spaces with [] => None | _ => Some name_spaces end.
Definition issuer_signed_serialize (s : IssuerSigned) : option Value :=
  n ← skip_none issuer_name_spaces_serialize "nameSpaces" (name_spaces s);
  a ← serialized (issuer_auth s);
  Some (struct_value (n ++ [("issuerAuth", a)])).
Definition issuer_signed_deserialize (v : Value) : option IssuerSigned :=
  l ← entries v;
  n ← read_optional issuer_name_spaces_deserialize "nameSpaces" l;
  a ← (a ← required_field "issuerAuth" l; deserialized a);
  Some (mkIssuerSigned n a).
#[global] Instance serde_issuer_signed : SerdeCbor IssuerSigned := {|
  serialized := issuer_signed_serialize; deserialized := issuer_signed_deserialize |}.

(** The invariant of the types: nothing is empty and no name space occurs twice. *)
Definition issuer_name_spaces_wf (n : IssuerNameSpaces) : Prop :=
  n ≠ [] ∧ Forall (λ p : NameSpace * Attributes, p.2 ≠ []) n ∧ NoDup n.*1.
Definition issuer_signed_wf (s : IssuerSigned) : Prop := from_option issuer_name_spaces_wf True (name_spaces s).

Lemma attributes_round_trip (a : Attributes) v : a ≠ [] → serialized a = Some v → attributes_deserialize v = Some a.
Proof.
  intros Hne Hs. unfold attributes_deserialize. rewrite (deserialized_serialized a v) by (done || by apply list.Forall_true). by destruct a.
Qed.
Lemma issuer_name_spaces_round_trip n v : issuer_name_spaces_wf n → issuer_name_spaces_serialize n = Some v →
  is_null v = false ∧ issuer_name_spaces_deserialize v = Some n.
Proof.
  intros (Hne & Ha & Hd) Hs. split; [by eapply map_not_null|]. unfold issuer_name_spaces_deserialize.
  rewrite (deserialize_serialize_map serialized serialized deserialized attributes_deserialize n v string_round_trip); [by destruct n| |done..].
  eapply list.Forall_impl; [exact Ha|]. intros [k a] Hk w. by apply attributes_round_trip.
Qed.
Lemma issuer_signed_transport s v : issuer_signed_wf s → serialized s = Some v → ∃ s', deserialized v = Some s' ∧ issuer_signed_equiv s s'.
Proof.
  destruct s as [n a]. intros Hwf Hs. unfold issuer_signed_wf in Hwf. cbn [name_spaces] in Hwf.
  change (issuer_signed_serialize (mkIssuerSigned n a) = Some v) in Hs. unfold issuer_signed_serialize in Hs. cbn [name_spaces issuer_auth] in Hs.
  apply bind_Some in Hs as (en & En & Hs). apply bind_Some in Hs as (va & Ea & [= <-]).
  destruct (sign1_transport _ _ Ea) as (a' & Ra & Ha).
  pose proof (skip_none_read _ issuer_name_spaces_deserialize _ _ _ En) as Rn.
  assert (∀ m w, n = Some m → issuer_name_spaces_serialize m = Some w → is_null w = false ∧ issuer_name_spaces_deserialize w = Some m) as Hn
    by (intros m w ->; by apply issuer_name_spaces_round_trip).
  specialize (Rn Hn). exists (mkIssuerSigned n a'). split; [|by split].
  match goal with |- deserialized ?w = _ => change (issuer_signed_deserialize w = Some (mkIssuerSigned n a')) end.
  unfold issuer_signed_deserialize, read_optional.
  destruct (skip_none_shape _ _ _ _ En) as [->|[wn ->]]; cbn -[deserialized issuer_name_spaces_deserialize] in *; use_read Rn; cbn -[deserialized]; by rewrite Ra.
Qed.

(** ** Device-signed data *)
Definition data_elements_map_serialize : imap DataElementIdentifier Value → option Value := serialize_map serialized Some.
Definition data_elements_map_deserialize : Value → option (imap DataElementIdentifier Value) := deserialize_map deserialized Some.
#[global] Instance serde_device_name_spaces : SerdeCbor (imap NameSpace (imap DataElementIdentifier Value)) := {|
  serialized := serialize_map serialized data_elements_map_serialize;
  deserialized := deserialize_map deserialized data_elements_map_deserialize |}.
#[global] Instance serde_device_auth : SerdeCbor DeviceAuth := {|
  serialized a :=
    match a with
    | DeviceSignature c => v ← serialized c; Some (struct_value [("deviceSignature", v)])
    | DeviceMac c => v ← serialized c; Some (struct_value [("deviceMac", v)])
    end;
  deserialized v :=
    match v with
    | VMap [(VText k, v)] =>
        if decide (k = "deviceSignature") then DeviceSignature <$> deserialized v
        else if decide (k = "deviceMac") then DeviceMac <$> deserialized v else None
    | _ => None
    end
|}.
Definition device_signed_serialize (s : DeviceSigned) : option Value :=
  n ← serialized (mkTagged (ds_name_spaces s));
  a ← serialized (device_auth s);
  Some (struct_value [("nameSpaces", n); ("deviceAuth", a)]).
Definition device_signed_deserialize (v : Value) : option DeviceSigned :=
  l ← entries v;
  n ← (n ← required_field "nameSpaces" l; deserialized (T:=TaggedBytes (imap NameSpace (imap DataElementIdentifier Value))) n);
  a ← (a ← required_field "deviceAuth" l; deserialized a);
  Some (mkDeviceSigned (untag n) a).
#[global] Instance serde_device_signed : SerdeCbor DeviceSigned := {|
  serialized := device_signed_serialize; deserialized := device_signed_deserialize |}.

(** ** Documents and responses *)
Definition error_items_serialize : imap DataElementIdentifier Z → option Value := serialize_map serialized i32_serialize.
Definition error_items_deserialize : Value → option (imap DataElementIdentifier Z) := deserialize_map deserialized i32_deserialize.
Definition document_serialize (d : Document) : option Value :=
  i ← serialized (issuer_signed d);
  s ← serialized (device_signed d);
  e ← skip_none (serialize_map serialized error_items_serialize) "errors" (doc_errors d);
  Some (struct_value ([("docType", VText (doc_type d)); ("issuerSigned", i); ("deviceSigned", s)] ++ e)).
Definition document_deserialize (v : Value) : option Document :=
  l ← entries v;
  t ← (t ← required_field "docType" l; as_text t);
  i ← (i ← required_field "issuerSigned" l; deserialized i);
  s ← (s ← required_field "deviceSigned" l; deserialized s);
  e ← read_optional (deserialize_map deserialized error_items_deserialize) "errors" l;
  Some (mkDocument t i s e).
#[global] Instance serde_document : SerdeCbor Document := {|
  serialized := document_serialize; deserialized := document_deserialize |}.

Definition DEVICE_RESPONSE_VERSION : string := "1.0".
Definition document_errors_serialize (l : list (imap DocType Z)) : option Value := VArray <$> mapM (serialize_map serialized i32_serialize) l.
Definition document_errors_deserialize (v : Value) : option (list (imap DocType Z)) :=
  match v with VArray l => mapM (deserialize_map deserialized i32_deserialize) l | _ => None end.
Definition response_serialize (r : DeviceResponse) : option Value :=
  d ← skip_none serialized "documents" (documents r);
  e ← skip_none document_errors_serialize "documentErrors" (document_errors r);
  s ← serialize_u64 (status r);
  Some (struct_value (("version", VText DEVICE_RESPONSE_VERSION) :: d ++ e ++ [("status", s)])).
Definition response_deserialize (v : Value) : option DeviceResponse :=
  l ← entries v;
  w ← (w ← required_field "version" l; as_text w);
  d ← read_optional deserialized "documents" l;
  e ← read_optional document_errors_deserialize "documentErrors" l;
  s ← (s ← required_field "status" l; deserialize_u64 s);
  if decide (w = DEVICE_RESPONSE_VERSION) then Some (mkDeviceResponse d e s) else None.
#[global] Instance serde_device_response : SerdeCbor DeviceResponse := {|
  serialized := response_serialize; deserialized := response_deserialize |}.

(** ** A response after transport *)
Definition errors_wf (e : imap NameSpace (imap DataElementIdentifier Z)) : Prop :=
  NoDup e.*1 ∧ Forall (λ p : NameSpace * imap DataElementIdentifier Z, NoDup p.2.*1) e.
Definition device_name_spaces_wf (n : imap NameSpace (imap DataElementIdentifier Value)) : Prop :=
  NoDup n.*1 ∧ Forall (λ p : NameSpace * imap DataElementIdentifier Value, NoDup p.2.*1) n.
Record document_wf (d : Document) : Prop := {
  dw_issuer : issuer_signed_wf (issuer_signed d);
  dw_device : device_name_spaces_wf (ds_name_spaces (device_signed d));
  dw_errors : from_option errors_wf True (doc_errors d)
}.
Definition response_wf (r : DeviceResponse) : Prop :=
  from_option (Forall document_wf) True (documents r) ∧
  from_option (Forall (λ m : imap DocType Z, NoDup m.*1)) True (document_errors r).

Lemma nested_maps_round_trip {V} (sv : V → option Value) (dv : Value → option V) (m : imap string (imap string V)) v :
  (∀ x w, sv x = Some w → dv w = Some x) → NoDup m.*1 → Forall (λ p : string * imap string V, NoDup p.2.*1) m →
  serialize_map serialized (serialize_map serialized sv) m = Some v →
  deserialize_map deserialized (deserialize_map deserialized dv) v = Some m.
Proof.
  intros Hv Hd Hall. apply deserialize_serialize_map; [apply string_round_trip| |done].
  eapply list.Forall_impl; [exact Hall|]. intros [k x] Hx w. apply deserialize_serialize_map; [apply string_round_trip| |done].
  apply list.Forall_true. intros [? ?]. apply Hv.
Qed.
Lemma device_auth_transport a v : serialized a = Some v → ∃ a', deserialized v = Some a' ∧ device_auth_equiv a a'.
Proof.
  destruct a as [c|c]; intros Hs; apply bind_Some in Hs as (w & Hw & [= <-]).
  - destruct (sign1_transport _ _ Hw) as (c' & Hc & He). exists (DeviceSignature c'). cbn. by rewrite Hc.
  - destruct (mac0_transport _ _ Hw) as (c' & Hc & He). exists (DeviceMac c'). cbn. by rewrite Hc.
Qed.
Lemma device_signed_transport s v : device_name_spaces_wf (ds_name_spaces s) → serialized s = Some v →
  ∃ s', deserialized v = Some s' ∧ device_auth_equiv (device_auth s) (device_auth s').
Proof.
  destruct s as [n a]. intros (Hd & Hall) Hs. change (device_signed_serialize (mkDeviceSigned n a) = Some v) in Hs.
  unfold device_signed_serialize in Hs. apply bind_Some in Hs as (vn & En & Hs). apply bind_Some in Hs as (va & Ea & [= <-]).
  destruct (device_auth_transport _ _ Ea) as (a' & Ra & Ha). cbn [ds_name_spaces] in *.
  assert (deserialized (T:=TaggedBytes (imap NameSpace (imap DataElementIdentifier Value))) vn = Some (mkTagged n)) as Rn.
  { revert En. cbn. destruct (cbor_serialize n) as [buf| |] eqn:Hb; [|done..]. intros [= <-]. cbn -[deserialized cbor_deserialize]. unfold cbor_serialize in Hb.
    apply ok_or_Ok, bind_Some in Hb as (w & Hw & Hb). unfold cbor_deserialize. rewrite (from_into _ _ Hb). cbn -[deserialized].
    change (serialize_map serialized data_elements_map_serialize n = Some w) in Hw. apply (nested_maps_round_trip Some Some) in Hw; [|by intros ? ? [= <-]|done..].
    change (deserialized (T:=imap NameSpace (imap DataElementIdentifier Value)) w = Some n) in Hw. by rewrite Hw. }
  exists (mkDeviceSigned n a'). split; [|done].
  match goal with |- deserialized ?w = _ => change (device_signed_deserialize w = Some (mkDeviceSigned n a')) end.
  unfold device_signed_deserialize. cbn -[deserialized]. rewrite Rn. cbn -[deserialized]. by rewrite Ra.
Qed.
Lemma document_transport d v : document_wf d → serialized d = Some v → ∃ d', deserialized v = Some d' ∧ document_equiv d d'.
Proof.
  destruct d as [t i s e]. intros [Wi Ws We] Hs. change (document_serialize (mkDocument t i s e) = Some v) in Hs.
  unfold document_serialize in Hs. cbn [doc_type issuer_signed device_signed doc_errors] in *. apply bind_Some in Hs as (vi & Ei & Hs).
  apply bind_Some in Hs as (vs & Es & Hs). apply bind_Some in Hs as (ee & Ee & [= <-]).
  destruct (issuer_signed_transport _ _ Wi Ei) as (i' & Ri & Hi). destruct (device_signed_transport _ _ Ws Es) as (s' & Rs & Hs).
  pose proof (skip_none_read _ (deserialize_map deserialized error_items_deserialize) _ _ _ Ee) as Re.
  assert (∀ m w, e = Some m → serialize_map serialized error_items_serialize m = Some w →
    is_null w = false ∧ deserialize_map deserialized error_items_deserialize w = Some m) as He.
  { intros m w -> Hw. split; [by eapply map_not_null|]. destruct We. revert Hw. by apply nested_maps_round_trip; [apply i32_round_trip|..]. }
  specialize (Re He). exists (mkDocument t i' s' e). split; [|by split].
  match goal with |- deserialized ?w = _ => change (document_deserialize w = Some (mkDocument t i' s' e)) end.
  unfold document_deserialize, read_optional.
  destruct (skip_none_shape _ _ _ _ Ee) as [->|[we ->]]; cbn -[deserialized deserialize_map] in *; rewrite Ri; cbn -[deserialized deserialize_map];
    rewrite Rs; cbn -[deserialized deserialize_map]; by use_read Re.
Qed.
Lemma response_transport r v : response_wf r → serialized r = Some v → ∃ r', deserialized v = Some r' ∧ response_equiv r r'.
Proof.
  destruct r as [d e s]. intros [Wd We] Hs. change (response_serialize (mkDeviceResponse d e s) = Some v) in Hs.
  unfold response_serialize in Hs. cbn [documents document_errors status] in *. apply bind_Some in Hs as (ed & Ed & Hs).
  apply bind_Some in Hs as (ee & Ee & Hs). apply bind_Some in Hs as (vs & Es & [= <-]). apply deserialize_serialize_u64 in Es.
  destruct (skip_none_transport serialized deserialized (Forall2 document_equiv) _ _ _ Ed) as (d' & Rd & Hd).
  { intros l w -> Hw. split; [by apply (never_null l)|]. apply fmap_Some in Hw as (ws & Hw & ->). eapply mapM_transport; [|exact Hw].
    eapply list.Forall_impl; [exact Wd|]. intros x Hx w. by apply document_transport. }
  pose proof (skip_none_read _ document_errors_deserialize _ _ _ Ee) as Re.
  assert (∀ m w, e = Some m → document_errors_serialize m = Some w → is_null w = false ∧ document_errors_deserialize w = Some m) as He.
  { intros m w -> Hw. apply fmap_Some in Hw as (ws & Hw & ->). split; [done|]. cbn in We. unfold document_errors_deserialize.
    destruct (mapM_transport (serialize_map serialized i32_serialize) (deserialize_map deserialized i32_deserialize) eq m ws) as (m' & -> & Hm); [|done|by apply list_eq_Forall2 in Hm as ->].
    eapply list.Forall_impl; [exact We|]. intros x Hx u Hu. exists x. split; [|done]. revert Hu.
    apply deserialize_serialize_map; [apply string_round_trip| |done]. apply list.Forall_true. intros [? ?]. apply i32_round_trip. }
  specialize (Re He). exists (mkDeviceResponse d' e s). split; [|by split].
  match goal with |- deserialized ?w = _ => change (response_deserialize w = Some (mkDeviceResponse d' e s)) end.
  unfold response_deserialize, read_optional.
  destruct (skip_none_shape _ _ _ _ Ed) as [->|[wd ->]], (skip_none_shape _ _ _ _ Ee) as [->|[we ->]];
    cbn -[deserialized deserialize_u64 document_errors_deserialize] in *; use_read Rd; cbn -[deserialized deserialize_u64 document_errors_deserialize];
    use_read Re; cbn -[deserialize_u64]; by rewrite Es.
Qed.
End ResponseCbor.
