(* ===== verification/MdocFacts.v ===== *)
(** * Correctness of issuing and verifying mdocs

    An mdoc that the issuer signs verifies and holds exactly the attributes that
    were offered; whatever verifies was signed by a trusted issuer, attribute by
    attribute, and is bound to the session by the key of the device; and what a
    verifier learns from a response. *)
From stdpp Require Import base list option strings sets.
From Stdlib Require Import ZArith Lia.
From S2P Require Import Prelude IndexMap Crypto Cbor Cose Engagement Concrete Mdoc MdocSigning.

(** ** Shape of what is signed *)

(** The items that the issuer makes of the entries of a namespace. *)
Definition named_entries (l : list Entry) : imap DataElementIdentifier Value :=
  im_collect ((λ e, (entry_name e, entry_value e)) <$> l).
Definition items_of (rng : Z → string) (l : list Entry) : Attributes :=
  (λ p : Z * (string * Value), mkTagged (IssuerSignedItem_new (rng p.1) p.1 p.2.1 p.2.2)) <$> enumerate (named_entries l).
Definition signed_name_spaces (rng : NameSpace → Z → string) (attrs : imap NameSpace (list Entry)) : IssuerNameSpaces :=
  (λ ns, (ns.1, items_of (rng ns.1) ns.2)) <$> attrs.
(** The entries of a namespace after duplicate names are merged. *)
Definition merged_entries (l : list Entry) : list Entry := (λ p, mkEntry p.1 p.2) <$> named_entries l.
Definition merged_attributes (attrs : imap NameSpace (list Entry)) : imap NameSpace (list Entry) :=
  (λ ns, (ns.1, merged_entries ns.2)) <$> attrs.

Lemma attributes_from_entries_Some rng l : l ≠ [] → attributes_from_entries rng l = Some (items_of rng l).
Proof.
  intros Hl. unfold attributes_from_entries. fold (named_entries l).
  change ((λ p : Z * (string * Value), mkTagged (IssuerSignedItem_new (rng p.1) p.1 p.2.1 p.2.2)) <$> enumerate (named_entries l))
    with (items_of rng l).
  destruct (items_of rng l) eqn:E; [|done].
  assert (named_entries l ≠ []) as Hn by (apply im_collect_nonempty; by destruct l).
  unfold items_of in E. by destruct (named_entries l).
Qed.

Lemma unsigned_wf_entries u ns es : unsigned_wf u → (ns, es) ∈ u_attributes u → es ≠ [].
Proof.
  intros [Hv _] Hin. unfold unsigned_attributes_valid in Hv. apply andb_true_iff in Hv as [_ Hv].
  rewrite forallb_forall in Hv. specialize (Hv (ns, es)). rewrite <-list_elem_of_In in Hv.
  specialize (Hv Hin). by destruct es.
Qed.

(** Both [unwrap]s in the conversion are safe. *)
Lemma issuer_name_spaces_from_Ok {E} rng u : unsigned_wf u →
  issuer_name_spaces_from (E:=E) rng (u_attributes u) = Ok (signed_name_spaces rng (u_attributes u)).
Proof.
  intros Hwf. unfold issuer_name_spaces_from.
  rewrite (try_map_total _ (λ ns, (ns.1, items_of (rng ns.1) ns.2))).
  - simpl. fold (signed_name_spaces rng (u_attributes u)). rewrite im_collect_id.
    + destruct Hwf as [Hv _]. unfold signed_name_spaces. by destruct (u_attributes u).
    + unfold signed_name_spaces. rewrite (im_fmap_keys (λ ns es, items_of (rng ns) es)). apply Hwf.
  - intros [ns es] Hin. simpl. rewrite attributes_from_entries_Some; [done|]. by eapply unsigned_wf_entries.
Qed.

Lemma items_of_entries rng l : entries_of_attributes (items_of rng l) = merged_entries l.
Proof.
  unfold entries_of_attributes, items_of, merged_entries, enumerate. rewrite <-list_fmap_compose.
  generalize 0. induction (named_entries l) as [|[k v] m IH]; intros i; [done|]. csimpl. f_equal. apply IH.
Qed.

(** An item sits at the position that its identifier says. *)
Lemma items_of_position rng l item : item ∈ items_of rng l → (digest_id (untag item), item) ∈ enumerate (items_of rng l).
Proof.
  unfold items_of, enumerate. intros Hin.
  rewrite (enumerate_from_fmap (λ i p, mkTagged (IssuerSignedItem_new (rng i) i p.1 p.2))).
  apply list_elem_of_fmap in Hin as ([i p] & -> & Hin). apply list_elem_of_fmap. by exists (i, p).
Qed.

Lemma Forall2_elem_l {A B} (P : A → B → Prop) l k a : Forall2 P l k → a ∈ l → ∃ b, b ∈ k ∧ P a b.
Proof. induction 1; set_solver. Qed.

Section Digests.
Context `{!Ciborium, !Sha256}.

(** In any list of attributes, an attribute at position [i] has its digest
    under the key [i]. *)
Lemma digest_ids_from_get attrs ids i item : digest_ids_from attrs = Ok ids → (i, item) ∈ enumerate attrs →
  ∃ d, cbor_digest item = Ok d ∧ im_get ids i = Some (mkByteBuf d).
Proof.
  unfold digest_ids_from. intros Hr Hin. run_ok Hr. apply try_map_Ok in Hrun.
  assert (x.*1 = (enumerate attrs).*1) as Hk.
  { clear Hin. induction Hrun as [|[j a] y l k Hy Hl IH]; [done|]. run_ok Hy. csimpl. by rewrite IH. }
  rewrite im_collect_id by (rewrite Hk; apply enumerate_from_NoDup).
  destruct (Forall2_elem_l _ _ _ _ Hrun Hin) as (y & Hy & Hd). simpl in Hd. run_ok Hd.
  eexists. split; [done|]. apply im_elem_get; [rewrite Hk; apply enumerate_from_NoDup|done].
Qed.

Lemma digest_ids_from_NoDup attrs ids : digest_ids_from attrs = Ok ids → NoDup ids.*1.
Proof. unfold digest_ids_from. intros Hr. run_ok Hr. apply im_collect_NoDup. Qed.

Lemma value_digests_from_get ns digests n attrs : NoDup ns.*1 → value_digests_from ns = Ok digests → (n, attrs) ∈ ns →
  ∃ ids, digest_ids_from attrs = Ok ids ∧ im_get digests n = Some ids.
Proof.
  unfold value_digests_from. intros Hd Hr Hin. run_ok Hr. apply try_map_Ok in Hrun.
  assert (x.*1 = ns.*1) as Hk.
  { clear Hin Hd. induction Hrun as [|[j a] y l k Hy Hl IH]; [done|]. run_ok Hy. csimpl. by rewrite IH. }
  rewrite im_collect_id by (by rewrite Hk).
  destruct (Forall2_elem_l _ _ _ _ Hrun Hin) as (y & Hy & Hids). simpl in Hids. run_ok Hids.
  eexists. split; [done|]. apply im_elem_get; [by rewrite Hk|done].
Qed.

Lemma value_digests_from_wf ns digests : value_digests_from ns = Ok digests → value_digests_wf digests.
Proof.
  unfold value_digests_from. intros Hr. run_ok Hr. split; [apply im_collect_NoDup|].
  apply Forall_forall. intros [n ids] Hin%im_collect_elem. apply try_map_Ok in Hrun.
  apply Forall2_flip in Hrun. destruct (Forall2_elem_l _ _ _ _ Hrun Hin) as ([n' a] & _ & Hids).
  simpl in Hids. run_ok Hids. simplify_eq. by eapply digest_ids_from_NoDup.
Qed.
End Digests.

(** ** Issuing, then verifying *)
Section SignVerify.
Context `{!Ecdsa, !Coset, !Ciborium, !Sha256, !X509Lib, !Chrono, !UrlLib, !MacLib}.

(** The key pair of an issuer that the verifier trusts at [time]. *)
Definition trusted_issuer (key : KeyPair) (time : Z) (anchors : list TrustAnchor) (names : list string) : Prop :=
  Certificate_verify (certificate key) Mdl [] time anchors = Ok tt ∧
  Certificate_public_key (certificate key) = Ok (verifying_key (private_key key)) ∧
  iter_common_name (certificate key) = Ok names.

(** The MSO that [IssuerSigned_sign] signs. *)
Definition mso_for (now : Z) (u : UnsignedMdoc) (ck : CoseKey) (digests : imap NameSpace (imap Z ByteBuf))
    : MobileSecurityObject := {|
  value_digests := digests; device_key_info := device_key_info_from ck; mso_doc_type := u_doc_type u;
  validity_info := {| signed := tdate_from now; valid_from := u_valid_from u;
                      valid_until := u_valid_until u; expected_update := None |}
|}.

Lemma sign_inv now rng u ck key s : unsigned_wf u → IssuerSigned_sign now rng u ck key = Ok s →
  ∃ digests, value_digests_from (signed_name_spaces rng (u_attributes u)) = Ok digests ∧
    name_spaces s = Some (signed_name_spaces rng (u_attributes u)) ∧
    MdocCose_sign (mkTagged (mso_for now u ck digests)) (new_certificate_header (certificate key))
      (private_key key) true = Ok (issuer_auth s).
Proof.
  unfold IssuerSigned_sign. intros Hwf Hs. rewrite issuer_name_spaces_from_Ok in Hs by done. simpl in Hs.
  run_ok Hs. eexists. split; [done|]. by split.
Qed.

Lemma signed_cert (t : TaggedBytes MobileSecurityObject) cert sk c :
  MdocCose_sign t (new_certificate_header cert) sk true = Ok c → signing_cert c = Ok cert.
Proof. unfold MdocCose_sign. intros Hs. run_ok Hs. by injection Hs as <-. Qed.

Lemma signed_item_verifies rng u digests mso n es item :
  unsigned_wf u → value_digests_from (signed_name_spaces rng (u_attributes u)) = Ok digests →
  value_digests mso = digests → (n, es) ∈ u_attributes u → item ∈ items_of (rng n) es →
  verify_attr_digest mso n item = Ok tt.
Proof.
  intros Hwf Hd Hm Hin Hitem.
  assert ((n, items_of (rng n) es) ∈ signed_name_spaces rng (u_attributes u)) as Hns.
  { apply list_elem_of_fmap. by exists (n, es). }
  assert (NoDup (signed_name_spaces rng (u_attributes u)).*1) as Hnd.
  { unfold signed_name_spaces. rewrite (im_fmap_keys (λ ns es, items_of (rng ns) es)). apply Hwf. }
  destruct (value_digests_from_get _ _ _ _ Hnd Hd Hns) as (ids & Hids & Hget).
  destruct (digest_ids_from_get _ _ _ _ Hids (items_of_position _ _ _ Hitem)) as (d & Hdig & Hgd).
  unfold verify_attr_digest. rewrite Hm, Hget. simpl. rewrite Hgd. simpl. rewrite Hdig. simpl.
  by rewrite bool_decide_eq_true_2.
Qed.

Lemma signed_attrs_verify rng u digests mso n es :
  unsigned_wf u → value_digests_from (signed_name_spaces rng (u_attributes u)) = Ok digests →
  value_digests mso = digests → (n, es) ∈ u_attributes u →
  verify_attrs_in_namespace mso (items_of (rng n) es) n = Ok (merged_entries es).
Proof.
  intros Hwf Hd Hm Hin. unfold verify_attrs_in_namespace.
  rewrite (try_map_total _ entry_of_item).
  - f_equal. apply items_of_entries.
  - intros item Hitem. rewrite (signed_item_verifies rng u digests mso n es item) by done. done.
Qed.

Lemma signed_mso_verifies now u ck digests key c time anchors names :
  trusted_issuer key time anchors names → value_digests_wf digests → serde_wf ck →
  MdocCose_sign (mkTagged (mso_for now u ck digests)) (new_certificate_header (certificate key))
      (private_key key) true = Ok c →
  cose_verify_against_trust_anchors c Mdl time anchors = Ok (mkTagged (mso_for now u ck digests)).
Proof.
  intros (Ht & Hpk & _) Hwf Hck Hs. unfold cose_verify_against_trust_anchors.
  rewrite (signed_cert _ _ _ _ Hs). simpl. rewrite Ht. simpl. rewrite Hpk. simpl.
  eapply MdocCose_sign_parses; [|done]. simpl. split; [done|]. by split.
Qed.

Lemma sign_verify_full now rng u ck key s time anchors names validity :
  unsigned_wf u → serde_wf ck → trusted_issuer key time anchors names →
  verify_is_valid_at (validity_info (mso_for now u ck [])) time validity = Ok tt →
  IssuerSigned_sign now rng u ck key = Ok s →
  ∃ digests, IssuerSigned_verify s validity time anchors =
    Ok ({| disclosed_attributes := merged_attributes (u_attributes u); issuer := names;
           disclosed_validity := validity_info (mso_for now u ck digests) |}, mso_for now u ck digests).
Proof.
  intros Hwf Hck Htr Hval Hs.
  destruct (sign_inv _ _ _ _ _ _ Hwf Hs) as (digests & Hd & Hn & Hc). exists digests.
  unfold IssuerSigned_verify.
  rewrite (signed_mso_verifies now u ck digests key (issuer_auth s) time anchors names)
    by (done || by eapply value_digests_from_wf).
  cbn [map_err obind untag]. unfold mso_for in Hval |- *. cbn [validity_info] in Hval |- *. rewrite Hval. simpl.
  rewrite Hn. unfold signed_name_spaces.
  rewrite (try_map_total _ (λ p, (p.1, entries_of_attributes p.2))).
  - rewrite (signed_cert _ _ _ _ Hc). simpl. destruct Htr as (_ & _ & Hcn). rewrite Hcn. simpl.
    do 2 f_equal. f_equal. rewrite <-list_fmap_compose.
    rewrite im_collect_id.
    + unfold merged_attributes. apply list_fmap_ext. intros i [n es] _. simpl. f_equal. apply items_of_entries.
    + rewrite <-list_fmap_compose. rewrite (list_fmap_ext _ fst) by done. apply Hwf.
  - intros [n attrs] Hin. apply list_elem_of_fmap in Hin as ([n' es] & [= -> ->] & Hin). simpl.
    rewrite (signed_attrs_verify rng u digests _ n' es) by done. simpl. do 2 f_equal. by rewrite items_of_entries.
Qed.

Lemma sign_no_panic now rng u ck key : unsigned_wf u → IssuerSigned_sign now rng u ck key ≠ Panic.
Proof.
  intros Hwf Hp. unfold IssuerSigned_sign in Hp. rewrite issuer_name_spaces_from_Ok in Hp by done. simpl in Hp.
  destruct (value_digests_from _) as [d|e|] eqn:Ed; simpl in Hp; [|done|].
  - unfold MdocCose_sign in Hp.
    destruct (cbor_serialize _) as [p|e|] eqn:Ec; simpl in Hp; [done..|].
    unfold cbor_serialize in Ec. by apply ok_or_Panic in Ec.
  - unfold value_digests_from in Ed. apply bind_Panic in Ed as [Ed|(? & _ & ?)]; [|done].
    revert Ed. apply try_map_no_panic. intros [n attrs] Hpan. apply bind_Panic in Hpan as [Hpan|(? & _ & ?)]; [|done].
    unfold digest_ids_from in Hpan. apply bind_Panic in Hpan as [Hpan|(? & _ & ?)]; [|done].
    revert Hpan. apply try_map_no_panic. intros [i item] Hpan. unfold cbor_digest, cbor_serialize in Hpan.
    destruct (serialized _ ≫= _); done.
Qed.
End SignVerify.

(** ** Comparing with what was offered *)
Definition identifier (dt : DocType) (ns : NameSpace) (a : DataElementIdentifier) : AttributeIdentifier :=
  mkAttributeIdentifier dt ns a.
#[global] Instance identifier_inj dt ns : Inj (=) (=) (identifier dt ns).
Proof. by intros a b [= ->]. Qed.

Lemma flatten_map_cons dt ns es attrs id :
  im_get (flatten_map dt ((ns, es) :: attrs)) id =
    match im_get (flatten_map dt attrs) id with
    | Some v => Some v
    | None => if decide (ai_doc_type id = dt ∧ ai_namespace id = ns)
              then im_get (named_entries es) (ai_attribute id) else None
    end.
Proof.
  unfold flatten_map. csimpl. rewrite im_get_collect_app.
  destruct (im_get (im_collect (mjoin _)) id); [done|].
  replace ((λ e : Entry, (mkAttributeIdentifier dt ns (entry_name e), entry_value e)) <$> es)
    with ((λ kv : string * Value, (identifier dt ns kv.1, kv.2)) <$> ((λ e, (entry_name e, entry_value e)) <$> es))
    by (by rewrite <-list_fmap_compose).
  case_decide as Hid.
  - destruct id as [dt' ns' a], Hid as [Hdt Hns]. simpl in Hdt, Hns. subst dt' ns'. apply (im_get_collect_rename (identifier dt ns)).
  - apply im_get_collect_outside. intros a ->. by apply Hid.
Qed.

Lemma named_entries_merged es : named_entries (merged_entries es) = named_entries es.
Proof.
  unfold named_entries at 1, merged_entries. rewrite <-list_fmap_compose.
  rewrite (list_fmap_ext _ id); [|by intros ? []]. rewrite list_fmap_id.
  apply im_collect_id, im_collect_NoDup.
Qed.

Lemma flatten_merged dt attrs id : im_get (flatten_map dt (merged_attributes attrs)) id = im_get (flatten_map dt attrs) id.
Proof.
  induction attrs as [|[ns es] attrs IH]; [done|].
  unfold merged_attributes. rewrite fmap_cons. simpl. fold (merged_attributes attrs).
  by rewrite !flatten_map_cons, IH, named_entries_merged.
Qed.

Lemma flatten_map_NoDup dt attrs : NoDup (flatten_map dt attrs).*1.
Proof. apply im_collect_NoDup. Qed.

Definition self_equal (attrs : imap NameSpace (list Entry)) : Prop :=
  Forall (λ ns, Forall (λ e, value_eqb (entry_value e) (entry_value e) = true) ns.2) attrs.

Lemma flatten_self_equal dt attrs id v : self_equal attrs → im_get (flatten_map dt attrs) id = Some v → value_eqb v v = true.
Proof.
  intros Hs Hg. apply im_get_Some_elem, im_collect_elem, list_elem_of_join in Hg as (l & Hv & Hl).
  apply list_elem_of_fmap in Hl as ([ns es] & -> & Hns). apply list_elem_of_fmap in Hv as (e & [= -> ->] & He).
  unfold self_equal in Hs. rewrite Forall_forall in Hs. specialize (Hs _ Hns). rewrite Forall_forall in Hs. by apply Hs.
Qed.

Lemma mismatches_nil from other :
  (∀ id v, im_get from id = Some v → ∃ w, im_get other id = Some w ∧ value_eqb w v = true) →
  NoDup from.*1 → mismatches from other = [].
Proof.
  intros Hm Hd. unfold mismatches.
  assert (∀ l, l ⊆ from → filter (λ p : AttributeIdentifier * Value,
     match im_get other p.1 with Some v => negb (value_eqb v p.2) | None => true end = true) l = []) as Hf.
  { induction l as [|[id v] l IH]; intros Hl; [done|]. rewrite filter_cons_False.
    - apply IH. set_solver.
    - simpl. destruct (Hm id v) as (w & -> & ->); [|done]. apply im_elem_get; [done|]. set_solver. }
  by rewrite Hf.
Qed.

Section MdocClaims.
Context `{!Ecdsa, !Coset, !Ciborium, !Sha256, !X509Lib, !Chrono, !UrlLib, !MacLib}.

(** The dates of an unsigned mdoc are readable and [time] lies between them. *)
Definition valid_between (u : UnsignedMdoc) (time : Z) : Prop :=
  ∃ from until, tdate_time (u_valid_from u) = Ok from ∧ tdate_time (u_valid_until u) = Ok until ∧
    from ≤ time ≤ until.

Lemma valid_between_verifies now u ck digests time validity : valid_between u time →
  verify_is_valid_at (validity_info (mso_for now u ck digests)) time validity = Ok tt.
Proof.
  intros (from & until & Hf & Hu & Hle). unfold verify_is_valid_at. simpl. rewrite Hf, Hu.
  assert (time <? from = false) as Hnf by lia. assert (until <? time = false) as Hnu by lia.
  destruct validity; simpl; by rewrite ?Hnf, ?Hnu.
Qed.

Lemma ec2_key_wf vk ck : cose_key_from_verifying_key vk = Ok ck → serde_wf ck.
Proof.
  unfold cose_key_from_verifying_key. destruct (to_point vk) as [[x y]|]; simpl; [|done].
  intros [= <-]. apply ec2_pub_key_wf.
Qed.

(** C36. What an issuer signs, a verifier accepts: for every well-formed unsigned
    mdoc, device key and issuer key pair whose certificate the verifier trusts,
    signing never panics, and within the validity period the signed data
    verifies and yields exactly the offered attributes (with duplicate names in
    a namespace merged), the common names of the issuer, the offered document
    type and the public key of the device. *)
Theorem issued_mdoc_verifies now rng u vk ck key time anchors names
    (Hwf : unsigned_wf u) (Hck : cose_key_from_verifying_key vk = Ok ck)
    (Htrust : trusted_issuer key time anchors names) (Hvalid : valid_between u time) :
  IssuerSigned_sign now rng u ck key ≠ Panic ∧
  ∀ s, IssuerSigned_sign now rng u ck key = Ok s →
  ∃ attrs mso, IssuerSigned_verify s Valid time anchors = Ok (attrs, mso) ∧
    disclosed_attributes attrs = merged_attributes (u_attributes u) ∧ issuer attrs = names ∧
    mso_doc_type mso = u_doc_type u ∧
    verifying_key_from_cose_key (device_key (device_key_info mso)) = Ok vk.
Proof.
  split; [by apply sign_no_panic|]. intros s Hs.
  destruct (sign_verify_full now rng u ck key s time anchors names Valid) as [digests Hv];
    [done|by eapply ec2_key_wf|done|by apply valid_between_verifies|done|].
  do 2 eexists. split; [exact Hv|]. split_and!; try done. by apply cose_key_round_trip.
Qed.

Lemma Mdoc_attributes_signed rng u dt key_id c kt : unsigned_wf u →
  Mdoc_attributes (mkMdoc dt key_id (mkIssuerSigned (Some (signed_name_spaces rng (u_attributes u))) c) kt)
    = merged_attributes (u_attributes u).
Proof.
  intros Hwf. unfold Mdoc_attributes. simpl. unfold signed_name_spaces. rewrite <-list_fmap_compose.
  rewrite im_collect_id.
  - apply list_fmap_ext. intros i [n es] _. simpl. by rewrite items_of_entries.
  - rewrite <-list_fmap_compose. rewrite (list_fmap_ext _ fst) by done. apply Hwf.
Qed.

(** The holder accepts what it was offered: the mdoc made of freshly issued
    data (which may be valid only in the future) passes the comparison with the
    unsigned mdoc that was shown to the user, provided its values are equal to
    themselves (which only a NaN is not). *)
Theorem issued_mdoc_matches_offer now rng u vk ck key time anchors names kt key_id s until
    (Hwf : unsigned_wf u) (Hself : self_equal (u_attributes u))
    (Hck : cose_key_from_verifying_key vk = Ok ck) (Htrust : trusted_issuer key time anchors names)
    (Huntil : tdate_time (u_valid_until u) = Ok until) (Htime : time ≤ until)
    (Hs : IssuerSigned_sign now rng u ck key = Ok s) :
  ∃ m, Mdoc_new kt key_id s time anchors = Ok m ∧ compare_unsigned m u = Ok tt.
Proof.
  destruct (sign_verify_full now rng u ck key s time anchors names AllowNotYetValid) as [digests Hv];
    [done|by eapply ec2_key_wf|done| |done|].
  { unfold verify_is_valid_at. simpl. rewrite Huntil. simpl. by rewrite (proj2 (Z.ltb_ge _ _)). }
  unfold Mdoc_new. rewrite Hv. simpl. eexists. split; [done|].
  destruct (sign_inv _ _ _ _ _ _ Hwf Hs) as (digests' & _ & Hn & _). destruct s as [ns c]. simpl in Hn. subst ns.
  unfold compare_unsigned. rewrite Mdoc_attributes_signed by done. simpl.
  rewrite !mismatches_nil; try apply flatten_map_NoDup; [done|..].
  - intros id v. rewrite flatten_merged. intros Hg. exists v. split; [done|]. by eapply flatten_self_equal.
  - intros id v Hg. exists v. rewrite flatten_merged. split; [done|]. by eapply flatten_self_equal.
Qed.

Lemma verify_attr_digest_Ok mso ns item u : verify_attr_digest mso ns item = Ok u →
  ∃ ids d, im_get (value_digests mso) ns = Some ids ∧ im_get ids (digest_id (untag item)) = Some (mkByteBuf d) ∧
    cbor_digest item = Ok d.
Proof. unfold verify_attr_digest. intros Hv. run_ok Hv. zbool. subst. eauto. Qed.

Lemma IssuerSigned_verify_Ok s validity time anchors attrs mso :
  IssuerSigned_verify s validity time anchors = Ok (attrs, mso) →
  cose_verify_against_trust_anchors (issuer_auth s) Mdl time anchors = Ok (mkTagged mso) ∧
  verify_is_valid_at (validity_info mso) time validity = Ok tt ∧
  match name_spaces s with
  | None => disclosed_attributes attrs = []
  | Some ns => ∃ l, disclosed_attributes attrs = im_collect l ∧
      Forall2 (λ (p : NameSpace * Attributes) q, p.1 = q.1 ∧ verify_attrs_in_namespace mso p.2 p.1 = Ok q.2) ns l
  end.
Proof.
  unfold IssuerSigned_verify. intros Hv.
  apply bind_Ok in Hv as ([mso'] & Hc & Hv). apply map_err_Ok in Hc. cbn [untag] in Hv.
  apply bind_Ok in Hv as ([] & Hval & Hv). apply map_err_Ok in Hval.
  apply bind_Ok in Hv as (at_ & Hat & Hv). apply bind_Ok in Hv as (cert & _ & Hv).
  apply bind_Ok in Hv as (names & _ & [= <- <-]). split_and!; [done..|]. simpl.
  destruct (name_spaces s) as [ns|]; [|by injection Hat as <-].
  apply omap_Ok in Hat as (l & Hl & ->). exists l. split; [done|]. apply try_map_Ok in Hl.
  induction Hl as [|[n a] q ns l Hq Hl IH]; constructor; [|done].
  simpl in Hq. apply bind_Ok in Hq as (es & Hes & [= <-]). done.
Qed.

(** C2. Nothing is accepted that was not signed: when issuer-signed data
    verifies, its security object was verified under the public key of a
    certificate that chains to a trust anchor for mdoc issuance, its validity
    period contains the current time, and every attribute that is reported comes
    from an item whose digest is in the security object, under the namespace and
    the digest identifier of that item. *)
Theorem verified_attributes_were_signed s time anchors attrs mso
    (Hv : IssuerSigned_verify s Valid time anchors = Ok (attrs, mso)) :
  (∃ cert pk p, signing_cert (issuer_auth s) = Ok cert ∧ Certificate_verify cert Mdl [] time anchors = Ok tt ∧
     Certificate_public_key cert = Ok pk ∧ sign1_verify (issuer_auth s) pk = Ok tt ∧
     payload (issuer_auth s) = Some p ∧ cbor_deserialize p = Ok (mkTagged mso)) ∧
  (∃ from until, tdate_time (valid_from (validity_info mso)) = Ok from ∧
     tdate_time (valid_until (validity_info mso)) = Ok until ∧ from ≤ time ≤ until) ∧
  ∀ ns es e, (ns, es) ∈ disclosed_attributes attrs → e ∈ es →
    ∃ item ids d, e = entry_of_item item ∧ im_get (value_digests mso) ns = Some ids ∧
      im_get ids (digest_id (untag item)) = Some (mkByteBuf d) ∧ cbor_digest item = Ok d.
Proof.
  apply IssuerSigned_verify_Ok in Hv as (Hc & Hval & Hns). split; [|split].
  - by apply verify_against_trust_anchors_Ok.
  - unfold verify_is_valid_at in Hval. destruct (tdate_time (valid_from _)) as [from| |]; simpl in Hval; [|done..].
    exists from. destruct (time <? from) eqn:E; simpl in Hval; [done|].
    destruct (tdate_time (valid_until _)) as [until| |]; simpl in Hval; [|done..].
    exists until. destruct (until <? time) eqn:E'; [done|]. split_and!; try done; lia.
  - intros ns es e Hin He. destruct (name_spaces s) as [nss|]; [|rewrite Hns in Hin; by apply elem_of_nil in Hin].
    destruct Hns as (l & Hl & Hf). rewrite Hl in Hin. apply im_collect_elem in Hin.
    apply Forall2_flip in Hf. destruct (Forall2_elem_l _ _ _ _ Hf Hin) as ([n a] & _ & Hn & Hes). simpl in Hn, Hes. subst n.
    apply try_map_Ok, Forall2_flip in Hes. destruct (Forall2_elem_l _ _ _ _ Hes He) as (item & _ & Hi).
    simpl in Hi. apply bind_Ok in Hi as (u & Hd & [= <-]).
    apply verify_attr_digest_Ok in Hd as (ids & d & ?). naive_solver.
Qed.
End MdocClaims.

(** ** An issuance, evaluated *)
Import Crates.

Definition example_unsigned : UnsignedMdoc := {|
  u_doc_type := "com.example.pid";
  u_valid_from := tdate_from (10 * 1000000);
  u_valid_until := tdate_from (1000 * 1000000);
  u_attributes := [("com.example.pid",
    [mkEntry "name" (VText "De Bruijn"); mkEntry "age" (VInteger 17); mkEntry "age" (VInteger 18)])];
  u_copy_count := 2
|}.
Definition example_issuer : KeyPair :=
  mkKeyPair ("issuer" : SigningKey) (cert_bytes "ca" "issuer" "cert.issuer.example.com" EXTENDED_KEY_USAGE_MDL).
Definition example_device : VerifyingKey := "device".
Definition example_anchors : list TrustAnchor := ["ca"].
Definition example_rng (ns : NameSpace) (i : Z) : string := "r".
Definition example_signed : IssuerSigned :=
  match IssuerSigned_sign 5 example_rng example_unsigned (new_ec2_pub_key "device" "y") example_issuer with
  | Ok s => s | _ => mkIssuerSigned None (mkSign1 "" None es256_header (mkCoseHeader None [])) end.

Lemma example_wf : unsigned_wf example_unsigned.
Proof. split; [reflexivity|]. apply (bool_decide_unpack _). by vm_compute. Qed.
Lemma example_trusted t : trusted_issuer example_issuer t example_anchors ["cert.issuer.example.com"].
Proof. by split_and!; vm_compute. Qed.
Lemma example_valid : valid_between example_unsigned (500 * 1000000).
Proof. exists (10 * 1000000), (1000 * 1000000). split_and!; by vm_compute. Qed.

Lemma issued_mdoc_verifies_witness :
  ∃ attrs mso, IssuerSigned_verify example_signed Valid (500 * 1000000) example_anchors = Ok (attrs, mso) ∧
    disclosed_attributes attrs =
      [("com.example.pid", [mkEntry "name" (VText "De Bruijn"); mkEntry "age" (VInteger 18)])].
Proof.
  destruct (issued_mdoc_verifies 5 example_rng example_unsigned example_device (new_ec2_pub_key "device" "y")
    example_issuer (500 * 1000000) example_anchors ["cert.issuer.example.com"]) as [_ Hv];
    [apply example_wf|reflexivity|apply example_trusted|apply example_valid|].
  destruct (Hv example_signed) as (attrs & mso & Hver & Hat & _); [vm_compute; reflexivity|].
  exists attrs, mso. split; [exact Hver|]. rewrite Hat. vm_compute. reflexivity.
Defined.

Lemma issued_mdoc_matches_offer_witness :
  ∃ m, Mdoc_new Software "key" example_signed 7 example_anchors = Ok m ∧ compare_unsigned m example_unsigned = Ok tt.
Proof.
  apply (issued_mdoc_matches_offer 5 example_rng example_unsigned example_device (new_ec2_pub_key "device" "y")
    example_issuer 7 example_anchors ["cert.issuer.example.com"] Software "key" example_signed (1000 * 1000000)).
  - apply example_wf.
  - unfold self_equal. repeat constructor.
  - reflexivity.
  - apply example_trusted.
  - by vm_compute.
  - lia.
  - vm_compute. reflexivity.
Defined.

Lemma verified_attributes_were_signed_witness :
  ∃ attrs mso, IssuerSigned_verify example_signed Valid (500 * 1000000) example_anchors = Ok (attrs, mso) ∧
    ∃ item ids d, mkEntry "age" (VInteger 18) = entry_of_item item ∧
      im_get (value_digests mso) "com.example.pid" = Some ids ∧
      im_get ids (digest_id (untag item)) = Some (mkByteBuf d) ∧ cbor_digest item = Ok d.
Proof.
  destruct (IssuerSigned_verify example_signed Valid (500 * 1000000) example_anchors) as [[attrs mso]| |] eqn:Hv;
    [|vm_compute in Hv; discriminate..].
  exists attrs, mso. split; [reflexivity|].
  destruct (verified_attributes_were_signed example_signed (500 * 1000000) example_anchors attrs mso Hv) as (_ & _ & Hall).
  assert (disclosed_attributes attrs =
    [("com.example.pid", [mkEntry "name" (VText "De Bruijn"); mkEntry "age" (VInteger 18)])]) as Hat.
  { vm_compute in Hv. injection Hv as <- <-. reflexivity. }
  eapply Hall; [rewrite Hat; left|right; left].
Defined.
