(* ===== verification/DisclosureFacts.v ===== *)
(** * What a verifier learns from a device response

    Documents are bound to the session and to the key of the device; a response
    that passes the checks discloses what was requested, as long as its
    documents have different types. *)
From stdpp Require Import base list option strings sets.
From Stdlib Require Import ZArith Lia.
From S2P Require Import Prelude IndexMap Crypto Cbor Cose Engagement Concrete Mdoc MdocSigning MdocFacts.

Section Disclosure.
Context `{!Ecdsa, !Coset, !Ciborium, !Sha256, !X509Lib, !Chrono, !UrlLib, !MacLib}.

Lemma Document_verify_Ok d eph t time anchors dt attrs :
  Document_verify d eph t time anchors = Ok (dt, attrs) →
  ∃ mso bts dk, IssuerSigned_verify (issuer_signed d) Valid time anchors = Ok (attrs, mso) ∧
    doc_type d = dt ∧ mso_doc_type mso = dt ∧ device_authentication_bytes (doc_type d) t = Ok bts ∧
    verifying_key_from_cose_key (device_key (device_key_info mso)) = Ok dk ∧
    match device_auth (device_signed d) with
    | DeviceSignature sig => sign1_verify (sign1_with_payload sig bts) dk = Ok tt
    | DeviceMac mac => ∃ sk st k, eph = Some sk ∧
        tagged_serialize (session_transcript_serialize t) = Ok st ∧
        dh_hmac_key sk dk st "EMacKey" 32 = Ok k ∧ mac0_verify (mac0_with_payload mac bts) k = Ok tt
    end.
Proof.
  unfold Document_verify. intros Hv. apply bind_Ok in Hv as ([a mso] & Hi & Hv).
  apply bind_Ok in Hv as (u1 & Hdt & Hv). apply guard_err_Ok in Hdt. zbool.
  apply bind_Ok in Hv as (st & Hst & Hv). apply map_err_Ok in Hst.
  apply bind_Ok in Hv as (bts & Hbts & Hv). apply map_err_Ok in Hbts.
  apply bind_Ok in Hv as (dk & Hdk & Hv). apply map_err_Ok in Hdk.
  apply bind_Ok in Hv as ([] & Hauth & [= Hd1 Hd2]). subst. exists mso, bts, dk. split_and!; [done..|].
  destruct (device_auth (device_signed d)); run_ok Hauth; [done|]. by eauto 10.
Qed.

(** C7. A verified document is bound to the session and to the device: its type
    is the one the issuer signed, and the device authenticated, with the key in
    the issuer's security object, bytes that fix both the document type and the
    transcript of this session - for a signature by that key itself, for a MAC
    with a key agreed between that key and the reader's ephemeral key.  A
    document made for another transcript authenticates other bytes. *)
Theorem document_bound_to_session d eph t time anchors dt attrs
    (Hv : Document_verify d eph t time anchors = Ok (dt, attrs)) :
  ∃ mso bts dk, IssuerSigned_verify (issuer_signed d) Valid time anchors = Ok (attrs, mso) ∧
    dt = mso_doc_type mso ∧ dt = doc_type d ∧
    verifying_key_from_cose_key (device_key (device_key_info mso)) = Ok dk ∧
    device_authentication_bytes dt t = Ok bts ∧
    (∀ dt' t', device_authentication_bytes dt' t' = Ok bts →
       dt' = dt ∧ session_transcript_serialize t' = session_transcript_serialize t) ∧
    match device_auth (device_signed d) with
    | DeviceSignature sig => sign1_verify (sign1_with_payload sig bts) dk = Ok tt
    | DeviceMac mac => ∃ sk st k, eph = Some sk ∧ dh_hmac_key sk dk st "EMacKey" 32 = Ok k ∧
        mac0_verify (mac0_with_payload mac bts) k = Ok tt
    end.
Proof.
  apply Document_verify_Ok in Hv as (mso & bts & dk & Hi & Hd & Hm & Hbts & Hdk & Hauth).
  exists mso, bts, dk. rewrite Hd in Hbts. split_and!; try done.
  - intros dt' t' Hb. by eapply device_authentication_bytes_inj.
  - destruct (device_auth (device_signed d)); naive_solver.
Qed.

(** The map that the loop over the documents builds. *)
Lemma verify_documents_Ok docs eph t time anchors acc out :
  verify_documents docs eph t time anchors acc = Ok out →
  ∃ l, Forall2 (λ d p, Document_verify d eph t time anchors = Ok p) docs l ∧
    out = fold_left (λ m p, im_insert p.1 p.2 m) l acc.
Proof.
  revert acc. induction docs as [|d docs IH]; intros acc; simpl.
  - intros [= <-]. by exists [].
  - intros Hv. apply bind_Ok in Hv as (p & Hp & Hv). apply IH in Hv as (l & Hl & ->).
    exists (p :: l). split; [by constructor|done].
Qed.

Lemma DeviceResponse_verify_Ok r eph t time anchors out :
  DeviceResponse_verify r eph t time anchors = Ok out →
  ∃ docs l, documents r = Some docs ∧
    Forall2 (λ d p, Document_verify d eph t time anchors = Ok p) docs l ∧ out = im_collect l.
Proof.
  unfold DeviceResponse_verify. destruct (document_errors r); [done|].
  destruct (negb _); [done|]. destruct (documents r) as [docs|]; [|done].
  intros Hv. apply verify_documents_Ok in Hv as (l & Hl & ->). by exists docs, l.
Qed.

Lemma verified_types docs l eph t time anchors :
  Forall2 (λ d p, Document_verify d eph t time anchors = Ok p) docs l → l.*1 = doc_type <$> docs.
Proof.
  induction 1 as [|d [dt a] docs l Hd _ IH]; [done|]. csimpl. rewrite IH. f_equal.
  apply Document_verify_Ok in Hd. naive_solver.
Qed.

Lemma match_against_response_Ok requests response u : match_against_response requests response = Ok u →
  ∀ r id, r ∈ requests → id ∈ attribute_identifiers r →
  ∃ docs d, documents response = Some docs ∧ d ∈ docs ∧ doc_type d = req_doc_type r ∧
    id ∈ Document_attribute_identifiers d.
Proof.
  unfold match_against_response. intros Hm r id Hr Hid.
  destruct (mjoin _) as [|x l] eqn:Hnil; [|done]. clear Hm.
  assert (id ∉ match docs ← documents response; snd <$> list_find (λ d, doc_type d = req_doc_type r) docs with
    | None => attribute_identifiers r | Some d => match_against_issuer_signed r d end) as Hout.
  { intros Hin. assert (id ∈ ([] : list AttributeIdentifier)) as Habs; [|by apply elem_of_nil in Habs].
    rewrite <-Hnil. apply list_elem_of_join. eexists. split; [exact Hin|]. apply list_elem_of_fmap. by exists r. }
  destruct (documents response) as [docs|]; simpl in Hout; [|done].
  destruct (list_find _ docs) as [[i d]|] eqn:Hf; simpl in Hout; [|done].
  apply list_find_Some in Hf as (Hi & Hd & _). exists docs, d. split_and!; try done.
  - by eapply list_elem_of_lookup_2.
  - unfold match_against_issuer_signed in Hout. destruct (decide (id ∈ Document_attribute_identifiers d)); [done|].
    exfalso. apply Hout. apply list_elem_of_filter. by split.
Qed.

(** An identifier of a document's issuer-signed data is an attribute that
    verification reports. *)
Definition reports (attrs : DocumentDisclosedAttributes) (id : AttributeIdentifier) : Prop :=
  ∃ es, im_get (disclosed_attributes attrs) (ai_namespace id) = Some es ∧ ai_attribute id ∈ entry_name <$> es.

Definition name_spaces_wf (s : IssuerSigned) : Prop := from_option (λ ns : IssuerNameSpaces, NoDup ns.*1) True (name_spaces s).

Lemma verified_reports s validity time anchors attrs mso dt id : name_spaces_wf s →
  IssuerSigned_verify s validity time anchors = Ok (attrs, mso) →
  id ∈ issuer_signed_attribute_identifiers s dt → reports attrs id.
Proof.
  unfold name_spaces_wf, issuer_signed_attribute_identifiers. intros Hwf Hv Hid.
  apply IssuerSigned_verify_Ok in Hv as (_ & _ & Hns).
  destruct (name_spaces s) as [ns|]; [|by apply elem_of_nil in Hid]. simpl in Hwf.
  destruct Hns as (l & Hl & Hf). apply IndexSet_elem, list_elem_of_join in Hid as (ids & Hid & Hids).
  apply list_elem_of_fmap in Hids as ([n a] & -> & Hn). apply list_elem_of_fmap in Hid as (item & -> & Hitem). simpl in *.
  destruct (Forall2_elem_l _ _ _ _ Hf Hn) as ([n' es] & Hes & Hnn & Hver). simpl in Hnn, Hver. subst n'.
  exists es. simpl. split.
  - rewrite Hl. assert (l.*1 = ns.*1) as Hk.
    { clear -Hf. induction Hf as [|p q ns l [Hp _] _ IH]; [done|]. csimpl. by rewrite IH, Hp. }
    apply im_elem_get; [apply im_collect_NoDup|]. by rewrite im_collect_id by (by rewrite Hk).
  - apply try_map_Ok in Hver. destruct (Forall2_elem_l _ _ _ _ Hver Hitem) as (e & He & Heq).
    simpl in Heq. apply bind_Ok in Heq as (u & _ & [= <-]). apply list_elem_of_fmap. by exists (entry_of_item item).
Qed.

(** A verifier gets what it asked for: when a response verifies, answers the
    requests, and has at most one document per type, then every requested
    attribute is among the verified attributes that are returned, under the
    requested document type and namespace. *)
Theorem requested_attributes_disclosed r eph t time anchors out requests u docs
    (Hdocs : documents r = Some docs) (Hdistinct : NoDup (doc_type <$> docs))
    (Hwf : Forall (λ d, name_spaces_wf (issuer_signed d)) docs)
    (Hverify : DeviceResponse_verify r eph t time anchors = Ok out)
    (Hmatch : match_against_response requests r = Ok u) :
  ∀ req id, req ∈ requests → id ∈ attribute_identifiers req →
    ∃ attrs, im_get out (req_doc_type req) = Some attrs ∧ reports attrs id.
Proof.
  intros req id Hreq Hid.
  destruct (match_against_response_Ok _ _ _ Hmatch req id Hreq Hid) as (docs' & d & Hd' & Hd & Hdt & Hin).
  apply DeviceResponse_verify_Ok in Hverify as (docs'' & l & Hd'' & Hl & ->).
  rewrite Hdocs in Hd', Hd''. injection Hd' as <-. injection Hd'' as <-.
  destruct (Forall2_elem_l _ _ _ _ Hl Hd) as ([dt attrs] & Hp & Hv).
  exists attrs. pose proof (Document_verify_Ok _ _ _ _ _ _ _ Hv) as (mso & _ & _ & Hi & Hdd & _).
  assert (NoDup l.*1) as Hnd by (by rewrite (verified_types _ _ _ _ _ _ Hl)).
  split.
  - rewrite <-Hdt, Hdd. apply im_elem_get; [apply im_collect_NoDup|]. by rewrite im_collect_id.
  - rewrite Forall_forall in Hwf. eapply verified_reports; [by apply Hwf|exact Hi|exact Hin].
Qed.

(** A response may hold two documents of one type, and then the check of the
    requests and the result look at different ones: the requests are matched
    against the first document only, while the returned attributes are those of
    the last one.  So whatever the second document discloses (it may disclose
    nothing), the response is accepted and its attributes are all the verifier
    gets. *)
Theorem second_document_replaces_first d1 d2 eph t time anchors requests dt a1 a2
    (Hfirst : Document_verify d1 eph t time anchors = Ok (dt, a1))
    (Hsecond : Document_verify d2 eph t time anchors = Ok (dt, a2))
    (Hmatch : match_against_response requests (mkDeviceResponse (Some [d1]) None 0) = Ok tt) :
  let response := mkDeviceResponse (Some [d1; d2]) None 0 in
  match_against_response requests response = Ok tt ∧
  DeviceResponse_verify response eph t time anchors = Ok [(dt, a2)].
Proof.
  pose proof (Document_verify_Ok _ _ _ _ _ _ _ Hfirst) as (_ & _ & _ & _ & E1 & _).
  pose proof (Document_verify_Ok _ _ _ _ _ _ _ Hsecond) as (_ & _ & _ & _ & E2 & _). split.
  - unfold match_against_response in *. simpl in *.
    rewrite (list_fmap_ext _ (λ r, match snd <$> list_find (λ d, doc_type d = req_doc_type r) [d1] with
      | Some d => match_against_issuer_signed r d | None => attribute_identifiers r end)); [done|].
    intros i r _. simpl. rewrite E1, E2. by case_decide.
  - unfold DeviceResponse_verify. simpl. rewrite Hfirst. simpl. rewrite Hsecond. simpl. by rewrite decide_True.
Qed.
End Disclosure.

(** ** A disclosure, evaluated *)
Import Crates.

Definition example_transcript : SessionTranscript :=
  match SessionTranscript_new_oid4vp "https://rp.example.com" "client" "nonce" "mdoc_nonce" with
  | Ok t => t | _ => mkSeq (mkTranscript None None QrHandover) end.
Definition example_device_signed (signer : SigningKey) : DeviceSigned :=
  mkDeviceSigned [] (DeviceSignature
    (match device_authentication_bytes "com.example.pid" example_transcript with
     | Ok bts => match sign_cose bts (mkCoseHeader None []) signer false with
                 | Ok c => c | _ => issuer_auth example_signed end
     | _ => issuer_auth example_signed end)).
Definition example_document : Document :=
  mkDocument "com.example.pid" example_signed (example_device_signed "device") None.
(** The same mdoc, disclosing nothing. *)
Definition empty_document : Document :=
  mkDocument "com.example.pid" (mkIssuerSigned None (issuer_auth example_signed)) (example_device_signed "device") None.
Definition example_request : ItemsRequest :=
  mkItemsRequest "com.example.pid" [("com.example.pid", [("age", false)])] None.

Definition verified (d : Document) : DocumentDisclosedAttributes :=
  match Document_verify d None example_transcript (500 * 1000000) example_anchors with
  | Ok (_, a) => a | _ => mkDisclosed [] [] (validity_info (mso_for 0 example_unsigned (new_ec2_pub_key "" "") [])) end.

Lemma document_bound_to_session_witness :
  ∃ bts, device_authentication_bytes "com.example.pid" example_transcript = Ok bts ∧
    ∀ dt' t', device_authentication_bytes dt' t' = Ok bts → dt' = "com.example.pid".
Proof.
  destruct (document_bound_to_session example_document None example_transcript (500 * 1000000) example_anchors
    "com.example.pid" (verified example_document)) as (mso & bts & dk & _ & _ & _ & _ & Hb & Hinj & _);
    [vm_compute; reflexivity|].
  exists bts. split; [exact Hb|]. intros dt' t' H'. destruct (Hinj dt' t' H') as [Hdt _]. exact Hdt.
Defined.

Lemma requested_attributes_disclosed_witness :
  ∃ attrs, im_get [("com.example.pid", verified example_document)] "com.example.pid" = Some attrs ∧
    reports attrs (mkAttributeIdentifier "com.example.pid" "com.example.pid" "age").
Proof.
  apply (requested_attributes_disclosed (mkDeviceResponse (Some [example_document]) None 0) None example_transcript
    (500 * 1000000) example_anchors [("com.example.pid", verified example_document)] [example_request] tt
    [example_document]) with (req := example_request).
  - reflexivity.
  - apply (bool_decide_unpack _). by vm_compute.
  - constructor; [|constructor]. unfold name_spaces_wf. vm_compute. apply NoDup_singleton.
  - vm_compute. reflexivity.
  - vm_compute. reflexivity.
  - left.
  - vm_compute. left.
Defined.

Lemma second_document_replaces_first_witness :
  let response := mkDeviceResponse (Some [example_document; empty_document]) None 0 in
  match_against_response [example_request] response = Ok tt ∧
  omap (λ out, disclosed_attributes <$> out.*2) (DeviceResponse_verify response None example_transcript (500 * 1000000) example_anchors)
    = Ok [[]].
Proof.
  destruct (second_document_replaces_first example_document empty_document None example_transcript (500 * 1000000)
    example_anchors [example_request] "com.example.pid" (verified example_document) (verified empty_document))
    as [Hm Hv]; [vm_compute; reflexivity..|].
  split; [exact Hm|]. rewrite Hv. vm_compute. reflexivity.
Defined.
