(* ===== verification/Holder.v ===== *)
(** * The holder's side of a disclosure

    Models [mdoc/src/utils/auth] (what a reader is registered for, read from
    its certificate), [mdoc/src/holder/disclosure/proposed_document.rs] and
    [disclosure_request_match.rs] (which stored documents satisfy a request, and
    what would be disclosed of them), [device_signed.rs], [issuer_signed.rs] and
    [response.rs] (the signed response).

    Parsing of certificate extensions and JSON is a parameter; so are the
    storage of mdocs and the key factory. *)
From stdpp Require Import base gmap strings list option.
From Stdlib Require Import ZArith Lia.
From S2P Require Import Prelude IndexMap Crypto Cbor Cose Engagement Mdoc MdocSigning.

(** ** Registrations *)

(** [LocalizedStrings], by language. *)
Definition LocalizedStrings : Type := imap string string.
Inductive ImageType := Svg | Png | Jpeg.
Record Image := mkImage { mime_type : ImageType; image_data : string }.
Record Organization := mkOrganization {
  display_name : LocalizedStrings;
  legal_name : LocalizedStrings;
  org_description : LocalizedStrings;
  org_category : LocalizedStrings;
  logo : option Image;
  web_url : option string;
  kvk : option string;
  city : option LocalizedStrings;
  department : option LocalizedStrings;
  country_code : option string;
  privacy_policy_url : option string
}.
Record RetentionPolicy := mkRetention { intent_to_retain : bool; max_duration_in_minutes : option Z }.
Record SharingPolicy := mkSharing { intent_to_share : bool }.
Record DeletionPolicy := mkDeletion { deleteable : bool }.
Record AuthorizedAttribute := mkAuthorizedAttribute {}.
Definition AuthorizedNamespace : Type := imap string AuthorizedAttribute.
Definition AuthorizedMdoc : Type := imap string AuthorizedNamespace.
Record ReaderRegistration := mkReaderRegistration {
  purpose_statement : LocalizedStrings;
  retention_policy : RetentionPolicy;
  sharing_policy : SharingPolicy;
  deletion_policy : DeletionPolicy;
  reader_organization : Organization;
  request_origin_base_url : string;
  registered_attributes : imap string AuthorizedMdoc
}.
Record IssuerRegistration := mkIssuerRegistration { issuer_organization : Organization }.

#[global] Instance reader_registration_holder : AttributeIdentifierHolder ReaderRegistration := λ r,
  IndexSet_collect (mjoin ((λ d : string * AuthorizedMdoc,
    mjoin ((λ n : string * AuthorizedNamespace,
      (λ a : string * AuthorizedAttribute, mkAttributeIdentifier d.1 n.1 a.1) <$> n.2) <$> d.2)) <$> registered_attributes r)).
(** A list of requests. *)
#[global] Instance items_requests_holder : AttributeIdentifierHolder (list ItemsRequest) := λ l,
  IndexSet_collect (mjoin (attribute_identifiers <$> l)).

Inductive ValidationError := UnregisteredAttributes (l : list AttributeIdentifier).
(** [ReaderRegistration::verify_requested_attributes] *)
Definition verify_requested_attributes (r : ReaderRegistration) (requested_attributes : list ItemsRequest)
    : outcome ValidationError unit :=
  let difference := difference requested_attributes r in
  guard_err (bool_decide (difference = [])) (UnregisteredAttributes difference).

(** The object identifiers of the extensions in the form [x509_parser] has them,
    the DER string in the value of an extension, and [serde_json]. *)
Class RegistrationLib := {
  oid_from : list Z → list Z;
  utf8_string_decode : string → option string;
  reader_registration_from_str : string → option ReaderRegistration;
  issuer_registration_from_str : string → option IssuerRegistration
}.
Definition OID_EXT_READER_AUTH : list Z := [2; 1; 123; 1].
Definition OID_EXT_ISSUER_AUTH : list Z := [2; 1; 123; 2].

Inductive CertificateType :=
  | MdlCertificate (r : option IssuerRegistration)
  | ReaderAuthCertificate (r : option ReaderRegistration).

Section Registrations.
Context `{!Ecdsa, !X509Lib, !RegistrationLib}.

(** [Certificate::extract_custom_ext] *)
Definition extract_custom_ext {T} (from_str : string → option T) (cert : Certificate) (oid : list Z)
    : outcome CertificateError (option T) :=
  let* x509_cert := to_x509 cert in
  match snd <$> list_find (λ ext : list Z * string, ext.1 = oid) (extensions x509_cert) with
  | None => Ok None
  | Some ext =>
      let* json := ok_or DerEncodingError (utf8_string_decode ext.2) in
      let* registration := ok_or JsonEncodingError (from_str json) in
      Ok (Some registration)
  end.

(** [CertificateType::from_certificate] *)
Definition type_from_certificate (cert : Certificate) : outcome CertificateError CertificateType :=
  let* usage := usage_from_certificate cert in
  match usage with
  | Mdl => omap MdlCertificate (extract_custom_ext issuer_registration_from_str cert (oid_from OID_EXT_ISSUER_AUTH))
  | ReaderAuthUsage =>
      omap ReaderAuthCertificate (extract_custom_ext reader_registration_from_str cert (oid_from OID_EXT_READER_AUTH))
  end.
End Registrations.

(** ** Proposed documents *)
Record StoredMdoc (I : Type) := mkStoredMdoc { sm_id : I; sm_mdoc : Mdoc }.
Arguments mkStoredMdoc {I}.
Arguments sm_id {I}.
Arguments sm_mdoc {I}.
Record ProposedDocumentAttributes := mkProposedAttributes { pa_issuer : Certificate; pa_attributes : imap NameSpace (list Entry) }.
Record ProposedDocument (I : Type) := mkProposed {
  source_identifier : I;
  pd_private_key_id : string;
  pd_doc_type : DocType;
  pd_issuer_signed : IssuerSigned;
  device_signed_challenge : string;
  issuer_certificate : Certificate
}.
Arguments mkProposed {I}.
Arguments source_identifier {I}.
Arguments pd_private_key_id {I}.
Arguments pd_doc_type {I}.
Arguments pd_issuer_signed {I}.
Arguments device_signed_challenge {I}.
Arguments issuer_certificate {I}.

(** A source of stored mdocs, by document type; it may fail. *)
Definition MdocDataSource (I : Type) : Type := gset DocType → option (list (list (StoredMdoc I))).

Inductive HolderError :=
  | HMdocDataSource
  | HMultipleCandidates (l : list DocType)
  | HReaderAuthMissing | HReaderAuthsInconsistent | HNoReaderRegistration (c : Certificate)
  | HReaderRegistrationValidation (e : ValidationError) | HCertificateError (e : CertificateError) | HNoAttributesRequested.
(** The errors of the crate: [Error::Holder] and the others. *)
Inductive DisclosureMatchError := DMdoc (e : MdocError) | DHolder (e : HolderError).

Inductive DisclosureRequestMatch (I : Type) :=
  | Candidates (c : imap DocType (list (ProposedDocument I)))
  | MatchMissingAttributes (l : list AttributeIdentifier).
Arguments Candidates {I}.
Arguments MatchMissingAttributes {I}.

(** [KeyFactory]: only what a disclosure uses of it. *)
Class KeyFactory `{!Ecdsa} := {
  generate_existing : string → VerifyingKey → SigningKey;
  sign_multiple_with_existing_keys : list (string * SigningKey) → option (list (list Signature))
}.

Section Proposals.
Context {I : Type}.
Context `{!Ecdsa, !Coset, !Ciborium, !Sha256, !X509Lib, !Chrono, !UrlLib, !MacLib}.

(** The name spaces of a proposed document: only what is requested, without
    name spaces that would be empty. *)
Definition requested_name_spaces (dt : DocType) (requested_attributes : list AttributeIdentifier) (name_spaces : IssuerNameSpaces)
    : IssuerNameSpaces :=
  im_collect (base.omap (λ p : NameSpace * Attributes,
    match filter (λ attribute : IssuerSignedItemBytes,
            mkAttributeIdentifier dt p.1 (element_identifier (untag attribute)) ∈ requested_attributes) p.2 with
    | [] => None
    | attributes => Some (p.1, attributes)
    end) name_spaces).

(** [ProposedDocument::try_from_stored_mdoc] *)
Definition try_from_stored_mdoc (stored_mdoc : StoredMdoc I) (requested_attributes : list AttributeIdentifier)
    (challenge : string) : outcome MdocError (ProposedDocument I) :=
  let mdoc := sm_mdoc stored_mdoc in
  let* name_spaces :=
    match name_spaces (m_issuer_signed mdoc) with
    | None => Ok None
    | Some ns => match requested_name_spaces (m_doc_type mdoc) requested_attributes ns with [] => Panic | l => Ok (Some l) end
    end in
  let issuer_signed := {| name_spaces := name_spaces; issuer_auth := issuer_auth (m_issuer_signed mdoc) |} in
  let* cert := map_err MCose (signing_cert (issuer_auth issuer_signed)) in
  Ok {|
    source_identifier := sm_id stored_mdoc;
    pd_private_key_id := private_key_id mdoc;
    pd_doc_type := m_doc_type mdoc;
    pd_issuer_signed := issuer_signed;
    device_signed_challenge := challenge;
    issuer_certificate := cert
  |}.

(** [ProposedDocument::candidates_and_missing_attributes_from_stored_mdocs] *)
Definition missing_from (requested_attributes : list AttributeIdentifier) (s : StoredMdoc I) : list AttributeIdentifier :=
  filter (λ attribute, attribute ∉ Mdoc_attribute_identifiers (sm_mdoc s)) requested_attributes.
Definition candidates_and_missing_attributes (stored_mdocs : list (StoredMdoc I)) (requested_attributes : list AttributeIdentifier)
    (challenge : string) : outcome MdocError (list (ProposedDocument I) * list (list AttributeIdentifier)) :=
  let satisfying := filter (λ s, missing_from requested_attributes s = []) stored_mdocs in
  let all_missing := filter (λ m, m ≠ []) (missing_from requested_attributes <$> stored_mdocs) in
  let* proposed := try_map (λ s, try_from_stored_mdoc s requested_attributes challenge) satisfying in
  Ok (proposed, all_missing).

(** [ProposedDocument::proposed_attributes] *)
Definition proposed_attributes (d : ProposedDocument I) : ProposedDocumentAttributes := {|
  pa_issuer := issuer_certificate d;
  pa_attributes := match name_spaces (pd_issuer_signed d) with
                   | Some ns => im_collect ((λ p : NameSpace * Attributes, (p.1, entry_of_item <$> p.2)) <$> ns)
                   | None => []
                   end
|}.

(** ** Matching a request *)

(** The requested attributes by document type: a [HashMap] of [IndexSet]s. *)
Definition add_requested (m : gmap DocType (list AttributeIdentifier)) (a : AttributeIdentifier)
    : gmap DocType (list AttributeIdentifier) :=
  let l := default [] (m !! ai_doc_type a) in
  <[ai_doc_type a := if decide (a ∈ l) then l else l ++ [a]]> m.
Definition requested_by_doc_type (l : list AttributeIdentifier) : gmap DocType (list AttributeIdentifier) :=
  foldl add_requested ∅ l.

(** The loop over the stored mdocs; it consumes the requested attributes.  Both
    expectations about the data source panic. *)
Fixpoint match_stored (session_transcript : SessionTranscript) (stored : list (list (StoredMdoc I)))
    (requested : gmap DocType (list AttributeIdentifier))
    : outcome MdocError (list (DocType * list (ProposedDocument I)) * gmap DocType (list AttributeIdentifier) *
                         list (list AttributeIdentifier)) :=
  match stored with
  | [] => Ok ([], requested, [])
  | doc_type_stored_mdocs :: stored =>
      let* first := unwrap (head doc_type_stored_mdocs) in
      let doc_type := m_doc_type (sm_mdoc first) in
      let* requested_attributes := unwrap (requested !! doc_type) in
      let* _ := rust_assert (forallb (λ s, bool_decide (m_doc_type (sm_mdoc s) = doc_type)) doc_type_stored_mdocs) in
      let* challenge := map_err MCbor (device_authentication_bytes doc_type session_transcript) in
      let* cm := candidates_and_missing_attributes doc_type_stored_mdocs requested_attributes challenge in
      let* rest := match_stored session_transcript stored (delete doc_type requested) in
      let '(candidates, remaining, missing) := rest in
      Ok ((doc_type, cm.1) :: candidates, remaining, option_list (head cm.2) ++ missing)
  end.

(** The attributes of the types that were not seen, in the order of the request. *)
Definition remaining_attributes (items_requests : list ItemsRequest) (remaining : gmap DocType (list AttributeIdentifier))
    : list AttributeIdentifier :=
  mjoin ((λ dt, default [] (remaining !! dt)) <$> IndexSet_collect (req_doc_type <$> items_requests)).

(** [DisclosureRequestMatch::new] *)
Definition DisclosureRequestMatch_new (items_requests : list ItemsRequest) (mdoc_data_source : MdocDataSource I)
    (session_transcript : SessionTranscript) : outcome DisclosureMatchError (DisclosureRequestMatch I) :=
  let doc_types : gset DocType := list_to_set (req_doc_type <$> items_requests) in
  let* stored_mdocs := ok_or (DHolder HMdocDataSource) (mdoc_data_source doc_types) in
  let requested := requested_by_doc_type (attribute_identifiers items_requests) in
  let stored_mdocs := filter (λ l, l ≠ []) stored_mdocs in
  let* matched := map_err DMdoc (match_stored session_transcript stored_mdocs requested) in
  let '(candidates, remaining, all_missing_attributes) := matched in
  let candidates_by_doc_type := im_collect candidates in
  if existsb (λ c : DocType * list (ProposedDocument I), bool_decide (c.2 = [])) candidates_by_doc_type
     || negb (bool_decide (remaining = ∅))
  then Ok (MatchMissingAttributes (mjoin all_missing_attributes ++ remaining_attributes items_requests remaining))
  else Ok (Candidates candidates_by_doc_type).

(** ** Signing *)

(** [IssuerSigned::public_key] *)
Definition IssuerSigned_public_key (s : IssuerSigned) : outcome MdocError VerifyingKey :=
  let* mso := map_err MCose (dangerous_parse_unverified (T:=TaggedBytes MobileSecurityObject) (issuer_auth s)) in
  map_err MCrypto (verifying_key_from_cose_key (device_key (device_key_info (untag mso)))).

Context `{!KeyFactory}.

(** [DeviceSigned::new_signatures] *)
Definition DeviceSigned_new_signatures (keys_and_challenges : list (SigningKey * string)) : outcome MdocError (list DeviceSigned) :=
  let* coses := map_err MCose
    (sign_coses sign_multiple_with_existing_keys keys_and_challenges (mkCoseHeader None []) false) in
  Ok ((λ cose, {| ds_name_spaces := []; device_auth := DeviceSignature cose |}) <$> coses).

(** [ProposedDocument::sign_multiple] *)
Definition proposed_sign_multiple (proposed_documents : list (ProposedDocument I)) : outcome MdocError (list Document) :=
  let* keys_and_challenges := try_map (λ doc : ProposedDocument I,
    let* public_key := IssuerSigned_public_key (pd_issuer_signed doc) in
    Ok (generate_existing (pd_private_key_id doc) public_key, device_signed_challenge doc)) proposed_documents in
  let* device_signed := DeviceSigned_new_signatures keys_and_challenges in
  Ok (zip_with (λ (d : ProposedDocument I) s,
    {| doc_type := pd_doc_type d; issuer_signed := pd_issuer_signed d; device_signed := s; doc_errors := None |})
    proposed_documents device_signed).

(** [DeviceResponse::from_proposed_documents] *)
Definition from_proposed_documents (proposed_documents : list (ProposedDocument I)) : outcome MdocError DeviceResponse :=
  let* documents := proposed_sign_multiple proposed_documents in
  Ok {| documents := Some documents; document_errors := None; status := 0 |}.
End Proposals.
