(* ===== verification/HolderFacts.v ===== *)
(** * Correctness of matching a request against the wallet

    What a proposal is made of, when a request can be satisfied, and that what is
    signed from a proposal verifies. *)
From stdpp Require Import base gmap strings list option sets fin_maps.
From Stdlib Require Import ZArith Lia.
From S2P Require Import Prelude IndexMap Crypto Cbor Cose Engagement Mdoc MdocSigning MdocFacts DisclosureFacts Holder.

(** ** Requested attributes by document type *)
Lemma is_collect_NoDup {A} `{!EqDecision A} (l seen : list A) : NoDup (is_collect seen l).
Proof.
  revert seen. induction l as [|a l IH]; intros seen; simpl; [constructor|]. case_decide; [apply IH|].
  constructor; [|apply IH]. rewrite is_collect_elem. set_solver.
Qed.
Lemma IndexSet_NoDup {A} `{!EqDecision A} (l : list A) : NoDup (IndexSet_collect l).
Proof. apply is_collect_NoDup. Qed.

(** What a request asks of the documents of one type. *)
Definition requested_of (requests : list ItemsRequest) (dt : DocType) : list AttributeIdentifier :=
  filter (λ a, ai_doc_type a = dt) (attribute_identifiers requests).

Lemma requests_identifiers (requests : list ItemsRequest) a :
  a ∈ attribute_identifiers requests ↔ ∃ r, r ∈ requests ∧ a ∈ attribute_identifiers r.
Proof.
  unfold attribute_identifiers at 1, items_requests_holder. rewrite IndexSet_elem, list_elem_of_join. split.
  - intros (l & Ha & Hl). apply list_elem_of_fmap in Hl as (r & -> & Hr). eauto.
  - intros (r & Hr & Ha). exists (attribute_identifiers r). split; [done|]. apply list_elem_of_fmap. eauto.
Qed.

Lemma request_identifier_type (r : ItemsRequest) a : a ∈ attribute_identifiers r → ai_doc_type a = req_doc_type r.
Proof.
  unfold attribute_identifiers, items_request_holder. rewrite IndexSet_elem, list_elem_of_join. intros (l & Ha & Hl).
  apply list_elem_of_fmap in Hl as (p & -> & _). by apply list_elem_of_fmap in Ha as (q & -> & _).
Qed.

Lemma requested_of_elem requests dt a :
  a ∈ requested_of requests dt ↔ ∃ r, r ∈ requests ∧ req_doc_type r = dt ∧ a ∈ attribute_identifiers r.
Proof.
  unfold requested_of. rewrite list_elem_of_filter, requests_identifiers. split.
  - intros (<- & r & Hr & Ha). exists r. split_and!; [done| |done]. symmetry. by apply request_identifier_type.
  - intros (r & Hr & <- & Ha). split; [by apply request_identifier_type|eauto].
Qed.

Lemma requested_by_doc_type_lookup l dt : NoDup l →
  requested_by_doc_type l !! dt = match filter (λ a, ai_doc_type a = dt) l with [] => None | f => Some f end.
Proof.
  unfold requested_by_doc_type. induction l as [|a l IH] using rev_ind; intros Hd; [done|].
  rewrite NoDup_app in Hd. destruct Hd as (Hd & Hn & _). specialize (IH Hd).
  rewrite foldl_snoc. unfold add_requested at 1. rewrite filter_app.
  destruct (decide (ai_doc_type a = dt)) as [<-|Hne].
  - rewrite lookup_insert_eq, IH, filter_cons_True, filter_nil by done.
    destruct (filter _ l) as [|b f] eqn:F; simpl; [done|]. rewrite decide_False; [done|]. intros Ha.
    assert (a ∈ filter (λ b, ai_doc_type b = ai_doc_type a) l) as [_ Hl]%list_elem_of_filter by (by rewrite F).
    apply (Hn a Hl). left.
  - rewrite lookup_insert_ne by done. rewrite IH, filter_cons_False, filter_nil, app_nil_r by done. done.
Qed.

Lemma requested_lookup (requests : list ItemsRequest) dt : requested_by_doc_type (attribute_identifiers requests) !! dt =
  match requested_of requests dt with [] => None | f => Some f end.
Proof. apply requested_by_doc_type_lookup, IndexSet_NoDup. Qed.

(** ** Proposals *)
Section Proposals.
Context {I : Type}.
Context `{!Ecdsa, !Coset, !Ciborium, !Sha256, !X509Lib, !Chrono, !UrlLib, !MacLib}.
Implicit Types s : StoredMdoc I.

Definition stored_type s : DocType := m_doc_type (sm_mdoc s).
Definition stored_identifiers s : list AttributeIdentifier := Mdoc_attribute_identifiers (sm_mdoc s).
(** The maps of a stored mdoc are maps, and it has the certificate of its issuer. *)
Definition stored_ok s : Prop :=
  name_spaces_wf (m_issuer_signed (sm_mdoc s)) ∧ is_ok (Mdoc_issuer_certificate (sm_mdoc s)) = true.

Lemma requested_name_spaces_elem dt req nss n items : (n, items) ∈ requested_name_spaces dt req nss →
  ∃ all, (n, all) ∈ nss ∧ items ≠ [] ∧
    items = filter (λ i : IssuerSignedItemBytes, mkAttributeIdentifier dt n (element_identifier (untag i)) ∈ req) all.
Proof.
  unfold requested_name_spaces. intros Hin%im_collect_elem. apply list_elem_of_omap in Hin as ([n' all] & Hall & Hf).
  simpl in Hf. destruct (filter _ all) as [|i l] eqn:F; [done|]. injection Hf as <- <-. exists all. by rewrite F.
Qed.

Lemma requested_name_spaces_keys dt req nss n : n ∈ (requested_name_spaces dt req nss).*1 → n ∈ nss.*1.
Proof.
  intros ([n' items] & -> & Hin)%list_elem_of_fmap. apply requested_name_spaces_elem in Hin as (all & Hall & _).
  apply list_elem_of_fmap. by exists (n', all).
Qed.

Lemma requested_name_spaces_found dt req nss n all item : NoDup nss.*1 → (n, all) ∈ nss → item ∈ all →
  mkAttributeIdentifier dt n (element_identifier (untag item)) ∈ req →
  ∃ items, (n, items) ∈ requested_name_spaces dt req nss ∧ item ∈ items.
Proof.
  intros Hd Hall Hitem Hreq. unfold requested_name_spaces. rewrite im_collect_id.
  - exists (filter (λ i : IssuerSignedItemBytes, mkAttributeIdentifier dt n (element_identifier (untag i)) ∈ req) all).
    assert (item ∈ filter (λ i : IssuerSignedItemBytes, mkAttributeIdentifier dt n (element_identifier (untag i)) ∈ req) all)
      as Hf by (by apply list_elem_of_filter). split; [|done].
    rewrite list_elem_of_omap. exists (n, all). split; [done|]. simpl.
    destruct (filter _ all) as [|i l]; [by apply elem_of_nil in Hf|]. reflexivity.
  - clear Hall Hitem. induction nss as [|[k v] nss IH]; csimpl in *; [constructor|]. apply NoDup_cons in Hd as [Hk Hd].
    destruct (filter _ v); simpl; [by apply IH|]. constructor; [|by apply IH]. intros Hin. apply Hk.
    apply list_elem_of_fmap in Hin as ([k' v'] & -> & Hin). apply list_elem_of_omap in Hin as ([k'' v''] & Hin & Hf).
    simpl in Hf. destruct (filter _ v''); [done|]. injection Hf as <- <-. apply list_elem_of_fmap. by exists (k'', v'').
Qed.

(** What a proposed document is made of. *)
Record proposed_from (req : list AttributeIdentifier) (challenge : string) s (pd : ProposedDocument I) : Prop := {
  pf_id : source_identifier pd = sm_id s;
  pf_key : pd_private_key_id pd = private_key_id (sm_mdoc s);
  pf_type : pd_doc_type pd = stored_type s;
  pf_challenge : device_signed_challenge pd = challenge;
  pf_auth : issuer_auth (pd_issuer_signed pd) = issuer_auth (m_issuer_signed (sm_mdoc s));
  pf_certificate : Mdoc_issuer_certificate (sm_mdoc s) = Ok (issuer_certificate pd);
  pf_name_spaces : name_spaces (pd_issuer_signed pd) =
    requested_name_spaces (stored_type s) req <$> name_spaces (m_issuer_signed (sm_mdoc s))
}.

Lemma try_from_stored_mdoc_Ok s req challenge pd :
  try_from_stored_mdoc s req challenge = Ok pd → proposed_from req challenge s pd.
Proof.
  unfold try_from_stored_mdoc. intros Ht. apply bind_Ok in Ht as (ns & Hns & Ht).
  apply bind_Ok in Ht as (cert & Hc & [= <-]). apply map_err_Ok in Hc. split; try done. simpl.
  destruct (name_spaces (m_issuer_signed (sm_mdoc s))) as [nss|]; [|by injection Hns as <-]. simpl. unfold stored_type.
  destruct (requested_name_spaces _ _ nss) as [|x l]; [done|by injection Hns as <-].
Qed.

Lemma stored_identifier_elem s a : a ∈ stored_identifiers s ↔
  ∃ nss all item, name_spaces (m_issuer_signed (sm_mdoc s)) = Some nss ∧ (ai_namespace a, all) ∈ nss ∧ item ∈ all ∧
    a = mkAttributeIdentifier (stored_type s) (ai_namespace a) (element_identifier (untag item)).
Proof.
  unfold stored_identifiers, Mdoc_attribute_identifiers, issuer_signed_attribute_identifiers.
  destruct (name_spaces (m_issuer_signed (sm_mdoc s))) as [nss|]; [|rewrite elem_of_nil; naive_solver].
  rewrite IndexSet_elem, list_elem_of_join. split.
  - intros (l & Ha & Hl). apply list_elem_of_fmap in Hl as ([n all] & -> & Hn).
    apply list_elem_of_fmap in Ha as (item & -> & Hi). by exists nss, all, item.
  - intros (nss' & all & item & [= <-] & Hn & Hi & Ha). eexists. split; [|apply list_elem_of_fmap; eexists; split; [reflexivity|exact Hn]].
    apply list_elem_of_fmap. by exists item.
Qed.

(** An mdoc that has all of the requested attributes, of which there is at least
    one, can be proposed. *)
Lemma try_from_stored_mdoc_total s req challenge : stored_ok s → req ≠ [] → req ⊆ stored_identifiers s →
  ∃ pd, try_from_stored_mdoc s req challenge = Ok pd.
Proof.
  intros [Hwf Hcert] Hne Hsub. unfold try_from_stored_mdoc. destruct req as [|a req]; [done|].
  assert (a ∈ stored_identifiers s) as Ha by (apply Hsub; left).
  apply stored_identifier_elem in Ha as (nss & all & item & Hns & Hn & Hi & Ha).
  unfold name_spaces_wf in Hwf. rewrite Hns in Hwf |- *. simpl in Hwf.
  destruct (requested_name_spaces_found (stored_type s) (a :: req) nss (ai_namespace a) all item) as (items & Hitems & _);
    [done..|rewrite <-Ha; left|].
  unfold stored_type in Hitems. destruct (requested_name_spaces _ _ nss) as [|x l]; [by apply elem_of_nil in Hitems|]. simpl.
  unfold Mdoc_issuer_certificate in Hcert. destruct (signing_cert _); simpl in *; [eauto|done..].
Qed.

Lemma missing_from_nil req s : missing_from req s = [] ↔ req ⊆ stored_identifiers s.
Proof.
  unfold missing_from. split.
  - intros Hf a Ha. destruct (decide (a ∈ stored_identifiers s)) as [|Hn]; [done|].
    assert (a ∈ filter (λ attribute, attribute ∉ Mdoc_attribute_identifiers (sm_mdoc s)) req) as Hin
      by (by apply list_elem_of_filter). rewrite Hf in Hin. by apply elem_of_nil in Hin.
  - intros Hs. destruct (filter _ req) as [|a l] eqn:F; [done|].
    assert (a ∈ filter (λ attribute, attribute ∉ Mdoc_attribute_identifiers (sm_mdoc s)) req) as Hin by (rewrite F; left).
    apply list_elem_of_filter in Hin as [Hn Hin]. by destruct Hn; apply Hs.
Qed.

#[global] Instance satisfying_dec req s : Decision (req ⊆ stored_identifiers s).
Proof.
  destruct (decide (Forall (λ a, a ∈ stored_identifiers s) req)) as [Hf|Hf].
  - left. by rewrite Forall_forall in Hf.
  - right. intros Hs. apply Hf. by apply Forall_forall.
Defined.

Lemma filter_satisfying req (l : list (StoredMdoc I)) :
  filter (λ s, missing_from req s = []) l = filter (λ s, req ⊆ stored_identifiers s) l.
Proof. apply list_filter_iff. intros s. apply missing_from_nil. Qed.

Lemma candidates_Ok l req challenge pds missing :
  candidates_and_missing_attributes l req challenge = Ok (pds, missing) →
  Forall2 (proposed_from req challenge) (filter (λ s, req ⊆ stored_identifiers s) l) pds ∧
  missing = filter (λ m, m ≠ []) (missing_from req <$> l).
Proof.
  unfold candidates_and_missing_attributes. rewrite filter_satisfying. intros Hc.
  apply bind_Ok in Hc as (p & Hp & [= <- <-]). split; [|done]. apply try_map_Ok in Hp.
  eapply Forall2_impl; [exact Hp|]. intros s pd. apply try_from_stored_mdoc_Ok.
Qed.

Lemma candidates_total l req challenge : Forall stored_ok l → req ≠ [] →
  ∃ pds, candidates_and_missing_attributes l req challenge = Ok (pds, filter (λ m, m ≠ []) (missing_from req <$> l)).
Proof.
  intros Hl Hr. unfold candidates_and_missing_attributes. rewrite filter_satisfying.
  assert (∃ pds, try_map (λ s, try_from_stored_mdoc s req challenge) (filter (λ s, req ⊆ stored_identifiers s) l) = Ok pds)
    as [pds ->]; [|by exists pds].
  assert (∀ k : list (StoredMdoc I), Forall (λ s, stored_ok s ∧ req ⊆ stored_identifiers s) k →
    ∃ pds, try_map (λ s, try_from_stored_mdoc s req challenge) k = Ok pds) as Htot.
  { induction 1 as [|s k [Hs Hsub] _ [pds IH]]; [by exists []|]. simpl.
    destruct (try_from_stored_mdoc_total s req challenge Hs Hr Hsub) as [pd ->]. simpl. rewrite IH. simpl. eauto. }
  apply Htot, Forall_forall. intros s [Hsub Hin]%list_elem_of_filter. rewrite Forall_forall in Hl. auto.
Qed.
End Proposals.

(** ** Matching *)
Lemma try_map_panics {E A B} (f : A → outcome E B) l :
  (∀ a, a ∈ l → f a = Panic ∨ ∃ b, f a = Ok b) → (∃ a, a ∈ l ∧ f a = Panic) → try_map f l = Panic.
Proof.
  induction l as [|a l IH]; intros Hall (b & Hb & Hp); [by apply elem_of_nil in Hb|]. simpl.
  destruct (Hall a ltac:(left)) as [->|[x Ha]]; [done|]. rewrite Ha. simpl. rewrite IH; [done|set_solver|].
  exists b. split; [|done]. apply elem_of_cons in Hb as [->|Hb]; [congruence|done].
Qed.
Section Matching.
Context {I : Type}.
Context `{!Ecdsa, !Coset, !Ciborium, !Sha256, !X509Lib, !Chrono, !UrlLib, !MacLib}.
Implicit Types s : StoredMdoc I.
Implicit Types g : list (StoredMdoc I).

(** The contract of a data source: groups of mdocs of one type each, of different
    types, all of them asked for. *)
Definition group_type g : option DocType := stored_type <$> head g.
Definition groups_ok (types : gset DocType) (groups : list (list (StoredMdoc I))) : Prop :=
  NoDup (base.omap group_type groups) ∧
  Forall (λ g, Forall (λ s, stored_type s ∈ types ∧ group_type g = Some (stored_type s)) g) groups.

(** What the loop does for one group. *)
Definition match_group (t : SessionTranscript) (requested : gmap DocType (list AttributeIdentifier)) g
    : outcome MdocError ((DocType * list (ProposedDocument I)) * option (list AttributeIdentifier)) :=
  let* first := unwrap (head g) in
  let dt := stored_type first in
  let* attrs := unwrap (requested !! dt) in
  let* _ := rust_assert (forallb (λ s, bool_decide (stored_type s = dt)) g) in
  let* challenge := map_err MCbor (device_authentication_bytes dt t) in
  let* cm := candidates_and_missing_attributes g attrs challenge in
  Ok ((dt, cm.1), head cm.2).

Lemma match_group_delete t requested g dt : group_type g ≠ Some dt →
  match_group t (delete dt requested) g = match_group t requested g.
Proof.
  unfold match_group, group_type. destruct (head g) as [first|]; [|done]. simpl. intros Hne.
  rewrite lookup_delete_ne; [done|congruence].
Qed.

(** Consuming the requested attributes makes no difference when the types are
    distinct: the loop is an iteration over the groups. *)
Lemma match_stored_groups t groups requested : NoDup (base.omap group_type groups) →
  match_stored t groups requested =
    let* l := try_map (match_group t requested) groups in
    Ok (l.*1, foldl (λ m dt, delete dt m) requested (base.omap group_type groups), base.omap id l.*2).
Proof.
  revert requested. induction groups as [|g groups IH]; intros requested Hd; [done|].
  simpl match_stored. simpl try_map. unfold match_group at 1. simpl in Hd. cbn [base.omap list_omap].
  destruct (head g) as [first|] eqn:Hh; simpl; [|done].
  assert (group_type g = Some (stored_type first)) as Hgt by (unfold group_type; by rewrite Hh).
  rewrite Hgt in Hd |- *. apply NoDup_cons in Hd as [Hn Hd].
  fold (stored_type first). destruct (requested !! stored_type first) as [attrs|]; simpl; [|done].
  destruct (forallb _ g); simpl; [|done].
  destruct (device_authentication_bytes _ t) as [ch|e|]; simpl; [|done..].
  destruct (candidates_and_missing_attributes g attrs ch) as [[c m]|e|]; simpl; [|done..].
  rewrite IH by done.
  assert (try_map (match_group t (delete (stored_type first) requested)) groups = try_map (match_group t requested) groups) as ->.
  { clear -Hn. induction groups as [|g' groups IH]; [done|]. simpl. rewrite match_group_delete.
    - rewrite IH; [done|]. intros Hin. apply Hn. cbn [base.omap list_omap]. destruct (group_type g'); [by right|done].
    - intros Heq. apply Hn. cbn [base.omap list_omap]. rewrite Heq. left. }
  destruct (try_map _ groups) as [l|e|]; simpl; [|done..]. do 2 f_equal. by destruct (head m).
Qed.

Lemma match_group_Ok t requested g dt pds m : match_group t requested g = Ok ((dt, pds), m) →
  ∃ attrs ch, group_type g = Some dt ∧ requested !! dt = Some attrs ∧ Forall (λ s, stored_type s = dt) g ∧
    device_authentication_bytes dt t = Ok ch ∧
    Forall2 (proposed_from attrs ch) (filter (λ s, attrs ⊆ stored_identifiers s) g) pds ∧
    m = head (filter (λ m, m ≠ []) (missing_from attrs <$> g)).
Proof.
  unfold match_group, group_type. destruct (head g) as [first|]; simpl; [|done]. intros Hm.
  apply bind_Ok in Hm as (attrs & Ha & Hm). apply unwrap_Ok in Ha.
  apply bind_Ok in Hm as ([] & Hall & Hm). apply rust_assert_Ok in Hall.
  apply bind_Ok in Hm as (ch & Hch & Hm). apply map_err_Ok in Hch.
  apply bind_Ok in Hm as ([c mm] & Hc & [= <- <- <-]). apply candidates_Ok in Hc as [Hf ->].
  exists attrs, ch. split_and!; try done. apply Forall_forall. intros s Hs. rewrite forallb_forall in Hall.
  specialize (Hall s). rewrite <-list_elem_of_In in Hall. specialize (Hall Hs). by zbool.
Qed.

Lemma match_group_total t requested (types : gset DocType) g attrs dt :
  group_type g = Some dt → requested !! dt = Some attrs → attrs ≠ [] →
  Forall (λ s, stored_type s ∈ types ∧ group_type g = Some (stored_type s)) g → Forall stored_ok g →
  is_ok (device_authentication_bytes dt t) = true →
  ∃ pds m, match_group t requested g = Ok ((dt, pds), m).
Proof.
  unfold match_group, group_type. intros Ht Ha Hne Hg Hok Hch. destruct (head g) as [first|]; simpl in *; [|done].
  injection Ht as <-. rewrite Ha. simpl.
  assert (forallb (λ s, bool_decide (stored_type s = stored_type first)) g = true) as ->.
  { apply forallb_forall. intros s Hs%list_elem_of_In. rewrite Forall_forall in Hg.
    destruct (Hg s Hs) as [_ [= ->]]. by apply bool_decide_eq_true. }
  simpl. destruct (device_authentication_bytes _ t) as [ch| |]; simpl; [|done..].
  destruct (candidates_total g attrs ch Hok Hne) as [pds ->]. simpl. eauto.
Qed.

(** A data source that repeats a type makes the loop panic, so a result means that
    the types are distinct. *)
Lemma match_stored_types t groups requested r : match_stored t groups requested = Ok r →
  NoDup (base.omap group_type groups) ∧ ∀ dt, dt ∈ base.omap group_type groups → is_Some (requested !! dt).
Proof.
  revert requested r. induction groups as [|g groups IH]; intros requested r; cbn [base.omap list_omap].
  { intros _. split; [constructor|]. intros dt Hin. by apply elem_of_nil in Hin. }
  simpl. destruct (head g) as [first|] eqn:Hh; simpl; [|done]. intros Hm.
  assert (group_type g = Some (stored_type first)) as -> by (unfold group_type; by rewrite Hh).
  apply bind_Ok in Hm as (attrs & Ha & Hm). apply unwrap_Ok in Ha.
  apply bind_Ok in Hm as ([] & _ & Hm). apply bind_Ok in Hm as (ch & _ & Hm). apply bind_Ok in Hm as (cm & _ & Hm).
  apply bind_Ok in Hm as (rest & Hr & _). apply IH in Hr as [Hd Hs]. split.
  - constructor; [|done]. intros Hin. destruct (Hs _ Hin) as [x Hx]. by rewrite lookup_delete_eq in Hx.
  - intros dt [->|Hin]%elem_of_cons; [by exists attrs|]. destruct (Hs _ Hin) as [x Hx].
    apply lookup_delete_Some in Hx as [_ Hx]. by exists x.
Qed.

Lemma group_types_nonempty (groups : list (list (StoredMdoc I))) : base.omap group_type (filter (λ g, g ≠ []) groups) = base.omap group_type groups.
Proof.
  induction groups as [|g groups IH]; [done|]. destruct g as [|s g]; [by rewrite filter_cons_False by (intros Hn; by apply Hn)|].
  rewrite filter_cons_True by done. cbn [base.omap list_omap]. simpl. f_equal. exact IH.
Qed.

Lemma foldl_delete_lookup {V} (m : gmap string V) ks k :
  foldl (λ m dt, delete dt m) m ks !! k = if decide (k ∈ ks) then None else m !! k.
Proof.
  revert m. induction ks as [|k' ks IH]; intros m; [done|]. simpl. rewrite IH.
  repeat case_decide; try set_solver; [|by rewrite lookup_delete_ne by set_solver].
  destruct (decide (k = k')) as [->|]; [by rewrite lookup_delete_eq|set_solver].
Qed.

Definition requested_types (requests : list ItemsRequest) : gset DocType := list_to_set (req_doc_type <$> requests).
(** Some stored mdoc has all that is requested of its type. *)
Definition satisfied (requests : list ItemsRequest) (stored : list (StoredMdoc I)) (dt : DocType) : Prop :=
  ∃ s, s ∈ stored ∧ stored_type s = dt ∧ requested_of requests dt ⊆ stored_identifiers s.

(** The outcome of matching, over the groups. *)
Lemma request_match_Ok requests (ds : MdocDataSource I) t r :
  DisclosureRequestMatch_new requests ds t = Ok r →
  ∃ groups l, ds (requested_types requests) = Some groups ∧
    let groups := filter (λ g, g ≠ []) groups in
    let requested := requested_by_doc_type (attribute_identifiers requests) in
    let remaining := foldl (λ m dt, delete dt m) requested (base.omap group_type groups) in
    NoDup (base.omap group_type groups) ∧ (∀ dt, dt ∈ base.omap group_type groups → requested_of requests dt ≠ []) ∧
    Forall2 (λ g x, match_group t requested g = Ok x) groups l ∧
    r = if existsb (λ c : DocType * list (ProposedDocument I), bool_decide (c.2 = [])) l.*1 || negb (bool_decide (remaining = ∅))
        then MatchMissingAttributes (mjoin (base.omap id l.*2) ++ remaining_attributes requests remaining)
        else Candidates l.*1.
Proof.
  unfold DisclosureRequestMatch_new. intros Hr. apply bind_Ok in Hr as (groups & Hds & Hr). apply ok_or_Ok in Hds.
  apply bind_Ok in Hr as ([[cands remaining] missing] & Hm & Hr). apply map_err_Ok in Hm.
  pose proof (match_stored_types _ _ _ _ Hm) as [Hd Hsome]. rewrite match_stored_groups in Hm by done.
  apply bind_Ok in Hm as (l & Hl & [= <- <- <-]). apply try_map_Ok in Hl.
  exists groups, l. split; [done|]. simpl. split_and!; try done.
  - intros dt Hdt. destruct (Hsome dt Hdt) as [x Hx]. rewrite requested_lookup in Hx. by destruct (requested_of requests dt).
  - assert (l.*1.*1 = base.omap group_type (filter (λ g, g ≠ []) groups)) as Hk.
    { clear -Hl. induction Hl as [|g [[dt pds] m] gs l Hg _ IH]; [done|]. cbn [base.omap list_omap].
      apply match_group_Ok in Hg as (attrs & ch & -> & _). csimpl. by f_equal. }
    rewrite im_collect_id in Hr by (by rewrite Hk). destruct (_ || _); by injection Hr as <-.
Qed.

(** The mdocs of one type among all groups are those of its group. *)
Lemma filter_group (P : StoredMdoc I → Prop) `{!∀ s, Decision (P s)} (groups : list (list (StoredMdoc I))) g dt :
  NoDup (base.omap group_type groups) → Forall (λ g, ∃ dt, group_type g = Some dt ∧ Forall (λ s, stored_type s = dt) g) groups →
  g ∈ groups → group_type g = Some dt →
  filter (λ s, stored_type s = dt ∧ P s) (mjoin groups) = filter P g.
Proof.
  assert (∀ k dt', Forall (λ s, stored_type s = dt') k →
    filter (λ s, stored_type s = dt ∧ P s) k = if decide (dt' = dt) then filter P k else []) as Hf.
  { induction 1 as [|s k Hs _ IH]; [by case_decide|]. destruct (decide (dt' = dt)) as [<-|Hne].
    - destruct (decide (P s)); [rewrite !filter_cons_True by done|rewrite !filter_cons_False by naive_solver]; by rewrite IH.
    - rewrite filter_cons_False by naive_solver. done. }
  assert (∀ groups', Forall (λ g, ∃ dt, group_type g = Some dt ∧ Forall (λ s, stored_type s = dt) g) groups' →
    dt ∉ base.omap group_type groups' → filter (λ s, stored_type s = dt ∧ P s) (mjoin groups') = []) as Hnone.
  { induction 1 as [|g' gs (dt' & Hg & Hu) _ IH]; [done|]. cbn [base.omap list_omap]. rewrite Hg. intros Hn.
    csimpl. rewrite filter_app, (Hf g' dt' Hu), IH by set_solver. rewrite decide_False by set_solver. done. }
  intros Hd Hu Hin Hg. induction Hu as [|g' gs (dt' & Hg' & Hu') Hu IH]; [by apply elem_of_nil in Hin|].
  cbn [base.omap list_omap] in Hd. rewrite Hg' in Hd. apply NoDup_cons in Hd as [Hn Hd]. csimpl.
  rewrite filter_app, (Hf g' dt' Hu'). apply elem_of_cons in Hin as [->|Hin].
  - rewrite Hg in Hg'. injection Hg' as <-. rewrite decide_True by done. rewrite Hnone by done. apply app_nil_r.
  - rewrite decide_False; [by apply IH|]. intros ->. apply Hn. apply list_elem_of_omap. by exists g.
Qed.

Lemma join_nonempty (groups : list (list (StoredMdoc I))) : mjoin (filter (λ g, g ≠ []) groups) = mjoin groups.
Proof.
  induction groups as [|[|s g] groups IH]; [done| |].
  - rewrite filter_cons_False by (intros Hn; by apply Hn). done.
  - rewrite filter_cons_True by done. csimpl. by rewrite IH.
Qed.

Definition satisfying (requests : list ItemsRequest) (stored : list (StoredMdoc I)) (dt : DocType) : list (StoredMdoc I) :=
  filter (λ s, stored_type s = dt ∧ requested_of requests dt ⊆ stored_identifiers s) stored.

Lemma satisfied_iff requests stored dt : satisfied requests stored dt ↔ satisfying requests stored dt ≠ [].
Proof.
  unfold satisfied, satisfying. split.
  - intros (s & Hs & Ht & Hsub) Hnil. assert (s ∈ ([] : list (StoredMdoc I))) as Habs; [|by apply elem_of_nil in Habs].
    rewrite <-Hnil. by apply list_elem_of_filter.
  - destruct (filter _ stored) as [|s l] eqn:F; [done|]. intros _.
    assert (s ∈ s :: l) as Hs by left. rewrite <-F in Hs. apply list_elem_of_filter in Hs as [[Ht Hsub] Hs]. by exists s.
Qed.

(** Each group of a successful match, in terms of all that is stored. *)
Lemma group_matched requests t (groups : list (list (StoredMdoc I))) l g dt pds m :
  NoDup (base.omap group_type groups) →
  Forall2 (λ g x, match_group t (requested_by_doc_type (attribute_identifiers requests)) g = Ok x) groups l →
  match_group t (requested_by_doc_type (attribute_identifiers requests)) g = Ok (dt, pds, m) → g ∈ groups →
  ∃ ch, group_type g = Some dt ∧ requested_of requests dt ≠ [] ∧ device_authentication_bytes dt t = Ok ch ∧
    Forall2 (proposed_from (requested_of requests dt) ch) (satisfying requests (mjoin groups) dt) pds ∧
    m = head (filter (λ m, m ≠ []) (missing_from (requested_of requests dt) <$> g)).
Proof.
  intros Hd Hl Hg Hin. apply match_group_Ok in Hg as (attrs & ch & Hgt & Ha & Hu & Hch & Hf & Hm).
  rewrite requested_lookup in Ha. destruct (requested_of requests dt) as [|x k] eqn:R; [done|]. injection Ha as <-.
  exists ch. split_and!; try done. unfold satisfying. rewrite R, (filter_group _ groups g dt); try done.
  clear -Hl. induction Hl as [|g' [[dt' pds'] m'] gs l Hg _ IH]; constructor; [|done].
  apply match_group_Ok in Hg as (attrs & ch & Hgt & _ & Hu & _). eauto.
Qed.

Lemma remaining_empty requests (types : list DocType) :
  foldl (λ m dt, delete dt m) (requested_by_doc_type (attribute_identifiers requests)) types = ∅ ↔
  ∀ dt, requested_of requests dt ≠ [] → dt ∈ types.
Proof.
  split.
  - intros He dt Hr. destruct (decide (dt ∈ types)) as [|Hn]; [done|].
    pose proof (foldl_delete_lookup (requested_by_doc_type (attribute_identifiers requests)) types dt) as Hl.
    rewrite He, lookup_empty, decide_False, requested_lookup in Hl by done. by destruct (requested_of requests dt).
  - intros Hall. apply map_eq. intros dt. rewrite foldl_delete_lookup, lookup_empty, requested_lookup.
    case_decide as Hn; [done|]. destruct (requested_of requests dt) eqn:R; [done|]. by destruct Hn; apply Hall; rewrite R.
Qed.

Lemma candidates_spec requests (ds : MdocDataSource I) t c :
  DisclosureRequestMatch_new requests ds t = Ok (Candidates c) →
  ∃ groups, ds (requested_types requests) = Some groups ∧ NoDup c.*1 ∧
    (∀ dt, dt ∈ c.*1 ↔ requested_of requests dt ≠ []) ∧
    ∀ dt pds, (dt, pds) ∈ c → pds ≠ [] ∧ ∃ ch, device_authentication_bytes dt t = Ok ch ∧
      Forall2 (proposed_from (requested_of requests dt) ch) (satisfying requests (mjoin groups) dt) pds.
Proof.
  intros Hr. apply request_match_Ok in Hr as (groups & l & Hds & Hd & Hne & Hl & Hr). exists groups. split; [done|].
  destruct (_ || _) eqn:E; [done|]. injection Hr as ->. apply orb_false_iff in E as [E1 E2]. zbool.
  rewrite remaining_empty in E2.
  assert (l.*1.*1 = base.omap group_type (filter (λ g, g ≠ []) groups)) as Hk.
  { clear -Hl. induction Hl as [|g [[dt pds] m] gs l Hg _ IH]; [done|]. cbn [base.omap list_omap].
    apply match_group_Ok in Hg as (attrs & ch & -> & _). csimpl. by f_equal. }
  rewrite Hk. split_and!; [done|naive_solver|]. intros dt pds Hin.
  apply list_elem_of_fmap in Hin as ([[dt' pds'] m] & [= <- <-] & Hin). split.
  - intros ->. assert (existsb (λ c : DocType * list (ProposedDocument I), bool_decide (c.2 = [])) l.*1 = true) as Ht; [|congruence].
    apply existsb_exists. exists (dt, []). split; [|done]. apply list_elem_of_In, list_elem_of_fmap. by exists (dt, [], m).
  - pose proof (proj2 (Forall2_flip _ _ _) Hl) as Hl'. destruct (Forall2_elem_l _ _ _ _ Hl' Hin) as (g & Hg & Hmg).
    destruct (group_matched _ _ _ _ _ _ _ _ Hd Hl Hmg Hg) as (ch & _ & _ & Hch & Hf & _). exists ch.
    by rewrite join_nonempty in Hf.
Qed.

Lemma types_of_stored t requested (groups : list (list (StoredMdoc I))) l s :
  Forall2 (λ g x, match_group t requested g = Ok x) groups l → s ∈ mjoin groups → stored_type s ∈ base.omap group_type groups.
Proof.
  intros Hl Hs. apply list_elem_of_join in Hs as (g & Hs & Hg). destruct (Forall2_elem_l _ _ _ _ Hl Hg) as ([[dt pds] m] & _ & Hm).
  apply match_group_Ok in Hm as (attrs & ch & Hgt & _ & Hu & _). rewrite Forall_forall in Hu.
  apply list_elem_of_omap. exists g. by rewrite (Hu s Hs).
Qed.

Lemma remaining_attributes_elem requests remaining a : a ∈ remaining_attributes requests remaining →
  ∃ dt attrs, remaining !! dt = Some attrs ∧ a ∈ attrs.
Proof.
  unfold remaining_attributes. intros (k & Ha & Hk)%list_elem_of_join. apply list_elem_of_fmap in Hk as (dt & -> & _).
  destruct (remaining !! dt) as [attrs|] eqn:R; simpl in Ha; [|by apply elem_of_nil in Ha]. by exists dt, attrs.
Qed.

Lemma remaining_attributes_nonempty requests remaining dt attrs a :
  dt ∈ req_doc_type <$> requests → remaining !! dt = Some attrs → a ∈ attrs → a ∈ remaining_attributes requests remaining.
Proof.
  intros Hdt Hr Ha. unfold remaining_attributes. apply list_elem_of_join. exists attrs. split; [done|].
  apply list_elem_of_fmap. exists dt. rewrite Hr. split; [done|]. by apply IndexSet_elem.
Qed.

(** The group whose mdocs all lack something reports a non-empty list. *)
Lemma group_missing requests (g : list (StoredMdoc I)) dt : g ≠ [] → Forall (λ s, stored_type s = dt) g →
  satisfying requests g dt = [] →
  ∃ m, head (filter (λ m, m ≠ []) (missing_from (requested_of requests dt) <$> g)) = Some m ∧ m ≠ [].
Proof.
  intros Hne Hu Hsat. destruct g as [|s g]; [done|]. csimpl.
  assert (missing_from (requested_of requests dt) s ≠ []) as Hmf; [|rewrite filter_cons_True by done; by eexists].
  intros Hm. apply missing_from_nil in Hm. apply Forall_cons in Hu as [Hs _].
  assert (s ∈ satisfying requests (s :: g) dt) as Hin; [|rewrite Hsat in Hin; by apply elem_of_nil in Hin].
  apply list_elem_of_filter. split; [done|left].
Qed.

(** *** Requests that are not satisfied *)
Section Missing.
Context (requests : list ItemsRequest) (t : SessionTranscript) (gs : list (list (StoredMdoc I))).
Context (l : list (DocType * list (ProposedDocument I) * option (list AttributeIdentifier))).
Let requested := requested_by_doc_type (attribute_identifiers requests).
Let remaining := foldl (λ m dt, delete dt m) requested (base.omap group_type gs).
Hypothesis H_distinct : NoDup (base.omap group_type gs).
Hypothesis H_groups : Forall2 (λ g x, match_group t requested g = Ok x) gs l.

Lemma matched_elem dt pds m : (dt, pds, m) ∈ l →
  ∃ g, g ∈ gs ∧ Forall (λ s, stored_type s = dt) g ∧ requested_of requests dt ≠ [] ∧
    length (satisfying requests (mjoin gs) dt) = length pds ∧
    m = head (filter (λ m, m ≠ []) (missing_from (requested_of requests dt) <$> g)).
Proof.
  intros Hin. destruct (Forall2_elem_l _ _ _ _ (proj2 (Forall2_flip _ _ _) H_groups) Hin) as (g & Hg & Hmg).
  pose proof (match_group_Ok _ _ _ _ _ _ Hmg) as (_ & _ & _ & _ & Hu & _).
  destruct (group_matched _ _ _ _ _ _ _ _ H_distinct H_groups Hmg Hg) as (ch & _ & Hr & _ & Hf & Hm).
  exists g. split_and!; try done. by eapply Forall2_length.
Qed.

Lemma remaining_unseen dt attrs : remaining !! dt = Some attrs →
  attrs = requested_of requests dt ∧ requested_of requests dt ≠ [] ∧ ∀ s, s ∈ mjoin gs → stored_type s ≠ dt.
Proof.
  unfold remaining, requested. rewrite foldl_delete_lookup, requested_lookup. case_decide as Hn; [done|].
  destruct (requested_of requests dt); [done|]. intros [= <-]. split_and!; try done. intros s Hs <-. apply Hn.
  by eapply types_of_stored.
Qed.

Lemma no_candidate_elem : existsb (λ c : DocType * list (ProposedDocument I), bool_decide (c.2 = [])) l.*1 = true →
  ∃ dt m, (dt, [], m) ∈ l.
Proof.
  intros ([dt pds] & Hin%list_elem_of_In & Hp)%existsb_exists. zbool. simpl in Hp. subst pds.
  apply list_elem_of_fmap in Hin as ([[dt' pds'] m] & [= <- <-] & Hin). by exists dt, m.
Qed.

Lemma no_candidate_unsatisfied dt m : (dt, [], m) ∈ l →
  requested_of requests dt ≠ [] ∧ ¬ satisfied requests (mjoin gs) dt.
Proof.
  intros Hin. apply matched_elem in Hin as (g & _ & _ & Hr & Hlen & _). split; [done|].
  rewrite satisfied_iff. apply nil_length_inv in Hlen. rewrite Hlen. naive_solver.
Qed.

Lemma no_candidate_missing dt m : Forall (λ g, g ≠ []) gs → (dt, [], m) ∈ l → ∃ a k, m = Some (a :: k).
Proof.
  intros Hne Hin. apply matched_elem in Hin as (g & Hg & Hu & _ & Hlen & ->). apply nil_length_inv in Hlen.
  destruct (group_missing requests g dt) as ([|a k] & -> & Hmne); [| |..|by eauto]; try done.
  - rewrite Forall_forall in Hne. by apply Hne.
  - unfold satisfying in Hlen |- *. destruct (filter _ g) as [|s k] eqn:F; [done|].
    assert (s ∈ s :: k) as Hs by left. rewrite <-F in Hs. apply list_elem_of_filter in Hs as [HP Hs].
    assert (s ∈ ([] : list (StoredMdoc I))) as Habs; [|by apply elem_of_nil in Habs]. rewrite <-Hlen.
    apply list_elem_of_filter. split; [done|]. apply list_elem_of_join. by exists g.
Qed.

Lemma unseen_missing dt attrs : remaining !! dt = Some attrs → ∃ a, a ∈ remaining_attributes requests remaining.
Proof.
  intros Hx. destruct (remaining_unseen _ _ Hx) as (-> & Hr & _). destruct (requested_of requests dt) as [|a k] eqn:R; [done|].
  assert (a ∈ requested_of requests dt) as Ha by (rewrite R; left). apply requested_of_elem in Ha as (r & Hrr & Hdt & _).
  exists a. apply (remaining_attributes_nonempty _ _ dt (a :: k)); [|done|left]. apply list_elem_of_fmap. by exists r.
Qed.

Lemma missing_reported a : a ∈ mjoin (base.omap id l.*2) ++ remaining_attributes requests remaining →
  a ∈ attribute_identifiers requests ∧
  ((∃ s, s ∈ mjoin gs ∧ stored_type s = ai_doc_type a ∧ a ∉ stored_identifiers s) ∨
   ∀ s, s ∈ mjoin gs → stored_type s ≠ ai_doc_type a).
Proof.
  intros [Ha|Ha]%elem_of_app.
  - apply list_elem_of_join in Ha as (m & Ha & Hm). apply list_elem_of_omap in Hm as (o & Ho & Hom). simpl in Hom. subst o.
    apply list_elem_of_fmap in Ho as ([[dt pds] m'] & Heq & Hin). simpl in Heq. subst m'.
    apply matched_elem in Hin as (g & Hg & Hu & _ & _ & Hm).
    symmetry in Hm. apply head_Some_elem_of, list_elem_of_filter in Hm as [_ Hm]. apply list_elem_of_fmap in Hm as (s & -> & Hs).
    apply list_elem_of_filter in Ha as [Hno Ha]. apply list_elem_of_filter in Ha as [Hdt Ha]. split; [done|].
    left. exists s. rewrite Forall_forall in Hu. rewrite (Hu s Hs). split_and!; try done. apply list_elem_of_join. by exists g.
  - apply remaining_attributes_elem in Ha as (dt & attrs & Hx & Ha). destruct (remaining_unseen _ _ Hx) as (-> & _ & Hno).
    apply list_elem_of_filter in Ha as [<- Ha]. split; [done|]. by right.
Qed.
End Missing.

Lemma missing_spec requests (ds : MdocDataSource I) t missing :
  DisclosureRequestMatch_new requests ds t = Ok (MatchMissingAttributes missing) →
  ∃ groups, ds (requested_types requests) = Some groups ∧
    (∃ dt, requested_of requests dt ≠ [] ∧ ¬ satisfied requests (mjoin groups) dt) ∧ missing ≠ [] ∧
    ∀ a, a ∈ missing → a ∈ attribute_identifiers requests ∧
      ((∃ s, s ∈ mjoin groups ∧ stored_type s = ai_doc_type a ∧ a ∉ stored_identifiers s) ∨
       ∀ s, s ∈ mjoin groups → stored_type s ≠ ai_doc_type a).
Proof.
  intros Hr. apply request_match_Ok in Hr as (groups & l & Hds & Hd & _ & Hl & Hr). exists groups. split; [done|].
  rewrite <-(join_nonempty groups). destruct (_ || _) eqn:E; [|done]. injection Hr as ->.
  assert (Forall (λ g, g ≠ []) (filter (λ g, g ≠ []) groups)) as Hne by (apply Forall_forall; by intros g [? _]%list_elem_of_filter).
  split; [|split; [|by apply (missing_reported requests t)]].
  - apply orb_true_iff in E as [E|E].
    + apply no_candidate_elem in E as (dt & m & Hin). exists dt. by eapply no_candidate_unsatisfied.
    + zbool. apply map_choose in E as (dt & attrs & Hx). destruct (remaining_unseen _ _ _ _ Hl _ _ Hx) as (_ & Hr & Hno).
      exists dt. split; [done|]. intros (s & Hs & Ht & _). by apply (Hno s).
  - apply orb_true_iff in E as [E|E]; intros Hnil; apply app_eq_nil in Hnil as [Hn1 Hn2].
    + apply no_candidate_elem in E as (dt & m & Hin). destruct (no_candidate_missing _ _ _ _ Hd Hl _ _ Hne Hin) as (a & k & ->).
      assert (a ∈ mjoin (base.omap id l.*2)) as Ha; [|rewrite Hn1 in Ha; by apply elem_of_nil in Ha].
      apply list_elem_of_join. exists (a :: k). split; [left|]. apply list_elem_of_omap. exists (Some (a :: k)).
      split; [|done]. apply list_elem_of_fmap. by exists (dt, [], Some (a :: k)).
    + zbool. apply map_choose in E as (dt & attrs & Hx). destruct (unseen_missing _ _ _ _ Hl _ _ Hx) as (a & Ha).
      rewrite Hn2 in Ha. by apply elem_of_nil in Ha.
Qed.

(** *** Requests that are satisfied *)

(** Whether for each type of which something is requested there is an mdoc that
    has all of it. *)
Definition satisfiable (requests : list ItemsRequest) (stored : list (StoredMdoc I)) : bool :=
  forallb (λ r, let dt := req_doc_type r in
    bool_decide (requested_of requests dt = []) ||
    existsb (λ s, bool_decide (stored_type s = dt) && bool_decide (requested_of requests dt ⊆ stored_identifiers s)) stored) requests.

Lemma satisfiable_spec requests stored : satisfiable requests stored = true ↔
  ∀ dt, requested_of requests dt ≠ [] → satisfied requests stored dt.
Proof.
  unfold satisfiable. rewrite forallb_forall. split.
  - intros Hall dt Hr. assert (∃ r, r ∈ requests ∧ req_doc_type r = dt) as (r & Hin & <-).
    { destruct (requested_of requests dt) as [|a k] eqn:R; [done|].
      assert (a ∈ requested_of requests dt) as (r & ? & ? & _)%requested_of_elem by (rewrite R; left). eauto. }
    specialize (Hall r). rewrite <-list_elem_of_In in Hall. specialize (Hall Hin). simpl in Hall.
    rewrite bool_decide_eq_false_2 in Hall by done. simpl in Hall.
    apply existsb_exists in Hall as (s & Hs%list_elem_of_In & Hb). zbool. by exists s.
  - intros Hall r Hr. simpl. destruct (bool_decide (requested_of requests (req_doc_type r) = [])) eqn:E; [done|]. zbool.
    destruct (Hall _ E) as (s & Hs & Ht & Hsub). apply existsb_exists. exists s. split; [by apply list_elem_of_In|].
    by rewrite !bool_decide_eq_true_2.
Qed.

Section Stored.
Context (requests : list ItemsRequest) (ds : MdocDataSource I) (t : SessionTranscript) (groups : list (list (StoredMdoc I))).
Hypothesis H_source : ds (requested_types requests) = Some groups.
Hypothesis H_contract : groups_ok (requested_types requests) groups.
Hypothesis H_stored : Forall stored_ok (mjoin groups).
Hypothesis H_challenge : ∀ dt, dt ∈ requested_types requests → is_ok (device_authentication_bytes dt t) = true.

(** A group is matched, or nothing is requested of its type and the lookup of its
    attributes panics. *)
Lemma group_total g : g ∈ filter (λ g, g ≠ []) groups →
  let requested := requested_by_doc_type (attribute_identifiers requests) in
  ∃ dt, group_type g = Some dt ∧
    if decide (requested_of requests dt = []) then match_group t requested g = Panic
    else ∃ x, match_group t requested g = Ok x.
Proof.
  intros [Hne Hin]%list_elem_of_filter requested. destruct H_contract as [_ Hg]. rewrite Forall_forall in Hg.
  destruct g as [|s g]; [done|]. exists (stored_type s). split; [done|].
  pose proof (Hg _ Hin) as Hs. case_decide as Hr.
  - unfold match_group, requested. simpl. by rewrite requested_lookup, Hr.
  - assert (Forall stored_ok (s :: g)) as Hok.
    { rewrite Forall_forall in H_stored |- *. intros s' Hs'. apply H_stored. apply list_elem_of_join. by exists (s :: g). }
    destruct (match_group_total t requested (requested_types requests) (s :: g) (requested_of requests (stored_type s)) (stored_type s))
      as (pds & m & Hm); [done| |done|done|done| |by eexists].
    + unfold requested. rewrite requested_lookup. by destruct (requested_of requests (stored_type s)).
    + apply H_challenge. apply Forall_cons in Hs as [[Ht _] _]. done.
Qed.

Lemma match_total : Forall (λ s, requested_of requests (stored_type s) ≠ []) (mjoin groups) →
  ∃ r, DisclosureRequestMatch_new requests ds t = Ok r.
Proof.
  intros Hreq. unfold DisclosureRequestMatch_new. fold (requested_types requests). rewrite H_source. simpl.
  rewrite match_stored_groups by (rewrite group_types_nonempty; apply H_contract).
  assert (∃ l, try_map (match_group t (requested_by_doc_type (attribute_identifiers requests))) (filter (λ g, g ≠ []) groups) = Ok l)
    as [l ->]; [|simpl; destruct (_ || _); by eexists].
  assert (∀ k, k ⊆ filter (λ g, g ≠ []) groups →
    ∃ l, try_map (match_group t (requested_by_doc_type (attribute_identifiers requests))) k = Ok l) as Htot; [|by apply Htot].
  induction k as [|g k IH]; intros Hk; [by eexists|]. simpl.
  destruct (group_total g) as (dt & Hgt & Hm); [apply Hk; left|]. rewrite decide_False in Hm.
  - destruct Hm as [x ->]. simpl. destruct IH as [l ->]; [set_solver|]. by eexists.
  - destruct g as [|s g]; [done|]. injection Hgt as <-. rewrite Forall_forall in Hreq. apply Hreq.
    apply list_elem_of_join. exists (s :: g). split; [left|].
    assert (s :: g ∈ filter (λ g, g ≠ []) groups) as [_ Hin]%list_elem_of_filter by (apply Hk; left). done.
Qed.

(** C24. The wallet proposes a disclosure exactly when it can make one: when the
    source gives only mdocs of types of which attributes are requested (a type that
    is named without attributes makes the matching panic,
    [empty_items_request_panics]), matching a request always has a result; it is a
    proposal if and only if for every type of which attributes are requested
    some stored mdoc has all of them, and then there is one candidate for each
    such mdoc and no other; otherwise the attributes that are reported as missing
    are at least one, and all requested. *)
Theorem request_match_equivalence
    (Hrequested : Forall (λ s, requested_of requests (stored_type s) ≠ []) (mjoin groups)) :
  ∃ r, DisclosureRequestMatch_new requests ds t = Ok r ∧
  match r with
  | Candidates c => satisfiable requests (mjoin groups) = true ∧ NoDup c.*1 ∧
      (∀ dt, dt ∈ c.*1 ↔ requested_of requests dt ≠ []) ∧
      ∀ dt pds, (dt, pds) ∈ c → source_identifier <$> pds = sm_id <$> satisfying requests (mjoin groups) dt
  | MatchMissingAttributes missing => satisfiable requests (mjoin groups) = false ∧ missing ≠ [] ∧
      missing ⊆ attribute_identifiers requests
  end.
Proof.
  destruct (match_total Hrequested) as [r Hr]. exists r. split; [done|]. destruct r as [c|missing].
  - apply candidates_spec in Hr as (groups' & Hg & Hd & Hk & Hc). rewrite H_source in Hg. injection Hg as <-. split_and!; try done.
    + apply satisfiable_spec. intros dt Hdt. apply Hk, list_elem_of_fmap in Hdt as ([dt' pds] & -> & Hin). simpl.
      destruct (Hc _ _ Hin) as (Hne & ch & _ & Hf). apply satisfied_iff. intros Hnil. rewrite Hnil in Hf. by inversion Hf; subst.
    + intros dt pds Hin. destruct (Hc _ _ Hin) as (_ & ch & _ & Hf). clear -Hf.
      induction Hf as [|s pd l k Hp _ IH]; [done|]. csimpl. by rewrite IH, (pf_id _ _ _ _ Hp).
  - apply missing_spec in Hr as (groups' & Hg & (dt & Hr & Hns) & Hne & Hall). rewrite H_source in Hg. injection Hg as <-.
    split_and!; try done.
    + apply not_true_iff_false. intros Hs. rewrite satisfiable_spec in Hs. by apply Hns, Hs.
    + intros a Ha. by apply Hall.
Qed.

(** A document type without attributes aborts the wallet: a request may name a
    type of which it requests nothing next to one of which it requests something.
    When the wallet holds an mdoc of that type, matching the request panics,
    since the type is not among those of the requested attributes. *)
Theorem empty_items_request_panics s
    (Hheld : s ∈ mjoin groups) (Hnothing : requested_of requests (stored_type s) = []) :
  DisclosureRequestMatch_new requests ds t = Panic.
Proof.
  unfold DisclosureRequestMatch_new. fold (requested_types requests). rewrite H_source. simpl.
  rewrite match_stored_groups by (rewrite group_types_nonempty; apply H_contract).
  assert (try_map (match_group t (requested_by_doc_type (attribute_identifiers requests))) (filter (λ g, g ≠ []) groups) = Panic)
    as ->; [|done].
  rewrite <-join_nonempty in Hheld. apply list_elem_of_join in Hheld as (g & Hs & Hg). apply try_map_panics.
  - intros g' Hg'. destruct (group_total g' Hg') as (dt & _ & Hm). case_decide; eauto.
  - exists g. split; [done|]. destruct (group_total g Hg) as (dt & Hgt & Hm). rewrite decide_True in Hm; [done|].
    apply list_elem_of_filter in Hg as [_ Hin]. destruct H_contract as [_ Hc]. rewrite Forall_forall in Hc.
    pose proof (Hc _ Hin) as Hgg. rewrite Forall_forall in Hgg. destruct (Hgg s Hs) as [_ Hst]. congruence.
Qed.
End Stored.
End Matching.
