(* ===== verification/HolderResponse.v ===== *)
(** * Responses made from proposals verify

    A verifier that receives the documents that a wallet signs from a proposal
    gets exactly the attributes that the proposal showed. *)
From stdpp Require Import base gmap strings list option sets.
From Stdlib Require Import ZArith Lia.
From S2P Require Import Prelude IndexMap Crypto Cbor Cose Engagement Mdoc MdocSigning MdocFacts DisclosureFacts Holder HolderFacts.

(** What a wallet relies on from its key factory: there is a signature that
    verifies for each message, in order. *)
Class KeyFactoryLaws `{!Ecdsa, !KeyFactory} : Prop :=
  sign_multiple_signs l sigs : sign_multiple_with_existing_keys l = Some sigs →
    Forall2 (λ (mk : string * SigningKey) (s : list Signature),
      ∃ sig, head s = Some sig ∧ ecdsa_verify (verifying_key mk.2) mk.1 sig = true) l sigs.

Section Responses.
Context {I : Type}.
Context `{!Ecdsa, !Coset, !Ciborium, !Sha256, !X509Lib, !Chrono, !UrlLib, !MacLib, !KeyFactory}.
Implicit Types s : StoredMdoc I.
Implicit Types pd : ProposedDocument I.

(** ** Issuer-signed data with fewer attributes *)
Lemma IssuerSigned_verify_names (s : IssuerSigned) validity time anchors attrs mso :
  IssuerSigned_verify s validity time anchors = Ok (attrs, mso) →
  ∃ cert, signing_cert (issuer_auth s) = Ok cert ∧ iter_common_name cert = Ok (issuer attrs) ∧
    disclosed_validity attrs = validity_info mso.
Proof.
  unfold IssuerSigned_verify. intros Hv. apply bind_Ok in Hv as ([mso'] & _ & Hv). apply bind_Ok in Hv as ([] & _ & Hv).
  apply bind_Ok in Hv as (at_ & _ & Hv). apply bind_Ok in Hv as (cert & Hc & Hv). apply map_err_Ok in Hc.
  apply bind_Ok in Hv as (names & Hn & [= <- <-]). apply map_err_Ok in Hn. by exists cert.
Qed.

Lemma verified_item_digest (s : IssuerSigned) validity time anchors attrs mso nss n all item :
  IssuerSigned_verify s validity time anchors = Ok (attrs, mso) → name_spaces s = Some nss → (n, all) ∈ nss → item ∈ all →
  verify_attr_digest mso n item = Ok tt.
Proof.
  intros Hv Hns Hn Hi. apply IssuerSigned_verify_Ok in Hv as (_ & _ & Hv). rewrite Hns in Hv. destruct Hv as (l & _ & Hf).
  destruct (Forall2_elem_l _ _ _ _ Hf Hn) as (q & _ & _ & Hq). simpl in Hq. apply try_map_Ok in Hq.
  destruct (Forall2_elem_l _ _ _ _ Hq Hi) as (e & _ & He). simpl in He. by apply bind_Ok in He as ([] & Hd & _).
Qed.

(** Leaving out attributes keeps issuer-signed data verifiable. *)
Lemma restricted_verifies (s s' : IssuerSigned) validity time anchors attrs mso nss nss' :
  IssuerSigned_verify s validity time anchors = Ok (attrs, mso) → name_spaces s = Some nss →
  issuer_auth s' = issuer_auth s → name_spaces s' = Some nss' →
  (∀ n items, (n, items) ∈ nss' → ∃ all, (n, all) ∈ nss ∧ items ⊆ all) →
  IssuerSigned_verify s' validity time anchors =
    Ok (mkDisclosed (im_collect ((λ p, (p.1, entries_of_attributes p.2)) <$> nss')) (issuer attrs) (disclosed_validity attrs), mso).
Proof.
  intros Hv Hns Hauth Hns' Hsub. pose proof (IssuerSigned_verify_names _ _ _ _ _ _ Hv) as (cert & Hc & Hnames & ->).
  pose proof (IssuerSigned_verify_Ok _ _ _ _ _ _ Hv) as (Hcose & Hval & _).
  unfold IssuerSigned_verify. rewrite Hauth, Hcose. simpl. rewrite Hval. simpl. rewrite Hns'.
  rewrite (try_map_total _ (λ p, (p.1, entries_of_attributes p.2))).
  - simpl. rewrite Hc. simpl. by rewrite Hnames.
  - intros [n items] Hin. simpl. destruct (Hsub n items Hin) as (all & Hall & Hi). unfold verify_attrs_in_namespace.
    rewrite (try_map_total _ entry_of_item); [done|]. intros item Hitem.
    by rewrite (verified_item_digest s validity time anchors attrs mso nss n all item) by (done || by apply Hi).
Qed.

Lemma proposal_verifies req ch s pd time anchors attrs mso :
  proposed_from req ch s pd → IssuerSigned_verify (m_issuer_signed (sm_mdoc s)) Valid time anchors = Ok (attrs, mso) →
  IssuerSigned_verify (pd_issuer_signed pd) Valid time anchors =
    Ok (mkDisclosed (pa_attributes (proposed_attributes pd)) (issuer attrs) (disclosed_validity attrs), mso).
Proof.
  intros Hp Hv. unfold proposed_attributes. simpl. pose proof (pf_name_spaces _ _ _ _ Hp) as Hns.
  destruct (name_spaces (m_issuer_signed (sm_mdoc s))) as [nss|] eqn:E; simpl in Hns; rewrite Hns.
  - eapply restricted_verifies; [done|done|by eapply pf_auth|done|]. intros n items Hin.
    apply requested_name_spaces_elem in Hin as (all & Hall & _ & ->). exists all. split; [done|].
    intros i. rewrite list_elem_of_filter. naive_solver.
  - assert (pd_issuer_signed pd = m_issuer_signed (sm_mdoc s)) as ->.
    { pose proof (pf_auth _ _ _ _ Hp) as Ha. revert Ha Hns E.
      destruct (pd_issuer_signed pd), (m_issuer_signed (sm_mdoc s)). simpl. intros. by subst. }
    rewrite Hv. do 2 f_equal. pose proof (IssuerSigned_verify_Ok _ _ _ _ _ _ Hv) as (_ & _ & Hd). rewrite E in Hd.
    destruct attrs. simpl in *. by subst.
Qed.

(** ** Signing *)
Lemma verified_public_key (s : IssuerSigned) validity time anchors attrs mso vk :
  IssuerSigned_verify s validity time anchors = Ok (attrs, mso) →
  verifying_key_from_cose_key (device_key (device_key_info mso)) = Ok vk → IssuerSigned_public_key s = Ok vk.
Proof.
  intros Hv Hk. apply IssuerSigned_verify_Ok in Hv as (Hc & _ & _).
  apply verify_against_trust_anchors_Ok in Hc as (cert & pk & p & _ & _ & _ & _ & Hp & Hd).
  unfold IssuerSigned_public_key, dangerous_parse_unverified. rewrite Hp. simpl. rewrite Hd. simpl. by rewrite Hk.
Qed.

Context `{!KeyFactoryLaws}.

Lemma sign_coses_Ok kcs coses :
  sign_coses sign_multiple_with_existing_keys kcs (mkCoseHeader None []) false = Ok coses →
  Forall2 (λ (kc : SigningKey * string) c, sign1_verify (sign1_with_payload c kc.2) (verifying_key kc.1) = Ok tt) kcs coses.
Proof.
  unfold sign_coses. intros Hs. apply bind_Ok in Hs as (sigs & Hsig & Hs). apply ok_or_Ok in Hsig.
  apply sign_multiple_signs in Hsig. apply try_map_Ok in Hs. revert sigs coses Hsig Hs.
  induction kcs as [|[k p] kcs IH]; intros sigs coses Hsig Hs; csimpl in *.
  - inversion Hsig; subst. by inversion Hs.
  - inversion Hsig as [|? sg ? sigs' (sig & Hh & Hver) Hsig']; subst. csimpl in Hs.
    inversion Hs as [|? c ? coses' Hc Hs']; subst. constructor; [|by eapply IH].
    simpl in Hc. rewrite Hh in Hc. injection Hc as <-. unfold sign1_verify. simpl. rewrite signature_from_to. simpl.
    fold es256_header. simpl in Hver. by rewrite Hver.
Qed.

(** The wallet has the private key that belongs to a stored mdoc. *)
Definition holds_key s (mso : MobileSecurityObject) : Prop :=
  ∃ vk, verifying_key_from_cose_key (device_key (device_key_info mso)) = Ok vk ∧
    verifying_key (generate_existing (private_key_id (sm_mdoc s)) vk) = vk.

(** A stored mdoc that the verifier accepts at [time]. *)
Definition acceptable (time : Z) (anchors : list TrustAnchor) s : Prop :=
  ∃ attrs mso, IssuerSigned_verify (m_issuer_signed (sm_mdoc s)) Valid time anchors = Ok (attrs, mso) ∧
    mso_doc_type mso = stored_type s ∧ holds_key s mso.

(** What the verifier gets of a proposed document. *)
Definition disclosed_of pd (p : DocType * DocumentDisclosedAttributes) : Prop :=
  p.1 = pd_doc_type pd ∧ disclosed_attributes p.2 = pa_attributes (proposed_attributes pd).

Definition signed_document pd (c : CoseSign1) : Document :=
  {| doc_type := pd_doc_type pd; issuer_signed := pd_issuer_signed pd;
     device_signed := {| ds_name_spaces := []; device_auth := DeviceSignature c |}; doc_errors := None |}.

Lemma signed_document_verifies req ch s pd c vk t time anchors eph attrs mso :
  proposed_from req ch s pd → IssuerSigned_verify (m_issuer_signed (sm_mdoc s)) Valid time anchors = Ok (attrs, mso) →
  mso_doc_type mso = stored_type s → verifying_key_from_cose_key (device_key (device_key_info mso)) = Ok vk →
  device_authentication_bytes (stored_type s) t = Ok ch →
  is_ok (tagged_serialize (session_transcript_serialize t)) = true →
  sign1_verify (sign1_with_payload c ch) vk = Ok tt →
  Document_verify (signed_document pd c) eph t time anchors =
    Ok (pd_doc_type pd, mkDisclosed (pa_attributes (proposed_attributes pd)) (issuer attrs) (disclosed_validity attrs)).
Proof.
  intros Hp Hv Hdt Hk Hch Ht Hsig. unfold Document_verify. simpl.
  rewrite (proposal_verifies req ch s pd time anchors attrs mso Hp Hv). simpl.
  rewrite (pf_type _ _ _ _ Hp), Hdt, bool_decide_eq_true_2 by done. simpl.
  destruct (tagged_serialize _); simpl; [|done..]. rewrite Hch. simpl. rewrite Hk. simpl. by rewrite Hsig.
Qed.

(** A proposed document for the transcript [t] of an mdoc that the verifier
    accepts. *)
Definition good_proposal (t : SessionTranscript) (time : Z) (anchors : list TrustAnchor) pd : Prop :=
  ∃ req ch s, proposed_from req ch s pd ∧ device_authentication_bytes (stored_type s) t = Ok ch ∧ acceptable time anchors s.

Lemma sign_multiple_verifies pds docs t time anchors eph :
  Forall (good_proposal t time anchors) pds →
  is_ok (tagged_serialize (session_transcript_serialize t)) = true →
  proposed_sign_multiple pds = Ok docs →
  Forall2 (λ pd d, ∃ c attrs, d = signed_document pd c ∧
    Document_verify d eph t time anchors = Ok (pd_doc_type pd, attrs) ∧ disclosed_of pd (pd_doc_type pd, attrs)) pds docs.
Proof.
  unfold proposed_sign_multiple, DeviceSigned_new_signatures. intros Hgood Ht Hs.
  apply bind_Ok in Hs as (kcs & Hk & Hs). apply bind_Ok in Hs as (ds & Hds & [= <-]).
  apply bind_Ok in Hds as (coses & Hc & [= <-]). apply map_err_Ok in Hc. apply sign_coses_Ok in Hc. apply try_map_Ok in Hk.
  revert kcs coses Hk Hc. induction Hgood as [|pd pds (req & ch & s & Hp & Hch & attrs & mso & Hv & Hdt & vk & Hvk & Hkey) _ IH];
    intros kcs coses Hk Hc; [inversion Hk; subst; by inversion Hc; subst|].
  inversion Hk as [|? kc ? kcs' Hkc Hk']; subst. inversion Hc as [|? c ? coses' Hcv Hc']; subst. csimpl.
  constructor; [|by eapply IH]. apply bind_Ok in Hkc as (pk & Hpk & [= <-]). simpl in Hcv.
  assert (pk = vk) as ->.
  { pose proof (verified_public_key _ _ _ _ _ _ _ (proposal_verifies _ _ _ _ _ _ _ _ Hp Hv) Hvk). congruence. }
  rewrite (pf_challenge _ _ _ _ Hp), (pf_key _ _ _ _ Hp), Hkey in Hcv.
  eexists c, _. split; [done|]. split; [by eapply signed_document_verifies|done].
Qed.

(** When the key factory signs, a response is made. *)
Lemma sign_coses_total kcs : (∀ l, is_Some (sign_multiple_with_existing_keys l)) →
  ∃ coses, sign_coses sign_multiple_with_existing_keys kcs (mkCoseHeader None []) false = Ok coses.
Proof.
  intros Htot. unfold sign_coses. destruct (Htot ((λ kc : SigningKey * string, (sig_structure_data es256_header kc.2, kc.1)) <$> kcs))
    as [sigs Hs]. rewrite Hs. simpl. apply sign_multiple_signs in Hs. revert sigs Hs.
  induction kcs as [|[k p] kcs IH]; intros sigs Hs; csimpl in *; [inversion Hs; by eexists|].
  inversion Hs as [|? sg ? sigs' (sig & Hh & _) Hs']; subst. csimpl. rewrite Hh. simpl. destruct (IH _ Hs') as [coses ->]. by eexists.
Qed.

Lemma proposals_signed pds t time anchors : Forall (good_proposal t time anchors) pds →
  (∀ l, is_Some (sign_multiple_with_existing_keys l)) → ∃ dr, from_proposed_documents pds = Ok dr.
Proof.
  intros Hg Htot. unfold from_proposed_documents, proposed_sign_multiple.
  assert (∃ kcs, try_map (λ doc : ProposedDocument I, let* public_key := IssuerSigned_public_key (pd_issuer_signed doc) in
    Ok (generate_existing (pd_private_key_id doc) public_key, device_signed_challenge doc)) pds = Ok kcs) as [kcs ->].
  { induction Hg as [|pd pds (req & ch & s & Hp & _ & attrs & mso & Hv & _ & vk & Hvk & _) _ [kcs IH]]; [by eexists|]. simpl.
    rewrite (verified_public_key _ _ _ _ _ _ _ (proposal_verifies _ _ _ _ _ _ _ _ Hp Hv) Hvk). simpl. rewrite IH. by eexists. }
  simpl. unfold DeviceSigned_new_signatures. destruct (sign_coses_total kcs Htot) as [coses ->]. by eexists.
Qed.

(** The attributes that were requested are among those of the signed documents. *)
Lemma proposed_identifiers req ch s pd c : stored_ok s → proposed_from req ch s pd → req ⊆ stored_identifiers s →
  req ⊆ Document_attribute_identifiers (signed_document pd c).
Proof.
  intros [Hwf _] Hp Hsub a Ha. pose proof (Hsub a Ha) as Hs. apply stored_identifier_elem in Hs as (nss & all & item & Hns & Hn & Hi & Heq).
  unfold name_spaces_wf in Hwf. rewrite Hns in Hwf. simpl in Hwf.
  unfold Document_attribute_identifiers, issuer_signed_attribute_identifiers. simpl.
  rewrite (pf_name_spaces _ _ _ _ Hp), Hns. simpl.
  destruct (requested_name_spaces_found (stored_type s) req nss (ai_namespace a) all item) as (items & Hin & Hit);
    [done..|by rewrite <-Heq|].
  apply IndexSet_elem, list_elem_of_join. eexists. split; [|apply list_elem_of_fmap; eexists; split; [reflexivity|exact Hin]].
  apply list_elem_of_fmap. exists item. split; [|done]. by rewrite (pf_type _ _ _ _ Hp).
Qed.

(** ** Responses *)
Lemma verify_documents_total docs (l : list (DocType * DocumentDisclosedAttributes)) eph t time anchors acc :
  Forall2 (λ d p, Document_verify d eph t time anchors = Ok p) docs l →
  verify_documents docs eph t time anchors acc = Ok (fold_left (λ m p, im_insert p.1 p.2 m) l acc).
Proof.
  intros Hl. revert acc. induction Hl as [|d p docs l Hd _ IH]; intros acc; [done|]. simpl. rewrite Hd. simpl. apply IH.
Qed.

(** The verifier of the session accepts the response and gets, for each proposed
    document, the attributes that were shown to the user. *)
Lemma response_verifies pds dr t time anchors eph :
  Forall (good_proposal t time anchors) pds → NoDup (pd_doc_type <$> pds) →
  is_ok (tagged_serialize (session_transcript_serialize t)) = true →
  from_proposed_documents pds = Ok dr →
  ∃ attrs, DeviceResponse_verify dr eph t time anchors = Ok attrs ∧ Forall2 disclosed_of pds attrs.
Proof.
  intros Hg Hd Ht Hdr. unfold from_proposed_documents in Hdr. apply bind_Ok in Hdr as (docs & Hdocs & [= <-]).
  apply (sign_multiple_verifies pds docs t time anchors eph Hg Ht) in Hdocs.
  assert (∃ l, Forall2 (λ d p, Document_verify d eph t time anchors = Ok p) docs l ∧ Forall2 disclosed_of pds l)
    as (l & Hl & Hdis).
  { clear Hg Hd. induction Hdocs as [|pd d pds docs (c & attrs & -> & Hv & Hdis) _ (l & Hl & Hf)]; [by exists []|].
    exists ((pd_doc_type pd, attrs) :: l). by split; constructor. }
  exists l. split; [|done]. unfold DeviceResponse_verify. simpl. rewrite (verify_documents_total _ l) by done.
  f_equal. apply im_collect_id. assert (l.*1 = pd_doc_type <$> pds) as ->; [|done].
  clear -Hdis. induction Hdis as [|pd p pds l [Hp _] _ IH]; [done|]. csimpl. by rewrite IH, Hp.
Qed.

(** The verifier's attributes are those of the proposal, document by document. *)
Lemma disclosed_as_proposed pds attrs : NoDup (pd_doc_type <$> pds) → Forall2 disclosed_of pds attrs →
  (λ x, (x.1, disclosed_attributes x.2)) <$> attrs =
  (λ x, (x.1, pa_attributes x.2)) <$> im_collect ((λ d, (pd_doc_type d, proposed_attributes d)) <$> pds).
Proof.
  intros Hd Hdis. rewrite im_collect_id by (rewrite <-list_fmap_compose; exact Hd). rewrite <-list_fmap_compose. clear Hd.
  induction Hdis as [|pd x pds l [Ht Ha] _ IH]; [done|]. csimpl. by rewrite IH, Ht, Ha.
Qed.

(** Every attribute that was requested is in a document of the response. *)
Lemma response_matches requests pds dr :
  (∀ r, r ∈ requests → attribute_identifiers r ≠ [] → ∃ pd ch s, pd ∈ pds ∧ stored_ok s ∧ stored_type s = req_doc_type r ∧
     proposed_from (requested_of requests (req_doc_type r)) ch s pd ∧
     requested_of requests (req_doc_type r) ⊆ stored_identifiers s) →
  NoDup (pd_doc_type <$> pds) → from_proposed_documents pds = Ok dr → match_against_response requests dr = Ok tt.
Proof.
  intros Hall Hd Hdr. unfold from_proposed_documents in Hdr. apply bind_Ok in Hdr as (docs & Hdocs & [= <-]).
  assert (Forall2 (λ pd d, ∃ c, d = signed_document pd c) pds docs) as Hsig.
  { unfold proposed_sign_multiple, DeviceSigned_new_signatures in Hdocs. apply bind_Ok in Hdocs as (kcs & Hk & Hs).
    apply bind_Ok in Hs as (ds & Hds & [= <-]). apply bind_Ok in Hds as (coses & Hc & [= <-]). apply map_err_Ok in Hc.
    apply sign_coses_Ok, Forall2_length in Hc. apply try_map_length in Hk.
    assert (length pds = length coses) as Hlen by lia. clear -Hlen. revert coses Hlen.
    induction pds as [|pd pds IH]; intros [|c coses] Hlen; try done. csimpl. constructor; [by exists c|]. apply IH. simpl in Hlen. lia. }
  unfold match_against_response. simpl.
  assert (∀ r, r ∈ requests → match snd <$> list_find (λ d, doc_type d = req_doc_type r) docs with
    | None => attribute_identifiers r | Some d => match_against_issuer_signed r d end = []) as Hnone.
  { intros r Hr. destruct (attribute_identifiers r) as [|a k] eqn:Ea.
    - unfold match_against_issuer_signed. rewrite Ea. by destruct (list_find _ docs) as [[]|].
    - destruct (Hall r Hr) as (pd & ch & s & Hpd & Hok & Ht & Hp & Hsub); [by rewrite Ea|]. rewrite <-Ea. clear a k Ea.
      assert (∃ i c, list_find (λ d, doc_type d = req_doc_type r) docs = Some (i, signed_document pd c)) as (i & c & ->).
      { assert (pd_doc_type pd = req_doc_type r) as Hpt by (by rewrite (pf_type _ _ _ _ Hp)). clear -Hsig Hpd Hd Hpt.
        induction Hsig as [|pd' d pds docs [c ->] _ IH]; [by apply elem_of_nil in Hpd|]. csimpl in Hd.
        apply NoDup_cons in Hd as [Hn Hd]. simpl. apply elem_of_cons in Hpd as [->|Hpd].
        - rewrite decide_True by done. by exists 0%nat, c.
        - rewrite decide_False; [|intros Heq; apply Hn; rewrite Heq, <-Hpt; apply list_elem_of_fmap; by exists pd].
          destruct (IH Hd Hpd) as (i & c' & ->). by eexists _, c'. }
      simpl. unfold match_against_issuer_signed. destruct (filter _ _) as [|a k] eqn:F; [done|].
      assert (a ∈ a :: k) as Ha by left. rewrite <-F in Ha. apply list_elem_of_filter in Ha as [Hn Ha]. destruct Hn.
      apply (proposed_identifiers _ ch s pd c Hok Hp Hsub). apply requested_of_elem. by exists r. }
  assert (mjoin ((λ r, match snd <$> list_find (λ d, doc_type d = req_doc_type r) docs with
    | None => attribute_identifiers r | Some d => match_against_issuer_signed r d end) <$> requests) = []) as ->; [|done].
  clear -Hnone. induction requests as [|r rs IH]; [done|]. csimpl. rewrite Hnone by left. apply IH. set_solver.
Qed.
End Responses.
