(* ===== verification/Protocol.v ===== *)
(** * Messages and URLs shared by issuance and disclosure

    Models [openid4vc/src/lib.rs] ([Format]), [openid4vc/src/authorization.rs],
    the OAuth error codes of [openid4vc/src/errors.rs] and [BaseUrl] of
    [wallet_common/src/config/wallet_config.rs].  The crate [url] is a
    parameter; URLs are strings. *)
From stdpp Require Import base strings list option.
From Stdlib Require Import ZArith Ascii.
From S2P Require Import Prelude.

(** ** URLs *)
Class UrlJoin := {
  (** Whether the path ends in a slash, the URL with the segment [/] pushed onto
      its path, and [Url::join]. *)
  url_path_is_dir : string → bool;
  url_push_slash : string → string;
  url_join : string → string → option string
}.

Fixpoint trim_start_slashes (s : string) : string :=
  match s with
  | String a rest => if Ascii.eqb a "/" then trim_start_slashes rest else s
  | EmptyString => s
  end.

(** [BaseUrl::join]; the result of [Url::join] is unwrapped. *)
Definition BaseUrl_join `{!UrlJoin} {E} (base input : string) : outcome E string :=
  let base := if url_path_is_dir base then base else url_push_slash base in
  unwrap (url_join base (trim_start_slashes input)).

(** ** Formats *)
Inductive Format := MsoMdoc | LdpVc | JwtVc | JwtVcJson | AcVc.
#[global] Instance Format_eq_dec : EqDecision Format.
Proof. solve_decision. Defined.

(** ** Authorization requests *)
Inductive AuthorizationDetailsType := OpenidCredential.
Inductive AuthorizationDetailsFormatData := DetailsMsoMdoc (doctype : string).
Record AuthorizationDetails := mkAuthorizationDetails {
  details_typ : AuthorizationDetailsType;
  credential_identifiers : option (list string);
  format_data : AuthorizationDetailsFormatData
}.

Inductive ResponseMode := Query | Fragment | DirectPost | DirectPostJwt.
#[global] Instance ResponseMode_eq_dec : EqDecision ResponseMode.
Proof. solve_decision. Defined.

Inductive PkceCodeChallenge := S256 (code_challenge : string) | Plain (code_challenge : string).

Inductive ResponseType := Code | VpToken | IdToken.
#[global] Instance ResponseType_eq_dec : EqDecision ResponseType.
Proof. solve_decision. Defined.

(** The sets of the source, [response_type] and [scope], are lists without
    repetitions; two of them are equal when they have the same elements. *)
Record AuthorizationRequest := mkAuthorizationRequest {
  ar_response_type : list ResponseType;
  ar_client_id : string;
  ar_redirect_uri : option string;
  ar_state : option string;
  ar_authorization_details : option (list AuthorizationDetails);
  ar_request_uri : option string;
  ar_code_challenge : option PkceCodeChallenge;
  ar_scope : option (list string);
  ar_nonce : option string;
  ar_response_mode : option ResponseMode
}.

(** [PartialEq for IndexSet]: as many elements, and all of the one in the other. *)
Definition index_set_eqb {A} `{!EqDecision A} (a b : list A) : bool :=
  bool_decide (length a = length b) && forallb (λ x, bool_decide (x ∈ b)) a.

(** ** Errors of the wallet to the verifier *)
Inductive AuthorizationErrorCode :=
  | InvalidRequest | UnauthorizedClient | AccessDenied | UnsupportedResponseType
  | InvalidScope | ServerError | TemporarilyUnavailable.
Inductive VpAuthorizationErrorCode :=
  | VpFormatsNotSupported | InvalidPresentationDefinitionUri
  | InvalidPresentationDefinitionReference | InvalidRequestUriMethod
  | AuthorizationError (e : AuthorizationErrorCode).
Record ErrorResponse (T : Type) := mkErrorResponse {
  error : T;
  error_description : option string;
  error_uri : option string
}.
Arguments mkErrorResponse {T}.
Arguments error {T}.
