(* ===== verification/Configuration.v ===== *)
(** * The configuration of the wallet

    Models [wallet_common/src/config/wallet_config.rs], the repositories of
    [wallet/src/config] through which the wallet reads its configuration
    ([http_client.rs], [http_repository.rs], [config_file.rs],
    [file_repository.rs], [updating_repository.rs]) and the server that they
    fetch from ([configuration_server/src/server.rs]).

    The files of the storage directory are a map from names to bytes.  A call to
    the file system works, or fails, or does not return because the process stops;
    a write that fails or is stopped can leave the first bytes of the new contents
    behind. *)
From stdpp Require Import base gmap strings list option.
From Stdlib Require Import ZArith Lia Ascii.
From S2P Require Import Prelude Crypto Jose Protocol.

(** ** The file system *)
Fixpoint str_take (n : nat) (s : string) : string :=
  match n, s with S n, String a s => String a (str_take n s) | _, _ => EmptyString end.
Fixpoint all_bytes (f : ascii → bool) (s : string) : bool :=
  match s with EmptyString => true | String a s => f a && all_bytes f s end.

(** What happens in one call; of an interrupted write, how many bytes of the file
    were written, if it was opened at all. *)
Inductive FsEvent := FsWorks | FsFails (written : option nat) | FsStops (written : option nat).
Record FileSystem := mkFileSystem { files : gmap string string; fs_events : list FsEvent }.
Inductive FileStorageError := FileIo | FileSerialization.

Definition fs_event (fs : FileSystem) : FsEvent := default FsWorks (head (fs_events fs)).
Definition fs_after (fs : FileSystem) (m : gmap string string) : FileSystem := mkFileSystem m (tail (fs_events fs)).

(** [tokio::fs::try_exists], [read] and [write] *)
Definition fs_try_exists (name : string) : ST FileSystem FileStorageError bool := λ fs,
  (match fs_event fs with
   | FsWorks => Ok (bool_decide (is_Some (files fs !! name))) | FsFails _ => Err FileIo | FsStops _ => Panic
   end, fs_after fs (files fs)).
Definition fs_read (name : string) : ST FileSystem FileStorageError string := λ fs,
  (match fs_event fs with
   | FsWorks => ok_or FileIo (files fs !! name) | FsFails _ => Err FileIo | FsStops _ => Panic
   end, fs_after fs (files fs)).
Definition fs_left (name contents : string) (m : gmap string string) (written : option nat) : gmap string string :=
  match written with Some n => <[name := str_take n contents]> m | None => m end.
Definition fs_write (name contents : string) : ST FileSystem FileStorageError unit := λ fs,
  match fs_event fs with
  | FsWorks => (Ok tt, fs_after fs (<[name := contents]> (files fs)))
  | FsFails w => (Err FileIo, fs_after fs (fs_left name contents (files fs) w))
  | FsStops w => (Panic, fs_after fs (fs_left name contents (files fs) w))
  end.

(** ** Configurations *)
Record LockTimeoutConfiguration := mkLockTimeouts { inactive_timeout : Z; background_timeout : Z }.
(** [Default for LockTimeoutConfiguration] *)
Definition default_lock_timeouts : LockTimeoutConfiguration := mkLockTimeouts (5 * 60) (5 * 60).
Record AccountServerConfiguration `{!Ecdsa} := mkAccountServerConfiguration {
  account_base_url : string; certificate_public_key : VerifyingKey; instruction_result_public_key : VerifyingKey
}.
Inductive DigidApp2AppConfiguration := Production (universal_link : string) | Preprod (host universal_link : string).
Record PidIssuanceConfiguration := mkPidIssuanceConfiguration {
  pid_issuer_url : string; digid_url : string; digid_client_id : string; digid_trust_anchors : list string;
  digid_app2app : option DigidApp2AppConfiguration
}.
Record DisclosureConfiguration := mkDisclosureConfiguration { rp_trust_anchors : list string }.
(** Trust anchors are their DER bytes. *)
Record WalletConfiguration `{!Ecdsa} := mkWalletConfiguration {
  lock_timeouts : LockTimeoutConfiguration;
  account_server : AccountServerConfiguration;
  pid_issuance : PidIssuanceConfiguration;
  disclosure : DisclosureConfiguration;
  mdoc_trust_anchors : list string;
  version : Z
}.

(** [serde_json] on configurations: what is written is read back, and an object
    that is cut off before its closing brace is not JSON. *)
Class ConfigJson `{!Ecdsa} := {
  config_to_vec : WalletConfiguration → option string;
  config_from_slice : string → option WalletConfiguration;
  config_from_to c s : config_to_vec c = Some s → config_from_slice s = Some c;
  config_from_cut c s n : config_to_vec c = Some s → (n < String.length s)%nat → config_from_slice (str_take n s) = None
}.

(** Crate [http]: the bytes that a header value may have, and those that are text.
    A value is built from bytes or from text that has no others. *)
Class HttpHeaders := {
  header_byte : ascii → bool;
  visible_byte : ascii → bool;
  visible_header_byte b : visible_byte b = true → header_byte b = true
}.
Abbreviation HeaderValue := string (only parsing).
Section Headers.
Context `{!HttpHeaders}.
Definition header_from_bytes (s : string) : option HeaderValue := if all_bytes header_byte s then Some s else None.
Definition header_from_str (s : string) : option HeaderValue := if all_bytes visible_byte s then Some s else None.
Definition header_to_str (h : HeaderValue) : option string := if all_bytes visible_byte h then Some h else None.
End Headers.

(** Crate [etag]: a tag between quotation marks, which is visible text, is read
    back, and is not a tag when it is cut off. *)
Class EtagLib `{!HttpHeaders} := {
  EntityTag : Type;
  entity_tag_from_data : string → EntityTag;
  entity_tag_to_string : EntityTag → string;
  entity_tag_parse : string → option EntityTag;
  weak_eq : EntityTag → EntityTag → bool;
  entity_tag_visible t : all_bytes visible_byte (entity_tag_to_string t) = true;
  entity_tag_parse_to_string t : entity_tag_parse (entity_tag_to_string t) = Some t;
  entity_tag_parse_cut t n : (n < String.length (entity_tag_to_string t))%nat → entity_tag_parse (str_take n (entity_tag_to_string t)) = None;
  weak_eq_refl t : weak_eq t t = true
}.

(** ** Errors and answers *)
Inductive ConfigurationError := Networking | Response (status : Z) (body : string) | ConfigFile (e : FileStorageError) | ConfigJwt (e : JwtError).
Inductive ConfigurationUpdateState := Updated | Unmodified.
Record ConfigRequest := mkConfigRequest { cr_url : string; if_none_match : option HeaderValue }.
(** The body is [None] when it cannot be received. *)
Record ConfigResponse := mkConfigResponse { cr_status : Z; cr_etag : option HeaderValue; cr_body : option string }.
(** One fetch: the answer of the server, with [Panic] when the process stops while
    it waits for one, and the clock. *)
Record FetchInput := mkFetchInput { fi_answer : ConfigRequest → outcome unit ConfigResponse; fi_now : Z }.

(** A call on a part of the state. *)
Definition on_fs {T E A} (m : ST FileSystem E A) : ST (FileSystem * T) E A := λ s,
  let '(o, fs) := m s.1 in (o, (fs, s.2)).
Definition on_part {T U E A} (get : T → U) (set : U → T → T) (m : ST (FileSystem * U) E A) : ST (FileSystem * T) E A := λ s,
  let '(o, (fs, u)) := m (s.1, get s.2) in (o, (fs, set u s.2)).

(** ** Repositories *)
Class ConfigurationRepository `{!Ecdsa} (T : Type) := config : T → WalletConfiguration.
Class UpdateableConfigurationRepository `{!Ecdsa} (T : Type) :=
  fetch : FetchInput → ST (FileSystem * T) ConfigurationError ConfigurationUpdateState.

Section Repositories.
Context `{!Ecdsa, !JwtLib WalletConfiguration, !ConfigJson, !HttpHeaders, !UrlJoin}.

(** *** [config_file.rs] *)
Definition CONFIG_FILENAME : string := "configuration.json".
Definition read_config (path : string) : ST FileSystem FileStorageError WalletConfiguration :=
  let! content := fs_read path in
  st_lift (ok_or FileSerialization (config_from_slice content)).
Definition write_config (path : string) (c : WalletConfiguration) : ST FileSystem FileStorageError unit :=
  let! contents := st_lift (ok_or FileSerialization (config_to_vec c)) in
  fs_write path contents.
Definition get_config_file : ST FileSystem FileStorageError (option WalletConfiguration) :=
  let! exists_ := fs_try_exists CONFIG_FILENAME in
  if negb exists_ then sret None else
  let! c := read_config CONFIG_FILENAME in
  sret (Some c).
Definition update_config_file (c : WalletConfiguration) : ST FileSystem FileStorageError unit := write_config CONFIG_FILENAME c.

(** *** [http_client.rs] *)
Record HttpConfigurationClient := mkHttpConfigurationClient {
  hc_base_url : string; hc_signing_public_key : VerifyingKey; latest_etag : option HeaderValue
}.
Definition set_etag (e : option HeaderValue) (c : HttpConfigurationClient) : HttpConfigurationClient :=
  mkHttpConfigurationClient (hc_base_url c) (hc_signing_public_key c) e.
Definition ETAG_FILENAME : string := "latest-configuration-etag.txt".
Definition read_latest_etag : ST FileSystem FileStorageError (option HeaderValue) :=
  let! exists_ := fs_try_exists ETAG_FILENAME in
  if negb exists_ then sret None else
  let! content := fs_read ETAG_FILENAME in
  let! e := st_lift (unwrap (header_from_bytes content)) in
  sret (Some e).
Definition store_latest_etag (e : HeaderValue) : ST FileSystem FileStorageError unit := fs_write ETAG_FILENAME e.
Definition HttpConfigurationClient_new (base_url : string) (signing_public_key : VerifyingKey)
    : ST FileSystem ConfigurationError HttpConfigurationClient :=
  let! initial_etag := st_map_err ConfigFile read_latest_etag in
  sret (mkHttpConfigurationClient base_url signing_public_key initial_etag).

(** [error_for_status_ref] *)
Definition is_error_status (status : Z) : bool := (400 <=? status) && (status <? 600).
Definition NOT_MODIFIED : Z := 304.
Definition get_wallet_config (f : FetchInput) : ST (FileSystem * HttpConfigurationClient) ConfigurationError (option WalletConfiguration) :=
  let! s := st_get in
  let! url := st_lift (BaseUrl_join (hc_base_url s.2) "wallet-config") in
  let! response := st_lift (map_err (λ _, Networking) (fi_answer f (mkConfigRequest url (latest_etag s.2)))) in
  let! _ := st_lift
    (if is_error_status (cr_status response) then
       match cr_body response with Some body => Err (Response (cr_status response) body) | None => Err Networking end
     else Ok tt) in
  if decide (cr_status response = NOT_MODIFIED) then sret None else
  let! _ := match cr_etag response with
    | Some e =>
        let! _ := on_fs (st_map_err ConfigFile (store_latest_etag e)) in
        let! s := st_get in
        st_put (s.1, set_etag (Some e) s.2)
    | None => sret tt
    end in
  let! body := st_lift (ok_or Networking (cr_body response)) in
  let! c := st_lift (map_err ConfigJwt (Jwt_parse_and_verify (fi_now f) body (hc_signing_public_key s.2) validations)) in
  sret (Some c).

(** *** [http_repository.rs] *)
Record HttpConfigurationRepository := mkHttpRepository { client : HttpConfigurationClient; http_config : WalletConfiguration }.
Definition HttpConfigurationRepository_new (base_url : string) (signing_public_key : VerifyingKey) (initial_config : WalletConfiguration)
    : ST FileSystem ConfigurationError HttpConfigurationRepository :=
  let! c := HttpConfigurationClient_new base_url signing_public_key in
  sret (mkHttpRepository c initial_config).
#[global] Instance http_repository : ConfigurationRepository HttpConfigurationRepository := http_config.
#[global] Instance http_updateable : UpdateableConfigurationRepository HttpConfigurationRepository := λ f,
  let! received := on_part client (λ c r, mkHttpRepository c (http_config r)) (get_wallet_config f) in
  match received with
  | Some new_config =>
      let! s := st_get in
      if version new_config <=? version (http_config s.2) then sret Unmodified
      else
        let! _ := st_put (s.1, mkHttpRepository (client s.2) new_config) in
        sret Updated
  | None => sret Unmodified
  end.

(** *** [file_repository.rs] *)
Record FileStorageConfigurationRepository (T : Type) := mkFileRepository { wrapped_http : T }.
#[global] Arguments mkFileRepository {T}.
#[global] Arguments wrapped_http {T}.
#[global] Instance file_repository {T} `{!ConfigurationRepository T} : ConfigurationRepository (FileStorageConfigurationRepository T) :=
  λ r, config (wrapped_http r).
#[global] Instance file_updateable {T} `{!ConfigurationRepository T, !UpdateableConfigurationRepository T}
    : UpdateableConfigurationRepository (FileStorageConfigurationRepository T) := λ f,
  let! result := on_part wrapped_http (λ w _, mkFileRepository w) (fetch f) in
  match result with
  | Updated =>
      let! s := st_get in
      let! _ := on_fs (st_map_err ConfigFile (update_config_file (config s.2))) in
      sret result
  | Unmodified => sret result
  end.
(** [FileStorageConfigurationRepository::init] *)
Definition FileStorageConfigurationRepository_init (base_url : string) (signing_public_key : VerifyingKey) (initial_config : WalletConfiguration)
    : ST FileSystem ConfigurationError (FileStorageConfigurationRepository HttpConfigurationRepository) :=
  let! stored := st_map_err ConfigFile get_config_file in
  let! default_config := match stored with
    | Some stored_config =>
        if version stored_config <? version initial_config then
          let! _ := st_map_err ConfigFile (update_config_file initial_config) in
          sret initial_config
        else sret stored_config
    | None => sret initial_config
    end in
  let! http := HttpConfigurationRepository_new base_url signing_public_key default_config in
  sret (mkFileRepository http).

(** *** [updating_repository.rs]: a callback is known by a number *)
Record UpdatingConfigurationRepository (T : Type) := mkUpdatingRepository { wrapped : T; callback : option nat }.
#[global] Arguments mkUpdatingRepository {T}.
#[global] Arguments wrapped {T}.
#[global] Arguments callback {T}.
#[global] Instance updating_repository {T} `{!ConfigurationRepository T} : ConfigurationRepository (UpdatingConfigurationRepository T) :=
  λ r, config (wrapped r).
(** [UpdatingConfigurationRepository::new] and [init] *)
Definition UpdatingConfigurationRepository_new {T} (w : T) : UpdatingConfigurationRepository T := mkUpdatingRepository w None.
Definition UpdatingConfigurationRepository_init (base_url : string) (signing_public_key : VerifyingKey) (initial_config : WalletConfiguration)
    : ST FileSystem ConfigurationError (UpdatingConfigurationRepository (FileStorageConfigurationRepository HttpConfigurationRepository)) :=
  let! w := FileStorageConfigurationRepository_init base_url signing_public_key initial_config in
  sret (UpdatingConfigurationRepository_new w).
(** One turn of the loop of [start_update_task]: the callback that is called, with
    the configuration that it gets. *)
Definition update_tick {T} `{!ConfigurationRepository T, !UpdateableConfigurationRepository T} (f : FetchInput)
    : ST (FileSystem * UpdatingConfigurationRepository T) Empty_set (option (nat * WalletConfiguration)) :=
  let! result := st_try (on_part wrapped (λ w r, mkUpdatingRepository w (callback r)) (fetch f)) in
  let! s := st_get in
  sret match result with
    | Ok Updated => (λ c, (c, config (wrapped s.2))) <$> callback s.2
    | _ => None
    end.
Definition register_callback_on_update {T} (c : nat) (r : UpdatingConfigurationRepository T) : option nat * UpdatingConfigurationRepository T :=
  (callback r, mkUpdatingRepository (wrapped r) (Some c)).
Definition clear_callback {T} (r : UpdatingConfigurationRepository T) : option nat * UpdatingConfigurationRepository T :=
  (callback r, mkUpdatingRepository (wrapped r) None).

(** ** The configuration server: [configuration] *)
Context `{!EtagLib}.
Definition tag_of_request (h : HeaderValue) : option EntityTag := s ← header_to_str h; entity_tag_parse s.
Definition configuration (config_jwt : string) (request : ConfigRequest) : outcome unit ConfigResponse :=
  let config_entity_tag := entity_tag_from_data config_jwt in
  let reply :=
    let* e := unwrap (header_from_str (entity_tag_to_string config_entity_tag)) in
    Ok (mkConfigResponse 200 (Some e) (Some config_jwt)) in
  match if_none_match request with
  | Some etag =>
      match tag_of_request etag with
      | None => Ok (mkConfigResponse 400 None (Some ""))
      | Some entity_tag => if weak_eq config_entity_tag entity_tag then Ok (mkConfigResponse NOT_MODIFIED None (Some "")) else reply
      end
  | None => reply
  end.
End Repositories.
