(* ===== verification/ConfigurationFacts.v ===== *)
(** * Configurations over the life of a phone

    Runs of the wallet on one phone: it is started with the configuration that it
    was built with, updates its configuration from time to time, fails to write
    files, and is stopped at any moment.

    Shown: a configuration comes from the build or was signed, and is never
    replaced by an older one; a new configuration of an honest server arrives when
    nothing fails; and what happens when an update is interrupted. *)
From stdpp Require Import base gmap strings list option.
From Stdlib Require Import ZArith Lia Ascii.
From S2P Require Import Prelude Crypto Jose Protocol Configuration.

Lemma str_take_all n s : (String.length s ≤ n)%nat → str_take n s = s.
Proof. revert n. induction s as [|a s IH]; intros [|n] Hn; simpl in *; [done|done|lia|]. rewrite IH; [done|lia]. Qed.
Lemma all_bytes_take f n s : all_bytes f s = true → all_bytes f (str_take n s) = true.
Proof. revert n. induction s as [|a s IH]; intros [|n]; simpl; [done|done|done|]. rewrite !andb_true_iff. naive_solver. Qed.
Lemma all_bytes_impl (f g : ascii → bool) s : (∀ b, f b = true → g b = true) → all_bytes f s = true → all_bytes g s = true.
Proof. intros Hfg. induction s as [|a s IH]; simpl; [done|]. rewrite !andb_true_iff. naive_solver. Qed.

Section ConfigurationFacts.
Context `{!Ecdsa, !JwtLib WalletConfiguration, !ConfigJson, !HttpHeaders, !UrlJoin}.

(** ** Runs *)
Abbreviation App := (UpdatingConfigurationRepository (FileStorageConfigurationRepository HttpConfigurationRepository)).
(** The files outlive the process. *)
Record Phone := mkPhone { ph_files : gmap string string; ph_app : option App; ph_called : list (nat * WalletConfiguration) }.
Inductive ConfigEvent :=
  | Start (initial_config : WalletConfiguration) (fs : list FsEvent)
  | Tick (f : FetchInput) (fs : list FsEvent)
  | RegisterCallback (c : nat)
  | ClearCallback
  | Kill.

Variable base_url : string.
Variable signing_public_key : VerifyingKey.

(** A process that is running ends when another one starts; only a process that
    stops gives a panic. *)
Definition phone_step (p : Phone) (e : ConfigEvent) : Phone :=
  match e, ph_app p with
  | Start c fs, _ =>
      match UpdatingConfigurationRepository_init base_url signing_public_key c (mkFileSystem (ph_files p) fs) with
      | (Ok app, fs) => mkPhone (files fs) (Some app) (ph_called p)
      | (_, fs) => mkPhone (files fs) None (ph_called p)
      end
  | Tick f fs, Some app =>
      match update_tick f (mkFileSystem (ph_files p) fs, app) with
      | (Ok call, (fs, app)) => mkPhone (files fs) (Some app) (ph_called p ++ option_list call)
      | (_, (fs, _)) => mkPhone (files fs) None (ph_called p)
      end
  | RegisterCallback c, Some app => mkPhone (ph_files p) (Some (register_callback_on_update c app).2) (ph_called p)
  | ClearCallback, Some app => mkPhone (ph_files p) (Some (clear_callback app).2) (ph_called p)
  | Kill, _ => mkPhone (ph_files p) None (ph_called p)
  | _, None => p
  end.
Definition phone_run (p : Phone) (l : list ConfigEvent) : Phone := foldl phone_step p l.
Definition new_phone : Phone := mkPhone ∅ None [].

(** ** What the operations do to the files *)
Lemma fs_write_spec name contents fs o fs' : fs_write name contents fs = (o, fs') →
  (∀ n, n ≠ name → files fs' !! n = files fs !! n) ∧
  (files fs' !! name = files fs !! name ∧ o ≠ Ok tt ∨ ∃ n, files fs' !! name = Some (str_take n contents) ∧ (o = Ok tt → str_take n contents = contents)).
Proof.
  unfold fs_write, fs_left. destruct (fs_event fs) as [|[w|]|[w|]]; intros [= <- <-]; cbn; (split; [intros; by rewrite ?lookup_insert_ne|]).
  - right. exists (String.length contents). rewrite lookup_insert, decide_True by done. by rewrite str_take_all.
  - right. exists w. rewrite lookup_insert, decide_True by done. done.
  - by left.
  - right. exists w. rewrite lookup_insert, decide_True by done. done.
  - by left.
Qed.
Lemma get_config_file_spec fs o fs' : get_config_file fs = (o, fs') →
  files fs' = files fs ∧ match o with
  | Ok (Some c) => ∃ s, files fs !! CONFIG_FILENAME = Some s ∧ config_from_slice s = Some c
  | Ok None => files fs !! CONFIG_FILENAME = None
  | _ => True
  end.
Proof.
  unfold get_config_file, read_config, fs_try_exists, fs_read, sbind, sret, st_lift. destruct (fs_event fs); [|by intros [= <- <-]..].
  case_bool_decide as Hs; cbn; [|intros [= <- <-]; split; [done|]; by apply eq_None_not_Some].
  destruct (fs_event _); cbn; [|by intros [= <- <-]..]. destruct Hs as [s Hs]. rewrite Hs. cbn.
  destruct (config_from_slice s) as [c|] eqn:Hc; cbn; intros [= <- <-]; split; [done| |done|done]. by exists s.
Qed.
Lemma read_latest_etag_spec fs o fs' : read_latest_etag fs = (o, fs') →
  files fs' = files fs ∧ match o with Ok e => e = files fs !! ETAG_FILENAME | _ => True end.
Proof.
  unfold read_latest_etag, fs_try_exists, fs_read, sbind, sret, st_lift. destruct (fs_event fs); [|by intros [= <- <-]..].
  case_bool_decide as Hs; cbn; [|intros [= <- <-]; split; [done|]; symmetry; by apply eq_None_not_Some].
  destruct (fs_event _); cbn; [|by intros [= <- <-]..]. destruct Hs as [s Hs]. rewrite Hs. cbn. unfold header_from_bytes.
  destruct (all_bytes header_byte s); cbn; intros [= <- <-]; done.
Qed.
Lemma map_err_inv {S E F A} (f : E → F) (m : ST S E A) s o s' : st_map_err f m s = (o, s') → ∃ o', m s = (o', s') ∧ o = map_err f o'.
Proof. unfold st_map_err. destruct (m s) as [o1 s1]. intros [= <- <-]. by exists o1. Qed.

(** The file after a start or an update: as it was, or the first bytes of a
    configuration. *)
Definition file_of (m : gmap string string) : option string := m !! CONFIG_FILENAME.
Definition first_bytes (c : WalletConfiguration) (m : gmap string string) : Prop :=
  ∃ s n, config_to_vec c = Some s ∧ file_of m = Some (str_take n s).
Lemma update_config_file_spec c fs o fs' : update_config_file c fs = (o, fs') →
  files fs' !! ETAG_FILENAME = files fs !! ETAG_FILENAME ∧
  (file_of (files fs') = file_of (files fs) ∧ o ≠ Ok tt ∨
   first_bytes c (files fs') ∧ (o = Ok tt → file_of (files fs') = config_to_vec c)).
Proof.
  unfold update_config_file, write_config, sbind, st_lift. destruct (config_to_vec c) as [s|] eqn:Hs; cbn; [|intros [= <- <-]; split; [done|by left]].
  intros [Ho Hw]%fs_write_spec. split; [by apply Ho|]. unfold first_bytes, file_of. rewrite Hs. destruct Hw as [Hw|(n & Hn & Hok)]; [by left|right].
  split; [by exists s, n|]. intros Hr. etransitivity; [exact Hn|]. by rewrite Hok.
Qed.

Definition stored (m : gmap string string) (c : WalletConfiguration) : Prop := ∃ s, file_of m = Some s ∧ config_from_slice s = Some c.
Lemma http_new_spec c fs o fs' : HttpConfigurationRepository_new base_url signing_public_key c fs = (o, fs') →
  files fs' = files fs ∧ match o with
  | Ok r => client r = mkHttpConfigurationClient base_url signing_public_key (files fs !! ETAG_FILENAME) ∧ http_config r = c
  | _ => True
  end.
Proof.
  unfold HttpConfigurationRepository_new, HttpConfigurationClient_new, sbind, sret, st_map_err.
  destruct (read_latest_etag fs) as [o1 fs1] eqn:Hr. apply read_latest_etag_spec in Hr as [Hf Hr].
  destruct o1 as [e| |]; cbn [map_err]; intros [= <- <-]; (split; [exact Hf|]); try exact I. subst e. by split.
Qed.
(** The configuration that a start takes. *)
Definition newest (m : gmap string string) (c d : WalletConfiguration) : Prop :=
  file_of m = None ∧ d = c ∨ ∃ old, stored m old ∧ d = if version old <? version c then c else old.
(** What a start leaves behind: files and, when it succeeds, the application. *)
Record init_result (c : WalletConfiguration) (m : gmap string string) (o : outcome ConfigurationError App) (m' : gmap string string) : Prop := {
  init_etag : m' !! ETAG_FILENAME = m !! ETAG_FILENAME;
  init_file : file_of m' = file_of m ∨ ∃ old, stored m old ∧ version old < version c ∧ first_bytes c m';
  init_app app : o = Ok app → callback app = None ∧ newest m c (config app) ∧
    client (wrapped_http (wrapped app)) = mkHttpConfigurationClient base_url signing_public_key (m !! ETAG_FILENAME)
}.
Lemma init_end c d m fs o fs' : files fs !! ETAG_FILENAME = m !! ETAG_FILENAME → newest m c d →
  (file_of (files fs) = file_of m ∨ ∃ old, stored m old ∧ version old < version c ∧ first_bytes c (files fs)) →
  (let! w := (let! http := HttpConfigurationRepository_new base_url signing_public_key d in sret (mkFileRepository http)) in
   sret (UpdatingConfigurationRepository_new w)) fs = (o, fs') → init_result c m o (files fs').
Proof.
  intros He Hn Hc. unfold sbind, sret. destruct (HttpConfigurationRepository_new _ _ _ _) as [o1 fs1] eqn:Hr.
  apply http_new_spec in Hr as [Hf Hr]. destruct o1 as [r| |]; intros [= <- <-]; constructor; rewrite ?Hf; try done.
  intros app [= <-]. destruct Hr as [Hr1 Hr2]. split_and!; [done| |]; cbn [wrapped wrapped_http UpdatingConfigurationRepository_new].
  - unfold config, updating_repository, config, file_repository, config, http_repository. cbn. by rewrite Hr2.
  - by rewrite Hr1, He.
Qed.
Lemma init_spec c fs o fs' : UpdatingConfigurationRepository_init base_url signing_public_key c fs = (o, fs') →
  init_result c (files fs) o (files fs').
Proof.
  unfold UpdatingConfigurationRepository_init, FileStorageConfigurationRepository_init. intros Hi.
  unfold sbind at 1 2 in Hi. unfold st_map_err at 1 in Hi. destruct (get_config_file fs) as [o1 fs1] eqn:Hg.
  apply get_config_file_spec in Hg as [Hf Hg].
  destruct o1 as [[old|]| |]; cbn [map_err] in Hi; try (injection Hi as <- <-; constructor; rewrite ?Hf; by eauto).
  - destruct (version old <? version c) eqn:Hv.
    + unfold sbind at 1 2 in Hi. unfold st_map_err at 1 in Hi. destruct (update_config_file c fs1) as [o2 fs2] eqn:Hu.
      apply update_config_file_spec in Hu as [He Hu]. rewrite Hf in He, Hu.
      assert (file_of (files fs2) = file_of (files fs) ∨ ∃ old, stored (files fs) old ∧ version old < version c ∧ first_bytes c (files fs2)) as Hfile.
      { destruct Hu as [[Hu _]|[Hu _]]; [by left|right]. exists old. split; [exact Hg|]. split; [lia|done]. }
      destruct o2; cbn [map_err] in Hi; try (injection Hi as <- <-; constructor; by eauto).
      apply (init_end c c (files fs)) in Hi; [done|done| |done]. right. exists old. by rewrite Hv.
    + apply (init_end c old (files fs)) in Hi; [done|by rewrite Hf| |left; by rewrite Hf]. right. exists old. by rewrite Hv.
  - apply (init_end c c (files fs)) in Hi; [done|by rewrite Hf|by left|left; by rewrite Hf].
Qed.

(** A configuration in the answer of a fetch whose signature verifies. *)
Definition received (f : FetchInput) (key : VerifyingKey) (c : WalletConfiguration) : Prop :=
  ∃ request response body, fi_answer f request = Ok response ∧ cr_body response = Some body ∧
    Jwt_parse_and_verify (fi_now f) body key validations = Ok c.
Lemma get_wallet_config_spec f fs cl o fs' cl' : get_wallet_config f (fs, cl) = (o, (fs', cl')) →
  file_of (files fs') = file_of (files fs) ∧ hc_signing_public_key cl' = hc_signing_public_key cl ∧ hc_base_url cl' = hc_base_url cl ∧
  match o with Ok (Some c) => received f (hc_signing_public_key cl) c | _ => True end.
Proof.
  unfold get_wallet_config. unfold sbind at 1, st_get at 1. cbn [fst snd].
  intros [(url & _ & Hg)|[(e & Hu & -> & [= <- <-])|(Hu & -> & [= <- <-])]]%bind_lift_inv; [|done|done].
  apply bind_lift_inv in Hg as [(resp & Hresp & Hg)|[(e & Hu & -> & [= <- <-])|(Hu & -> & [= <- <-])]]; [|done|done].
  apply map_err_Ok in Hresp. apply bind_lift_inv in Hg as [([] & _ & Hg)|[(e & Hu & -> & [= <- <-])|(Hu & -> & [= <- <-])]]; [|done|done].
  case_decide; [by injection Hg as <- <- <-|].
  assert (∃ fs1 cl1, file_of (files fs1) = file_of (files fs) ∧ hc_signing_public_key cl1 = hc_signing_public_key cl ∧ hc_base_url cl1 = hc_base_url cl ∧
    ((let! body := st_lift (ok_or Networking (cr_body resp)) in
      let! c := st_lift (map_err ConfigJwt (Jwt_parse_and_verify (fi_now f) body (hc_signing_public_key cl) validations)) in
      sret (Some c)) (fs1, cl1) = (o, (fs', cl')) ∨ (fs1, cl1) = (fs', cl') ∧ is_ok o = false)) as (fs1 & cl1 & Hf & Hk & Hb & Hend).
  { destruct (cr_etag resp) as [e|]; [|exists fs, cl; split_and!; [done|done|done|by left]].
    unfold sbind at 1 2, on_fs, st_map_err in Hg. cbn [fst snd] in Hg. destruct (store_latest_etag e fs) as [o1 fs1] eqn:Hs.
    apply fs_write_spec in Hs as [Hs _]. specialize (Hs CONFIG_FILENAME ltac:(done)).
    destruct o1; cbn [map_err] in Hg; [|injection Hg as <- <- <-; exists fs1, cl; split_and!; [done|done|done|by right]..].
    unfold sbind at 1 2, st_get, st_put in Hg. cbn [fst snd] in Hg. exists fs1, (set_etag (Some e) cl). split_and!; [done|done|done|by left]. }
  destruct Hend as [Hend|[[= <- <-] Ho]]; [|split_and!; [done|done|done|by destruct o as [[]| |]]].
  apply bind_lift_inv in Hend as [(body & Hbody & Hend)|[(e & Hu & -> & [= <- <-])|(Hu & -> & [= <- <-])]]; [|done|done].
  apply bind_lift_inv in Hend as [(c & Hc & Hend)|[(e & Hu & -> & [= <- <-])|(Hu & -> & [= <- <-])]]; [|done|done].
  apply ok_or_Ok in Hbody. apply map_err_Ok in Hc. injection Hend as <- <- <-. split_and!; [done|done|done|]. by eexists _, _, _.
Qed.

#[local] Arguments update_config_file : simpl never.
#[local] Arguments file_of : simpl never.
(** What a turn of the update task changes: nothing of the configuration, or it
    takes a newer one that was received and writes it to the file. *)
Definition app_client (app : App) : HttpConfigurationClient := client (wrapped_http (wrapped app)).
Record tick_result (f : FetchInput) (m : gmap string string) (app : App) (o : outcome Empty_set (option (nat * WalletConfiguration)))
    (m' : gmap string string) (app' : App) : Prop := {
  tick_key : hc_signing_public_key (app_client app') = hc_signing_public_key (app_client app);
  tick_callback : callback app' = callback app;
  tick_config : config app' = config app ∧ file_of m' = file_of m ∨
    received f (hc_signing_public_key (app_client app)) (config app') ∧ version (config app) < version (config app') ∧
      (file_of m' = file_of m ∨ first_bytes (config app') m');
  tick_called c : o = Ok (Some c) → callback app = Some c.1 ∧ c.2 = config app'
}.
Lemma fetch_spec f fs (r : FileStorageConfigurationRepository HttpConfigurationRepository) o fs' r' : fetch f (fs, r) = (o, (fs', r')) →
  hc_signing_public_key (client (wrapped_http r')) = hc_signing_public_key (client (wrapped_http r)) ∧
  (config r' = config r ∧ file_of (files fs') = file_of (files fs) ∨
   received f (hc_signing_public_key (client (wrapped_http r))) (config r') ∧ version (config r) < version (config r') ∧
     (file_of (files fs') = file_of (files fs) ∨ first_bytes (config r') (files fs'))).
Proof.
  destruct r as [[cl c]]. unfold fetch, file_updateable, fetch, http_updateable. unfold sbind at 1, on_part at 1, sbind at 1, on_part at 1. cbn [fst snd wrapped_http client].
  destruct (get_wallet_config f (fs, cl)) as [o1 [fs1 cl1]] eqn:Hg. apply get_wallet_config_spec in Hg as (Hf & Hk & _ & Hr).
  destruct o1 as [[new|]| |]; cbn; [|by intros [= <- <- <-]; split; [|left]..].
  destruct (version new <=? version c) eqn:Hv; cbn; [intros [= <- <- <-]; split; [done|by left]|].
  unfold on_fs, st_map_err, sbind, st_get, sret. cbn. destruct (update_config_file _ fs1) as [o2 fs2] eqn:Hu.
  apply update_config_file_spec in Hu as [_ Hu]. intros Heq.
  assert (fs' = fs2 ∧ r' = mkFileRepository (mkHttpRepository cl1 new)) as [-> ->] by (destruct o2; cbn in Heq; by injection Heq).
  split; [exact Hk|]. right. split; [exact Hr|]. split; [cbn; lia|]. destruct Hu as [[Hu _]|[Hu _]]; [left; by rewrite Hu|by right].
Qed.
Lemma tick_spec f fs (app : App) o fs' app' : update_tick f (fs, app) = (o, (fs', app')) → tick_result f (files fs) app o (files fs') app'.
Proof.
  destruct app as [w cb]. unfold update_tick, sbind, st_try, on_part, st_get, sret. cbn [fst snd wrapped callback].
  destruct (fetch f (fs, w)) as [o1 [fs1 w1]] eqn:Hf. apply fetch_spec in Hf as [Hk Hc].
  destruct o1 as [u|e|]; intros [= <- <- <-]; constructor; try done. intros [n c]. cbn. destruct u; [|done]. destruct cb; [|done]. by intros [= <- <-].
Qed.

Lemma first_bytes_stored c c' m : first_bytes c m → stored m c' → c' = c.
Proof.
  intros (s & n & Hs & Hm) (s' & Hs' & Hc'). assert (s' = str_take n s) as -> by congruence.
  destruct (decide (n < String.length s)%nat) as [Hn|Hn].
  - by rewrite (config_from_cut c s n) in Hc'.
  - rewrite str_take_all in Hc' by lia. rewrite (config_from_to c s Hs) in Hc'. congruence.
Qed.
Lemma stored_file m m' c : file_of m' = file_of m → stored m' c → stored m c.
Proof. unfold stored. by intros ->. Qed.
Lemma newest_or m c d : newest m c d → d = c ∨ stored m d.
Proof. intros [[_ ->]|(old & Ho & ->)]; [by left|]. destruct (_ <? _); [by left|by right]. Qed.

(** ** Trust *)
Definition trusted (l : list ConfigEvent) (c : WalletConfiguration) : Prop :=
  (∃ fs, Start c fs ∈ l) ∨ (∃ f fs, Tick f fs ∈ l ∧ received f signing_public_key c).
(** Everything that is on the phone satisfies [ok]. *)
Record phone_ok (ok : WalletConfiguration → Prop) (p : Phone) : Prop := {
  ok_stored c : stored (ph_files p) c → ok c;
  ok_app app : ph_app p = Some app → ok (config app) ∧ hc_signing_public_key (app_client app) = signing_public_key;
  ok_called c : c ∈ ph_called p → ok c.2
}.
Lemma step_ok (ok : WalletConfiguration → Prop) p e : (∀ c fs, e = Start c fs → ok c) →
  (∀ f fs c, e = Tick f fs → received f signing_public_key c → ok c) → phone_ok ok p → phone_ok ok (phone_step p e).
Proof.
  intros Hstart Htick [Hs Ha Hc]. unfold phone_step. destruct e as [c fs|f fs|n| |].
  - destruct (UpdatingConfigurationRepository_init _ _ _ _) as [o fs'] eqn:Hi. apply init_spec in Hi as [_ Hf Happ]. cbn [files] in *.
    assert (∀ c', stored (files fs') c' → ok c') as Hs'.
    { intros c'. destruct Hf as [Hf|(old & _ & _ & Hf)]; intros Hc'; [eauto using stored_file|]. rewrite (first_bytes_stored _ _ _ Hf Hc'). eauto. }
    destruct o as [app| |]; constructor; cbn; try done. intros app' [= <-]. destruct (Happ app eq_refl) as (_ & Hn & Hcl).
    split; [destruct (newest_or _ _ _ Hn) as [->|?]; eauto|]. unfold app_client. by rewrite Hcl.
  - destruct (ph_app p) as [app|] eqn:Hp; [|constructor; by rewrite ?Hp]. destruct (Ha app eq_refl) as [Hok Hk].
    destruct (update_tick _ _) as [o [fs' app']] eqn:Ht. apply tick_spec in Ht as [Hk' _ Hcf Hcall]. rewrite Hk in *. cbn [files] in *.
    assert ((∀ c', stored (files fs') c' → ok c') ∧ ok (config app')) as [Hs' Hok'].
    { destruct Hcf as [[-> Hf]|(Hr & _ & Hf)]; [eauto using stored_file|]. split; [|by eauto].
      intros c' Hc'. destruct Hf as [Hf|Hf]; [eauto using stored_file|]. rewrite (first_bytes_stored _ _ _ Hf Hc'). eauto. }
    destruct o as [o| |]; constructor; cbn; try done; [intros app'' [= <-]; by split|].
    intros c [?|Hin]%elem_of_app; [eauto|]. destruct o as [c'|]; [|by apply not_elem_of_nil in Hin].
    apply list_elem_of_singleton in Hin as ->. by destruct (Hcall c' eq_refl) as [_ ->].
  - destruct (ph_app p) as [app|] eqn:Hp; constructor; cbn; rewrite ?Hp; try done. intros app' [= <-]. exact (Ha app eq_refl).
  - destruct (ph_app p) as [app|] eqn:Hp; constructor; cbn; rewrite ?Hp; try done. intros app' [= <-]. exact (Ha app eq_refl).
  - destruct (ph_app p); by constructor.
Qed.
Lemma run_ok_events (ok : WalletConfiguration → Prop) l p : (∀ c, trusted l c → ok c) → phone_ok ok p → phone_ok ok (phone_run p l).
Proof.
  unfold trusted. revert p. induction l as [|e l IH]; intros p Hl Hp; [done|]. apply IH.
  - intros c [(fs & Hc)|(f & fs & Hc & Hr)]; apply Hl; [left|right]; eauto using list_elem_of_further.
  - apply step_ok; [| |done]; intros; subst; apply Hl; [left|right]; eauto using list_elem_of_here.
Qed.

(** ** Versions *)
Record phone_floor (v : Z) (p : Phone) : Prop := {
  floor_present : is_Some (file_of (ph_files p));
  floor_stored c : stored (ph_files p) c → v ≤ version c;
  floor_app app : ph_app p = Some app → v ≤ version (config app)
}.
Lemma first_bytes_present c m : first_bytes c m → is_Some (file_of m).
Proof. intros (s & n & _ & ->). by eexists. Qed.
Lemma step_floor v p e : phone_floor v p → phone_floor v (phone_step p e).
Proof.
  intros [Hp Hs Ha]. unfold phone_step. destruct e as [c fs|f fs|n| |].
  - destruct (UpdatingConfigurationRepository_init _ _ _ _) as [o fs'] eqn:Hi. apply init_spec in Hi as [_ Hf Happ]. cbn [files] in *.
    assert (is_Some (file_of (files fs')) ∧ ∀ c', stored (files fs') c' → v ≤ version c') as [Hp' Hs'].
    { destruct Hf as [Hf|(old & Ho & Hv & Hf)]; [rewrite Hf; eauto using stored_file|]. split; [by eapply first_bytes_present|].
      intros c' Hc'. rewrite (first_bytes_stored _ _ _ Hf Hc'). apply Hs in Ho. lia. }
    destruct o as [app| |]; constructor; cbn; try done. intros app' [= <-]. destruct (Happ app eq_refl) as (_ & Hn & _).
    destruct Hn as [[Hn _]|(old & Ho & ->)]; [rewrite Hn in Hp; by destruct Hp|]. apply Hs in Ho. destruct (version old <? version c) eqn:Hv; lia.
  - destruct (ph_app p) as [app|] eqn:Happ; [|constructor; by rewrite ?Happ]. specialize (Ha app eq_refl).
    destruct (update_tick _ _) as [o [fs' app']] eqn:Ht. apply tick_spec in Ht as [_ _ Hcf _]. cbn [files] in *.
    assert (is_Some (file_of (files fs')) ∧ (∀ c', stored (files fs') c' → v ≤ version c') ∧ v ≤ version (config app')) as (Hp' & Hs' & Ha').
    { destruct Hcf as [[-> Hf]|(_ & Hv & Hf)]; [rewrite Hf; eauto using stored_file|]. destruct Hf as [Hf|Hf].
      - rewrite Hf. split; [done|]. split; [eauto using stored_file|lia].
      - split; [by eapply first_bytes_present|]. split; [|lia]. intros c' Hc'. rewrite (first_bytes_stored _ _ _ Hf Hc'). lia. }
    destruct o as [o| |]; constructor; cbn; try done. by intros app'' [= <-].
  - destruct (ph_app p) as [app|] eqn:Happ; constructor; cbn; rewrite ?Happ; try done. intros app' [= <-]. exact (Ha app eq_refl).
  - destruct (ph_app p) as [app|] eqn:Happ; constructor; cbn; rewrite ?Happ; try done. intros app' [= <-]. exact (Ha app eq_refl).
  - destruct (ph_app p); by constructor.
Qed.
Lemma run_floor v l p : phone_floor v p → phone_floor v (phone_run p l).
Proof. revert p. induction l as [|e l IH]; intros p Hp; [done|]. by apply IH, step_floor. Qed.

Definition is_start (e : ConfigEvent) : bool := match e with Start _ _ => true | _ => false end.
(** Without a start the process stays or ends, and its configuration gets no older. *)
Lemma run_process l p app' : forallb (negb ∘ is_start) l = true → ph_app (phone_run p l) = Some app' →
  ∃ app, ph_app p = Some app ∧ version (config app) ≤ version (config app').
Proof.
  revert p. induction l as [|e l IH]; intros p; cbn; [intros _ Hp; exists app'; split; [done|lia]|].
  rewrite andb_true_iff. intros [He Hl] Hrun. destruct (IH _ Hl Hrun) as (app1 & Happ1 & Hv1).
  enough (∃ app, ph_app p = Some app ∧ version (config app) ≤ version (config app1)) as (app & ? & ?) by (exists app; split; [done|lia]).
  clear Hrun IH. unfold phone_step in Happ1. destruct e as [c fs|f fs|n| |]; [done| | | |]; destruct (ph_app p) as [app|] eqn:Hp;
    cbn in Happ1; try congruence; exists app; (split; [done|]).
  - destruct (update_tick _ _) as [o [fs' app2]] eqn:Ht. apply tick_spec in Ht as [_ _ Hcf _]. destruct o; cbn in Happ1; try done.
    injection Happ1 as <-. destruct Hcf as [[-> _]|(_ & ? & _)]; lia.
  - injection Happ1 as <-. cbn. reflexivity.
  - injection Happ1 as <-. cbn. reflexivity.
Qed.

(** What is in use is not older than what is stored. *)
Definition memory_newest (p : Phone) : Prop := ∀ app c, ph_app p = Some app → stored (ph_files p) c → version c ≤ version (config app).
Lemma stored_unique m c c' : stored m c → stored m c' → c = c'.
Proof. intros (s & Hs & Hc) (s' & Hs' & Hc'). congruence. Qed.
Lemma newest_version m c d : newest m c d → version c ≤ version d ∧ ∀ old, stored m old → version old ≤ version d.
Proof.
  intros [[Hn ->]|(old & Ho & ->)].
  - split; [lia|]. intros old (s & Hs & _). congruence.
  - destruct (version old <? version c) eqn:Hv; (split; [lia|]); intros old' Ho'; rewrite (stored_unique _ _ _ Ho' Ho); lia.
Qed.
Lemma start_newest c m o m' app : init_result c m o m' → o = Ok app →
  version c ≤ version (config app) ∧ ∀ c', stored m' c' → version c' ≤ version (config app).
Proof.
  intros [_ Hf Happ] ->. destruct (Happ app eq_refl) as (_ & [Hv Ho]%newest_version & _). split; [done|].
  intros c' Hc'. destruct Hf as [Hf|(old & _ & _ & Hf)]; [eauto using stored_file|]. by rewrite (first_bytes_stored _ _ _ Hf Hc').
Qed.
Lemma step_memory p e : memory_newest p → memory_newest (phone_step p e).
Proof.
  intros Hm. unfold phone_step. destruct e as [c fs|f fs|n| |].
  - destruct (UpdatingConfigurationRepository_init _ _ _ _) as [o fs'] eqn:Hi. apply init_spec in Hi.
    destruct o as [app| |]; intros app' c' Happ; cbn in *; try done. injection Happ as <-. by apply (start_newest _ _ _ _ _ Hi).
  - destruct (ph_app p) as [app|] eqn:Hp; [|done]. destruct (update_tick _ _) as [o [fs' app']] eqn:Ht. apply tick_spec in Ht as [_ _ Hcf _].
    destruct o as [o| |]; intros app2 c' Happ Hc'; cbn in *; try done. injection Happ as <-.
    destruct Hcf as [[-> Hf]|(_ & Hv & [Hf|Hf])]; [eapply Hm; eauto using stored_file| |by rewrite (first_bytes_stored _ _ _ Hf Hc')].
    apply (stored_file _ _ _ Hf), (Hm app) in Hc'; [lia|done].
  - destruct (ph_app p) as [app|] eqn:Hp; [|done]. intros app' c' [= <-] Hc'. by apply (Hm app).
  - destruct (ph_app p) as [app|] eqn:Hp; [|done]. intros app' c' [= <-] Hc'. by apply (Hm app).
  - destruct (ph_app p); intros app' c' [=].
Qed.
Lemma run_memory l p : memory_newest p → memory_newest (phone_run p l).
Proof. revert p. induction l as [|e l IH]; intros p Hp; [done|]. by apply IH, step_memory. Qed.

(** C16. The configuration of the wallet over the life of a phone, through starts,
    updates, failed writes and stops at any moment: the configuration that is in
    use, and every one that is passed to a callback, was built into a version of
    the app that was started or came with a signature that verifies with the key of
    the configuration server; the configuration in use is never older than one that
    was stored before, nor than the one that the process had before, nor than the
    one that the app was built with. *)
Theorem configuration_trusted_and_newest l1 l2 app
    (Hrun : ph_app (phone_run new_phone (l1 ++ l2)) = Some app) :
  trusted (l1 ++ l2) (config app) ∧
  (∀ c, c ∈ ph_called (phone_run new_phone (l1 ++ l2)) → trusted (l1 ++ l2) c.2) ∧
  (∀ c, stored (ph_files (phone_run new_phone l1)) c → version c ≤ version (config app)) ∧
  (forallb (negb ∘ is_start) l2 = true →
   ∃ app1, ph_app (phone_run new_phone l1) = Some app1 ∧ version (config app1) ≤ version (config app)) ∧
  (∀ c fs, l2 = [Start c fs] → version c ≤ version (config app)).
Proof.
  assert (phone_ok (trusted (l1 ++ l2)) (phone_run new_phone (l1 ++ l2))) as [_ Ha Hc].
  { apply run_ok_events; [done|]. constructor; [|done|by intros ? ?%elem_of_nil]. by intros c (s & Hs & _). }
  split; [by apply Ha|]. split; [exact Hc|]. unfold phone_run in Hrun. rewrite foldl_app in Hrun. fold (phone_run new_phone l1) in Hrun. split_and!.
  - intros c Hs. enough (phone_floor (version c) (phone_run (phone_run new_phone l1) l2)) as [_ _ Hf] by (by apply Hf).
    apply run_floor. constructor; [destruct Hs as (s & -> & _); by eexists|intros c' Hc'; by rewrite (stored_unique _ _ _ Hc' Hs)|].
    intros app1 Happ1. eapply run_memory; [|exact Happ1|exact Hs]. done.
  - intros Hl. by eapply run_process.
  - intros c fs ->. cbn in Hrun. destruct (UpdatingConfigurationRepository_init _ _ _ _) as [o fs'] eqn:Hi. apply init_spec in Hi.
    destruct o as [app'| |]; cbn in Hrun; try done. injection Hrun as <-. exact (proj1 (start_newest _ _ _ _ _ Hi eq_refl)).
Qed.

(** ** The configuration server *)
Context `{!EtagLib}.
Definition honest (jwt : string) (now : Z) : FetchInput := mkFetchInput (configuration jwt) now.
Definition server_tag (jwt : string) : string := entity_tag_to_string (entity_tag_from_data jwt).
(** The tag that a client has does not match the configuration of the server. *)
Definition other_tag (jwt : string) (e : option string) : Prop :=
  match e with Some e => ∃ t, tag_of_request e = Some t ∧ weak_eq (entity_tag_from_data jwt) t = false | None => True end.
Lemma configuration_reply jwt url e : other_tag jwt e → configuration jwt (mkConfigRequest url e) = Ok (mkConfigResponse 200 (Some (server_tag jwt)) (Some jwt)).
Proof.
  unfold configuration, other_tag. cbn [if_none_match]. unfold header_from_str. rewrite entity_tag_visible. destruct e as [e|]; [|done].
  by intros (t & -> & ->).
Qed.
Lemma tag_of_server_tag jwt : tag_of_request (server_tag jwt) = Some (entity_tag_from_data jwt).
Proof. unfold tag_of_request, header_to_str, server_tag. rewrite entity_tag_visible. apply entity_tag_parse_to_string. Qed.
Lemma configuration_same jwt url : configuration jwt (mkConfigRequest url (Some (server_tag jwt))) = Ok (mkConfigResponse NOT_MODIFIED None (Some "")).
Proof. unfold configuration. cbn [if_none_match]. by rewrite tag_of_server_tag, weak_eq_refl. Qed.
Lemma configuration_cut jwt jwt' url n : (n < String.length (server_tag jwt'))%nat →
  configuration jwt (mkConfigRequest url (Some (str_take n (server_tag jwt')))) = Ok (mkConfigResponse 400 None (Some "")).
Proof.
  intros Hn. unfold configuration. cbn [if_none_match]. unfold tag_of_request, header_to_str.
  rewrite all_bytes_take by apply entity_tag_visible. cbn [mbind option_bind]. unfold server_tag. by rewrite entity_tag_parse_cut.
Qed.

(** A server whose new configuration the process can take. *)
Record offers (app : App) (c : WalletConfiguration) (jwt : string) (now : Z) : Prop := {
  offers_url : is_ok (BaseUrl_join (E:=ConfigurationError) (hc_base_url (app_client app)) "wallet-config") = true;
  offers_signed : ∃ header privkey, Jwt_sign c header privkey = Ok jwt ∧ alg header = ES256 ∧ hc_signing_public_key (app_client app) = verifying_key privkey;
  offers_valid : claims_valid now validations c = true;
  offers_tag : other_tag jwt (latest_etag (app_client app));
  offers_newer : version (config app) < version c
}.
Definition with_update (app : App) (c : WalletConfiguration) (tag : string) : App :=
  mkUpdatingRepository (mkFileRepository (mkHttpRepository (set_etag (Some tag) (app_client app)) c)) (callback app).
#[local] Arguments fs_write : simpl never.
Lemma honest_get fs cl c jwt now url header privkey : BaseUrl_join (E:=ConfigurationError) (hc_base_url cl) "wallet-config" = Ok url →
  Jwt_sign c header privkey = Ok jwt → alg header = ES256 → hc_signing_public_key cl = verifying_key privkey →
  claims_valid now validations c = true → other_tag jwt (latest_etag cl) →
  get_wallet_config (honest jwt now) (fs, cl) =
    match fs_write ETAG_FILENAME (server_tag jwt) fs with
    | (Ok _, fs1) => (Ok (Some c), (fs1, set_etag (Some (server_tag jwt)) cl))
    | (Err e, fs1) => (Err (ConfigFile e), (fs1, cl))
    | (Panic, fs1) => (Panic, (fs1, cl))
    end.
Proof.
  intros Hurl Hsign Halg Hkey Hvalid Htag. unfold get_wallet_config, sbind, st_get, st_lift, on_fs, st_map_err, store_latest_etag. cbn [fst snd honest fi_answer fi_now].
  rewrite Hurl, configuration_reply by done. cbn [map_err cr_status cr_etag cr_body ok_or]. change (is_error_status 200) with false.
  rewrite decide_False by done. cbn [fst snd]. destruct (fs_write _ _ fs) as [[[]|e|] fs1]; cbn [map_err]; [|reflexivity|reflexivity].
  unfold st_put, Jwt_parse_and_verify. cbn [fst snd]. rewrite Hkey, (Jwt_sign_verify _ _ _ _ _ _ Hsign); [reflexivity|rewrite Halg; apply list_elem_of_here|exact Hvalid].
Qed.
(** A turn of the update task against the server. *)
Lemma honest_tick fs app c jwt now : offers app c jwt now →
  update_tick (honest jwt now) (fs, app) =
    match fs_write ETAG_FILENAME (server_tag jwt) fs with
    | (Ok _, fs1) =>
        match update_config_file c fs1 with
        | (Ok _, fs2) => (Ok ((λ n, (n, c)) <$> callback app), (fs2, with_update app c (server_tag jwt)))
        | (Err _, fs2) => (Ok None, (fs2, with_update app c (server_tag jwt)))
        | (Panic, fs2) => (Panic, (fs2, with_update app c (server_tag jwt)))
        end
    | (Err _, fs1) => (Ok None, (fs1, app))
    | (Panic, fs1) => (Panic, (fs1, app))
    end.
Proof.
  intros [Hurl (header & privkey & Hsign & Halg & Hkey) Hvalid Htag Hv]. destruct app as [[[cl old]] cb]. unfold app_client in *. cbn in Hkey, Htag, Hv.
  destruct (BaseUrl_join _ _) as [url| |] eqn:Hu; [|done|done]. unfold update_tick, sbind at 1, st_try, on_part at 1. cbn [fst snd wrapped callback].
  unfold fetch, file_updateable, fetch, http_updateable, sbind, on_part. cbn [fst snd wrapped_http client].
  rewrite (honest_get fs cl c jwt now url header privkey) by done. destruct (fs_write _ _ fs) as [[[]|e|] fs1]; [|done|done].
  unfold st_get. cbn [fst snd http_config]. replace (version c <=? version old) with false by lia. unfold st_put, on_fs, st_map_err. cbn.
  by destruct (update_config_file _ fs1) as [[[]|e|] fs2].
Qed.

Lemma update_file c s fs : config_to_vec c = Some s → update_config_file c fs = fs_write CONFIG_FILENAME s fs.
Proof. unfold update_config_file, write_config, sbind, st_lift. by intros ->. Qed.
(** When the tag does not match or is refused, nothing happens. *)
Lemma refused_tick f fs (app : App) : (∀ url, ∃ r, fi_answer f (mkConfigRequest url (latest_etag (app_client app))) = Ok r ∧
    (is_error_status (cr_status r) = true ∨ cr_status r = NOT_MODIFIED)) →
  (update_tick f (fs, app) = (Ok None, (fs, app)) ∨ update_tick f (fs, app) = (Panic, (fs, app))) ∧
  (is_ok (BaseUrl_join (E:=ConfigurationError) (hc_base_url (app_client app)) "wallet-config") = true → update_tick f (fs, app) = (Ok None, (fs, app))).
Proof.
  intros Hf. destruct app as [[[cl old]] cb]. unfold app_client in *. cbn [wrapped wrapped_http client] in *.
  assert (((∃ e, get_wallet_config f (fs, cl) = (Err e, (fs, cl))) ∨ get_wallet_config f (fs, cl) = (Ok None, (fs, cl)) ∨
    get_wallet_config f (fs, cl) = (Panic, (fs, cl))) ∧
    (is_ok (BaseUrl_join (E:=ConfigurationError) (hc_base_url cl) "wallet-config") = true → get_wallet_config f (fs, cl) ≠ (Panic, (fs, cl)))) as [Hg Hu].
  { unfold get_wallet_config, sbind, st_get, st_lift. cbn [fst snd]. destruct (BaseUrl_join _ _) as [url|e|]; [|by split; [eauto|]..].
    destruct (Hf url) as (r & Hr & Hs). rewrite Hr. cbn [map_err]. destruct (is_error_status (cr_status r)) eqn:He.
    - destruct (cr_body r); (split; [by eauto|done]).
    - destruct Hs as [?|Hs]; [done|]. rewrite Hs, decide_True by done. split; [|done]. by eauto. }
  assert (∀ o, get_wallet_config f (fs, cl) = (o, (fs, cl)) → (∀ c, o ≠ Ok (Some c)) →
    update_tick f (fs, mkUpdatingRepository (mkFileRepository (mkHttpRepository cl old)) cb) =
      (match o with Panic => Panic | _ => Ok None end, (fs, mkUpdatingRepository (mkFileRepository (mkHttpRepository cl old)) cb))) as Ht.
  { intros o Ho Hn. unfold update_tick, sbind at 1, st_try, on_part at 1. cbn [fst snd wrapped callback].
    unfold fetch, file_updateable, fetch, http_updateable, sbind, on_part. cbn [fst snd wrapped_http client]. rewrite Ho.
    destruct o as [[c|]|e|]; [by destruct (Hn c)|reflexivity..]. }
  destruct Hg as [(e & Hg)|[Hg|Hg]]; rewrite (Ht _ Hg) by done; [split; [by left|done]..|].
  split; [by right|]. intros Hok. by destruct (Hu Hok).
Qed.

(** A start when nothing fails. *)
Lemma get_config_file_works m c : stored m c → get_config_file (mkFileSystem m []) = (Ok (Some c), mkFileSystem m []).
Proof.
  intros (s & Hs & Hc). unfold file_of in Hs.
  unfold get_config_file, read_config, fs_try_exists, fs_read, sbind, sret, st_lift. cbn [fs_event fs_events head default fs_after files tail].
  rewrite bool_decide_true by (by rewrite Hs). cbn [negb fs_event fs_events head default fs_after files tail]. rewrite Hs. cbn [ok_or]. by rewrite Hc.
Qed.
Lemma read_latest_etag_works m : (∀ e, m !! ETAG_FILENAME = Some e → all_bytes header_byte e = true) →
  read_latest_etag (mkFileSystem m []) = (Ok (m !! ETAG_FILENAME), mkFileSystem m []).
Proof.
  intros He. unfold read_latest_etag, fs_try_exists, fs_read, sbind, sret, st_lift. cbn [fs_event fs_events head default fs_after files tail].
  destruct (m !! ETAG_FILENAME) as [e|] eqn:Hm.
  - rewrite bool_decide_true by by eexists. cbn [negb fs_event fs_events head default fs_after files tail]. rewrite Hm. cbn [ok_or].
    unfold header_from_bytes. by rewrite He.
  - rewrite bool_decide_false by by intros []. done.
Qed.
Lemma start_works m i c : stored m c → version i ≤ version c → (∀ e, m !! ETAG_FILENAME = Some e → all_bytes header_byte e = true) →
  UpdatingConfigurationRepository_init base_url signing_public_key i (mkFileSystem m []) =
    (Ok (mkUpdatingRepository (mkFileRepository (mkHttpRepository
      (mkHttpConfigurationClient base_url signing_public_key (m !! ETAG_FILENAME)) c)) None), mkFileSystem m []).
Proof.
  intros Hs Hv He. unfold UpdatingConfigurationRepository_init, FileStorageConfigurationRepository_init, HttpConfigurationRepository_new, HttpConfigurationClient_new.
  unfold sbind, st_map_err, sret. rewrite (get_config_file_works m c Hs). cbn [map_err]. replace (version c <? version i) with false by lia.
  by rewrite read_latest_etag_works.
Qed.

(** C33. An update arrives: when the server has a signed configuration that is newer
    than the one in use and whose tag is not the one that the client has stored (as
    it is after a turn that was interrupted, [interrupted_update_never_delivered]),
    and nothing fails, one turn of the update task makes it the
    configuration in use, stores it with its tag and calls the callback; further
    turns change nothing, and every later start of an app that was not built with a
    newer one uses it. *)
Theorem configuration_update_delivered p app c s jwt now
    (Happ : ph_app p = Some app) (Hoffers : offers app c jwt now) (Hjson : config_to_vec c = Some s) :
  ∃ app' p', p' = mkPhone (<[CONFIG_FILENAME := s]> (<[ETAG_FILENAME := server_tag jwt]> (ph_files p))) (Some app')
      (ph_called p ++ option_list ((λ n, (n, c)) <$> callback app)) ∧
    config app' = c ∧ phone_step p (Tick (honest jwt now) []) = p' ∧
    (∀ now' fs, phone_step p' (Tick (honest jwt now') fs) = p') ∧
    (∀ i, version i ≤ version c → ∃ app'', ph_app (phone_step p' (Start i [])) = Some app'' ∧ config app'' = c).
Proof.
  exists (with_update app c (server_tag jwt)). eexists. split; [reflexivity|]. split; [done|]. split_and!.
  - unfold phone_step. rewrite Happ, (honest_tick _ _ _ _ _ Hoffers). unfold fs_write at 1. cbn [fs_event fs_events head default fs_after files tail].
    by rewrite (update_file c s).
  - intros now' fs. cbn [phone_step ph_app ph_files ph_called].
    rewrite (proj2 (refused_tick (honest jwt now') _ (with_update app c (server_tag jwt))
      ltac:(intros url; eexists; split; [apply configuration_same|by right])) (offers_url _ _ _ _ Hoffers)).
    cbn. by rewrite app_nil_r.
  - intros i Hi. cbn [phone_step ph_app ph_files ph_called]. rewrite (start_works _ i c); [by eexists| |done|].
    + exists s. split; [|by apply config_from_to]. unfold file_of. by rewrite lookup_insert, decide_True.
    + intros e. rewrite lookup_insert_ne, lookup_insert, decide_True by done. intros [= <-].
      eapply all_bytes_impl; [apply visible_header_byte|apply entity_tag_visible].
Qed.

(** ** Interrupted updates *)
Lemma fs_write_works name s m evs : fs_write name s (mkFileSystem m (FsWorks :: evs)) = (Ok tt, mkFileSystem (<[name := s]> m) evs).
Proof. done. Qed.
Lemma fs_write_stops name s m w evs : fs_write name s (mkFileSystem m (FsStops w :: evs)) = (Panic, mkFileSystem (fs_left name s m w) evs).
Proof. done. Qed.
(** A phone with a tag for which every answer in [l] is a refusal. *)
Record stuck (v : Z) (tag : string) (p : Phone) : Prop := {
  stuck_tag : ph_files p !! ETAG_FILENAME = Some tag;
  stuck_stored c : stored (ph_files p) c → version c < v;
  stuck_app app : ph_app p = Some app → latest_etag (app_client app) = Some tag ∧ version (config app) < v
}.
Definition refuses (tag : string) (e : ConfigEvent) : Prop := ∀ f fs, e = Tick f fs → ∀ url, ∃ r,
  fi_answer f (mkConfigRequest url (Some tag)) = Ok r ∧ (is_error_status (cr_status r) = true ∨ cr_status r = NOT_MODIFIED).
Definition starts_older (v : Z) (e : ConfigEvent) : Prop := ∀ i fs, e = Start i fs → version i < v.
Lemma step_stuck v tag p e : refuses tag e → starts_older v e → stuck v tag p → stuck v tag (phone_step p e).
Proof.
  intros Hr Ho [Ht Hs Ha]. unfold phone_step. destruct e as [c fs|f fs|n| |].
  - destruct (UpdatingConfigurationRepository_init _ _ _ _) as [o fs'] eqn:Hi. apply init_spec in Hi as [He Hf Happ]. cbn [files] in *.
    specialize (Ho _ _ eq_refl). rewrite Ht in He. assert (∀ c', stored (files fs') c' → version c' < v) as Hs'.
    { intros c' Hc'. destruct Hf as [Hf|(old & _ & _ & Hf)]; [eauto using stored_file|]. by rewrite (first_bytes_stored _ _ _ Hf Hc'). }
    destruct o as [app| |]; constructor; cbn; try done. intros app' [= <-]. destruct (Happ app eq_refl) as (_ & Hn & Hcl).
    unfold app_client. rewrite Hcl. split; [done|]. destruct (newest_or _ _ _ Hn) as [->|?]; [done|by apply Hs].
  - destruct (ph_app p) as [app|] eqn:Hp; [|constructor; by rewrite ?Hp]. destruct (Ha app eq_refl) as [He Hv].
    destruct (refused_tick f (mkFileSystem (ph_files p) fs) app) as [[Hu|Hu] _]; [rewrite He; by eapply Hr|..]; rewrite Hu; constructor; cbn; try done.
  - destruct (ph_app p) as [app|] eqn:Hp; constructor; cbn; rewrite ?Hp; try done. intros app' [= <-]. exact (Ha app eq_refl).
  - destruct (ph_app p) as [app|] eqn:Hp; constructor; cbn; rewrite ?Hp; try done. intros app' [= <-]. exact (Ha app eq_refl).
  - destruct (ph_app p); by constructor.
Qed.
Lemma run_stuck v tag l p : Forall (refuses tag) l → Forall (starts_older v) l → stuck v tag p → stuck v tag (phone_run p l).
Proof.
  intros Hr Ho. revert p. induction l as [|e l IH]; intros p Hp; [done|]. inversion_clear Hr. inversion_clear Ho. apply IH; [done|done|]. by apply step_stuck.
Qed.
(** Every turn of the update task is answered by the configuration server, with one
    of the configurations that [served] allows. *)
Definition served_by (served : string → Prop) (e : ConfigEvent) : Prop := ∀ f fs, e = Tick f fs →
  ∃ jwt, served jwt ∧ ∀ r, fi_answer f r = configuration jwt r.

(** A process that stops at the wrong moment during an update.  When it stops
    after the tag of the new configuration was written and before the configuration
    was, the configuration is never delivered: the server answers every later
    request, also those of later starts, that nothing was modified.  When it stops
    while the tag is written and leaves a part of it, no configuration is delivered
    anymore: the server refuses the tag whatever configuration it has.  In both
    cases the wallet goes on with an older configuration. *)
Theorem interrupted_update_never_delivered p app c s jwt now
    (Happ : ph_app p = Some app) (Hoffers : offers app c jwt now) (Hjson : config_to_vec c = Some s)
    (Hstored : ∀ c', stored (ph_files p) c' → version c' < version c) :
  (∀ l app', Forall (served_by (λ jwt', jwt' = jwt)) l → Forall (starts_older (version c)) l →
     ph_app (phone_run (phone_step p (Tick (honest jwt now) [FsWorks; FsStops None])) l) = Some app' → version (config app') < version c) ∧
  (∀ n l app', (n < String.length (server_tag jwt))%nat → Forall (served_by (λ _, True)) l → Forall (starts_older (version c)) l →
     ph_app (phone_run (phone_step p (Tick (honest jwt now) [FsStops (Some n)])) l) = Some app' → version (config app') < version c).
Proof.
  split.
  - intros l app' Hl Ho Hrun. eapply (stuck_app _ (server_tag jwt)); [|exact Hrun]. apply run_stuck; [|done|].
    + eapply list.Forall_impl; [exact Hl|]. intros e He f fs -> url. destruct (He f fs eq_refl) as (jwt' & -> & Hf). rewrite Hf.
      eexists. split; [apply configuration_same|by right].
    + unfold phone_step. rewrite Happ, (honest_tick _ _ _ _ _ Hoffers). rewrite fs_write_works, (update_file c s), fs_write_stops by done.
      constructor; cbn; [by rewrite lookup_insert, decide_True| |done]. intros c' Hc'. apply Hstored.
      eapply stored_file; [|exact Hc']. unfold file_of. by rewrite lookup_insert_ne.
  - intros n l app' Hn Hl Ho Hrun. eapply (stuck_app _ (str_take n (server_tag jwt))); [|exact Hrun]. apply run_stuck; [|done|].
    + eapply list.Forall_impl; [exact Hl|]. intros e He f fs -> url. destruct (He f fs eq_refl) as (jwt' & _ & Hf). rewrite Hf.
      eexists. split; [by apply configuration_cut|by left].
    + unfold phone_step. rewrite Happ, (honest_tick _ _ _ _ _ Hoffers). rewrite fs_write_stops.
      constructor; cbn; [by rewrite lookup_insert, decide_True| |done]. intros c' Hc'. apply Hstored.
      eapply stored_file; [|exact Hc']. unfold file_of. by rewrite lookup_insert_ne.
Qed.

(** A process that stops while it writes a new configuration and leaves a part
    of the file: from then on the wallet cannot be started, whatever happens. *)
Theorem interrupted_write_blocks_start p app c s jwt now n l
    (Happ : ph_app p = Some app) (Hoffers : offers app c jwt now) (Hjson : config_to_vec c = Some s) (Hn : (n < String.length s)%nat) :
  ph_app (phone_run (phone_step p (Tick (honest jwt now) [FsWorks; FsStops (Some n)])) l) = None.
Proof.
  enough (∀ p', ph_app p' = None → file_of (ph_files p') = Some (str_take n s) → ph_app (phone_run p' l) = None) as Hrun.
  { unfold phone_step. rewrite Happ, (honest_tick _ _ _ _ _ Hoffers). rewrite fs_write_works, (update_file c s), fs_write_stops by done.
    apply Hrun; [done|]. unfold file_of. cbn. by rewrite lookup_insert, decide_True. }
  assert (∀ m c', file_of m = Some (str_take n s) → stored m c' → False) as Hno.
  { intros m c' Hm (s' & Hs' & Hc'). assert (s' = str_take n s) as -> by congruence. by rewrite (config_from_cut c s n) in Hc'. }
  induction l as [|e l IH]; intros p' Hp' Hf; [done|]. cbn. unfold phone_step. rewrite Hp'. destruct e; try by apply IH.
  destruct (UpdatingConfigurationRepository_init _ _ _ _) as [o fs'] eqn:Hi. apply init_spec in Hi as [_ Hfile Ha]. cbn [files] in *.
  assert (file_of (files fs') = Some (str_take n s)) as Hf' by (destruct Hfile as [->|(old & Ho & _)]; [done|]; by destruct (Hno _ _ Hf Ho)).
  destruct o as [a| |]; [|by apply IH..]. destruct (Ha a eq_refl) as (_ & [[? _]|(old & Ho & _)] & _); [congruence|by destruct (Hno _ _ Hf Ho)].
Qed.

End ConfigurationFacts.
