(* ===== verification/ConfigurationWitness.v ===== *)
(** * A phone and a configuration server

    Concrete codecs and tags, and runs of a phone whose configuration is updated,
    or whose update is interrupted. *)
From stdpp Require Import base gmap strings list option countable.
From Stdlib Require Import ZArith Lia Ascii.
From S2P Require Import Prelude Crypto Jose Concrete Protocol Configuration ConfigurationFacts.
Import Crates.

(** ** Codecs: binary digits and a closing brace *)
Fixpoint brace_digits (p : positive) : string :=
  match p with xH => "}" | xO p => String "0" (brace_digits p) | xI p => String "1" (brace_digits p) end.
Fixpoint of_brace_digits (s : string) : option positive :=
  match s with
  | String a s =>
      if decide (a = "}"%char) then if decide (s = "") then Some xH else None
      else if decide (a = "0"%char) then xO <$> of_brace_digits s
      else if decide (a = "1"%char) then xI <$> of_brace_digits s else None
  | EmptyString => None
  end.
Lemma of_brace_digits_to p : of_brace_digits (brace_digits p) = Some p.
Proof. induction p as [p IH|p IH|]; simpl; by rewrite ?IH. Qed.
Lemma of_brace_digits_cut p n : (n < String.length (brace_digits p))%nat → of_brace_digits (str_take n (brace_digits p)) = None.
Proof.
  revert n. induction p as [p IH|p IH|]; intros [|n] Hn; simpl in *; try done; [rewrite IH by lia; done..|lia].
Qed.

#[local] Instance http_headers : HttpHeaders.
Proof.
  refine {|
    header_byte b := let n := N_of_ascii b in (32 <=? n)%N && negb (n =? 127)%N;
    visible_byte b := let n := N_of_ascii b in (32 <=? n)%N && (n <? 127)%N
  |}.
  intros b. rewrite !andb_true_iff, negb_true_iff, N.leb_le, N.ltb_lt, N.eqb_neq. lia.
Defined.
#[local] Instance etag_lib : EtagLib.
Proof.
  refine {|
    EntityTag := positive; entity_tag_from_data s := countable.encode s; entity_tag_to_string := brace_digits;
    entity_tag_parse := of_brace_digits; weak_eq x y := bool_decide (x = y)
  |}.
  - induction t as [t IH|t IH|]; simpl; by rewrite ?IH.
  - apply of_brace_digits_to.
  - intros t n. apply of_brace_digits_cut.
  - intros t. by apply bool_decide_eq_true.
Defined.
#[local] Instance config_urls : UrlJoin := {|
  url_path_is_dir _ := true; url_push_slash u := u; url_join base s := Some (base +:+ s)
|}.

Abbreviation app2app_tuple := (option string * string)%type (only parsing).
Abbreviation config_tuple := ((Z * Z) * (string * string * string) * (string * string * string * list string * option app2app_tuple) * list string * list string * Z)%type (only parsing).
Definition config_repr (c : WalletConfiguration) : config_tuple :=
  let a := account_server c in let p := pid_issuance c in
  ((inactive_timeout (lock_timeouts c), background_timeout (lock_timeouts c)),
   (account_base_url a, certificate_public_key a, instruction_result_public_key a),
   (pid_issuer_url p, digid_url p, digid_client_id p, digid_trust_anchors p,
    (λ d, match d with Production l => (None, l) | Preprod h l => (Some h, l) end) <$> digid_app2app p),
   rp_trust_anchors (disclosure c), mdoc_trust_anchors c, version c).
Definition config_of (x : config_tuple) : WalletConfiguration :=
  let '(t, a, p, rp, mdoc, v) := x in let '(u1, k1, k2) := a in let '(u2, u3, i, l, d) := p in
  mkWalletConfiguration _ (mkLockTimeouts t.1 t.2) (mkAccountServerConfiguration _ u1 k1 k2)
    (mkPidIssuanceConfiguration u2 u3 i l ((λ d : app2app_tuple, match d.1 with Some h => Preprod h d.2 | None => Production d.2 end) <$> d))
    (mkDisclosureConfiguration rp) mdoc v.
Lemma config_round c : config_of (config_repr c) = c.
Proof. by destruct c as [[] [] [? ? ? ? [[]|]] [] ? ?]. Qed.
#[local] Instance WalletConfiguration_eq_dec : EqDecision WalletConfiguration.
Proof. intros c c'. destruct (decide (config_repr c = config_repr c')) as [H|H]; [left|right; congruence]. by rewrite <- (config_round c), H, config_round. Defined.
#[local] Instance WalletConfiguration_countable : Countable WalletConfiguration := inj_countable' config_repr config_of config_round.
#[local] Instance config_json : ConfigJson.
Proof.
  refine {|
    config_to_vec c := Some (brace_digits (countable.encode (config_repr c)));
    config_from_slice s := p ← of_brace_digits s; config_of <$> countable.decode p
  |}.
  - intros c s [= <-]. rewrite of_brace_digits_to. change (config_of <$> countable.decode (countable.encode (config_repr c)) = Some c). rewrite decode_encode.
    by apply (f_equal Some), config_round.
  - intros c s n [= <-] Hn. by rewrite of_brace_digits_cut.
Defined.

(** ** A run *)
Definition ex_config (v : Z) : WalletConfiguration :=
  mkWalletConfiguration _ default_lock_timeouts (mkAccountServerConfiguration _ "a" "k" "r") (mkPidIssuanceConfiguration "i" "d" "c" [] None)
    (mkDisclosureConfiguration []) [] v.
Definition ex_header : Header := {| alg := ES256; typ := None; kid := None; jwk := None; x5c := None |}.
Definition ex_config_jwt : string := match Jwt_sign (ex_config 7) ex_header "server" with Ok jwt => jwt | _ => "" end.
Definition ex_config_key : VerifyingKey := "server".
Definition ex_run : Phone → list ConfigEvent → Phone := phone_run "u" ex_config_key.
Definition ex_started : Phone := ex_run new_phone [Start (ex_config 5) []; RegisterCallback 1].
Definition ex_update : ConfigEvent := Tick (honest ex_config_jwt 0) [].
Definition ex_app : UpdatingConfigurationRepository (FileStorageConfigurationRepository HttpConfigurationRepository) :=
  mkUpdatingRepository (mkFileRepository (mkHttpRepository (mkHttpConfigurationClient "u" ex_config_key None) (ex_config 5))) (Some 1%nat).
Lemma ex_offers : offers ex_app (ex_config 7) ex_config_jwt 0.
Proof.
  constructor; [reflexivity| |reflexivity|exact I|reflexivity]. exists ex_header, "server". split; [|by split].
  unfold ex_config_jwt. by destruct (Jwt_sign _ _ _) as [jwt| |] eqn:Hs.
Qed.
Definition ex_json : string := default "" (config_to_vec (ex_config 7)).

Lemma running (o : option (UpdatingConfigurationRepository (FileStorageConfigurationRepository HttpConfigurationRepository))) v :
  (λ a, version (config a)) <$> o = Some v → ∃ app, o = Some app ∧ version (config app) = v.
Proof. destruct o as [app|]; intros [= <-]. by exists app. Qed.

(** A newer configuration is received, a newer app is started. *)
Definition ex_first : list ConfigEvent := [Start (ex_config 5) []; ex_update].
Lemma configuration_trusted_and_newest_witness : ∃ app,
  ph_app (phone_run "u" ex_config_key new_phone (ex_first ++ [Start (ex_config 6) []])) = Some app ∧
  trusted ex_config_key (ex_first ++ [Start (ex_config 6) []]) (config app) ∧
  version (config app) = 7 ∧ version (ex_config 6) ≤ version (config app).
Proof.
  destruct (running (ph_app (phone_run "u" ex_config_key new_phone (ex_first ++ [Start (ex_config 6) []]))) 7) as (app & Hrun & Hv); [vm_compute; reflexivity|].
  exists app. split; [exact Hrun|].
  destruct (configuration_trusted_and_newest "u" ex_config_key ex_first [Start (ex_config 6) []] app Hrun) as (Htrusted & _ & _ & _ & Hstart).
  split; [exact Htrusted|]. split; [exact Hv|exact (Hstart _ _ eq_refl)].
Defined.
Definition ex_phone : Phone := mkPhone ∅ (Some ex_app) [].
Lemma configuration_update_delivered_witness : ∃ app',
  ph_app (phone_step "u" ex_config_key ex_phone ex_update) = Some app' ∧ version (config app') = 7 ∧
  ph_called (phone_step "u" ex_config_key ex_phone ex_update) = [(1%nat, ex_config 7)].
Proof.
  destruct (configuration_update_delivered "u" ex_config_key ex_phone ex_app (ex_config 7) ex_json ex_config_jwt 0)
    as (app' & p' & Hp & Hc & Hs & _); [reflexivity|exact ex_offers|reflexivity|].
  exists app'. unfold ex_update. rewrite Hs, Hp. split; [reflexivity|]. split; [by rewrite Hc|reflexivity].
Defined.
(** The process stops between the two writes; the wallet is started again and
    asks again, and keeps version 5. *)
Abbreviation ex_stopped written := (phone_step "u" ex_config_key ex_phone (Tick (honest ex_config_jwt 0) [FsWorks; FsStops written])).
Definition ex_later : list ConfigEvent := [Start (ex_config 5) []; ex_update; ex_update].
Lemma ex_later_served : Forall (served_by (λ jwt, jwt = ex_config_jwt)) ex_later ∧ Forall (starts_older (version (ex_config 7))) ex_later.
Proof.
  unfold ex_later, ex_update. split; repeat apply Forall_cons_2; try apply Forall_nil_2; intros x fs Hx; inversion Hx; subst; [eexists; by split..|reflexivity].
Qed.
Lemma interrupted_update_never_delivered_witness : ∃ app',
  ph_app (phone_run "u" ex_config_key (ex_stopped None) ex_later) = Some app' ∧ version (config app') < version (ex_config 7).
Proof.
  destruct (running (ph_app (phone_run "u" ex_config_key (ex_stopped None) ex_later)) 5) as (app' & Hrun & _); [vm_compute; reflexivity|].
  exists app'. split; [exact Hrun|].
  destruct (interrupted_update_never_delivered "u" ex_config_key ex_phone ex_app (ex_config 7) ex_json ex_config_jwt 0) as [Hnever _];
    [reflexivity|exact ex_offers|reflexivity|intros c' (s & Hs & _); discriminate|].
  exact (Hnever ex_later app' (proj1 ex_later_served) (proj2 ex_later_served) Hrun).
Defined.
(** The process stops after ten bytes of the file. *)
Lemma interrupted_write_blocks_start_witness :
  ph_app (phone_run "u" ex_config_key (ex_stopped (Some 10%nat)) [Start (ex_config 5) []; Start (ex_config 8) []; ex_update]) = None.
Proof.
  apply (interrupted_write_blocks_start "u" ex_config_key ex_phone ex_app (ex_config 7) ex_json ex_config_jwt 0);
    [reflexivity|exact ex_offers|reflexivity|]. apply Nat.ltb_lt. vm_compute. reflexivity.
Defined.
