(* ===== verification/PresentationExchange.v ===== *)
(** * Presentation Exchange

    Models [openid4vc/src/presentation_exchange.rs]: the presentation definition
    in which a verifier describes the attributes it asks for, its conversion
    from and to the items requests of ISO 18013-5, and the check of the
    presentation submission of the wallet.  The regular expression for field
    paths is written out as the parser that it describes. *)
From stdpp Require Import base strings list option sets.
From Stdlib Require Import ZArith Lia Ascii.
From S2P Require Import Prelude IndexMap Crypto Cbor Cose Engagement Mdoc MdocSigning Protocol.

Inductive FormatAlg := FormatES256.
#[global] Instance FormatAlg_eq_dec : EqDecision FormatAlg.
Proof. solve_decision. Defined.
Inductive VpFormat := VpMsoMdoc (alg : list FormatAlg).

Record Field := mkField { path : list string; intent_to_retain : bool }.
Inductive LimitDisclosure := LimitRequired | LimitPreferred.
Record Constraints := mkConstraints { fields : list Field; limit_disclosure : LimitDisclosure }.
Record InputDescriptor := mkInputDescriptor {
  descriptor_id : string;
  descriptor_format : VpFormat;
  constraints : Constraints
}.
Record PresentationDefinition := mkPresentationDefinition {
  definition_id : string;
  input_descriptors : list InputDescriptor
}.

Inductive PdConversionError := TooManyPaths | UnsupportedJsonPathExpression | UnsupportedAlgs.

(** ** Field paths *)

(** The two quotation marks, ['] and the double one. *)
Definition is_quote (a : ascii) : bool := Ascii.eqb a "'" || Ascii.eqb a "034".

Definition expect (p : ascii → bool) (s : string) : option string :=
  match s with String a rest => if p a then Some rest else None | EmptyString => None end.
Definition expect_char (c : ascii) : string → option string := expect (Ascii.eqb c).

(** The longest prefix without quotation marks, and the rest. *)
Fixpoint span_unquoted (s : string) : string * string :=
  match s with
  | EmptyString => (EmptyString, EmptyString)
  | String a rest =>
      if is_quote a then (EmptyString, s)
      else let '(x, y) := span_unquoted rest in (String a x, y)
  end.

(** The part [\[QxQ\]] of the expression, for quotation marks [Q]. *)
Definition quoted_segment (s : string) : option (string * string) :=
  s ← expect_char "[" s; s ← expect is_quote s;
  (let '(x, s) := span_unquoted s in s ← expect is_quote s; s ← expect_char "]" s; Some (x, s)).

(** [FIELD_PATH_REGEX]: a dollar sign and two such segments, and nothing else. *)
Definition FIELD_PATH_REGEX (s : string) : option (string * string) :=
  s ← expect_char "$" s;
  ns ← quoted_segment s;
  at_ ← quoted_segment ns.2;
  match at_.2 with EmptyString => Some (ns.1, at_.1) | _ => None end.

(** [Field::parse_paths] *)
Definition parse_paths (f : Field) : outcome PdConversionError (string * string) :=
  match path f with
  | [p] => ok_or UnsupportedJsonPathExpression (FIELD_PATH_REGEX p)
  | _ => Err TooManyPaths
  end.

(** ** Conversions *)
Definition field_path (namespace attr : string) : string := "$['" +:+ namespace +:+ "']['" +:+ attr +:+ "']".

Definition request_fields (r : ItemsRequest) : list Field :=
  mjoin ((λ p : NameSpace * imap DataElementIdentifier bool,
    (λ a : DataElementIdentifier * bool, mkField [field_path p.1 a.1] a.2) <$> p.2) <$> req_name_spaces r).
Definition descriptor_of_request (r : ItemsRequest) : InputDescriptor := {|
  descriptor_id := req_doc_type r;
  descriptor_format := VpMsoMdoc [FormatES256];
  constraints := {| limit_disclosure := LimitRequired; fields := request_fields r |}
|}.
(** [From<&ItemsRequests> for PresentationDefinition], with the random identifier. *)
Definition definition_of_requests (random : string) (rs : list ItemsRequest) : PresentationDefinition := {|
  definition_id := random; input_descriptors := descriptor_of_request <$> rs
|}.

(** [name_spaces.entry(namespace).or_default().insert(attr, intent)] *)
Definition add_field (m : imap NameSpace (imap DataElementIdentifier bool)) (f : (string * string) * bool)
    : imap NameSpace (imap DataElementIdentifier bool) :=
  let '((namespace, attr), intent) := f in
  im_insert namespace (im_insert attr intent (default [] (im_get m namespace))) m.

Definition request_of_descriptor (i : InputDescriptor) : outcome PdConversionError ItemsRequest :=
  let 'VpMsoMdoc alg := descriptor_format i in
  let* _ := guard_err (bool_decide (FormatES256 ∈ alg)) UnsupportedAlgs in
  let* parsed := try_map (λ f, let* p := parse_paths f in Ok (p, intent_to_retain f)) (fields (constraints i)) in
  Ok {| req_doc_type := descriptor_id i; request_info := None; req_name_spaces := foldl add_field [] parsed |}.
(** [TryFrom<&PresentationDefinition> for ItemsRequests] *)
Definition requests_of_definition (pd : PresentationDefinition) : outcome PdConversionError (list ItemsRequest) :=
  try_map request_of_descriptor (input_descriptors pd).

(** ** Submissions *)
Record InputDescriptorMappingObject := mkMapping { mapping_id : string; mapping_format : Format; mapping_path : string }.
Record PresentationSubmission := mkSubmission {
  submission_id : string;
  submission_definition_id : string;
  descriptor_map : list InputDescriptorMappingObject
}.
Inductive PsError :=
  | UnexpectedDescriptorCount (expected found : Z)
  | UnexpectedSubmissionId (expected found : string)
  | UnexpectedInputDescriptorPath (found : string)
  | UnexpectedInputDescriptorId (expected found : string).

(** [PresentationSubmission::verify] *)
Definition verify_descriptor (p : Document * InputDescriptorMappingObject) : outcome PsError unit :=
  let '(doc, input_descriptor) := p in
  let* _ := guard_err (bool_decide (mapping_path input_descriptor = "$"))
              (UnexpectedInputDescriptorPath (mapping_path input_descriptor)) in
  guard_err (bool_decide (mapping_id input_descriptor = doc_type doc))
    (UnexpectedInputDescriptorId (doc_type doc) (mapping_id input_descriptor)).
Definition submission_verify (s : PresentationSubmission) (docs : list Document) (pd : PresentationDefinition)
    : outcome PsError unit :=
  let* _ := guard_err (bool_decide (submission_definition_id s = definition_id pd))
              (UnexpectedSubmissionId (definition_id pd) (submission_definition_id s)) in
  let* _ := guard_err (bool_decide (length (descriptor_map s) = length docs))
              (UnexpectedDescriptorCount (Z.of_nat (length docs)) (Z.of_nat (length (descriptor_map s)))) in
  let* _ := try_map verify_descriptor (zip docs (descriptor_map s)) in
  Ok tt.

(** ** Field paths, printed and parsed *)
Fixpoint unquoted (s : string) : bool :=
  match s with EmptyString => true | String a rest => negb (is_quote a) && unquoted rest end.

Lemma span_unquoted_app s q rest : is_quote q = true →
  span_unquoted (s +:+ String q rest) =
    if unquoted s then (s, String q rest)
    else let '(x, y) := span_unquoted s in (x, y +:+ String q rest).
Proof.
  intros Hq. induction s as [|a s IH]; csimpl.
  - change ("" +:+ String q rest) with (String q rest). simpl. by rewrite Hq.
  - change (String a s +:+ String q rest) with (String a (s +:+ String q rest)). simpl.
    destruct (is_quote a); [done|]. rewrite IH. simpl.
    destruct (unquoted s); [done|]. by destruct (span_unquoted s).
Qed.

(** One segment as it is printed, in front of the rest of the path. *)
Definition segment (x : string) (rest : string) : string := String "[" (String "'" (x +:+ String "'" (String "]" rest))).

Lemma quoted_segment_unquoted x rest : unquoted x = true → quoted_segment (segment x rest) = Some (x, rest).
Proof. intros Hx. unfold quoted_segment, segment. simpl. rewrite span_unquoted_app by done. by rewrite Hx. Qed.

Lemma field_path_segments ns at_ : field_path ns at_ = String "$" (segment ns (segment at_ "")).
Proof. unfold field_path, segment. done. Qed.

(** A path has the four quotation marks of the two segments and no others. *)
Fixpoint quotes (s : string) : nat :=
  match s with EmptyString => 0 | String a rest => (if is_quote a then 1 else 0) + quotes rest end.

Lemma quotes_app a b : quotes (a +:+ b) = (quotes a + quotes b)%nat.
Proof.
  induction a as [|x a IH]; [done|]. change (String x a +:+ b) with (String x (a +:+ b)). simpl. rewrite IH. lia.
Qed.
Lemma unquoted_quotes s : unquoted s = true ↔ quotes s = 0%nat.
Proof. induction s as [|a s IH]; simpl; [done|]. destruct (is_quote a); simpl; [naive_solver lia|done]. Qed.

Lemma expect_quotes p s r : expect p s = Some r →
  ∃ a, p a = true ∧ quotes s = ((if is_quote a then 1 else 0) + quotes r)%nat.
Proof. destruct s as [|a s]; simpl; [done|]. destruct (p a) eqn:E; [|done]. intros [= ->]. by exists a. Qed.
Lemma expect_quote_quotes s r : expect is_quote s = Some r → quotes s = S (quotes r).
Proof. intros (a & Ha & ->)%expect_quotes. by rewrite Ha. Qed.
Lemma expect_char_quotes c s r : is_quote c = false → expect_char c s = Some r → quotes s = quotes r.
Proof. intros Hc (a & Ha%Ascii.eqb_eq & ->)%expect_quotes. subst. by rewrite Hc. Qed.
Lemma span_unquoted_quotes s : quotes s = quotes (span_unquoted s).2.
Proof.
  induction s as [|a s IH]; simpl; [done|]. destruct (is_quote a) eqn:Q; simpl; [by rewrite Q|].
  destruct (span_unquoted s). exact IH.
Qed.

Lemma quoted_segment_quotes s x r : quoted_segment s = Some (x, r) → quotes s = (2 + quotes r)%nat.
Proof.
  unfold quoted_segment. destruct (expect_char "[" s) as [s1|] eqn:E1; simpl; [|done].
  destruct (expect is_quote s1) as [s2|] eqn:E2; simpl; [|done].
  pose proof (span_unquoted_quotes s2) as Hq. destruct (span_unquoted s2) as [y s3]. simpl in Hq.
  destruct (expect is_quote s3) as [s4|] eqn:E4; simpl; [|done].
  destruct (expect_char "]" s4) as [s5|] eqn:E5; simpl; [|done]. intros [= <- <-].
  apply expect_char_quotes in E1, E5; [|done..]. apply expect_quote_quotes in E2, E4. lia.
Qed.

Lemma regex_quotes s p : FIELD_PATH_REGEX s = Some p → quotes s = 4%nat.
Proof.
  unfold FIELD_PATH_REGEX. destruct (expect_char "$" s) as [s1|] eqn:E1; simpl; [|done].
  destruct (quoted_segment s1) as [[x s2]|] eqn:E2; simpl; [|done].
  destruct (quoted_segment s2) as [[y [|]]|] eqn:E3; simpl; [|done..]. intros _.
  apply expect_char_quotes in E1; [|done]. apply quoted_segment_quotes in E2, E3. simpl in E3. lia.
Qed.

Lemma field_path_parses ns at_ :
  FIELD_PATH_REGEX (field_path ns at_) = if unquoted ns && unquoted at_ then Some (ns, at_) else None.
Proof.
  rewrite field_path_segments. destruct (unquoted ns && unquoted at_) eqn:U.
  - apply andb_true_iff in U as [Hn Ha]. unfold FIELD_PATH_REGEX. simpl.
    rewrite quoted_segment_unquoted by done. simpl. by rewrite quoted_segment_unquoted.
  - destruct (FIELD_PATH_REGEX _) as [p|] eqn:R; [|done]. apply regex_quotes in R. exfalso.
    unfold segment in R. cbn [quotes] in R. rewrite !quotes_app in R. cbn [quotes is_quote Ascii.eqb] in R.
    rewrite !quotes_app in R. simpl in R.
    apply andb_false_iff in U as [U|U]; apply not_true_iff_false in U; rewrite unquoted_quotes in U; lia.
Qed.

(** ** Definitions and requests *)
Definition names_unquoted (r : ItemsRequest) : bool :=
  forallb (λ p : NameSpace * imap DataElementIdentifier bool,
    forallb (λ a : DataElementIdentifier * bool, unquoted p.1 && unquoted a.1) p.2) (req_name_spaces r).

(** The maps of a request, as maps. *)
Definition request_wf (r : ItemsRequest) : Prop :=
  NoDup (req_name_spaces r).*1 ∧ Forall (λ p, NoDup p.2.*1) (req_name_spaces r).

(** What is left of a request in a definition: a name space without attributes
    has no field. *)
Definition requested_fields (r : ItemsRequest) : ItemsRequest := {|
  req_doc_type := req_doc_type r;
  req_name_spaces := filter (λ p, p.2 ≠ []) (req_name_spaces r);
  request_info := None
|}.

Definition pairs (ns : NameSpace) (attrs : imap DataElementIdentifier bool) : list ((string * string) * bool) :=
  (λ a : DataElementIdentifier * bool, ((ns, a.1), a.2)) <$> attrs.

Lemma im_get_snoc {K V} `{!EqDecision K} (m : imap K V) k v : k ∉ m.*1 → im_get (m ++ [(k, v)]) k = Some v.
Proof. induction m as [|[k' v'] m IH]; simpl; [by rewrite decide_True|]. intros. rewrite decide_False, IH; set_solver. Qed.
Lemma im_insert_snoc {K V} `{!EqDecision K} (m : imap K V) k v v' :
  k ∉ m.*1 → im_insert k v' (m ++ [(k, v)]) = m ++ [(k, v')].
Proof. induction m as [|[k0 v0] m IH]; simpl; [by rewrite decide_True|]. intros. rewrite decide_False, IH; set_solver. Qed.

Lemma add_fields_same ns acc pre attrs : ns ∉ acc.*1 → NoDup (pre ++ attrs).*1 →
  foldl add_field (acc ++ [(ns, pre)]) (pairs ns attrs) = acc ++ [(ns, pre ++ attrs)].
Proof.
  intros Hns. revert pre. induction attrs as [|[a b] attrs IH]; intros pre Hd; csimpl; [by rewrite app_nil_r|].
  rewrite im_get_snoc, im_insert_snoc by done. simpl.
  rewrite (cons_middle (a, b) pre attrs), (assoc_L (++)) in Hd |- *.
  rewrite im_insert_fresh; [by apply IH|]. rewrite !fmap_app in Hd. apply NoDup_app in Hd as [Hd _].
  apply NoDup_app in Hd as (_ & Hd & _). intros Ha. apply (Hd a Ha). simpl. set_solver.
Qed.

Lemma add_fields_fresh ns acc attrs : ns ∉ acc.*1 → NoDup attrs.*1 → attrs ≠ [] →
  foldl add_field acc (pairs ns attrs) = acc ++ [(ns, attrs)].
Proof.
  intros Hns Hd Hne. destruct attrs as [|[a b] attrs]; [done|]. csimpl.
  assert (im_get acc ns = None) as -> by by apply im_get_None. simpl. rewrite im_insert_fresh by done.
  by apply (add_fields_same ns acc [(a, b)]).
Qed.

Lemma add_fields_all m acc : NoDup (acc ++ m).*1 → Forall (λ p, NoDup p.2.*1) m →
  foldl add_field acc (mjoin ((λ p, pairs p.1 p.2) <$> m)) = acc ++ filter (λ p, p.2 ≠ []) m.
Proof.
  revert acc. induction m as [|[ns attrs] m IH]; intros acc Hd Hi; csimpl; [by rewrite app_nil_r|].
  apply Forall_cons in Hi as [Ha Hi]. rewrite foldl_app. rewrite fmap_app in Hd. simpl in Hd.
  pose proof Hd as (Hd1 & Hd2 & Hd3)%NoDup_app. apply NoDup_cons in Hd3 as [Hnm Hdm].
  destruct (decide (attrs = [])) as [->|Hne].
  - simpl. rewrite filter_cons_False by naive_solver. apply IH; [|done]. rewrite fmap_app. apply NoDup_app. set_solver.
  - rewrite filter_cons_True by done. rewrite add_fields_fresh by (done || set_solver).
    rewrite IH; [by rewrite <-(assoc_L (++))| |done]. rewrite <-(assoc_L (++)). simpl. by rewrite fmap_app.
Qed.

Lemma request_fields_parse r :
  try_map (λ f, let* p := parse_paths f in Ok (p, intent_to_retain f)) (request_fields r) =
    if names_unquoted r then Ok (mjoin ((λ p, pairs p.1 p.2) <$> req_name_spaces r)) else Err UnsupportedJsonPathExpression.
Proof.
  unfold names_unquoted. change (request_fields r) with (mjoin ((λ p : NameSpace * imap DataElementIdentifier bool,
    (λ a : DataElementIdentifier * bool, mkField [field_path p.1 a.1] a.2) <$> p.2) <$> req_name_spaces r)).
  induction (req_name_spaces r) as [|[ns attrs] m IH]; csimpl; [done|]. rewrite try_map_app, IH. clear IH.
  assert (try_map (λ f, let* p := parse_paths f in Ok (p, intent_to_retain f))
    ((λ a : DataElementIdentifier * bool, mkField [field_path ns a.1] a.2) <$> attrs) =
    if forallb (λ a, unquoted ns && unquoted a.1) attrs then Ok (pairs ns attrs) else Err UnsupportedJsonPathExpression) as ->.
  { induction attrs as [|[a b] attrs IH]; csimpl; [done|]. unfold parse_paths at 1. simpl. rewrite field_path_parses.
    destruct (unquoted ns && unquoted a); simpl; [|done]. rewrite IH. by destruct (forallb _ attrs). }
  destruct (forallb _ attrs); simpl; [|done]. by destruct (forallb _ m).
Qed.

Lemma definition_round_trip random rs : Forall request_wf rs →
  requests_of_definition (definition_of_requests random rs) =
    if forallb names_unquoted rs then Ok (requested_fields <$> rs) else Err UnsupportedJsonPathExpression.
Proof.
  intros Hwf. unfold requests_of_definition, definition_of_requests. simpl.
  induction Hwf as [|r rs [Hd Hi] _ IH]; csimpl; [done|]. rewrite IH. clear IH.
  unfold request_of_descriptor at 1. simpl.
  rewrite request_fields_parse. destruct (names_unquoted r); simpl; [|done].
  rewrite (add_fields_all (req_name_spaces r) []) by done. by destruct (forallb _ rs).
Qed.

(** The attributes a verifier asks for reach the wallet unchanged: converting
    items requests to a presentation definition and back yields the same document
    types, name spaces, attributes and retention intents in the same order, less
    the name spaces without attributes and the request info.  This holds exactly
    when no name has a quotation mark in it: otherwise the wallet refuses the
    definition because of an unsupported path. *)
Theorem requests_round_trip random rs (Hwf : Forall request_wf rs) :
  requests_of_definition (definition_of_requests random rs) =
    if forallb names_unquoted rs then Ok (requested_fields <$> rs) else Err UnsupportedJsonPathExpression.
Proof. by apply definition_round_trip. Qed.

Definition pid_request : ItemsRequest :=
  mkItemsRequest "com.example.pid" [("ns1", [("name", true); ("age", false)]); ("empty", []); ("ns2", [("bsn", false)])] None.
Lemma requests_round_trip_witness :
  requests_of_definition (definition_of_requests "id" [pid_request]) =
    Ok [mkItemsRequest "com.example.pid" [("ns1", [("name", true); ("age", false)]); ("ns2", [("bsn", false)])] None].
Proof.
  rewrite (requests_round_trip "id" [pid_request]); [reflexivity|].
  repeat constructor; set_solver.
Defined.

(** A submission with one descriptor per document, in order, is accepted. *)
Lemma submission_verify_Ok s docs pd : submission_verify s docs pd = Ok tt ↔
  submission_definition_id s = definition_id pd ∧
  Forall2 (λ doc m, mapping_path m = "$" ∧ mapping_id m = doc_type doc) docs (descriptor_map s).
Proof.
  unfold submission_verify. split.
  - intros Hs. run_ok Hs. zbool. split; [done|].
    match goal with H : try_map _ _ = _ |- _ => apply try_map_length in H as Hl; apply try_map_Ok in H as Ht end.
    match goal with H : length (descriptor_map s) = _ |- _ => rename H into Hlen end. clear -Ht Hlen.
    revert Hlen x1 Ht. generalize (descriptor_map s) as ms. induction docs as [|d docs IH]; intros [|m ms] Hlen us Ht; try done.
    simpl in Ht. inversion Ht as [|? u ? us' Hv Ht']; subst. constructor; [|by eapply IH; [simpl in Hlen; lia|]].
    unfold verify_descriptor in Hv. run_ok Hv. by zbool.
  - intros [Hid Hf]. rewrite bool_decide_eq_true_2 by done. simpl.
    rewrite (bool_decide_eq_true_2 (length _ = _)) by (symmetry; by eapply Forall2_length). simpl.
    induction Hf as [|d m docs ms [Hp Hm] Hf IH]; [done|]. simpl. rewrite Hp, Hm. simpl.
    rewrite !bool_decide_eq_true_2 by done. simpl. destruct (try_map _ _); done.
Qed.
