(* ===== verification/Issuer.v ===== *)
(** * The issuance server

    Models [openid4vc/src/issuer.rs] with the data of [openid4vc/src/token.rs] and
    [openid4vc/src/credential.rs]: the sessions of the OpenID4VCI protocol and
    the handlers of its endpoints.  The handlers are written against the
    [SessionStore] interface.  The attribute service and the texts of the errors
    are parameters; the random strings that a handler draws are arguments. *)
From stdpp Require Import base gmap strings list option.
From Stdlib Require Import ZArith Lia Ascii.
From S2P Require Import Prelude IndexMap SessionStore Crypto Jose Cbor Cose Engagement Mdoc MdocSigning Protocol.

(** ** Requests and responses *)
Inductive TokenRequestGrantType :=
  | GrantAuthorizationCode (code : AuthorizationCode)
  | GrantPreAuthorizedCode (pre_authorized_code : AuthorizationCode).
Record TokenRequest := mkTokenRequest {
  grant_type : TokenRequestGrantType;
  code_verifier : option string;
  client_id : option string;
  redirect_uri : option string
}.
(** [TokenRequest::code] *)
Definition TokenRequest_code (r : TokenRequest) : AuthorizationCode :=
  match grant_type r with GrantAuthorizationCode c => c | GrantPreAuthorizedCode c => c end.

Inductive AttestationPreview := PreviewMsoMdoc (unsigned_mdoc : UnsignedMdoc) (issuer : Certificate).
Definition preview_unsigned (p : AttestationPreview) : UnsignedMdoc := let 'PreviewMsoMdoc u _ := p in u.
(** [AttestationPreview::copy_count] *)
Definition preview_copy_count (p : AttestationPreview) : Z := u_copy_count (preview_unsigned p).

Inductive TokenType := Bearer | DPoP.

Record TokenResponse := mkTokenResponse {
  access_token : AccessToken;
  token_type : TokenType;
  refresh_token : option string;
  c_nonce : option string;
  scope : option (list string);
  c_nonce_expires_in : option Z;
  expires_in : option Z;
  authorization_details : option AuthorizationDetails
}.
(** [TokenResponse::new] *)
Definition TokenResponse_new (at_ : AccessToken) (n : string) : TokenResponse := {|
  access_token := at_; token_type := DPoP; refresh_token := None; c_nonce := Some n;
  scope := None; c_nonce_expires_in := None; expires_in := None;
  authorization_details := None
|}.
Record TokenResponseWithPreviews := mkTokenResponseWithPreviews {
  token_response : TokenResponse;
  attestation_previews : list AttestationPreview
}.

Record CredentialRequestProofJwtPayload := mkPopPayload {
  pop_iss : string; pop_aud : string; pop_nonce : option string; pop_iat : Z
}.
Inductive CredentialRequestProof := ProofJwt (jwt : string).
Record CredentialRequest := mkCredentialRequest {
  format : Format;
  doctype : option string;
  proof : option CredentialRequestProof
}.
Inductive CredentialResponse := ResponseMsoMdoc (credential : IssuerSigned).

(** ** Errors *)
Inductive IssuanceError :=
  | UnexpectedState
  | UnknownSession (code : AuthorizationCode)
  | SessionStoreFailed (e : SessionStoreError)
  | DpopInvalid (e : DpopError).
Inductive TokenRequestError :=
  | TokenIssuanceError (e : IssuanceError)
  | UnsupportedTokenRequestType
  | AttributeServiceFailed.
Inductive CredentialRequestError :=
  | CredentialIssuanceError (e : IssuanceError)
  | Unauthorized
  | MalformedToken
  | DoctypeNotOffered (d : string)
  | UseBatchIssuance
  | UnsupportedCredentialFormat (f : Format)
  | PopMissingJwk
  | PopIncorrectNonce
  | PopUnsupportedJwtAlgorithm (expected : string) (found : option string)
  | PopJwtDecodingFailed
  | PopJwkConversion (e : JwkConversionError)
  | CoseKeyConversion (e : CryptoError)
  | MissingPrivateKey (d : string)
  | AttestationSigning (e : MdocError)
  | DoctypeMismatch
  | MissingCredentialRequestPoP.

(** ** Sessions *)
Inductive SessionResult := RDone | RFailed (error : string) | RCancelled | RExpired.
Record Created := mkCreated { created_previews : option (list AttestationPreview) }.
Record WaitingForResponse `{!Ecdsa} := mkWaiting {
  w_access_token : AccessToken;
  w_c_nonce : string;
  w_previews : list AttestationPreview;
  w_dpop_public_key : VerifyingKey;
  w_dpop_nonce : string
}.
Record Done := mkDone { session_result : SessionResult }.

Inductive IssuanceData `{!Ecdsa} :=
  | ICreated (c : Created)
  | IWaitingForResponse (w : WaitingForResponse)
  | IDone (d : Done).

#[global] Instance issuance_progress `{!Ecdsa} : HasProgress IssuanceData := λ d,
  match d with
  | ICreated _ | IWaitingForResponse _ => Active
  | IDone done => Finished (match session_result done with RDone => true | _ => false end)
  end.
#[global] Instance issuance_expirable `{!Ecdsa} : Expirable IssuanceData := {|
  is_expired d := match d with IDone (mkDone RExpired) => true | _ => false end;
  expire _ := IDone (mkDone RExpired)
|}.
#[global] Instance issuance_expirable_laws `{!Ecdsa} : ExpirableLaws IssuanceData.
Proof. split; [done|done| |]; by intros [|?|[[]]]. Qed.

Definition OPENID4VCI_VC_POP_JWT_TYPE : string := "openid4vci-proof+jwt".

Section Issuer.
Context `{!Ecdsa, !Base64, !Sha256, !JwtLib DpopPayload, !JwtLib CredentialRequestProofJwtPayload}.
Context `{!Coset, !Ciborium, !X509Lib, !Chrono, !UrlLib, !MacLib, !UrlJoin}.

(** [Session::transition] and [transition_fail] *)
Definition transition {A B} (now : Z) (s : SessionState A) (new_state : B) : SessionState B :=
  SessionState_new now (token s) new_state.
Definition transition_fail {A} (now : Z) (s : SessionState A) (error : string) : SessionState Done :=
  transition now s (mkDone (RFailed error)).

(** [TryFrom] and [From] between typed and stored sessions *)
Definition try_created (s : SessionState IssuanceData) : outcome IssuanceError (SessionState Created) :=
  match data s with
  | ICreated c => Ok {| data := c; token := token s; last_active := last_active s |}
  | _ => Err UnexpectedState
  end.
Definition try_waiting (s : SessionState IssuanceData) : outcome IssuanceError (SessionState WaitingForResponse) :=
  match data s with
  | IWaitingForResponse w => Ok {| data := w; token := token s; last_active := last_active s |}
  | _ => Err UnexpectedState
  end.
Definition from_waiting (s : SessionState WaitingForResponse) : SessionState IssuanceData :=
  {| data := IWaitingForResponse (data s); token := token s; last_active := last_active s |}.
Definition from_done (s : SessionState Done) : SessionState IssuanceData :=
  {| data := IDone (data s); token := token s; last_active := last_active s |}.

(** [IssuerData]: the fields of the issuer that the handlers use. *)
Record IssuerData := mkIssuerData {
  private_keys : DocType → option KeyPair;
  credential_issuer_identifier : string;
  accepted_wallet_client_ids : list string;
  server_url : string
}.

(** *** The token request *)
Section TokenRequests.
(** [AttributeService::attributes] *)
Variable attributes : SessionState Created → TokenRequest → option (list AttestationPreview).
(** [ToString] of the error *)
Variable show : TokenRequestError → string.

(** The three random strings of a token request. *)
Record TokenRandom := { r_c_nonce : string; r_dpop_nonce : string; r_access_token : string }.

(** [Session<Created>::process_token_request_inner] *)
Definition process_token_request_inner (now : Z) (rnd : TokenRandom) (s : SessionState Created)
    (token_request : TokenRequest) (dpop : string) (url : string)
    : outcome TokenRequestError (TokenResponseWithPreviews * VerifyingKey * string) :=
  match grant_type token_request with
  | GrantAuthorizationCode _ => Err UnsupportedTokenRequestType
  | GrantPreAuthorizedCode _ =>
      let* token_url := BaseUrl_join url "token" in
      let* dpop_public_key := map_err (λ e, TokenIssuanceError (DpopInvalid e))
                                (Dpop_verify now dpop token_url "POST" None) in
      let code := TokenRequest_code token_request in
      let* previews := ok_or AttributeServiceFailed (attributes s token_request) in
      let response := {|
        token_response := TokenResponse_new (AccessToken_new (r_access_token rnd) code) (r_c_nonce rnd);
        attestation_previews := previews
      |} in
      Ok (response, dpop_public_key, r_dpop_nonce rnd)
  end.

(** [Session<Created>::process_token_request]: the response together with the
    next state of the session; [c_nonce] is always set by [TokenResponse_new]. *)
Definition session_process_token_request (now : Z) (rnd : TokenRandom) (s : SessionState Created)
    (token_request : TokenRequest) (dpop url : string)
    : outcome Empty_set (outcome TokenRequestError (TokenResponseWithPreviews * string) * SessionState IssuanceData) :=
  match process_token_request_inner now rnd s token_request dpop url with
  | Ok (response, dpop_pubkey, dpop_nonce) =>
      let* n := unwrap (c_nonce (token_response response)) in
      let next := transition now s {|
        w_access_token := access_token (token_response response);
        w_c_nonce := n;
        w_previews := attestation_previews response;
        w_dpop_public_key := dpop_pubkey;
        w_dpop_nonce := dpop_nonce
      |} in
      Ok (Ok (response, dpop_nonce), from_waiting next)
  | Err err => Ok (Err err, from_done (transition_fail now s (show err)))
  | Panic => Panic
  end.

(** [Issuer::process_token_request] *)
Definition process_token_request {S} `{!SessionStore IssuanceData S} (now : Z) (rnd : TokenRandom) (d : IssuerData)
    (token_request : TokenRequest) (dpop : string) : ST S TokenRequestError (TokenResponseWithPreviews * string) :=
  let store_error e := TokenIssuanceError (SessionStoreFailed e) in
  let session_token := TokenRequest_code token_request in
  let! found := st_map_err store_error (store_get session_token) in
  let session := default (SessionState_new now session_token (ICreated (mkCreated None))) found in
  let! session := st_lift (map_err TokenIssuanceError (try_created session)) in
  let! rn := st_lift (never (session_process_token_request now rnd session token_request dpop
                              (credential_issuer_identifier d))) in
  let '(response, next) := rn in
  let! _ := st_map_err store_error (store_write next true) in
  st_lift response.
End TokenRequests.

(** *** Credential requests *)

(** [CredentialRequestProof::verify] *)
Definition pop_validation (client_ids : list string) (identifier : string) : Validation := {|
  algorithms := [ES256]; required_spec_claims := []; leeway := 60; validate_exp := true;
  iss := Some client_ids; aud := Some [identifier]
|}.
Definition CredentialRequestProof_verify (now : Z) (p : CredentialRequestProof) (nonce : string)
    (client_ids : list string) (identifier : string) : outcome CredentialRequestError VerifyingKey :=
  let 'ProofJwt jwt := p in
  let* header := ok_or PopJwtDecodingFailed (decode_header (C:=CredentialRequestProofJwtPayload) jwt) in
  let* j := ok_or PopMissingJwk (jwk header) in
  let* verifying_key := map_err PopJwkConversion (jwk_to_p256 j) in
  let* token_data := ok_or PopJwtDecodingFailed
                       (decode (C:=CredentialRequestProofJwtPayload) now jwt verifying_key
                          (pop_validation client_ids identifier)) in
  let* _ := guard_err (bool_decide (Jose.typ (td_header token_data) = Some OPENID4VCI_VC_POP_JWT_TYPE))
              (PopUnsupportedJwtAlgorithm OPENID4VCI_VC_POP_JWT_TYPE (Jose.typ (td_header token_data))) in
  let* n := ok_or PopIncorrectNonce (pop_nonce (td_claims token_data)) in
  let* _ := guard_err (bool_decide (n = nonce)) PopIncorrectNonce in
  Ok verifying_key.

(** [verify_pop_and_sign_attestation] *)
Definition verify_pop_and_sign_attestation (now : Z) (rng : NameSpace → Z → string) (nonce : string)
    (cred_req : CredentialRequest) (unsigned_mdoc : UnsignedMdoc) (d : IssuerData)
    : outcome CredentialRequestError CredentialResponse :=
  let* _ := guard_err (bool_decide (format cred_req = MsoMdoc)) (UnsupportedCredentialFormat (format cred_req)) in
  let* dt := ok_or DoctypeMismatch (doctype cred_req) in
  let* _ := guard_err (bool_decide (dt = u_doc_type unsigned_mdoc)) DoctypeMismatch in
  let* p := ok_or MissingCredentialRequestPoP (proof cred_req) in
  let* pubkey := CredentialRequestProof_verify now p nonce (accepted_wallet_client_ids d)
                   (credential_issuer_identifier d) in
  let* mdoc_public_key := map_err CoseKeyConversion (cose_key_from_verifying_key pubkey) in
  let* private_key := ok_or (MissingPrivateKey (u_doc_type unsigned_mdoc))
                        (private_keys d (u_doc_type unsigned_mdoc)) in
  let* issuer_signed := map_err AttestationSigning (IssuerSigned_sign now rng unsigned_mdoc mdoc_public_key private_key) in
  Ok (ResponseMsoMdoc issuer_signed).

(** The authorization checks that all credential endpoints start with. *)
Definition check_authorization (now : Z) (w : WaitingForResponse) (at_ : AccessToken)
    (dpop base endpoint method : string) : outcome CredentialRequestError unit :=
  let* _ := guard_err (bool_decide (w_access_token w = at_)) Unauthorized in
  let* endpoint_url := BaseUrl_join base endpoint in
  map_err (λ e, CredentialIssuanceError (DpopInvalid e))
    (Dpop_verify_expecting_key now dpop (w_dpop_public_key w) endpoint_url method (Some at_) (Some (w_dpop_nonce w))).

(** Which attestation a single credential request is for. *)
Definition requested_unsigned (w : WaitingForResponse) (cred_req : CredentialRequest)
    : outcome CredentialRequestError UnsignedMdoc :=
  match doctype cred_req with
  | Some requested_doctype =>
      let offered_mdocs := filter (λ u, u_doc_type u = requested_doctype) (preview_unsigned <$> w_previews w) in
      match offered_mdocs with
      | [u] => Ok u
      | [] => Err (DoctypeNotOffered requested_doctype)
      | _ => Err UseBatchIssuance
      end
  | None => match w_previews w with [p] => Ok (preview_unsigned p) | _ => Err UseBatchIssuance end
  end.

(** [Session<WaitingForResponse>::process_credential_inner] *)
Definition process_credential_inner (now : Z) (rng : NameSpace → Z → string) (s : SessionState WaitingForResponse)
    (cred_req : CredentialRequest) (at_ : AccessToken) (dpop : string) (d : IssuerData)
    : outcome CredentialRequestError CredentialResponse :=
  let session_data := data s in
  let* _ := check_authorization now session_data at_ dpop (server_url d) "credential" "POST" in
  let* unsigned := requested_unsigned session_data cred_req in
  verify_pop_and_sign_attestation now rng (w_c_nonce session_data) cred_req unsigned d.

(** The unsigned mdocs that a batch request is zipped with: each preview as often
    as it has copies. *)
Definition batch_mdocs (w : WaitingForResponse) : list UnsignedMdoc :=
  mjoin ((λ p, replicate (Z.to_nat (preview_copy_count p)) (preview_unsigned p)) <$> w_previews w).

(** [Session<WaitingForResponse>::process_batch_credential_inner] *)
Definition process_batch_credential_inner (now : Z) (rng : Z → NameSpace → Z → string)
    (s : SessionState WaitingForResponse) (cred_reqs : list CredentialRequest) (at_ : AccessToken) (dpop : string)
    (d : IssuerData) : outcome CredentialRequestError (list CredentialResponse) :=
  let session_data := data s in
  let* _ := check_authorization now session_data at_ dpop (server_url d) "batch_credential" "POST" in
  try_map (λ p : Z * (CredentialRequest * UnsignedMdoc),
             verify_pop_and_sign_attestation now (rng p.1) (w_c_nonce session_data) p.2.1 p.2.2 d)
    (enumerate (zip cred_reqs (batch_mdocs session_data))).

Section CredentialRequests.
Variable show : CredentialRequestError → string.

(** How [process_credential] and [process_batch_credential] end a session. *)
Definition finish_session {A} (now : Z) (s : SessionState WaitingForResponse) (result : outcome CredentialRequestError A)
    : outcome Empty_set (outcome CredentialRequestError A * SessionState Done) :=
  match result with
  | Ok r => Ok (Ok r, transition now s (mkDone RDone))
  | Err err => Ok (Err err, transition_fail now s (show err))
  | Panic => Panic
  end.

Context {S : Type} `{!SessionStore IssuanceData S}.
Definition credential_store_error (e : SessionStoreError) : CredentialRequestError :=
  CredentialIssuanceError (SessionStoreFailed e).

(** [Issuer::get_session] *)
Definition get_session (code : AuthorizationCode) : ST S CredentialRequestError (SessionState WaitingForResponse) :=
  let! found := st_map_err credential_store_error (store_get code) in
  let! session := st_lift (ok_or (CredentialIssuanceError (UnknownSession code)) found) in
  st_lift (map_err CredentialIssuanceError (try_waiting session)).

(** What the endpoints do once they have loaded the session: process the request
    and write the next state. *)
Definition respond {A} (rn : outcome Empty_set (outcome CredentialRequestError A * SessionState Done))
    : ST S CredentialRequestError A :=
  let! rn := st_lift (never rn) in
  let '(response, next) := rn in
  let! _ := st_map_err credential_store_error (store_write (from_done next) false) in
  st_lift response.

(** [Issuer::process_credential] *)
Definition process_credential (now : Z) (rng : NameSpace → Z → string) (d : IssuerData) (at_ : AccessToken)
    (dpop : string) (cred_req : CredentialRequest) : ST S CredentialRequestError CredentialResponse :=
  let! code := st_lift (ok_or MalformedToken (AccessToken_code at_)) in
  let! session := get_session code in
  respond (finish_session now session (process_credential_inner now rng session cred_req at_ dpop d)).

(** [Issuer::process_batch_credential] *)
Definition process_batch_credential (now : Z) (rng : Z → NameSpace → Z → string) (d : IssuerData) (at_ : AccessToken)
    (dpop : string) (cred_reqs : list CredentialRequest) : ST S CredentialRequestError (list CredentialResponse) :=
  let! code := st_lift (ok_or MalformedToken (AccessToken_code at_)) in
  let! session := get_session code in
  respond (finish_session now session (process_batch_credential_inner now rng session cred_reqs at_ dpop d)).

(** [Issuer::process_reject_issuance] *)
Definition process_reject_issuance (now : Z) (d : IssuerData) (at_ : AccessToken) (dpop endpoint_name : string)
    : ST S CredentialRequestError unit :=
  let! code := st_lift (ok_or MalformedToken (AccessToken_code at_)) in
  let! session := get_session code in
  let! _ := st_lift (check_authorization now (data session) at_ dpop (credential_issuer_identifier d)
                       endpoint_name "DELETE") in
  let next := transition now session (mkDone RCancelled) in
  let! _ := st_map_err credential_store_error (store_write (from_done next) false) in
  sret tt.
End CredentialRequests.

(** *** Proofs of possession, as the wallet makes them *)

(** [KeyFactory]: new keys, and signatures with existing keys - for each message
    one signature per key. *)
Record KeyFactory := mkKeyFactory {
  generate_new_multiple : Z → option (list SigningKey);
  sign_multiple_with_existing_keys : list (string * list SigningKey) → option (list (list Signature))
}.

Inductive PopError :=
  | PrivateKeyGeneration
  | PopHeader (e : JwkConversionError)
  | PopJwt (e : JwtError).

(** [sign_jwts]: the text to sign of each token, the signatures of the key
    factory, and the tokens made of both. *)
Definition jwt_message (hp : Header * CredentialRequestProofJwtPayload) : outcome JwtError string :=
  let* h := ok_or JsonParsing (encode_header (C:=CredentialRequestProofJwtPayload) hp.1) in
  let* c := ok_or JsonParsing (encode_claims hp.2) in
  Ok (h +:+ "." +:+ c).
Definition sign_jwts (f : KeyFactory) (keys_and_messages : list (SigningKey * (Header * CredentialRequestProofJwtPayload)))
    : outcome JwtError (list (SigningKey * string)) :=
  let keys := keys_and_messages.*1 in
  let* messages := try_map jwt_message keys_and_messages.*2 in
  let* signatures := ok_or JwtSigning
    (sign_multiple_with_existing_keys f (zip messages ((λ key, [key]) <$> keys))) in
  try_map (λ x : (list Signature * SigningKey) * string,
    let '((sigs, key), msg) := x in
    let* sig := unwrap (head sigs) in
    Ok (key, msg +:+ "." +:+ encode_signature (C:=CredentialRequestProofJwtPayload) sig))
    (zip (zip signatures keys) messages).

(** [CredentialRequestProof::new_multiple] *)
Definition new_multiple (now : Z) (f : KeyFactory) (nonce wallet_client_id identifier : string) (number_of_keys : Z)
    : outcome PopError (list (SigningKey * CredentialRequestProof)) :=
  let* keys := ok_or PrivateKeyGeneration (generate_new_multiple f number_of_keys) in
  let payload := {| pop_nonce := Some nonce; pop_iss := wallet_client_id; pop_aud := identifier; pop_iat := now |} in
  let* keys_and_jwt_payloads := try_map (λ privkey,
    let* header := map_err PopHeader (jwk_jwt_header OPENID4VCI_VC_POP_JWT_TYPE privkey) in
    Ok (privkey, (header, payload))) keys in
  let* jwts := map_err PopJwt (sign_jwts f keys_and_jwt_payloads) in
  Ok ((λ kj : SigningKey * string, (kj.1, ProofJwt kj.2)) <$> jwts).

End Issuer.
