(* ===== verification/IssuerFacts.v ===== *)
(** * Correctness of the issuance server

    Against any session store that implements the contract: the life of a
    session, authorization of credential requests, single use of access tokens,
    and what happens on repeated, unauthorized and concurrent requests. *)
From stdpp Require Import base gmap strings list option fin_maps.
From Stdlib Require Import ZArith Lia.
From S2P Require Import Prelude IndexMap SessionStore SessionStoreFacts Crypto Jose Cbor Cose Engagement Concrete.
From S2P Require Import JoseFacts Mdoc MdocSigning MdocFacts Protocol Issuer.

Section IssuerFacts.
Context `{!Ecdsa, !Base64, !Sha256, !JwtLib DpopPayload, !JwtLib CredentialRequestProofJwtPayload}.
Context `{!Coset, !Ciborium, !X509Lib, !Chrono, !UrlLib, !MacLib, !UrlJoin}.
Context {S : Type} `{!SessionStore IssuanceData S, !SessionStoreSpec IssuanceData S}.
Variable attributes : SessionState Created → TokenRequest → option (list AttestationPreview).
Variable show_t : TokenRequestError → string.
Variable show_c : CredentialRequestError → string.
Variable d : IssuerData.

(** ** What the handlers do to the store *)
Definition found_session (s : S) (code : AuthorizationCode) : outcome CredentialRequestError (SessionState WaitingForResponse) :=
  match view s !! code with
  | None => Err (CredentialIssuanceError (UnknownSession code))
  | Some sess => map_err CredentialIssuanceError (try_waiting sess)
  end.

Lemma get_session_eq code s : get_session code s = (found_session s code, s).
Proof.
  unfold get_session, found_session, sbind, st_map_err, st_lift. rewrite get_spec. cbn [map_err].
  destruct (view s !! code) as [sess|]; [|done]. simpl. by destruct (try_waiting sess).
Qed.

Lemma found_session_Ok s code sess : found_session s code = Ok sess →
  view s !! code = Some (from_waiting sess).
Proof.
  unfold found_session. destruct (view s !! code) as [[[c|w|x] tok t]|]; simpl; try done.
  by intros [= <-].
Qed.

Lemma respond_Ok {A} (r : outcome CredentialRequestError A) (next : SessionState Done) s : ∃ s',
  respond (Ok (r, next)) s = (r, s') ∧ view s' = <[token next := from_done next]> (view s).
Proof.
  destruct (write_false (from_done next) s) as (s' & Hw & Hv). exists s'. split; [|done].
  unfold respond, sbind, st_lift, st_map_err, never. cbn [map_err]. by rewrite Hw.
Qed.

(** The three ways a credential request ends: without touching the store, in a
    panic, or with a session that is done. *)
Lemma credential_request_cases {A} (now : Z) (at_ : AccessToken)
    (inner : SessionState WaitingForResponse → outcome CredentialRequestError A) s r s' :
  sbind (st_lift (ok_or MalformedToken (AccessToken_code at_))) (λ code,
    sbind (get_session code) (λ sess, respond (finish_session show_c now sess (inner sess)))) s = (r, s') →
  (s' = s ∧ (is_ok r = false)) ∨
  ∃ code sess, AccessToken_code at_ = Some code ∧ view s !! code = Some (from_waiting sess) ∧
    r = inner sess ∧ r ≠ Panic ∧
    view s' = <[token sess := from_done (transition now sess (mkDone
      (match r with Ok _ => RDone | Err e => RFailed (show_c e) | Panic => RDone end)))]> (view s).
Proof.
  unfold sbind at 1, st_lift at 1. destruct (AccessToken_code at_) as [code|]; simpl; [|intros [= <- <-]; by left].
  unfold sbind at 1. rewrite get_session_eq. destruct (found_session s code) as [sess|e|] eqn:F;
    [|intros [= <- <-]; by left..]. apply found_session_Ok in F.
  destruct (inner sess) as [a|e|] eqn:Ei; simpl.
  - destruct (respond_Ok (Ok a) (transition now sess (mkDone RDone)) s) as (s1 & -> & Hv). intros [= <- <-].
    right. exists code, sess. by rewrite Ei.
  - destruct (respond_Ok (A:=A) (Err e) (transition_fail now sess (show_c e)) s) as (s1 & -> & Hv). intros [= <- <-].
    right. exists code, sess. by rewrite Ei.
  - unfold respond, sbind, st_lift. simpl. intros [= <- <-]. by left.
Qed.

Lemma process_credential_cases now rng at_ dpop cr s r s' :
  process_credential show_c now rng d at_ dpop cr s = (r, s') →
  (s' = s ∧ is_ok r = false) ∨
  ∃ code sess, AccessToken_code at_ = Some code ∧ view s !! code = Some (from_waiting sess) ∧
    r = process_credential_inner now rng sess cr at_ dpop d ∧ r ≠ Panic ∧
    view s' = <[token sess := from_done (transition now sess (mkDone
      (match r with Ok _ => RDone | Err e => RFailed (show_c e) | Panic => RDone end)))]> (view s).
Proof. apply (credential_request_cases now at_ (λ sess, process_credential_inner now rng sess cr at_ dpop d)). Qed.

Lemma process_batch_credential_cases now rng at_ dpop cr s r s' :
  process_batch_credential show_c now rng d at_ dpop cr s = (r, s') →
  (s' = s ∧ is_ok r = false) ∨
  ∃ code sess, AccessToken_code at_ = Some code ∧ view s !! code = Some (from_waiting sess) ∧
    r = process_batch_credential_inner now rng sess cr at_ dpop d ∧ r ≠ Panic ∧
    view s' = <[token sess := from_done (transition now sess (mkDone
      (match r with Ok _ => RDone | Err e => RFailed (show_c e) | Panic => RDone end)))]> (view s).
Proof. apply (credential_request_cases now at_ (λ sess, process_batch_credential_inner now rng sess cr at_ dpop d)). Qed.

Lemma process_reject_cases now at_ dpop ep s r s' :
  process_reject_issuance now d at_ dpop ep s = (r, s') →
  (s' = s ∧ is_ok r = false) ∨
  ∃ code sess, AccessToken_code at_ = Some code ∧ view s !! code = Some (from_waiting sess) ∧ r = Ok tt ∧
    check_authorization now (data sess) at_ dpop (credential_issuer_identifier d) ep "DELETE" = Ok tt ∧
    view s' = <[token sess := from_done (transition now sess (mkDone RCancelled))]> (view s).
Proof.
  unfold process_reject_issuance. unfold sbind at 1, st_lift at 1.
  destruct (AccessToken_code at_) as [code|]; simpl; [|intros [= <- <-]; by left].
  unfold sbind at 1. rewrite get_session_eq. destruct (found_session s code) as [sess|e|] eqn:F;
    [|intros [= <- <-]; by left..]. apply found_session_Ok in F.
  unfold sbind at 1, st_lift at 1. destruct (check_authorization _ _ _ _ _ _ _) as [[]|e|] eqn:C;
    [|intros [= <- <-]; by left..].
  destruct (write_false (from_done (transition now sess (mkDone RCancelled))) s) as (s1 & Hw & Hv).
  unfold sbind, st_map_err, sret. rewrite Hw. simpl. intros [= <- <-]. right. exists code, sess. done.
Qed.

Lemma session_process_token_request_token now rnd sess treq dpop url r (next : SessionState IssuanceData) :
  session_process_token_request attributes show_t now rnd sess treq dpop url = Ok (r, next) →
  token next = token sess ∧
  (is_ok r = true ∧ (∃ w, data next = IWaitingForResponse w) ∨
   is_ok r = false ∧ ∃ e, data next = IDone (mkDone (RFailed e))).
Proof.
  unfold session_process_token_request.
  destruct (process_token_request_inner _ _ _ _ _ _ _) as [[[resp k] n]|e|]; [| |done].
  - destruct (c_nonce (token_response resp)); simpl; [|done]. intros [= <- <-]. simpl. eauto.
  - intros [= <- <-]. simpl. eauto.
Qed.

Lemma process_token_request_cases now rnd treq dpop s r s' :
  keyed s → process_token_request attributes show_t now rnd d treq dpop s = (r, s') →
  (s' = s ∧ is_ok r = false) ∨
  (view s !! TokenRequest_code treq = None ∧
   ∃ next : SessionState IssuanceData, token next = TokenRequest_code treq ∧ view s' = <[token next := next]> (view s) ∧
    (is_ok r = true ∧ (∃ w, data next = IWaitingForResponse w) ∨
     is_ok r = false ∧ ∃ e, data next = IDone (mkDone (RFailed e)))).
Proof.
  intros Hk. unfold process_token_request. unfold sbind at 1, st_map_err at 1. rewrite get_spec.
  cbn [map_err]. unfold sbind at 1, st_lift at 1.
  destruct (map_err TokenIssuanceError (try_created _)) as [sess|e|] eqn:T; [|intros [= <- <-]; by left..].
  unfold sbind at 1, st_lift at 1.
  destruct (session_process_token_request _ _ _ _ _ _ _ _) as [[resp next]|[]|] eqn:P; [|intros [= <- <-]; by left].
  apply session_process_token_request_token in P as [Htok Hn]. cbn [never map_err].
  unfold sbind, st_map_err, st_lift. destruct (store_write next true s) as [o s1] eqn:W.
  apply write_inv in W as [(-> & Hnew & Hv & _)|(-> & _ & _ & ->)]; simpl; [|intros [= <- <-]; by left].
  intros [= <- <-]. destruct Hnew as [?|Hnone]; [done|]. right.
  apply map_err_Ok in T. destruct (view s !! TokenRequest_code treq) as [x|] eqn:L; simpl in T.
  - exfalso. specialize (Hk _ _ L). unfold try_created in T. destruct x as [[c|w|y] tk la]; simpl in T, Hk; try done.
    injection T as <-. simpl in Htok. congruence.
  - injection T as <-. split; [done|]. by exists next.
Qed.

(** ** The life of a session *)
Inductive request :=
  | TokenReq (now : Z) (rnd : TokenRandom) (treq : TokenRequest) (dpop : string)
  | CredentialReq (now : Z) (rng : NameSpace → Z → string) (at_ : AccessToken) (dpop : string) (cr : CredentialRequest)
  | BatchReq (now : Z) (rng : Z → NameSpace → Z → string) (at_ : AccessToken) (dpop : string) (crs : list CredentialRequest)
  | RejectReq (now : Z) (at_ : AccessToken) (dpop endpoint : string).

(** The store after a request. *)
Definition handle (r : request) (s : S) : S :=
  match r with
  | TokenReq now rnd treq dpop => (process_token_request attributes show_t now rnd d treq dpop s).2
  | CredentialReq now rng at_ dpop cr => (process_credential show_c now rng d at_ dpop cr s).2
  | BatchReq now rng at_ dpop crs => (process_batch_credential show_c now rng d at_ dpop crs s).2
  | RejectReq now at_ dpop ep => (process_reject_issuance now d at_ dpop ep s).2
  end.
Definition handle_all (rs : list request) (s : S) : S := fold_left (λ s r, handle r s) rs s.

(** The steps that a request may take a session through. *)
Inductive session_step : option IssuanceData → option IssuanceData → Prop :=
  | step_none o : session_step o o
  | step_start w : session_step None (Some (IWaitingForResponse w))
  | step_start_failed e : session_step None (Some (IDone (mkDone (RFailed e))))
  | step_done w : session_step (Some (IWaitingForResponse w)) (Some (IDone (mkDone RDone)))
  | step_failed w e : session_step (Some (IWaitingForResponse w)) (Some (IDone (mkDone (RFailed e))))
  | step_cancelled w : session_step (Some (IWaitingForResponse w)) (Some (IDone (mkDone RCancelled))).

Lemma step_insert s s' (sess : SessionState IssuanceData) tok :
  view s' = <[token sess := sess]> (view s) →
  session_step (session_data s (token sess)) (Some (data sess)) →
  session_step (session_data s tok) (session_data s' tok).
Proof.
  intros Hv Hs. unfold session_data in *. rewrite Hv. destruct (decide (token sess = tok)) as [<-|Hne].
  - by rewrite lookup_insert_eq.
  - rewrite lookup_insert_ne by done. constructor.
Qed.

Lemma waiting_token s code sess : keyed s → view s !! code = Some (from_waiting sess) → token sess = code.
Proof. intros Hk Hl. by specialize (Hk _ _ Hl). Qed.

Lemma waiting_data s code sess : view s !! code = Some (from_waiting sess) →
  session_data s code = Some (IWaitingForResponse (data sess)).
Proof. intros Hl. unfold session_data. by rewrite Hl. Qed.

Lemma keyed_done s s' now (sess : SessionState WaitingForResponse) x :
  keyed s → view s' = <[token sess := from_done (transition now sess x)]> (view s) → keyed s'.
Proof. apply (keyed_insert s s' (from_done (transition now sess x))). Qed.

Lemma step_done_insert s s' now (sess : SessionState WaitingForResponse) x code :
  keyed s → view s !! code = Some (from_waiting sess) →
  view s' = <[token sess := from_done (transition now sess x)]> (view s) →
  session_step (Some (IWaitingForResponse (data sess))) (Some (IDone x)) →
  ∀ tok, session_step (session_data s tok) (session_data s' tok).
Proof.
  intros Hk Hl Hv Hs tok. apply (step_insert s s' (from_done (transition now sess x))); [done|]. simpl.
  by rewrite (waiting_token _ _ _ Hk Hl), (waiting_data _ _ _ Hl).
Qed.

Lemma handle_step r s : keyed s → keyed (handle r s) ∧ ∀ tok, session_step (session_data s tok) (session_data (handle r s) tok).
Proof.
  intros Hk. destruct r as [now rnd treq dpop|now rng at_ dpop cr|now rng at_ dpop crs|now at_ dpop ep]; simpl.
  - destruct (process_token_request _ _ _ _ _ _ _ _) as [r s'] eqn:E. simpl.
    apply process_token_request_cases in E as [[-> _]|(Hn & next & Htok & Hv & Hd)]; [split; [done|constructor]| |done].
    split.
    + by eapply keyed_insert.
    + intros tok. eapply step_insert; [done|]. rewrite Htok. unfold session_data. rewrite Hn. simpl.
      destruct Hd as [(_ & w & ->)|(_ & e & ->)]; constructor.
  - destruct (process_credential _ _ _ _ _ _ _ _) as [r s'] eqn:E. simpl.
    apply process_credential_cases in E as [[-> _]|(code & sess & _ & Hl & _ & _ & Hv)]; [split; [done|constructor]|].
    split; [by eapply keyed_done|]. eapply step_done_insert; [done..|]. destruct r; constructor.
  - destruct (process_batch_credential _ _ _ _ _ _ _ _) as [r s'] eqn:E. simpl.
    apply process_batch_credential_cases in E as [[-> _]|(code & sess & _ & Hl & _ & _ & Hv)]; [split; [done|constructor]|].
    split; [by eapply keyed_done|]. eapply step_done_insert; [done..|]. destruct r; constructor.
  - destruct (process_reject_issuance _ _ _ _ _ _) as [r s'] eqn:E. simpl.
    apply process_reject_cases in E as [[-> _]|(code & sess & _ & Hl & _ & _ & Hv)]; [split; [done|constructor]|].
    split; [by eapply keyed_done|]. eapply step_done_insert; [done..|]. constructor.
Qed.

Lemma done_final rs s tok x : keyed s → session_data s tok = Some (IDone x) →
  keyed (handle_all rs s) ∧ session_data (handle_all rs s) tok = Some (IDone x).
Proof.
  revert s. induction rs as [|r rs IH]; intros s Hk Hd; simpl; [done|].
  destruct (handle_step r s Hk) as [Hk' Hs]. apply IH; [done|].
  specialize (Hs tok). rewrite Hd in Hs. by inversion Hs.
Qed.

(** The life of an issuance session: whatever requests arrive, in whatever
    order, each of them either leaves a session alone or takes it one step along
    its path - it starts as waiting (or as failed, when the token request
    fails), and from waiting it becomes done, failed or cancelled - and once it
    has ended it never changes again. *)
Theorem issuance_lifecycle rs s (Hkeyed : keyed s) :
  (∀ r tok, session_step (session_data s tok) (session_data (handle r s) tok)) ∧
  (∀ tok x, session_data s tok = Some (IDone x) → session_data (handle_all rs s) tok = Some (IDone x)).
Proof.
  split; [intros r tok; by apply handle_step|]. intros tok x Hd. by apply done_final.
Qed.

Lemma credential_session_ends {A} now s s' code sess (r : outcome CredentialRequestError A) :
  keyed s → view s !! code = Some (from_waiting sess) →
  view s' = <[token sess := from_done (transition now sess (mkDone
      (match r with Ok _ => RDone | Err e => RFailed (show_c e) | Panic => RDone end)))]> (view s) →
  ∃ x, session_data s' code = Some (IDone x).
Proof.
  intros Hk Hl Hv. eexists. unfold session_data. rewrite Hv, (waiting_token _ _ _ Hk Hl), lookup_insert_eq. done.
Qed.

Lemma credential_on_done {A} (now : Z) (at_ : AccessToken) code x s
    (inner : SessionState WaitingForResponse → outcome CredentialRequestError A) :
  AccessToken_code at_ = Some code → session_data s code = Some (IDone x) →
  sbind (st_lift (ok_or MalformedToken (AccessToken_code at_))) (λ code,
    sbind (get_session code) (λ sess, respond (finish_session show_c now sess (inner sess)))) s
  = (Err (CredentialIssuanceError UnexpectedState), s).
Proof.
  intros Hc Hd. unfold sbind, st_lift at 1. rewrite Hc. cbn [ok_or]. simpl. rewrite get_session_eq. unfold found_session.
  unfold session_data in Hd. destruct (view s !! code) as [[dd tk la]|]; [|done].
  simpl in Hd. injection Hd as ->. done.
Qed.

(** An access token gives at most one response with credentials: after a
    request for one or more credentials has been answered - successfully or with
    an error from processing it - every later request with an access token for
    the same code is refused because the session has ended, no matter what other
    requests come in between. *)
Theorem access_token_single_use now rng at_ dpop cr s r s' code rs at2 now2 rng2 dpop2 cr2 rng3 crs3
    (Hkeyed : keyed s) (Hcode : AccessToken_code at_ = Some code) (Hcode2 : AccessToken_code at2 = Some code)
    (Hfirst : process_credential show_c now rng d at_ dpop cr s = (r, s')) (Hok : is_ok r = true) :
  process_credential show_c now2 rng2 d at2 dpop2 cr2 (handle_all rs s')
    = (Err (CredentialIssuanceError UnexpectedState), handle_all rs s') ∧
  process_batch_credential show_c now2 rng3 d at2 dpop2 crs3 (handle_all rs s')
    = (Err (CredentialIssuanceError UnexpectedState), handle_all rs s').
Proof.
  apply process_credential_cases in Hfirst as Hc.
  destruct Hc as [[_ Hno]|(code' & sess & Hc' & Hl & _ & _ & Hv)]; [congruence|].
  rewrite Hcode in Hc'. injection Hc' as <-.
  destruct (credential_session_ends _ _ _ _ _ _ Hkeyed Hl Hv) as [x Hx].
  assert (keyed s') as Hk' by (by eapply keyed_done).
  destruct (done_final rs s' code x Hk' Hx) as [_ Hd].
  split; eapply credential_on_done; eauto.
Qed.

(** ** Authorization *)
Lemma check_authorization_Ok now w at_ dpop base ep method u :
  check_authorization now w at_ dpop base ep method = Ok u →
  w_access_token w = at_ ∧ ∃ url, BaseUrl_join (E:=CredentialRequestError) base ep = Ok url ∧
    Dpop_verify_expecting_key now dpop (w_dpop_public_key w) url method (Some at_) (Some (w_dpop_nonce w)) = Ok u.
Proof.
  unfold check_authorization. intros Hc. apply bind_Ok in Hc as (u1 & Hg & Hc). apply guard_err_Ok in Hg. zbool.
  apply bind_Ok in Hc as (url & Hu & Hc). apply map_err_Ok in Hc. eauto.
Qed.

(** What [verify_pop_and_sign_attestation] has checked when it returns a
    credential: a proof of possession of the key, for this session's nonce. *)
Definition possession_proved (now : Z) (p : CredentialRequestProof) (nonce : string) (k : VerifyingKey) : Prop :=
  let 'ProofJwt jwt := p in
  ∃ td, decode now jwt k (pop_validation (accepted_wallet_client_ids d) (credential_issuer_identifier d)) = Some td ∧
    Jose.typ (td_header td) = Some OPENID4VCI_VC_POP_JWT_TYPE ∧
    pop_nonce (td_claims (C:=CredentialRequestProofJwtPayload) td) = Some nonce.

Lemma proof_verify_Ok now p nonce k :
  CredentialRequestProof_verify now p nonce (accepted_wallet_client_ids d) (credential_issuer_identifier d) = Ok k →
  possession_proved now p nonce k.
Proof.
  destruct p as [jwt]. unfold CredentialRequestProof_verify, possession_proved. intros Hp. run_ok Hp. zbool. subst. eauto.
Qed.

Lemma pop_and_sign_Ok now rng nonce cr u resp :
  verify_pop_and_sign_attestation now rng nonce cr u d = Ok resp →
  ∃ p k ck key s, resp = ResponseMsoMdoc s ∧ doctype cr = Some (u_doc_type u) ∧ proof cr = Some p ∧
    possession_proved now p nonce k ∧ cose_key_from_verifying_key k = Ok ck ∧
    private_keys d (u_doc_type u) = Some key ∧ IssuerSigned_sign now rng u ck key = Ok s.
Proof.
  unfold verify_pop_and_sign_attestation. intros Hp. run_ok Hp. zbool. subst.
  match goal with H : CredentialRequestProof_verify _ _ _ _ _ = Ok _ |- _ => apply proof_verify_Ok in H end.
  by eauto 15.
Qed.

Lemma requested_unsigned_offered w cr u : requested_unsigned w cr = Ok u → u ∈ preview_unsigned <$> w_previews w.
Proof.
  unfold requested_unsigned. destruct (doctype cr) as [dt|].
  - destruct (filter _ _) as [|u0 [|]] eqn:F; [done| |done]. intros [= <-].
    assert (u0 ∈ filter (λ u, u_doc_type u = dt) (preview_unsigned <$> w_previews w)) as Hin by (rewrite F; left).
    by apply list_elem_of_filter in Hin as [_ ?].
  - destruct (w_previews w) as [|p [|]]; [done| |done]. intros [= <-]. left.
Qed.

(** The request with this access token and DPoP was for a waiting session: it is
    the token of that session, and the DPoP was signed with the key from the token
    request, over this endpoint, this access token and the nonce of the session. *)
Definition authorized (now : Z) (s : S) (at_ : AccessToken) (dpop endpoint : string) (w : WaitingForResponse) : Prop :=
  ∃ code sess, AccessToken_code at_ = Some code ∧ view s !! code = Some (from_waiting sess) ∧ data sess = w ∧
    w_access_token w = at_ ∧
    ∃ url td, BaseUrl_join (E:=CredentialRequestError) (server_url d) endpoint = Ok url ∧
      decode now dpop (w_dpop_public_key w) Dpop_validation = Some td ∧
      http_method (td_claims td) = "POST" ∧ http_url (td_claims td) = url ∧
      access_token_hash (td_claims td) = Some (sha256 at_) ∧ nonce (td_claims td) = Some (w_dpop_nonce w).

(** The response is the issuer's signature over this mdoc, for a key whose
    possession was proved with this nonce. *)
Definition issued_to (now : Z) (rng : NameSpace → Z → string) (c_nonce : string) (cr : CredentialRequest) (u : UnsignedMdoc)
    (resp : CredentialResponse) : Prop :=
  ∃ p k ck key signed, doctype cr = Some (u_doc_type u) ∧ proof cr = Some p ∧ possession_proved now p c_nonce k ∧
    cose_key_from_verifying_key k = Ok ck ∧ private_keys d (u_doc_type u) = Some key ∧
    resp = ResponseMsoMdoc signed ∧ IssuerSigned_sign now rng u ck key = Ok signed.

Lemma authorized_by now s at_ dpop endpoint code sess u1 :
  AccessToken_code at_ = Some code → view s !! code = Some (from_waiting sess) →
  check_authorization now (data sess) at_ dpop (server_url d) endpoint "POST" = Ok u1 →
  authorized now s at_ dpop endpoint (data sess).
Proof.
  intros Hc Hl (Hat & url & Hurl & (td & Htd & Hm & Hhu & Hh & Hn)%verify_expecting_key_Ok)%check_authorization_Ok.
  exists code, sess. split_and!; try done. by exists url, td.
Qed.
Lemma issued_by now rng nonce cr u resp : verify_pop_and_sign_attestation now rng nonce cr u d = Ok resp → issued_to now rng nonce cr u resp.
Proof. intros (p & k & ck & key & signed & ? & ? & ? & ? & ? & ? & ?)%pop_and_sign_Ok. by exists p, k, ck, key, signed. Qed.

Lemma batch_mdocs_offered w u : u ∈ batch_mdocs w → u ∈ preview_unsigned <$> w_previews w.
Proof.
  unfold batch_mdocs. intros (l & Hu & (p & -> & Hp)%list_elem_of_fmap)%list_elem_of_join.
  apply elem_of_replicate in Hu as [-> _]. by apply list_elem_of_fmap_2.
Qed.

Lemma batch_inner_Ok now rng sess crs at_ dpop resps :
  process_batch_credential_inner now rng sess crs at_ dpop d = Ok resps →
  (∃ u1, check_authorization now (data sess) at_ dpop (server_url d) "batch_credential" "POST" = Ok u1) ∧
  length resps = Nat.min (length crs) (length (batch_mdocs (data sess))) ∧
  ∀ i resp, resps !! i = Some resp → ∃ cr u, crs !! i = Some cr ∧ batch_mdocs (data sess) !! i = Some u ∧
    verify_pop_and_sign_attestation now (rng (Z.of_nat i)) (w_c_nonce (data sess)) cr u d = Ok resp.
Proof.
  unfold process_batch_credential_inner. intros (u1 & Hau & Hr)%bind_Ok. split_and!; [by exists u1| |].
  - apply try_map_length in Hr. rewrite Hr. unfold enumerate. rewrite <-(length_fmap snd), enumerate_from_snd.
    apply length_zip_with.
  - intros i resp Hi. apply try_map_Ok in Hr.
    destruct (Forall2_lookup_r _ _ _ _ _ Hr Hi) as ([j [cr u]] & Hz & Hp). simpl in Hp.
    apply enumerate_lookup in Hz as [-> Hz]. apply lookup_zip_with_Some in Hz as (cr' & u' & [= -> ->] & Hcr & Hu).
    by exists cr', u'.
Qed.

(** C5. No credential without authorization: both endpoints only return credentials
    to a request that carries the access token of a waiting session and a DPoP
    signed with the key from the token request, over the endpoint, this access
    token and the nonce of the session.  The credential of the first, and each one
    of the batch of the second, is the issuer's signature over an mdoc that was
    offered in that session, for a key whose possession was proved with the
    session's [c_nonce]; the batch has no more credentials than copies were
    offered, each for the copy at its position. *)
Theorem credential_needs_authorization now at_ dpop s :
  (∀ rng cr resp s', process_credential show_c now rng d at_ dpop cr s = (Ok resp, s') →
     ∃ w u, authorized now s at_ dpop "credential" w ∧ u ∈ preview_unsigned <$> w_previews w ∧
       issued_to now rng (w_c_nonce w) cr u resp) ∧
  (∀ rng crs resps s', process_batch_credential show_c now rng d at_ dpop crs s = (Ok resps, s') →
     ∃ w, authorized now s at_ dpop "batch_credential" w ∧ (length resps ≤ length (batch_mdocs w))%nat ∧
       ∀ i resp, resps !! i = Some resp → ∃ cr u, crs !! i = Some cr ∧ batch_mdocs w !! i = Some u ∧
         u ∈ preview_unsigned <$> w_previews w ∧ issued_to now (rng (Z.of_nat i)) (w_c_nonce w) cr u resp).
Proof.
  split.
  - intros rng cr resp s' [[_ Hno]|(code & sess & Hc & Hl & Hr & _ & _)]%process_credential_cases; [done|].
    symmetry in Hr. unfold process_credential_inner in Hr. apply bind_Ok in Hr as (u1 & Hau & (u & Hu & Hr)%bind_Ok).
    exists (data sess), u. split_and!; [by eapply authorized_by|by eapply requested_unsigned_offered|by apply issued_by].
  - intros rng crs resps s' [[_ Hno]|(code & sess & Hc & Hl & Hr & _ & _)]%process_batch_credential_cases; [done|].
    symmetry in Hr. apply batch_inner_Ok in Hr as ([u1 Hau] & Hlen & Hr). exists (data sess).
    split_and!; [by eapply authorized_by|lia|]. intros i resp (cr & u & Hcr & Hu & Hi)%Hr. exists cr, u.
    split_and!; [done..|by eapply batch_mdocs_offered, list_elem_of_lookup_2|by apply issued_by].
Qed.

(** A request without the right access token ends the session: anyone who
    knows the authorization code, which is the end of the access token, can make
    the session of a wallet fail by sending a credential request with another
    access token for it. *)
Theorem unauthorized_request_ends_session now rng at_ dpop cr s code sess
    (Hcode : AccessToken_code at_ = Some code) (Hsess : view s !! code = Some (from_waiting sess))
    (Hkeyed : keyed s) (Hwrong : at_ ≠ w_access_token (data sess)) :
  ∃ s', process_credential show_c now rng d at_ dpop cr s = (Err Unauthorized, s') ∧
    session_data s' code = Some (IDone (mkDone (RFailed (show_c Unauthorized)))).
Proof.
  unfold process_credential, sbind, st_lift at 1. rewrite Hcode. cbn [ok_or]. rewrite get_session_eq.
  unfold found_session. rewrite Hsess. simpl. destruct sess as [w tok la]. simpl in *.
  assert (process_credential_inner now rng (mkSessionState w tok la) cr at_ dpop d = Err Unauthorized) as ->.
  { unfold process_credential_inner, check_authorization. simpl. rewrite bool_decide_eq_false_2 by done. done. }
  simpl. destruct (respond_Ok (A:=CredentialResponse) (Err Unauthorized)
    (transition_fail now (mkSessionState w tok la) (show_c Unauthorized)) s) as (s' & -> & Hv).
  exists s'. split; [done|]. unfold session_data. rewrite Hv. simpl.
  specialize (Hkeyed _ _ Hsess). simpl in Hkeyed. rewrite Hkeyed, lookup_insert_eq. done.
Qed.

(** A batch of credential requests is answered one by one in order, each with
    the issuer's signature over the mdoc at its position in the list of offered
    copies; requests beyond the number of offered copies, and copies beyond the
    number of requests, are silently dropped, so the response has as many
    credentials as the shorter of the two. *)
Theorem batch_response_is_zipped now rng at_ dpop crs s s' resps
    (Hreq : process_batch_credential show_c now rng d at_ dpop crs s = (Ok resps, s')) :
  ∃ code sess, AccessToken_code at_ = Some code ∧ view s !! code = Some (from_waiting sess) ∧
    length resps = Nat.min (length crs) (length (batch_mdocs (data sess))) ∧
    ∀ i resp, resps !! i = Some resp → ∃ cr u k ck key signed,
      crs !! i = Some cr ∧ batch_mdocs (data sess) !! i = Some u ∧ doctype cr = Some (u_doc_type u) ∧
      cose_key_from_verifying_key k = Ok ck ∧ private_keys d (u_doc_type u) = Some key ∧
      resp = ResponseMsoMdoc signed ∧ IssuerSigned_sign now (rng (Z.of_nat i)) u ck key = Ok signed.
Proof.
  apply process_batch_credential_cases in Hreq as [[_ Hno]|(code & sess & Hc & Hl & Hr & _ & _)]; [done|].
  exists code, sess. symmetry in Hr. apply batch_inner_Ok in Hr as (_ & Hlen & Hr). split_and!; try done.
  intros i resp (cr & u & Hcr & Hu & Hi)%Hr.
  apply pop_and_sign_Ok in Hi as (p & k & ck & key & signed & Hresp & Hdt & _ & _ & Hck & Hkey & Hsign).
  by exists cr, u, k, ck, key, signed.
Qed.

(** A session that already exists cannot be started: the token request looks
    the session up and would use its state, but then writes it as a new one, so
    for every session that is stored under the authorization code - also one in
    the [Created] state that was stored in advance - the request fails and
    changes nothing. *)
Theorem existing_session_never_starts now rnd treq dpop s sess
    (Hkeyed : keyed s) (Hsess : view s !! TokenRequest_code treq = Some sess) :
  is_ok (process_token_request attributes show_t now rnd d treq dpop s).1 = false ∧
  (process_token_request attributes show_t now rnd d treq dpop s).2 = s.
Proof.
  destruct (process_token_request attributes show_t now rnd d treq dpop s) as [r s'] eqn:E. simpl.
  apply process_token_request_cases in E as [[-> ?]|(Hn & _)]; [done|congruence|done].
Qed.

(** ** Signing succeeds *)

(** What serialization needs: the CBOR library writes every value to memory, the
    device key has a CBOR form, and positions of attributes fit 64 bits. *)
Definition encodable (u : UnsignedMdoc) (ck : CoseKey) : Prop :=
  (∀ v, is_Some (into_writer v)) ∧ is_Some (serialized ck) ∧
  ∀ ns es, (ns, es) ∈ u_attributes u → Z.of_nat (length (named_entries es)) ≤ 2 ^ 64.

Lemma try_map_succeeds {E A B} (f : A → outcome E B) l : (∀ a, a ∈ l → ∃ b, f a = Ok b) → ∃ bs, try_map f l = Ok bs.
Proof.
  intros Hf. induction l as [|a l IH]; simpl; [by eexists|]. destruct (Hf a) as [b ->]; [left|]. simpl.
  destruct IH as [bs ->]; [intros; apply Hf; by right|]. by eexists.
Qed.
Lemma serialize_map_succeeds {K V} (sk : K → option Value) (sv : V → option Value) (m : imap K V) :
  (∀ k v, (k, v) ∈ m → is_Some (sk k) ∧ is_Some (sv v)) → is_Some (serialize_map sk sv m).
Proof.
  intros Hm. unfold serialize_map. rewrite fmap_is_Some. apply mapM_is_Some, list.Forall_forall. intros [k v] [[x Hx] [y Hy]]%Hm.
  unfold serialize_entry, compose. simpl. rewrite Hx, Hy. by eexists.
Qed.
Lemma cbor_serialize_succeeds {T} `{!SerdeCbor T} (x : T) : (∀ v, is_Some (into_writer v)) → is_Some (serialized x) →
  ∃ bts, cbor_serialize x = Ok bts.
Proof. intros Hw [v Hv]. destruct (Hw v) as [b Hb]. exists b. unfold cbor_serialize. rewrite Hv. simpl. by rewrite Hb. Qed.
Lemma tagged_succeeds {T} `{!SerdeCbor T} (x : T) : (∀ v, is_Some (into_writer v)) → is_Some (serialized x) →
  ∃ bts, cbor_serialize (mkTagged x) = Ok bts.
Proof.
  intros Hw Hx. apply cbor_serialize_succeeds; [done|]. destruct (cbor_serialize_succeeds x Hw Hx) as [b Hb]. simpl.
  rewrite Hb. by eexists.
Qed.
Lemma serialize_u64_succeeds n : 0 ≤ n < 2 ^ 64 → is_Some (serialize_u64 n).
Proof. intros Hn. unfold serialize_u64, in_u64. rewrite (proj2 (in_range_spec 64 n) Hn). by eexists. Qed.

Lemma enumerate_bounds {A} (l : list A) i a : (i, a) ∈ enumerate l → 0 ≤ i < Z.of_nat (length l).
Proof. intros Hin. apply (enumerate_from_keys l 0 i). by apply (list_elem_of_fmap_2 fst) in Hin. Qed.

Lemma value_digests_succeed rng u ck : encodable u ck →
  ∃ digests, value_digests_from (signed_name_spaces rng (u_attributes u)) = Ok digests ∧ is_Some (value_digests_serialize digests).
Proof.
  intros (Hw & _ & Hlen). unfold value_digests_from.
  assert (∀ p, p ∈ signed_name_spaces rng (u_attributes u) → ∃ ids, digest_ids_from p.2 = Ok ids ∧ is_Some (digest_ids_serialize ids)) as Hids.
  { intros p ([ns es] & -> & Hin)%list_elem_of_fmap. specialize (Hlen _ _ Hin). unfold digest_ids_from. simpl.
    assert (length (items_of (rng ns) es) = length (named_entries es)) as Hl.
    { unfold items_of, enumerate. by rewrite length_fmap, <-(length_fmap snd), enumerate_from_snd. }
    destruct (try_map_succeeds (λ p : Z * IssuerSignedItemBytes, let* dg := cbor_digest p.2 in Ok (p.1, mkByteBuf dg)) (enumerate (items_of (rng ns) es)))
      as [bs Hbs].
    - intros [i item] (j & Hj)%list_elem_of_lookup_1. apply enumerate_lookup in Hj as [-> Hj].
      apply list_elem_of_lookup_2 in Hj. apply list_elem_of_fmap in Hj as ([k p] & -> & Hk%enumerate_bounds). unfold cbor_digest. simpl.
      destruct (tagged_succeeds (IssuerSignedItem_new (rng ns k) k p.1 p.2) Hw) as [b ->]; [|by eexists].
      destruct (serialize_u64_succeeds k) as [x Hx]; [lia|]. cbn. unfold item_serialize. cbn [digest_id IssuerSignedItem_new]. rewrite Hx. by eexists.
    - rewrite Hbs. simpl. eexists. split; [done|]. apply serialize_map_succeeds. intros i b Hi%im_collect_elem.
      split; [|by eexists]. apply serialize_u64_succeeds. apply try_map_Ok, Forall2_flip in Hbs.
      destruct (Forall2_elem_l _ _ _ _ Hbs Hi) as ([i' item] & Hi'%enumerate_bounds & (dg & _ & [= <- _])%bind_Ok). simpl. lia. }
  destruct (try_map_succeeds (λ p : NameSpace * Attributes, let* ids := digest_ids_from p.2 in Ok (E:=CborError) (p.1, ids))
    (signed_name_spaces rng (u_attributes u))) as [bs Hbs].
  { intros p (ids & Hp & _)%Hids. simpl. rewrite Hp. by eexists. }
  rewrite Hbs. simpl. eexists. split; [done|]. apply serialize_map_succeeds. intros n ids Hn%im_collect_elem. split; [by eexists|].
  apply try_map_Ok, Forall2_flip in Hbs. destruct (Forall2_elem_l _ _ _ _ Hbs Hn) as (p & (ids' & Hp & Hs)%Hids & Heq).
  simpl in Heq. rewrite Hp in Heq. by injection Heq as _ <-.
Qed.

Lemma sign_succeeds now rng u ck key : unsigned_wf u → encodable u ck → ∃ signed, IssuerSigned_sign now rng u ck key = Ok signed.
Proof.
  intros Hwf Henc. unfold IssuerSigned_sign. rewrite issuer_name_spaces_from_Ok by done. simpl.
  destruct (value_digests_succeed rng u ck Henc) as (digests & -> & [v Hv]). simpl. destruct Henc as (Hw & [w Hk] & _).
  unfold MdocCose_sign. match goal with |- context [cbor_serialize (mkTagged ?m)] => destruct (tagged_succeeds m Hw) as [b ->] end.
  - cbn [serialized serde_mso]. unfold mso_serialize. cbn [value_digests device_key_info validity_info]. rewrite Hv.
    unfold device_key_info_serialize, device_key_info_from. cbn [device_key mbind option_bind]. rewrite Hk. by eexists.
  - by eexists.
Qed.

(** ** An honest wallet *)

(** A key factory that signs each message with each of the keys given for it. *)
Definition honest_factory (f : KeyFactory) : Prop := ∀ l,
  sign_multiple_with_existing_keys f l =
    Some ((λ mk : string * list SigningKey, (λ k, ecdsa_sign k mk.1) <$> mk.2) <$> l).

Definition pop_payload (now : Z) (n client identifier : string) : CredentialRequestProofJwtPayload :=
  {| pop_nonce := Some n; pop_iss := client; pop_aud := identifier; pop_iat := now |}.

Lemma sign_jwts_signs f kms jwts : honest_factory f → sign_jwts f kms = Ok jwts →
  Forall2 (λ (km : SigningKey * (Header * CredentialRequestProofJwtPayload)) (kj : SigningKey * string),
    kj.1 = km.1 ∧ Jwt_sign km.2.2 km.2.1 km.1 = Ok kj.2) kms jwts.
Proof.
  unfold sign_jwts. intros Hf Hs. apply bind_Ok in Hs as (ms & Hms & Hs). rewrite Hf in Hs. simpl in Hs.
  apply try_map_Ok in Hms, Hs. revert ms jwts Hms Hs.
  induction kms as [|[k [h c]] kms IH]; intros ms jwts Hms Hs; csimpl in *.
  - inversion Hms; subst. inversion Hs; subst. constructor.
  - inversion Hms as [|? m ? ms' Hm Hms']; subst. csimpl in *.
    inversion Hs as [|? kj ? jwts' Hkj Hs']; subst. constructor; [|by eapply IH].
    simpl in Hkj. injection Hkj as <-. split; [done|].
    unfold jwt_message in Hm. simpl in Hm. run_ok Hm. unfold Jwt_sign. simpl.
    repeat match goal with H : encode_header _ = Some _ |- _ => rewrite H | H : encode_claims _ = Some _ |- _ => rewrite H end.
    done.
Qed.

Lemma new_multiple_proofs f t n client identifier count kps k p now ids :
  honest_factory f → new_multiple t f n client identifier count = Ok kps → (k, p) ∈ kps →
  claims_valid now (pop_validation ids identifier) (pop_payload t n client identifier) = true →
  CredentialRequestProof_verify now p n ids identifier = Ok (verifying_key k).
Proof.
  unfold new_multiple. intros Hf Hn Hin Hc. apply bind_Ok in Hn as (keys & _ & Hn).
  apply bind_Ok in Hn as (kms & Hkms & Hn). apply bind_Ok in Hn as (jwts & Hj & [= <-]). apply map_err_Ok in Hj.
  apply list_elem_of_fmap in Hin as ([k' j] & [= -> ->] & Hin).
  apply (sign_jwts_signs f kms jwts Hf), Forall2_flip in Hj.
  destruct (Forall2_elem_l _ _ _ _ Hj Hin) as ([k2 [h c]] & Hkm & Hk & Hsign). simpl in Hk, Hsign. subst k'.
  apply try_map_Ok, Forall2_flip in Hkms. destruct (Forall2_elem_l _ _ _ _ Hkms Hkm) as (k3 & _ & Hh).
  apply bind_Ok in Hh as (h' & Hh' & [= -> <- <-]). apply map_err_Ok in Hh'.
  unfold jwk_jwt_header in Hh'. apply bind_Ok in Hh' as (jw & Hjw & [= <-]).
  unfold CredentialRequestProof_verify.
  assert (decode_header (C:=CredentialRequestProofJwtPayload) j = Some
    {| alg := ES256; Jose.typ := Some OPENID4VCI_VC_POP_JWT_TYPE; kid := None; jwk := Some jw; x5c := None |}) as ->.
  { unfold Jwt_sign in Hsign. run_ok Hsign. rewrite string_app_assoc. rewrite string_app_assoc. by apply decode_header_encoded. }
  simpl. rewrite (jwk_round_trip _ _ Hjw). simpl.
  rewrite (Jwt_sign_verify now _ _ _ _ (pop_validation ids identifier) Hsign); [|left|done]. simpl.
  by rewrite bool_decide_eq_true_2.
Qed.

Definition requested (c : AuthorizationCode) : TokenRequest := mkTokenRequest (GrantPreAuthorizedCode c) None None None.

(** What an honest wallet and a well-configured issuer look like. *)
Record issuance_setup (s : S) (code : AuthorizationCode) (now1 now2 : Z) (rnd : TokenRandom) (sk : SigningKey)
    (turl curl jti1 jti2 dpop1 dpop2 : string) (u : UnsignedMdoc) (cert : Certificate) (f : KeyFactory) (client : string)
    (kps : list (SigningKey * CredentialRequestProof)) : Prop := {
  setup_keyed : keyed s;
  setup_fresh : view s !! code = None;
  setup_code : starts_char code = true;
  setup_random : String.length (r_access_token rnd) = 32%nat;
  setup_turl : BaseUrl_join (E:=TokenRequestError) (credential_issuer_identifier d) "token" = Ok turl;
  setup_curl : BaseUrl_join (E:=CredentialRequestError) (server_url d) "credential" = Ok curl;
  setup_offer : ∀ sess, attributes sess (requested code) = Some [PreviewMsoMdoc u cert];
  setup_dpop1 : Dpop_new jti1 now1 sk turl "POST" None None = Ok dpop1;
  setup_dpop1_valid : claims_valid now1 Dpop_validation
    {| jti := jti1; iat := now1; http_method := "POST"; http_url := turl; nonce := None; access_token_hash := None |} = true;
  setup_dpop2 : Dpop_new jti2 now2 sk curl "POST" (Some (AccessToken_new (r_access_token rnd) code))
    (Some (r_dpop_nonce rnd)) = Ok dpop2;
  setup_dpop2_valid : claims_valid now2 Dpop_validation
    {| jti := jti2; iat := now2; http_method := "POST"; http_url := curl; nonce := Some (r_dpop_nonce rnd);
       access_token_hash := Some (sha256 (AccessToken_new (r_access_token rnd) code)) |} = true;
  setup_factory : honest_factory f;
  setup_pop : new_multiple now2 f (r_c_nonce rnd) client (credential_issuer_identifier d) 1 = Ok kps;
  setup_pop_valid : claims_valid now2 (pop_validation (accepted_wallet_client_ids d) (credential_issuer_identifier d))
    (pop_payload now2 (r_c_nonce rnd) client (credential_issuer_identifier d)) = true
}.

Section Honest.
Context (s : S) (code : AuthorizationCode) (now1 now2 : Z) (rnd : TokenRandom) (sk : SigningKey).
Context (turl curl jti1 jti2 dpop1 dpop2 : string) (u : UnsignedMdoc) (cert : Certificate) (f : KeyFactory) (client : string).
Context (kps : list (SigningKey * CredentialRequestProof)).
Hypothesis H_setup : issuance_setup s code now1 now2 rnd sk turl curl jti1 jti2 dpop1 dpop2 u cert f client kps.

Let at_ : AccessToken := AccessToken_new (r_access_token rnd) code.
Let waiting : WaitingForResponse := {|
  w_access_token := at_; w_c_nonce := r_c_nonce rnd; w_previews := [PreviewMsoMdoc u cert];
  w_dpop_public_key := verifying_key sk; w_dpop_nonce := r_dpop_nonce rnd
|}.

Lemma token_request_succeeds : ∃ s1,
  process_token_request attributes show_t now1 rnd d (requested code) dpop1 s =
    (Ok (mkTokenResponseWithPreviews (TokenResponse_new at_ (r_c_nonce rnd)) [PreviewMsoMdoc u cert],
         r_dpop_nonce rnd), s1) ∧
  view s1 = <[code := mkSessionState (IWaitingForResponse waiting) code now1]> (view s).
Proof.
  destruct H_setup as [Hk Hf Hc Hr Ht Hcu Ho Hd1 Hv1 Hd2 Hv2 Hfac Hpop Hpv]. unfold process_token_request. unfold sbind at 1, st_map_err at 1. rewrite get_spec.
  change (TokenRequest_code (requested code)) with code. rewrite Hf. cbn [map_err default].
  unfold sbind at 1, st_lift at 1. simpl try_created. cbn [map_err].
  assert (process_token_request_inner attributes now1 rnd (mkSessionState (mkCreated None) code now1) (requested code) dpop1
    (credential_issuer_identifier d) = Ok (mkTokenResponseWithPreviews (TokenResponse_new at_ (r_c_nonce rnd))
      [PreviewMsoMdoc u cert], verifying_key sk, r_dpop_nonce rnd)) as Hin.
  { unfold process_token_request_inner. simpl. rewrite Ht. simpl.
    rewrite (proj2 (dpop_accepted _ _ _ _ _ _ _ _ now1 Hd1 Hv1) eq_refl). simpl.
    by rewrite Ho. }
  unfold sbind at 1, st_lift at 1. unfold session_process_token_request, SessionState_new. simpl data.
  change (try_created _) with (Ok (E:=IssuanceError) (mkSessionState (mkCreated None) code now1)).
  cbn [map_err]. rewrite Hin. simpl.
  destruct (write_spec (from_waiting (transition now1 (mkSessionState (mkCreated None) code now1) waiting)) true s)
    as (s1 & Hw & Hv & _); [by right|].
  exists s1. split; [|done]. unfold sbind, st_map_err, st_lift. unfold at_ in *.
  match goal with |- context [store_write ?x true s] => change (store_write x true s) with
    (store_write (from_waiting (transition now1 (mkSessionState (mkCreated None) code now1) waiting)) true s) end.
  by rewrite Hw.
Qed.

Lemma credential_request_succeeds k p ck key rng signed s1 :
  view s1 = <[code := mkSessionState (IWaitingForResponse waiting) code now1]> (view s) →
  (k, p) ∈ kps → cose_key_from_verifying_key (verifying_key k) = Ok ck →
  private_keys d (u_doc_type u) = Some key → IssuerSigned_sign now2 rng u ck key = Ok signed →
  ∃ s2, process_credential show_c now2 rng d at_ dpop2 (mkCredentialRequest MsoMdoc (Some (u_doc_type u)) (Some p)) s1
      = (Ok (ResponseMsoMdoc signed), s2) ∧ session_data s2 code = Some (IDone (mkDone RDone)).
Proof.
  destruct H_setup as [Hk Hf Hc Hr Ht Hcu Ho Hd1 Hv1 Hd2 Hv2 Hfac Hpop Hpv]. intros Hview Hin Hck Hkey Hsign.
  assert (AccessToken_code at_ = Some code) as Hat.
  { unfold at_, AccessToken_code, AccessToken_new. rewrite <-Hr. by apply str_get_from_app. }
  assert (process_credential_inner now2 rng (mkSessionState waiting code now1)
    (mkCredentialRequest MsoMdoc (Some (u_doc_type u)) (Some p)) at_ dpop2 d = Ok (ResponseMsoMdoc signed)) as Hinner.
  { unfold process_credential_inner, check_authorization. simpl. rewrite bool_decide_eq_true_2 by done. simpl.
    rewrite Hcu. simpl. pose proof (proj1 (dpop_accepted _ _ _ _ _ _ _ _ now2 Hd2 Hv2)) as Hdp.
    fold at_ in Hdp. rewrite Hdp. simpl.
    assert (requested_unsigned waiting (mkCredentialRequest MsoMdoc (Some (u_doc_type u)) (Some p)) = Ok u) as ->.
    { unfold requested_unsigned. cbn [doctype w_previews waiting]. csimpl.
      by rewrite filter_cons_True, filter_nil. }
    cbn [obind]. unfold verify_pop_and_sign_attestation. simpl. rewrite bool_decide_eq_true_2 by done. simpl.
    rewrite (new_multiple_proofs f now2 _ client _ 1 kps k p now2 _ Hfac Hpop Hin Hpv). simpl.
    rewrite Hck. simpl. rewrite Hkey. simpl. by rewrite Hsign. }
  unfold process_credential, sbind, st_lift at 1. rewrite Hat. cbn [ok_or]. rewrite get_session_eq.
  unfold found_session. rewrite Hview, lookup_insert_eq. simpl. rewrite Hinner. simpl.
  destruct (respond_Ok (Ok (ResponseMsoMdoc signed)) (transition now2 (mkSessionState waiting code now1) (mkDone RDone)) s1)
    as (s2 & -> & Hv). exists s2. split; [done|]. unfold session_data. rewrite Hv. simpl. by rewrite lookup_insert_eq.
Qed.
End Honest.

(** C27. Issuance works: a wallet that follows the protocol gets what the issuer
    offers.  From a store without a session for its code, its token request is
    answered with the offer and an access token, and its credential request, with a
    DPoP by the same key and a proof of possession of a new key, is answered with an
    attestation: to whoever trusts the certificate of the issuer it verifies within
    its period of validity, with the offered document type, exactly the offered
    attributes (duplicate names in a namespace merged), the names of the issuer and
    that new key.  The session then is done. *)
Theorem honest_issuance_succeeds s code now1 now2 rnd sk turl curl jti1 jti2 dpop1 dpop2 u cert f client kps
    k p ck key rng
    (Hsetup : issuance_setup s code now1 now2 rnd sk turl curl jti1 jti2 dpop1 dpop2 u cert f client kps)
    (Hin : (k, p) ∈ kps) (Hck : cose_key_from_verifying_key (verifying_key k) = Ok ck)
    (Hkey : private_keys d (u_doc_type u) = Some key) (Hwf : unsigned_wf u) (Henc : encodable u ck) :
  ∃ resp s1 s2 signed,
    process_token_request attributes show_t now1 rnd d (requested code) dpop1 s = (Ok (resp, r_dpop_nonce rnd), s1) ∧
    attestation_previews resp = [PreviewMsoMdoc u cert] ∧
    process_credential show_c now2 rng d (access_token (token_response resp)) dpop2
      (mkCredentialRequest MsoMdoc (Some (u_doc_type u)) (Some p)) s1 = (Ok (ResponseMsoMdoc signed), s2) ∧
    session_data s2 code = Some (IDone (mkDone RDone)) ∧
    ∀ time anchors names, trusted_issuer key time anchors names → valid_between u time →
      ∃ attrs mso, IssuerSigned_verify signed Valid time anchors = Ok (attrs, mso) ∧
        disclosed_attributes attrs = merged_attributes (u_attributes u) ∧ issuer attrs = names ∧
        mso_doc_type mso = u_doc_type u ∧
        verifying_key_from_cose_key (device_key (device_key_info mso)) = Ok (verifying_key k).
Proof.
  destruct (sign_succeeds now2 rng u ck key Hwf Henc) as [signed Hsign].
  destruct (token_request_succeeds _ _ _ _ _ _ _ _ _ _ _ _ _ _ _ _ _ Hsetup) as (s1 & Ht & Hv).
  destruct (credential_request_succeeds _ _ _ _ _ _ _ _ _ _ _ _ _ _ _ _ _ Hsetup k p ck key rng signed s1) as (s2 & Hc & Hd);
    [done..|]. do 3 eexists. exists signed. split_and!; [exact Ht|done|exact Hc|done|].
  intros time anchors names Htr Hval.
  destruct (sign_verify_full now2 rng u ck key signed time anchors names Valid) as [digests Hver];
    [done|by eapply ec2_key_wf|done|by apply valid_between_verifies|done|].
  do 2 eexists. split; [exact Hver|]. split_and!; try done. by apply cose_key_round_trip.
Qed.

(** ** Requests that overlap *)

(** The first half of a credential request: find the session. *)
Definition load_session (at_ : AccessToken) : ST S CredentialRequestError (SessionState WaitingForResponse) :=
  let! code := st_lift (ok_or MalformedToken (AccessToken_code at_)) in get_session code.

Lemma process_credential_split now rng at_ dpop cr s :
  process_credential show_c now rng d at_ dpop cr s =
    sbind (load_session at_) (λ sess, respond (finish_session show_c now sess
      (process_credential_inner now rng sess cr at_ dpop d))) s.
Proof. unfold process_credential, load_session, sbind, st_lift. by destruct (AccessToken_code at_). Qed.

(** Access tokens are not single use when requests overlap: a credential
    request is the loading of the session followed by processing and writing,
    and nothing locks the session in between.  Two requests with the same access
    token (and even the same DPoP) that both load the session before either has
    written it are both answered with a credential. *)
Theorem overlapping_requests_both_succeed s code sess at_ now1 now2 rng1 rng2 dpop cr1 cr2 resp1 resp2
    (Hcode : AccessToken_code at_ = Some code) (Hsess : view s !! code = Some (from_waiting sess))
    (Hfirst : process_credential_inner now1 rng1 sess cr1 at_ dpop d = Ok resp1)
    (Hsecond : process_credential_inner now2 rng2 sess cr2 at_ dpop d = Ok resp2) :
  (∀ s, process_credential show_c now1 rng1 d at_ dpop cr1 s =
    sbind (load_session at_) (λ sess, respond (finish_session show_c now1 sess
      (process_credential_inner now1 rng1 sess cr1 at_ dpop d))) s) ∧
  ∃ s3 s4, load_session at_ s = (Ok sess, s) ∧
    respond (finish_session show_c now1 sess (process_credential_inner now1 rng1 sess cr1 at_ dpop d)) s = (Ok resp1, s3) ∧
    respond (finish_session show_c now2 sess (process_credential_inner now2 rng2 sess cr2 at_ dpop d)) s3 = (Ok resp2, s4).
Proof.
  split; [intros; apply process_credential_split|].
  rewrite Hfirst, Hsecond. simpl.
  destruct (respond_Ok (Ok resp1) (transition now1 sess (mkDone RDone)) s) as (s3 & Hr3 & _).
  destruct (respond_Ok (Ok resp2) (transition now2 sess (mkDone RDone)) s3) as (s4 & Hr4 & _).
  exists s3, s4. split_and!; try done. unfold load_session, sbind, st_lift. rewrite Hcode. cbn [ok_or].
  rewrite get_session_eq. unfold found_session. rewrite Hsess. simpl. by destruct sess.
Qed.
End IssuerFacts.
