(* ===== verification/IssuerWitness.v ===== *)
(** * An issuance session, evaluated

    The in-memory store, one issuer and one wallet: the theorems about the
    issuance server applied to a concrete run. *)
From stdpp Require Import base gmap strings list option fin_maps countable.
From Stdlib Require Import ZArith Lia.
From S2P Require Import Prelude IndexMap SessionStore SessionStoreFacts Crypto Jose Cbor Cose Engagement Concrete.
From S2P Require Import Mdoc MdocSigning MdocFacts Protocol Issuer IssuerFacts.
Import Crates.

#[export] Instance PopPayload_eq_dec : EqDecision CredentialRequestProofJwtPayload.
Proof. solve_decision. Defined.
#[export] Instance PopPayload_countable : Countable CredentialRequestProofJwtPayload.
Proof.
  refine (inj_countable
    (λ p, [text (Some (pop_iss p)); text (Some (pop_aud p)); text (pop_nonce p); inl (inr (pop_iat p))])
    (λ l : list item, match l with
      | [inl (inl (Some i)); inl (inl (Some a)); inl (inl n); inl (inr t)] =>
          Some {| pop_iss := i; pop_aud := a; pop_nonce := n; pop_iat := t |}
      | _ => None end) _).
  by intros [].
Defined.
#[export] Instance url_join_lib : UrlJoin := {|
  url_path_is_dir _ := true; url_push_slash u := u; url_join base s := Some (base +:+ s)
|}.

Definition ex_attributes (_ : SessionState Created) (_ : TokenRequest) : option (list AttestationPreview) :=
  Some [PreviewMsoMdoc example_unsigned "cert"].
Definition ex_show_t (_ : TokenRequestError) : string := "token error".
Definition ex_show_c (_ : CredentialRequestError) : string := "credential error".
Definition ex_issuer : IssuerData := {|
  private_keys _ := Some example_issuer;
  credential_issuer_identifier := "https://i/";
  accepted_wallet_client_ids := ["wallet"];
  server_url := "https://i/"
|}.
Abbreviation Store := (MemorySessionStore IssuanceData).
Definition ex_store : Store := memory_new default_timeouts.
Definition ex_rnd : TokenRandom := {|
  r_c_nonce := "cn"; r_dpop_nonce := "dn"; r_access_token := "0123456789abcdef0123456789abcdef"
|}.
Definition ex_at : AccessToken := AccessToken_new (r_access_token ex_rnd) "code".
Definition ex_wallet : SigningKey := "wallet-dpop-key".
Definition ex_dpop1 : string :=
  match Dpop_new "j1" 20 ex_wallet "https://i/token" "POST" None None with Ok x => x | _ => "" end.
Definition ex_dpop2 : string :=
  match Dpop_new "j2" 30 ex_wallet "https://i/credential" "POST" (Some ex_at) (Some "dn") with Ok x => x | _ => "" end.
Definition ex_dpop3 : string :=
  match Dpop_new "j3" 30 ex_wallet "https://i/batch_credential" "POST" (Some ex_at) (Some "dn") with Ok x => x | _ => "" end.
Definition ex_key (_ : Z) : SigningKey := "device".
(** A key factory that always succeeds and signs with the keys themselves. *)
Definition ex_factory : KeyFactory := {|
  generate_new_multiple count := Some (ex_key <$> seqZ 0 count);
  sign_multiple_with_existing_keys l :=
    Some ((λ mk : string * list SigningKey, (λ k, ecdsa_sign k mk.1) <$> mk.2) <$> l)
|}.
Definition ex_proofs : list (SigningKey * CredentialRequestProof) :=
  match new_multiple 30 ex_factory "cn" "wallet" "https://i/" 1 with Ok l => l | _ => [] end.
Definition ex_proof : CredentialRequestProof :=
  match ex_proofs with (_, p) :: _ => p | [] => ProofJwt "" end.
Definition ex_cr : CredentialRequest := mkCredentialRequest MsoMdoc (Some "com.example.pid") (Some ex_proof).
Definition ex_ck : CoseKey := new_ec2_pub_key "device" "y".
Definition ex_signed : IssuerSigned :=
  match IssuerSigned_sign 30 example_rng example_unsigned ex_ck example_issuer with Ok s => s | _ => example_signed end.

Lemma ex_keyed : keyed ex_store.
Proof. intros tok sess Hl. cbn [view memory_store_spec ex_store memory_new sessions] in Hl. by rewrite lookup_empty in Hl. Qed.

Lemma ex_setup : issuance_setup ex_attributes ex_issuer ex_store "code" 20 30 ex_rnd ex_wallet
  "https://i/token" "https://i/credential" "j1" "j2" ex_dpop1 ex_dpop2 example_unsigned "cert" ex_factory "wallet" ex_proofs.
Proof.
  split.
  - apply ex_keyed.
  - reflexivity.
  - reflexivity.
  - reflexivity.
  - reflexivity.
  - reflexivity.
  - reflexivity.
  - vm_compute. reflexivity.
  - reflexivity.
  - vm_compute. reflexivity.
  - reflexivity.
  - intros l. reflexivity.
  - vm_compute. reflexivity.
  - reflexivity.
Qed.

Lemma ex_encodable : encodable example_unsigned ex_ck.
Proof.
  split_and!; [intros v; eexists; reflexivity|eexists; vm_compute; reflexivity|].
  intros ns es Hin. apply list_elem_of_singleton in Hin. injection Hin as -> ->. vm_compute. discriminate.
Qed.
Lemma honest_issuance_succeeds_witness : ∃ resp s1 s2 signed attrs mso,
  process_token_request ex_attributes ex_show_t 20 ex_rnd ex_issuer (requested "code") ex_dpop1 ex_store
    = (Ok (resp, "dn"), s1) ∧
  process_credential ex_show_c 30 example_rng ex_issuer (access_token (token_response resp)) ex_dpop2 ex_cr s1
    = (Ok (ResponseMsoMdoc signed), s2) ∧
  IssuerSigned_verify signed Valid (500 * 1000000) example_anchors = Ok (attrs, mso) ∧
  disclosed_attributes attrs = [("com.example.pid", [mkEntry "name" (VText "De Bruijn"); mkEntry "age" (VInteger 18)])].
Proof.
  destruct (honest_issuance_succeeds ex_attributes ex_show_t ex_show_c ex_issuer ex_store "code" 20 30 ex_rnd ex_wallet
    "https://i/token" "https://i/credential" "j1" "j2" ex_dpop1 ex_dpop2 example_unsigned "cert" ex_factory "wallet" ex_proofs
    (ex_key 0) ex_proof ex_ck example_issuer example_rng) as (resp & s1 & s2 & signed & Ht & _ & Hc & _ & Hv).
  - apply ex_setup.
  - vm_compute. left.
  - reflexivity.
  - reflexivity.
  - apply example_wf.
  - apply ex_encodable.
  - destruct (Hv (500 * 1000000) example_anchors ["cert.issuer.example.com"] (example_trusted _) example_valid) as (attrs & mso & Hver & Hat & _).
    exists resp, s1, s2, signed, attrs, mso. split; [exact Ht|]. split; [exact Hc|]. split; [exact Hver|].
    rewrite Hat. vm_compute. reflexivity.
Defined.

(** The store and the session after the token request. *)
Definition ex_waiting : SessionState WaitingForResponse := mkSessionState {|
  w_access_token := ex_at; w_c_nonce := "cn"; w_previews := [PreviewMsoMdoc example_unsigned "cert"];
  w_dpop_public_key := (ex_wallet : VerifyingKey); w_dpop_nonce := "dn" |} "code" 20.
Definition ex_store1 : Store := mkMemory default_timeouts {["code" := from_waiting ex_waiting]}.
Definition ex_store2 : Store :=
  (process_credential ex_show_c 30 example_rng ex_issuer ex_at ex_dpop2 ex_cr ex_store1).2.

Lemma ex_keyed1 : keyed ex_store1.
Proof.
  intros tok sess Hl. cbn [view memory_store_spec ex_store1 sessions] in Hl.
  apply lookup_singleton_Some in Hl as [<- <-]. reflexivity.
Qed.

Lemma ex_lookup1 : view (SessionStoreSpec:=memory_store_spec) ex_store1 !! "code" = Some (from_waiting ex_waiting).
Proof. reflexivity. Qed.

Lemma ex_run2 : process_credential ex_show_c 30 example_rng ex_issuer ex_at ex_dpop2 ex_cr ex_store1
  = (Ok (ResponseMsoMdoc ex_signed), ex_store2).
Proof. apply injective_projections; [vm_compute; reflexivity|reflexivity]. Qed.

Definition ex_reject : request := RejectReq 40 ex_at "not a dpop" "credential".

Lemma issuance_lifecycle_witness :
  session_step (session_data ex_store1 "code") (session_data (handle ex_attributes ex_show_t ex_show_c ex_issuer ex_reject ex_store1) "code").
Proof.
  destruct (issuance_lifecycle ex_attributes ex_show_t ex_show_c ex_issuer [] ex_store1 ex_keyed1) as [Hstep _].
  apply Hstep.
Defined.

Lemma access_token_single_use_witness :
  (process_credential ex_show_c 50 example_rng ex_issuer ex_at ex_dpop2 ex_cr
    (handle_all ex_attributes ex_show_t ex_show_c ex_issuer [ex_reject] ex_store2)).1
  = Err (CredentialIssuanceError UnexpectedState).
Proof.
  destruct (access_token_single_use ex_attributes ex_show_t ex_show_c ex_issuer 30 example_rng ex_at ex_dpop2 ex_cr
    ex_store1 (Ok (ResponseMsoMdoc ex_signed)) ex_store2 "code" [ex_reject] ex_at 50 example_rng ex_dpop2 ex_cr
    (λ _, example_rng) []) as [Hs _].
  - apply ex_keyed1.
  - reflexivity.
  - reflexivity.
  - apply ex_run2.
  - reflexivity.
  - rewrite Hs. reflexivity.
Defined.

Definition ex_other_at : AccessToken := AccessToken_new "ffffffffffffffffffffffffffffffff" "code".

Lemma unauthorized_request_ends_session_witness : ∃ s',
  process_credential ex_show_c 30 example_rng ex_issuer ex_other_at "" ex_cr ex_store1 = (Err Unauthorized, s') ∧
  session_data s' "code" = Some (IDone (mkDone (RFailed "credential error"))).
Proof.
  apply (unauthorized_request_ends_session ex_show_c ex_issuer 30 example_rng ex_other_at "" ex_cr ex_store1 "code" ex_waiting).
  - reflexivity.
  - reflexivity.
  - apply ex_keyed1.
  - vm_compute. discriminate.
Defined.

Definition ex_batch : list CredentialRequest := [ex_cr; ex_cr; ex_cr].
Definition ex_resps : list CredentialResponse := [ResponseMsoMdoc ex_signed; ResponseMsoMdoc ex_signed].
Definition ex_store3 : Store :=
  (process_batch_credential ex_show_c 30 (λ _, example_rng) ex_issuer ex_at ex_dpop3 ex_batch ex_store1).2.

(** One credential, and three requests for an mdoc that is offered in two copies. *)
Lemma credential_needs_authorization_witness :
  (∃ w u, authorized ex_issuer 30 ex_store1 ex_at ex_dpop2 "credential" w ∧
     issued_to ex_issuer 30 example_rng (w_c_nonce w) ex_cr u (ResponseMsoMdoc ex_signed)) ∧
  ∃ w, authorized ex_issuer 30 ex_store1 ex_at ex_dpop3 "batch_credential" w ∧ (length ex_resps ≤ length (batch_mdocs w))%nat.
Proof.
  destruct (credential_needs_authorization ex_show_c ex_issuer 30 ex_at ex_dpop2 ex_store1) as [Hone _].
  destruct (credential_needs_authorization ex_show_c ex_issuer 30 ex_at ex_dpop3 ex_store1) as [_ Hbatch]. split.
  - destruct (Hone example_rng ex_cr _ ex_store2 ex_run2) as (w & u & Hau & _ & Hi). exists w, u. by split.
  - destruct (Hbatch (λ _, example_rng) ex_batch ex_resps ex_store3) as (w & Hau & Hlen & _); [|exists w; by split].
    apply injective_projections; [vm_compute; reflexivity|reflexivity].
Defined.

(** Three requests for an mdoc that is offered in two copies. *)
Lemma batch_response_is_zipped_witness : ∃ sess : SessionState WaitingForResponse,
  length ex_resps = Nat.min (length ex_batch) (length (batch_mdocs (data sess))).
Proof.
  destruct (batch_response_is_zipped ex_show_c ex_issuer 30 (λ _, example_rng) ex_at ex_dpop3 ex_batch ex_store1 ex_store3
    ex_resps) as (code & sess & _ & _ & Hl & _);
    [apply injective_projections; [vm_compute; reflexivity|reflexivity]|].
  exists sess. exact Hl.
Defined.

Definition ex_created_store : Store :=
  mkMemory default_timeouts {["code" := mkSessionState (ICreated (mkCreated None)) "code" 5]}.

Lemma existing_session_never_starts_witness :
  is_ok (process_token_request ex_attributes ex_show_t 20 ex_rnd ex_issuer (requested "code") ex_dpop1 ex_created_store).1 = false.
Proof.
  apply (existing_session_never_starts ex_attributes ex_show_t ex_issuer 20 ex_rnd (requested "code") ex_dpop1
    ex_created_store (mkSessionState (ICreated (mkCreated None)) "code" 5)).
  - intros tok sess Hl. cbn [view memory_store_spec ex_created_store sessions] in Hl.
    apply lookup_singleton_Some in Hl as [<- <-]. reflexivity.
  - reflexivity.
Defined.

Lemma overlapping_requests_both_succeed_witness : ∃ s3 s4 : Store,
  respond (finish_session ex_show_c 30 ex_waiting
    (process_credential_inner 30 example_rng ex_waiting ex_cr ex_at ex_dpop2 ex_issuer)) ex_store1
    = (Ok (ResponseMsoMdoc ex_signed), s3) ∧
  respond (finish_session ex_show_c 30 ex_waiting
    (process_credential_inner 30 example_rng ex_waiting ex_cr ex_at ex_dpop2 ex_issuer)) s3
    = (Ok (ResponseMsoMdoc ex_signed), s4).
Proof.
  destruct (overlapping_requests_both_succeed ex_show_c ex_issuer ex_store1 "code" ex_waiting ex_at 30 30 example_rng
    example_rng ex_dpop2 ex_cr ex_cr (ResponseMsoMdoc ex_signed) (ResponseMsoMdoc ex_signed)) as (_ & s3 & s4 & _ & H3 & H4).
  - reflexivity.
  - reflexivity.
  - vm_compute. reflexivity.
  - vm_compute. reflexivity.
  - exists s3, s4. split; [exact H3|exact H4].
Defined.
