(* ===== verification/OpenId4vp.v ===== *)
(** * Authorization requests and responses of OpenID4VP

    Models [openid4vc/src/openid4vp.rs] and the signing with X.509 certificates of
    [openid4vc/src/jwt.rs]: how a verifier makes a signed authorization request,
    how a wallet checks it against the ISO 18013-7 profile, how the wallet
    encrypts its response and how the verifier decrypts and checks it.

    The crates [josekit] (JSON web encryption) and [serde_json] are parameters. *)
From stdpp Require Import base strings list option sets.
From Stdlib Require Import ZArith Lia Ascii.
From S2P Require Import Prelude IndexMap Crypto Jose Cbor Cose Engagement Mdoc MdocSigning Protocol PresentationExchange.

(** ** Standard base64, as in the [x5c] header *)
Class Base64Std := {
  b64std_encode : string → string;
  b64std_decode : string → option string;
  b64std_decode_encode s : b64std_decode (b64std_encode s) = Some s
}.

(** ** JSON values and JSON web encryption *)
Inductive Json :=
  | JNull | JBool (b : bool) | JNumber (n : Z) | JString (s : string)
  | JArray (l : list Json) | JObject (l : list (string * Json)).
Definition as_str (j : Json) : option string := match j with JString s => Some s | _ => None end.

(** The fields of a [JweHeader] that the code sets or reads. *)
Record JweHeader := mkJweHeader {
  token_type : option string;
  agreement_partyuinfo : option string;
  agreement_partyvinfo : option string;
  content_encryption : option string
}.

Class Josekit := {
  JoseJwk : Type;
  EcKeyPair : Type;
  (** The JSON object that is encrypted. *)
  JwtPayload : Type;
  Encrypter : Type;
  Decrypter : Type;
  jwk_parameter : JoseJwk → string → option Json;
  jwk_curve : JoseJwk → option string;
  to_jwk_public_key : EcKeyPair → JoseJwk;
  to_jwk_key_pair : EcKeyPair → JoseJwk;
  encrypter_from_jwk : JoseJwk → option Encrypter;
  decrypter_from_jwk : JoseJwk → option Decrypter;
  (** The last argument stands for the randomness of the encryption. *)
  encode_with_encrypter : JwtPayload → JweHeader → Encrypter → string → option string;
  decode_with_decrypter : string → Decrypter → option (JwtPayload * JweHeader);
  (** Keys are generated on the curve P-256, *)
  public_key_kty kp : jwk_parameter (to_jwk_public_key kp) "kty" = Some (JString "EC");
  public_key_curve kp : jwk_curve (to_jwk_public_key kp) = Some "P-256";
  (** and what is encrypted to a public key decrypts under the key pair. *)
  decrypter_exists kp : is_Some (decrypter_from_jwk (to_jwk_key_pair kp));
  decode_encoded_jwe kp e d p h rnd jwe :
    encrypter_from_jwk (to_jwk_public_key kp) = Some e → decrypter_from_jwk (to_jwk_key_pair kp) = Some d →
    encode_with_encrypter p h e rnd = Some jwe →
    ∃ h', decode_with_decrypter jwe d = Some (p, h') ∧
      agreement_partyuinfo h' = agreement_partyuinfo h ∧ agreement_partyvinfo h' = agreement_partyvinfo h
}.

(** ** UTF-8 ([String::from_utf8]) *)
Definition byte_in (lo hi : Z) (a : ascii) : bool :=
  let n := Z.of_nat (nat_of_ascii a) in (lo <=? n) && (n <=? hi).
Definition continuation : ascii → bool := byte_in 128 191.

(** The well-formed byte sequences of the Unicode standard. *)
Fixpoint utf8_valid (s : string) : bool :=
  match s with
  | EmptyString => true
  | String a r =>
      if byte_in 0 127 a then utf8_valid r
      else if byte_in 194 223 a then
        match r with String b r => continuation b && utf8_valid r | _ => false end
      else if byte_in 224 239 a then
        match r with
        | String b (String c r) =>
            (if byte_in 224 224 a then byte_in 160 191 b
             else if byte_in 237 237 a then byte_in 128 159 b else continuation b)
              && continuation c && utf8_valid r
        | _ => false
        end
      else if byte_in 240 244 a then
        match r with
        | String b (String c (String d r)) =>
            (if byte_in 240 240 a then byte_in 144 191 b
             else if byte_in 244 244 a then byte_in 128 143 b else continuation b)
              && continuation c && continuation d && utf8_valid r
        | _ => false
        end
      else false
  end.
Definition string_from_utf8 (s : string) : option string := if utf8_valid s then Some s else None.

(** ** Signing with certificates ([openid4vc::jwt]) *)
Inductive JwtX5cError :=
  | X5cJwt (e : JwtError)
  | MissingCertificates
  | CertificateBase64
  | CertificateValidation (e : CertificateError)
  | CertificatePublicKey (e : CertificateError).

Section X5c.
Context `{!Ecdsa, !X509Lib, !Base64Std} {C : Type} `{!JwtLib C}.

Definition x5c_validation (audience : list string) : Validation := {|
  algorithms := [ES256]; required_spec_claims := []; leeway := 60; validate_exp := true;
  iss := None; aud := Some audience
|}.

(** [verify_against_trust_anchors]: the last certificate of the header is the
    leaf, the others are intermediates. *)
Definition jwt_verify_against_trust_anchors (jwt : string) (audience : list string) (trust_anchors : list TrustAnchor)
    (time : Z) : outcome JwtX5cError (C * Certificate) :=
  let* header := ok_or (X5cJwt JwtValidation) (decode_header (C:=C) jwt) in
  let* chain := ok_or MissingCertificates (x5c header) in
  let* certs := try_map (λ c, ok_or CertificateBase64 (b64std_decode c)) chain in
  let* leaf_cert := ok_or MissingCertificates (last certs) in
  let intermediate_certs := removelast certs in
  let* _ := map_err CertificateValidation
              (Certificate_verify leaf_cert ReaderAuthUsage intermediate_certs time trust_anchors) in
  let* pubkey := map_err CertificatePublicKey (Certificate_public_key leaf_cert) in
  let* payload := map_err X5cJwt (Jwt_parse_and_verify time jwt pubkey (x5c_validation audience)) in
  Ok (payload, leaf_cert).

(** [sign_with_certificate] *)
Definition x5c_header (cert : Certificate) : Header := {|
  alg := ES256; Jose.typ := Some "JWT"; kid := None; jwk := None; x5c := Some [b64std_encode cert]
|}.
Definition sign_with_certificate (payload : C) (keypair : KeyPair) : outcome JwtError string :=
  Jwt_sign payload (x5c_header (certificate keypair)) (private_key keypair).

Lemma signed_with_certificate_verifies payload keypair jwt audience anchors time :
  sign_with_certificate payload keypair = Ok jwt →
  Certificate_verify (certificate keypair) ReaderAuthUsage [] time anchors = Ok tt →
  Certificate_public_key (certificate keypair) = Ok (verifying_key (private_key keypair)) →
  claims_valid time (x5c_validation audience) payload = true →
  jwt_verify_against_trust_anchors jwt audience anchors time = Ok (payload, certificate keypair).
Proof.
  intros Hs Hc Hpk Hv. unfold jwt_verify_against_trust_anchors.
  assert (decode_header (C:=C) jwt = Some (x5c_header (certificate keypair))) as ->.
  { unfold sign_with_certificate, Jwt_sign in Hs. run_ok Hs. rewrite !string_app_assoc. by apply decode_header_encoded. }
  simpl. rewrite b64std_decode_encode. simpl. rewrite Hc. simpl. rewrite Hpk. simpl.
  unfold Jwt_parse_and_verify. rewrite (Jwt_sign_verify time _ _ _ _ (x5c_validation audience) Hs); [done|left|done].
Qed.
End X5c.

(** ** Authorization requests *)
Inductive VpPresentationDefinition := PdDirect (pd : PresentationDefinition) | PdIndirect (url : string).
Inductive VpAlgValues := EcdhEs.
Inductive VpEncValues := A128GCM | A192GCM | A256GCM.
Inductive ClientIdScheme :=
  | PreRegistered | RedirectUriScheme | EntityId | Did | VerifierAttestation | X509SanDns | X509SanUri.
#[global] Instance ClientIdScheme_eq_dec : EqDecision ClientIdScheme.
Proof. solve_decision. Defined.
Inductive VpAuthorizationRequestAudience := SelfIssued.

Section Messages.
Context `{!Josekit}.

Inductive VpJwks := JwksDirect (keys : list JoseJwk) | JwksIndirect (url : string).
Record ClientMetadata := mkClientMetadata {
  jwks : VpJwks;
  vp_formats : VpFormat;
  authorization_encryption_alg_values_supported : VpAlgValues;
  authorization_encryption_enc_values_supported : VpEncValues
}.
Inductive VpClientMetadata := MetadataDirect (m : ClientMetadata) | MetadataIndirect (url : string).
Record VpAuthorizationRequest := mkVpRequest {
  vp_aud : VpAuthorizationRequestAudience;
  oauth_request : AuthorizationRequest;
  vp_presentation_definition : VpPresentationDefinition;
  vp_client_metadata : option VpClientMetadata;
  client_id_scheme : option ClientIdScheme;
  vp_response_uri : option string;
  vp_wallet_nonce : option string
}.
Record IsoVpAuthorizationRequest := mkIsoRequest {
  iso_client_id : string;
  iso_nonce : string;
  encryption_pubkey : JoseJwk;
  iso_response_uri : string;
  items_requests : list ItemsRequest;
  presentation_definition : PresentationDefinition;
  client_metadata : ClientMetadata;
  iso_state : option string;
  iso_wallet_nonce : option string
}.
End Messages.

(** The [direct] methods *)
Definition pd_direct (d : VpPresentationDefinition) : option PresentationDefinition :=
  match d with PdDirect pd => Some pd | PdIndirect _ => None end.
Definition metadata_direct `{!Josekit} (d : VpClientMetadata) : option ClientMetadata :=
  match d with MetadataDirect m => Some m | MetadataIndirect _ => None end.
Definition jwks_direct `{!Josekit} (d : VpJwks) : option (list JoseJwk) :=
  match d with JwksDirect keys => Some keys | JwksIndirect _ => None end.

Inductive AuthRequestError := AuthCertificateParsing (e : CertificateError) | AuthMissingSAN.
Inductive AuthRequestValidationError :=
  | UnexpectedField (field : string)
  | ExpectedFieldMissing (field : string)
  | UnsupportedFieldValue (field expected found : string)
  | UriVariantNotSupported (field : string)
  | UnexpectedJwkAmount (n : Z)
  | UnsupportedJwk (field expected : string) (found : option Json)
  | NoAttributesRequested
  | UnsupportedPresentationDefinition (e : PdConversionError)
  | UnauthorizedClientId (client_id dns_san : string)
  | MissingSAN
  | CertificateParsing (e : CertificateError)
  | JwtVerification (e : JwtX5cError)
  | WalletNonceMismatch.

(** The JSON texts in the errors: names in quotation marks, which never need
    escaping. *)
Definition json_string (s : string) : string := String "034" (s +:+ String "034" EmptyString).
Definition response_type_name (t : ResponseType) : string :=
  match t with Code => "code" | VpToken => "vp_token" | IdToken => "id_token" end.
Definition response_mode_name (m : ResponseMode) : string :=
  match m with
  | Query => "query" | Fragment => "fragment" | DirectPost => "direct_post" | DirectPostJwt => "direct_post.jwt"
  end.
Definition client_id_scheme_name (s : ClientIdScheme) : string :=
  match s with
  | PreRegistered => "pre-registered" | RedirectUriScheme => "redirect_uri" | EntityId => "entity_id" | Did => "did"
  | VerifierAttestation => "verifier_attestation" | X509SanDns => "x509_san_dns" | X509SanUri => "x509_san_uri"
  end.
Definition response_types_json (l : list ResponseType) : string :=
  "[" +:+ String.concat "," ((λ t, json_string (response_type_name t)) <$> l) +:+ "]".
Definition option_json (o : option string) : string := match o with Some s => json_string s | None => "null" end.

Definition audience_name (a : VpAuthorizationRequestAudience) : string :=
  match a with SelfIssued => "https://self-issued.me/v2" end.

Section Requests.
Context `{!Ecdsa, !X509Lib, !Base64Std, !Josekit}.

(** [JwePublicKey::validate] *)
Definition JwePublicKey_validate (jwk : JoseJwk) : outcome AuthRequestValidationError unit :=
  let* _ := guard_err (bool_decide ((jwk_parameter jwk "kty" ≫= as_str) = Some "EC"))
              (UnsupportedJwk "kty" "EC" (jwk_parameter jwk "kty")) in
  guard_err (bool_decide (jwk_curve jwk = Some "P-256")) (UnsupportedJwk "crv" "P-256" (JString <$> jwk_curve jwk)).

(** [IsoVpAuthorizationRequest::new]; [random] is the identifier of the definition. *)
Definition IsoVpAuthorizationRequest_new (random : string) (requests : list ItemsRequest) (rp_certificate : Certificate)
    (nonce : string) (pubkey : JoseJwk) (response_uri : string) (wallet_nonce : option string)
    : outcome AuthRequestError IsoVpAuthorizationRequest :=
  let* san := map_err AuthCertificateParsing (san_dns_name rp_certificate) in
  let* client_id := ok_or AuthMissingSAN san in
  Ok {|
    iso_client_id := client_id;
    iso_nonce := nonce;
    encryption_pubkey := pubkey;
    iso_response_uri := response_uri;
    presentation_definition := definition_of_requests random requests;
    items_requests := requests;
    client_metadata := {|
      jwks := JwksDirect [pubkey];
      vp_formats := VpMsoMdoc [FormatES256];
      authorization_encryption_alg_values_supported := EcdhEs;
      authorization_encryption_enc_values_supported := A128GCM
    |};
    iso_state := None;
    iso_wallet_nonce := wallet_nonce
  |}.

(** [From<IsoVpAuthorizationRequest> for VpAuthorizationRequest] *)
Definition vp_request_of_iso (value : IsoVpAuthorizationRequest) : VpAuthorizationRequest := {|
  vp_aud := SelfIssued;
  oauth_request := {|
    ar_response_type := [VpToken];
    ar_client_id := iso_client_id value;
    ar_nonce := Some (iso_nonce value);
    ar_response_mode := Some DirectPostJwt;
    ar_redirect_uri := None;
    ar_state := None;
    ar_authorization_details := None;
    ar_request_uri := None;
    ar_code_challenge := None;
    ar_scope := None
  |};
  vp_presentation_definition := PdDirect (presentation_definition value);
  vp_client_metadata := Some (MetadataDirect (client_metadata value));
  client_id_scheme := Some X509SanDns;
  vp_response_uri := Some (iso_response_uri value);
  vp_wallet_nonce := iso_wallet_nonce value
|}.

(** An error when an optional field is present, and when it is absent. *)
Definition absent {A} (field : string) (o : option A) : outcome AuthRequestValidationError unit :=
  match o with Some _ => Err (UnexpectedField field) | None => Ok tt end.
Definition present {A} (field : string) (o : option A) : outcome AuthRequestValidationError A :=
  ok_or (ExpectedFieldMissing field) o.

(** [TryFrom<VpAuthorizationRequest> for IsoVpAuthorizationRequest] *)
Definition iso_of_vp_request (r : VpAuthorizationRequest) : outcome AuthRequestValidationError IsoVpAuthorizationRequest :=
  let o := oauth_request r in
  let* _ := absent "authorization_details" (ar_authorization_details o) in
  let* _ := absent "code_challenge" (ar_code_challenge o) in
  let* _ := absent "redirect_uri" (ar_redirect_uri o) in
  let* _ := absent "scope" (ar_scope o) in
  let* _ := absent "request_uri" (ar_request_uri o) in
  let* nonce := present "nonce" (ar_nonce o) in
  let* response_mode := present "response_mode" (ar_response_mode o) in
  let* scheme := present "client_id_scheme" (client_id_scheme r) in
  let* response_uri := present "response_uri" (vp_response_uri r) in
  let* metadata := present "client_metadata" (vp_client_metadata r) in
  let* _ := guard_err (index_set_eqb (ar_response_type o) [VpToken])
              (UnsupportedFieldValue "response_type" "vp_token" (response_types_json (ar_response_type o))) in
  let* _ := guard_err (bool_decide (response_mode = DirectPostJwt))
              (UnsupportedFieldValue "response_mode" "direct_post.jwt"
                 (option_json (response_mode_name <$> ar_response_mode o))) in
  let* _ := guard_err (bool_decide (scheme = X509SanDns))
              (UnsupportedFieldValue "client_id_scheme" "x509_san_dns"
                 (option_json (client_id_scheme_name <$> client_id_scheme r))) in
  let* pd := ok_or (UriVariantNotSupported "presentation_definition") (pd_direct (vp_presentation_definition r)) in
  let* metadata := ok_or (UriVariantNotSupported "client_metadata") (metadata_direct metadata) in
  let* keys := ok_or (UriVariantNotSupported "presentation_definition") (jwks_direct (jwks metadata)) in
  match keys with
  | [jwk] =>
      let* _ := JwePublicKey_validate jwk in
      let* _ := guard_err (negb (forallb (λ i, bool_decide (length (fields (constraints i)) = 0%nat)) (input_descriptors pd)))
                  NoAttributesRequested in
      let* requests := map_err UnsupportedPresentationDefinition (requests_of_definition pd) in
      Ok {|
        iso_client_id := ar_client_id o;
        iso_nonce := nonce;
        encryption_pubkey := jwk;
        items_requests := requests;
        iso_response_uri := response_uri;
        presentation_definition := pd;
        client_metadata := metadata;
        iso_state := ar_state o;
        iso_wallet_nonce := vp_wallet_nonce r
      |}
  | _ => Err (UnexpectedJwkAmount (Z.of_nat (length keys)))
  end.

(** [VpAuthorizationRequest::verify] *)
Definition VpAuthorizationRequest_verify `{!JwtLib VpAuthorizationRequest} (now : Z) (jws : string)
    (trust_anchors : list TrustAnchor) (wallet_nonce : option string)
    : outcome AuthRequestValidationError (IsoVpAuthorizationRequest * Certificate) :=
  let* rc := map_err JwtVerification (jwt_verify_against_trust_anchors jws [audience_name SelfIssued] trust_anchors now) in
  let '(auth_request, rp_cert) := rc in
  let* san := map_err CertificateParsing (san_dns_name rp_cert) in
  let* dns_san := ok_or MissingSAN san in
  let client_id := ar_client_id (oauth_request auth_request) in
  let* _ := guard_err (bool_decide (dns_san = client_id)) (UnauthorizedClientId client_id dns_san) in
  let* _ := guard_err (bool_decide (wallet_nonce = vp_wallet_nonce auth_request)) WalletNonceMismatch in
  let* validated := iso_of_vp_request auth_request in
  Ok (validated, rp_cert).
End Requests.

(** ** Authorization responses *)
Inductive VerifiablePresentation := VpDeviceResponse (device_response : DeviceResponse).
Record VpAuthorizationResponse := mkVpResponse {
  vp_token : list VerifiablePresentation;
  presentation_submission : PresentationSubmission;
  response_state : option string
}.
Record VpResponse := mkVpRedirect { vp_redirect_uri : option string }.

Inductive AuthResponseError :=
  | ResponseJsonFailed
  | ResponseJwkConversion
  | Jwe
  | NonceIncorrect
  | StateIncorrect (expected found : option string)
  | ResponseBase64
  | MissingApu
  | MissingApv
  | Utf8
  | ResponseVerification (e : MdocError)
  | ResponseMissingAttributes (e : MdocError)
  | UnexpectedVpCount (n : Z)
  | ResponseSubmission (e : PsError).

Definition enc_values_name (e : VpEncValues) : string :=
  match e with A128GCM => "A128GCM" | A192GCM => "A192GCM" | A256GCM => "A256GCM" end.

(** [serde_json::to_value] and [from_value] of a response.  It always serializes
    to an object. *)
Class ResponseJson `{!Josekit} := {
  response_to_value : VpAuthorizationResponse → option JwtPayload;
  response_from_value : JwtPayload → option VpAuthorizationResponse;
  response_json_round_trip r p : response_to_value r = Some p → response_from_value p = Some r
}.

Section Responses.
Context `{!Ecdsa, !X509Lib, !Coset, !Ciborium, !Sha256, !Chrono, !UrlLib, !MacLib, !Josekit, !ResponseJson}.

(** [VpAuthorizationResponse::new]; [random] is the identifier of the submission. *)
Definition VpAuthorizationResponse_new {E} (random : string) (r : DeviceResponse) (auth_request : IsoVpAuthorizationRequest)
    : outcome E VpAuthorizationResponse :=
  let* docs := unwrap (documents r) in
  Ok {|
    vp_token := [VpDeviceResponse r];
    presentation_submission := {|
      submission_id := random;
      submission_definition_id := definition_id (presentation_definition auth_request);
      descriptor_map := (λ doc, {| mapping_id := doc_type doc; mapping_format := MsoMdoc; mapping_path := "$" |}) <$> docs
    |};
    response_state := iso_state auth_request
  |}.

(** [VpAuthorizationResponse::encrypt] *)
Definition VpAuthorizationResponse_encrypt (rnd : string) (r : VpAuthorizationResponse)
    (auth_request : IsoVpAuthorizationRequest) (mdoc_nonce : string) : outcome AuthResponseError string :=
  let header := {|
    token_type := Some "JWT";
    agreement_partyuinfo := Some mdoc_nonce;
    agreement_partyvinfo := Some (iso_nonce auth_request);
    content_encryption := Some (enc_values_name
      (authorization_encryption_enc_values_supported (client_metadata auth_request)))
  |} in
  let* payload := ok_or ResponseJsonFailed (response_to_value r) in
  let* encrypter := ok_or ResponseJwkConversion (encrypter_from_jwk (encryption_pubkey auth_request)) in
  ok_or Jwe (encode_with_encrypter payload header encrypter rnd).

(** [VpAuthorizationResponse::new_encrypted] *)
Definition VpAuthorizationResponse_new_encrypted (random rnd : string) (r : DeviceResponse)
    (auth_request : IsoVpAuthorizationRequest) (mdoc_nonce : string) : outcome AuthResponseError string :=
  let* response := VpAuthorizationResponse_new random r auth_request in
  VpAuthorizationResponse_encrypt rnd response auth_request mdoc_nonce.

(** [VpAuthorizationResponse::decrypt] *)
Definition VpAuthorizationResponse_decrypt (jwe : string) (private_key : EcKeyPair) (nonce : string)
    : outcome AuthResponseError (VpAuthorizationResponse * string) :=
  let* decrypter := ok_or ResponseJwkConversion (decrypter_from_jwk (to_jwk_key_pair private_key)) in
  let* ph := ok_or Jwe (decode_with_decrypter jwe decrypter) in
  let '(payload, header) := ph in
  let* apv := ok_or MissingApv (agreement_partyvinfo header) in
  let* jwe_nonce := ok_or Utf8 (string_from_utf8 apv) in
  let* _ := guard_err (bool_decide (nonce = jwe_nonce)) NonceIncorrect in
  let* apu := ok_or MissingApu (agreement_partyuinfo header) in
  let* mdoc_nonce := ok_or Utf8 (string_from_utf8 apu) in
  let* payload := ok_or ResponseJsonFailed (response_from_value payload) in
  Ok (payload, mdoc_nonce).

(** [VpAuthorizationResponse::device_response] *)
Definition response_device_response (r : VpAuthorizationResponse) : outcome AuthResponseError DeviceResponse :=
  match vp_token r with
  | [VpDeviceResponse d] => Ok d
  | l => Err (UnexpectedVpCount (Z.of_nat (length l)))
  end.

(** [VpAuthorizationResponse::verify] *)
Definition VpAuthorizationResponse_verify (r : VpAuthorizationResponse) (auth_request : IsoVpAuthorizationRequest)
    (mdoc_nonce : string) (time : Z) (trust_anchors : list TrustAnchor) : outcome AuthResponseError DisclosedAttributes :=
  let* session_transcript := never (SessionTranscript_new_oid4vp (iso_response_uri auth_request)
                                      (iso_client_id auth_request) (iso_nonce auth_request) mdoc_nonce) in
  let* device_response := response_device_response r in
  let* disclosed_attrs := map_err ResponseVerification
                            (DeviceResponse_verify device_response None session_transcript time trust_anchors) in
  let* _ := map_err ResponseMissingAttributes (match_against_response (items_requests auth_request) device_response) in
  let* docs := unwrap (documents device_response) in
  let* _ := map_err ResponseSubmission
              (submission_verify (presentation_submission r) docs (presentation_definition auth_request)) in
  let* _ := guard_err (bool_decide (response_state r = iso_state auth_request))
              (StateIncorrect (iso_state auth_request) (response_state r)) in
  Ok disclosed_attrs.

(** [VpAuthorizationResponse::decrypt_and_verify] *)
Definition VpAuthorizationResponse_decrypt_and_verify (jwe : string) (private_key : EcKeyPair)
    (auth_request : IsoVpAuthorizationRequest) (time : Z) (trust_anchors : list TrustAnchor)
    : outcome AuthResponseError DisclosedAttributes :=
  let* rn := VpAuthorizationResponse_decrypt jwe private_key (iso_nonce auth_request) in
  let '(response, mdoc_nonce) := rn in
  VpAuthorizationResponse_verify response auth_request mdoc_nonce time trust_anchors.
End Responses.
