(* ===== verification/Verifier.v ===== *)
(** * The disclosure server

    Models [openid4vc/src/verifier.rs]: the sessions in which a relying party asks
    a wallet for attributes over OpenID4VP, and the handlers of the endpoints of
    the relying party and of the wallet, written against the [SessionStore]
    interface; with the return URL templates, session types and use cases that
    it takes from [mdoc/src/verifier.rs].

    The crates [url], [serde_urlencoded], [strfmt], [chrono] and [ring] are
    parameters, and so are the texts of the errors; what a handler draws at
    random is an argument. *)
From stdpp Require Import base gmap strings list option.
From Stdlib Require Import ZArith Lia Ascii.
From S2P Require Import Prelude IndexMap SessionStore Crypto Jose Cbor Cose Engagement Mdoc MdocSigning.
From S2P Require Import Protocol PresentationExchange OpenId4vp.

(** ** Parameters of the verifier *)

(** [VerifierUrlParameters] and [VpRequestUriObject] *)
Record VerifierUrlParameters := mkUrlParameters {
  up_session_type : SessionType;
  ephemeral_id : string;
  up_time : Z
}.
Inductive RequestUriMethod := GET | POST.
Record VpRequestUriObject := mkRequestUriObject {
  ro_request_uri : string;
  request_uri_method : option RequestUriMethod;
  ro_client_id : string
}.

Class VerifierLib `{!Ecdsa, !MacLib} := {
  (** [hmac::sign] *)
  hmac_sign : HmacKey → string → string;
  hmac_sign_verify k m : hmac_verify k m (hmac_sign k m) = true;
  (** [DateTime::to_rfc3339], with the fraction of the second *)
  time_to_rfc3339 : Z → string;
  (** [serde_urlencoded] *)
  parameters_to_string : VerifierUrlParameters → option string;
  parameters_from_str : string → option VerifierUrlParameters;
  parameters_round_trip p s : parameters_to_string p = Some s → parameters_from_str s = Some p;
  request_uri_to_string : VpRequestUriObject → option string;
  (** [url]: parsing, the scheme, whether a URL can be a base, and queries *)
  parse_url : string → option string;
  url_scheme : string → string;
  cannot_be_a_base : string → bool;
  set_query : string → string → string;
  append_pair : string → string → string → string;
  (** [strfmt]: the template with [{session_token}] replaced; an error when the
      template has another placeholder *)
  strfmt : string → string → option string
}.

(** ** Return URL templates ([mdoc::verifier]) *)

(** [str::replace] of a non-empty pattern by the empty string; [skip] counts the
    characters of an occurrence that are still to be dropped. *)
Fixpoint remove_all (pat : string) (skip : nat) (s : string) : string :=
  match s with
  | EmptyString => EmptyString
  | String a rest =>
      match skip with
      | S n => remove_all pat n rest
      | O => if String.prefix pat s then remove_all pat (String.length pat - 1) rest
             else String a (remove_all pat 0 rest)
      end
  end.

Section ReturnUrls.
Context `{!Ecdsa, !MacLib, !VerifierLib}.

(** [ReturnUrlTemplate::is_valid_return_url_template]; [allow_http] is the
    feature [allow_http_return_url]. *)
Definition is_valid_return_url_template (allow_http : bool) (s : string) : bool :=
  match parse_url (remove_all "{session_token}" 0 s) with
  | Some url => bool_decide (url_scheme url ∈ if allow_http then ["https"; "http"] else ["https"])
  | None => false
  end.

(** [ReturnUrlTemplate::into_url] *)
Definition into_url {E} (template : string) (session_token : SessionToken) : outcome E string :=
  let* s := unwrap (strfmt template session_token) in
  unwrap (parse_url s).

(** [TryFrom<Url> for BaseUrl], unwrapped *)
Definition base_url {E} (url : string) : outcome E string :=
  let* _ := rust_assert (negb (cannot_be_a_base url)) in Ok url.
End ReturnUrls.

Inductive SessionTypeReturnUrl := NeitherReturnUrl | SameDeviceReturnUrl | BothReturnUrl.

(** [EPHEMERAL_ID_VALIDITY_SECONDS] *)
Definition EPHEMERAL_ID_VALIDITY_SECONDS : Z := seconds 10.

(** ** Errors *)
Inductive SessionError :=
  | UnexpectedState
  | SessionExpired
  | UnknownSession (t : SessionToken)
  | SessionStoreFailed (e : SessionStoreError).
Inductive VerifierError :=
  | VSession (e : SessionError)
  | UnknownUseCase (id : string)
  | ReturnUrlConfigurationMismatch
  | NoItemsRequests
  | SessionNotDone
  | RedirectUriNonceMismatch (received : string)
  | RedirectUriNonceMissing
  | VMissingSAN
  | VCertificate (e : CertificateError)
  | UrlEncoding.
Inductive GetAuthRequestError :=
  | GSession (e : SessionError)
  | InvalidEphemeralId (id : string)
  | ExpiredEphemeralId (id : string)
  | EncryptionKey
  | AuthRequest (e : AuthRequestError)
  | GJwt (e : JwtError)
  | GReturnUrlConfigurationMismatch
  | GUnknownUseCase (id : string)
  | QueryParametersMissing
  | QueryParametersDeserialization.
Inductive PostAuthResponseError :=
  | PSession (e : SessionError)
  | AuthResponse (e : AuthResponseError).

(** [WithRedirectUri] *)
Record WithRedirectUri (T : Type) := mkWithRedirectUri { wr_error : T; wr_redirect_uri : option string }.
Arguments mkWithRedirectUri {T}.
Arguments wr_error {T}.
Arguments wr_redirect_uri {T}.
Definition without_redirect {T} (e : T) : WithRedirectUri T := mkWithRedirectUri e None.

(** ** Sessions *)
Record Created := mkCreated {
  cr_items_requests : list ItemsRequest;
  cr_usecase_id : string;
  cr_client_id : string;
  cr_redirect_uri_template : option string
}.
Record RedirectUri := mkRedirectUri { ru_uri : string; ru_nonce : string }.
Record WaitingForResponse `{!Josekit} := mkWaiting {
  w_auth_request : IsoVpAuthorizationRequest;
  w_encryption_key : EcKeyPair;
  w_redirect_uri : option RedirectUri
}.
Inductive SessionResult :=
  | VDone (attrs : DisclosedAttributes) (redirect_uri_nonce : option string)
  | VFailed (error : string)
  | VCancelled
  | VExpired.
Record Done := mkDone { session_result : SessionResult }.
Inductive DisclosureData `{!Josekit} :=
  | DCreated (c : Created)
  | DWaitingForResponse (w : WaitingForResponse)
  | DDone (d : Done).

(** [uri_from_option] *)
Definition uri_from_option (r : option RedirectUri) : option string := ru_uri <$> r.

Record VpTokenResponse := mkVpToken { vp_jwe : string }.
Inductive WalletAuthResponse :=
  | WalletResponse (t : VpTokenResponse)
  | WalletError (e : ErrorResponse VpAuthorizationErrorCode).

#[global] Instance disclosure_progress `{!Josekit} : HasProgress DisclosureData := λ d,
  match d with
  | DCreated _ | DWaitingForResponse _ => Active
  | DDone done => Finished (match session_result done with VDone _ _ => true | _ => false end)
  end.
#[global] Instance disclosure_expirable `{!Josekit} : Expirable DisclosureData := {|
  is_expired d := match d with DDone (mkDone VExpired) => true | _ => false end;
  expire _ := DDone (mkDone VExpired)
|}.
#[global] Instance disclosure_expirable_laws `{!Josekit} : ExpirableLaws DisclosureData.
Proof. split; [done|done| |]; by intros [|?|[[]]]. Qed.

Inductive StatusResponse :=
  | StatusCreated (ul : string) | StatusWaitingForResponse | StatusDone | StatusFailed | StatusCancelled | StatusExpired.

Record UseCase `{!Ecdsa} := mkUseCase {
  key_pair : KeyPair;
  uc_client_id : string;
  session_type_return_url : SessionTypeReturnUrl
}.

(** [UseCase::new] *)
Definition UseCase_new `{!Ecdsa, !X509Lib} (key : KeyPair) (t : SessionTypeReturnUrl) : outcome VerifierError UseCase :=
  let* san := map_err VCertificate (san_dns_name (certificate key)) in
  let* client_id := ok_or VMissingSAN san in
  Ok (mkUseCase _ key client_id t).

(** What a request for the authorization request draws at random. *)
Record GetRandom `{!Josekit} := mkGetRandom {
  g_redirect_nonce : string;
  g_nonce : string;
  g_definition_id : string;
  g_keypair : option EcKeyPair
}.

Section Verifier.
Context `{!Ecdsa, !X509Lib, !Coset, !Ciborium, !Sha256, !Chrono, !UrlLib, !MacLib, !Base64Std, !Josekit, !ResponseJson}.
Context `{!JwtLib VpAuthorizationRequest, !VerifierLib}.

(** [Verifier] *)
Record Verifier := mkVerifier {
  use_cases : gmap string UseCase;
  v_trust_anchors : list TrustAnchor;
  ephemeral_id_secret : HmacKey
}.

(** [Session::transition] and [transition_fail] *)
Definition transition {A B} (now : Z) (s : SessionState A) (new_state : B) : SessionState B :=
  SessionState_new now (token s) new_state.
Definition transition_fail {A} (now : Z) (s : SessionState A) (error : string) : SessionState Done :=
  transition now s (mkDone (VFailed error)).

(** The conversions between typed and stored sessions *)
Definition with_data {A B} (s : SessionState A) (d : B) : SessionState B :=
  {| data := d; token := token s; last_active := last_active s |}.
Definition from_created (s : SessionState Created) : SessionState DisclosureData := with_data s (DCreated (data s)).
Definition from_waiting (s : SessionState WaitingForResponse) : SessionState DisclosureData :=
  with_data s (DWaitingForResponse (data s)).
Definition from_done (s : SessionState Done) : SessionState DisclosureData := with_data s (DDone (data s)).
Definition try_created (s : SessionState DisclosureData) : outcome SessionError (SessionState Created) :=
  match data s with
  | DCreated c => Ok (with_data s c)
  | DDone (mkDone VExpired) => Err SessionExpired
  | _ => Err UnexpectedState
  end.
Definition try_waiting (s : SessionState DisclosureData) : outcome SessionError (SessionState WaitingForResponse) :=
  match data s with
  | DWaitingForResponse w => Ok (with_data s w)
  | DDone (mkDone VExpired) => Err SessionExpired
  | _ => Err UnexpectedState
  end.

(** *** Ephemeral identifiers *)

(** [format_ephemeral_id_payload], [generate_ephemeral_id], [verify_ephemeral_id] *)
Definition format_ephemeral_id_payload (session_token : SessionToken) (time : Z) : string :=
  session_token +:+ "|" +:+ time_to_rfc3339 time.
Definition generate_ephemeral_id (v : Verifier) (session_token : SessionToken) (time : Z) : string :=
  hmac_sign (ephemeral_id_secret v) (format_ephemeral_id_payload session_token time).
Definition verify_ephemeral_id (now : Z) (v : Verifier) (session_token : SessionToken) (p : VerifierUrlParameters)
    : outcome GetAuthRequestError unit :=
  let* _ := guard_err (negb (up_time p <? now - EPHEMERAL_ID_VALIDITY_SECONDS)) (ExpiredEphemeralId (ephemeral_id p)) in
  guard_err (hmac_verify (ephemeral_id_secret v) (format_ephemeral_id_payload session_token (up_time p)) (ephemeral_id p))
    (InvalidEphemeralId (ephemeral_id p)).

(** [format_ul] *)
Definition format_ul (base_ul request_uri : string) (time : Z) (id : string) (session_type : SessionType)
    (client_id : string) : outcome VerifierError string :=
  let* query := ok_or UrlEncoding (parameters_to_string (mkUrlParameters session_type id time)) in
  let* request_uri := base_url (set_query request_uri query) in
  let* query := ok_or UrlEncoding (request_uri_to_string (mkRequestUriObject request_uri (Some POST) client_id)) in
  base_url (set_query base_ul query).

(** *** The request for the authorization request *)

(** [Session<Created>::redirect_uri_and_nonce] *)
Definition redirect_uri_and_nonce (rnd : GetRandom) (session_token : SessionToken) (t : SessionTypeReturnUrl)
    (session_type : SessionType) (template : option string) : outcome GetAuthRequestError (option RedirectUri) :=
  match t, session_type, template with
  | BothReturnUrl, _, Some uri_template | SameDeviceReturnUrl, SameDevice, Some uri_template =>
      let* redirect_uri := into_url uri_template session_token in
      let* uri := base_url (append_pair redirect_uri "nonce" (g_redirect_nonce rnd)) in
      Ok (Some (mkRedirectUri uri (g_redirect_nonce rnd)))
  | NeitherReturnUrl, _, _ | SameDeviceReturnUrl, CrossDevice, _ => Ok None
  | _, _, _ => Err GReturnUrlConfigurationMismatch
  end.

(** [Session<Created>::process_get_request_inner] *)
Definition process_get_request_inner (rnd : GetRandom) (s : SessionState Created) (session_token : SessionToken)
    (response_uri : string) (session_type : SessionType) (wallet_nonce : option string) (v : Verifier)
    : outcome (WithRedirectUri GetAuthRequestError)
        (string * IsoVpAuthorizationRequest * option RedirectUri * EcKeyPair) :=
  let usecase_id := cr_usecase_id (data s) in
  let* usecase := ok_or (without_redirect (GUnknownUseCase usecase_id)) (use_cases v !! usecase_id) in
  let* redirect_uri := map_err without_redirect
    (redirect_uri_and_nonce rnd session_token (session_type_return_url usecase) session_type
       (cr_redirect_uri_template (data s))) in
  let with_uri e := mkWithRedirectUri e (uri_from_option redirect_uri) in
  let* encryption_keypair := ok_or (with_uri EncryptionKey) (g_keypair rnd) in
  let pubkey := to_jwk_public_key encryption_keypair in
  let* _ := rust_assert (is_ok (JwePublicKey_validate pubkey)) in
  let* auth_request := map_err (λ e, with_uri (AuthRequest e))
    (IsoVpAuthorizationRequest_new (g_definition_id rnd) (cr_items_requests (data s)) (certificate (key_pair usecase))
       (g_nonce rnd) pubkey response_uri wallet_nonce) in
  let vp_auth_request := vp_request_of_iso auth_request in
  let* jws := map_err (λ e, with_uri (GJwt e)) (sign_with_certificate vp_auth_request (key_pair usecase)) in
  Ok (jws, auth_request, redirect_uri, encryption_keypair).

Section GetRequests.
Variable show : GetAuthRequestError → string.

(** [Session<Created>::process_get_request]: the answer, the redirect URI of the
    answer and the next state of the session. *)
Definition session_process_get_request (now : Z) (rnd : GetRandom) (s : SessionState Created) (session_token : SessionToken)
    (response_uri : string) (session_type : SessionType) (wallet_nonce : option string) (v : Verifier)
    : outcome Empty_set (outcome (WithRedirectUri GetAuthRequestError) string * option string * SessionState DisclosureData) :=
  match process_get_request_inner rnd s session_token response_uri session_type wallet_nonce v with
  | Ok (jws, auth_request, redirect_uri, enc_keypair) =>
      let next := transition now s {|
        w_auth_request := auth_request; w_encryption_key := enc_keypair; w_redirect_uri := redirect_uri
      |} in
      Ok (Ok jws, uri_from_option (w_redirect_uri (data next)), from_waiting next)
  | Err err => Ok (Err err, wr_redirect_uri err, from_done (transition_fail now s (show (wr_error err))))
  | Panic => Panic
  end.
End GetRequests.

(** *** The authorization response *)
Section PostRequests.
Variable show : AuthResponseError → string.
Variable show_user : ErrorResponse VpAuthorizationErrorCode → string.

(** [ok_response], [transition_finish] and [transition_abort] *)
Definition ok_response (s : SessionState WaitingForResponse) : VpResponse :=
  mkVpRedirect (uri_from_option (w_redirect_uri (data s))).
Definition transition_finish (now : Z) (s : SessionState WaitingForResponse) (attrs : DisclosedAttributes)
    (nonce : option string) : SessionState Done := transition now s (mkDone (VDone attrs nonce)).
Definition transition_abort (now : Z) (s : SessionState WaitingForResponse) : SessionState Done :=
  transition now s (mkDone VCancelled).

(** [Session<WaitingForResponse>::process_authorization_response] *)
Definition session_process_authorization_response (now : Z) (s : SessionState WaitingForResponse)
    (wallet_response : WalletAuthResponse) (time : Z) (trust_anchors : list TrustAnchor)
    : outcome Empty_set (outcome (WithRedirectUri PostAuthResponseError) VpResponse * SessionState Done) :=
  match wallet_response with
  | WalletError err =>
      let user_refused := match error err with AuthorizationError AccessDenied => true | _ => false end in
      Ok (Ok (ok_response s), if (user_refused : bool) then transition_abort now s else transition_fail now s (show_user err))
  | WalletResponse t =>
      match VpAuthorizationResponse_decrypt_and_verify (vp_jwe t) (w_encryption_key (data s))
              (w_auth_request (data s)) time trust_anchors with
      | Ok disclosed =>
          Ok (Ok (ok_response s), transition_finish now s disclosed (ru_nonce <$> w_redirect_uri (data s)))
      | Err err =>
          Ok (Err (mkWithRedirectUri (AuthResponse err) (uri_from_option (w_redirect_uri (data s)))),
              transition_fail now s (show err))
      | Panic => Panic
      end
  end.
End PostRequests.

(** *** The endpoints *)
Section Endpoints.
Context {S : Type} `{!SessionStore DisclosureData S}.

(** [Verifier::new_session]; [random] is the new session token. *)
Definition new_session (now : Z) (random : SessionToken) (v : Verifier) (requests : list ItemsRequest) (usecase_id : string)
    (return_url_template : option string) : ST S VerifierError SessionToken :=
  let! _ := st_lift (guard_err (negb (bool_decide (length requests = 0%nat))) NoItemsRequests) in
  let! use_case := st_lift (ok_or (UnknownUseCase usecase_id) (use_cases v !! usecase_id)) in
  let! _ := st_lift (guard_err
    (negb match session_type_return_url use_case with
          | NeitherReturnUrl => bool_decide (is_Some return_url_template)
          | SameDeviceReturnUrl | BothReturnUrl => bool_decide (return_url_template = None)
          end) ReturnUrlConfigurationMismatch) in
  let session_state := SessionState_new now random
    (mkCreated requests usecase_id (uc_client_id use_case) return_url_template) in
  let! _ := st_map_err (λ e, VSession (SessionStoreFailed e)) (store_write (from_created session_state) true) in
  sret random.

(** [Verifier::get_session_state] and [get_session] *)
Definition get_session_state (session_token : SessionToken) : ST S SessionError (SessionState DisclosureData) :=
  let! found := st_map_err SessionStoreFailed (store_get session_token) in
  st_lift (ok_or (UnknownSession session_token) found).
Definition get_session {A E} (from_session_error : SessionError → E)
    (convert : SessionState DisclosureData → outcome SessionError (SessionState A)) (session_token : SessionToken)
    : ST S (WithRedirectUri E) (SessionState A) :=
  let! state := st_map_err (λ e, without_redirect (from_session_error e)) (get_session_state session_token) in
  st_lift (map_err (λ e, without_redirect (from_session_error e)) (convert state)).

(** [Verifier::process_get_request] *)
Definition process_get_request (show : GetAuthRequestError → string) (now : Z) (rnd : GetRandom) (v : Verifier)
    (session_token : SessionToken) (response_uri : string) (query : option string) (wallet_nonce : option string)
    : ST S (WithRedirectUri GetAuthRequestError) string :=
  let! session := get_session GSession try_created session_token in
  let! query := st_lift (ok_or (without_redirect QueryParametersMissing) query) in
  let! url_params := st_lift (ok_or (without_redirect QueryParametersDeserialization) (parameters_from_str query)) in
  let! _ := st_lift (map_err without_redirect (verify_ephemeral_id now v session_token url_params)) in
  let! rn := st_lift (never (session_process_get_request show now rnd session session_token response_uri
                               (up_session_type url_params) wallet_nonce v)) in
  let '(result, redirect_uri, next) := rn in
  let! _ := st_map_err (λ e, mkWithRedirectUri (GSession (SessionStoreFailed e)) redirect_uri) (store_write next false) in
  st_lift result.

(** [Verifier::process_authorization_response] *)
Definition process_authorization_response (show : AuthResponseError → string)
    (show_user : ErrorResponse VpAuthorizationErrorCode → string) (now : Z) (v : Verifier) (session_token : SessionToken)
    (wallet_response : WalletAuthResponse) (time : Z) : ST S (WithRedirectUri PostAuthResponseError) VpResponse :=
  let! session := get_session PSession try_waiting session_token in
  let! rn := st_lift (never (session_process_authorization_response show show_user now session wallet_response time
                               (v_trust_anchors v))) in
  let '(result, next) := rn in
  let! _ := st_map_err (λ e, mkWithRedirectUri (PSession (SessionStoreFailed e))
                                match result with
                                | Ok response => vp_redirect_uri response
                                | Err err => wr_redirect_uri err
                                | Panic => None
                                end) (store_write (from_done next) false) in
  st_lift result.

(** [Verifier::status_response] *)
Definition status_response (v : Verifier) (session_token : SessionToken) (session_type : SessionType)
    (ul_base request_uri : string) (time : Z) : ST S VerifierError StatusResponse :=
  let! state := st_map_err VSession (get_session_state session_token) in
  match data state with
  | DCreated c =>
      let! ul := st_lift (format_ul ul_base request_uri time (generate_ephemeral_id v session_token time) session_type
                            (cr_client_id c)) in
      sret (StatusCreated ul)
  | DWaitingForResponse _ => sret StatusWaitingForResponse
  | DDone (mkDone (VDone _ _)) => sret StatusDone
  | DDone (mkDone (VFailed _)) => sret StatusFailed
  | DDone (mkDone VCancelled) => sret StatusCancelled
  | DDone (mkDone VExpired) => sret StatusExpired
  end.

(** [Verifier::disclosed_attributes] *)
Definition verifier_disclosed_attributes (session_token : SessionToken) (redirect_uri_nonce : option string)
    : ST S VerifierError DisclosedAttributes :=
  let! state := st_map_err VSession (get_session_state session_token) in
  match data state with
  | DDone (mkDone (VDone disclosed_attributes expected_nonce)) =>
      match redirect_uri_nonce, expected_nonce with
      | _, None => sret disclosed_attributes
      | None, Some _ => st_throw RedirectUriNonceMissing
      | Some received, Some expected =>
          if decide (received = expected) then sret disclosed_attributes
          else st_throw (RedirectUriNonceMismatch received)
      end
  | _ => st_throw SessionNotDone
  end.
End Endpoints.
End Verifier.
