(* ===== verification/VerifierFacts.v ===== *)
(** * Correctness of the disclosure server

    Against any session store that implements the contract: the life of a
    session, what the attributes that a relying party obtains rest on, ephemeral
    identifiers, and that a relying party and a wallet that follow the protocol
    come to an end. *)
From stdpp Require Import base gmap strings list option fin_maps relations.
From Stdlib Require Import ZArith Lia.
From S2P Require Import Prelude IndexMap SessionStore SessionStoreFacts Crypto Jose Cbor Cose Engagement.
From S2P Require Import Mdoc MdocSigning MdocFacts DisclosureFacts Protocol PresentationExchange OpenId4vp Verifier.

Section VerifierFacts.
Context `{!Ecdsa, !X509Lib, !Coset, !Ciborium, !Sha256, !Chrono, !UrlLib, !MacLib, !Base64Std, !Josekit, !ResponseJson}.
Context `{!JwtLib VpAuthorizationRequest, !VerifierLib}.
Context {S : Type} `{!SessionStore DisclosureData S, !SessionStoreSpec DisclosureData S}.
Variable show_get : GetAuthRequestError → string.
Variable show_post : AuthResponseError → string.
Variable show_user : ErrorResponse VpAuthorizationErrorCode → string.
Variable v : Verifier.

(** ** What the handlers do to the store *)
Lemma get_session_state_eq tok s : get_session_state tok s = (ok_or (UnknownSession tok) (view s !! tok), s).
Proof. unfold get_session_state, sbind, st_map_err, st_lift. by rewrite get_spec. Qed.

Lemma disclosure_session_eq {A E} (f : SessionError → E) (c : SessionState DisclosureData → outcome SessionError (SessionState A)) tok s :
  get_session f c tok s =
    (map_err (λ e, without_redirect (f e)) (let* x := ok_or (UnknownSession tok) (view s !! tok) in c x), s).
Proof.
  unfold get_session, sbind, st_map_err, st_lift. rewrite get_session_state_eq.
  destruct (view s !! tok) as [x|]; [|done]. simpl. by destruct (c x).
Qed.

Lemma try_created_Ok (x : SessionState DisclosureData) sess : try_created x = Ok sess → x = from_created sess.
Proof. unfold try_created. destruct x as [[c|w|[[]]] tk la]; try done. by intros [= <-]. Qed.
Lemma try_waiting_Ok (x : SessionState DisclosureData) sess : try_waiting x = Ok sess → x = from_waiting sess.
Proof. unfold try_waiting. destruct x as [[c|w|[[]]] tk la]; try done. by intros [= <-]. Qed.

(** A return URL template is given exactly when the use case wants one. *)
Definition template_allowed (u : UseCase) (template : option string) : Prop :=
  match session_type_return_url u with NeitherReturnUrl => template = None | _ => is_Some template end.

Definition created_for (requests : list ItemsRequest) (uc : string) (u : UseCase) (template : option string) : Created :=
  mkCreated requests uc (uc_client_id u) template.

Lemma new_session_cases now random requests uc template s r s' :
  new_session now random v requests uc template s = (r, s') →
  (s' = s ∧ is_ok r = false) ∨
  ∃ u, r = Ok random ∧ view s !! random = None ∧ requests ≠ [] ∧ use_cases v !! uc = Some u ∧ template_allowed u template ∧
    view s' = <[random := mkSessionState (DCreated (created_for requests uc u template)) random now]> (view s).
Proof.
  unfold new_session, template_allowed. unfold sbind at 1, st_lift at 1.
  destruct (guard_err _ NoItemsRequests) as [[]|e|] eqn:G; [|intros [= <- <-]; by left..].
  apply guard_err_Ok in G. zbool. unfold sbind at 1, st_lift at 1.
  destruct (use_cases v !! uc) as [u|]; simpl; [|intros [= <- <-]; by left].
  unfold sbind at 1, st_lift at 1. destruct (guard_err _ ReturnUrlConfigurationMismatch) as [[]|e|] eqn:G2;
    [|intros [= <- <-]; by left..].
  apply guard_err_Ok in G2. apply negb_true_iff in G2. unfold sbind, st_map_err, sret.
  destruct (store_write _ true s) as [o s1] eqn:W.
  apply write_inv in W as [(-> & Hnew & Hv & _)|(-> & _ & _ & ->)]; simpl; [|intros [= <- <-]; by left].
  intros [= <- <-]. destruct Hnew as [?|Hnone]; [done|]. right. exists u. split_and!; try done.
  - by intros ->.
  - destruct (session_type_return_url u), template; zbool; naive_solver.
Qed.

Lemma process_get_request_cases now rnd tok uri q wn s r s' :
  process_get_request show_get now rnd v tok uri q wn s = (r, s') →
  (s' = s ∧ is_ok r = false) ∨
  ∃ sess q' p, view s !! tok = Some (from_created sess) ∧ q = Some q' ∧ parameters_from_str q' = Some p ∧
    verify_ephemeral_id now v tok p = Ok tt ∧
    match process_get_request_inner rnd sess tok uri (up_session_type p) wn v with
    | Ok (jws, ar, ru, kp) => r = Ok jws ∧
        view s' = <[token sess := mkSessionState (DWaitingForResponse (mkWaiting _ ar kp ru)) (token sess) now]> (view s)
    | Err err => r = Err err ∧
        view s' = <[token sess := mkSessionState (DDone (mkDone (VFailed (show_get (wr_error err))))) (token sess) now]> (view s)
    | Panic => False
    end.
Proof.
  unfold process_get_request. unfold sbind at 1. rewrite disclosure_session_eq.
  destruct (map_err _ _) as [sess|e|] eqn:G; [|intros [= <- <-]; by left..].
  apply map_err_Ok, bind_Ok in G as (x & Hx & Hc). apply ok_or_Ok in Hx. apply try_created_Ok in Hc as ->.
  unfold sbind at 1, st_lift at 1. destruct q as [q'|]; simpl; [|intros [= <- <-]; by left].
  unfold sbind at 1, st_lift at 1. destruct (parameters_from_str q') as [p|] eqn:P; simpl; [|intros [= <- <-]; by left].
  unfold sbind at 1, st_lift at 1. destruct (verify_ephemeral_id _ _ _ _) as [[]|e|] eqn:E; simpl; [|intros [= <- <-]; by left..].
  unfold sbind at 1, st_lift at 1, session_process_get_request.
  destruct (process_get_request_inner _ _ _ _ _ _ _) as [[[[jws ar] ru] kp]|err|] eqn:I; simpl.
  - unfold sbind, st_map_err, st_lift. match goal with |- context [store_write ?x false s] =>
      destruct (write_false x s) as (s1 & -> & Hv) end. intros [= <- <-]. right. exists sess, q', p. by rewrite I.
  - unfold sbind, st_map_err, st_lift. match goal with |- context [store_write ?x false s] =>
      destruct (write_false x s) as (s1 & -> & Hv) end. intros [= <- <-]. right. exists sess, q', p. by rewrite I.
  - intros [= <- <-]. by left.
Qed.

(** How a response of the wallet ends the session. *)
Definition response_result (w : WaitingForResponse) (wr : WalletAuthResponse) (time : Z) : outcome Empty_set SessionResult :=
  match wr with
  | WalletError err => Ok (match error err with AuthorizationError AccessDenied => VCancelled | _ => VFailed (show_user err) end)
  | WalletResponse t =>
      match VpAuthorizationResponse_decrypt_and_verify (vp_jwe t) (w_encryption_key w) (w_auth_request w) time (v_trust_anchors v) with
      | Ok attrs => Ok (VDone attrs (ru_nonce <$> w_redirect_uri w))
      | Err err => Ok (VFailed (show_post err))
      | Panic => Panic
      end
  end.

Lemma process_authorization_response_cases now tok wr time s r s' :
  process_authorization_response show_post show_user now v tok wr time s = (r, s') →
  (s' = s ∧ is_ok r = false) ∨
  ∃ sess res, view s !! tok = Some (from_waiting sess) ∧ response_result (data sess) wr time = Ok res ∧
    view s' = <[token sess := mkSessionState (DDone (mkDone res)) (token sess) now]> (view s) ∧
    (r = Ok (ok_response sess) ∨ is_ok r = false ∧ ∃ e, res = VFailed e).
Proof.
  unfold process_authorization_response. unfold sbind at 1. rewrite disclosure_session_eq.
  destruct (map_err _ _) as [sess|e|] eqn:G; [|intros [= <- <-]; by left..].
  apply map_err_Ok, bind_Ok in G as (x & Hx & Hc). apply ok_or_Ok in Hx. apply try_waiting_Ok in Hc as ->.
  unfold sbind at 1, st_lift at 1, session_process_authorization_response.
  destruct wr as [t|err].
  - destruct (VpAuthorizationResponse_decrypt_and_verify _ _ _ _ _) as [attrs|err|] eqn:D; simpl;
      [| |intros [= <- <-]; by left];
      unfold sbind, st_map_err, st_lift;
      (match goal with |- context [store_write ?x false s] => destruct (write_false x s) as (s1 & -> & Hv) end);
      intros [= <- <-]; right; exists sess; simpl; rewrite D; eexists; split_and!; eauto.
  - simpl. unfold sbind, st_map_err, st_lift.
    match goal with |- context [store_write ?x false s] => destruct (write_false x s) as (s1 & -> & Hv) end.
    intros [= <- <-]. right. exists sess. eexists. split_and!; [done|reflexivity| |by left].
    rewrite Hv. by destruct (error err) as [| | | |[]].
Qed.

(** ** Runs of the server

    A request is one step, from reading the session to writing it: requests are
    handled one after the other. *)
Inductive vstep (s : S) : S → Prop :=
  | step_new now random requests uc template r s' :
      new_session now random v requests uc template s = (r, s') → vstep s s'
  | step_get now rnd tok uri q wn r s' : process_get_request show_get now rnd v tok uri q wn s = (r, s') → vstep s s'
  | step_post now tok wr time r s' :
      process_authorization_response show_post show_user now v tok wr time s = (r, s') → vstep s s'
  | step_status tok st ul uri time r s' : status_response v tok st ul uri time s = (r, s') → vstep s s'
  | step_attributes tok n r s' : verifier_disclosed_attributes tok n s = (r, s') → vstep s s'
  | step_cleanup now r s' : store_cleanup (T:=DisclosureData) now s = (r, s') → vstep s s'.

Lemma status_response_state tok st ul uri time s r s' : status_response v tok st ul uri time s = (r, s') → s' = s.
Proof.
  unfold status_response, sbind, st_map_err. rewrite get_session_state_eq.
  destruct (view s !! tok) as [[[c|w|[[]]] tk la]|]; simpl; try by intros [= <- <-].
  unfold st_lift. by destruct (format_ul _ _ _ _ _ _); intros [= <- <-].
Qed.

Lemma disclosed_attributes_cases tok n s r s' : verifier_disclosed_attributes tok n s = (r, s') →
  s' = s ∧ ∀ attrs, r = Ok attrs →
    ∃ expected, session_data s tok = Some (DDone (mkDone (VDone attrs expected))) ∧ (expected = None ∨ expected = n).
Proof.
  unfold verifier_disclosed_attributes, sbind, st_map_err, session_data. rewrite get_session_state_eq.
  destruct (view s !! tok) as [[[c|w|[res]] tk la]|]; simpl; try by intros [= <- <-].
  destruct res as [attrs expected| | |]; try by intros [= <- <-].
  destruct n as [received|], expected as [expected|]; try case_decide; intros [= <- <-]; split; try done; intros a [= <-]; eauto.
  subst. eauto.
Qed.

(** The steps that a session takes. *)
Inductive disclosure_step : option DisclosureData → option DisclosureData → Prop :=
  | d_none o : disclosure_step o o
  | d_created c : disclosure_step None (Some (DCreated c))
  | d_requested c w : disclosure_step (Some (DCreated c)) (Some (DWaitingForResponse w))
  | d_request_failed c e : disclosure_step (Some (DCreated c)) (Some (DDone (mkDone (VFailed e))))
  | d_finished w r : r ≠ VExpired → disclosure_step (Some (DWaitingForResponse w)) (Some (DDone (mkDone r)))
  | d_expired x : progress x = Active → disclosure_step (Some x) (Some (DDone (mkDone VExpired)))
  | d_removed x : disclosure_step (Some (DDone x)) None.

Lemma disclosure_step_insert s s' (sess : SessionState DisclosureData) tok :
  view s' = <[token sess := sess]> (view s) → disclosure_step (session_data s (token sess)) (Some (data sess)) →
  disclosure_step (session_data s tok) (session_data s' tok).
Proof. intros Hv Hs. rewrite (session_data_insert _ _ _ _ Hv). case_decide; [by subst|constructor]. Qed.

Lemma response_result_not_expired w wr time : response_result w wr time ≠ Ok VExpired.
Proof.
  unfold response_result. destruct wr as [t|err]; [by destruct (VpAuthorizationResponse_decrypt_and_verify _ _ _ _ _)|].
  by destruct (error err) as [| | | |[]].
Qed.

Lemma cleanup_data now (x : SessionState DisclosureData) to :
  disclosure_step (Some (data x)) (data <$> cleanup_session to now x) ∧
  ∀ y, cleanup_session to now x = Some y → token y = token x ∧ (data y = data x ∨ data y = DDone (mkDone VExpired)).
Proof.
  unfold cleanup_session, cleanup_keeps, must_expire.
  destruct x as [[c|w|[[a n|e| |]]] tk la]; simpl;
    repeat (case_match; simpl); try (split; [constructor; done|]; intros y [= <-]; auto); split; try constructor; done.
Qed.

(** ** The invariant *)

(** A session that waits for a response: the request it made. *)
Definition waiting_ok (w : WaitingForResponse) : Prop :=
  ∃ uc u, use_cases v !! uc = Some u ∧ items_requests (w_auth_request w) ≠ [] ∧
    san_dns_name (certificate (key_pair u)) = Ok (Some (iso_client_id (w_auth_request w))) ∧
    iso_state (w_auth_request w) = None ∧
    encryption_pubkey (w_auth_request w) = to_jwk_public_key (w_encryption_key w) ∧
    (session_type_return_url u = BothReturnUrl → is_Some (w_redirect_uri w)).

Definition disclosure_ok (d : DisclosureData) : Prop :=
  match d with
  | DCreated c => cr_items_requests c ≠ [] ∧
      ∃ u, use_cases v !! cr_usecase_id c = Some u ∧ template_allowed u (cr_redirect_uri_template c)
  | DWaitingForResponse w => waiting_ok w
  | DDone (mkDone (VDone attrs nonce)) => ∃ w jwe time, waiting_ok w ∧ nonce = ru_nonce <$> w_redirect_uri w ∧
      VpAuthorizationResponse_decrypt_and_verify jwe (w_encryption_key w) (w_auth_request w) time (v_trust_anchors v) = Ok attrs
  | DDone _ => True
  end.

Definition store_ok (s : S) : Prop :=
  ∀ tok (x : SessionState DisclosureData), view s !! tok = Some x → token x = tok ∧ disclosure_ok (data x).

Lemma store_ok_insert s s' (sess : SessionState DisclosureData) :
  store_ok s → view s' = <[token sess := sess]> (view s) → disclosure_ok (data sess) → store_ok s'.
Proof.
  intros Hk Hv Hd tok x. rewrite Hv. destruct (decide (token sess = tok)) as [<-|Hne].
  - rewrite lookup_insert_eq. by intros [= <-].
  - rewrite lookup_insert_ne by done. apply Hk.
Qed.

Lemma into_url_no_error {E} t tok (e : E) : into_url t tok ≠ Err e.
Proof. unfold into_url. destruct (strfmt t tok) as [x|]; [|done]. simpl. by destruct (parse_url x). Qed.

Lemma redirect_uri_and_nonce_allowed rnd tok u st template : template_allowed u template →
  match redirect_uri_and_nonce rnd tok (session_type_return_url u) st template with
  | Ok ru => session_type_return_url u = BothReturnUrl → is_Some ru
  | Err _ => False
  | Panic => True
  end.
Proof.
  unfold template_allowed, redirect_uri_and_nonce. destruct (session_type_return_url u), st, template as [t|];
    try done; try (by intros [? ?]); intros _;
    destruct (into_url t tok) as [x|e|] eqn:I; simpl; try done; try (by apply into_url_no_error in I);
    unfold base_url; destruct (cannot_be_a_base _); simpl; try done; eauto.
Qed.

Lemma get_request_inner_ok rnd sess tok uri st wn :
  disclosure_ok (DCreated (data sess)) →
  match process_get_request_inner rnd sess tok uri st wn v with
  | Ok (jws, ar, ru, kp) => waiting_ok (mkWaiting _ ar kp ru)
  | Err err => wr_error err ≠ GReturnUrlConfigurationMismatch ∧ ∀ id, wr_error err ≠ GUnknownUseCase id
  | Panic => True
  end.
Proof.
  intros (Hne & u & Hu & Ht). unfold process_get_request_inner. rewrite Hu. simpl.
  pose proof (redirect_uri_and_nonce_allowed rnd tok u st _ Ht) as Hr.
  destruct (redirect_uri_and_nonce _ _ _ _ _) as [ru|e|] eqn:R; simpl; [|done..].
  destruct (g_keypair rnd) as [kp|]; simpl; [|done].
  destruct (is_ok (JwePublicKey_validate _)); simpl; [|done].
  destruct (IsoVpAuthorizationRequest_new _ _ _ _ _ _ _) as [ar|e|] eqn:N; simpl; [|done..].
  destruct (sign_with_certificate _ _) as [jws|e|]; simpl; [|done..].
  unfold IsoVpAuthorizationRequest_new in N. run_ok N. exists (cr_usecase_id (data sess)), u. simpl. by split_and!.
Qed.

Lemma vstep_ok s s' : store_ok s → vstep s s' →
  store_ok s' ∧ ∀ tok, disclosure_step (session_data s tok) (session_data s' tok).
Proof.
  intros Hk Hstep. destruct Hstep as [now random requests uc template r s' Hr0|now rnd tok uri q wn r s' Hr0|now tok wr time r s' Hr0
    |tok st ul uri time r s' Hr0|tok n r s' Hr0|now r s' Hr0].
  - apply new_session_cases in Hr0 as [[-> _]|(u & -> & Hn & Hne & Hu & Ht & Hv)]; [split; [done|constructor]|]. split.
    + eapply store_ok_insert; [done|exact Hv|]. simpl. by eauto.
    + intros tok. eapply disclosure_step_insert; [exact Hv|]. unfold session_data. simpl. rewrite Hn. constructor.
  - apply process_get_request_cases in Hr0 as [[-> _]|(sess & q' & p & Hl & -> & _ & _ & Hr0)]; [split; [done|constructor]|].
    destruct (Hk _ _ Hl) as [Htok Hd]. simpl in Htok. subst tok.
    pose proof (get_request_inner_ok rnd sess (token sess) uri (up_session_type p) wn Hd) as Hi.
    destruct (process_get_request_inner _ _ _ _ _ _ _) as [[[[jws ar] ru] kp]|err|]; [| |done];
      destruct Hr0 as [-> Hv]; (split; [eapply store_ok_insert; [done|exact Hv|done]|]);
      intros tok; (eapply disclosure_step_insert; [exact Hv|]); unfold session_data; simpl; rewrite Hl; constructor.
  - apply process_authorization_response_cases in Hr0 as [[-> _]|(sess & res & Hl & Hr & Hv & _)]; [split; [done|constructor]|].
    destruct (Hk _ _ Hl) as [Htok Hd]. simpl in Htok, Hd. subst tok. split.
    + eapply store_ok_insert; [done|exact Hv|]. simpl. destruct res; try done.
      unfold response_result in Hr. destruct wr as [t|err]; [|by destruct (error err) as [| | | |[]]].
      destruct (VpAuthorizationResponse_decrypt_and_verify _ _ _ _ _) eqn:D; try done. injection Hr as <- <-. eauto 10.
    + intros tok. eapply disclosure_step_insert; [exact Hv|]. unfold session_data. simpl. rewrite Hl. constructor.
      intros ->. by apply response_result_not_expired in Hr.
  - apply status_response_state in Hr0 as ->. split; [done|constructor].
  - apply disclosed_attributes_cases in Hr0 as [-> _]. split; [done|constructor].
  - apply cleanup_inv in Hr0 as (_ & Hv & _). split.
    + intros tok x. rewrite Hv. unfold abstract_cleanup. rewrite lookup_omap. destruct (view s !! tok) as [y|] eqn:L; [|done].
      simpl. intros Hx. destruct (Hk _ _ L) as [Ht Hd]. apply cleanup_data in Hx as [-> [->| ->]]; [done|]. split; [done|exact I].
    + intros tok. unfold session_data. rewrite Hv. unfold abstract_cleanup. rewrite lookup_omap.
      destruct (view s !! tok) as [y|]; simpl; [apply cleanup_data|constructor].
Qed.

Lemma run_ok_store s s' : store_ok s → rtc vstep s s' → store_ok s'.
Proof. intros Hk Hr. induction Hr as [|s1 s2 s3 Hs _ IH]; [done|]. apply IH. by eapply vstep_ok. Qed.

Lemma empty_ok s : view s = ∅ → store_ok s.
Proof. intros Hv tok x. by rewrite Hv, lookup_empty. Qed.

(** ** What disclosed attributes rest on *)
Lemma response_verify_Ok r ar mn time anchors attrs :
  VpAuthorizationResponse_verify r ar mn time anchors = Ok attrs →
  ∃ t dr docs, SessionTranscript_new_oid4vp (iso_response_uri ar) (iso_client_id ar) (iso_nonce ar) mn = Ok t ∧
    vp_token r = [VpDeviceResponse dr] ∧ documents dr = Some docs ∧
    DeviceResponse_verify dr None t time anchors = Ok attrs ∧
    match_against_response (items_requests ar) dr = Ok tt ∧
    submission_verify (presentation_submission r) docs (presentation_definition ar) = Ok tt ∧
    response_state r = iso_state ar.
Proof.
  unfold VpAuthorizationResponse_verify. intros Hv. apply bind_Ok in Hv as (t & Ht & Hv). apply map_err_Ok in Ht.
  apply bind_Ok in Hv as (dr & Hdr & Hv). apply bind_Ok in Hv as (a & Ha & Hv). apply map_err_Ok in Ha.
  apply bind_Ok in Hv as ([] & Hm & Hv). apply map_err_Ok in Hm. apply bind_Ok in Hv as (docs & Hd & Hv). apply unwrap_Ok in Hd.
  apply bind_Ok in Hv as ([] & Hs & Hv). apply map_err_Ok in Hs. apply bind_Ok in Hv as (u & Hst & [= <-]).
  apply guard_err_Ok in Hst. zbool. exists t, dr, docs. split_and!; try done.
  unfold response_device_response in Hdr. by destruct (vp_token r) as [|[d] []]; try done; injection Hdr as <-.
Qed.

Lemma decrypt_and_verify_Ok jwe kp ar time anchors attrs :
  VpAuthorizationResponse_decrypt_and_verify jwe kp ar time anchors = Ok attrs →
  ∃ r mn, VpAuthorizationResponse_decrypt jwe kp (iso_nonce ar) = Ok (r, mn) ∧
    VpAuthorizationResponse_verify r ar mn time anchors = Ok attrs.
Proof. intros Hv. apply bind_Ok in Hv as ([r mn] & Hd & Hv). eauto. Qed.

(** ** Where the state of a session comes from *)

(** A session that was created as [c] waits as [w]: what was asked for is what it
    was created for, by the use case and for the client that it was created with. *)
Definition requested_for (c : Created) (w : WaitingForResponse) : Prop :=
  items_requests (w_auth_request w) = cr_items_requests c ∧ cr_items_requests c ≠ [] ∧
  encryption_pubkey (w_auth_request w) = to_jwk_public_key (w_encryption_key w) ∧
  ∃ u, use_cases v !! cr_usecase_id c = Some u ∧
    san_dns_name (certificate (key_pair u)) = Ok (Some (iso_client_id (w_auth_request w))) ∧
    (session_type_return_url u = BothReturnUrl → is_Some (w_redirect_uri w)).

(** What a session was one step before, when it is in a new state. *)
Definition came_from (o : option DisclosureData) (d : DisclosureData) : Prop :=
  match d with
  | DWaitingForResponse w => ∃ c, o = Some (DCreated c) ∧ requested_for c w
  | DDone (mkDone (VDone attrs nonce)) => ∃ w jwe time, o = Some (DWaitingForResponse w) ∧ nonce = ru_nonce <$> w_redirect_uri w ∧
      VpAuthorizationResponse_decrypt_and_verify jwe (w_encryption_key w) (w_auth_request w) time (v_trust_anchors v) = Ok attrs
  | DCreated _ | DDone _ => True
  end.

Lemma get_request_inner_requested rnd sess tok uri st wn jws ar ru kp : disclosure_ok (DCreated (data sess)) →
  process_get_request_inner rnd sess tok uri st wn v = Ok (jws, ar, ru, kp) → requested_for (data sess) (mkWaiting _ ar kp ru).
Proof.
  intros (Hne & u & Hu & Ht). unfold process_get_request_inner. rewrite Hu. simpl.
  pose proof (redirect_uri_and_nonce_allowed rnd tok u st _ Ht) as Hr.
  destruct (redirect_uri_and_nonce _ _ _ _ _) as [r|e|] eqn:R; simpl; [|done..].
  destruct (g_keypair rnd) as [k|]; simpl; [|done].
  destruct (is_ok (JwePublicKey_validate _)); simpl; [|done].
  destruct (IsoVpAuthorizationRequest_new _ _ _ _ _ _ _) as [a|e|] eqn:N; simpl; [|done..].
  destruct (sign_with_certificate _ _) as [j|e|]; simpl; [|done..]. intros [= <- <- <- <-].
  unfold IsoVpAuthorizationRequest_new in N. run_ok N. unfold requested_for. simpl. split_and!; [done..|]. by exists u.
Qed.

Lemma came_from_insert s s' (sess : SessionState DisclosureData) tok d :
  view s' = <[token sess := sess]> (view s) → came_from (session_data s (token sess)) (data sess) →
  session_data s' tok = Some d → session_data s tok = Some d ∨ came_from (session_data s tok) d.
Proof. intros Hv Hc. rewrite (session_data_insert _ _ _ _ Hv). case_decide; [|by left]. subst. intros [= <-]. by right. Qed.

Lemma vstep_origin s s' tok d : store_ok s → vstep s s' → session_data s' tok = Some d →
  session_data s tok = Some d ∨ came_from (session_data s tok) d.
Proof.
  intros Hk Hstep. destruct Hstep as [now random requests uc template r s' Hr0|now rnd tok' uri q wn r s' Hr0|now tok' wr time r s' Hr0
    |tok' st ul uri time r s' Hr0|tok' n r s' Hr0|now r s' Hr0].
  - apply new_session_cases in Hr0 as [[-> _]|(u & -> & _ & _ & _ & _ & Hv)]; [by left|]. eapply came_from_insert; [exact Hv|exact I].
  - apply process_get_request_cases in Hr0 as [[-> _]|(sess & q' & p & Hl & -> & _ & _ & Hr0)]; [by left|].
    destruct (Hk _ _ Hl) as [Htok Hd]. simpl in Htok. subst tok'.
    destruct (process_get_request_inner _ _ _ _ _ _ _) as [[[[jws ar] ru] kp]|err|] eqn:Hi; [| |done]; destruct Hr0 as [_ Hv];
      (eapply came_from_insert; [exact Hv|]); [|done]. unfold session_data. simpl. rewrite Hl. exists (data sess).
    split; [done|]. by eapply get_request_inner_requested.
  - apply process_authorization_response_cases in Hr0 as [[-> _]|(sess & res & Hl & Hr & Hv & _)]; [by left|].
    destruct (Hk _ _ Hl) as [Htok _]. simpl in Htok. subst tok'. eapply came_from_insert; [exact Hv|]. simpl.
    destruct res; try done. unfold response_result in Hr. destruct wr as [t|err]; [|by destruct (error err) as [| | | |[]]].
    destruct (VpAuthorizationResponse_decrypt_and_verify _ _ _ _ _) eqn:D; try done. injection Hr as <- <-.
    unfold session_data. rewrite Hl. eauto 10.
  - apply status_response_state in Hr0 as ->. by left.
  - apply disclosed_attributes_cases in Hr0 as [-> _]. by left.
  - apply cleanup_inv in Hr0 as (_ & Hv & _). unfold session_data. rewrite Hv. unfold abstract_cleanup. rewrite lookup_omap.
    destruct (view s !! tok) as [y|]; simpl; [|by left]. destruct (cleanup_session _ _ _) as [z|] eqn:Hc; [|done].
    apply cleanup_data in Hc as [_ [Hd|Hd]]; intros [= <-]; simpl; rewrite Hd; [by left|by right].
Qed.

(** The last change of a session, and the state before it. *)
Lemma run_changed s0 s tok d : view s0 = ∅ → rtc vstep s0 s → session_data s tok = Some d →
  ∃ s1, rtc vstep s0 s1 ∧ rtc vstep s1 s ∧ came_from (session_data s1 tok) d.
Proof.
  intros Hempty Hrun. revert s Hrun. refine (rtc_ind_r _ _ _ _).
  - unfold session_data. by rewrite Hempty, lookup_empty.
  - intros s1 s2 Hrun Hs IH [Hd|Hd]%(vstep_origin _ _ _ _ (run_ok_store _ _ (empty_ok _ Hempty) Hrun) Hs).
    + destruct (IH Hd) as (s' & ? & ? & ?). exists s'. split_and!; [done|by eapply rtc_r|done].
    + exists s1. split_and!; [done|by apply rtc_once|done].
Qed.

(** C3. A relying party only ever obtains verified attributes.  In every state
    that the server can reach from an empty store, by any sequence of requests
    and cleanups, attributes that are handed out for a token belong to the session
    that was created under that token earlier in the run and then waited under it
    for a response with the request that was made for it: the response was
    encrypted to the key of that session with the nonce of its request, consists of
    one device response which verified against the transcript of that session (its
    nonce, client identifier and response URI) and the trust anchors, and contains
    all attributes that the session was created for; and if its use case always has
    a return URL, then the nonce of the return URL was presented.  Requests are
    handled one after the other. *)
Theorem disclosed_attributes_verified s0 s tok n attrs s'
    (Hempty : view s0 = ∅) (Hrun : rtc vstep s0 s)
    (Hattrs : verifier_disclosed_attributes tok n s = (Ok attrs, s')) :
  ∃ s1 c s2 w u jwe time r mn t dr,
    rtc vstep s0 s1 ∧ session_data s1 tok = Some (DCreated c) ∧
    rtc vstep s1 s2 ∧ session_data s2 tok = Some (DWaitingForResponse w) ∧ rtc vstep s2 s ∧
    session_data s tok = Some (DDone (mkDone (VDone attrs (ru_nonce <$> w_redirect_uri w)))) ∧
    use_cases v !! cr_usecase_id c = Some u ∧
    san_dns_name (certificate (key_pair u)) = Ok (Some (iso_client_id (w_auth_request w))) ∧
    encryption_pubkey (w_auth_request w) = to_jwk_public_key (w_encryption_key w) ∧
    VpAuthorizationResponse_decrypt jwe (w_encryption_key w) (iso_nonce (w_auth_request w)) = Ok (r, mn) ∧
    SessionTranscript_new_oid4vp (iso_response_uri (w_auth_request w)) (iso_client_id (w_auth_request w))
      (iso_nonce (w_auth_request w)) mn = Ok t ∧
    vp_token r = [VpDeviceResponse dr] ∧
    DeviceResponse_verify dr None t time (v_trust_anchors v) = Ok attrs ∧
    cr_items_requests c ≠ [] ∧ match_against_response (cr_items_requests c) dr = Ok tt ∧
    (session_type_return_url u = BothReturnUrl → is_Some n ∧ n = ru_nonce <$> w_redirect_uri w).
Proof.
  apply disclosed_attributes_cases in Hattrs as [_ Ha]. destruct (Ha _ eq_refl) as (expected & Hd & Hn).
  destruct (run_changed _ _ _ _ Hempty Hrun Hd) as (s2 & Hr2 & Hr & w & jwe & time & Hw & -> & Hv).
  destruct (run_changed _ _ _ _ Hempty Hr2 Hw) as (s1 & Hr1 & Hr12 & c & Hc & Hreq & Hne & Henc & u & Hu & Hsan & Hboth).
  apply decrypt_and_verify_Ok in Hv as (r & mn & Hdec & Hv). apply response_verify_Ok in Hv as (t & dr & docs & Ht & Hvp & _ & Hdr & Hm & _).
  rewrite Hreq in Hm. exists s1, c, s2, w, u, jwe, time, r, mn, t, dr. split_and!; try done. intros Hb. destruct (Hboth Hb) as [ru Hru].
  rewrite Hru in *. simpl in *. destruct Hn as [?|<-]; [done|]. eauto.
Qed.

(** The life of a disclosure session.  In every run from an empty store, each
    step leaves a session alone or takes it along its path: it is created, then
    requested or failed, then finished with a result; only a session that has not
    ended can expire, and only the cleanup removes a session, after its end.  In
    particular the result of a session never changes. *)
Theorem disclosure_lifecycle s0 s s' (Hempty : view s0 = ∅) (Hrun : rtc vstep s0 s) (Hstep : vstep s s') :
  keyed s' ∧ (∀ tok, disclosure_step (session_data s tok) (session_data s' tok)) ∧
  (∀ tok x, session_data s tok = Some (DDone x) → session_data s' tok = Some (DDone x) ∨ session_data s' tok = None).
Proof.
  pose proof (run_ok_store _ _ (empty_ok _ Hempty) Hrun) as Hk. destruct (vstep_ok _ _ Hk Hstep) as [Hk' Hs]. split_and!.
  - intros tok x Hx. by destruct (Hk' _ _ Hx).
  - exact Hs.
  - intros tok x Hx. specialize (Hs tok). rewrite Hx in Hs.
    inversion Hs as [| | | | |y Hy|]; subst; auto. by destruct x as [[]].
Qed.

(** The configuration that a session was created under is the one it is
    processed under: in every run of a server whose use cases do not change, the
    request for the authorization request never fails for a use case that is
    unknown or for a return URL that does not fit the use case. *)
Theorem no_configuration_mismatch s0 s now rnd tok uri q wn err s'
    (Hempty : view s0 = ∅) (Hrun : rtc vstep s0 s)
    (Hget : process_get_request show_get now rnd v tok uri q wn s = (Err err, s')) :
  wr_error err ≠ GReturnUrlConfigurationMismatch ∧ ∀ id, wr_error err ≠ GUnknownUseCase id.
Proof.
  pose proof (run_ok_store _ _ (empty_ok _ Hempty) Hrun) as Hk.
  unfold process_get_request in Hget. unfold sbind at 1 in Hget. rewrite disclosure_session_eq in Hget.
  destruct (map_err _ _) as [sess|e|] eqn:G; [| |done].
  2: { injection Hget as <- _. apply map_err_Err in G as (e' & _ & ->). done. }
  apply map_err_Ok, bind_Ok in G as (x & Hx & Hc). apply ok_or_Ok in Hx. apply try_created_Ok in Hc as ->.
  destruct (Hk _ _ Hx) as [_ Hd]. unfold sbind at 1, st_lift at 1 in Hget. destruct q as [q'|]; simpl in Hget; [|by injection Hget as <- _].
  unfold sbind at 1, st_lift at 1 in Hget. destruct (parameters_from_str q') as [p|]; simpl in Hget; [|by injection Hget as <- _].
  unfold sbind at 1, st_lift at 1 in Hget.
  destruct (verify_ephemeral_id now v tok p) as [[]|e|] eqn:E; simpl in Hget; [| |done].
  2: { injection Hget as <- _. unfold verify_ephemeral_id in E. destruct (negb _), (hmac_verify _ _ _); simpl in E; by simplify_eq/=. }
  pose proof (get_request_inner_ok rnd sess tok uri (up_session_type p) wn Hd) as Hi.
  unfold sbind at 1, st_lift at 1, session_process_get_request in Hget.
  destruct (process_get_request_inner _ _ _ _ _ _ _) as [[[[jws ar] ru] kp]|er|]; simpl in Hget; [| |done];
    unfold sbind, st_map_err, st_lift in Hget;
    (match type of Hget with context [store_write ?x false s] => destruct (write_false x s) as (s1 & Hw & _) end);
    rewrite Hw in Hget; simpl in Hget; by simplify_eq/=.
Qed.

(** A link to a session works for ten seconds: with the link that the status
    endpoint gives for a created session at time [t], the request for the
    authorization request passes the check of the ephemeral identifier exactly
    until ten seconds after [t].  Later requests are refused and leave the session
    as it was, so that the user can try again with a new link. *)
Theorem ephemeral_id_window s tok st t q now rnd uri wn c tk la
    (Hcreated : view s !! tok = Some (mkSessionState (DCreated c) tk la))
    (Hquery : parameters_to_string (mkUrlParameters st (generate_ephemeral_id v tok t) t) = Some q) :
  (now - t ≤ seconds 10 →
     verify_ephemeral_id now v tok (mkUrlParameters st (generate_ephemeral_id v tok t) t) = Ok tt) ∧
  (now - t > seconds 10 →
     process_get_request show_get now rnd v tok uri (Some q) wn s
       = (Err (without_redirect (ExpiredEphemeralId (generate_ephemeral_id v tok t))), s)).
Proof.
  unfold verify_ephemeral_id, EPHEMERAL_ID_VALIDITY_SECONDS. simpl. split; intros Hn.
  - destruct (t <? now - seconds 10) eqn:E; zbool; [lia|]. simpl. unfold generate_ephemeral_id. by rewrite hmac_sign_verify.
  - unfold process_get_request, sbind, st_lift. rewrite disclosure_session_eq, Hcreated. simpl.
    rewrite (parameters_round_trip _ _ Hquery). unfold verify_ephemeral_id, EPHEMERAL_ID_VALIDITY_SECONDS. simpl.
    destruct (t <? now - seconds 10) eqn:E; zbool; [done|lia].
Qed.

(** ** Authorization requests, as the wallet sees them *)
Lemma verify_request_Ok now jws anchors wn iso cert :
  VpAuthorizationRequest_verify now jws anchors wn = Ok (iso, cert) →
  ∃ req, jwt_verify_against_trust_anchors jws [audience_name SelfIssued] anchors now = Ok (req, cert) ∧
    san_dns_name cert = Ok (Some (ar_client_id (oauth_request req))) ∧ vp_wallet_nonce req = wn ∧
    iso_of_vp_request req = Ok iso.
Proof.
  unfold VpAuthorizationRequest_verify. intros Hv. apply bind_Ok in Hv as ([req c] & Hj & Hv). apply map_err_Ok in Hj.
  apply bind_Ok in Hv as (san & Hs & Hv). apply map_err_Ok in Hs. apply bind_Ok in Hv as (dns & Hd & Hv). apply ok_or_Ok in Hd as ->.
  apply bind_Ok in Hv as (u1 & Hg1 & Hv). apply guard_err_Ok in Hg1. zbool. apply bind_Ok in Hv as (u2 & Hg2 & Hv).
  apply guard_err_Ok in Hg2. zbool. apply bind_Ok in Hv as (i & Hi & [= <- <-]). subst. by exists req.
Qed.

Lemma x5c_verify_Ok jws audience anchors now req cert :
  jwt_verify_against_trust_anchors (C:=VpAuthorizationRequest) jws audience anchors now = Ok (req, cert) →
  ∃ intermediates k h, Certificate_verify cert ReaderAuthUsage intermediates now anchors = Ok tt ∧
    Certificate_public_key cert = Ok k ∧ decode now jws k (x5c_validation audience) = Some (mkTokenData h req).
Proof.
  unfold jwt_verify_against_trust_anchors. intros Hv. run_ok Hv. repeat match goal with u : unit |- _ => destruct u end.
  match goal with H : Jwt_parse_and_verify _ _ _ _ = _ |- _ => unfold Jwt_parse_and_verify in H; run_ok H end.
  match goal with H : decode _ _ _ _ = Some ?td |- _ => destruct td; simpl in * end. subst. by eauto 10.
Qed.

Lemma iso_of_vp_request_Ok req iso : iso_of_vp_request req = Ok iso →
  iso_client_id iso = ar_client_id (oauth_request req) ∧ ar_nonce (oauth_request req) = Some (iso_nonce iso) ∧
  ar_redirect_uri (oauth_request req) = None ∧ ar_response_mode (oauth_request req) = Some DirectPostJwt ∧
  client_id_scheme req = Some X509SanDns ∧ vp_response_uri req = Some (iso_response_uri iso) ∧
  vp_presentation_definition req = PdDirect (presentation_definition iso) ∧
  requests_of_definition (presentation_definition iso) = Ok (items_requests iso) ∧
  jwks (client_metadata iso) = JwksDirect [encryption_pubkey iso] ∧ JwePublicKey_validate (encryption_pubkey iso) = Ok tt ∧
  (∃ i, i ∈ input_descriptors (presentation_definition iso) ∧ fields (constraints i) ≠ []).
Proof.
  unfold iso_of_vp_request, absent, present.
  destruct (ar_authorization_details _), (ar_code_challenge _), (ar_redirect_uri _), (ar_scope _), (ar_request_uri _);
    simpl; try done.
  destruct (ar_nonce _), (ar_response_mode _) as [m|], (client_id_scheme _) as [sch|], (vp_response_uri _), (vp_client_metadata _) as [md|];
    simpl; try done.
  destruct (index_set_eqb _ _); simpl; [|done].
  case_bool_decide; simpl; [subst m|done]. case_bool_decide; simpl; [subst sch|done].
  simpl. destruct (vp_presentation_definition req) as [pd|]; simpl; [|done]. destruct md as [md|]; simpl; [|done].
  destruct (jwks md) as [keys|] eqn:K; simpl; [|done]. destruct keys as [|key []]; [done| |done].
  intros Hv. apply bind_Ok in Hv as ([] & Hkey & Hv). apply bind_Ok in Hv as (u & Hf & Hv). apply guard_err_Ok in Hf.
  apply bind_Ok in Hv as (rs & Hr & [= <-]). apply map_err_Ok in Hr. simpl. split_and!; try done.
  apply negb_true_iff in Hf. destruct (forallb_false_elem _ _ Hf) as (i & Hi & Hb). exists i. zbool.
  split; [done|]. intros Hn. by rewrite Hn in Hb.
Qed.

(** C21. A request that a wallet accepts is authentic and within the profile: it
    was signed under the key of a reader certificate that chains to a trust
    anchor, for a verifier whose DNS name in that certificate is the client
    identifier that the response will be bound to; it echoes the wallet's nonce;
    the response goes encrypted to a P-256 key in the request; and it asks for at
    least one attribute, by way of the definition that it contains. *)
Theorem accepted_request_authentic now jws anchors wn iso cert
    (Haccept : VpAuthorizationRequest_verify now jws anchors wn = Ok (iso, cert)) :
  ∃ req intermediates k h,
    Certificate_verify cert ReaderAuthUsage intermediates now anchors = Ok tt ∧ Certificate_public_key cert = Ok k ∧
    decode now jws k (x5c_validation [audience_name SelfIssued]) = Some (mkTokenData h req) ∧
    san_dns_name cert = Ok (Some (iso_client_id iso)) ∧ vp_wallet_nonce req = wn ∧
    ar_nonce (oauth_request req) = Some (iso_nonce iso) ∧ ar_response_mode (oauth_request req) = Some DirectPostJwt ∧
    vp_response_uri req = Some (iso_response_uri iso) ∧
    jwks (client_metadata iso) = JwksDirect [encryption_pubkey iso] ∧ JwePublicKey_validate (encryption_pubkey iso) = Ok tt ∧
    requests_of_definition (presentation_definition iso) = Ok (items_requests iso) ∧
    (∃ i, i ∈ input_descriptors (presentation_definition iso) ∧ fields (constraints i) ≠ []).
Proof.
  apply verify_request_Ok in Haccept as (req & Hj & Hsan & Hwn & Hiso). apply x5c_verify_Ok in Hj as (ints & k & h & Hc & Hk & Hd).
  apply iso_of_vp_request_Ok in Hiso as (Hci & ? & ? & ? & ? & ? & ? & ? & ? & ? & ?). rewrite Hci.
  exists req, ints, k, h. by split_and!.
Qed.

(** ** A relying party and a wallet that follow the protocol *)

(** The request as it arrives in the wallet, with the requests read back from the
    definition. *)
Definition with_requests (ar : IsoVpAuthorizationRequest) (rs : list ItemsRequest) : IsoVpAuthorizationRequest := {|
  iso_client_id := iso_client_id ar; iso_nonce := iso_nonce ar; encryption_pubkey := encryption_pubkey ar;
  iso_response_uri := iso_response_uri ar; items_requests := rs; presentation_definition := presentation_definition ar;
  client_metadata := client_metadata ar; iso_state := iso_state ar; iso_wallet_nonce := iso_wallet_nonce ar
|}.

Lemma public_key_valid kp : JwePublicKey_validate (to_jwk_public_key kp) = Ok tt.
Proof.
  unfold JwePublicKey_validate. by rewrite public_key_kty, public_key_curve.
Qed.

Lemma some_field_requested rs : Exists (λ r, request_fields r ≠ []) rs →
  forallb (λ i, bool_decide (length (fields (constraints i)) = 0%nat)) (descriptor_of_request <$> rs) = false.
Proof.
  induction 1 as [r rs Hr|r rs _ IH]; csimpl; [|rewrite IH; apply andb_false_r].
  apply andb_false_iff. left. apply bool_decide_eq_false. by intros Hl%nil_length_inv.
Qed.

Lemma requests_parsed random rs : Forall request_wf rs → forallb names_unquoted rs = true →
  requests_of_definition (definition_of_requests random rs) = Ok (requested_fields <$> rs).
Proof. intros Hwf Hu. rewrite (definition_round_trip random rs Hwf). by rewrite Hu. Qed.

Section Requesting.
Context (random : string) (rs : list ItemsRequest) (u : UseCase) (nonce uri : string) (kp : EcKeyPair) (wn : option string).
Context (ar : IsoVpAuthorizationRequest) (jws : string).
Hypothesis H_request : IsoVpAuthorizationRequest_new random rs (certificate (key_pair u)) nonce (to_jwk_public_key kp) uri wn = Ok ar.
Hypothesis H_sign : sign_with_certificate (vp_request_of_iso ar) (key_pair u) = Ok jws.

Lemma wallet_accepts now anchors :
  Forall request_wf rs → forallb names_unquoted rs = true → Exists (λ r, request_fields r ≠ []) rs →
  Certificate_verify (certificate (key_pair u)) ReaderAuthUsage [] now anchors = Ok tt →
  Certificate_public_key (certificate (key_pair u)) = Ok (verifying_key (private_key (key_pair u))) →
  claims_valid now (x5c_validation [audience_name SelfIssued]) (vp_request_of_iso ar) = true →
  VpAuthorizationRequest_verify now jws anchors wn = Ok (with_requests ar (requested_fields <$> rs), certificate (key_pair u)).
Proof.
  intros Hwf Hq Hex Hc Hk Hv. unfold VpAuthorizationRequest_verify.
  rewrite (signed_with_certificate_verifies _ _ _ _ anchors now H_sign Hc Hk Hv). simpl.
  unfold IsoVpAuthorizationRequest_new in H_request. apply bind_Ok in H_request as (san & Hs & Hn). apply map_err_Ok in Hs.
  apply bind_Ok in Hn as (cid & Hcid & [= <-]). apply ok_or_Ok in Hcid as ->. rewrite Hs. simpl.
  rewrite !bool_decide_eq_true_2 by done. simpl. unfold iso_of_vp_request. simpl. rewrite public_key_valid. simpl.
  rewrite (some_field_requested rs Hex).
  simpl. rewrite (requests_parsed random rs Hwf Hq). done.
Qed.
End Requesting.

Lemma iso_request_new_Ok random rs cert nonce pubkey uri wn ar :
  IsoVpAuthorizationRequest_new random rs cert nonce pubkey uri wn = Ok ar →
  encryption_pubkey ar = pubkey ∧ iso_nonce ar = nonce ∧ iso_response_uri ar = uri ∧ items_requests ar = rs.
Proof. unfold IsoVpAuthorizationRequest_new. intros Hn. by run_ok Hn. Qed.

Lemma get_request_succeeds s tok c la st t q now rnd uri wn u kp ru ar jws :
  view s !! tok = Some (mkSessionState (DCreated c) tok la) → use_cases v !! cr_usecase_id c = Some u →
  parameters_to_string (mkUrlParameters st (generate_ephemeral_id v tok t) t) = Some q → now - t ≤ seconds 10 →
  redirect_uri_and_nonce rnd tok (session_type_return_url u) st (cr_redirect_uri_template c) = Ok ru →
  g_keypair rnd = Some kp →
  IsoVpAuthorizationRequest_new (g_definition_id rnd) (cr_items_requests c) (certificate (key_pair u)) (g_nonce rnd)
    (to_jwk_public_key kp) uri wn = Ok ar →
  sign_with_certificate (vp_request_of_iso ar) (key_pair u) = Ok jws →
  ∃ s1, process_get_request show_get now rnd v tok uri (Some q) wn s = (Ok jws, s1) ∧
    view s1 = <[tok := mkSessionState (DWaitingForResponse (mkWaiting _ ar kp ru)) tok now]> (view s).
Proof.
  intros Hl Hu Hq Ht Hr Hkp Har Hs.
  assert (process_get_request_inner rnd (mkSessionState c tok la) tok uri st wn v = Ok (jws, ar, ru, kp)) as Hin.
  { unfold process_get_request_inner. simpl. rewrite Hu. simpl. rewrite Hr. simpl. rewrite Hkp. simpl.
    rewrite public_key_valid. simpl. rewrite Har. simpl. by rewrite Hs. }
  unfold process_get_request, sbind at 1. rewrite disclosure_session_eq, Hl. simpl.
  unfold sbind at 1, st_lift at 1. simpl. unfold sbind at 1, st_lift at 1. rewrite (parameters_round_trip _ _ Hq). simpl.
  unfold sbind at 1, st_lift at 1, verify_ephemeral_id, EPHEMERAL_ID_VALIDITY_SECONDS. simpl.
  destruct (t <? now - seconds 10) eqn:E; zbool; [lia|]. simpl. unfold generate_ephemeral_id. rewrite hmac_sign_verify. simpl.
  unfold sbind at 1, st_lift at 1, session_process_get_request. unfold with_data. simpl. rewrite Hin. simpl.
  unfold sbind, st_map_err, st_lift.
  match goal with |- context [store_write ?x false s] => destruct (write_false x s) as (s1 & -> & Hv) end. by exists s1.
Qed.

Lemma wallet_response_decrypts random rnd dr ar iso mn jwe kp :
  VpAuthorizationResponse_new_encrypted random rnd dr iso mn = Ok jwe →
  encryption_pubkey iso = to_jwk_public_key kp → iso_nonce iso = iso_nonce ar →
  utf8_valid (iso_nonce ar) = true → utf8_valid mn = true →
  ∃ r, VpAuthorizationResponse_new (E:=AuthResponseError) random dr iso = Ok r ∧
    VpAuthorizationResponse_decrypt jwe kp (iso_nonce ar) = Ok (r, mn).
Proof.
  unfold VpAuthorizationResponse_new_encrypted, VpAuthorizationResponse_encrypt. intros Hn Hk Hno Hu1 Hu2.
  apply bind_Ok in Hn as (r & Hr & Hn). exists r. split; [done|]. run_ok Hn.
  match goal with H : response_to_value _ = Some _ |- _ => rename H into Hval end.
  match goal with H : encrypter_from_jwk _ = Some _ |- _ => rewrite Hk in H; rename H into Henc end.
  unfold VpAuthorizationResponse_decrypt. destruct (decrypter_exists kp) as [dk Hdk].
  destruct (decode_encoded_jwe _ _ _ _ _ _ _ Henc Hdk Hn) as (h' & Hdec & Hapu & Hapv). simpl in Hapu, Hapv.
  rewrite Hdk. simpl. rewrite Hdec. simpl. rewrite Hapv. simpl. unfold string_from_utf8. rewrite Hno, Hu1. simpl.
  rewrite bool_decide_eq_true_2 by done. simpl. rewrite Hapu. simpl. rewrite Hu2. simpl.
  by rewrite (response_json_round_trip _ _ Hval).
Qed.

Lemma wallet_response_verifies random dr ar iso r mn tr time attrs :
  VpAuthorizationResponse_new (E:=AuthResponseError) random dr iso = Ok r →
  definition_id (presentation_definition iso) = definition_id (presentation_definition ar) → iso_state iso = iso_state ar →
  SessionTranscript_new_oid4vp (iso_response_uri ar) (iso_client_id ar) (iso_nonce ar) mn = Ok tr →
  DeviceResponse_verify dr None tr time (v_trust_anchors v) = Ok attrs →
  match_against_response (items_requests ar) dr = Ok tt →
  VpAuthorizationResponse_verify r ar mn time (v_trust_anchors v) = Ok attrs.
Proof.
  intros Hn Hid Hst Ht Hd Hm. unfold VpAuthorizationResponse_new in Hn. apply bind_Ok in Hn as (docs & Hdocs & [= <-]).
  apply unwrap_Ok in Hdocs. unfold VpAuthorizationResponse_verify. rewrite Ht. simpl. rewrite Hd. simpl. rewrite Hm. simpl.
  rewrite Hdocs. simpl. rewrite (proj2 (submission_verify_Ok _ _ _)); simpl; [by rewrite bool_decide_eq_true_2|].
  split; [done|]. apply Forall2_fmap_r, Forall_Forall2_diag, Forall_forall. done.
Qed.

Lemma post_response_succeeds s tok w la now jwe r mn time attrs :
  view s !! tok = Some (mkSessionState (DWaitingForResponse w) tok la) →
  VpAuthorizationResponse_decrypt jwe (w_encryption_key w) (iso_nonce (w_auth_request w)) = Ok (r, mn) →
  VpAuthorizationResponse_verify r (w_auth_request w) mn time (v_trust_anchors v) = Ok attrs →
  ∃ s1, process_authorization_response show_post show_user now v tok (WalletResponse (mkVpToken jwe)) time s
      = (Ok (mkVpRedirect (uri_from_option (w_redirect_uri w))), s1) ∧
    view s1 = <[tok := mkSessionState (DDone (mkDone (VDone attrs (ru_nonce <$> w_redirect_uri w)))) tok now]> (view s).
Proof.
  intros Hl Hd Hv. unfold process_authorization_response, sbind at 1. rewrite disclosure_session_eq, Hl. simpl.
  unfold sbind at 1, st_lift at 1, session_process_authorization_response. simpl.
  unfold VpAuthorizationResponse_decrypt_and_verify. rewrite Hd. simpl. rewrite Hv. simpl.
  unfold sbind, st_map_err, st_lift.
  match goal with |- context [store_write ?x false s] => destruct (write_false x s) as (s1 & -> & Hv1) end. by exists s1.
Qed.

(** Disclosure works: for a session that has been created, the wallet that
    follows a fresh link gets a signed request, accepts it and reads from it the
    attributes that the relying party asked for; and when it answers with a device
    response that verifies for the transcript of the session and has the
    requested attributes, encrypted to the key in the request, then the session
    is done and the relying party gets exactly the attributes of that response. *)
Theorem honest_disclosure_succeeds s tok c la st t q now rnd uri wn u kp ru ar jws wnow wanchors random rnd2 dr mn jwe tr time attrs
    (Hcreated : view s !! tok = Some (mkSessionState (DCreated c) tok la)) (Husecase : use_cases v !! cr_usecase_id c = Some u)
    (Hlink : parameters_to_string (mkUrlParameters st (generate_ephemeral_id v tok t) t) = Some q) (Hfresh : now - t ≤ seconds 10)
    (Hredirect : redirect_uri_and_nonce rnd tok (session_type_return_url u) st (cr_redirect_uri_template c) = Ok ru)
    (Hkp : g_keypair rnd = Some kp)
    (Har : IsoVpAuthorizationRequest_new (g_definition_id rnd) (cr_items_requests c) (certificate (key_pair u)) (g_nonce rnd)
       (to_jwk_public_key kp) uri wn = Ok ar)
    (Hsign : sign_with_certificate (vp_request_of_iso ar) (key_pair u) = Ok jws)
    (Hwf : Forall request_wf (cr_items_requests c)) (Hnames : forallb names_unquoted (cr_items_requests c) = true)
    (Hsome : Exists (λ r, request_fields r ≠ []) (cr_items_requests c))
    (Hcert : Certificate_verify (certificate (key_pair u)) ReaderAuthUsage [] wnow wanchors = Ok tt)
    (Hkey : Certificate_public_key (certificate (key_pair u)) = Ok (verifying_key (private_key (key_pair u))))
    (Hclaims : claims_valid wnow (x5c_validation [audience_name SelfIssued]) (vp_request_of_iso ar) = true)
    (Hjwe : VpAuthorizationResponse_new_encrypted random rnd2 dr
       (with_requests ar (requested_fields <$> cr_items_requests c)) mn = Ok jwe)
    (Hutf1 : utf8_valid (g_nonce rnd) = true) (Hutf2 : utf8_valid mn = true)
    (Htranscript : SessionTranscript_new_oid4vp uri (iso_client_id ar) (g_nonce rnd) mn = Ok tr)
    (Hverify : DeviceResponse_verify dr None tr time (v_trust_anchors v) = Ok attrs)
    (Hmatch : match_against_response (cr_items_requests c) dr = Ok tt) :
  ∃ iso s1 s2,
    process_get_request show_get now rnd v tok uri (Some q) wn s = (Ok jws, s1) ∧
    VpAuthorizationRequest_verify wnow jws wanchors wn = Ok (iso, certificate (key_pair u)) ∧
    items_requests iso = requested_fields <$> cr_items_requests c ∧
    process_authorization_response show_post show_user now v tok (WalletResponse (mkVpToken jwe)) time s1
      = (Ok (mkVpRedirect (uri_from_option ru)), s2) ∧
    verifier_disclosed_attributes tok (ru_nonce <$> ru) s2 = (Ok attrs, s2).
Proof.
  destruct (get_request_succeeds s tok c la st t q now rnd uri wn u kp ru ar jws) as (s1 & Hget & Hv1); [done..|].
  pose proof (wallet_accepts _ _ u _ _ kp wn ar jws Har Hsign wnow wanchors Hwf Hnames Hsome Hcert Hkey Hclaims) as Hacc.
  apply iso_request_new_Ok in Har as (Hek & Hno & Huri & Hrs). rewrite <-Hno in Hutf1, Htranscript.
  rewrite <-Huri in Htranscript. rewrite <-Hrs in Hmatch at 1.
  destruct (wallet_response_decrypts _ _ _ ar _ _ _ kp Hjwe Hek eq_refl Hutf1 Hutf2) as (r & Hr & Hdec).
  pose proof (wallet_response_verifies _ _ ar _ _ mn tr time attrs Hr eq_refl eq_refl Htranscript Hverify Hmatch) as Hver.
  destruct (post_response_succeeds s1 tok (mkWaiting _ ar kp ru) now now jwe r mn time attrs) as (s2 & Hpost & Hv2);
    [by rewrite Hv1, lookup_insert_eq|done..|].
  eexists _, s1, s2. split_and!; [exact Hget|exact Hacc|done|exact Hpost|].
  unfold verifier_disclosed_attributes, sbind, st_map_err. rewrite get_session_state_eq, Hv2, lookup_insert_eq. simpl.
  destruct ru as [[uri' n]|]; simpl; [by rewrite decide_True|done].
Qed.

(** Return URL templates with an unknown placeholder abort the request: such a
    template passes validation as long as what remains without [{session_token}]
    is a URL, and the session is created, but formatting it fails, which panics;
    every request for the authorization request then panics and the session
    stays as it was. *)
Theorem unknown_placeholder_panics s tok c la st t q now rnd uri wn u template
    (Hcreated : view s !! tok = Some (mkSessionState (DCreated c) tok la)) (Husecase : use_cases v !! cr_usecase_id c = Some u)
    (Hlink : parameters_to_string (mkUrlParameters st (generate_ephemeral_id v tok t) t) = Some q) (Hfresh : now - t ≤ seconds 10)
    (Hboth : session_type_return_url u = BothReturnUrl)
    (Htemplate : cr_redirect_uri_template c = Some template) (Hformat : strfmt template tok = None) :
  process_get_request show_get now rnd v tok uri (Some q) wn s = (Panic, s).
Proof.
  unfold process_get_request, sbind at 1. rewrite disclosure_session_eq, Hcreated. simpl.
  unfold sbind at 1, st_lift at 1. simpl. unfold sbind at 1, st_lift at 1. rewrite (parameters_round_trip _ _ Hlink). simpl.
  unfold sbind at 1, st_lift at 1, verify_ephemeral_id, EPHEMERAL_ID_VALIDITY_SECONDS. simpl.
  destruct (t <? now - seconds 10) eqn:E; zbool; [lia|]. simpl. unfold generate_ephemeral_id. rewrite hmac_sign_verify. simpl.
  unfold sbind at 1, st_lift at 1, session_process_get_request. unfold with_data. simpl.
  unfold process_get_request_inner. simpl. rewrite Husecase. simpl. rewrite Hboth, Htemplate. simpl.
  unfold into_url. by rewrite Hformat.
Qed.
End VerifierFacts.
