(* ===== verification/VerifierWitness.v ===== *)
(** * A disclosure session, evaluated

    The in-memory store, one relying party and one wallet that holds the mdoc of
    [MdocFacts]: the theorems about the disclosure server applied to a concrete
    run.  The crates that the verifier uses are replaced by simple functions with
    the same laws; JSON texts are known for one request and one response only. *)
From stdpp Require Import base gmap strings list option fin_maps countable pretty relations.
From Stdlib Require Import ZArith Lia.
From S2P Require Import Prelude IndexMap SessionStore SessionStoreFacts Crypto Jose Cbor Cose Engagement Concrete.
From S2P Require Import Mdoc MdocSigning MdocFacts DisclosureFacts Protocol PresentationExchange OpenId4vp Verifier VerifierFacts.
Import Crates.

(** ** Crates *)
#[export] Instance base64_std : Base64Std.
Proof.
  refine {| b64std_encode s := s; b64std_decode s := Some s |}.
  done. Defined.

Definition jwe_encode (p u w : string) : string := to_bytes (p, u, w).
#[export] Instance josekit : Josekit.
Proof.
  refine {|
    JoseJwk := string; EcKeyPair := string; JwtPayload := string; Encrypter := unit; Decrypter := unit;
    jwk_parameter _ n := if decide (n = "kty") then Some (JString "EC") else None;
    jwk_curve _ := Some "P-256";
    to_jwk_public_key k := k; to_jwk_key_pair k := k;
    encrypter_from_jwk _ := Some tt; decrypter_from_jwk _ := Some tt;
    encode_with_encrypter p h _ _ :=
      Some (to_bytes (p, agreement_partyuinfo h, agreement_partyvinfo h));
    decode_with_decrypter s _ :=
      x ← of_bytes s;
      let '(p, u, w) := (x : string * option string * option string) in
      Some (p, mkJweHeader None u w None)
  |}.
  - done.
  - done.
  - eauto.
  - intros kp e d p h rnd jwe _ _ [= <-]. rewrite of_to_bytes. simpl. eauto.
Defined.

#[export] Instance verifier_lib : VerifierLib.
Proof.
  refine {|
    hmac_sign k m := k +:+ m;
    time_to_rfc3339 := pretty;
    parameters_to_string p := Some (to_bytes (match up_session_type p with SameDevice => true | _ => false end,
                                              ephemeral_id p, up_time p));
    parameters_from_str s :=
      (λ x : bool * string * Z, mkUrlParameters (if x.1.1 then SameDevice else CrossDevice) x.1.2 x.2) <$> of_bytes s;
    request_uri_to_string o := Some (to_bytes (ro_request_uri o,
      (λ m, match m with GET => true | POST => false end) <$> request_uri_method o, ro_client_id o));
    parse_url := Some; url_scheme _ := "https"; cannot_be_a_base _ := false;
    set_query u q := to_bytes (u, q);
    append_pair u k x := u +:+ "&" +:+ k +:+ "=" +:+ x;
    strfmt t tok :=
      let rest := remove_all "{session_token}" 0 t in
      match String.index 0 "{" rest with Some _ => None | None => Some (rest +:+ tok) end
  |}.
  - intros k m. by apply bool_decide_eq_true.
  - intros [st id t] s [= <-]. rewrite of_to_bytes. by destruct st.
Defined.

(** Tokens with one known payload *)
Definition known_jwt_lib {C} `{!EqDecision C} (c0 : C) : JwtLib C.
Proof.
  refine {|
    encode_header h := Some (to_digits h);
    encode_claims c := if decide (c = c0) then Some (to_digits tt) else None;
    encode_signature s := to_digits (s : string * N);
    decode_header s := of_digits (split_dot s).1;
    Jose.decode _ s vk v :=
      let '(eh, r) := split_dot s in
      let '(ec, es) := split_dot r in
      h ← of_digits eh; (of_digits ec : option unit) ≫= (λ _, sig ← of_digits es;
      if bool_decide (Jose.alg h ∈ algorithms v) && ecdsa_verify (vk : VerifyingKey) (eh +:+ "." +:+ ec) sig
      then Some (mkTokenData h c0) else None);
    claims_valid _ _ _ := true
  |}.
  - intros h eh rest [= <-]. unfold to_digits. rewrite split_dot_digits. apply (of_to_digits h).
  - intros now h c eh ec sig vk v [= <-] Hc Ha _ Hs. case_decide; [|done]. subst c. injection Hc as <-.
    rewrite !string_app_assoc. unfold to_digits at 1. rewrite split_dot_digits.
    unfold to_digits at 1. rewrite split_dot_digits.
    fold (to_digits h) (to_digits tt). rewrite !of_to_digits. simpl.
    rewrite bool_decide_eq_true_2 by done. simpl in Hs. by rewrite Hs.
Defined.

(** ** Decidable equality of requests and responses *)
Ltac eq_dec := solve_decision.
#[export] Instance AuthorizationDetailsType_eq_dec : EqDecision AuthorizationDetailsType.
Proof. eq_dec. Defined.
#[export] Instance AuthorizationDetailsFormatData_eq_dec : EqDecision AuthorizationDetailsFormatData.
Proof. eq_dec. Defined.
#[export] Instance AuthorizationDetails_eq_dec : EqDecision AuthorizationDetails.
Proof. eq_dec. Defined.
#[export] Instance PkceCodeChallenge_eq_dec : EqDecision PkceCodeChallenge.
Proof. eq_dec. Defined.
#[export] Instance AuthorizationRequest_eq_dec : EqDecision AuthorizationRequest.
Proof. eq_dec. Defined.
#[export] Instance VpFormat_eq_dec : EqDecision VpFormat.
Proof. eq_dec. Defined.
#[export] Instance Field_eq_dec : EqDecision Field.
Proof. eq_dec. Defined.
#[export] Instance LimitDisclosure_eq_dec : EqDecision LimitDisclosure.
Proof. eq_dec. Defined.
#[export] Instance Constraints_eq_dec : EqDecision Constraints.
Proof. eq_dec. Defined.
#[export] Instance InputDescriptor_eq_dec : EqDecision InputDescriptor.
Proof. eq_dec. Defined.
#[export] Instance PresentationDefinition_eq_dec : EqDecision PresentationDefinition.
Proof. eq_dec. Defined.
#[export] Instance VpPresentationDefinition_eq_dec : EqDecision VpPresentationDefinition.
Proof. eq_dec. Defined.
#[export] Instance VpAlgValues_eq_dec : EqDecision VpAlgValues.
Proof. eq_dec. Defined.
#[export] Instance VpEncValues_eq_dec : EqDecision VpEncValues.
Proof. eq_dec. Defined.
#[export] Instance VpAuthorizationRequestAudience_eq_dec : EqDecision VpAuthorizationRequestAudience.
Proof. eq_dec. Defined.
#[export] Instance JoseJwk_eq_dec : EqDecision JoseJwk := String.string_dec.
#[export] Instance VpJwks_eq_dec : EqDecision VpJwks.
Proof. eq_dec. Defined.
#[export] Instance ClientMetadata_eq_dec : EqDecision ClientMetadata.
Proof. eq_dec. Defined.
#[export] Instance VpClientMetadata_eq_dec : EqDecision VpClientMetadata.
Proof. eq_dec. Defined.
#[export] Instance VpAuthorizationRequest_eq_dec : EqDecision VpAuthorizationRequest.
Proof. eq_dec. Defined.
#[export] Instance ByteBuf_eq_dec : EqDecision ByteBuf.
Proof. eq_dec. Defined.
#[export] Instance IssuerSignedItem_eq_dec : EqDecision IssuerSignedItem.
Proof. eq_dec. Defined.
#[export] Instance TaggedBytes_IssuerSignedItem_eq_dec : EqDecision (TaggedBytes IssuerSignedItem).
Proof. eq_dec. Defined.
#[export] Instance CoseAlgorithm_eq_dec : EqDecision CoseAlgorithm.
Proof. eq_dec. Defined.
#[export] Instance CoseHeader_eq_dec : EqDecision CoseHeader.
Proof. eq_dec. Defined.
#[export] Instance ProtectedHeader_eq_dec : EqDecision ProtectedHeader.
Proof. eq_dec. Defined.
#[export] Instance CoseSign1_eq_dec : EqDecision CoseSign1.
Proof. eq_dec. Defined.
#[export] Instance CoseMac0_eq_dec : EqDecision CoseMac0.
Proof. eq_dec. Defined.
#[export] Instance IssuerSigned_eq_dec : EqDecision IssuerSigned.
Proof. eq_dec. Defined.
#[export] Instance DeviceAuth_eq_dec : EqDecision DeviceAuth.
Proof. eq_dec. Defined.
#[export] Instance DeviceSigned_eq_dec : EqDecision DeviceSigned.
Proof. eq_dec. Defined.
#[export] Instance Document_eq_dec : EqDecision Document.
Proof. eq_dec. Defined.
#[export] Instance DeviceResponse_eq_dec : EqDecision DeviceResponse.
Proof. eq_dec. Defined.
#[export] Instance VerifiablePresentation_eq_dec : EqDecision VerifiablePresentation.
Proof. eq_dec. Defined.
#[export] Instance InputDescriptorMappingObject_eq_dec : EqDecision InputDescriptorMappingObject.
Proof. eq_dec. Defined.
#[export] Instance PresentationSubmission_eq_dec : EqDecision PresentationSubmission.
Proof. eq_dec. Defined.
#[export] Instance VpAuthorizationResponse_eq_dec : EqDecision VpAuthorizationResponse.
Proof. eq_dec. Defined.

(** ** The relying party, its request and the response of the wallet *)
Definition ex_rp : KeyPair :=
  mkKeyPair ("rp" : SigningKey) (cert_bytes "rpca" "rp" "rp.example.com" EXTENDED_KEY_USAGE_READER_AUTH).
Definition rp_anchors : list TrustAnchor := ["rpca"].
Definition ex_enc : EcKeyPair := "enc".
Definition ex_usecase : UseCase := mkUseCase _ ex_rp "rp.example.com" BothReturnUrl.
Definition ex_verifier : Verifier := mkVerifier {["uc" := ex_usecase]} ["ca"] "secret".
Definition ex_requests : list ItemsRequest := [example_request].
Definition ex_template : string := "https://rp.example.com/{session_token}".
Definition ex_now : Z := seconds 500.
Definition ex_rnd : GetRandom := mkGetRandom _ "rn" "nonce" "pd" (Some ex_enc).
Definition ex_uri : string := "https://rp.example.com/response".
Definition ex_ar : IsoVpAuthorizationRequest :=
  match IsoVpAuthorizationRequest_new "pd" ex_requests (certificate ex_rp) "nonce" (to_jwk_public_key ex_enc)
          ex_uri (Some "wn") with
  | Ok ar => ar
  | _ => mkIsoRequest "" "" "" "" [] (mkPresentationDefinition "" []) (mkClientMetadata (JwksIndirect "") (VpMsoMdoc []) EcdhEs A128GCM) None None
  end.
#[export] Instance vp_jwt_lib : JwtLib VpAuthorizationRequest := known_jwt_lib (vp_request_of_iso ex_ar).
Definition ex_jws : string := match sign_with_certificate (vp_request_of_iso ex_ar) ex_rp with Ok j => j | _ => "" end.

Definition ex_transcript : SessionTranscript :=
  match SessionTranscript_new_oid4vp ex_uri "rp.example.com" "nonce" "mdoc_nonce" with
  | Ok t => t | _ => example_transcript end.
Definition ex_device_signed : DeviceSigned :=
  mkDeviceSigned [] (DeviceSignature
    (match device_authentication_bytes "com.example.pid" ex_transcript with
     | Ok bts => match sign_cose bts (mkCoseHeader None []) ("device" : SigningKey) false with
                 | Ok c => c | _ => issuer_auth example_signed end
     | _ => issuer_auth example_signed end)).
Definition ex_document : Document := mkDocument "com.example.pid" example_signed ex_device_signed None.
Definition ex_dr : DeviceResponse := mkDeviceResponse (Some [ex_document]) None 0.
Definition ex_attrs : DisclosedAttributes :=
  match DeviceResponse_verify ex_dr None ex_transcript ex_now ["ca"] with Ok a => a | _ => [] end.
Definition ex_iso : IsoVpAuthorizationRequest := with_requests ex_ar (requested_fields <$> ex_requests).
Definition ex_response : VpAuthorizationResponse :=
  match VpAuthorizationResponse_new (E:=AuthResponseError) "ps" ex_dr ex_iso with
  | Ok r => r | _ => mkVpResponse [] (mkSubmission "" "" []) None end.
#[export] Instance response_json : ResponseJson.
Proof.
  refine {|
    response_to_value r := if decide (r = ex_response) then Some ("response" : JwtPayload) else None;
    response_from_value _ := Some ex_response
  |}.
  intros r p. case_decide; [subst|done]. done.
Defined.
Definition ex_jwe : string :=
  match VpAuthorizationResponse_new_encrypted "ps" "" ex_dr ex_iso "mdoc_nonce" with Ok j => j | _ => "" end.

(** ** A run *)
Abbreviation VStore := (MemorySessionStore DisclosureData).
Definition ex_show_get (_ : GetAuthRequestError) : string := "get error".
Definition ex_show_post (_ : AuthResponseError) : string := "post error".
Definition ex_show_user (_ : ErrorResponse VpAuthorizationErrorCode) : string := "user error".
Definition v0 : VStore := memory_new default_timeouts.
Definition v1 : VStore := (new_session ex_now "tok" ex_verifier ex_requests "uc" (Some ex_template) v0).2.
Definition ex_link : string :=
  default "" (parameters_to_string (mkUrlParameters SameDevice (generate_ephemeral_id ex_verifier "tok" ex_now) ex_now)).
Definition v2 : VStore :=
  (process_get_request ex_show_get ex_now ex_rnd ex_verifier "tok" ex_uri (Some ex_link) (Some "wn") v1).2.
Definition v3 : VStore :=
  (process_authorization_response ex_show_post ex_show_user ex_now ex_verifier "tok" (WalletResponse (mkVpToken ex_jwe)) ex_now v2).2.

Abbreviation ex_vstep := (vstep ex_show_get ex_show_post ex_show_user ex_verifier (S:=VStore)).
Lemma ex_run1 : rtc ex_vstep v0 v1.
Proof. apply rtc_once. eapply step_new. apply surjective_pairing. Qed.
Lemma ex_step2 : ex_vstep v1 v2.
Proof. eapply step_get. apply surjective_pairing. Qed.
Lemma ex_run3 : rtc ex_vstep v0 v3.
Proof.
  eapply rtc_r; [eapply rtc_r; [apply ex_run1|apply ex_step2]|]. eapply step_post. apply surjective_pairing.
Qed.

Lemma ex_disclosed : (verifier_disclosed_attributes "tok" (Some "rn") v3).1 = Ok ex_attrs.
Proof. vm_compute. reflexivity. Qed.
Lemma v1_session : view v1 !! "tok" = Some (mkSessionState (DCreated (mkCreated ex_requests "uc" "rp.example.com" (Some ex_template))) "tok" ex_now).
Proof. reflexivity. Qed.

Lemma disclosed_attributes_verified_witness : session_data v3 "tok" = Some (DDone (mkDone (VDone ex_attrs (Some "rn")))) ∧
  ∃ s1 c s2 w, session_data s1 "tok" = Some (DCreated c) ∧ session_data s2 "tok" = Some (DWaitingForResponse w) ∧
    rtc ex_vstep s1 s2 ∧ rtc ex_vstep s2 v3.
Proof.
  split; [vm_compute; reflexivity|].
  destruct (disclosed_attributes_verified ex_show_get ex_show_post ex_show_user ex_verifier v0 v3 "tok" (Some "rn") ex_attrs
    (verifier_disclosed_attributes "tok" (Some "rn") v3).2)
    as (s1 & c & s2 & w & u & jwe & time & r & mn & t & dr & _ & Hc & H12 & Hw & H23 & _);
    [reflexivity|apply ex_run3|rewrite <-ex_disclosed; apply surjective_pairing|].
  exists s1, c, s2, w. by split_and!.
Defined.

Lemma disclosure_lifecycle_witness :
  disclosure_step (session_data v1 "tok") (session_data v2 "tok").
Proof.
  apply (disclosure_lifecycle ex_show_get ex_show_post ex_show_user ex_verifier v0 v1 v2); [reflexivity|apply ex_run1|apply ex_step2].
Defined.

Lemma no_configuration_mismatch_witness : ∃ err,
  (process_get_request ex_show_get ex_now ex_rnd ex_verifier "tok" ex_uri None (Some "wn") v1).1 = Err err ∧
  wr_error err ≠ GReturnUrlConfigurationMismatch.
Proof.
  exists (without_redirect QueryParametersMissing). split; [reflexivity|].
  apply (no_configuration_mismatch ex_show_get ex_show_post ex_show_user ex_verifier v0 v1 ex_now ex_rnd "tok" ex_uri None
    (Some "wn") (without_redirect QueryParametersMissing) v1); [reflexivity|apply ex_run1|reflexivity].
Defined.

Lemma ephemeral_id_window_witness :
  (process_get_request ex_show_get (ex_now + seconds 11) ex_rnd ex_verifier "tok" ex_uri (Some ex_link) (Some "wn") v1)
    = (Err (without_redirect (ExpiredEphemeralId (generate_ephemeral_id ex_verifier "tok" ex_now))), v1).
Proof.
  apply (ephemeral_id_window ex_show_get ex_verifier v1 "tok" SameDevice ex_now ex_link (ex_now + seconds 11) ex_rnd ex_uri
    (Some "wn") (mkCreated ex_requests "uc" "rp.example.com" (Some ex_template)) "tok" ex_now).
  - exact v1_session.
  - vm_compute. reflexivity.
  - unfold ex_now, seconds. lia.
Defined.

Lemma accepted_request_authentic_witness :
  san_dns_name (certificate ex_rp) = Ok (Some (iso_client_id ex_iso)).
Proof.
  destruct (accepted_request_authentic ex_now ex_jws rp_anchors (Some "wn") ex_iso (certificate ex_rp))
    as (req & ints & k & h & _ & _ & _ & Hsan & _); [vm_compute; reflexivity|]. exact Hsan.
Defined.

Lemma honest_disclosure_succeeds_witness : ∃ iso s1 s2,
  process_get_request ex_show_get ex_now ex_rnd ex_verifier "tok" ex_uri (Some ex_link) (Some "wn") v1 = (Ok ex_jws, s1) ∧
  VpAuthorizationRequest_verify ex_now ex_jws rp_anchors (Some "wn") = Ok (iso, certificate ex_rp) ∧
  process_authorization_response ex_show_post ex_show_user ex_now ex_verifier "tok" (WalletResponse (mkVpToken ex_jwe)) ex_now s1
    = (Ok (mkVpRedirect (Some "https://rp.example.com/tok&nonce=rn")), s2) ∧
  verifier_disclosed_attributes "tok" (Some "rn") s2 = (Ok ex_attrs, s2).
Proof.
  destruct (honest_disclosure_succeeds ex_show_get ex_show_post ex_show_user ex_verifier v1 "tok"
    (mkCreated ex_requests "uc" "rp.example.com" (Some ex_template)) ex_now SameDevice ex_now ex_link ex_now ex_rnd ex_uri (Some "wn")
    ex_usecase ex_enc (Some (mkRedirectUri "https://rp.example.com/tok&nonce=rn" "rn")) ex_ar ex_jws ex_now rp_anchors "ps" "" ex_dr
    "mdoc_nonce" ex_jwe ex_transcript ex_now ex_attrs) as (iso & s1 & s2 & Hg & Hv & _ & Hp & Ha).
  - exact v1_session.
  - reflexivity.
  - vm_compute. reflexivity.
  - unfold seconds. lia.
  - vm_compute. reflexivity.
  - reflexivity.
  - vm_compute. reflexivity.
  - vm_compute. reflexivity.
  - repeat constructor; set_solver.
  - reflexivity.
  - by repeat constructor.
  - vm_compute. reflexivity.
  - vm_compute. reflexivity.
  - reflexivity.
  - vm_compute. reflexivity.
  - reflexivity.
  - reflexivity.
  - vm_compute. reflexivity.
  - vm_compute. reflexivity.
  - vm_compute. reflexivity.
  - exists iso, s1, s2. split_and!; [exact Hg|exact Hv|exact Hp|exact Ha].
Defined.

Definition bad_template : string := "https://rp.example.com/{session_token}/{not_session_token}".
Definition v1_bad : VStore := (new_session ex_now "tok" ex_verifier ex_requests "uc" (Some bad_template) v0).2.
Lemma unknown_placeholder_panics_witness :
  is_valid_return_url_template false bad_template = true ∧
  process_get_request ex_show_get ex_now ex_rnd ex_verifier "tok" ex_uri (Some ex_link) (Some "wn") v1_bad = (Panic, v1_bad).
Proof.
  split; [vm_compute; reflexivity|].
  apply (unknown_placeholder_panics ex_show_get ex_verifier v1_bad "tok"
    (mkCreated ex_requests "uc" "rp.example.com" (Some bad_template)) ex_now SameDevice ex_now ex_link ex_now ex_rnd ex_uri (Some "wn")
    ex_usecase bad_template); first [reflexivity | vm_compute; reflexivity | unfold seconds; lia].
Defined.
