(* ===== verification/DisclosureSession.v ===== *)
(** * The wallet's side of an OpenID4VP disclosure

    Models [openid4vc/src/disclosure_session.rs]: the messages between wallet and
    verifier and the HTTP client that sends them, starting a session from a link,
    checking the request, and disclosing or refusing; with [DisclosureError] and
    [DisclosureUriSource] of the crate [mdoc].

    What the verifier answers to a message is a function of the messages sent so
    far, which stands for any peer; the state of the session's code is the log of
    these messages.  The crates [reqwest], [serde_urlencoded] and [url] are
    parameters. *)
From stdpp Require Import base gmap strings list option.
From Stdlib Require Import ZArith Lia.
From S2P Require Import Prelude IndexMap SessionStore Crypto Jose Cbor Cose Engagement Mdoc MdocSigning Holder.
From S2P Require Import Protocol PresentationExchange OpenId4vp Verifier.

(** ** Errors *)

(** [reqwest::Error], by whether the connection could not be made. *)
Record ReqwestError := mkReqwestError { is_connect : bool }.
Inductive VpMessageClientError :=
  | Http (e : ReqwestError)
  | VpJson
  | VpErrorResponse (e : ErrorResponse string).

Inductive DisclosureUriSource := Link | QrCode.
#[global] Instance SessionType_eq_dec : EqDecision SessionType.
Proof. solve_decision. Defined.
(** [DisclosureUriSource::new] and [session_type] *)
Definition DisclosureUriSource_new (is_qr_code : bool) : DisclosureUriSource := if is_qr_code then QrCode else Link.
Definition source_session_type (s : DisclosureUriSource) : SessionType :=
  match s with Link => SameDevice | QrCode => CrossDevice end.

Inductive VpClientError :=
  | CRequest (e : VpMessageClientError)
  | CDeviceResponse (e : MdocError)
  | CAuthRequestValidation (e : AuthRequestValidationError)
  | CIncorrectClientId (expected found : string)
  | CMissingReaderRegistration
  | CRequestedAttributesValidation (e : ValidationError)
  | CMatchRequestedAttributes (e : DisclosureMatchError)
  | CRpCertificate (e : CertificateError)
  | CMultipleCandidates (doc_types : list DocType)
  | CAuthResponseEncryption (e : AuthResponseError)
  | CRequestUri
  | CMissingSessionType
  | CMalformedSessionType
  | CDisclosureUriSourceMismatch (session_type : SessionType) (source : DisclosureUriSource).

(** [DisclosureError] *)
Record DisclosureError (E : Type) := mkDisclosureError { data_shared : bool; disclosure_error : E }.
Arguments mkDisclosureError {E}.
Arguments data_shared {E}.
Arguments disclosure_error {E}.
Definition before_sharing {E} (e : E) : DisclosureError E := mkDisclosureError false e.
Definition after_sharing {E} (e : E) : DisclosureError E := mkDisclosureError true e.

(** [From<VpMessageClientError> for DisclosureError<VpClientError>] *)
Definition disclosure_error_of_client (source : VpMessageClientError) : DisclosureError VpClientError :=
  let data_shared := match source with
                     | Http reqwest_error => negb (is_connect reqwest_error)
                     | VpErrorResponse _ | VpJson => true
                     end in
  mkDisclosureError data_shared (CRequest source).

(** ** Messages *)
Inductive VpMessage :=
  | GetAuthorizationRequest (url : string) (wallet_nonce : option string)
  | SendAuthorizationResponse (url jwe : string)
  | SendError (url : string) (error : ErrorResponse VpAuthorizationErrorCode).

(** [VpMessageClient] *)
Class VpMessageClient := {
  answer_request : list VpMessage → string → option string → outcome VpMessageClientError string;
  answer_response : list VpMessage → string → string → outcome VpMessageClientError (option string);
  answer_error : list VpMessage → string → ErrorResponse VpAuthorizationErrorCode → outcome VpMessageClientError (option string)
}.

Definition access_denied : ErrorResponse VpAuthorizationErrorCode :=
  mkErrorResponse (AuthorizationError AccessDenied) None None.

Section Client.
Context `{!VpMessageClient}.
Definition get_authorization_request (url : string) (wallet_nonce : option string)
    : ST (list VpMessage) VpMessageClientError string := λ log,
  (answer_request log url wallet_nonce, log ++ [GetAuthorizationRequest url wallet_nonce]).
Definition send_authorization_response (url jwe : string) : ST (list VpMessage) VpMessageClientError (option string) := λ log,
  (answer_response log url jwe, log ++ [SendAuthorizationResponse url jwe]).
Definition send_error (url : string) (error : ErrorResponse VpAuthorizationErrorCode)
    : ST (list VpMessage) VpMessageClientError (option string) := λ log,
  (answer_error log url error, log ++ [SendError url error]).
(** [VpMessageClient::terminate] *)
Definition client_terminate (url : string) : ST (list VpMessage) VpMessageClientError (option string) :=
  send_error url access_denied.
End Client.

(** ** The HTTP client *)
Inductive FormBody :=
  | WalletRequestForm (wallet_nonce : option string)
  | VpTokenForm (jwe : string)
  | ErrorForm (error : ErrorResponse VpAuthorizationErrorCode).
Record HttpRequest := mkHttpRequest {
  http_method : RequestUriMethod;
  http_url : string;
  http_accept : option string;
  http_form : option FormBody
}.
(** Reading the body of a response may fail. *)
Record HttpResponse := mkHttpResponse { http_status : Z; http_body : outcome ReqwestError string }.

Class Reqwest := {
  http_send : list VpMessage → HttpRequest → outcome ReqwestError HttpResponse;
  error_response_from_json : string → option (ErrorResponse string);
  vp_response_from_json : string → option VpResponse
}.

Definition APPLICATION_OAUTH_AUTHZ_REQ_JWT : string := "application/oauth-authz-req+jwt".
(** The errors of a response that is not JSON and of a status, which are not
    connection errors. *)
Definition decode_error : ReqwestError := mkReqwestError false.
Definition status_error : ReqwestError := mkReqwestError false.

Section Http.
Context `{!Reqwest}.
Definition is_error_status (status : Z) : bool := (400 <=? status) && (status <? 600).

(** What both requests do with an error status: parse the body as an error. *)
Definition error_of_response {A} (response : HttpResponse) : outcome VpMessageClientError A :=
  let* body := map_err Http (http_body response) in
  let* error := ok_or (Http decode_error) (error_response_from_json body) in
  Err (VpErrorResponse error).

(** [HttpVpMessageClient::deserialize_vp_response] *)
Definition deserialize_vp_response (response : HttpResponse) : outcome VpMessageClientError (option string) :=
  let* response_bytes := map_err Http (http_body response) in
  if decide (response_bytes = "") then Ok None
  else
    let* response := ok_or VpJson (vp_response_from_json response_bytes) in
    Ok (vp_redirect_uri response).

(** [VpMessageClient for HttpVpMessageClient] *)
Definition http_get_authorization_request (log : list VpMessage) (url : string) (wallet_nonce : option string)
    : outcome VpMessageClientError string :=
  let method := match wallet_nonce with Some _ => POST | None => GET end in
  let form := match wallet_nonce with Some _ => Some (WalletRequestForm wallet_nonce) | None => None end in
  let* response := map_err Http (http_send log (mkHttpRequest method url (Some APPLICATION_OAUTH_AUTHZ_REQ_JWT) form)) in
  if is_error_status (http_status response) then error_of_response response
  else map_err Http (http_body response).
Definition http_send_authorization_response (log : list VpMessage) (url jwe : string)
    : outcome VpMessageClientError (option string) :=
  let* response := map_err Http (http_send log (mkHttpRequest POST url None (Some (VpTokenForm jwe)))) in
  if is_error_status (http_status response) then error_of_response response
  else deserialize_vp_response response.
Definition http_send_error (log : list VpMessage) (url : string) (error : ErrorResponse VpAuthorizationErrorCode)
    : outcome VpMessageClientError (option string) :=
  let* response := map_err Http (http_send log (mkHttpRequest POST url None (Some (ErrorForm error)))) in
  let* _ := guard_err (negb (is_error_status (http_status response))) (Http status_error) in
  deserialize_vp_response response.

Definition HttpVpMessageClient : VpMessageClient := {|
  answer_request := http_get_authorization_request;
  answer_response := http_send_authorization_response;
  answer_error := http_send_error
|}.
End Http.

(** ** Sessions *)
Class WalletUrlLib `{!Ecdsa, !MacLib, !VerifierLib} := {
  (** [serde_urlencoded::from_str] and [Url::query] *)
  request_uri_from_str : string → option VpRequestUriObject;
  request_uri_round_trip o s : request_uri_to_string o = Some s → request_uri_from_str s = Some o;
  url_query : string → option string;
  url_query_set u q : url_query (set_query u q) = Some q
}.

(** What starting a session draws at random. *)
Record StartRandom := mkStartRandom { r_request_nonce : string; r_mdoc_nonce : string }.

Inductive VerifierSessionDataCheckResult (I : Type) :=
  | CheckMissingAttributes (l : list AttributeIdentifier)
  | CheckProposedDocuments (l : list (ProposedDocument I)).
Arguments CheckMissingAttributes {I}.
Arguments CheckProposedDocuments {I}.

Record CommonDisclosureData `{!Josekit} := mkCommonData {
  cd_certificate : Certificate;
  cd_reader_registration : ReaderRegistration;
  cd_auth_request : IsoVpAuthorizationRequest;
  cd_session_type : SessionType
}.
Record DisclosureMissingAttributes `{!Josekit} := mkMissing {
  dm_data : CommonDisclosureData;
  missing_attributes : list AttributeIdentifier
}.
Record DisclosureProposal `{!Josekit} (I : Type) := mkProposal {
  dp_data : CommonDisclosureData;
  proposed_documents : list (ProposedDocument I);
  dp_mdoc_nonce : string
}.
Arguments mkProposal {_ I}.
Arguments dp_data {_ I}.
Arguments proposed_documents {_ I}.
Arguments dp_mdoc_nonce {_ I}.
Inductive DisclosureSession `{!Josekit} (I : Type) :=
  | SessionMissingAttributes (s : DisclosureMissingAttributes)
  | SessionProposal (s : DisclosureProposal I).
Arguments SessionMissingAttributes {_ I}.
Arguments SessionProposal {_ I}.

Section Sessions.
Context {I : Type}.
Context `{!Ecdsa, !X509Lib, !Coset, !Ciborium, !Sha256, !Chrono, !UrlLib, !MacLib, !Base64Std, !Josekit, !ResponseJson}.
Context `{!JwtLib VpAuthorizationRequest, !VerifierLib, !WalletUrlLib, !RegistrationLib, !VpMessageClient}.
Variable show : VpClientError → string.

(** [DisclosureSession::report_error_back] *)
Definition reported (error : VpClientError) : bool :=
  match error with
  | CIncorrectClientId _ _ | CMissingReaderRegistration | CRequestedAttributesValidation _ | CRpCertificate _ => true
  | _ => false
  end.
Definition report_error_back {T} (error : VpClientError) (url : string) : ST (list VpMessage) VpClientError T := λ log,
  if reported error then
    let error_response := mkErrorResponse (AuthorizationError InvalidRequest) (Some (show error)) None in
    match send_error url error_response log with
    | (Panic, log) => (Panic, log)
    | (_, log) => (Err error, log)
    end
  else (Err error, log).

(** [DisclosureSession::process_request] *)
Definition process_request (auth_request : IsoVpAuthorizationRequest) (certificate : Certificate)
    (session_transcript : SessionTranscript) (request_uri_object : VpRequestUriObject) (mdoc_data_source : MdocDataSource I)
    : outcome VpClientError (VerifierSessionDataCheckResult I * ReaderRegistration) :=
  let* _ := guard_err (bool_decide (iso_client_id auth_request = ro_client_id request_uri_object))
              (CIncorrectClientId (ro_client_id request_uri_object) (iso_client_id auth_request)) in
  let* certificate_type := map_err CRpCertificate (type_from_certificate certificate) in
  let* reader_registration := match certificate_type with
                              | ReaderAuthCertificate (Some reader_registration) => Ok reader_registration
                              | _ => Err CMissingReaderRegistration
                              end in
  let* _ := map_err CRequestedAttributesValidation
              (verify_requested_attributes reader_registration (items_requests auth_request)) in
  let* matched := map_err CMatchRequestedAttributes
    (DisclosureRequestMatch_new (items_requests auth_request) mdoc_data_source session_transcript) in
  match matched with
  | MatchMissingAttributes missing_attributes => Ok (CheckMissingAttributes missing_attributes, reader_registration)
  | Candidates candidates_by_doc_type =>
      let many (c : DocType * list (ProposedDocument I)) : bool := bool_decide (1 < length c.2)%nat in
      if existsb many candidates_by_doc_type
      then Err (CMultipleCandidates (filter (λ c, many c = true) candidates_by_doc_type).*1)
      else Ok (CheckProposedDocuments (mjoin candidates_by_doc_type.*2), reader_registration)
  end.

(** [DisclosureSession::start] *)
Definition start (now : Z) (rnd : StartRandom) (request_uri_query : string) (uri_source : DisclosureUriSource)
    (mdoc_data_source : MdocDataSource I) (trust_anchors : list TrustAnchor)
    : ST (list VpMessage) VpClientError (DisclosureSession I) :=
  let! request_uri_object := st_lift (ok_or CRequestUri (request_uri_from_str request_uri_query)) in
  let! query := st_lift (ok_or CMissingSessionType (url_query (ro_request_uri request_uri_object))) in
  let! parameters := st_lift (ok_or CMalformedSessionType (parameters_from_str query)) in
  let session_type := up_session_type parameters in
  let! _ := st_lift (guard_err (bool_decide (source_session_type uri_source = session_type))
                       (CDisclosureUriSourceMismatch session_type uri_source)) in
  let request_nonce := match default GET (request_uri_method request_uri_object) with
                       | GET => None
                       | POST => Some (r_request_nonce rnd)
                       end in
  let! jws := st_map_err CRequest (get_authorization_request (ro_request_uri request_uri_object) request_nonce) in
  let! rc := st_lift (map_err CAuthRequestValidation (VpAuthorizationRequest_verify now jws trust_anchors request_nonce)) in
  let '(auth_request, certificate) := rc in
  let mdoc_nonce := r_mdoc_nonce rnd in
  let! session_transcript := st_lift (never (SessionTranscript_new_oid4vp (iso_response_uri auth_request)
                                               (iso_client_id auth_request) (iso_nonce auth_request) mdoc_nonce)) in
  let! checked :=
    match process_request auth_request certificate session_transcript request_uri_object mdoc_data_source with
    | Err error => report_error_back error (iso_response_uri auth_request)
    | result => st_lift result
    end in
  let '(check_result, reader_registration) := checked in
  let data := mkCommonData _ certificate reader_registration auth_request session_type in
  sret match check_result with
       | CheckMissingAttributes missing_attributes => SessionMissingAttributes (mkMissing _ data missing_attributes)
       | CheckProposedDocuments proposed_documents => SessionProposal (mkProposal data proposed_documents mdoc_nonce)
       end.

(** [DisclosureSession::data], [reader_registration], [verifier_certificate] and [session_type] *)
Definition session_common (s : DisclosureSession I) : CommonDisclosureData :=
  match s with SessionMissingAttributes m => dm_data m | SessionProposal p => dp_data p end.
Definition session_reader_registration (s : DisclosureSession I) : ReaderRegistration := cd_reader_registration (session_common s).
Definition verifier_certificate (s : DisclosureSession I) : Certificate := cd_certificate (session_common s).
Definition session_session_type (s : DisclosureSession I) : SessionType := cd_session_type (session_common s).

(** [DisclosureSession::terminate] *)
Definition session_terminate (s : DisclosureSession I) : ST (list VpMessage) VpClientError unit :=
  let! _ := st_map_err CRequest (client_terminate (iso_response_uri (cd_auth_request (session_common s)))) in
  sret tt.

(** [DisclosureProposal::proposed_source_identifiers] and [proposed_attributes] *)
Definition proposed_source_identifiers (p : DisclosureProposal I) : list I := source_identifier <$> proposed_documents p.
Definition proposal_attributes (p : DisclosureProposal I) : imap DocType ProposedDocumentAttributes :=
  im_collect ((λ d, (pd_doc_type d, proposed_attributes d)) <$> proposed_documents p).

Context `{!KeyFactory}.

(** [DisclosureProposal::disclose]; [random] and [rnd] are the randomness of the
    response and of its encryption. *)
Definition disclose (random rnd : string) (p : DisclosureProposal I)
    : ST (list VpMessage) (DisclosureError VpClientError) (option string) :=
  let auth_request := cd_auth_request (dp_data p) in
  let! device_response := st_lift (map_err (λ e, before_sharing (CDeviceResponse e)) (from_proposed_documents (proposed_documents p))) in
  let! jwe := st_lift (map_err (λ e, before_sharing (CAuthResponseEncryption e))
    (VpAuthorizationResponse_new_encrypted random rnd device_response auth_request (dp_mdoc_nonce p))) in
  st_map_err disclosure_error_of_client (send_authorization_response (iso_response_uri auth_request) jwe).
End Sessions.
