(* ===== verification/DisclosureSessionFacts.v ===== *)
(** * What a wallet tells a verifier

    Which documents the wallet proposes to disclose to whom, what it sends and
    when, and that a verifier that follows the protocol gets exactly what the
    user of the wallet was shown. *)
From stdpp Require Import base gmap strings list option fin_maps sets.
From Stdlib Require Import ZArith Lia.
From S2P Require Import Prelude IndexMap SessionStore SessionStoreFacts Crypto Jose Cbor Cose Engagement Mdoc MdocSigning.
From S2P Require Import MdocFacts DisclosureFacts Holder HolderFacts HolderResponse.
From S2P Require Import Protocol PresentationExchange OpenId4vp Verifier VerifierFacts DisclosureSession.

Section Wallet.
Context {I : Type}.
Context `{!Ecdsa, !X509Lib, !Coset, !Ciborium, !Sha256, !Chrono, !UrlLib, !MacLib, !Base64Std, !Josekit, !ResponseJson}.
Context `{!JwtLib VpAuthorizationRequest, !VerifierLib, !WalletUrlLib, !RegistrationLib, !VpMessageClient}.
Variable show : VpClientError → string.
Implicit Types p : DisclosureProposal I.

(** ** Starting a session *)
Lemma process_request_Ok ar cert t ro (ds : MdocDataSource I) res reg :
  process_request ar cert t ro ds = Ok (res, reg) →
  iso_client_id ar = ro_client_id ro ∧ type_from_certificate cert = Ok (ReaderAuthCertificate (Some reg)) ∧
  verify_requested_attributes reg (items_requests ar) = Ok tt ∧
  match res with
  | CheckMissingAttributes l => DisclosureRequestMatch_new (items_requests ar) ds t = Ok (MatchMissingAttributes l)
  | CheckProposedDocuments pds => ∃ c, DisclosureRequestMatch_new (items_requests ar) ds t = Ok (Candidates c) ∧
      pds = mjoin c.*2 ∧ Forall (λ x, (length x.2 ≤ 1)%nat) c
  end.
Proof.
  unfold process_request. intros Hp. apply bind_Ok in Hp as ([] & Hc & Hp). apply guard_err_Ok in Hc. zbool.
  apply bind_Ok in Hp as (ct & Hct & Hp). apply map_err_Ok in Hct.
  apply bind_Ok in Hp as (reg' & Hreg & Hp). destruct ct as [|[reg''|]]; try done. injection Hreg as ->.
  apply bind_Ok in Hp as ([] & Hver & Hp). apply map_err_Ok in Hver. apply bind_Ok in Hp as (m & Hm & Hp). apply map_err_Ok in Hm.
  destruct m as [c|l]; [|injection Hp as <- <-; by split_and!].
  destruct (existsb _ c) eqn:E; [done|]. injection Hp as <- <-. split_and!; try done. exists c. split_and!; try done.
  apply Forall_forall. intros x Hx. destruct (decide (1 < length x.2)%nat) as [Hlt|]; [|lia].
  exfalso. assert (existsb (λ c : DocType * list (ProposedDocument I), bool_decide (1 < length c.2)%nat) c = true) as Ht; [|congruence].
  apply existsb_exists. exists x. split; [by apply list_elem_of_In|]. by apply bool_decide_eq_true.
Qed.

Lemma verify_requested_attributes_Ok reg requests u : verify_requested_attributes reg requests = Ok u →
  attribute_identifiers requests ⊆ attribute_identifiers reg.
Proof.
  unfold verify_requested_attributes. intros Hv. apply guard_err_Ok in Hv. zbool. intros a Ha.
  destruct (decide (a ∈ attribute_identifiers reg)) as [|Hn]; [done|].
  assert (a ∈ MdocSigning.difference requests reg) as Hd; [|rewrite Hv in Hd; by apply elem_of_nil in Hd].
  apply IndexSet_elem, list_elem_of_filter. done.
Qed.

(** The request nonce of a session. *)
Definition request_nonce (rnd : StartRandom) (ro : VpRequestUriObject) : option string :=
  match default GET (request_uri_method ro) with GET => None | POST => Some (r_request_nonce rnd) end.

(** A session that was started: all that it checked, and the one message it sent. *)
Record started (now : Z) (rnd : StartRandom) (src : DisclosureUriSource) (ds : MdocDataSource I) (anchors : list TrustAnchor)
    (ro : VpRequestUriObject) (jws : string) (t : SessionTranscript) (d : CommonDisclosureData)
    (res : VerifierSessionDataCheckResult I) : Prop := {
  st_source : source_session_type src = cd_session_type d;
  st_verified : VpAuthorizationRequest_verify now jws anchors (request_nonce rnd ro) = Ok (cd_auth_request d, cd_certificate d);
  st_transcript : SessionTranscript_new_oid4vp (iso_response_uri (cd_auth_request d)) (iso_client_id (cd_auth_request d))
                    (iso_nonce (cd_auth_request d)) (r_mdoc_nonce rnd) = Ok t;
  st_processed : process_request (cd_auth_request d) (cd_certificate d) t ro ds = Ok (res, cd_reader_registration d)
}.

Lemma start_Ok now rnd q src ds anchors log sess log' :
  start show now rnd q src ds anchors log = (Ok sess, log') →
  ∃ ro jws t d res, request_uri_from_str q = Some ro ∧ answer_request log (ro_request_uri ro) (request_nonce rnd ro) = Ok jws ∧
    log' = log ++ [GetAuthorizationRequest (ro_request_uri ro) (request_nonce rnd ro)] ∧
    started now rnd src ds anchors ro jws t d res ∧
    sess = match res with
           | CheckMissingAttributes l => SessionMissingAttributes (mkMissing _ d l)
           | CheckProposedDocuments pds => SessionProposal (mkProposal d pds (r_mdoc_nonce rnd))
           end.
Proof.
  unfold start. unfold sbind at 1, st_lift at 1. destruct (request_uri_from_str q) as [ro|]; simpl; [|done].
  unfold sbind at 1, st_lift at 1. destruct (url_query _) as [uq|]; simpl; [|done].
  unfold sbind at 1, st_lift at 1. destruct (parameters_from_str uq) as [params|]; simpl; [|done].
  unfold sbind at 1, st_lift at 1. case_bool_decide as Hsrc; simpl; [|done].
  fold (request_nonce rnd ro). unfold sbind at 1, st_map_err at 1, get_authorization_request at 1.
  destruct (answer_request _ _ _) as [jws|e|] eqn:A; simpl; [|done..].
  unfold sbind at 1, st_lift at 1. destruct (VpAuthorizationRequest_verify _ _ _ _) as [[ar cert]|e|] eqn:V; simpl; [|done..].
  unfold sbind at 1, st_lift at 1. destruct (SessionTranscript_new_oid4vp _ _ _ _) as [t|[]|] eqn:T; simpl; [|done].
  unfold sbind at 1. destruct (process_request ar cert t ro ds) as [[res reg]|e|] eqn:P; simpl.
  - intros [= <- <-]. exists ro, jws, t, (mkCommonData _ cert reg ar (up_session_type params)), res. split_and!; try done.
  - unfold report_error_back. destruct (reported e); [|done]. unfold send_error. by destruct (answer_error _ _ _).
  - done.
Qed.

(** ** What is proposed *)
Lemma candidates_proposed requests t (ds : MdocDataSource I) c pd :
  DisclosureRequestMatch_new requests ds t = Ok (Candidates c) → pd ∈ mjoin c.*2 →
  ∃ groups dt ch s, ds (requested_types requests) = Some groups ∧ device_authentication_bytes dt t = Ok ch ∧
    s ∈ mjoin groups ∧ stored_type s = dt ∧ requested_of requests dt ⊆ stored_identifiers s ∧
    proposed_from (requested_of requests dt) ch s pd.
Proof.
  intros Hm Hpd. apply candidates_spec in Hm as (groups & Hg & _ & _ & Hc). apply list_elem_of_join in Hpd as (k & Hpd & Hk).
  apply list_elem_of_fmap in Hk as ([dt k'] & -> & Hin). destruct (Hc _ _ Hin) as (_ & ch & Hch & Hf).
  destruct (Forall2_elem_l _ _ _ _ (proj2 (Forall2_flip _ _ _) Hf) Hpd) as (s & Hs & Hfrom).
  apply list_elem_of_filter in Hs as [[Ht Hsub] Hs]. by exists groups, dt, ch, s.
Qed.

(** An attribute of a proposed document is requested, and comes from the mdoc
    with the signature of its issuer. *)
Lemma proposed_item requests dt ch s (pd : ProposedDocument I) nss n items item :
  proposed_from (requested_of requests dt) ch s pd → name_spaces (pd_issuer_signed pd) = Some nss → (n, items) ∈ nss → item ∈ items →
  mkAttributeIdentifier (pd_doc_type pd) n (element_identifier (untag item)) ∈ attribute_identifiers requests ∧
  sm_id s = source_identifier pd ∧ m_doc_type (sm_mdoc s) = pd_doc_type pd ∧
  issuer_auth (pd_issuer_signed pd) = issuer_auth (m_issuer_signed (sm_mdoc s)) ∧
  ∃ nss' all, name_spaces (m_issuer_signed (sm_mdoc s)) = Some nss' ∧ (n, all) ∈ nss' ∧ item ∈ all.
Proof.
  intros Hfrom Hnss Hn Hi. rewrite (pf_name_spaces _ _ _ _ Hfrom) in Hnss.
  apply fmap_Some in Hnss as (nss' & Hnss' & ->). apply requested_name_spaces_elem in Hn as (all & Hall & _ & ->).
  apply list_elem_of_filter in Hi as [Hid Hi]. rewrite <-(pf_type _ _ _ _ Hfrom) in Hid. apply list_elem_of_filter in Hid as [_ Hid].
  split_and!; [done|symmetry; by apply (pf_id _ _ _ _ Hfrom)|symmetry; by apply (pf_type _ _ _ _ Hfrom)|by apply (pf_auth _ _ _ _ Hfrom)|].
  by exists nss', all.
Qed.

(** C8. A wallet offers to disclose only what the verifier is registered for: when
    starting a session leads to a proposal, the request was signed for a
    certificate that chains to a trust anchor, whose DNS name is the client
    identifier in the link; every attribute of every proposed document is
    requested and is among those that the registration in that certificate
    allows; it comes, with the issuer's signature, from an mdoc in the wallet;
    and nothing has been sent but the request for the request. *)
Theorem proposal_within_registration now rnd q src ds anchors log p log'
    (Hstart : start show now rnd q src ds anchors log = (Ok (SessionProposal p), log')) :
  let ar := cd_auth_request (dp_data p) in let cert := cd_certificate (dp_data p) in
  let reg := cd_reader_registration (dp_data p) in
  ∃ ro intermediates groups, request_uri_from_str q = Some ro ∧ ro_client_id ro = iso_client_id ar ∧
    Certificate_verify cert ReaderAuthUsage intermediates now anchors = Ok tt ∧
    san_dns_name cert = Ok (Some (iso_client_id ar)) ∧ type_from_certificate cert = Ok (ReaderAuthCertificate (Some reg)) ∧
    source_session_type src = cd_session_type (dp_data p) ∧
    log' = log ++ [GetAuthorizationRequest (ro_request_uri ro) (request_nonce rnd ro)] ∧
    ds (requested_types (items_requests ar)) = Some groups ∧
    ∀ pd nss n items item, pd ∈ proposed_documents p → name_spaces (pd_issuer_signed pd) = Some nss → (n, items) ∈ nss → item ∈ items →
      let id := mkAttributeIdentifier (pd_doc_type pd) n (element_identifier (untag item)) in
      id ∈ attribute_identifiers (items_requests ar) ∧ id ∈ attribute_identifiers reg ∧
      ∃ s nss' all, s ∈ mjoin groups ∧ sm_id s = source_identifier pd ∧ m_doc_type (sm_mdoc s) = pd_doc_type pd ∧
        name_spaces (m_issuer_signed (sm_mdoc s)) = Some nss' ∧ (n, all) ∈ nss' ∧ item ∈ all ∧
        issuer_auth (pd_issuer_signed pd) = issuer_auth (m_issuer_signed (sm_mdoc s)).
Proof.
  apply start_Ok in Hstart as (ro & jws & t & d & res & Hro & _ & Hlog & Hst & Hs). destruct res as [|pds]; [done|].
  injection Hs as ->. simpl. destruct Hst as [Hsrc Hver _ Hproc].
  pose proof (process_request_Ok _ _ _ _ _ _ _ Hproc) as (Hcid & Hct & Hreg & c & Hm & Hpds & _).
  apply verify_requested_attributes_Ok in Hreg. pose proof Hm as Hm'. apply candidates_spec in Hm' as (groups & Hg & _).
  apply verify_request_Ok in Hver as (req & Hj & Hsan & _ & Hiso). apply x5c_verify_Ok in Hj as (ints & k & h & Hc & _).
  apply iso_of_vp_request_Ok in Hiso as (Hci & _). rewrite <-Hci in Hsan.
  exists ro, ints, groups. split_and!; try done. intros pd nss n items item Hpd Hnss Hn Hi. rewrite Hpds in Hpd.
  destruct (candidates_proposed _ _ _ _ _ Hm Hpd) as (groups' & dt & ch & s & Hg' & _ & Hs & Ht & _ & Hfrom).
  rewrite Hg in Hg'. injection Hg' as <-.
  destruct (proposed_item _ _ _ _ _ _ _ _ _ Hfrom Hnss Hn Hi) as (Hid & Hsm & Hty & Hau & nss' & all & Hnss' & Hall & Hitem).
  split_and!; [done|by apply Hreg|]. by exists s, nss', all.
Qed.

(** ** What is sent *)
Context `{!KeyFactory}.

Lemma sign_multiple_issuer_signed (pds : list (ProposedDocument I)) docs : proposed_sign_multiple pds = Ok docs →
  Forall2 (λ pd d, doc_type d = pd_doc_type pd ∧ issuer_signed d = pd_issuer_signed pd) (take (length docs) pds) docs.
Proof.
  unfold proposed_sign_multiple. intros Hs. apply bind_Ok in Hs as (kcs & _ & Hs). apply bind_Ok in Hs as (ds & _ & [= <-]).
  revert ds. induction pds as [|pd pds IH]; intros [|x ds]; csimpl; try constructor; [done|apply IH].
Qed.

(** C25. Disclosing sends at most one message, the response for the session: it goes
    to the response address of the request that was verified, is encrypted to
    the key in that request, and holds only proposed documents with their
    proposed attributes.  An error that says that no data was shared is one
    before that message, or a failure to connect. *)
Theorem disclose_reports_sharing random rnd p log r log'
    (Hdisclose : disclose random rnd p log = (r, log')) :
  let ar := cd_auth_request (dp_data p) in
  (log' = log ∧ is_ok r = false ∧ ∀ e, r = Err e → data_shared e = false) ∨
  ∃ docs jwe payload, log' = log ++ [SendAuthorizationResponse (iso_response_uri ar) jwe] ∧
    VpAuthorizationResponse_new (E:=AuthResponseError) random (mkDeviceResponse (Some docs) None 0) ar = Ok payload ∧
    VpAuthorizationResponse_encrypt rnd payload ar (dp_mdoc_nonce p) = Ok jwe ∧
    Forall2 (λ pd d, doc_type d = pd_doc_type pd ∧ issuer_signed d = pd_issuer_signed pd) (take (length docs) (proposed_documents p)) docs ∧
    ∀ e, r = Err e → data_shared e = false →
      ∃ err, answer_response log (iso_response_uri ar) jwe = Err (Http err) ∧ is_connect err = true.
Proof.
  simpl. unfold disclose in Hdisclose. unfold sbind at 1, st_lift at 1 in Hdisclose.
  destruct (from_proposed_documents (proposed_documents p)) as [dr|e|] eqn:D; simpl in Hdisclose;
    [|injection Hdisclose as <- <-; left; split_and!; try done; by intros ? [= <-]
     |injection Hdisclose as <- <-; by left].
  unfold sbind at 1, st_lift at 1 in Hdisclose.
  destruct (VpAuthorizationResponse_new_encrypted _ _ _ _ _) as [jwe|e|] eqn:N; simpl in Hdisclose;
    [|injection Hdisclose as <- <-; left; split_and!; try done; by intros ? [= <-]
     |injection Hdisclose as <- <-; by left].
  right. unfold st_map_err, send_authorization_response in Hdisclose. injection Hdisclose as <- <-.
  unfold from_proposed_documents in D. apply bind_Ok in D as (docs & Hdocs & [= <-]).
  apply bind_Ok in N as (payload & Hpay & Henc). exists docs, jwe, payload. split_and!; try done; [by apply sign_multiple_issuer_signed|].
  intros e He Hns. apply map_err_Err in He as (err & Ha & ->). destruct err as [re| |]; try done.
  exists re. split; [done|]. simpl in Hns. by apply negb_false_iff in Hns.
Qed.
End Wallet.

(** ** A wallet and a verifier *)
Section EndToEnd.
Context {I : Type}.
Context `{!Ecdsa, !X509Lib, !Coset, !Ciborium, !Sha256, !Chrono, !UrlLib, !MacLib, !Base64Std, !Josekit, !ResponseJson}.
Context `{!JwtLib VpAuthorizationRequest, !VerifierLib, !WalletUrlLib, !RegistrationLib, !VpMessageClient, !KeyFactory, !KeyFactoryLaws}.
Context {S : Type} `{!SessionStore DisclosureData S, !SessionStoreSpec DisclosureData S}.

(** *** The link *)
Lemma format_ul_query base ruri t id st cid ul :
  format_ul base ruri t id st cid = Ok ul →
  ∃ q wq, parameters_to_string (mkUrlParameters st id t) = Some q ∧ url_query ul = Some wq ∧
    request_uri_from_str wq = Some (mkRequestUriObject (set_query ruri q) (Some POST) cid).
Proof.
  unfold format_ul, base_url. intros Hf. apply bind_Ok in Hf as (q & Hq & Hf). apply ok_or_Ok in Hq.
  apply bind_Ok in Hf as (ru & Hru & Hf). apply bind_Ok in Hru as ([] & _ & [= <-]).
  apply bind_Ok in Hf as (wq & Hwq & Hf). apply ok_or_Ok in Hwq. apply bind_Ok in Hf as ([] & _ & [= <-]).
  exists q, wq. split_and!; [done|apply url_query_set|by apply request_uri_round_trip].
Qed.

(** *** The wallet *)
Section Holder.
Context (requests : list ItemsRequest) (ds : MdocDataSource I) (t : SessionTranscript) (groups : list (list (StoredMdoc I))).
Hypothesis H_source : ds (requested_types requests) = Some groups.
Hypothesis H_contract : groups_ok (requested_types requests) groups.
Hypothesis H_stored : Forall stored_ok (mjoin groups).
Hypothesis H_challenge : ∀ dt, dt ∈ requested_types requests → is_ok (device_authentication_bytes dt t) = true.
Hypothesis H_requested : Forall (λ s, requested_of requests (stored_type s) ≠ []) (mjoin groups).
Hypothesis H_unique : ∀ dt, requested_of requests dt ≠ [] → length (satisfying requests (mjoin groups) dt) = 1%nat.

Lemma single_candidates : ∃ c, DisclosureRequestMatch_new requests ds t = Ok (Candidates c) ∧
  Forall (λ x, length x.2 = 1%nat) c.
Proof.
  destruct (match_total requests ds t groups H_source H_contract H_stored H_challenge H_requested) as [[c|l] Hm].
  - exists c. split; [done|]. apply candidates_spec in Hm as (groups' & Hg & _ & Hk & Hc). rewrite H_source in Hg. injection Hg as <-.
    apply Forall_forall. intros [dt pds] Hin. destruct (Hc _ _ Hin) as (_ & ch & _ & Hf). apply Forall2_length in Hf. simpl.
    rewrite <-Hf. apply H_unique, Hk, list_elem_of_fmap. by exists (dt, pds).
  - apply missing_spec in Hm as (groups' & Hg & (dt & Hr & Hns) & _). rewrite H_source in Hg. injection Hg as <-.
    destruct Hns. apply satisfied_iff. intros Hnil. pose proof (H_unique dt Hr) as Hl. by rewrite Hnil in Hl.
Qed.

(** The proposed documents: one for each type of which something is requested. *)
Lemma single_proposals c : DisclosureRequestMatch_new requests ds t = Ok (Candidates c) → Forall (λ x, length x.2 = 1%nat) c →
  let pds := mjoin c.*2 in
  NoDup (pd_doc_type <$> pds) ∧ Forall (λ pd, ∃ ch s, s ∈ mjoin groups ∧ device_authentication_bytes (stored_type s) t = Ok ch ∧
    requested_of requests (stored_type s) ⊆ stored_identifiers s ∧ proposed_from (requested_of requests (stored_type s)) ch s pd) pds ∧
  ∀ r, r ∈ requests → attribute_identifiers r ≠ [] → ∃ pd ch s, pd ∈ pds ∧ stored_ok s ∧ stored_type s = req_doc_type r ∧
    proposed_from (requested_of requests (req_doc_type r)) ch s pd ∧
    requested_of requests (req_doc_type r) ⊆ stored_identifiers s.
Proof.
  intros Hm Hone pds. apply candidates_spec in Hm as (groups' & Hg & Hd & Hk & Hc). rewrite H_source in Hg. injection Hg as <-.
  assert (∀ dt k, (dt, k) ∈ c → Forall (λ pd, ∃ ch s, s ∈ mjoin groups ∧ stored_type s = dt ∧
    device_authentication_bytes (stored_type s) t = Ok ch ∧ requested_of requests (stored_type s) ⊆ stored_identifiers s ∧
    proposed_from (requested_of requests (stored_type s)) ch s pd) k) as Hfrom.
  { intros dt k Hin. destruct (Hc _ _ Hin) as (_ & ch & Hch & Hf). apply Forall_forall. intros pd Hpd.
    destruct (Forall2_elem_l _ _ _ _ (proj2 (Forall2_flip _ _ _) Hf) Hpd) as (s & Hs & Hp).
    apply list_elem_of_filter in Hs as [[<- Hsub] Hs]. by exists ch, s. }
  split_and!.
  - assert (pd_doc_type <$> pds = c.*1) as ->; [|done]. unfold pds. clear -Hone Hfrom.
    induction Hone as [|[dt k] c Hl _ IH]; [done|]. csimpl. destruct k as [|pd [|]]; try done. csimpl. f_equal.
    + pose proof (Hfrom dt [pd] ltac:(left)) as Hf. apply Forall_singleton in Hf as (ch & s & _ & Ht & _ & _ & Hp).
      by rewrite (pf_type _ _ _ _ Hp).
    + apply IH. intros dt' k' Hin. apply Hfrom. by right.
  - unfold pds. apply Forall_forall. intros pd (k & Hpd & Hin)%list_elem_of_join.
    apply list_elem_of_fmap in Hin as ([dt k'] & -> & Hin). pose proof (Hfrom _ _ Hin) as Hf. rewrite Forall_forall in Hf.
    destruct (Hf _ Hpd) as (ch & s & ? & _ & ? & ? & ?). by exists ch, s.
  - intros r Hr Hne. assert (requested_of requests (req_doc_type r) ≠ []) as Hrq.
    { destruct (attribute_identifiers r) as [|a k] eqn:Ea; [done|]. intros Hn.
      assert (a ∈ requested_of requests (req_doc_type r)) as Ha; [|rewrite Hn in Ha; by apply elem_of_nil in Ha].
      apply requested_of_elem. exists r. rewrite Ea. split_and!; try done. left. }
    apply Hk, list_elem_of_fmap in Hrq as ([dt k] & Hdt & Hin). simpl in Hdt. rewrite Hdt.
    rewrite Forall_forall in Hone. pose proof (Hone _ Hin) as Hl. destruct k as [|pd [|]]; try done.
    pose proof (Hfrom _ _ Hin) as Hf. apply Forall_singleton in Hf as (ch & s & Hs & Ht & _ & Hsub & Hp). rewrite Ht in Hsub, Hp.
    exists pd, ch, s. split_and!; try done; [|rewrite Forall_forall in H_stored; by apply H_stored].
    unfold pds. apply list_elem_of_join. exists [pd]. split; [left|]. apply list_elem_of_fmap. by exists (dt, [pd]).
Qed.
End Holder.

(** *** Both *)
Lemma requested_fields_identifiers r : attribute_identifiers (requested_fields r) = attribute_identifiers r.
Proof.
  unfold attribute_identifiers, items_request_holder. f_equal. simpl. generalize (req_doc_type r). intros dt.
  induction (req_name_spaces r) as [|[n attrs] m IH]; [done|]. destruct attrs as [|a attrs].
  - rewrite filter_cons_False by naive_solver. csimpl. exact IH.
  - rewrite filter_cons_True by done. csimpl. by rewrite IH.
Qed.

Lemma match_requested_fields rs dr : match_against_response (requested_fields <$> rs) dr = match_against_response rs dr.
Proof.
  unfold match_against_response. rewrite <-list_fmap_compose. repeat f_equal.
  rewrite (list_fmap_ext _ (λ r, match docs ← documents dr; snd <$> list_find (λ d, doc_type d = req_doc_type r) docs with
    | None => attribute_identifiers r | Some d => match_against_issuer_signed r d end)); [done|].
  intros i r _. simpl. unfold match_against_issuer_signed. by rewrite requested_fields_identifiers.
Qed.

Lemma start_proposes show now rnd q src (ds : MdocDataSource I) anchors log ro uq params jws ar cert t reg pds :
  request_uri_from_str q = Some ro → url_query (ro_request_uri ro) = Some uq → parameters_from_str uq = Some params →
  source_session_type src = up_session_type params → answer_request log (ro_request_uri ro) (request_nonce rnd ro) = Ok jws →
  VpAuthorizationRequest_verify now jws anchors (request_nonce rnd ro) = Ok (ar, cert) →
  SessionTranscript_new_oid4vp (iso_response_uri ar) (iso_client_id ar) (iso_nonce ar) (r_mdoc_nonce rnd) = Ok t →
  process_request ar cert t ro ds = Ok (CheckProposedDocuments pds, reg) →
  start show now rnd q src ds anchors log =
    (Ok (SessionProposal (mkProposal (mkCommonData _ cert reg ar (up_session_type params)) pds (r_mdoc_nonce rnd))),
     log ++ [GetAuthorizationRequest (ro_request_uri ro) (request_nonce rnd ro)]).
Proof.
  intros Hro Huq Hp Hsrc Ha Hv Ht Hpr. unfold start, sbind, st_lift, st_map_err, get_authorization_request. rewrite Hro. simpl.
  rewrite Huq. simpl. rewrite Hp. simpl. rewrite bool_decide_eq_true_2 by done. simpl. fold (request_nonce rnd ro). rewrite Ha. simpl.
  rewrite Hv. simpl. rewrite Ht. simpl. by rewrite Hpr.
Qed.

Lemma process_request_proposes ar cert t ro (ds : MdocDataSource I) reg c :
  iso_client_id ar = ro_client_id ro → type_from_certificate cert = Ok (ReaderAuthCertificate (Some reg)) →
  verify_requested_attributes reg (items_requests ar) = Ok tt →
  DisclosureRequestMatch_new (items_requests ar) ds t = Ok (Candidates c) → Forall (λ x, length x.2 = 1%nat) c →
  process_request ar cert t ro ds = Ok (CheckProposedDocuments (mjoin c.*2), reg).
Proof.
  intros Hc Ht Hv Hm Hone. unfold process_request. rewrite bool_decide_eq_true_2 by done. simpl. rewrite Ht. simpl. rewrite Hv. simpl.
  rewrite Hm. simpl. destruct (existsb _ c) eqn:E; [|done]. apply existsb_exists in E as (x & Hx%list_elem_of_In & Hb). zbool.
  rewrite Forall_forall in Hone. pose proof (Hone _ Hx). lia.
Qed.

Section Run.
Variable show_get : GetAuthRequestError → string.
Variable show_post : AuthResponseError → string.
Variable show_user : ErrorResponse VpAuthorizationErrorCode → string.
Variable show : VpClientError → string.
Variable v : Verifier.
(** The verifier: a session that was created, and what its next request draws. *)
Context (s : S) (tok : SessionToken) (c : Created) (la : Z) (u : UseCase) (st : SessionType) (base ruri ul uri : string) (t now : Z).
Context (rnd : GetRandom) (kp : EcKeyPair) (ru : option RedirectUri) (ar : IsoVpAuthorizationRequest) (jws : string).
(** The wallet: its link, its contents and its trust anchors. *)
Context (wq : string) (wnow : Z) (wrnd : StartRandom) (src : DisclosureUriSource) (log : list VpMessage) (wanchors : list TrustAnchor).
Context (reg : ReaderRegistration) (ds : MdocDataSource I) (groups : list (list (StoredMdoc I))) (tr : SessionTranscript) (time : Z).
Let requests := requested_fields <$> cr_items_requests c.
Let iso := with_requests ar requests.

(** C28. A disclosure from end to end: a verifier with a created session and a
    wallet that opens its link, both following the protocol.  When the wallet
    trusts the verifier's certificate, the certificate registers the requested
    attributes, the wallet has exactly one suitable mdoc of each requested type,
    each acceptable to the verifier and with its key, then the wallet makes a
    proposal; it can sign it; and when the user agrees, the single message that
    is sent makes the verifier finish the session with, document by document,
    exactly the attributes that the wallet proposed to the user. *)
Theorem wallet_disclosure_accepted
    (Hcreated : view s !! tok = Some (mkSessionState (DCreated c) tok la)) (Husecase : use_cases v !! cr_usecase_id c = Some u)
    (Hul : format_ul base ruri t (generate_ephemeral_id v tok t) st (cr_client_id c) = Ok ul)
    (Hfresh : now - t ≤ seconds 10)
    (Hredirect : redirect_uri_and_nonce rnd tok (session_type_return_url u) st (cr_redirect_uri_template c) = Ok ru)
    (Hkp : g_keypair rnd = Some kp)
    (Har : IsoVpAuthorizationRequest_new (g_definition_id rnd) (cr_items_requests c) (certificate (key_pair u)) (g_nonce rnd)
       (to_jwk_public_key kp) uri (Some (r_request_nonce wrnd)) = Ok ar)
    (Hclient : cr_client_id c = iso_client_id ar)
    (Hsign : sign_with_certificate (vp_request_of_iso ar) (key_pair u) = Ok jws)
    (Hwf : Forall request_wf (cr_items_requests c)) (Hnames : forallb names_unquoted (cr_items_requests c) = true)
    (Hsome : Exists (λ r, request_fields r ≠ []) (cr_items_requests c))
    (Hcert : Certificate_verify (certificate (key_pair u)) ReaderAuthUsage [] wnow wanchors = Ok tt)
    (Hkey : Certificate_public_key (certificate (key_pair u)) = Ok (verifying_key (private_key (key_pair u))))
    (Hclaims : claims_valid wnow (x5c_validation [audience_name SelfIssued]) (vp_request_of_iso ar) = true)
    (Hutf : utf8_valid (g_nonce rnd) = true ∧ utf8_valid (r_mdoc_nonce wrnd) = true)
    (Hlink : url_query ul = Some wq) (Hsource : source_session_type src = st)
    (Hanswer : ∀ q, parameters_to_string (mkUrlParameters st (generate_ephemeral_id v tok t) t) = Some q →
       answer_request log (set_query ruri q) (Some (r_request_nonce wrnd)) = Ok jws)
    (Htype : type_from_certificate (certificate (key_pair u)) = Ok (ReaderAuthCertificate (Some reg)))
    (Hregistered : verify_requested_attributes reg requests = Ok tt)
    (Htranscript : SessionTranscript_new_oid4vp uri (iso_client_id ar) (g_nonce rnd) (r_mdoc_nonce wrnd) = Ok tr)
    (Hserialized : is_ok (tagged_serialize (session_transcript_serialize tr)) = true)
    (Hchallenge : ∀ dt, dt ∈ requested_types requests → is_ok (device_authentication_bytes dt tr) = true)
    (Hds : ds (requested_types requests) = Some groups) (Hcontract : groups_ok (requested_types requests) groups)
    (Hstored : Forall stored_ok (mjoin groups))
    (Hasked : Forall (λ s, requested_of requests (stored_type s) ≠ []) (mjoin groups))
    (Hunique : ∀ dt, requested_of requests dt ≠ [] → length (satisfying requests (mjoin groups) dt) = 1%nat)
    (Hacceptable : Forall (acceptable time (v_trust_anchors v)) (mjoin groups))
    (Hsigns : ∀ l, is_Some (sign_multiple_with_existing_keys l)) :
  ∃ p log1 dr s1, start show wnow wrnd wq src ds wanchors log = (Ok (SessionProposal p), log1) ∧
    process_get_request show_get now rnd v tok uri (parameters_to_string (mkUrlParameters st (generate_ephemeral_id v tok t) t))
      (Some (r_request_nonce wrnd)) s = (Ok jws, s1) ∧
    from_proposed_documents (proposed_documents p) = Ok dr ∧
    ∀ random rnd2 jwe, VpAuthorizationResponse_new_encrypted random rnd2 dr (cd_auth_request (dp_data p)) (dp_mdoc_nonce p) = Ok jwe →
      (disclose random rnd2 p log1).2 = log1 ++ [SendAuthorizationResponse uri jwe] ∧
      ∃ s2 attrs, process_authorization_response show_post show_user now v tok (WalletResponse (mkVpToken jwe)) time s1
          = (Ok (mkVpRedirect (uri_from_option ru)), s2) ∧
        verifier_disclosed_attributes tok (ru_nonce <$> ru) s2 = (Ok attrs, s2) ∧
        (λ x, (x.1, disclosed_attributes x.2)) <$> attrs = (λ x, (x.1, pa_attributes x.2)) <$> proposal_attributes p.
Proof.
  destruct (format_ul_query _ _ _ _ _ _ _ Hul) as (q & wq' & Hq & Hwq & Hro). rewrite Hlink in Hwq. injection Hwq as <-.
  destruct (get_request_succeeds show_get v s tok c la st t q now rnd uri (Some (r_request_nonce wrnd)) u kp ru ar jws)
    as (s1 & Hget & Hv1); [done..|].
  pose proof (wallet_accepts _ _ u _ _ kp _ ar jws Har Hsign wnow wanchors Hwf Hnames Hsome Hcert Hkey Hclaims) as Hacc.
  destruct (single_candidates requests ds tr groups) as (cs & Hm & Hone); [done..|].
  destruct (single_proposals requests ds tr groups Hds Hstored cs Hm Hone) as (Hd & Hfrom & Hall).
  apply iso_request_new_Ok in Har as (Hek & Hno & Huri & Hrs). rewrite <-Hno in Htranscript. rewrite <-Huri in Htranscript.
  pose proof (process_request_proposes iso (certificate (key_pair u)) tr
    (mkRequestUriObject (set_query ruri q) (Some POST) (cr_client_id c)) ds reg cs (eq_sym Hclient) Htype Hregistered Hm Hone) as Hproc.
  pose proof (start_proposes show wnow wrnd wq src ds wanchors log _ q _ jws iso _ tr reg _ Hro (url_query_set _ _)
    (parameters_round_trip _ _ Hq) Hsource (Hanswer _ Hq) Hacc Htranscript Hproc) as Hstart.
  assert (Forall (good_proposal tr time (v_trust_anchors v)) (mjoin cs.*2)) as Hgood.
  { eapply Forall_impl; [exact Hfrom|]. intros pd (ch & s' & Hs' & Hch & _ & Hp). eexists _, ch, s'. split_and!; try done.
    rewrite Forall_forall in Hacceptable. by apply Hacceptable. }
  destruct (proposals_signed _ _ _ _ Hgood Hsigns) as [dr Hdr].
  eexists _, _, dr, s1. split; [exact Hstart|]. split; [by rewrite Hq|]. split; [exact Hdr|]. simpl.
  intros random rnd2 jwe Hjwe. split.
  - unfold disclose, sbind, st_lift, st_map_err, send_authorization_response. simpl. rewrite Hdr. simpl. rewrite Hjwe. simpl. by rewrite Huri.
  - rewrite <-Hno in Hutf. destruct Hutf as [Hutf1 Hutf2].
    destruct (wallet_response_decrypts _ _ _ ar iso _ _ kp Hjwe Hek eq_refl Hutf1 Hutf2) as (r & Hr & Hdec).
    destruct (response_verifies _ _ tr time (v_trust_anchors v) None Hgood Hd Hserialized Hdr) as (attrs & Hver & Hdis).
    pose proof (response_matches requests _ dr Hall Hd Hdr) as Hmatch. unfold requests in Hmatch. rewrite match_requested_fields, <-Hrs in Hmatch.
    pose proof (wallet_response_verifies v _ _ ar _ _ _ tr time attrs Hr eq_refl eq_refl Htranscript Hver Hmatch) as Hvr.
    destruct (post_response_succeeds show_post show_user v s1 tok (mkWaiting _ ar kp ru) now now jwe r (r_mdoc_nonce wrnd) time attrs)
      as (s2 & Hpost & Hv2); [by rewrite Hv1, lookup_insert_eq|done..|].
    exists s2, attrs. split; [exact Hpost|]. split.
    + unfold verifier_disclosed_attributes, sbind, st_map_err. rewrite get_session_state_eq, Hv2, lookup_insert_eq. simpl.
      destruct ru as [[uri' n]|]; simpl; [by rewrite decide_True|done].
    + by apply disclosed_as_proposed.
Qed.
End Run.
End EndToEnd.
