(* ===== verification/IsoMessages.v ===== *)
(** * Messages of a disclosure according to ISO 18013-5

    Models [mdoc/src/iso/device_retrieval.rs] (what a verifier asks for, with its
    reader authentication), the messages of [mdoc/src/iso/disclosure.rs], the
    session encryption of [mdoc/src/utils/crypto.rs], the engagements of
    [mdoc/src/holder/disclosure/engagement.rs] and [mdoc/src/verifier.rs], and the
    verification of a request in [mdoc/src/holder/disclosure/request.rs].

    AES-GCM and the public key of a secret key are parameters. *)
From stdpp Require Import base gmap strings list option.
From Stdlib Require Import ZArith Lia Ascii.
From S2P Require Import Prelude IndexMap Crypto Cbor Cose Engagement Mdoc MdocSigning CoseEquiv ResponseCbor Holder.

(** ** Parameters *)
Class IsoLib `{!Ecdsa, !MacLib} := {
  (** [SecretKey::public_key]: both sides of a key exchange get the same secret. *)
  secret_public_key : SecretKey → VerifyingKey;
  diffie_hellman_comm a b : diffie_hellman a (secret_public_key b) = diffie_hellman b (secret_public_key a);
  (** HKDF gives as many bytes as it was asked for. *)
  hkdf_length ikm salt info len bts : hkdf ikm salt info len = Some bts → Z.of_nat (String.length bts) = len;
  (** [aes_gcm]: key, nonce and text *)
  aes_encrypt : string → string → string → option string;
  aes_decrypt : string → string → string → option string;
  aes_decrypt_encrypt key nonce data c : aes_encrypt key nonce data = Some c → aes_decrypt key nonce c = Some data
}.

(** ** Requests *)
Section Requests.
Context `{!Ecdsa, !X509Lib, !Coset, !Ciborium, !Sha256, !Chrono, !UrlLib, !MacLib, !IsoLib, !CoseSerde}.

(** [ItemsRequest] *)
Definition bool_serialize (b : bool) : option Value := Some (VBool b).
Definition bool_deserialize (v : Value) : option bool := match v with VBool b => Some b | _ => None end.
Definition data_elements_value : imap DataElementIdentifier bool → option Value := serialize_map serialized bool_serialize.
Definition data_elements_of_value : Value → option (imap DataElementIdentifier bool) := deserialize_map deserialized bool_deserialize.
Definition items_request_serialize (r : ItemsRequest) : option Value :=
  n ← serialize_map serialized data_elements_value (req_name_spaces r);
  i ← skip_none (serialize_map serialized Some) "requestInfo" (request_info r);
  Some (struct_value (("docType", VText (req_doc_type r)) :: ("nameSpaces", n) :: i)).
Definition items_request_deserialize (v : Value) : option ItemsRequest :=
  l ← entries v;
  d ← (d ← required_field "docType" l; as_text d);
  n ← (n ← required_field "nameSpaces" l; deserialize_map deserialized data_elements_of_value n);
  i ← read_optional (deserialize_map deserialized Some) "requestInfo" l;
  Some (mkItemsRequest d n i).
#[global] Instance serde_items_request : SerdeCbor ItemsRequest := {|
  serialized := items_request_serialize; deserialized := items_request_deserialize |}.

(** No name space and no attribute is asked for twice: they are maps. *)
Definition items_request_wf (r : ItemsRequest) : Prop :=
  NoDup (req_name_spaces r).*1 ∧ Forall (λ ns : NameSpace * imap DataElementIdentifier bool, NoDup ns.2.*1) (req_name_spaces r) ∧
  from_option (λ m : imap string Value, NoDup m.*1) True (request_info r).

Lemma bool_round_trip b v : bool_serialize b = Some v → bool_deserialize v = Some b.
Proof. by intros [= <-]. Qed.
Lemma items_request_round_trip r v : items_request_wf r → items_request_serialize r = Some v → items_request_deserialize v = Some r.
Proof.
  destruct r as [d n i]. intros (Wn & Wd & Wi) Hs. unfold items_request_serialize in Hs. cbn [req_doc_type req_name_spaces request_info] in *.
  apply bind_Some in Hs as (vn & En & Hs). apply bind_Some in Hs as (ei & Ei & [= <-]).
  assert (deserialize_map deserialized data_elements_of_value vn = Some n) as Rn.
  { revert En. apply deserialize_serialize_map; [apply string_round_trip| |done].
    eapply list.Forall_impl; [exact Wd|]. intros [k m] Hm w. cbn in *.
    apply deserialize_serialize_map; [apply string_round_trip| |done]. apply list.Forall_true. intros ? ?. apply bool_round_trip. }
  pose proof (skip_none_read _ (deserialize_map deserialized Some) _ _ _ Ei) as Ri.
  assert (∀ m w, i = Some m → serialize_map serialized Some m = Some w →
    is_null w = false ∧ deserialize_map deserialized Some w = Some m) as Hi.
  { intros m w -> Hw. split; [by eapply map_not_null|].
    revert Hw. apply deserialize_serialize_map; [apply string_round_trip| |done]. apply list.Forall_true. by intros ? ? [= <-]. }
  specialize (Ri Hi). unfold items_request_deserialize, read_optional.
  destruct (skip_none_shape _ _ _ _ Ei) as [->|[wi ->]]; cbn -[deserialize_map] in *; rewrite Rn; cbn -[deserialize_map]; by use_read Ri.
Qed.
#[global] Instance serde_items_request_laws : SerdeCborLaws ItemsRequest.
Proof. refine {| serde_wf := items_request_wf |}. apply items_request_round_trip. Defined.

(** [DocRequest] and [DeviceRequest] *)
Definition doc_request_serialize (r : DocRequest) : option Value :=
  i ← serialized (items_request r);
  a ← skip_none serialized "readerAuth" (reader_auth r);
  Some (struct_value (("itemsRequest", i) :: a)).
Definition doc_request_deserialize (v : Value) : option DocRequest :=
  l ← entries v;
  i ← (i ← required_field "itemsRequest" l; deserialized i);
  a ← read_optional deserialized "readerAuth" l;
  Some (mkDocRequest i a).
#[global] Instance serde_doc_request : SerdeCbor DocRequest := {|
  serialized := doc_request_serialize; deserialized := doc_request_deserialize |}.
Definition DEVICE_REQUEST_VERSION : string := "1.0".
Definition device_request_serialize (r : DeviceRequest) : option Value :=
  d ← serialized (doc_requests r);
  u ← skip_none serialized "returnUrl" (return_url r);
  Some (struct_value (("version", VText DEVICE_REQUEST_VERSION) :: ("docRequests", d) :: u)).
Definition device_request_deserialize (v : Value) : option DeviceRequest :=
  l ← entries v;
  w ← (w ← required_field "version" l; as_text w);
  d ← (d ← required_field "docRequests" l; deserialized d);
  u ← read_optional (λ v, s ← as_text v; url_parse s) "returnUrl" l;
  if decide (w = DEVICE_REQUEST_VERSION) then Some (mkDeviceRequest d u) else None.
#[global] Instance serde_device_request : SerdeCbor DeviceRequest := {|
  serialized := device_request_serialize; deserialized := device_request_deserialize |}.

(** A request that was sent and received *)
Definition doc_request_equiv (r r' : DocRequest) : Prop :=
  items_request r = items_request r' ∧ option_Forall2 sign1_equiv (reader_auth r) (reader_auth r').
Definition device_request_equiv (r r' : DeviceRequest) : Prop :=
  Forall2 doc_request_equiv (doc_requests r) (doc_requests r') ∧ return_url r = return_url r'.
Definition device_request_wf (r : DeviceRequest) : Prop :=
  Forall (λ d, items_request_wf (untag (items_request d))) (doc_requests r) ∧ from_option (λ u, url_parse u = Some u) True (return_url r).

Lemma doc_request_transport r v : items_request_wf (untag (items_request r)) → serialized r = Some v →
  ∃ r', deserialized v = Some r' ∧ doc_request_equiv r r'.
Proof.
  destruct r as [i a]. intros Wi Hs. cbn [items_request reader_auth] in *.
  change (doc_request_serialize (mkDocRequest i a) = Some v) in Hs. unfold doc_request_serialize in Hs. cbn [items_request reader_auth] in Hs.
  apply bind_Some in Hs as (vi & Ei & Hs). apply bind_Some in Hs as (ea & Ea & [= <-]).
  pose proof (deserialized_serialized i vi Wi Ei) as Ri.
  destruct (skip_none_transport serialized deserialized sign1_equiv _ _ _ Ea) as (a' & Ra & Ha).
  { intros c w _ Hw. split; [by apply (never_null c)|by apply sign1_transport]. }
  exists (mkDocRequest i a'). split; [|by split].
  match goal with |- deserialized ?w = _ => change (doc_request_deserialize w = Some (mkDocRequest i a')) end.
  unfold doc_request_deserialize, read_optional. cbn [entries struct_value fmap list_fmap mbind option_bind].
  destruct (skip_none_shape _ _ _ _ Ea) as [->|[wa ->]]; cbn -[deserialized] in *; rewrite Ri; cbn -[deserialized]; by use_read Ra.
Qed.
Lemma device_request_transport r v : device_request_wf r → serialized r = Some v → ∃ r', deserialized v = Some r' ∧ device_request_equiv r r'.
Proof.
  destruct r as [d u]. intros (Wd & Wu) Hs. cbn [doc_requests return_url] in *.
  change (device_request_serialize (mkDeviceRequest d u) = Some v) in Hs. unfold device_request_serialize in Hs. cbn [doc_requests return_url] in Hs.
  apply bind_Some in Hs as (vd & Ed & Hs). apply bind_Some in Hs as (eu & Eu & [= <-]). apply fmap_Some in Ed as (vs & Ed & ->).
  destruct (mapM_transport serialized deserialized doc_request_equiv d vs) as (d' & Rd & Hd);
    [eapply list.Forall_impl; [exact Wd|]; intros x Hx w; by apply doc_request_transport|done|].
  pose proof (skip_none_read _ (λ v, s ← as_text v; url_parse s) _ _ _ Eu) as Ru.
  assert (∀ s w, u = Some s → serialized s = Some w → is_null w = false ∧ (s ← as_text w; url_parse s) = Some s) as Hu
    by (intros s w -> [= <-]; done).
  specialize (Ru Hu). exists (mkDeviceRequest d' u). split; [|done].
  match goal with |- deserialized ?w = _ => change (device_request_deserialize w = Some (mkDeviceRequest d' u)) end.
  unfold device_request_deserialize, read_optional.
  destruct (skip_none_shape _ _ _ _ Eu) as [->|[wu ->]]; cbn -[deserialized] in *;
    change (deserialized (VArray vs)) with (mapM deserialized vs : option (list DocRequest)); rewrite Rd; cbn -[deserialized]; by use_read Ru.
Qed.

(** [ReaderAuthenticationKeyed], as it is signed *)
Definition reader_authentication_serialize (t : SessionTranscript) (items : TaggedBytes ItemsRequest) : option Value :=
  t ← session_transcript_serialize t;
  i ← serialized items;
  Some (VArray [VText (REQUIRED_VALUE (R:=ReaderAuthenticationString)); t; i]).
Definition reader_authentication_bytes (t : SessionTranscript) (items : TaggedBytes ItemsRequest) : outcome CborError string :=
  tagged_serialize (reader_authentication_serialize t items).

(** [DeviceRequest::has_attributes] and [items_requests] *)
Definition has_attributes (r : DeviceRequest) : bool :=
  existsb (λ d : DocRequest, existsb (λ ns : NameSpace * imap DataElementIdentifier bool, negb (bool_decide (length ns.2 = 0%nat)))
    (req_name_spaces (untag (items_request d)))) (doc_requests r).
Definition device_items_requests (r : DeviceRequest) : list ItemsRequest := untag ∘ items_request <$> doc_requests r.

(** [DocRequest::verify] *)
Definition DocRequest_verify (r : DocRequest) (t : SessionTranscript) (time : Z) (trust_anchors : list TrustAnchor)
    : outcome MdocError (option Certificate) :=
  match reader_auth r with
  | None => Ok None
  | Some auth =>
      let* bts := map_err MCbor (reader_authentication_bytes t (items_request r)) in
      let cose := sign1_with_payload auth bts in
      let* _ := map_err MCose (cose_verify_against_trust_anchors (T:=Value) cose ReaderAuthUsage time trust_anchors) in
      let* cert := map_err MCose (signing_cert cose) in
      Ok (Some cert)
  end.

(** The fold of [DeviceRequest::verify]: all requests are signed under one certificate. *)
Fixpoint common_certificate (t : SessionTranscript) (time : Z) (trust_anchors : list TrustAnchor) (result_cert : option Certificate)
    (l : list DocRequest) : outcome DisclosureMatchError (option Certificate) :=
  match l with
  | [] => Ok result_cert
  | r :: l =>
      let* verified := map_err DMdoc (DocRequest_verify r t time trust_anchors) in
      let* cert := unwrap verified in
      let* _ := match result_cert with
                | Some c => guard_err (bool_decide (cert = c)) (DHolder HReaderAuthsInconsistent)
                | None => Ok tt
                end in
      common_certificate t time trust_anchors (Some cert) l
  end.

Context `{!RegistrationLib}.

(** [DeviceRequest::verify] *)
Definition DeviceRequest_verify (r : DeviceRequest) (t : SessionTranscript) (time : Z) (trust_anchors : list TrustAnchor)
    : outcome DisclosureMatchError (option (Certificate * ReaderRegistration)) :=
  if forallb (λ d, bool_decide (reader_auth d = None)) (doc_requests r) then Ok None
  else
    let* _ := guard_err (negb (existsb (λ d, bool_decide (reader_auth d = None)) (doc_requests r))) (DHolder HReaderAuthMissing) in
    let* found := common_certificate t time trust_anchors None (doc_requests r) in
    let* certificate := unwrap found in
    let* certificate_type := map_err (λ e, DHolder (HCertificateError e)) (type_from_certificate certificate) in
    let* reader_registration := match certificate_type with
                                | ReaderAuthCertificate (Some reader_registration) => Ok reader_registration
                                | _ => Err (DHolder (HNoReaderRegistration certificate))
                                end in
    let* _ := map_err (λ e, DHolder (HReaderRegistrationValidation e)) (verify_requested_attributes reader_registration (device_items_requests r)) in
    Ok (Some (certificate, reader_registration)).

(** ** Session encryption *)
Inductive SessionKeyUser := ReaderUser | DeviceUser.
Record SessionKey := mkSessionKey { sk_key : string; sk_user : SessionKeyUser }.

(** [SessionKey::new] *)
Definition user_str (user : SessionKeyUser) : string := match user with ReaderUser => "SKReader" | DeviceUser => "SKDevice" end.
Definition SessionKey_new (privkey : SecretKey) (pubkey : VerifyingKey) (t : SessionTranscript) (user : SessionKeyUser)
    : outcome MdocError SessionKey :=
  let dh := diffie_hellman privkey pubkey in
  let* bts := map_err MCbor (tagged_serialize (session_transcript_serialize t)) in
  let salt := sha256 bts in
  let* key := ok_or (MCrypto Hkdf) (hkdf dh salt (user_str user) 32) in
  Ok (mkSessionKey key user).

(** [SessionData] *)
Inductive SessionStatus := EncryptionError | DecodingError | Termination.
#[global] Instance SessionStatus_eq_dec : EqDecision SessionStatus.
Proof. solve_decision. Defined.
Definition status_repr (s : SessionStatus) : Z := match s with EncryptionError => 10 | DecodingError => 11 | Termination => 20 end.
Definition status_of_repr (n : Z) : option SessionStatus :=
  if n =? 10 then Some EncryptionError else if n =? 11 then Some DecodingError else if n =? 20 then Some Termination else None.
Record SessionData := mkSessionData { sd_data : option ByteBuf; sd_status : option SessionStatus }.
Definition session_data_serialize (d : SessionData) : option Value :=
  Some (struct_value [("data", match sd_data d with Some b => VBytes (bytes b) | None => VNull end);
                      ("status", match sd_status d with Some s => VInteger (status_repr s) | None => VNull end)]).
Definition session_data_deserialize (v : Value) : option SessionData :=
  l ← entries v;
  d ← read_optional deserialized "data" l;
  s ← read_optional (λ v, n ← as_integer v; status_of_repr n) "status" l;
  Some (mkSessionData d s).
#[global] Instance serde_session_data : SerdeCbor SessionData := {|
  serialized := session_data_serialize; deserialized := session_data_deserialize |}.
#[global] Instance serde_session_data_laws : SerdeCborLaws SessionData.
Proof. refine {| serde_wf _ := True |}. by intros [[[b]|] [[]|]] v _ [= <-]. Defined.

Definition new_encryption_error : SessionData := mkSessionData None (Some EncryptionError).
Definition new_decoding_error : SessionData := mkSessionData None (Some DecodingError).
Definition new_termination : SessionData := mkSessionData None (Some Termination).

(** [SessionData::nonce]: twelve bytes; the eighth tells the sender and the last
    one counts the messages. *)
Definition nonce (user : SessionKeyUser) : string :=
  let nonce := replicate 12 0%nat in
  let nonce := match user with DeviceUser => <[7%nat := 1%nat]> nonce | ReaderUser => nonce end in
  let nonce := <[11%nat := 1%nat]> nonce in
  String.string_of_list_ascii (ascii_of_nat <$> nonce).

(** [SessionData::encrypt] and [decrypt]; a key of another length than 32 bytes panics. *)
Definition encrypt (data : string) (key : SessionKey) : outcome MdocError SessionData :=
  let* _ := rust_assert (Z.of_nat (String.length (sk_key key)) =? 32) in
  let* ciphertext := ok_or (MCrypto Aes) (aes_encrypt (sk_key key) (nonce (sk_user key)) data) in
  Ok (mkSessionData (Some (mkByteBuf ciphertext)) None).
Definition decrypt (d : SessionData) (key : SessionKey) : outcome MdocError string :=
  let* _ := rust_assert (Z.of_nat (String.length (sk_key key)) =? 32) in
  let* ciphertext := ok_or (MCrypto MissingCiphertext) (sd_data d) in
  ok_or (MCrypto Aes) (aes_decrypt (sk_key key) (nonce (sk_user key)) (bytes ciphertext)).

(** [serialize_and_encrypt] and [decrypt_and_deserialize] *)
Definition serialize_and_encrypt {T} `{!SerdeCbor T} (data : T) (key : SessionKey) : outcome MdocError SessionData :=
  let* bts := map_err MCbor (cbor_serialize data) in
  encrypt bts key.
Definition decrypt_and_deserialize {T} `{!SerdeCbor T} (d : SessionData) (key : SessionKey) : outcome MdocError T :=
  let* bts := decrypt d key in
  map_err MCbor (cbor_deserialize bts).

(** ** Engagements *)

(** [TryFrom<&PublicKey> for Security] and back *)
Definition security_of_public_key (key : VerifyingKey) : outcome CryptoError Security :=
  let* cose_key := cose_key_from_verifying_key key in
  Ok (mkSeq (mkSecurity (mkTagged cose_key))).
Definition public_key_of_security (s : Security) : outcome CryptoError VerifyingKey :=
  verifying_key_from_cose_key (untag (e_sender_key_bytes (seq s))).

(** [ReaderEngagement::try_new] *)
Definition ReaderEngagement_try_new (privkey : SecretKey) (verifier_url : string) : outcome MdocError ReaderEngagement :=
  let* security := map_err MCrypto (security_of_public_key (secret_public_key privkey)) in
  Ok (mkIntMap (mkEngagement (Some security) (Some [mkSeq (mkConnectionMethod (mkSeq (mkRestApi verifier_url)))]) [])).

(** [DeviceEngagement::new_device_engagement]; the private key is drawn at random. *)
Definition new_device_engagement (privkey : SecretKey) (referrer_url : string) : outcome MdocError DeviceEngagement :=
  let* security := map_err MCrypto (security_of_public_key (secret_public_key privkey)) in
  Ok (mkIntMap (mkEngagement (Some security) None
    [mkOriginInfo Received (Website referrer_url); mkOriginInfo Delivered MessageData])).

(** [ReaderEngagement::verifier_url]: the first connection method. *)
Definition engagement_url (e : ReaderEngagement) : option string :=
  methods ← connection_methods (int_map e);
  method ← head methods;
  Some (uri (seq (connection_options (seq method)))).

(** ** What is made with keys of both sides *)
Lemma encrypt_decrypt data key d : encrypt data key = Ok d → decrypt d key = Ok data.
Proof.
  unfold encrypt, decrypt. intros He. destruct (rust_assert _) as [[]| |]; [|done..]. cbn in *.
  destruct (aes_encrypt _ _ _) as [c|] eqn:Hc; [|done]. injection He as <-. cbn. by rewrite (aes_decrypt_encrypt _ _ _ _ Hc).
Qed.
Lemma sent_received {T} `{!SerdeCbor T} (R : T → T → Prop) (x : T) key d :
  (∀ v, serialized x = Some v → ∃ x', deserialized v = Some x' ∧ R x x') →
  serialize_and_encrypt x key = Ok d → ∃ x', decrypt_and_deserialize d key = Ok x' ∧ R x x'.
Proof.
  unfold serialize_and_encrypt, decrypt_and_deserialize, cbor_serialize, cbor_deserialize. intros Ht He. apply bind_Ok in He as (bts & Hb & He).
  rewrite (encrypt_decrypt _ _ _ He). cbn. apply map_err_Ok, ok_or_Ok, bind_Some in Hb as (v & Hv & Hb).
  destruct (Ht _ Hv) as (x' & Hx & Hr). exists x'. rewrite (from_into _ _ Hb). cbn. by rewrite Hx.
Qed.

(** A key that was derived is never of the wrong length. *)
Definition key_wf (user : SessionKeyUser) (k : SessionKey) : Prop :=
  Z.of_nat (String.length (sk_key k)) = 32 ∧ sk_user k = user.
Lemma SessionKey_new_wf a b t user k : SessionKey_new a b t user = Ok k → key_wf user k.
Proof.
  unfold SessionKey_new. intros Hk. apply bind_Ok in Hk as (bts & _ & Hk). apply bind_Ok in Hk as (key & Hh & [= <-]).
  apply ok_or_Ok in Hh. split; [|done]. by apply hkdf_length in Hh.
Qed.
Lemma session_keys_agree a b t user :
  SessionKey_new a (secret_public_key b) t user = SessionKey_new b (secret_public_key a) t user.
Proof. unfold SessionKey_new. by rewrite diffie_hellman_comm. Qed.
Lemma encrypt_never_panics {T} `{!SerdeCbor T} (x : T) user k : key_wf user k → serialize_and_encrypt x k ≠ Panic.
Proof.
  intros [Hl _]. unfold serialize_and_encrypt, cbor_serialize, encrypt. rewrite (proj2 (Z.eqb_eq _ _) Hl).
  destruct (serialized x ≫= into_writer); [|done]. cbn. by destruct (aes_encrypt _ _ _).
Qed.
Lemma decrypt_never_panics {T} `{!SerdeCbor T} d user k : key_wf user k → decrypt_and_deserialize (T:=T) d k ≠ Panic.
Proof.
  intros [Hl _]. unfold decrypt_and_deserialize, decrypt, cbor_deserialize. rewrite (proj2 (Z.eqb_eq _ _) Hl).
  destruct (sd_data d) as [c|]; [|done]. cbn. destruct (aes_decrypt _ _ _) as [b|]; [|done]. cbn. by destruct (from_reader b ≫= deserialized).
Qed.
Lemma SessionKey_new_never_panics a b t user : SessionKey_new a b t user ≠ Panic.
Proof.
  unfold SessionKey_new, tagged_serialize. destruct (session_transcript_serialize t ≫= _); [|done]. cbn. by destruct (hkdf _ _ _ _).
Qed.
Lemma security_round_trip k s : security_of_public_key k = Ok s → public_key_of_security s = Ok k.
Proof.
  unfold security_of_public_key. intros Hs. apply bind_Ok in Hs as (ck & Hc & [= <-]). unfold public_key_of_security. cbn.
  by apply cose_key_round_trip.
Qed.

(** ** Who signed a request *)

(** [d] carries a signature, under [cert], over itself and the transcript. *)
Definition signed_by (t : SessionTranscript) (time : Z) (trust_anchors : list TrustAnchor) (cert : Certificate) (d : DocRequest) : Prop :=
  ∃ auth bts pk, reader_auth d = Some auth ∧ reader_authentication_bytes t (items_request d) = Ok bts ∧ signing_cert auth = Ok cert ∧
    Certificate_verify cert ReaderAuthUsage [] time trust_anchors = Ok tt ∧ Certificate_public_key cert = Ok pk ∧
    sign1_verify (sign1_with_payload auth bts) pk = Ok tt.

Lemma DocRequest_verify_Ok d t time anchors cert :
  DocRequest_verify d t time anchors = Ok (Some cert) ↔
  signed_by t time anchors cert d ∧ ∃ auth bts, reader_auth d = Some auth ∧ reader_authentication_bytes t (items_request d) = Ok bts ∧
    is_ok (cbor_deserialize (T:=Value) bts) = true.
Proof.
  unfold DocRequest_verify, signed_by. destruct (reader_auth d) as [auth|]; [|naive_solver]. split.
  - intros Hv. apply bind_Ok in Hv as (bts & Hb & Hv). apply map_err_Ok in Hb. apply bind_Ok in Hv as (v & Hc & Hv).
    apply map_err_Ok in Hc. apply bind_Ok in Hv as (c & Hs & [= ->]). apply map_err_Ok in Hs.
    apply verify_against_trust_anchors_Ok in Hc as (cert' & pk & p & Hs' & Hcert & Hpk & Hsig & Hp & Hv). cbn in Hp. injection Hp as <-.
    assert (cert' = cert) as -> by (rewrite Hs in Hs'; congruence). split; [|by exists auth, bts; rewrite Hv].
    exists auth, bts, pk. split_and!; try done.
  - intros [(? & bts & pk & [= <-] & Hb & Hs & Hcert & Hpk & Hsig) (? & ? & [= <-] & Hb' & Hv)]. rewrite Hb in Hb'. injection Hb' as <-.
    rewrite Hb. cbn. unfold cose_verify_against_trust_anchors, verify_and_parse, dangerous_parse_unverified.
    change (signing_cert (sign1_with_payload auth bts)) with (signing_cert auth). rewrite Hs. cbn [obind map_err]. rewrite Hcert. cbn [obind map_err]. rewrite Hpk. cbn [obind map_err]. rewrite Hsig. cbn.
    by destruct (cbor_deserialize bts).
Qed.

Lemma DocRequest_verify_None d t time anchors : DocRequest_verify d t time anchors = Ok None → reader_auth d = None.
Proof.
  unfold DocRequest_verify. destruct (reader_auth d) as [auth|]; [|done]. intros Hv. apply bind_Ok in Hv as (? & _ & Hv).
  apply bind_Ok in Hv as (? & _ & Hv). by apply bind_Ok in Hv as (? & _ & [=]).
Qed.

(** One certificate signs all requests: the fold ends with it exactly when. *)
Lemma common_certificate_Ok t time anchors o l cert : (o = None → l ≠ []) →
  common_certificate t time anchors o l = Ok (Some cert) ↔
  (∀ c, o = Some c → c = cert) ∧ Forall (λ d, DocRequest_verify d t time anchors = Ok (Some cert)) l.
Proof.
  revert o. induction l as [|d l IH]; intros o Ho; cbn [common_certificate].
  - destruct o as [c|]; [|by destruct (Ho eq_refl)]. split; [intros [= <-]; split; [by intros ? [= <-]|constructor]|intros [Hc _]; by rewrite (Hc c)].
  - destruct (DocRequest_verify d t time anchors) as [[c|]|e|] eqn:Hv; cbn; try (split; [done|intros [_ Hall]; apply Forall_inv in Hall; congruence]).
    rewrite list.Forall_cons. destruct o as [c'|].
    + destruct (decide (c = c')) as [<-|Hne]; [|rewrite bool_decide_eq_false_2 by done; cbn].
      * rewrite bool_decide_eq_true_2 by done. cbn. rewrite IH by done. rewrite Hv. naive_solver.
      * rewrite Hv. split; [done|]. intros [Hc [[= <-] _]]. by destruct Hne; rewrite (Hc c').
    + cbn. rewrite IH by done. rewrite Hv. naive_solver.
Qed.

(** A request that verifies comes from one registered reader, which signed all of it. *)
Lemma DeviceRequest_verify_Ok r t time anchors cert reg :
  DeviceRequest_verify r t time anchors = Ok (Some (cert, reg)) →
  doc_requests r ≠ [] ∧ Forall (signed_by t time anchors cert) (doc_requests r) ∧
  type_from_certificate cert = Ok (ReaderAuthCertificate (Some reg)) ∧ verify_requested_attributes reg (device_items_requests r) = Ok tt.
Proof.
  unfold DeviceRequest_verify. destruct (forallb _ _) eqn:Hall; [done|]. intros Hv.
  assert (doc_requests r ≠ []) as Hne by (intros He; by rewrite He in Hall).
  apply bind_Ok in Hv as (? & _ & Hv). apply bind_Ok in Hv as (o & Hc & Hv). apply bind_Ok in Hv as (c & Ho & Hv). apply unwrap_Ok in Ho as ->.
  apply bind_Ok in Hv as (ty & Hty & Hv). apply map_err_Ok in Hty. apply bind_Ok in Hv as (reg' & Hreg & Hv).
  apply bind_Ok in Hv as ([] & Hver & [= <- <-]). apply map_err_Ok in Hver.
  apply common_certificate_Ok in Hc as [_ Hall']; [|done].
  split_and!; [done| |by destruct ty as [?|[]]; simplify_eq|done].
  eapply list.Forall_impl; [exact Hall'|]. intros d Hd. by apply DocRequest_verify_Ok in Hd as [? _].
Qed.
(** And a request that such a reader signed verifies. *)
Lemma DeviceRequest_verify_complete r t time anchors cert reg : doc_requests r ≠ [] →
  Forall (λ d, DocRequest_verify d t time anchors = Ok (Some cert)) (doc_requests r) →
  type_from_certificate cert = Ok (ReaderAuthCertificate (Some reg)) → verify_requested_attributes reg (device_items_requests r) = Ok tt →
  DeviceRequest_verify r t time anchors = Ok (Some (cert, reg)).
Proof.
  intros Hne Hall Hty Hver. assert (Forall (λ d, reader_auth d ≠ None) (doc_requests r)) as Hauth.
  { eapply list.Forall_impl; [exact Hall|]. intros d Hd Hn. unfold DocRequest_verify in Hd. by rewrite Hn in Hd. }
  unfold DeviceRequest_verify. destruct (doc_requests r) as [|d l] eqn:Hr; [done|]. rewrite <- Hr in *.
  assert (forallb (λ d, bool_decide (reader_auth d = None)) (doc_requests r) = false) as ->.
  { rewrite Hr in Hauth |- *. inversion Hauth. cbn. by rewrite bool_decide_eq_false_2. }
  assert (existsb (λ d, bool_decide (reader_auth d = None)) (doc_requests r) = false) as ->.
  { clear Hr Hall Hne. induction Hauth as [|x l' Hx _ IH]; [done|]. cbn. by rewrite bool_decide_eq_false_2. }
  cbn. assert (common_certificate t time anchors None (doc_requests r) = Ok (Some cert)) as ->.
  { apply common_certificate_Ok; [by rewrite Hr|done]. }
  cbn. rewrite Hty. cbn. by rewrite Hver.
Qed.
End Requests.
