(* ===== verification/IsoVerifier.v ===== *)
(** * The disclosure server for ISO 18013-5 sessions

    Models the sessions of [mdoc/src/verifier.rs]: a relying party starts a
    session, the device answers its engagement at the URL of the session and gets
    an encrypted and signed request, and then sends its encrypted response.  The
    handlers are written against the [SessionStore] interface.  The return URL
    templates and the parameters of the session URL are those of [Verifier].

    What a handler draws at random and the instant at which it runs are arguments;
    the text of an error is a parameter. *)
From stdpp Require Import base gmap strings list option.
From Stdlib Require Import ZArith Lia.
From S2P Require Import Prelude IndexMap SessionStore Crypto Jose Cbor Cose Engagement Mdoc MdocSigning ResponseCbor Holder.
From S2P Require Import Protocol OpenId4vp Verifier DisclosureSession IsoMessages.

(** ** Sessions *)
Record SessionTranscriptData := mkTranscriptData {
  td_session_type : SessionType;
  td_reader_engagement : ReaderEngagement;
  td_device_engagement : DeviceEngagement
}.
Record Created `{!Ecdsa, !MacLib} := mkCreated {
  cr_items_requests : list ItemsRequest;
  cr_usecase_id : string;
  cr_return_url : option string;
  cr_ephemeral_privkey : SecretKey
}.
Record WaitingForResponse `{!Ecdsa, !MacLib} := mkWaiting {
  w_items_requests : list ItemsRequest;
  w_return_url_nonce : option string;
  w_their_key : SessionKey;
  w_ephemeral_privkey : SecretKey;
  w_session_transcript_data : SessionTranscriptData
}.
Inductive SessionResult :=
  | RDone (attrs : DisclosedAttributes) (return_url_nonce : option string)
  | RFailed (error : string)
  | RCancelled
  | RExpired.
Record Done := mkDone { session_result : SessionResult }.
Inductive DisclosureData `{!Ecdsa, !MacLib} :=
  | DCreated (c : Created)
  | DWaitingForResponse (w : WaitingForResponse)
  | DDone (d : Done).
(** The discriminant of a result, for errors. *)
Inductive SessionResultState := StateDone | StateFailed | StateCancelled | StateExpired.
Definition result_state (r : SessionResult) : SessionResultState :=
  match r with RDone _ _ => StateDone | RFailed _ => StateFailed | RCancelled => StateCancelled | RExpired => StateExpired end.

#[global] Instance iso_progress `{!Ecdsa, !MacLib} : HasProgress DisclosureData := λ d,
  match d with
  | DCreated _ | DWaitingForResponse _ => Active
  | DDone done => Finished (match session_result done with RDone _ _ => true | _ => false end)
  end.
#[global] Instance iso_expirable `{!Ecdsa, !MacLib} : Expirable DisclosureData := {|
  is_expired d := match d with DDone (mkDone RExpired) => true | _ => false end;
  expire _ := DDone (mkDone RExpired)
|}.
#[global] Instance iso_expirable_laws `{!Ecdsa, !MacLib} : ExpirableLaws DisclosureData.
Proof. split; [done|done| |]; by intros [|?|[[]]]. Qed.

(** [From<SessionStatus> for SessionResult] *)
Definition result_of_status (s : IsoMessages.SessionStatus) : SessionResult :=
  match s with
  | EncryptionError => RFailed "client encryption error"
  | DecodingError => RFailed "client decoding error"
  | Termination => RCancelled
  end.

Inductive StatusResponse :=
  | StatusCreated (engagement_url : string) | StatusWaitingForResponse | StatusDone | StatusFailed | StatusCancelled | StatusExpired.

(** The errors of the sessions: those of [VerificationError] that only they
    raise, and the other errors of the crate. *)
Inductive SessionVerificationError :=
  | IncorrectOriginInfo
  | MissingVerifierUrlParameters
  | SessionIsDone (s : SessionResultState)
  | UnknownUseCase (id : string)
  | ReturnUrlConfigurationMismatch
  | UnknownSessionId (t : SessionToken)
  | NoItemsRequests
  | SessionStoreFailed (e : SessionStoreError)
  | SessionNotDone
  | ReturnUrlNonceMissing
  | ReturnUrlNonceMismatch (received : string)
  | InvalidEphemeralId (id : string)
  | ExpiredEphemeralId (id : string)
  | UrlEncoding.
Inductive IsoError := IMdoc (e : MdocError) | IVerification (e : SessionVerificationError).

Record UseCase `{!Ecdsa} := mkUseCase { key_pair : KeyPair; session_type_return_url : SessionTypeReturnUrl }.

Section IsoVerifier.
Context `{!Ecdsa, !X509Lib, !Coset, !Ciborium, !Sha256, !Chrono, !UrlLib, !MacLib, !Base64, !IsoLib, !CoseSerde}.
Context `{!VerifierLib, !WalletUrlLib, !UrlJoin}.

(** [Verifier] *)
Record Verifier := mkVerifier {
  use_cases : gmap string UseCase;
  v_trust_anchors : list TrustAnchor;
  ephemeral_id_secret : HmacKey
}.

(** The conversions between typed and stored sessions *)
Definition from_created (s : SessionState Created) : SessionState DisclosureData := with_data s (DCreated (data s)).
Definition from_waiting (s : SessionState WaitingForResponse) : SessionState DisclosureData := with_data s (DWaitingForResponse (data s)).
Definition from_done (s : SessionState Done) : SessionState DisclosureData := with_data s (DDone (data s)).

(** [TryFrom<&SessionTranscriptData> for SessionTranscript] *)
Definition transcript_of_data (d : SessionTranscriptData) : outcome SessionTranscriptError SessionTranscript :=
  SessionTranscript_new_iso (td_session_type d) (td_reader_engagement d) (td_device_engagement d).

(** ** The URL of a session *)

(** [generate_ephemeral_id] and [verify_ephemeral_id] *)
Definition generate_ephemeral_id (v : Verifier) (session_token : SessionToken) (time : Z) : string :=
  hmac_sign (ephemeral_id_secret v) (format_ephemeral_id_payload session_token time).
Definition verify_ephemeral_id (now : Z) (v : Verifier) (session_token : SessionToken) (verifier_url : string)
    : outcome IsoError SessionType :=
  let* query := ok_or (IVerification MissingVerifierUrlParameters) (url_query verifier_url) in
  let* p := ok_or (IVerification MissingVerifierUrlParameters) (parameters_from_str query) in
  let* _ := guard_err (negb (up_time p <? now - EPHEMERAL_ID_VALIDITY_SECONDS)) (IVerification (ExpiredEphemeralId (ephemeral_id p))) in
  let* _ := guard_err (hmac_verify (ephemeral_id_secret v) (format_ephemeral_id_payload session_token (up_time p)) (ephemeral_id p))
              (IVerification (InvalidEphemeralId (ephemeral_id p))) in
  Ok (up_session_type p).

(** [format_verifier_url] and [generate_verifier_url] *)
Definition format_verifier_url (verifier_base_url : string) (session_token : SessionToken) (session_type : SessionType) (time : Z)
    (ephemeral_id : string) : outcome IsoError string :=
  let* verifier_url := BaseUrl_join verifier_base_url session_token in
  let* query := ok_or (IVerification UrlEncoding) (parameters_to_string (mkUrlParameters session_type ephemeral_id time)) in
  Ok (set_query verifier_url query).
Definition generate_verifier_url (v : Verifier) (verifier_base_url : string) (session_token : SessionToken) (session_type : SessionType)
    (time : Z) : outcome IsoError string :=
  format_verifier_url verifier_base_url session_token session_type time (generate_ephemeral_id v session_token time).

(** [format_engagement_url]; serializing an engagement is expected to succeed. *)
Definition format_engagement_url (base_url : string) (reader_engagement : ReaderEngagement) : outcome IsoError string :=
  let* bts := match cbor_serialize reader_engagement with Ok bts => Ok bts | _ => Panic end in
  BaseUrl_join base_url (b64_encode bts).

(** ** The engagement of the device *)

(** [verify_origin_infos] *)
Definition verify_origin_infos (origin_infos : list OriginInfo) : outcome IsoError unit :=
  guard_err match origin_infos with
            | [mkOriginInfo Received (Website _); mkOriginInfo Delivered MessageData] => true
            | _ => false
            end (IVerification IncorrectOriginInfo).

(** [new_device_request] *)
Definition sign_doc_request (t : SessionTranscript) (private_key : KeyPair) (r : ItemsRequest) : outcome MdocError DocRequest :=
  let items_request := mkTagged r in
  let* bts := map_err (λ e, MCose (CoseCbor e)) (reader_authentication_bytes t items_request) in
  let* cose := map_err MCose (sign_cose bts (new_certificate_header (certificate private_key)) (Cose.private_key private_key) false) in
  Ok (mkDocRequest items_request (Some cose)).
Definition new_device_request (items_requests : list ItemsRequest) (t : SessionTranscript) (return_url : option string)
    (private_key : KeyPair) : outcome MdocError DeviceRequest :=
  let* doc_requests := try_map (sign_doc_request t private_key) items_requests in
  Ok (mkDeviceRequest doc_requests return_url).

(** The return URL of a session, by the configuration of its use case. *)
Definition session_return_url (u : UseCase) (session_type : SessionType) (return_url : option string)
    : outcome IsoError (option string) :=
  match session_type_return_url u, session_type, return_url with
  | BothReturnUrl, _, Some return_url | SameDeviceReturnUrl, SameDevice, Some return_url => Ok (Some return_url)
  | NeitherReturnUrl, _, _ | SameDeviceReturnUrl, CrossDevice, _ => Ok None
  | _, _, _ => Err (IVerification ReturnUrlConfigurationMismatch)
  end.
(** [add_nonce_to_return_url] *)
Definition add_nonce_to_return_url (nonce return_url : string) : string * string := (append_pair return_url "nonce" nonce, nonce).

(** [process_device_engagement_inner] *)
Definition process_device_engagement_inner (nonce : string) (c : Created) (device_engagement : DeviceEngagement) (verifier_url : string)
    (session_type : SessionType) (v : Verifier) : outcome IsoError (SessionData * option string * SessionKey * ReaderEngagement) :=
  let* _ := verify_origin_infos (origin_infos (int_map device_engagement)) in
  let* reader_engagement := map_err IMdoc (ReaderEngagement_try_new (cr_ephemeral_privkey c) verifier_url) in
  let* session_transcript := match SessionTranscript_new_iso session_type reader_engagement device_engagement with
                             | Ok t => Ok t | _ => Panic end in
  let* use_case := ok_or (IVerification (UnknownUseCase (cr_usecase_id c))) (use_cases v !! cr_usecase_id c) in
  let* return_url := session_return_url use_case session_type (cr_return_url c) in
  let with_nonce := add_nonce_to_return_url nonce <$> return_url in
  let* device_request := map_err IMdoc
    (new_device_request (cr_items_requests c) session_transcript (fst <$> with_nonce) (key_pair use_case)) in
  let* security := ok_or (IMdoc (MVerification EphemeralKeyMissing)) (security (int_map device_engagement)) in
  let* their_pubkey := map_err (λ e, IMdoc (MCrypto e)) (public_key_of_security security) in
  let* our_key := map_err IMdoc (SessionKey_new (cr_ephemeral_privkey c) their_pubkey session_transcript ReaderUser) in
  let* their_key := map_err IMdoc (SessionKey_new (cr_ephemeral_privkey c) their_pubkey session_transcript DeviceUser) in
  let* response := map_err IMdoc (serialize_and_encrypt device_request our_key) in
  Ok (response, snd <$> with_nonce, their_key, reader_engagement).

Section Handlers.
Variable show : IsoError → string.

(** [transition_fail] and [transition_abort] *)
Definition transition_fail {A} (now : Z) (s : SessionState A) (error : IsoError) : SessionState Done :=
  transition now s (mkDone (RFailed (show error))).
Definition transition_abort {A} (now : Z) (s : SessionState A) (status : IsoMessages.SessionStatus) : SessionState Done :=
  transition now s (mkDone (result_of_status status)).

(** [process_device_engagement]: the answer and the next state of the session. *)
Definition process_device_engagement (now : Z) (nonce : string) (s : SessionState Created) (device_engagement : DeviceEngagement)
    (verifier_url : string) (session_type : SessionType) (v : Verifier) : outcome Empty_set (SessionData * SessionState DisclosureData) :=
  match process_device_engagement_inner nonce (data s) device_engagement verifier_url session_type v with
  | Ok (response, return_url_nonce, their_key, reader_engagement) =>
      let w := mkWaiting _ _ (cr_items_requests (data s)) return_url_nonce their_key (cr_ephemeral_privkey (data s))
        (mkTranscriptData session_type reader_engagement device_engagement) in
      Ok (response, from_waiting (transition now s w))
  | Err e => Ok (new_decoding_error, from_done (transition_fail now s e))
  | Panic => Panic
  end.

(** ** The response of the device *)

(** [process_response_inner] *)
Definition process_response_inner (w : WaitingForResponse) (session_data : SessionData) (time : Z) (trust_anchors : list TrustAnchor)
    : outcome MdocError (SessionData * DisclosedAttributes * option string) :=
  let* device_response := decrypt_and_deserialize (T:=DeviceResponse) session_data (w_their_key w) in
  let* session_transcript := match transcript_of_data (w_session_transcript_data w) with Ok t => Ok t | _ => Panic end in
  let* disclosed_attributes := DeviceResponse_verify device_response (Some (w_ephemeral_privkey w)) session_transcript time trust_anchors in
  let* _ := match_against_response (w_items_requests w) device_response in
  Ok (mkSessionData None (Some Termination), disclosed_attributes, w_return_url_nonce w).

(** [process_response] *)
Definition process_response (now : Z) (s : SessionState WaitingForResponse) (session_data : SessionData) (time : Z)
    (trust_anchors : list TrustAnchor) : outcome Empty_set (SessionData * SessionState Done) :=
  match sd_status session_data with
  | Some status => Ok (new_termination, transition_abort now s status)
  | None =>
      match process_response_inner (data s) session_data time trust_anchors with
      | Ok (response, disclosed_attributes, return_url_nonce) =>
          Ok (response, transition now s (mkDone (RDone disclosed_attributes return_url_nonce)))
      | Err e => Ok (new_decoding_error, transition_fail now s (IMdoc e))
      | Panic => Panic
      end
  end.

(** ** The endpoints *)
Section Endpoints.
Context {S : Type} `{!SessionStore DisclosureData S}.

(** [Verifier::new_session] with [Session<Created>::new]; the token and the key are drawn at random. *)
Definition new_session (now : Z) (random : SessionToken) (ephemeral_privkey : SecretKey) (v : Verifier) (requests : list ItemsRequest)
    (usecase_id : string) (return_url_template : option string) : ST S IsoError SessionToken :=
  let! use_case := st_lift (ok_or (IVerification (UnknownUseCase usecase_id)) (use_cases v !! usecase_id)) in
  let! _ := st_lift (guard_err (negb (bool_decide (length requests = 0%nat))) (IVerification NoItemsRequests)) in
  let! _ := st_lift (guard_err
    (negb match session_type_return_url use_case with
          | NeitherReturnUrl => bool_decide (is_Some return_url_template)
          | SameDeviceReturnUrl | BothReturnUrl => bool_decide (return_url_template = None)
          end) (IVerification ReturnUrlConfigurationMismatch)) in
  let! return_url := st_lift match return_url_template with
                             | Some u => let* url := into_url u random in Ok (Some url)
                             | None => Ok None
                             end in
  let session_state := SessionState_new now random (mkCreated _ _ requests usecase_id return_url ephemeral_privkey) in
  let! _ := st_map_err (λ e, IVerification (SessionStoreFailed e)) (store_write (from_created session_state) true) in
  sret random.

(** The session of a token, in the endpoints *)
Definition get_session (session_token : SessionToken) : ST S IsoError (SessionState DisclosureData) :=
  let! found := st_map_err (λ e, IVerification (SessionStoreFailed e)) (store_get session_token) in
  st_lift (ok_or (IVerification (UnknownSessionId session_token)) found).

(** [Verifier::process_message]: the session is read, the message is handled, and
    the session is written, without a lock in between. *)
Definition process_message (now : Z) (nonce : string) (v : Verifier) (msg : string) (session_token : SessionToken) (full_url : string)
    : ST S IsoError SessionData :=
  let! state := get_session session_token in
  let! rn := match data state with
             | DCreated session_data =>
                 let! session_type := st_lift (verify_ephemeral_id now v session_token full_url) in
                 let! device_engagement := st_lift (map_err (λ e, IMdoc (MCbor e)) (cbor_deserialize (T:=DeviceEngagement) msg)) in
                 st_lift (never (process_device_engagement now nonce (with_data state session_data) device_engagement full_url session_type v))
             | DWaitingForResponse session_data =>
                 let! message := st_lift (map_err (λ e, IMdoc (MCbor e)) (cbor_deserialize (T:=SessionData) msg)) in
                 let! rn := st_lift (never (process_response now (with_data state session_data) message now (v_trust_anchors v))) in
                 sret (rn.1, from_done rn.2)
             | DDone done => st_throw (IVerification (SessionIsDone (result_state (session_result done))))
             end in
  let! _ := st_map_err (λ e, IVerification (SessionStoreFailed e)) (store_write rn.2 false) in
  sret rn.1.

(** [Verifier::status_response] *)
Definition status_response (v : Verifier) (session_token : SessionToken) (session_type : SessionType)
    (engagement_base_url verifier_base_url : string) (time : Z) : ST S IsoError StatusResponse :=
  let! state := get_session session_token in
  match data state with
  | DCreated c =>
      let! verifier_url := st_lift (generate_verifier_url v verifier_base_url session_token session_type time) in
      let! reader_engagement := st_lift (map_err IMdoc (ReaderEngagement_try_new (cr_ephemeral_privkey c) verifier_url)) in
      let! engagement_url := st_lift (format_engagement_url engagement_base_url reader_engagement) in
      sret (StatusCreated engagement_url)
  | DWaitingForResponse _ => sret StatusWaitingForResponse
  | DDone (mkDone (RDone _ _)) => sret StatusDone
  | DDone (mkDone (RFailed _)) => sret StatusFailed
  | DDone (mkDone RCancelled) => sret StatusCancelled
  | DDone (mkDone RExpired) => sret StatusExpired
  end.

(** [Verifier::disclosed_attributes] *)
Definition verifier_disclosed_attributes (session_token : SessionToken) (return_url_nonce : option string)
    : ST S IsoError DisclosedAttributes :=
  let! state := get_session session_token in
  match data state with
  | DDone (mkDone (RDone disclosed_attributes stored_nonce)) =>
      match return_url_nonce, stored_nonce with
      | _, None => sret disclosed_attributes
      | Some received_nonce, Some stored_nonce =>
          if decide (received_nonce = stored_nonce) then sret disclosed_attributes
          else st_throw (IVerification (ReturnUrlNonceMismatch received_nonce))
      | None, Some _ => st_throw (IVerification ReturnUrlNonceMissing)
      end
  | _ => st_throw (IVerification SessionNotDone)
  end.
End Endpoints.
End Handlers.
End IsoVerifier.
