(* ===== verification/IsoVerifierFacts.v ===== *)
(** * Correctness of the disclosure server for ISO 18013-5 sessions

    Against any session store that implements the contract: what the server
    answers and stores, that its sessions stay well-formed so that no message
    makes it panic, and what the attributes that a relying party obtains rest on. *)
From stdpp Require Import base gmap strings list option fin_maps relations.
From Stdlib Require Import ZArith Lia.
From S2P Require Import Prelude IndexMap SessionStore SessionStoreFacts Crypto Jose Cbor Cose Engagement.
From S2P Require Import Mdoc MdocSigning ResponseCbor Holder Protocol OpenId4vp Verifier DisclosureSession IsoMessages IsoVerifier.

Section IsoVerifierFacts.
Context `{!Ecdsa, !X509Lib, !Coset, !Ciborium, !Sha256, !Chrono, !UrlLib, !MacLib, !Base64, !IsoLib, !CoseSerde}.
Context `{!VerifierLib, !WalletUrlLib, !UrlJoin}.
Context {S : Type} `{!SessionStore DisclosureData S, !SessionStoreSpec DisclosureData S}.
Variable show : IsoError → string.
Variable v : Verifier.

(** ** Verifying a response does not panic *)
Lemma sign1_verify_no_panic c k : sign1_verify c k ≠ Panic.
Proof. unfold sign1_verify. destruct (payload c); [|done]. intros Hp. no_panic Hp. Qed.
Lemma verify_attr_digest_no_panic mso ns item : verify_attr_digest mso ns item ≠ Panic.
Proof. unfold verify_attr_digest, cbor_digest, cbor_serialize. intros Hp. no_panic Hp. Qed.
Lemma verify_is_valid_at_no_panic i time validity : verify_is_valid_at i time validity ≠ Panic.
Proof.
  unfold verify_is_valid_at, tdate_time. destruct validity; cbn; [|destruct (parse_from_rfc3339 (tdate (valid_from i))); [|done]; cbn; case_match; [done|]];
    (destruct (parse_from_rfc3339 (tdate (valid_until i))); [|done]); cbn; by case_match.
Qed.
Lemma verify_names_no_panic mso (ns : list (NameSpace * Attributes)) :
  omap im_collect (try_map (λ p : NameSpace * Attributes, let* es := verify_attrs_in_namespace mso p.2 p.1 in Ok (p.1, es)) ns) ≠ Panic.
Proof.
  unfold omap. case_match eqn:Ht; [done..|]. exfalso. revert Ht. apply try_map_no_panic. intros p Hv. no_panic Hv. revert Hv.
  apply try_map_no_panic. intros item Hv. no_panic Hv. by eapply verify_attr_digest_no_panic.
Qed.
Lemma IssuerSigned_verify_no_panic s validity time anchors : IssuerSigned_verify s validity time anchors ≠ Panic.
Proof.
  unfold IssuerSigned_verify, cose_verify_against_trust_anchors, verify_and_parse, dangerous_parse_unverified, signing_cert,
    unprotected_header_item, Certificate_verify, Certificate_public_key, iter_common_name, to_x509, cbor_deserialize.
  intros Hp. no_panic Hp; try (by eapply sign1_verify_no_panic); try (by eapply verify_is_valid_at_no_panic).
  - destruct (name_spaces s) as [ns|]; [by eapply verify_names_no_panic|done].
  - revert Hp. apply try_map_no_panic. intros a Ha. no_panic Ha.
Qed.
Lemma Document_verify_no_panic d eph t time anchors : Document_verify d eph t time anchors ≠ Panic.
Proof.
  unfold Document_verify, tagged_serialize, device_authentication_bytes. intros Hp. no_panic Hp; [by eapply IssuerSigned_verify_no_panic|].
  destruct x as [attrs mso]. no_panic Hp.
  - unfold tagged_serialize in Hp. no_panic Hp.
  - unfold verifying_key_from_cose_key in Hp. no_panic Hp.
  - destruct (device_auth (device_signed d)) as [sig|mac]; no_panic Hp; [by eapply sign1_verify_no_panic| |].
    + unfold dh_hmac_key, hmac_key in Hp. no_panic Hp.
    + unfold mac0_verify in Hp. case_match; no_panic Hp.
Qed.
Lemma DeviceResponse_verify_no_panic r eph t time anchors : DeviceResponse_verify r eph t time anchors ≠ Panic.
Proof.
  unfold DeviceResponse_verify. destruct (document_errors r); [done|]. destruct (negb _); [done|]. destruct (documents r) as [docs|]; [|done].
  generalize (@nil (DocType * DocumentDisclosedAttributes)). induction docs as [|d docs IH]; intros acc; [done|]. cbn.
  destruct (Document_verify d eph t time anchors) as [da| |] eqn:Hd; [apply IH|done|by apply Document_verify_no_panic in Hd].
Qed.

(** ** What the handlers do to the store *)
Lemma iso_get_session_eq tok s : get_session tok s = (ok_or (IVerification (UnknownSessionId tok)) (view s !! tok), s).
Proof. unfold get_session, sbind, st_map_err, st_lift. by rewrite get_spec. Qed.

(** A return URL template is given exactly when the use case wants one. *)
Definition url_allowed (u : UseCase) (url : option string) : Prop :=
  match session_type_return_url u with NeitherReturnUrl => url = None | _ => is_Some url end.

Lemma iso_new_session_cases now random key requests uc template s r s' :
  new_session now random key v requests uc template s = (r, s') →
  (s' = s ∧ is_ok r = false) ∨
  ∃ u url, r = Ok random ∧ view s !! random = None ∧ requests ≠ [] ∧ use_cases v !! uc = Some u ∧ url_allowed u url ∧
    view s' = <[random := mkSessionState (DCreated (mkCreated _ _ requests uc url key)) random now]> (view s).
Proof.
  unfold new_session, url_allowed. intros Hr. apply bind_lift_inv in Hr as [(u & Hu & Hr)|[(e & _ & -> & ->)|(_ & -> & ->)]]; [|by left..].
  apply ok_or_Ok in Hu. apply bind_lift_inv in Hr as [([] & Hq & Hr)|[(e & _ & -> & ->)|(_ & -> & ->)]]; [|by left..].
  apply guard_err_Ok in Hq. zbool. apply bind_lift_inv in Hr as [([] & Ha & Hr)|[(e & _ & -> & ->)|(_ & -> & ->)]]; [|by left..].
  apply guard_err_Ok, negb_true_iff in Ha.
  apply bind_lift_inv in Hr as [(url & Hurl & Hr)|[(e & _ & -> & ->)|(_ & -> & ->)]]; [|by left..].
  apply st_bind_inv in Hr as [([] & s1 & Hw & [= <- <-])|[(e & Hw & ->)|[Hw ->]]]; unfold st_map_err in Hw;
    destruct (store_write _ true s) as [o s2] eqn:W; apply write_inv in W as [(-> & Hnew & Hv & _)|(-> & _ & _ & ->)]; cbn in Hw; simplify_eq; [|by left].
  destruct Hnew as [?|Hnone]; [done|]. right. exists u, url. split_and!; try done.
  - by intros ->.
  - destruct (session_type_return_url u), template as [t|]; zbool; try naive_solver;
      apply bind_Ok in Hurl as (? & _ & [= <-]); eauto.
Qed.

(** What a message makes of a session: the answer and the next state. *)
Definition handle_message (now : Z) (nonce msg : string) (tok : SessionToken) (url : string) (d : DisclosureData)
    : outcome IsoError (SessionData * DisclosureData) :=
  match d with
  | DCreated c =>
      let* st := verify_ephemeral_id now v tok url in
      let* de := map_err (λ e, IMdoc (MCbor e)) (cbor_deserialize (T:=DeviceEngagement) msg) in
      match process_device_engagement_inner nonce c de url st v with
      | Ok (response, n, key, re) =>
          Ok (response, DWaitingForResponse (mkWaiting _ _ (cr_items_requests c) n key (cr_ephemeral_privkey c) (mkTranscriptData st re de)))
      | Err e => Ok (new_decoding_error, DDone (mkDone (RFailed (show e))))
      | Panic => Panic
      end
  | DWaitingForResponse w =>
      let* m := map_err (λ e, IMdoc (MCbor e)) (cbor_deserialize (T:=SessionData) msg) in
      match sd_status m with
      | Some status => Ok (new_termination, DDone (mkDone (result_of_status status)))
      | None =>
          match process_response_inner w m now (v_trust_anchors v) with
          | Ok (response, attrs, n) => Ok (response, DDone (mkDone (RDone attrs n)))
          | Err e => Ok (new_decoding_error, DDone (mkDone (RFailed (show (IMdoc e)))))
          | Panic => Panic
          end
      end
  | DDone done => Err (IVerification (SessionIsDone (result_state (session_result done))))
  end.

Lemma process_message_eq now nonce msg tok url s :
  process_message show now nonce v msg tok url s =
  match (let* x := ok_or (IVerification (UnknownSessionId tok)) (view s !! tok) in
         let* r := handle_message now nonce msg tok url (data x) in Ok (r.1, mkSessionState r.2 (token x) now)) with
  | Ok (response, x) => (Ok response, (store_write x false s).2)
  | Err e => (Err e, s)
  | Panic => (Panic, s)
  end.
Proof.
  unfold process_message. unfold sbind at 1. rewrite iso_get_session_eq. destruct (view s !! tok) as [[d tk la]|]; [|done]. cbn [ok_or obind data token].
  assert (∀ x, store_write x false s = (Ok tt, (store_write x false s).2)) as Hw by (intros x; destruct (write_false x s) as (s1 & -> & _); done).
  destruct d as [c|w|dn]; cbn [handle_message]; [| |done].
  - unfold sbind, st_lift, st_map_err, process_device_engagement. destruct (verify_ephemeral_id now v tok url) as [st| |]; cbn [obind]; [|done..].
    destruct (map_err _ (cbor_deserialize msg)) as [de| |]; cbn [obind]; [|done..]. cbn [with_data data].
    destruct (process_device_engagement_inner nonce c de url st v) as [[[[resp n] k] re]|e|]; cbn [never map_err]; [| |done];
      cbn [snd]; by rewrite Hw.
  - unfold sbind, st_lift, st_map_err, process_response. destruct (map_err _ (cbor_deserialize msg)) as [m| |]; cbn [obind]; [|done..].
    destruct (sd_status m) as [status|]; cbn [never map_err]; [cbn [snd sret]; by rewrite Hw|]. cbn [with_data data].
    destruct (process_response_inner w m now (v_trust_anchors v)) as [[[resp attrs] n]|e|]; cbn [never map_err]; [| |done];
      cbn [snd sret]; by rewrite Hw.
Qed.

(** ** The engagement of a device *)
Lemma try_new_Ok priv url re : ReaderEngagement_try_new priv url = Ok re →
  ∃ sec, security_of_public_key (secret_public_key priv) = Ok sec ∧ security (int_map re) = Some sec ∧ engagement_url re = Some url.
Proof. unfold ReaderEngagement_try_new. intros He. apply bind_Ok in He as (sec & Hs & [= <-]). apply map_err_Ok in Hs. by exists sec. Qed.

Lemma transcript_total st re de sec : security (int_map re) = Some sec → ∃ t, SessionTranscript_new_iso st re de = Ok t.
Proof. unfold SessionTranscript_new_iso. intros ->. by eexists. Qed.

(** An engagement that is answered with a request: what it rests on, and the key
    under which the device answers. *)
Lemma engagement_inner_Ok nonce c de url st resp n key re :
  process_device_engagement_inner nonce c de url st v = Ok (resp, n, key, re) →
  ∃ u t sec pk our req ret, verify_origin_infos (origin_infos (int_map de)) = Ok tt ∧
    ReaderEngagement_try_new (cr_ephemeral_privkey c) url = Ok re ∧ SessionTranscript_new_iso st re de = Ok t ∧
    use_cases v !! cr_usecase_id c = Some u ∧ session_return_url u st (cr_return_url c) = Ok ret ∧
    n = snd <$> (add_nonce_to_return_url nonce <$> ret) ∧
    new_device_request (cr_items_requests c) t (fst <$> (add_nonce_to_return_url nonce <$> ret)) (key_pair u) = Ok req ∧
    security (int_map de) = Some sec ∧ public_key_of_security sec = Ok pk ∧
    SessionKey_new (cr_ephemeral_privkey c) pk t ReaderUser = Ok our ∧ SessionKey_new (cr_ephemeral_privkey c) pk t DeviceUser = Ok key ∧
    serialize_and_encrypt req our = Ok resp.
Proof.
  unfold process_device_engagement_inner. intros Hi. apply bind_Ok in Hi as ([] & Ho & Hi). apply bind_Ok in Hi as (re' & Hre & Hi).
  apply map_err_Ok in Hre. apply bind_Ok in Hi as (t & Ht & Hi). apply bind_Ok in Hi as (u & Hu & Hi). apply ok_or_Ok in Hu.
  apply bind_Ok in Hi as (ret & Hret & Hi). apply bind_Ok in Hi as (req & Hreq & Hi). apply map_err_Ok in Hreq.
  apply bind_Ok in Hi as (sec & Hsec & Hi). apply ok_or_Ok in Hsec. apply bind_Ok in Hi as (pk & Hpk & Hi). apply map_err_Ok in Hpk.
  apply bind_Ok in Hi as (our & Hour & Hi). apply map_err_Ok in Hour. apply bind_Ok in Hi as (their & Htheir & Hi). apply map_err_Ok in Htheir.
  apply bind_Ok in Hi as (sd & Hsd & Heq). apply map_err_Ok in Hsd. injection Heq as <- <- <- <-.
  exists u, t, sec, pk, our, req, ret. split_and!; try done. by destruct (SessionTranscript_new_iso _ _ _); simplify_eq.
Qed.

Lemma new_device_request_no_panic rs t url kp : new_device_request rs t url kp ≠ Panic.
Proof.
  unfold new_device_request. intros Hp. apply bind_Panic in Hp as [Hp|(? & _ & [=])]. revert Hp. apply try_map_no_panic.
  intros r. unfold sign_doc_request, reader_authentication_bytes, tagged_serialize. intros Hp. no_panic Hp.
Qed.
Lemma engagement_inner_no_panic nonce c de url st : process_device_engagement_inner nonce c de url st v ≠ Panic.
Proof.
  unfold process_device_engagement_inner, verify_origin_infos. intros Hp.
  apply bind_Panic in Hp as [Hp|([] & _ & Hp)]; [no_panic Hp|].
  apply bind_Panic in Hp as [Hp|(re & Hre & Hp)].
  { unfold ReaderEngagement_try_new, security_of_public_key, cose_key_from_verifying_key in Hp. no_panic Hp. by destruct x. }
  apply map_err_Ok, try_new_Ok in Hre as (sec & _ & Hsec & _). destruct (transcript_total st re de sec Hsec) as [t Ht]. rewrite Ht in Hp. cbn [obind] in Hp.
  apply bind_Panic in Hp as [Hp|(u & _ & Hp)]; [no_panic Hp|].
  apply bind_Panic in Hp as [Hp|(ret & _ & Hp)].
  { unfold session_return_url in Hp. by destruct (session_type_return_url u), st, (cr_return_url c). }
  apply bind_Panic in Hp as [Hp|(req & _ & Hp)]; [by apply map_err_Panic, new_device_request_no_panic in Hp|].
  apply bind_Panic in Hp as [Hp|(s & _ & Hp)]; [no_panic Hp|].
  apply bind_Panic in Hp as [Hp|(pk & _ & Hp)]; [unfold public_key_of_security, verifying_key_from_cose_key in Hp; no_panic Hp|].
  apply bind_Panic in Hp as [Hp|(our & Hour & Hp)]; [by apply map_err_Panic, SessionKey_new_never_panics in Hp|].
  apply bind_Panic in Hp as [Hp|(their & _ & Hp)]; [by apply map_err_Panic, SessionKey_new_never_panics in Hp|].
  apply bind_Panic in Hp as [Hp|(sd & _ & [=])]. apply map_err_Panic in Hp. apply map_err_Ok, SessionKey_new_wf in Hour. by eapply encrypt_never_panics in Hp.
Qed.

(** The response of a device that is accepted. *)
Lemma response_inner_Ok w m time anchors resp attrs n : process_response_inner w m time anchors = Ok (resp, attrs, n) →
  resp = mkSessionData None (Some Termination) ∧ n = w_return_url_nonce w ∧
  ∃ dr t, decrypt_and_deserialize (T:=DeviceResponse) m (w_their_key w) = Ok dr ∧ transcript_of_data (w_session_transcript_data w) = Ok t ∧
    DeviceResponse_verify dr (Some (w_ephemeral_privkey w)) t time anchors = Ok attrs ∧ match_against_response (w_items_requests w) dr = Ok tt.
Proof.
  unfold process_response_inner. intros Hi. apply bind_Ok in Hi as (dr & Hdr & Hi). apply bind_Ok in Hi as (t & Ht & Hi).
  apply bind_Ok in Hi as (a & Ha & Hi). apply bind_Ok in Hi as ([] & Hm & [= <- <- <-]). split_and!; [done..|]. exists dr, t. split_and!; try done.
  by destruct (transcript_of_data _); simplify_eq.
Qed.

(** ** Well-formed sessions *)
Definition session_typed (d : DisclosureData) : Prop :=
  match d with
  | DCreated c => cr_items_requests c ≠ [] ∧ ∃ u, use_cases v !! cr_usecase_id c = Some u ∧ url_allowed u (cr_return_url c)
  | DWaitingForResponse w => w_items_requests w ≠ [] ∧ key_wf DeviceUser (w_their_key w) ∧
      is_ok (transcript_of_data (w_session_transcript_data w)) = true
  | DDone _ => True
  end.
Definition store_typed (s : S) : Prop :=
  ∀ tok (x : SessionState DisclosureData), view s !! tok = Some x → token x = tok ∧ session_typed (data x).

Lemma response_inner_no_panic w m time anchors : session_typed (DWaitingForResponse w) → process_response_inner w m time anchors ≠ Panic.
Proof.
  intros (_ & Hk & Ht) Hp. unfold process_response_inner in Hp. apply bind_Panic in Hp as [Hp|(dr & _ & Hp)]; [by eapply decrypt_never_panics in Hp|].
  destruct (transcript_of_data _) as [t| |]; [|done..]. cbn [obind] in Hp.
  apply bind_Panic in Hp as [Hp|(a & _ & Hp)]; [by apply DeviceResponse_verify_no_panic in Hp|].
  apply bind_Panic in Hp as [Hp|(? & _ & [=])]. unfold match_against_response in Hp. by case_match.
Qed.

(** A message takes a well-formed session to a well-formed session, and does not panic. *)
Lemma handle_message_typed now nonce msg tok url d : session_typed d →
  match handle_message now nonce msg tok url d with Ok (_, d') => session_typed d' | Err _ => True | Panic => False end.
Proof.
  intros Hd. destruct d as [c|w|dn]; cbn [handle_message]; [| |done].
  - destruct (verify_ephemeral_id now v tok url) as [st| |] eqn:Hv; cbn [obind]; [|done|unfold verify_ephemeral_id in Hv; no_panic Hv].
    unfold cbor_deserialize. destruct (from_reader msg ≫= deserialized) as [de|]; cbn; [|done].
    destruct (process_device_engagement_inner nonce c de url st v) as [[[[resp n] k] re]|e|] eqn:Hi; [|done|by apply engagement_inner_no_panic in Hi].
    apply engagement_inner_Ok in Hi as (u & t & sec & pk & our & req & ret & _ & _ & Ht & _ & _ & _ & _ & _ & _ & _ & Hk & _).
    destruct Hd as [Hne _]. cbn. split_and!; [done|by eapply SessionKey_new_wf|]. unfold transcript_of_data. cbn. by rewrite Ht.
  - unfold cbor_deserialize. destruct (from_reader msg ≫= deserialized) as [m|]; cbn; [|done]. destruct (sd_status m); [done|].
    destruct (process_response_inner w m now (v_trust_anchors v)) as [[[resp attrs] n]|e|] eqn:Hi; [done..|]. by apply response_inner_no_panic in Hi.
Qed.

(** ** Runs of the server

    A message is one step, from reading the session to writing it.  The server does
    not lock the session in between: of messages that overlap each one is handled
    with the session that it has read. *)
Inductive iso_step (s : S) : S → Prop :=
  | iso_new now random key requests uc template r s' : new_session now random key v requests uc template s = (r, s') → iso_step s s'
  | iso_message now nonce msg tok url r s' : process_message show now nonce v msg tok url s = (r, s') → iso_step s s'
  | iso_status tok st ul uri time r s' : status_response v tok st ul uri time s = (r, s') → iso_step s s'
  | iso_attributes tok n r s' : verifier_disclosed_attributes tok n s = (r, s') → iso_step s s'
  | iso_cleanup now r s' : store_cleanup (T:=DisclosureData) now s = (r, s') → iso_step s s'.

Lemma iso_status_response_state tok st ul uri time s r s' : status_response v tok st ul uri time s = (r, s') → s' = s.
Proof.
  unfold status_response. unfold sbind at 1. rewrite iso_get_session_eq. destruct (view s !! tok) as [[[c|w|[[]]] tk la]|]; cbn; try by intros [= <- <-].
  unfold sbind, st_lift. repeat (case_match; try by intros [= <- <-]).
Qed.
Lemma iso_attributes_cases tok n s r s' : verifier_disclosed_attributes tok n s = (r, s') →
  s' = s ∧ ∀ attrs, r = Ok attrs →
    ∃ stored, session_data s tok = Some (DDone (mkDone (RDone attrs stored))) ∧ (stored = None ∨ stored = n).
Proof.
  unfold verifier_disclosed_attributes, sbind, session_data. rewrite iso_get_session_eq.
  destruct (view s !! tok) as [[[c|w|[res]] tk la]|]; cbn; try by intros [= <- <-].
  destruct res as [attrs stored| | |]; try by intros [= <- <-].
  destruct n as [received|], stored as [stored|]; try case_decide; intros [= <- <-]; split; try done; intros a [= <-]; eauto. subst. eauto.
Qed.

(** What a step does to the sessions: one session is created, or takes a message,
    or any number of them expire or are removed. *)
Inductive session_change (tok : SessionToken) : option DisclosureData → option DisclosureData → Prop :=
  | ch_none o : session_change tok o o
  | ch_created c : session_typed (DCreated c) → session_change tok None (Some (DCreated c))
  | ch_message now nonce msg url d response d' : handle_message now nonce msg tok url d = Ok (response, d') →
      session_change tok (Some d) (Some d')
  | ch_expired d : session_change tok (Some d) (Some (DDone (mkDone RExpired)))
  | ch_removed d : session_change tok (Some (DDone d)) None.

Lemma cleanup_change tok to now (x : SessionState DisclosureData) :
  session_change tok (Some (data x)) (data <$> cleanup_session to now x) ∧ ∀ y, cleanup_session to now x = Some y → token y = token x.
Proof.
  unfold cleanup_session, cleanup_keeps, must_expire.
  destruct x as [[c|w|[[a n|e| |]]] tk la]; cbn; repeat (case_match; cbn); split; try constructor; try done; by intros y [= <-].
Qed.
Definition well_keyed (s : S) : Prop := ∀ tok (x : SessionState DisclosureData), view s !! tok = Some x → token x = tok.
Lemma insert_change s s' (x : SessionState DisclosureData) : well_keyed s → view s' = <[token x := x]> (view s) →
  session_change (token x) (session_data s (token x)) (Some (data x)) →
  well_keyed s' ∧ ∀ tok, session_change tok (session_data s tok) (session_data s' tok).
Proof.
  intros Hk Hv Hc. split.
  - intros tok y. rewrite Hv. destruct (decide (token x = tok)) as [<-|Hne]; [rewrite lookup_insert_eq; by intros [= <-]|].
    rewrite lookup_insert_ne by done. apply Hk.
  - intros tok. rewrite (session_data_insert _ _ _ _ Hv). case_decide; [by subst|constructor].
Qed.
Lemma iso_step_changes s s' : well_keyed s → iso_step s s' → well_keyed s' ∧ ∀ tok, session_change tok (session_data s tok) (session_data s' tok).
Proof.
  intros Hk Hstep. destruct Hstep as [now random key requests uc template r s' Hr|now nonce msg tok url r s' Hr|tok st ul uri time r s' Hr
    |tok n r s' Hr|now r s' Hr].
  - apply iso_new_session_cases in Hr as [[-> _]|(u & url & -> & Hn & Hne & Hu & Ha & Hv)]; [split; [done|constructor]|].
    apply (insert_change s s' _ Hk Hv). unfold session_data. cbn. rewrite Hn. constructor. cbn. eauto.
  - rewrite process_message_eq in Hr. destruct (view s !! tok) as [x|] eqn:Hx; cbn in Hr; [|injection Hr as <- <-; split; [done|constructor]].
    destruct (handle_message now nonce msg tok url (data x)) as [[resp d]|e|] eqn:Hh; cbn in Hr; injection Hr as <- <-;
      [|split; [done|constructor]..].
    destruct (write_false (mkSessionState d (token x) now) s) as (s1 & -> & Hv). cbn. apply (insert_change s s1 _ Hk Hv). cbn.
    rewrite (Hk _ _ Hx). unfold session_data. rewrite Hx. by econstructor.
  - apply iso_status_response_state in Hr as ->. split; [done|constructor].
  - apply iso_attributes_cases in Hr as [-> _]. split; [done|constructor].
  - apply cleanup_inv in Hr as (_ & Hv & _). unfold well_keyed, session_data. setoid_rewrite Hv. unfold abstract_cleanup. split.
    + intros tok x. rewrite lookup_omap. destruct (view s !! tok) as [y|] eqn:Hy; [|done]. cbn. intros Hx.
      apply (cleanup_change tok) in Hx. by rewrite Hx, (Hk _ _ Hy).
    + intros tok. rewrite lookup_omap. destruct (view s !! tok) as [y|]; cbn; [apply cleanup_change|constructor].
Qed.

Lemma change_typed tok o o' : from_option session_typed True o → session_change tok o o' → from_option session_typed True o'.
Proof.
  intros Ho Hc. destruct Hc as [o|c Hc|now nonce msg url d resp d' Hh|d|d]; cbn in *; try done.
  apply (handle_message_typed now nonce msg tok url) in Ho. by rewrite Hh in Ho.
Qed.
Lemma run_typed s0 s : view s0 = ∅ → rtc iso_step s0 s → well_keyed s ∧ ∀ tok, from_option session_typed True (session_data s tok).
Proof.
  intros He. apply (rtc_ind_r (λ s, well_keyed s ∧ ∀ tok, from_option session_typed True (session_data s tok))).
  - unfold well_keyed, session_data. rewrite He. split; intros tok; [intros x|]; by rewrite lookup_empty.
  - intros s1 s2 _ Hs [Hk Ht]. apply iso_step_changes in Hs as [Hk' Hc]; [|done]. split; [done|]. intros tok. eapply change_typed; [apply Ht|apply Hc].
Qed.

(** C39. Sessions stay well-formed, and the server does not panic: in every state
    that the server reaches from an empty store, every session is stored under
    its own token; a created session asks for something under a configured use
    case with a return URL as that use case wants it; a waiting session has a key
    of 32 bytes for the messages of the device and engagements from which its
    transcript can be made; and no message of a device, whatever its bytes, makes
    the server panic, nor does asking for the result. *)
Theorem iso_sessions_typed s0 s (Hempty : view s0 = ∅) (Hrun : rtc iso_step s0 s) :
  (∀ tok (x : SessionState DisclosureData), view s !! tok = Some x → token x = tok ∧ session_typed (data x)) ∧
  (∀ now nonce msg tok url, (process_message show now nonce v msg tok url s).1 ≠ Panic) ∧
  (∀ tok n, (verifier_disclosed_attributes tok n s).1 ≠ Panic).
Proof.
  destruct (run_typed s0 s Hempty Hrun) as [Hk Ht]. split_and!.
  - intros tok x Hx. split; [by apply Hk|]. specialize (Ht tok). unfold session_data in Ht. by rewrite Hx in Ht.
  - intros now nonce msg tok url. rewrite process_message_eq. specialize (Ht tok). unfold session_data in Ht.
    destruct (view s !! tok) as [x|]; [|done]. cbn in *. apply (handle_message_typed now nonce msg tok url) in Ht.
    by destruct (handle_message now nonce msg tok url (data x)) as [[]| |].
  - intros tok n. unfold verifier_disclosed_attributes, sbind. rewrite iso_get_session_eq.
    destruct (view s !! tok) as [[[c|w|[[]]] tk la]|]; cbn; try done. destruct n, return_url_nonce; try case_decide; done.
Qed.

(** ** Where disclosed attributes come from *)
Definition waiting_origin (s0 s : S) (tok : SessionToken) (w : WaitingForResponse) : Prop :=
  ∃ s1 c now nonce url de resp, rtc iso_step s0 s1 ∧ rtc iso_step s1 s ∧ session_data s1 tok = Some (DCreated c) ∧
    verify_ephemeral_id now v tok url = Ok (td_session_type (w_session_transcript_data w)) ∧
    process_device_engagement_inner nonce c de url (td_session_type (w_session_transcript_data w)) v =
      Ok (resp, w_return_url_nonce w, w_their_key w, td_reader_engagement (w_session_transcript_data w)) ∧
    w_items_requests w = cr_items_requests c ∧ w_ephemeral_privkey w = cr_ephemeral_privkey c ∧
    td_device_engagement (w_session_transcript_data w) = de.
Definition session_origin (s0 s : S) (tok : SessionToken) (d : DisclosureData) : Prop :=
  match d with
  | DWaitingForResponse w => waiting_origin s0 s tok w
  | DDone (mkDone (RDone attrs n)) =>
      ∃ w m time resp, waiting_origin s0 s tok w ∧ process_response_inner w m time (v_trust_anchors v) = Ok (resp, attrs, n)
  | _ => True
  end.
Lemma waiting_origin_later s0 s s' tok w : iso_step s s' → waiting_origin s0 s tok w → waiting_origin s0 s' tok w.
Proof. intros Hs (s1 & c & now & nonce & url & de & resp & Hr1 & Hr2 & Hrest). exists s1, c, now, nonce, url, de, resp. split_and!; try apply Hrest; [done|by eapply rtc_r]. Qed.
Lemma session_origin_later s0 s s' tok d : iso_step s s' → session_origin s0 s tok d → session_origin s0 s' tok d.
Proof.
  intros Hs. destruct d as [|w|[[attrs n| | |]]]; cbn; try done; [by apply waiting_origin_later|].
  intros (w & m & time & resp & Hw & Hi). exists w, m, time, resp. split; [by eapply waiting_origin_later|done].
Qed.
Lemma handle_message_origin s0 s s' tok now nonce msg url d resp d' : rtc iso_step s0 s → iso_step s s' → session_data s tok = Some d →
  session_origin s0 s tok d → handle_message now nonce msg tok url d = Ok (resp, d') → session_origin s0 s' tok d'.
Proof.
  intros Hr Hs Hd Ho Hh. apply (session_origin_later _ _ s') in Ho; [|done]. destruct d as [c|w|dn]; cbn [handle_message] in Hh; [| |done].
  - apply bind_Ok in Hh as (st & Hst & Hh). apply bind_Ok in Hh as (de & _ & Hh).
    destruct (process_device_engagement_inner nonce c de url st v) as [[[[rs n] k] re]|e|] eqn:Hi; [|by injection Hh as <- <-|done].
    injection Hh as <- <-. exists s, c, now, nonce, url, de, rs. split_and!; try done. by apply rtc_once.
  - apply bind_Ok in Hh as (m & _ & Hh). destruct (sd_status m) as [[]|]; [by injection Hh as <- <-..|].
    destruct (process_response_inner w m now (v_trust_anchors v)) as [[[rs attrs] n]|e|] eqn:Hi; [|by injection Hh as <- <-|done].
    injection Hh as <- <-. cbn. eauto 8.
Qed.
Lemma run_origin s0 s : view s0 = ∅ → rtc iso_step s0 s → ∀ tok d, session_data s tok = Some d → session_origin s0 s tok d.
Proof.
  intros He Hrun. assert (rtc iso_step s0 s ∧ ∀ tok d, session_data s tok = Some d → session_origin s0 s tok d) as [_ Ho]; [|done].
  revert s Hrun. apply (rtc_ind_r (λ s, rtc iso_step s0 s ∧ ∀ tok d, session_data s tok = Some d → session_origin s0 s tok d)).
  - split; [done|]. intros tok d. unfold session_data. by rewrite He, lookup_empty.
  - intros s1 s2 Hr Hs [_ Ho]. split; [by eapply rtc_r|]. intros tok d Hd.
    destruct (run_typed _ _ He Hr) as [Hk _]. pose proof (proj2 (iso_step_changes _ _ Hk Hs) tok) as Hc. rewrite Hd in Hc.
    inversion Hc as [o|c Hc' Hold|now nonce msg url d0 resp d' Hh Hold|d0 Hold|]; subst; try done.
    + eapply session_origin_later; [done|]. by apply Ho.
    + eapply handle_message_origin; [done..| |exact Hh]. by apply Ho.
Qed.

(** C4. A relying party only ever obtains verified attributes, in ISO 18013-5
    sessions too: in every state that the server reaches from an empty store, by
    any messages, attributes that are handed out come from a device that answered
    an engagement of a session that was created earlier in this run, at a URL
    with a valid ephemeral identifier; the response was encrypted to the key of
    that session, verified against the transcript of both engagements and the
    trust anchors, and contains all attributes that the session was created for;
    and when the session has a return URL, its nonce was presented. *)
Theorem iso_disclosed_attributes_verified s0 s tok n attrs s'
    (Hempty : view s0 = ∅) (Hrun : rtc iso_step s0 s) (Hattrs : verifier_disclosed_attributes tok n s = (Ok attrs, s')) :
  ∃ s1 c now url st re de sec pk t key m dr time stored,
    rtc iso_step s0 s1 ∧ rtc iso_step s1 s ∧ session_data s1 tok = Some (DCreated c) ∧ verify_ephemeral_id now v tok url = Ok st ∧
    ReaderEngagement_try_new (cr_ephemeral_privkey c) url = Ok re ∧ SessionTranscript_new_iso st re de = Ok t ∧
    security (int_map de) = Some sec ∧ public_key_of_security sec = Ok pk ∧ SessionKey_new (cr_ephemeral_privkey c) pk t DeviceUser = Ok key ∧
    decrypt_and_deserialize (T:=DeviceResponse) m key = Ok dr ∧
    DeviceResponse_verify dr (Some (cr_ephemeral_privkey c)) t time (v_trust_anchors v) = Ok attrs ∧
    match_against_response (cr_items_requests c) dr = Ok tt ∧
    session_data s tok = Some (DDone (mkDone (RDone attrs stored))) ∧ (stored = None ∨ stored = n).
Proof.
  destruct (iso_attributes_cases _ _ _ _ _ Hattrs) as [-> Hd]. destruct (Hd _ eq_refl) as (stored & Hs & Hn).
  destruct (run_origin _ _ Hempty Hrun _ _ Hs) as (w & m & time & resp & (s1 & c & now & nonce & url & de & rs & Hr1 & Hr2 & Hc & He & Hi & Hr & Hp & Hde) & Hin).
  apply engagement_inner_Ok in Hi as (u & t & sec & pk & our & req & ret & _ & Hre & Ht & _ & _ & _ & _ & Hsec & Hpk & _ & Hk & _).
  apply response_inner_Ok in Hin as (_ & _ & dr & t' & Hdr & Ht' & Hv & Hm). unfold transcript_of_data in Ht'. rewrite Hde, Ht in Ht'. injection Ht' as <-.
  rewrite Hp in Hv. rewrite Hr in Hm. eexists s1, c, now, url, _, _, de, sec, pk, t, _, m, dr, time, stored. split_and!; try done.
Qed.
(** ** A session ends *)

(** The number of messages that a session can still answer. *)
Definition messages_left (o : option DisclosureData) : nat :=
  match o with Some (DCreated _) => 2 | Some (DWaitingForResponse _) => 1 | _ => 0 end.
Lemma handle_message_left now nonce msg tok url d response d' : handle_message now nonce msg tok url d = Ok (response, d') →
  (messages_left (Some d') < messages_left (Some d))%nat.
Proof.
  destruct d as [c|w|dn]; cbn [handle_message]; [| |done]; intros Hh.
  - apply bind_Ok in Hh as (st & _ & Hh). apply bind_Ok in Hh as (de & _ & Hh). destruct (process_device_engagement_inner _ _ _ _ _ _) as [[[[]]]| |];
      simplify_eq; cbn; lia.
  - apply bind_Ok in Hh as (m & _ & Hh). repeat (case_match; simplify_eq; cbn; try lia).
Qed.

(** [n] messages to one session are answered, in any order with what else the
    server does, among which the token is not used for a new session. *)
Inductive conversation (tok : SessionToken) : nat → S → S → Prop :=
  | conversation_none s : conversation tok 0 s s
  | conversation_message n s s1 s2 now nonce msg url response :
      process_message show now nonce v msg tok url s = (Ok response, s1) → conversation tok n s1 s2 → conversation tok (Datatypes.S n) s s2
  | conversation_other n s s1 s2 : iso_step s s1 → (session_data s tok = None → session_data s1 tok = None) →
      conversation tok n s1 s2 → conversation tok n s s2.

Lemma message_left now nonce msg tok url s response s1 : well_keyed s → process_message show now nonce v msg tok url s = (Ok response, s1) →
  (messages_left (session_data s1 tok) < messages_left (session_data s tok))%nat.
Proof.
  intros Hk Hp. rewrite process_message_eq in Hp. unfold session_data. destruct (view s !! tok) as [x|] eqn:Hx; [|done]. cbn in Hp.
  destruct (handle_message now nonce msg tok url (data x)) as [[resp d]| |] eqn:Hh; cbn in Hp; [|done..]. injection Hp as <- <-.
  destruct (write_false (mkSessionState d (token x) now) s) as (s2 & -> & Hv). cbn [snd]. rewrite Hv. cbn.
  rewrite (Hk _ _ Hx), lookup_insert_eq. cbn. by eapply handle_message_left.
Qed.
Lemma change_left tok o o' : session_change tok o o' → (o = None → o' = None) → (messages_left o' ≤ messages_left o)%nat.
Proof.
  intros Hc Hn. destruct Hc as [o|c Hc|now nonce msg url d resp d' Hh|d|d]; cbn; try lia; [by specialize (Hn eq_refl)|].
  apply handle_message_left in Hh. cbn in *. lia.
Qed.
Lemma conversation_left tok n s s' : well_keyed s → conversation tok n s s' →
  (n + messages_left (session_data s' tok) ≤ messages_left (session_data s tok))%nat.
Proof.
  intros Hk Hc. induction Hc as [s|n s s1 s2 now nonce msg url resp Hp _ IH|n s s1 s2 Hs Hn _ IH]; [lia| |].
  - assert (iso_step s s1) as Hs by (by eapply iso_message). pose proof (message_left _ _ _ _ _ _ _ _ Hk Hp).
    apply iso_step_changes in Hs as [Hk' _]; [|done]. specialize (IH Hk'). lia.
  - apply iso_step_changes in Hs as [Hk' Hch]; [|done]. specialize (IH Hk'). pose proof (change_left _ _ _ (Hch tok) Hn). lia.
Qed.

(** C38. Every session ends after at most two messages, when messages are handled one
    after the other: in every run of the server,
    and whatever else it does in between, at most two messages to one session are
    answered; a session that has answered two of them is done or removed, and
    every further message to it is refused and changes nothing. *)
Theorem iso_session_terminates s0 s tok n s' (Hempty : view s0 = ∅) (Hrun : rtc iso_step s0 s) (Hconv : conversation tok n s s') :
  (n ≤ 2)%nat ∧ (n = 2%nat → (session_data s' tok = None ∨ ∃ d, session_data s' tok = Some (DDone d)) ∧
    ∀ now nonce msg url, ∃ e, process_message show now nonce v msg tok url s' = (Err e, s')).
Proof.
  destruct (run_typed _ _ Hempty Hrun) as [Hk _]. pose proof (conversation_left _ _ _ _ Hk Hconv) as Hl.
  assert (∀ o, (messages_left o ≤ 2)%nat) as Hmax by (intros [[]|]; cbn; lia). pose proof (Hmax (session_data s tok)). split; [lia|]. intros ->.
  assert (messages_left (session_data s' tok) = 0%nat) as Hz by lia. revert Hz. unfold session_data. setoid_rewrite process_message_eq.
  destruct (view s' !! tok) as [[[c|w|d] tk la]|]; cbn; try done; intros _; split; eauto.
Qed.
End IsoVerifierFacts.
