(* ===== verification/IsoHolder.v ===== *)
(** * The wallet's side of an ISO 18013-5 disclosure

    Models [mdoc/src/holder/disclosure/session.rs], [engagement.rs],
    [mdoc/src/holder/http_client.rs] and the errors of [mdoc/src/holder/mod.rs]:
    starting a session from the engagement of a reader, verifying its request, and
    disclosing or refusing.

    What the verifier answers is a function of the messages sent so far, which
    stands for any peer; the state of the session's code is the log of these
    messages with their addresses.  The crate [reqwest] is a parameter. *)
From stdpp Require Import base gmap strings list option.
From Stdlib Require Import ZArith Lia.
From S2P Require Import Prelude IndexMap Crypto Jose Cbor Cose Engagement Mdoc MdocSigning ResponseCbor Holder.
From S2P Require Import Protocol OpenId4vp Verifier DisclosureSession IsoMessages.

(** ** Messages *)
Class CborPeer := {
  (** The answer to the last message of the log *)
  answer_post : list (string * string) → outcome ReqwestError HttpResponse
}.
Class SessionTypeLib `{!Ecdsa, !MacLib, !VerifierLib} := {
  (** [serde_urlencoded::from_str] of the parameter [session_type] alone *)
  session_type_from_str : string → option SessionType;
  session_type_of_parameters p s : parameters_to_string p = Some s → session_type_from_str s = Some (up_session_type p)
}.

Inductive HttpClientError := HttpCbor (e : CborError) | HttpRequestError (e : ReqwestError).

(** [CborHttpClient::post] *)
Definition post `{!Ciborium, !CborPeer} {R V} `{!SerdeCbor V, !SerdeCbor R} (url : string) (val : V)
    : ST (list (string * string)) HttpClientError R :=
  let! bytes := st_lift (map_err HttpCbor (cbor_serialize val)) in
  let! response_bytes := λ log, let log := log ++ [(url, bytes)] in
    (map_err HttpRequestError match answer_post log with
                              | Ok response => if is_error_status (http_status response) then Err status_error else http_body response
                              | Err e => Err e
                              | Panic => Panic
                              end, log) in
  st_lift (map_err HttpCbor (cbor_deserialize response_bytes)).

(** ** Errors *)

(** The errors of the crate: those that matching a request has too, and the ones
    of [HolderError] that only a session raises. *)
Inductive IsoHolderError :=
  | EMatch (e : DisclosureMatchError)
  | EMissingSessionType
  | EMalformedSessionType
  | EDisclosureUriSourceMismatch (session_type : SessionType) (source : DisclosureUriSource)
  | ERequestError (e : HttpClientError)
  | EVerifierUrlMissing
  | EVerifierEphemeralKeyMissing
  | EDisclosureResponse (s : IsoMessages.SessionStatus).
Definition mdoc_error (e : MdocError) : IsoHolderError := EMatch (DMdoc e).

(** [From<HttpClientError> for DisclosureError<Error>] *)
Definition disclosure_error_of_http (source : HttpClientError) : DisclosureError IsoHolderError :=
  let data_shared := match source with
                     | HttpCbor CborSerialization => false
                     | HttpCbor CborDeserialization => true
                     | HttpRequestError reqwest_error => negb (is_connect reqwest_error)
                     end in
  mkDisclosureError data_shared (ERequestError source).

(** ** Sessions *)
Record CommonDisclosureData := mkCommonData {
  cd_verifier_url : string;
  cd_certificate : Certificate;
  cd_reader_registration : ReaderRegistration;
  cd_session_type : SessionType
}.
Record DisclosureMissingAttributes := mkMissing { dm_data : CommonDisclosureData; missing_attributes : list AttributeIdentifier }.
Record DisclosureProposal (I : Type) := mkProposal {
  dp_return_url : option string;
  dp_data : CommonDisclosureData;
  dp_device_key : SessionKey;
  proposed_documents : list (ProposedDocument I)
}.
Arguments mkProposal {I}.
Arguments dp_return_url {I}.
Arguments dp_data {I}.
Arguments dp_device_key {I}.
Arguments proposed_documents {I}.
Inductive DisclosureSession (I : Type) :=
  | SessionMissingAttributes (s : DisclosureMissingAttributes)
  | SessionProposal (s : DisclosureProposal I).
Arguments SessionMissingAttributes {I}.
Arguments SessionProposal {I}.

Definition REFERRER_URL : string := "https://referrer.url/".

Section Sessions.
Context {I : Type}.
Context `{!Ecdsa, !X509Lib, !Coset, !Ciborium, !Sha256, !Chrono, !UrlLib, !MacLib, !IsoLib, !CoseSerde}.
Context `{!VerifierLib, !WalletUrlLib, !SessionTypeLib, !RegistrationLib, !CborPeer}.
Abbreviation Client := (ST (list (string * string))).

(** [ReaderEngagement::verifier_url] and [verifier_public_key] *)
Definition verifier_url (e : ReaderEngagement) : outcome IsoHolderError string := ok_or EVerifierUrlMissing (engagement_url e).
Definition verifier_public_key (e : ReaderEngagement) : outcome IsoHolderError VerifyingKey :=
  let* s := ok_or EVerifierEphemeralKeyMissing (security (int_map e)) in
  map_err (λ e, mdoc_error (MCrypto e)) (public_key_of_security s).

(** [transcript_and_keys_for_device_engagement] *)
Definition transcript_and_keys_for_device_engagement (e : ReaderEngagement) (session_type : SessionType) (device_engagement : DeviceEngagement)
    (device_private_key : SecretKey) : outcome IsoHolderError (SessionTranscript * SessionKey * SessionKey) :=
  let* verifier_public_key := verifier_public_key e in
  let* session_transcript := map_err (λ _, EVerifierEphemeralKeyMissing) (SessionTranscript_new_iso session_type e device_engagement) in
  let* reader_key := map_err mdoc_error (SessionKey_new device_private_key verifier_public_key session_transcript ReaderUser) in
  let* device_key := map_err mdoc_error (SessionKey_new device_private_key verifier_public_key session_transcript DeviceUser) in
  Ok (session_transcript, reader_key, device_key).

(** Sending a status, ignoring what comes back *)
Definition post_status (url : string) (d : SessionData) : Client IsoHolderError unit := λ log,
  match post (R:=SessionData) url d log with
  | (Panic, log) => (Panic, log)
  | (_, log) => (Ok tt, log)
  end.

(** [report_error_back] *)
Definition error_session_data (error : IsoHolderError) : SessionData :=
  match error with
  | EMatch (DMdoc (MCbor CborDeserialization)) => new_decoding_error
  | EMatch (DMdoc (MCrypto _)) => new_encryption_error
  | _ => new_termination
  end.
Definition report_error_back {T} (error : IsoHolderError) (url : string) : Client IsoHolderError T :=
  let! _ := post_status url (error_session_data error) in
  st_throw error.

(** [verify_device_request] *)
Definition verify_device_request (time : Z) (device_request : DeviceRequest) (session_transcript : SessionTranscript)
    (mdoc_data_source : MdocDataSource I) (trust_anchors : list TrustAnchor)
    : outcome DisclosureMatchError (VerifierSessionDataCheckResult I * Certificate * ReaderRegistration) :=
  let* _ := guard_err (has_attributes device_request) (DHolder HNoAttributesRequested) in
  let* verified := DeviceRequest_verify device_request session_transcript time trust_anchors in
  let* cr := ok_or (DHolder HReaderAuthMissing) verified in
  let '(certificate, reader_registration) := cr in
  let* matches := DisclosureRequestMatch_new (device_items_requests device_request) mdoc_data_source session_transcript in
  match matches with
  | MatchMissingAttributes missing_attributes => Ok (CheckMissingAttributes missing_attributes, certificate, reader_registration)
  | Candidates candidates_by_doc_type =>
      let many (c : DocType * list (ProposedDocument I)) : bool := bool_decide (1 < length c.2)%nat in
      if existsb many candidates_by_doc_type
      then Err (DHolder (HMultipleCandidates (filter (λ c, many c = true) candidates_by_doc_type).*1))
      else Ok (CheckProposedDocuments (mjoin candidates_by_doc_type.*2), certificate, reader_registration)
  end.

(** What [start] does with the answer of the verifier *)
Definition check_session_data (time : Z) (session_data : SessionData) (reader_key : SessionKey) (transcript : SessionTranscript)
    (mdoc_data_source : MdocDataSource I) (trust_anchors : list TrustAnchor)
    : outcome DisclosureMatchError (VerifierSessionDataCheckResult I * Certificate * ReaderRegistration * option string) :=
  let* device_request := map_err DMdoc (decrypt_and_deserialize (T:=DeviceRequest) session_data reader_key) in
  let* r := verify_device_request time device_request transcript mdoc_data_source trust_anchors in
  Ok (r, return_url device_request).

(** Sending the engagement; an answer that cannot be decoded is reported. *)
Definition exchange_engagement (url : string) (device_engagement : DeviceEngagement) : Client IsoHolderError SessionData := λ log,
  match post (R:=SessionData) url device_engagement log with
  | (Err error, log) =>
      match error with
      | HttpCbor CborDeserialization => (let! _ := post_status url new_decoding_error in st_throw (ERequestError error)) log
      | _ => (Err (ERequestError error), log)
      end
  | (Ok session_data, log) => (Ok session_data, log)
  | (Panic, log) => (Panic, log)
  end.

(** [DisclosureSession::start]; the private key of the device is drawn at random. *)
Definition start (time : Z) (ephemeral_privkey : SecretKey) (reader_engagement_bytes : string) (uri_source : DisclosureUriSource)
    (mdoc_data_source : MdocDataSource I) (trust_anchors : list TrustAnchor) : Client IsoHolderError (DisclosureSession I) :=
  let! reader_engagement := st_lift (map_err (λ e, mdoc_error (MCbor e)) (cbor_deserialize (T:=ReaderEngagement) reader_engagement_bytes)) in
  let! url := st_lift (verifier_url reader_engagement) in
  let! query := st_lift (ok_or EMissingSessionType (url_query url)) in
  let! session_type := st_lift (ok_or EMalformedSessionType (session_type_from_str query)) in
  let! _ := st_lift (guard_err (bool_decide (source_session_type uri_source = session_type)) (EDisclosureUriSourceMismatch session_type uri_source)) in
  let! device_engagement := st_lift (map_err mdoc_error (new_device_engagement ephemeral_privkey REFERRER_URL)) in
  let! tk := st_lift (transcript_and_keys_for_device_engagement reader_engagement session_type device_engagement ephemeral_privkey) in
  let '(transcript, reader_key, device_key) := tk in
  let! session_data := exchange_engagement url device_engagement in
  let! checked :=
    match check_session_data time session_data reader_key transcript mdoc_data_source trust_anchors with
    | Err error => report_error_back (EMatch error) url
    | result => st_lift (map_err EMatch result)
    end in
  let '(check_result, certificate, reader_registration, return_url) := checked in
  let data := mkCommonData url certificate reader_registration session_type in
  sret match check_result with
       | CheckMissingAttributes missing_attributes => SessionMissingAttributes (mkMissing data missing_attributes)
       | CheckProposedDocuments proposed_documents => SessionProposal (mkProposal return_url data device_key proposed_documents)
       end.

(** [data], [reader_registration], [verifier_certificate] and [session_type] *)
Definition session_common (s : DisclosureSession I) : CommonDisclosureData :=
  match s with SessionMissingAttributes m => dm_data m | SessionProposal p => dp_data p end.
Definition session_reader_registration (s : DisclosureSession I) : ReaderRegistration := cd_reader_registration (session_common s).
Definition verifier_certificate (s : DisclosureSession I) : Certificate := cd_certificate (session_common s).
Definition session_session_type (s : DisclosureSession I) : SessionType := cd_session_type (session_common s).

(** [send_session_data] and [terminate] *)
Definition send_session_data (d : CommonDisclosureData) (session_data : SessionData) : Client HttpClientError SessionData :=
  post (cd_verifier_url d) session_data.
Definition session_terminate (s : DisclosureSession I) : Client IsoHolderError unit :=
  let! _ := st_map_err ERequestError (send_session_data (session_common s) new_termination) in
  sret tt.

(** [proposed_source_identifiers] and [proposed_attributes] *)
Definition proposed_source_identifiers (p : DisclosureProposal I) : list I := source_identifier <$> proposed_documents p.
Definition proposal_attributes (p : DisclosureProposal I) : imap DocType ProposedDocumentAttributes :=
  im_collect ((λ d, (pd_doc_type d, proposed_attributes d)) <$> proposed_documents p).

Context `{!KeyFactory}.

(** [DisclosureProposal::disclose] *)
Definition disclose (p : DisclosureProposal I) : Client (DisclosureError IsoHolderError) unit :=
  let! device_response := st_lift (map_err (λ e, before_sharing (mdoc_error e)) (from_proposed_documents (proposed_documents p))) in
  let! session_data := st_lift (map_err (λ e, before_sharing (mdoc_error e)) (serialize_and_encrypt device_response (dp_device_key p))) in
  let! response := st_map_err disclosure_error_of_http (send_session_data (dp_data p) session_data) in
  match sd_status response with
  | Some status =>
      if decide (status = Termination) then sret tt else st_throw (after_sharing (EDisclosureResponse status))
  | None => sret tt
  end.
End Sessions.
