(* ===== verification/IsoHolderFacts.v ===== *)
(** * What a wallet does in an ISO 18013-5 session

    To whom the wallet answers and what it proposes to disclose; and that a wallet
    and a verifier that follow the protocol understand each other. *)
From stdpp Require Import base gmap strings list option fin_maps.
From Stdlib Require Import ZArith Lia.
From S2P Require Import Prelude IndexMap SessionStore SessionStoreFacts Crypto Jose Cbor Cose Engagement.
From S2P Require Import Mdoc MdocSigning ResponseCbor Holder HolderFacts HolderResponse Protocol OpenId4vp Verifier DisclosureSession DisclosureSessionFacts.
From S2P Require Import IsoMessages IsoVerifier IsoVerifierFacts IsoHolder.

Section IsoHolderFacts.
Context {I : Type}.
Context `{!Ecdsa, !X509Lib, !Coset, !Ciborium, !Sha256, !Chrono, !UrlLib, !MacLib, !IsoLib, !CoseSerde}.
Context `{!VerifierLib, !WalletUrlLib, !SessionTypeLib, !RegistrationLib, !CborPeer}.

(** ** Messages *)

(** What the log gains when a message is sent: nothing, when it cannot be serialized. *)
Definition sent {V} `{!SerdeCbor V} (url : string) (val : V) : list (string * string) :=
  match cbor_serialize val with Ok b => [(url, b)] | _ => [] end.
(** The answer that a peer gave to the last message of the log. *)
Definition answered {R} `{!SerdeCbor R} (log : list (string * string)) (x : R) : Prop :=
  ∃ response body, answer_post log = Ok response ∧ is_error_status (http_status response) = false ∧ http_body response = Ok body ∧
    cbor_deserialize body = Ok x.

Lemma post_log {R V} `{!SerdeCbor V, !SerdeCbor R} url (val : V) log r log' : post (R:=R) url val log = (r, log') → log' = log ++ sent url val.
Proof.
  unfold post, sent, cbor_serialize. destruct (serialized val ≫= into_writer) as [b|]; [|intros [= <- <-]; by rewrite app_nil_r].
  cbn. unfold sbind, st_lift in *. cbn in *. intros Hr. case_match; by simplify_eq.
Qed.
Lemma post_Ok {R V} `{!SerdeCbor V, !SerdeCbor R} url (val : V) log (x : R) log' : post url val log = (Ok x, log') →
  (∃ b, cbor_serialize val = Ok b ∧ log' = log ++ [(url, b)]) ∧ answered log' x.
Proof.
  intros Hp. pose proof (post_log _ _ _ _ _ Hp) as Hl. unfold sent in Hl. revert Hp. unfold post, answered.
  intros [(b & Hb & Hp)|[(e & _ & [=] & _)|(_ & [=] & _)]]%bind_lift_inv. apply map_err_Ok in Hb. rewrite Hb in Hl. subst log'. split; [by eauto|].
  unfold sbind in Hp. destruct (answer_post _) as [rs| |]; [|done..]. destruct (is_error_status (http_status rs)) eqn:Hs; [done|].
  destruct (http_body rs) as [body| |] eqn:Hbody; [|done..]. cbn in Hp. injection Hp as Hx. apply map_err_Ok in Hx. eauto 6.
Qed.
Lemma post_status_log url d log r log' : post_status url d log = (r, log') → (r = Ok tt ∨ r = Panic) ∧ log' = log ++ sent url d.
Proof.
  unfold post_status. destruct (post url d log) as [o l] eqn:Hp. apply post_log in Hp as ->. destruct o; intros [= <- <-]; auto.
Qed.
Lemma report_error_back_log {T} error url log (r : outcome IsoHolderError T) log' : report_error_back error url log = (r, log') →
  (r = Err error ∨ r = Panic) ∧ log' = log ++ sent url (error_session_data error).
Proof.
  unfold report_error_back. intros [([] & l & Hp & [= <- <-])|[(e & Hp & ->)|[Hp ->]]]%st_bind_inv; apply post_status_log in Hp as [Hr Hl];
    [by auto|naive_solver|by auto].
Qed.

(** What a verifier is told when its answer is no good *)
Definition reported (url : string) (e : IsoHolderError) : list (string * string) :=
  match e with
  | ERequestError (HttpCbor CborDeserialization) | EMatch (DMdoc (MCbor CborDeserialization)) => sent url new_decoding_error
  | ERequestError _ => []
  | EMatch (DMdoc (MCrypto _)) => sent url new_encryption_error
  | _ => sent url new_termination
  end.
Lemma exchange_engagement_log url de log r log' : exchange_engagement url de log = (r, log') →
  match r with
  | Ok sd => (∃ b, cbor_serialize de = Ok b ∧ log' = log ++ [(url, b)]) ∧ answered log' sd
  | Err e => (∃ e', e = ERequestError e') ∧ log' = log ++ sent url de ++ reported url e
  | Panic => True
  end.
Proof.
  unfold exchange_engagement. destruct (post url de log) as [[sd|e|] l] eqn:Hp; [intros [= <- <-]; by apply post_Ok in Hp| |by intros [= <- <-]].
  apply post_log in Hp as ->. destruct e as [[]|e]; [|intros [= <- <-]; split; [by eauto|]; cbn; by rewrite app_nil_r..].
  intros [([] & l2 & Hs & [= <- <-])|[(e & Hs & ->)|[_ ->]]]%st_bind_inv; [|apply post_status_log in Hs; naive_solver|done].
  apply post_status_log in Hs as [_ ->]. split; [by eauto|]. cbn. by rewrite <- app_assoc.
Qed.

(** ** Starting a session *)

(** What both sides derive from the engagements. *)
Record engaged (key : SecretKey) (bts : string) (src : DisclosureUriSource) (re : ReaderEngagement) (url : string) (de : DeviceEngagement)
    (t : SessionTranscript) (rk dk : SessionKey) : Prop := {
  en_reader : cbor_deserialize bts = Ok re;
  en_url : engagement_url re = Some url;
  en_type : ∃ q, url_query url = Some q ∧ session_type_from_str q = Some (source_session_type src);
  en_device : new_device_engagement key REFERRER_URL = Ok de;
  en_keys : transcript_and_keys_for_device_engagement re (source_session_type src) de key = Ok (t, rk, dk)
}.
Definition session_of (url : string) (st : SessionType) (dk : SessionKey)
    (x : VerifierSessionDataCheckResult I * Certificate * ReaderRegistration * option string) : IsoHolder.DisclosureSession I :=
  let '(res, cert, reg, ret) := x in
  let data := mkCommonData url cert reg st in
  match res with
  | CheckMissingAttributes l => SessionMissingAttributes (mkMissing data l)
  | CheckProposedDocuments l => SessionProposal (mkProposal ret data dk l)
  end.

Lemma start_inv time key bts src (ds : MdocDataSource I) anchors log r log' : start time key bts src ds anchors log = (r, log') →
  (log' = log ∧ is_ok r = false) ∨
  ∃ re url de t rk dk x log1, engaged key bts src re url de t rk dk ∧ exchange_engagement url de log = (x, log1) ∧
    match x with
    | Ok sd =>
        match check_session_data time sd rk t ds anchors with
        | Ok c => r = Ok (session_of url (source_session_type src) dk c) ∧ log' = log1
        | Err e => (r = Err (EMatch e) ∨ r = Panic) ∧
            log' = log1 ++ sent url (error_session_data (EMatch e))
        | Panic => r = Panic ∧ log' = log1
        end
    | Err e => r = Err e ∧ log' = log1
    | Panic => r = Panic ∧ log' = log1
    end.
Proof.
  unfold start. intros Hr. apply bind_lift_inv in Hr as [(re & Hre & Hr)|[(e & _ & -> & ->)|(_ & -> & ->)]]; [|by left..].
  apply bind_lift_inv in Hr as [(url & Hurl & Hr)|[(e & _ & -> & ->)|(_ & -> & ->)]]; [|by left..].
  apply bind_lift_inv in Hr as [(q & Hq & Hr)|[(e & _ & -> & ->)|(_ & -> & ->)]]; [|by left..].
  apply bind_lift_inv in Hr as [(st & Hst & Hr)|[(e & _ & -> & ->)|(_ & -> & ->)]]; [|by left..].
  apply bind_lift_inv in Hr as [([] & Hsrc & Hr)|[(e & _ & -> & ->)|(_ & -> & ->)]]; [|by left..].
  apply bind_lift_inv in Hr as [(de & Hde & Hr)|[(e & _ & -> & ->)|(_ & -> & ->)]]; [|by left..].
  apply bind_lift_inv in Hr as [([[t rk] dk] & Hk & Hr)|[(e & _ & -> & ->)|(_ & -> & ->)]]; [|by left..].
  apply guard_err_Ok in Hsrc. zbool. subst st. right. apply map_err_Ok in Hre, Hde. apply ok_or_Ok in Hurl, Hq, Hst.
  unfold sbind at 1 in Hr. destruct (exchange_engagement url de log) as [x log1] eqn:Hx. exists re, url, de, t, rk, dk, x, log1.
  split; [by split; eauto|]. split; [done|]. destruct x as [sd|e|]; [|by simplify_eq..].
  destruct (check_session_data time sd rk t ds anchors) as [[[[res cert] reg] ret]|e|] eqn:Hc.
  - unfold sbind, st_lift, sret in Hr. cbn in Hr. injection Hr as <- <-. done.
  - apply st_bind_inv in Hr as [([[[? ?] ?] ?] & l & Hb & _)|[(e' & Hb & ->)|[Hb ->]]]; apply report_error_back_log in Hb; naive_solver.
  - unfold sbind, st_lift in Hr. cbn in Hr. by simplify_eq.
Qed.

Lemma verify_device_request_Ok time req t (ds : MdocDataSource I) anchors res cert reg :
  verify_device_request time req t ds anchors = Ok (res, cert, reg) →
  has_attributes req = true ∧ DeviceRequest_verify req t time anchors = Ok (Some (cert, reg)) ∧
  match res with
  | CheckMissingAttributes l => DisclosureRequestMatch_new (device_items_requests req) ds t = Ok (MatchMissingAttributes l)
  | CheckProposedDocuments pds => ∃ c, DisclosureRequestMatch_new (device_items_requests req) ds t = Ok (Candidates c) ∧ pds = mjoin c.*2
  end.
Proof.
  unfold verify_device_request. intros Hv. apply bind_Ok in Hv as ([] & Ha & Hv). apply guard_err_Ok in Ha.
  apply bind_Ok in Hv as (o & Hd & Hv). apply bind_Ok in Hv as ([c' r'] & Ho & Hv). apply ok_or_Ok in Ho as ->.
  apply bind_Ok in Hv as (m & Hm & Hv). destruct m as [c|l]; [destruct (existsb _ c); [done|]|]; injection Hv as <- <- <-; split_and!; eauto.
Qed.
Lemma check_session_data_Ok time sd rk t (ds : MdocDataSource I) anchors res cert reg ret :
  check_session_data time sd rk t ds anchors = Ok (res, cert, reg, ret) →
  ∃ req, decrypt_and_deserialize sd rk = Ok req ∧ verify_device_request time req t ds anchors = Ok (res, cert, reg) ∧ ret = return_url req.
Proof.
  unfold check_session_data. intros Hc. apply bind_Ok in Hc as (req & Hd & Hc). apply map_err_Ok in Hd.
  apply bind_Ok in Hc as ([[a b] c] & Hv & [= <- <- <- <-]). eauto.
Qed.

(** C9. Whom a wallet talks to: when a session is started, one message was sent,
    the engagement of the wallet, to the URL in the engagement of the reader; the
    answer, decrypted with the key of this session, is a request that asks for
    something and of which every part is signed, over itself and the transcript of
    this session, under one certificate that chains to a trust anchor and carries
    a reader registration; and every attribute of every proposed document is
    requested and allowed by that registration, and comes with the issuer's
    signature from an mdoc of the wallet. *)
Theorem iso_request_authenticated time key bts src (ds : MdocDataSource I) anchors log sess log'
    (Hstart : start time key bts src ds anchors log = (Ok sess, log')) :
  let cert := IsoHolder.verifier_certificate sess in let reg := IsoHolder.session_reader_registration sess in
  ∃ re url de t rk dk b sd req, engaged key bts src re url de t rk dk ∧ cbor_serialize de = Ok b ∧ log' = log ++ [(url, b)] ∧
    answered log' sd ∧ decrypt_and_deserialize sd rk = Ok req ∧ has_attributes req = true ∧ doc_requests req ≠ [] ∧
    Forall (signed_by t time anchors cert) (doc_requests req) ∧ type_from_certificate cert = Ok (ReaderAuthCertificate (Some reg)) ∧
    ∀ p, sess = SessionProposal p → IsoHolder.dp_return_url p = return_url req ∧ IsoHolder.dp_device_key p = dk ∧
      ∃ groups, ds (requested_types (device_items_requests req)) = Some groups ∧
      ∀ pd nss n items item, pd ∈ IsoHolder.proposed_documents p → name_spaces (pd_issuer_signed pd) = Some nss → (n, items) ∈ nss → item ∈ items →
        let id := mkAttributeIdentifier (pd_doc_type pd) n (element_identifier (untag item)) in
        id ∈ attribute_identifiers (device_items_requests req) ∧ id ∈ attribute_identifiers reg ∧
        ∃ s nss' all, s ∈ mjoin groups ∧ sm_id s = source_identifier pd ∧ m_doc_type (sm_mdoc s) = pd_doc_type pd ∧
          name_spaces (m_issuer_signed (sm_mdoc s)) = Some nss' ∧ (n, all) ∈ nss' ∧ item ∈ all ∧
          issuer_auth (pd_issuer_signed pd) = issuer_auth (m_issuer_signed (sm_mdoc s)).
Proof.
  apply start_inv in Hstart as [[_ [=]]|(re & url & de & t & rk & dk & x & log1 & Hen & Hx & Hr)].
  pose proof (exchange_engagement_log _ _ _ _ _ Hx) as Hlog. destruct x as [sd|e|]; [|naive_solver..]. destruct Hlog as [(b & Hb & Hl1) Han].
  destruct (check_session_data time sd rk t ds anchors) as [[[[res cert] reg] ret]|e|] eqn:Hc; [|naive_solver..].
  destruct Hr as [[= ->] ->]. apply check_session_data_Ok in Hc as (req & Hreq & Hv & ->).
  apply verify_device_request_Ok in Hv as (Ha & Hd & Hres). apply DeviceRequest_verify_Ok in Hd as (Hne & Hsig & Hty & Hver).
  intros cert' reg'. assert (cert' = cert) as -> by (by destruct res). assert (reg' = reg) as -> by (by destruct res).
  exists re, url, de, t, rk, dk, b, sd, req. split_and!; try done. intros p Hp. destruct res as [l|pds]; [done|]. injection Hp as <-. cbn.
  destruct Hres as (c & Hm & ->). pose proof Hm as Hm'. apply candidates_spec in Hm' as (groups & Hg & _). split_and!; try done. exists groups. split; [done|].
  intros pd nss n items item Hpd Hnss Hn Hi. destruct (candidates_proposed _ _ _ _ _ Hm Hpd) as (groups' & dt & ch & s & Hg' & _ & Hs & Ht & _ & Hfrom).
  rewrite Hg in Hg'. injection Hg' as <-. apply verify_requested_attributes_Ok in Hver.
  destruct (proposed_item _ _ _ _ _ _ _ _ _ Hfrom Hnss Hn Hi) as (Hid & Hsm & Hmt & Hau & nss' & all & Hnss' & Hall & Hitem).
  split_and!; [done|by apply Hver|]. by exists s, nss', all.
Qed.

(** What a verifier is told of a failure: when starting a session fails, then
    either nothing was sent; or the engagement was sent to the URL in the
    engagement of the reader, and after it, to the same URL and nowhere else,
    nothing when no answer came, and otherwise one status: that the answer or the
    request in it could not be decoded, that the request could not be decrypted,
    or, for every other reason (among them that nobody registered signed it, or
    that the wallet has several suitable documents), that the session is terminated. *)
Theorem iso_failure_reported time key bts src (ds : MdocDataSource I) anchors log e log'
    (Hstart : start time key bts src ds anchors log = (Err e, log')) :
  log' = log ∨ ∃ re url de t rk dk, engaged key bts src re url de t rk dk ∧ log' = log ++ sent url de ++ reported url e ∧
    ((∃ e', e = ERequestError e') ∨ ∃ sd e', answered (log ++ sent url de) sd ∧ check_session_data time sd rk t ds anchors = Err e' ∧ e = EMatch e').
Proof.
  apply start_inv in Hstart as [[-> _]|(re & url & de & t & rk & dk & x & log1 & Hen & Hx & Hr)]; [by left|]. right.
  exists re, url, de, t, rk, dk. split; [done|]. apply exchange_engagement_log in Hx. destruct x as [sd|e1|]; [| |naive_solver].
  - destruct Hx as [(b & Hb & ->) Han]. assert (sent url de = [(url, b)]) as Hs by (unfold sent; by rewrite Hb). rewrite Hs.
    destruct (check_session_data time sd rk t ds anchors) as [c|e1|] eqn:Hc; [naive_solver| |naive_solver].
    destruct Hr as [[[= ->]|[=]] ->]. rewrite <- app_assoc. split; [by destruct e1 as [[| |[]| | |]|]|]. right. eauto.
  - destruct Hr as [[= <-] ->]. destruct Hx as [[e' ->] ->]. split; [done|left; eauto].
Qed.
End IsoHolderFacts.
