(* ===== verification/IsoProtocol.v ===== *)
(** * A wallet and a verifier in an ISO 18013-5 session

    Both sides derive the same keys and the same transcript from the engagements
    that they exchange, the request and the response survive serialization and
    encryption up to the form of their COSE structures, and so a session of a
    wallet and a verifier that both follow the protocol ends with the attributes
    that the wallet proposed. *)
From stdpp Require Import base gmap strings list option fin_maps.
From Stdlib Require Import ZArith Lia.
From S2P Require Import Prelude IndexMap SessionStore SessionStoreFacts Crypto Jose Cbor Cose Engagement Mdoc MdocSigning CoseEquiv MdocFacts DisclosureFacts ResponseCbor.
From S2P Require Import Holder HolderFacts HolderResponse Protocol OpenId4vp Verifier DisclosureSession DisclosureSessionFacts.
From S2P Require Import IsoMessages IsoVerifier IsoVerifierFacts IsoHolder IsoHolderFacts.

Section IsoProtocol.
Context {I : Type}.
Context `{!Ecdsa, !X509Lib, !Coset, !Ciborium, !Sha256, !Chrono, !UrlLib, !MacLib, !Base64, !IsoLib, !CoseSerde}.
Context `{!VerifierLib, !WalletUrlLib, !SessionTypeLib, !UrlJoin, !RegistrationLib, !CborPeer, !KeyFactory, !KeyFactoryLaws}.
Context {S : Type} `{!SessionStore DisclosureData S, !SessionStoreSpec DisclosureData S}.
Variable show : IsoError → string.
Variable v : Verifier.

(** ** Engagements *)

(** The URL in the engagement is accepted for as long as its identifier is valid. *)
Lemma verifier_url_accepted base tok st t now url : generate_verifier_url v base tok st t = Ok url →
  now - t ≤ EPHEMERAL_ID_VALIDITY_SECONDS →
  verify_ephemeral_id now v tok url = Ok st ∧ ∃ q, url_query url = Some q ∧ session_type_from_str q = Some st.
Proof.
  unfold generate_verifier_url, format_verifier_url. intros Hg Hf. apply bind_Ok in Hg as (b & _ & Hg). apply bind_Ok in Hg as (q & Hq & [= <-]).
  apply ok_or_Ok in Hq. unfold verify_ephemeral_id. rewrite url_query_set. cbn. rewrite (parameters_round_trip _ _ Hq). cbn.
  rewrite (proj2 (Z.ltb_ge _ _)) by lia. cbn. unfold generate_ephemeral_id. rewrite hmac_sign_verify. split; [done|].
  exists q. split; [done|]. by rewrite (session_type_of_parameters _ _ Hq).
Qed.

Lemma security_wf k s : security_of_public_key k = Ok s → serde_wf s.
Proof.
  unfold security_of_public_key, cose_key_from_verifying_key. intros Hs. apply bind_Ok in Hs as (ck & Hc & [= <-]).
  apply bind_Ok in Hc as ([x y] & _ & [= <-]). apply ec2_pub_key_wf.
Qed.
Lemma reader_engagement_received priv url re bts : ReaderEngagement_try_new priv url = Ok re → url_parse url = Some url →
  cbor_serialize re = Ok bts → cbor_deserialize bts = Ok re.
Proof.
  unfold ReaderEngagement_try_new. intros Hre Hu. apply bind_Ok in Hre as (sec & Hs & [= <-]). apply map_err_Ok, security_wf in Hs.
  apply cbor_round_trip. split_and!; [done| |constructor]. by apply list.Forall_singleton.
Qed.
Lemma device_engagement_received priv url de bts : new_device_engagement priv url = Ok de → url_parse url = Some url →
  cbor_serialize de = Ok bts → cbor_deserialize bts = Ok de.
Proof.
  unfold new_device_engagement. intros Hde Hu. apply bind_Ok in Hde as (sec & Hs & [= <-]). apply map_err_Ok, security_wf in Hs.
  apply cbor_round_trip. split_and!; [done..|]. repeat constructor; done.
Qed.
Lemma device_engagement_Ok priv url de : new_device_engagement priv url = Ok de →
  ∃ sec, security (int_map de) = Some sec ∧ public_key_of_security sec = Ok (secret_public_key priv).
Proof.
  unfold new_device_engagement. intros Hde. apply bind_Ok in Hde as (sec & Hs & [= <-]). apply map_err_Ok, security_round_trip in Hs. by exists sec.
Qed.

(** Both sides derive the same transcript and the same keys. *)
Lemma both_engaged priv key url bts src re de t rk dk :
  ReaderEngagement_try_new priv url = Ok re → url_parse url = Some url → cbor_serialize re = Ok bts →
  new_device_engagement key REFERRER_URL = Ok de → SessionTranscript_new_iso (source_session_type src) re de = Ok t →
  (∃ q, url_query url = Some q ∧ session_type_from_str q = Some (source_session_type src)) →
  SessionKey_new priv (secret_public_key key) t ReaderUser = Ok rk → SessionKey_new priv (secret_public_key key) t DeviceUser = Ok dk →
  engaged key bts src re url de t rk dk.
Proof.
  intros Hre Hu Hb Hde Ht Hq Hr Hd. destruct (try_new_Ok _ _ _ Hre) as (sec & Hs & Hsec & Hurl). split; [by eapply reader_engagement_received|done..|].
  unfold transcript_and_keys_for_device_engagement, verifier_public_key. rewrite Hsec. cbn. rewrite (security_round_trip _ _ Hs). cbn. rewrite Ht. cbn.
  rewrite !(session_keys_agree key priv), Hr. cbn. by rewrite Hd.
Qed.

(** ** The request *)
Lemma doc_request_verify_equiv d d' t time anchors : doc_request_equiv d d' →
  DocRequest_verify d t time anchors = DocRequest_verify d' t time anchors.
Proof.
  intros [Hi Ha]. unfold DocRequest_verify. rewrite Hi. destruct Ha as [a a' Ha|]; [|done].
  destruct (reader_authentication_bytes t (items_request d')) as [bts| |]; [|done..]. cbn.
  pose proof (sign1_with_payload_proper _ _ Ha bts bts eq_refl) as He. rewrite (verify_anchors_equiv _ _ _ _ _ He).
  by rewrite (signing_cert_proper _ _ He).
Qed.
Lemma signed_request_verifies t kp r d time anchors : sign_doc_request t kp r = Ok d →
  Certificate_verify (certificate kp) ReaderAuthUsage [] time anchors = Ok tt →
  Certificate_public_key (certificate kp) = Ok (verifying_key (Cose.private_key kp)) →
  items_request d = mkTagged r ∧ DocRequest_verify d t time anchors = Ok (Some (certificate kp)).
Proof.
  unfold sign_doc_request. intros Hs Hc Hk. apply bind_Ok in Hs as (bts & Hb & Hs). apply map_err_Ok in Hb.
  apply bind_Ok in Hs as (c & Hcose & [= <-]). apply map_err_Ok in Hcose. split; [done|]. apply DocRequest_verify_Ok.
  pose proof (sign_cose_verifies _ _ _ _ _ Hcose) as [Hv _]. split.
  - exists c, bts, (verifying_key (Cose.private_key kp)). split_and!; try done. by injection Hcose as <-.
  - exists c, bts. split_and!; try done. unfold reader_authentication_bytes, tagged_serialize in Hb. apply ok_or_Ok in Hb.
    apply bind_Some in Hb as (w & _ & Hb). apply bind_Some in Hb as (b & _ & Hb). unfold cbor_deserialize. by rewrite (from_into _ _ Hb).
Qed.

(** A request that the verifier signed is accepted in the form in which it arrives. *)
Lemma request_accepted rs t url kp req req' time anchors reg : new_device_request rs t url kp = Ok req → device_request_equiv req req' →
  Certificate_verify (certificate kp) ReaderAuthUsage [] time anchors = Ok tt →
  Certificate_public_key (certificate kp) = Ok (verifying_key (Cose.private_key kp)) →
  type_from_certificate (certificate kp) = Ok (ReaderAuthCertificate (Some reg)) → verify_requested_attributes reg rs = Ok tt → rs ≠ [] →
  device_items_requests req' = rs ∧ return_url req' = url ∧
  DeviceRequest_verify req' t time anchors = Ok (Some (certificate kp, reg)).
Proof.
  unfold new_device_request. intros Hn [Hd Hu] Hc Hk Hty Hreg Hne. apply bind_Ok in Hn as (ds & Hds & [= <-]). apply try_map_Ok in Hds.
  cbn in Hd, Hu. assert (device_items_requests req' = rs ∧
    Forall (λ d, DocRequest_verify d t time anchors = Ok (Some (certificate kp))) (doc_requests req')) as [Hitems Hall].
  { unfold device_items_requests. revert Hd. generalize (doc_requests req'). clear Hne Hreg. induction Hds as [|r d rs ds Hr _ IH]; intros l Hd.
    - by inversion Hd.
    - inversion Hd as [|? d' ? l' He Hd']; subst. destruct (signed_request_verifies _ _ _ _ time anchors Hr Hc Hk) as [Hi Hv].
      destruct (IH _ Hd') as [Hl Hf]. csimpl. rewrite Hl, <- (proj1 He), Hi. split; [done|]. constructor; [|done].
      by rewrite <- (doc_request_verify_equiv _ _ _ _ _ He). }
  split_and!; [done|done|]. apply DeviceRequest_verify_complete; [|done..|by rewrite Hitems].
  intros He. unfold device_items_requests in Hitems. rewrite He in Hitems. by destruct Hne.
Qed.
Lemma has_attributes_requests req : has_attributes req = existsb (λ r, existsb (λ ns : NameSpace * imap DataElementIdentifier bool,
  negb (bool_decide (length ns.2 = 0%nat))) (req_name_spaces r)) (device_items_requests req).
Proof. unfold has_attributes, device_items_requests. by induction (doc_requests req) as [|d l IH]; [|cbn; rewrite IH]. Qed.
Lemma new_device_request_wf rs t url kp req : new_device_request rs t url kp = Ok req → Forall items_request_wf rs →
  from_option (λ u, url_parse u = Some u) True url → device_request_wf req.
Proof.
  unfold new_device_request. intros Hn Hwf Hu. apply bind_Ok in Hn as (ds & Hds & [= <-]). apply try_map_Ok in Hds. split; [|done]. cbn.
  induction Hds as [|r d rs ds Hr _ IH]; [constructor|]. inversion Hwf; subst. constructor; [|by apply IH].
  unfold sign_doc_request in Hr. apply bind_Ok in Hr as (? & _ & Hr). by apply bind_Ok in Hr as (? & _ & [= <-]).
Qed.

(** ** The response *)
Lemma proposal_wf req ch (s : StoredMdoc I) pd : stored_ok s → proposed_from req ch s pd → req ≠ [] → req ⊆ stored_identifiers s →
  issuer_signed_wf (pd_issuer_signed pd).
Proof.
  intros [Hwf Hc] Hp Hne Hsub. unfold issuer_signed_wf. rewrite (pf_name_spaces _ _ _ _ Hp). unfold name_spaces_wf in Hwf.
  destruct req as [|a req]; [done|]. pose proof (Hsub a ltac:(left)) as Ha. apply stored_identifier_elem in Ha as (nss & all & item & Hns & Hn & Hi & Ha).
  rewrite Hns in Hwf |- *. cbn in Hwf |- *. split_and!.
  - destruct (requested_name_spaces_found (stored_type s) (a :: req) nss (ai_namespace a) all item) as (items & Hitems & _);
      [done..|rewrite <- Ha; left|]. intros He. rewrite He in Hitems. by apply elem_of_nil in Hitems.
  - apply list.Forall_forall. intros [n items] (all' & _ & Hitems & _)%requested_name_spaces_elem. done.
  - apply im_collect_NoDup.
Qed.
Lemma response_of_proposals_wf (pds : list (ProposedDocument I)) dr :
  from_proposed_documents pds = Ok dr → Forall (λ pd, issuer_signed_wf (pd_issuer_signed pd)) pds → response_wf dr.
Proof.
  unfold from_proposed_documents, proposed_sign_multiple. intros Hd Hwf. apply bind_Ok in Hd as (docs & Hd & [= <-]). split; [|done]. cbn.
  apply bind_Ok in Hd as (kcs & _ & Hd). apply bind_Ok in Hd as (dss & Hds & [= <-]). unfold DeviceSigned_new_signatures in Hds.
  apply bind_Ok in Hds as (coses & _ & [= <-]). clear kcs. revert coses.
  induction Hwf as [|pd pds Hpd _ IH]; intros coses; [constructor|]. destruct coses as [|c coses]; [constructor|]. csimpl. constructor; [|apply IH].
  split; [done| |done]. split; constructor.
Qed.

(** ** The messages *)

(** The answer of the verifier reaches the wallet. *)
Definition relayed (log : list (string * string)) (sd : SessionData) : Prop :=
  ∃ response body, cbor_serialize sd = Ok body ∧ answer_post log = Ok response ∧ is_error_status (http_status response) = false ∧
    http_body response = Ok body.
Lemma session_data_received (sd : SessionData) b : cbor_serialize sd = Ok b → cbor_deserialize b = Ok sd.
Proof. by apply cbor_round_trip. Qed.
Lemma post_relayed {V} `{!SerdeCbor V} url (val : V) b log sd : cbor_serialize val = Ok b → relayed (log ++ [(url, b)]) sd →
  post (R:=SessionData) url val log = (Ok sd, log ++ [(url, b)]).
Proof.
  intros Hb (response & body & Hs & Ha & Hst & Hbody). unfold post, sbind, st_lift. rewrite Hb. cbn. rewrite Ha, Hst, Hbody. cbn.
  by rewrite (session_data_received _ _ Hs).
Qed.

(** An engagement that is answered without a status is answered with a request. *)
Lemma engagement_answered now nonce msg tok url s sd1 s1 c la st de :
  view s !! tok = Some (mkSessionState (DCreated c) tok la) → verify_ephemeral_id now v tok url = Ok st →
  cbor_deserialize msg = Ok de → process_message show now nonce v msg tok url s = (Ok sd1, s1) → sd_status sd1 = None →
  ∃ n dk re, process_device_engagement_inner nonce c de url st v = Ok (sd1, n, dk, re) ∧
    view s1 !! tok = Some (mkSessionState (DWaitingForResponse
      (mkWaiting _ _ (cr_items_requests c) n dk (cr_ephemeral_privkey c) (mkTranscriptData st re de))) tok now).
Proof.
  intros Hs Hst Hde Hp Hn. rewrite process_message_eq, Hs in Hp. cbn in Hp. rewrite Hst in Hp. cbn in Hp. rewrite Hde in Hp. cbn in Hp.
  destruct (process_device_engagement_inner nonce c de url st v) as [[[[resp n] dk] re]|e|]; cbn in Hp; [|injection Hp as <- _; done|done].
  injection Hp as <- <-. exists n, dk, re. split; [done|].
  match goal with |- view (store_write ?x false s).2 !! _ = _ => destruct (write_false x s) as (s2 & -> & Hv) end. cbn. by rewrite Hv, lookup_insert_eq.
Qed.

(** The wallet proposes the only candidates. *)
Lemma request_proposed req t time anchors (ds : MdocDataSource I) cert reg cs : has_attributes req = true →
  DeviceRequest_verify req t time anchors = Ok (Some (cert, reg)) →
  DisclosureRequestMatch_new (device_items_requests req) ds t = Ok (Candidates cs) → Forall (λ x, length x.2 = 1%nat) cs →
  verify_device_request time req t ds anchors = Ok (CheckProposedDocuments (mjoin cs.*2), cert, reg).
Proof.
  intros Ha Hd Hm Hone. unfold verify_device_request. rewrite Ha. cbn. rewrite Hd. cbn. rewrite Hm. cbn.
  destruct (existsb _ cs) eqn:E; [|done]. apply existsb_exists in E as (x & Hx%list_elem_of_In & Hb). zbool.
  rewrite list.Forall_forall in Hone. pose proof (Hone _ Hx). lia.
Qed.
Lemma start_answered time key bts src (ds : MdocDataSource I) anchors log re url de t rk dk b sd x :
  engaged key bts src re url de t rk dk → cbor_serialize de = Ok b → relayed (log ++ [(url, b)]) sd →
  check_session_data time sd rk t ds anchors = Ok x →
  start time key bts src ds anchors log = (Ok (session_of url (source_session_type src) dk x), log ++ [(url, b)]).
Proof.
  intros [Hre Hurl (q & Hq & Hst) Hde Hk] Hb Hr Hc. unfold start, sbind, st_lift, verifier_url. rewrite Hre. cbn. rewrite Hurl. cbn. rewrite Hq. cbn.
  rewrite Hst. cbn. rewrite bool_decide_eq_true_2 by done. cbn. rewrite Hde. cbn. rewrite Hk. cbn. unfold exchange_engagement.
  rewrite (post_relayed _ _ _ _ _ Hb Hr), Hc. by destruct x as [[[res cert] reg] ret].
Qed.

(** The verifier accepts an encrypted response that verifies. *)
Lemma response_accepted now nonce msg tok url s la w sd2 dr t attrs :
  view s !! tok = Some (mkSessionState (DWaitingForResponse w) tok la) → transcript_of_data (w_session_transcript_data w) = Ok t →
  response_wf dr → serialize_and_encrypt dr (w_their_key w) = Ok sd2 → cbor_serialize sd2 = Ok msg →
  DeviceResponse_verify dr (Some (w_ephemeral_privkey w)) t now (v_trust_anchors v) = Ok attrs →
  match_against_response (w_items_requests w) dr = Ok tt →
  ∃ s2, process_message show now nonce v msg tok url s = (Ok new_termination, s2) ∧
    view s2 !! tok = Some (mkSessionState (DDone (mkDone (RDone attrs (w_return_url_nonce w)))) tok now).
Proof.
  intros Hs Ht Hwf He Hmsg Hv Hm. destruct (sent_received response_equiv dr _ _ (λ w, response_transport dr w Hwf) He) as (dr' & Hd & Heq).
  assert (sd_status sd2 = None) as Hst.
  { unfold serialize_and_encrypt, encrypt in He. apply bind_Ok in He as (? & _ & He). apply bind_Ok in He as (? & _ & He).
    by apply bind_Ok in He as (? & _ & [= <-]). }
  eexists. rewrite process_message_eq, Hs. cbn. rewrite (session_data_received _ _ Hmsg). cbn. rewrite Hst. unfold process_response_inner.
  rewrite Hd. cbn. rewrite Ht. cbn. rewrite <- (response_verify_equiv _ _ _ _ _ _ Heq), Hv. cbn. rewrite <- (response_match_equiv _ _ _ Heq), Hm. cbn.
  split; [done|]. match goal with |- view (store_write ?x false s).2 !! _ = _ => destruct (write_false x s) as (s2 & -> & Hv2) end. cbn. by rewrite Hv2, lookup_insert_eq.
Qed.

Section Run.
(** The verifier: a session that was created, the URL of its engagement, and what
    it answers to the engagement of the wallet. *)
Context (s s1 : S) (tok : SessionToken) (c : Created) (la : Z) (u : UseCase) (st : SessionType) (base url : string) (t now time : Z) (nonce : string).
Context (re : ReaderEngagement) (bts : string) (sd1 : SessionData).
(** The wallet: its key, its contents and its trust anchors. *)
Context (key : SecretKey) (de : DeviceEngagement) (msg : string) (src : DisclosureUriSource) (wnow : Z) (log : list (string * string)).
Context (wanchors : list TrustAnchor) (reg : ReaderRegistration) (ds : MdocDataSource I) (groups : list (list (StoredMdoc I))) (tr : SessionTranscript).
Let requests := cr_items_requests c.

(** C31. An ISO 18013-5 disclosure from end to end: a verifier with a created
    session and a wallet that gets the engagement of that session, both following
    the protocol, over a connection that delivers the answers.  When the verifier
    answers the engagement of the wallet with a request, the wallet trusts its
    certificate, the certificate registers the requested attributes and the wallet
    has exactly one suitable mdoc of each requested type, each acceptable to the
    verifier and with its key, then the wallet decrypts and accepts the request
    and makes a proposal; it can sign it; and when the user agrees, the encrypted
    response makes the verifier terminate the session with, document by document,
    exactly the attributes that the wallet proposed, and the wallet succeeds. *)
Theorem iso_disclosure_completes
    (Hcreated : view s !! tok = Some (mkSessionState (DCreated c) tok la)) (Husecase : use_cases v !! cr_usecase_id c = Some u)
    (Hurl : generate_verifier_url v base tok st t = Ok url) (Hfresh : now - t ≤ EPHEMERAL_ID_VALIDITY_SECONDS)
    (Hparse : url_parse url = Some url) (Hreferrer : url_parse REFERRER_URL = Some REFERRER_URL)
    (Hreturn : ∀ r, cr_return_url c = Some r → url_parse (append_pair r "nonce" nonce) = Some (append_pair r "nonce" nonce))
    (Hre : ReaderEngagement_try_new (cr_ephemeral_privkey c) url = Ok re) (Hqr : cbor_serialize re = Ok bts)
    (Hde : new_device_engagement key REFERRER_URL = Ok de) (Hmsg : cbor_serialize de = Ok msg) (Hsource : source_session_type src = st)
    (Hanswer : process_message show now nonce v msg tok url s = (Ok sd1, s1)) (Hrequest : sd_status sd1 = None)
    (Hrelayed : relayed (log ++ [(url, msg)]) sd1)
    (Hwf : Forall items_request_wf requests)
    (Hsome : existsb (λ r, existsb (λ ns : NameSpace * imap DataElementIdentifier bool, negb (bool_decide (length ns.2 = 0%nat)))
       (req_name_spaces r)) requests = true)
    (Hcert : Certificate_verify (certificate (key_pair u)) ReaderAuthUsage [] wnow wanchors = Ok tt)
    (Hkey : Certificate_public_key (certificate (key_pair u)) = Ok (verifying_key (Cose.private_key (key_pair u))))
    (Htype : type_from_certificate (certificate (key_pair u)) = Ok (ReaderAuthCertificate (Some reg)))
    (Hregistered : verify_requested_attributes reg requests = Ok tt)
    (Htranscript : SessionTranscript_new_iso st re de = Ok tr)
    (Hchallenge : ∀ dt, dt ∈ requested_types requests → is_ok (device_authentication_bytes dt tr) = true)
    (Hds : ds (requested_types requests) = Some groups) (Hcontract : groups_ok (requested_types requests) groups)
    (Hstored : Forall stored_ok (mjoin groups))
    (Hasked : Forall (λ s, requested_of requests (stored_type s) ≠ []) (mjoin groups))
    (Hunique : ∀ dt, requested_of requests dt ≠ [] → length (satisfying requests (mjoin groups) dt) = 1%nat)
    (Hacceptable : Forall (acceptable time (v_trust_anchors v)) (mjoin groups))
    (Hsigns : ∀ l, is_Some (sign_multiple_with_existing_keys l)) :
  ∃ p dr, start wnow key bts src ds wanchors log = (Ok (SessionProposal p), log ++ [(url, msg)]) ∧
    from_proposed_documents (IsoHolder.proposed_documents p) = Ok dr ∧
    ∀ sd2 msg2 nonce2, serialize_and_encrypt dr (IsoHolder.dp_device_key p) = Ok sd2 → cbor_serialize sd2 = Ok msg2 →
      ∃ s2 attrs, process_message show time nonce2 v msg2 tok url s1 = (Ok new_termination, s2) ∧
        verifier_disclosed_attributes tok (Some nonce) s2 = (Ok attrs, s2) ∧
        (λ x, (x.1, disclosed_attributes x.2)) <$> attrs = (λ x, (x.1, pa_attributes x.2)) <$> IsoHolder.proposal_attributes p ∧
        (relayed (log ++ [(url, msg); (url, msg2)]) new_termination →
         IsoHolder.disclose p (log ++ [(url, msg)]) = (Ok tt, log ++ [(url, msg); (url, msg2)])).
Proof.
  destruct (verifier_url_accepted _ _ _ _ now _ Hurl Hfresh) as [Heph Hq].
  pose proof (device_engagement_received _ _ _ _ Hde Hreferrer Hmsg) as Hde'.
  destruct (engagement_answered _ _ _ _ _ _ _ _ _ _ _ _ Hcreated Heph Hde' Hanswer Hrequest) as (n & dk & re' & Hinner & Hs1).
  apply engagement_inner_Ok in Hinner as (u' & t' & sec & pk & rk & req & ret & _ & Hre' & Ht' & Hu' & Hret & Hn & Hreq & Hsec & Hpk & Hrk & Hdk & Hsd1).
  subst st. rewrite Hre in Hre'. injection Hre' as <-. rewrite Htranscript in Ht'. injection Ht' as <-. rewrite Husecase in Hu'. injection Hu' as <-.
  destruct (device_engagement_Ok _ _ _ Hde) as (sec' & Hsec' & Hpk'). rewrite Hsec in Hsec'. injection Hsec' as <-. rewrite Hpk in Hpk'. injection Hpk' as ->.
  pose proof (both_engaged _ _ _ _ _ _ _ _ _ _ Hre Hparse Hqr Hde Htranscript Hq Hrk Hdk) as Hen.
  assert (from_option (λ u, url_parse u = Some u) True (fst <$> (add_nonce_to_return_url nonce <$> ret))) as Hretwf.
  { destruct ret as [r|]; [|done]. apply Hreturn. revert Hret. unfold session_return_url. repeat case_match; congruence. }
  destruct (sent_received device_request_equiv req rk sd1) as (req' & Hreq' & Heq); [|done|].
  { intros w. apply device_request_transport. by eapply new_device_request_wf. }
  assert (requests ≠ []) as Hne by (by intros He; rewrite He in Hsome).
  destruct (request_accepted _ _ _ _ _ _ wnow wanchors _ Hreq Heq Hcert Hkey Htype Hregistered Hne) as (Hitems & Hru & Hver).
  destruct (single_candidates requests ds tr groups) as (cs & Hm & Hone); [done..|].
  destruct (single_proposals requests ds tr groups Hds Hstored cs Hm Hone) as (Hd & Hfrom & Hall).
  pose proof (request_proposed req' tr wnow wanchors ds _ reg cs ltac:(rewrite has_attributes_requests, Hitems; exact Hsome) Hver
    ltac:(rewrite Hitems; exact Hm) Hone) as Hprop.
  assert (check_session_data wnow sd1 rk tr ds wanchors =
    Ok (CheckProposedDocuments (mjoin cs.*2), certificate (key_pair u), reg, return_url req')) as Hcheck
    by (unfold check_session_data; rewrite Hreq'; cbn; by rewrite Hprop).
  assert (Forall (good_proposal tr time (v_trust_anchors v)) (mjoin cs.*2)) as Hgood.
  { eapply list.Forall_impl; [exact Hfrom|]. intros pd (ch & s' & Hs' & Hch & _ & Hp). eexists _, ch, s'. split_and!; try done.
    rewrite list.Forall_forall in Hacceptable. by apply Hacceptable. }
  destruct (proposals_signed _ _ _ _ Hgood Hsigns) as [dr Hdr].
  eexists _, dr. split; [by rewrite (start_answered _ _ _ _ _ _ _ _ _ _ _ _ _ _ _ _ Hen Hmsg Hrelayed Hcheck)|]. split; [exact Hdr|].
  cbn [IsoHolder.dp_device_key]. intros sd2 msg2 nonce2 Hsd2 Hmsg2.
  assert (response_wf dr) as Hrwf.
  { eapply response_of_proposals_wf; [exact Hdr|]. eapply list.Forall_impl; [exact Hfrom|]. intros pd (ch & s' & Hs' & Hch & Hsub & Hp).
    rewrite list.Forall_forall in Hstored, Hasked. eapply proposal_wf; [by apply Hstored|done|by apply Hasked|done]. }
  assert (is_ok (tagged_serialize (session_transcript_serialize tr)) = true) as Hser.
  { unfold SessionKey_new in Hrk. destruct (tagged_serialize _); [done|done..]. }
  destruct (response_verifies _ _ tr time (v_trust_anchors v) (Some (cr_ephemeral_privkey c)) Hgood Hd Hser Hdr) as (attrs & Hv & Hdis).
  pose proof (response_matches requests _ dr Hall Hd Hdr) as Hmatch.
  destruct (response_accepted time nonce2 msg2 tok url s1 now _ sd2 dr tr attrs Hs1 Htranscript Hrwf Hsd2 Hmsg2 Hv Hmatch) as (s2 & Hp2 & Hs2).
  exists s2, attrs. split_and!; [done| | |].
  - unfold verifier_disclosed_attributes, sbind. rewrite iso_get_session_eq, Hs2. cbn. rewrite Hn. destruct ret as [r|]; cbn; [by rewrite decide_True|done].
  - by apply disclosed_as_proposed.
  - intros Hr. unfold IsoHolder.disclose, sbind, st_lift, st_map_err, send_session_data. cbn -[post]. rewrite Hdr. cbn -[post]. rewrite Hsd2. cbn -[post].
    rewrite (post_relayed _ _ _ (log ++ [(url, msg)]) new_termination Hmsg2) by (by rewrite <- app_assoc). cbn. by rewrite <- app_assoc.
Qed.
End Run.
End IsoProtocol.
