(* ===== verification/HolderWitness.v ===== *)
(** * A disclosure from wallet to verifier, evaluated

    The wallet holds the mdoc of [MdocFacts]; the verifier is that of
    [VerifierWitness].  The theorems about matching requests, about disclosure
    sessions and about both sides together are applied to this run. *)
From stdpp Require Import base gmap strings list option fin_maps countable pretty relations.
From Stdlib Require Import ZArith Lia.
From S2P Require Import Prelude IndexMap SessionStore SessionStoreFacts Crypto Jose Cbor Cose Engagement Concrete.
From S2P Require Import Mdoc MdocSigning MdocFacts DisclosureFacts Holder HolderFacts HolderResponse.
From S2P Require Import Protocol PresentationExchange OpenId4vp Verifier VerifierFacts VerifierWitness.
From S2P Require Import DisclosureSession DisclosureSessionFacts.
Import Crates.

(** ** Crates *)
#[export] Instance wallet_url_lib : WalletUrlLib.
Proof.
  refine {|
    request_uri_from_str s :=
      (λ x : string * option bool * string,
        mkRequestUriObject x.1.1 ((λ b : bool, if b then GET else POST) <$> x.1.2) x.2) <$> of_bytes s;
    url_query s := snd <$> (of_bytes s : option (string * string))
  |}.
  - intros [u m c] s [= <-]. rewrite of_to_bytes. by destruct m as [[]|].
  - intros u q. change (snd <$> (of_bytes (to_bytes (u, q)) : option (string * string)) = Some q). by rewrite of_to_bytes.
Defined.

Definition ex_registration (attributes : imap string AuthorizedMdoc) : ReaderRegistration := {|
  purpose_statement := []; retention_policy := mkRetention false None; sharing_policy := mkSharing false;
  deletion_policy := mkDeletion true;
  reader_organization := mkOrganization [] [] [] [] None None None None None None None;
  request_origin_base_url := "https://rp.example.com"; registered_attributes := attributes
|}.
Definition ex_reg : ReaderRegistration :=
  ex_registration [("com.example.pid", [("com.example.pid", [("age", mkAuthorizedAttribute); ("name", mkAuthorizedAttribute)])])].
#[export] Instance registration_lib : RegistrationLib := {|
  oid_from l := l; utf8_string_decode := Some;
  reader_registration_from_str s := if decide (s = "rp.example.com") then Some ex_reg else None;
  issuer_registration_from_str _ := None
|}.
#[export] Instance key_factory : KeyFactory := {|
  generate_existing _ vk := (vk : SigningKey);
  sign_multiple_with_existing_keys l := Some ((λ mk : string * SigningKey, [ecdsa_sign mk.2 mk.1]) <$> l)
|}.
#[export] Instance key_factory_laws : KeyFactoryLaws.
Proof.
  intros l sigs [= <-]. apply Forall2_fmap_r, Forall_Forall2_diag, Forall_forall. intros [m k] _. exists (ecdsa_sign k m).
  split; [done|]. apply ecdsa_correct.
Qed.
#[export] Instance ex_client : VpMessageClient := {|
  answer_request _ _ _ := Ok ex_jws;
  answer_response _ _ _ := Ok None;
  answer_error _ _ _ := Ok None
|}.

(** ** The wallet *)
Definition ex_stored (id : nat) (m : Mdoc) : StoredMdoc nat := mkStoredMdoc id m.
Definition ex_mdoc : Mdoc := mkMdoc "com.example.pid" "key" example_signed Software.
Definition ex_source (l : list (list (StoredMdoc nat))) : MdocDataSource nat := λ _, Some l.
Definition ex_groups : list (list (StoredMdoc nat)) := [[ex_stored 7 ex_mdoc]].
Definition ex_reqs : list ItemsRequest := requested_fields <$> ex_requests.

Lemma ex_stored_ok : Forall stored_ok (mjoin ex_groups).
Proof. apply Forall_singleton. split; [|by vm_compute]. unfold name_spaces_wf. vm_compute. apply NoDup_singleton. Qed.
Lemma ex_contract : groups_ok (requested_types ex_reqs) ex_groups.
Proof.
  split; [apply NoDup_singleton|]. apply Forall_singleton, Forall_singleton. split; [|done].
  apply (bool_decide_unpack _). by vm_compute.
Qed.
Lemma ex_challenges dt : dt ∈ requested_types ex_reqs → is_ok (device_authentication_bytes dt ex_transcript) = true.
Proof. unfold requested_types. simpl. intros Hdt. assert (dt = "com.example.pid") as -> by set_solver. by vm_compute. Qed.
Lemma ex_asked : Forall (λ s, requested_of ex_reqs (stored_type s) ≠ []) (mjoin ex_groups).
Proof. apply Forall_singleton. by vm_compute. Qed.

Lemma request_match_equivalence_witness :
  ∃ c, DisclosureRequestMatch_new ex_reqs (ex_source ex_groups) ex_transcript = Ok (Candidates c) ∧
    satisfiable ex_reqs (mjoin ex_groups) = true ∧ c.*1 = ["com.example.pid"].
Proof.
  destruct (request_match_equivalence ex_reqs (ex_source ex_groups) ex_transcript ex_groups) as (r & Hr & Hm);
    [reflexivity|apply ex_contract|apply ex_stored_ok|apply ex_challenges|apply ex_asked|].
  destruct r as [c|l]; [|destruct Hm as [Hs _]; vm_compute in Hs; discriminate].
  exists c. split; [exact Hr|]. split; [apply Hm|]. vm_compute in Hr. injection Hr as <-. reflexivity.
Defined.

(** A request that names a second type without attributes, which is within the
    registration and passes through a definition unchanged. *)
Definition ex_empty : list ItemsRequest := ex_reqs ++ [mkItemsRequest "com.example.address" [] None].
Definition ex_address : Mdoc := mkMdoc "com.example.address" "key" example_signed Software.
Definition ex_groups2 : list (list (StoredMdoc nat)) := [[ex_stored 7 ex_mdoc]; [ex_stored 8 ex_address]].
Lemma empty_items_request_panics_witness :
  requests_of_definition (definition_of_requests "id" ex_empty) = Ok ex_empty ∧
  verify_requested_attributes ex_reg ex_empty = Ok tt ∧
  DisclosureRequestMatch_new ex_empty (ex_source ex_groups2) ex_transcript = Panic.
Proof.
  split; [vm_compute; reflexivity|]. split; [vm_compute; reflexivity|].
  apply (empty_items_request_panics ex_empty (ex_source ex_groups2) ex_transcript ex_groups2) with (s := ex_stored 8 ex_address).
  - reflexivity.
  - split; [apply (bool_decide_unpack _); by vm_compute|].
    repeat first [apply Forall_cons; split | apply Forall_nil_2 | split]; try done; apply (bool_decide_unpack _); by vm_compute.
  - repeat first [apply Forall_cons; split | apply Forall_nil_2]; (split; [|by vm_compute]); unfold name_spaces_wf; vm_compute;
      apply NoDup_singleton.
  - intros dt. unfold requested_types. simpl. intros Hdt.
    assert (dt = "com.example.pid" ∨ dt = "com.example.address") as [->| ->] by set_solver; by vm_compute.
  - right. left.
  - vm_compute. reflexivity.
Defined.

(** The wallet has two mdocs of one type, of which the first has the requested
    attribute, and none of another type that is requested too: the attribute that
    it has is reported as missing. *)
Definition ex_two : list ItemsRequest := ex_reqs ++ [mkItemsRequest "com.example.address" [("a", [("street", false)])] None].
Definition ex_bare : Mdoc := mkMdoc "com.example.pid" "key" (mkIssuerSigned None (issuer_auth example_signed)) Software.
Lemma held_attribute_reported_missing :
  DisclosureRequestMatch_new ex_two (ex_source [[ex_stored 7 ex_mdoc; ex_stored 9 ex_bare]]) ex_transcript =
    Ok (MatchMissingAttributes [mkAttributeIdentifier "com.example.pid" "com.example.pid" "age";
                                mkAttributeIdentifier "com.example.address" "a" "street"]) ∧
  mkAttributeIdentifier "com.example.pid" "com.example.pid" "age" ∈ stored_identifiers (ex_stored 7 ex_mdoc).
Proof. split; [vm_compute; reflexivity|]. apply (bool_decide_unpack _). vm_compute. done. Qed.

(** ** A session *)
Definition ex_ruri : string := "https://rp.example.com/tok".
Definition ex_ul : string :=
  match format_ul "https://wallet.example.com" ex_ruri ex_now (generate_ephemeral_id ex_verifier "tok" ex_now) SameDevice
          "rp.example.com" with Ok ul => ul | _ => "" end.
Definition ex_wq : string := default "" (url_query ex_ul).
Definition ex_wrnd : StartRandom := mkStartRandom "wn" "mdoc_nonce".
Definition ex_show (_ : VpClientError) : string := "error".
Definition ex_started : outcome VpClientError (DisclosureSession nat) * list VpMessage :=
  start ex_show ex_now ex_wrnd ex_wq Link (ex_source ex_groups) rp_anchors [].
Definition proposal_of `{!Josekit} {I} (r : outcome VpClientError (DisclosureSession I)) : option (DisclosureProposal I) :=
  match r with Ok (SessionProposal p) => Some p | _ => None end.
Lemma proposal_of_Some `{!Josekit} {I} (r : outcome VpClientError (DisclosureSession I)) p :
  proposal_of r = Some p → r = Ok (SessionProposal p).
Proof. destruct r as [[]| |]; try done. by intros [= ->]. Qed.
Lemma proposal_inj `{!Josekit} {I} (p p' : DisclosureProposal I) (l l' : list VpMessage) :
  (Ok (E:=VpClientError) (SessionProposal p), l) = (Ok (SessionProposal p'), l') → p = p' ∧ l = l'.
Proof. by intros [= <- <-]. Qed.
Definition ex_proposal : option (DisclosureProposal nat) := proposal_of ex_started.1.
Definition some_value {A} (o : option A) : is_Some o → A :=
  match o with Some a => λ _, a | None => λ h, False_rect A (is_Some_None h) end.
Lemma some_value_eq {A} (o : option A) h : o = Some (some_value o h).
Proof. destruct o; [done|]. destruct (is_Some_None h). Qed.
Lemma ex_proposal_some : is_Some ex_proposal.
Proof. apply (bool_decide_unpack _). vm_compute. done. Qed.
Definition p0 : DisclosureProposal nat := some_value ex_proposal ex_proposal_some.
Definition ex_log1 : list VpMessage := ex_started.2.
Lemma ex_started_eq : ex_started = (Ok (SessionProposal p0), ex_log1).
Proof.
  unfold ex_log1. rewrite <-(proposal_of_Some ex_started.1 p0) by apply (some_value_eq ex_proposal). apply surjective_pairing.
Qed.

Lemma proposal_within_registration_witness : ∃ ro reg,
  ex_log1 = [GetAuthorizationRequest (ro_request_uri ro) (Some "wn")] ∧
  type_from_certificate (cd_certificate (dp_data p0)) = Ok (ReaderAuthCertificate (Some reg)) ∧
  ∀ pd nss n items item, pd ∈ proposed_documents p0 → name_spaces (pd_issuer_signed pd) = Some nss → (n, items) ∈ nss → item ∈ items →
    mkAttributeIdentifier (pd_doc_type pd) n (element_identifier (untag item)) ∈ attribute_identifiers reg.
Proof.
  destruct (proposal_within_registration ex_show ex_now ex_wrnd ex_wq Link (ex_source ex_groups) rp_anchors [] p0 ex_log1 ex_started_eq)
    as (ro & ints & groups & Hro & _ & _ & _ & Ht & _ & Hlog & _ & Hall).
  exists ro, (cd_reader_registration (dp_data p0)). split; [|split; [exact Ht|]].
  - rewrite Hlog. simpl. vm_compute in Hro. injection Hro as <-. reflexivity.
  - intros pd nss n items item H1 H2 H3 H4. apply (Hall pd nss n items item H1 H2 H3 H4).
Defined.

(** The response of this wallet, as JSON. *)
Definition w_dr : DeviceResponse :=
  match from_proposed_documents (proposed_documents p0) with Ok d => d | _ => mkDeviceResponse None None 1 end.
Definition w_response : VpAuthorizationResponse :=
  match VpAuthorizationResponse_new (E:=AuthResponseError) "ps" w_dr ex_iso with
  | Ok r => r | _ => mkVpResponse [] (mkSubmission "" "" []) None end.
#[export] Instance wallet_response_json : ResponseJson.
Proof.
  refine {|
    response_to_value r := if decide (r = w_response) then Some ("response" : JwtPayload) else None;
    response_from_value _ := Some w_response
  |}.
  intros r p. destruct (decide (r = w_response)) as [->|_]; [intros _; reflexivity|intros [=]].
Defined.
Definition w_jwe : string :=
  match VpAuthorizationResponse_new_encrypted "ps" "" w_dr ex_iso "mdoc_nonce" with Ok j => j | _ => "" end.

Lemma list_singleton_eq {A} (a b : A) : [a] = [b] → a = b.
Proof. by intros [= ->]. Qed.
Lemma disclose_reports_sharing_witness :
  disclose "ps" "" p0 ex_log1 = (Ok None, ex_log1 ++ [SendAuthorizationResponse ex_uri w_jwe]) ∧
  ∃ docs jwe payload, SendAuthorizationResponse ex_uri w_jwe = SendAuthorizationResponse ex_uri jwe ∧
    VpAuthorizationResponse_new (E:=AuthResponseError) "ps" (mkDeviceResponse (Some docs) None 0) ex_iso = Ok payload.
Proof.
  assert (disclose "ps" "" p0 ex_log1 = (Ok None, ex_log1 ++ [SendAuthorizationResponse ex_uri w_jwe])) as Hd
    by (vm_compute; reflexivity).
  split; [exact Hd|].
  destruct (disclose_reports_sharing "ps" "" p0 ex_log1 _ _ Hd) as [(Hlog & _)|(docs & jwe & payload & Hlog & Hnew & _)].
  - vm_compute in Hlog. discriminate.
  - exists docs, jwe, payload. split; [by apply app_inv_head, list_singleton_eq in Hlog|exact Hnew].
Defined.

(** ** Both sides *)
Lemma ex_acceptable : Forall (acceptable ex_now (v_trust_anchors ex_verifier)) (mjoin ex_groups).
Proof.
  apply Forall_singleton.
  destruct (IssuerSigned_verify example_signed Valid ex_now (v_trust_anchors ex_verifier)) as [[attrs mso]| |] eqn:Hv;
    [|vm_compute in Hv; discriminate..].
  exists attrs, mso. split; [exact Hv|]. vm_compute in Hv. injection Hv as <- <-. split; [reflexivity|].
  exists example_device. by split; vm_compute.
Qed.

Lemma ex_unique dt : requested_of ex_reqs dt ≠ [] → length (satisfying ex_reqs (mjoin ex_groups) dt) = 1%nat.
Proof.
  destruct (decide (dt = "com.example.pid")) as [->|Hne]; [intros _; vm_compute; reflexivity|]. intros Hr. destruct Hr.
  unfold requested_of. change (attribute_identifiers ex_reqs) with [mkAttributeIdentifier "com.example.pid" "com.example.pid" "age"].
  rewrite filter_cons_False by (simpl; congruence). reflexivity.
Qed.

Lemma wallet_disclosure_accepted_witness : ∃ p dr s1 s2 attrs,
  ex_started.1 = Ok (SessionProposal p) ∧ from_proposed_documents (proposed_documents p) = Ok dr ∧
  process_authorization_response ex_show_post ex_show_user ex_now ex_verifier "tok" (WalletResponse (mkVpToken w_jwe)) ex_now s1
    = (Ok (mkVpRedirect (Some "https://rp.example.com/tok&nonce=rn")), s2) ∧
  verifier_disclosed_attributes "tok" (Some "rn") s2 = (Ok attrs, s2) ∧
  (λ x, (x.1, disclosed_attributes x.2)) <$> attrs = (λ x, (x.1, pa_attributes x.2)) <$> proposal_attributes p.
Proof.
  destruct (wallet_disclosure_accepted ex_show_get ex_show_post ex_show_user ex_show ex_verifier v1 "tok"
    (mkCreated ex_requests "uc" "rp.example.com" (Some ex_template)) ex_now ex_usecase SameDevice "https://wallet.example.com" ex_ruri ex_ul
    ex_uri ex_now ex_now ex_rnd ex_enc (Some (mkRedirectUri "https://rp.example.com/tok&nonce=rn" "rn")) ex_ar ex_jws
    ex_wq ex_now ex_wrnd Link [] rp_anchors ex_reg (ex_source ex_groups) ex_groups ex_transcript ex_now)
    as (p & log1 & dr & s1 & Hstart & Hget & Hdr & Hall).
  - exact v1_session.
  - reflexivity.
  - vm_compute. reflexivity.
  - unfold seconds. lia.
  - vm_compute. reflexivity.
  - reflexivity.
  - vm_compute. reflexivity.
  - reflexivity.
  - vm_compute. reflexivity.
  - repeat constructor; set_solver.
  - reflexivity.
  - by repeat constructor.
  - vm_compute. reflexivity.
  - vm_compute. reflexivity.
  - reflexivity.
  - split; reflexivity.
  - vm_compute. reflexivity.
  - reflexivity.
  - reflexivity.
  - vm_compute. reflexivity.
  - vm_compute. reflexivity.
  - vm_compute. reflexivity.
  - vm_compute. reflexivity.
  - exact ex_challenges.
  - reflexivity.
  - exact ex_contract.
  - exact ex_stored_ok.
  - exact ex_asked.
  - exact ex_unique.
  - exact ex_acceptable.
  - intros l. eexists. reflexivity.
  - change (ex_started = (Ok (SessionProposal p), log1)) in Hstart. rewrite ex_started_eq in Hstart.
    destruct (proposal_inj _ _ _ _ Hstart) as [<- <-].
    assert (dr = w_dr) as -> by (unfold w_dr; by rewrite Hdr).
    destruct (Hall "ps" "" w_jwe) as (_ & s2 & attrs & Hpost & Hattrs & Heq); [vm_compute; reflexivity|].
    exists p0, w_dr, s1, s2, attrs. rewrite ex_started_eq. split; [reflexivity|]. split; [exact Hdr|].
    split; [exact Hpost|]. split; [exact Hattrs|exact Heq].
Defined.
