(* ===== verification/IsoWitness.v ===== *)
(** * An ISO 18013-5 disclosure, evaluated

    The wallet and the relying party of [HolderWitness], in a session over HTTP
    with engagements, an encrypted request and an encrypted response: the theorems
    about both sides and about their composition are applied to this run. *)
From stdpp Require Import base gmap strings list option fin_maps countable pretty relations.
From Stdlib Require Import ZArith Lia.
From S2P Require Import Prelude IndexMap SessionStore SessionStoreFacts Crypto Jose Cbor Cose Engagement Concrete.
From S2P Require Import Mdoc MdocSigning CoseEquiv MdocFacts DisclosureFacts ResponseCbor Holder HolderFacts HolderResponse.
From S2P Require Import Protocol OpenId4vp Verifier VerifierWitness DisclosureSession DisclosureSessionFacts HolderWitness.
From S2P Require Import IsoMessages IsoVerifier IsoVerifierFacts IsoHolder IsoHolderFacts IsoProtocol.
Import Crates.

(** ** Crates *)
Definition alg_value (a : option CoseAlgorithm) : Value :=
  match a with None => VNull | Some AlgES256 => VInteger (-7) | Some (AlgOther n) => VArray [VInteger n] end.
Definition value_alg (v : Value) : option (option CoseAlgorithm) :=
  match v with
  | VNull => Some None | VInteger (-7) => Some (Some AlgES256) | VArray [VInteger n] => Some (Some (AlgOther n)) | _ => None
  end.
Definition header_value (h : CoseHeader) : Value :=
  VArray [alg_value (cose_alg h); VMap ((λ p, (label_value p.1, p.2)) <$> rest h)].
Definition value_header (v : Value) : option CoseHeader :=
  match v with
  | VArray [a; VMap ps] => a ← value_alg a; ps ← mapM (λ p, l ← value_label p.1; Some (l, p.2)) ps; Some (mkCoseHeader a ps)
  | _ => None
  end.
Lemma value_header_value h : value_header (header_value h) = Some h.
Proof.
  destruct h as [a ps]. simpl. assert (value_alg (alg_value a) = Some a) as -> by (by destruct a as [[]|]). simpl.
  assert (mapM (λ p : Value * Value, l ← value_label p.1; Some (l, p.2)) ((λ p : Label * Value, (label_value p.1, p.2)) <$> ps)
    = Some ps) as ->; [|done].
  apply mapM_Some, Forall2_fmap_l, Forall_Forall2_diag, list.Forall_true. intros [l x]. simpl. by rewrite value_label_value.
Qed.
Definition bytes_value (o : option string) : Value := match o with None => VNull | Some b => VBytes b end.
Definition value_bytes (v : Value) : option (option string) :=
  match v with VNull => Some None | VBytes b => Some (Some b) | _ => None end.
(** A parsed structure keeps the bytes of its protected header. *)
Definition sign1_value (c : CoseSign1) : Value :=
  VArray [header_value (header (protected c)); header_value (unprotected c); bytes_value (payload c); VBytes (signature c)].
Definition value_sign1 (v : Value) : option CoseSign1 :=
  match v with
  | VArray [h; u; p; VBytes s] =>
      h' ← value_header h; u ← value_header u; p ← value_bytes p; b ← into_writer h; Some (mkSign1 s p (mkProtected (Some b) h') u)
  | _ => None
  end.
Definition mac0_value (c : CoseMac0) : Value :=
  VArray [header_value (header (mac_protected c)); header_value (mac_unprotected c); bytes_value (mac_payload c); VBytes (mac_tag c)].
Definition value_mac0 (v : Value) : option CoseMac0 :=
  match v with
  | VArray [h; u; p; VBytes s] =>
      h' ← value_header h; u ← value_header u; p ← value_bytes p; b ← into_writer h; Some (mkMac0 s p (mkProtected (Some b) h') u)
  | _ => None
  end.
#[export] Instance cose_serde : CoseSerde.
Proof.
  refine {|
    serde_sign1 := {| serialized c := Some (sign1_value c); deserialized := value_sign1 |};
    serde_mac0 := {| serialized c := Some (mac0_value c); deserialized := value_mac0 |}
  |}.
  - by intros c v [= <-].
  - intros [s [p|] [o h] u] v [= <-]; eexists; (split; [cbn -[value_header header_value]; rewrite !value_header_value; reflexivity|by split]).
  - intros [s [p|] [o h] u] v [= <-]; eexists; (split; [cbn -[value_header header_value]; rewrite !value_header_value; reflexivity|by split]).
Defined.
#[export] Instance iso_lib : IsoLib.
Proof.
  refine {|
    secret_public_key k := (k : VerifyingKey);
    aes_encrypt key nonce text := Some text;
    aes_decrypt key nonce c := Some c
  |}.
  - intros a b. simpl. by rewrite N.add_comm.
  - intros ikm salt info len bts. simpl. destruct (len <? 0) eqn:Hl; [done|]. apply Z.ltb_ge in Hl. intros [= <-].
    rewrite stretch_length. lia.
  - by intros key nonce text c [= <-].
Defined.
#[export] Instance session_type_lib : SessionTypeLib.
Proof.
  refine {| session_type_from_str s := up_session_type <$> parameters_from_str s |}.
  intros p s Hs. by rewrite (parameters_round_trip _ _ Hs).
Defined.
#[export] Instance url_join_lib : UrlJoin := {| url_path_is_dir _ := true; url_push_slash u := u; url_join u s := Some (u +:+ s) |}.

(** ** The verifier *)
Definition i_show (_ : IsoError) : string := "error".
Definition i_usecase : IsoVerifier.UseCase := IsoVerifier.mkUseCase _ ex_rp BothReturnUrl.
Definition i_verifier : IsoVerifier.Verifier := IsoVerifier.mkVerifier {["uc" := i_usecase]} ["ca"] "secret".
Definition i_reader : SecretKey := "r".
Definition i_device : SecretKey := "d".
Definition i0 : MemorySessionStore IsoVerifier.DisclosureData := memory_new default_timeouts.
Definition i1 : MemorySessionStore IsoVerifier.DisclosureData :=
  (IsoVerifier.new_session ex_now "tok" i_reader i_verifier ex_requests "uc" (Some ex_template) i0).2.
Definition outcome_value {E A} (d : A) (o : outcome E A) : A := match o with Ok a => a | _ => d end.
Definition i_url : string := outcome_value "" (IsoVerifier.generate_verifier_url i_verifier "https://rp.example.com/" "tok" SameDevice ex_now).
Definition i_re : ReaderEngagement := outcome_value (mkIntMap (mkEngagement None None [])) (ReaderEngagement_try_new i_reader i_url).
Definition i_qr : string := outcome_value "" (cbor_serialize i_re).
Definition i_de : DeviceEngagement := outcome_value (mkIntMap (mkEngagement None None [])) (new_device_engagement i_device REFERRER_URL).
Definition i_msg : string := outcome_value "" (cbor_serialize i_de).
Definition i_answer := process_message i_show ex_now "n" i_verifier i_msg "tok" i_url i1.
Definition i_sd1 : SessionData := outcome_value (mkSessionData None None) i_answer.1.
Definition i2 : MemorySessionStore IsoVerifier.DisclosureData := i_answer.2.

(** ** The connection: the answers of the verifier *)
Definition i_peer_answer (sd : SessionData) : outcome ReqwestError HttpResponse :=
  Ok (mkHttpResponse 200 (Ok (outcome_value "" (cbor_serialize sd)))).
#[export] Instance i_peer : CborPeer := {|
  answer_post log := match log with [_] => i_peer_answer i_sd1 | _ => i_peer_answer new_termination end |}.

(** ** The wallet *)
Abbreviation i_session := (IsoHolder.DisclosureSession nat).
Definition i_start (anchors : list TrustAnchor) : outcome IsoHolderError i_session * list (string * string) :=
  IsoHolder.start ex_now i_device i_qr Link (ex_source ex_groups) anchors [].
Definition session_value {I} (r : outcome IsoHolderError (IsoHolder.DisclosureSession I)) : option (IsoHolder.DisclosureProposal I) :=
  match r with Ok (IsoHolder.SessionProposal p) => Some p | _ => None end.
Lemma session_value_Some {I} (r : outcome IsoHolderError (IsoHolder.DisclosureSession I)) p :
  session_value r = Some p → r = Ok (IsoHolder.SessionProposal p).
Proof. destruct r as [[]| |]; try done. by intros [= ->]. Qed.
Lemma i_proposal_some : is_Some (session_value (i_start rp_anchors).1).
Proof. apply (bool_decide_unpack _). vm_compute. done. Qed.
Definition i_p : IsoHolder.DisclosureProposal nat := some_value _ i_proposal_some.
Lemma i_started : i_start rp_anchors = (Ok (IsoHolder.SessionProposal i_p), [(i_url, i_msg)]).
Proof.
  assert ((i_start rp_anchors).2 = [(i_url, i_msg)]) as Hl by (vm_compute; reflexivity).
  rewrite <- Hl, <- (session_value_Some (i_start rp_anchors).1 i_p) by apply some_value_eq. apply surjective_pairing.
Qed.
Definition i_dr : DeviceResponse := outcome_value (mkDeviceResponse None None 1) (from_proposed_documents (IsoHolder.proposed_documents i_p)).
Definition i_sd2 : SessionData := outcome_value (mkSessionData None None) (serialize_and_encrypt i_dr (IsoHolder.dp_device_key i_p)).
Definition i_msg2 : string := outcome_value "" (cbor_serialize i_sd2).
Definition i_answer2 := process_message i_show ex_now "n2" i_verifier i_msg2 "tok" i_url i2.
Definition i3 : MemorySessionStore IsoVerifier.DisclosureData := i_answer2.2.

(** ** A run of the server *)
Abbreviation i_step := (iso_step i_show i_verifier (S:=MemorySessionStore IsoVerifier.DisclosureData)).
Lemma i_step1 : i_step i0 i1.
Proof. eapply iso_new. apply surjective_pairing. Qed.
Lemma i_step2 : i_step i1 i2.
Proof. eapply (iso_message i_show i_verifier i1 ex_now "n" i_msg "tok" i_url i_answer.1). apply (surjective_pairing i_answer). Qed.
Lemma i_step3 : i_step i2 i3.
Proof. eapply (iso_message i_show i_verifier i2 ex_now "n2" i_msg2 "tok" i_url i_answer2.1). apply (surjective_pairing i_answer2). Qed.
Lemma i_run2 : rtc i_step i0 i2.
Proof. eapply rtc_l; [apply i_step1|]. apply rtc_once, i_step2. Qed.
Lemma i_run3 : rtc i_step i0 i3.
Proof. eapply rtc_r; [apply i_run2|apply i_step3]. Qed.
Lemma i1_session : view i1 !! "tok" = Some (mkSessionState (IsoVerifier.DCreated
  (IsoVerifier.mkCreated _ _ ex_requests "uc" (Some "https://rp.example.com/tok") i_reader)) "tok" ex_now).
Proof. reflexivity. Qed.

Lemma iso_sessions_typed_witness :
  (process_message i_show ex_now "n" i_verifier "garbage" "tok" i_url i2).1 ≠ Panic ∧
  ∃ x, view i2 !! "tok" = Some x ∧ token x = "tok" ∧ session_typed i_verifier (data x).
Proof.
  destruct (iso_sessions_typed i_show i_verifier i0 i2) as (Ht & Hp & _); [reflexivity|exact i_run2|]. split; [apply Hp|].
  assert (is_Some (view i2 !! "tok")) as [x Hx] by (apply (bool_decide_unpack _); vm_compute; done).
  exists x. split; [exact Hx|]. apply Ht. exact Hx.
Defined.

Lemma i_answered : process_message i_show ex_now "n" i_verifier i_msg "tok" i_url i1 = (Ok i_sd1, i2).
Proof.
  change (i_answer = (Ok i_sd1, i2)). assert (i_answer.1 = Ok i_sd1) as Ha by (vm_compute; reflexivity).
  unfold i2. rewrite <- Ha. apply surjective_pairing.
Qed.
Lemma i_answered2 : process_message i_show ex_now "n2" i_verifier i_msg2 "tok" i_url i2 = (Ok new_termination, i3).
Proof.
  change (i_answer2 = (Ok new_termination, i3)). assert (i_answer2.1 = Ok new_termination) as Ha by (vm_compute; reflexivity).
  unfold i3. rewrite <- Ha. apply surjective_pairing.
Qed.

(** Two messages are answered, between them the relying party asks for the result. *)
Lemma i_asked_early : IsoVerifier.verifier_disclosed_attributes "tok" None i2 = ((IsoVerifier.verifier_disclosed_attributes "tok" None i2).1, i2).
Proof.
  destruct (IsoVerifier.verifier_disclosed_attributes "tok" None i2) as [r s] eqn:Hr. by destruct (iso_attributes_cases _ _ _ _ _ Hr) as [-> _].
Qed.
Lemma i_conversation : conversation i_show i_verifier "tok" 2 i1 i3.
Proof.
  eapply (conversation_message _ _ _ _ _ i2 _ ex_now "n" i_msg i_url i_sd1); [exact i_answered|].
  eapply (conversation_other _ _ _ _ _ i2); [eapply (iso_attributes _ _ _ "tok" None), i_asked_early|by intros ?|].
  eapply (conversation_message _ _ _ _ _ i3 _ ex_now "n2" i_msg2 i_url new_termination); [exact i_answered2|constructor].
Qed.
Lemma iso_session_terminates_witness : ∃ e,
  process_message i_show ex_now "n" i_verifier i_msg2 "tok" i_url i3 = (Err e, i3).
Proof.
  destruct (iso_session_terminates i_show i_verifier i0 i1 "tok" 2 i3) as [_ Ht]; [reflexivity|apply rtc_once, i_step1|exact i_conversation|].
  apply Ht. reflexivity.
Defined.

Definition i_attrs : DisclosedAttributes :=
  outcome_value [] (IsoVerifier.verifier_disclosed_attributes "tok" (Some "n") i3).1.
Lemma i_attributes : IsoVerifier.verifier_disclosed_attributes "tok" (Some "n") i3 = (Ok i_attrs, i3).
Proof.
  assert ((IsoVerifier.verifier_disclosed_attributes "tok" (Some "n") i3).1 = Ok i_attrs) as Ha by (vm_compute; reflexivity).
  destruct (IsoVerifier.verifier_disclosed_attributes "tok" (Some "n") i3) as [r s] eqn:Hr. cbn in Ha. subst r.
  by destruct (iso_attributes_cases _ _ _ _ _ Hr) as [-> _].
Qed.
Lemma iso_disclosed_attributes_verified_witness :
  i_attrs.*1 = ["com.example.pid"] ∧ ∃ s1 c key m dr time t, rtc i_step i0 s1 ∧ session_data s1 "tok" = Some (IsoVerifier.DCreated c) ∧
    decrypt_and_deserialize (T:=DeviceResponse) m key = Ok dr ∧
    DeviceResponse_verify dr (Some (cr_ephemeral_privkey c)) t time ["ca"] = Ok i_attrs ∧ match_against_response (cr_items_requests c) dr = Ok tt.
Proof.
  split; [vm_compute; reflexivity|].
  destruct (iso_disclosed_attributes_verified i_show i_verifier i0 i3 "tok" (Some "n") i_attrs i3) as
    (s1 & c & now & url & st & re & de & sec & pk & t & key & m & dr & time & stored & Hr1 & _ & Hc & _ & _ & _ & _ & _ & _ & Hd & Hv & Hm & _);
    [reflexivity|exact i_run3|exact i_attributes|].
  exists s1, c, key, m, dr, time, t. split_and!; [exact Hr1|exact Hc|exact Hd|exact Hv|exact Hm].
Defined.

(** ** The wallet in this run, and one that does not trust the relying party *)
Lemma iso_request_authenticated_witness : ∃ re url de t rk dk b sd req,
  engaged i_device i_qr Link re url de t rk dk ∧ [(i_url, i_msg)] = [(url, b)] ∧ answered [(i_url, i_msg)] sd ∧
  decrypt_and_deserialize sd rk = Ok req ∧
  Forall (signed_by t ex_now rp_anchors (IsoHolder.cd_certificate (IsoHolder.dp_data i_p))) (doc_requests req).
Proof.
  destruct (iso_request_authenticated ex_now i_device i_qr Link (ex_source ex_groups) rp_anchors []
    (IsoHolder.SessionProposal i_p) [(i_url, i_msg)] i_started) as (re & url & de & t & rk & dk & b & sd & req & Hen & _ & Hl & Han & Hd & _ & _ & Hs & _).
  exists re, url, de, t, rk, dk, b, sd, req. split_and!; [exact Hen|exact Hl|exact Han|exact Hd|exact Hs].
Defined.

Definition error_value {E A} (o : outcome E A) : option E := match o with Err e => Some e | _ => None end.
Lemma error_value_Some {E A} (o : outcome E A) e : error_value o = Some e → o = Err e.
Proof. destruct o; [done| |done]. by intros [= ->]. Qed.
Lemma i_error_some : is_Some (error_value (i_start []).1).
Proof. apply (bool_decide_unpack _). vm_compute. done. Qed.
Definition i_error : IsoHolderError := some_value _ i_error_some.
Definition i_log : list (string * string) := (i_start []).2.
Lemma i_failed : i_start [] = (Err i_error, i_log).
Proof. unfold i_log. rewrite <- (error_value_Some (i_start []).1 i_error) by apply some_value_eq. apply surjective_pairing. Qed.
Lemma iso_failure_reported_witness :
  length i_log = 2%nat ∧ ∃ re url de t rk dk, engaged i_device i_qr Link re url de t rk dk ∧ i_log = sent url de ++ reported url i_error.
Proof.
  split; [vm_compute; reflexivity|].
  destruct (iso_failure_reported ex_now i_device i_qr Link (ex_source ex_groups) [] [] i_error i_log i_failed)
    as [Hl|(re & url & de & t & rk & dk & Hen & Hl & _)]; [vm_compute in Hl; discriminate|].
  exists re, url, de, t, rk, dk. split; [exact Hen|exact Hl].
Defined.

(** ** Both sides *)
Definition i_created : IsoVerifier.Created := IsoVerifier.mkCreated _ _ ex_requests "uc" (Some "https://rp.example.com/tok") i_reader.
Definition i_transcript : SessionTranscript := outcome_value example_transcript (SessionTranscript_new_iso SameDevice i_re i_de).
Lemma i_contract : groups_ok (requested_types ex_requests) ex_groups.
Proof.
  split; [apply NoDup_singleton|]. apply list.Forall_singleton, list.Forall_singleton. split; [|done].
  apply (bool_decide_unpack _). by vm_compute.
Qed.
Lemma i_challenges dt : dt ∈ requested_types ex_requests → is_ok (device_authentication_bytes dt i_transcript) = true.
Proof. unfold requested_types. simpl. intros Hdt. assert (dt = "com.example.pid") as -> by set_solver. by vm_compute. Qed.
Lemma i_asked : Forall (λ s, requested_of ex_requests (stored_type s) ≠ []) (mjoin ex_groups).
Proof. apply list.Forall_singleton. by vm_compute. Qed.
Lemma i_unique dt : requested_of ex_requests dt ≠ [] → length (satisfying ex_requests (mjoin ex_groups) dt) = 1%nat.
Proof.
  destruct (decide (dt = "com.example.pid")) as [->|Hne]; [intros _; vm_compute; reflexivity|]. intros Hr. destruct Hr.
  unfold requested_of. change (attribute_identifiers ex_requests) with [mkAttributeIdentifier "com.example.pid" "com.example.pid" "age"].
  rewrite filter_cons_False by (simpl; congruence). reflexivity.
Qed.
Lemma i_requests_wf : Forall items_request_wf ex_requests.
Proof. apply list.Forall_singleton. split_and!; [apply NoDup_singleton| |done]. apply list.Forall_singleton, NoDup_singleton. Qed.
Lemma i_relayed : relayed [(i_url, i_msg)] i_sd1.
Proof.
  exists (mkHttpResponse 200 (Ok (outcome_value "" (cbor_serialize i_sd1)))), (outcome_value "" (cbor_serialize i_sd1)).
  split_and!; [vm_compute|..]; reflexivity.
Qed.
Lemma i_relayed2 : relayed [(i_url, i_msg); (i_url, i_msg2)] new_termination.
Proof.
  exists (mkHttpResponse 200 (Ok (outcome_value "" (cbor_serialize new_termination)))), (outcome_value "" (cbor_serialize new_termination)).
  split_and!; [vm_compute|..]; reflexivity.
Qed.
Lemma session_proposal_inj {I} (p p' : IsoHolder.DisclosureProposal I) (l l' : list (string * string)) :
  (Ok (E:=IsoHolderError) (IsoHolder.SessionProposal p), l) = (Ok (IsoHolder.SessionProposal p'), l') → p = p'.
Proof. by intros [= <-]. Qed.

Lemma iso_disclosure_completes_witness : ∃ s2 attrs,
  process_message i_show ex_now "n2" i_verifier i_msg2 "tok" i_url i2 = (Ok new_termination, s2) ∧
  IsoVerifier.verifier_disclosed_attributes "tok" (Some "n") s2 = (Ok attrs, s2) ∧
  (λ x, (x.1, disclosed_attributes x.2)) <$> attrs = (λ x, (x.1, pa_attributes x.2)) <$> IsoHolder.proposal_attributes i_p ∧
  IsoHolder.disclose i_p [(i_url, i_msg)] = (Ok tt, [(i_url, i_msg); (i_url, i_msg2)]).
Proof.
  destruct (iso_disclosure_completes i_show i_verifier i1 i2 "tok" i_created ex_now i_usecase SameDevice "https://rp.example.com/" i_url
    ex_now ex_now ex_now "n" i_re i_qr i_sd1 i_device i_de i_msg Link ex_now [] rp_anchors ex_reg (ex_source ex_groups) ex_groups i_transcript)
    as (p & dr & Hstart & Hdr & Hall).
  - exact i1_session.
  - reflexivity.
  - vm_compute. reflexivity.
  - unfold EPHEMERAL_ID_VALIDITY_SECONDS, seconds. lia.
  - reflexivity.
  - reflexivity.
  - reflexivity.
  - vm_compute. reflexivity.
  - vm_compute. reflexivity.
  - vm_compute. reflexivity.
  - vm_compute. reflexivity.
  - reflexivity.
  - exact i_answered.
  - vm_compute. reflexivity.
  - exact i_relayed.
  - exact i_requests_wf.
  - vm_compute. reflexivity.
  - vm_compute. reflexivity.
  - reflexivity.
  - vm_compute. reflexivity.
  - vm_compute. reflexivity.
  - vm_compute. reflexivity.
  - exact i_challenges.
  - reflexivity.
  - exact i_contract.
  - exact ex_stored_ok.
  - exact i_asked.
  - exact i_unique.
  - exact ex_acceptable.
  - intros l. eexists. reflexivity.
  - change (i_start rp_anchors = (Ok (IsoHolder.SessionProposal p), [(i_url, i_msg)])) in Hstart. rewrite i_started in Hstart.
    apply session_proposal_inj in Hstart as <-. assert (dr = i_dr) as -> by (unfold i_dr; by rewrite Hdr).
    destruct (Hall i_sd2 i_msg2 "n2") as (s2 & attrs & Hp & Ha & Heq & Hd); [vm_compute; reflexivity|vm_compute; reflexivity|].
    exists s2, attrs. split; [exact Hp|]. split; [exact Ha|]. split; [exact Heq|]. apply Hd. exact i_relayed2.
Defined.
