(* ===== verification/Signed.v ===== *)
(** * Doubly signed messages and instructions

    Models [wallet_common/src/account/signed.rs] (messages that a wallet signs
    with both its hardware key and its PIN key), the message types of
    [wallet_common/src/account/messages/auth.rs] and [instructions.rs], and
    [wallet_common/src/account/errors.rs].  The crate [serde_json] is a
    parameter; keys are software keys, which always sign. *)
From stdpp Require Import base strings list option.
From Stdlib Require Import ZArith Lia.
From S2P Require Import Prelude Crypto Jose.

Inductive SignedType := Pin | HW.
#[global] Instance SignedType_eq_dec : EqDecision SignedType.
Proof. solve_decision. Defined.

Inductive AccountError :=
  | KeyDeserialization
  | TypeMismatch (expected received : SignedType)
  | ChallengeMismatch
  | SequenceNumberMismatch
  | AJsonParsing
  | AEcdsa
  | AVerifyingKey
  | ASigning
  | AJwt (e : JwtError).

Record SignedMessage `{!Ecdsa} := mkSignedMessage {
  signed : string;
  sm_signature : Signature;
  sm_typ : SignedType
}.

Record ChallengeResponsePayload (T : Type) := mkChallengeResponse {
  payload : T;
  challenge : string;
  sequence_number : Z
}.
Arguments mkChallengeResponse {T}.
Arguments payload {T}.
Arguments challenge {T}.
Arguments sequence_number {T}.

Inductive SequenceNumberComparison := EqualTo (n : Z) | LargerThan (n : Z).
(** [SequenceNumberComparison::verify] *)
Definition sequence_verify (c : SequenceNumberComparison) (expected_sequence_number : Z) : bool :=
  match c with
  | EqualTo n => expected_sequence_number =? n
  | LargerThan n => n <? expected_sequence_number
  end.

(** [serde_json] on these types: a signed message whose content is kept as text
    ([RawValue]), the challenge and sequence number of a payload of any type, and
    a whole doubly signed payload. *)
Class SignedJson (T : Type) `{!Ecdsa} := {
  message_to_string : SignedMessage → option string;
  message_from_str : string → option SignedMessage;
  raw_payload_from_str : string → option (string * Z);
  payload_to_string : ChallengeResponsePayload T → option string;
  double_from_str : string → option (ChallengeResponsePayload T);
  message_round_trip m s : message_to_string m = Some s → message_from_str s = Some m;
  (** Reading all of it at once is reading it layer by layer. *)
  double_to_string p s m1 s1 m2 s2 : payload_to_string p = Some s →
    signed m1 = s → message_to_string m1 = Some s1 → signed m2 = s1 → message_to_string m2 = Some s2 →
    double_from_str s2 = Some p;
  double_layers s p outer inner : double_from_str s = Some p → message_from_str s = Some outer →
    message_from_str (signed outer) = Some inner →
    raw_payload_from_str (signed inner) = Some (challenge p, sequence_number p);
  raw_payload_to_string p s : payload_to_string p = Some s → raw_payload_from_str s = Some (challenge p, sequence_number p)
}.

Section Signed.
Context `{!Ecdsa} {T : Type} `{!SignedJson T}.

(** [parse_and_verify_message] *)
Definition parse_and_verify_message (s : string) (t : SignedType) (pubkey : VerifyingKey)
    : outcome AccountError SignedMessage :=
  let* message := ok_or AJsonParsing (message_from_str s) in
  let* _ := guard_err (ecdsa_verify pubkey (signed message) (sm_signature message)) AEcdsa in
  let* _ := guard_err (bool_decide (sm_typ message = t)) (TypeMismatch t (sm_typ message)) in
  Ok message.

(** [sign_message] *)
Definition sign_message (message : string) (t : SignedType) (privkey : SigningKey) : outcome AccountError string :=
  let signature := ecdsa_sign privkey message in
  ok_or AJsonParsing (message_to_string {| signed := message; sm_signature := signature; sm_typ := t |}).

(** [SignedDouble::verify] *)
Definition SignedDouble_verify (s : string) (c : string) (comparison : SequenceNumberComparison)
    (hw_pubkey pin_pubkey : VerifyingKey) : outcome AccountError unit :=
  let* outer := parse_and_verify_message s HW hw_pubkey in
  let* inner := parse_and_verify_message (signed outer) Pin pin_pubkey in
  let* cs := ok_or AJsonParsing (raw_payload_from_str (signed inner)) in
  let* _ := guard_err (bool_decide (c = cs.1)) ChallengeMismatch in
  guard_err (sequence_verify comparison cs.2) SequenceNumberMismatch.

(** [SignedDouble::dangerous_parse_unverified] *)
Definition SignedDouble_dangerous_parse_unverified (s : string) : outcome AccountError (ChallengeResponsePayload T) :=
  ok_or AJsonParsing (double_from_str s).

(** [SignedDouble::parse_and_verify] *)
Definition SignedDouble_parse_and_verify (s : string) (c : string) (comparison : SequenceNumberComparison)
    (hw_pubkey pin_pubkey : VerifyingKey) : outcome AccountError (ChallengeResponsePayload T) :=
  let* _ := SignedDouble_verify s c comparison hw_pubkey pin_pubkey in
  SignedDouble_dangerous_parse_unverified s.

(** [SignedDouble::sign] *)
Definition SignedDouble_sign (p : T) (c : string) (serial_number : Z) (hw_privkey pin_privkey : SigningKey)
    : outcome AccountError string :=
  let* message := ok_or AJsonParsing (payload_to_string {| payload := p; challenge := c; sequence_number := serial_number |}) in
  let* signed_inner := sign_message message Pin pin_privkey in
  sign_message signed_inner HW hw_privkey.

(** A message that one wallet signed verifies under its keys and gives back the
    payload. *)
Lemma signed_double_verifies p c n comparison hw pin s :
  SignedDouble_sign p c n hw pin = Ok s → sequence_verify comparison n = true →
  SignedDouble_parse_and_verify s c comparison (verifying_key hw) (verifying_key pin) = Ok (mkChallengeResponse p c n).
Proof.
  unfold SignedDouble_sign, sign_message. intros Hs Hn. run_ok Hs.
  match goal with H : payload_to_string _ = Some _ |- _ => rename H into Hp end.
  match goal with H : message_to_string (mkSignedMessage _ _ _ Pin) = Some _ |- _ => rename H into Hi end.
  unfold SignedDouble_parse_and_verify, SignedDouble_verify, parse_and_verify_message.
  rewrite (message_round_trip _ _ Hs). simpl. rewrite ecdsa_correct. simpl.
  rewrite (message_round_trip _ _ Hi). simpl. rewrite ecdsa_correct. simpl.
  rewrite (raw_payload_to_string _ _ Hp). simpl. rewrite bool_decide_eq_true_2 by done. simpl. rewrite Hn. simpl.
  unfold SignedDouble_dangerous_parse_unverified. erewrite double_to_string; [done|exact Hp| |exact Hi| |exact Hs]; done.
Qed.

(** What a verified message has been checked for. *)
Lemma parse_and_verify_Ok s c comparison hw pin p :
  SignedDouble_parse_and_verify s c comparison hw pin = Ok p →
  challenge p = c ∧ sequence_verify comparison (sequence_number p) = true ∧
  ∃ outer inner, message_from_str s = Some outer ∧ message_from_str (signed outer) = Some inner ∧
    ecdsa_verify hw (signed outer) (sm_signature outer) = true ∧ sm_typ outer = HW ∧
    ecdsa_verify pin (signed inner) (sm_signature inner) = true ∧ sm_typ inner = Pin ∧
    raw_payload_from_str (signed inner) = Some (challenge p, sequence_number p).
Proof.
  unfold SignedDouble_parse_and_verify, SignedDouble_verify, SignedDouble_dangerous_parse_unverified, parse_and_verify_message.
  intros Hv. run_ok Hv. zbool.
  match goal with H1 : double_from_str s = Some p, H2 : message_from_str s = Some ?o, H3 : message_from_str (signed ?o) = Some _,
    H4 : raw_payload_from_str _ = Some _ |- _ => pose proof (double_layers _ _ _ _ H1 H2 H3) as Hl; rewrite Hl in H4; injection H4 as <- end.
  simpl in *. split_and!; [done..|]. by eauto 15.
Qed.
End Signed.

(** ** Messages *)
Record Registration `{!Ecdsa} := mkRegistration { reg_pin_pubkey : VerifyingKey; reg_hw_pubkey : VerifyingKey }.

(** [Registration::new_signed] *)
Definition Registration_new_signed `{!Ecdsa, !SignedJson Registration} (hw_privkey pin_privkey : SigningKey) (c : string)
    : outcome AccountError string :=
  SignedDouble_sign {| reg_pin_pubkey := verifying_key pin_privkey; reg_hw_pubkey := verifying_key hw_privkey |} c 0
    hw_privkey pin_privkey.

Record WalletCertificateClaims `{!Ecdsa} := mkWalletCertificate {
  wc_wallet_id : string;
  wc_hw_pubkey : VerifyingKey;
  wc_pin_pubkey_hash : string;
  wc_version : Z;
  wc_iss : string;
  wc_iat : Z
}.

Record Instruction := mkInstruction { instruction : string; instruction_certificate : string }.
Record CheckPin := mkCheckPin {}.
Record GenerateKey := mkGenerateKey { identifiers : list string }.
Record GenerateKeyResult `{!Ecdsa} := mkGenerateKeyResult { public_keys : list (string * VerifyingKey) }.
Record Sign := mkSign { messages_with_identifiers : list (string * list string) }.
Record SignResult `{!Ecdsa} := mkSignResult { signatures : list (list Signature) }.
Record InstructionResultClaims (R : Type) := mkResultClaims { ir_result : R; ir_iss : string; ir_iat : Z }.
Arguments mkResultClaims {R}.
Arguments ir_result {R}.
Arguments ir_iss {R}.
Arguments ir_iat {R}.
Record InstructionChallengeRequestClaims := mkChallengeRequest { icr_sequence_number : Z; icr_iss : string; icr_iat : Z }.
Record InstructionChallengeRequestMessage := mkChallengeMessage { icm_message : string; icm_certificate : string }.

(** [Instruction::new_signed] *)
Definition Instruction_new_signed `{!Ecdsa} {T} `{!SignedJson T} (i : T) (n : Z) (hw_privkey pin_privkey : SigningKey)
    (c certificate : string) : outcome AccountError Instruction :=
  let* s := SignedDouble_sign i c n hw_privkey pin_privkey in
  Ok {| instruction := s; instruction_certificate := certificate |}.

(** [InstructionChallengeRequest::new_signed] at the time [now], in seconds. *)
Definition InstructionChallengeRequest_new_signed `{!Ecdsa, !JwtLib InstructionChallengeRequestClaims} (now : Z) (n : Z)
    (issuer : string) (hw_privkey : SigningKey) : outcome AccountError string :=
  map_err AJwt (Jwt_sign {| icr_sequence_number := n; icr_iss := issuer; icr_iat := now |} header_with_kid hw_privkey).
