(* ===== verification/WalletUsers.v ===== *)
(** * Wallet users in the database of the wallet provider

    Models [wallet_provider/persistence/src/wallet_user.rs],
    [wallet_user_key.rs] and [transaction.rs] over the tables of
    [wallet_provider/persistence/src/entity], with the data of
    [wallet_provider/domain/src/model/wallet_user.rs] and
    [wallet_provider/domain/src/repository].

    The outside world is a [remote]: the database and the HSM behind one list of
    faults, which says for each of the coming calls whether it fails.  A
    transaction works on its own copy of the tables; committing makes that copy
    the contents, and a transaction that is dropped without commit is rolled
    back.  A commit that fails has not happened. *)
From stdpp Require Import base gmap strings list option.
From Stdlib Require Import ZArith Lia.
From S2P Require Import Prelude IndexMap Crypto.

Abbreviation Uuid := string (only parsing).
Abbreviation WalletId := string (only parsing).

Inductive PersistenceError :=
  | Connection | Transaction | Execution | NotFound (what : string) | VerifyingKeyConversion | SigningKeyConversion.

(** ** Domain model *)
Record Encrypted := mkEncrypted { enc_data : string; enc_iv : string }.
Record InstructionChallenge := mkInstructionChallenge { ic_bytes : string; expiration_date_time : Z }.
Record WalletUser `{!Ecdsa} := mkWalletUser {
  wu_id : Uuid;
  wu_wallet_id : WalletId;
  hw_pubkey : VerifyingKey;
  encrypted_pin_pubkey : Encrypted;
  unsuccessful_pin_entries : Z;
  last_unsuccessful_pin_entry : option Z;
  instruction_challenge : option InstructionChallenge;
  instruction_sequence_number : Z
}.
Inductive WalletUserQueryResult `{!Ecdsa} := UserFound (u : WalletUser) | UserNotFound | UserIsBlocked.
Record WalletUserCreate `{!Ecdsa} := mkWalletUserCreate {
  wuc_id : Uuid;
  wuc_wallet_id : WalletId;
  wuc_hw_pubkey : VerifyingKey;
  wuc_encrypted_pin_pubkey : Encrypted
}.
Definition WrappedKey : Type := string.
Record WalletUserKey := mkWalletUserKey { wallet_user_key_id : Uuid; key_identifier : string; wrapped_key : WrappedKey }.
Record WalletUserKeys := mkWalletUserKeys { wuk_wallet_user_id : Uuid; wuk_keys : list WalletUserKey }.

(** ** Tables *)

(** [entity::wallet_user]; the rows are found by their unique [wallet_id]. *)
Record UserRow := mkUserRow {
  row_id : Uuid;
  hw_pubkey_der : string;
  encrypted_pin_pubkey_sec1 : string;
  pin_pubkey_iv : string;
  row_sequence_number : Z;
  pin_entries : Z;
  last_unsuccessful_pin : option Z;
  row_is_blocked : bool
}.
(** The challenges are unique per user, the keys per user and identifier. *)
Record Tables := mkTables {
  users : gmap WalletId UserRow;
  challenges : gmap Uuid InstructionChallenge;
  user_keys : gmap (Uuid * string) WrappedKey
}.
Definition no_tables : Tables := mkTables ∅ ∅ ∅.

Record Database := mkDatabase { committed : Tables; transactions : list Tables }.
Abbreviation World := (remote Database).

(** The key encoding of [p256::pkcs8], and what the database does with values:
    the sequence number has to fit the column, instants are rounded, and
    inserting no rows at all has an outcome of its own. *)
Class Storage `{!Ecdsa} := {
  to_public_key_der : VerifyingKey → option string;
  from_public_key_der : string → option VerifyingKey;
  public_key_der_round_trip k d : to_public_key_der k = Some d → from_public_key_der d = Some k;
  store_sequence_number : Z → outcome PersistenceError Z;
  store_sequence_number_fits n : 0 ≤ n < 2 ^ 31 → store_sequence_number n = Ok n;
  store_sequence_number_exact n m : store_sequence_number n = Ok m → m = n;
  store_instant : Z → Z;
  insert_no_rows : outcome PersistenceError unit
}.

(** ** Transactions *)
Definition set_database {E} (d : Database) : ST World E unit := set_contents d.

Definition begin_transaction : ST World PersistenceError unit :=
  let! _ := round_trip Transaction in
  let! r := st_get in
  let d := contents r in
  set_database {| committed := committed d; transactions := committed d :: transactions d |}.

Definition commit : ST World PersistenceError unit :=
  let! _ := round_trip Transaction in
  let! r := st_get in
  match transactions (contents r) with
  | [] => st_lift Panic
  | t :: ts => set_database {| committed := t; transactions := ts |}
  end.

(** A statement in the current transaction. *)
Definition statement {A} (f : Tables → outcome PersistenceError (A * Tables)) : ST World PersistenceError A :=
  let! _ := round_trip Execution in
  let! r := st_get in
  match transactions (contents r) with
  | [] => st_lift Panic
  | t :: ts =>
      let! at_ := st_lift (f t) in
      let! _ := set_database {| committed := committed (contents r); transactions := at_.2 :: ts |} in
      sret at_.1
  end.

(** When a function returns, the transactions it has opened are dropped. *)
Definition scoped {E A} (m : ST World E A) : ST World E A := λ r,
  let '(o, r') := m r in
  (o, Remote {| committed := committed (contents r'); transactions := transactions (contents r) |} (faults r')).

(** ** Statements *)
Section Statements.
Context `{!Ecdsa, !Storage}.

(** [create_wallet_user]; both the identifier and the wallet identifier are unique. *)
Definition create_wallet_user (u : WalletUserCreate) : ST World PersistenceError unit :=
  let! der := st_lift (ok_or VerifyingKeyConversion (to_public_key_der (wuc_hw_pubkey u))) in
  statement (λ t,
    match users t !! wuc_wallet_id u with
    | Some _ => Err Execution
    | None =>
        if decide (map_Exists (λ _ row, row_id row = wuc_id u) (users t)) then Err Execution
        else Ok (tt, {|
          users := <[wuc_wallet_id u := {|
            row_id := wuc_id u;
            hw_pubkey_der := der;
            encrypted_pin_pubkey_sec1 := enc_data (wuc_encrypted_pin_pubkey u);
            pin_pubkey_iv := enc_iv (wuc_encrypted_pin_pubkey u);
            row_sequence_number := 0;
            pin_entries := 0;
            last_unsuccessful_pin := None;
            row_is_blocked := false
          |}]> (users t);
          challenges := challenges t;
          user_keys := user_keys t
        |})
    end).

(** [find_wallet_user_by_wallet_id] *)
Definition user_of_row (wallet_id : WalletId) (row : UserRow) (c : option InstructionChallenge)
    : outcome PersistenceError WalletUser :=
  let* key := unwrap (from_public_key_der (hw_pubkey_der row)) in
  let* _ := rust_assert (0 <=? row_sequence_number row) in
  Ok {|
    wu_id := row_id row;
    wu_wallet_id := wallet_id;
    encrypted_pin_pubkey := mkEncrypted (encrypted_pin_pubkey_sec1 row) (pin_pubkey_iv row);
    hw_pubkey := key;
    unsuccessful_pin_entries := if in_range 8 (pin_entries row) then pin_entries row else u8_MAX;
    last_unsuccessful_pin_entry := last_unsuccessful_pin row;
    instruction_challenge := c;
    instruction_sequence_number := row_sequence_number row
  |}.
Definition find_wallet_user_by_wallet_id (wallet_id : WalletId) : ST World PersistenceError WalletUserQueryResult :=
  statement (λ t,
    match users t !! wallet_id with
    | None => Ok (UserNotFound, t)
    | Some row =>
        if row_is_blocked row then Ok (UserIsBlocked, t)
        else let* u := user_of_row wallet_id row (challenges t !! row_id row) in Ok (UserFound u, t)
    end).

(** [clear_instruction_challenge] *)
Definition clear_instruction_challenge (wallet_id : WalletId) : ST World PersistenceError unit :=
  statement (λ t, Ok (tt,
    match users t !! wallet_id with
    | None => t
    | Some row => {| users := users t; challenges := delete (row_id row) (challenges t); user_keys := user_keys t |}
    end)).

(** [update_fields] and [update_pin_entries]: an update of the user's row, if there is one. *)
Definition update_user (wallet_id : WalletId) (f : UserRow → UserRow) (t : Tables) : Tables :=
  {| users := alter f wallet_id (users t); challenges := challenges t; user_keys := user_keys t |}.
Definition set_sequence_number (n : Z) (row : UserRow) : UserRow := {|
  row_id := row_id row; hw_pubkey_der := hw_pubkey_der row; encrypted_pin_pubkey_sec1 := encrypted_pin_pubkey_sec1 row;
  pin_pubkey_iv := pin_pubkey_iv row; row_sequence_number := n; pin_entries := pin_entries row;
  last_unsuccessful_pin := last_unsuccessful_pin row; row_is_blocked := row_is_blocked row
|}.
Definition set_pin_entries (entries : Z → Z) (datetime : option Z) (blocked : bool) (row : UserRow) : UserRow := {|
  row_id := row_id row; hw_pubkey_der := hw_pubkey_der row; encrypted_pin_pubkey_sec1 := encrypted_pin_pubkey_sec1 row;
  pin_pubkey_iv := pin_pubkey_iv row; row_sequence_number := row_sequence_number row;
  pin_entries := entries (pin_entries row); last_unsuccessful_pin := datetime; row_is_blocked := blocked
|}.

(** [update_instruction_sequence_number] *)
Definition update_instruction_sequence_number (wallet_id : WalletId) (n : Z) : ST World PersistenceError unit :=
  statement (λ t, let* m := store_sequence_number n in Ok (tt, update_user wallet_id (set_sequence_number m) t)).

(** [update_instruction_challenge_and_sequence_number]: the challenge is inserted
    for the user with this wallet identifier, or replaces the one that is there. *)
Definition update_instruction_challenge_and_sequence_number (wallet_id : WalletId) (c : InstructionChallenge) (n : Z)
    : ST World PersistenceError unit :=
  let! _ := update_instruction_sequence_number wallet_id n in
  statement (λ t, Ok (tt,
    match users t !! wallet_id with
    | None => t
    | Some row => {|
        users := users t;
        challenges := <[row_id row := mkInstructionChallenge (ic_bytes c) (store_instant (expiration_date_time c))]> (challenges t);
        user_keys := user_keys t
      |}
    end)).

(** [register_unsuccessful_pin_entry]: [least(pin_entries + 1, 255)] *)
Definition register_unsuccessful_pin_entry (wallet_id : WalletId) (is_blocked : bool) (datetime : Z)
    : ST World PersistenceError unit :=
  statement (λ t, Ok (tt, update_user wallet_id
    (set_pin_entries (λ n, Z.min (n + 1) u8_MAX) (Some (store_instant datetime)) is_blocked) t)).

(** [reset_unsuccessful_pin_entries] *)
Definition reset_unsuccessful_pin_entries (wallet_id : WalletId) : ST World PersistenceError unit :=
  statement (λ t, Ok (tt, update_user wallet_id (set_pin_entries (λ _, 0) None false) t)).

(** [wallet_user_key::create_keys]: one statement, which fails as a whole when an
    identifier is already taken. *)
Fixpoint insert_keys (user : Uuid) (ks : list WalletUserKey) (m : gmap (Uuid * string) WrappedKey)
    : outcome PersistenceError (gmap (Uuid * string) WrappedKey) :=
  match ks with
  | [] => Ok m
  | k :: ks =>
      match m !! (user, key_identifier k) with
      | Some _ => Err Execution
      | None => insert_keys user ks (<[(user, key_identifier k) := wrapped_key k]> m)
      end
  end.
Definition create_keys (create : WalletUserKeys) : ST World PersistenceError unit :=
  match wuk_keys create with
  | [] => let! _ := round_trip Execution in st_lift insert_no_rows
  | ks => statement (λ t,
            let* m := insert_keys (wuk_wallet_user_id create) ks (user_keys t) in
            Ok (tt, {| users := users t; challenges := challenges t; user_keys := m |}))
  end.

(** [wallet_user_key::find_keys_by_identifiers] *)
Definition find_keys_by_identifiers (user : Uuid) (ids : list string)
    : ST World PersistenceError (string → option WrappedKey) :=
  statement (λ t, Ok (λ id, if decide (id ∈ ids) then user_keys t !! (user, id) else None, t)).
End Statements.
