(* ===== verification/AccountServer.v ===== *)
(** * The account server of the wallet provider

    Models [wallet_provider/service/src/account_server.rs] and
    [wallet_provider/service/src/instructions.rs]: registration of wallets, the
    challenge-response protocol for instructions, the enforcement of the PIN
    policy, and the instructions themselves.

    The HSM is an interface, as in [wallet_provider/domain/src/model/hsm.rs] and
    [encrypter.rs]; its calls and those to the database can fail.  A handler gets
    the instants and random values that it draws as arguments. *)
From stdpp Require Import base gmap strings list option.
From Stdlib Require Import ZArith Lia.
From S2P Require Import Prelude IndexMap PinPolicy Crypto Jose OpenId4vp Signed WalletUsers.

(** ** The HSM *)
Inductive HsmError := HsmFailed.
Class Hsm `{!Ecdsa} := {
  hsm_encrypt : string → VerifyingKey → option Encrypted;
  hsm_decrypt : string → Encrypted → option VerifyingKey;
  hsm_decrypt_encrypt id k e : hsm_encrypt id k = Some e → hsm_decrypt id e = Some k;
  hsm_sign_hmac : string → string → option string;
  hsm_verify_hmac : string → string → string → bool;
  hsm_hmac_correct id m s : hsm_sign_hmac id m = Some s → hsm_verify_hmac id m s = true;
  hsm_sign_wrapped : WrappedKey → string → option Signature;
  (** The argument stands for the randomness of the HSM. *)
  hsm_generate_wrapped_key : string → option (VerifyingKey * WrappedKey)
}.
Definition hsm_call {A} (o : option A) : ST World HsmError A :=
  let! _ := round_trip HsmFailed in st_lift (ok_or HsmFailed o).

(** ** Errors *)
Inductive WalletCertificateError :=
  | PinPubKeyEncoding | PinPubKeyDecoding | HwPubKeyMismatch | PinPubKeyMismatch
  | WcValidation (e : JwtError) | UserNotRegistered | UserBlocked
  | WcPersistence (e : PersistenceError) | WcHsm (e : HsmError).
Inductive ChallengeError :=
  | ChallengeSigning (e : JwtError)
  | ChallengeStorage (e : PersistenceError)
  | ChallengeValidationError (e : AccountError)
  | ChallengeCertificate (e : WalletCertificateError)
  | SequenceNumberValidation.
Inductive RegistrationError :=
  | ChallengeDecoding
  | ChallengeValidation (e : JwtError)
  | MessageParsing (e : AccountError)
  | MessageValidation (e : AccountError)
  | SerialNumberMismatch (expected received : Z)
  | RegJwtSigning (e : JwtError)
  | CertificateStorage (e : PersistenceError)
  | RegPinPubKeyEncoding
  | RegWalletCertificate (e : WalletCertificateError)
  | RegHsm (e : HsmError).
Inductive InstructionValidationError :=
  | IvSequenceNumberMismatch
  | IvChallengeMismatch
  | IvChallengeTimeout
  | VerificationFailed (e : AccountError)
  | IvHsm (e : HsmError).
Record IncorrectPinData := mkIncorrectPinData { ip_attempts_left_in_round : Z; ip_is_final_round : bool }.
Record PinTimeoutData := mkPinTimeoutData { time_left_in_ms : Z }.
Inductive InstructionError :=
  | IWalletCertificate (e : WalletCertificateError)
  | IValidation (e : InstructionValidationError)
  | IncorrectPin (d : IncorrectPinData)
  | PinTimeout (d : PinTimeoutData)
  | AccountBlocked
  | ISigning (e : JwtError)
  | IStorage (e : PersistenceError)
  | IHsm (e : HsmError).

(** [From<PinPolicyEvaluation> for InstructionError]; durations are in
    nanoseconds, and the number of milliseconds must not be negative. *)
Definition error_of_evaluation (v : PinPolicyEvaluation) : outcome Empty_set InstructionError :=
  match v with
  | Failed attempts_left final => Ok (IncorrectPin (mkIncorrectPinData attempts_left final))
  | Timeout timeout | InTimeout timeout =>
      let ms := Z.quot timeout 1000000 in
      let* _ := rust_assert (0 <=? ms) in
      Ok (PinTimeout (mkPinTimeoutData ms))
  | BlockedPermanently => Ok AccountBlocked
  end.

Definition WALLET_CERTIFICATE_VERSION : Z := 0.

Record RegistrationChallengeClaims := mkRegistrationChallenge { rc_wallet_id : string; rc_exp : Z; rc_random : string }.

Record AccountServer `{!Ecdsa} := mkAccountServer {
  instruction_challenge_timeout : Z;
  name : string;
  certificate_signing_pubkey : VerifyingKey;
  encryption_key_identifier : string;
  pin_public_disclosure_protection_key_identifier : string
}.

(** The instants that a handler reads: the time for tokens, in seconds, and the
    times drawn from the generator for the PIN policy, the challenge and the
    record of a wrong PIN, in nanoseconds. *)
Record Clock := mkClock { c_jwt : Z; c_eval : Z; c_verify : Z; c_register : Z }.

(** A result that is inspected instead of being passed on with [?]. *)
Definition st_catch {S E F A} (m : ST S E A) : ST S F (outcome E A) := λ s,
  match m s with
  | (Panic, s') => (Panic, s')
  | (r, s') => (Ok r, s')
  end.

(** [try_join_all] *)
Fixpoint st_try_map {S E A B} (f : A → ST S E B) (l : list A) : ST S E (list B) :=
  match l with
  | [] => sret []
  | a :: l => let! b := f a in let! bs := st_try_map f l in sret (b :: bs)
  end.

Section AccountServer.
Context `{!Ecdsa, !Storage, !Hsm, !JwtLib WalletCertificateClaims, !JwtLib RegistrationChallengeClaims}.
Context `{!JwtLib InstructionChallengeRequestClaims, !SignedJson Registration}.
Context {P : Type} `{!PinPolicyEvaluator P}.
Variable prof : profile.
Variable srv : AccountServer.

(** [Jwt::sign_with_sub] with a key in the HSM *)
Definition sign_with_sub {C} `{!JwtLib C} (claims : C) (key : SigningKey) : ST World JwtError string :=
  let! _ := round_trip JwtSigning in st_lift (Jwt_sign claims header_with_kid key).

(** *** Certificates *)

(** [sign_pin_pubkey] and [verify_pin_pubkey] *)
Definition sign_pin_pubkey (pubkey : VerifyingKey) (key_identifier : string) : ST World WalletCertificateError string :=
  let! bts := st_lift (ok_or PinPubKeyDecoding (to_public_key_der pubkey)) in
  st_map_err WcHsm (hsm_call (hsm_sign_hmac key_identifier bts)).
Definition verify_pin_pubkey (pubkey : VerifyingKey) (hash key_identifier : string) : ST World WalletCertificateError unit :=
  let! bts := st_lift (ok_or PinPubKeyDecoding (to_public_key_der pubkey)) in
  st_map_err WcHsm (hsm_call (if hsm_verify_hmac key_identifier bts hash then Some tt else None)).

(** [AccountServer::new_wallet_certificate] *)
Definition new_wallet_certificate (now : Z) (signing_key : SigningKey) (wallet_id : string)
    (wallet_hw_pubkey wallet_pin_pubkey : VerifyingKey) : ST World RegistrationError string :=
  let! pin_pubkey_hash := st_map_err RegWalletCertificate
    (sign_pin_pubkey wallet_pin_pubkey (pin_public_disclosure_protection_key_identifier srv)) in
  let cert := {|
    wc_wallet_id := wallet_id; wc_hw_pubkey := wallet_hw_pubkey; wc_pin_pubkey_hash := pin_pubkey_hash;
    wc_version := WALLET_CERTIFICATE_VERSION; wc_iss := name srv; wc_iat := now
  |} in
  st_map_err RegJwtSigning (sign_with_sub cert signing_key).

(** [AccountServer::verify_wallet_certificate] *)
Definition verify_wallet_certificate (now : Z) (cert : string) : ST World WalletCertificateError WalletUser :=
  scoped (
  let! cert_data := st_lift (map_err WcValidation
    (Jwt_parse_and_verify_with_sub (C:=WalletCertificateClaims) now cert (certificate_signing_pubkey srv))) in
  let! _ := st_map_err WcPersistence begin_transaction in
  let! user_result := st_map_err WcPersistence (find_wallet_user_by_wallet_id (wc_wallet_id cert_data)) in
  let! _ := st_map_err WcPersistence commit in
  match user_result with
  | UserNotFound => st_throw UserNotRegistered
  | UserIsBlocked => st_throw UserBlocked
  | UserFound user =>
      let! pin_pubkey := st_map_err WcHsm (hsm_call (hsm_decrypt (encryption_key_identifier srv) (encrypted_pin_pubkey user))) in
      let! pin_hash_verification := st_catch
        (verify_pin_pubkey pin_pubkey (wc_pin_pubkey_hash cert_data) (pin_public_disclosure_protection_key_identifier srv)) in
      if negb (is_ok pin_hash_verification) then st_throw PinPubKeyMismatch
      else if decide (hw_pubkey user = wc_hw_pubkey cert_data) then sret user
      else st_throw HwPubKeyMismatch
  end).

(** *** Registration *)

(** [AccountServer::registration_challenge] *)
Definition registration_challenge (now : Z) (wallet_id random : string) (signing_key : SigningKey) : ST World ChallengeError string :=
  st_map_err ChallengeSigning
    (sign_with_sub {| rc_wallet_id := wallet_id; rc_random := random; rc_exp := now + 60 |} signing_key).

(** [AccountServer::verify_registration_challenge] *)
Definition verify_registration_challenge (now : Z) (c : string) : outcome RegistrationError RegistrationChallengeClaims :=
  let* s := ok_or ChallengeDecoding (string_from_utf8 c) in
  map_err ChallengeValidation (Jwt_parse_and_verify_with_sub now s (certificate_signing_pubkey srv)).

(** [AccountServer::register] *)
Definition register (now : Z) (uuid : Uuid) (signing_key : SigningKey) (registration_message : string)
    : ST World RegistrationError string :=
  scoped (
  let! unverified := st_lift (map_err MessageParsing (SignedDouble_dangerous_parse_unverified (T:=Registration) registration_message)) in
  let c := challenge unverified in
  let! claims := st_lift (verify_registration_challenge now c) in
  let wallet_id := rc_wallet_id claims in
  let hw_pubkey := reg_hw_pubkey (Signed.payload unverified) in
  let pin_pubkey := reg_pin_pubkey (Signed.payload unverified) in
  let! _ := st_lift (map_err MessageValidation
    (SignedDouble_parse_and_verify (T:=Registration) registration_message c (EqualTo 0) hw_pubkey pin_pubkey)) in
  let! encrypted_pin_pubkey := st_map_err RegHsm (hsm_call (hsm_encrypt (encryption_key_identifier srv) pin_pubkey)) in
  let! _ := st_map_err CertificateStorage begin_transaction in
  let! _ := st_map_err CertificateStorage (create_wallet_user {|
    wuc_id := uuid; wuc_wallet_id := wallet_id; wuc_hw_pubkey := hw_pubkey; wuc_encrypted_pin_pubkey := encrypted_pin_pubkey
  |}) in
  let! cert_result := new_wallet_certificate now signing_key wallet_id hw_pubkey pin_pubkey in
  let! _ := st_map_err CertificateStorage commit in
  sret cert_result).

(** *** Instruction challenges *)

(** [AccountServer::instruction_challenge]; [random] are the bytes of the new challenge. *)
Definition process_instruction_challenge (now time : Z) (random : string) (r : InstructionChallengeRequestMessage)
    : ST World ChallengeError string :=
  scoped (
  let! _ := st_map_err ChallengeStorage begin_transaction in
  let! user := st_map_err ChallengeCertificate (verify_wallet_certificate now (icm_certificate r)) in
  let! parsed := st_lift (map_err ChallengeSigning
    (Jwt_parse_and_verify_with_sub (C:=InstructionChallengeRequestClaims) now (icm_message r) (hw_pubkey user))) in
  if icr_sequence_number parsed <=? instruction_sequence_number user then
    let! _ := st_map_err ChallengeStorage commit in
    st_throw SequenceNumberValidation
  else
    let c := {| ic_bytes := random; expiration_date_time := time + instruction_challenge_timeout srv |} in
    let! _ := st_map_err ChallengeStorage
      (update_instruction_challenge_and_sequence_number (wu_wallet_id user) c (icr_sequence_number parsed)) in
    let! _ := st_map_err ChallengeStorage commit in
    sret (ic_bytes c)).

(** *** Instructions *)

(** [HandleInstruction]; the last arguments are the identifiers and the
    randomness that the handler may draw. *)
Class HandleInstruction (I R : Type) :=
  handle : I → WalletUser → (Z → Uuid) → (Z → string) → ST World InstructionError R.

#[global] Instance handle_check_pin : HandleInstruction CheckPin unit := λ _ _ _ _, sret tt.

(** [HandleInstruction for GenerateKey], with [generate_wrapped_keys] *)
#[global] Instance handle_generate_key : HandleInstruction GenerateKey GenerateKeyResult := λ i wallet_user uuids rnd,
  scoped (
  let! keys := st_map_err IHsm (st_try_map (λ p : Z * string,
    let! kw := hsm_call (hsm_generate_wrapped_key (rnd p.1)) in sret (p.2, kw)) (enumerate (identifiers i))) in
  let public_keys := (λ k : string * (VerifyingKey * WrappedKey), (k.1, k.2.1)) <$> keys in
  let wrapped_keys := (λ p : Z * (string * (VerifyingKey * WrappedKey)),
    mkWalletUserKey (uuids p.1) p.2.1 p.2.2.2) <$> enumerate keys in
  let! _ := st_map_err IStorage begin_transaction in
  let! _ := st_map_err IStorage (create_keys (mkWalletUserKeys (wu_id wallet_user) wrapped_keys)) in
  let! _ := st_map_err IStorage commit in
  sret (mkGenerateKeyResult _ public_keys)).

(** [HandleInstruction for Sign]: a key that is not found is unwrapped. *)
#[global] Instance handle_sign : HandleInstruction Sign SignResult := λ i wallet_user _ _,
  scoped (
  let! _ := st_map_err IStorage begin_transaction in
  let! found_keys := st_map_err IStorage
    (find_keys_by_identifiers (wu_id wallet_user) (mjoin (messages_with_identifiers i).*2)) in
  let! _ := st_map_err IStorage commit in
  let! sigs := st_try_map (λ m : string * list string,
    st_try_map (λ identifier,
      let! wrapped_key := st_lift (unwrap (found_keys identifier)) in
      st_map_err IHsm (hsm_call (hsm_sign_wrapped wrapped_key m.1))) m.2) (messages_with_identifiers i) in
  sret (mkSignResult _ sigs)).

Section Handling.
Context {I R : Type} `{!HandleInstruction I R, !SignedJson I, !JwtLib (InstructionResultClaims R)}.

(** [AccountServer::verify_instruction] *)
Definition verify_instruction (time : Z) (i : Instruction) (wallet_user : WalletUser)
    : ST World InstructionValidationError (ChallengeResponsePayload I) :=
  let! c := st_lift (ok_or IvChallengeMismatch (WalletUsers.instruction_challenge wallet_user)) in
  let! _ := st_lift (guard_err (negb (expiration_date_time c <? time)) IvChallengeTimeout) in
  let! pin_pubkey := st_map_err IvHsm
    (hsm_call (hsm_decrypt (encryption_key_identifier srv) (encrypted_pin_pubkey wallet_user))) in
  st_lift (map_err VerificationFailed
    (SignedDouble_parse_and_verify (T:=I) (instruction i) (ic_bytes c)
       (LargerThan (instruction_sequence_number wallet_user)) (hw_pubkey wallet_user) pin_pubkey)).

(** [AccountServer::sign_instruction_result] *)
Definition sign_instruction_result (now : Z) (signing_key : SigningKey) (result : R) : ST World InstructionError string :=
  st_map_err ISigning (sign_with_sub {| ir_result := result; ir_iss := name srv; ir_iat := now |} signing_key).

(** [AccountServer::handle_instruction], from the point where the user has been
    loaded. *)
Definition process_instruction (clock : Clock) (uuids : Z → Uuid) (rnd : Z → string) (pin_policy : P) (signing_key : SigningKey)
    (i : Instruction) (wallet_user : WalletUser) : ST World InstructionError string :=
  let! _ := st_map_err IStorage begin_transaction in
  let! _ := st_map_err IStorage (clear_instruction_challenge (wu_wallet_id wallet_user)) in
  let! attempts := st_lift (never (arith prof 8 (unsuccessful_pin_entries wallet_user + 1))) in
  let! pin_eval := st_lift (never (evaluate pin_policy attempts (last_unsuccessful_pin_entry wallet_user) (c_eval clock))) in
  if match pin_eval with InTimeout _ => true | _ => false end then
    let! _ := st_map_err IStorage commit in
    let! e := st_lift (never (error_of_evaluation pin_eval)) in
    st_throw e
  else
    let! verified := st_catch (verify_instruction (c_verify clock) i wallet_user) in
    match verified with
    | Ok p =>
        let! _ := st_map_err IStorage (reset_unsuccessful_pin_entries (wu_wallet_id wallet_user)) in
        let! _ := st_map_err IStorage (update_instruction_sequence_number (wu_wallet_id wallet_user) (sequence_number p)) in
        let! _ := st_map_err IStorage commit in
        let! instruction_result := handle (Signed.payload p) wallet_user uuids rnd in
        sign_instruction_result (c_jwt clock) signing_key instruction_result
    | Err (VerificationFailed _) =>
        let! _ := st_map_err IStorage (register_unsuccessful_pin_entry (wu_wallet_id wallet_user)
          match pin_eval with BlockedPermanently => true | _ => false end (c_register clock)) in
        let! e := st_lift (never (error_of_evaluation pin_eval)) in
        let! _ := st_map_err IStorage commit in
        st_throw e
    | Err e => st_throw (IValidation e)
    | Panic => st_lift Panic
    end.

(** [AccountServer::handle_instruction]: the user is loaded in a transaction of its
    own; requests that overlap between the two are described by
    [process_instruction] with a user that was loaded earlier. *)
Definition handle_instruction (clock : Clock) (uuids : Z → Uuid) (rnd : Z → string) (pin_policy : P) (signing_key : SigningKey)
    (i : Instruction) : ST World InstructionError string :=
  scoped (
  let! wallet_user := st_map_err IWalletCertificate (verify_wallet_certificate (c_jwt clock) (instruction_certificate i)) in
  process_instruction clock uuids rnd pin_policy signing_key i wallet_user).
End Handling.
End AccountServer.
