(* ===== verification/WalletUserFacts.v ===== *)
(** * How handlers change the database

    Inversion lemmas for the calls to the database and the HSM, whichever of
    them fail, and what happens when none does. *)
From stdpp Require Import base gmap strings list option.
From Stdlib Require Import ZArith Lia.
From S2P Require Import Prelude IndexMap Crypto Jose PinPolicy OpenId4vp Signed WalletUsers AccountServer.

(** The committed tables. *)
Definition tables (r : World) : Tables := committed (contents r).

Section Inversion.
Context {E A : Type}.
Implicit Types (k : unit → ST World E A) (r : World) (o : outcome E A).

Lemma bind_lift {B} (m : outcome E B) (f : B → ST World E A) r o r' : sbind (st_lift m) f r = (o, r') →
  (∃ b, m = Ok b ∧ f b r = (o, r')) ∨ (r' = r ∧ is_ok o = false ∧ ((∃ e, m = Err e ∧ o = Err e) ∨ m = Panic ∧ o = Panic)).
Proof. unfold sbind, st_lift. destruct m as [b|e|]; intros He; [by eauto|..]; simplify_eq; eauto 10. Qed.

Lemma bind_map_err_bind {F B C} (g : F → E) (m : ST World F B) (k : B → ST World F C) (f : C → ST World E A) r :
  sbind (st_map_err g (sbind m k)) f r = sbind (st_map_err g m) (λ b, sbind (st_map_err g (k b)) f) r.
Proof. unfold sbind, st_map_err. by destruct (m r) as [[b|e|] r1]. Qed.

Lemma bind_begin (g : PersistenceError → E) k r o r' : sbind (st_map_err g begin_transaction) k r = (o, r') →
  (o = Err (g Transaction) ∧ contents r' = contents r) ∨
  ∃ r1, contents r1 = {| committed := tables r; transactions := tables r :: transactions (contents r) |} ∧ k tt r1 = (o, r').
Proof.
  unfold begin_transaction, sbind, st_map_err, st_get, set_database, set_contents. destruct (round_trip Transaction r) as [x r0] eqn:R.
  apply round_trip_contents in R as [Hc [-> | ->]]; simpl.
  - rewrite Hc. intros Hk. right. eexists. split; [|exact Hk]. done.
  - intros [= <- <-]. by left.
Qed.

Lemma bind_commit (g : PersistenceError → E) k r o r' : sbind (st_map_err g commit) k r = (o, r') →
  (o = Err (g Transaction) ∧ contents r' = contents r) ∨ (o = Panic ∧ transactions (contents r) = [] ∧ contents r' = contents r) ∨
  ∃ t ts r1, transactions (contents r) = t :: ts ∧ contents r1 = {| committed := t; transactions := ts |} ∧ k tt r1 = (o, r').
Proof.
  unfold commit, sbind, st_map_err, st_get, set_database, set_contents, st_lift. destruct (round_trip Transaction r) as [x r0] eqn:R.
  apply round_trip_contents in R as [Hc [-> | ->]]; simpl.
  - rewrite Hc. destruct (transactions (contents r)) as [|t ts]; simpl.
    + intros [= <- <-]. auto.
    + intros Hk. right. right. eexists _, _, _. split_and!; [| |exact Hk]; done.
  - intros [= <- <-]. by left.
Qed.

Lemma bind_statement {B} (g : PersistenceError → E) (f : Tables → outcome PersistenceError (B * Tables))
    (k : B → ST World E A) r o r' t ts :
  transactions (contents r) = t :: ts → sbind (st_map_err g (statement f)) k r = (o, r') →
  (contents r' = contents r ∧ (o = Err (g Execution) ∨ (∃ e, f t = Err e ∧ o = Err (g e)) ∨ f t = Panic ∧ o = Panic)) ∨
  ∃ b t' r1, f t = Ok (b, t') ∧ contents r1 = {| committed := tables r; transactions := t' :: ts |} ∧ k b r1 = (o, r').
Proof.
  intros Ht. unfold statement, sbind, st_map_err, st_get, set_database, set_contents, st_lift, sret.
  destruct (round_trip Execution r) as [x r0] eqn:R. apply round_trip_contents in R as [Hc [-> | ->]]; simpl.
  - rewrite Hc, Ht. destruct (f t) as [[b t']|e|]; simpl.
    + intros Hk. right. eexists _, _, _. split_and!; [| |exact Hk]; done.
    + intros [= <- <-]. eauto 10.
    + intros [= <- <-]. eauto 10.
  - intros [= <- <-]. eauto.
Qed.

Lemma bind_hsm {B} (g : HsmError → E) (m : option B) (k : B → ST World E A) r o r' :
  sbind (st_map_err g (hsm_call m)) k r = (o, r') →
  (o = Err (g HsmFailed) ∧ contents r' = contents r) ∨
  ∃ b r1, m = Some b ∧ contents r1 = contents r ∧ k b r1 = (o, r').
Proof.
  unfold hsm_call, sbind, st_map_err, st_lift. destruct (round_trip HsmFailed r) as [x r0] eqn:R.
  apply round_trip_contents in R as [Hc [-> | ->]]; simpl; [|intros [= <- <-]; by left].
  destruct m as [b|]; simpl; [|intros [= <- <-]; by left]. intros Hk. right. eexists _, _. split_and!; [| |exact Hk]; done.
Qed.

Lemma bind_catch {F B} (m : ST World F B) (k : outcome F B → ST World E A) r o r' :
  sbind (st_catch m) k r = (o, r') →
  (m r = (Panic, r') ∧ o = Panic) ∨ ∃ x r1, m r = (x, r1) ∧ x ≠ Panic ∧ k x r1 = (o, r').
Proof.
  unfold sbind, st_catch. destruct (m r) as [[b|e|] r1]; intros He; [right; by eexists _, _..|]. left. by simplify_eq.
Qed.


(** When nothing fails. *)
Lemma run_lift {B} (m : outcome E B) (f : B → ST World E A) r b : m = Ok b → sbind (st_lift m) f r = f b r.
Proof. by intros ->. Qed.
Lemma run_map_err_lift {F B} (g : F → E) (m : outcome F B) (f : B → ST World E A) r b :
  m = Ok b → sbind (st_map_err g (st_lift m)) f r = f b r.
Proof. by intros ->. Qed.
Lemma run_begin (g : PersistenceError → E) k d : sbind (st_map_err g begin_transaction) k (Remote d []) =
  k tt (Remote {| committed := committed d; transactions := committed d :: transactions d |} []).
Proof. done. Qed.
Lemma run_commit (g : PersistenceError → E) k c t ts :
  sbind (st_map_err g commit) k (Remote {| committed := c; transactions := t :: ts |} []) =
  k tt (Remote {| committed := t; transactions := ts |} []).
Proof. done. Qed.
Lemma run_statement {B} (g : PersistenceError → E) (f : Tables → outcome PersistenceError (B * Tables)) (k : B → ST World E A) c t ts b t' :
  f t = Ok (b, t') → sbind (st_map_err g (statement f)) k (Remote {| committed := c; transactions := t :: ts |} []) =
  k b (Remote {| committed := c; transactions := t' :: ts |} []).
Proof. intros Hf. unfold sbind, st_map_err, statement, sbind, round_trip, st_get, st_lift. simpl. by rewrite Hf. Qed.
Lemma run_hsm {B} (g : HsmError → E) (m : option B) (k : B → ST World E A) d b :
  m = Some b → sbind (st_map_err g (hsm_call m)) k (Remote d []) = k b (Remote d []).
Proof. by intros ->. Qed.
End Inversion.

(** A computation that leaves the contents alone. *)
Definition pure_db {F B} (m : ST World F B) : Prop := ∀ r o r', m r = (o, r') → contents r' = contents r.

Lemma pure_lift {F B} (m : outcome F B) : pure_db (st_lift m).
Proof. by intros r o r' [= <- <-]. Qed.
Lemma pure_ret {F B} (b : B) : pure_db (F:=F) (sret b).
Proof. by intros r o r' [= <- <-]. Qed.
Lemma pure_throw {F B} (e : F) : pure_db (B:=B) (st_throw e).
Proof. by intros r o r' [= <- <-]. Qed.
Lemma pure_round_trip {F} (e : F) : pure_db (round_trip e).
Proof. intros r o r' H. by apply round_trip_contents in H as [? _]. Qed.
Lemma pure_bind {F B C} (m : ST World F B) (k : B → ST World F C) : pure_db m → (∀ b, pure_db (k b)) → pure_db (sbind m k).
Proof.
  intros Hm Hk r o r' H. apply st_bind_inv in H as [(b & r1 & H1 & H2)|[(e & H1 & _)|[H1 _]]].
  - by rewrite (Hk b _ _ _ H2), (Hm _ _ _ H1).
  - by eapply Hm.
  - by eapply Hm.
Qed.
Lemma pure_map_err {F G B} (g : F → G) (m : ST World F B) : pure_db m → pure_db (st_map_err g m).
Proof. intros Hm r o r'. unfold st_map_err. destruct (m r) as [x r1] eqn:E1. intros [= <- <-]. by eapply Hm. Qed.
Lemma pure_hsm {B} (m : option B) : pure_db (hsm_call m).
Proof. apply pure_bind; [apply pure_round_trip|]. intros _. apply pure_lift. Qed.
Lemma pure_try_map {F B C} (f : B → ST World F C) l : (∀ b, pure_db (f b)) → pure_db (st_try_map f l).
Proof.
  intros Hf. induction l as [|b l IH]; simpl; [apply pure_ret|]. apply pure_bind; [done|]. intros c.
  apply pure_bind; [done|]. intros cs. apply pure_ret.
Qed.

(** A computation that does not panic. *)
Definition calm {F B} (m : ST World F B) : Prop := ∀ r r', m r ≠ (Panic, r').

Lemma calm_lift {F B} (m : outcome F B) : m ≠ Panic → calm (st_lift m).
Proof. intros Hm r r' [= Hp _]. done. Qed.
Lemma calm_bind {F B C} (m : ST World F B) (k : B → ST World F C) : calm m → (∀ b, calm (k b)) → calm (sbind m k).
Proof.
  intros Hm Hk r r' Hr. apply st_bind_inv in Hr as [(b & r1 & _ & Hr)|[(e & _ & [=])|[Hr _]]]; [by eapply Hk|by eapply Hm].
Qed.
Lemma calm_map_err {F G B} (g : F → G) (m : ST World F B) : calm m → calm (st_map_err g m).
Proof.
  intros Hm r r'. unfold st_map_err. destruct (m r) as [x r1] eqn:Hx. intros [= He _]. apply map_err_Panic in He as ->. by eapply Hm.
Qed.
Lemma calm_round_trip {F} (e : F) : calm (round_trip e).
Proof. intros r r' Hr. by apply round_trip_contents in Hr as [_ [? | ?]]. Qed.
Lemma calm_hsm {B} (m : option B) : calm (hsm_call m).
Proof. apply calm_bind; [apply calm_round_trip|]. intros _. apply calm_lift. by destruct m. Qed.

Create HintDb pure_db.
#[export] Hint Resolve pure_lift pure_ret pure_throw pure_round_trip pure_bind pure_map_err pure_hsm pure_try_map : pure_db.
Create HintDb calm.
#[export] Hint Resolve calm_lift calm_bind calm_map_err calm_round_trip calm_hsm : calm.

Lemma scoped_inv {E A} (m : ST World E A) r o r' : scoped m r = (o, r') →
  ∃ r1, m r = (o, r1) ∧ tables r' = tables r1 ∧ transactions (contents r') = transactions (contents r) ∧ faults r' = faults r1.
Proof. unfold scoped. destruct (m r) as [x r1] eqn:Em. intros [= <- <-]. by exists r1. Qed.

(** ** Instructions leave the users and the challenges alone *)
Definition keeps_users (t t' : Tables) : Prop := users t' = users t ∧ challenges t' = challenges t.
Class HandleFrame `{!Ecdsa} (I R : Type) `{!HandleInstruction I R} :=
  handle_frame (i : I) u uuids rnd r o r' : handle i u uuids rnd r = (o, r') → keeps_users (tables r) (tables r').

Lemma keeps_contents r r' : contents r' = contents r → keeps_users (tables r) (tables r').
Proof. unfold tables. by intros ->. Qed.

(** Solves goals about the tables of worlds with known contents. *)
Ltac by_contents :=
  unfold keeps_users, tables in *;
  repeat (match goal with Hc : contents ?r = _ |- context [contents ?r] => rewrite Hc end; simpl); done.

Section Frames.
Context `{!Ecdsa, !Storage, !Hsm}.

#[global] Instance frame_check_pin : HandleFrame CheckPin unit.
Proof. intros i u uuids rnd r o r'. by intros [= <- <-]. Qed.

(** A commit after which nothing touches the users. *)
Lemma commit_keeps {E A} (g : PersistenceError → E) (a : A) r o r' t ts :
  transactions (contents r) = t :: ts → keeps_users (tables r) t →
  sbind (st_map_err g commit) (λ _, sret a) r = (o, r') → keeps_users (tables r) (tables r').
Proof.
  intros Ht Hk Hr. apply bind_commit in Hr as [[_ Hr1]|[(_ & _ & Hr1)|(t' & ts' & r5 & Ht' & Hr5 & Hr1)]]; [by_contents..|].
  injection Hr1 as <- <-. rewrite Ht in Ht'. injection Ht' as <- <-. unfold tables at 2. by rewrite Hr5.
Qed.

#[global] Instance frame_generate_key : HandleFrame GenerateKey GenerateKeyResult.
Proof.
  intros i u uuids rnd r o r' Hr. unfold handle, handle_generate_key in Hr. apply scoped_inv in Hr as (r1 & Hr1 & -> & _).
  apply st_bind_inv in Hr1 as [(keys & r2 & Hr2 & Hr1)|[(e & Hr2 & _)|[Hr2 _]]];
    (assert (contents _ = contents r) as Hc by (eapply pure_map_err, Hr2; apply pure_try_map; intros; auto with pure_db));
    [|by apply keeps_contents..].
  apply bind_begin in Hr1 as [[_ Hr3]|(r3 & Hr3 & Hr1)]; [by_contents|].
  assert (tables r3 = tables r) as Ht3 by by_contents. rewrite <-Ht3. unfold create_keys in Hr1.
  destruct (wuk_keys _) as [|k ks].
  - apply st_bind_inv in Hr1 as [(b & r4 & Hr4 & Hr1)|[(e & Hr4 & _)|[Hr4 _]]];
      (assert (contents _ = contents r3) as Hc4 by (eapply pure_map_err, Hr4; auto with pure_db)); [|by_contents..].
    eapply commit_keeps in Hr1; [|by rewrite Hc4, Hr3|by_contents]. unfold tables in *. by rewrite <-Hc4.
  - eapply bind_statement in Hr1 as [[Hr4 _]|(b & t' & r4 & Hf & Hr4 & Hr1)]; [by_contents| |by rewrite Hr3].
    destruct (insert_keys _ _ _); simpl in Hf; try done. injection Hf as _ <-.
    eapply commit_keeps in Hr1; [|by rewrite Hr4|by_contents]. unfold tables in *. by rewrite Hr4 in Hr1.
Qed.

#[global] Instance frame_sign : HandleFrame Sign SignResult.
Proof.
  intros i u uuids rnd r o r' Hr. unfold handle, handle_sign in Hr. apply scoped_inv in Hr as (r1 & Hr1 & -> & _).
  apply bind_begin in Hr1 as [[_ Hr3]|(r3 & Hr3 & Hr1)]; [by_contents|].
  eapply bind_statement in Hr1 as [[Hr4 _]|(b & t' & r4 & Hf & Hr4 & Hr1)]; [by_contents| |by rewrite Hr3].
  injection Hf as <- <-. apply bind_commit in Hr1 as [[_ Hr5]|[(_ & _ & Hr5)|(t & ts & r5 & Ht & Hr5 & Hr1)]]; [by_contents..|].
  rewrite Hr4 in Ht. injection Ht as <- <-.
  assert (contents r1 = contents r5) as Hc; [|by_contents].
  eapply pure_bind, Hr1; [|intros; apply pure_ret]. apply pure_try_map. intros m. apply pure_try_map. auto with pure_db.
Qed.
End Frames.
