(* ===== verification/AccountServerFacts.v ===== *)
(** * The account server keeps the PIN policy

    What each request to the account server does to the tables, whichever calls
    to the database and the HSM fail, and what follows for runs of requests. *)
From stdpp Require Import base gmap strings list option.
From Stdlib Require Import ZArith Lia.
From S2P Require Import Prelude IndexMap Crypto Jose PinPolicy OpenId4vp Signed WalletUsers AccountServer WalletUserFacts.

(** ** What requests do to the tables *)
Definition cleared (wallet_id : WalletId) (t : Tables) : Tables :=
  match users t !! wallet_id with
  | None => t
  | Some row => {| users := users t; challenges := delete (row_id row) (challenges t); user_keys := user_keys t |}
  end.
Definition wrong_pin `{!Ecdsa, !Storage} (wallet_id : WalletId) (blocked : bool) (time : Z) (t : Tables) : Tables :=
  update_user wallet_id (set_pin_entries (λ n, Z.min (n + 1) u8_MAX) (Some (store_instant time)) blocked) (cleared wallet_id t).
Definition accepted (wallet_id : WalletId) (n : Z) (t : Tables) : Tables :=
  update_user wallet_id (set_sequence_number n) (update_user wallet_id (set_pin_entries (λ _, 0) None false) (cleared wallet_id t)).
Definition is_in_timeout (v : PinPolicyEvaluation) : bool := match v with InTimeout _ => true | _ => false end.
Definition is_blocking (v : PinPolicyEvaluation) : bool := match v with BlockedPermanently => true | _ => false end.

(** The answers that say something about the PIN. *)
Definition pin_answer (o : outcome InstructionError string) : bool :=
  match o with Err (IncorrectPin _ | PinTimeout _ | AccountBlocked) => true | _ => false end.
Definition challenged `{!Ecdsa, !Storage} (wallet_id : WalletId) (c : InstructionChallenge) (n : Z) (t : Tables) : Tables :=
  let t1 := update_user wallet_id (set_sequence_number n) t in
  match users t1 !! wallet_id with
  | None => t1
  | Some row => {|
      users := users t1;
      challenges := <[row_id row := mkInstructionChallenge (ic_bytes c) (store_instant (expiration_date_time c))]> (challenges t1);
      user_keys := user_keys t1
    |}
  end.
Definition new_row (id der : string) (pin : Encrypted) : UserRow := {|
  row_id := id; hw_pubkey_der := der; encrypted_pin_pubkey_sec1 := enc_data pin; pin_pubkey_iv := enc_iv pin;
  row_sequence_number := 0; pin_entries := 0; last_unsuccessful_pin := None; row_is_blocked := false
|}.
Definition registered (wallet_id : WalletId) (row : UserRow) (t : Tables) : Tables :=
  {| users := <[wallet_id := row]> (users t); challenges := challenges t; user_keys := user_keys t |}.
(** A row that cannot be turned into a user. *)
Definition unreadable `{!Ecdsa, !Storage} (t : Tables) : Prop :=
  ∃ wid row, users t !! wid = Some row ∧ user_of_row wid row (challenges t !! row_id row) = Panic.

Section Effects.
Context `{!Ecdsa, !Storage, !Hsm, !JwtLib WalletCertificateClaims, !JwtLib RegistrationChallengeClaims}.
Context `{!JwtLib InstructionChallengeRequestClaims, !SignedJson Registration}.
Context {P : Type} `{!PinPolicyEvaluator P}.
Variable prof : profile.
Variable srv : AccountServer.
Implicit Types (r : World) (u : WalletUser) (row : UserRow).

(** The decision on the next attempt of a user. *)
Definition pin_evaluation (policy : P) u (now : Z) : outcome Empty_set PinPolicyEvaluation :=
  let* a := arith prof 8 (unsuccessful_pin_entries u + 1) in
  evaluate policy a (last_unsuccessful_pin_entry u) now.

(** The reasons why handling an instruction can panic before the instruction
    itself runs: no decision on the attempt, or the database driver. *)
Definition may_panic (policy : P) u (now : Z) : Prop :=
  (∀ v e, pin_evaluation policy u now = Ok v → error_of_evaluation v = Ok e → False) ∨ ∃ n, store_sequence_number n = Panic.

(** The certificate is for a registered user that is not blocked. *)
Definition certified (now : Z) (cert : string) (t : Tables) u : Prop :=
  ∃ claims row, Jwt_parse_and_verify_with_sub (C:=WalletCertificateClaims) now cert (certificate_signing_pubkey srv) = Ok claims ∧
    wu_wallet_id u = wc_wallet_id claims ∧ users t !! wu_wallet_id u = Some row ∧ row_is_blocked row = false ∧
    user_of_row (wu_wallet_id u) row (challenges t !! row_id row) = Ok u ∧ hw_pubkey u = wc_hw_pubkey claims.

Lemma user_of_row_id wid row c u : user_of_row wid row c = Ok u → wu_wallet_id u = wid.
Proof. unfold user_of_row. intros Hu. by run_ok Hu. Qed.

Lemma certificate_no_panic now cert : map_err WcValidation
  (Jwt_parse_and_verify_with_sub (C:=WalletCertificateClaims) now cert (certificate_signing_pubkey srv)) ≠ Panic.
Proof. unfold Jwt_parse_and_verify_with_sub, Jwt_parse_and_verify. intros Hp. no_panic Hp. Qed.

Lemma verify_pin_contents pk hash id : pure_db (verify_pin_pubkey pk hash id).
Proof. unfold verify_pin_pubkey. auto with pure_db. Qed.

Lemma ok_or_calm {E A} (e : E) (o : option A) : ok_or e o ≠ Panic.
Proof. by destruct o. Qed.
#[local] Hint Resolve ok_or_calm : calm.

Lemma verify_pin_calm pk hash id : calm (verify_pin_pubkey pk hash id).
Proof. unfold verify_pin_pubkey. auto with calm. Qed.

Lemma sign_calm {C} `{!JwtLib C} (c : C) key : calm (sign_with_sub c key).
Proof.
  unfold sign_with_sub. apply calm_bind; [auto with calm|]. intros _. apply calm_lift. unfold Jwt_sign. intros Hp. no_panic Hp.
Qed.
Lemma sign_pure {C} `{!JwtLib C} (c : C) key : pure_db (sign_with_sub c key).
Proof. unfold sign_with_sub. auto with pure_db. Qed.
#[local] Hint Resolve sign_calm : calm.
#[local] Hint Resolve sign_pure : pure_db.

Lemma new_certificate_pure now key wid hw pin : pure_db (new_wallet_certificate srv now key wid hw pin).
Proof. unfold new_wallet_certificate, sign_pin_pubkey. auto 10 with pure_db. Qed.
Lemma new_certificate_calm now key wid hw pin : calm (new_wallet_certificate srv now key wid hw pin).
Proof. unfold new_wallet_certificate, sign_pin_pubkey. auto 10 with calm. Qed.

Lemma certificate_inv now cert r o r' : verify_wallet_certificate srv now cert r = (o, r') →
  contents r' = contents r ∧
  match o with
  | Ok u => certified now cert (tables r) u
  | Err _ => True
  | Panic => unreadable (tables r)
  end.
Proof.
  unfold verify_wallet_certificate. intros Hr. apply scoped_inv in Hr as (r1 & Hr1 & Ht & Htx & _).
  assert (tables r1 = tables r → contents r' = contents r) as Hc.
  { intros Ht1. unfold tables in *. destruct (contents r') as [cm tx], (contents r) as [cm0 tx0]. simpl in *. congruence. }
  apply bind_lift in Hr1 as [(claims & Hj & Hr1)|(-> & _ & [(e & _ & ->)|[He _]])]; [|by auto|by apply certificate_no_panic in He].
  run_ok Hj. apply bind_begin in Hr1 as [[-> Hr2]|(r2 & Hr2 & Hr1)]; [split; [apply Hc; by_contents|done]|].
  eapply bind_statement in Hr1 as [[Hr3 Ho]|(b & t' & r3 & Hf & Hr3 & Hr1)]; [| |by rewrite Hr2].
  { split; [apply Hc; by_contents|]. destruct Ho as [-> |[(e & _ & ->)|[Hf ->]]]; [done..|]. case_hyp Hf. case_hyp Hf. autorewrite with outcomes in Hf. destruct Hf as [Hf|(? & _ & [=])]. eexists _, _. eauto. }
  assert (t' = tables r) as -> by (repeat case_hyp Hf; try done; by run_ok Hf).
  apply bind_commit in Hr1 as [[-> Hr4]|[(_ & Htx' & _)|(t1 & ts1 & r4 & Htx' & Hr4 & Hr1)]];
    [split; [apply Hc; by_contents|done]|by rewrite Hr3 in Htx'|].
  rewrite Hr3 in Htx'. injection Htx' as <- <-. assert (tables r4 = tables r) as Ht4 by by_contents. rewrite <-Ht4 in *.
  destruct b as [u| |]; [|injection Hr1 as <- <-; split; [by apply Hc|done]..].
  apply bind_hsm in Hr1 as [[-> Hr5]|(pk & r5 & _ & Hr5 & Hr1)]; [split; [apply Hc; by_contents|done]|].
  apply bind_catch in Hr1 as [[Hp ->]|(x & r6 & Hr6 & _ & Hr1)].
  { by apply verify_pin_calm in Hp. }
  apply verify_pin_contents in Hr6. destruct (is_ok x); simpl in Hr1; [|injection Hr1 as <- <-; split; [apply Hc; by_contents|done]].
  case_decide as Dk; injection Hr1 as <- <-; (split; [apply Hc; by_contents|]); [|done].
  case_hyp Hf. case_hyp Hf. run_ok Hf. simplify_eq.
  pose proof (user_of_row_id _ _ _ _ Hrun) as Hid. exists claims. rewrite Hid. eauto 10.
Qed.

Lemma parse_and_verify_no_panic {T} `{!SignedJson T} s c n hw pin : SignedDouble_parse_and_verify (T:=T) s c n hw pin ≠ Panic.
Proof.
  unfold SignedDouble_parse_and_verify, SignedDouble_verify, SignedDouble_dangerous_parse_unverified, parse_and_verify_message.
  intros Hp. no_panic Hp.
Qed.

(** [register], under every pattern of failures. *)
Lemma register_inv now uuid key msg r o r' : register srv now uuid key msg r = (o, r') →
  (tables r' = tables r ∧ is_ok o = false ∧ o ≠ Panic) ∨
  ∃ cert claims p der pin, o = Ok cert ∧ verify_registration_challenge srv now (challenge p) = Ok claims ∧
    SignedDouble_parse_and_verify (T:=Registration) msg (challenge p) (EqualTo 0)
      (reg_hw_pubkey (Signed.payload p)) (reg_pin_pubkey (Signed.payload p)) = Ok p ∧
    to_public_key_der (reg_hw_pubkey (Signed.payload p)) = Some der ∧
    hsm_encrypt (encryption_key_identifier srv) (reg_pin_pubkey (Signed.payload p)) = Some pin ∧
    users (tables r) !! rc_wallet_id claims = None ∧ map_Forall (λ _ row, row_id row ≠ uuid) (users (tables r)) ∧
    tables r' = registered (rc_wallet_id claims) (new_row uuid der pin) (tables r).
Proof.
  unfold register. intros Hr. apply scoped_inv in Hr as (r1 & Hr1 & -> & _).
  apply bind_lift in Hr1 as [(p & Hp & Hr1)|(-> & _ & [(e & _ & ->)|[He _]])]; [|by left|].
  2: { unfold SignedDouble_dangerous_parse_unverified in He. no_panic He. }
  apply bind_lift in Hr1 as [(claims & Hcl & Hr1)|(-> & _ & [(e & _ & ->)|[He _]])]; [|by left|].
  2: { unfold verify_registration_challenge, Jwt_parse_and_verify_with_sub, Jwt_parse_and_verify in He. no_panic He. }
  apply bind_lift in Hr1 as [(p' & Hp' & Hr1)|(-> & _ & [(e & _ & ->)|[He _]])];
    [|by left|run_ok He; by apply parse_and_verify_no_panic in He].
  assert (p' = p) as ->.
  { run_ok Hp'. unfold SignedDouble_parse_and_verify in Hp'. run_ok Hp'. run_ok Hp. congruence. }
  run_ok Hp'. apply bind_hsm in Hr1 as [[-> Hr2]|(pin & r2 & Hpin & Hr2 & Hr1)]; [left; split_and!; [by_contents|done..]|].
  apply bind_begin in Hr1 as [[-> Hr3]|(r3 & Hr3 & Hr1)]; [left; split_and!; [by_contents|done..]|].
  unfold create_wallet_user in Hr1. rewrite bind_map_err_bind in Hr1.
  apply (bind_lift (map_err CertificateStorage _)) in Hr1 as [(der & Hder & Hr1)|(-> & _ & [(e & _ & ->)|[He _]])];
    [|left; split_and!; [by_contents|done..]|no_panic He].
  run_ok Hder. eapply bind_statement in Hr1 as [[Hr4 Ho]|(b & t1 & r4 & Hf & Hr4 & Hr1)]; [| |by rewrite Hr3].
  { left. split; [by_contents|]. destruct Ho as [-> |[(e & _ & ->)|[Hf _]]]; [done..|]. by repeat case_hyp Hf. }
  simpl in Hf. case_hyp Hf. case_decide as Hid; [done|]. injection Hf as _ <-.
  apply st_bind_inv in Hr1 as [(cert & r5 & Hr5 & Hr1)|[(e & Hr5 & ->)|[Hr5 _]]];
    [|apply new_certificate_pure in Hr5; left; split_and!; [by_contents|done..]|by apply new_certificate_calm in Hr5].
  apply new_certificate_pure in Hr5.
  apply bind_commit in Hr1 as [[-> Hr6]|[(_ & Htx & _)|(t2 & ts2 & r6 & Htx & Hr6 & Hr1)]];
    [left; split_and!; [by_contents|done..]|by rewrite Hr5, Hr4 in Htx|].
  rewrite Hr5, Hr4 in Htx. injection Htx as <- <-. injection Hr1 as <- <-. right.
  assert (tables r2 = tables r) as Ht2 by by_contents. rewrite Ht2 in *.
  exists cert, claims, p, der, pin. split_and!; [done..| |].
  - intros wid row Hrow Hu. apply Hid. by exists wid, row.
  - by_contents.
Qed.

(** [instruction_challenge], under every pattern of failures. *)
Lemma challenge_inv now time random m r o r' : process_instruction_challenge srv now time random m r = (o, r') →
  (tables r' = tables r ∧ is_ok o = false ∧ (o = Panic → unreadable (tables r) ∨ ∃ n, store_sequence_number n = Panic)) ∨
  ∃ u parsed, o = Ok random ∧ certified now (icm_certificate m) (tables r) u ∧
    Jwt_parse_and_verify_with_sub (C:=InstructionChallengeRequestClaims) now (icm_message m) (hw_pubkey u) = Ok parsed ∧
    instruction_sequence_number u < icr_sequence_number parsed ∧
    tables r' = challenged (wu_wallet_id u) (mkInstructionChallenge random (time + instruction_challenge_timeout srv))
      (icr_sequence_number parsed) (tables r).
Proof.
  unfold process_instruction_challenge. intros Hr. apply scoped_inv in Hr as (r1 & Hr1 & -> & _).
  apply bind_begin in Hr1 as [[-> Hr2]|(r2 & Hr2 & Hr1)]; [left; split_and!; [by_contents|done..]|].
  assert (tables r2 = tables r) as Ht2 by by_contents.
  apply st_bind_inv in Hr1 as [(u & r3 & Hr3 & Hr1)|[(e & Hr3 & ->)|[Hr3 ->]]];
    unfold st_map_err in Hr3; destruct (verify_wallet_certificate _ _ _ _) as [x r3'] eqn:Hc;
    apply certificate_inv in Hc as [Hr3' Hx]; destruct x; simplify_eq/=; try rewrite Ht2 in Hx.
  2: { left; split_and!; [by_contents|done..]. }
  2: { left; split_and!; [by_contents|done|auto]. }
  apply bind_lift in Hr1 as [(parsed & Hj & Hr1)|(-> & _ & [(e & _ & ->)|[He _]])];
    [|left; split_and!; [by_contents|done..]|].
  2: { unfold Jwt_parse_and_verify_with_sub, Jwt_parse_and_verify in He. no_panic He. }
  run_ok Hj. destruct (Z.leb_spec (icr_sequence_number parsed) (instruction_sequence_number u)) as [Hle|Hgt].
  { left. apply bind_commit in Hr1 as [[-> Hr6]|[(_ & Htx & _)|(t2 & ts2 & r6 & Htx & Hr6 & Hr1)]];
      [split_and!; [by_contents|done..]|by rewrite Hr3', Hr2 in Htx|].
    rewrite Hr3', Hr2 in Htx. injection Htx as <- <-. injection Hr1 as <- <-. split_and!; [by_contents|done..]. }
  unfold update_instruction_challenge_and_sequence_number in Hr1. rewrite bind_map_err_bind in Hr1.
  eapply bind_statement in Hr1 as [[Hr4 Ho]|(b & t1 & r4 & Hf & Hr4 & Hr1)]; [| |by rewrite Hr3', Hr2].
  { left. split; [by_contents|]. destruct Ho as [-> |[(e & _ & ->)|[Hf ->]]]; [done..|]. split; [done|]. intros _. right.
    autorewrite with outcomes in Hf. destruct Hf as [Hf|(? & _ & [=])]. eauto. }
  run_ok Hf. apply store_sequence_number_exact in Hrun as ->.
  eapply bind_statement in Hr1 as [[Hr5 Ho]|(b' & t2 & r5 & Hf & Hr5 & Hr1)]; [| |by rewrite Hr4].
  { left. destruct Ho as [-> |[(e & [=] & _)|[[=] _]]]. split_and!; [by_contents|done..]. }
  injection Hf as _ <-.
  apply bind_commit in Hr1 as [[-> Hr6]|[(_ & Htx & _)|(t2 & ts2 & r6 & Htx & Hr6 & Hr1)]];
    [left; split_and!; [by_contents|done..]|by rewrite Hr5 in Htx|].
  rewrite Hr5 in Htx. injection Htx as <- <-. injection Hr1 as <- <-. right. exists u, parsed. split_and!; [done..|by_contents].
Qed.

Section Handling.
Context {I R : Type} `{!HandleInstruction I R, !HandleFrame I R, !SignedJson I, !JwtLib (InstructionResultClaims R)}.

(** The check of an instruction against what is known of the user. *)
Definition checked (time : Z) (i : Instruction) u (v : outcome AccountError (ChallengeResponsePayload I)) : Prop :=
  ∃ c pin, WalletUsers.instruction_challenge u = Some c ∧ time ≤ expiration_date_time c ∧
    hsm_decrypt (encryption_key_identifier srv) (encrypted_pin_pubkey u) = Some pin ∧
    SignedDouble_parse_and_verify (T:=I) (instruction i) (ic_bytes c)
      (LargerThan (instruction_sequence_number u)) (hw_pubkey u) pin = v.

Lemma verify_instruction_inv time i u r o r' : verify_instruction (I:=I) srv time i u r = (o, r') →
  contents r' = contents r ∧
  match o with
  | Ok p => checked time i u (Ok p)
  | Err (VerificationFailed e) => checked time i u (Err e)
  | Err _ => True
  | Panic => False
  end.
Proof.
  unfold verify_instruction. intros Hr.
  apply bind_lift in Hr as [(c & Hc & Hr)|(-> & _ & [(e & He & ->)|[He _]])]; [|run_ok He; by subst e|no_panic He].
  run_ok Hc. apply bind_lift in Hr as [(c' & Ht & Hr)|(-> & _ & [(e & He & ->)|[He _]])]; [|run_ok He; by subst e|no_panic He].
  run_ok Ht. zbool. apply bind_hsm in Hr as [[-> Hr1]|(pin & r1 & Hd & Hr1 & Hr)]; [done|]. injection Hr as Hv <-. split; [done|].
  destruct o as [p|e|]; [|autorewrite with outcomes in Hv; destruct Hv as (e' & Hv & ->)|run_ok Hv; by apply parse_and_verify_no_panic in Hv].
  - run_ok Hv. by exists c, pin.
  - by exists c, pin.
Qed.

(** What handling an instruction does to the tables, on every branch and under
    every pattern of failures.  The user has been loaded before, and need not be
    what the tables say now. *)
Inductive handled (clock : Clock) (policy : P) (i : Instruction) u (t : Tables) : outcome InstructionError string → Tables → Prop :=
  | handled_rejected o :
      is_ok o = false → pin_answer o = false →
      (o = Panic → may_panic policy u (c_eval clock)) →
      handled clock policy i u t o t
  | handled_in_timeout v o :
      pin_evaluation policy u (c_eval clock) = Ok v → is_in_timeout v = true → o = (let* e := never (error_of_evaluation v) in Err e) →
      handled clock policy i u t o (cleared (wu_wallet_id u) t)
  | handled_wrong_pin v ae e :
      pin_evaluation policy u (c_eval clock) = Ok v → is_in_timeout v = false → checked (c_verify clock) i u (Err ae) →
      error_of_evaluation v = Ok e →
      handled clock policy i u t (Err e) (wrong_pin (wu_wallet_id u) (is_blocking v) (c_register clock) t)
  | handled_accepted v p o t' :
      pin_evaluation policy u (c_eval clock) = Ok v → is_in_timeout v = false → checked (c_verify clock) i u (Ok p) →
      keeps_users (accepted (wu_wallet_id u) (sequence_number p) t) t' →
      (o = Panic → ∃ uuids rnd r r', handle (Signed.payload p) u uuids rnd r = (Panic, r')) →
      handled clock policy i u t o t'.

Lemma rejected_same clock policy i u t t' o : t' = t → is_ok o = false → pin_answer o = false →
  (o = Panic → may_panic policy u (c_eval clock)) →
  handled clock policy i u t o t'.
Proof. intros ->. by apply handled_rejected. Qed.

(** After the verification of an instruction, in a transaction in which the challenge has been cleared. *)
Lemma accepted_inv clock policy i u v p r o r' t ts uuids rnd key :
  contents r = {| committed := t; transactions := cleared (wu_wallet_id u) t :: ts |} →
  pin_evaluation policy u (c_eval clock) = Ok v → is_in_timeout v = false → checked (c_verify clock) i u (Ok p) →
  (let! _ := st_map_err IStorage (reset_unsuccessful_pin_entries (wu_wallet_id u)) in
   let! _ := st_map_err IStorage (update_instruction_sequence_number (wu_wallet_id u) (sequence_number p)) in
   let! _ := st_map_err IStorage commit in
   let! instruction_result := handle (Signed.payload p) u uuids rnd in
   sign_instruction_result (R:=R) srv (c_jwt clock) key instruction_result) r = (o, r') →
  handled clock policy i u t o (tables r').
Proof.
  intros Hc Hev Hit Hv Hr.
  eapply bind_statement in Hr as [[Hr2 Ho]|(b & t1 & r2 & Hf & Hr2 & Hr)]; [| |by rewrite Hc].
  { destruct Ho as [-> |[(e & [=] & _)|[[=] _]]]. apply rejected_same; [by_contents|done..]. }
  injection Hf as _ <-.
  eapply bind_statement in Hr as [[Hr3 Ho]|(b' & t2 & r3 & Hf & Hr3 & Hr)]; [| |by rewrite Hr2].
  { destruct Ho as [-> |[(e & _ & ->)|[Hf ->]]]; (apply rejected_same; [by_contents|done..|]); [done..|].
    autorewrite with outcomes in Hf. destruct Hf as [Hf|(? & _ & [=])]. intros _. right. eauto. }
  run_ok Hf. apply store_sequence_number_exact in Hrun as ->.
  apply bind_commit in Hr as [[-> Hr4]|[(_ & Htx & _)|(t3 & ts3 & r4 & Htx & Hr4 & Hr)]];
    [apply rejected_same; [by_contents|done..]|by rewrite Hr3 in Htx|].
  rewrite Hr3 in Htx. injection Htx as <- <-. eapply handled_accepted; [done..| |].
  2: { intros ->. apply st_bind_inv in Hr as [(x5 & r5 & _ & Hr)|[(e & _ & [=])|[Hr5 _]]]; [|by eauto].
       exfalso. eapply calm_map_err, Hr. apply sign_calm. }
  assert (accepted (wu_wallet_id u) (sequence_number p) t = tables r4) as -> by (unfold tables; by rewrite Hr4).
  apply st_bind_inv in Hr as [(x5 & r5 & Hr5 & Hr)|[(e & Hr5 & _)|[Hr5 _]]]; apply handle_frame in Hr5; [|done..].
  assert (contents r' = contents r5) as Hc5; [|unfold tables in *; by rewrite Hc5].
  eapply pure_map_err, Hr. auto with pure_db.
Qed.
Lemma wrong_pin_inv clock policy i u v ae r o r' t ts :
  contents r = {| committed := t; transactions := cleared (wu_wallet_id u) t :: ts |} →
  pin_evaluation policy u (c_eval clock) = Ok v → is_in_timeout v = false → checked (c_verify clock) i u (Err ae) →
  (let! _ := st_map_err IStorage (register_unsuccessful_pin_entry (wu_wallet_id u) (is_blocking v) (c_register clock)) in
   let! e := st_lift (never (error_of_evaluation v)) in
   let! _ := st_map_err IStorage commit in
   st_throw e) r = (o, r') →
  handled clock policy i u t o (tables r').
Proof.
  intros Hc Hev Hit Hv Hr.
  eapply bind_statement in Hr as [[Hr2 Ho]|(b & t1 & r2 & Hf & Hr2 & Hr)]; [| |by rewrite Hc].
  { destruct Ho as [-> |[(e & [=] & _)|[[=] _]]]. apply rejected_same; [by_contents|done..]. }
  injection Hf as _ <-. apply bind_lift in Hr as [(e & He & Hr)|(-> & _ & [(e & He & _)|[Hp ->]])];
    [|by destruct (error_of_evaluation v)|].
  2: { apply rejected_same; [by_contents|done..|]. intros _. left. intros v' e. rewrite Hev. intros [= <-] He.
       by rewrite He in Hp. }
  unfold never in He. run_ok He.
  apply bind_commit in Hr as [[-> Hr4]|[(_ & Htx & _)|(t3 & ts3 & r4 & Htx & Hr4 & Hr)]];
    [apply rejected_same; [by_contents|done..]|by rewrite Hr2 in Htx|].
  rewrite Hr2 in Htx. injection Htx as <- <-. injection Hr as <- <-. unfold tables. rewrite Hr4. by eapply handled_wrong_pin.
Qed.

Lemma in_timeout_inv clock policy i u v r o r' t ts :
  contents r = {| committed := t; transactions := cleared (wu_wallet_id u) t :: ts |} →
  pin_evaluation policy u (c_eval clock) = Ok v → is_in_timeout v = true →
  (let! _ := st_map_err IStorage commit in
   let! e := st_lift (never (error_of_evaluation v)) in
   st_throw e) r = (o, r') →
  handled clock policy i u t o (tables r').
Proof.
  intros Hc Hev Hit Hr.
  apply bind_commit in Hr as [[-> Hr4]|[(_ & Htx & _)|(t3 & ts3 & r4 & Htx & Hr4 & Hr)]];
    [apply rejected_same; [by_contents|done..]|by rewrite Hc in Htx|].
  rewrite Hc in Htx. injection Htx as <- <-.
  assert (tables r' = cleared (wu_wallet_id u) t ∧ o = (let* e := never (error_of_evaluation v) in Err e)) as [-> ->].
  { unfold tables. unfold sbind, st_lift, st_throw in Hr. destruct (never _); simpl; injection Hr as <- <-; by rewrite Hr4. }
  by eapply handled_in_timeout.
Qed.

Lemma process_inv clock uuids rnd policy key i u r o r' :
  process_instruction (I:=I) (R:=R) prof srv clock uuids rnd policy key i u r = (o, r') →
  handled clock policy i u (tables r) o (tables r').
Proof.
  unfold process_instruction. intros Hr.
  apply bind_begin in Hr as [[-> Hr1]|(r1 & Hr1 & Hr)]; [apply rejected_same; [by_contents|done..]|].
  eapply bind_statement in Hr as [[Hr2 Ho]|(b & t1 & r2 & Hf & Hr2 & Hr)]; [| |by rewrite Hr1].
  { destruct Ho as [-> |[(e & [=] & _)|[[=] _]]]. apply rejected_same; [by_contents|done..]. }
  injection Hf as _ <-. assert (tables r1 = tables r) as Ht1 by by_contents. rewrite Ht1 in Hr2.
  fold (cleared (wu_wallet_id u) (tables r)) in Hr2. apply bind_lift in Hr as [(a & Ha & Hr)|(-> & _ & [(e & He & _)|[Hp ->]])]; [|by destruct (arith _ _ _)|].
  2: { apply rejected_same; [by_contents|done..|]. intros _. left. intros v e. unfold pin_evaluation, never in *. run_ok Hp. by rewrite Hp. }
  unfold never in Ha. run_ok Ha.
  apply bind_lift in Hr as [(v & Hv & Hr)|(-> & _ & [(e & He & _)|[Hp ->]])]; [|by destruct (evaluate _ _ _ _)|].
  2: { apply rejected_same; [by_contents|done..|]. intros _. left. intros v e. unfold pin_evaluation, never in *. run_ok Hp. rewrite Ha. simpl. by rewrite Hp. }
  assert (pin_evaluation policy u (c_eval clock) = Ok v) as Hev.
  { unfold pin_evaluation. rewrite Ha. simpl. unfold never in Hv. by run_ok Hv. }
  change (match v with InTimeout _ => true | _ => false end) with (is_in_timeout v) in Hr.
  destruct (is_in_timeout v) eqn:Hit; [by eapply in_timeout_inv|].
  apply bind_catch in Hr as [[Hp _]|(x & r3 & Hx & _ & Hr)]; [by apply verify_instruction_inv in Hp as [_ []]|].
  apply verify_instruction_inv in Hx as [Hr3 Hx]. rewrite Hr2 in Hr3.
  destruct x as [p|[]|]; [by eapply accepted_inv| | | |by eapply wrong_pin_inv| |done];
    injection Hr as <- <-; apply rejected_same; first [done|by_contents].
Qed.

Lemma handle_inv clock uuids rnd policy key i r o r' :
  handle_instruction (I:=I) (R:=R) prof srv clock uuids rnd policy key i r = (o, r') →
  (tables r' = tables r ∧ is_ok o = false ∧ pin_answer o = false ∧ (o = Panic → unreadable (tables r))) ∨
  ∃ u, certified (c_jwt clock) (instruction_certificate i) (tables r) u ∧ handled clock policy i u (tables r) o (tables r').
Proof.
  unfold handle_instruction. intros Hr. apply scoped_inv in Hr as (r1 & Hr1 & -> & _).
  apply st_bind_inv in Hr1 as [(u & r3 & Hr3 & Hr1)|[(e & Hr3 & ->)|[Hr3 ->]]];
    unfold st_map_err in Hr3; destruct (verify_wallet_certificate _ _ _ _) as [x r3'] eqn:Hc;
    apply certificate_inv in Hc as [Hr3' Hx]; destruct x; simplify_eq/=; [|left; split_and!; [by_contents|first [done|auto]..]..].
  right. exists u. split; [done|]. apply process_inv in Hr1. unfold tables in *. by rewrite Hr3' in Hr1.
Qed.
End Handling.
End Effects.
