(* ===== verification/AccountServerRuns.v ===== *)
(** * Runs of the account server

    Requests that are handled one after the other: each row of the user table is
    a small state machine, whatever requests arrive and whichever calls fail.
    From it follow the invariant of the tables, the bound on the number of PIN
    guesses, the permanence of a block and the impossibility of replays. *)
From stdpp Require Import base gmap strings list option relations.
From Stdlib Require Import ZArith Lia.
From S2P Require Import Prelude IndexMap Crypto Jose PinPolicy OpenId4vp Signed WalletUsers AccountServer WalletUserFacts AccountServerFacts.

Section Runs.
Context `{!Ecdsa, !Storage, !Hsm, !JwtLib WalletCertificateClaims, !JwtLib RegistrationChallengeClaims}.
Context `{!JwtLib InstructionChallengeRequestClaims, !SignedJson Registration}.
Variable prof : profile.
Variable srv : AccountServer.
Variable policy : PinPolicy.
#[local] Instance the_policy : PinPolicyEvaluator PinPolicy := PinPolicy_evaluator prof.
Implicit Types (r : World) (u : WalletUser) (row : UserRow) (t : Tables).

(** One request, with any arguments and any failures.  A request is one step, from
    loading the user to the last commit: in these runs requests are handled one
    after the other, while the server loads the user in one transaction and
    processes the instruction in another, so that requests of one wallet can
    overlap there; what then happens is at the end of this file and of
    [AccountServerWitness]. *)
Inductive prestep : Tables → Tables → Prop :=
  | step_register now uuid key msg r o r' :
      register srv now uuid key msg r = (o, r') → prestep (tables r) (tables r')
  | step_challenge now time random m r o r' :
      process_instruction_challenge srv now time random m r = (o, r') → prestep (tables r) (tables r').
Inductive astep : Tables → Tables → Prop :=
  | step_pre t t' : prestep t t' → astep t t'
  | step_instruction {I R} `{!HandleInstruction I R, !HandleFrame I R, !SignedJson I, !JwtLib (InstructionResultClaims R)}
      clock uuids rnd key i r o r' :
      handle_instruction (I:=I) (R:=R) prof srv clock uuids rnd policy key i r = (o, r') → astep (tables r) (tables r').

(** ** The life of a row *)
Definition next_attempt row (now : Z) : outcome Empty_set PinPolicyEvaluation :=
  let* a := arith prof 8 ((if in_range 8 (pin_entries row) then pin_entries row else u8_MAX) + 1) in
  policy_evaluate prof policy a (last_unsuccessful_pin row) now.

Definition count_wrong_pin (time : Z) (blocked : bool) : UserRow → UserRow :=
  set_pin_entries (λ n, Z.min (n + 1) u8_MAX) (Some (store_instant time)) blocked.
Definition accept_instruction (n : Z) row : UserRow := set_sequence_number n (set_pin_entries (λ _, 0) None false row).

Inductive row_step row : UserRow → Prop :=
  | row_same : row_step row row
  | row_challenge n : row_is_blocked row = false → row_sequence_number row < n → row_step row (set_sequence_number n row)
  | row_wrong_pin v now time : row_is_blocked row = false → next_attempt row now = Ok v → is_in_timeout v = false →
      row_step row (count_wrong_pin time (is_blocking v) row)
  | row_accept n : row_is_blocked row = false → row_sequence_number row < n → row_step row (accept_instruction n row).
#[local] Hint Constructors row_step : core.

Definition fresh_row t row : Prop :=
  ∃ uuid der pin, row = new_row uuid der pin ∧ (∃ k, from_public_key_der der = Some k) ∧
    map_Forall (λ _ row', row_id row' ≠ uuid) (users t).

(** A request changes one row at most: the tables before and after are related
    row by row. *)
Inductive users_step t (wid : WalletId) : option UserRow → option UserRow → Prop :=
  | users_absent : users_step t wid None None
  | users_row row row' : row_step row row' → users_step t wid (Some row) (Some row')
  | users_new row : fresh_row t row → users_step t wid None (Some row).

Lemma users_step_same t wid (x : option UserRow) : users_step t wid x x.
Proof. destruct x; constructor. constructor. Qed.

Lemma cleared_users wid t : users (cleared wid t) = users t.
Proof. unfold cleared. by destruct (users t !! wid). Qed.
Lemma challenged_users wid c n t : users (challenged wid c n t) = alter (set_sequence_number n) wid (users t).
Proof. unfold challenged. by destruct (users (update_user _ _ _) !! wid). Qed.

Lemma alter_users_step t t' wid row f : users t !! wid = Some row → users t' = alter f wid (users t) → row_step row (f row) →
  (∀ wid', users_step t wid' (users t !! wid') (users t' !! wid')) ∧
  (∀ w1 w2, users t !! w1 = None → users t !! w2 = None → is_Some (users t' !! w1) → is_Some (users t' !! w2) → w1 = w2).
Proof.
  intros Hrow -> Hs. split.
  - intros wid'. destruct (decide (wid = wid')) as [<-|Hne].
    + rewrite lookup_alter_eq, Hrow. by constructor.
    + rewrite lookup_alter_ne by done. apply users_step_same.
  - intros w1 w2 Hn1 _ [x Hx]%lookup_alter_is_Some. congruence.
Qed.

Lemma new_users_step t t' wid row : users t !! wid = None → users t' = <[wid := row]> (users t) → fresh_row t row →
  (∀ wid', users_step t wid' (users t !! wid') (users t' !! wid')) ∧
  (∀ w1 w2, users t !! w1 = None → users t !! w2 = None → is_Some (users t' !! w1) → is_Some (users t' !! w2) → w1 = w2).
Proof.
  intros Hn -> Hf. split.
  - intros wid'. destruct (decide (wid = wid')) as [<-|Hne].
    + rewrite lookup_insert_eq, Hn. by constructor.
    + rewrite lookup_insert_ne by done. apply users_step_same.
  - intros w1 w2 Hn1 Hn2 [? [[-> _]|[_ ?]]%lookup_insert_Some] [? [[-> _]|[_ ?]]%lookup_insert_Some]; congruence.
Qed.

Lemma user_of_row_fields wid row c u : user_of_row wid row c = Ok u →
  instruction_sequence_number u = row_sequence_number row ∧ WalletUsers.instruction_challenge u = c ∧
  (∀ now, pin_evaluation prof policy u now = next_attempt row now) ∧
  from_public_key_der (hw_pubkey_der row) = Some (hw_pubkey u) ∧
  encrypted_pin_pubkey u = mkEncrypted (encrypted_pin_pubkey_sec1 row) (pin_pubkey_iv row).
Proof. unfold user_of_row. intros Hu. by run_ok Hu. Qed.

Lemma checked_larger {I} `{!SignedJson I} time i u (p : ChallengeResponsePayload I) :
  checked srv time i u (Ok p) → instruction_sequence_number u < sequence_number p.
Proof. intros (c & pin & _ & _ & _ & Hp). apply parse_and_verify_Ok in Hp as (_ & Hn & _). by apply Z.ltb_lt. Qed.

Lemma checked_text {I} `{!SignedJson I} time i u (p : ChallengeResponsePayload I) :
  checked srv time i u (Ok p) → double_from_str (instruction i) = Some p.
Proof. intros (c & pin & _ & _ & _ & Hp). unfold SignedDouble_parse_and_verify, SignedDouble_dangerous_parse_unverified in Hp. by run_ok Hp. Qed.

Lemma astep_users t t' : astep t t' →
  (∀ wid, users_step t wid (users t !! wid) (users t' !! wid)) ∧
  (∀ w1 w2, users t !! w1 = None → users t !! w2 = None → is_Some (users t' !! w1) → is_Some (users t' !! w2) → w1 = w2).
Proof.
  assert (∀ t, (∀ wid, users_step t wid (users t !! wid) (users t !! wid)) ∧
    ∀ w1 w2, users t !! w1 = None → users t !! w2 = None → is_Some (users t !! w1) → is_Some (users t !! w2) → w1 = w2) as Hsame.
  { intros t0. split; [intros; apply users_step_same|]. intros w1 w2 -> _ [? [=]]. }
  intros Hs. destruct Hs as [t t' [now uuid key msg r o r' Hr|now time random m r o r' Hr]|I R ? ? ? ? clock uuids rnd key i r o r' Hr].
  - apply register_inv in Hr as [(-> & _)|(cert & claims & p & der & pin & _ & _ & _ & Hder & _ & Hn & Hid & ->)]; [done|].
    eapply (new_users_step _ _ (rc_wallet_id claims)); [done..|]. exists uuid, der, pin. eauto using public_key_der_round_trip.
  - apply challenge_inv in Hr as [(-> & _)|(u & parsed & _ & (claims & row & _ & _ & Hrow & Hb & Hu & _) & _ & Hlt & ->)]; [done|].
    apply user_of_row_fields in Hu as (Hn & _).
    eapply alter_users_step; [done|apply challenged_users|]. constructor; [done|]. by rewrite <-Hn.
  - apply handle_inv in Hr as [(-> & _)|(u & (claims & row & _ & _ & Hrow & Hb & Hu & _) & Hh)]; [done| |exact _].
    apply user_of_row_fields in Hu as (Hn & _ & Hev & _).
    destruct Hh as [o _ _ _|v o _ _ _|v ae e Hv Hit _ _|v p o t' Hv Hit Hc Hk _].
    + done.
    + rewrite cleared_users. apply Hsame.
    + eapply alter_users_step; [done|simpl; by rewrite cleared_users|]. eapply row_wrong_pin; [done|by rewrite <-Hev|done].
    + eapply (alter_users_step _ _ _ _ (accept_instruction (sequence_number p)));
        [done|destruct Hk as [-> _]; simpl; by rewrite cleared_users, alter_alter_eq|].
      apply row_accept; [done|]. rewrite <-Hn. by eapply checked_larger.
Qed.

(** ** The invariant of the tables *)
Record row_ok row : Prop := {
  ok_entries : 0 ≤ pin_entries row ≤ spec_total policy;
  ok_blocked : row_is_blocked row = bool_decide (pin_entries row = spec_total policy);
  ok_last : last_unsuccessful_pin row = None ↔ pin_entries row = 0;
  ok_sequence_number : 0 ≤ row_sequence_number row;
  ok_key : ∃ k, from_public_key_der (hw_pubkey_der row) = Some k
}.
Record tables_ok t : Prop := {
  ok_rows : map_Forall (λ _ row, row_ok row) (users t);
  ok_ids : ∀ w1 w2 row1 row2, users t !! w1 = Some row1 → users t !! w2 = Some row2 → row_id row1 = row_id row2 → w1 = w2
}.

Context (Hwf : wf policy).

Lemma total_bounds : 0 < spec_total policy ≤ u8_MAX.
Proof using Hwf. destruct Hwf. unfold spec_total. nia. Qed.

Lemma next_attempt_spec row now : row_ok row → row_is_blocked row = false →
  pin_entries row + 1 ≤ spec_total policy ∧
  next_attempt row now = Ok (spec_evaluate policy (pin_entries row + 1) (last_unsuccessful_pin row) now).
Proof using Hwf.
  intros [He Hb Hl _ _] Hf. pose proof total_bounds as Ht. rewrite Hf in Hb. symmetry in Hb. apply bool_decide_eq_false in Hb.
  split; [lia|]. unfold next_attempt.
  rewrite (proj2 (in_range_spec 8 (pin_entries row))) by (change (2 ^ 8) with 256; unfold u8_MAX in *; lia).
  rewrite arith_u8 by (unfold u8, u8_MAX in *; lia). simpl. apply policy_evaluate_spec; [done|].
  destruct (last_unsuccessful_pin row) eqn:E; simpl.
  - assert (pin_entries row ≠ 0) by (intros E0; by apply Hl in E0). lia.
  - assert (pin_entries row = 0) by (by apply Hl). lia.
Qed.

Lemma is_blocking_spec a last now : is_blocking (spec_evaluate policy a last now) = bool_decide (spec_total policy ≤ a).
Proof.
  unfold spec_evaluate. case_decide; [by rewrite bool_decide_eq_true_2|].
  rewrite (bool_decide_eq_false_2 (spec_total policy ≤ a)) by done. by repeat case_match.
Qed.

Lemma row_step_ok row row' : row_ok row → row_step row row' → row_ok row'.
Proof using Hwf.
  intros Hok Hs. pose proof Hok as [He Hb Hl Hn Hk]. pose proof total_bounds as Ht. destruct Hs as [|n Hf Hlt|v now time Hf Hv _|n Hf Hlt].
  - done.
  - split; simpl; auto. lia.
  - apply (next_attempt_spec _ now) in Hok as [Hle Hn']; [|done]. rewrite Hv in Hn'. injection Hn' as ->.
    unfold count_wrong_pin. rewrite is_blocking_spec. split; simpl; rewrite ?Z.min_l by lia; auto; [lia| |].
    + apply bool_decide_ext. lia.
    + split; [done|lia].
  - split; simpl; try done; try lia. by rewrite bool_decide_eq_false_2 by lia.
Qed.

Lemma row_step_id row row' : row_step row row' → row_id row' = row_id row.
Proof. by destruct 1. Qed.

(** A row after a request was there before, or is new. *)
Lemma astep_row t t' wid row' : astep t t' → users t' !! wid = Some row' →
  (∃ row, users t !! wid = Some row ∧ row_step row row') ∨ users t !! wid = None ∧ fresh_row t row'.
Proof. intros Hs Hr. apply astep_users in Hs as [Hs _]. specialize (Hs wid). rewrite Hr in Hs. inversion Hs; subst; eauto. Qed.

Lemma astep_ok t t' : tables_ok t → astep t t' → tables_ok t'.
Proof using Hwf.
  intros [Hrows Hids] Hs. split.
  - intros wid row' Hr. apply (astep_row _ _ _ _ Hs) in Hr as [(row & Hr & Hst)|[_ (uuid & der & pin & -> & Hk & _)]].
    + eapply row_step_ok; [by eapply Hrows|done].
    + pose proof total_bounds. split; simpl; try done; try lia. by rewrite bool_decide_eq_false_2 by lia.
  - intros w1 w2 row1 row2 Hr1 Hr2 Hid.
    destruct (astep_users _ _ Hs) as [_ Hone]. pose proof Hr1 as Hr1'. pose proof Hr2 as Hr2'.
    apply (astep_row _ _ _ _ Hs) in Hr1 as [(row1' & Hr1 & Hst1)|[Hn1 (uuid1 & ? & ? & -> & _ & Hf1)]];
    apply (astep_row _ _ _ _ Hs) in Hr2 as [(row2' & Hr2 & Hst2)|[Hn2 (uuid2 & ? & ? & -> & _ & Hf2)]]; simpl in *.
    + rewrite (row_step_id _ _ Hst1), (row_step_id _ _ Hst2) in Hid. by eapply Hids.
    + rewrite (row_step_id _ _ Hst1) in Hid. by apply Hf2 in Hr1.
    + rewrite (row_step_id _ _ Hst2) in Hid. by apply Hf1 in Hr2.
    + apply Hone; eauto.
Qed.

Lemma no_tables_ok : tables_ok no_tables.
Proof. split; [apply map_Forall_empty|]. intros w1 w2 row1 row2 Hr1. unfold no_tables in Hr1. simpl in Hr1. by rewrite lookup_empty in Hr1. Qed.

Lemma run_ok_tables t t' : tables_ok t → rtc astep t t' → tables_ok t'.
Proof using Hwf. intros Hok Hs. induction Hs; eauto using astep_ok. Qed.

(** ** No panics *)
Lemma ok_readable t : tables_ok t → ¬ unreadable t.
Proof.
  intros [Hrows _] (wid & row & Hrow & Hu). apply Hrows in Hrow as [_ _ _ Hn [k Hk]].
  unfold user_of_row in Hu. rewrite Hk in Hu. simpl in Hu. by rewrite (proj2 (Z.leb_le 0 _)) in Hu.
Qed.

Lemma error_of_spec a last now : Forall (Z.le 0) (timeouts policy) →
  ∃ e, error_of_evaluation (spec_evaluate policy a last now) = Ok e.
Proof.
  intros Ht. assert (∀ d, 0 ≤ d → (0 <=? Z.quot d 1000000) = true) as Hq by (intros d Hd; apply Z.leb_le, Z.quot_pos; lia).
  unfold spec_evaluate. case_decide; [by eexists|]. destruct last as [last|]; [|by eexists].
  destruct (timeouts policy !! _) as [d|] eqn:Hd; [|by eexists]. eapply Forall_lookup_1 in Hd; [|done].
  case_decide; simpl; [rewrite Hq by done; by eexists|]. case_decide; simpl; [rewrite Hq by lia|]; by eexists.
Qed.

Lemma instruction_no_panic {I R} `{!HandleInstruction I R, !HandleFrame I R, !SignedJson I, !JwtLib (InstructionResultClaims R)}
    clock uuids rnd key i r r' :
  tables_ok (tables r) → Forall (Z.le 0) (timeouts policy) → (∀ n, store_sequence_number n ≠ Panic) →
  (∀ (x : I) u ids rs, calm (handle x u ids rs)) →
  handle_instruction (I:=I) (R:=R) prof srv clock uuids rnd policy key i r ≠ (Panic, r').
Proof using Hwf.
  intros Hok Ht Hst Hcalm Hr.
  apply handle_inv in Hr as [(_ & _ & _ & Hp)|(u & (claims & row & _ & _ & Hrow & Hb & Hu & _) & Hh)]; [by apply (ok_readable (tables r)); auto| |exact _].
  apply user_of_row_fields in Hu as (_ & _ & Hev & _). apply (ok_rows _ Hok) in Hrow.
  apply (next_attempt_spec _ (c_eval clock)) in Hrow as [_ Hn]; [|done]. rewrite <-Hev in Hn.
  destruct (error_of_spec (pin_entries row + 1) (last_unsuccessful_pin row) (c_eval clock) Ht) as [e He].
  inversion Hh as [o _ _ Hp|v o Hv _ Ho|v ae e' Hv _ _ _|v p o t' _ _ _ _ Hp]; subst.
  - destruct (Hp eq_refl) as [Hf|[n Hf]]; [by eapply Hf|by apply Hst in Hf].
  - rewrite Hn in Hv. injection Hv as <-. by rewrite He in Ho.
  - destruct (Hp eq_refl) as (? & ? & ? & ? & Hpan). by apply Hcalm in Hpan.
Qed.

(** ** Rows along runs *)
Lemma astep_existing t t' wid row : users t !! wid = Some row → astep t t' →
  ∃ row', users t' !! wid = Some row' ∧ row_step row row'.
Proof. intros Hr Hs. apply astep_users in Hs as [Hs _]. specialize (Hs wid). rewrite Hr in Hs. inversion Hs; subst; eauto. Qed.

(** A preorder that every change of a row respects, holds along runs. *)
Lemma run_existing (Q : UserRow → UserRow → Prop) t t' wid row : Reflexive Q → Transitive Q →
  (∀ row row', row_step row row' → Q row row') → rtc astep t t' → users t !! wid = Some row →
  ∃ row', users t' !! wid = Some row' ∧ Q row row'.
Proof.
  intros Hre Htr HQ Hs. revert row. induction Hs as [t|t t1 t' Hs _ IH]; intros row Hrow; [by eauto|].
  destruct (astep_existing _ _ _ _ Hrow Hs) as (row1 & Hrow1 & Hst). destruct (IH row1 Hrow1) as (row' & Hrow' & HQ').
  exists row'. split; [done|]. etrans; [by apply HQ|done].
Qed.

Lemma run_sequence_number t t' wid row : rtc astep t t' → users t !! wid = Some row →
  ∃ row', users t' !! wid = Some row' ∧ row_sequence_number row ≤ row_sequence_number row'.
Proof.
  apply (run_existing (λ a b, row_sequence_number a ≤ row_sequence_number b)).
  - intros ?. lia.
  - intros ? ? ?. lia.
  - intros row0 row0' []; simpl; lia.
Qed.

Lemma run_blocked t t' wid row : rtc astep t t' → users t !! wid = Some row → row_is_blocked row = true → users t' !! wid = Some row.
Proof.
  intros Hs Hrow Hb. apply (run_existing (λ a b, row_is_blocked a = true → b = a) t t') in Hrow as (row' & -> & Hq); [by rewrite Hq|..|done].
  - by intros ? ?.
  - intros ? ? ? Q1 Q2 B. rewrite Q2; rewrite Q1; auto.
  - intros row0 row0' [] B; congruence.
Qed.


(** ** Guessing the PIN *)

(** The wallet that a certificate is for. *)
Definition wallet_of (now : Z) (cert : string) : option WalletId :=
  match Jwt_parse_and_verify_with_sub (C:=WalletCertificateClaims) now cert (certificate_signing_pubkey srv) with
  | Ok claims => Some (wc_wallet_id claims)
  | _ => None
  end.

(** Whether the answer [o] to an instruction tells its sender that its PIN is wrong
    after the PIN has been checked, and not that the wallet has to wait. *)
Definition guess (wid : WalletId) (clock : Clock) (i : Instruction) t (o : outcome InstructionError string) : bool :=
  bool_decide (wallet_of (c_jwt clock) (instruction_certificate i) = Some wid) && pin_answer o &&
  match users t !! wid with
  | Some row => match next_attempt row (c_eval clock) with Ok v => negb (is_in_timeout v) | _ => false end
  | None => false
  end.

(** Runs without an instruction that verifies under the keys of the wallet,
    with the number of guesses. *)
Inductive guessing (wid : WalletId) : Z → Tables → Tables → Prop :=
  | guessing_nil t : guessing wid 0 t t
  | guessing_request t t1 t2 n : prestep t t1 → guessing wid n t1 t2 → guessing wid n t t2
  | guessing_instruction {I R} `{!HandleInstruction I R, !HandleFrame I R, !SignedJson I, !JwtLib (InstructionResultClaims R)}
      clock uuids rnd key i r o r' n t2 :
      handle_instruction (I:=I) (R:=R) prof srv clock uuids rnd policy key i r = (o, r') →
      (∀ u p, certified srv (c_jwt clock) (instruction_certificate i) (tables r) u → wu_wallet_id u = wid →
         ¬ checked srv (I:=I) (c_verify clock) i u (Ok p)) →
      guessing wid n (tables r') t2 →
      guessing wid ((if guess wid clock i (tables r) o then 1 else 0) + n) (tables r) t2.

Lemma prestep_entries t t' wid row : prestep t t' → users t !! wid = Some row →
  ∃ row', users t' !! wid = Some row' ∧ pin_entries row' = pin_entries row.
Proof.
  intros [now uuid key msg r o r' Hr|now time random m r o r' Hr] Hrow.
  - apply register_inv in Hr as [(-> & _)|(cert & claims & p & der & pin & _ & _ & _ & _ & _ & Hn & _ & ->)]; [by eauto|].
    exists row. simpl. rewrite lookup_insert_ne by congruence. done.
  - apply challenge_inv in Hr as [(-> & _)|(u & parsed & _ & _ & _ & _ & ->)]; [by eauto|].
    rewrite challenged_users, lookup_alter. case_decide; subst; rewrite Hrow; simpl; eauto.
Qed.

Lemma error_is_pin_answer v e : error_of_evaluation v = Ok e → pin_answer (Err e) = true.
Proof. destruct v; simpl; intros He; run_ok He; by subst. Qed.

(** An instruction that does not verify adds its guess to the count. *)
Lemma instruction_guess {I R} `{!HandleInstruction I R, !HandleFrame I R, !SignedJson I, !JwtLib (InstructionResultClaims R)}
    wid clock uuids rnd key i r o r' row :
  tables_ok (tables r) → users (tables r) !! wid = Some row →
  handle_instruction (I:=I) (R:=R) prof srv clock uuids rnd policy key i r = (o, r') →
  (∀ u p, certified srv (c_jwt clock) (instruction_certificate i) (tables r) u → wu_wallet_id u = wid →
     ¬ checked srv (I:=I) (c_verify clock) i u (Ok p)) →
  ∃ row', users (tables r') !! wid = Some row' ∧
    pin_entries row' = pin_entries row + if guess wid clock i (tables r) o then 1 else 0.
Proof using Hwf.
  intros Hok Hrow Hr Hno. unfold guess. rewrite Hrow.
  apply handle_inv in Hr as [(-> & _ & -> & _)|(u & Hu & Hh)]; [|..|exact _].
  { exists row. rewrite andb_false_r. simpl. split; [done|lia]. }
  pose proof Hu as (claims & row0 & Hj & Hw & Hrow0 & Hb & Hur & _). apply user_of_row_fields in Hur as (_ & _ & Hev & _).
  assert (wallet_of (c_jwt clock) (instruction_certificate i) = Some (wu_wallet_id u)) as -> by (unfold wallet_of; rewrite Hj; congruence).
  destruct (decide (wu_wallet_id u = wid)) as [<-|Hne].
  - rewrite (bool_decide_eq_true_2 (Some _ = Some _)) by done. rewrite Hrow in Hrow0. injection Hrow0 as <-. rewrite <-Hev.
    pose proof (next_attempt_spec _ (c_eval clock) (ok_rows _ Hok _ _ Hrow) Hb) as [Hle _]. pose proof total_bounds as Htot.
    inversion Hh as [o' _ Hp _|v o' Hv Hit Ho|v ae e' Hv Hit _ He|v p o' t' _ _ Hc _ _]; subst.
    + rewrite Hp. exists row. split; [congruence|simpl; lia].
    + rewrite Hv, Hit, cleared_users, andb_false_r. exists row. split; [done|simpl; lia].
    + rewrite Hv, Hit, (error_is_pin_answer _ _ He). simpl. rewrite cleared_users, lookup_alter_eq, Hrow. simpl.
      eexists. split; [done|]. simpl. lia.
    + by apply Hno in Hc.
  - rewrite (bool_decide_eq_false_2 (Some _ = Some _)) by congruence. exists row. split; [|simpl; lia].
    inversion Hh as [o' _ Hp _|v o' Hv Hit Ho|v ae e' Hv Hit _ He|v p o' t' _ _ Hc [Hk _] _]; subst; simpl.
    + congruence.
    + by rewrite cleared_users.
    + by rewrite lookup_alter_ne, cleared_users.
    + rewrite Hk. simpl. by rewrite !lookup_alter_ne, cleared_users.
Qed.

(** C1. The number of guesses is bounded, when requests are handled one after the
    other: starting from tables that keep the
    invariant, in a run in which no instruction verifies under the keys of a
    wallet (so nobody with both its hardware key and its PIN is at work), the
    number of wrong PINs that are answered for that wallet is exactly the
    increase of its counter, so it is never more than what the policy has left:
    at most [rounds * attempts_per_round] in all, however the requests
    are ordered, spread over time, mixed with requests of other wallets, new
    challenges and failures of the database and the HSM.  Wrong PINs that overlap
    are each answered on the counter that they have loaded. *)
Theorem guesses_bounded wid n t t' row (Hok : tables_ok t) (Hrow : users t !! wid = Some row) (Hg : guessing wid n t t') :
  ∃ row', users t' !! wid = Some row' ∧ pin_entries row' = pin_entries row + n ∧ n ≤ spec_total policy - pin_entries row.
Proof using Hwf.
  assert (∃ row', users t' !! wid = Some row' ∧ pin_entries row' = pin_entries row + n ∧ row_ok row') as (row' & Hr' & Hn & [He _ _ _ _]).
  2: { exists row'. split_and!; [done..|lia]. }
  revert row Hok Hrow. induction Hg as [t|t t1 t2 n Hs _ IH|I R ? ? ? ? clock uuids rnd key i r o r' n t2 Hr Hno _ IH]; intros row Hok Hrow.
  - exists row. split_and!; [done|lia|by eapply ok_rows].
  - destruct (prestep_entries _ _ _ _ Hs Hrow) as (row1 & Hrow1 & Hn1).
    apply IH in Hrow1 as (row2 & Hrow2 & Hn2 & Hok2); [|by eapply astep_ok, step_pre]. exists row2. split_and!; [done|lia|done].
  - destruct (instruction_guess _ _ _ _ _ _ _ _ _ _ Hok Hrow Hr Hno) as (row1 & Hrow1 & Hn1).
    apply IH in Hrow1 as (row2 & Hrow2 & Hn2 & Hok2); [|by eapply astep_ok, step_instruction]. exists row2. split_and!; [done|lia|done].
Qed.

(** ** Blocked wallets *)

(** C20. A block is permanent as long as requests do not overlap: once the row of a wallet is blocked, no sequence of
    requests handled one after the other changes that row, and every request
    for an instruction challenge and every instruction with a certificate for
    the wallet is refused and leaves all tables as they are.  A request that had
    loaded the user before the block can lift it
    ([overlapping_instruction_lifts_block]). *)
Theorem blocked_forever {I R} `{!HandleInstruction I R, !HandleFrame I R, !SignedJson I, !JwtLib (InstructionResultClaims R)}
    wid row t r (Hrow : users t !! wid = Some row) (Hb : row_is_blocked row = true) (Hrun : rtc astep t (tables r)) :
  users (tables r) !! wid = Some row ∧
  (∀ now time random m, wallet_of now (icm_certificate m) = Some wid →
     let '(o, r') := process_instruction_challenge srv now time random m r in is_ok o = false ∧ tables r' = tables r) ∧
  (∀ clock uuids rnd key i, wallet_of (c_jwt clock) (instruction_certificate i) = Some wid →
     let '(o, r') := handle_instruction (I:=I) (R:=R) prof srv clock uuids rnd policy key i r in
     is_ok o = false ∧ tables r' = tables r).
Proof.
  pose proof (run_blocked _ _ _ _ Hrun Hrow Hb) as Hrow'.
  assert (∀ now cert u, wallet_of now cert = Some wid → ¬ certified srv now cert (tables r) u) as Hno.
  { intros now cert u Hw (claims & row' & Hj & Hid & Hrow1 & Hb' & _). unfold wallet_of in Hw. rewrite Hj in Hw. congruence. }
  split_and!; [done|..].
  - intros now time random m Hw. destruct (process_instruction_challenge _ _ _ _ _ _) as [o r'] eqn:Hr.
    apply challenge_inv in Hr as [(-> & -> & _)|(u & parsed & _ & Hc & _)]; [done|by apply Hno in Hc].
  - intros clock uuids rnd key i Hw. destruct (handle_instruction _ _ _ _ _ _ _ _ _) as [o r'] eqn:Hr.
    apply handle_inv in Hr as [(-> & -> & _)|(u & Hc & _)]; [done|by apply Hno in Hc|exact _].
Qed.

(** ** Accepted instructions *)
Section Accepted.
Context {I R : Type} `{!HandleInstruction I R, !HandleFrame I R, !SignedJson I, !JwtLib (InstructionResultClaims R)}.

Lemma accepted_instruction clock uuids rnd key i r res r' :
  handle_instruction (I:=I) (R:=R) prof srv clock uuids rnd policy key i r = (Ok res, r') →
  ∃ u p v, certified srv (c_jwt clock) (instruction_certificate i) (tables r) u ∧
    checked srv (c_verify clock) i u (Ok p) ∧
    pin_evaluation prof policy u (c_eval clock) = Ok v ∧ is_in_timeout v = false ∧
    keeps_users (accepted (wu_wallet_id u) (sequence_number p) (tables r)) (tables r').
Proof.
  intros Hr. apply handle_inv in Hr as [(_ & [=] & _)|(u & Hc & Hh)]; [|exact _].
  inversion Hh as [o' Ho _ _|v o' _ _ Ho|v ae e' _ _ _ _|v p o' t' Hv Hit Hch Hk _]; subst.
  - done.
  - by destruct (error_of_evaluation v).
  - by exists u, p, v.
Qed.

Lemma accepted_row wid n t t' row : keeps_users (accepted wid n t) t' → users t !! wid = Some row →
  users t' !! wid = Some (accept_instruction n row) ∧ challenges t' = delete (row_id row) (challenges t).
Proof.
  intros [Hu Hc] Hrow. rewrite Hu, Hc. unfold accepted, cleared. rewrite Hrow. simpl.
  by rewrite alter_alter_eq, lookup_alter_eq, Hrow.
Qed.

(** C10. An instruction is carried out only for a wallet that is registered and not
    blocked, when the policy does not make the wallet wait, and when the
    instruction is signed by the hardware key of the wallet over a message that
    is signed by its PIN key, over a payload that has the challenge that is
    pending for the wallet and has not expired, and a sequence number
    larger than any before.  Afterwards the wrong PINs are forgotten, the sequence
    number is on record and the challenge cannot be used again; no other
    user's row and no other challenge has changed. *)
Theorem accepted_instruction_authentic clock uuids rnd key i r res r'
    (Hr : handle_instruction (I:=I) (R:=R) prof srv clock uuids rnd policy key i r = (Ok res, r')) :
  ∃ wid row hw pin c n outer inner v,
    wallet_of (c_jwt clock) (instruction_certificate i) = Some wid ∧
    users (tables r) !! wid = Some row ∧ row_is_blocked row = false ∧
    next_attempt row (c_eval clock) = Ok v ∧ is_in_timeout v = false ∧
    from_public_key_der (hw_pubkey_der row) = Some hw ∧
    hsm_decrypt (encryption_key_identifier srv) (mkEncrypted (encrypted_pin_pubkey_sec1 row) (pin_pubkey_iv row)) = Some pin ∧
    challenges (tables r) !! row_id row = Some c ∧ c_verify clock ≤ expiration_date_time c ∧
    message_from_str (T:=I) (instruction i) = Some outer ∧ ecdsa_verify hw (signed outer) (sm_signature outer) = true ∧
    message_from_str (T:=I) (signed outer) = Some inner ∧ ecdsa_verify pin (signed inner) (sm_signature inner) = true ∧
    raw_payload_from_str (T:=I) (signed inner) = Some (ic_bytes c, n) ∧ row_sequence_number row < n ∧
    users (tables r') = <[wid := accept_instruction n row]> (users (tables r)) ∧
    challenges (tables r') = delete (row_id row) (challenges (tables r)).
Proof.
  apply accepted_instruction in Hr as (u & p & v & (claims & row & Hj & Hw & Hrow & Hb & Hu & _) & Hch & Hv & Hit & Hk).
  pose proof (checked_larger _ _ _ _ Hch) as Hlt. destruct Hch as (c & pin & Hc & Hexp & Hpin & Hp).
  apply parse_and_verify_Ok in Hp as (Hpc & _ & outer & inner & Ho & Hi & Hso & _ & Hsi & _ & Hraw).
  pose proof (user_of_row_fields _ _ _ _ Hu) as (Hn & Hcu & Hev & Hhw & Hep). rewrite Hep in Hpin. rewrite Hw in *.
  exists (wc_wallet_id claims), row, (hw_pubkey u), pin, c, (sequence_number p), outer, inner, v.
  split_and!; try done; try congruence.
  - unfold wallet_of. by rewrite Hj.
  - destruct Hk as [-> _]. unfold accepted. simpl. rewrite cleared_users, alter_alter_eq. apply map_eq. intros w.
    rewrite lookup_alter, lookup_insert. case_decide; [|done]. subst. by rewrite Hrow.
  - by eapply accepted_row.
Qed.

(** C12. Instructions are not replayed: of two instructions that are carried out
    for one wallet, the second one begun after the first one has ended and with any
    requests in between, the later one has the larger sequence number, so they are
    different texts.  Two copies of one text that both load the user before either
    of them writes are both carried out. *)
Theorem no_replay wid clock1 uuids1 rnd1 key1 i1 r1 res1 r1' clock2 uuids2 rnd2 key2 i2 r2 res2 r2'
    (Hr1 : handle_instruction (I:=I) (R:=R) prof srv clock1 uuids1 rnd1 policy key1 i1 r1 = (Ok res1, r1'))
    (Hrun : rtc astep (tables r1') (tables r2))
    (Hr2 : handle_instruction (I:=I) (R:=R) prof srv clock2 uuids2 rnd2 policy key2 i2 r2 = (Ok res2, r2'))
    (Hw1 : wallet_of (c_jwt clock1) (instruction_certificate i1) = Some wid)
    (Hw2 : wallet_of (c_jwt clock2) (instruction_certificate i2) = Some wid) :
  ∃ p1 p2, double_from_str (T:=I) (instruction i1) = Some p1 ∧ double_from_str (T:=I) (instruction i2) = Some p2 ∧
    sequence_number p1 < sequence_number p2 ∧ instruction i1 ≠ instruction i2.
Proof.
  apply accepted_instruction in Hr1 as (u1 & p1 & v1 & (claims1 & row1 & Hj1 & Hid1 & Hrow1 & _) & Hch1 & _ & _ & Hk1).
  apply accepted_instruction in Hr2 as (u2 & p2 & v2 & (claims2 & row2 & Hj2 & Hid2 & Hrow2 & _ & Hu2 & _) & Hch2 & _ & _ & _).
  unfold wallet_of in Hw1, Hw2. rewrite Hj1 in Hw1. rewrite Hj2 in Hw2. injection Hw1 as Hw1. injection Hw2 as Hw2.
  destruct (accepted_row _ _ _ _ _ Hk1 Hrow1) as [Hrow1' _].
  destruct (run_sequence_number _ _ _ _ Hrun Hrow1') as (row2' & Hrow2' & Hle). simpl in Hle.
  assert (row2' = row2) as -> by congruence. apply user_of_row_fields in Hu2 as (Hn2 & _).
  pose proof (checked_larger _ _ _ _ Hch2) as Hlt. apply checked_text in Hch1, Hch2. exists p1, p2.
  split_and!; [done..|lia|]. intros Heq. rewrite Heq, Hch2 in Hch1. injection Hch1 as <-. lia.
Qed.

(** The block depends on requests being handled one after the other.  A
    handler loads the user in a transaction of its own and writes whether the
    user is blocked from what it loaded: when a request that was loaded
    before the block is processed after it, and answered that the PIN was
    incorrect or carried out, the wallet is no longer blocked, whatever its
    count of wrong PINs. *)
Theorem overlapping_instruction_lifts_block clock uuids rnd key i u r o r' row
    (Hr : process_instruction (I:=I) (R:=R) prof srv clock uuids rnd policy key i u r = (o, r'))
    (Hrow : users (tables r) !! wu_wallet_id u = Some row) (Hb : row_is_blocked row = true)
    (Ho : is_ok o = true ∨ ∃ d, o = Err (IncorrectPin d)) :
  ∃ row', users (tables r') !! wu_wallet_id u = Some row' ∧ row_is_blocked row' = false.
Proof.
  apply process_inv in Hr; [|exact _].
  inversion Hr as [o' Hk Hp _|v o' _ Hit Ho'|v ae e' _ _ _ He|v p o' t' _ _ _ Hk _]; subst.
  - destruct Ho as [Ho|[d ->]]; [congruence|done].
  - destruct v; try done. destruct Ho as [Ho|[d Ho]]; simpl in Ho; unfold never in Ho; destruct (rust_assert _); simpl in Ho; done.
  - destruct Ho as [[=]|[d [= ->]]]. destruct v; simpl in He; run_ok He; try done.
    unfold wrong_pin. simpl. rewrite lookup_alter_eq, cleared_users, Hrow. simpl. by eexists.
  - apply (accepted_row _ _ _ _ row) in Hk as [Hu _]; [|done]. by eexists.
Qed.
End Accepted.
End Runs.
