(* ===== verification/AccountServerFlow.v ===== *)
(** * An honest wallet at the account server

    When no call to the database or the HSM fails, a wallet can register,
    request a challenge and have an instruction carried out. *)
From stdpp Require Import base gmap strings list option.
From Stdlib Require Import ZArith Lia.
From S2P Require Import Prelude IndexMap Crypto Jose PinPolicy OpenId4vp Signed WalletUsers AccountServer WalletUserFacts AccountServerFacts.
From S2P Require Import AccountServerRuns.

(** A world with the tables [t] in which nothing fails. *)
Definition world (t : Tables) : World := Remote {| committed := t; transactions := [] |} [].

(** The validation options of [parse_and_verify_with_sub]. *)
Definition validations_with_sub : Validation := {|
  algorithms := algorithms validations; required_spec_claims := "sub" :: required_spec_claims validations;
  leeway := leeway validations; validate_exp := validate_exp validations; iss := iss validations; aud := aud validations
|}.

Section Flow.
Context `{!Ecdsa, !Storage, !Hsm, !JwtLib WalletCertificateClaims, !JwtLib RegistrationChallengeClaims}.
Context `{!JwtLib InstructionChallengeRequestClaims, !SignedJson Registration}.
Variable prof : profile.
Variable srv : AccountServer.
Variable signing_key : SigningKey.
Hypothesis Hkey : certificate_signing_pubkey srv = verifying_key signing_key.

Lemma sub_verifies {C} `{!JwtLib C} now (claims : C) key jwt :
  Jwt_sign claims header_with_kid key = Ok jwt → claims_valid now validations_with_sub claims = true →
  Jwt_parse_and_verify_with_sub now jwt (verifying_key key) = Ok claims.
Proof.
  intros Hs Hv. unfold Jwt_parse_and_verify_with_sub, Jwt_parse_and_verify. fold validations_with_sub.
  rewrite (Jwt_sign_verify _ _ _ _ _ _ Hs); [done|by left|done].
Qed.

(** The keys of a wallet, and what the account server keeps of them. *)
Record wallet_keys (hw pin : SigningKey) (der pin_der hash : string) (enc : Encrypted) : Prop := {
  keys_der : to_public_key_der (verifying_key hw) = Some der;
  keys_pin_der : to_public_key_der (verifying_key pin) = Some pin_der;
  keys_hash : hsm_sign_hmac (pin_public_disclosure_protection_key_identifier srv) pin_der = Some hash;
  keys_encrypted : hsm_encrypt (encryption_key_identifier srv) (verifying_key pin) = Some enc
}.
Definition certificate_claims (now : Z) (wid : WalletId) (hw : SigningKey) (hash : string) : WalletCertificateClaims := {|
  wc_wallet_id := wid; wc_hw_pubkey := verifying_key hw; wc_pin_pubkey_hash := hash;
  wc_version := WALLET_CERTIFICATE_VERSION; wc_iss := name srv; wc_iat := now
|}.

Lemma new_certificate_succeeds now wid cert hw pin der pin_der hash enc d :
  wallet_keys hw pin der pin_der hash enc →
  Jwt_sign (certificate_claims now wid hw hash) header_with_kid signing_key = Ok cert →
  new_wallet_certificate srv now signing_key wid (verifying_key hw) (verifying_key pin) (Remote d []) = (Ok cert, Remote d []).
Proof.
  intros [Hder Hpd Hh Henc] Hc. unfold certificate_claims in Hc. unfold new_wallet_certificate, sign_pin_pubkey, sbind, st_map_err, sbind, st_lift.
  rewrite Hpd. simpl. rewrite Hh. simpl. unfold sign_with_sub, sbind, st_lift. simpl. by rewrite Hc.
Qed.

Lemma register_succeeds now uuid wid exp random c msg cert hw pin der pin_der hash enc t :
  wallet_keys hw pin der pin_der hash enc →
  Jwt_sign (mkRegistrationChallenge wid exp random) header_with_kid signing_key = Ok c →
  claims_valid now validations_with_sub (mkRegistrationChallenge wid exp random) = true → string_from_utf8 c = Some c →
  Registration_new_signed hw pin c = Ok msg →
  Jwt_sign (certificate_claims now wid hw hash) header_with_kid signing_key = Ok cert →
  users t !! wid = None → map_Forall (λ _ row, row_id row ≠ uuid) (users t) →
  register srv now uuid signing_key msg (world t) = (Ok cert, world (registered wid (new_row uuid der enc) t)).
Proof.
  intros [Hder Hpd Hh Henc] Hc Hcv Hutf Hm Hcert Hn Hid. unfold Registration_new_signed in Hm.
  pose proof (signed_double_verifies _ _ _ (EqualTo 0) _ _ _ Hm eq_refl) as Hp.
  pose proof Hp as Hp'. unfold SignedDouble_parse_and_verify in Hp'. run_ok Hp'.
  unfold register, scoped. erewrite run_lift by (rewrite Hp'; done).
  erewrite run_lift by (unfold verify_registration_challenge; simpl; rewrite Hutf; simpl; rewrite Hkey, (sub_verifies _ _ _ _ Hc Hcv); done).
  erewrite run_lift by (simpl; rewrite Hp; done). cbn [Signed.payload reg_hw_pubkey reg_pin_pubkey rc_wallet_id].
  unfold world at 1. rewrite (run_hsm _ _ _ _ _ Henc), run_begin. unfold create_wallet_user. rewrite bind_map_err_bind.
  erewrite run_map_err_lift by (simpl; rewrite Hder; done).
  erewrite run_statement by (simpl; rewrite Hn, decide_False; [done|];
    intros (w & row & Hw & Hrow); by apply Hid in Hw).
  unfold sbind at 1. erewrite new_certificate_succeeds; done.
Qed.

(** The row of a wallet that registered with these keys. *)
Record row_of_keys (row : UserRow) (der : string) (enc : Encrypted) : Prop := {
  rok_der : hw_pubkey_der row = der;
  rok_pin : mkEncrypted (encrypted_pin_pubkey_sec1 row) (pin_pubkey_iv row) = enc;
  rok_sequence_number : 0 ≤ row_sequence_number row;
  rok_blocked : row_is_blocked row = false
}.

Lemma user_of_keys wid row c hw pin der pin_der hash enc :
  wallet_keys hw pin der pin_der hash enc → row_of_keys row der enc →
  ∃ u, user_of_row wid row c = Ok u ∧ hw_pubkey u = verifying_key hw ∧ encrypted_pin_pubkey u = enc.
Proof.
  intros Hk [Hd He Hs _]. eexists. unfold user_of_row. rewrite Hd. erewrite public_key_der_round_trip by apply Hk. simpl.
  rewrite (proj2 (Z.leb_le _ _)) by done. simpl. done.
Qed.

Lemma certificate_succeeds now now0 cert wid row u hw pin der pin_der hash enc d :
  wallet_keys hw pin der pin_der hash enc → row_of_keys row der enc →
  Jwt_sign (certificate_claims now0 wid hw hash) header_with_kid signing_key = Ok cert →
  claims_valid now validations_with_sub (certificate_claims now0 wid hw hash) = true →
  users (committed d) !! wid = Some row → user_of_row wid row (challenges (committed d) !! row_id row) = Ok u →
  hw_pubkey u = verifying_key hw → encrypted_pin_pubkey u = enc →
  verify_wallet_certificate srv now cert (Remote d []) = (Ok u, Remote d []).
Proof.
  intros [Hder Hpd Hh Henc] [_ _ _ Hb] Hcert Hcv Hrow Hu Huw Hue. unfold verify_wallet_certificate, scoped.
  erewrite run_lift by (rewrite Hkey, (sub_verifies _ _ _ _ Hcert Hcv); done). rewrite run_begin.
  unfold find_wallet_user_by_wallet_id. erewrite run_statement by (simpl; rewrite Hrow, Hb, Hu; done).
  rewrite run_commit. erewrite run_hsm by (rewrite Hue; by apply hsm_decrypt_encrypt).
  unfold sbind, st_catch, verify_pin_pubkey, sbind. rewrite Hpd. simpl. rewrite (hsm_hmac_correct _ _ _ Hh). simpl.
  rewrite decide_True by done. by destruct d.
Qed.

Lemma challenge_succeeds now now0 now1 time random n issuer msg cert wid row hw pin der pin_der hash enc t :
  wallet_keys hw pin der pin_der hash enc → row_of_keys row der enc →
  Jwt_sign (certificate_claims now0 wid hw hash) header_with_kid signing_key = Ok cert →
  claims_valid now validations_with_sub (certificate_claims now0 wid hw hash) = true →
  InstructionChallengeRequest_new_signed now1 n issuer hw = Ok msg →
  claims_valid now validations_with_sub (mkChallengeRequest n issuer now1) = true →
  users t !! wid = Some row → row_sequence_number row < n → store_sequence_number n = Ok n →
  process_instruction_challenge srv now time random (mkChallengeMessage msg cert) (world t) =
    (Ok random, world (challenged wid (mkInstructionChallenge random (time + instruction_challenge_timeout srv)) n t)).
Proof.
  intros Hk Hrk Hcert Hcv Hm Hmv Hrow Hlt Hst.
  destruct (user_of_keys wid row (challenges t !! row_id row) _ _ _ _ _ _ Hk Hrk) as (u & Hu & Huw & Hue).
  unfold process_instruction_challenge, scoped, world at 1. rewrite run_begin.
  unfold sbind at 1, st_map_err at 1. erewrite certificate_succeeds; [|done..]. simpl.
  unfold InstructionChallengeRequest_new_signed in Hm. run_ok Hm.
  erewrite run_lift by (rewrite Huw, (sub_verifies _ _ _ _ Hm Hmv); done). simpl.
  pose proof (user_of_row_id _ _ _ _ Hu) as ->.
  assert (instruction_sequence_number u = row_sequence_number row) as -> by (unfold user_of_row in Hu; by run_ok Hu).
  rewrite (proj2 (Z.leb_gt _ _)) by done. unfold update_instruction_challenge_and_sequence_number. rewrite bind_map_err_bind.
  unfold update_instruction_sequence_number. erewrite run_statement by (rewrite Hst; done).
  erewrite run_statement by done. rewrite run_commit. simpl. done.
Qed.

(** A wrong PIN is counted and answered with what the policy says. *)
Lemma wrong_pin_answered {P} `{!PinPolicyEvaluator P} {I R} `{!HandleInstruction I R, !SignedJson I, !JwtLib (InstructionResultClaims R)}
    clock uuids rnd (policy : P) i u ae v e t ts :
  checked srv (I:=I) (c_verify clock) i u (Err ae) →
  pin_evaluation prof policy u (c_eval clock) = Ok v → is_in_timeout v = false → error_of_evaluation v = Ok e →
  process_instruction (I:=I) (R:=R) prof srv clock uuids rnd policy signing_key i u (Remote {| committed := t; transactions := ts |} []) =
    (Err e, Remote {| committed := wrong_pin (wu_wallet_id u) (is_blocking v) (c_register clock) t; transactions := ts |} []).
Proof.
  intros (c & pin & Hc & Hexp & Hpin & Hp) Hv Hit He. unfold process_instruction. rewrite run_begin.
  unfold clear_instruction_challenge. erewrite run_statement by done. unfold pin_evaluation in Hv. run_ok Hv.
  erewrite run_lift by (unfold never; rewrite Hrun; done). erewrite run_lift by exact (f_equal never Hv).
  fold (is_in_timeout v). rewrite Hit. unfold sbind at 1, st_catch, verify_instruction.
  erewrite run_lift by (rewrite Hc; done). erewrite run_lift by (rewrite (proj2 (Z.ltb_ge _ _)) by done; done).
  erewrite run_hsm by done. unfold st_lift at 1. rewrite Hp. simpl. fold (is_blocking v).
  unfold register_unsuccessful_pin_entry. erewrite run_statement by done.
  erewrite run_lift by exact (f_equal never He). by rewrite run_commit.
Qed.

Section CheckPin.
Context `{!SignedJson CheckPin, !JwtLib (InstructionResultClaims unit)}.
Variable policy : PinPolicy.
#[local] Hint Extern 0 (PinPolicyEvaluator PinPolicy) => exact (the_policy prof) : typeclass_instances.

Lemma verify_instruction_succeeds (i : Instruction) time n hw pin der pin_der hash enc c u d :
  wallet_keys hw pin der pin_der hash enc → hw_pubkey u = verifying_key hw → encrypted_pin_pubkey u = enc →
  WalletUsers.instruction_challenge u = Some c → time ≤ expiration_date_time c → instruction_sequence_number u < n →
  SignedDouble_sign mkCheckPin (ic_bytes c) n hw pin = Ok (instruction i) →
  verify_instruction (I:=CheckPin) srv time i u (Remote d []) = (Ok (mkChallengeResponse mkCheckPin (ic_bytes c) n), Remote d []).
Proof.
  intros Hk Huw Hue Hc Hexp Hlt Hs. unfold verify_instruction. erewrite run_lift by (rewrite Hc; done).
  erewrite run_lift by (rewrite (proj2 (Z.ltb_ge _ _)) by done; done).
  erewrite run_hsm by (rewrite Hue; eapply hsm_decrypt_encrypt, Hk).
  unfold st_lift. rewrite Huw, (signed_double_verifies _ _ _ _ _ _ _ Hs); [done|]. by apply Z.ltb_lt.
Qed.

Lemma check_pin_succeeds clock uuids rnd now0 n cert i c wid row hw pin der pin_der hash enc t v result :
  wallet_keys hw pin der pin_der hash enc → row_of_keys row der enc →
  Jwt_sign (certificate_claims now0 wid hw hash) header_with_kid signing_key = Ok cert →
  claims_valid (c_jwt clock) validations_with_sub (certificate_claims now0 wid hw hash) = true →
  users t !! wid = Some row → challenges t !! row_id row = Some c → c_verify clock ≤ expiration_date_time c →
  next_attempt prof policy row (c_eval clock) = Ok v → is_in_timeout v = false →
  Instruction_new_signed (mkCheckPin) n hw pin (ic_bytes c) cert = Ok i → row_sequence_number row < n → store_sequence_number n = Ok n →
  Jwt_sign {| ir_result := tt; ir_iss := name srv; ir_iat := c_jwt clock |} header_with_kid signing_key = Ok result →
  handle_instruction (I:=CheckPin) (R:=unit) prof srv clock uuids rnd policy signing_key i (world t) =
    (Ok result, world (accepted wid n t)).
Proof.
  intros Hk Hrk Hcert Hcv Hrow Hc Hexp Hv Hit Hi Hlt Hst Hres.
  destruct (user_of_keys wid row (challenges t !! row_id row) _ _ _ _ _ _ Hk Hrk) as (u & Hu & Huw & Hue).
  pose proof (user_of_row_id _ _ _ _ Hu) as Hid.
  pose proof (user_of_row_fields prof policy _ _ _ _ Hu) as (Hsn & Hcu & Hev & _).
  unfold Instruction_new_signed in Hi. run_ok Hi.
  unfold handle_instruction, scoped, world at 1. unfold sbind at 1, st_map_err at 1. simpl.
  erewrite certificate_succeeds; [|done..]. simpl. unfold process_instruction. rewrite run_begin.
  unfold clear_instruction_challenge. erewrite run_statement by done.
  rewrite <-Hev in Hv. unfold pin_evaluation in Hv. run_ok Hv.
  erewrite run_lift by (unfold never; rewrite Hrun0; done). erewrite run_lift by exact (f_equal never Hv).
  fold (is_in_timeout v). rewrite Hit.
  unfold sbind at 1, st_catch. rewrite Hc in Hcu. rewrite <-Hsn in Hlt. erewrite verify_instruction_succeeds; [|done..]. simpl.
  unfold reset_unsuccessful_pin_entries. erewrite run_statement by done.
  unfold update_instruction_sequence_number. erewrite run_statement by (rewrite Hst; done). rewrite run_commit.
  unfold sbind. simpl. unfold sign_instruction_result, sign_with_sub, st_map_err, sbind, st_lift. simpl. by rewrite Hres.
Qed.

(** On the first attempt of a wallet the policy never makes it wait. *)
Lemma first_attempt row now : wf policy → pin_entries row = 0 → last_unsuccessful_pin row = None →
  ∃ v, next_attempt prof policy row now = Ok v ∧ is_in_timeout v = false.
Proof.
  intros Hwf He Hl. unfold next_attempt. rewrite He, Hl. simpl.
  rewrite policy_evaluate_spec by done. eexists. split; [done|]. unfold spec_evaluate. by case_decide.
Qed.

End CheckPin.
End Flow.
