(* ===== verification/AccountServerWitness.v ===== *)
(** * An account server with one wallet

    Concrete instances of the interfaces of the account server, and the
    theorems about it at a wallet that registers, checks its PIN, and mistypes it. *)
From stdpp Require Import base gmap strings list option countable relations.
From Stdlib Require Import ZArith Lia.
From S2P Require Import Prelude IndexMap Crypto Jose PinPolicy OpenId4vp Signed WalletUsers AccountServer WalletUserFacts AccountServerFacts.
From S2P Require Import AccountServerRuns AccountServerFlow Concrete.
Import Crates.

#[export] Instance storage : Storage.
Proof.
  refine {|
    to_public_key_der k := Some (k : string);
    from_public_key_der d := Some (d : VerifyingKey);
    store_sequence_number n := if decide (n < 2 ^ 31) then Ok n else Err Execution;
    store_instant t := t / 1000 * 1000;
    insert_no_rows := Ok tt
  |}.
  - by intros k d [= ->].
  - intros n Hn. by rewrite decide_True by lia.
  - intros n m. case_decide; [|done]. by intros [= <-].
Defined.

#[export] Instance hsm : Hsm.
Proof.
  refine {|
    hsm_encrypt id k := Some (mkEncrypted (k : string) id);
    hsm_decrypt id e := if decide (enc_iv e = id) then Some (enc_data e : VerifyingKey) else None;
    hsm_sign_hmac id m := Some (to_bytes (id, checksum m));
    hsm_verify_hmac id m s := bool_decide (s = to_bytes (id, checksum m));
    hsm_sign_wrapped k m := Some ((k : string), checksum m);
    hsm_generate_wrapped_key s := Some ((s : VerifyingKey), s)
  |}.
  - intros id k e [= <-]. simpl. by rewrite decide_True.
  - intros id m s [= <-]. by apply bool_decide_eq_true.
Defined.

#[export] Instance SignedType_countable : Countable SignedType.
Proof. refine (inj_countable' (λ t, match t with Pin => true | HW => false end) (λ b : bool, if b then Pin else HW) _). by intros []. Defined.

Definition read_message (s : string) : option SignedMessage :=
  (λ m : string * (string * N) * SignedType, mkSignedMessage _ m.1.1 (m.1.2 : Signature) m.2) <$> of_bytes s.
Definition write_message (m : SignedMessage) : string := to_bytes (signed m, (sm_signature m : string * N), sm_typ m).
Lemma read_write_message m : read_message (write_message m) = Some m.
Proof. unfold read_message, write_message. rewrite of_to_bytes. by destruct m. Qed.
Definition read_payload {T} `{Countable T} (s : string) : option (ChallengeResponsePayload T) :=
  (λ p : T * string * Z, mkChallengeResponse p.1.1 p.1.2 p.2) <$> of_bytes s.

#[export] Instance signed_json T `{Countable T} : SignedJson T.
Proof.
  refine {|
    message_to_string m := Some (write_message m);
    message_from_str := read_message;
    raw_payload_from_str s := (λ p : ChallengeResponsePayload T, (challenge p, sequence_number p)) <$> read_payload s;
    payload_to_string p := Some (to_bytes (Signed.payload p, challenge p, sequence_number p));
    double_from_str s := outer ← read_message s; inner ← read_message (signed outer); read_payload (signed inner)
  |}.
  - intros m s [= <-]. apply read_write_message.
  - intros p s m1 s1 m2 s2 [= <-] Hm1 [= <-] Hm2 [= <-]. rewrite read_write_message. simpl. rewrite Hm2, read_write_message. simpl.
    rewrite Hm1. unfold read_payload. rewrite of_to_bytes. by destruct p.
  - intros s p outer inner Hd Ho Hi. rewrite Ho in Hd. simpl in Hd. rewrite Hi in Hd. simpl in Hd. by rewrite Hd.
  - intros p s [= <-]. unfold read_payload. by rewrite of_to_bytes.
Defined.

(** ** Claims as tokens *)
#[export] Instance Registration_eq_dec : EqDecision Registration.
Proof. refine (λ a b, cast_if (decide ((reg_pin_pubkey a : string, reg_hw_pubkey a : string) = (reg_pin_pubkey b, reg_hw_pubkey b)))); destruct a, b; naive_solver. Defined.
#[export] Instance Registration_countable : Countable Registration.
Proof.
  refine (inj_countable' (λ p, (reg_pin_pubkey p : string, reg_hw_pubkey p : string)) (λ p, mkRegistration _ (p.1 : VerifyingKey) (p.2 : VerifyingKey)) _).
  by intros [].
Defined.
#[export] Instance CheckPin_eq_dec : EqDecision CheckPin.
Proof. solve_decision. Defined.
#[export] Instance CheckPin_countable : Countable CheckPin.
Proof. refine (inj_countable' (λ _, tt) (λ _, mkCheckPin) _). by intros []. Defined.
#[export] Instance RegistrationChallengeClaims_eq_dec : EqDecision RegistrationChallengeClaims.
Proof. solve_decision. Defined.
#[export] Instance RegistrationChallengeClaims_countable : Countable RegistrationChallengeClaims.
Proof.
  refine (inj_countable' (λ c, (rc_wallet_id c, rc_exp c, rc_random c)) (λ c, mkRegistrationChallenge c.1.1 c.1.2 c.2) _).
  by intros [].
Defined.
#[export] Instance WalletCertificateClaims_eq_dec : EqDecision WalletCertificateClaims.
Proof.
  refine (λ a b, cast_if (decide ((wc_wallet_id a, wc_hw_pubkey a : string, wc_pin_pubkey_hash a, wc_version a, wc_iss a, wc_iat a) =
    (wc_wallet_id b, wc_hw_pubkey b : string, wc_pin_pubkey_hash b, wc_version b, wc_iss b, wc_iat b)))); destruct a, b; naive_solver.
Defined.
#[export] Instance WalletCertificateClaims_countable : Countable WalletCertificateClaims.
Proof.
  refine (inj_countable' (λ c, (wc_wallet_id c, wc_hw_pubkey c : string, wc_pin_pubkey_hash c, wc_version c, wc_iss c, wc_iat c))
    (λ c, mkWalletCertificate _ c.1.1.1.1.1 (c.1.1.1.1.2 : VerifyingKey) c.1.1.1.2 c.1.1.2 c.1.2 c.2) _).
  by intros [].
Defined.
#[export] Instance InstructionChallengeRequestClaims_eq_dec : EqDecision InstructionChallengeRequestClaims.
Proof. solve_decision. Defined.
#[export] Instance InstructionChallengeRequestClaims_countable : Countable InstructionChallengeRequestClaims.
Proof.
  refine (inj_countable' (λ c, (icr_sequence_number c, icr_iss c, icr_iat c)) (λ c, mkChallengeRequest c.1.1 c.1.2 c.2) _).
  by intros [].
Defined.
#[export] Instance InstructionResultClaims_eq_dec : EqDecision (InstructionResultClaims unit).
Proof. solve_decision. Defined.
#[export] Instance InstructionResultClaims_countable : Countable (InstructionResultClaims unit).
Proof.
  refine (inj_countable' (λ c, (ir_result c, ir_iss c, ir_iat c)) (λ c, mkResultClaims c.1.1 c.1.2 c.2) _).
  by intros [].
Defined.

(** ** The wallet and its messages

    Texts are compared by how they are made, never by their characters. *)
Opaque to_bytes to_digits.
(** Instants in nanoseconds. *)
Definition at_second (s : Z) : Z := s * 1000000000.
Definition ex_server_key : SigningKey := ("server" : string).
Definition ex_srv : AccountServer := mkAccountServer _ (at_second 15) "wp" (verifying_key ex_server_key) "enc" "hmac".
Definition ex_hw : SigningKey := ("hw" : string).
Definition ex_pin : SigningKey := ("pin" : string).
Definition ex_wrong_pin : SigningKey := ("nip" : string).
Definition ex_hash : string := to_bytes ("hmac", checksum "pin").
Definition ex_encrypted : Encrypted := mkEncrypted "pin" "enc".
Lemma ex_keys : wallet_keys ex_srv ex_hw ex_pin "hw" "pin" ex_hash ex_encrypted.
Proof. by split. Qed.

Definition ok_value {E} (o : outcome E string) : string := match o with Ok s => s | _ => "" end.
Definition ex_challenge : string := ok_value (Jwt_sign (mkRegistrationChallenge "w" 160 "r") header_with_kid ex_server_key).
Definition ex_registration : string := ok_value (Registration_new_signed ex_hw ex_pin ex_challenge).
Definition ex_certificate : string := ok_value (Jwt_sign (certificate_claims ex_srv 110 "w" ex_hw ex_hash) header_with_kid ex_server_key).
Definition ex_request (n : Z) : string := ok_value (InstructionChallengeRequest_new_signed 120 n "wallet" ex_hw).
Definition ex_instruction (pin : SigningKey) (n : Z) (bytes : string) : Instruction :=
  mkInstruction (ok_value (SignedDouble_sign mkCheckPin bytes n ex_hw pin)) ex_certificate.
Definition ex_clock (s : Z) : Clock := mkClock s (at_second s) (at_second s) (at_second s).
Definition ex_result (s : Z) : string :=
  ok_value (Jwt_sign {| ir_result := tt; ir_iss := "wp"; ir_iat := s |} header_with_kid ex_server_key).
Definition ex_uuids (n : Z) : Uuid := "uuid".
Definition ex_rnd (n : Z) : string := "random".

Definition t0 : Tables := no_tables.
Definition t1 : Tables := registered "w" (new_row "u" "hw" ex_encrypted) t0.
Definition ex_pending (bytes : string) (s : Z) : InstructionChallenge := mkInstructionChallenge bytes (at_second s + at_second 15).
Definition t2 : Tables := challenged "w" (ex_pending "b1" 120) 1 t1.
Definition t3 : Tables := accepted "w" 2 t2.
Definition t4 : Tables := challenged "w" (ex_pending "b2" 140) 3 t3.
Definition t5 : Tables := accepted "w" 4 t4.

Lemma ok_value_ok {E} (o : outcome E string) : is_ok o = true → o = Ok (ok_value o).
Proof. by destruct o. Qed.
Lemma ex_challenge_ok : Jwt_sign (mkRegistrationChallenge "w" (100 + 60) "r") header_with_kid ex_server_key = Ok ex_challenge.
Proof. unfold ex_challenge. apply ok_value_ok. reflexivity. Qed.
Lemma ex_challenge_utf8 : string_from_utf8 ex_challenge = Some ex_challenge.
Proof. vm_compute. reflexivity. Qed.
Lemma ex_registration_ok : Registration_new_signed ex_hw ex_pin ex_challenge = Ok ex_registration.
Proof. unfold ex_registration. apply ok_value_ok. reflexivity. Qed.
Lemma ex_certificate_ok : Jwt_sign (certificate_claims ex_srv 110 "w" ex_hw ex_hash) header_with_kid ex_server_key = Ok ex_certificate.
Proof. unfold ex_certificate. apply ok_value_ok. reflexivity. Qed.
Lemma ex_request_ok n : InstructionChallengeRequest_new_signed 120 n "wallet" ex_hw = Ok (ex_request n).
Proof. unfold ex_request. apply ok_value_ok. reflexivity. Qed.
Lemma ex_instruction_ok pin n bytes : Instruction_new_signed mkCheckPin n ex_hw pin bytes ex_certificate = Ok (ex_instruction pin n bytes).
Proof. unfold Instruction_new_signed, ex_instruction. rewrite (ok_value_ok (SignedDouble_sign mkCheckPin bytes n ex_hw pin)) by reflexivity. reflexivity. Qed.
Lemma ex_result_ok s : Jwt_sign {| ir_result := tt; ir_iss := name ex_srv; ir_iat := s |} header_with_kid ex_server_key = Ok (ex_result s).
Proof. unfold ex_result. apply ok_value_ok. reflexivity. Qed.


(** ** Steps of the wallet *)
Abbreviation ex_astep := (astep Debug ex_srv default_policy).
Definition ex_check (s : Z) (i : Instruction) (r : World) :=
  handle_instruction (I:=CheckPin) (R:=unit) (PinPolicyEvaluator0:=the_policy Debug) Debug ex_srv (ex_clock s) ex_uuids ex_rnd
    default_policy ex_server_key i r.

Lemma ex_registered : register ex_srv 110 "u" ex_server_key ex_registration (world t0) = (Ok ex_certificate, world t1).
Proof.
  apply (register_succeeds ex_srv ex_server_key eq_refl 110 "u" "w" 160 "r" ex_challenge ex_registration ex_certificate
    ex_hw ex_pin "hw" "pin" ex_hash ex_encrypted t0);
    [exact ex_keys|exact ex_challenge_ok|reflexivity|exact ex_challenge_utf8|exact ex_registration_ok|exact ex_certificate_ok|reflexivity|].
  apply map_Forall_empty.
Qed.

(** A round: a new challenge, then an instruction over it with the PIN of the wallet. *)
Lemma ex_challenged row n bytes s t : users t !! "w" = Some row → row_of_keys row "hw" ex_encrypted →
  row_sequence_number row < n → n < 2 ^ 31 →
  process_instruction_challenge ex_srv 120 (at_second s) bytes (mkChallengeMessage (ex_request n) ex_certificate) (world t) =
    (Ok bytes, world (challenged "w" (ex_pending bytes s) n t)).
Proof.
  intros Hrow Hk Hlt Hn. eapply (challenge_succeeds ex_srv ex_server_key eq_refl);
    [exact ex_keys|exact Hk|exact ex_certificate_ok|reflexivity|apply ex_request_ok|reflexivity|done|done|].
  simpl. by rewrite decide_True.
Qed.

Definition ex_row (n : Z) : UserRow := set_sequence_number n (new_row "u" "hw" ex_encrypted).
Lemma ex_row_keys n : 0 ≤ n → row_of_keys (ex_row n) "hw" ex_encrypted.
Proof. by split. Qed.
Lemma t1_row : users t1 !! "w" = Some (ex_row 0).
Proof. reflexivity. Qed.
Lemma t2_row : users t2 !! "w" = Some (ex_row 1).
Proof. reflexivity. Qed.
Lemma t3_row : users t3 !! "w" = Some (ex_row 2).
Proof. reflexivity. Qed.
Lemma t4_row : users t4 !! "w" = Some (ex_row 3).
Proof. reflexivity. Qed.

Lemma ex_checked n bytes s t c : 0 ≤ n → n + 1 < 2 ^ 31 → users t !! "w" = Some (ex_row n) → challenges t !! "u" = Some c →
  ic_bytes c = bytes → at_second s ≤ expiration_date_time c →
  ex_check s (ex_instruction ex_pin (n + 1) bytes) (world t) = (Ok (ex_result s), world (accepted "w" (n + 1) t)).
Proof.
  intros Hn Hn1 Hrow Hc Hb Hexp.
  destruct (first_attempt Debug default_policy (ex_row n) (at_second s) default_policy_wf) as (v & Hv & Hit); [done..|].
  eapply (check_pin_succeeds Debug ex_srv ex_server_key eq_refl default_policy (ex_clock s) ex_uuids ex_rnd 110 (n + 1) ex_certificate
    (ex_instruction ex_pin (n + 1) bytes) c "w" (ex_row n) ex_hw ex_pin "hw" "pin" ex_hash ex_encrypted t);
    [exact ex_keys|by apply ex_row_keys|exact ex_certificate_ok|reflexivity|exact Hrow|exact Hc|exact Hexp|exact Hv|exact Hit| |simpl; lia| |apply ex_result_ok].
  - rewrite Hb. apply ex_instruction_ok.
  - simpl. by rewrite decide_True.
Qed.

Lemma acc_step2 : prestep ex_srv t1 t2.
Proof. exact (step_challenge _ _ _ _ _ _ _ _ (ex_challenged (ex_row 0) 1 "b1" 120 t1 t1_row (ex_row_keys 0 ltac:(done)) ltac:(done) ltac:(done))). Qed.
Lemma ex_step4 : prestep ex_srv t3 t4.
Proof. exact (step_challenge _ _ _ _ _ _ _ _ (ex_challenged (ex_row 2) 3 "b2" 140 t3 t3_row (ex_row_keys 2 ltac:(done)) ltac:(done) ltac:(done))). Qed.
Lemma acc_run2 : rtc ex_astep t0 t2.
Proof.
  eapply rtc_l; [exact (step_pre _ _ _ _ _ (step_register _ _ _ _ _ _ _ _ ex_registered))|].
  apply rtc_once. exact (step_pre _ _ _ _ _ acc_step2).
Qed.
Lemma ex_checked1 : ex_check 130 (ex_instruction ex_pin 2 "b1") (world t2) = (Ok (ex_result 130), world t3).
Proof. exact (ex_checked 1 "b1" 130 t2 (ex_pending "b1" 120) ltac:(done) ltac:(done) t2_row eq_refl eq_refl ltac:(done)). Qed.
Lemma ex_checked2 : ex_check 150 (ex_instruction ex_pin 4 "b2") (world t4) = (Ok (ex_result 150), world t5).
Proof. exact (ex_checked 3 "b2" 150 t4 (ex_pending "b2" 140) ltac:(done) ltac:(done) t4_row eq_refl eq_refl ltac:(done)). Qed.
Lemma ex_wallet_of now : wallet_of ex_srv now ex_certificate = Some "w".
Proof. vm_compute. reflexivity. Qed.


Lemma accepted_instruction_authentic_witness : ∃ wid row c, wallet_of ex_srv 130 ex_certificate = Some wid ∧
  users t2 !! wid = Some row ∧ challenges t2 !! row_id row = Some c ∧ at_second 130 ≤ expiration_date_time c ∧
  users t3 = <[wid := accept_instruction 2 row]> (users t2).
Proof.
  destruct (accepted_instruction_authentic (I:=CheckPin) (R:=unit) Debug ex_srv default_policy (ex_clock 130) ex_uuids ex_rnd ex_server_key
    (ex_instruction ex_pin 2 "b1") (world t2) (ex_result 130) (world t3) ex_checked1)
    as (wid & row & hw & pin & c & n & outer & inner & v & Hw & Hrow & _ & _ & _ & _ & _ & Hc & Hexp & _).
  rewrite ex_wallet_of in Hw. injection Hw as <-. exists "w", row, c. change (users t2 !! "w" = Some row) in Hrow. rewrite t2_row in Hrow.
  injection Hrow as <-.
  split_and!; [apply ex_wallet_of|reflexivity|exact Hc|exact Hexp|reflexivity].
Defined.

Lemma no_replay_witness : instruction (ex_instruction ex_pin 2 "b1") ≠ instruction (ex_instruction ex_pin 4 "b2").
Proof.
  destruct (no_replay (I:=CheckPin) (R:=unit) Debug ex_srv default_policy "w"
    (ex_clock 130) ex_uuids ex_rnd ex_server_key (ex_instruction ex_pin 2 "b1") (world t2) (ex_result 130) (world t3)
    (ex_clock 150) ex_uuids ex_rnd ex_server_key (ex_instruction ex_pin 4 "b2") (world t4) (ex_result 150) (world t5)
    ex_checked1 (rtc_once _ _ (step_pre _ _ _ _ _ ex_step4)) ex_checked2 (ex_wallet_of 130) (ex_wallet_of 150))
    as (p1 & p2 & _ & _ & _ & Hne).
  exact Hne.
Defined.

(** ** Wrong PINs *)
Lemma ex_wrong_text : SignedDouble_parse_and_verify (T:=CheckPin) (instruction (ex_instruction ex_wrong_pin 2 "b1")) "b1" (LargerThan 1)
  ("hw" : VerifyingKey) ("pin" : VerifyingKey) = Err AEcdsa.
Proof. vm_compute. reflexivity. Qed.

Definition ex_user (row : UserRow) (c : option InstructionChallenge) : WalletUser := {|
  wu_id := row_id row; wu_wallet_id := "w"; encrypted_pin_pubkey := mkEncrypted (encrypted_pin_pubkey_sec1 row) (pin_pubkey_iv row);
  hw_pubkey := (hw_pubkey_der row : VerifyingKey); unsuccessful_pin_entries := pin_entries row;
  last_unsuccessful_pin_entry := last_unsuccessful_pin row; instruction_challenge := c;
  instruction_sequence_number := row_sequence_number row
|}.
Definition ex_wrong : Instruction := ex_instruction ex_wrong_pin 2 "b1".

Lemma ex_wrong_checked row : hw_pubkey_der row = "hw" → encrypted_pin_pubkey_sec1 row = "pin" → pin_pubkey_iv row = "enc" →
  row_sequence_number row = 1 →
  checked ex_srv (I:=CheckPin) (at_second 130) ex_wrong (ex_user row (Some (ex_pending "b1" 120))) (Err AEcdsa).
Proof.
  intros Hhw Hpin Hiv Hn. exists (ex_pending "b1" 120), (verifying_key ex_pin).
  split_and!; [done|by vm_compute|simpl; by rewrite Hpin, Hiv|]. simpl. rewrite Hhw, Hn. exact ex_wrong_text.
Qed.

Definition t2w : Tables := wrong_pin "w" false (at_second 130) t2.
Lemma ex_wrong_answered :
  ex_check 130 ex_wrong (world t2) = (Err (IncorrectPin (mkIncorrectPinData 3 false)), world t2w).
Proof.
  unfold ex_check, handle_instruction, scoped, world at 1. unfold sbind at 1, st_map_err at 1.
  rewrite (certificate_succeeds ex_srv ex_server_key eq_refl 130 110 ex_certificate "w" (ex_row 1) (ex_user (ex_row 1) (Some (ex_pending "b1" 120)))
    ex_hw ex_pin "hw" "pin" ex_hash ex_encrypted); [|exact ex_keys|by apply ex_row_keys|exact ex_certificate_ok|reflexivity..].
  cbv beta iota delta [map_err].
  rewrite (wrong_pin_answered Debug ex_srv ex_server_key (ex_clock 130) ex_uuids ex_rnd default_policy ex_wrong
    (ex_user (ex_row 1) (Some (ex_pending "b1" 120))) AEcdsa (Failed 3 false) (IncorrectPin (mkIncorrectPinData 3 false)) t2 []);
    [|by apply ex_wrong_checked|vm_compute; reflexivity|reflexivity..].
  reflexivity.
Qed.

Lemma guesses_bounded_witness : ∃ row', users t2w !! "w" = Some row' ∧ pin_entries row' = 0 + 1 ∧ 1 ≤ spec_total default_policy - 0.
Proof.
  apply (guesses_bounded Debug ex_srv default_policy default_policy_wf "w" 1 t2 t2w (ex_row 1)).
  - exact (run_ok_tables Debug ex_srv default_policy default_policy_wf _ _ (no_tables_ok default_policy) acc_run2).
  - exact t2_row.
  - refine (guessing_instruction (I:=CheckPin) (R:=unit) Debug ex_srv default_policy "w" (ex_clock 130) ex_uuids ex_rnd ex_server_key ex_wrong
      (world t2) _ (world t2w) 0 t2w ex_wrong_answered _ (guessing_nil _ _ _ _ _)).
    intros u p (claims & row & Hj & Hw & Hrow & _ & Hu & _) Hid.
    change (users t2 !! wu_wallet_id u = Some row) in Hrow. rewrite Hid, t2_row in Hrow. injection Hrow as <-.
    injection Hu as <-. intros (c & pin & [= <-] & _ & Hpin & Hp). injection Hpin as <-.
    change (SignedDouble_parse_and_verify (instruction ex_wrong) "b1" (LargerThan 1) (verifying_key ex_hw) (verifying_key ex_pin) = Ok p) in Hp.
    discriminate (eq_trans (eq_sym Hp) ex_wrong_text).
Defined.

(** A wallet that has used all its attempts, and what a handler knows that had
    loaded it two attempts earlier. *)
Definition ex_blocked_row : UserRow := count_wrong_pin (at_second 125) true (set_pin_entries (λ _, 15) (Some (at_second 124)) false (ex_row 1)).
Definition ex_stale_row : UserRow := set_pin_entries (λ _, 13) (Some (at_second 100)) false (ex_row 1).
Definition tb : Tables := mkTables {["w" := ex_blocked_row]} ∅ ∅.

Lemma blocked_forever_witness : users tb !! "w" = Some ex_blocked_row ∧
  is_ok (ex_check 130 (ex_instruction ex_pin 2 "b1") (world tb)).1 = false.
Proof.
  destruct (blocked_forever (I:=CheckPin) (R:=unit) Debug ex_srv default_policy "w" ex_blocked_row tb (world tb)
    eq_refl eq_refl (rtc_refl _ _)) as (Hrow & _ & Hi).
  split; [exact Hrow|]. specialize (Hi (ex_clock 130) ex_uuids ex_rnd ex_server_key (ex_instruction ex_pin 2 "b1") (ex_wallet_of 130)).
  unfold ex_check. destruct (handle_instruction _ _ _ _ _ _ _ _ _). exact (proj1 Hi).
Defined.

Lemma ex_stale_answered :
  process_instruction (I:=CheckPin) (R:=unit) (PinPolicyEvaluator0:=the_policy Debug) Debug ex_srv (ex_clock 130) ex_uuids ex_rnd
    default_policy ex_server_key ex_wrong (ex_user ex_stale_row (Some (ex_pending "b1" 120))) (world tb) =
  (Err (IncorrectPin (mkIncorrectPinData 2 true)), world (wrong_pin "w" false (at_second 130) tb)).
Proof.
  unfold world at 1. rewrite (wrong_pin_answered Debug ex_srv ex_server_key (ex_clock 130) ex_uuids ex_rnd default_policy ex_wrong
    (ex_user ex_stale_row (Some (ex_pending "b1" 120))) AEcdsa (Failed 2 true) (IncorrectPin (mkIncorrectPinData 2 true)) tb []);
    [|by apply ex_wrong_checked|vm_compute; reflexivity|reflexivity..].
  reflexivity.
Qed.

Lemma overlapping_instruction_lifts_block_witness : ∃ row',
  users (wrong_pin "w" false (at_second 130) tb) !! "w" = Some row' ∧ row_is_blocked row' = false.
Proof.
  apply (overlapping_instruction_lifts_block (I:=CheckPin) (R:=unit) Debug ex_srv default_policy (ex_clock 130) ex_uuids ex_rnd ex_server_key
    ex_wrong (ex_user ex_stale_row (Some (ex_pending "b1" 120))) (world tb) _ _ ex_blocked_row ex_stale_answered eq_refl eq_refl).
  right. by eexists.
Defined.

(** ** Requests that overlap

    Both copies of one instruction load the user before either of them writes: both
    are carried out, although handled one after the other the second is refused. *)
Definition ex_loaded (r : World) :=
  process_instruction (I:=CheckPin) (R:=unit) (PinPolicyEvaluator0:=the_policy Debug) Debug ex_srv (ex_clock 130) ex_uuids ex_rnd default_policy ex_server_key
    (ex_instruction ex_pin 2 "b1") (ex_user (ex_row 1) (Some (ex_pending "b1" 120))) r.
Example overlapping_copies_both_carried_out :
  is_ok (ex_loaded (world t2)).1 = true ∧ is_ok (ex_loaded (ex_loaded (world t2)).2).1 = true ∧
  is_ok (ex_check 130 (ex_instruction ex_pin 2 "b1") (world t3)).1 = false.
Proof. split_and!; vm_compute; reflexivity. Qed.

(** Wrong PINs that are loaded on the same counter are each answered on that counter. *)
Definition ex_wrong_loaded (r : World) :=
  process_instruction (I:=CheckPin) (R:=unit) (PinPolicyEvaluator0:=the_policy Debug) Debug ex_srv (ex_clock 130) ex_uuids ex_rnd default_policy ex_server_key
    ex_wrong (ex_user (ex_row 1) (Some (ex_pending "b1" 120))) r.
Example overlapping_guesses_share_counter :
  (ex_wrong_loaded (world t2)).1 = Err (IncorrectPin (mkIncorrectPinData 3 false)) ∧
  (ex_wrong_loaded (ex_wrong_loaded (world t2)).2).1 = Err (IncorrectPin (mkIncorrectPinData 3 false)).
Proof. split_and!; vm_compute; reflexivity. Qed.
