(* ===== verification/PinValidation.v ===== *)
(** * PINs on the wallet: validation and the PIN key

    Models [wallet/src/pin/validation.rs] (which PINs a user may choose) and
    [wallet/src/pin/key.rs] (the private key that is derived from a PIN).  A Rust
    [str] is the list of its Unicode scalar values.  Numbers of the crate
    [crypto_bigint] are lists of limbs, least significant first, of 32 or 64 bits
    depending on the platform. *)
From stdpp Require Import base list option strings list_numbers sets.
From Stdlib Require Import ZArith Lia.
From S2P Require Import Prelude Crypto.

(** ** Validation *)
Inductive PinValidationError :=
  | NonDigits | InvalidLength | TooFewUniqueDigits | AscendingDigits | DescendingDigits.

Definition EXACT_LENGTH : Z := 6.
Definition MIN_UNIQUE_DIGITS : Z := 2.
Definition RADIX : Z := 10.

(** [str::len]: the number of bytes in UTF-8. *)
Definition len_utf8 (c : Z) : Z := if c <? 128 then 1 else if c <? 2048 then 2 else if c <? 65536 then 3 else 4.
Definition str_len (s : list Z) : Z := foldr Z.add 0 (len_utf8 <$> s).

(** [char::to_digit] for a radix of at most ten. *)
Definition to_digit (c radix : Z) : option Z :=
  if (48 <=? c) && (c <? 48 + radix) then Some (c - 48) else None.

(** A signed byte: the cast [as i8], and arithmetic. *)
Definition as_i8 (z : Z) : Z := (z + 128) mod 256 - 128.
Definition arith_i8 {E} (prof : profile) (z : Z) : outcome E Z :=
  if (-128 <=? z) && (z <=? 127) then Ok z else match prof with Debug => Panic | Release => Ok (as_i8 z) end.

(** [pin_length_should_be_correct] *)
Definition pin_length_should_be_correct (pin : list Z) : outcome PinValidationError unit :=
  if negb (str_len pin =? EXACT_LENGTH) then Err InvalidLength else Ok tt.

(** [parse_pin_to_digits] *)
Definition parse_pin_to_digits (pin : list Z) : outcome PinValidationError (list Z) :=
  let digit_options := (λ c, to_digit c RADIX) <$> pin in
  if existsb (λ c, bool_decide (c = None)) digit_options then Err NonDigits
  else foldr (λ c r, let* d := unwrap c in let* ds := r in Ok (d mod 256 :: ds)) (Ok []) digit_options.

(** [pin_should_contain_enough_unique_digits]: indexing outside the array
    panics, and so may counting past a byte. *)
Fixpoint count_digits (prof : profile) (count : list Z) (digits : list Z) : outcome PinValidationError (list Z) :=
  match digits with
  | [] => Ok count
  | d :: digits =>
      let* n := unwrap (count !! Z.to_nat d) in
      let* n := arith prof 8 (n + 1) in
      count_digits prof (<[Z.to_nat d := n]> count) digits
  end.
Definition pin_should_contain_enough_unique_digits (prof : profile) (digits : list Z) : outcome PinValidationError unit :=
  let* count := count_digits prof (replicate (Z.to_nat RADIX) 0) digits in
  let unique_digits := Z.of_nat (length (filter (λ d, 0 < d) count)) in
  if unique_digits <? MIN_UNIQUE_DIGITS then Err TooFewUniqueDigits else Ok tt.

(** [pin_should_not_be_ascending_or_descending] *)
Fixpoint scan_digits (prof : profile) (ascending descending : bool) (prev : Z) (digits : list Z)
    : outcome PinValidationError (bool * bool) :=
  match digits with
  | [] => Ok (ascending, descending)
  | d :: digits =>
      let* up := arith_i8 prof (prev + 1) in
      let* down := arith_i8 prof (prev - 1) in
      let ascending := if negb (as_i8 d =? up) then false else ascending in
      let descending := if negb (as_i8 d =? down) then false else descending in
      scan_digits prof ascending descending (as_i8 d) digits
  end.
Definition pin_should_not_be_ascending_or_descending (prof : profile) (digits : list Z) : outcome PinValidationError unit :=
  match digits with
  | [] => Panic
  | d :: digits =>
      let* ad := scan_digits prof true true (as_i8 d) digits in
      let '(ascending, descending) := ad in
      if ascending then Err AscendingDigits else if descending then Err DescendingDigits else Ok tt
  end.

(** [validate_pin] *)
Definition validate_pin (prof : profile) (pin : list Z) : outcome PinValidationError unit :=
  let* _ := pin_length_should_be_correct pin in
  let* digits := parse_pin_to_digits pin in
  let* _ := pin_should_contain_enough_unique_digits prof digits in
  let* _ := pin_should_not_be_ascending_or_descending prof digits in
  Ok tt.

(** ** The PIN key *)

(** Numbers of [crypto_bigint] with [n] limbs of [w] bits. *)
Fixpoint to_limbs (w : Z) (n : nat) (x : Z) : list Z :=
  match n with O => [] | S n => x mod 2 ^ w :: to_limbs w n (x / 2 ^ w) end.
Fixpoint from_limbs (w : Z) (limbs : list Z) : Z :=
  match limbs with [] => 0 | l :: limbs => l + 2 ^ w * from_limbs w limbs end.

(** [NistP256::ORDER] *)
Definition ORDER : Z := 0xffffffff00000000ffffffffffffffffbce6faada7179e84f3b9cac2fc632551.

(** The bytes as a big-endian number. *)
Definition from_be_slice (bts : list Z) : Z := foldl (λ acc b, acc * 256 + b) 0 bts.

Section PinKey.
(** [Limb::BITS] *)
Variable limb_bits : Z.

(** [u256_to_u384] and [u384_to_u256]: appending zeroes, or taking the first
    limbs; [try_into().unwrap()] wants the right number of them. *)
Definition u256_to_u384 {E} (x : list Z) : outcome E (list Z) :=
  let limbs := x ++ replicate (Z.to_nat ((384 - 256) / limb_bits)) 0 in
  let* _ := rust_assert (Z.of_nat (length limbs) =? 384 / limb_bits) in
  Ok limbs.
Definition u384_to_u256 {E} (x : list Z) : outcome E (list Z) :=
  let* _ := rust_assert (256 / limb_bits <=? Z.of_nat (length x)) in
  Ok (take (Z.to_nat (256 / limb_bits)) x).

(** [bytes_to_ecdsa_scalar]: more than 48 bytes make the length of the padding
    underflow, which panics in either profile (there is no such vector). *)
Definition bytes_to_ecdsa_scalar {E} (bts : list Z) : outcome E (list Z) :=
  let* _ := rust_assert (256 / 8 + 8 <=? Z.of_nat (length bts)) in
  let* _ := rust_assert (Z.of_nat (length bts) <=? 384 / 8) in
  let vec := replicate (Z.to_nat (384 / 8 - Z.of_nat (length bts))) 0 ++ bts in
  let u384 (x : Z) := to_limbs limb_bits (Z.to_nat (384 / limb_bits)) x in
  let* q := u256_to_u384 (to_limbs limb_bits (Z.to_nat (256 / limb_bits)) ORDER) in
  let q := from_limbs limb_bits q in
  let modulus := (q - 1) mod q in
  let int := (from_be_slice vec mod modulus + 1) mod q in
  u384_to_u256 (u384 int).
End PinKey.

(** [PinKey] and [pin_private_key]; the key derivation and the conversion of a
    scalar to a signing key are parameters.  [Scalar::reduce] reduces modulo the
    order, and [SecretKey::new] takes a non-zero scalar. *)
Class PinKeyLib `{!Ecdsa} := {
  (** [extract], [expand] and [fill] of the crate [ring], composed as in
      [wallet_common::utils::hkdf(ikm, salt, info, len)]; a buffer of [len] bytes
      is filled.  [info] is the PIN. *)
  pin_hkdf : string → string → list Z → Z → option (list Z);
  pin_hkdf_bytes ikm salt info len out : pin_hkdf ikm salt info len = Some out →
    Z.of_nat (length out) = len ∧ Forall (λ b, 0 ≤ b < 256) out;
  (** The key with a scalar from 1 to the order minus 1. *)
  key_of_scalar : Z → SigningKey;
  limb_width : Z;
  limb_width_32_64 : limb_width = 32 ∨ limb_width = 64
}.
Inductive PinKeyError := Hkdf.
Record PinKey := mkPinKey { pk_pin : list Z; pk_salt : string }.

Section PinPrivateKey.
Context `{!Ecdsa, !PinKeyLib}.

Definition pin_scalar (salt : string) (pin : list Z) : outcome PinKeyError Z :=
  let* hkdf := ok_or Hkdf (pin_hkdf salt "" pin (256 / 8 + 8)) in
  let* scalar := bytes_to_ecdsa_scalar limb_width hkdf in
  Ok (from_limbs limb_width scalar mod ORDER).
Definition pin_private_key (salt : string) (pin : list Z) : outcome PinKeyError SigningKey :=
  let* scalar := pin_scalar salt pin in
  Ok (key_of_scalar scalar).

(** [PinKey::verifying_key] and [EcdsaKey::try_sign] *)
Definition PinKey_verifying_key (k : PinKey) : outcome PinKeyError VerifyingKey :=
  let* signing_key := pin_private_key (pk_salt k) (pk_pin k) in
  Ok (verifying_key signing_key).
Definition PinKey_try_sign (k : PinKey) (msg : string) : outcome PinKeyError Signature :=
  let* key := pin_private_key (pk_salt k) (pk_pin k) in
  Ok (ecdsa_sign key msg).
End PinPrivateKey.

(** ** Correctness of validation *)

Lemma to_digit_Some c d : to_digit c RADIX = Some d ↔ c = 48 + d ∧ 0 ≤ d < 10.
Proof.
  unfold to_digit, RADIX. destruct (Z.leb_spec 48 c), (Z.ltb_spec c (48 + 10)); cbn; split;
    intros Hd; simplify_eq/=; [split; lia|f_equal; lia|lia..].
Qed.

Lemma digit_lt_128 c d : to_digit c RADIX = Some d → len_utf8 c = 1.
Proof. intros [-> ?]%to_digit_Some. unfold len_utf8. by rewrite (proj2 (Z.ltb_lt _ _)) by lia. Qed.

(** Parsing succeeds on digits only. *)
Lemma parse_pin_spec pin :
  match parse_pin_to_digits pin with
  | Ok ds => pin = (λ d, 48 + d) <$> ds ∧ Forall (λ d, 0 ≤ d < 10) ds ∧ str_len pin = Z.of_nat (length ds)
  | Err e => e = NonDigits ∧ ¬ ∃ ds, Forall (λ d, 0 ≤ d < 10) ds ∧ pin = (λ d, 48 + d) <$> ds
  | Panic => False
  end.
Proof.
  unfold parse_pin_to_digits. induction pin as [|c pin IH]; [done|]. cbn [fmap list_fmap existsb foldr].
  destruct (to_digit c RADIX) as [d|] eqn:Hc; cbn [orb].
  - rewrite bool_decide_eq_false_2 by done. cbn [orb unwrap obind].
    pose proof (digit_lt_128 _ _ Hc) as Hlen. apply to_digit_Some in Hc as [-> Hd].
    destruct (if existsb _ _ then _ else _) as [ds|e|] eqn:Hrest; [| |done].
    + destruct IH as (Hpin & Hds & Hl). destruct (existsb _ _); [done|]. rewrite Hrest. cbn [obind].
      rewrite (Z.mod_small d 256) by lia. split_and!; [by rewrite Hpin|by constructor|].
      unfold str_len in *. cbn. rewrite Hl. lia.
    + destruct IH as [-> IH].
      assert (¬ ∃ ds, Forall (λ d, 0 ≤ d < 10) ds ∧ 48 + d :: pin = (λ d, 48 + d) <$> ds) as Hno.
      { intros ([|d' ds] & Hds & [= ? Heq]). apply IH. exists ds. by split; [inversion Hds|]. }
      destruct (existsb _ _); [done|]. by rewrite Hrest.
  - rewrite bool_decide_eq_true_2 by done. cbn. split; [done|]. intros ([|d ds] & Hds & [= -> _]).
    inversion Hds; subst. enough (to_digit (48 + d) RADIX = Some d) by congruence. by apply to_digit_Some.
Qed.

(** After counting, the positive entries are those of the digits that occur. *)
Lemma count_digits_spec prof ds : ∀ count, Forall (λ d, 0 ≤ d < 10) ds → length count = 10%nat →
  (∀ i n, count !! i = Some n → 0 ≤ n ∧ n + Z.of_nat (length ds) < 256) →
  ∃ count', count_digits prof count ds = Ok count' ∧ length count' = 10%nat ∧
    ∀ i n, count' !! i = Some n → (0 < n ↔ Z.of_nat i ∈ ds ∨ ∃ m, count !! i = Some m ∧ 0 < m).
Proof.
  induction ds as [|d ds IH]; intros count Hds Hlen Hc; cbn [count_digits].
  - exists count. split_and!; [done..|]. intros i n Hn. rewrite elem_of_nil. naive_solver.
  - apply Forall_cons in Hds as [Hd Hds].
    destruct (lookup_lt_is_Some_2 count (Z.to_nat d)) as [n Hn]; [lia|]. rewrite Hn. cbn [unwrap obind].
    pose proof (Hc _ _ Hn) as Hb. cbn [length] in Hb. rewrite arith_u8 by (unfold u8; lia). cbn [obind].
    destruct (IH (<[Z.to_nat d := n + 1]> count)) as (count' & -> & Hlen' & Hpos);
      [done|by rewrite length_insert| |exists count'; split_and!; [done..|]].
    + intros i k [(_ & ? & _)|[_ Hk]]%list_lookup_insert_Some; [lia|]. apply Hc in Hk. cbn [length] in Hk. lia.
    + intros i k Hk. rewrite (Hpos _ _ Hk). clear Hpos. rewrite elem_of_cons.
      destruct (decide (i = Z.to_nat d)) as [->|Hi].
      * rewrite list_lookup_insert_eq, Hn by lia. split; [intros _; left; left; lia|].
        intros _. right. exists (n + 1). split; [done|lia].
      * rewrite list_lookup_insert_ne by done. split; [naive_solver|]. intros [[?|?]|?]; [lia|tauto..].
Qed.

(** Two positions satisfy [P] exactly when filtering leaves two elements. *)
Lemma filter_two {A} (P : A → Prop) `{∀ x, Decision (P x)} (l : list A) :
  (2 ≤ length (filter P l))%nat ↔ ∃ i j x y, i ≠ j ∧ l !! i = Some x ∧ l !! j = Some y ∧ P x ∧ P y.
Proof.
  split.
  - induction l as [|a l IH]; [cbn; lia|]. rewrite filter_cons. destruct (decide (P a)) as [Ha|Ha].
    + intros Hl. cbn in Hl. destruct (filter P l) as [|b l'] eqn:Hf; [cbn in Hl; lia|].
      assert (b ∈ filter P l) as [Hb [j Hj]%list_elem_of_lookup]%list_elem_of_filter by (rewrite Hf; set_solver).
      by exists O, (S j), a, b.
    + intros (i & j & x & y & ? & ? & ? & ? & ?)%IH. exists (S i), (S j), x, y. split_and!; [lia|done..].
  - intros (i & j & x & y & Hij & Hi & Hj & Hx & Hy). revert i j Hij Hi Hj. induction l as [|a l IH]; [done|].
    assert (∀ (z : A) k, l !! k = Some z → P z → (1 ≤ length (filter P l))%nat) as Hone.
    { intros z k Hz%list_elem_of_lookup_2 HP. assert (z ∈ filter P l) as Hin by (by apply list_elem_of_filter).
      destruct (filter P l); [by apply elem_of_nil in Hin|cbn; lia]. }
    intros [|i] [|j] Hij Hi Hj; simplify_eq/=; [rewrite filter_cons_True by done; cbn; eapply le_n_S, Hone; done..|].
    assert (2 ≤ length (filter P l))%nat by (eapply (IH i j); [lia|done..]). rewrite filter_cons.
    destruct (decide (P a)); cbn; lia.
Qed.

Lemma unique_digits_spec prof d ds : Forall (λ d, 0 ≤ d < 10) (d :: ds) → (length (d :: ds) < 256)%nat →
  pin_should_contain_enough_unique_digits prof (d :: ds) =
  if decide (Forall (eq d) ds) then Err TooFewUniqueDigits else Ok tt.
Proof.
  intros Hds Hlen. unfold pin_should_contain_enough_unique_digits, RADIX, MIN_UNIQUE_DIGITS.
  destruct (count_digits_spec prof (d :: ds) (replicate (Z.to_nat 10) 0)) as (count & -> & Hlc & Hpos);
    [done|done|intros i n [-> _]%lookup_replicate; lia|]. cbn [obind].
  assert (∀ i n, count !! i = Some n → (0 < n ↔ Z.of_nat i ∈ d :: ds)) as Hp.
  { intros i n Hn. rewrite (Hpos _ _ Hn). split; [|tauto]. intros [?|(m & [-> _]%lookup_replicate & ?)]; [done|lia]. }
  enough ((2 ≤ length (filter (λ d : Z, (0 < d)%Z) count))%nat ↔ ¬ Forall (eq d) ds) as Hiff.
  { destruct (Z.ltb_spec (Z.of_nat (length (filter (λ d, 0 < d) count))) 2), (decide (Forall (eq d) ds)); try done; exfalso; [|apply Hiff; [lia|done]].
    enough (2 ≤ length (filter (λ d : Z, (0 < d)%Z) count))%nat by lia. by apply Hiff. }
  rewrite filter_two. split.
  - intros (i & j & x & y & Hij & Hi & Hj & Hx & Hy) Hall.
    apply (Hp _ _ Hi) in Hx. apply (Hp _ _ Hj) in Hy. rewrite Forall_forall in Hall.
    assert (∀ k : Z, k ∈ d :: ds → k = d) as Heq by (intros k [->|Hk]%elem_of_cons; [done|symmetry; by apply Hall]).
    apply Heq in Hx. apply Heq in Hy. lia.
  - intros (x & Hx & Hne)%not_Forall_Exists%Exists_exists; [|apply _].
    assert (∀ k : Z, k ∈ d :: ds → ∃ n, count !! Z.to_nat k = Some n ∧ 0 < n) as Hex.
    { intros k Hk. assert (0 ≤ k < 10) by (rewrite Forall_forall in Hds; by apply Hds).
      destruct (lookup_lt_is_Some_2 count (Z.to_nat k)) as [n Hn]; [lia|]. exists n. split; [done|].
      apply (Hp _ _ Hn). by rewrite Z2Nat.id by lia. }
    destruct (Hex d) as (n & Hn & Hn0); [set_solver|]. destruct (Hex x) as (m & Hm & Hm0); [set_solver|].
    assert (0 ≤ x < 10 ∧ 0 ≤ d < 10) as [??] by (rewrite Forall_forall in Hds; split; apply Hds; set_solver).
    exists (Z.to_nat d), (Z.to_nat x), n, m. split_and!; [intros ?; apply Hne; lia|done..].
Qed.

(** Each digit is the previous one plus [step]. *)
Fixpoint run_of (step prev : Z) (ds : list Z) : bool :=
  match ds with [] => true | d :: ds => (d =? prev + step) && run_of step d ds end.

Lemma as_i8_digit d : 0 ≤ d < 10 → as_i8 d = d.
Proof. intros. unfold as_i8. rewrite Z.mod_small by lia. lia. Qed.
Lemma arith_i8_digit {E} prof z : -1 ≤ z ≤ 10 → arith_i8 (E:=E) prof z = Ok z.
Proof.
  intros. unfold arith_i8. rewrite (proj2 (Z.leb_le (-128) z)) by lia. by rewrite (proj2 (Z.leb_le z 127)) by lia.
Qed.

Lemma scan_digits_spec prof ds : ∀ up down prev, 0 ≤ prev < 10 → Forall (λ d, 0 ≤ d < 10) ds →
  scan_digits prof up down prev ds = Ok (up && run_of 1 prev ds, down && run_of (-1) prev ds).
Proof.
  induction ds as [|d ds IH]; intros up down prev Hprev Hds; cbn [scan_digits run_of]; [by rewrite !andb_true_r|].
  apply Forall_cons in Hds as [Hd Hds]. rewrite !arith_i8_digit by lia. cbn [obind]. rewrite as_i8_digit by done.
  rewrite IH by done. replace (prev - 1) with (prev + -1) by lia.
  destruct (d =? prev + 1), (d =? prev + -1), up, down; by rewrite ?andb_false_r.
Qed.

Lemma scan_spec prof d ds : Forall (λ d, 0 ≤ d < 10) (d :: ds) →
  pin_should_not_be_ascending_or_descending prof (d :: ds) =
  if run_of 1 d ds then Err AscendingDigits else if run_of (-1) d ds then Err DescendingDigits else Ok tt.
Proof.
  intros [Hd Hds]%Forall_cons. cbn. rewrite as_i8_digit, scan_digits_spec by done. cbn. by destruct (run_of 1 d ds), (run_of (-1) d ds).
Qed.

(** The decision on a PIN that consists of digits. *)
Definition digits_verdict (ds : list Z) : outcome PinValidationError unit :=
  match ds with
  | [] => Panic
  | d :: ds =>
      if decide (Forall (eq d) ds) then Err TooFewUniqueDigits
      else if run_of 1 d ds then Err AscendingDigits
      else if run_of (-1) d ds then Err DescendingDigits
      else Ok tt
  end.

Lemma validate_pin_digits prof ds : Forall (λ d, 0 ≤ d < 10) ds → ds ≠ [] → (length ds < 256)%nat →
  (let* _ := pin_should_contain_enough_unique_digits prof ds in
   let* _ := pin_should_not_be_ascending_or_descending prof ds in Ok tt) = digits_verdict ds.
Proof.
  intros Hds Hne Hlen. destruct ds as [|d ds]; [done|]. rewrite unique_digits_spec, scan_spec by done. cbn [digits_verdict].
  destruct (decide (Forall (eq d) ds)), (run_of 1 d ds), (run_of (-1) d ds); done.
Qed.

(** What makes a PIN of six digits too simple. *)
Definition too_simple (ds : list Z) : Prop :=
  ∃ d, ds = [d; d; d; d; d; d] ∨ ds = [d; d + 1; d + 2; d + 3; d + 4; d + 5] ∨ ds = [d; d - 1; d - 2; d - 3; d - 4; d - 5].

Lemma digits_verdict_six ds : length ds = 6%nat → digits_verdict ds ≠ Panic ∧ (digits_verdict ds = Ok tt ↔ ¬ too_simple ds).
Proof.
  intros Hl. destruct ds as [|a [|b [|c [|d [|e [|f [|]]]]]]]; try done. clear Hl.
  assert (run_of 1 a [b; c; d; e; f] = true ↔ [a; b; c; d; e; f] = [a; a + 1; a + 2; a + 3; a + 4; a + 5]) as Hup.
  { cbn [run_of]. rewrite !andb_true_iff, !Z.eqb_eq. split; [intros; repeat f_equal; lia|intros [=]; lia]. }
  assert (run_of (-1) a [b; c; d; e; f] = true ↔ [a; b; c; d; e; f] = [a; a - 1; a - 2; a - 3; a - 4; a - 5]) as Hdown.
  { cbn [run_of]. rewrite !andb_true_iff, !Z.eqb_eq. split; [intros; repeat f_equal; lia|intros [=]; lia]. }
  assert (Forall (eq a) [b; c; d; e; f] ↔ [a; b; c; d; e; f] = [a; a; a; a; a; a]) as Heq.
  { rewrite !Forall_cons. split; [intros; repeat f_equal; naive_solver|intros [=]; subst; by repeat constructor]. }
  unfold too_simple. cbn [digits_verdict].
  destruct (decide (Forall (eq a) [b; c; d; e; f])) as [Hs|Hs]; [split; [done|]; split; [done|]; intros []; exists a; naive_solver|].
  destruct (run_of 1 a [b; c; d; e; f]); [split; [done|]; split; [done|]; intros []; exists a; naive_solver|].
  destruct (run_of (-1) a [b; c; d; e; f]); [split; [done|]; split; [done|]; intros []; exists a; naive_solver|].
  split; [done|]. split; [|done]. intros _ (x & [Hx|[Hx|Hx]]); injection Hx as <- Hx; naive_solver.
Qed.

(** Choosing a PIN: validation never panics, whatever the text, and accepts
    exactly the PINs of six ASCII digits that are not one digit repeated and not
    six successive digits upwards or downwards. *)
Theorem validate_pin_spec prof pin :
  validate_pin prof pin ≠ Panic ∧
  (validate_pin prof pin = Ok tt ↔
    ∃ ds, pin = (λ d, 48 + d) <$> ds ∧ Forall (λ d, 0 ≤ d < 10) ds ∧ length ds = 6%nat ∧ ¬ too_simple ds).
Proof.
  unfold validate_pin, pin_length_should_be_correct, EXACT_LENGTH.
  pose proof (parse_pin_spec pin) as Hp.
  destruct (Z.eqb_spec (str_len pin) 6) as [Hlen|Hlen]; cbn [negb obind].
  - destruct (parse_pin_to_digits pin) as [ds|e|]; cbn [obind]; [|split; [done|]; split; [done|]; naive_solver|done].
    destruct Hp as (-> & Hds & Hl). assert (length ds = 6%nat) as Hsix by lia.
    rewrite validate_pin_digits; [|done|by intros ->|lia]. destruct (digits_verdict_six ds Hsix) as [Hnp Hok].
    split; [done|]. rewrite Hok. split; [by eauto|].
    intros (ds' & Heq & _ & _ & Hs). apply list_fmap_eq_inj in Heq; [by subst|]. intros ???; lia.
  - split; [done|]. split; [done|]. intros (ds & Hpin & Hds & Hsix & _). exfalso.
    destruct (parse_pin_to_digits pin) as [ds'|e|]; [|naive_solver|done]. destruct Hp as (Heq & _ & Hl).
    apply (f_equal length) in Heq. rewrite Hpin, !length_fmap in Heq. lia.
Qed.

(** ** Correctness of the PIN key *)

Lemma length_to_limbs w n x : length (to_limbs w n x) = n.
Proof. revert x. induction n as [|n IH]; intros x; cbn; [done|]. by rewrite IH. Qed.

Lemma from_to_limbs w n x : 0 < w → from_limbs w (to_limbs w n x) = x mod 2 ^ (w * Z.of_nat n).
Proof.
  intros Hw. revert x. induction n as [|n IH]; intros x; cbn [to_limbs from_limbs].
  - by rewrite Z.mul_0_r, Z.mod_1_r.
  - rewrite IH. replace (w * Z.of_nat (S n)) with (w + w * Z.of_nat n) by lia.
    rewrite Z.pow_add_r by lia. rewrite Z.rem_mul_r by (try apply Z.pow_nonzero; lia). lia.
Qed.

Lemma from_limbs_zeroes w l n : from_limbs w (l ++ replicate n 0) = from_limbs w l.
Proof.
  induction l as [|x l IH]; cbn [app from_limbs]; [|by rewrite IH].
  induction n as [|n IH]; cbn [replicate from_limbs]; [done|]. rewrite IH. lia.
Qed.

Lemma take_to_limbs w m n x : (m ≤ n)%nat → take m (to_limbs w n x) = to_limbs w m x.
Proof.
  revert n x. induction m as [|m IH]; intros n x Hmn; [done|]. destruct n as [|n]; [lia|]. cbn. by rewrite IH by lia.
Qed.

Lemma from_be_slice_zeroes n bts : from_be_slice (replicate n 0 ++ bts) = from_be_slice bts.
Proof. unfold from_be_slice. induction n as [|n IH]; [done|]. exact IH. Qed.

Lemma ORDER_range : 2 < ORDER < 2 ^ 256.
Proof. by vm_compute. Qed.

(** The documented result, for either width of the limbs. *)
Lemma bytes_to_ecdsa_scalar_spec {E} w bts : w = 32 ∨ w = 64 → 40 ≤ Z.of_nat (length bts) ≤ 48 →
  ∃ limbs, bytes_to_ecdsa_scalar (E:=E) w bts = Ok limbs ∧
    from_limbs w limbs = 1 + from_be_slice bts mod (ORDER - 1).
Proof.
  intros Hw Hlen. pose proof ORDER_range as HO. unfold bytes_to_ecdsa_scalar, u256_to_u384, u384_to_u256.
  assert (0 < w ∧ w * Z.of_nat (Z.to_nat (256 / w)) = 256 ∧ (Z.to_nat (256 / w) ≤ Z.to_nat (384 / w))%nat ∧
    Z.of_nat (Z.to_nat (256 / w) + Z.to_nat ((384 - 256) / w)) = 384 / w ∧ 256 / w ≤ Z.of_nat (Z.to_nat (384 / w))) as (Hw0 & H256 & Hle & H384 & Hle')
    by (destruct Hw as [-> | ->]; vm_compute; split_and!; done || lia).
  change (256 / 8 + 8) with 40. change (384 / 8) with 48.
  rewrite (proj2 (Z.leb_le 40 _)) by lia. cbn [rust_assert obind].
  rewrite (proj2 (Z.leb_le _ 48)) by lia. cbn [rust_assert obind].
  rewrite length_app, length_replicate, length_to_limbs, H384, Z.eqb_refl. cbn [rust_assert obind].
  rewrite length_to_limbs, (proj2 (Z.leb_le _ _)) by done. cbn [rust_assert obind]. eexists. split; [done|].
  rewrite take_to_limbs, from_to_limbs, H256 by done. rewrite from_limbs_zeroes, from_to_limbs, H256 by done.
  rewrite (Z.mod_small ORDER) by lia. rewrite (Z.mod_small (ORDER - 1) ORDER) by lia. rewrite from_be_slice_zeroes.
  pose proof (Z.mod_pos_bound (from_be_slice bts) (ORDER - 1) ltac:(lia)).
  rewrite (Z.mod_small _ ORDER) by lia. rewrite Z.mod_small by lia. lia.
Qed.

(** The key that belongs to a PIN: deriving it never panics, and unless the
    key derivation function fails it is the key whose scalar is 1 + I mod (q - 1),
    with I the 40 derived bytes as a big-endian number and q the order of the
    curve, on platforms with limbs of either width; the scalar is in the range
    of valid private keys, 1 to q - 1. *)
Theorem pin_private_key_spec `{!Ecdsa, !PinKeyLib} salt pin :
  match pin_hkdf salt "" pin 40 with
  | None => pin_private_key salt pin = Err Hkdf
  | Some out =>
      let scalar := 1 + from_be_slice out mod (ORDER - 1) in
      pin_private_key salt pin = Ok (key_of_scalar scalar) ∧ 1 ≤ scalar < ORDER
  end.
Proof.
  unfold pin_private_key, pin_scalar. change (256 / 8 + 8) with 40. pose proof ORDER_range as HO.
  destruct (pin_hkdf salt "" pin 40) as [out|] eqn:Hout; cbn [ok_or obind]; [|done].
  destruct (pin_hkdf_bytes _ _ _ _ _ Hout) as [Hlen _].
  destruct (bytes_to_ecdsa_scalar_spec (E:=PinKeyError) limb_width out limb_width_32_64) as (limbs & -> & Hl); [lia|].
  cbn [obind]. rewrite Hl. pose proof (Z.mod_pos_bound (from_be_slice out) (ORDER - 1) ltac:(lia)) as Hb.
  rewrite Z.mod_small by lia. split; [done|lia].
Qed.
