(* ===== verification/Document.v ===== *)
(** * Documents as the user sees them

    Models [wallet/src/document]: the mapping from the attributes of an mdoc to
    labelled attributes ([mapping.rs]), the conversion of attributes
    ([mdoc.rs]) and the order in which documents are shown ([mod.rs]).  Parsing of
    dates is the class [NaiveDateLib]. *)
From stdpp Require Import base gmap strings list option sorting.
From Stdlib Require Import ZArith Lia.
From S2P Require Import Prelude IndexMap Crypto Cbor Cose Engagement Mdoc MdocSigning Holder.

Class NaiveDateLib := {
  NaiveDate : Type;
  (** [NaiveDate::parse_from_str] with the format [%Y-%m-%d] *)
  parse_naive_date : string → option NaiveDate
}.

Definition PID_DOCTYPE : string := "com.example.pid".
Definition ADDRESS_DOCTYPE : string := "com.example.address".

Definition AttributeLabels : Type := gmap string string.
Inductive AttributeValueType := TString | TBool | TDate | TGender.
Inductive GenderAttributeValue := GenderUnknown | GenderMale | GenderFemale | GenderNotApplicable.
Inductive AttributeValue `{!NaiveDateLib} :=
  | AString (s : string)
  | ABoolean (b : bool)
  | ADate (d : NaiveDate)
  | AGender (g : GenderAttributeValue).
Record Attribute `{!NaiveDateLib} := mkAttribute { key_labels : AttributeLabels; attribute_value : AttributeValue }.
Definition DocumentAttributes `{!NaiveDateLib} : Type := imap string Attribute.

Inductive DocumentPersistence := InMemory | Stored (id : string).
Record ShownDocument `{!NaiveDateLib} := mkShownDocument {
  persistence : DocumentPersistence;
  sd_doc_type : string;
  sd_attributes : DocumentAttributes;
  sd_issuer_registration : IssuerRegistration
}.
Record MissingDisclosureAttributes := mkMissingDisclosure {
  md_doc_type : string;
  md_attributes : imap string AttributeLabels
}.
Record DisclosureDocument `{!NaiveDateLib} := mkDisclosureDocument {
  dd_issuer_registration : IssuerRegistration;
  dd_doc_type : string;
  dd_attributes : DocumentAttributes
}.

(** ** The mapping *)
Record DataElementValueMapping := mkMapping {
  vm_key : string;
  is_mandatory : bool;
  vm_key_labels : AttributeLabels;
  vm_value_type : AttributeValueType
}.
Definition AttributeMapping : Type := imap (string * string) DataElementValueMapping.
Definition labels (en nl : string) : AttributeLabels := list_to_map [("en", en); ("nl", nl)].

Definition pid_mapping : AttributeMapping := [
  ((PID_DOCTYPE, "given_name"), mkMapping "given_name" true (labels "First names" "Voornamen") TString);
  ((PID_DOCTYPE, "family_name_prefix"), mkMapping "family_name_prefix" false (labels "Prefix" "Voorvoegsel") TString);
  ((PID_DOCTYPE, "family_name"), mkMapping "family_name" true (labels "Surname" "Achternaam") TString);
  ((PID_DOCTYPE, "given_name_birth"), mkMapping "given_name_birth" false (labels "First names at birth" "Voornamen bij geboorte") TString);
  ((PID_DOCTYPE, "family_name_birth"), mkMapping "family_name_birth" false (labels "Birth name" "Geboortenaam") TString);
  ((PID_DOCTYPE, "gender"), mkMapping "gender" false (labels "Gender" "Geslacht") TGender);
  ((PID_DOCTYPE, "birth_date"), mkMapping "birth_date" true (labels "Birth date" "Geboortedatum") TDate);
  ((PID_DOCTYPE, "age_over_18"), mkMapping "age_over_18" true (labels "Older than 18" "Ouder dan 18") TBool);
  ((PID_DOCTYPE, "birth_place"), mkMapping "birth_place" false (labels "Place of birth" "Geboorteplaats") TString);
  ((PID_DOCTYPE, "birth_city"), mkMapping "birth_city" false (labels "City, town or village of birth" "Geboortestad") TString);
  ((PID_DOCTYPE, "birth_state"), mkMapping "birth_state" false (labels "State or province of birth" "Geboortestaat of -provincie") TString);
  ((PID_DOCTYPE, "birth_country"), mkMapping "birth_country" false (labels "Country of birth" "Geboorteland") TString);
  ((PID_DOCTYPE, "has_spouse_or_partner"), mkMapping "has_spouse_or_partner" false (labels "Married or registered partnership" "Getrouwd of geregistreerd partnerschap") TBool);
  ((PID_DOCTYPE, "bsn"), mkMapping "bsn" true (labels "BSN" "BSN") TString)
].
Definition address_mapping : AttributeMapping := [
  ((ADDRESS_DOCTYPE, "resident_address"), mkMapping "resident_address" false (labels "Address" "Adres") TString);
  ((ADDRESS_DOCTYPE, "resident_street"), mkMapping "resident_street" false (labels "Street" "Straatnaam") TString);
  ((ADDRESS_DOCTYPE, "resident_house_number"), mkMapping "resident_house_number" false (labels "House number" "Huisnummer") TString);
  ((ADDRESS_DOCTYPE, "resident_postal_code"), mkMapping "resident_postal_code" false (labels "Postal code" "Postcode") TString);
  ((ADDRESS_DOCTYPE, "resident_city"), mkMapping "resident_city" false (labels "City, town or village" "Woonplaats") TString);
  ((ADDRESS_DOCTYPE, "resident_state"), mkMapping "resident_state" false (labels "State or province" "Staat of provincie") TString);
  ((ADDRESS_DOCTYPE, "resident_country"), mkMapping "resident_country" false (labels "Country" "Land") TString)
].

Definition MDOC_DOCUMENT_MAPPING : imap string AttributeMapping := [(PID_DOCTYPE, pid_mapping); (ADDRESS_DOCTYPE, address_mapping)].

(** ** Conversion *)
Inductive DocumentMdocError :=
  | UnknownDocType (doc_type : string)
  | MissingAttribute (doc_type name_space name : string)
  | AttributeValueTypeMismatch (doc_type name_space name : string) (expected_type : AttributeValueType) (value : Value)
  | UnknownAttribute (doc_type name_space name : string) (value : option Value)
  | DocumentCertificate (error : CertificateError) (doc_type : string).

Inductive DisclosureType := Login | Regular.
#[global] Instance DisclosureType_eq_dec : EqDecision DisclosureType.
Proof. solve_decision. Defined.

Abbreviation ProposedAttributes := (imap DocType ProposedDocumentAttributes).

(** [DisclosureType::from_proposed_attributes] *)
Definition from_proposed_attributes (proposed_attributes : ProposedAttributes) : DisclosureType :=
  match proposed_attributes with
  | [(doc_type, doc_attributes)] =>
      if decide (doc_type = PID_DOCTYPE) then
        match pa_attributes doc_attributes with
        | [(namespace, entries)] =>
            if decide (namespace = PID_DOCTYPE) then
              match entries with
              | [entry] => if decide (entry_name entry = "bsn") then Login else Regular
              | _ => Regular
              end
            else Regular
        | _ => Regular
        end
      else Regular
  | _ => Regular
  end.
Definition is_login_flow (t : DisclosureType) : bool := match t with Login => true | Regular => false end.

(** [mapping_for_doc_type] *)
Definition mapping_for_doc_type (doc_type : string) : outcome DocumentMdocError (string * AttributeMapping) :=
  let* attribute_mapping := ok_or (UnknownDocType doc_type) (im_get MDOC_DOCUMENT_MAPPING doc_type) in
  Ok (doc_type, attribute_mapping).

(** [TryFrom<Integer> for GenderAttributeValue] *)
Definition gender_of (n : Z) : option GenderAttributeValue :=
  if n =? 0 then Some GenderUnknown
  else if n =? 1 then Some GenderMale
  else if n =? 2 then Some GenderFemale
  else if n =? 9 then Some GenderNotApplicable
  else None.

(** [Vec::swap_remove] *)
Definition swap_remove {A} (i : nat) (l : list A) : list A :=
  match last l with Some x => take (pred (length l)) (<[i := x]> l) | None => l end.

Section Conversion.
Context `{!NaiveDateLib}.

(** [TryFrom<(AttributeValueType, DataElementValue)> for AttributeValue] and
    [TryFrom<(DataElementValue, &DataElementValueMapping)> for Attribute]; the
    error of both is the value. *)
Definition value_try_from (t : AttributeValueType) (v : Value) : option AttributeValue :=
  match t, v with
  | TString, VText s => Some (AString s)
  | TBool, VBool b => Some (ABoolean b)
  | TDate, VText s => ADate <$> parse_naive_date s
  | TGender, VInteger i => AGender <$> gender_of i
  | _, _ => None
  end.
Definition attribute_try_from (v : Value) (m : DataElementValueMapping) : option Attribute :=
  mkAttribute _ (vm_key_labels m) <$> value_try_from (vm_value_type m) v.

(** Removing the first entry of a name from the entries of a name space. *)
Definition take_entry (name_space element_id : string) (attributes : imap NameSpace (list Entry))
    : option (Entry * imap NameSpace (list Entry)) :=
  entries ← im_get attributes name_space;
  found ← list_find (λ entry, entry_name entry = element_id) entries;
  Some (found.2, im_insert name_space (swap_remove found.1 entries) attributes).

(** The loop over the mapping, which takes the entries that it finds out of the
    attributes. *)
Fixpoint convert_mapped (doc_type : string) (error_on_missing : bool) (mapping : AttributeMapping)
    (attributes : imap NameSpace (list Entry))
    : outcome DocumentMdocError (list (string * Attribute) * imap NameSpace (list Entry)) :=
  match mapping with
  | [] => Ok ([], attributes)
  | ((name_space, element_id), value_mapping) :: mapping =>
      match take_entry name_space element_id attributes with
      | None =>
          if negb (is_mandatory value_mapping) || negb error_on_missing
          then convert_mapped doc_type error_on_missing mapping attributes
          else Err (MissingAttribute doc_type name_space element_id)
      | Some (entry, attributes) =>
          let* attribute := ok_or
            (AttributeValueTypeMismatch doc_type name_space (entry_name entry) (vm_value_type value_mapping) (entry_value entry))
            (attribute_try_from (entry_value entry) value_mapping) in
          let* rest := convert_mapped doc_type error_on_missing mapping attributes in
          Ok ((vm_key value_mapping, attribute) :: rest.1, rest.2)
      end
  end.

(** The first name space with entries left, and its last entry. *)
Definition unknown_error (doc_type : string) (attributes : imap NameSpace (list Entry)) : option DocumentMdocError :=
  head (base.omap (λ p : NameSpace * list Entry,
    (λ entry, UnknownAttribute doc_type p.1 (entry_name entry) (Some (entry_value entry))) <$> last p.2) attributes).

(** [document_attributes_from_mdoc_attributes] *)
Definition document_attributes_from_mdoc_attributes (doc_type : string) (attributes : imap NameSpace (list Entry))
    (error_on_missing : bool) : outcome DocumentMdocError (string * DocumentAttributes) :=
  let* m := mapping_for_doc_type doc_type in
  let '(doc_type, attribute_mapping) := m in
  let* converted := convert_mapped doc_type error_on_missing attribute_mapping attributes in
  match unknown_error doc_type converted.2 with
  | Some error => Err error
  | None => Ok (doc_type, im_collect converted.1)
  end.

(** [Document::from_mdoc_attributes] and [from_unsigned_mdoc] *)
Definition Document_from_mdoc_attributes (persistence : DocumentPersistence) (doc_type : string)
    (attributes : imap NameSpace (list Entry)) (issuer_registration : IssuerRegistration)
    : outcome DocumentMdocError ShownDocument :=
  let* converted := document_attributes_from_mdoc_attributes doc_type attributes true in
  Ok (mkShownDocument _ persistence converted.1 converted.2 issuer_registration).
Definition Document_from_unsigned_mdoc (mdoc : UnsignedMdoc) (issuer_registration : IssuerRegistration)
    : outcome DocumentMdocError ShownDocument :=
  Document_from_mdoc_attributes InMemory (u_doc_type mdoc) (u_attributes mdoc) issuer_registration.

(** [doc_type_priority] and [Document::priority]; [usize] has 64 bits. *)
Definition doc_type_priority (doc_type : string) : Z :=
  if decide (doc_type = PID_DOCTYPE) then 0 else if decide (doc_type = ADDRESS_DOCTYPE) then 1 else 2 ^ 64 - 1.
Definition priority (d : ShownDocument) : Z := doc_type_priority (sd_doc_type d).
(** [sort_by_key(Document::priority)] *)
Definition sort_documents (l : list ShownDocument) : list ShownDocument := sort_by (λ a b, priority a <=? priority b) l.

(** [MissingDisclosureAttributes::from_mdoc_missing_attributes] *)
Definition add_missing (attributes_by_doc_type : imap string (imap string AttributeLabels)) (missing_attribute : AttributeIdentifier)
    : outcome DocumentMdocError (imap string (imap string AttributeLabels)) :=
  let* m := mapping_for_doc_type (ai_doc_type missing_attribute) in
  let '(doc_type, attribute_mapping) := m in
  let* value_mapping := ok_or
    (UnknownAttribute (ai_doc_type missing_attribute) (ai_namespace missing_attribute) (ai_attribute missing_attribute) None)
    (im_get attribute_mapping (ai_namespace missing_attribute, ai_attribute missing_attribute)) in
  let attributes := default [] (im_get attributes_by_doc_type doc_type) in
  Ok (im_insert doc_type (im_insert (vm_key value_mapping) (vm_key_labels value_mapping) attributes) attributes_by_doc_type).
Definition from_mdoc_missing_attributes (missing_attributes : list AttributeIdentifier)
    : outcome DocumentMdocError (list MissingDisclosureAttributes) :=
  let* attributes_by_doc_type :=
    foldl (λ r a, let* m := r in add_missing m a) (Ok []) missing_attributes in
  Ok (sort_by (λ a b, doc_type_priority (md_doc_type a) <=? doc_type_priority (md_doc_type b))
    ((λ p : string * imap string AttributeLabels, mkMissingDisclosure p.1 p.2) <$> attributes_by_doc_type)).

Context `{!Ecdsa, !X509Lib, !RegistrationLib}.
(** [MdocCertificateExtension::from_certificate] *)
Definition IssuerRegistration_from_certificate (cert : Certificate) : outcome CertificateError (option IssuerRegistration) :=
  extract_custom_ext issuer_registration_from_str cert (oid_from OID_EXT_ISSUER_AUTH).
Definition ReaderRegistration_from_certificate (cert : Certificate) : outcome CertificateError (option ReaderRegistration) :=
  extract_custom_ext reader_registration_from_str cert (oid_from OID_EXT_READER_AUTH).

(** [DisclosureDocument::from_mdoc_attributes] *)
Definition DisclosureDocument_from_mdoc_attributes (doc_type : string) (attributes : ProposedDocumentAttributes)
    : outcome DocumentMdocError DisclosureDocument :=
  let* registration := map_err (λ error, DocumentCertificate error doc_type)
    (IssuerRegistration_from_certificate (pa_issuer attributes)) in
  let* issuer_registration := unwrap registration in
  let* converted := document_attributes_from_mdoc_attributes doc_type (pa_attributes attributes) false in
  Ok (mkDisclosureDocument _ issuer_registration converted.1 converted.2).
End Conversion.
