(* ===== verification/DocumentFacts.v ===== *)
(** * Correctness of the conversion of attributes

    Which attributes of an mdoc can be shown, and that all of them are. *)
From stdpp Require Import base gmap strings list option sorting.
From Stdlib Require Import ZArith Lia.
From S2P Require Import Prelude IndexMap Crypto Cbor Cose Engagement Mdoc MdocSigning Holder Document.

(** Attributes by name space and name. *)
Definition flat_attributes (attributes : imap NameSpace (list Entry)) : list ((string * string) * Value) :=
  mjoin ((λ p : NameSpace * list Entry, (λ e, ((p.1, entry_name e), entry_value e)) <$> p.2) <$> attributes).

Lemma flat_app a b : flat_attributes (a ++ b) = flat_attributes a ++ flat_attributes b.
Proof. unfold flat_attributes. by rewrite fmap_app, join_app. Qed.
Lemma flat_cons ns es a : flat_attributes ((ns, es) :: a) = ((λ e, ((ns, entry_name e), entry_value e)) <$> es) ++ flat_attributes a.
Proof. done. Qed.
Lemma flat_elem k v a : (k, v) ∈ flat_attributes a ↔ ∃ es, (k.1, es) ∈ a ∧ mkEntry k.2 v ∈ es.
Proof.
  induction a as [|[ns es] a IH]; [split; [by intros ?%elem_of_nil|by intros (? & ?%elem_of_nil & _)]|].
  rewrite flat_cons, elem_of_app, IH, list_elem_of_fmap. destruct k as [k1 k2]. cbn [fst snd]. split.
  - intros [([n w] & [= -> -> ->] & He)|(es' & ? & ?)]; [exists es; split; [apply elem_of_cons; by left|done]|exists es'; split; [apply elem_of_cons; by right|done]].
  - intros (es' & [[= -> ->]|Hin]%elem_of_cons & He); [left; by exists (mkEntry k2 v)|right; by exists es'].
Qed.

Lemma swap_remove_perm {A} (l : list A) i x : l !! i = Some x → l ≡ₚ x :: swap_remove i l.
Proof.
  intros Hi. unfold swap_remove. destruct l as [|y l _] using rev_ind; [done|]. rewrite last_snoc, length_app, Nat.add_1_r. cbn [pred].
  apply lookup_app_Some in Hi as [Hi|[Hle Hi]].
  - rewrite insert_app_l by (by eapply lookup_lt_Some). rewrite take_app_length' by (by rewrite length_insert).
    destruct (list_elem_of_split_length l i x Hi) as (l1 & l2 & -> & ->). rewrite <- app_assoc.
    rewrite insert_app_r_alt, Nat.sub_diag by lia. cbn. rewrite <- !Permutation_middle. by rewrite app_nil_r.
  - apply list_lookup_singleton_Some in Hi as [Hi ->]. assert (i = length l) as -> by lia.
    rewrite insert_app_r_alt, take_app_length by lia. apply Permutation_app_comm.
Qed.

Section Map.
Context {K V : Type} `{!EqDecision K}.
Lemma im_insert_split (m : imap K V) k v v' : im_get m k = Some v →
  ∃ m1 m2, m = m1 ++ (k, v) :: m2 ∧ im_insert k v' m = m1 ++ (k, v') :: m2.
Proof.
  induction m as [|[k0 v0] m IH]; cbn; [done|]. destruct (decide (k = k0)) as [->|Hne].
  - intros [= ->]. by exists [], m.
  - intros (m1 & m2 & -> & ->)%IH. by exists ((k0, v0) :: m1), m2.
Qed.
Lemma im_get_perm (m m' : imap K V) k : NoDup m.*1 → m ≡ₚ m' → im_get m k = im_get m' k.
Proof.
  intros Hd Hp. assert (NoDup m'.*1) as Hd' by (by rewrite <- Hp).
  destruct (im_get m k) as [v|] eqn:Hg.
  - symmetry. apply im_elem_get; [done|]. rewrite <- Hp. by apply im_get_Some_elem.
  - symmetry. apply im_get_None. rewrite <- Hp. by apply im_get_None.
Qed.
End Map.

Lemma take_entry_Some ns id a e a' : take_entry ns id a = Some (e, a') →
  entry_name e = id ∧ flat_attributes a ≡ₚ ((ns, id), entry_value e) :: flat_attributes a' ∧ a'.*1 = a.*1.
Proof.
  unfold take_entry. intros (es & Hes & ([i e'] & Hf & [= <- <-])%bind_Some)%bind_Some. cbn [fst snd].
  apply list_find_Some in Hf as (Hi & Hname & _).
  destruct (im_insert_split _ _ _ (swap_remove i es) Hes) as (m1 & m2 & -> & ->).
  split; [done|]. rewrite !fmap_app. split; [|done]. rewrite !flat_app, !flat_cons.
  pose proof (fmap_Permutation (λ e, ((ns, entry_name e), entry_value e)) _ _ (swap_remove_perm _ _ _ Hi)) as Hp.
  rewrite fmap_cons, Hname in Hp. rewrite Hp. symmetry. apply Permutation_middle.
Qed.

Lemma take_entry_None ns id a : NoDup a.*1 → take_entry ns id a = None ↔ (ns, id) ∉ (flat_attributes a).*1.
Proof.
  intros Hd. unfold take_entry. rewrite list_elem_of_fmap. split.
  - intros Hn ([k v] & Hk & Hin). cbn in Hk. subst k.
    apply flat_elem in Hin as (es & Hes & He). cbn in *.
    rewrite (im_elem_get _ _ _ Hd Hes) in Hn. cbn in Hn.
    destruct (list_find_elem_of (λ entry, entry_name entry = id) es (mkEntry id v)) as [? Hf]; [done..|]. by rewrite Hf in Hn.
  - intros Hn. destruct (im_get a ns) as [es|] eqn:Hes; cbn; [|done].
    destruct (list_find _ es) as [[i e]|] eqn:Hf; [|done]. exfalso. apply Hn.
    apply list_find_Some in Hf as (Hi & Hname & _). exists ((ns, id), entry_value e). split; [done|]. apply flat_elem.
    exists es. split; [by apply im_get_Some_elem|]. cbn. rewrite <- Hname. destruct e. by eapply list_elem_of_lookup_2.
Qed.

Section Facts.
Context `{!NaiveDateLib}.

(** The attribute that is shown for one row of the mapping. *)
Definition shown (values : imap (string * string) Value) (row : (string * string) * DataElementValueMapping) : option (string * Attribute) :=
  v ← im_get values row.1; a ← attribute_try_from v row.2; Some (vm_key row.2, a).

Lemma omap_shown_cons values row (m : AttributeMapping) :
  base.omap (shown values) (row :: m) = option_list (shown values row) ++ base.omap (shown values) m.
Proof. cbn. by destruct (shown values row). Qed.

Lemma shown_cons_ne k v values row : row.1 ≠ k → shown ((k, v) :: values) row = shown values row.
Proof. intros Hne. unfold shown. cbn. by rewrite decide_False. Qed.

Lemma omap_shown_fresh k v values (m : AttributeMapping) : k ∉ m.*1 →
  base.omap (shown ((k, v) :: values)) m = base.omap (shown values) m.
Proof.
  induction m as [|row m IH]; [done|]. rewrite fmap_cons, not_elem_of_cons. intros [Hne Hk].
  rewrite !omap_shown_cons, IH by done. by rewrite shown_cons_ne by done.
Qed.

(** What the loop over the mapping has taken out when it succeeds. *)
Lemma convert_mapped_Ok dt eom m : ∀ a out a', NoDup a.*1 → NoDup m.*1 → convert_mapped dt eom m a = Ok (out, a') →
  ∃ taken, taken.*1 `sublist_of` m.*1 ∧ flat_attributes a ≡ₚ taken ++ flat_attributes a' ∧
    out = base.omap (shown taken) m ∧
    (∀ k vm v, (k, vm) ∈ m → (k, v) ∈ taken → is_Some (attribute_try_from v vm)) ∧
    (∀ k vm, (k, vm) ∈ m → is_mandatory vm = true → eom = true → k ∈ taken.*1).
Proof.
  induction m as [|[[ns id] vm] m IH]; intros a out a' Ha Hm Hc; cbn [convert_mapped] in Hc.
  - injection Hc as <- <-. exists []. split_and!; [done..| |]; intros; by match goal with H : _ ∈ [] |- _ => apply elem_of_nil in H end.
  - rewrite fmap_cons, NoDup_cons in Hm. destruct Hm as [Hfresh Hm]. cbn [fst] in Hfresh.
    destruct (take_entry ns id a) as [[e a1]|] eqn:Ht.
    + apply take_entry_Some in Ht as (Hname & Hflat & Hkeys). 
      apply bind_Ok in Hc as (attr & Hattr%ok_or_Ok & ([out1 a2] & Hrest & [= <- <-])%bind_Ok).
      destruct (IH a1 out1 a2) as (taken & Hsub & Hperm & -> & Hconv & Hmand); [by rewrite Hkeys|done..|]. 
      assert ((ns, id) ∉ taken.*1) as Hnt by (intros Hin; apply Hfresh; by eapply elem_of_sublist).
      exists (((ns, id), entry_value e) :: taken). split_and!.
      * rewrite !fmap_cons. by constructor.
      * by rewrite Hflat, Hperm.
      * rewrite omap_shown_cons, omap_shown_fresh by done. unfold shown at 1. cbn. rewrite decide_True by done. cbn. by rewrite Hattr.
      * intros k vm' v [Hk|Hk]%elem_of_cons [Hv|Hv]%elem_of_cons; simplify_eq; [by eexists| | |by eapply Hconv].
        -- exfalso. apply Hnt. apply list_elem_of_fmap. by eexists (_, v).
        -- exfalso. apply Hfresh. apply list_elem_of_fmap. by eexists (_, vm').
      * intros k vm' [[= -> ->]|Hk]%elem_of_cons ??; [by left|right; by eapply Hmand].
    + destruct (negb (is_mandatory vm) || negb eom) eqn:Hopt; [|done].
      destruct (IH a out a') as (taken & Hsub & Hperm & -> & Hconv & Hmand); [done..|].
      assert ((ns, id) ∉ taken.*1) as Hnt by (intros Hin; apply Hfresh; by eapply elem_of_sublist).
      exists taken. split_and!; [by constructor|done| | |].
      * rewrite omap_shown_cons. assert (shown taken ((ns, id), vm) = None) as ->; [|done].
        unfold shown. cbn [fst]. by rewrite (proj2 (im_get_None _ _) Hnt).
      * intros k vm' v [[= -> ->]|Hk]%elem_of_cons Hv; [|by eapply Hconv].
        exfalso. apply Hnt. apply list_elem_of_fmap. by exists ((ns, id), v).
      * intros k vm' [[= -> ->]|Hk]%elem_of_cons Hmd Heom; [|by eapply Hmand]. rewrite Hmd, Heom in Hopt. done.
Qed.

(** It succeeds when nothing mandatory is missing and every value has its type. *)
Lemma convert_mapped_complete dt eom m : ∀ a, NoDup a.*1 → NoDup m.*1 → NoDup (flat_attributes a).*1 →
  (∀ k vm v, (k, vm) ∈ m → (k, v) ∈ flat_attributes a → is_Some (attribute_try_from v vm)) →
  (∀ k vm, (k, vm) ∈ m → is_mandatory vm = true → eom = true → k ∈ (flat_attributes a).*1) →
  ∃ out a', convert_mapped dt eom m a = Ok (out, a') ∧
    ∀ k, k ∈ (flat_attributes a').*1 → k ∈ (flat_attributes a).*1 ∧ k ∉ m.*1.
Proof.
  induction m as [|[[ns id] vm] m IH]; intros a Ha Hm Hflat Hconv Hmand; cbn [convert_mapped].
  - eexists [], a. split; [done|]. intros k Hk. split; [done|]. by intros ?%elem_of_nil.
  - rewrite fmap_cons, NoDup_cons in Hm. destruct Hm as [Hfresh Hm]. cbn [fst] in Hfresh.
    destruct (take_entry ns id a) as [[e a1]|] eqn:Ht.
    + apply take_entry_Some in Ht as (Hname & Hperm & Hkeys).
      assert (NoDup ((ns, id) :: (flat_attributes a1).*1)) as [Hnot Hflat1]%NoDup_cons by (by rewrite Hperm in Hflat).
      destruct (Hconv (ns, id) vm (entry_value e)) as [attr Hattr]; [by left|rewrite Hperm; by left|].
      rewrite Hattr. cbn [ok_or obind].
      destruct (IH a1) as (out & a' & -> & Hrest).
      * by rewrite Hkeys.
      * done.
      * done.
      * intros k vm' v Hk Hv. eapply Hconv; [by right|]. rewrite Hperm. by right.
      * intros k vm' Hk Hmd Heom. assert (k ∈ (flat_attributes a).*1) as Hin by (eapply Hmand; [by right|done..]).
        rewrite Hperm in Hin. apply elem_of_cons in Hin as [->|?]; [|done]. exfalso. apply Hfresh.
        apply list_elem_of_fmap. by exists ((ns, id), vm').
      * cbn. eexists _, a'. split; [done|]. intros k [Hk Hkm]%Hrest. rewrite Hperm. cbn.
        split; [by right|]. intros [->|?]%elem_of_cons; done.
    + apply take_entry_None in Ht; [|done].
      assert (negb (is_mandatory vm) || negb eom = true) as ->.
      { destruct (is_mandatory vm) eqn:Hmd, eom; try done. exfalso. apply Ht. eapply Hmand; [by left|done..]. }
      destruct (IH a) as (out & a' & -> & Hrest); [done..|intros; eapply Hconv; [by right|done]|intros; eapply Hmand; [by right|done..]|].
      eexists _, a'. split; [done|]. intros k [Hk Hkm]%Hrest. split; [done|]. intros [->|?]%elem_of_cons; done.
Qed.

Lemma unknown_error_None dt a : unknown_error dt a = None ↔ flat_attributes a = [].
Proof.
  unfold unknown_error. induction a as [|[ns es] a IH]; [done|]. rewrite flat_cons. cbn [base.omap list_omap fst snd].
  destruct es as [|e es _] using rev_ind; [exact IH|]. rewrite last_snoc, fmap_app. cbn. split; [done|].
  intros Hf. by apply app_nil in Hf as [[_ ?]%app_nil _].
Qed.

(** The mapping names no attribute and no key twice. *)
Lemma mapping_NoDup dt mapping : im_get MDOC_DOCUMENT_MAPPING dt = Some mapping → NoDup mapping.*1 ∧ NoDup (vm_key <$> mapping.*2).
Proof.
  cbn [im_get MDOC_DOCUMENT_MAPPING]. repeat (case_decide; [intros [= <-]; split; apply (bool_decide_unpack _); by vm_compute|]). done.
Qed.

Lemma omap_shown_keys values (m : AttributeMapping) : (base.omap (shown values) m).*1 `sublist_of` (vm_key <$> m.*2).
Proof.
  induction m as [|row m IH]; [done|]. rewrite omap_shown_cons, fmap_app, !fmap_cons. unfold shown at 1.
  destruct (im_get values row.1) as [v|]; cbn; [|by apply sublist_cons].
  destruct (attribute_try_from v row.2); cbn; [by apply sublist_skip|by apply sublist_cons].
Qed.

Lemma omap_shown_perm values values' (m : AttributeMapping) : NoDup values.*1 → values ≡ₚ values' →
  base.omap (shown values) m = base.omap (shown values') m.
Proof.
  intros Hd Hp. induction m as [|row m IH]; [done|]. rewrite !omap_shown_cons, IH. f_equal. unfold shown.
  by rewrite (im_get_perm _ _ _ Hd Hp).
Qed.

(** The attributes of an mdoc are shown exactly when its document type is
    known, no attribute occurs twice, every attribute is in the mapping of the
    type and has a value of the mapped type, and (for a whole document) no
    mandatory attribute is missing; then all of them are shown, each under the
    key of the mapping, in the order of the mapping. *)
Theorem document_conversion_spec doc_type attributes error_on_missing r : NoDup attributes.*1 →
  document_attributes_from_mdoc_attributes doc_type attributes error_on_missing = Ok r ↔
  ∃ mapping, im_get MDOC_DOCUMENT_MAPPING doc_type = Some mapping ∧
    let values := flat_attributes attributes in
    NoDup values.*1 ∧ (∀ k, k ∈ values.*1 → k ∈ mapping.*1) ∧
    (∀ k vm v, (k, vm) ∈ mapping → (k, v) ∈ values → is_Some (attribute_try_from v vm)) ∧
    (∀ k vm, (k, vm) ∈ mapping → is_mandatory vm = true → error_on_missing = true → k ∈ values.*1) ∧
    r = (doc_type, base.omap (shown values) mapping).
Proof.
  intros Ha. unfold document_attributes_from_mdoc_attributes, mapping_for_doc_type.
  destruct (im_get MDOC_DOCUMENT_MAPPING doc_type) as [mapping|] eqn:Hm; cbn [ok_or obind]; [|naive_solver].
  destruct (mapping_NoDup _ _ Hm) as [Hmk Hmv]. split.
  - intros Hr. exists mapping. split; [done|]. run_ok Hr. destruct x as [out a']. cbn [fst snd] in Hr.
    destruct (unknown_error doc_type a') eqn:Hu; [done|]. injection Hr as <-. apply unknown_error_None in Hu.
    destruct (convert_mapped_Ok _ _ _ _ _ _ Ha Hmk Hrun) as (taken & Hsub & Hperm & -> & Hconv & Hmand).
    rewrite Hu, app_nil_r in Hperm.
    assert (NoDup taken.*1) as Htd by exact (sublist_NoDup _ _ Hmk Hsub).
    rewrite im_collect_id by exact (sublist_NoDup _ _ Hmv (omap_shown_keys _ _)).
    cbn zeta. split_and!.
    + by rewrite Hperm.
    + intros k Hk. rewrite Hperm in Hk. exact (elem_of_sublist _ _ _ Hk Hsub).
    + intros k vm v Hk Hv. rewrite Hperm in Hv. by eapply Hconv.
    + intros k vm Hk Hmd Heom. rewrite Hperm. by eapply Hmand.
    + f_equal. symmetry. apply omap_shown_perm; [by rewrite Hperm|done].
  - intros (mapping' & [= <-] & Hd & Hknown & Hconv & Hmand & ->).
    destruct (convert_mapped_complete doc_type error_on_missing mapping attributes) as (out & a' & Hc & Hrest); [done..|].
    rewrite Hc. cbn [obind fst snd].
    assert (flat_attributes a' = []) as Hnil.
    { destruct (flat_attributes a') as [|[k v] l] eqn:Hf; [done|]. destruct (Hrest k) as [Hk []]; [by left|]. by apply Hknown. }
    rewrite (proj2 (unknown_error_None _ _) Hnil).
    destruct (convert_mapped_Ok _ _ _ _ _ _ Ha Hmk Hc) as (taken & Hsub & Hperm & -> & _ & _).
    rewrite Hnil, app_nil_r in Hperm.
    assert (NoDup taken.*1) as Htd by exact (sublist_NoDup _ _ Hmk Hsub).
    rewrite im_collect_id by exact (sublist_NoDup _ _ Hmv (omap_shown_keys _ _)).
    do 2 f_equal. by apply omap_shown_perm.
Qed.
End Facts.
