(* ===== verification/PidIssuer.v ===== *)
(** * The attributes of a person identification document

    Models [wallet_server/src/pid]: what a person is in the Dutch personal records
    database ([brp/data.rs]), the mdocs that are made of it, the request for a
    person ([brp/client.rs]) and the attribute service of the issuer
    ([attributes.rs]) that combines them.

    The identity provider, which turns an authorization code into a citizen
    service number, and the personal records database are parameters; the JSON
    form of its answers is that of [serde]. *)
From stdpp Require Import base gmap strings list option pretty.
From Stdlib Require Import ZArith Lia.
From S2P Require Import Prelude IndexMap SessionStore Crypto Cbor Cose Engagement Mdoc MdocSigning Issuer Document.

(** [NaiveDate::format] with the format [%Y-%m-%d] *)
Class NaiveDateFormat `{!NaiveDateLib} := {
  format_naive_date : NaiveDate → string;
  parse_format_naive_date d : parse_naive_date (format_naive_date d) = Some d
}.

(** ** Constants *)
Definition MOCK_PID_DOCTYPE : string := "com.example.pid".
Definition MOCK_ADDRESS_DOCTYPE : string := "com.example.address".
Definition PID_BSN : string := "bsn".
Definition PID_FAMILY_NAME : string := "family_name".
Definition PID_FAMILY_NAME_PREFIX : string := "family_name_prefix".
Definition PID_GIVEN_NAME : string := "given_name".
Definition PID_BIRTH_DATE : string := "birth_date".
Definition PID_AGE_OVER_18 : string := "age_over_18".
Definition PID_BIRTH_COUNTRY : string := "birth_country".
Definition PID_BIRTH_CITY : string := "birth_city".
Definition PID_RESIDENT_COUNTRY : string := "resident_country".
Definition PID_RESIDENT_CITY : string := "resident_city".
Definition PID_RESIDENT_POSTAL_CODE : string := "resident_postal_code".
Definition PID_RESIDENT_STREET : string := "resident_street".
Definition PID_RESIDENT_HOUSE_NUMBER : string := "resident_house_number".
Definition PID_GENDER : string := "gender".
Definition PID_SPOUSE_OR_PARTNER : string := "has_spouse_or_partner".

(** ** Persons *)
Inductive BrpGenderCode := GenderV | GenderM | GenderO.
Inductive BrpMaritalStatus := Huwelijk | GeregistreerdPartnerschap | Onbekend.
#[global] Instance BrpMaritalStatus_eq_dec : EqDecision BrpMaritalStatus.
Proof. solve_decision. Defined.
Record BrpName := mkBrpName { given_names : option string; family_name_prefix : option string; family_name : string }.
Record BrpAddress := mkBrpAddress {
  official_street_name : option string;
  short_street_name : option string;
  house_number : Z;
  postal_code : string;
  city : string;
  country : string
}.
(** Of a start and an end of a marriage it only matters that they are there. *)
Record BrpPartner := mkBrpPartner { kind : BrpMaritalStatus; start : option unit; end_ : option unit }.

(** [Deserialize for BrpMaritalStatus], on the code *)
Definition marital_status_of_code (code : string) : BrpMaritalStatus :=
  if decide (code = "H") then Huwelijk else if decide (code = "P") then GeregistreerdPartnerschap else Onbekend.
(** [Default for BrpCountry] *)
Definition default_country : string := "Nederland".
(** [From<BrpGenderCode> for ciborium::Value] *)
Definition gender_value (g : BrpGenderCode) : Value := VInteger match g with GenderO => 0 | GenderM => 1 | GenderV => 2 end.
(** [BrpAddress::street] *)
Definition street (a : BrpAddress) : option string :=
  match official_street_name a with Some s => Some s | None => short_street_name a end.

Section Persons.
Context `{!NaiveDateLib}.

(** The structs with one field of the source ([BrpGender], [BrpDate],
    [BrpBirthCountry], [BrpBirthPlace], [BrpResidence], [BrpCountry]) are that
    field, and the fields of a [BrpBirth] are those of the person. *)
Record BrpPerson := mkBrpPerson {
  p_bsn : string;
  p_gender : BrpGenderCode;
  p_name : BrpName;
  birth_date : NaiveDate;
  birth_country : string;
  birth_place : string;
  age : Z;
  residence : BrpAddress;
  partners : list BrpPartner
}.

(** [BrpPerson::is_over_18] and [has_spouse_or_partner]: the most recent partner
    comes first. *)
Definition is_over_18 (p : BrpPerson) : bool := 18 <=? age p.
Definition has_spouse_or_partner (p : BrpPerson) : bool :=
  match head (partners p) with
  | Some partner => bool_decide (kind partner ≠ Onbekend) && bool_decide (is_Some (start partner)) && bool_decide (end_ partner = None)
  | None => false
  end.

Context `{!NaiveDateFormat, !Chrono}.

(** The instants that are read while the mdocs are made. *)
Record PidInstants := mkInstants { pid_from : Z; pid_until : Z; address_from : Z; address_until : Z }.
Definition days (n : Z) : Z := seconds (n * 86400).

Definition text_entry (name value : string) : Entry := mkEntry name (VText value).
Definition pid_entries (p : BrpPerson) : list Entry :=
  base.omap (M:=list) id
    [Some (text_entry PID_BSN (p_bsn p));
     Some (text_entry PID_FAMILY_NAME (family_name (p_name p)));
     text_entry PID_FAMILY_NAME_PREFIX <$> family_name_prefix (p_name p);
     text_entry PID_GIVEN_NAME <$> given_names (p_name p);
     Some (text_entry PID_BIRTH_DATE (format_naive_date (birth_date p)));
     Some (text_entry PID_BIRTH_COUNTRY (birth_country p));
     Some (text_entry PID_BIRTH_CITY (birth_place p));
     Some (mkEntry PID_AGE_OVER_18 (VBool (is_over_18 p)));
     Some (mkEntry PID_GENDER (gender_value (p_gender p)));
     Some (mkEntry PID_SPOUSE_OR_PARTNER (VBool (has_spouse_or_partner p)))].
Definition address_entries (p : BrpPerson) : list Entry :=
  base.omap (M:=list) id
    [Some (text_entry PID_RESIDENT_COUNTRY (country (residence p)));
     text_entry PID_RESIDENT_STREET <$> street (residence p);
     Some (text_entry PID_RESIDENT_POSTAL_CODE (postal_code (residence p)));
     Some (text_entry PID_RESIDENT_HOUSE_NUMBER (pretty (Z.to_N (house_number (residence p)))));
     Some (text_entry PID_RESIDENT_CITY (city (residence p)))].

(** [UnsignedAttributes::try_from(..).unwrap()] *)
Definition unwrap_attributes {E} (attributes : imap NameSpace (list Entry)) : outcome E (imap NameSpace (list Entry)) :=
  if unsigned_attributes_valid attributes then Ok attributes else Panic.

(** [From<&BrpPerson> for Vec<UnsignedMdoc>] *)
Definition unsigned_mdocs {E} (t : PidInstants) (p : BrpPerson) : outcome E (list UnsignedMdoc) :=
  let* pid_attributes := unwrap_attributes [(MOCK_PID_DOCTYPE, pid_entries p)] in
  let* address_attributes := unwrap_attributes [(MOCK_ADDRESS_DOCTYPE, address_entries p)] in
  Ok [{| u_doc_type := MOCK_PID_DOCTYPE; u_valid_from := tdate_from (pid_from t); u_valid_until := tdate_from (pid_until t + days 365);
         u_attributes := pid_attributes; u_copy_count := 2 |};
      {| u_doc_type := MOCK_ADDRESS_DOCTYPE; u_valid_from := tdate_from (address_from t); u_valid_until := tdate_from (address_until t + days 365);
         u_attributes := address_attributes; u_copy_count := 2 |}].

(** ** The request for a person *)
Record GetByBsnRequest := mkGetByBsn { gb_type : string; gb_bsn : list string; gb_fields : list string }.
Definition GetByBsnRequest_create (bsn : string) : GetByBsnRequest := {|
  gb_type := "RaadpleegMetBurgerservicenummer";
  gb_bsn := [bsn];
  gb_fields := ["burgerservicenummer"; "geslacht"; "naam.voornamen"; "naam.voorvoegsel"; "naam.geslachtsnaam"; "geboorte";
    "verblijfplaats.verblijfadres.officieleStraatnaam"; "verblijfplaats.verblijfadres.korteStraatnaam";
    "verblijfplaats.verblijfadres.huisnummer"; "verblijfplaats.verblijfadres.postcode"; "verblijfplaats.verblijfadres.woonplaats";
    "leeftijd"; "partners.soortVerbintenis.code"; "partners.naam.voornamen"; "partners.naam.voorvoegsel"; "partners.naam.geslachtsnaam"]
|}.

(** ** The attribute service *)

(** The errors that the service gives; the enum has four more, which nothing
    builds. *)
Inductive PidError (D B : Type) :=
  | PidDigidError (e : D)
  | NoAttributesFound
  | MissingCertificate (doc_type : string)
  | PidBrp (e : B).
Arguments PidDigidError {D B}.
Arguments NoAttributesFound {D B}.
Arguments MissingCertificate {D B}.
Arguments PidBrp {D B}.

Section Service.
Context {D B : Type}.
(** [OpenIdClient::bsn] and the answer of the personal records database *)
Variable openid_bsn : TokenRequest → outcome D string.
Variable brp_answer : GetByBsnRequest → outcome B (list BrpPerson).
(** [AttributeCertificates] *)
Variable certificates : imap string Certificate.

(** [try_unsigned_mdoc_to_attestion_preview] *)
Definition try_unsigned_mdoc_to_attestion_preview (unsigned : UnsignedMdoc) : outcome (PidError D B) AttestationPreview :=
  let* issuer := ok_or (MissingCertificate (u_doc_type unsigned)) (im_get certificates (u_doc_type unsigned)) in
  Ok (PreviewMsoMdoc unsigned issuer).

(** [BrpClient::get_person_by_bsn] *)
Definition get_person_by_bsn (bsn : string) : outcome (PidError D B) (list BrpPerson) :=
  map_err PidBrp (brp_answer (GetByBsnRequest_create bsn)).

(** [AttributeService::attributes] of [BrpPidAttributeService] *)
Definition pid_attributes (t : PidInstants) (_session : SessionState Created) (token_request : TokenRequest)
    : outcome (PidError D B) (list AttestationPreview) :=
  let openid_token_request := mkTokenRequest (GrantAuthorizationCode (TokenRequest_code token_request)) (code_verifier token_request)
    (client_id token_request) (redirect_uri token_request) in
  let* bsn := map_err PidDigidError (openid_bsn openid_token_request) in
  let* persons := get_person_by_bsn bsn in
  match head persons with
  | Some person =>
      let* unsigned_mdocs := unsigned_mdocs t person in
      let* previews := try_map try_unsigned_mdoc_to_attestion_preview unsigned_mdocs in
      let* _ := guard_err (negb (bool_decide (length previews = 0%nat))) NoAttributesFound in
      Ok previews
  | None => Err NoAttributesFound
  end.
End Service.
End Persons.
