(* ===== verification/Digid.v ===== *)
(** * Logging in with DigiD

    Models the OpenID Connect client ([openid4vc/src/oidc], [pkce.rs]), the session
    of the wallet with DigiD, through a browser or the DigiD app
    ([wallet/src/issuance]), and the client with which the issuer exchanges the
    authorization code of the wallet for a citizen service number
    ([wallet_server/src/pid/digid.rs]).

    Servers are arbitrary functions from requests to replies.  URLs are text; the
    crates [url], [serde_json], [serde_urlencoded], [josekit] and [biscuit] are
    classes. *)
From stdpp Require Import base gmap strings list option.
From Stdlib Require Import ZArith Lia Ascii.
From S2P Require Import Prelude IndexMap Crypto Cbor Cose Jose Protocol Configuration SessionStore Engagement Mdoc MdocSigning Issuer.

(** ** PKCE *)
Class PkcePair (P : Type) := {
  pkce_generate : string → P;
  into_code_verifier : P → string;
  code_challenge : P → string
}.
Record S256PkcePair := mkS256PkcePair { s256_verifier : string; s256_challenge : string }.
(** [S256PkcePair]; the random text is an argument. *)
#[global] Instance s256_pkce_pair `{!Sha256, !Base64} : PkcePair S256PkcePair := {|
  pkce_generate random := mkS256PkcePair random (b64_encode (sha256 random));
  into_code_verifier := s256_verifier;
  code_challenge := s256_challenge
|}.

(** ** Servers *)
Record HttpReply := mkHttpReply { rp_status : Z; rp_location : option string; rp_body : string }.
Record Network := mkNetwork {
  net_get : string → outcome unit HttpReply;
  net_post_form : string → TokenRequest → outcome unit HttpReply;
  net_post_bearer : string → string → outcome unit HttpReply
}.

(** The metadata of an OpenID provider, with the fields that are used. *)
Record OidcConfig := mkOidcConfig {
  oidc_issuer : string;
  authorization_endpoint : string;
  token_endpoint : string;
  userinfo_endpoint : option string;
  jwks_uri : string;
  scopes_supported : option (list string)
}.
Record AuthorizationResponse := mkAuthorizationResponse { authr_code : string; authr_state : option string }.
Record SamlRedirectUrlParameters := mkSamlRedirect { saml_request : string; saml_relay_state : option string; sig_alg : string; saml_signature : string }.
Record SamlReturnUrlParameters := mkSamlReturn { saml_art : string; return_relay_state : option string }.
Record DigidJsonRequest := mkDigidJsonRequest { icon : string; return_url : string; digid_host : option string; saml_parameters : SamlRedirectUrlParameters }.
Record DigidJsonResponse := mkDigidJsonResponse { return_parameters : SamlReturnUrlParameters; error_message : option string }.

Class OidcUrl := {
  oidc_url_parse : string → option string;
  oidc_url_query : string → option string;
  oidc_set_query : string → string → string;
  append_pair : string → string → string → string;
  query_pairs : string → list (string * string);
  query_set_query u q : oidc_url_query (oidc_set_query u q) = Some q
}.
Class OidcCodec := {
  Jwks : Type;
  TokenError : Type;
  BearerError : Type;
  oidc_config_from_json : string → option OidcConfig;
  jwks_from_json : string → option Jwks;
  token_response_from_json : string → option TokenResponse;
  token_error_from_json : string → option TokenError;
  bearer_error_from_json : string → option BearerError;
  auth_request_to_string : AuthorizationRequest → option string;
  auth_request_from_str : string → option AuthorizationRequest;
  auth_response_from_str : string → option AuthorizationResponse;
  auth_error_from_str : string → option (ErrorResponse AuthorizationErrorCode);
  saml_redirect_from_str : string → option SamlRedirectUrlParameters;
  redirect_parameters_to_string : DigidJsonRequest → option string;
  return_parameters_from_str : string → option DigidJsonResponse;
  saml_return_to_string : SamlReturnUrlParameters → option string;
  auth_request_round r s : auth_request_to_string r = Some s → auth_request_from_str s = Some r
}.
(** [josekit] and [biscuit]: decryption with the content encryption of the header,
    and the verification of a token with a set of keys. *)
Class JoseLib `{!OidcCodec} := {
  DecryptionKey : Type;
  UserInfoClaims : Type;
  claims_bsn : UserInfoClaims → string;
  jwe_deserialize_compact : string → DecryptionKey → option (string * option string);
  decode_with_jwks : string → Jwks → string → option UserInfoClaims;
  registered_validate : UserInfoClaims → bool;
  jwk_from_json : string → option string;
  decrypter_from_jwk : string → option DecryptionKey
}.

Section Oidc.
Context `{!OidcUrl, !OidcCodec, !JoseLib, !UrlJoin, !Base64, !HttpHeaders}.

Inductive OidcError :=
  | OidcHttp
  | OidcUrlEncoding
  | OidcUrlDecoding
  | RedirectUriError (e : ErrorResponse AuthorizationErrorCode)
  | RequestingAccessToken (e : TokenError)
  | RequestingUserInfo (e : BearerError)
  | StateTokenMismatch
  | NoAuthCode
  | RedirectUriMismatch
  | OidcJoseKit
  | OidcJwe
  | JweValidation
  | NoUserinfoUrl.

Definition oidc_http {A} (o : option A) : outcome OidcError A := ok_or OidcHttp o.
(** [send().await?.error_for_status()?] *)
Definition send_ok (r : outcome unit HttpReply) : outcome OidcError HttpReply :=
  let* reply := map_err (λ _, OidcHttp) r in
  if is_error_status (rp_status reply) then Err OidcHttp else Ok reply.
(** [Config::discover] and [Config::jwks] *)
Definition discover (net : Network) (issuer : string) : outcome OidcError OidcConfig :=
  let* oidc_conf_url := BaseUrl_join issuer ".well-known/openid-configuration" in
  let* resp := send_ok (net_get net oidc_conf_url) in
  oidc_http (oidc_config_from_json (rp_body resp)).
Definition config_jwks (net : Network) (c : OidcConfig) : outcome OidcError Jwks :=
  let* resp := send_ok (net_get net (jwks_uri c)) in
  oidc_http (jwks_from_json (rp_body resp)).

(** ** The client of the wallet *)
Record OidcRandom := mkOidcRandom { rnd_state : string; rnd_nonce : string; rnd_pkce : string }.
Section Client.
Context {P : Type} `{!PkcePair P}.
Record HttpOidcClient := mkHttpOidcClient {
  provider : OidcConfig;
  oidc_jwks : option Jwks;
  oidc_client_id : string;
  oidc_redirect_uri : string;
  pkce_pair : P;
  oidc_state : string;
  oidc_nonce : string
}.
Definition HttpOidcClient_new (rnd : OidcRandom) (c : OidcConfig) (jwks : Jwks) (client_id redirect_uri : string) : HttpOidcClient :=
  let csrf_token := b64_encode (rnd_state rnd) in
  let nonce := b64_encode (rnd_nonce rnd) in
  let pkce_pair := pkce_generate (rnd_pkce rnd) in
  {| provider := c; oidc_jwks := Some jwks; oidc_client_id := client_id; oidc_redirect_uri := redirect_uri;
     pkce_pair := pkce_pair; oidc_state := csrf_token; oidc_nonce := nonce |}.
(** The parameters of [url_encoded_auth_request] *)
Definition auth_request (c : HttpOidcClient) : AuthorizationRequest := {|
  ar_response_type := [Code]; ar_client_id := oidc_client_id c; ar_redirect_uri := Some (oidc_redirect_uri c);
  ar_state := Some (oidc_state c); ar_authorization_details := None; ar_request_uri := None;
  ar_code_challenge := Some (S256 (code_challenge (pkce_pair c))); ar_scope := scopes_supported (provider c);
  ar_nonce := Some (oidc_nonce c); ar_response_mode := None
|}.
Definition url_encoded_auth_request (c : HttpOidcClient) : outcome OidcError string :=
  ok_or OidcUrlEncoding (auth_request_to_string (auth_request c)).
(** [OidcClient::start] *)
Definition oidc_start (net : Network) (rnd : OidcRandom) (issuer client_id redirect_uri : string) : outcome OidcError (HttpOidcClient * string) :=
  let* c := discover net issuer in
  let* jwks := config_jwks net c in
  let client := HttpOidcClient_new rnd c jwks client_id redirect_uri in
  let* query := url_encoded_auth_request client in
  Ok (client, oidc_set_query (authorization_endpoint (provider client)) query).
Definition matches_received_redirect_uri (c : HttpOidcClient) (received : string) : bool := String.prefix (oidc_redirect_uri c) received.
Definition authorization_code (c : HttpOidcClient) (received : string) : outcome OidcError AuthorizationCode :=
  if negb (matches_received_redirect_uri c received) then Err RedirectUriMismatch else
  let* auth_response := ok_or NoAuthCode (oidc_url_query received) in
  if existsb (λ kv, bool_decide (kv.1 = "error")) (query_pairs received) then
    let* err_response := ok_or OidcUrlDecoding (auth_error_from_str auth_response) in
    Err (RedirectUriError err_response)
  else
  let* auth_response := ok_or OidcUrlDecoding (auth_response_from_str auth_response) in
  if decide (authr_state auth_response ≠ Some (oidc_state c)) then Err StateTokenMismatch else
  Ok (authr_code auth_response).
(** [OidcClient::into_token_request] *)
Definition oidc_into_token_request (c : HttpOidcClient) (received : string) : outcome OidcError TokenRequest :=
  let* pre_authorized_code := authorization_code c received in
  Ok (mkTokenRequest (GrantPreAuthorizedCode pre_authorized_code) (Some (into_code_verifier (pkce_pair c)))
        (Some (oidc_client_id c)) (Some (oidc_redirect_uri c))).

(** ** The session of the wallet with DigiD *)
Inductive HttpDigidSessionError :=
  | DigidOidc (e : OidcError)
  | DigidHttp
  | MissingLocation
  | HeaderNotAStr
  | NotAUrl
  | MissingLocationQuery
  | ExpectedRedirect (status : Z)
  | UrlDeserialize
  | UrlSerialize
  | App2AppError (message : string).
Record App2AppSession := mkApp2AppSession { app2app_digid_url : string }.
Record HttpDigidSession := mkHttpDigidSession { oidc_client : HttpOidcClient; app2app_session : option App2AppSession }.

Definition TEMPORARY_REDIRECT : Z := 307.
Definition extract_location_header (res : HttpReply) : outcome HttpDigidSessionError string :=
  if decide (rp_status res ≠ TEMPORARY_REDIRECT) then Err (ExpectedRedirect (rp_status res)) else
  let* location := ok_or MissingLocation (rp_location res) in
  let* text := ok_or HeaderNotAStr (header_to_str location) in
  ok_or NotAUrl (oidc_url_parse text).
(** [RE.replace_all] of [%3[dD]] by [=] *)
Fixpoint replace_equals (s : string) : string :=
  match s with
  | String "%" (String "3" (String "d" rest)) => String "=" (replace_equals rest)
  | String "%" (String "3" (String "D" rest)) => String "=" (replace_equals rest)
  | String a rest => String a (replace_equals rest)
  | EmptyString => EmptyString
  end.
Definition format_app2app_url (app2app_url : string) (json_request : DigidJsonRequest) : outcome HttpDigidSessionError string :=
  let* query := ok_or UrlSerialize (redirect_parameters_to_string json_request) in
  Ok (oidc_set_query app2app_url (replace_equals query)).
Definition digid_send_ok (r : outcome unit HttpReply) : outcome HttpDigidSessionError HttpReply :=
  map_err (λ _, DigidHttp) (send_ok r).

(** [DigidApp2AppConfiguration::universal_link] and [host] *)
Definition universal_link (c : DigidApp2AppConfiguration) : string := match c with Production l => l | Preprod _ l => l end.
Definition host (c : DigidApp2AppConfiguration) : option string := match c with Production _ => None | Preprod h _ => Some h end.
Definition LOGO_PATH : string := "/.well-known/logo.png".
Definition ISSUANCE_BASE_PATH : string := "return-from-digid".
(** [DigidSession::start]; [universal_link_base] is [UNIVERSAL_LINK_BASE_URL]. *)
Definition HttpDigidSession_start (universal_link_base : string) (net : Network) (rnd : OidcRandom) (c : PidIssuanceConfiguration) (redirect_uri : string)
    : outcome HttpDigidSessionError (HttpDigidSession * string) :=
  let* started := map_err DigidOidc (oidc_start net rnd (digid_url c) (digid_client_id c) redirect_uri) in
  let '(client, auth_url) := started in
  match digid_app2app c with
  | Some digid_app2app =>
      let auth_url := append_pair auth_url "login_hint" "digid" in
      let* res := digid_send_ok (net_get net auth_url) in
      let* location := extract_location_header res in
      let* query := ok_or MissingLocationQuery (oidc_url_query location) in
      let* saml_parameters := ok_or UrlDeserialize (saml_redirect_from_str query) in
      let* icon_url := unwrap (url_join universal_link_base LOGO_PATH) in
      let* return_url := BaseUrl_join universal_link_base ISSUANCE_BASE_PATH in
      let json_request := mkDigidJsonRequest icon_url return_url (host digid_app2app) saml_parameters in
      let* app2app_url := format_app2app_url (universal_link digid_app2app) json_request in
      Ok (mkHttpDigidSession client (Some (mkApp2AppSession (digid_url c))), app2app_url)
  | None => Ok (mkHttpDigidSession client None, auth_url)
  end.
(** [DigidSession::into_token_request], up to the URL that is handed to the client *)
Definition redirect_location (net : Network) (session : HttpDigidSession) (received : string) : outcome HttpDigidSessionError string :=
  match app2app_session session with
  | None => Ok received
  | Some config =>
      let* query := ok_or MissingLocationQuery (oidc_url_query received) in
      let* app_app := ok_or UrlDeserialize (return_parameters_from_str query) in
      match error_message app_app with
      | Some error => Err (App2AppError error)
      | None =>
          let* acs_url := BaseUrl_join (app2app_digid_url config) "acs" in
          let* saml := ok_or UrlSerialize (saml_return_to_string (return_parameters app_app)) in
          let* res := digid_send_ok (net_get net (oidc_set_query acs_url saml)) in
          extract_location_header res
      end
  end.
Definition HttpDigidSession_into_token_request (net : Network) (session : HttpDigidSession) (received : string)
    : outcome HttpDigidSessionError TokenRequest :=
  let* location := redirect_location net session received in
  map_err DigidOidc (oidc_into_token_request (oidc_client session) location).
End Client.

(** ** The client of the issuer *)
(** [request_token] *)
Definition request_token (net : Network) (issuer : string) (token_request : TokenRequest) : outcome OidcError TokenResponse :=
  let* c := discover net issuer in
  let* response := map_err (λ _, OidcHttp) (net_post_form net (token_endpoint c) token_request) in
  if is_error_status (rp_status response) then
    let* error := oidc_http (token_error_from_json (rp_body response)) in
    Err (RequestingAccessToken error)
  else oidc_http (token_response_from_json (rp_body response)).
(** [decrypt_jwe] *)
Definition decrypt_jwe (jwe_token : string) (key : DecryptionKey) (expected_enc_alg : string) : outcome OidcError string :=
  let* r := ok_or OidcJoseKit (jwe_deserialize_compact jwe_token key) in
  if decide (r.2 = Some expected_enc_alg) then Ok r.1 else Err JweValidation.
(** [request_userinfo] *)
Definition request_userinfo (net : Network) (issuer : string) (access_token : string) (expected_sig_alg : string)
    (encryption : option (DecryptionKey * string)) : outcome OidcError UserInfoClaims :=
  let* c := discover net issuer in
  let* jwks := config_jwks net c in
  let* endpoint := ok_or NoUserinfoUrl (userinfo_endpoint c) in
  let* response := map_err (λ _, OidcHttp) (net_post_bearer net endpoint access_token) in
  let* jwt :=
    if is_error_status (rp_status response) then
      let* error := oidc_http (bearer_error_from_json (rp_body response)) in
      Err (RequestingUserInfo error)
    else Ok (rp_body response) in
  let* jws := match encryption with Some (decrypter, enc) => decrypt_jwe jwt decrypter enc | None => Ok jwt end in
  let* decoded_jws := ok_or OidcJwe (decode_with_jwks jws jwks expected_sig_alg) in
  let* _ := guard_err (registered_validate decoded_jws) JweValidation in
  Ok decoded_jws.

Inductive DigidError := DigidErrorOidc (e : OidcError) | DigidErrorSerde | DigidErrorJoseKit.
Record OpenIdClient := mkOpenIdClient { oi_issuer_url : string; decrypter_private_key : DecryptionKey }.
Definition OpenIdClient_decrypter (jwk_json : string) : outcome DigidError DecryptionKey :=
  let* jwk := ok_or DigidErrorSerde (jwk_from_json jwk_json) in
  ok_or DigidErrorJoseKit (decrypter_from_jwk jwk).
Definition OpenIdClient_new (issuer_url bsn_privkey : string) : outcome DigidError OpenIdClient :=
  let* key := OpenIdClient_decrypter bsn_privkey in
  Ok (mkOpenIdClient issuer_url key).
Definition RS256 : string := "RS256".
Definition A128CBC_HS256 : string := "A128CBC-HS256".
(** [OpenIdClient::bsn] *)
Definition OpenIdClient_bsn (net : Network) (c : OpenIdClient) (token_request : TokenRequest) : outcome DigidError string :=
  let* response := map_err DigidErrorOidc (request_token net (oi_issuer_url c) token_request) in
  let* userinfo_claims := map_err DigidErrorOidc (request_userinfo net (oi_issuer_url c) (access_token response) RS256
    (Some (decrypter_private_key c, A128CBC_HS256))) in
  Ok (claims_bsn userinfo_claims).
Definition discover_metadata (net : Network) (c : OpenIdClient) : outcome DigidError OidcConfig :=
  map_err DigidErrorOidc (discover net (oi_issuer_url c)).
End Oidc.
Arguments HttpOidcClient {_} P.
Arguments HttpDigidSession {_} P.
