(* ===== verification/WalletStorage.v ===== *)
(** * The database of the wallet

    Models [wallet/src/storage]: the encrypted SQLite database with its key file
    ([database_storage.rs], [database.rs], [key_file.rs], [sql_cipher_key.rs]),
    the data kept in it ([data.rs], the tables of [wallet/entity]) and the events
    of its history ([event_log.rs]).

    The device is a [remote]: files, key store and database behind one list of
    faults, which says for each of the coming calls whether it fails.  A
    transaction works on a copy of the tables, which a commit makes the contents.
    The crate [sea_orm] and SQLite are the class [Sqlite], the key store of the
    platform is the class [PlatformKeys], [serde_json] and the CBOR form of an
    mdoc are the class [StorageCodec].  Instants are in microseconds. *)
From stdpp Require Import base gmap strings list option sorting.
From Stdlib Require Import ZArith Lia.
From S2P Require Import Prelude IndexMap Crypto Cbor Cose Engagement Mdoc MdocSigning Holder Document.

Abbreviation Uuid := string (only parsing).
Abbreviation Json := string (only parsing).

Inductive KeyFileError := KfIo | KfEncryption.
Inductive StorageError :=
  | NotOpened
  | AlreadyOpened
  | StorageIo
  | StorageDatabase
  | StorageJson
  | StorageCbor (e : CborError)
  | StorageSqlCipherKey
  | StorageKeyFile (e : KeyFileError).
Inductive StorageState := Uninitialized | Unopened | Opened.

(** ** Data *)
Record RegistrationData := mkRegistrationData { pin_salt : string; wallet_certificate : string }.
Record InstructionData := mkInstructionData { id_sequence_number : Z }.
Definition default_instruction_data : InstructionData := mkInstructionData 0.

(** [KeyedData], with its JSON form *)
Class KeyedData (D : Type) := {
  KEY : string;
  data_to_value : D → option Json;
  data_from_value : Json → option D;
  data_round_trip d j : data_to_value d = Some j → data_from_value j = Some d
}.

Record StoredMdocCopy := mkStoredMdocCopy { mdoc_id : Uuid; mdoc_copy_id : Uuid; smc_mdoc : Mdoc }.
Definition MdocCopies : Type := list Mdoc.

(** *** Events *)
Inductive EventStatus := StatusSuccess | StatusError | StatusCancelled.
#[global] Instance EventStatus_eq_dec : EqDecision EventStatus.
Proof. solve_decision. Defined.
Record EventAttributes := mkEventAttributes {
  ea_issuer : Certificate;
  ea_attributes : imap NameSpace (imap string Value)
}.
Definition EventDocuments : Type := imap DocType EventAttributes.
Inductive WalletEvent :=
  | Issuance (id : Uuid) (mdocs : EventDocuments) (timestamp : Z)
  | Disclosure (id : Uuid) (documents : option EventDocuments) (timestamp : Z) (reader_certificate : Certificate)
      (status : EventStatus) (type : DisclosureType).

(** [From<(Certificate, IndexMap<NameSpace, Vec<Entry>>)> for EventAttributes] and back *)
Definition event_attributes_from (issuer : Certificate) (attributes : imap NameSpace (list Entry)) : EventAttributes :=
  mkEventAttributes issuer (im_collect ((λ p : NameSpace * list Entry,
    (p.1, im_collect ((λ e, (entry_name e, entry_value e)) <$> p.2))) <$> attributes)).
Definition entries_from_event (source : EventAttributes) : imap NameSpace (list Entry) :=
  im_collect ((λ p : NameSpace * imap string Value,
    (p.1, (λ e : string * Value, mkEntry e.1 e.2) <$> p.2)) <$> ea_attributes source).
(** [From<ProposedAttributes> for EventDocuments] *)
Definition event_documents_from_proposed (source : ProposedAttributes) : EventDocuments :=
  im_collect ((λ p : DocType * ProposedDocumentAttributes,
    (p.1, event_attributes_from (pa_issuer p.2) (pa_attributes p.2))) <$> source).
(** [WalletEvent::associated_doc_types] and [timestamp] *)
Definition associated_doc_types (e : WalletEvent) : list string :=
  match e with
  | Issuance _ mdocs _ | Disclosure _ (Some mdocs) _ _ _ _ => IndexSet_collect mdocs.*1
  | Disclosure _ None _ _ _ _ => []
  end.
Definition event_timestamp (e : WalletEvent) : Z :=
  match e with Issuance _ _ t | Disclosure _ _ t _ _ _ => t end.
(** [WalletEvent::new_issuance] and [new_disclosure]; identifier and instant are drawn. *)
Definition new_issuance (id : Uuid) (now : Z) (mdocs : EventDocuments) : WalletEvent := Issuance id mdocs now.
Definition new_disclosure (id : Uuid) (now : Z) (documents : option EventDocuments) (reader_certificate : Certificate)
    (status : EventStatus) (type : DisclosureType) : WalletEvent :=
  Disclosure id documents now reader_certificate status type.

(** ** Tables *)
Record MdocModel := mkMdocModel { mm_id : Uuid; mm_doc_type : string }.
Record MdocCopyModel := mkMdocCopyModel { mc_id : Uuid; disclosure_count : Z; mc_mdoc_id : Uuid; mc_mdoc : string }.
Record HistoryDocTypeModel := mkHistoryDocType { hd_id : Uuid; hd_doc_type : string }.
Record IssuanceEventModel := mkIssuanceEvent { ie_id : Uuid; ie_timestamp : Z; ie_attributes : Json }.
Record DisclosureEventModel := mkDisclosureEvent {
  de_id : Uuid;
  de_timestamp : Z;
  relying_party_certificate : Certificate;
  de_status : EventStatus;
  de_attributes : option Json;
  de_type : DisclosureType
}.
Record EventDocTypeModel := mkEventDocType { ed_event_id : Uuid; ed_doc_type_id : Uuid }.
#[global] Instance EventDocTypeModel_eq_dec : EqDecision EventDocTypeModel.
Proof. solve_decision. Defined.

Record Tables := mkTables {
  keyed_data : gmap string Json;
  mdocs : list MdocModel;
  mdoc_copies : list MdocCopyModel;
  history_doc_types : list HistoryDocTypeModel;
  issuance_events : list IssuanceEventModel;
  issuance_event_doc_types : list EventDocTypeModel;
  disclosure_events : list DisclosureEventModel;
  disclosure_event_doc_types : list EventDocTypeModel
}.
(** What the migrations create. *)
Definition no_tables : Tables := mkTables ∅ [] [] [] [] [] [] [].

Definition set_keyed (m : gmap string Json) (t : Tables) : Tables :=
  mkTables m (mdocs t) (mdoc_copies t) (history_doc_types t) (issuance_events t) (issuance_event_doc_types t)
    (disclosure_events t) (disclosure_event_doc_types t).
Definition set_mdocs (l : list MdocModel) (t : Tables) : Tables :=
  mkTables (keyed_data t) l (mdoc_copies t) (history_doc_types t) (issuance_events t) (issuance_event_doc_types t)
    (disclosure_events t) (disclosure_event_doc_types t).
Definition set_copies (l : list MdocCopyModel) (t : Tables) : Tables :=
  mkTables (keyed_data t) (mdocs t) l (history_doc_types t) (issuance_events t) (issuance_event_doc_types t)
    (disclosure_events t) (disclosure_event_doc_types t).
Definition set_doc_types (l : list HistoryDocTypeModel) (t : Tables) : Tables :=
  mkTables (keyed_data t) (mdocs t) (mdoc_copies t) l (issuance_events t) (issuance_event_doc_types t)
    (disclosure_events t) (disclosure_event_doc_types t).
Definition set_issuance (l : list IssuanceEventModel) (m : list EventDocTypeModel) (t : Tables) : Tables :=
  mkTables (keyed_data t) (mdocs t) (mdoc_copies t) (history_doc_types t) l m (disclosure_events t) (disclosure_event_doc_types t).
Definition set_disclosure (l : list DisclosureEventModel) (m : list EventDocTypeModel) (t : Tables) : Tables :=
  mkTables (keyed_data t) (mdocs t) (mdoc_copies t) (history_doc_types t) (issuance_events t) (issuance_event_doc_types t) l m.

(** ** External code *)

(** SQLite and [sea_orm]: which of the rows with the least count a [GROUP BY]
    shows and in which order the groups come, the order of rows with the same
    instant, the comparison of an instant with 31 days ago, and whether an insert
    of no rows at all succeeds. *)
Class Sqlite := {
  bare_row : list MdocCopyModel → option MdocCopyModel;
  bare_row_min l c : bare_row l = Some c → c ∈ l ∧ ∀ c', c' ∈ l → disclosure_count c ≤ disclosure_count c';
  bare_row_some l : l ≠ [] → is_Some (bare_row l);
  group_order : list Uuid → list Uuid;
  group_order_perm l : group_order l ≡ₚ l;
  order_by_desc : ∀ {A}, (A → Z) → list A → list A;
  order_by_desc_perm {A} (f : A → Z) l : order_by_desc f l ≡ₚ l;
  order_by_desc_sorted {A} (f : A → Z) l : StronglySorted (λ a b, f b ≤ f a) (order_by_desc f l);
  (** [newer_than_31_days now timestamp]; the comparison of texts may be off by a day. *)
  newer_than_31_days : Z → Z → bool;
  newer_than_31_days_recent now t : now - 31 * 86400000000 < t → newer_than_31_days now t = true;
  newer_than_31_days_old now t : t < now - 32 * 86400000000 → newer_than_31_days now t = false;
  insert_no_rows_succeeds : bool
}.

Class StorageCodec := {
  mdoc_to_cbor : Mdoc → option string;
  mdoc_from_cbor : string → option Mdoc;
  mdoc_cbor_round_trip m b : mdoc_to_cbor m = Some b → mdoc_from_cbor b = Some m;
  documents_to_value : EventDocuments → option Json;
  documents_from_value : Json → option EventDocuments;
  documents_round_trip d j : documents_to_value d = Some j → documents_from_value j = Some d
}.

(** [PlatformEncryptionKey]: the key under the identifier of the key file. *)
Class PlatformKeys := {
  EncryptionKey : Type;
  key_encrypt : EncryptionKey → string → option string;
  key_decrypt : EncryptionKey → string → option string;
  key_decrypt_encrypt k m c : key_encrypt k m = Some c → key_decrypt k c = Some m
}.

(** ** Keys *)
Definition KEY_LENGTH : nat := 32.
Definition SALT_LENGTH : nat := 16.
Record SqlCipherKey := mkSqlCipherKey { sck_key : string; sck_salt : option string }.
#[global] Instance SqlCipherKey_eq_dec : EqDecision SqlCipherKey.
Proof. solve_decision. Defined.
(** [SqlCipherKey::size_with_salt] *)
Definition size_with_salt : nat := KEY_LENGTH + SALT_LENGTH.
(** [TryFrom<&[u8]> for SqlCipherKey] *)
Definition SqlCipherKey_try_from (value : string) : option SqlCipherKey :=
  let l := String.length value in
  let key := if (KEY_LENGTH <=? l)%nat then String.substring 0 KEY_LENGTH value else "" in
  if negb (String.length key =? KEY_LENGTH)%nat then None
  else
    let rest := String.substring KEY_LENGTH (l - KEY_LENGTH) value in
    if decide (rest = "") then Some (mkSqlCipherKey key None)
    else if (String.length rest =? SALT_LENGTH)%nat then Some (mkSqlCipherKey key (Some rest)) else None.

(** ** The device *)
Record Device `{!PlatformKeys} := mkDevice {
  (** The connection: whether [open_database] is present. *)
  is_open : bool;
  (** The database file, readable with its key only. *)
  db_file : option (SqlCipherKey * Tables);
  (** The key file, encrypted with the key of the key store. *)
  key_file : option string;
  key_store : option EncryptionKey
}.

Section Storage.
Context `{!Sqlite, !StorageCodec, !PlatformKeys}.
Abbreviation IO := (ST (remote Device)).

Definition get_device {E} : IO E Device := λ r, (Ok (contents r), r).
Definition set_device {E} (d : Device) : IO E unit := set_contents d.

(** [DatabaseStorage::database] *)
Definition database : IO StorageError Tables :=
  let! d := get_device in
  if is_open d then st_lift (ok_or StorageDatabase (snd <$> db_file d)) else st_throw NotOpened.
(** Making tables the contents of the database. *)
Definition write_tables {E} (t : Tables) : IO E unit :=
  let! d := get_device in
  set_device (mkDevice _ (is_open d) ((λ f : SqlCipherKey * Tables, (f.1, t)) <$> db_file d) (key_file d) (key_store d)).
(** A statement on a copy of the tables, and one outside a transaction. *)
Definition statement {A} (f : Tables → outcome StorageError A) (t : Tables) : IO StorageError A :=
  let! _ := round_trip StorageDatabase in st_lift (f t).
Definition commit (t : Tables) : IO StorageError unit :=
  let! _ := round_trip StorageDatabase in write_tables t.
Definition execute (f : Tables → outcome StorageError Tables) : IO StorageError unit :=
  let! t := database in
  let! t := statement f t in
  write_tables t.

(** *** Opening and clearing *)

(** [get_or_create_key_file], down to [write_encrypted_file] and
    [read_encrypted_file]; [random] are the bytes of a new key. *)
Definition get_or_create_key_file (encryption_key : EncryptionKey) (random : string) : IO KeyFileError string :=
  let! _ := round_trip KfIo in
  let! d := get_device in
  match key_file d with
  | None =>
      let! _ := round_trip KfEncryption in
      let! encrypted_contents := st_lift (ok_or KfEncryption (key_encrypt encryption_key random)) in
      let! _ := round_trip KfIo in
      let! d := get_device in
      let! _ := set_device (mkDevice _ (is_open d) (db_file d) (Some encrypted_contents) (key_store d)) in
      sret random
  | Some contents =>
      let! _ := round_trip KfIo in
      let! _ := round_trip KfEncryption in
      st_lift (ok_or KfEncryption (key_decrypt encryption_key contents))
  end.

(** [Database::open]: a new file is created if there is none; a file under
    another key cannot be read. *)
Definition Database_open (key : SqlCipherKey) : IO StorageError unit :=
  let! _ := round_trip StorageDatabase in
  let! d := get_device in
  match db_file d with
  | None => set_device (mkDevice _ true (Some (key, no_tables)) (key_file d) (key_store d))
  | Some (k, t) =>
      if decide (k = key) then set_device (mkDevice _ true (Some (k, t)) (key_file d) (key_store d))
      else st_throw StorageDatabase
  end.

(** [DatabaseStorage::open_encrypted_database] and [open].  The key of the key
    store is created when there is none ([new_key]); it is not in use, since the
    only owner of it would be an open database. *)
Definition storage_open (new_key : EncryptionKey) (random : string) : IO StorageError unit :=
  let! d := get_device in
  if is_open d then st_throw AlreadyOpened
  else
    let key_file_key := default new_key (key_store d) in
    let! _ := set_device (mkDevice _ (is_open d) (db_file d) (key_file d) (Some key_file_key)) in
    let! key_bytes := st_map_err StorageKeyFile (get_or_create_key_file key_file_key random) in
    let! key := st_lift (ok_or StorageSqlCipherKey (SqlCipherKey_try_from key_bytes)) in
    Database_open key.

(** [DatabaseStorage::state] *)
Definition storage_state : IO StorageError StorageState :=
  let! d := get_device in
  if is_open d then sret Opened
  else
    let! _ := round_trip StorageIo in
    sret match db_file d with Some _ => Unopened | None => Uninitialized end.

(** An error that is only logged. *)
Definition ignore_error {E F} (m : IO E unit) : IO F unit := λ r,
  match m r with
  | (Panic, r') => (Panic, r')
  | (_, r') => (Ok tt, r')
  end.

(** [DatabaseStorage::clear], with [close_and_delete], [delete_key_file] and the
    deletion of the key *)
Definition storage_clear {E} : IO E unit :=
  let! d := get_device in
  if is_open d then
    let! _ := set_device (mkDevice _ false (db_file d) (key_file d) (key_store d)) in
    let! _ := ignore_error (
      let! _ := round_trip StorageIo in
      let! d := get_device in
      set_device (mkDevice _ (is_open d) None (key_file d) (key_store d))) in
    let! _ := ignore_error (
      let! _ := round_trip KfIo in
      let! d := get_device in
      set_device (mkDevice _ (is_open d) (db_file d) None (key_store d))) in
    ignore_error (
      let! _ := round_trip tt in
      let! d := get_device in
      set_device (mkDevice _ (is_open d) (db_file d) (key_file d) None))
  else sret tt.

(** *** Keyed data *)
Section Keyed.
Context {D : Type} `{!KeyedData D}.
(** [fetch_data], [insert_data] and [update_data] *)
Definition fetch_data : IO StorageError (option D) :=
  let! t := database in
  let! m := statement (λ t, Ok (keyed_data t !! KEY (D:=D))) t in
  match m with
  | None => sret None
  | Some value => let! data := st_lift (ok_or StorageJson (data_from_value value)) in sret (Some data)
  end.
Definition insert_data (data : D) : IO StorageError unit :=
  let! _ := database in
  let! value := st_lift (ok_or StorageJson (data_to_value data)) in
  execute (λ t,
    match keyed_data t !! KEY (D:=D) with
    | Some _ => Err StorageDatabase
    | None => Ok (set_keyed (<[KEY (D:=D) := value]> (keyed_data t)) t)
    end).
Definition update_data (data : D) : IO StorageError unit :=
  let! _ := database in
  let! value := st_lift (ok_or StorageJson (data_to_value data)) in
  execute (λ t,
    Ok (set_keyed (match keyed_data t !! KEY (D:=D) with
                   | Some _ => <[KEY (D:=D) := value]> (keyed_data t)
                   | None => keyed_data t
                   end) t)).
End Keyed.

(** *** Mdocs *)

(** Inserting rows under a primary key; no rows at all is a case of its own. *)
Definition insert_rows {R K} `{!EqDecision K} (key : R → K) (new old : list R) : outcome StorageError (list R) :=
  if decide (new = []) then if insert_no_rows_succeeds then Ok old else Err StorageDatabase
  else if decide (NoDup (key <$> old ++ new)) then Ok (old ++ new) else Err StorageDatabase.

(** The models of [insert_mdocs]; the identifiers are drawn at random. *)
Definition mdoc_models (ids : Z → Uuid) (copy_ids : Z → Z → Uuid) (l : list MdocCopies)
    : outcome StorageError (list (MdocModel * list MdocCopyModel)) :=
  try_map (λ p : Z * MdocCopies,
    let* copy_models := try_map (λ q : Z * Mdoc,
      let* bytes := ok_or (StorageCbor CborSerialization) (mdoc_to_cbor q.2) in
      Ok (mkMdocCopyModel (copy_ids p.1 q.1) 0 (ids p.1) bytes)) (enumerate p.2) in
    let* first := unwrap (head p.2) in
    Ok (mkMdocModel (ids p.1) (m_doc_type first), copy_models))
  (enumerate (filter (λ c, c ≠ []) l)).

(** [insert_mdocs]: the copies refer to rows of [mdoc]. *)
Definition insert_mdocs (ids : Z → Uuid) (copy_ids : Z → Z → Uuid) (l : list MdocCopies) : IO StorageError unit :=
  let! models := st_lift (mdoc_models ids copy_ids l) in
  let! t := database in
  let! _ := round_trip StorageDatabase in
  let! t := statement (λ t, let* rows := insert_rows mm_id models.*1 (mdocs t) in Ok (set_mdocs rows t)) t in
  let! t := statement (λ t,
    let new := mjoin models.*2 in
    let* _ := guard_err (forallb (λ c, bool_decide (mc_mdoc_id c ∈ mm_id <$> mdocs t)) new) StorageDatabase in
    let* rows := insert_rows mc_id new (mdoc_copies t) in
    Ok (set_copies rows t)) t in
  commit t.

(** [increment_mdoc_copies_usage_count] *)
Definition increment_count (ids : list Uuid) (c : MdocCopyModel) : MdocCopyModel :=
  if decide (mc_id c ∈ ids) then mkMdocCopyModel (mc_id c) (disclosure_count c + 1) (mc_mdoc_id c) (mc_mdoc c) else c.
Definition increment_mdoc_copies_usage_count (mdoc_copy_ids : list Uuid) : IO StorageError unit :=
  execute (λ t, Ok (set_copies (increment_count mdoc_copy_ids <$> mdoc_copies t) t)).

(** [query_unique_mdocs]: of every mdoc whose copies are selected, one that has
    been disclosed least. *)
Definition unique_copies (rows : list MdocCopyModel) : list MdocCopyModel :=
  base.omap (λ id, bare_row (filter (λ c, mc_mdoc_id c = id) rows)) (group_order (IndexSet_collect (mc_mdoc_id <$> rows))).
Definition read_copy (model : MdocCopyModel) : outcome StorageError StoredMdocCopy :=
  let* mdoc := ok_or (StorageCbor CborDeserialization) (mdoc_from_cbor (mc_mdoc model)) in
  Ok (mkStoredMdocCopy (mc_mdoc_id model) (mc_id model) mdoc).
Definition query_unique_mdocs (select : Tables → MdocCopyModel → bool) : IO StorageError (list StoredMdocCopy) :=
  let! t := database in
  let! rows := statement (λ t, Ok (unique_copies (filter (λ c, select t c = true) (mdoc_copies t)))) t in
  st_lift (try_map read_copy rows).

(** [fetch_unique_mdocs] and [fetch_unique_mdocs_by_doctypes], the latter joined
    with the table of mdocs *)
Definition fetch_unique_mdocs : IO StorageError (list StoredMdocCopy) := query_unique_mdocs (λ _ _, true).
Definition has_doc_type (doc_types : gset DocType) (t : Tables) (c : MdocCopyModel) : bool :=
  existsb (λ m, bool_decide (mm_id m = mc_mdoc_id c ∧ mm_doc_type m ∈ doc_types)) (mdocs t).
Definition fetch_unique_mdocs_by_doctypes (doc_types : gset DocType) : IO StorageError (list StoredMdocCopy) :=
  query_unique_mdocs (has_doc_type doc_types).

(** *** History *)

(** [TryFrom<WalletEvent> for WalletEventModel], and back from both models *)
Inductive WalletEventModel := IssuanceModel (m : IssuanceEventModel) | DisclosureModel (m : DisclosureEventModel).
Definition model_from_event (source : WalletEvent) : outcome StorageError WalletEventModel :=
  match source with
  | Issuance id mdocs timestamp =>
      let* attributes := ok_or StorageJson (documents_to_value mdocs) in
      Ok (IssuanceModel (mkIssuanceEvent id timestamp attributes))
  | Disclosure id documents timestamp reader_certificate status type =>
      let* attributes := match documents with
                         | None => Ok None
                         | Some d => let* j := ok_or StorageJson (documents_to_value d) in Ok (Some j)
                         end in
      Ok (DisclosureModel (mkDisclosureEvent id timestamp reader_certificate status attributes type))
  end.
Definition event_from_issuance (event : IssuanceEventModel) : outcome StorageError WalletEvent :=
  let* mdocs := ok_or StorageJson (documents_from_value (ie_attributes event)) in
  Ok (Issuance (ie_id event) mdocs (ie_timestamp event)).
Definition event_from_disclosure (event : DisclosureEventModel) : outcome StorageError WalletEvent :=
  let* documents := match de_attributes event with
                    | None => Ok None
                    | Some j => let* d := ok_or StorageJson (documents_from_value j) in Ok (Some d)
                    end in
  Ok (Disclosure (de_id event) documents (de_timestamp event) (relying_party_certificate event) (de_status event) (de_type event)).

(** [insert_doc_types] and [insert_history_event_and_doc_type_mappings]: the
    event, the new document types (unique by identifier and by name), and their
    relation. *)
Definition insert_doc_types (new_doc_types : list HistoryDocTypeModel) (t : Tables) : outcome StorageError Tables :=
  let rows := history_doc_types t ++ new_doc_types in
  let* _ := guard_err (bool_decide (NoDup (hd_id <$> rows) ∧ NoDup (hd_doc_type <$> rows))) StorageDatabase in
  Ok (set_doc_types rows t).
Definition insert_history_event_and_doc_type_mappings (event : WalletEventModel)
    (new_doc_types existing_doc_types : list HistoryDocTypeModel) (t : Tables) : IO StorageError Tables :=
  let mappings id := (λ d, mkEventDocType id (hd_id d)) <$> new_doc_types ++ existing_doc_types in
  let! t := statement (λ t,
    match event with
    | IssuanceModel m => let* rows := insert_rows ie_id [m] (issuance_events t) in Ok (set_issuance rows (issuance_event_doc_types t) t)
    | DisclosureModel m => let* rows := insert_rows de_id [m] (disclosure_events t) in Ok (set_disclosure rows (disclosure_event_doc_types t) t)
    end) t in
  let! t := if decide (new_doc_types = []) then sret t else statement (insert_doc_types new_doc_types) t in
  match event with
  | IssuanceModel m =>
      if decide (mappings (ie_id m) = []) then sret t
      else statement (λ t,
        let* rows := insert_rows (λ r, r) (mappings (ie_id m)) (issuance_event_doc_types t) in
        Ok (set_issuance (issuance_events t) rows t)) t
  | DisclosureModel m =>
      if decide (mappings (de_id m) = []) then sret t
      else statement (λ t,
        let* rows := insert_rows (λ r, r) (mappings (de_id m)) (disclosure_event_doc_types t) in
        Ok (set_disclosure (disclosure_events t) rows t)) t
  end.

(** [log_wallet_event]; [ids] are the identifiers of new document types. *)
Definition log_wallet_event (ids : Z → Uuid) (event : WalletEvent) : IO StorageError unit :=
  let! t := database in
  let! _ := round_trip StorageDatabase in
  let event_doc_types := associated_doc_types event in
  let! existing := statement (λ t, Ok (filter (λ d, hd_doc_type d ∈ event_doc_types) (history_doc_types t))) t in
  let new := (λ p : Z * string, mkHistoryDocType (ids p.1) p.2) <$>
    enumerate (filter (λ dt, dt ∉ hd_doc_type <$> existing) event_doc_types) in
  let! model := st_lift (model_from_event event) in
  let! t := insert_history_event_and_doc_type_mappings model new existing t in
  commit t.

(** [combine_history_events] *)
Definition combine_history_events (issued : list IssuanceEventModel) (disclosed : list DisclosureEventModel)
    : outcome StorageError (list WalletEvent) :=
  let* issuance_events := try_map event_from_issuance issued in
  let* disclosure_events := try_map event_from_disclosure disclosed in
  Ok (sort_by (λ a b, event_timestamp b <=? event_timestamp a) (issuance_events ++ disclosure_events)).

(** [fetch_wallet_events], [fetch_recent_wallet_events] (at the instant [now])
    and [fetch_wallet_events_by_doc_type] with [query_history_events_by_doc_type] *)
Definition fetch_events (select_issuance : Tables → list IssuanceEventModel)
    (select_disclosure : Tables → list DisclosureEventModel) : IO StorageError (list WalletEvent) :=
  let! t := database in
  let! issued := statement (λ t, Ok (order_by_desc ie_timestamp (select_issuance t))) t in
  let! disclosed := statement (λ t, Ok (order_by_desc de_timestamp (select_disclosure t))) t in
  st_lift (combine_history_events issued disclosed).
Definition fetch_wallet_events : IO StorageError (list WalletEvent) := fetch_events issuance_events disclosure_events.
Definition fetch_recent_wallet_events (now : Z) : IO StorageError (list WalletEvent) :=
  fetch_events (λ t, filter (λ e, newer_than_31_days now (ie_timestamp e) = true) (issuance_events t))
    (λ t, filter (λ e, newer_than_31_days now (de_timestamp e) = true) (disclosure_events t)).
Definition join_doc_type {E} (id : E → Uuid) (events : list E) (mappings : list EventDocTypeModel)
    (types : list HistoryDocTypeModel) (doc_type : string) : list E :=
  e ← events; m ← mappings; d ← types;
  if decide (ed_event_id m = id e ∧ ed_doc_type_id m = hd_id d ∧ hd_doc_type d = doc_type) then [e] else [].
Definition fetch_wallet_events_by_doc_type (doc_type : string) : IO StorageError (list WalletEvent) :=
  fetch_events (λ t, join_doc_type ie_id (issuance_events t) (issuance_event_doc_types t) (history_doc_types t) doc_type)
    (λ t, join_doc_type de_id (disclosure_events t) (disclosure_event_doc_types t) (history_doc_types t) doc_type).

(** [did_share_data_with_relying_party] *)
Definition shared_with (certificate : Certificate) (e : DisclosureEventModel) : bool :=
  bool_decide (relying_party_certificate e = certificate ∧ de_status e = StatusSuccess ∧ de_attributes e ≠ None).
Definition did_share_data_with_relying_party (certificate : Certificate) : IO StorageError bool :=
  let! t := database in
  statement (λ t, Ok (existsb (shared_with certificate) (disclosure_events t))) t.
End Storage.
