(* ===== verification/WalletStorageFacts.v ===== *)
(** * Correctness of the database of the wallet

    What each operation does to the tables, whichever calls fail; the invariant
    of the tables; which copies of mdocs are handed out; and what the history
    says. *)
From stdpp Require Import base gmap strings list option sorting.
From Stdlib Require Import ZArith Lia.
From S2P Require Import Prelude IndexMap Crypto Cbor Cose Engagement Mdoc MdocSigning Holder Document WalletStorage.

(** Elements with the same key are the same where keys are distinct. *)
Lemma NoDup_fmap_elem {A B} (f : A → B) (l : list A) x y : NoDup (f <$> l) → x ∈ l → y ∈ l → f x = f y → x = y.
Proof.
  intros Hd [i Hi]%list_elem_of_lookup [j Hj]%list_elem_of_lookup Heq.
  assert (i = j) as ->; [|congruence]. eapply NoDup_lookup; [exact Hd| |]; rewrite list_lookup_fmap; [by rewrite Hi|by rewrite Hj, Heq].
Qed.

Section Facts.
Context `{!Sqlite, !StorageCodec, !PlatformKeys}.
Implicit Types (r : remote Device) (d : Device) (t : Tables).

(** ** Effects *)

(** The tables of the open database. *)
Definition open_tables d : option Tables := if is_open d then snd <$> db_file d else None.
Definition with_tables t d : Device :=
  mkDevice _ (is_open d) ((λ f : SqlCipherKey * Tables, (f.1, t)) <$> db_file d) (key_file d) (key_store d).

Lemma open_with_tables t d t0 : open_tables d = Some t0 → open_tables (with_tables t d) = Some t.
Proof. unfold open_tables, with_tables. cbn. destruct (is_open d), (db_file d); naive_solver. Qed.

Lemma database_inv r o r' : database r = (o, r') → r' = r ∧
  match open_tables (contents r) with
  | Some t => o = Ok t
  | None => o = Err NotOpened ∨ o = Err StorageDatabase
  end.
Proof.
  unfold database, get_device, sbind, st_lift, st_throw, open_tables. destruct (is_open (contents r)); [|naive_solver].
  destruct (db_file (contents r)) as [[k t]|]; cbn; naive_solver.
Qed.

Lemma bind_database {A} (k : Tables → ST (remote Device) StorageError A) r o r' : sbind database k r = (o, r') →
  (∃ e, open_tables (contents r) = None ∧ o = Err e ∧ r' = r) ∨ ∃ t, open_tables (contents r) = Some t ∧ k t r = (o, r').
Proof.
  intros [(t & r1 & Hd & Hk)|[(e & Hd & ->)|[Hd ->]]]%st_bind_inv; apply database_inv in Hd as [-> Hd];
    destruct (open_tables (contents r)) as [t'|]; naive_solver.
Qed.

Lemma bind_on_tables {A B} (f : Tables → outcome StorageError B) t (k : B → ST (remote Device) StorageError A) r o r' :
  sbind (statement f t) k r = (o, r') →
  (contents r' = contents r ∧ ((∃ e, o = Err e) ∨ f t = Panic ∧ o = Panic)) ∨
  ∃ b r1, f t = Ok b ∧ contents r1 = contents r ∧ k b r1 = (o, r').
Proof.
  unfold statement, sbind, st_lift. destruct (round_trip StorageDatabase r) as [x r0] eqn:Hrt.
  apply round_trip_contents in Hrt as [Hc [-> | ->]].
  - destruct (f t) as [b|e|]; [right; by eexists _, _|intros [= <- <-]; eauto..].
  - intros [= <- <-]. eauto.
Qed.

Lemma bind_round_trip {A E} (e : E) (k : unit → ST (remote Device) E A) r o r' : sbind (round_trip e) k r = (o, r') →
  (contents r' = contents r ∧ o = Err e) ∨ ∃ r1, contents r1 = contents r ∧ k tt r1 = (o, r').
Proof.
  unfold sbind. destruct (round_trip e r) as [x r0] eqn:Hrt. apply round_trip_contents in Hrt as [Hc [-> | ->]]; naive_solver.
Qed.

Lemma bind_st_lift {A B E} (m : outcome E B) (k : B → ST (remote Device) E A) r o r' : sbind (st_lift m) k r = (o, r') →
  (r' = r ∧ ((∃ e, o = Err e) ∨ m = Panic ∧ o = Panic)) ∨ ∃ b, m = Ok b ∧ k b r = (o, r').
Proof. unfold sbind, st_lift. destruct m as [b|e|]; naive_solver. Qed.

Lemma write_tables_eq {E} t r : write_tables (E:=E) t r = (Ok tt, Prelude.Remote (with_tables t (contents r)) (faults r)).
Proof. done. Qed.

Lemma commit_inv t r o r' : commit t r = (o, r') →
  (contents r' = contents r ∧ o = Err StorageDatabase) ∨ contents r' = with_tables t (contents r) ∧ o = Ok tt.
Proof.
  intros [[-> ->]|(r1 & Hc & Hk)]%bind_round_trip; [by left|]. rewrite write_tables_eq in Hk. injection Hk as <- <-. right. by rewrite Hc.
Qed.

(** An operation either leaves the device alone, without success, or makes a
    change [f] of the tables. *)
Definition changes (f : Tables → outcome StorageError Tables) (m : ST (remote Device) StorageError unit) : Prop :=
  ∀ r o r', m r = (o, r') →
    (contents r' = contents r ∧ ((∃ e, o = Err e) ∨ o = Panic ∧ ∃ t, open_tables (contents r) = Some t ∧ f t = Panic)) ∨
    ∃ t t', open_tables (contents r) = Some t ∧ f t = Ok t' ∧ contents r' = with_tables t' (contents r) ∧ o = Ok tt.

Lemma execute_changes f : changes f (execute f).
Proof.
  intros r o r' [(e & Ho & -> & ->)|(t & Ht & Hr)]%bind_database; [eauto|].
  apply bind_on_tables in Hr as [[Hc [?|[Hp ->]]]|(t' & r1 & Hf & Hc & Hw)]; [eauto..|eauto 10|].
  rewrite write_tables_eq in Hw. injection Hw as <- <-. right. exists t, t'. by rewrite Hc.
Qed.

(** Without faults an operation that makes a change makes it. *)
Lemma insert_data_changes {D} `{!KeyedData D} (data : D) : changes (λ t,
  let* value := ok_or StorageJson (data_to_value data) in
  match keyed_data t !! KEY (D:=D) with
  | Some _ => Err StorageDatabase
  | None => Ok (set_keyed (<[KEY (D:=D) := value]> (keyed_data t)) t)
  end) (insert_data data).
Proof.
  intros r o r' [(e & Ho & -> & ->)|(t & Ht & Hr)]%bind_database; [eauto|].
  apply bind_st_lift in Hr as [[-> [?|[Hp ->]]]|(v & Hv & Hr)]; [eauto|by destruct (data_to_value data)|].
  apply execute_changes in Hr. by rewrite Hv.
Qed.
Lemma update_data_changes {D} `{!KeyedData D} (data : D) : changes (λ t,
  let* value := ok_or StorageJson (data_to_value data) in
  Ok (set_keyed (match keyed_data t !! KEY (D:=D) with
                 | Some _ => <[KEY (D:=D) := value]> (keyed_data t)
                 | None => keyed_data t
                 end) t)) (update_data data).
Proof.
  intros r o r' [(e & Ho & -> & ->)|(t & Ht & Hr)]%bind_database; [eauto|].
  apply bind_st_lift in Hr as [[-> [?|[Hp ->]]]|(v & Hv & Hr)]; [eauto|by destruct (data_to_value data)|].
  apply execute_changes in Hr. by rewrite Hv.
Qed.

Definition inserted_mdocs (ids : Z → Uuid) (copy_ids : Z → Z → Uuid) (l : list MdocCopies) t : outcome StorageError Tables :=
  let* models := mdoc_models ids copy_ids l in
  let* rows := insert_rows mm_id models.*1 (mdocs t) in
  let t := set_mdocs rows t in
  let new := mjoin models.*2 in
  let* _ := guard_err (forallb (λ c, bool_decide (mc_mdoc_id c ∈ mm_id <$> mdocs t)) new) StorageDatabase in
  let* rows := insert_rows mc_id new (mdoc_copies t) in
  Ok (set_copies rows t).

(** [insert_rows] does not panic. *)
Lemma insert_rows_no_panic {R K} `{!EqDecision K} (key : R → K) new old : insert_rows key new old ≠ Panic.
Proof. unfold insert_rows. repeat case_goal; done. Qed.

Lemma insert_mdocs_changes ids copy_ids l : mdoc_models ids copy_ids l ≠ Panic →
  changes (inserted_mdocs ids copy_ids l) (insert_mdocs ids copy_ids l).
Proof.
  intros Hnp r o r' [[-> [?|[Hp ->]]]|(models & Hm & Hr)]%bind_st_lift; [by eauto|done|].
  unfold inserted_mdocs. rewrite Hm. cbn [obind].
  apply bind_database in Hr as [(e & Ho & -> & ->)|(t & Ht & Hr)]; [by eauto|].
  apply bind_round_trip in Hr as [[Hc ->]|(r1 & Hc1 & Hr)]; [by eauto|].
  apply bind_on_tables in Hr as [[Hc Ho]|(t1 & r2 & Hf1 & Hc2 & Hr)].
  { left. rewrite Hc, Hc1. split; [done|]. destruct Ho as [?|[Hp ->]]; [by left|]. exfalso.
    apply bind_Panic in Hp as [Hp|(? & _ & ?)]; [|done]. by eapply insert_rows_no_panic. }
  apply bind_on_tables in Hr as [[Hc Ho]|(t2 & r3 & Hf2 & Hc3 & Hr)].
  { left. rewrite Hc, Hc2, Hc1. split; [done|]. destruct Ho as [?|[Hp ->]]; [by left|]. exfalso.
    apply bind_Panic in Hp as [Hp|(? & _ & Hp)]; [by apply guard_err_Panic in Hp|].
    apply bind_Panic in Hp as [Hp|(? & _ & ?)]; [|done]. by eapply insert_rows_no_panic. }
  apply commit_inv in Hr as [[Hc ->]|[Hc ->]].
  { left. rewrite Hc, Hc3, Hc2, Hc1. eauto. }
  right. exists t, t2. split_and!; [done| |by rewrite Hc, Hc3, Hc2, Hc1|done].
  apply bind_Ok in Hf1 as (rows & Hrows & [= <-]). rewrite Hrows. cbn [obind]. exact Hf2.
Qed.

(** The new and the existing document types of an event. *)
Definition existing_types (event : WalletEvent) t : list HistoryDocTypeModel :=
  filter (λ x : HistoryDocTypeModel, hd_doc_type x ∈ associated_doc_types event) (history_doc_types t).
Definition new_types (ids : Z → Uuid) (event : WalletEvent) t : list HistoryDocTypeModel :=
  (λ p : Z * string, mkHistoryDocType (ids p.1) p.2) <$>
    enumerate (filter (λ dt, dt ∉ hd_doc_type <$> existing_types event t) (associated_doc_types event)).
Definition event_mappings (ids : Z → Uuid) (event : WalletEvent) t (id : Uuid) : list EventDocTypeModel :=
  (λ x : HistoryDocTypeModel, mkEventDocType id (hd_id x)) <$> new_types ids event t ++ existing_types event t.

(** What logging an event does to the tables. *)
Definition logged_event (ids : Z → Uuid) (event : WalletEvent) t : outcome StorageError Tables :=
  let* model := model_from_event event in
  let* t1 := match model with
             | IssuanceModel m => let* rows := insert_rows ie_id [m] (issuance_events t) in Ok (set_issuance rows (issuance_event_doc_types t) t)
             | DisclosureModel m => let* rows := insert_rows de_id [m] (disclosure_events t) in Ok (set_disclosure rows (disclosure_event_doc_types t) t)
             end in
  let* t2 := if decide (new_types ids event t = []) then Ok t1 else insert_doc_types (new_types ids event t) t1 in
  match model with
  | IssuanceModel m =>
      if decide (event_mappings ids event t (ie_id m) = []) then Ok t2
      else let* rows := insert_rows (λ x : EventDocTypeModel, x) (event_mappings ids event t (ie_id m)) (issuance_event_doc_types t2) in
           Ok (set_issuance (issuance_events t2) rows t2)
  | DisclosureModel m =>
      if decide (event_mappings ids event t (de_id m) = []) then Ok t2
      else let* rows := insert_rows (λ x : EventDocTypeModel, x) (event_mappings ids event t (de_id m)) (disclosure_event_doc_types t2) in
           Ok (set_disclosure (disclosure_events t2) rows t2)
  end.

(** A computation on the tables that only reads the device. *)
Definition reads {A} (f : outcome StorageError A) (m : ST (remote Device) StorageError A) : Prop :=
  f ≠ Panic ∧ ∀ r o r', m r = (o, r') → contents r' = contents r ∧ ((∃ e, o = Err e) ∨ o = f).

Lemma reads_statement {A} (f : Tables → outcome StorageError A) t : f t ≠ Panic → reads (f t) (statement f t).
Proof.
  intros Hp. split; [done|]. intros r o r' Hr.
  assert (sbind (statement f t) sret r = (o, r')) as Hb by (unfold sbind; rewrite Hr; by destruct o).
  apply bind_on_tables in Hb as [[Hc Ho]|(b & r1 & Hf & Hc & [= <- <-])]; [|by rewrite Hf; eauto].
  split; [done|]. destruct Ho as [?|[? ?]]; [by left|done].
Qed.
Lemma reads_statement_eq {A} (f : Tables → outcome StorageError A) t g : f t = g → g ≠ Panic → reads g (statement f t).
Proof. intros <-. apply reads_statement. Qed.
Lemma reads_ret {A} (a : A) : reads (Ok a) (sret a).
Proof. split; [done|]. intros r o r' [= <- <-]. eauto. Qed.
Lemma reads_lift {A} (f : outcome StorageError A) : f ≠ Panic → reads f (st_lift f).
Proof. intros Hp. split; [done|]. intros r o r' [= <- <-]. eauto. Qed.
Lemma reads_bind {A B} (f : outcome StorageError A) (g : A → outcome StorageError B) m k :
  reads f m → (∀ a, f = Ok a → reads (g a) (k a)) → reads (let* a := f in g a) (let! a := m in k a).
Proof.
  intros [Hfp Hm] Hk. split.
  { destruct f as [a| |]; cbn; [by apply Hk|done..]. }
  intros r o r' [(a & r1 & Ha & Hr)|[(e & He & ->)|[Hp ->]]]%st_bind_inv.
  - destruct (Hm _ _ _ Ha) as [Hc [[e [=]]|<-]]. destruct (Hk a eq_refl) as [_ Hka]. destruct (Hka _ _ _ Hr) as [Hc' Ho].
    split; [by rewrite Hc'|done].
  - destruct (Hm _ _ _ He) as [Hc _]. eauto.
  - destruct (Hm _ _ _ Hp) as [Hc [[e [=]]|<-]]. done.
Qed.

Lemma insert_event_reads model new existing t : 
  reads (
    let* t1 := match model with
               | IssuanceModel m => let* rows := insert_rows ie_id [m] (issuance_events t) in Ok (set_issuance rows (issuance_event_doc_types t) t)
               | DisclosureModel m => let* rows := insert_rows de_id [m] (disclosure_events t) in Ok (set_disclosure rows (disclosure_event_doc_types t) t)
               end in
    let* t2 := if decide (new = []) then Ok t1 else insert_doc_types new t1 in
    match model with
    | IssuanceModel m =>
        let mappings := (λ x : HistoryDocTypeModel, mkEventDocType (ie_id m) (hd_id x)) <$> new ++ existing in
        if decide (mappings = []) then Ok t2
        else let* rows := insert_rows (λ x : EventDocTypeModel, x) mappings (issuance_event_doc_types t2) in Ok (set_issuance (issuance_events t2) rows t2)
    | DisclosureModel m =>
        let mappings := (λ x : HistoryDocTypeModel, mkEventDocType (de_id m) (hd_id x)) <$> new ++ existing in
        if decide (mappings = []) then Ok t2
        else let* rows := insert_rows (λ x : EventDocTypeModel, x) mappings (disclosure_event_doc_types t2) in Ok (set_disclosure (disclosure_events t2) rows t2)
    end) (insert_history_event_and_doc_type_mappings model new existing t).
Proof.
  assert (∀ {R K} `{!EqDecision K} (key : R → K) n old (h : list R → Tables),
    (let* rows := insert_rows key n old in Ok (h rows)) ≠ Panic) as Hins.
  { intros R K ? key n old h Hp. apply bind_Panic in Hp as [Hp|(? & _ & ?)]; [|done]. by eapply insert_rows_no_panic. }
  unfold insert_history_event_and_doc_type_mappings. apply reads_bind.
  { apply reads_statement_eq; [done|]. destruct model; apply Hins. }
  intros t1 _. apply reads_bind.
  { case_decide; [apply reads_ret|]. apply reads_statement. unfold insert_doc_types. intros Hp.
    apply bind_Panic in Hp as [Hp|(? & _ & ?)]; [by apply guard_err_Panic in Hp|done]. }
  intros t2 _. destruct model as [m|m]; cbn zeta; (destruct (decide _); [apply reads_ret|]).
  - apply reads_statement_eq; [done|]. apply Hins.
  - apply reads_statement_eq; [done|]. apply Hins.
Qed.

Lemma model_from_event_no_panic event : model_from_event event ≠ Panic.
Proof. destruct event as [??? | ? [?|] ????]; cbn; try destruct (documents_to_value _); done. Qed.

Lemma log_wallet_event_changes ids event : changes (logged_event ids event) (log_wallet_event ids event).
Proof.
  intros r o r' [(e & Ho & -> & ->)|(t & Ht & Hr)]%bind_database; [by eauto|].
  apply bind_round_trip in Hr as [[Hc ->]|(r1 & Hc1 & Hr)]; [by eauto|].
  apply bind_on_tables in Hr as [[Hc [?|[? ?]]]|(existing & r2 & [= <-] & Hc2 & Hr)]; [rewrite Hc, Hc1; by eauto|done|].
  apply bind_st_lift in Hr as [[-> [?|[Hp ->]]]|(model & Hm & Hr)];
    [rewrite Hc2, Hc1; by eauto|by apply model_from_event_no_panic in Hp|].
  apply st_bind_inv in Hr as [(t' & r3 & Hi & Hr)|Hi].
  - destruct (insert_event_reads model (new_types ids event t) (existing_types event t) t) as [_ Hins].
    apply Hins in Hi as [Hc3 [[e [=]]|Hi]].
    apply commit_inv in Hr as [[Hc ->]|[Hc ->]]; [rewrite Hc, Hc3, Hc2, Hc1; by eauto|].
    right. exists t, t'. split_and!; [done| |by rewrite Hc, Hc3, Hc2, Hc1|done].
    unfold logged_event. rewrite Hm. cbn [obind]. rewrite Hi. by destruct model.
  - left. destruct (insert_event_reads model (new_types ids event t) (existing_types event t) t) as [Hnp Hins].
    destruct Hi as [(e & Hi & ->)|[Hi ->]]; apply Hins in Hi as [Hc Ho]; rewrite Hc, Hc2, Hc1; [by eauto|].
    destruct Ho as [[e [=]]|Ho]. by rewrite <- Ho in Hnp.
Qed.

(** ** The invariant *)

(** Events, document types and the relation between them: the relation holds
    exactly between an event and the types of its documents. *)
Section History.
Context {Event : Type} (id : Event → Uuid) (types_of : Event → option (list string)).

Definition related (mappings : list EventDocTypeModel) (types : list HistoryDocTypeModel) (e : Event) (dt : string) : Prop :=
  ∃ m x, m ∈ mappings ∧ x ∈ types ∧ ed_event_id m = id e ∧ ed_doc_type_id m = hd_id x ∧ hd_doc_type x = dt.
Record history_ok (events : list Event) (mappings : list EventDocTypeModel) (types : list HistoryDocTypeModel) : Prop := {
  ho_ids : NoDup (id <$> events);
  ho_mappings : NoDup mappings;
  ho_refer m : m ∈ mappings → ed_event_id m ∈ id <$> events ∧ ed_doc_type_id m ∈ hd_id <$> types;
  ho_types e : e ∈ events → ∃ dts, types_of e = Some dts ∧ ∀ dt, dt ∈ dts ↔ related mappings types e dt
}.

Lemma history_nil : history_ok [] [] [].
Proof. split; [constructor..| |]; by intros ? ?%elem_of_nil. Qed.

(** More document types, for events of the other kind. *)
Lemma history_grow events mappings types new : NoDup (hd_id <$> types ++ new) →
  history_ok events mappings types → history_ok events mappings (types ++ new).
Proof.
  rewrite fmap_app. intros (_ & Hd & _)%NoDup_app [Hi Hm Hr Ht]. split; [done..| |].
  - intros m Hin. destruct (Hr _ Hin) as [??]. rewrite fmap_app, elem_of_app. auto.
  - intros e He. destruct (Ht _ He) as (dts & Hdts & Hiff). exists dts. split; [done|]. intros dt. rewrite Hiff.
    split; intros (m & x & Hmin & Hx & Hrest); exists m, x; (split; [done|]); (split; [|done]).
    + apply elem_of_app. by left.
    + apply elem_of_app in Hx as [Hx|Hx]; [done|]. exfalso. destruct Hrest as (_ & Hdt & _).
      eapply Hd; [apply (Hr _ Hmin)|]. rewrite Hdt. apply list_elem_of_fmap. by exists x.
Qed.

(** A new event with the relation to its types. *)
Lemma history_add events mappings types new existing e dts :
  history_ok events mappings types → NoDup (hd_id <$> types ++ new) → NoDup (id <$> events ++ [e]) →
  (∀ x, x ∈ existing → x ∈ types) → types_of e = Some dts → (∀ dt, dt ∈ dts ↔ dt ∈ hd_doc_type <$> new ++ existing) →
  let ms := (λ x : HistoryDocTypeModel, mkEventDocType (id e) (hd_id x)) <$> new ++ existing in
  NoDup (mappings ++ ms) →
  history_ok (events ++ [e]) (mappings ++ ms) (types ++ new).
Proof.
  intros Hok Hid He Hex Hto Hdts ms Hms. pose proof (history_grow _ _ _ _ Hid Hok) as [_ _ Hr Ht].
  assert (id e ∉ id <$> events) as Hfresh by (rewrite fmap_app, NoDup_app in He; set_solver).
  assert (∀ x, x ∈ new ++ existing → x ∈ types ++ new) as Hsub by (intros x; rewrite !elem_of_app; naive_solver).
  split; [done..| |].
  - intros m [Hm|Hm]%elem_of_app; rewrite fmap_app, elem_of_app; [destruct (Hr _ Hm); tauto|].
    apply list_elem_of_fmap in Hm as (x & -> & Hx). cbn. split; [right; by left|]. apply list_elem_of_fmap. eauto.
  - intros e' [He'| ->%list_elem_of_singleton]%elem_of_app.
    + destruct (Ht _ He') as (dts' & ? & Hiff). exists dts'. split; [done|]. intros dt. rewrite Hiff.
      split; intros (m & x & Hm & Hx & Heq & Hrest); exists m, x; (split; [|done]); [apply elem_of_app; by left|].
      apply elem_of_app in Hm as [Hm|Hm]; [done|]. apply list_elem_of_fmap in Hm as (y & -> & _). cbn in Heq. exfalso.
      apply Hfresh. rewrite Heq. apply list_elem_of_fmap. eauto.
    + exists dts. split; [done|]. intros dt. rewrite Hdts. rewrite list_elem_of_fmap. split.
      * intros (x & -> & Hx). exists (mkEventDocType (id e) (hd_id x)), x. split_and!; [|auto|done..].
        apply elem_of_app. right. apply list_elem_of_fmap. eauto.
      * intros (m & x & [Hm|Hm]%elem_of_app & Hx & Heq & Hdt & <-).
        { exfalso. apply Hfresh. rewrite <- Heq. apply (ho_refer _ _ _ Hok _ Hm). }
        apply list_elem_of_fmap in Hm as (y & -> & Hy). cbn in Hdt. exists x. split; [done|].
        assert (x = y) as ->; [|done]. eapply (NoDup_fmap_elem hd_id); [exact Hid|done|by apply Hsub|done].
Qed.
End History.

(** The document types in a row of the history. *)
Definition issuance_types (e : IssuanceEventModel) : option (list string) :=
  (λ l : EventDocuments, l.*1) <$> documents_from_value (ie_attributes e).
Definition disclosure_types (e : DisclosureEventModel) : option (list string) :=
  match de_attributes e with
  | None => Some []
  | Some j => (λ l : EventDocuments, l.*1) <$> documents_from_value j
  end.

(** A copy belongs to a row of [mdoc], holds an mdoc of its type, and has been
    counted up from zero. *)
Definition copy_ok t (c : MdocCopyModel) : Prop :=
  0 ≤ disclosure_count c ∧
  ∃ m mdoc, m ∈ mdocs t ∧ mm_id m = mc_mdoc_id c ∧ mdoc_from_cbor (mc_mdoc c) = Some mdoc ∧ m_doc_type mdoc = mm_doc_type m.

Record tables_ok t : Prop := {
  to_mdocs : NoDup (mm_id <$> mdocs t);
  to_copies : NoDup (mc_id <$> mdoc_copies t);
  to_copy c : c ∈ mdoc_copies t → copy_ok t c;
  to_types : NoDup (hd_id <$> history_doc_types t) ∧ NoDup (hd_doc_type <$> history_doc_types t);
  to_issuance : history_ok ie_id issuance_types (issuance_events t) (issuance_event_doc_types t) (history_doc_types t);
  to_disclosure : history_ok de_id disclosure_types (disclosure_events t) (disclosure_event_doc_types t) (history_doc_types t)
}.

Lemma empty_tables_ok : tables_ok no_tables.
Proof. split; cbn; [constructor|constructor|by intros ? ?%elem_of_nil|split; constructor|apply history_nil..]. Qed.

Lemma set_keyed_ok m t : tables_ok t → tables_ok (set_keyed m t).
Proof. by intros []. Qed.

Lemma increment_count_id ids c : mc_id (increment_count ids c) = mc_id c ∧ mc_mdoc_id (increment_count ids c) = mc_mdoc_id c ∧
  mc_mdoc (increment_count ids c) = mc_mdoc c ∧
  disclosure_count (increment_count ids c) = disclosure_count c + (if decide (mc_id c ∈ ids) then 1 else 0).
Proof. unfold increment_count. case_decide; cbn; split_and!; done || lia. Qed.

Lemma increment_ok ids t : tables_ok t → tables_ok (set_copies (increment_count ids <$> mdoc_copies t) t).
Proof.
  intros [Hm Hc Hco Hty Hi Hd]. split; cbn; [done| | |done..].
  - rewrite <- list_fmap_compose. erewrite (list_fmap_ext _ mc_id); [done|]. intros i c _. apply increment_count_id.
  - intros c' (c & -> & Hin)%list_elem_of_fmap. destruct (Hco _ Hin) as [Hpos Hrest]. unfold copy_ok in *. cbn.
    destruct (increment_count_id ids c) as (_ & -> & -> & ->). split; [case_decide; lia|done].
Qed.

(** [insert_rows] appends. *)
Lemma insert_rows_Ok {R K} `{!EqDecision K} (key : R → K) new old rows :
  insert_rows key new old = Ok rows → rows = old ++ new ∧ (NoDup (key <$> old) → NoDup (key <$> rows)).
Proof.
  unfold insert_rows. destruct (decide (new = [])) as [->|_].
  - destruct insert_no_rows_succeeds; intros [= <-]. by rewrite app_nil_r.
  - case_decide; intros [= <-]. auto.
Qed.

(** The copies of one mdoc are of one type. *)
Definition uniform (l : list MdocCopies) : Prop :=
  Forall (λ copies, ∀ m m', m ∈ copies → m' ∈ copies → m_doc_type m = m_doc_type m') l.

Lemma mdoc_models_Ok ids copy_ids l models : mdoc_models ids copy_ids l = Ok models → uniform l →
  Forall (λ p : MdocModel * list MdocCopyModel, Forall (λ c, disclosure_count c = 0 ∧ mc_mdoc_id c = mm_id p.1 ∧
    ∃ mdoc, mdoc_from_cbor (mc_mdoc c) = Some mdoc ∧ m_doc_type mdoc = mm_doc_type p.1) p.2) models.
Proof.
  unfold mdoc_models. intros Hm Hu. apply try_map_Ok in Hm.
  assert (Forall (λ p : Z * MdocCopies, ∀ m m', m ∈ p.2 → m' ∈ p.2 → m_doc_type m = m_doc_type m') (enumerate (filter (λ c, c ≠ []) l))) as Hu'.
  { apply Forall_forall. intros p Hp%(list_elem_of_fmap_2 snd). unfold enumerate in Hp. rewrite enumerate_from_snd in Hp.
    apply list_elem_of_filter in Hp as [_ Hp]. unfold uniform in Hu. rewrite Forall_forall in Hu. by apply Hu. }
  induction Hm as [|[i copies] [m cs] ? ? Hx _ IH]; [constructor|]. apply Forall_cons in Hu' as [Hc Hu'].
  constructor; [|by apply IH]. cbn [fst snd] in *. apply bind_Ok in Hx as (cs' & Hcs & Hx).
  apply bind_Ok in Hx as (first & Hfirst%unwrap_Ok & [= <- <-]). cbn [mm_id mm_doc_type].
  apply head_Some_elem_of in Hfirst. apply try_map_Ok in Hcs. apply Forall_forall. intros c Hcin.
  apply list_elem_of_lookup in Hcin as [j Hj]. destruct (Forall2_lookup_r _ _ _ _ _ Hcs Hj) as ([k mdoc] & Hk & He). cbn [fst snd] in He.
  apply bind_Ok in He as (b & Hb%ok_or_Ok & [= <-]). cbn. split_and!; [done..|]. exists mdoc. split; [by apply mdoc_cbor_round_trip|].
  apply Hc; [|done]. apply list_elem_of_lookup_2 in Hk. apply (list_elem_of_fmap_2 snd) in Hk. unfold enumerate in Hk. by rewrite enumerate_from_snd in Hk.
Qed.

Lemma inserted_mdocs_ok ids copy_ids l t t' : uniform l → tables_ok t → inserted_mdocs ids copy_ids l t = Ok t' → tables_ok t'.
Proof.
  intros Hu [Hm Hc Hco Hty Hi Hd] Hins. unfold inserted_mdocs in Hins.
  apply bind_Ok in Hins as (models & Hmodels & Hins). apply bind_Ok in Hins as (rows & Hrows & Hins).
  apply insert_rows_Ok in Hrows as [-> Hnd]. apply bind_Ok in Hins as (? & Hfk%guard_err_Ok & Hins).
  apply bind_Ok in Hins as (crows & Hcrows & [= <-]). apply insert_rows_Ok in Hcrows as [-> Hcnd].
  pose proof (mdoc_models_Ok _ _ _ _ Hmodels Hu) as Hmo. split; cbn; [by auto|by auto| |done..].
  intros c [Hin|Hin]%elem_of_app; unfold copy_ok; cbn.
  - destruct (Hco _ Hin) as [? (m & mdoc & ? & Hrest)]. split; [done|]. exists m, mdoc. split; [|done]. apply elem_of_app. by left.
  - apply list_elem_of_join in Hin as (cs & Hin & (p & -> & Hp)%list_elem_of_fmap).
    rewrite Forall_forall in Hmo. pose proof (Hmo _ Hp) as Hcs. rewrite Forall_forall in Hcs.
    destruct (Hcs _ Hin) as (Hz & Hid & mdoc & Hmd & Hdt). split; [lia|]. exists p.1, mdoc.
    split; [|done]. apply elem_of_app. right. apply list_elem_of_fmap. eauto.
Qed.

(** The tables after an event has been logged. *)
Lemma logged_event_Ok ids event t t' : tables_ok t → logged_event ids event t = Ok t' →
  let types := history_doc_types t ++ new_types ids event t in
  NoDup (hd_id <$> types) ∧ NoDup (hd_doc_type <$> types) ∧
  ∃ model, model_from_event event = Ok model ∧
    match model with
    | IssuanceModel m =>
        let ms := event_mappings ids event t (ie_id m) in
        NoDup (ie_id <$> issuance_events t ++ [m]) ∧ NoDup (issuance_event_doc_types t ++ ms) ∧
        t' = set_issuance (issuance_events t ++ [m]) (issuance_event_doc_types t ++ ms) (set_doc_types types t)
    | DisclosureModel m =>
        let ms := event_mappings ids event t (de_id m) in
        NoDup (de_id <$> disclosure_events t ++ [m]) ∧ NoDup (disclosure_event_doc_types t ++ ms) ∧
        t' = set_disclosure (disclosure_events t ++ [m]) (disclosure_event_doc_types t ++ ms) (set_doc_types types t)
    end.
Proof.
  intros [_ _ _ [Hty1 Hty2] Hi Hd] Hl types. unfold logged_event in Hl.
  apply bind_Ok in Hl as (model & Hmodel & Hl). apply bind_Ok in Hl as (t1 & Ht1 & Hl). apply bind_Ok in Hl as (t2 & Ht2 & Hl).
  assert (history_doc_types t1 = history_doc_types t) as Hsame.
  { destruct model; apply bind_Ok in Ht1 as (rows & _ & [= <-]); done. }
  assert (NoDup (hd_id <$> types) ∧ NoDup (hd_doc_type <$> types) ∧ t2 = set_doc_types types t1) as (Hn1 & Hn2 & ->).
  { unfold types. case_decide as Hnew.
    - injection Ht2 as <-. rewrite Hnew, app_nil_r. split_and!; [done..|]. rewrite <- Hsame. by destruct t1.
    - unfold insert_doc_types in Ht2. rewrite Hsame in Ht2. apply bind_Ok in Ht2 as (? & [Ha Hb]%guard_err_Ok%bool_decide_eq_true & [= <-]). done. }
  split; [done|]. split; [done|]. exists model. split; [done|]. destruct model as [m|m];
    apply bind_Ok in Ht1 as (rows & [-> Hrows]%insert_rows_Ok & [= <-]).
  - specialize (Hrows (ho_ids _ _ _ _ _ Hi)). cbn zeta. pose proof (ho_mappings _ _ _ _ _ Hi) as Hmap. case_decide as Hms.
    + injection Hl as <-. rewrite Hms, app_nil_r. done.
    + apply bind_Ok in Hl as (mrows & [-> Hm]%insert_rows_Ok & [= <-]). cbn in *. rewrite !list_fmap_id in Hm. auto.
  - specialize (Hrows (ho_ids _ _ _ _ _ Hd)). cbn zeta. pose proof (ho_mappings _ _ _ _ _ Hd) as Hmap. case_decide as Hms.
    + injection Hl as <-. rewrite Hms, app_nil_r. done.
    + apply bind_Ok in Hl as (mrows & [-> Hm]%insert_rows_Ok & [= <-]). cbn in *. rewrite !list_fmap_id in Hm. auto.
Qed.

(** The related types of a new event are those of its documents. *)
Lemma event_types_related ids event t dt :
  dt ∈ associated_doc_types event ↔ dt ∈ hd_doc_type <$> new_types ids event t ++ existing_types event t.
Proof.
  rewrite fmap_app, elem_of_app. unfold new_types at 1. rewrite <- list_fmap_compose.
  change (hd_doc_type ∘ _) with (snd (A:=Z) (B:=string)). unfold enumerate. rewrite enumerate_from_snd.
  rewrite list_elem_of_filter. split.
  - intros Hdt. destruct (decide (dt ∈ hd_doc_type <$> existing_types event t)); auto.
  - intros [[_ ?]|(x & -> & Hx)%list_elem_of_fmap]; [done|]. by apply list_elem_of_filter in Hx as [? _].
Qed.

Lemma existing_types_sub event t x : x ∈ existing_types event t → x ∈ history_doc_types t.
Proof. by intros [_ ?]%list_elem_of_filter. Qed.

Lemma model_types event model : model_from_event event = Ok model →
  ∃ dts, (match model with IssuanceModel m => issuance_types m | DisclosureModel m => disclosure_types m end) = Some dts ∧
    ∀ dt, dt ∈ dts ↔ dt ∈ associated_doc_types event.
Proof.
  destruct event as [id docs ts|id [docs|] ts cert st ty]; cbn [model_from_event associated_doc_types].
  - intros (j & Hj%ok_or_Ok & [= <-])%bind_Ok. unfold issuance_types. cbn. rewrite (documents_round_trip _ _ Hj).
    eexists. split; [done|]. intros dt. by rewrite IndexSet_elem.
  - intros (a & (j & Hj%ok_or_Ok & [= <-])%bind_Ok & [= <-])%bind_Ok. unfold disclosure_types. cbn.
    rewrite (documents_round_trip _ _ Hj). eexists. split; [done|]. intros dt. by rewrite IndexSet_elem.
  - intros (a & [= <-] & [= <-])%bind_Ok. by exists [].
Qed.

Lemma logged_event_ok ids event t t' : tables_ok t → logged_event ids event t = Ok t' → tables_ok t'.
Proof.
  intros Hok Hl. destruct (logged_event_Ok _ _ _ _ Hok Hl) as (Hid & Hdt & model & Hmodel & Hm).
  destruct (model_types _ _ Hmodel) as (dts & Hdts & Hassoc). destruct Hok as [Hmd Hcp Hco _ Hi Hd].
  destruct model as [m|m]; destruct Hm as (Hn1 & Hn2 & ->); (split; cbn; [done..| |]).
  - eapply history_add; [done..|apply existing_types_sub|exact Hdts| |done]. intros dt. rewrite Hassoc. apply event_types_related.
  - by apply history_grow.
  - by apply history_grow.
  - eapply history_add; [done..|apply existing_types_sub|exact Hdts| |done]. intros dt. rewrite Hassoc. apply event_types_related.
Qed.

(** ** All operations *)

(** A device whose database, if any, is well-formed; an open database exists. *)
Definition device_ok d : Prop :=
  (∀ k t, db_file d = Some (k, t) → tables_ok t) ∧ (is_open d = true → is_Some (db_file d)).

Lemma device_ok_open d t : device_ok d → open_tables d = Some t → tables_ok t.
Proof.
  intros [Hok _]. unfold open_tables. destruct (is_open d); [|done]. destruct (db_file d) as [[k t0]|] eqn:Hf; [|done].
  cbn. intros [= <-]. by eapply Hok.
Qed.
Lemma device_ok_with t d : tables_ok t → device_ok d → device_ok (with_tables t d).
Proof.
  intros Ht [_ Hopen]. split; cbn; [|intros [f ->]%Hopen; by eexists].
  intros k t' ([k0 t0] & _ & [= <- <-])%fmap_Some. done.
Qed.

Lemma changes_ok f m : (∀ t t', tables_ok t → f t = Ok t' → tables_ok t') → (∀ t, f t ≠ Panic) → changes f m →
  ∀ r o r', device_ok (contents r) → m r = (o, r') → device_ok (contents r') ∧ o ≠ Panic.
Proof.
  intros Hf Hnp Hch r o r' Hd [[-> Ho]|(t & t' & Ht & Hft & -> & ->)]%Hch.
  - split; [done|]. destruct Ho as [[e ->]|[-> (t & _ & Hp)]]; [done|by apply Hnp in Hp].
  - split; [|done]. apply device_ok_with; [|done]. eapply Hf; [|done]. by eapply device_ok_open.
Qed.

(** Operations that only read. *)
Definition quiet {A} (m : ST (remote Device) StorageError A) : Prop :=
  ∀ r o r', m r = (o, r') → contents r' = contents r ∧ o ≠ Panic.
Lemma quiet_reads {A} f (m : ST (remote Device) StorageError A) : reads f m → quiet m.
Proof. intros [Hf Hm] r o r' Hr. destruct (Hm _ _ _ Hr) as [Hc [[e ->]| ->]]; done. Qed.
Lemma quiet_database {A} (k : Tables → ST (remote Device) StorageError A) : (∀ t, quiet (k t)) → quiet (sbind database k).
Proof. intros Hk r o r' [(e & _ & -> & ->)|(t & _ & Hr)]%bind_database; [done|by eapply Hk]. Qed.

Lemma mdoc_models_no_panic ids copy_ids l : mdoc_models ids copy_ids l ≠ Panic.
Proof.
  unfold mdoc_models. intros Hp. apply try_map_Panic in Hp as ([i copies] & Hin & Hp). cbn [fst snd] in Hp.
  apply bind_Panic in Hp as [Hp|(cs & _ & Hp)].
  - apply try_map_Panic in Hp as ([j mdoc] & _ & Hp). cbn [snd] in Hp. by destruct (mdoc_to_cbor mdoc).
  - apply bind_Panic in Hp as [Hp%unwrap_Panic|(? & _ & ?)]; [|done].
    apply (list_elem_of_fmap_2 snd) in Hin. unfold enumerate in Hin. rewrite enumerate_from_snd in Hin.
    apply list_elem_of_filter in Hin as [Hne _]. by destruct copies.
Qed.

Lemma inserted_mdocs_no_panic ids copy_ids l t : inserted_mdocs ids copy_ids l t ≠ Panic.
Proof.
  unfold inserted_mdocs. intros [Hp|(models & _ & Hp)]%bind_Panic; [by apply mdoc_models_no_panic in Hp|].
  apply bind_Panic in Hp as [Hp|(? & _ & Hp)]; [by apply insert_rows_no_panic in Hp|].
  apply bind_Panic in Hp as [Hp|(? & _ & Hp)]; [by apply guard_err_Panic in Hp|].
  apply bind_Panic in Hp as [Hp|(? & _ & Hp)]; [by apply insert_rows_no_panic in Hp|done].
Qed.

Lemma logged_event_no_panic ids event t : logged_event ids event t ≠ Panic.
Proof.
  unfold logged_event. intros [Hp|(model & _ & Hp)]%bind_Panic; [by apply model_from_event_no_panic in Hp|].
  destruct (insert_event_reads model (new_types ids event t) (existing_types event t) t) as [Hnp _]. by destruct model.
Qed.

Lemma read_copy_no_panic c : read_copy c ≠ Panic.
Proof. unfold read_copy. by destruct (mdoc_from_cbor (mc_mdoc c)). Qed.
Lemma combine_no_panic issued disclosed : combine_history_events issued disclosed ≠ Panic.
Proof.
  unfold combine_history_events. intros [Hp|(? & _ & Hp)]%bind_Panic.
  - apply try_map_Panic in Hp as (e & _ & Hp). unfold event_from_issuance in Hp. by destruct (documents_from_value _).
  - apply bind_Panic in Hp as [Hp|(? & _ & ?)]; [|done].
    apply try_map_Panic in Hp as (e & _ & Hp). unfold event_from_disclosure in Hp.
    destruct (de_attributes e); [by destruct (documents_from_value _)|done].
Qed.

Lemma query_quiet select : quiet (query_unique_mdocs select).
Proof.
  apply quiet_database. intros t. eapply quiet_reads, reads_bind; [by apply reads_statement_eq|]. intros rows _.
  apply reads_lift. intros (c & _ & Hp)%try_map_Panic. by apply read_copy_no_panic in Hp.
Qed.
Lemma fetch_events_quiet si sd : quiet (fetch_events si sd).
Proof.
  apply quiet_database. intros t. eapply quiet_reads, reads_bind; [by apply reads_statement_eq|]. intros issued _.
  eapply reads_bind; [by apply reads_statement_eq|]. intros disclosed _. apply reads_lift, combine_no_panic.
Qed.

(** The calls that the wallet makes. *)
Inductive storage_call : ∀ {A}, ST (remote Device) StorageError A → Prop :=
  | call_state : storage_call storage_state
  | call_open new_key random : storage_call (storage_open new_key random)
  | call_clear : storage_call storage_clear
  | call_fetch_data {D} `{!KeyedData D} : storage_call (fetch_data (D:=D))
  | call_insert_data {D} `{!KeyedData D} (data : D) : storage_call (insert_data data)
  | call_update_data {D} `{!KeyedData D} (data : D) : storage_call (update_data data)
  | call_insert_mdocs ids copy_ids l : uniform l → storage_call (insert_mdocs ids copy_ids l)
  | call_increment ids : storage_call (increment_mdoc_copies_usage_count ids)
  | call_fetch_mdocs : storage_call fetch_unique_mdocs
  | call_fetch_by_doctypes types : storage_call (fetch_unique_mdocs_by_doctypes types)
  | call_log ids event : storage_call (log_wallet_event ids event)
  | call_fetch_events : storage_call fetch_wallet_events
  | call_fetch_recent now : storage_call (fetch_recent_wallet_events now)
  | call_fetch_by_type dt : storage_call (fetch_wallet_events_by_doc_type dt)
  | call_did_share cert : storage_call (did_share_data_with_relying_party cert).

Lemma statement_quiet {A} (f : Tables → outcome StorageError A) t : f t ≠ Panic → quiet (statement f t).
Proof. intros Hf. eapply quiet_reads. by apply reads_statement. Qed.

Lemma fetch_data_quiet {D} `{!KeyedData D} : quiet (fetch_data (D:=D)).
Proof.
  apply quiet_database. intros t r o r' [[Hc [[e ->]|[? ?]]]|(m & r1 & _ & Hc & Hr)]%bind_on_tables; [done|done|].
  destruct m as [v|]; [|by injection Hr as <- <-].
  apply bind_st_lift in Hr as [[-> [[e ->]|[Hp ->]]]|(x & _ & [= <- <-])]; [done|by destruct (data_from_value v)|done].
Qed.

(** Opening, clearing and asking for the state. *)
Lemma storage_state_ok r o r' : device_ok (contents r) → storage_state r = (o, r') → device_ok (contents r') ∧ o ≠ Panic.
Proof.
  unfold storage_state, get_device. cbn. intros Hd. unfold sbind at 1. destruct (is_open (contents r)); [by intros [= <- <-]|].
  intros [[-> ->]|(r1 & Hc & [= <- <-])]%bind_round_trip; [done|by rewrite Hc].
Qed.

Lemma key_file_ok key random r o r' : get_or_create_key_file key random r = (o, r') →
  o ≠ Panic ∧ is_open (contents r') = is_open (contents r) ∧ db_file (contents r') = db_file (contents r).
Proof.
  intros [[-> ->]|(r1 & Hc1 & Hr)]%bind_round_trip; [done|].
  unfold get_device in Hr. unfold sbind at 1 in Hr. rewrite Hc1 in Hr. destruct (key_file (contents r)) as [c|].
  - apply bind_round_trip in Hr as [[-> ->]|(r2 & Hc2 & Hr)]; [by rewrite Hc1|].
    apply bind_round_trip in Hr as [[-> ->]|(r3 & Hc3 & Hr)]; [by rewrite Hc2, Hc1|].
    injection Hr as <- <-. rewrite Hc3, Hc2, Hc1. split; [by destruct (key_decrypt _ _)|done].
  - apply bind_round_trip in Hr as [[-> ->]|(r2 & Hc2 & Hr)]; [by rewrite Hc1|].
    apply bind_st_lift in Hr as [[-> [[e ->]|[Hp ->]]]|(enc & _ & Hr)];
      [by rewrite Hc2, Hc1|by destruct (key_encrypt _ _)|].
    apply bind_round_trip in Hr as [[-> ->]|(r3 & Hc3 & Hr)]; [by rewrite Hc2, Hc1|].
    injection Hr as <- <-. cbn. by rewrite Hc3, Hc2, Hc1.
Qed.

Lemma database_open_ok key r o r' : device_ok (contents r) → Database_open key r = (o, r') → device_ok (contents r') ∧ o ≠ Panic.
Proof.
  intros [Htabs Hopen] [[-> ->]|(r1 & Hc1 & Hr)]%bind_round_trip; [done|].
  unfold get_device in Hr. unfold sbind in Hr. rewrite Hc1 in Hr. destruct (db_file (contents r)) as [[k t]|] eqn:Hf.
  - destruct (decide (k = key)); injection Hr as <- <-; (split; [|done]); split; cbn; try done; rewrite Hc1, Hf; done.
  - injection Hr as <- <-. split; [|done]. split; cbn; [|done]. intros k' t' Heq. simplify_eq. apply empty_tables_ok.
Qed.

Lemma storage_open_ok new_key random r o r' : device_ok (contents r) → storage_open new_key random r = (o, r') →
  device_ok (contents r') ∧ o ≠ Panic.
Proof.
  intros Hd. unfold storage_open, get_device. unfold sbind at 1. destruct (is_open (contents r)) eqn:Hopen; [by intros [= <- <-]|].
  unfold set_device, set_contents. unfold sbind at 1. intros Hr.
  apply st_bind_inv in Hr as [(bytes & r1 & Hk & Hr)|Hk].
  - unfold st_map_err in Hk. destruct (get_or_create_key_file _ _ _) as [x r2] eqn:Hkf. injection Hk as Hx <-.
    apply key_file_ok in Hkf as (_ & Ho & Hf). cbn in Ho, Hf.
    apply bind_st_lift in Hr as [[-> [[e ->]|[Hp ->]]]|(key & _ & Hr)]; [|by destruct (SqlCipherKey_try_from bytes)|].
    + split; [|done]. split; [rewrite Hf; apply Hd|by rewrite Ho].
    + eapply database_open_ok; [|done]. split; [rewrite Hf; apply Hd|by rewrite Ho].
  - destruct Hk as [(e & Hk & ->)|[Hk ->]]; unfold st_map_err in Hk;
      destruct (get_or_create_key_file _ _ _) as [x r2] eqn:Hkf; injection Hk as Hx <-; apply key_file_ok in Hkf as (Hnp & Ho & Hf);
      [|by apply map_err_Panic in Hx]. cbn in Ho, Hf. split; [|done]. split; [rewrite Hf; apply Hd|by rewrite Ho].
Qed.

(** One deletion of [clear]: it happens or it does not. *)
Lemma deletion_inv {E F} (e : E) (f : Device → Device) r o r' :
  ignore_error (F:=F) (let! _ := round_trip e in let! d := get_device in set_device (f d)) r = (o, r') →
  o = Ok tt ∧ (contents r' = contents r ∨ contents r' = f (contents r)).
Proof.
  unfold ignore_error, sbind, get_device, set_device, set_contents. destruct (round_trip e r) as [x r1] eqn:Hrt.
  apply round_trip_contents in Hrt as [Hc [-> | ->]]; intros [= <- <-]; cbn; rewrite Hc; auto.
Qed.

Lemma device_ok_closed d : device_ok d → device_ok (mkDevice _ false (db_file d) (key_file d) (key_store d)).
Proof. by intros [? _]. Qed.

Lemma storage_clear_ok {E} r o r' : storage_clear (E:=E) r = (o, r') → device_ok (contents r) → device_ok (contents r') ∧ o = Ok tt ∧
  is_open (contents r') = false.
Proof.
  intros Hr Hd. unfold storage_clear, get_device in Hr. unfold sbind at 1 in Hr.
  destruct (is_open (contents r)) eqn:Hopen; [|by injection Hr as <- <-].
  unfold set_device, set_contents in Hr. unfold sbind at 1 in Hr. fold (@set_contents Device) in Hr.
  assert (∀ d, is_open d = false → device_ok d → device_ok (mkDevice _ (is_open d) None (key_file d) (key_store d)) ∧
    device_ok (mkDevice _ (is_open d) (db_file d) None (key_store d)) ∧ device_ok (mkDevice _ (is_open d) (db_file d) (key_file d) None)) as Hdel
    by (intros [????]; cbn; intros -> [? _]; split_and!; split; cbn; done).
  pose proof (device_ok_closed _ Hd) as Hcl.
  apply st_bind_inv in Hr as [([] & r1 & Hdel1 & Hr)|[(e & Hdel1 & ->)|[Hdel1 ->]]];
    apply (deletion_inv StorageIo (λ d, mkDevice _ (is_open d) None (key_file d) (key_store d))) in Hdel1 as [Ho Hdel1]; [|done..].
  apply st_bind_inv in Hr as [([] & r2 & Hdel2 & Hr)|[(e & Hdel2 & ->)|[Hdel2 ->]]];
    apply (deletion_inv KfIo (λ d, mkDevice _ (is_open d) (db_file d) None (key_store d))) in Hdel2 as [Ho2 Hdel2]; [|done..].
  apply (deletion_inv tt (λ d, mkDevice _ (is_open d) (db_file d) (key_file d) None)) in Hr as [-> Hdel3].
  assert (device_ok (contents r1) ∧ is_open (contents r1) = false) as [Hd1 Hf1] by (destruct Hdel1 as [-> | ->]; (split; [|done]); [done|by apply Hdel]).
  assert (device_ok (contents r2) ∧ is_open (contents r2) = false) as [Hd2 Hf2] by (destruct Hdel2 as [-> | ->]; (split; [|done]); [done|by apply Hdel]).
  destruct Hdel3 as [-> | ->]; (split; [|done]); [done|by apply Hdel].
Qed.

(** Every call keeps the device well-formed and does not panic. *)
Lemma storage_call_ok {A} (m : ST (remote Device) StorageError A) : storage_call m →
  ∀ r o r', device_ok (contents r) → m r = (o, r') → device_ok (contents r') ∧ o ≠ Panic.
Proof.
  assert (∀ B (q : ST (remote Device) StorageError B), quiet q →
    ∀ r o r', device_ok (contents r) → q r = (o, r') → device_ok (contents r') ∧ o ≠ Panic) as Hquiet
    by (intros B q Hq r o r' Hd Hr; destruct (Hq _ _ _ Hr) as [-> ?]; done).
  destruct 1; intros r o r' Hd Hr.
  - by eapply storage_state_ok.
  - by eapply storage_open_ok.
  - destruct (storage_clear_ok _ _ _ Hr Hd) as (? & -> & _). done.
  - eapply Hquiet; [apply fetch_data_quiet|done..].
  - eapply changes_ok; [| |apply insert_data_changes|done..].
    + intros t t' Ht (v & _ & Hv)%bind_Ok. destruct (keyed_data t !! KEY); [done|]. injection Hv as <-. by apply set_keyed_ok.
    + intros t [Hp|(v & _ & Hp)]%bind_Panic; [by destruct (data_to_value data)|by destruct (keyed_data t !! KEY)].
  - eapply changes_ok; [| |apply update_data_changes|done..].
    + intros t t' Ht (v & _ & [= <-])%bind_Ok. by apply set_keyed_ok.
    + intros t [Hp|(v & _ & Hp)]%bind_Panic; [by destruct (data_to_value data)|done].
  - eapply changes_ok; [| |apply insert_mdocs_changes, mdoc_models_no_panic|done..].
    + intros t t' Ht. by apply inserted_mdocs_ok.
    + apply inserted_mdocs_no_panic.
  - eapply changes_ok; [| |apply execute_changes|done..].
    + intros t t' Ht [= <-]. by apply increment_ok.
    + done.
  - eapply Hquiet; [apply query_quiet|done..].
  - eapply Hquiet; [apply query_quiet|done..].
  - eapply changes_ok; [| |apply log_wallet_event_changes|done..].
    + intros t t' Ht. by apply logged_event_ok.
    + apply logged_event_no_panic.
  - eapply Hquiet; [apply fetch_events_quiet|done..].
  - eapply Hquiet; [apply fetch_events_quiet|done..].
  - eapply Hquiet; [apply fetch_events_quiet|done..].
  - eapply Hquiet; [|done..]. apply quiet_database. intros t. by apply statement_quiet.
Qed.

(** A step of the storage: a call, or the end of the process, which closes the
    database. *)
Inductive storage_step : remote Device → remote Device → Prop :=
  | step_call {A} (m : ST (remote Device) StorageError A) r o r' : storage_call m → m r = (o, r') → storage_step r r'
  | step_exit r : storage_step r
      (Prelude.Remote (mkDevice _ false (db_file (contents r)) (key_file (contents r)) (key_store (contents r))) (faults r)).

Definition fresh_device : Device := mkDevice _ false None None None.

Lemma storage_step_ok r r' : storage_step r r' → device_ok (contents r) → device_ok (contents r').
Proof. destruct 1 as [A m r o r' Hm Hr|r]; intros Hd; [by eapply storage_call_ok|by apply device_ok_closed]. Qed.

(** C19. Invariant of the wallet's storage: starting from a fresh device, whatever
    calls are made, whichever of them fail and whenever the process ends, the
    tables of the database are well-formed - identifiers are unique, every copy
    belongs to an mdoc row of its document type and can be read, and an event is
    related to exactly the types of its documents - and no call panics. *)
Theorem storage_invariant fs r : rtc storage_step (Prelude.Remote fresh_device fs) r →
  (∀ k t, db_file (contents r) = Some (k, t) → tables_ok t) ∧
  ∀ A (m : ST (remote Device) StorageError A) o r', storage_call m → m r = (o, r') → o ≠ Panic.
Proof.
  intros Hrun. assert (device_ok (contents r)) as Hok.
  { remember (Prelude.Remote fresh_device fs) as r0 eqn:Hr0.
    assert (device_ok (contents r0)) as Hd0 by (by subst). clear Hr0. induction Hrun as [|r0 r1 r2 Hs _ IH]; [done|].
    apply IH. by eapply storage_step_ok. }
  split; [apply Hok|]. intros A m o r' Hm Hr. by eapply storage_call_ok.
Qed.
End Facts.
