(* ===== verification/WalletStorageQueries.v ===== *)
(** * What the wallet reads from its database

    Which copies of mdocs are handed out for disclosure, and that the history
    holds exactly the events that were logged, under the types of their
    documents. *)
From stdpp Require Import base gmap strings list option sorting.
From Stdlib Require Import ZArith Lia.
From S2P Require Import Prelude IndexMap Crypto Cbor Cose Engagement Mdoc MdocSigning Holder HolderFacts Document WalletStorage WalletStorageFacts.

Section Queries.
Context `{!Sqlite, !StorageCodec, !PlatformKeys}.
Implicit Types (r : remote Device) (d : Device) (t : Tables).

(** A device that does not fail. *)
Definition reliable d : remote Device := Prelude.Remote d [].

Lemma run_database {A} (k : Tables → ST (remote Device) StorageError A) d t : open_tables d = Some t →
  sbind database k (reliable d) = k t (reliable d).
Proof.
  unfold open_tables, database, get_device, sbind, st_lift. cbn. destruct (is_open d); [|done].
  by destruct (db_file d) as [[k0 t0]|]; [intros [= <-]|].
Qed.
Lemma run_on_tables {A B} (f : Tables → outcome StorageError B) t (k : B → ST (remote Device) StorageError A) d b :
  f t = Ok b → sbind (statement f t) k (reliable d) = k b (reliable d).
Proof. intros Hf. unfold statement, sbind, st_lift. cbn. by rewrite Hf. Qed.

(** ** Copies of mdocs *)

(** One row per mdoc, of least count. *)
Lemma unique_copies_spec rows :
  NoDup (mc_mdoc_id <$> unique_copies rows) ∧
  (∀ id, id ∈ mc_mdoc_id <$> unique_copies rows ↔ id ∈ mc_mdoc_id <$> rows) ∧
  ∀ c, c ∈ unique_copies rows → c ∈ rows ∧ ∀ c', c' ∈ rows → mc_mdoc_id c' = mc_mdoc_id c → disclosure_count c ≤ disclosure_count c'.
Proof.
  unfold unique_copies. set (ids := group_order (IndexSet_collect (mc_mdoc_id <$> rows))).
  assert (NoDup ids) as Hnd by (unfold ids; rewrite group_order_perm; apply IndexSet_NoDup).
  assert (∀ id, id ∈ ids ↔ id ∈ mc_mdoc_id <$> rows) as Hids by (intros id; unfold ids; by rewrite group_order_perm, IndexSet_elem).
  set (f := λ id, bare_row (filter (λ c, mc_mdoc_id c = id) rows)).
  assert (∀ id c, f id = Some c → mc_mdoc_id c = id ∧ c ∈ rows ∧
    ∀ c', c' ∈ rows → mc_mdoc_id c' = id → disclosure_count c ≤ disclosure_count c') as Hf.
  { intros id c [[Hid Hc]%list_elem_of_filter Hmin]%bare_row_min. split_and!; [done..|]. intros c' Hc' Hid'. apply Hmin.
    by apply list_elem_of_filter. }
  assert (∀ id, id ∈ ids → is_Some (f id)) as Hsome.
  { intros id (c & -> & Hc)%Hids%list_elem_of_fmap. apply bare_row_some. intros Hnil.
    assert (c ∈ filter (λ c', mc_mdoc_id c' = mc_mdoc_id c) rows) as Hin by (by apply list_elem_of_filter). rewrite Hnil in Hin. by apply elem_of_nil in Hin. }
  assert (mc_mdoc_id <$> base.omap f ids = ids) as Hmap.
  { clear Hnd Hids. induction ids as [|id ids IH]; [done|]. cbn [base.omap list_omap].
    destruct (Hsome id) as [c Hc]; [by left|]. rewrite Hc. cbn. destruct (Hf _ _ Hc) as [-> _]. f_equal. apply IH.
    intros id' Hid'. apply Hsome. by right. }
  rewrite Hmap. split_and!; [done..|]. intros c (id & _ & Hc)%list_elem_of_omap. destruct (Hf _ _ Hc) as (<- & ? & ?). done.
Qed.

Lemma has_doc_type_spec types t c : tables_ok t → c ∈ mdoc_copies t →
  has_doc_type types t c = true ↔ ∃ mdoc, mdoc_from_cbor (mc_mdoc c) = Some mdoc ∧ m_doc_type mdoc ∈ types.
Proof.
  intros Hok Hc. destruct (to_copy _ Hok _ Hc) as [_ (m & mdoc & Hm & Hid & Hmdoc & Hdt)].
  unfold has_doc_type. rewrite existsb_exists. split.
  - intros (m' & Hm'%list_elem_of_In & [Hid' Ht]%bool_decide_eq_true).
    assert (m' = m) as -> by (eapply (NoDup_fmap_elem mm_id); [apply Hok|done|done|congruence]). exists mdoc. by rewrite Hdt.
  - intros (mdoc' & ? & Ht). assert (mdoc' = mdoc) as -> by congruence. exists m.
    split; [by apply list_elem_of_In|]. apply bool_decide_eq_true. by rewrite <- Hdt.
Qed.

Lemma read_rows t rows : tables_ok t → (∀ c, c ∈ rows → c ∈ mdoc_copies t) → ∃ l, try_map read_copy rows = Ok l ∧
  Forall2 (λ c s, mdoc_id s = mc_mdoc_id c ∧ mdoc_copy_id s = mc_id c ∧ mdoc_from_cbor (mc_mdoc c) = Some (smc_mdoc s)) rows l.
Proof.
  intros Hok. induction rows as [|c rows IH]; intros Hsub; [by exists []|].
  destruct (to_copy _ Hok c) as [_ (m & mdoc & _ & _ & Hmdoc & _)]; [apply Hsub; by left|].
  destruct IH as (l & Hl & Hall); [intros; apply Hsub; by right|]. cbn. unfold read_copy at 1. rewrite Hmdoc. cbn. rewrite Hl. cbn.
  eexists. split; [done|]. by constructor.
Qed.

(** The copy that a row describes. *)
Definition row_of t (s : StoredMdocCopy) (c : MdocCopyModel) : Prop :=
  c ∈ mdoc_copies t ∧ mc_id c = mdoc_copy_id s ∧ mc_mdoc_id c = mdoc_id s ∧ mdoc_from_cbor (mc_mdoc c) = Some (smc_mdoc s).

(** The copies with a requested type that the database selects. *)
Definition selected t (types : gset DocType) : list MdocCopyModel :=
  unique_copies (filter (λ c, has_doc_type types t c = true) (mdoc_copies t)).
Definition least_used t (types : gset DocType) (l : list StoredMdocCopy) : Prop :=
  NoDup (mdoc_id <$> l) ∧
  (∀ c, c ∈ mdoc_copies t → (mc_mdoc_id c ∈ mdoc_id <$> l ↔ ∃ mdoc, mdoc_from_cbor (mc_mdoc c) = Some mdoc ∧ m_doc_type mdoc ∈ types)) ∧
  ∀ s, s ∈ l → m_doc_type (smc_mdoc s) ∈ types ∧ ∃ c, row_of t s c ∧
    (∀ c', c' ∈ mdoc_copies t → mc_mdoc_id c' = mdoc_id s → disclosure_count c ≤ disclosure_count c') ∧
    ((∃ c', c' ∈ mdoc_copies t ∧ mc_mdoc_id c' = mdoc_id s ∧ disclosure_count c' = 0) → disclosure_count c = 0).

Lemma selected_least_used t types : tables_ok t → ∃ l, try_map read_copy (selected t types) = Ok l ∧ least_used t types l.
Proof.
  intros Hok. unfold selected. set (rows := filter (λ c, has_doc_type types t c = true) (mdoc_copies t)).
  destruct (unique_copies_spec rows) as (Hnd & Hids & Hmin).
  assert (∀ c, c ∈ unique_copies rows → c ∈ mdoc_copies t) as Hsub by (intros c [[_ ?]%list_elem_of_filter _]%Hmin; done).
  destruct (read_rows t (unique_copies rows) Hok Hsub) as (l & Hl & Hall). exists l.
  assert (mdoc_id <$> l = mc_mdoc_id <$> unique_copies rows) as Hlids.
  { clear -Hall. induction Hall as [|c s ? ? [Hi _] _ IH]; [done|]. cbn. by rewrite Hi, IH. }
  (** All copies of an mdoc have its type. *)
  assert (∀ c c', c ∈ mdoc_copies t → c' ∈ mdoc_copies t → mc_mdoc_id c = mc_mdoc_id c' →
    has_doc_type types t c = true → has_doc_type types t c' = true) as Hsame.
  { intros c c' Hc Hc' Heq. unfold has_doc_type. by rewrite Heq. }
  split; [done|]. split_and!.
  - by rewrite Hlids.
  - intros c Hc. rewrite Hlids, Hids, list_elem_of_fmap, <- has_doc_type_spec by done. split.
    + intros (c' & Heq & [Hty Hc']%list_elem_of_filter). by eapply Hsame; [| |symmetry|].
    + intros Hty. exists c. split; [done|]. by apply list_elem_of_filter.
  - intros s Hs. apply list_elem_of_lookup in Hs as [i Hi]. destruct (Forall2_lookup_r _ _ _ _ _ Hall Hi) as (c & Hc & Hid & Hcid & Hmdoc).
    apply list_elem_of_lookup_2 in Hc. pose proof (Hsub _ Hc) as Hcin. destruct (Hmin _ Hc) as [[Hty _]%list_elem_of_filter Hleast].
    apply has_doc_type_spec in Hty as (mdoc & Hm & Htm); [|done..]. split; [congruence|]. exists c.
    assert (∀ c', c' ∈ mdoc_copies t → mc_mdoc_id c' = mdoc_id s → disclosure_count c ≤ disclosure_count c') as Hle.
    { intros c' Hc' Hid'. apply Hleast; [|congruence]. apply list_elem_of_filter. split; [|done].
      eapply (Hsame c); [done..|congruence|]. apply has_doc_type_spec; [done..|]. eauto. }
    split_and!; [by split_and!|done|]. intros (c' & Hc' & Hid' & Hz). pose proof (Hle _ Hc' Hid').
    destruct (to_copy _ Hok _ Hcin) as [? _]. lia.
Qed.

(** The mdocs that the wallet considers for a disclosure: one copy of every
    stored mdoc that has a requested type, all of requested types, and each of
    them a copy that has been disclosed least often; in particular, while an
    mdoc has a copy that was never disclosed, the copy that is used was never
    disclosed. *)
Theorem least_used_copies d t types : tables_ok t → open_tables d = Some t →
  ∃ l, fetch_unique_mdocs_by_doctypes types (reliable d) = (Ok l, reliable d) ∧
    NoDup (mdoc_id <$> l) ∧
    (∀ c, c ∈ mdoc_copies t → (mc_mdoc_id c ∈ mdoc_id <$> l ↔ ∃ mdoc, mdoc_from_cbor (mc_mdoc c) = Some mdoc ∧ m_doc_type mdoc ∈ types)) ∧
    ∀ s, s ∈ l → m_doc_type (smc_mdoc s) ∈ types ∧ ∃ c, row_of t s c ∧
      (∀ c', c' ∈ mdoc_copies t → mc_mdoc_id c' = mdoc_id s → disclosure_count c ≤ disclosure_count c') ∧
      ((∃ c', c' ∈ mdoc_copies t ∧ mc_mdoc_id c' = mdoc_id s ∧ disclosure_count c' = 0) → disclosure_count c = 0).
Proof.
  intros Hok Ht. destruct (selected_least_used t types Hok) as (l & Hl & Hu). exists l. split; [|done].
  unfold fetch_unique_mdocs_by_doctypes, query_unique_mdocs. rewrite (run_database _ _ _ Ht).
  rewrite (run_on_tables _ _ _ _ (selected t types)) by done. unfold st_lift. by rewrite Hl.
Qed.

(** ** History *)

(** A selection that finds exactly one element. *)
Lemma bind_at_most_one {A B} (l : list A) (f : A → list B) (b : B) : NoDup l →
  (∀ x, x ∈ l → f x = [] ∨ f x = [b]) → (∀ x y, x ∈ l → y ∈ l → f x = [b] → f y = [b] → x = y) →
  (x ← l; f x) = [b] ∧ (∃ x, x ∈ l ∧ f x = [b]) ∨ (x ← l; f x) = [] ∧ ¬ ∃ x, x ∈ l ∧ f x = [b].
Proof.
  induction l as [|x l IH]; intros Hnd Hf Huniq; [right; split; [done|]; by intros (? & ?%elem_of_nil & _)|].
  apply NoDup_cons in Hnd as [Hx Hnd]. rewrite bind_cons.
  assert (x ∈ x :: l) as Hxin by (by left). destruct (Hf x Hxin) as [Hfx|Hfx].
  - rewrite Hfx. cbn [app]. destruct IH as [[-> (y & Hy & Hfy)]|[-> Hno]].
    + done.
    + intros y Hy. apply Hf. by right.
    + intros y z Hy Hz. apply Huniq; by right.
    + left. split; [done|]. exists y. split; [by right|done].
    + right. split; [done|]. intros (y & [->|Hy]%elem_of_cons & Hfy); [congruence|]. eauto.
  - left. rewrite Hfx. assert ((y ← l; f y) = []) as ->; [|split; [done|by exists x]].
    assert (∀ y, y ∈ l → f y = []) as Hnil.
    { intros y Hy. destruct (Hf y) as [?|Hfy]; [by right|done|]. exfalso. apply Hx.
      rewrite (Huniq x y); [done|done|by right|done..]. }
    clear -Hnil. induction l as [|y l IH]; [done|]. rewrite bind_cons, Hnil by (by left). apply IH. intros z Hz. apply Hnil. by right.
Qed.

Lemma related_Exists {Event} (id : Event → Uuid) mappings types e dt : related id mappings types e dt ↔
  Exists (λ m, Exists (λ x, ed_event_id m = id e ∧ ed_doc_type_id m = hd_id x ∧ hd_doc_type x = dt) types) mappings.
Proof.
  rewrite Exists_exists. unfold related. split.
  - intros (m & x & Hm & Hx & Hr). exists m. split; [done|]. apply Exists_exists. eauto.
  - intros (m & Hm & (x & Hx & Hr)%Exists_exists). eauto 10.
Qed.
#[local] Instance related_dec {Event} (id : Event → Uuid) mappings types e dt : Decision (related id mappings types e dt).
Proof.
  refine (cast_if (decide (Exists (λ m, Exists (λ x, ed_event_id m = id e ∧ ed_doc_type_id m = hd_id x ∧ hd_doc_type x = dt) types) mappings)));
    by rewrite related_Exists.
Defined.

(** The join with the document types selects the related events. *)
Lemma join_doc_type_related {Event} (id : Event → Uuid) types_of events mappings types dt :
  history_ok id types_of events mappings types → NoDup (hd_id <$> types) → NoDup (hd_doc_type <$> types) →
  join_doc_type id events mappings types dt = filter (λ e, related id mappings types e dt) events.
Proof.
  intros Hok Hid Hdt. unfold join_doc_type. destruct Hok as [_ Hm _ _]. induction events as [|e events IH]; [done|].
  rewrite bind_cons, filter_cons. rewrite <- IH. clear IH.
  set (g := λ (m : EventDocTypeModel) (x : HistoryDocTypeModel),
    if decide (ed_event_id m = id e ∧ ed_doc_type_id m = hd_id x ∧ hd_doc_type x = dt) then [e] else []).
  assert (∀ m x, g m x = [] ∨ g m x = [e]) as Hg by (intros m x; unfold g; case_decide; auto).
  assert (∀ m x, g m x = [e] ↔ ed_event_id m = id e ∧ ed_doc_type_id m = hd_id x ∧ hd_doc_type x = dt) as Hg1
    by (intros m x; unfold g; case_decide; split; done || naive_solver).
  assert (∀ x y, x ∈ types → y ∈ types → hd_doc_type x = dt → hd_doc_type y = dt → x = y) as Hu
    by (intros; eapply (NoDup_fmap_elem hd_doc_type); [exact Hdt|done..|congruence]).
  assert (∀ m, (x ← types; g m x) = [e] ∧ (∃ x, x ∈ types ∧ g m x = [e]) ∨
    (x ← types; g m x) = [] ∧ ¬ ∃ x, x ∈ types ∧ g m x = [e]) as Hinner.
  { intros m. apply bind_at_most_one; [by eapply NoDup_fmap_1|auto|].
    intros x y Hx Hy (_ & _ & Hxdt)%Hg1 (_ & _ & Hydt)%Hg1. by apply Hu. }
  assert ((m ← mappings; x ← types; g m x) = if decide (related id mappings types e dt) then [e] else []) as Hj; [|unfold g in Hj; rewrite Hj; by case_decide].
  destruct (bind_at_most_one mappings (λ m, x ← types; g m x) e) as [[-> (m & Hmin & Hme)]|[-> Hno]].
  - done.
  - intros m _. destruct (Hinner m) as [[-> _]|[-> _]]; auto.
  - intros m m' Hmi Hmi' Hme Hme'. destruct (Hinner m) as [[_ (x & Hx & Hgx)]|[Hn _]]; [|congruence].
    destruct (Hinner m') as [[_ (y & Hy & Hgy)]|[Hn _]]; [|congruence].
    apply Hg1 in Hgx as (Hev & Hdi & Hxdt). apply Hg1 in Hgy as (Hev' & Hdi' & Hydt).
    assert (x = y) as -> by (by apply Hu). destruct m, m'; cbn in *; congruence.
  - rewrite decide_True; [done|]. destruct (Hinner m) as [[_ (x & Hx & Hgx)]|[Hn _]]; [|congruence].
    apply Hg1 in Hgx as (? & ? & ?). by exists m, x.
  - rewrite decide_False; [done|]. intros (m & x & Hmi & Hx & Hrel). apply Hno. exists m. split; [done|].
    destruct (Hinner m) as [[? _]|[_ Hn]]; [done|]. exfalso. apply Hn. exists x. split; [done|]. by apply Hg1.
Qed.

(** Events read back as they were written. *)
Lemma event_round_trip event model : model_from_event event = Ok model →
  match model with IssuanceModel m => event_from_issuance m | DisclosureModel m => event_from_disclosure m end = Ok event.
Proof.
  destruct event as [id docs ts|id [docs|] ts cert st ty]; cbn [model_from_event].
  - intros (j & Hj%ok_or_Ok & [= <-])%bind_Ok. unfold event_from_issuance. cbn. by rewrite (documents_round_trip _ _ Hj).
  - intros (a & (j & Hj%ok_or_Ok & [= <-])%bind_Ok & [= <-])%bind_Ok. unfold event_from_disclosure. cbn.
    by rewrite (documents_round_trip _ _ Hj).
  - by intros (a & [= <-] & [= <-])%bind_Ok.
Qed.

Lemma issuance_types_event m event dts : issuance_types m = Some dts → event_from_issuance m = Ok event →
  ∀ dt, dt ∈ associated_doc_types event ↔ dt ∈ dts.
Proof.
  unfold issuance_types, event_from_issuance. destruct (documents_from_value (ie_attributes m)) as [docs|]; [|done].
  intros [= <-] [= <-] dt. cbn. by rewrite IndexSet_elem.
Qed.
Lemma disclosure_types_event m event dts : disclosure_types m = Some dts → event_from_disclosure m = Ok event →
  ∀ dt, dt ∈ associated_doc_types event ↔ dt ∈ dts.
Proof.
  unfold disclosure_types, event_from_disclosure. destruct (de_attributes m) as [j|]; cbn.
  - destruct (documents_from_value j) as [docs|]; [|done]. intros [= <-] [= <-] dt. cbn. by rewrite IndexSet_elem.
  - by intros [= <-] [= <-].
Qed.

(** All events of well-formed tables can be read. *)
Lemma events_readable t : tables_ok t → ∃ issued disclosed,
  try_map event_from_issuance (issuance_events t) = Ok issued ∧ try_map event_from_disclosure (disclosure_events t) = Ok disclosed.
Proof.
  intros [_ _ _ _ [_ _ _ Hi] [_ _ _ Hd]].
  assert (∃ issued, try_map event_from_issuance (issuance_events t) = Ok issued) as [issued Hissued].
  { induction (issuance_events t) as [|m l IH]; [by exists []|]. destruct (Hi m) as (dts & Hdts & _); [by left|].
    destruct IH as [issued Hissued]; [intros; apply Hi; by right|]. cbn [try_map]. unfold issuance_types, event_from_issuance in *.
    destruct (documents_from_value (ie_attributes m)); [|done]. cbn. rewrite Hissued. by eexists. }
  assert (∃ disclosed, try_map event_from_disclosure (disclosure_events t) = Ok disclosed) as [disclosed Hdisclosed]; [|by eauto].
  clear Hi Hissued. induction (disclosure_events t) as [|m l IH]; [by exists []|]. destruct (Hd m) as (dts & Hdts & _); [by left|].
  destruct IH as [disclosed Hdisclosed]; [intros; apply Hd; by right|]. cbn [try_map]. unfold disclosure_types, event_from_disclosure in *.
  destruct (de_attributes m) as [j|]; [destruct (documents_from_value j); [|done]|]; cbn; rewrite Hdisclosed; by eexists.
Qed.

Lemma StronglySorted_weaken {A} (R R' : A → A → Prop) l : (∀ a b, R a b → R' a b) → StronglySorted R l → StronglySorted R' l.
Proof. intros HR. induction 1; constructor; [done|]. eapply Forall_impl; [done|]. intros ?. apply HR. Qed.

(** Fetching selected events. *)
Definition newest_first : list WalletEvent → Prop := StronglySorted (λ a b, event_timestamp b ≤ event_timestamp a).
Lemma fetch_events_spec si sd d t issued disclosed : open_tables d = Some t →
  try_map event_from_issuance (si t) = Ok issued → try_map event_from_disclosure (sd t) = Ok disclosed →
  ∃ l, fetch_events si sd (reliable d) = (Ok l, reliable d) ∧ l ≡ₚ issued ++ disclosed ∧ newest_first l.
Proof.
  intros Ht Hi Hd. destruct (try_map_perm _ _ (order_by_desc ie_timestamp (si t)) _ (symmetry (order_by_desc_perm _ _)) Hi) as (is' & Hi' & Hpi).
  destruct (try_map_perm _ _ (order_by_desc de_timestamp (sd t)) _ (symmetry (order_by_desc_perm _ _)) Hd) as (ds' & Hd' & Hpd).
  eexists. unfold fetch_events. rewrite (run_database _ _ _ Ht). rewrite (run_on_tables _ _ _ _ (order_by_desc ie_timestamp (si t))) by done.
  rewrite (run_on_tables _ _ _ _ (order_by_desc de_timestamp (sd t))) by done.
  unfold st_lift, combine_history_events. rewrite Hi', Hd'. cbn [obind]. split; [done|]. split.
  - rewrite sort_by_perm. by rewrite Hpi, Hpd.
  - apply (StronglySorted_weaken (λ a b, Is_true (event_timestamp b <=? event_timestamp a))).
    + intros a b Hab%Is_true_eq_true. by apply Z.leb_le.
    + apply sort_by_sorted.
      * intros x y z ?%Z.leb_le ?%Z.leb_le. apply Z.leb_le. lia.
      * intros x y ?%Z.leb_gt. apply Z.leb_le. lia.
Qed.

Lemma existsb_perm {A} (f : A → bool) l l' : l ≡ₚ l' → existsb f l = existsb f l'.
Proof.
  induction 1 as [|x l l' _ IH|x y l|l1 l2 l3 _ IH1 _ IH2]; cbn; [done|by rewrite IH| |congruence].
  by destruct (f x), (f y).
Qed.

(** An event by which data was shared with the owner of a certificate. *)
Definition shares (certificate : Certificate) (e : WalletEvent) : bool :=
  match e with
  | Disclosure _ (Some _) _ c StatusSuccess _ => bool_decide (c = certificate)
  | _ => false
  end.

(** The history of tables: all events, those of a card, and whether data was
    shared. *)
Lemma history_of t issued disclosed : tables_ok t →
  try_map event_from_issuance (issuance_events t) = Ok issued → try_map event_from_disclosure (disclosure_events t) = Ok disclosed →
  ∀ d, open_tables d = Some t →
  (∃ l, fetch_wallet_events (reliable d) = (Ok l, reliable d) ∧ l ≡ₚ issued ++ disclosed ∧ newest_first l) ∧
  (∀ dt, ∃ card, fetch_wallet_events_by_doc_type dt (reliable d) = (Ok card, reliable d) ∧ newest_first card ∧
     card ≡ₚ filter (λ e, dt ∈ associated_doc_types e) (issued ++ disclosed)) ∧
  (∀ cert, did_share_data_with_relying_party cert (reliable d) = (Ok (existsb (shares cert) (issued ++ disclosed)), reliable d)).
Proof.
  intros Hok Hi Hd d Ht. split_and!; [by eapply fetch_events_spec| |].
  - intros dt. destruct Hok as [_ _ _ [Hid Hdt] Hio Hdo].
    destruct (fetch_events_spec (λ t, join_doc_type ie_id (issuance_events t) (issuance_event_doc_types t) (history_doc_types t) dt)
      (λ t, join_doc_type de_id (disclosure_events t) (disclosure_event_doc_types t) (history_doc_types t) dt) d t
      (filter (λ e, dt ∈ associated_doc_types e) issued) (filter (λ e, dt ∈ associated_doc_types e) disclosed)) as (l & Hl & Hp & Hs); [done| | |].
    + rewrite (join_doc_type_related _ _ _ _ _ _ Hio Hid Hdt). eapply try_map_filter; [|exact Hi]. intros m e Hm He.
      destruct (ho_types _ _ _ _ _ Hio _ Hm) as (dts & Hdts & Hrel). by rewrite <- Hrel, (issuance_types_event _ _ _ Hdts He).
    + rewrite (join_doc_type_related _ _ _ _ _ _ Hdo Hid Hdt). eapply try_map_filter; [|exact Hd]. intros m e Hm He.
      destruct (ho_types _ _ _ _ _ Hdo _ Hm) as (dts & Hdts & Hrel). by rewrite <- Hrel, (disclosure_types_event _ _ _ Hdts He).
    + exists l. split; [done|]. split; [done|]. by rewrite filter_app.
  - intros cert. unfold did_share_data_with_relying_party. rewrite (run_database _ _ _ Ht). unfold statement, sbind, st_lift. cbn.
    rewrite existsb_app. assert (existsb (shares cert) issued = false) as ->.
    { apply not_true_is_false. rewrite existsb_exists. intros (e & He%list_elem_of_In & Hs).
      apply try_map_Ok in Hi. apply list_elem_of_lookup in He as [i Hix]. destruct (Forall2_lookup_r _ _ _ _ _ Hi Hix) as (m & _ & Hm).
      unfold event_from_issuance in Hm. destruct (documents_from_value _); [|done]. by injection Hm as <-. }
    cbn [orb]. do 2 f_equal. clear -Hd. revert disclosed Hd. induction (disclosure_events t) as [|m l IH]; intros disclosed Hd; [by injection Hd as <-|].
    cbn [try_map] in Hd. apply bind_Ok in Hd as (e & He & (es & Hes & [= <-])%bind_Ok). cbn [existsb]. rewrite (IH _ Hes). f_equal.
    unfold event_from_disclosure in He. unfold shared_with. destruct (de_attributes m) as [j|]; cbn in He.
    + destruct (documents_from_value j); [|done]. injection He as <-. cbn. destruct (de_status m); cbn; repeat case_bool_decide; naive_solver.
    + injection He as <-. cbn. rewrite bool_decide_eq_false_2; [done|naive_solver].
Qed.

(** The history of the wallet is faithful: after an event has been logged the
    history consists of that event and the events before, newest first; the
    history of a card consists of exactly the events with documents of its type;
    and data counts as shared with a relying party exactly when the history has
    a successful disclosure with documents to its certificate. *)
Theorem history_faithful ids event r r' t : tables_ok t → open_tables (contents r) = Some t →
  log_wallet_event ids event r = (Ok tt, r') →
  ∃ before after,
    fetch_wallet_events (reliable (contents r)) = (Ok before, reliable (contents r)) ∧
    fetch_wallet_events (reliable (contents r')) = (Ok after, reliable (contents r')) ∧
    after ≡ₚ event :: before ∧ newest_first after ∧
    (∀ dt, ∃ card, fetch_wallet_events_by_doc_type dt (reliable (contents r')) = (Ok card, reliable (contents r')) ∧
       card ≡ₚ filter (λ e, dt ∈ associated_doc_types e) after ∧ newest_first card) ∧
    (∀ cert, did_share_data_with_relying_party cert (reliable (contents r')) = (Ok (existsb (shares cert) after), reliable (contents r'))).
Proof.
  intros Hok Ht Hlog. apply log_wallet_event_changes in Hlog as [[_ [[e [=]]|[[=] _]]]|(t0 & t' & Ht0 & Hl & Hc & _)].
  assert (t0 = t) as -> by congruence. pose proof (logged_event_ok _ _ _ _ Hok Hl) as Hok'.
  pose proof (open_with_tables t' _ _ Ht) as Ht'. rewrite <- Hc in Ht'.
  destruct (events_readable t Hok) as (issued & disclosed & Hi & Hd).
  destruct (history_of t issued disclosed Hok Hi Hd _ Ht) as [(before & Hbefore & Hpb & _) _].
  assert (∃ issued' disclosed', try_map event_from_issuance (issuance_events t') = Ok issued' ∧
    try_map event_from_disclosure (disclosure_events t') = Ok disclosed' ∧ issued' ++ disclosed' ≡ₚ event :: issued ++ disclosed)
    as (issued' & disclosed' & Hi' & Hd' & Hp).
  { destruct (logged_event_Ok _ _ _ _ Hok Hl) as (_ & _ & model & Hmodel & Hm). pose proof (event_round_trip _ _ Hmodel) as Hrt.
    destruct model as [m|m]; destruct Hm as (_ & _ & ->); cbn.
    - exists (issued ++ [event]), disclosed. rewrite try_map_app, Hi. cbn. rewrite Hrt. split_and!; [done..|].
      rewrite <- app_assoc. symmetry. apply Permutation_middle.
    - exists issued, (disclosed ++ [event]). rewrite try_map_app, Hd. cbn. rewrite Hrt. split_and!; [done..|].
      rewrite app_assoc. symmetry. apply Permutation_cons_append. }
  destruct (history_of t' issued' disclosed' Hok' Hi' Hd' _ Ht') as ((after & Hafter & Hpa & Hs) & Hcard & Hshare).
  exists before, after. split_and!; [done..| |done| |].
  - by rewrite Hpa, Hp, Hpb.
  - intros dt. destruct (Hcard dt) as (card & ? & ? & Hpc). exists card. split_and!; [done| |done]. by rewrite Hpc, Hpa.
  - intros cert. rewrite Hshare. do 2 f_equal. by apply existsb_perm.
Qed.
End Queries.
