(* ===== verification/AccountClient.v ===== *)
(** * The wallet's connection to the account server

    Models [wallet_common/src/account/messages/errors.rs] (the errors that cross
    the connection), [wallet_provider/src/errors.rs] (how the errors of the
    account server become such errors and HTTP responses, with
    [wallet_common/src/http_error.rs]) and [wallet/src/account_provider] (the
    requests of the wallet and its HTTP client).

    What the server answers is a function of the messages sent so far, which
    stands for any server.  The crates [reqwest] and [serde_json] are the classes
    [AccountHttp] and [ErrorBodyJson]. *)
From stdpp Require Import base gmap strings list option.
From Stdlib Require Import ZArith Lia.
From S2P Require Import Prelude IndexMap Crypto Jose Protocol PinPolicy Signed WalletUsers AccountServer.

(** ** Errors *)

(** [AccountError] of the messages *)
Inductive ServerError :=
  | AeUnexpected
  | AeChallengeValidation
  | AeRegistrationParsing
  | AeIncorrectPin (data : IncorrectPinData)
  | AePinTimeout (data : PinTimeoutData)
  | AeAccountBlocked
  | AeInstructionValidation.
Inductive AccountErrorType :=
  | EtUnexpected | EtChallengeValidation | EtRegistrationParsing | EtIncorrectPin | EtPinTimeout | EtAccountBlocked | EtInstructionValidation.
(** [AccountErrorType::from] *)
Definition error_type (e : ServerError) : AccountErrorType :=
  match e with
  | AeUnexpected => EtUnexpected
  | AeChallengeValidation => EtChallengeValidation
  | AeRegistrationParsing => EtRegistrationParsing
  | AeIncorrectPin _ => EtIncorrectPin
  | AePinTimeout _ => EtPinTimeout
  | AeAccountBlocked => EtAccountBlocked
  | AeInstructionValidation => EtInstructionValidation
  end.

(** [HttpJsonErrorBody]; [extra] is a JSON object. *)
Record ErrorBody (Extra : Type) := mkErrorBody {
  eb_type : AccountErrorType;
  eb_title : option string;
  eb_status : option Z;
  eb_detail : option string;
  eb_extra : Extra
}.
Arguments mkErrorBody {Extra}.
Arguments eb_type {Extra}.
Arguments eb_title {Extra}.
Arguments eb_status {Extra}.
Arguments eb_detail {Extra}.
Arguments eb_extra {Extra}.

(** [serde_json] on error bodies and on the data of errors: the fields of the
    data are found among the extra fields of the body. *)
Class ErrorBodyJson := {
  JsonMap : Type;
  empty_map : JsonMap;
  pin_data_to_map : IncorrectPinData → JsonMap;
  timeout_data_to_map : PinTimeoutData → JsonMap;
  pin_data_from_map : JsonMap → option IncorrectPinData;
  timeout_data_from_map : JsonMap → option PinTimeoutData;
  pin_data_round_trip d : pin_data_from_map (pin_data_to_map d) = Some d;
  timeout_data_round_trip d : timeout_data_from_map (timeout_data_to_map d) = Some d;
  body_to_string : ErrorBody JsonMap → string;
  body_from_str : string → option (ErrorBody JsonMap);
  body_round_trip b : body_from_str (body_to_string b) = Some b;
  body_not_empty b : String.length (body_to_string b) ≠ O
}.

Inductive WalletProviderError :=
  | WpChallenge (e : ChallengeError)
  | WpRegistration (e : RegistrationError)
  | WpInstruction (e : InstructionError)
  | WpHsm (e : HsmError).

(** [From<WalletProviderError> for AccountError] *)
Definition account_error_of (value : WalletProviderError) : ServerError :=
  match value with
  | WpChallenge (ChallengeCertificate UserBlocked) => AeAccountBlocked
  | WpChallenge _ => AeChallengeValidation
  | WpRegistration (ChallengeDecoding | ChallengeValidation _) => AeChallengeValidation
  | WpRegistration (MessageParsing _ | MessageValidation _ | SerialNumberMismatch _ _) => AeRegistrationParsing
  | WpRegistration _ => AeUnexpected
  | WpInstruction (IncorrectPin data) => AeIncorrectPin data
  | WpInstruction (PinTimeout data) => AePinTimeout data
  | WpInstruction AccountBlocked => AeAccountBlocked
  | WpInstruction (IValidation _) => AeInstructionValidation
  | WpInstruction _ => AeUnexpected
  | WpHsm _ => AeUnexpected
  end.

(** [HttpJsonErrorType for WalletProviderErrorType] *)
Definition error_title (t : AccountErrorType) : string :=
  match t with
  | EtUnexpected => "An unexpected error occurred"
  | EtChallengeValidation => "Could not validate registration challenge"
  | EtRegistrationParsing => "Could not parse or validate registration message"
  | EtIncorrectPin => "The PIN provided is incorrect"
  | EtPinTimeout => "PIN checking is currently in timeout"
  | EtAccountBlocked => "The requested account is blocked"
  | EtInstructionValidation => "Could not validate instruction"
  end.
Definition error_status_code (t : AccountErrorType) : Z :=
  match t with
  | EtUnexpected => 500
  | EtChallengeValidation | EtAccountBlocked => 401
  | EtRegistrationParsing => 400
  | EtIncorrectPin | EtPinTimeout | EtInstructionValidation => 403
  end.

(** The media type of a response: type, subtype and suffix. *)
Record Mime := mkMime { mime_top : string; mime_subtype : string; mime_suffix : option string }.
Definition APPLICATION_PROBLEM_JSON : Mime := mkMime "application" "problem" (Some "json").

(** A response: the length of its body may be unknown, and reading it may fail. *)
Record AccountResponse := mkAccountResponse {
  ar_status : Z;
  ar_content_length : option Z;
  ar_content_type : option Mime;
  ar_text : option string
}.

Inductive AccountProviderResponseError :=
  | ResponseStatus (status : Z)
  | ResponseText (status : Z) (text : string)
  | ResponseAccount (e : ServerError) (detail : option string).
Inductive AccountProviderError :=
  | ProviderResponse (e : AccountProviderResponseError)
  | ProviderNetworking
  | ProviderBaseUrl.

Section Errors.
Context `{!ErrorBodyJson}.

(** [From<AccountError> for Map<String, Value>] and
    [AccountError::try_from_type_and_data] *)
Definition error_data (e : ServerError) : JsonMap :=
  match e with
  | AeIncorrectPin data => pin_data_to_map data
  | AePinTimeout data => timeout_data_to_map data
  | _ => empty_map
  end.
Definition try_from_type_and_data (t : AccountErrorType) (data : JsonMap) : option ServerError :=
  match t with
  | EtUnexpected => Some AeUnexpected
  | EtChallengeValidation => Some AeChallengeValidation
  | EtRegistrationParsing => Some AeRegistrationParsing
  | EtIncorrectPin => AeIncorrectPin <$> pin_data_from_map data
  | EtPinTimeout => AePinTimeout <$> timeout_data_from_map data
  | EtAccountBlocked => Some AeAccountBlocked
  | EtInstructionValidation => Some AeInstructionValidation
  end.

(** [From<HttpJsonError<T>> for HttpJsonErrorBody<T>], [IntoResponse for
    HttpJsonErrorBody] and [IntoResponse for WalletProviderError]; the texts of the
    errors are a parameter. *)
Definition error_body (t : AccountErrorType) (detail : string) (data : JsonMap) : ErrorBody JsonMap :=
  mkErrorBody t (Some (error_title t)) (Some (error_status_code t)) (Some detail) data.
Definition body_into_response (b : ErrorBody JsonMap) : AccountResponse :=
  let text := body_to_string b in
  mkAccountResponse (default 500 (eb_status b)) (Some (Z.of_nat (String.length text))) (Some APPLICATION_PROBLEM_JSON) (Some text).
Definition into_response (show : WalletProviderError → string) (value : WalletProviderError) : AccountResponse :=
  let account_error := account_error_of value in
  body_into_response (error_body (error_type account_error) (show value) (error_data account_error)).

(** [AccountProviderResponseError::from_json_body] *)
Definition from_json_body (status : Z) (body : string) : AccountProviderResponseError :=
  match (b ← body_from_str body;
         e ← try_from_type_and_data (eb_type b) (eb_extra b);
         Some (ResponseAccount e (eb_detail b))) with
  | Some e => e
  | None => ResponseText status body
  end.

(** The error of a response in [HttpAccountProviderClient::send_json_request] *)
Definition response_error (response : AccountResponse) : AccountProviderResponseError :=
  let status := ar_status response in
  if bool_decide (ar_content_length response = Some 0) then ResponseStatus status
  else
    match ar_content_type response with
    | Some m =>
        if bool_decide (mime_top m = "application" ∧ (mime_subtype m = "json" ∨ mime_suffix m = Some "json")) then
          match ar_text response with Some body => from_json_body status body | None => ResponseStatus status end
        else if bool_decide (mime_top m = "text" ∧ mime_subtype m = "plain") then
          match ar_text response with
          | Some text => if decide (text = "") then ResponseStatus status else ResponseText status text
          | None => ResponseStatus status
          end
        else ResponseStatus status
    | None => ResponseStatus status
    end.

(** [HttpAccountProviderClient::send_json_request]; [from_json] reads the body. *)
Definition send_json_request {T} (from_json : string → option T) (execute : option AccountResponse) : outcome AccountProviderError T :=
  let* response := ok_or ProviderNetworking execute in
  if (400 <=? ar_status response) && (ar_status response <? 600) then Err (ProviderResponse (response_error response))
  else ok_or ProviderNetworking (text ← ar_text response; from_json text).
End Errors.

(** ** Requests *)
Inductive AccountMessage :=
  | MsgRegistrationChallenge
  | MsgRegister (registration_message : string)
  | MsgInstructionChallenge (challenge_request : InstructionChallengeRequestMessage)
  | MsgInstruction (endpoint : string) (instruction : Instruction).

(** [AccountProviderClient]: the answer to a message, which may depend on the
    messages before it.  A wallet certificate and an instruction result are
    tokens. *)
Class AccountProviderClient := {
  answer_registration_challenge : list AccountMessage → string → outcome AccountProviderError string;
  answer_register : list AccountMessage → string → string → outcome AccountProviderError string;
  answer_instruction_challenge : list AccountMessage → string → InstructionChallengeRequestMessage → outcome AccountProviderError string;
  answer_instruction : list AccountMessage → string → string → Instruction → outcome AccountProviderError string
}.

Section HttpClient.
Context `{!ErrorBodyJson}.
(** Joining a path to the base URL, sending a request, and the bodies of the
    answers: [Challenge], [Certificate] and [InstructionResultMessage]. *)
Class AccountHttp := {
  base_join : string → string → string;
  http_execute : list AccountMessage → string → AccountMessage → option AccountResponse;
  challenge_from_json : string → option string;
  certificate_from_json : string → option string;
  result_from_json : string → option string
}.
Context `{!AccountHttp}.

(** [AccountProviderClient for HttpAccountProviderClient] *)
Definition HttpAccountProviderClient : AccountProviderClient := {|
  answer_registration_challenge log base_url :=
    send_json_request challenge_from_json (http_execute log (base_join base_url "enroll") MsgRegistrationChallenge);
  answer_register log base_url registration_message :=
    send_json_request certificate_from_json
      (http_execute log (base_join base_url "createwallet") (MsgRegister registration_message));
  answer_instruction_challenge log base_url challenge_request :=
    send_json_request challenge_from_json
      (http_execute log (base_join base_url "instructions/challenge") (MsgInstructionChallenge challenge_request));
  answer_instruction log base_url endpoint instruction :=
    send_json_request result_from_json
      (http_execute log (base_join base_url ("instructions/" +:+ endpoint)) (MsgInstruction endpoint instruction))
|}.
End HttpClient.

(** ** What the wallet makes of an error *)
Inductive WalletInstructionError :=
  | WIncorrectPin (attempts_left_in_round : Z) (is_final_round : bool)
  | WTimeout (timeout_millis : Z)
  | WBlocked
  | WServerError (e : AccountProviderError)
  | WInstructionValidation
  | WSigning (e : AccountError)
  | WInstructionResultValidation (e : JwtError)
  | WStoreInstructionSequenceNumber.

(** [From<AccountProviderError> for InstructionError] *)
Definition instruction_error_of (value : AccountProviderError) : WalletInstructionError :=
  match value with
  | ProviderResponse (ResponseAccount (AeIncorrectPin data) _) =>
      WIncorrectPin (ip_attempts_left_in_round data) (ip_is_final_round data)
  | ProviderResponse (ResponseAccount (AePinTimeout data) _) => WTimeout (time_left_in_ms data)
  | ProviderResponse (ResponseAccount AeAccountBlocked _) => WBlocked
  | ProviderResponse (ResponseAccount AeInstructionValidation _) => WInstructionValidation
  | value => WServerError value
  end.

Section Facts.
Context `{!ErrorBodyJson}.

(** The error of the server crosses the connection unharmed. *)
Lemma response_error_into_response show e :
  response_error (into_response show e) = ResponseAccount (account_error_of e) (Some (show e)).
Proof.
  unfold response_error, into_response, body_into_response. cbn [ar_content_length ar_content_type ar_text ar_status].
  rewrite bool_decide_eq_false_2 by (intros [= Hz]; eapply body_not_empty; by apply Nat2Z.inj). rewrite bool_decide_eq_true_2 by (cbn; auto).
  unfold from_json_body. rewrite body_round_trip. cbn [mbind option_bind error_body eb_type eb_extra eb_detail].
  assert (try_from_type_and_data (error_type (account_error_of e)) (error_data (account_error_of e)) = Some (account_error_of e)) as ->; [|done].
  destruct (account_error_of e); cbn; by rewrite ?pin_data_round_trip, ?timeout_data_round_trip.
Qed.

(** What the wallet should see of an error of the account server. *)
Definition seen_by_wallet (show : WalletProviderError → string) (e : WalletProviderError) : WalletInstructionError :=
  match e with
  | WpInstruction (IncorrectPin data) => WIncorrectPin (ip_attempts_left_in_round data) (ip_is_final_round data)
  | WpInstruction (PinTimeout data) => WTimeout (time_left_in_ms data)
  | WpInstruction AccountBlocked | WpChallenge (ChallengeCertificate UserBlocked) => WBlocked
  | WpInstruction (IValidation _) => WInstructionValidation
  | _ => WServerError (ProviderResponse (ResponseAccount (account_error_of e) (Some (show e))))
  end.

(** Errors on the way from the account server to the wallet: whatever the
    account server answers to an instruction or a request for a challenge, the
    wallet sees a wrong PIN with the number of attempts left, a timeout with its
    duration, a block and a failed validation as such, and anything else as an
    error of the server of the same type. *)
Theorem server_error_reaches_wallet {T} (from_json : string → option T) show e :
  omap (λ _, tt) (map_err instruction_error_of (send_json_request from_json (Some (into_response show e)))) =
  Err (seen_by_wallet show e).
Proof.
  assert (ar_status (into_response show e) = error_status_code (error_type (account_error_of e))) as Hs by done.
  unfold send_json_request. cbn [ok_or obind]. rewrite response_error_into_response, Hs.
  assert ((400 <=? error_status_code (error_type (account_error_of e))) && (error_status_code (error_type (account_error_of e)) <? 600) = true) as ->
    by (by destruct (error_type (account_error_of e))).
  cbn [map_err omap]. f_equal. unfold seen_by_wallet.
  destruct e as [[]|[]|[]|]; cbn; try done. by destruct e.
Qed.
End Facts.
