(* ===== verification/InstructionClient.v ===== *)
(** * Sending instructions to the account server

    Models [wallet/src/instruction/client.rs] (sequence numbers, challenges and
    signed instructions) and [keys.rs] (keys that are kept by the wallet provider
    and used by sending instructions).

    The world of the wallet is its device, the messages sent to the account
    server, and whatever it exchanges with other parties ([X]).  The storage is
    locked for writing while an instruction is sent, so that sending is one step.
    The hardware key signs with a software key; that it may fail is one more call
    on the list of faults. *)
From stdpp Require Import base gmap strings list option.
From Stdlib Require Import ZArith Lia.
From S2P Require Import Prelude IndexMap Crypto Cbor Cose Engagement Jose Mdoc MdocSigning Holder Document PinPolicy Protocol Signed WalletUsers AccountServer.
From S2P Require Import AccountClient PinValidation WalletStorage.

Record Phone `{!PlatformKeys} (X : Type) := mkPhone {
  ph_device : remote Device;
  ph_account : list AccountMessage;
  ph_peer : X
}.
Arguments mkPhone {_ X}.
Arguments ph_device {_ X}.
Arguments ph_account {_ X}.
Arguments ph_peer {_ X}.

(** Computations on a part of the world. *)
Definition on_device `{!PlatformKeys} {X E A} (m : ST (remote Device) E A) : ST (Phone X) E A := λ p,
  let '(o, d) := m (ph_device p) in (o, mkPhone d (ph_account p) (ph_peer p)).
Definition on_peer `{!PlatformKeys} {X E A} (m : ST X E A) : ST (Phone X) E A := λ p,
  let '(o, x) := m (ph_peer p) in (o, mkPhone (ph_device p) (ph_account p) x).
(** A message to the account server, with its answer. *)
Definition exchange `{!PlatformKeys} {X E A} (message : AccountMessage) (answer : list AccountMessage → outcome E A) : ST (Phone X) E A := λ p,
  (answer (ph_account p), mkPhone (ph_device p) (ph_account p ++ [message]) (ph_peer p)).

(** [InstructionEndpoint] *)
Class InstructionEndpoint (I R : Type) := ENDPOINT : string.
#[global] Instance check_pin_endpoint : InstructionEndpoint CheckPin unit := "check_pin".
#[global] Instance generate_key_endpoint `{!Ecdsa} : InstructionEndpoint GenerateKey GenerateKeyResult := "generate_key".
#[global] Instance sign_endpoint `{!Ecdsa} : InstructionEndpoint Sign SignResult := "sign".

(** The instants that a client reads, in seconds. *)
Record ClientClock := mkClientClock { cc_challenge : Z; cc_result : Z }.

(** [InstructionClient] *)
Record InstructionClient `{!Ecdsa} := mkInstructionClient {
  ic_pin : list Z;
  ic_hw_privkey : SigningKey;
  ic_registration : RegistrationData;
  ic_base_url : string;
  instruction_result_public_key : VerifyingKey
}.

Section Client.
Context {X : Type}.
Context `{!Ecdsa, !Sqlite, !StorageCodec, !PlatformKeys, !PinKeyLib, !AccountProviderClient, !KeyedData InstructionData}.
Context `{!JwtLib InstructionChallengeRequestClaims}.
Variable prof : profile.

Abbreviation App := (ST (Phone X)).
Definition storage_error {A} (m : ST (remote Device) StorageError A) : App WalletInstructionError A :=
  st_map_err (λ _, WStoreInstructionSequenceNumber) (on_device m).

(** [InstructionClient::with_sequence_number] *)
Definition with_sequence_number {R} (f : Z → App AccountError R) : App WalletInstructionError R :=
  let! fetched := storage_error (fetch_data (D:=InstructionData)) in
  let instruction_data := default default_instruction_data fetched in
  let! n := st_lift (never (arith prof 64 (id_sequence_number instruction_data + 1))) in
  let instruction_data := mkInstructionData n in
  let! _ := if n =? 1 then storage_error (insert_data instruction_data) else storage_error (update_data instruction_data) in
  st_map_err WSigning (f n).

(** Signing with the hardware key, which may fail. *)
Definition hardware {E A} (e : E) (m : outcome E A) : App E A :=
  let! _ := on_device (round_trip e) in st_lift m.

(** [InstructionClient::instruction_challenge] *)
Definition client_instruction_challenge (clock : ClientClock) (c : InstructionClient) : App WalletInstructionError string :=
  let! message := with_sequence_number (λ seq_num,
    hardware (AJwt JwtSigning) (InstructionChallengeRequest_new_signed (cc_challenge clock) seq_num "wallet" (ic_hw_privkey c))) in
  let challenge_request := mkChallengeMessage message (wallet_certificate (ic_registration c)) in
  st_map_err instruction_error_of
    (exchange (MsgInstructionChallenge challenge_request) (λ log, answer_instruction_challenge log (ic_base_url c) challenge_request)).

(** [Instruction::new_signed] with a PIN key, which may fail to be derived once
    the payload has been serialized. *)
Definition new_signed_with_pin {T} `{!SignedJson T} (i : T) (n : Z) (hw_privkey : SigningKey) (pin_key : PinKey) (challenge certificate : string)
    : outcome AccountError Instruction :=
  match pin_private_key (pk_salt pin_key) (pk_pin pin_key) with
  | Ok key => Instruction_new_signed i n hw_privkey key challenge certificate
  | Err _ =>
      let* _ := ok_or AJsonParsing (payload_to_string {| payload := i; challenge := challenge; sequence_number := n |}) in
      Err ASigning
  | Panic => Panic
  end.

(** [InstructionClient::send] *)
Definition send {I R} `{!InstructionEndpoint I R, !SignedJson I, !JwtLib (InstructionResultClaims R)}
    (clock : ClientClock) (c : InstructionClient) (instruction : I) : App WalletInstructionError R :=
  let! challenge := client_instruction_challenge clock c in
  let pin_key := mkPinKey (ic_pin c) (pin_salt (ic_registration c)) in
  let! instruction := with_sequence_number (λ seq_num,
    hardware ASigning (new_signed_with_pin instruction seq_num (ic_hw_privkey c) pin_key challenge
                         (wallet_certificate (ic_registration c)))) in
  let! signed_result := st_map_err instruction_error_of
    (exchange (MsgInstruction (ENDPOINT (I:=I) (R:=R)) instruction) (λ log, answer_instruction log (ic_base_url c) (ENDPOINT (I:=I) (R:=R)) instruction)) in
  let! claims := st_lift (map_err WInstructionResultValidation
    (Jwt_parse_and_verify_with_sub (C:=InstructionResultClaims R) (cc_result clock) signed_result (instruction_result_public_key c))) in
  sret (ir_result claims).

(** ** Remote keys *)
Inductive RemoteEcdsaKeyError :=
  | RkInstruction (e : WalletInstructionError)
  | RkSignature
  | RkMissingSignature
  | RkKeyNotFound (identifier : string).
Record RemoteEcdsaKey := mkRemoteKey { rk_identifier : string; rk_public_key : VerifyingKey }.

Context `{!SignedJson GenerateKey, !SignedJson Sign, !JwtLib (InstructionResultClaims GenerateKeyResult), !JwtLib (InstructionResultClaims SignResult)}.
Variable client : InstructionClient.

(** [KeyFactory for RemoteEcdsaKeyFactory]; the identifiers of new keys are drawn. *)
Definition remote_generate_new_multiple (clock : ClientClock) (identifiers : list string) : App RemoteEcdsaKeyError (list RemoteEcdsaKey) :=
  let! result := st_map_err RkInstruction (send (R:=GenerateKeyResult) clock client (mkGenerateKey identifiers)) in
  sret ((λ k : string * VerifyingKey, mkRemoteKey k.1 k.2) <$> public_keys result).
Definition remote_generate_existing (identifier : string) (public_key : VerifyingKey) : RemoteEcdsaKey :=
  mkRemoteKey identifier public_key.
Definition remote_sign_multiple (clock : ClientClock) (messages_and_keys : list (string * list RemoteEcdsaKey))
    : App RemoteEcdsaKeyError (list (list Signature)) :=
  let! sign_result := st_map_err RkInstruction (send (R:=SignResult) clock client
    (mkSign ((λ m : string * list RemoteEcdsaKey, (m.1, rk_identifier <$> m.2)) <$> messages_and_keys))) in
  sret (signatures sign_result).
Definition remote_sign_with_new_keys (clock1 clock2 : ClientClock) (msg : string) (identifiers : list string)
    : App RemoteEcdsaKeyError (list (RemoteEcdsaKey * Signature)) :=
  let! keys := remote_generate_new_multiple clock1 identifiers in
  let! signatures := remote_sign_multiple clock2 [(msg, keys)] in
  let! first := st_lift (ok_or RkMissingSignature (head signatures)) in
  sret (zip keys first).

(** [EcdsaKey for RemoteEcdsaKey]: the signature is checked. *)
Definition remote_try_sign (clock : ClientClock) (key : RemoteEcdsaKey) (msg : string) : App RemoteEcdsaKeyError Signature :=
  let! result := st_map_err RkInstruction (send (R:=SignResult) clock client (mkSign [(msg, [rk_identifier key])])) in
  let! signature := st_lift (ok_or (RkKeyNotFound (rk_identifier key)) (r ← head (signatures result); head r)) in
  let! _ := st_lift (guard_err (ecdsa_verify (rk_public_key key) msg signature) RkSignature) in
  sret signature.
End Client.
