(* ===== verification/InstructionFacts.v ===== *)
(** * Sequence numbers of the wallet

    Every number that a wallet signs is larger than all before it: it is stored
    before the message is made, and what was stored survives failures, restarts
    and everything else that happens to the database. *)
From stdpp Require Import base gmap strings list option sorting relations.
From Stdlib Require Import ZArith Lia.
From S2P Require Import Prelude IndexMap Crypto Cbor Cose Engagement Jose Mdoc MdocSigning Holder Document PinPolicy Protocol Signed WalletUsers AccountServer.
From S2P Require Import AccountClient PinValidation WalletStorage WalletStorageFacts InstructionClient.

Section Numbers.
Context {X : Type}.
Context `{!Ecdsa, !Sqlite, !StorageCodec, !PlatformKeys, !PinKeyLib, !AccountProviderClient, !KeyedData InstructionData}.
Context `{!JwtLib InstructionChallengeRequestClaims, !SignedJson CheckPin, !SignedJson GenerateKey, !SignedJson Sign}.
Context `{!JwtLib (InstructionResultClaims unit), !JwtLib (InstructionResultClaims GenerateKeyResult), !JwtLib (InstructionResultClaims SignResult)}.
Variable prof : profile.
(** The hardware key of the wallet, and the instant at which its messages are
    read; the tokens of a wallet do not expire. *)
Variable hw : SigningKey.
Variable now : Z.
Hypothesis claims_accepted : ∀ n iat, claims_valid now
  {| algorithms := [ES256]; required_spec_claims := ["sub"]; leeway := 60; validate_exp := true; iss := None; aud := None |}
  (mkChallengeRequest n "wallet" iat) = true.
Implicit Types (p : Phone X) (t : Tables).

(** The stored number is [n]; no row stands for zero. *)
Definition number_of t (n : Z) : Prop :=
  match keyed_data t !! KEY (D:=InstructionData) with
  | None => n = 0
  | Some j => data_from_value j = Some (mkInstructionData n) ∧ 1 ≤ n
  end.
Definition device_number (d : Device) (n : Z) : Prop :=
  match db_file d with Some (_, t) => number_of t n | None => n = 0 end.

Lemma device_number_open d t n : open_tables d = Some t → device_number d n → number_of t n.
Proof. unfold open_tables, device_number. destruct (is_open d); [|done]. destruct (db_file d) as [[k t0]|]; [|done]. by intros [= ->]. Qed.
Lemma device_number_with d t t0 n : open_tables d = Some t0 → number_of t n → device_number (with_tables t d) n.
Proof. unfold open_tables, device_number, with_tables. cbn. destruct (is_open d); [|done]. by destruct (db_file d) as [[k t1]|]. Qed.

Lemma bind_on_device {A B E F} (g : E → F) (m : ST (remote Device) E B) (k : B → ST (Phone X) F A) p o p' :
  sbind (st_map_err g (on_device m)) k p = (o, p') →
  ∃ x r, m (ph_device p) = (x, r) ∧
    match x with
    | Ok b => k b (mkPhone r (ph_account p) (ph_peer p)) = (o, p')
    | Err e => o = Err (g e) ∧ p' = mkPhone r (ph_account p) (ph_peer p)
    | Panic => o = Panic ∧ p' = mkPhone r (ph_account p) (ph_peer p)
    end.
Proof.
  unfold sbind, st_map_err, on_device. destruct (m (ph_device p)) as [[b|e|] r]; cbn; intros He; eexists _, _; (split; [done|]);
    [done|by injection He as <- <-..].
Qed.

(** Fetching the number. *)
Lemma fetch_number r o r' n : device_number (contents r) n → fetch_data (D:=InstructionData) r = (o, r') →
  contents r' = contents r ∧ (o = Panic → False) ∧ ∀ v, o = Ok v →
    ∃ t, open_tables (contents r) = Some t ∧ id_sequence_number (default default_instruction_data v) = n ∧
      (v = None ↔ keyed_data t !! KEY (D:=InstructionData) = None).
Proof.
  intros Hn Hr. destruct (fetch_data_quiet _ _ _ Hr) as [Hc Hnp]. split; [done|]. split; [done|]. intros v ->.
  apply bind_database in Hr as [(e & _ & [=] & _)|(t & Ht & Hr)]. exists t. split; [done|].
  apply (device_number_open _ _ _ Ht) in Hn. unfold number_of in Hn.
  apply bind_on_tables in Hr as [[_ [[e [=]]|[_ [=]]]]|(m & r1 & [= <-] & _ & Hr)].
  destruct (keyed_data t !! KEY) as [j|]; [|injection Hr as <- <-; by rewrite Hn].
  apply bind_st_lift in Hr as [[_ [[e [=]]|[_ [=]]]]|(x & Hx%ok_or_Ok & [= <- <-])].
  destruct Hn as [Hj _]. rewrite Hj in Hx. by injection Hx as <-.
Qed.

(** Storing the next number. *)
Lemma insert_number n r o r' : insert_data (mkInstructionData n) r = (o, r') → 1 ≤ n →
  o ≠ Panic ∧ (o = Ok tt ∧ device_number (contents r') n ∨ o ≠ Ok tt ∧ contents r' = contents r).
Proof.
  intros [[Hc Ho]|(t & t' & Ht & Hf & Hc & ->)]%insert_data_changes Hn.
  - split; [|right; split; [|done]].
    + destruct Ho as [[e ->]|[-> (t & _ & [Hp|(v & _ & Hp)]%bind_Panic)]]; [done|by destruct (data_to_value _)|].
      by destruct (keyed_data t !! KEY).
    + destruct Ho as [[e ->]|[-> _]]; done.
  - split; [done|]. left. split; [done|]. rewrite Hc. eapply device_number_with; [done|].
    apply bind_Ok in Hf as (v & Hv%ok_or_Ok & Hf). destruct (keyed_data t !! KEY); [done|]. injection Hf as <-.
    unfold number_of. cbn. rewrite lookup_insert_eq. split; [by apply data_round_trip|done].
Qed.
Lemma update_number n r o r' t : update_data (mkInstructionData n) r = (o, r') → 1 ≤ n →
  open_tables (contents r) = Some t → is_Some (keyed_data t !! KEY (D:=InstructionData)) →
  o ≠ Panic ∧ (o = Ok tt ∧ device_number (contents r') n ∨ o ≠ Ok tt ∧ contents r' = contents r).
Proof.
  intros [[Hc Ho]|(t0 & t' & Ht & Hf & Hc & ->)]%update_data_changes Hn Ht0 [j Hj].
  - split; [|right; split; [|done]].
    + destruct Ho as [[e ->]|[-> (t1 & _ & [Hp|(v & _ & ?)]%bind_Panic)]]; [done|by destruct (data_to_value _)|done].
    + destruct Ho as [[e ->]|[-> _]]; done.
  - split; [done|]. left. split; [done|]. rewrite Hc. eapply device_number_with; [done|].
    apply bind_Ok in Hf as (v & Hv%ok_or_Ok & [= <-]). assert (t0 = t) as -> by congruence. rewrite Hj.
    unfold number_of. cbn. rewrite lookup_insert_eq. split; [by apply data_round_trip|done].
Qed.

Lemma arith_u64 {E} z : 0 ≤ z < 2 ^ 64 → arith (E:=E) prof 64 z = Ok z.
Proof. intros Hz. unfold arith. by rewrite (proj2 (in_range_spec 64 z) Hz). Qed.

(** The number is stored before it is used. *)
Lemma with_sequence_number_inv {R} (f : Z → ST (Phone X) AccountError R) p o p' n :
  device_number (contents (ph_device p)) n → 0 ≤ n → n + 1 < 2 ^ 64 → with_sequence_number prof f p = (o, p') →
  (∃ e, o = Err e ∧ device_number (contents (ph_device p')) n ∧ ph_account p' = ph_account p ∧ ph_peer p' = ph_peer p) ∨
  ∃ p1 x, device_number (contents (ph_device p1)) (n + 1) ∧ ph_account p1 = ph_account p ∧ ph_peer p1 = ph_peer p ∧
    f (n + 1) p1 = (x, p') ∧ o = map_err WSigning x.
Proof.
  intros Hn Hpos Hmax Hr. unfold with_sequence_number, storage_error in Hr.
  apply bind_on_device in Hr as (x & d & Hfetch & Hr). destruct (fetch_number _ _ _ _ Hn Hfetch) as (Hc & Hnp & Hv).
  destruct x as [v|e|]; [|left|by destruct Hnp].
  2:{ destruct Hr as [-> ->]. eexists. split; [done|]. cbn. by rewrite Hc. }
  destruct (Hv v eq_refl) as (t & Ht & Hid & Hnone). rewrite Hid in Hr. cbn [id_sequence_number] in Hr.
  rewrite (arith_u64 (E:=Empty_set)) in Hr by lia. cbn [never map_err] in Hr. unfold sbind at 1 in Hr. cbn [st_lift] in Hr.
  rewrite <- Hc in Ht, Hn. pose proof (device_number_open _ _ _ Ht Hn) as Hnum. unfold number_of in Hnum.
  assert (∃ m : ST (remote Device) StorageError unit, sbind (st_map_err (λ _, WStoreInstructionSequenceNumber) (on_device m)) (λ _, st_map_err WSigning (f (n + 1)))
      (mkPhone d (ph_account p) (ph_peer p)) = (o, p') ∧
    ∀ x d', m d = (x, d') → x ≠ Panic ∧ (x = Ok tt ∧ device_number (contents d') (n + 1) ∨ x ≠ Ok tt ∧ contents d' = contents d)) as (m & Hm & Hspec).
  { destruct (Z.eqb_spec (n + 1) 1) as [Hone|Hone].
    - exists (insert_data (mkInstructionData (n + 1))). split; [done|]. intros x d' Hx. eapply insert_number; [done|lia].
    - exists (update_data (mkInstructionData (n + 1))). split; [done|]. intros x d' Hx. eapply update_number; [done|lia|done|].
      destruct (keyed_data t !! KEY); [by eexists|lia]. }
  clear Hr. apply bind_on_device in Hm as (x & d' & Hx & Hr). destruct (Hspec _ _ Hx) as [Hxp Hxo]. cbn [ph_device] in *.
  destruct x as [[]|e|]; [right|left|done].
  - destruct Hxo as [[_ Hd]|[? _]]; [|done]. unfold st_map_err in Hr. destruct (f (n + 1) _) as [y p2] eqn:Hf. injection Hr as <- <-.
    by exists (mkPhone d' (ph_account p) (ph_peer p)), y.
  - destruct Hr as [-> ->]. destruct Hxo as [[? _]|[_ Hd]]; [done|]. eexists. split; [done|]. cbn. by rewrite Hd.
Qed.

Lemma hardware_inv {E A} (e : E) (m : outcome E A) p x p' : hardware e m p = (x, p') →
  contents (ph_device p') = contents (ph_device p) ∧ ph_account p' = ph_account p ∧ ph_peer p' = ph_peer p ∧ (x = Err e ∨ x = m).
Proof.
  unfold hardware, sbind, on_device, st_lift. destruct (round_trip e (ph_device p)) as [y r] eqn:Hrt.
  apply round_trip_contents in Hrt as [Hc [-> | ->]]; intros [= <- <-]; cbn; auto.
Qed.

(** The number in a message, as the account server reads it: a challenge request
    verifies under the hardware key and its claims hold the number; the text of an
    instruction is read as a payload of the type of its endpoint. *)
Definition instruction_number (endpoint text : string) : option Z :=
  if bool_decide (endpoint = ENDPOINT (I:=CheckPin) (R:=unit)) then sequence_number <$> double_from_str (T:=CheckPin) text
  else if bool_decide (endpoint = ENDPOINT (I:=GenerateKey) (R:=GenerateKeyResult)) then sequence_number <$> double_from_str (T:=GenerateKey) text
  else if bool_decide (endpoint = ENDPOINT (I:=Sign) (R:=SignResult)) then sequence_number <$> double_from_str (T:=Sign) text
  else None.
Definition message_number (m : AccountMessage) : option Z :=
  match m with
  | MsgInstructionChallenge r =>
      match Jwt_parse_and_verify_with_sub (C:=InstructionChallengeRequestClaims) now (icm_message r) (verifying_key hw) with
      | Ok claims => Some (icr_sequence_number claims)
      | _ => None
      end
  | MsgInstruction endpoint i => instruction_number endpoint (instruction i)
  | MsgRegistrationChallenge | MsgRegister _ => None
  end.

Lemma challenge_request_number iat n m cert : InstructionChallengeRequest_new_signed iat n "wallet" hw = Ok m →
  message_number (MsgInstructionChallenge (mkChallengeMessage m cert)) = Some n.
Proof.
  unfold InstructionChallengeRequest_new_signed. intros Hs%map_err_Ok. cbn. unfold Jwt_parse_and_verify_with_sub, Jwt_parse_and_verify.
  rewrite (Jwt_sign_verify _ _ _ _ _ _ Hs); [done|by apply list_elem_of_here|apply claims_accepted].
Qed.
Lemma signed_number {T} `{!SignedJson T} (i : T) n hwk pin c cert s : Instruction_new_signed i n hwk pin c cert = Ok s →
  sequence_number <$> double_from_str (T:=T) (instruction s) = Some n.
Proof.
  unfold Instruction_new_signed, SignedDouble_sign, sign_message.
  intros (s0 & (m & Hp%ok_or_Ok & (mi & Hi%ok_or_Ok & Ho%ok_or_Ok)%bind_Ok)%bind_Ok & [= <-])%bind_Ok.
  cbn [instruction]. rewrite (double_to_string (T:=T) _ _ (mkSignedMessage _ m _ _) _ (mkSignedMessage _ mi _ _) _ Hp eq_refl Hi eq_refl Ho). done.
Qed.

(** The numbers of new messages are new, increase, and are stored. *)
Definition numbers_grow (n n' : Z) (msgs : list AccountMessage) : Prop :=
  ∃ ns, message_number <$> msgs = Some <$> ns ∧ StronglySorted Z.lt ns ∧ Forall (λ k, n < k ≤ n') ns ∧ n ≤ n'.
Lemma numbers_grow_nil n n' : n ≤ n' → numbers_grow n n' [].
Proof. intros Hn. exists []. split_and!; [done|constructor..|done]. Qed.
Lemma numbers_grow_one n n' m : message_number m = Some n' → n < n' → numbers_grow n n' [m].
Proof. intros Hm Hn. exists [n']. split_and!; [cbn; by rewrite Hm|by repeat constructor|repeat constructor; lia|lia]. Qed.

Lemma client_challenge_inv clock c p o p' n : device_number (contents (ph_device p)) n → 0 ≤ n → n + 1 < 2 ^ 64 →
  ic_hw_privkey c = hw → client_instruction_challenge prof clock c p = (o, p') →
  ∃ n' msgs, n' ≤ n + 1 ∧ device_number (contents (ph_device p')) n' ∧ ph_account p' = ph_account p ++ msgs ∧ ph_peer p' = ph_peer p ∧
    numbers_grow n n' msgs ∧ (is_ok o = true → n' = n + 1).
Proof.
  intros Hn Hpos Hmax Hhw Hr. unfold client_instruction_challenge in Hr. rewrite Hhw in Hr.
  apply st_bind_inv in Hr as [(message & p1 & Hw & Hr)|Hw].
  - apply (with_sequence_number_inv _ _ _ _ _ Hn Hpos Hmax) in Hw as [(e & [=] & _)|(p2 & x & Hd & Ha & Hp & Hf & Hx)].
    apply hardware_inv in Hf as (Hc & Ha' & Hp' & Ho). symmetry in Hx. apply map_err_Ok in Hx as ->. destruct Ho as [[=]|Ho].
    unfold st_map_err, exchange in Hr. injection Hr as <- <-. exists (n + 1), [MsgInstructionChallenge (mkChallengeMessage message (wallet_certificate (ic_registration c)))].
    cbn. rewrite Hc, Ha', Ha, Hp', Hp. split_and!; try done. apply numbers_grow_one; [by eapply challenge_request_number|lia].
  - assert (∃ n', n ≤ n' ≤ n + 1 ∧ device_number (contents (ph_device p')) n' ∧ ph_account p' = ph_account p ∧ ph_peer p' = ph_peer p ∧ is_ok o = false) as (n' & ? & ? & -> & -> & ->).
    { destruct Hw as [(e & Hw & ->)|[Hw ->]];
        (apply (with_sequence_number_inv _ _ _ _ _ Hn Hpos Hmax) in Hw as [(e' & _ & ? & ? & ?)|(p2 & x & Hd & Ha & Hp & Hf & _)];
         [exists n; split_and!; done || lia|apply hardware_inv in Hf as (Hc & Ha' & Hp' & _); exists (n + 1); rewrite Hc, Ha', Hp'; split_and!; done || lia]). }
    exists n', []. rewrite app_nil_r. split_and!; try done; [lia|]. apply numbers_grow_nil. lia.
Qed.

Lemma new_signed_with_pin_number {T} `{!SignedJson T} (i : T) n hwk pk c cert s endpoint :
  (∀ text, instruction_number endpoint text = sequence_number <$> double_from_str (T:=T) text) →
  new_signed_with_pin i n hwk pk c cert = Ok s → message_number (MsgInstruction endpoint s) = Some n.
Proof.
  unfold new_signed_with_pin. intros He. destruct (pin_private_key (pk_salt pk) (pk_pin pk)) as [key| |]; [|by destruct (payload_to_string _)|done].
  intros Hs. cbn. rewrite He. by eapply signed_number.
Qed.

Lemma numbers_grow_app n n' n'' a b : numbers_grow n n' a → numbers_grow n' n'' b → numbers_grow n n'' (a ++ b).
Proof.
  intros (ns & Hf & Hs & Hr & Hle) (ms & Hf' & Hs' & Hr' & Hle'). exists (ns ++ ms). split_and!; [by rewrite !fmap_app, Hf, Hf'| | |lia].
  - apply StronglySorted_app_2; [|done..]. intros x y Hx Hy. rewrite Forall_forall in Hr, Hr'. specialize (Hr _ Hx). specialize (Hr' _ Hy). lia.
  - apply Forall_app. split; eapply Forall_impl; [exact Hr| |exact Hr'|]; cbn; lia.
Qed.

(** Sending an instruction. *)
Lemma send_inv {I R} `{!InstructionEndpoint I R, !SignedJson I, !JwtLib (InstructionResultClaims R)} clock c (i : I) p o p' n :
  (∀ text, instruction_number (ENDPOINT (I:=I) (R:=R)) text = sequence_number <$> double_from_str (T:=I) text) → ic_hw_privkey c = hw →
  device_number (contents (ph_device p)) n → 0 ≤ n → n + 2 < 2 ^ 64 → send (R:=R) prof clock c i p = (o, p') →
  ∃ n' msgs, n' ≤ n + 2 ∧ device_number (contents (ph_device p')) n' ∧ ph_account p' = ph_account p ++ msgs ∧ ph_peer p' = ph_peer p ∧
    numbers_grow n n' msgs.
Proof.
  intros He Hhw Hn Hpos Hmax Hr. unfold send in Hr. apply st_bind_inv in Hr as [(ch & p1 & Hch & Hr)|Hch].
  2:{ assert (∃ x, client_instruction_challenge prof clock c p = (x, p')) as [x Hx] by (destruct Hch as [(e & ? & _)|[? _]]; eauto).
      apply (client_challenge_inv _ _ _ _ _ n) in Hx as (n' & msgs & ? & ? & ? & ? & ? & _); [|done|done|lia|done].
      exists n', msgs. split_and!; try done. lia. }
  apply (client_challenge_inv _ _ _ _ _ n) in Hch as (n1 & msgs & Hle & Hn1 & Ha1 & Hp1 & Hg1 & Hok); [|done|done|lia|done].
  specialize (Hok eq_refl) as ->. apply st_bind_inv in Hr as [(s & p2 & Hw & Hr)|Hw].
  - apply (with_sequence_number_inv _ _ _ _ _ Hn1) in Hw as [(e & [=] & _)|(p3 & x & Hd & Ha & Hp & Hf & Hx)]; [|lia..].
    apply hardware_inv in Hf as (Hc & Ha' & Hp' & Ho). symmetry in Hx. apply map_err_Ok in Hx as ->. destruct Ho as [[=]|Ho].
    symmetry in Ho. apply (new_signed_with_pin_number _ _ _ _ _ _ _ (ENDPOINT (I:=I) (R:=R)) He) in Ho.
    assert (contents (ph_device p') = contents (ph_device p2) ∧ ph_account p' = ph_account p2 ++ [MsgInstruction (ENDPOINT (I:=I) (R:=R)) s] ∧
      ph_peer p' = ph_peer p2) as (Hc2 & Ha2 & Hp2).
    { unfold sbind, st_map_err, exchange, st_lift, sret in Hr. cbn in Hr. repeat case_hyp Hr; by simplify_eq/=. }
    exists (n + 1 + 1), (msgs ++ [MsgInstruction (ENDPOINT (I:=I) (R:=R)) s]). rewrite Hc2, Ha2, Hp2, Hc, Ha', Hp', Ha, Hp, Ha1, Hp1, app_assoc.
    split_and!; try done; [lia|]. eapply numbers_grow_app; [done|]. apply numbers_grow_one; [done|lia].
  - assert (∃ n', n + 1 ≤ n' ≤ n + 2 ∧ device_number (contents (ph_device p')) n' ∧ ph_account p' = ph_account p1 ∧ ph_peer p' = ph_peer p1) as (n' & ? & ? & -> & ->).
    { assert (∃ x, with_sequence_number prof (λ seq_num, hardware ASigning (new_signed_with_pin i seq_num (ic_hw_privkey c)
        (mkPinKey (ic_pin c) (pin_salt (ic_registration c))) ch (wallet_certificate (ic_registration c)))) p1 = (x, p')) as [x Hx]
        by (destruct Hw as [(e & ? & _)|[? _]]; eauto).
      apply (with_sequence_number_inv _ _ _ _ _ Hn1) in Hx as [(e' & _ & ? & ? & ?)|(p3 & y & Hd & Ha & Hp & Hf & _)]; [exists (n + 1); split_and!; done || lia| |lia..].
      apply hardware_inv in Hf as (Hc & Ha' & Hp' & _). exists (n + 1 + 1). rewrite Hc, Ha', Hp'. split_and!; done || lia. }
    exists n', msgs. split_and!; try done; [lia|]. rewrite <- (app_nil_r msgs). eapply numbers_grow_app; [done|].
    apply numbers_grow_nil. lia.
Qed.

(** ** Runs *)

(** What else happens to the database, short of clearing it. *)
Inductive other_call : ∀ {A}, ST (remote Device) StorageError A → Prop :=
  | other_read {A} (m : ST (remote Device) StorageError A) : quiet m → other_call m
  | other_open new_key random : other_call (storage_open new_key random)
  | other_insert_data {D} `{!KeyedData D} (data : D) : KEY (D:=D) ≠ KEY (D:=InstructionData) → other_call (insert_data data)
  | other_update_data {D} `{!KeyedData D} (data : D) : KEY (D:=D) ≠ KEY (D:=InstructionData) → other_call (update_data data)
  | other_insert_mdocs ids copy_ids l : other_call (insert_mdocs ids copy_ids l)
  | other_increment ids : other_call (increment_mdoc_copies_usage_count ids)
  | other_log ids event : other_call (log_wallet_event ids event).

Lemma changes_number f m r o r' n : changes f m → (∀ t t', f t = Ok t' → number_of t n → number_of t' n) →
  device_number (contents r) n → m r = (o, r') → device_number (contents r') n.
Proof.
  intros Hch Hf Hn [[-> _]|(t & t' & Ht & Hft & -> & _)]%Hch; [done|].
  eapply device_number_with; [done|]. eapply Hf; [done|]. by eapply device_number_open.
Qed.

Lemma same_keyed_number (f : Tables → outcome StorageError Tables) n : (∀ t t', f t = Ok t' → keyed_data t' = keyed_data t) → ∀ t t', f t = Ok t' → number_of t n → number_of t' n.
Proof. intros Hf t t' Ht. unfold number_of. by rewrite (Hf _ _ Ht). Qed.

Lemma open_number new_key random r o r' n : device_number (contents r) n → storage_open new_key random r = (o, r') → device_number (contents r') n.
Proof.
  unfold storage_open, get_device, device_number. intros Hn. unfold sbind at 1. destruct (is_open (contents r)); [by intros [= <- <-]|].
  unfold set_device, set_contents. unfold sbind at 1. intros Hr.
  apply st_bind_inv in Hr as [(bytes & r1 & Hk & Hr)|Hk].
  - unfold st_map_err in Hk. destruct (get_or_create_key_file _ _ _) as [x r2] eqn:Hkf. injection Hk as Hx <-.
    apply key_file_ok in Hkf as (_ & _ & Hf). cbn in Hf. rewrite <- Hf in Hn.
    apply bind_st_lift in Hr as [[-> _]|(key & _ & Hr)]; [done|].
    apply bind_round_trip in Hr as [[-> _]|(r3 & Hc & Hr)]; [done|].
    unfold sbind, get_device in Hr. rewrite Hc in Hr. destruct (db_file (contents r2)) as [[k t]|] eqn:Hdb.
    + case_decide; [by injection Hr as <- <-|]. injection Hr as <- <-. by rewrite Hc, Hdb.
    + injection Hr as <- <-. by subst n.
  - assert (∃ x, get_or_create_key_file (default new_key (key_store (contents r))) random
      (Prelude.Remote (mkDevice _ false (db_file (contents r)) (key_file (contents r)) (Some (default new_key (key_store (contents r))))) (faults r)) = (x, r')) as [x Hx].
    { unfold st_map_err in Hk. destruct (get_or_create_key_file _ _ _) as [x r2]. exists x. destruct Hk as [(e & [= _ <-] & _)|[[= _ <-] _]]; done. }
    apply key_file_ok in Hx as (_ & _ & Hf). cbn in Hf. by rewrite Hf.
Qed.

Lemma inserted_mdocs_keyed ids copy_ids l t t' : inserted_mdocs ids copy_ids l t = Ok t' → keyed_data t' = keyed_data t.
Proof.
  unfold inserted_mdocs. intros (? & _ & (? & _ & (? & _ & (? & _ & [= <-])%bind_Ok)%bind_Ok)%bind_Ok)%bind_Ok. done.
Qed.
Lemma logged_event_keyed ids event t t' : logged_event ids event t = Ok t' → keyed_data t' = keyed_data t.
Proof.
  unfold logged_event. intros (model & _ & (t1 & Ht1 & (t2 & Ht2 & Ht')%bind_Ok)%bind_Ok)%bind_Ok.
  assert (keyed_data t1 = keyed_data t) as <- by (destruct model; apply bind_Ok in Ht1 as (? & _ & [= <-]); done).
  assert (keyed_data t2 = keyed_data t1) as <-.
  { case_decide; [by injection Ht2 as <-|]. unfold insert_doc_types in Ht2. by apply bind_Ok in Ht2 as (? & _ & [= <-]). }
  destruct model; (case_decide; [by injection Ht' as <-|by apply bind_Ok in Ht' as (? & _ & [= <-])]).
Qed.

Lemma other_call_number {A} (m : ST (remote Device) StorageError A) r o r' n : other_call m →
  device_number (contents r) n → m r = (o, r') → device_number (contents r') n.
Proof.
  destruct 1 as [A m Hq|nk rnd|D ? data Hk|D ? data Hk|ids cids l|ids|ids event]; intros Hn Hr.
  - by destruct (Hq _ _ _ Hr) as [-> _].
  - by eapply open_number.
  - eapply changes_number; [apply insert_data_changes| |done..]. intros t t' (v & _ & Hv)%bind_Ok.
    destruct (keyed_data t !! KEY (D:=D)); [done|]. injection Hv as <-. unfold number_of. cbn. by rewrite lookup_insert_ne.
  - eapply changes_number; [apply update_data_changes| |done..]. intros t t' (v & _ & [= <-])%bind_Ok. unfold number_of. cbn.
    destruct (keyed_data t !! KEY (D:=D)); [|done]. by rewrite lookup_insert_ne.
  - eapply changes_number; [apply insert_mdocs_changes, mdoc_models_no_panic| |done..]. apply same_keyed_number, inserted_mdocs_keyed.
  - eapply changes_number; [apply execute_changes| |done..]. by apply same_keyed_number; intros ?? [= <-].
  - eapply changes_number; [apply log_wallet_event_changes| |done..]. apply same_keyed_number, logged_event_keyed.
Qed.

Inductive client_step : Phone X → Phone X → Prop :=
  | step_check_pin clock c p o p' : ic_hw_privkey c = hw →
      send (R:=unit) prof clock c mkCheckPin p = (o, p') → client_step p p'
  | step_generate_key clock c (i : GenerateKey) p o p' : ic_hw_privkey c = hw →
      send (R:=GenerateKeyResult) prof clock c i p = (o, p') → client_step p p'
  | step_sign clock c (i : Sign) p o p' : ic_hw_privkey c = hw →
      send (R:=SignResult) prof clock c i p = (o, p') → client_step p p'
  | step_other {A} (m : ST (remote Device) StorageError A) p o p' : other_call m → on_device m p = (o, p') → client_step p p'
  | step_restart p : client_step p
      (mkPhone (Prelude.Remote (mkDevice _ false (db_file (contents (ph_device p))) (key_file (contents (ph_device p)))
                  (key_store (contents (ph_device p)))) (faults (ph_device p))) (ph_account p) (ph_peer p)).

Lemma client_step_numbers p p' n : client_step p p' → device_number (contents (ph_device p)) n → 0 ≤ n → n + 2 < 2 ^ 64 →
  ∃ n' msgs, n ≤ n' ≤ n + 2 ∧ device_number (contents (ph_device p')) n' ∧ ph_account p' = ph_account p ++ msgs ∧ numbers_grow n n' msgs.
Proof.
  assert (numbers_grow n n []) as Hnil by (apply numbers_grow_nil; lia).
  destruct 1 as [clock c p o p' Hhw Hs|clock c i p o p' Hhw Hs|clock c i p o p' Hhw Hs|A m p o p' Hm Hs|p]; intros Hn Hpos Hmax.
  1-3: apply (send_inv _ _ _ _ _ _ n) in Hs as (n' & msgs & ? & ? & ? & _ & Hg); [|done..]; exists n', msgs;
    (split_and!; try done); by destruct Hg as (_ & _ & _ & _ & ?).
  - unfold on_device in Hs. destruct (m (ph_device p)) as [x r] eqn:Hr. injection Hs as <- <-. exists n, []. rewrite app_nil_r.
    split_and!; [lia..| |done|done]. by eapply other_call_number.
  - exists n, []. rewrite app_nil_r. split_and!; [lia..|done|done|done].
Qed.

(** C13. Sequence numbers: in any run of a wallet - instructions of any kind with
    any answers of the server, failures of the device at any call, restarts, and
    everything else that happens to the database short of clearing it - the numbers
    that the account server reads in the messages that the wallet adds to its log
    are all there, increase strictly, and are at most the number that is stored;
    with fewer than 2^62 steps they do not overflow in either profile.  The run
    starts when no number is stored, and the wallet signs with one hardware key. *)
Theorem sequence_numbers_increase k p p' : nsteps client_step k p p' → Z.of_nat k < 2 ^ 62 →
  device_number (contents (ph_device p)) 0 →
  ∃ msgs ns last, ph_account p' = ph_account p ++ msgs ∧ message_number <$> msgs = Some <$> ns ∧ StronglySorted Z.lt ns ∧
    Forall (λ n, 1 ≤ n ≤ last) ns ∧ device_number (contents (ph_device p')) last.
Proof.
  intros Hrun Hk Hn.
  enough (∃ last msgs, 0 ≤ last ≤ 2 * Z.of_nat k ∧ device_number (contents (ph_device p')) last ∧ ph_account p' = ph_account p ++ msgs ∧ numbers_grow 0 last msgs)
    as (last & msgs & _ & Hl & Hm & ns & Hf & Hs & Hr & _).
  { exists msgs, ns, last. split_and!; try done. eapply Forall_impl; [exact Hr|]. cbn. lia. }
  revert p' Hrun. induction k as [|k IH]; intros p' Hrun.
  - inversion Hrun; subst. exists 0, []. rewrite app_nil_r. split_and!; [lia..|done|done|]. by apply numbers_grow_nil.
  - apply nsteps_inv_r in Hrun as (p1 & Hrun & Hstep).
    destruct IH with p1 as (last & msgs & Hle & Hl & Hm & Hg); [lia|done|].
    destruct (client_step_numbers _ _ _ Hstep Hl) as (last' & msgs' & Hle' & Hl' & Hm' & Hg'); [lia..|].
    exists last', (msgs ++ msgs'). split_and!; [lia..|done|by rewrite Hm', Hm, app_assoc|]. by eapply numbers_grow_app.
Qed.
End Numbers.
