(* ===== verification/IssuanceSession.v ===== *)
(** * Issuance as the wallet performs it

    Models [openid4vc/src/issuance_session.rs]: the client of the issuance
    protocol with its HTTP messages, and the proofs of possession of
    [openid4vc/src/credential.rs] and [jwt.rs] with a key factory whose operations
    have effects and errors of their own.

    The messages that were sent to the issuer are a part of the state, and an
    answer is a function of the messages so far.  Instants of tokens are in
    seconds, those of certificates in microseconds; the random strings that the
    code draws are arguments.  The crate [reqwest] is the class [VcHttp]. *)
From stdpp Require Import base gmap strings list option.
From Stdlib Require Import ZArith Lia.
From S2P Require Import Prelude IndexMap SessionStore Crypto Jose Cbor Cose Engagement Mdoc MdocSigning Holder Protocol Issuer WalletStorage.

(** [KeyFactory] with its keys; a message is signed with several keys. *)
Record KeyFactoryOps `{!Ecdsa} (S EK K : Type) := mkKeyFactoryOps {
  kf_generate_new_multiple : Z → ST S EK (list K);
  kf_generate_existing : string → VerifyingKey → K;
  kf_sign_multiple_with_existing_keys : list (string * list K) → ST S EK (list (list Signature));
  kf_verifying_key : K → VerifyingKey;
  kf_identifier : K → string;
  kf_key_type : MdocKeyType
}.
Arguments mkKeyFactoryOps {_ S EK K}.
Arguments kf_generate_new_multiple {_ S EK K}.
Arguments kf_generate_existing {_ S EK K}.
Arguments kf_sign_multiple_with_existing_keys {_ S EK K}.
Arguments kf_verifying_key {_ S EK K}.
Arguments kf_identifier {_ S EK K}.
Arguments kf_key_type {_ S EK K}.

(** ** Errors; [EK] are the errors of the key factory *)
Inductive IssuanceSessionError (EK : Type) :=
  | SDpop (e : DpopError)
  | SJwkConversion (e : JwkConversionError)
  | SJwt (e : JwtError)
  | SJwtSigning (e : EK)
  | SNetwork
  | SMissingNonce
  | SIssuedAttributesMismatch (e : IssuedAttributesMismatch)
  | SMdocVerification (e : MdocError)
  | STokenRequest (e : ErrorResponse string)
  | SCredentialRequest (e : ErrorResponse string)
  | SPrivateKeyGeneration (e : EK)
  | SPublicKeyMismatch
  | SPublicKeyFromMdoc (e : MdocError)
  | SUnexpectedCredentialResponseCount (found expected : Z)
  | SHeaderToStr
  | SCertificate (e : CertificateError)
  | SIssuerCertificateMismatch
  | SCose (e : CoseError)
  | SOauthDiscovery
  | SOpenId4vciDiscovery
  | SNoBatchCredentialEndpoint
  | SAttributeRandomLength (found minimum : Z).
Arguments SDpop {EK}. Arguments SJwkConversion {EK}. Arguments SJwt {EK}. Arguments SJwtSigning {EK}. Arguments SNetwork {EK}.
Arguments SMissingNonce {EK}. Arguments SIssuedAttributesMismatch {EK}. Arguments SMdocVerification {EK}. Arguments STokenRequest {EK}.
Arguments SCredentialRequest {EK}. Arguments SPrivateKeyGeneration {EK}. Arguments SPublicKeyMismatch {EK}. Arguments SPublicKeyFromMdoc {EK}.
Arguments SUnexpectedCredentialResponseCount {EK}. Arguments SHeaderToStr {EK}. Arguments SCertificate {EK}. Arguments SIssuerCertificateMismatch {EK}.
Arguments SCose {EK}. Arguments SOauthDiscovery {EK}. Arguments SOpenId4vciDiscovery {EK}. Arguments SNoBatchCredentialEndpoint {EK}.
Arguments SAttributeRandomLength {EK}.

(** ** Messages *)

(** What the session uses of [IssuerData] and of the OAuth metadata. *)
Record IssuerMetadata := mkIssuerMetadata {
  md_credential_issuer : string;
  md_authorization_servers : option (list string);
  md_batch_credential_endpoint : option string
}.
(** [IssuerData::authorization_servers] *)
Definition authorization_servers (d : IssuerMetadata) : list string :=
  match md_authorization_servers d with
  | Some (s :: l) => s :: l
  | _ => [md_credential_issuer d]
  end.

Inductive VcMessage :=
  | DiscoverMetadata (url : string)
  | DiscoverOauthMetadata (url : string)
  | RequestToken (url : string) (token_request : TokenRequest) (dpop_header : string)
  | RequestCredentials (url : string) (credential_requests : list CredentialRequest) (dpop_header access_token_header : string)
  | RejectIssuance (url dpop_header access_token_header : string).

(** [VcMessageClient]; the OAuth metadata is its token endpoint. *)
Class VcMessageClient (EK : Type) := {
  answer_metadata : list VcMessage → string → outcome (IssuanceSessionError EK) IssuerMetadata;
  answer_oauth_metadata : list VcMessage → string → outcome (IssuanceSessionError EK) string;
  answer_token : list VcMessage → string → TokenRequest → string →
    outcome (IssuanceSessionError EK) (TokenResponseWithPreviews * option string);
  answer_credentials : list VcMessage → string → list CredentialRequest → string → string →
    outcome (IssuanceSessionError EK) (list CredentialResponse);
  answer_reject : list VcMessage → string → string → string → outcome (IssuanceSessionError EK) unit
}.

(** *** The HTTP client *)
Record VcResponse := mkVcResponse {
  vr_status : Z;
  (** The header [DPoP-Nonce], which may not be text. *)
  vr_dpop_nonce : option (option string);
  vr_json : string
}.
Class VcHttp := {
  vc_execute : list VcMessage → VcMessage → option VcResponse;
  vc_join : string → string → string;
  metadata_from_json : string → option IssuerMetadata;
  oauth_metadata_from_json : string → option string;
  vc_error_from_json : string → option (ErrorResponse string);
  token_response_from_json : string → option (TokenResponseWithPreviews);
  credential_responses_from_json : string → option (list CredentialResponse)
}.

Section VcHttpClient.
Context {EK : Type} `{!VcHttp}.
Abbreviation ISE := (IssuanceSessionError EK).
Definition vc_error_status (status : Z) : bool := (400 <=? status) && (status <? 600).

(** Metadata: an error status is a network error, as is text that is not JSON. *)
Definition http_discover {T} (e : ISE) (from_json : string → option T) (log : list VcMessage) (m : VcMessage) (on_status : ISE)
    : outcome ISE T :=
  let* response := ok_or on_status (vc_execute log m) in
  let* _ := guard_err (negb (vc_error_status (vr_status response))) on_status in
  ok_or e (from_json (vr_json response)).

(** [HttpVcMessageClient::request_token], [request_credentials] and [reject] *)
Definition vc_check_status (on_error : ErrorResponse string → ISE) (response : VcResponse) : outcome ISE unit :=
  if vc_error_status (vr_status response) then
    let* error := ok_or SNetwork (vc_error_from_json (vr_json response)) in
    Err (on_error error)
  else Ok tt.

Definition http_request_token (log : list VcMessage) (url : string) (token_request : TokenRequest) (dpop_header : string)
    : outcome ISE (TokenResponseWithPreviews * option string) :=
  let* response := ok_or SNetwork (vc_execute log (RequestToken url token_request dpop_header)) in
  let* _ := vc_check_status STokenRequest response in
  let* dpop_nonce := match vr_dpop_nonce response with
                     | None => Ok None
                     | Some (Some value) => Ok (Some value)
                     | Some None => Err SHeaderToStr
                     end in
  let* deserialized := ok_or SNetwork (token_response_from_json (vr_json response)) in
  Ok (deserialized, dpop_nonce).
Definition http_request_credentials (log : list VcMessage) (url : string) (credential_requests : list CredentialRequest)
    (dpop_header access_token_header : string) : outcome ISE (list CredentialResponse) :=
  let* response := ok_or SNetwork (vc_execute log (RequestCredentials url credential_requests dpop_header access_token_header)) in
  let* _ := vc_check_status SCredentialRequest response in
  ok_or SNetwork (credential_responses_from_json (vr_json response)).
Definition http_reject (log : list VcMessage) (url dpop_header access_token_header : string) : outcome ISE unit :=
  let* response := ok_or SNetwork (vc_execute log (RejectIssuance url dpop_header access_token_header)) in
  vc_check_status SCredentialRequest response.

Definition HttpVcMessageClient : VcMessageClient EK := {|
  answer_metadata log url := http_discover SOpenId4vciDiscovery metadata_from_json log
    (DiscoverMetadata (vc_join url "/.well-known/openid-credential-issuer")) SOpenId4vciDiscovery;
  answer_oauth_metadata log url := http_discover SOauthDiscovery oauth_metadata_from_json log
    (DiscoverOauthMetadata (vc_join url "/.well-known/oauth-authorization-server")) SNetwork;
  answer_token := http_request_token;
  answer_credentials := http_request_credentials;
  answer_reject := http_reject
|}.
End VcHttpClient.

(** ** Proofs of possession, with effects *)
Inductive PopMError (EK : Type) :=
  | MPrivateKeyGeneration (e : EK)
  | MPopHeader (e : JwkConversionError)
  | MPopJwt (e : JwtError)
  | MPopSigning (e : EK).
Arguments MPrivateKeyGeneration {EK}.
Arguments MPopHeader {EK}.
Arguments MPopJwt {EK}.
Arguments MPopSigning {EK}.

(** A part of a state. *)
Class Part (S T : Type) := {
  part : S → T;
  set_part : T → S → S;
  part_set t s : part (set_part t s) = t
}.
Definition on_part {S T E A} `{!Part S T} (m : ST T E A) : ST S E A := λ s,
  let '(o, t) := m (part s) in (o, set_part t s).

Section Session.
Context {S EK K : Type} `{!Part S (list VcMessage)}.
Context `{!Ecdsa, !X509Lib, !Coset, !Ciborium, !Sha256, !Chrono, !Base64, !JwtLib DpopPayload, !JwtLib CredentialRequestProofJwtPayload}.
Context `{!VcMessageClient EK}.
Abbreviation ISE := (IssuanceSessionError EK).

(** [jwk_jwt_header] of a key by its public key *)
Definition jwk_jwt_header_of (t : string) (key : VerifyingKey) : outcome JwkConversionError Header :=
  let* j := jwk_from_p256 key in
  Ok {| Jose.alg := ES256; Jose.typ := Some t; kid := None; jwk := Some j; x5c := None |}.

(** [sign_jwts] *)
Definition st_sign_jwts (f : KeyFactoryOps S EK K) (keys_and_messages : list (K * (Header * CredentialRequestProofJwtPayload)))
    : ST S (PopMError EK) (list (K * string)) :=
  let keys := keys_and_messages.*1 in
  let! messages := st_lift (map_err MPopJwt (try_map jwt_message keys_and_messages.*2)) in
  let! signatures := st_map_err MPopSigning
    (kf_sign_multiple_with_existing_keys f (zip messages ((λ key, [key]) <$> keys))) in
  st_lift (try_map (λ x : (list Signature * K) * string,
    let '((sigs, key), msg) := x in
    let* sig := unwrap (head sigs) in
    Ok (key, msg +:+ "." +:+ encode_signature (C:=CredentialRequestProofJwtPayload) sig))
    (zip (zip signatures keys) messages)).

(** [CredentialRequestProof::new_multiple] *)
Definition st_new_multiple (now : Z) (f : KeyFactoryOps S EK K) (nonce wallet_client_id identifier : string) (number_of_keys : Z)
    : ST S (PopMError EK) (list (K * CredentialRequestProof)) :=
  let! keys := st_map_err MPrivateKeyGeneration (kf_generate_new_multiple f number_of_keys) in
  let payload := {| pop_nonce := Some nonce; pop_iss := wallet_client_id; pop_aud := identifier; pop_iat := now |} in
  let! keys_and_jwt_payloads := st_lift (try_map (λ privkey,
    let* header := map_err MPopHeader (jwk_jwt_header_of OPENID4VCI_VC_POP_JWT_TYPE (kf_verifying_key f privkey)) in
    Ok (privkey, (header, payload))) keys) in
  let! jwts := st_sign_jwts f keys_and_jwt_payloads in
  sret ((λ kj : K * string, (kj.1, ProofJwt kj.2)) <$> jwts).
Definition pop_session_error (e : PopMError EK) : ISE :=
  match e with
  | MPrivateKeyGeneration e => SPrivateKeyGeneration e
  | MPopHeader e => SJwkConversion e
  | MPopJwt e => SJwt e
  | MPopSigning e => SJwtSigning e
  end.

(** ** The session *)
Definition vc_exchange {A} (m : VcMessage) (answer : list VcMessage → outcome ISE A) : ST S ISE A :=
  on_part (λ log, (answer log, log ++ [m])).

(** [HttpIssuanceSession] with its [IssuanceState] *)
Record HttpIssuanceSession := mkIssuanceSession {
  is_access_token : AccessToken;
  is_c_nonce : string;
  is_attestation_previews : list AttestationPreview;
  is_issuer_url : string;
  is_dpop_private_key : SigningKey;
  is_dpop_nonce : option string
}.

(** [IssuanceState::auth_headers] *)
Definition auth_headers (random : string) (now : Z) (s : HttpIssuanceSession) (url method : string) : outcome ISE (string * string) :=
  let* dpop_header := map_err SDpop
    (Dpop_new random now (is_dpop_private_key s) url method (Some (is_access_token s)) (is_dpop_nonce s)) in
  Ok (dpop_header, "DPoP " +:+ is_access_token s).

(** [discover_token_endpoint] and [discover_batch_credential_endpoint] *)
Definition discover_metadata (base_url : string) : ST S ISE IssuerMetadata :=
  vc_exchange (DiscoverMetadata base_url) (λ log, answer_metadata log base_url).
Definition discover_token_endpoint (base_url : string) : ST S ISE string :=
  let! issuer_metadata := discover_metadata base_url in
  let! oauth_server := st_lift (unwrap (head (authorization_servers issuer_metadata))) in
  vc_exchange (DiscoverOauthMetadata oauth_server) (λ log, answer_oauth_metadata log oauth_server).
Definition discover_batch_credential_endpoint (base_url : string) : ST S ISE (option string) :=
  let! issuer_metadata := discover_metadata base_url in
  sret (md_batch_credential_endpoint issuer_metadata).

(** [start_issuance] *)
Definition verify_previews (time : Z) (trust_anchors : list TrustAnchor) (previews : list AttestationPreview) : outcome ISE unit :=
  let* _ := try_map (λ preview : AttestationPreview,
    let 'PreviewMsoMdoc _ issuer := preview in
    map_err SCertificate (Certificate_verify issuer Mdl [] time trust_anchors)) previews in
  Ok tt.
Definition start_issuance (random : string) (now time : Z) (dpop_private_key : SigningKey) (base_url : string)
    (token_request : TokenRequest) (trust_anchors : list TrustAnchor) : ST S ISE (HttpIssuanceSession * list AttestationPreview) :=
  let! token_endpoint := discover_token_endpoint base_url in
  let! dpop_header := st_lift (map_err SDpop (Dpop_new random now dpop_private_key token_endpoint "POST" None None)) in
  let! response := vc_exchange (RequestToken token_endpoint token_request dpop_header)
    (λ log, answer_token log token_endpoint token_request dpop_header) in
  let '(token_response_with_previews, dpop_nonce) := response in
  let previews := attestation_previews token_response_with_previews in
  let! _ := st_lift (verify_previews time trust_anchors previews) in
  let! nonce := st_lift (ok_or SMissingNonce (c_nonce (token_response token_response_with_previews))) in
  sret ({|
    is_access_token := access_token (token_response token_response_with_previews);
    is_c_nonce := nonce;
    is_attestation_previews := previews;
    is_issuer_url := base_url;
    is_dpop_private_key := dpop_private_key;
    is_dpop_nonce := dpop_nonce
  |}, previews).

(** [CredentialResponse::into_mdoc] *)
Definition ATTR_RANDOM_LENGTH : Z := 32.
Definition random_lengths (ns : IssuerNameSpaces) : list Z :=
  p ← ns; (λ item : IssuerSignedItemBytes, Z.of_nat (String.length (bytes (random (untag item))))) <$> p.2.
Definition minimum (l : list Z) : option Z :=
  match l with [] => None | x :: l => Some (foldl Z.min x l) end.
Definition into_mdoc (time : Z) (key_type : MdocKeyType) (r : CredentialResponse) (key_id : string) (key : VerifyingKey)
    (preview : AttestationPreview) (trust_anchors : list TrustAnchor) : outcome ISE Mdoc :=
  let 'ResponseMsoMdoc issuer_signed := r in
  let* public_key := map_err SPublicKeyFromMdoc (IssuerSigned_public_key issuer_signed) in
  let* _ := guard_err (bool_decide (public_key = key)) SPublicKeyMismatch in
  let* _ := match name_spaces issuer_signed with
            | Some ns =>
                match minimum (random_lengths ns) with
                | Some min_random_length =>
                    guard_err (ATTR_RANDOM_LENGTH <=? min_random_length) (SAttributeRandomLength min_random_length ATTR_RANDOM_LENGTH)
                | None => Ok tt
                end
            | None => Ok tt
            end in
  let 'PreviewMsoMdoc unsigned_mdoc issuer := preview in
  let* cert := map_err SCose (signing_cert (issuer_auth issuer_signed)) in
  let* _ := guard_err (bool_decide (cert = issuer)) SIssuerCertificateMismatch in
  let* mdoc := map_err SMdocVerification (Mdoc_new key_type key_id issuer_signed time trust_anchors) in
  let* _ := map_err SIssuedAttributesMismatch (compare_unsigned mdoc unsigned_mdoc) in
  Ok mdoc.

(** The loop over the previews, which drains the responses: taking more than
    there are panics. *)
Fixpoint collect_copies (time : Z) (key_type : MdocKeyType) (trust_anchors : list TrustAnchor) (previews : list AttestationPreview)
    (responses_and_pubkeys : list (CredentialResponse * (VerifyingKey * string))) : outcome ISE (list MdocCopies) :=
  match previews with
  | [] => Ok []
  | preview :: previews =>
      let copy_count := Z.to_nat (preview_copy_count preview) in
      let* _ := rust_assert (copy_count <=? length responses_and_pubkeys)%nat in
      let* cred_copies := try_map (λ r : CredentialResponse * (VerifyingKey * string),
        into_mdoc time key_type r.1 r.2.2 r.2.1 preview trust_anchors) (take copy_count responses_and_pubkeys) in
      let* rest := collect_copies time key_type trust_anchors previews (drop copy_count responses_and_pubkeys) in
      Ok (cred_copies :: rest)
  end.

(** [accept_issuance] *)
Definition NL_WALLET_CLIENT_ID : string := "https://example.com".
Definition preview_doc_types (previews : list AttestationPreview) : list string :=
  preview ← previews; replicate (Z.to_nat (preview_copy_count preview)) (u_doc_type (preview_unsigned preview)).
Definition accept_issuance (random : string) (now time : Z) (trust_anchors : list TrustAnchor) (f : KeyFactoryOps S EK K)
    (credential_issuer_identifier : string) (s : HttpIssuanceSession) : ST S ISE (list MdocCopies) :=
  let previews := is_attestation_previews s in
  let doctypes := preview_doc_types previews in
  let! keys_and_proofs := st_map_err pop_session_error (st_new_multiple now f (is_c_nonce s) NL_WALLET_CLIENT_ID
    credential_issuer_identifier (Z.of_nat (length doctypes))) in
  let pubkeys_and_requests := zip_with (λ (kp : K * CredentialRequestProof) doctype,
    ((kf_verifying_key f kp.1, kf_identifier f kp.1), mkCredentialRequest MsoMdoc (Some doctype) (Some kp.2))) keys_and_proofs doctypes in
  let pubkeys := pubkeys_and_requests.*1 in
  let credential_requests := pubkeys_and_requests.*2 in
  let! endpoint := discover_batch_credential_endpoint (is_issuer_url s) in
  let! url := st_lift (ok_or SNoBatchCredentialEndpoint endpoint) in
  let! headers := st_lift (auth_headers random now s url "POST") in
  let! _ := st_lift (rust_assert (negb (bool_decide (credential_requests = [])))) in
  let! responses := vc_exchange (RequestCredentials url credential_requests headers.1 headers.2)
    (λ log, answer_credentials log url credential_requests headers.1 headers.2) in
  let! _ := st_lift (guard_err (length responses =? length pubkeys)%nat
    (SUnexpectedCredentialResponseCount (Z.of_nat (length responses)) (Z.of_nat (length pubkeys)))) in
  st_lift (collect_copies time (kf_key_type f) trust_anchors previews (zip responses pubkeys)).

(** [reject_issuance] *)
Definition reject_issuance (random : string) (now : Z) (s : HttpIssuanceSession) : ST S ISE unit :=
  let! endpoint := discover_batch_credential_endpoint (is_issuer_url s) in
  let! url := st_lift (ok_or SNoBatchCredentialEndpoint endpoint) in
  let! headers := st_lift (auth_headers random now s url "DELETE") in
  vc_exchange (RejectIssuance url headers.1 headers.2) (λ log, answer_reject log url headers.1 headers.2).
End Session.
