(* ===== verification/IssuanceSessionFacts.v ===== *)
(** * What a wallet accepts in an issuance session

    An issuance session gives mdocs that verify, hold the attributes of the
    preview under the certificate of the preview, and belong to the keys whose
    possession was proved; it does not panic with a key factory that answers as
    asked. *)
From stdpp Require Import base gmap strings list option.
From Stdlib Require Import ZArith Lia.
From S2P Require Import Prelude IndexMap SessionStore Crypto Jose Cbor Cose Engagement Mdoc MdocSigning MdocFacts Holder Protocol Issuer WalletStorage.
From S2P Require Import IssuanceSession.

Section Facts.
Context {S EK K : Type} `{!Part S (list VcMessage)}.
Context `{!Ecdsa, !X509Lib, !Coset, !Ciborium, !Sha256, !Chrono, !Base64, !JwtLib DpopPayload, !JwtLib CredentialRequestProofJwtPayload}.
Context `{!VcMessageClient EK}.
Implicit Types (f : KeyFactoryOps S EK K) (s : HttpIssuanceSession).

(** ** Values of attributes *)
Lemma mismatches_nil_inv from other id v : mismatches from other = [] → (id, v) ∈ from →
  ∃ w, im_get other id = Some w ∧ value_eqb w v = true.
Proof.
  intros Hm Hin. unfold mismatches in Hm. apply fmap_nil_inv in Hm.
  destruct (im_get other id) as [w|] eqn:Hg.
  - exists w. split; [done|]. destruct (value_eqb w v) eqn:Hv; [done|]. exfalso.
    eapply filter_nil_not_elem_of; [exact Hm| |exact Hin]. cbn. by rewrite Hg, Hv.
  - exfalso. eapply filter_nil_not_elem_of; [exact Hm| |exact Hin]. cbn. by rewrite Hg.
Qed.

(** Two maps of attributes with equal values. *)
Definition same_values (a b : imap AttributeIdentifier Value) : Prop :=
  (∀ id v, im_get a id = Some v → ∃ w, im_get b id = Some w ∧ value_eqb w v = true) ∧
  (∀ id w, im_get b id = Some w → ∃ v, im_get a id = Some v ∧ value_eqb v w = true).

Lemma compare_unsigned_Ok m u x : compare_unsigned m u = Ok x →
  same_values (flatten_map (m_doc_type m) (Mdoc_attributes m)) (flatten_map (u_doc_type u) (u_attributes u)).
Proof.
  unfold compare_unsigned. destruct (mismatches (flatten_map (u_doc_type u) _) _) eqn:Hm1; [|done].
  destruct (mismatches (flatten_map (m_doc_type m) _) _) eqn:Hm2; [|done]. intros _.
  split; intros id v Hg%im_get_Some_elem; by eapply mismatches_nil_inv.
Qed.

Lemma flatten_map_type dt attrs id v : im_get (flatten_map dt attrs) id = Some v → ai_doc_type id = dt.
Proof.
  intros Hg%im_get_Some_elem%im_collect_elem. apply list_elem_of_join in Hg as (l & Hl & Hin).
  apply list_elem_of_fmap in Hin as (p & -> & _). apply list_elem_of_fmap in Hl as (e & [= -> ->] & _). done.
Qed.
Lemma flatten_map_nonempty dt attrs : unsigned_attributes_valid attrs = true → ∃ id v, im_get (flatten_map dt attrs) id = Some v.
Proof.
  unfold unsigned_attributes_valid. intros [Hne Hall]%andb_true_iff. destruct attrs as [|[ns es] attrs]; [done|].
  cbn in Hall. apply andb_true_iff in Hall as [He _]. destruct es as [|e es]; [done|].
  assert (flatten_map dt ((ns, e :: es) :: attrs) ≠ []) as Hf by (by apply im_collect_nonempty).
  destruct (flatten_map dt ((ns, e :: es) :: attrs)) as [|[id v] l]; [done|]. exists id, v. cbn. by rewrite decide_True.
Qed.

(** ** The mdocs of a session *)

Lemma minimum_le l m x : minimum l = Some m → x ∈ l → m ≤ x.
Proof.
  destruct l as [|y l]; [done|]. cbn. intros [= <-].
  assert (∀ l y, foldl Z.min y l ≤ y ∧ ∀ x, x ∈ l → foldl Z.min y l ≤ x) as Hf.
  { clear. induction l as [|z l IH]; intros y; cbn; [split; [lia|by intros ? ?%elem_of_nil]|].
    destruct (IH (Z.min y z)) as [Hy Hl]. split; [lia|]. intros x [->|Hx]%elem_of_cons; [lia|by apply Hl]. }
  intros [->|Hx]%elem_of_cons; [apply (proj1 (Hf _ _))|by apply (proj2 (Hf _ _))].
Qed.

(** What a wallet may expect of an mdoc: issued for a preview and a key. *)
Record as_offered (time : Z) (trust_anchors : list TrustAnchor) (kt : MdocKeyType) (preview : AttestationPreview)
    (key : VerifyingKey * string) (m : Mdoc) : Prop := {
  ao_key_id : private_key_id m = key.2 ∧ key_type m = kt;
  ao_key : IssuerSigned_public_key (m_issuer_signed m) = Ok key.1;
  ao_certificate : let 'PreviewMsoMdoc _ issuer := preview in signing_cert (issuer_auth (m_issuer_signed m)) = Ok issuer;
  ao_verified : ∃ attributes mso, IssuerSigned_verify (m_issuer_signed m) AllowNotYetValid time trust_anchors = Ok (attributes, mso) ∧
    m_doc_type m = mso_doc_type mso;
  ao_attributes : same_values (flatten_map (m_doc_type m) (Mdoc_attributes m))
    (flatten_map (u_doc_type (preview_unsigned preview)) (u_attributes (preview_unsigned preview)));
  ao_random ns items item : name_spaces (m_issuer_signed m) = Some ns → items ∈ ns.*2 → item ∈ items →
    ATTR_RANDOM_LENGTH ≤ Z.of_nat (String.length (bytes (random (untag item))))
}.

Lemma into_mdoc_Ok time kt r key_id key preview anchors m :
  into_mdoc (EK:=EK) time kt r key_id key preview anchors = Ok m → as_offered time anchors kt preview (key, key_id) m.
Proof.
  destruct r as [issued]. unfold into_mdoc.
  intros (pk & Hpk%map_err_Ok & (? & Hkey%guard_err_Ok & (? & Hrand & Hr)%bind_Ok)%bind_Ok)%bind_Ok. apply bool_decide_eq_true in Hkey as ->.
  destruct preview as [u cert].
  apply bind_Ok in Hr as (c & Hc%map_err_Ok & (? & Hcert%guard_err_Ok & (m' & Hm%map_err_Ok & (? & Hcmp%map_err_Ok & [= ->])%bind_Ok)%bind_Ok)%bind_Ok).
  apply bool_decide_eq_true in Hcert as ->. apply compare_unsigned_Ok in Hcmp.
  unfold Mdoc_new in Hm. apply bind_Ok in Hm as ([attrs mso] & Hv & [= <-]).
  split; cbn [private_key_id key_type m_issuer_signed m_doc_type preview_unsigned fst snd]; [done..|by exists attrs, mso|exact Hcmp|].
  intros ns items item Hns Hitems Hitem. rewrite Hns in Hrand.
  assert (Z.of_nat (String.length (bytes (random (untag item)))) ∈ random_lengths ns) as Hin.
  { unfold random_lengths. apply list_elem_of_fmap in Hitems as (p & -> & Hp). apply list_elem_of_bind. exists p. split; [|done].
    apply list_elem_of_fmap. by exists item. }
  destruct (minimum (random_lengths ns)) as [k|] eqn:Hmin; [|by destruct (random_lengths ns); [apply elem_of_nil in Hin|]].
  apply guard_err_Ok, Z.leb_le in Hrand. pose proof (minimum_le _ _ _ Hmin Hin). lia.
Qed.

(** The preview of each copy. *)
Definition copy_previews (previews : list AttestationPreview) : list AttestationPreview :=
  preview ← previews; replicate (Z.to_nat (preview_copy_count preview)) preview.
Lemma copy_previews_cons p l : copy_previews (p :: l) = replicate (Z.to_nat (preview_copy_count p)) p ++ copy_previews l.
Proof. done. Qed.
Lemma preview_doc_types_length l : length (preview_doc_types l) = length (copy_previews l).
Proof.
  induction l as [|p l IH]; [done|]. rewrite copy_previews_cons. unfold preview_doc_types in *. rewrite bind_cons.
  rewrite !length_app, !length_replicate. lia.
Qed.

Lemma zip_replicate_copies {A} (p : AttestationPreview) (l : list A) n : (n ≤ length l)%nat →
  zip (replicate n p) (take n l) = (λ x, (p, x)) <$> take n l.
Proof.
  revert l. induction n as [|n IH]; intros l Hn; [by destruct l|]. destruct l as [|x l]; [cbn in Hn; lia|]. cbn. f_equal. apply IH. cbn in Hn. lia.
Qed.

Lemma collect_copies_Ok time kt anchors previews : ∀ rs copies, collect_copies (EK:=EK) time kt anchors previews rs = Ok copies →
  Forall2 (λ p c, length c = Z.to_nat (preview_copy_count p)) previews copies ∧
  (length (copy_previews previews) ≤ length rs)%nat ∧
  Forall2 (λ (pr : AttestationPreview * (CredentialResponse * (VerifyingKey * string))) m, as_offered time anchors kt pr.1 pr.2.2 m)
    (zip (copy_previews previews) rs) (mjoin copies) ∧
  Forall2 (λ p c, ∀ m, m ∈ c → ∃ key, as_offered time anchors kt p key m) previews copies.
Proof.
  induction previews as [|p previews IH]; intros rs copies; cbn [collect_copies].
  - intros [= <-]. split_and!; [constructor|cbn; lia|constructor|constructor].
  - set (n := Z.to_nat (preview_copy_count p)). intros (? & Hn%rust_assert_Ok & (cs & Hcs%try_map_Ok & (rest & Hrest & [= <-])%bind_Ok)%bind_Ok)%bind_Ok.
    apply Nat.leb_le in Hn. destruct (IH _ _ Hrest) as (Hlen & Hle & Hall & Hnest). rewrite length_drop in Hle.
    rewrite copy_previews_cons. fold n. split_and!.
    + constructor; [|done]. apply Forall2_length in Hcs. rewrite <- Hcs, length_take. lia.
    + rewrite length_app, length_replicate. lia.
    + rewrite <- (take_drop n rs), zip_with_app by (rewrite length_replicate, length_take; lia). cbn [mjoin list_join].
      rewrite zip_replicate_copies by done. apply Forall2_app; [|done]. apply Forall2_fmap_l. eapply Forall2_impl; [|exact Hcs].
      intros [r [vk id]] m. cbn. apply into_mdoc_Ok.
    + constructor; [|done]. intros m [i Hm]%list_elem_of_lookup. destruct (Forall2_lookup_r _ _ _ _ _ Hcs Hm) as ([r [vk id]] & _ & Hr).
      exists (vk, id). by eapply into_mdoc_Ok.
Qed.

Lemma zip_take_length {A B} (l : list A) (k : list B) : zip l (take (length l) k) = zip l k.
Proof. revert k. induction l as [|x l IH]; intros [|y k]; cbn; [done..|]. by rewrite IH. Qed.
Lemma zip_zip_snd {A B C} (l : list A) (r : list B) (k : list C) : (length k ≤ length r)%nat →
  (λ x : A * (B * C), (x.1, x.2.2)) <$> zip l (zip r k) = zip l k.
Proof.
  revert r k. induction l as [|x l IH]; intros [|y r] [|z k] Hk; cbn in *; try done; [lia|]. f_equal. apply IH. lia.
Qed.

Lemma zip_with_fmap_out {A B C D} (g : C → D) (h : A → B → C) l k : g <$> zip_with h l k = zip_with (λ a b, g (h a b)) l k.
Proof. revert k. induction l as [|x l IH]; intros [|y k]; cbn; [done..|]. by rewrite IH. Qed.

(** The requests of an exchange. *)
Definition requests_of f (doctypes : list string) (keys_and_proofs : list (K * CredentialRequestProof)) : list CredentialRequest :=
  zip_with (λ (kp : K * CredentialRequestProof) doctype, mkCredentialRequest MsoMdoc (Some doctype) (Some kp.2)) keys_and_proofs doctypes.
Definition pubkeys_of f (keys_and_proofs : list (K * CredentialRequestProof)) : list (VerifyingKey * string) :=
  (λ kp, (kf_verifying_key f kp.1, kf_identifier f kp.1)) <$> keys_and_proofs.

Lemma bind_exchange {A B} msg (answer : list VcMessage → outcome (IssuanceSessionError EK) A) (k : A → ST S (IssuanceSessionError EK) B) st o st' :
  sbind (vc_exchange msg answer) k st = (o, st') →
  ∃ st1, part st1 = part st ++ [msg] ∧
    ((∃ a, answer (part st) = Ok a ∧ k a st1 = (o, st')) ∨ (∃ e, answer (part st) = Err e ∧ o = Err e ∧ st' = st1) ∨ answer (part st) = Panic ∧ o = Panic).
Proof.
  unfold vc_exchange, on_part, sbind. intros Hr. exists (set_part (part st ++ [msg]) st). split; [apply part_set|].
  destruct (answer (part st)); naive_solver.
Qed.

(** The steps of an issuance that succeeds. *)
Lemma accept_issuance_inv random now time anchors f identifier s st copies st' :
  accept_issuance random now time anchors f identifier s st = (Ok copies, st') →
  let previews := is_attestation_previews s in
  ∃ keys_and_proofs st1 url dpop token responses,
    st_new_multiple now f (is_c_nonce s) NL_WALLET_CLIENT_ID identifier (Z.of_nat (length (copy_previews previews))) st = (Ok keys_and_proofs, st1) ∧
    list.last (part st') = Some (RequestCredentials url (requests_of f (preview_doc_types previews) keys_and_proofs) dpop token) ∧
    let keys := take (length (copy_previews previews)) (pubkeys_of f keys_and_proofs) in
    length responses = length keys ∧
    collect_copies (EK:=EK) time (kf_key_type f) anchors previews (zip responses keys) = Ok copies.
Proof.
  intros Hr. cbn zeta. unfold accept_issuance in Hr. rewrite preview_doc_types_length in Hr.
  apply st_bind_inv in Hr as [(kps & st1 & Hk & Hr)|[(? & _ & [=])|[_ [=]]]].
  unfold st_map_err in Hk. destruct (st_new_multiple _ _ _ _ _ _ st) as [x st1'] eqn:Hnew. injection Hk as Hx ->.
  apply map_err_Ok in Hx as ->. exists kps, st1.
  set (previews := is_attestation_previews s) in *. set (prs := zip_with _ kps (preview_doc_types previews)) in *.
  assert (prs.*2 = requests_of f (preview_doc_types previews) kps) as Hreqs by (unfold prs, requests_of; by rewrite zip_with_fmap_out).
  assert (prs.*1 = take (length (copy_previews previews)) (pubkeys_of f kps)) as Hkeys.
  { unfold prs, pubkeys_of. rewrite <- preview_doc_types_length. clear. generalize (preview_doc_types previews). induction kps as [|kp kps IH]; intros l; [cbn; by rewrite take_nil|].
    destruct l as [|d l]; [done|]. cbn. f_equal. apply IH. }
  rewrite Hreqs, Hkeys in Hr. clear Hreqs Hkeys prs.
  apply st_bind_inv in Hr as [(e & st2 & _ & Hr)|[(? & _ & [=])|[_ [=]]]].
  apply bind_lift_inv in Hr as [(url & _ & Hr)|[(? & _ & [=] & _)|(_ & [=] & _)]].
  apply bind_lift_inv in Hr as [(hs & _ & Hr)|[(? & _ & [=] & _)|(_ & [=] & _)]].
  apply bind_lift_inv in Hr as [(? & _ & Hr)|[(? & _ & [=] & _)|(_ & [=] & _)]].
  apply bind_exchange in Hr as (st3 & Hlog & [(rs & _ & Hr)|[(? & _ & [=] & _)|(_ & [=])]]).
  apply bind_lift_inv in Hr as [(? & Hlen%guard_err_Ok & Hr)|[(? & _ & [=] & _)|(_ & [=] & _)]]. apply Nat.eqb_eq in Hlen.
  unfold st_lift in Hr. injection Hr as Hc <-. exists url, hs.1, hs.2, rs. split; [done|]. by rewrite Hlog, list.last_snoc.
Qed.


(** An mdoc has the type of its preview, if the preview has attributes. *)
Lemma as_offered_type time anchors kt preview key m : unsigned_attributes_valid (u_attributes (preview_unsigned preview)) = true →
  as_offered time anchors kt preview key m → m_doc_type m = u_doc_type (preview_unsigned preview).
Proof.
  intros Hu Ho. destruct (flatten_map_nonempty (u_doc_type (preview_unsigned preview)) _ Hu) as (id & w & Hg).
  destruct (proj2 (ao_attributes _ _ _ _ _ _ Ho) _ _ Hg) as (v & Hv & _).
  by rewrite <- (flatten_map_type _ _ _ _ Hg), (flatten_map_type _ _ _ _ Hv).
Qed.

(** All copies of one attestation have one type. *)
Lemma accepted_uniform random now time anchors f identifier s st copies st' :
  Forall (λ p, unsigned_attributes_valid (u_attributes (preview_unsigned p)) = true) (is_attestation_previews s) →
  accept_issuance random now time anchors f identifier s st = (Ok copies, st') →
  Forall (λ c, ∀ m m', m ∈ c → m' ∈ c → m_doc_type m = m_doc_type m') copies.
Proof.
  intros Hvalid (kps & st1 & url & dpop & token & rs & _ & _ & _ & (_ & _ & _ & Hall)%collect_copies_Ok)%accept_issuance_inv.
  apply list.Forall_forall. intros c [i Hc]%list_elem_of_lookup m m' Hm Hm'. destruct (Forall2_lookup_r _ _ _ _ _ Hall Hc) as (p & Hp & Ho).
  rewrite list.Forall_forall in Hvalid. specialize (Hvalid p). rewrite list_elem_of_lookup in Hvalid.
  destruct (Ho m Hm) as [key Hk], (Ho m' Hm') as [key' Hk']. by rewrite (as_offered_type _ _ _ _ _ _ (Hvalid (ex_intro _ i Hp)) Hk), (as_offered_type _ _ _ _ _ _ (Hvalid (ex_intro _ i Hp)) Hk').
Qed.
End Facts.
