(* ===== verification/WalletSessions.v ===== *)
(** * Sessions of the wallet with verifiers and issuers

    Models [wallet/src/disclosure] ([mod.rs] for OpenID4VP and [uri.rs]) and what
    the sessions do with the keys of [instruction/keys.rs]: signing a disclosure
    ([mdoc/src/holder/disclosure], [openid4vc/src/disclosure_session.rs]) with a
    key factory that has effects and errors of its own.  The other parties are the
    logs of messages that were sent to them. *)
From stdpp Require Import base gmap strings list option.
From Stdlib Require Import ZArith Lia.
From S2P Require Import Prelude IndexMap SessionStore Crypto Jose Cbor Cose Engagement Mdoc MdocSigning Holder Document.
From S2P Require Import Protocol PresentationExchange OpenId4vp Verifier DisclosureSession Issuer PinPolicy Signed WalletUsers AccountServer.
From S2P Require Import AccountClient PinValidation WalletStorage InstructionClient IssuanceSession.

(** The parties besides the account server. *)
Record Peers := mkPeers { vp_log : list VpMessage; vc_log : list VcMessage }.
#[global] Instance peers_vp : Part Peers (list VpMessage) := {| part := vp_log; set_part l p := mkPeers l (vc_log p); part_set _ _ := eq_refl |}.
#[global] Instance peers_vc : Part Peers (list VcMessage) := {| part := vc_log; set_part l p := mkPeers (vp_log p) l; part_set _ _ := eq_refl |}.
#[global] Instance phone_vc `{!PlatformKeys} : Part (Phone Peers) (list VcMessage) := {|
  part p := vc_log (ph_peer p);
  set_part l p := mkPhone (ph_device p) (ph_account p) (mkPeers (vp_log (ph_peer p)) l);
  part_set _ _ := eq_refl
|}.
#[global] Instance phone_vp `{!PlatformKeys} : Part (Phone Peers) (list VpMessage) := {|
  part p := vp_log (ph_peer p);
  set_part l p := mkPhone (ph_device p) (ph_account p) (mkPeers l (vc_log (ph_peer p)));
  part_set _ _ := eq_refl
|}.

(** ** URIs of disclosures *)
Inductive DisclosureUriError := UriMalformed (uri : string).
(** [VpDisclosureUriData::parse_from_uri] *)
Definition vp_parse_from_uri (query : string → option string) (uri base_uri : string) : outcome DisclosureUriError string :=
  let* _ := guard_err (String.prefix base_uri uri) (UriMalformed uri) in
  ok_or (UriMalformed uri) (query uri).

(** ** Signing with effects *)

(** An error of the code, or an error of the keys ([CoseError::Signing] with a
    boxed error). *)
Inductive KeyError (EK E : Type) := PlainError (e : E) | SigningError (e : EK).
Arguments PlainError {EK E}.
Arguments SigningError {EK E}.

Section Signing.
Context {I S EK K : Type} `{!Part S (list VpMessage)}.
Context `{!Ecdsa, !X509Lib, !Coset, !Ciborium, !Sha256, !Chrono, !UrlLib, !MacLib, !Base64Std, !Josekit, !ResponseJson}.
Context `{!JwtLib VpAuthorizationRequest, !VerifierLib, !WalletUrlLib, !RegistrationLib, !VpMessageClient}.
Variable f : KeyFactoryOps S EK K.

(** The keys and challenges of [ProposedDocument::sign_multiple] *)
Definition document_keys (proposed_documents : list (ProposedDocument I)) : outcome MdocError (list (K * string)) :=
  try_map (λ doc : ProposedDocument I,
    let* public_key := IssuerSigned_public_key (pd_issuer_signed doc) in
    Ok (kf_generate_existing f (pd_private_key_id doc) public_key, device_signed_challenge doc)) proposed_documents.
(** [DeviceResponse::from_proposed_documents], with [sign_multiple],
    [DeviceSigned::new_signatures] and [sign_coses] *)
Definition st_from_proposed_documents (proposed_documents : list (ProposedDocument I)) : ST S (KeyError EK MdocError) DeviceResponse :=
  let! keys_and_challenges := st_lift (map_err PlainError (document_keys proposed_documents)) in
  let! signatures := st_map_err SigningError (kf_sign_multiple_with_existing_keys f
    ((λ kc : K * string, (sig_structure_data es256_header kc.2, [kc.1])) <$> keys_and_challenges)) in
  let! coses := st_lift (map_err (λ e, PlainError (MCose e))
    (sign_coses (λ _, Some signatures) keys_and_challenges (mkCoseHeader None []) false)) in
  let device_signed := (λ cose, {| ds_name_spaces := []; device_auth := DeviceSignature cose |}) <$> coses in
  let documents := zip_with (λ (d : ProposedDocument I) s,
    {| doc_type := pd_doc_type d; issuer_signed := pd_issuer_signed d; device_signed := s; doc_errors := None |})
    proposed_documents device_signed in
  sret {| documents := Some documents; document_errors := None; status := 0 |}.

(** [DisclosureProposal::disclose]: only the first two errors are from before
    anything is sent. *)
Definition st_disclose (random rnd : string) (p : DisclosureProposal I)
    : ST S (DisclosureError (KeyError EK VpClientError)) (option string) :=
  let auth_request := cd_auth_request (dp_data p) in
  let! device_response := st_map_err (λ e, before_sharing match e with
      | PlainError e => PlainError (CDeviceResponse e)
      | SigningError e => SigningError e
      end) (st_from_proposed_documents (proposed_documents p)) in
  let! jwe := st_lift (map_err (λ e, before_sharing (PlainError (CAuthResponseEncryption e)))
    (VpAuthorizationResponse_new_encrypted random rnd device_response auth_request (dp_mdoc_nonce p))) in
  st_map_err (λ e, let e := disclosure_error_of_client e in mkDisclosureError (data_shared e) (PlainError (disclosure_error e)))
    (on_part (send_authorization_response (iso_response_uri auth_request) jwe)).
End Signing.

(** *** The pure key factory of the verified session *)

(** A key factory of [Holder] as one without effects: it agrees with the session
    that the theorems about disclosures are about. *)
Definition pure_factory {S} `{!Ecdsa, !Holder.KeyFactory} : KeyFactoryOps S unit SigningKey := {|
  kf_generate_new_multiple _ := st_throw tt;
  kf_generate_existing := Holder.generate_existing;
  kf_sign_multiple_with_existing_keys l :=
    st_lift (ok_or tt (Holder.sign_multiple_with_existing_keys (base.omap (λ m : string * list SigningKey, (λ k, (m.1, k)) <$> head m.2) l)));
  kf_verifying_key := verifying_key;
  kf_identifier _ := "";
  kf_key_type := Software
|}.
Definition forget_key_error (e : KeyError unit VpClientError) : VpClientError :=
  match e with PlainError e => e | SigningError _ => CDeviceResponse (MCose Cose.Signing) end.
Definition forget_key_errors (e : DisclosureError (KeyError unit VpClientError)) : DisclosureError VpClientError :=
  mkDisclosureError (data_shared e) (forget_key_error (disclosure_error e)).

Section Pure.
Context {I : Type}.
Context `{!Ecdsa, !X509Lib, !Coset, !Ciborium, !Sha256, !Chrono, !UrlLib, !MacLib, !Base64Std, !Josekit, !ResponseJson}.
Context `{!JwtLib VpAuthorizationRequest, !VerifierLib, !WalletUrlLib, !RegistrationLib, !VpMessageClient, !Holder.KeyFactory}.

Lemma omap_singletons {A B C} (g : A → B) (h : A → C) (l : list A) :
  base.omap (λ m : B * list C, (λ k, (m.1, k)) <$> head m.2) ((λ a, (g a, [h a])) <$> l) = (λ a, (g a, h a)) <$> l.
Proof. induction l as [|a l IH]; [done|]. cbn. by f_equal. Qed.

(** Disclosing with effects is disclosing, when the keys have none. *)
Lemma st_disclose_pure random rnd (p : DisclosureProposal I) (s : Peers) :
  st_map_err forget_key_errors (st_disclose pure_factory random rnd p) s = on_part (disclose random rnd p) s.
Proof.
  unfold st_disclose, disclose, st_from_proposed_documents, from_proposed_documents, proposed_sign_multiple, DeviceSigned_new_signatures.
  unfold on_part at 2. unfold st_map_err, sbind, st_lift. change (try_map _ (proposed_documents p)) with (document_keys (S:=Peers) pure_factory (proposed_documents p)).
  destruct (document_keys pure_factory (proposed_documents p)) as [kcs|e|]; cbn [map_err obind]; [|by destruct s..].
  cbn [kf_sign_multiple_with_existing_keys pure_factory]. rewrite (omap_singletons (λ kc : SigningKey * string, sig_structure_data es256_header kc.2) fst).
  unfold sign_coses, st_lift. destruct (Holder.sign_multiple_with_existing_keys _) as [sigs|]; cbn [ok_or obind map_err]; [|by destruct s].
  destruct (try_map _ (zip sigs kcs.*2)) as [coses|e|]; cbn [ok_or obind map_err]; [|by destruct s..].
  unfold sret. cbn [map_err].
  destruct (VpAuthorizationResponse_new_encrypted _ _ _ _ _) as [jwe|e|]; cbn [map_err]; [|by destruct s..].
  unfold on_part, send_authorization_response. cbn. by destruct (answer_response _ _ _).
Qed.
End Pure.

(** ** Keys of the wallet provider as a key factory *)
Section Remote.
Context {X : Type}.
Context `{!Ecdsa, !Sqlite, !StorageCodec, !PlatformKeys, !PinKeyLib, !AccountProviderClient, !KeyedData InstructionData}.
Context `{!JwtLib InstructionChallengeRequestClaims, !SignedJson GenerateKey, !SignedJson Sign}.
Context `{!JwtLib (InstructionResultClaims GenerateKeyResult), !JwtLib (InstructionResultClaims SignResult)}.

(** The instants and identifiers that are drawn when keys are made and used. *)
Record KeyDraws := mkKeyDraws { kd_generate : ClientClock; kd_sign : ClientClock; kd_identifiers : Z → list string }.

(** [RemoteEcdsaKeyFactory] *)
Definition RemoteEcdsaKeyFactory (prof : profile) (d : KeyDraws) (client : InstructionClient)
    : KeyFactoryOps (Phone X) RemoteEcdsaKeyError RemoteEcdsaKey := {|
  kf_generate_new_multiple count := remote_generate_new_multiple prof client (kd_generate d) (kd_identifiers d count);
  kf_generate_existing := remote_generate_existing;
  kf_sign_multiple_with_existing_keys := remote_sign_multiple prof client (kd_sign d);
  kf_verifying_key := rk_public_key;
  kf_identifier := rk_identifier;
  kf_key_type := MdocSigning.Remote
|}.
End Remote.
