(* ===== verification/WalletApp.v ===== *)
(** * The wallet app: state, registration, lock and history

    Models [wallet/src/wallet]: the state of the wallet ([mod.rs]), its lock
    ([lock.rs] and [wallet/src/lock.rs]), starting ([init.rs]), registration
    ([registration.rs]), reset ([reset.rs]), the history ([history.rs]), the
    documents ([documents.rs]) and the links that it opens ([uri.rs]).

    A callback is a number; what it is called with is appended to the output of
    the wallet.  Reading the configuration is a parameter, and so are the instants
    and random values that an operation uses.  Instants of tokens are in seconds,
    all others in microseconds. *)
From stdpp Require Import base gmap strings list option.
From Stdlib Require Import ZArith Lia.
From S2P Require Import Prelude IndexMap SessionStore Crypto Jose Cbor Cose Engagement Mdoc MdocSigning Holder Document.
From S2P Require Import Protocol PresentationExchange OpenId4vp Verifier DisclosureSession Issuer PinPolicy Signed WalletUsers AccountServer.
From S2P Require Import AccountClient PinValidation WalletStorage InstructionClient IssuanceSession WalletSessions.

(** What the wallet uses of [WalletConfiguration] *)
Record WalletConfiguration `{!Ecdsa, !X509Lib} := mkWalletConfiguration {
  cf_account_base_url : string;
  cf_certificate_public_key : VerifyingKey;
  cf_instruction_result_public_key : VerifyingKey;
  cf_rp_trust_anchors : list TrustAnchor;
  cf_mdoc_trust_anchors : list TrustAnchor;
  cf_pid_issuer_url : string;
  cf_disclosure_base_uri : string;
  cf_issuance_base_uri : string
}.

(** ** History as the user sees it *)
Inductive HistoryEvent `{!NaiveDateLib} :=
  | HistoryIssuance (timestamp : Z) (mdocs : list ShownDocument)
  | HistoryDisclosure (status : EventStatus) (type : DisclosureType) (timestamp : Z) (reader_registration : ReaderRegistration)
      (attributes : option (list DisclosureDocument)).
Inductive EventConversionError :=
  | EventMapping (e : DocumentMdocError)
  | EventCertificate (e : CertificateError)
  | NoReaderRegistrationFound
  | NoIssuerRegistrationFound.
Inductive EventStorageError := EventStorageFailed (e : StorageError) | EventConversion (e : EventConversionError).
Inductive HistoryError := HistoryNotRegistered | HistoryLocked | HistoryEventStorage (e : EventStorageError).
Inductive DocumentsError :=
  | DocumentsStorage (e : StorageError)
  | DocumentsCertificate (e : CertificateError)
  | DocumentsCose (e : CoseError)
  | DocumentsMissingIssuerRegistration.

(** ** DigiD *)
Inductive DigidSessionError := DigidFailed.
Class DigidSession := {
  Digid : Type;
  digid_start : string → outcome DigidSessionError (Digid * string);
  into_token_request : Digid → string → outcome DigidSessionError TokenRequest
}.
Inductive PidIssuanceSession `{!DigidSession, !Ecdsa} := PidDigid (s : Digid) | PidOpenid4vci (s : HttpIssuanceSession).

(** ** State *)
Record WalletRegistration `{!Ecdsa} := mkWalletRegistration { wr_hw_privkey : SigningKey; wr_data : RegistrationData }.
Inductive Emission `{!NaiveDateLib} :=
  | EmitLock (callback : nat) (is_locked : bool)
  | EmitDocuments (callback : nat) (documents : list ShownDocument)
  | EmitRecentHistory (callback : nat) (events : list HistoryEvent).

Record Wallet `{!NaiveDateLib, !DigidSession, !Ecdsa, !PlatformKeys, !Josekit} := mkWallet {
  w_phone : Phone Peers;
  (** The hardware key that is kept under the identifier of the wallet. *)
  w_hw_store : option SigningKey;
  w_issuance_session : option PidIssuanceSession;
  w_disclosure_session : option (DisclosureSession Uuid);
  w_is_locked : bool;
  w_registration : option WalletRegistration;
  w_lock_callback : option nat;
  w_documents_callback : option nat;
  w_recent_history_callback : option nat;
  w_emitted : list Emission
}.

Section App.
Context `{!NaiveDateLib, !DigidSession, !Ecdsa, !X509Lib, !RegistrationLib, !Sqlite, !StorageCodec, !PlatformKeys, !Josekit}.
Abbreviation App := (ST Wallet).

Definition modify {E} (f : Wallet → Wallet) : App E unit := λ w, (Ok tt, f w).
Definition set_phone (p : Phone Peers) (w : Wallet) : Wallet :=
  mkWallet _ _ _ _ _ p (w_hw_store w) (w_issuance_session w) (w_disclosure_session w) (w_is_locked w) (w_registration w)
    (w_lock_callback w) (w_documents_callback w) (w_recent_history_callback w) (w_emitted w).
Definition on_phone {E A} (m : ST (Phone Peers) E A) : App E A := λ w,
  let '(o, p) := m (w_phone w) in (o, set_phone p w).
Definition on_storage {E A} (m : ST (remote Device) E A) : App E A := on_phone (on_device m).

Definition set_hw_store (k : option SigningKey) (w : Wallet) : Wallet :=
  mkWallet _ _ _ _ _ (w_phone w) k (w_issuance_session w) (w_disclosure_session w) (w_is_locked w) (w_registration w)
    (w_lock_callback w) (w_documents_callback w) (w_recent_history_callback w) (w_emitted w).
Definition set_issuance_session (s : option PidIssuanceSession) (w : Wallet) : Wallet :=
  mkWallet _ _ _ _ _ (w_phone w) (w_hw_store w) s (w_disclosure_session w) (w_is_locked w) (w_registration w)
    (w_lock_callback w) (w_documents_callback w) (w_recent_history_callback w) (w_emitted w).
Definition set_disclosure_session (s : option (DisclosureSession Uuid)) (w : Wallet) : Wallet :=
  mkWallet _ _ _ _ _ (w_phone w) (w_hw_store w) (w_issuance_session w) s (w_is_locked w) (w_registration w)
    (w_lock_callback w) (w_documents_callback w) (w_recent_history_callback w) (w_emitted w).
Definition set_locked (b : bool) (w : Wallet) : Wallet :=
  mkWallet _ _ _ _ _ (w_phone w) (w_hw_store w) (w_issuance_session w) (w_disclosure_session w) b (w_registration w)
    (w_lock_callback w) (w_documents_callback w) (w_recent_history_callback w) (w_emitted w).
Definition set_registration (r : option WalletRegistration) (w : Wallet) : Wallet :=
  mkWallet _ _ _ _ _ (w_phone w) (w_hw_store w) (w_issuance_session w) (w_disclosure_session w) (w_is_locked w) r
    (w_lock_callback w) (w_documents_callback w) (w_recent_history_callback w) (w_emitted w).
Definition set_callbacks (l d h : option nat) (w : Wallet) : Wallet :=
  mkWallet _ _ _ _ _ (w_phone w) (w_hw_store w) (w_issuance_session w) (w_disclosure_session w) (w_is_locked w) (w_registration w)
    l d h (w_emitted w).
Definition emit (e : Emission) (w : Wallet) : Wallet :=
  mkWallet _ _ _ _ _ (w_phone w) (w_hw_store w) (w_issuance_session w) (w_disclosure_session w) (w_is_locked w) (w_registration w)
    (w_lock_callback w) (w_documents_callback w) (w_recent_history_callback w) (w_emitted w ++ [e]).

(** ** The lock *)

(** [WalletLock::call_update_callback], [lock] and [unlock] *)
Definition call_update_callback (w : Wallet) : Wallet :=
  match w_lock_callback w with Some c => emit (EmitLock c (w_is_locked w)) w | None => w end.
Definition lock_state (w : Wallet) : Wallet := if w_is_locked w then w else call_update_callback (set_locked true w).
Definition unlock_state (w : Wallet) : Wallet := if w_is_locked w then call_update_callback (set_locked false w) else w.
(** [Wallet::lock], [set_lock_callback] and [clear_lock_callback] *)
Definition lock {E} : App E unit := modify lock_state.
Definition set_lock_callback {E} (callback : nat) : App E (option nat) :=
  let! w := st_get in
  let! _ := modify (emit (EmitLock callback (w_is_locked w))) in
  let! _ := modify (set_callbacks (Some callback) (w_documents_callback w) (w_recent_history_callback w)) in
  sret (w_lock_callback w).
Definition clear_lock_callback {E} : App E (option nat) :=
  let! w := st_get in
  let! _ := modify (set_callbacks None (w_documents_callback w) (w_recent_history_callback w)) in
  sret (w_lock_callback w).
Definition has_registration (w : Wallet) : bool := bool_decide (is_Some (w_registration w)).

(** ** History *)

(** [TryFrom<WalletEvent> for HistoryEvent] *)
Definition history_event_of (source : WalletEvent) : outcome EventConversionError HistoryEvent :=
  match source with
  | Issuance _ mdocs timestamp =>
      let* mdocs := try_map (λ p : DocType * EventAttributes,
        let* registration := map_err EventCertificate (IssuerRegistration_from_certificate (ea_issuer p.2)) in
        let* issuer_registration := ok_or NoIssuerRegistrationFound registration in
        map_err EventMapping (Document_from_mdoc_attributes InMemory p.1 (entries_from_event p.2) issuer_registration)) mdocs in
      Ok (HistoryIssuance timestamp mdocs)
  | Disclosure _ documents timestamp reader_certificate status type =>
      let* attributes := match documents with
        | Some mdocs =>
            let* l := try_map (λ p : DocType * EventAttributes,
              map_err EventMapping (DisclosureDocument_from_mdoc_attributes p.1
                (mkProposedAttributes (ea_issuer p.2) (entries_from_event p.2)))) mdocs in
            Ok (Some l)
        | None => Ok None
        end in
      let* registration := map_err EventCertificate (ReaderRegistration_from_certificate reader_certificate) in
      let* reader_registration := ok_or NoReaderRegistrationFound registration in
      Ok (HistoryDisclosure status type timestamp reader_registration attributes)
  end.
Definition history_events_of (l : list WalletEvent) : outcome EventStorageError (list HistoryEvent) :=
  map_err EventConversion (try_map history_event_of l).

(** [emit_recent_history], at the instant [now] *)
Definition emit_recent_history (now : Z) : App EventStorageError unit :=
  let! l := st_map_err EventStorageFailed (on_storage (fetch_recent_wallet_events now)) in
  let! events := st_lift (history_events_of l) in
  modify (λ w, match w_recent_history_callback w with Some c => emit (EmitRecentHistory c events) w | None => w end).

(** What storing an event draws: the identifiers of new document types, and the
    instant at which the recent history is read. *)
Record EventDraws := mkEventDraws { ed_type_ids : Z → Uuid; ed_now : Z }.
(** [store_history_event] *)
Definition store_history_event (d : EventDraws) (event : WalletEvent) : App EventStorageError unit :=
  let! _ := st_map_err EventStorageFailed (on_storage (log_wallet_event (ed_type_ids d) event)) in
  emit_recent_history (ed_now d).

(** The checks that most operations start with. *)
Definition check_unlocked {E} (not_registered locked : E) : App E unit :=
  let! w := st_get in
  let! _ := st_lift (guard_err (has_registration w) not_registered) in
  st_lift (guard_err (negb (w_is_locked w)) locked).

(** [get_history] and [get_history_for_card] *)
Definition shown_history (fetch : ST (remote Device) StorageError (list WalletEvent)) : App HistoryError (list HistoryEvent) :=
  let! _ := check_unlocked HistoryNotRegistered HistoryLocked in
  let! events := st_map_err (λ e, HistoryEventStorage (EventStorageFailed e)) (on_storage fetch) in
  st_lift (map_err HistoryEventStorage (history_events_of events)).
Definition get_history : App HistoryError (list HistoryEvent) := shown_history fetch_wallet_events.
Definition get_history_for_card (doc_type : string) : App HistoryError (list HistoryEvent) :=
  shown_history (fetch_wallet_events_by_doc_type doc_type).

(** [set_recent_history_callback] and [clear_recent_history_callback] *)
Definition set_recent_history_callback (now : Z) (callback : nat) : App HistoryError (option nat) :=
  let! w := st_get in
  let! _ := modify (set_callbacks (w_lock_callback w) (w_documents_callback w) (Some callback)) in
  let! _ := if has_registration w then st_map_err HistoryEventStorage (emit_recent_history now) else sret tt in
  sret (w_recent_history_callback w).
Definition clear_recent_history_callback {E} : App E unit :=
  modify (λ w, set_callbacks (w_lock_callback w) (w_documents_callback w) None w).

(** ** Documents *)

(** [emit_documents]: stored mdocs that cannot be shown are a panic. *)
Definition stored_document (s : StoredMdocCopy) : outcome DocumentsError ShownDocument :=
  let* certificate := map_err DocumentsCose (Mdoc_issuer_certificate (smc_mdoc s)) in
  let* registration := map_err DocumentsCertificate (IssuerRegistration_from_certificate certificate) in
  let* issuer_registration := ok_or DocumentsMissingIssuerRegistration registration in
  match Document_from_mdoc_attributes (Stored (mdoc_id s)) (m_doc_type (smc_mdoc s)) (Mdoc_attributes (smc_mdoc s)) issuer_registration with
  | Ok document => Ok document
  | _ => Panic
  end.
Definition emit_documents : App DocumentsError unit :=
  let! l := st_map_err DocumentsStorage (on_storage fetch_unique_mdocs) in
  let! documents := st_lift (try_map stored_document l) in
  modify (λ w, match w_documents_callback w with
               | Some c => emit (EmitDocuments c (sort_documents documents)) w
               | None => w
               end).
(** [set_documents_callback] and [clear_documents_callback] *)
Definition set_documents_callback (callback : nat) : App DocumentsError (option nat) :=
  let! w := st_get in
  let! _ := modify (set_callbacks (w_lock_callback w) (Some callback) (w_recent_history_callback w)) in
  let! _ := if has_registration w then emit_documents else sret tt in
  sret (w_documents_callback w).
Definition clear_documents_callback {E} : App E (option nat) :=
  let! w := st_get in
  let! _ := modify (set_callbacks (w_lock_callback w) None (w_recent_history_callback w)) in
  sret (w_documents_callback w).

(** ** Reset *)
Inductive ResetError := ResetNotRegistered.
(** [reset_to_initial_state]; an error in deleting the hardware key is logged only. *)
Definition delete_hw_key {E} : App E unit := λ w,
  match on_storage (round_trip (E:=unit) tt) w with
  | (Ok _, w) => (Ok tt, set_hw_store None w)
  | (_, w) => (Ok tt, w)
  end.
Definition reset_to_initial_state {E} : App E bool :=
  let! w := st_get in
  match w_registration w with
  | Some _ =>
      let! _ := modify (set_registration None) in
      let! _ := on_storage storage_clear in
      let! _ := delete_hw_key in
      let! _ := modify (set_issuance_session None) in
      let! _ := modify (set_disclosure_session None) in
      let! _ := lock in
      sret true
  | None => sret false
  end.
Definition reset : App ResetError unit :=
  let! done := reset_to_initial_state in
  st_lift (guard_err done ResetNotRegistered).

(** ** Registration *)
Inductive WalletRegistrationError :=
  | AlreadyRegistered
  | InvalidPin (e : PinValidationError)
  | ChallengeRequest (e : AccountProviderError)
  | HardwarePublicKey
  | RegistrationSigning (e : AccountError)
  | RegistrationRequest (e : AccountProviderError)
  | CertificateValidation (e : JwtError)
  | PublicKeyMismatch
  | StoreCertificate (e : StorageError).

(** [hw_privkey]: the hardware key of the wallet, which is created when there is
    none.  It is not in use: an owner of it would be a registration. *)
Definition hw_privkey {E} (new_key : SigningKey) : App E SigningKey :=
  let! w := st_get in
  let key := default new_key (w_hw_store w) in
  let! _ := modify (set_hw_store (Some key)) in
  sret key.

Context `{!PinKeyLib, !AccountProviderClient, !JwtLib WalletCertificateClaims, !SignedJson Registration}.
Context `{!KeyedData RegistrationData}.
Variable prof : profile.
Variable config : WalletConfiguration.

(** [Registration::new_signed] with a PIN key, whose public key comes first. *)
Definition registration_new_signed (hw_privkey : SigningKey) (pin_key : PinKey) (challenge : string) : outcome AccountError string :=
  match pin_private_key (pk_salt pin_key) (pk_pin pin_key) with
  | Ok key => Registration_new_signed hw_privkey key challenge
  | Err _ => Err AVerifyingKey
  | Panic => Panic
  end.

Record RegisterDraws := mkRegisterDraws {
  rd_hw_key : SigningKey;
  rd_pin_salt : string;
  rd_now : Z;
  rd_encryption_key : EncryptionKey;
  rd_database_key : string
}.

(** [Wallet::register] *)
Definition register (d : RegisterDraws) (pin : list Z) : App WalletRegistrationError unit :=
  let! w := st_get in
  let! _ := st_lift (guard_err (negb (has_registration w)) AlreadyRegistered) in
  let! _ := st_lift (map_err InvalidPin (validate_pin prof pin)) in
  let! key := hw_privkey (rd_hw_key d) in
  let base_url := cf_account_base_url config in
  let! challenge := st_map_err ChallengeRequest
    (on_phone (exchange MsgRegistrationChallenge (λ log, answer_registration_challenge log base_url))) in
  let pin_key := mkPinKey pin (rd_pin_salt d) in
  let! hw_pubkey := on_phone (hardware HardwarePublicKey (Ok (verifying_key key))) in
  let! registration_message := st_map_err RegistrationSigning
    (on_phone (hardware ASigning (registration_new_signed key pin_key challenge))) in
  let! wallet_certificate := st_map_err RegistrationRequest
    (on_phone (exchange (MsgRegister registration_message) (λ log, answer_register log base_url registration_message))) in
  let! cert_claims := st_lift (map_err CertificateValidation
    (Jwt_parse_and_verify_with_sub (C:=WalletCertificateClaims) (rd_now d) wallet_certificate (cf_certificate_public_key config))) in
  let! _ := st_lift (guard_err (bool_decide (wc_hw_pubkey cert_claims = hw_pubkey)) PublicKeyMismatch) in
  let! state := st_map_err StoreCertificate (on_storage storage_state) in
  let! _ := match state with
            | Opened => sret tt
            | _ => st_map_err StoreCertificate (on_storage (storage_open (rd_encryption_key d) (rd_database_key d)))
            end in
  let data := mkRegistrationData (rd_pin_salt d) wallet_certificate in
  let! _ := st_map_err StoreCertificate (on_storage (insert_data data)) in
  let! _ := modify (set_registration (Some (mkWalletRegistration _ key data))) in
  modify unlock_state.

(** ** Unlocking *)
Inductive WalletUnlockError := UnlockNotRegistered | UnlockNotLocked | UnlockInstruction (e : WalletInstructionError).

(** The client of instructions that every operation with a PIN makes. *)
Definition instruction_client (r : WalletRegistration) (pin : list Z) : InstructionClient :=
  mkInstructionClient _ pin (wr_hw_privkey r) (wr_data r) (cf_account_base_url config) (cf_instruction_result_public_key config).

Context `{!KeyedData InstructionData, !JwtLib InstructionChallengeRequestClaims, !SignedJson CheckPin, !JwtLib (InstructionResultClaims unit)}.

(** [Wallet::unlock] *)
Definition unlock (clock : ClientClock) (pin : list Z) : App WalletUnlockError unit :=
  let! w := st_get in
  let! registration := st_lift (ok_or UnlockNotRegistered (w_registration w)) in
  let! _ := st_lift (guard_err (w_is_locked w) UnlockNotLocked) in
  let! _ := st_map_err UnlockInstruction
    (on_phone (send (I:=CheckPin) (R:=unit) prof clock (instruction_client registration pin) mkCheckPin)) in
  modify unlock_state.

(** ** Starting *)

(** [fetch_registration] *)
Definition fetch_registration (new_key : EncryptionKey) (random : string) : ST (remote Device) StorageError (option RegistrationData) :=
  let! state := storage_state in
  match state with
  | Uninitialized => sret None
  | Unopened => let! _ := storage_open new_key random in fetch_data
  | Opened => fetch_data
  end.
(** [Wallet::new] and [init_registration], on a phone whose process has just
    started *)
Definition new_wallet (new_hw_key : SigningKey) (phone : Phone Peers) (hw_store : option SigningKey)
    (registration_data : option RegistrationData) : Wallet :=
  let key := default new_hw_key hw_store in
  mkWallet _ _ _ _ _ phone (match registration_data with Some _ => Some key | None => hw_store end) None None true
    (mkWalletRegistration _ key <$> registration_data) None None None [].
Definition init_registration (new_hw_key : SigningKey) (new_key : EncryptionKey) (random : string)
    (phone : Phone Peers) (hw_store : option SigningKey) : outcome StorageError Wallet * Phone Peers :=
  let '(o, phone) := on_device (fetch_registration new_key random) phone in
  (let* registration := o in Ok (new_wallet new_hw_key phone hw_store registration), phone).

(** ** Links *)
Inductive UriType := UriPidIssuance (uri : string) | UriDisclosure (uri : string).
Inductive UriIdentificationError := UriParse | UriUnknown.
(** [identify_uri]; [parse] is [Url::parse] followed by [as_str]. *)
Definition identify_uri (parse : string → option string) (w : Wallet) (uri_str : string) : outcome UriIdentificationError UriType :=
  let* uri := ok_or UriParse (parse uri_str) in
  if match w_issuance_session w with Some (PidDigid _) => String.prefix (cf_issuance_base_uri config) uri | _ => false end
  then Ok (UriPidIssuance uri)
  else if String.prefix (cf_disclosure_base_uri config) uri then Ok (UriDisclosure uri)
  else Err UriUnknown.
End App.
