(* ===== verification/WalletFlows.v ===== *)
(** * The wallet app: disclosure and issuance

    Models [wallet/src/wallet/disclosure.rs] and [issuance.rs]: the operations of
    the wallet that show something to a verifier or get something from the issuer,
    with the source of mdocs that the wallet is for a disclosure session.

    The wallet is exclusively borrowed by each operation, so an operation is one
    step.  While a disclosure session is started the mdocs are read from the
    database as it is then; one call on the list of faults stands for that. *)
From stdpp Require Import base gmap strings list option.
From Stdlib Require Import ZArith Lia.
From S2P Require Import Prelude IndexMap SessionStore Crypto Jose Cbor Cose Engagement Mdoc MdocSigning Holder Document.
From S2P Require Import Protocol PresentationExchange OpenId4vp Verifier DisclosureSession Issuer PinPolicy Signed WalletUsers AccountServer.
From S2P Require Import AccountClient PinValidation WalletStorage InstructionClient IssuanceSession WalletSessions WalletApp.

(** ** The wallet as a source of mdocs *)
Section Source.
Context `{!Sqlite, !StorageCodec, !PlatformKeys}.

(** The fold of [mdoc_by_doc_types]: mdocs are grouped by type in the order of
    the first of each; a type that was not asked for panics. *)
Definition group_mdoc (doc_types : gset DocType) (groups : imap DocType (list (StoredMdoc Uuid))) (s : StoredMdocCopy)
    : outcome StorageError (imap DocType (list (StoredMdoc Uuid))) :=
  let dt := m_doc_type (smc_mdoc s) in
  let* _ := rust_assert (bool_decide (dt ∈ doc_types)) in
  Ok (im_insert dt (default [] (im_get groups dt) ++ [mkStoredMdoc (mdoc_copy_id s) (smc_mdoc s)]) groups).
Definition group_mdocs (doc_types : gset DocType) (l : list StoredMdocCopy) : outcome StorageError (list (list (StoredMdoc Uuid))) :=
  let* groups := foldl (λ r s, let* groups := r in group_mdoc doc_types groups s) (Ok []) l in
  Ok groups.*2.
(** [MdocDataSource for Wallet] *)
Definition mdoc_by_doc_types (doc_types : gset DocType) : ST (remote Device) StorageError (list (list (StoredMdoc Uuid))) :=
  let! l := fetch_unique_mdocs_by_doctypes doc_types in
  st_lift (group_mdocs doc_types l).
(** The source that a session gets.  An error and a panic of the code both are no
    answer here; with a well-formed database there is no panic
    ([WalletSource.wallet_source_contract]). *)
Definition wallet_data_source (r : remote Device) : MdocDataSource Uuid := λ doc_types,
  match mdoc_by_doc_types doc_types r with (Ok l, _) => Some l | _ => None end.
Definition read_data_source {E} : ST (remote Device) E (MdocDataSource Uuid) := λ r,
  (Ok (wallet_data_source r), (mdoc_by_doc_types ∅ r).2).
End Source.

(** ** Disclosure *)
Record ShownProposal `{!NaiveDateLib} := mkShownProposal {
  sp_documents : list DisclosureDocument;
  sp_reader_registration : ReaderRegistration;
  shared_data_with_relying_party_before : bool;
  sp_session_type : SessionType;
  sp_is_login_flow : bool
}.

Inductive WalletDisclosureError :=
  | DNotRegistered
  | DLocked
  | DSessionState
  | DDisclosureUri (e : DisclosureUriError)
  | DVpDisclosureSession (e : VpClientError)
  | DVpSigning (e : RemoteEcdsaKeyError)
  | DHistoryRetrieval (e : StorageError)
  | DAttributesNotAvailable (reader_registration : ReaderRegistration) (missing_attributes : list MissingDisclosureAttributes)
      (shared_before : bool) (session_type : SessionType)
  | DMdocAttributes (e : DocumentMdocError)
  | DInstruction (e : WalletInstructionError)
  | DIncrementUsageCount (e : StorageError)
  | DEventStorage (e : EventStorageError).

(** [From<MdocDisclosureError> for DisclosureError]: an instruction that failed
    while signing is told apart. *)
Definition disclosure_error_of (e : KeyError RemoteEcdsaKeyError VpClientError) : WalletDisclosureError :=
  match e with
  | SigningError (RkInstruction e) => DInstruction e
  | SigningError e => DVpSigning e
  | PlainError e => DVpDisclosureSession e
  end.

(** What an event draws when it is made and when it is stored. *)
Record NewEvent := mkNewEvent { ne_id : Uuid; ne_timestamp : Z; ne_draws : EventDraws }.

Section Flows.
Context `{!NaiveDateLib, !DigidSession, !Ecdsa, !X509Lib, !RegistrationLib, !Sqlite, !StorageCodec, !PlatformKeys, !Josekit}.
Context `{!PinKeyLib, !AccountProviderClient, !KeyedData InstructionData, !JwtLib InstructionChallengeRequestClaims}.
Context `{!SignedJson GenerateKey, !SignedJson Sign, !JwtLib (InstructionResultClaims GenerateKeyResult), !JwtLib (InstructionResultClaims SignResult)}.
Context `{!Coset, !Ciborium, !Sha256, !Chrono, !UrlLib, !MacLib, !Base64Std, !ResponseJson}.
Context `{!JwtLib VpAuthorizationRequest, !VerifierLib, !WalletUrlLib, !VpMessageClient}.
Variable prof : profile.
Variable config : WalletConfiguration.
Variable show : VpClientError → string.
Abbreviation App := (ST Wallet).

(** An error that is only logged. *)
Definition log_error {E F} (m : App E unit) : App F unit := λ w,
  match m w with (Panic, w) => (Panic, w) | (_, w) => (Ok tt, w) end.
Definition with_verifier {E A} (m : ST (list VpMessage) E A) : App E A := on_phone (on_part m).

(** [start_disclosure] *)
Definition start_disclosure (now : Z) (rnd : StartRandom) (uri : string) (source : DisclosureUriSource)
    : App WalletDisclosureError ShownProposal :=
  let! _ := check_unlocked DNotRegistered DLocked in
  let! w := st_get in
  let! _ := st_lift (guard_err (bool_decide (w_disclosure_session w = None)) DSessionState) in
  let! query := st_lift (map_err DDisclosureUri (vp_parse_from_uri url_query uri (cf_disclosure_base_uri config))) in
  let! mdoc_data_source := on_storage read_data_source in
  let! session := st_map_err DVpDisclosureSession
    (with_verifier (start show now rnd query source mdoc_data_source (cf_rp_trust_anchors config))) in
  let! shared_before := st_map_err DHistoryRetrieval
    (on_storage (did_share_data_with_relying_party (verifier_certificate session))) in
  match session with
  | SessionMissingAttributes missing =>
      match from_mdoc_missing_attributes (missing_attributes missing) with
      | Ok attributes =>
          let! _ := modify (set_disclosure_session (Some session)) in
          st_throw (DAttributesNotAvailable (session_reader_registration session) attributes shared_before (session_session_type session))
      | Err error => st_throw (DMdocAttributes error)
      | Panic => st_lift Panic
      end
  | SessionProposal proposal =>
      let proposed_attributes := proposal_attributes proposal in
      let is_login_flow := is_login_flow (from_proposed_attributes proposed_attributes) in
      let! documents := st_lift (map_err DMdocAttributes (try_map (λ p : DocType * ProposedDocumentAttributes,
        DisclosureDocument_from_mdoc_attributes p.1 p.2) proposed_attributes)) in
      let! _ := modify (set_disclosure_session (Some session)) in
      sret (mkShownProposal _ documents (session_reader_registration session) shared_before (session_session_type session) is_login_flow)
  end.

(** [terminate_disclosure_session] *)
Definition cancelled_event (e : NewEvent) (session : DisclosureSession Uuid) : WalletEvent :=
  let disclosure_type := match session with
                         | SessionMissingAttributes _ => Regular
                         | SessionProposal proposal => from_proposed_attributes (proposal_attributes proposal)
                         end in
  new_disclosure (ne_id e) (ne_timestamp e) None (verifier_certificate session) StatusCancelled disclosure_type.
Definition terminate_disclosure_session (e : NewEvent) (session : DisclosureSession Uuid) : App WalletDisclosureError unit :=
  let! _ := st_map_err DVpDisclosureSession (with_verifier (session_terminate session)) in
  st_map_err DEventStorage (store_history_event (ne_draws e) (cancelled_event e session)).

(** [has_active_disclosure_session] and [cancel_disclosure] *)
Definition has_active_disclosure_session : App WalletDisclosureError bool :=
  let! _ := check_unlocked DNotRegistered DLocked in
  let! w := st_get in
  sret (bool_decide (w_disclosure_session w ≠ None)).
Definition cancel_disclosure (e : NewEvent) : App WalletDisclosureError unit :=
  let! _ := check_unlocked DNotRegistered DLocked in
  let! w := st_get in
  let! session := st_lift (ok_or DSessionState (w_disclosure_session w)) in
  let! _ := modify (set_disclosure_session None) in
  terminate_disclosure_session e session.

(** [log_disclosure_error] *)
Definition error_event (e : NewEvent) (proposed_attributes : ProposedAttributes) (data_shared : bool) (certificate : Certificate) : WalletEvent :=
  new_disclosure (ne_id e) (ne_timestamp e) (if data_shared then Some (event_documents_from_proposed proposed_attributes) else None)
    certificate StatusError (from_proposed_attributes proposed_attributes).
Definition log_disclosure_error (e : NewEvent) (proposed_attributes : ProposedAttributes) (data_shared : bool) (certificate : Certificate)
    : App WalletDisclosureError unit :=
  st_map_err DEventStorage (store_history_event (ne_draws e) (error_event e proposed_attributes data_shared certificate)).

Record AcceptDraws := mkAcceptDraws {
  ad_keys : KeyDraws;
  ad_random : string;
  ad_rnd : string;
  ad_error : NewEvent;
  ad_cancel : NewEvent;
  ad_success : NewEvent
}.
(** A PIN timeout or a block *)
Definition is_pin_timeout (e : WalletInstructionError) : bool :=
  match e with WTimeout _ | WBlocked => true | _ => false end.
Definition success_event (e : NewEvent) (proposed_attributes : ProposedAttributes) (certificate : Certificate) : WalletEvent :=
  new_disclosure (ne_id e) (ne_timestamp e) (Some (event_documents_from_proposed proposed_attributes)) certificate StatusSuccess
    (from_proposed_attributes proposed_attributes).

(** [accept_disclosure] *)
Definition accept_disclosure (d : AcceptDraws) (pin : list Z) : App WalletDisclosureError (option string) :=
  let! w := st_get in
  let! registration := st_lift (ok_or DNotRegistered (w_registration w)) in
  let! _ := st_lift (guard_err (negb (w_is_locked w)) DLocked) in
  let! session := st_lift (ok_or DSessionState (w_disclosure_session w)) in
  let! proposal := st_lift match session with
                           | SessionProposal proposal => Ok proposal
                           | SessionMissingAttributes _ => Err DSessionState
                           end in
  let attributes := proposal_attributes proposal in
  let certificate := verifier_certificate session in
  let! incremented := st_try (on_storage (increment_mdoc_copies_usage_count (proposed_source_identifiers proposal))) in
  match incremented with
  | Err e =>
      let! _ := log_error (log_disclosure_error (ad_error d) attributes false certificate) in
      st_throw (DIncrementUsageCount e)
  | Panic => st_lift Panic
  | Ok _ =>
      let remote_instruction := instruction_client config registration pin in
      let remote_key_factory := RemoteEcdsaKeyFactory prof (ad_keys d) remote_instruction in
      let! result := st_try (on_phone (st_disclose remote_key_factory (ad_random d) (ad_rnd d) proposal)) in
      match result with
      | Ok return_url =>
          let! _ := modify (set_disclosure_session None) in
          let! _ := st_map_err DEventStorage (store_history_event (ne_draws (ad_success d)) (success_event (ad_success d) attributes certificate)) in
          sret return_url
      | Err error =>
          let! _ := log_error (log_disclosure_error (ad_error d) attributes (data_shared error) certificate) in
          let error := disclosure_error_of (disclosure_error error) in
          let! _ := match error with
                    | DInstruction e =>
                        if is_pin_timeout e then
                          let! _ := modify (set_disclosure_session None) in
                          let! _ := log_error (terminate_disclosure_session (ad_cancel d) session) in
                          lock
                        else sret tt
                    | _ => sret tt
                    end in
          st_throw error
      | Panic => st_lift Panic
      end
  end.

(** ** Issuance *)
Inductive AttestationPreviewError := PreviewCertificate (e : CertificateError) | PreviewNoIssuerRegistration.
Inductive PidIssuanceError :=
  | PNotRegistered
  | PLocked
  | PSessionState
  | PDigidSessionStart (e : DigidSessionError)
  | PDigidSessionFinish (e : DigidSessionError)
  | PPidIssuer (e : IssuanceSessionError RemoteEcdsaKeyError)
  | PInstruction (e : WalletInstructionError)
  | PSignature
  | PMissingSignature
  | PMdocDocument (e : DocumentMdocError)
  | PMdocStorage (e : StorageError)
  | PEventStorage (e : EventStorageError)
  | PKeyNotFound (identifier : string)
  | PInvalidIssuerCertificate (e : CoseError)
  | PMissingIssuerRegistration
  | PDocument (e : DocumentsError)
  | PAttestationPreview (e : AttestationPreviewError).

Context `{!Base64, !JwtLib DpopPayload, !JwtLib CredentialRequestProofJwtPayload, !VcMessageClient RemoteEcdsaKeyError}.

(** [create_pid_issuance_auth_url] *)
Definition create_pid_issuance_auth_url (random : string) : App PidIssuanceError string :=
  let! _ := check_unlocked PNotRegistered PLocked in
  let! w := st_get in
  let! _ := st_lift (guard_err (bool_decide (w_issuance_session w = None)) PSessionState) in
  let! started := st_lift (map_err PDigidSessionStart (digid_start random)) in
  let! _ := modify (set_issuance_session (Some (PidDigid started.1))) in
  sret started.2.

(** [has_active_pid_issuance_session] and [cancel_pid_issuance] *)
Definition has_active_pid_issuance_session : App PidIssuanceError bool :=
  let! _ := check_unlocked PNotRegistered PLocked in
  let! w := st_get in
  sret (bool_decide (w_issuance_session w ≠ None)).
Definition cancel_pid_issuance (random : string) (now : Z) : App PidIssuanceError unit :=
  let! _ := check_unlocked PNotRegistered PLocked in
  let! w := st_get in
  let! issuance_session := st_lift (ok_or PSessionState (w_issuance_session w)) in
  let! _ := modify (set_issuance_session None) in
  match issuance_session with
  | PidOpenid4vci pid_issuer => st_map_err PPidIssuer (on_phone (reject_issuance random now pid_issuer))
  | PidDigid _ => sret tt
  end.

(** [TryFrom<AttestationPreview> for (UnsignedMdoc, Box<IssuerRegistration>)] *)
Definition preview_registration (preview : AttestationPreview) : outcome AttestationPreviewError (UnsignedMdoc * IssuerRegistration) :=
  let 'PreviewMsoMdoc unsigned_mdoc issuer := preview in
  let* certificate_type := map_err PreviewCertificate (type_from_certificate issuer) in
  match certificate_type with
  | MdlCertificate (Some issuer) => Ok (unsigned_mdoc, issuer)
  | _ => Err PreviewNoIssuerRegistration
  end.
(** [continue_pid_issuance] *)
Definition preview_document (preview : AttestationPreview) : outcome PidIssuanceError ShownDocument :=
  let* r := map_err PAttestationPreview (preview_registration preview) in
  map_err PMdocDocument (Document_from_unsigned_mdoc r.1 r.2).
Definition continue_pid_issuance (random : string) (now time : Z) (dpop_private_key : SigningKey) (redirect_uri : string)
    : App PidIssuanceError (list ShownDocument) :=
  let! _ := check_unlocked PNotRegistered PLocked in
  let! w := st_get in
  let! session := st_lift match w_issuance_session w with Some (PidDigid session) => Ok session | _ => Err PSessionState end in
  let! _ := modify (set_issuance_session None) in
  let! token_request := st_lift (map_err PDigidSessionFinish (into_token_request session redirect_uri)) in
  let! started := st_map_err PPidIssuer (on_phone (start_issuance random now time dpop_private_key (cf_pid_issuer_url config)
    token_request (cf_mdoc_trust_anchors config))) in
  let! documents := st_lift (try_map preview_document started.2) in
  let! _ := modify (set_issuance_session (Some (PidOpenid4vci started.1))) in
  sret (sort_documents documents).

(** The errors of [accept_issuance]: those of the keys are told apart. *)
Definition accept_error (error : IssuanceSessionError RemoteEcdsaKeyError) : PidIssuanceError :=
  match error with
  | SPrivateKeyGeneration e | SJwtSigning e =>
      match e with
      | RkInstruction e => PInstruction e
      | RkSignature => PSignature
      | RkKeyNotFound identifier => PKeyNotFound identifier
      | RkMissingSignature => PMissingSignature
      end
  | error => PPidIssuer error
  end.

(** [TryFrom<Vec<Mdoc>> for EventDocuments] *)
Definition event_documents_from_mdocs (source : list Mdoc) : outcome CoseError EventDocuments :=
  let* l := try_map (λ mdoc,
    let* issuer := Mdoc_issuer_certificate mdoc in
    Ok (m_doc_type mdoc, event_attributes_from issuer (Mdoc_attributes mdoc))) source in
  Ok (im_collect l).

(** The event of an issuance: the first copy of each mdoc, whose issuer has to
    be registered. *)
Definition issuance_event (e : NewEvent) (mdocs : list MdocCopies) : outcome PidIssuanceError WalletEvent :=
  let first_copies := base.omap head mdocs in
  let* _ := try_map (λ mdoc,
    let* certificate := map_err PInvalidIssuerCertificate (Mdoc_issuer_certificate mdoc) in
    match IssuerRegistration_from_certificate certificate with
    | Ok (Some _) => Ok tt
    | Ok None | Err _ => Err PMissingIssuerRegistration
    | Panic => Panic
    end) first_copies in
  let* documents := map_err PInvalidIssuerCertificate (event_documents_from_mdocs first_copies) in
  Ok (new_issuance (ne_id e) (ne_timestamp e) documents).

Record IssueDraws := mkIssueDraws {
  id_keys : KeyDraws;
  id_random : string;
  id_now : Z;
  id_time : Z;
  id_mdoc_ids : Z → Uuid;
  id_copy_ids : Z → Z → Uuid;
  id_event : NewEvent
}.
(** [accept_pid_issuance] *)
Definition accept_pid_issuance (d : IssueDraws) (pin : list Z) : App PidIssuanceError unit :=
  let! w := st_get in
  let! registration := st_lift (ok_or PNotRegistered (w_registration w)) in
  let! _ := st_lift (guard_err (negb (w_is_locked w)) PLocked) in
  let! pid_issuer := st_lift match w_issuance_session w with Some (PidOpenid4vci pid_issuer) => Ok pid_issuer | _ => Err PSessionState end in
  let remote_instruction := instruction_client config registration pin in
  let remote_key_factory := RemoteEcdsaKeyFactory prof (id_keys d) remote_instruction in
  let! mdocs_result := st_try (st_map_err accept_error (on_phone (accept_issuance (id_random d) (id_now d) (id_time d)
    (cf_mdoc_trust_anchors config) remote_key_factory (cf_pid_issuer_url config) pid_issuer))) in
  let! _ := match mdocs_result with
            | Err (PInstruction e) => if is_pin_timeout e then let! _ := reset_to_initial_state in sret tt else sret tt
            | _ => sret tt
            end in
  let! mdocs := st_lift mdocs_result in
  let! _ := modify (set_issuance_session None) in
  let! event := st_lift (issuance_event (id_event d) mdocs) in
  let! _ := st_map_err PMdocStorage (on_storage (insert_mdocs (id_mdoc_ids d) (id_copy_ids d) mdocs)) in
  let! _ := st_map_err PEventStorage (store_history_event (ne_draws (id_event d)) event) in
  st_map_err PDocument emit_documents.
End Flows.
