(* ===== verification/PidIssuerFacts.v ===== *)
(** * A person identification document, from the personal records to the wallet

    The attribute service of the issuer offers two mdocs for a person; the wallet
    shows exactly the data of the person, unless the person has no given names.

    And the login is bound to the wallet that started it: the session of the wallet
    with DigiD, the exchange of its authorization code by the issuer and the attribute
    service, composed, offer the attributes of the person who logged in for the request
    of this wallet. *)
From stdpp Require Import base gmap strings list option pretty.
From Stdlib Require Import ZArith Lia.
From S2P Require Import Prelude IndexMap SessionStore Crypto Jose Cbor Cose Engagement Concrete Mdoc MdocSigning MdocFacts Holder Issuer.
From S2P Require Import Protocol Configuration Document PidIssuer Digid WalletSessions WalletApp WalletFlows.

Section PidIssuerFacts.
Context `{!NaiveDateLib, !NaiveDateFormat, !Chrono, !Ecdsa, !X509Lib, !RegistrationLib}.

(** What the wallet shows of a person: keys and values, in the order of its mapping. *)
Definition gender_shown (g : BrpGenderCode) : GenderAttributeValue :=
  match g with GenderO => GenderUnknown | GenderM => GenderMale | GenderV => GenderFemale end.
Definition shown_pid (p : BrpPerson) (names : string) : list (string * AttributeValue) :=
  [("given_name", AString names)] ++ option_list ((λ s, ("family_name_prefix", AString s)) <$> family_name_prefix (p_name p)) ++
  [("family_name", AString (family_name (p_name p))); ("gender", AGender (gender_shown (p_gender p))); ("birth_date", ADate (birth_date p));
   ("age_over_18", ABoolean (is_over_18 p)); ("birth_city", AString (birth_place p)); ("birth_country", AString (birth_country p));
   ("has_spouse_or_partner", ABoolean (has_spouse_or_partner p)); ("bsn", AString (p_bsn p))].
Definition shown_address (p : BrpPerson) : list (string * AttributeValue) :=
  option_list ((λ s, ("resident_street", AString s)) <$> street (residence p)) ++
  [("resident_house_number", AString (pretty (Z.to_N (house_number (residence p))))); ("resident_postal_code", AString (postal_code (residence p)));
   ("resident_city", AString (city (residence p))); ("resident_country", AString (country (residence p)))].
Definition shown_values (d : ShownDocument) : list (string * AttributeValue) := (λ x, (x.1, attribute_value x.2)) <$> sd_attributes d.

Lemma pid_converted p names : given_names (p_name p) = Some names →
  ∃ l, document_attributes_from_mdoc_attributes MOCK_PID_DOCTYPE [(MOCK_PID_DOCTYPE, pid_entries p)] true = Ok (MOCK_PID_DOCTYPE, l) ∧
    (λ x, (x.1, attribute_value x.2)) <$> l = shown_pid p names.
Proof.
  unfold pid_entries, shown_pid. destruct p as [bsn g [gn pre fam] bd bc bp age res pars]. cbn [p_name given_names]. intros ->.
  destruct pre as [pre|], g; eexists; (split; [cbv -[labels parse_naive_date format_naive_date is_over_18 has_spouse_or_partner];
    rewrite parse_format_naive_date; reflexivity|reflexivity]).
Qed.
Lemma pid_nameless p : given_names (p_name p) = None →
  document_attributes_from_mdoc_attributes MOCK_PID_DOCTYPE [(MOCK_PID_DOCTYPE, pid_entries p)] true =
    Err (MissingAttribute PID_DOCTYPE PID_DOCTYPE "given_name").
Proof.
  unfold pid_entries. destruct p as [bsn g [gn pre fam] bd bc bp age res pars]. cbn [p_name given_names]. intros ->.
  destruct pre as [pre|]; cbv -[labels parse_naive_date format_naive_date is_over_18 has_spouse_or_partner]; reflexivity.
Qed.
Lemma address_converted p : ∃ l,
  document_attributes_from_mdoc_attributes MOCK_ADDRESS_DOCTYPE [(MOCK_ADDRESS_DOCTYPE, address_entries p)] true = Ok (MOCK_ADDRESS_DOCTYPE, l) ∧
  (λ x, (x.1, attribute_value x.2)) <$> l = shown_address p.
Proof.
  unfold address_entries, shown_address. destruct (street (residence p)) as [s|]; eexists; (split; [cbv -[labels pretty]; reflexivity|reflexivity]).
Qed.

(** The mdocs of a person can always be made and issued. *)
Lemma unsigned_mdocs_Ok {E} t p : ∃ pid address, unsigned_mdocs (E:=E) t p = Ok [pid; address] ∧ unsigned_wf pid ∧ unsigned_wf address ∧
  u_doc_type pid = MOCK_PID_DOCTYPE ∧ u_attributes pid = [(MOCK_PID_DOCTYPE, pid_entries p)] ∧
  u_doc_type address = MOCK_ADDRESS_DOCTYPE ∧ u_attributes address = [(MOCK_ADDRESS_DOCTYPE, address_entries p)].
Proof. eexists _, _. split_and!; try reflexivity; (split; [reflexivity|apply NoDup_singleton]). Qed.

Context {D B : Type}.
Variable openid_bsn : TokenRequest → outcome D string.
Variable brp_answer : GetByBsnRequest → outcome B (list BrpPerson).
Variable certificates : imap string Certificate.

(** C32. A person identification document on its way from the personal records to
    the user: when the identity provider and the personal records know the holder
    of an authorization code and the issuer has registered certificates for both
    document types, the attribute service offers two mdocs that can be issued, for
    every person.  The wallet shows of them exactly the data of the person, as the
    records have it, if the person has given names; if not, the wallet refuses the
    whole offer, since its mapping requires an attribute that the issuer leaves out. *)
Theorem pid_shown_to_user t session request bsn p rest pid_cert address_cert pid_reg address_reg
    (Hbsn : openid_bsn (mkTokenRequest (GrantAuthorizationCode (TokenRequest_code request)) (code_verifier request)
       (client_id request) (redirect_uri request)) = Ok bsn)
    (Hbrp : brp_answer (GetByBsnRequest_create bsn) = Ok (p :: rest))
    (Hpid : im_get certificates MOCK_PID_DOCTYPE = Some pid_cert) (Haddress : im_get certificates MOCK_ADDRESS_DOCTYPE = Some address_cert)
    (Hpid_type : type_from_certificate pid_cert = Ok (MdlCertificate (Some pid_reg)))
    (Haddress_type : type_from_certificate address_cert = Ok (MdlCertificate (Some address_reg))) :
  ∃ previews, pid_attributes openid_bsn brp_answer certificates t session request = Ok previews ∧
    Forall unsigned_wf (preview_unsigned <$> previews) ∧
    match given_names (p_name p) with
    | Some names => ∃ pid address, try_map preview_document previews = Ok [pid; address] ∧
        sd_doc_type pid = PID_DOCTYPE ∧ shown_values pid = shown_pid p names ∧ sd_issuer_registration pid = pid_reg ∧
        sd_doc_type address = ADDRESS_DOCTYPE ∧ shown_values address = shown_address p ∧ sd_issuer_registration address = address_reg
    | None => try_map preview_document previews = Err (PMdocDocument (MissingAttribute PID_DOCTYPE PID_DOCTYPE "given_name"))
    end.
Proof.
  destruct (unsigned_mdocs_Ok (E:=PidError D B) t p) as (pid & address & Hu & Hw1 & Hw2 & Ht1 & Ha1 & Ht2 & Ha2).
  exists [PreviewMsoMdoc pid pid_cert; PreviewMsoMdoc address address_cert]. split_and!.
  - unfold pid_attributes, get_person_by_bsn. rewrite Hbsn. cbn [map_err obind]. rewrite Hbrp. cbn [map_err obind head]. rewrite Hu. cbn [obind try_map].
    unfold try_unsigned_mdoc_to_attestion_preview. by rewrite Ht1, Hpid, Ht2, Haddress.
  - constructor; [exact Hw1|]. constructor; [exact Hw2|constructor].
  - destruct (address_converted p) as (l2 & Hc2 & Hs2). destruct (given_names (p_name p)) as [names|] eqn:Hn; cbn [try_map];
      unfold preview_document at 1, preview_registration, Document_from_unsigned_mdoc, Document_from_mdoc_attributes; rewrite Hpid_type; cbn [map_err obind fst snd];
      rewrite Ht1, Ha1; [|by rewrite (pid_nameless p Hn)].
    destruct (pid_converted p names Hn) as (l1 & Hc1 & Hs1). rewrite Hc1. cbn [map_err obind].
    unfold preview_document, preview_registration, Document_from_unsigned_mdoc, Document_from_mdoc_attributes. rewrite Haddress_type. cbn [map_err obind fst snd].
    rewrite Ht2, Ha2, Hc2. cbn [map_err obind]. eexists _, _. split_and!; done.
Qed.
End PidIssuerFacts.

(** ** Logging in *)
Section DigidFacts.
Context `{!OidcUrl, !OidcCodec, !JoseLib, !UrlJoin, !Sha256, !Base64, !HttpHeaders, !NaiveDateLib, !NaiveDateFormat, !Chrono}.

(** ** The operations *)
Lemma authorization_code_Ok {P} `{!PkcePair P} (c : HttpOidcClient P) received code : authorization_code c received = Ok code ↔
  String.prefix (oidc_redirect_uri c) received = true ∧
  (∃ q, oidc_url_query received = Some q ∧ auth_response_from_str q = Some (mkAuthorizationResponse code (Some (oidc_state c)))) ∧
  Forall (λ kv, kv.1 ≠ "error") (query_pairs received).
Proof.
  unfold authorization_code, matches_received_redirect_uri. destruct (String.prefix _ _); cbn [negb]; [|naive_solver].
  destruct (oidc_url_query received) as [q|]; cbn [ok_or obind]; [|naive_solver].
  destruct (existsb _ _) eqn:He.
  - split; [by destruct (auth_error_from_str q)|]. intros (_ & _ & Hno). apply existsb_exists in He as (kv & Hin & Hkv).
    rewrite list.Forall_forall in Hno. apply bool_decide_eq_true in Hkv. exfalso. apply (Hno kv); [by apply list_elem_of_In|done].
  - assert (Forall (λ kv : string * string, kv.1 ≠ "error") (query_pairs received)) as Hno.
    { apply list.Forall_forall. intros kv Hin Hkv. apply Bool.not_true_iff_false in He. apply He, existsb_exists. exists kv.
      split; [by apply list_elem_of_In|by apply bool_decide_eq_true]. }
    destruct (auth_response_from_str q) as [[code' state]|] eqn:Hr; cbn [ok_or obind authr_state authr_code].
    + destruct (decide _) as [Hs|Hs]; (split; [intros [=]|intros (_ & (q' & [= <-] & Hr') & _)]); [by rewrite Hr in Hr'; injection Hr' as -> ->| |]. 
      * subst. apply dec_stable in Hs. subst. split; [done|]. split; [by exists q|done].
      * rewrite Hr in Hr'. by injection Hr' as -> ->.
    + split; [done|]. intros (_ & (q' & [= <-] & Hr') & _). congruence.
Qed.

(** What a started session holds. *)
Lemma digid_start_Ok base net rnd c redirect_uri (session : HttpDigidSession S256PkcePair) url :
  HttpDigidSession_start base net rnd c redirect_uri = Ok (session, url) →
  let client := oidc_client session in
  oidc_state client = b64_encode (rnd_state rnd) ∧ oidc_redirect_uri client = redirect_uri ∧ oidc_client_id client = digid_client_id c ∧
  ar_code_challenge (auth_request client) = Some (S256 (b64_encode (sha256 (into_code_verifier (pkce_pair client))))) ∧
  ∃ auth_url, oidc_start (P:=S256PkcePair) net rnd (digid_url c) (digid_client_id c) redirect_uri = Ok (client, auth_url) ∧
    (q ← oidc_url_query auth_url; auth_request_from_str q) = Some (auth_request client) ∧
    match digid_app2app c with None => url = auth_url | Some _ => is_Some (app2app_session session) end.
Proof.
  unfold HttpDigidSession_start. intros Hs. apply bind_Ok in Hs as ([client auth_url] & Hs & Hrest). apply map_err_Ok in Hs. cbn [fst snd] in Hrest.
  assert (oidc_client session = client ∧ match digid_app2app c with None => url = auth_url | Some _ => is_Some (app2app_session session) end) as [Hc Hm].
  { destruct (digid_app2app c) as [d|]; [|by injection Hrest as <- <-]. run_ok Hrest. by split. }
  rewrite Hc. cbn zeta. pose proof Hs as Ho. unfold oidc_start in Ho. apply bind_Ok in Ho as (cfg & _ & Ho). apply bind_Ok in Ho as (jwks & _ & Ho).
  apply bind_Ok in Ho as (q & Hq & Ho). injection Ho as <- <-. split_and!; try done. eexists. split; [exact Hs|]. split; [|done].
  apply ok_or_Ok in Hq. rewrite query_set_query. cbn [mbind option_bind]. by apply auth_request_round.
Qed.
Lemma digid_token_request_Ok {P} `{!PkcePair P} net (session : HttpDigidSession P) received tr :
  HttpDigidSession_into_token_request net session received = Ok tr →
  ∃ location code, redirect_location net session received = Ok location ∧ authorization_code (oidc_client session) location = Ok code ∧
    tr = mkTokenRequest (GrantPreAuthorizedCode code) (Some (into_code_verifier (pkce_pair (oidc_client session))))
      (Some (oidc_client_id (oidc_client session))) (Some (oidc_redirect_uri (oidc_client session))).
Proof.
  unfold HttpDigidSession_into_token_request, oidc_into_token_request. intros Ht. apply bind_Ok in Ht as (location & Hl & Ht).
  apply map_err_Ok in Ht. apply bind_Ok in Ht as (code & Hc & Ht). injection Ht as <-. by exists location, code.
Qed.

(** The session that the wallet uses, as the interface of the wallet has it: the
    random values are drawn from those of the operation. *)
Definition http_digid (base : string) (wallet_net : Network) (draw : string → OidcRandom) (c : PidIssuanceConfiguration) (redirect : string) : DigidSession := {|
  Digid := HttpDigidSession S256PkcePair;
  digid_start random := map_err (λ _, DigidFailed) (HttpDigidSession_start base wallet_net (draw random) c redirect);
  into_token_request session received := map_err (λ _, DigidFailed) (HttpDigidSession_into_token_request wallet_net session received)
|}.

(** ** The identity provider

    [granted]: the authorization codes that the provider gave out, with the request
    that each answers and the number of the person who logged in; [token_of]: the
    person of an access token.  The hypotheses are the checks of RFC 6749 (section
    4.1.3) and RFC 7636 (section 4.6) on a token request, and that the signed user
    information of an access token is about the person of that token (OpenID
    Connect Core, section 5.3). *)
Variable net : Network.
Variable client : OpenIdClient.
Variable granted : AuthorizationCode → option (AuthorizationRequest * string).
Variable token_of : AccessToken → option string.
Definition idp_checks_token_requests : Prop := ∀ c tr reply response,
  discover net (oi_issuer_url client) = Ok c → net_post_form net (token_endpoint c) tr = Ok reply → is_error_status (rp_status reply) = false →
  token_response_from_json (rp_body reply) = Some response →
  ∃ code request bsn verifier, grant_type tr = GrantAuthorizationCode code ∧ granted code = Some (request, bsn) ∧
    client_id tr = Some (ar_client_id request) ∧ redirect_uri tr = ar_redirect_uri request ∧
    code_verifier tr = Some verifier ∧ ar_code_challenge request = Some (S256 (b64_encode (sha256 verifier))) ∧
    token_of (access_token response) = Some bsn.
Definition idp_signs_userinfo : Prop := ∀ c jwks jws token claims endpoint reply,
  discover net (oi_issuer_url client) = Ok c → config_jwks net c = Ok jwks → userinfo_endpoint c = Some endpoint →
  net_post_bearer net endpoint token = Ok reply → is_error_status (rp_status reply) = false →
  decrypt_jwe (rp_body reply) (decrypter_private_key client) A128CBC_HS256 = Ok jws →
  decode_with_jwks jws jwks RS256 = Some claims → registered_validate claims = true → token_of token = Some (claims_bsn claims).

Lemma bsn_granted tr bsn : idp_checks_token_requests → idp_signs_userinfo → OpenIdClient_bsn net client tr = Ok bsn →
  ∃ code request verifier, grant_type tr = GrantAuthorizationCode code ∧ granted code = Some (request, bsn) ∧
    client_id tr = Some (ar_client_id request) ∧ redirect_uri tr = ar_redirect_uri request ∧
    code_verifier tr = Some verifier ∧ ar_code_challenge request = Some (S256 (b64_encode (sha256 verifier))).
Proof.
  intros Htoken Hinfo. unfold OpenIdClient_bsn. intros Hb. apply bind_Ok in Hb as (response & Hr & Hb). apply bind_Ok in Hb as (claims & Hc & Hb).
  injection Hb as <-. apply map_err_Ok in Hr, Hc. unfold request_token in Hr. apply bind_Ok in Hr as (c & Hd & Hr).
  apply bind_Ok in Hr as (reply & Hp & Hr). destruct (is_error_status (rp_status reply)) eqn:Hst; [by destruct (token_error_from_json _)|].
  apply map_err_Ok in Hp. apply ok_or_Ok in Hr. destruct (Htoken _ _ _ _ Hd Hp Hst Hr) as (code & request & b & v & Hg & Hgr & Hcl & Hru & Hv & Hch & Ht).
  unfold request_userinfo in Hc. rewrite Hd in Hc. cbn [obind] in Hc. apply bind_Ok in Hc as (jwks & Hj & Hc). apply bind_Ok in Hc as (ep & Hep & Hc).
  apply bind_Ok in Hc as (reply2 & Hp2 & Hc). apply bind_Ok in Hc as (jwt & Hjwt & Hc). apply bind_Ok in Hc as (jws & Hjws & Hc).
  apply bind_Ok in Hc as (claims' & Hdec & Hc). apply bind_Ok in Hc as ([] & Hval & Hc). injection Hc as ->.
  destruct (is_error_status (rp_status reply2)) eqn:Hst2; [by destruct (bearer_error_from_json _)|]. injection Hjwt as <-.
  apply ok_or_Ok in Hep, Hdec. apply map_err_Ok in Hp2. apply guard_err_Ok in Hval.
  pose proof (Hinfo _ _ _ _ _ _ _ Hd Hj Hep Hp2 Hst2 Hjws Hdec Hval) as Ht'. assert (b = claims_bsn claims) as -> by congruence. naive_solver.
Qed.

Context {B : Type}.
Variable brp_answer : GetByBsnRequest → outcome B (list BrpPerson).
Variable certificates : imap string Certificate.

(** C6. A person identification document is that of the person who logged in for the
    wallet that asks for it.  The wallet starts a session with DigiD, takes the code
    of a redirect, directly or through the DigiD app, and asks the issuer for
    attributes.  If it is offered any, the redirect started with the redirect URI of
    the session and had its random state and no error; the identity provider gave
    the code out in answer to a request with the same PKCE challenge, client and
    redirect URI as that of this wallet; and the mdocs are those of the first person
    that the records have for the number of the person who logged in. *)
Theorem pid_of_logged_in_user base wallet_net draw c redirect random (session : HttpDigidSession S256PkcePair) url received tr t issuance previews
    (Hchecks : idp_checks_token_requests) (Hsigns : idp_signs_userinfo)
    (Hstart : digid_start (DigidSession:=http_digid base wallet_net draw c redirect) random = Ok (session, url))
    (Htr : into_token_request (DigidSession:=http_digid base wallet_net draw c redirect) session received = Ok tr)
    (Hpid : pid_attributes (OpenIdClient_bsn net client) brp_answer certificates t issuance tr = Ok previews) :
  ∃ location q request bsn person rest,
    redirect_location wallet_net session received = Ok location ∧ String.prefix redirect location = true ∧
    oidc_url_query location = Some q ∧
    auth_response_from_str q = Some (mkAuthorizationResponse (TokenRequest_code tr) (Some (b64_encode (rnd_state (draw random))))) ∧
    Forall (λ kv, kv.1 ≠ "error") (query_pairs location) ∧
    granted (TokenRequest_code tr) = Some (request, bsn) ∧
    ar_code_challenge request = ar_code_challenge (auth_request (oidc_client session)) ∧
    ar_client_id request = digid_client_id c ∧ ar_redirect_uri request = Some redirect ∧
    brp_answer (GetByBsnRequest_create bsn) = Ok (person :: rest) ∧
    unsigned_mdocs (E:=PidError DigidError B) t person = Ok (preview_unsigned <$> previews).
Proof.
  cbn in Hstart, Htr. apply map_err_Ok in Hstart, Htr. destruct (digid_start_Ok _ _ _ _ _ _ _ Hstart) as (Hstate & Hredirect & Hclient & Hchallenge & _).
  destruct (digid_token_request_Ok _ _ _ _ Htr) as (location & code & Hloc & Hcode & Heq).
  apply authorization_code_Ok in Hcode as (Hprefix & (q & Hq & Hresp) & Hno). rewrite Hstate, Hredirect in *.
  unfold pid_attributes in Hpid. apply bind_Ok in Hpid as (bsn & Hbsn & Hpid). apply map_err_Ok in Hbsn.
  apply bsn_granted in Hbsn as (code' & request & v & Hg & Hgr & Hcl & Hru & Hv & Hch); [|done|done].
  apply bind_Ok in Hpid as (persons & Hp & Hpid). unfold get_person_by_bsn in Hp. apply map_err_Ok in Hp.
  destruct persons as [|person rest]; [done|]. cbn [head] in Hpid. apply bind_Ok in Hpid as (mdocs & Hm & Hpid).
  apply bind_Ok in Hpid as (previews' & Hprev & Hpid). apply bind_Ok in Hpid as ([] & _ & Hpid). injection Hpid as ->.
  rewrite Heq in Hg, Hcl, Hru, Hv |- *. cbn in Hg, Hcl, Hru, Hv. injection Hg as <-. injection Hcl as Hcl. injection Hv as <-.
  exists location, q, request, bsn, person, rest. split_and!; try done.
  - by rewrite Hchallenge.
  - congruence.
  - rewrite Hm. f_equal. apply try_map_Ok in Hprev. clear -Hprev. induction Hprev as [|u v us vs Huv _ IH]; [done|]. cbn. rewrite <- IH. f_equal.
    unfold try_unsigned_mdoc_to_attestion_preview in Huv. apply bind_Ok in Huv as (issuer & _ & Huv). by injection Huv as <-.
Qed.
End DigidFacts.
