(* ===== verification/WalletFrames.v ===== *)
(** * What the calls of the wallet leave alone

    Relations between the states of a device and of a phone before and after a
    call, which the proofs about the wallet compose: a call keeps the
    registration and the keys of the database, or changes nothing but the
    sequence number, or reads only. *)
From stdpp Require Import base gmap strings list option relations.
From Stdlib Require Import ZArith Lia.
From S2P Require Import Prelude IndexMap SessionStore Crypto Jose Cbor Cose Engagement Mdoc MdocSigning Holder Document.
From S2P Require Import Protocol PresentationExchange OpenId4vp Verifier DisclosureSession Issuer PinPolicy Signed WalletUsers AccountServer.
From S2P Require Import AccountClient PinValidation WalletStorage WalletStorageFacts InstructionClient IssuanceSession WalletSessions.

Section Devices.
Context `{!Sqlite, !StorageCodec, !PlatformKeys, !KeyedData RegistrationData}.
Implicit Types (d : Device) (r : remote Device) (t : Tables).

(** The stored registration *)
Definition stored_registration d : option Json :=
  f ← db_file d; keyed_data f.2 !! KEY (D:=RegistrationData).

(** The database stays open or closed, with its keys and registration. *)
Record keeps d d' : Prop := {
  kp_ok : device_ok d → device_ok d';
  kp_open : is_open d' = is_open d;
  kp_key : fst <$> db_file d' = fst <$> db_file d;
  kp_files : key_file d' = key_file d;
  kp_store : key_store d' = key_store d;
  kp_registration : stored_registration d' = stored_registration d
}.
#[global] Instance keeps_preorder : PreOrder keeps.
Proof. split; [by split|]. intros d1 d2 d3 [] []. split; [auto|congruence..]. Qed.

(** Only keyed data changes. *)
Definition keyed_only d d' : Prop :=
  keeps d d' ∧ ∀ t, open_tables d = Some t → ∃ m, open_tables d' = Some (set_keyed m t).
#[global] Instance keyed_only_preorder : PreOrder keyed_only.
Proof.
  split.
  - intros d. split; [done|]. intros t Ht. exists (keyed_data t). by destruct t.
  - intros d1 d2 d3 [Hk1 Ht1] [Hk2 Ht2]. split; [by etrans|]. intros t (m & Hm)%Ht1. destruct (Ht2 _ Hm) as [m' ?]. by exists m'.
Qed.

(** Nothing changes but the list of faults. *)
Definition same_contents r r' : Prop := contents r' = contents r.
#[global] Instance same_contents_preorder : PreOrder same_contents.
Proof. split; [done|]. intros r1 r2 r3. unfold same_contents. congruence. Qed.
Definition keeps_contents r r' : Prop := keeps (contents r) (contents r').
#[global] Instance keeps_contents_preorder : PreOrder keeps_contents.
Proof. unfold keeps_contents. split; [by intros ?|]. intros r1 r2 r3. apply transitivity. Qed.

Lemma quiet_same {A} (m : ST (remote Device) StorageError A) : quiet m → within same_contents m.
Proof. intros Hq r o r' Hr. by destruct (Hq _ _ _ Hr). Qed.
Lemma round_trip_same {E} (e : E) : within same_contents (round_trip (D:=Device) e).
Proof. intros r o r' Hr. by destruct (round_trip_contents _ _ _ _ Hr). Qed.
Lemma same_keeps r r' : same_contents r r' → keeps_contents r r'.
Proof. unfold keeps_contents. intros ->. reflexivity. Qed.

Lemma stored_registration_with d t t' : open_tables d = Some t →
  keyed_data t' !! KEY (D:=RegistrationData) = keyed_data t !! KEY (D:=RegistrationData) →
  stored_registration (with_tables t' d) = stored_registration d.
Proof.
  unfold open_tables, stored_registration, with_tables. destruct (is_open d); [|done]. destruct (db_file d) as [[k t0]|]; [|done].
  by intros [= <-].
Qed.

Lemma with_tables_keeps d t t' : open_tables d = Some t → (tables_ok t → tables_ok t') →
  keyed_data t' !! KEY (D:=RegistrationData) = keyed_data t !! KEY (D:=RegistrationData) → keeps d (with_tables t' d).
Proof.
  intros Ht Hok Hk. split; [|done| |done..|by eapply stored_registration_with].
  - intros Hd. apply device_ok_with; [|done]. by eapply Hok, device_ok_open.
  - cbn. by destruct (db_file d).
Qed.

Lemma changes_keeps f m : (∀ t t', tables_ok t → f t = Ok t' → tables_ok t') →
  (∀ t t', f t = Ok t' → keyed_data t' !! KEY (D:=RegistrationData) = keyed_data t !! KEY (D:=RegistrationData)) →
  changes f m → within keeps_contents m.
Proof.
  intros Hok Hk Hch r o r' [[Hc _]|(t & t' & Ht & Hf & Hc & _)]%Hch; unfold keeps_contents; rewrite Hc; [reflexivity|].
  eapply with_tables_keeps; [done| |by apply Hk]. intros ?. by eapply Hok.
Qed.
Lemma changes_keyed_only f m : (∀ t t', f t = Ok t' → ∃ m, t' = set_keyed m t ∧ m !! KEY (D:=RegistrationData) = keyed_data t !! KEY (D:=RegistrationData)) →
  changes f m → within (λ r r', keyed_only (contents r) (contents r')) m.
Proof.
  intros Hf Hch r o r' [[-> _]|(t & t' & Ht & Hft & -> & _)]%Hch; [reflexivity|].
  destruct (Hf _ _ Hft) as (kd & -> & Hk). split; [eapply with_tables_keeps; [done|apply set_keyed_ok|done]|].
  intros t0 Ht0. assert (t0 = t) as -> by congruence. exists kd. by eapply open_with_tables.
Qed.
(** ** Opening the database *)

(** The files and keys with which the database can be opened again. *)
Definition keys_match d : Prop := ∃ ek c b k t,
  key_store d = Some ek ∧ key_file d = Some c ∧ key_decrypt ek c = Some b ∧ SqlCipherKey_try_from b = Some k ∧ db_file d = Some (k, t).

Lemma keeps_keys_match d d' : keeps d d' → keys_match d → keys_match d'.
Proof.
  intros [_ _ Hk Hf Hs _] (ek & c & b & k & t & ? & ? & ? & ? & Hdb). rewrite Hdb in Hk. destruct (db_file d') as [[k' t']|] eqn:Hdb'; [|done].
  injection Hk as ->. exists ek, c, b, k, t'. by rewrite Hf, Hs.
Qed.

Lemma with_keys_match d t : keys_match d → keys_match (with_tables t d).
Proof. intros (ek & c & b & k & t0 & ? & ? & ? & ? & Hdb). exists ek, c, b, k, t. cbn. by rewrite Hdb. Qed.

Lemma key_file_inv ek random r o r' : get_or_create_key_file ek random r = (o, r') →
  is_open (contents r') = is_open (contents r) ∧ db_file (contents r') = db_file (contents r) ∧ key_store (contents r') = key_store (contents r) ∧
  (is_Some (key_file (contents r)) → key_file (contents r') = key_file (contents r)) ∧
  match o with
  | Ok bytes => ∃ c, key_file (contents r') = Some c ∧ key_decrypt ek c = Some bytes
  | Err _ => True
  | Panic => False
  end.
Proof.
  intros [[-> ->]|(r1 & Hc1 & Hr)]%bind_round_trip; [done|].
  unfold get_device in Hr. unfold sbind at 1 in Hr. rewrite Hc1 in Hr. destruct (key_file (contents r)) as [c|] eqn:Hkf.
  - apply bind_round_trip in Hr as [[-> ->]|(r2 & Hc2 & Hr)]; [by rewrite Hc1|].
    apply bind_round_trip in Hr as [[-> ->]|(r3 & Hc3 & Hr)]; [by rewrite Hc2, Hc1|].
    unfold st_lift in Hr. injection Hr as <- <-. rewrite Hc3, Hc2, Hc1. split_and!; [done..|].
    destruct (key_decrypt ek c) as [b|] eqn:Hb; cbn; [|done]. by exists c.
  - apply bind_round_trip in Hr as [[-> ->]|(r2 & Hc2 & Hr)]; [by rewrite Hc1|].
    apply bind_st_lift in Hr as [[-> [[e ->]|[Hp _]]]|(c & Hc%ok_or_Ok & Hr)]; [by rewrite Hc2, Hc1|by destruct (key_encrypt ek random)|].
    apply bind_round_trip in Hr as [[-> ->]|(r3 & Hc3 & Hr)]; [by rewrite Hc2, Hc1|].
    unfold sbind, get_device, set_device, set_contents, sret in Hr. injection Hr as <- <-. cbn. rewrite Hc3, Hc2, Hc1.
    split_and!; [done..|by intros []|]. exists c. split; [done|]. by eapply key_decrypt_encrypt.
Qed.

Lemma bind_map_err_inv {E F A B} (g : E → F) (m : ST (remote Device) E A) (k : A → ST (remote Device) F B) r o r' :
  sbind (st_map_err g m) k r = (o, r') → ∃ x r1, m r = (x, r1) ∧
    match x with Ok a => k a r1 = (o, r') | Err e => o = Err (g e) ∧ r' = r1 | Panic => o = Panic ∧ r' = r1 end.
Proof. unfold sbind, st_map_err. destruct (m r) as [[a|e|] r1]; intros He; eexists _, _; (split; [done|]); by simplify_eq/=. Qed.

Lemma storage_open_inv nk random r o r' : storage_open nk random r = (o, r') → is_open (contents r) = false →
  (device_ok (contents r) → device_ok (contents r')) ∧
  (keys_match (contents r) → keys_match (contents r') ∧ db_file (contents r') = db_file (contents r)) ∧
  (o = Ok tt ∧ is_open (contents r') = true ∧ keys_match (contents r') ∨ (∃ e, o = Err e) ∧ is_open (contents r') = false).
Proof.
  intros Hr Ho. split; [intros Hd; by eapply storage_open_ok|]. unfold storage_open, get_device in Hr. unfold sbind at 1 in Hr. rewrite Ho in Hr.
  unfold set_device, set_contents in Hr. unfold sbind at 1 in Hr. set (ek := default nk (key_store (contents r))) in *.
  apply bind_map_err_inv in Hr as (x & r1 & Hkf & Hx). apply key_file_inv in Hkf as (Ho1 & Hdb1 & Hks1 & Hkf1 & Hres). cbn in Ho1, Hdb1, Hks1, Hkf1.
  assert (keys_match (contents r) → keys_match (contents r1) ∧ db_file (contents r1) = db_file (contents r)) as Hkeep.
  { intros (ek' & c & b & k & t & Hek & Hc & Hb & Hk & Hdb). split; [|done]. exists ek', c, b, k, t. rewrite Hks1, Hdb1, Hkf1 by (by rewrite Hc).
    unfold ek. by rewrite Hek. }
  destruct x as [bytes|e|]; [|by destruct Hx as [-> ->]; eauto 10|done].
  apply bind_st_lift in Hx as [[-> [[e ->]|[Hp ->]]]|(key & Hkey%ok_or_Ok & Hx)]; [by eauto 10|by destruct (SqlCipherKey_try_from bytes)|].
  apply bind_round_trip in Hx as [[Hc ->]|(r2 & Hc & Hx)]; [rewrite Hc; by eauto 10|].
  destruct Hres as (c & Hc1 & Hdec). unfold sbind, get_device in Hx. rewrite Hc, Hdb1 in Hx.
  assert (∀ t (o : bool), keys_match (mkDevice _ o (Some (key, t)) (key_file (contents r1)) (key_store (contents r1)))) as Hnew
    by (intros t o'; exists ek, c, bytes, key, t; by rewrite Hks1, Hc1).
  destruct (db_file (contents r)) as [[k t]|] eqn:Hdb.
  - destruct (decide (k = key)) as [->|]; unfold set_device, set_contents in Hx; injection Hx as <- <-; cbn.
    + split; [by intros _|]. left. by split_and!.
    + rewrite Hc. by eauto 10.
  - unfold set_device, set_contents in Hx. injection Hx as <- <-. cbn. split; [|left; by split_and!].
    intros (? & ? & ? & ? & ? & _ & _ & _ & _ & [=]%(eq_trans (eq_sym Hdb))).
Qed.
End Devices.

(** ** Instructions *)
Section Instructions.
Context {X : Type}.
Context `{!Ecdsa, !Sqlite, !StorageCodec, !PlatformKeys, !PinKeyLib, !AccountProviderClient, !KeyedData InstructionData}.
Context `{!JwtLib InstructionChallengeRequestClaims, !KeyedData RegistrationData}.
Hypothesis KEY_different : KEY (D:=InstructionData) ≠ KEY (D:=RegistrationData).
Variable prof : profile.
Implicit Types (p : Phone X).

(** Sending instructions changes the sequence number only, and no other party
    hears of it. *)
Definition sends p p' : Prop :=
  keyed_only (contents (ph_device p)) (contents (ph_device p')) ∧ ph_peer p' = ph_peer p.
#[global] Instance sends_preorder : PreOrder sends.
Proof.
  unfold sends. split; [by intros p|]. intros p1 p2 p3 [? ?] [? ?]. split; [by etrans|congruence].
Qed.

Lemma on_device_sends {E A} (m : ST (remote Device) E A) :
  within (λ r r', keyed_only (contents r) (contents r')) m → within sends (on_device m).
Proof.
  intros Hm p o p'. unfold on_device. destruct (m (ph_device p)) as [x r] eqn:Hr. intros [= _ <-]. split; [|done]. by eapply Hm.
Qed.
Lemma same_sends {E A} (m : ST (remote Device) E A) : within same_contents m → within sends (on_device m).
Proof. intros Hm. apply on_device_sends. eapply within_impl; [|exact Hm]. cbn. by intros r r' ->. Qed.
Lemma exchange_sends {E A} msg (answer : list AccountMessage → outcome E A) : within sends (exchange msg answer).
Proof. intros p o p' [= _ <-]. by split. Qed.
Lemma hardware_sends {E A} (e : E) (m : outcome E A) : within sends (hardware (X:=X) e m).
Proof. apply within_bind; [apply _| |intros ?; apply within_lift, _]. apply same_sends, round_trip_same. Qed.

Lemma insert_number_sends n : within sends (on_device (insert_data (mkInstructionData n))).
Proof.
  apply on_device_sends. eapply changes_keyed_only; [|apply insert_data_changes].
  intros t t' (v & _ & Hv)%bind_Ok. destruct (keyed_data t !! KEY) eqn:Hk; [done|]. injection Hv as <-.
  eexists. split; [done|]. by rewrite lookup_insert_ne.
Qed.
Lemma update_number_sends n : within sends (on_device (update_data (mkInstructionData n))).
Proof.
  apply on_device_sends. eapply changes_keyed_only; [|apply update_data_changes].
  intros t t' (v & _ & [= <-])%bind_Ok. eexists. split; [done|].
  destruct (keyed_data t !! KEY (D:=InstructionData)); [by rewrite lookup_insert_ne|done].
Qed.
Hint Resolve exchange_sends hardware_sends insert_number_sends update_number_sends : within.

Lemma with_sequence_number_sends {R} (f : Z → ST (Phone X) AccountError R) :
  (∀ n, within sends (f n)) → within sends (with_sequence_number prof f).
Proof.
  intros Hf. unfold with_sequence_number, storage_error. apply within_bind; [apply _| |intros fetched].
  { apply within_map_err, same_sends, quiet_same, fetch_data_quiet. }
  solve_within.
Qed.

Lemma send_sends {I R} `{!InstructionEndpoint I R, !SignedJson I, !JwtLib (InstructionResultClaims R)} clock c (i : I) :
  within sends (send (R:=R) prof clock c i).
Proof.
  unfold send, client_instruction_challenge. apply within_bind; [apply _| |intros ch].
  { apply within_bind; [apply _| |solve_within]. apply with_sequence_number_sends. solve_within. }
  apply within_bind; [apply _| |solve_within]. apply with_sequence_number_sends. solve_within.
Qed.
End Instructions.
