(* ===== verification/WalletAppFacts.v ===== *)
(** * The wallet app as a state machine

    Invariant of the wallet over all its operations, failures and restarts; what a
    locked wallet does; and what is left after a PIN timeout. *)
From stdpp Require Import base gmap strings list option relations.
From Stdlib Require Import ZArith Lia.
From S2P Require Import Prelude IndexMap SessionStore Crypto Jose Cbor Cose Engagement Mdoc MdocSigning Holder Document.
From S2P Require Import Protocol PresentationExchange OpenId4vp Verifier DisclosureSession Issuer PinPolicy Signed WalletUsers AccountServer.
From S2P Require Import AccountClient PinValidation WalletStorage WalletStorageFacts InstructionClient InstructionFacts IssuanceSession IssuanceSessionFacts WalletSessions.
From S2P Require Import WalletApp WalletFlows WalletFrames.

Section Wallets.
Context `{!NaiveDateLib, !DigidSession, !Ecdsa, !X509Lib, !RegistrationLib, !Sqlite, !StorageCodec, !PlatformKeys, !Josekit}.
Context `{!PinKeyLib, !AccountProviderClient, !KeyedData InstructionData, !JwtLib InstructionChallengeRequestClaims}.
Context `{!SignedJson GenerateKey, !SignedJson Sign, !JwtLib (InstructionResultClaims GenerateKeyResult), !JwtLib (InstructionResultClaims SignResult)}.
Context `{!Coset, !Ciborium, !Sha256, !Chrono, !UrlLib, !MacLib, !Base64Std, !ResponseJson}.
Context `{!JwtLib VpAuthorizationRequest, !VerifierLib, !WalletUrlLib, !VpMessageClient}.
Context `{!Base64, !JwtLib DpopPayload, !JwtLib CredentialRequestProofJwtPayload, !VcMessageClient RemoteEcdsaKeyError}.
Context `{!JwtLib WalletCertificateClaims, !SignedJson Registration, !KeyedData RegistrationData}.
Context `{!SignedJson CheckPin, !JwtLib (InstructionResultClaims unit)}.
Variable prof : profile.
Variable config : WalletConfiguration.
Variable show : VpClientError → string.
Hypothesis KEY_different : KEY (D:=InstructionData) ≠ KEY (D:=RegistrationData).
Implicit Types (w : Wallet) (p : Phone Peers) (d : Device).

Definition device w : Device := contents (ph_device (w_phone w)).
Definition verifier_log w : list VpMessage := vp_log (ph_peer (w_phone w)).
Definition issuer_log w : list VcMessage := vc_log (ph_peer (w_phone w)).
Definition account_log w : list AccountMessage := ph_account (w_phone w).

(** ** Frames *)

(** Only callbacks and what they were called with change. *)
Record calm w w' : Prop := {
  cm_device : device w' = device w;
  cm_peers : ph_peer (w_phone w') = ph_peer (w_phone w);
  cm_account : account_log w' = account_log w;
  cm_hw : w_hw_store w' = w_hw_store w;
  cm_issuance : w_issuance_session w' = w_issuance_session w;
  cm_disclosure : w_disclosure_session w' = w_disclosure_session w;
  cm_locked : w_is_locked w' = w_is_locked w;
  cm_registration : w_registration w' = w_registration w
}.
#[global] Instance calm_preorder : PreOrder calm.
Proof. split; [by split|]. intros w1 w2 w3 [] []. split; congruence. Qed.

(** The mdocs of an issuance session have attributes. *)
Definition valid_previews (l : list AttestationPreview) : Prop :=
  Forall (λ x : AttestationPreview, unsigned_attributes_valid (u_attributes (preview_unsigned x)) = true) l.
Definition issuance_ok w : Prop :=
  ∀ s, w_issuance_session w = Some (PidOpenid4vci s) → valid_previews (is_attestation_previews s).

(** What the operations of an unlocked wallet leave alone. *)
Record frame w w' : Prop := {
  fr_registration : w_registration w' = w_registration w;
  fr_hw : w_hw_store w' = w_hw_store w;
  fr_device : keeps (device w) (device w');
  fr_previews : issuance_ok w → issuance_ok w'
}.
#[global] Instance frame_preorder : PreOrder frame.
Proof. split; [by split|]. intros w1 w2 w3 [] []. split; [congruence..|by etrans|auto]. Qed.
Lemma calm_frame w w' : calm w w' → frame w w'.
Proof. intros []. split; [done..|by rewrite cm_device0|]. unfold issuance_ok. by rewrite cm_issuance0. Qed.

Lemma within_modify (R : relation Wallet) {E} f : (∀ w, R w (f w)) → within R (modify (E:=E) f).
Proof. intros Hf w o w' [= _ <-]. done. Qed.
Lemma on_phone_within (R : relation Wallet) (Rp : relation (Phone Peers)) {E A} (m : ST (Phone Peers) E A) :
  (∀ w p', Rp (w_phone w) p' → R w (set_phone p' w)) → within Rp m → within R (on_phone m).
Proof.
  intros HR Hm w o w'. unfold on_phone. destruct (m (w_phone w)) as [x p'] eqn:Hp. intros [= _ <-].
  apply (HR w p'). by eapply Hm.
Qed.
Lemma log_error_within (R : relation Wallet) {E F} (m : ST Wallet E unit) : within R m → within R (log_error (F:=F) m).
Proof. intros Hm w o w'. unfold log_error. destruct (m w) as [[] ?] eqn:Hw; intros [= _ <-]; by eapply Hm. Qed.

(** Reading the storage is calm, and so is calling back. *)
Lemma on_storage_calm {E A} (m : ST (remote Device) E A) : within same_contents m → within calm (on_storage m).
Proof.
  intros Hm. apply (on_phone_within _ (λ p p', contents (ph_device p') = contents (ph_device p) ∧ ph_account p' = ph_account p ∧ ph_peer p' = ph_peer p)).
  - intros w p' (? & ? & ?). by split.
  - intros p o p'. unfold on_device. destruct (m (ph_device p)) as [x r] eqn:Hr. intros [= _ <-]. split; [by eapply Hm|done].
Qed.
Lemma on_storage_frame {E A} (m : ST (remote Device) E A) : within keeps_contents m → within frame (on_storage m).
Proof.
  intros Hm. apply (on_phone_within _ (λ p p', keeps (contents (ph_device p)) (contents (ph_device p')))).
  - intros w p' ?. by split.
  - intros p o p'. unfold on_device. destruct (m (ph_device p)) as [x r] eqn:Hr. intros [= _ <-]. by eapply Hm.
Qed.
Lemma emit_recent_history_calm now : within calm (emit_recent_history now).
Proof.
  apply within_bind; [apply _| |intros l]; [apply within_map_err, on_storage_calm, quiet_same, fetch_events_quiet|].
  apply within_bind; [apply _|apply within_lift, _|intros events]. apply within_modify. intros w. destruct (w_recent_history_callback w); by split.
Qed.
Lemma emit_documents_calm : within calm emit_documents.
Proof.
  apply within_bind; [apply _| |intros l]; [apply within_map_err, on_storage_calm, quiet_same, query_quiet|].
  apply within_bind; [apply _|apply within_lift, _|intros documents]. apply within_modify. intros w. destruct (w_documents_callback w); by split.
Qed.
Hint Resolve emit_recent_history_calm emit_documents_calm : within.

Lemma store_history_event_frame e event : within frame (store_history_event e event).
Proof.
  apply within_bind; [apply _| |intros _; eapply within_impl, emit_recent_history_calm; apply calm_frame].
  apply within_map_err, on_storage_frame. eapply changes_keeps; [| |apply log_wallet_event_changes].
  - intros t t' Ht. by apply logged_event_ok.
  - intros t t' Ht. by rewrite (logged_event_keyed _ _ _ _ Ht).
Qed.
Hint Resolve store_history_event_frame : within.

(** *** Sessions on the phone *)
Definition phone_keeps p p' : Prop := keeps (contents (ph_device p)) (contents (ph_device p')).
#[local] Instance phone_keeps_preorder : PreOrder phone_keeps.
Proof. unfold phone_keeps. split; [by intros p|]. intros p1 p2 p3. apply transitivity. Qed.
Lemma on_phone_frame {E A} (m : ST (Phone Peers) E A) : within phone_keeps m → within frame (on_phone m).
Proof. apply on_phone_within. intros w p' ?. by split. Qed.
Lemma sends_keeps {E A} (m : ST (Phone Peers) E A) : within sends m → within phone_keeps m.
Proof. apply within_impl. by intros p p' [[? _] _]. Qed.
Lemma vp_keeps {E A} (m : ST (list VpMessage) E A) : within phone_keeps (on_part m).
Proof. intros p o p'. unfold on_part. destruct (m _). by intros [= _ <-]. Qed.
Lemma vc_keeps {E A} (m : ST (list VcMessage) E A) : within phone_keeps (on_part m).
Proof. intros p o p'. unfold on_part. destruct (m _). by intros [= _ <-]. Qed.
Lemma vc_exchange_keeps {A} msg (answer : list VcMessage → outcome (IssuanceSessionError RemoteEcdsaKeyError) A) : within phone_keeps (vc_exchange msg answer).
Proof. apply vc_keeps. Qed.
Lemma send_keeps {I R} `{!InstructionEndpoint I R, !SignedJson I, !JwtLib (InstructionResultClaims R)} clock c (i : I) :
  within phone_keeps (send (R:=R) prof clock c i).
Proof. by apply sends_keeps, send_sends. Qed.
Lemma with_verifier_frame {E A} (m : ST (list VpMessage) E A) : within frame (with_verifier m).
Proof. apply on_phone_frame, vp_keeps. Qed.
Hint Resolve vp_keeps vc_keeps vc_exchange_keeps send_keeps with_verifier_frame : within.

Lemma remote_generate_keeps client clock ids : within phone_keeps (remote_generate_new_multiple prof client clock ids).
Proof. unfold remote_generate_new_multiple. solve_within. Qed.
Lemma remote_sign_keeps client clock l : within phone_keeps (remote_sign_multiple prof client clock l).
Proof. unfold remote_sign_multiple. solve_within. Qed.
Hint Resolve remote_generate_keeps remote_sign_keeps : within.

Lemma st_disclose_keeps kd client random rnd (x : DisclosureProposal Uuid) :
  within phone_keeps (st_disclose (RemoteEcdsaKeyFactory prof kd client) random rnd x).
Proof.
  unfold st_disclose, st_from_proposed_documents. cbn [kf_sign_multiple_with_existing_keys RemoteEcdsaKeyFactory].
  apply within_bind; [apply _|apply within_map_err|]; solve_within.
Qed.
Lemma start_issuance_keeps random now time key url request anchors :
  within phone_keeps (start_issuance (EK:=RemoteEcdsaKeyError) random now time key url request anchors).
Proof. unfold start_issuance, discover_token_endpoint, discover_metadata. solve_within. Qed.
Lemma reject_issuance_keeps random now s : within phone_keeps (reject_issuance (EK:=RemoteEcdsaKeyError) random now s).
Proof. unfold reject_issuance, discover_batch_credential_endpoint, discover_metadata. solve_within. Qed.
Lemma accept_issuance_keeps random now time anchors kd client identifier s :
  within phone_keeps (accept_issuance random now time anchors (RemoteEcdsaKeyFactory prof kd client) identifier s).
Proof.
  unfold accept_issuance, st_new_multiple, st_sign_jwts, discover_batch_credential_endpoint, discover_metadata.
  cbn [kf_sign_multiple_with_existing_keys kf_generate_new_multiple RemoteEcdsaKeyFactory].
  apply within_bind; [apply _|apply within_map_err|]; solve_within.
Qed.
Hint Resolve on_phone_frame st_disclose_keeps start_issuance_keeps reject_issuance_keeps accept_issuance_keeps : within.

(** ** Operations of an unlocked wallet *)

(** An operation that does nothing unless the wallet is registered and unlocked,
    and then changes it within [R]. *)
Definition guarded (R : relation Wallet) {E A} (m : ST Wallet E A) : Prop := ∀ w o w', m w = (o, w') →
  w' = w ∧ (∃ e, o = Err e) ∨ is_Some (w_registration w) ∧ w_is_locked w = false ∧ R w w'.

Lemma guarded_check (R : relation Wallet) {E A} (a b : E) (k : unit → ST Wallet E A) :
  within R (k tt) → guarded R (sbind (check_unlocked a b) k).
Proof.
  intros Hk w o w'. unfold check_unlocked, st_get, st_lift, has_registration, sbind. destruct (w_registration w) as [r|] eqn:Hr.
  - rewrite (bool_decide_eq_true_2 (is_Some _)) by done. cbn. destruct (w_is_locked w) eqn:Hl; cbn; [intros [= <- <-]; eauto|]. intros Hw. right.
    split_and!; [done..|]. by eapply Hk.
  - rewrite (bool_decide_eq_false_2 (is_Some _)) by (by intros []). cbn. intros [= <- <-]. eauto.
Qed.
Lemma guarded_registration (R : relation Wallet) {E A} (a b : E) (k : Wallet → WalletRegistration → ST Wallet E A) :
  (∀ w r o w', w_registration w = Some r → k w r w = (o, w') → R w w') →
  guarded R (let! w := st_get in let! r := st_lift (ok_or a (w_registration w)) in
             let! _ := st_lift (guard_err (negb (w_is_locked w)) b) in k w r).
Proof.
  intros Hk w o w'. unfold st_get, st_lift, sbind. destruct (w_registration w) as [r|] eqn:Hr; cbn; [|intros [= <- <-]; eauto].
  destruct (w_is_locked w) eqn:Hl; cbn; [intros [= <- <-]; eauto|]. intros Hw. right. split_and!; [done..|]. by eapply Hk.
Qed.
Lemma guarded_impl (R R' : relation Wallet) {E A} (m : ST Wallet E A) : (∀ w w', R w w' → R' w w') → guarded R m → guarded R' m.
Proof. intros Hi Hm w o w' [?|(? & ? & ?)]%Hm; [by left|right; auto]. Qed.

Lemma set_disclosure_frame {E} s : within frame (modify (E:=E) (set_disclosure_session s)).
Proof. apply within_modify. by split. Qed.
Lemma drop_issuance_frame {E} : within frame (modify (E:=E) (set_issuance_session None)).
Proof. apply within_modify. by split. Qed.
Lemma lock_frame {E} : within frame (lock (E:=E)).
Proof. apply within_modify. intros w. unfold lock_state, call_update_callback. destruct (w_is_locked w); [by split|]. cbn. destruct (w_lock_callback w); by split. Qed.
Lemma calm_within_frame {E A} (m : ST Wallet E A) : within calm m → within frame m.
Proof. apply within_impl, calm_frame. Qed.
Lemma log_error_frame {E F} (m : ST Wallet E unit) : within frame m → within frame (log_error (F:=F) m).
Proof. apply log_error_within. Qed.
Lemma mdoc_by_doc_types_same types : within same_contents (mdoc_by_doc_types types).
Proof. unfold mdoc_by_doc_types. apply within_bind; [apply _|apply quiet_same, query_quiet|solve_within]. Qed.
Lemma read_data_source_calm {E} : within calm (on_storage (read_data_source (E:=E))).
Proof.
  apply on_storage_calm. intros r o r'. unfold read_data_source. destruct (mdoc_by_doc_types ∅ r) as [x r1] eqn:Hm. intros [= _ <-].
  by eapply mdoc_by_doc_types_same.
Qed.
Lemma did_share_calm cert : within calm (on_storage (did_share_data_with_relying_party cert)).
Proof. apply on_storage_calm, quiet_same, quiet_database. intros t. by apply statement_quiet. Qed.
Hint Resolve set_disclosure_frame drop_issuance_frame lock_frame log_error_frame read_data_source_calm did_share_calm : within.
Hint Extern 5 (within frame _) => apply calm_within_frame : within.

Lemma get_history_guarded fetch : within same_contents fetch → guarded calm (shown_history fetch).
Proof. intros Hf. apply guarded_check. pose proof (on_storage_calm _ Hf). solve_within. Qed.
Lemma start_disclosure_guarded now rnd uri source : guarded frame (start_disclosure config show now rnd uri source).
Proof. apply guarded_check. solve_within. Qed.
Lemma has_active_disclosure_guarded : guarded calm has_active_disclosure_session.
Proof. apply guarded_check. solve_within. Qed.
Lemma terminate_frame e s : within frame (terminate_disclosure_session e s).
Proof. unfold terminate_disclosure_session. solve_within. Qed.
Hint Resolve terminate_frame : within.
Lemma cancel_disclosure_guarded e : guarded frame (cancel_disclosure e).
Proof. apply guarded_check. solve_within. Qed.
Lemma increment_frame ids : within frame (on_storage (increment_mdoc_copies_usage_count ids)).
Proof.
  apply on_storage_frame. eapply changes_keeps; [| |apply execute_changes]; [|by intros t t' [= <-]].
  intros t t' Ht [= <-]. by apply increment_ok.
Qed.
Hint Resolve increment_frame : within.
Lemma log_disclosure_error_frame e attributes shared certificate : within frame (log_disclosure_error e attributes shared certificate).
Proof. unfold log_disclosure_error. solve_within. Qed.
Hint Resolve log_disclosure_error_frame : within.
Lemma accept_disclosure_guarded x pin : guarded frame (accept_disclosure prof config x pin).
Proof. apply guarded_registration. intros w r o w' _. match goal with |- ?m w = _ → _ => assert (within frame m) as Hm by solve_within end. apply Hm. Qed.
Lemma create_pid_issuance_guarded random : guarded frame (create_pid_issuance_auth_url random).
Proof.
  apply guarded_check. apply within_bind; [apply _|solve_within|intros w]. apply within_bind; [apply _|solve_within|intros _].
  apply within_bind; [apply _|solve_within|intros started]. apply within_bind; [apply _| |solve_within]. apply within_modify. by split.
Qed.
Lemma has_active_issuance_guarded : guarded calm has_active_pid_issuance_session.
Proof. apply guarded_check. solve_within. Qed.
Lemma cancel_pid_issuance_guarded random now : guarded frame (cancel_pid_issuance random now).
Proof. apply guarded_check. solve_within. Qed.

(** Clients of the issuer hand over previews that were deserialized, and thus
    have attributes. *)
Hypothesis H_previews : ∀ log url request dpop r,
  answer_token (EK:=RemoteEcdsaKeyError) log url request dpop = Ok r → valid_previews (attestation_previews r.1).

Lemma start_issuance_valid random now time key url request anchors p r p' :
  start_issuance (EK:=RemoteEcdsaKeyError) random now time key url request anchors p = (Ok r, p') →
  valid_previews (is_attestation_previews r.1).
Proof.
  unfold start_issuance. intros Hr. apply st_bind_inv in Hr as [(endpoint & p1 & _ & Hr)|[(? & _ & [=])|[_ [=]]]].
  apply bind_lift_inv in Hr as [(dpop & _ & Hr)|[(? & _ & [=] & _)|(_ & [=] & _)]].
  apply bind_exchange in Hr as (p2 & _ & [([resp nonce] & Ha & Hr)|[(? & _ & [=] & _)|(_ & [=])]]).
  apply bind_lift_inv in Hr as [([] & _ & Hr)|[(? & _ & [=] & _)|(_ & [=] & _)]].
  apply bind_lift_inv in Hr as [(n & _ & Hr)|[(? & _ & [=] & _)|(_ & [=] & _)]].
  injection Hr as <- _. by apply H_previews in Ha.
Qed.

Lemma continue_pid_issuance_guarded random now time key uri : guarded frame (continue_pid_issuance config random now time key uri).
Proof.
  apply guarded_check. apply within_bind; [apply _|solve_within|intros w]. apply within_bind; [apply _|solve_within|intros session].
  apply within_bind; [apply _|solve_within|intros _]. apply within_bind; [apply _|solve_within|intros request].
  apply within_bind_eq; [apply _|solve_within|intros started w1 w2 Hs]. apply within_bind; [apply _|solve_within|intros documents].
  apply within_bind; [apply _| |solve_within]. apply within_modify. intros w0. split; [done..|]. intros _ s. cbn. intros [= <-].
  unfold st_map_err, on_phone in Hs. destruct (start_issuance _ _ _ _ _ _ _ _) as [x q] eqn:Hx. injection Hs as Hs _.
  apply map_err_Ok in Hs as ->. by eapply start_issuance_valid.
Qed.

(** *** Reset *)

(** The state after a reset; errors of the device may leave files behind. *)
Record cleared w w' : Prop := {
  cl_registration : w_registration w' = None;
  cl_sessions : w_issuance_session w' = None ∧ w_disclosure_session w' = None;
  cl_locked : w_is_locked w' = true;
  cl_open : is_open (device w') = false;
  cl_device : device_ok (device w) → device_ok (device w');
  cl_peers : ph_peer (w_phone w') = ph_peer (w_phone w);
  cl_account : account_log w' = account_log w
}.

Definition set_storage (r : remote Device) w : Wallet := set_phone (mkPhone r (account_log w) (ph_peer (w_phone w))) w.
Lemma on_storage_inv {E A} (m : ST (remote Device) E A) w o w' : on_storage m w = (o, w') → ∃ r,
  m (ph_device (w_phone w)) = (o, r) ∧ w' = set_storage r w.
Proof.
  unfold on_storage, on_phone, on_device. destruct (m _) as [x r]. intros [= <- <-]. by exists r.
Qed.
Lemma lock_state_inv w : w_is_locked (lock_state w) = true ∧ w_phone (lock_state w) = w_phone w ∧ w_registration (lock_state w) = w_registration w ∧
  w_issuance_session (lock_state w) = w_issuance_session w ∧ w_disclosure_session (lock_state w) = w_disclosure_session w.
Proof. unfold lock_state, call_update_callback. destruct (w_is_locked w) eqn:Hl; [done|]. cbn. by destruct (w_lock_callback w). Qed.

Lemma clear_closes {E} r o r' : storage_clear (E:=E) r = (o, r') → o = Ok tt ∧ is_open (contents r') = false.
Proof.
  unfold storage_clear, get_device. unfold sbind at 1. destruct (is_open (contents r)) eqn:Ho; [|by intros [= <- <-]].
  unfold set_device, set_contents. unfold sbind at 1. unfold sbind at 1. destruct (ignore_error _ _) as [x r1] eqn:Hx1.
  apply deletion_inv in Hx1 as [-> Hx1]. unfold sbind at 1. destruct (ignore_error _ r1) as [x r2] eqn:Hx2.
  apply deletion_inv in Hx2 as [-> Hx2]. intros Hx3%deletion_inv. destruct Hx3 as [-> Hx3]. split; [done|].
  destruct Hx1 as [Hx1|Hx1], Hx2 as [Hx2|Hx2], Hx3 as [-> | ->]; cbn in *; by rewrite ?Hx2, ?Hx1.
Qed.

Lemma reset_inv {E} w o w' : reset_to_initial_state (E:=E) w = (o, w') →
  (w_registration w = None ∧ w' = w ∧ o = Ok false) ∨ (is_Some (w_registration w) ∧ o = Ok true ∧ cleared w w').
Proof.
  unfold reset_to_initial_state, st_get. unfold sbind at 1. destruct (w_registration w) as [r|] eqn:Hr; [|intros [= <- <-]; by left].
  unfold modify. unfold sbind at 1. unfold sbind at 1. destruct (on_storage storage_clear _) as [x w1] eqn:Hc.
  apply on_storage_inv in Hc as (r1 & Hc & ->). destruct (clear_closes _ _ _ Hc) as [-> Ho].
  unfold sbind at 1. unfold delete_hw_key. destruct (on_storage (round_trip ()) _) as [y w2] eqn:Hd.
  apply on_storage_inv in Hd as (r2 & Hd & ->). apply round_trip_contents in Hd as [Hd Hy]. cbn in Hd.
  assert (∀ w3, w_registration w3 = None → contents (ph_device (w_phone w3)) = contents r1 → ph_account (w_phone w3) = account_log w →
    ph_peer (w_phone w3) = ph_peer (w_phone w) → cleared w (lock_state (set_disclosure_session None (set_issuance_session None w3)))) as Hcl.
  { intros w3 Hw3 Hdev Hacc Hpeer. destruct (lock_state_inv (set_disclosure_session None (set_issuance_session None w3))) as (? & Hp & Hreg & Hi & Hdi).
    split; unfold device, account_log; rewrite ?Hp, ?Hreg, ?Hi, ?Hdi; cbn; rewrite ?Hdev, ?Hacc, ?Hpeer; try done.
    intros Hok. by eapply storage_clear_ok. }
  destruct Hy as [-> | ->]; unfold sbind, lock, modify; intros [= <- <-]; right; (split; [done|]); (split; [done|]); by apply Hcl.
Qed.

Lemma bind_try_inv {F E A B} (m : ST Wallet E A) (k : outcome E A → ST Wallet F B) w o w' : sbind (st_try m) k w = (o, w') →
  ∃ x w1, m w = (x, w1) ∧ (x = Panic ∧ o = Panic ∧ w' = w1 ∨ x ≠ Panic ∧ k x w1 = (o, w')).
Proof. unfold sbind, st_try. destruct (m w) as [[a|e|] w1]; intros Hw; eexists _, _; (split; [done|]); [right..|left]; by simplify_eq. Qed.

Lemma insert_mdocs_frame ids copy_ids l : uniform l → within frame (on_storage (insert_mdocs ids copy_ids l)).
Proof.
  intros Hu. apply on_storage_frame. eapply changes_keeps; [| |apply insert_mdocs_changes, mdoc_models_no_panic].
  - intros t t' Ht. by apply inserted_mdocs_ok.
  - intros t t' Ht. by rewrite (inserted_mdocs_keyed _ _ _ _ _ Ht).
Qed.

(** Accepting an issuance may end in a reset. *)
Definition frame_or_reset w w' : Prop :=
  issuance_ok w → frame w w' ∨ ∃ w1, frame w w1 ∧ cleared w1 w'.
Lemma accept_pid_issuance_guarded x pin : guarded frame_or_reset (accept_pid_issuance prof config x pin).
Proof.
  apply guarded_registration. intros w r o w' Hr Hk Hok.
  apply bind_lift_inv in Hk as [(s & Hs & Hk)|[(? & _ & _ & ->)|(_ & _ & ->)]]; [|by left..].
  assert (w_issuance_session w = Some (PidOpenid4vci s)) as Hsession by (destruct (w_issuance_session w) as [[?|?]|]; [done|congruence|done]).
  apply bind_try_inv in Hk as (res & w1 & Hacc & Hk). pose proof Hacc as Hframe. apply (within_map_err frame) in Hframe; [|solve_within].
  destruct Hk as [(_ & _ & ->)|[Hnp Hk]]; [by left|]. destruct res as [mdocs|e|]; [| |done].
  - left. unfold st_map_err, on_phone in Hacc. destruct (accept_issuance _ _ _ _ _ _ _ _) as [y q] eqn:Hy. injection Hacc as Hacc _.
    apply map_err_Ok in Hacc as ->. apply (accepted_uniform _ _ _ _ _ _ _ _ _ _ (Hok _ Hsession)) in Hy.
    pose proof (insert_mdocs_frame (id_mdoc_ids x) (id_copy_ids x) mdocs Hy) as Hins. etrans; [exact Hframe|].
    unfold sbind at 1, sret in Hk. unfold sbind at 1, st_lift in Hk.
    match type of Hk with ?m w1 = _ => assert (within frame m) as Hm by solve_within end. by apply Hm in Hk.
  - assert (∀ (o : outcome PidIssuanceError unit) w', (let! _ := sret () in let! mdocs := st_lift (Err e) in
      let! _ := modify (set_issuance_session None) in let! event := st_lift (issuance_event (id_event x) mdocs) in
      let! _ := st_map_err PMdocStorage (on_storage (insert_mdocs (id_mdoc_ids x) (id_copy_ids x) mdocs)) in
      let! _ := st_map_err PEventStorage (store_history_event (ne_draws (id_event x)) event) in
      st_map_err PDocument emit_documents) w1 = (o, w') → w' = w1) as Hend by (by intros ?? [= _ <-]).
    destruct e; try (apply Hend in Hk as ->; by left).
    destruct (is_pin_timeout e); [|apply Hend in Hk as ->; by left].
    unfold sbind at 1 in Hk. unfold sbind at 1 in Hk. destruct (reset_to_initial_state w1) as [y w2] eqn:Hreset.
    apply reset_inv in Hreset as [(_ & -> & ->)|(_ & -> & Hcl)]; unfold sret, st_lift, sbind in Hk; injection Hk as _ <-; [by left|]. eauto.
Qed.


(** ** The invariant *)
Record wallet_ok w : Prop := {
  wo_unregistered : w_registration w = None →
    w_is_locked w = true ∧ w_issuance_session w = None ∧ w_disclosure_session w = None;
  wo_registered r : w_registration w = Some r →
    w_hw_store w = Some (wr_hw_privkey r) ∧ is_open (device w) = true ∧
    ∃ j, stored_registration (device w) = Some j ∧ data_from_value j = Some (wr_data r);
  wo_keys : is_open (device w) = true → keys_match (device w);
  wo_device : device_ok (device w);
  wo_previews : issuance_ok w
}.

Lemma frame_ok w w' : wallet_ok w → is_Some (w_registration w) → frame w w' → wallet_ok w'.
Proof.
  intros [Hu Hr Hk Hd Hp] [r Hreg] [Hfr Hhw Hdev Hprev]. pose proof (kp_open _ _ Hdev) as Ho. split.
  - by rewrite Hfr, Hreg.
  - intros r' Hr'. rewrite Hfr in Hr'. destruct (Hr _ Hr') as (? & ? & ?). rewrite Hhw, Ho, (kp_registration _ _ Hdev). done.
  - rewrite Ho. intros ?. by eapply keeps_keys_match, Hk.
  - by apply Hdev.
  - auto.
Qed.
Lemma calm_ok w w' : wallet_ok w → calm w w' → wallet_ok w'.
Proof.
  intros [Hu Hr Hk Hd Hp] [Hdev _ _ Hhw Hi Hdi Hl Hreg]. split; rewrite ?Hdev, ?Hhw, ?Hi, ?Hdi, ?Hl, ?Hreg; try done.
  unfold issuance_ok. by rewrite Hi.
Qed.
Lemma cleared_ok w w' : device_ok (device w) → cleared w w' → wallet_ok w'.
Proof.
  intros Hd [Hr [Hi Hdi] Hl Ho Hok _ _]. split; [done|by rewrite Hr|by rewrite Ho|by apply Hok|]. unfold issuance_ok. by rewrite Hi.
Qed.
Lemma guarded_ok {E A} (m : ST Wallet E A) w o w' : guarded frame m → m w = (o, w') → wallet_ok w → wallet_ok w'.
Proof. intros Hg [[-> _]|(Hr & _ & Hf)]%Hg Hok; [done|]. by eapply frame_ok. Qed.
Lemma guarded_reset_ok {E A} (m : ST Wallet E A) w o w' : guarded frame_or_reset m → m w = (o, w') → wallet_ok w → wallet_ok w'.
Proof.
  intros Hg [[-> _]|(Hr & _ & Hf)]%Hg Hok; [done|]. destruct (Hf (wo_previews _ Hok)) as [?|(w1 & Hw1 & Hcl)]; [by eapply frame_ok|].
  eapply cleared_ok; [|done]. eapply wo_device, frame_ok; done.
Qed.

(** *** Locking, unlocking and registering *)

Lemma unlock_state_inv w : w_is_locked (unlock_state w) = false ∧ frame w (unlock_state w) ∧ w_phone (unlock_state w) = w_phone w ∧
  w_issuance_session (unlock_state w) = w_issuance_session w ∧ w_disclosure_session (unlock_state w) = w_disclosure_session w.
Proof.
  unfold unlock_state, call_update_callback. destruct (w_is_locked w) eqn:Hl; [|done]. cbn. destruct (w_lock_callback w); by split_and!; [|split|..].
Qed.
Lemma lock_ok w : wallet_ok w → wallet_ok (lock_state w).
Proof.
  intros Hok. destruct (w_registration w) as [r|] eqn:Hr.
  - eapply frame_ok; [done|by rewrite Hr|]. by eapply (lock_frame (E:=unit)).
  - unfold lock_state. destruct (wo_unregistered _ Hok Hr) as [-> _]. done.
Qed.
Lemma reset_ok w o w' : reset w = (o, w') → wallet_ok w → wallet_ok w'.
Proof.
  unfold reset. intros Hr Hok. apply st_bind_inv in Hr as Hr'.
  assert (∃ x, reset_to_initial_state (E:=ResetError) w = (x, w')) as [x Hx].
  { destruct Hr' as [(b & w1 & Hb & Hk)|[(e & ? & _)|[? _]]]; [|eauto..]. unfold st_lift in Hk. injection Hk as _ <-. eauto. }
  apply reset_inv in Hx as [(_ & -> & _)|(_ & _ & Hcl)]; [done|]. eapply cleared_ok, Hcl. apply Hok.
Qed.

Lemma bind_on_phone {E F A B} (g : E → F) (m : ST (Phone Peers) E A) (k : A → ST Wallet F B) w o w' :
  sbind (st_map_err g (on_phone m)) k w = (o, w') → ∃ x p, m (w_phone w) = (x, p) ∧
    match x with
    | Ok a => k a (set_phone p w) = (o, w')
    | Err e => o = Err (g e) ∧ w' = set_phone p w
    | Panic => o = Panic ∧ w' = set_phone p w
    end.
Proof.
  unfold sbind, st_map_err, on_phone. destruct (m (w_phone w)) as [[a|e|] p]; cbn; intros He; eexists _, _; (split; [done|]); by simplify_eq/=.
Qed.

Lemma unlock_inv clock pin w o w' : unlock prof config clock pin w = (o, w') →
  (w' = w ∧ ∃ e, o = Err e) ∨
  ∃ r x p, w_registration w = Some r ∧ w_is_locked w = true ∧
    send (I:=CheckPin) (R:=unit) prof clock (instruction_client config r pin) mkCheckPin (w_phone w) = (x, p) ∧
    match x with
    | Ok _ => o = Ok tt ∧ w' = unlock_state (set_phone p w)
    | Err e => o = Err (UnlockInstruction e) ∧ w' = set_phone p w
    | Panic => o = Panic ∧ w' = set_phone p w
    end.
Proof.
  unfold unlock, st_get. unfold sbind at 1. intros Hr.
  apply bind_lift_inv in Hr as [(r & Hreg%ok_or_Ok & Hr)|[(e & _ & -> & ->)|(Hp & _)]]; [|by eauto|by destruct (w_registration w)].
  apply bind_lift_inv in Hr as [([] & Hl%guard_err_Ok & Hr)|[(e & _ & -> & ->)|(Hp & _)]]; [|by eauto|by destruct (w_is_locked w)].
  apply bind_on_phone in Hr as (x & p & Hs & Hx). right. exists r, x, p. split_and!; [done..|].
  destruct x as [u|e|]; [|done..]. by injection Hx as <- <-.
Qed.
Lemma unlock_ok clock pin w o w' : unlock prof config clock pin w = (o, w') → wallet_ok w → wallet_ok w'.
Proof.
  intros [[-> _]|(r & x & p & Hr & _ & Hs & Hx)]%unlock_inv Hok; [done|].
  assert (frame w (set_phone p w)) as Hf by (split; [done..|exact (send_keeps _ _ _ _ _ _ Hs)|done]).
  assert (wallet_ok (set_phone p w)) as Hok' by (by eapply frame_ok; [done|rewrite Hr|]).
  destruct x as [u|e|]; [|by destruct Hx as [_ ->]..]. destruct Hx as [_ ->].
  eapply frame_ok; [done|by rewrite (fr_registration _ _ Hf), Hr|]. apply unlock_state_inv.
Qed.

Lemma bind_run {S E A B} (m : ST S E A) (k : A → ST S E B) s a s1 : m s = (Ok a, s1) → sbind m k s = k a s1.
Proof. unfold sbind. by intros ->. Qed.
Lemma bind_assoc {S E A B C} (m : ST S E A) (k : A → ST S E B) (l : B → ST S E C) s :
  sbind (sbind m k) l s = sbind m (λ a, sbind (k a) l) s.
Proof. unfold sbind. by destruct (m s) as [[]]. Qed.
Lemma hardware_same {E A} (e : E) (m : outcome E A) p x p' : hardware e m p = (x, p') →
  contents (ph_device p') = contents (ph_device p) ∧ ph_peer p' = ph_peer p ∧ (x = Err e ∨ x = m).
Proof.
  unfold hardware, on_device, sbind, st_lift. destruct (round_trip e (ph_device p)) as [y r] eqn:Hr.
  apply round_trip_contents in Hr as [Hc [-> | ->]]; intros [= <- <-]; eauto.
Qed.

(** Opening the database if need be, at registration. *)
Definition ensure_open (x : RegisterDraws) : ST Wallet WalletRegistrationError unit :=
  let! state := st_map_err StoreCertificate (on_storage storage_state) in
  match state with
  | Opened => sret tt
  | _ => st_map_err StoreCertificate (on_storage (storage_open (rd_encryption_key x) (rd_database_key x)))
  end.
(** What registration does once the certificate is known to be good. *)
Definition store_certificate (x : RegisterDraws) (key : SigningKey) (data : RegistrationData) : ST Wallet WalletRegistrationError unit :=
  let! _ := ensure_open x in
  let! _ := st_map_err StoreCertificate (on_storage (insert_data data)) in
  let! _ := modify (set_registration (Some (mkWalletRegistration _ key data))) in
  modify unlock_state.

Lemma wallet_register_inv x pin w o w' : register prof config x pin w = (o, w') →
  (w' = w ∧ is_ok o = false) ∨
  w_registration w = None ∧ ∃ p, contents (ph_device p) = device w ∧ ph_peer p = ph_peer (w_phone w) ∧
    let key := default (rd_hw_key x) (w_hw_store w) in
    let w1 := set_phone p (set_hw_store (Some key) w) in
    (is_ok o = false ∧ w' = w1) ∨
    ∃ certificate claims, validate_pin prof pin = Ok tt ∧
      Jwt_parse_and_verify_with_sub (C:=WalletCertificateClaims) (rd_now x) certificate (cf_certificate_public_key config) = Ok claims ∧
      wc_hw_pubkey claims = verifying_key key ∧
      store_certificate x key (mkRegistrationData (rd_pin_salt x) certificate) w1 = (o, w').
Proof.
  unfold register, st_get. unfold sbind at 1. intros Hr.
  apply bind_lift_inv in Hr as [([] & Hg%guard_err_Ok & Hr)|[(e & _ & -> & ->)|(_ & -> & ->)]]; [|by left..].
  assert (w_registration w = None) as Hnone.
  { unfold has_registration in Hg. case_bool_decide as Hs; [done|]. by destruct (w_registration w); [destruct Hs|]. }
  apply bind_lift_inv in Hr as [([] & Hpin%map_err_Ok & Hr)|[(e & _ & -> & ->)|(_ & -> & ->)]]; [|by left..].
  right. split; [done|]. set (key := default (rd_hw_key x) (w_hw_store w)) in *. set (w0 := set_hw_store (Some key) w) in *.
  rewrite (bind_run (hw_privkey (rd_hw_key x)) _ _ key w0) in Hr by done.
  apply bind_on_phone in Hr as (c & p1 & Hc & Hr). unfold exchange in Hc. injection Hc as Hc Hp1.
  assert (contents (ph_device p1) = device w ∧ ph_peer p1 = ph_peer (w_phone w)) as [Hd1 He1] by (by rewrite <- Hp1).
  destruct c as [challenge|e|]; [|by destruct Hr as [-> ->]; eauto 10..].
  destruct (hardware HardwarePublicKey (Ok (verifying_key key)) p1) as [y p2] eqn:Hy.
  unfold on_phone at 1 in Hr. unfold sbind at 1 in Hr. cbn [w_phone set_phone] in Hr. rewrite Hy in Hr. apply hardware_same in Hy as (Hd2 & He2 & Hy).
  destruct Hy as [-> | ->]; [injection Hr as <- <-; exists p2; split_and!; [congruence..|by left]|].
  apply bind_on_phone in Hr as (m & p3 & Hm & Hr). apply hardware_same in Hm as (Hd3 & He3 & _).
  destruct m as [message|e|]; [|by destruct Hr as [-> ->]; exists p3; (split_and!; [cbn in *; congruence..|by left])..].
  apply bind_on_phone in Hr as (c & p4 & Hc4 & Hr). unfold exchange in Hc4. injection Hc4 as Hc4 Hp4.
  assert (contents (ph_device p4) = device w ∧ ph_peer p4 = ph_peer (w_phone w)) as [Hd4 He4] by (rewrite <- Hp4; cbn in *; split; congruence).
  exists p4. split; [done|]. split; [done|].
  destruct c as [certificate|e|]; [|by destruct Hr as [-> ->]; left..].
  apply bind_lift_inv in Hr as [(claims & Hcl%map_err_Ok & Hr)|[(e & _ & -> & ->)|(_ & -> & ->)]]; [|by left..].
  apply bind_lift_inv in Hr as [([] & Hpk%guard_err_Ok & Hr)|[(e & _ & -> & ->)|(_ & -> & ->)]]; [|by left..].
  apply bool_decide_eq_true in Hpk. right. exists certificate, claims. split_and!; [done..|]. rewrite <- Hr. apply bind_assoc.
Qed.

Lemma bind_on_storage {E F A B} (g : E → F) (m : ST (remote Device) E A) (k : A → ST Wallet F B) w o w' :
  sbind (st_map_err g (on_storage m)) k w = (o, w') → ∃ x r, m (ph_device (w_phone w)) = (x, r) ∧
    match x with
    | Ok a => k a (set_storage r w) = (o, w')
    | Err e => o = Err (g e) ∧ w' = set_storage r w
    | Panic => o = Panic ∧ w' = set_storage r w
    end.
Proof.
  intros (x & p & Hm & Hx)%bind_on_phone. unfold on_device in Hm. destruct (m (ph_device (w_phone w))) as [y r]. injection Hm as <- <-. eauto.
Qed.

Lemma storage_state_inv r o r' : storage_state r = (o, r') → contents r' = contents r ∧ o ≠ Panic ∧
  (o = Ok Opened ∧ is_open (contents r) = true ∨ o ≠ Ok Opened ∧ is_open (contents r) = false ∧
   ∀ st, o = Ok st → st = match db_file (contents r) with Some _ => Unopened | None => Uninitialized end).
Proof.
  unfold storage_state, get_device. unfold sbind at 1. destruct (is_open (contents r)) eqn:Ho; [intros [= <- <-]; auto|].
  intros [[-> ->]|(r2 & Hc & Hy)]%bind_round_trip; [split_and!; [done..|]; right; by split_and!|]. unfold sret in Hy. injection Hy as <- <-.
  split_and!; [done..|]. right. split_and!; [by destruct (db_file _)|done|]. by intros ? [= <-].
Qed.
Lemma fetch_data_Ok {D} `{!KeyedData D} r (v : option D) r' : fetch_data r = (Ok v, r') → ∃ t, open_tables (contents r) = Some t ∧
  match v with
  | None => keyed_data t !! KEY (D:=D) = None
  | Some x => ∃ j, keyed_data t !! KEY (D:=D) = Some j ∧ data_from_value j = Some x
  end.
Proof.
  intros [(e & _ & [=] & _)|(t & Ht & Hr)]%bind_database. exists t. split; [done|].
  apply bind_on_tables in Hr as [[_ [[e [=]]|[_ [=]]]]|(m & r1 & [= <-] & _ & Hr)].
  destruct (keyed_data t !! KEY) as [j|]; [|by injection Hr as <- _].
  apply bind_st_lift in Hr as [[_ [[e [=]]|[_ [=]]]]|(x & Hx%ok_or_Ok & [= <- _])]. eauto.
Qed.

Lemma ensure_open_inv x w o w' : ensure_open x w = (o, w') → ∃ r, w' = set_storage r w ∧ o ≠ Panic ∧
  (device_ok (device w) → device_ok (contents r)) ∧
  ((is_open (device w) = true → keys_match (device w)) → is_open (contents r) = true → keys_match (contents r)) ∧
  (o = Ok tt → is_open (contents r) = true).
Proof.
  intros (y & r1 & (Hc & Hnp & Hst)%storage_state_inv & Hk)%bind_on_storage.
  destruct y as [state|e|]; [|destruct Hk as [-> ->]; exists r1; rewrite Hc; by split_and!|done].
  destruct Hst as [[[= ->] Ho]|(Hne & Ho & _)].
  - unfold sret in Hk. injection Hk as <- <-. exists r1. rewrite Hc. by split_and!.
  - assert (st_map_err StoreCertificate (on_storage (storage_open (rd_encryption_key x) (rd_database_key x))) (set_storage r1 w) = (o, w')) as Hk'
      by (destruct state; [done..|by destruct Hne]).
    unfold st_map_err in Hk'. destruct (on_storage _ _) as [y w2] eqn:Hy. injection Hk' as <- <-.
    apply on_storage_inv in Hy as (r2 & Hy & ->). exists r2. split; [done|]. apply storage_open_inv in Hy; [|by rewrite <- Ho; cbn; rewrite Hc].
    cbn in Hy. rewrite Hc in Hy. destruct Hy as (Hok & _ & [(-> & ? & ?)|[[e ->] Hcl]]); [by split_and!|]. split_and!; try done; congruence.
Qed.

Lemma store_certificate_ok x key data w o w' : store_certificate x key data w = (o, w') →
  wallet_ok w → w_registration w = None → w_hw_store w = Some key → wallet_ok w'.
Proof.
  intros Hr [Hu Hreg Hk Hd Hp] Hnone Hhw. destruct (Hu Hnone) as (Hl & Hi & Hdi).
  assert (∀ r, device_ok (contents r) → (is_open (contents r) = true → keys_match (contents r)) → wallet_ok (set_storage r w)) as Hfail.
  { intros r Hrd Hrk. split; cbn; [done|by rewrite Hnone|done..]. }
  unfold store_certificate in Hr. apply st_bind_inv in Hr as [([] & w1 & He & Hr)|[(e & He & _)|[He _]]];
    apply ensure_open_inv in He as (r1 & -> & _ & Hd1 & Hk1 & Ho1); [|by apply Hfail; auto..].
  specialize (Hd1 Hd). specialize (Hk1 Hk). specialize (Ho1 eq_refl).
  apply bind_on_storage in Hr as (y & r2 & Hins & Hr). cbn in Hins.
  apply insert_data_changes in Hins as [[Hc Hy]|(t & t' & Ht & Hf & Hc & ->)].
  - cbn in Hc. assert (wallet_ok (set_storage r2 w)) as Hok by (apply Hfail; rewrite Hc; done).
    destruct Hy as [[e ->]|[-> _]]; by destruct Hr as [_ ->].
  - unfold modify in Hr. unfold sbind in Hr. injection Hr as _ <-.
    destruct (unlock_state_inv (set_registration (Some (mkWalletRegistration _ key data)) (set_storage r2 w))) as (Hul & Hfr & Hph & Hui & Hud).
    eapply frame_ok; [| |exact Hfr]; [|done].
    apply bind_Ok in Hf as (j & Hj%ok_or_Ok & Hf). destruct (keyed_data t !! KEY (D:=RegistrationData)) eqn:Hold; [done|]. injection Hf as <-.
    cbn in Hc. split; unfold device; cbn [w_phone ph_device set_registration set_storage set_phone w_registration w_hw_store].
    + done.
    + intros r [= <-]. cbn. split; [done|]. split; [by rewrite Hc|]. exists j. split; [|by apply data_round_trip]. rewrite Hc. unfold open_tables in Ht. rewrite Ho1 in Ht.
      unfold stored_registration, with_tables. cbn. destruct (db_file (contents r1)) as [[k t0]|]; [|done]. injection Ht as ->. cbn. by rewrite lookup_insert_eq.
    + intros _. rewrite Hc. by apply with_keys_match, Hk1.
    + rewrite Hc. eapply device_ok_with, Hd1. apply set_keyed_ok. exact (device_ok_open _ _ Hd1 Ht).
    + unfold issuance_ok. cbn. by rewrite Hi.
Qed.
Lemma register_ok x pin w o w' : register prof config x pin w = (o, w') → wallet_ok w → wallet_ok w'.
Proof.
  intros [[-> _]|(Hnone & p & Hd & _ & Hr)]%wallet_register_inv Hok; [done|]. cbn zeta in Hr. set (w1 := set_phone p _) in Hr.
  assert (wallet_ok w1) as Hok1.
  { destruct Hok as [Hu Hreg Hk Hdok Hp]. unfold w1. split; unfold device; cbn; rewrite ?Hd, ?Hnone; try done. intros _. by apply Hu. }
  destruct Hr as [[_ ->]|(certificate & claims & _ & _ & _ & Hs)]; [done|]. by eapply store_certificate_ok.
Qed.

(** ** Starting *)

(** The end of the process closes the database. *)
Definition close_device d : Device := mkDevice _ false (db_file d) (key_file d) (key_store d).
Definition exit_process p : Phone Peers :=
  mkPhone (Prelude.Remote (close_device (contents (ph_device p))) (faults (ph_device p))) (ph_account p) (ph_peer p).
(** Starting the app, which is tried again when it fails. *)
Inductive started (hw_store : option SigningKey) : Phone Peers → Wallet → Prop :=
  | started_first new_hw_key new_key random p w p' :
      init_registration new_hw_key new_key random p hw_store = (Ok w, p') → started hw_store p w
  | started_again new_hw_key new_key random p o p' w :
      init_registration new_hw_key new_key random p hw_store = (o, p') → is_ok o = false →
      started hw_store (exit_process p') w → started hw_store p w.

(** Opening the database and reading the registration. *)
Lemma fetch_registration_inv nk random r o r' : fetch_registration nk random r = (o, r') → is_open (contents r) = false →
  device_ok (contents r) → device_ok (contents r') ∧ o ≠ Panic ∧
  (keys_match (contents r) → keys_match (contents r') ∧ stored_registration (contents r') = stored_registration (contents r)) ∧
  (is_open (contents r') = true → keys_match (contents r')) ∧
  ∀ v, o = Ok v →
    (db_file (contents r) = None ∧ v = None ∧ is_open (contents r') = false) ∨
    is_open (contents r') = true ∧ ∃ t, open_tables (contents r') = Some t ∧
      match v with
      | None => keyed_data t !! KEY (D:=RegistrationData) = None
      | Some x => ∃ j, keyed_data t !! KEY (D:=RegistrationData) = Some j ∧ data_from_value j = Some x
      end.
Proof.
  intros Hr Ho Hd. unfold fetch_registration in Hr. destruct (storage_state r) as [st r1] eqn:Hst.
  assert (sbind storage_state (λ state, match state with Uninitialized => sret None | Unopened => let! _ := storage_open nk random in fetch_data | Opened => fetch_data end) r = (o, r')) as Hr' by exact Hr.
  unfold sbind at 1 in Hr'. rewrite Hst in Hr'. clear Hr. apply storage_state_inv in Hst as (Hc & Hnp & [[-> Hop]|(_ & _ & Hst)]); [congruence|].
  rewrite <- Hc in *. clear Hc r. destruct st as [st|e|]; [|injection Hr' as <- <-; split_and!; done || congruence|done].
  rewrite (Hst _ eq_refl) in Hr'. clear Hst. destruct (db_file (contents r1)) as [f|] eqn:Hdb.
  2:{ unfold sret in Hr'. injection Hr' as <- <-. split_and!; try done || congruence. intros v [= <-]. by left. }
  apply st_bind_inv in Hr' as [([] & r2 & Hop & Hr)|[(e & Hop & ->)|[Hop ->]]];
    apply storage_open_inv in Hop as (Hd2 & Hk2 & Hres); try done.
  - destruct Hres as [(_ & Ho2 & Hkm)|[[e [=]] _]]. destruct (fetch_data_quiet _ _ _ Hr) as [Hc Hp]. rewrite Hc. split_and!; [by auto|done| |done|].
    + intros (? & Hf)%Hk2. split; [done|]. unfold stored_registration. by rewrite Hf, Hdb.
    + intros v ->. right. split; [done|]. by apply fetch_data_Ok in Hr.
  - destruct Hres as [([=] & _)|[_ Ho2]]. split_and!; [by auto|done| |congruence|done].
    intros (? & Hf)%Hk2. split; [done|]. unfold stored_registration. by rewrite Hf, Hdb.
  - by destruct Hres as [([=] & _)|[[e [=]] _]].
Qed.

(** The device of a phone whose process has ended. *)
Definition off p : Prop := is_open (contents (ph_device p)) = false ∧ device_ok (contents (ph_device p)).
Lemma exit_off p : device_ok (contents (ph_device p)) → off (exit_process p).
Proof. intros Hd. split; [done|]. by apply device_ok_closed. Qed.

Lemma init_inv nh nk random p hw o p' : init_registration nh nk random p hw = (o, p') → off p →
  device_ok (contents (ph_device p')) ∧ ph_account p' = ph_account p ∧ ph_peer p' = ph_peer p ∧
  (keys_match (contents (ph_device p)) → keys_match (contents (ph_device p')) ∧
     stored_registration (contents (ph_device p')) = stored_registration (contents (ph_device p))) ∧
  ∀ w, o = Ok w → wallet_ok w ∧ w_phone w = p' ∧ w_is_locked w = true ∧ w_issuance_session w = None ∧ w_disclosure_session w = None ∧
    (w_registration w = None → db_file (contents (ph_device p)) = None ∨ stored_registration (contents (ph_device p')) = None) ∧
    ∀ r, w_registration w = Some r → wr_hw_privkey r = default nh hw ∧
      ∃ j, stored_registration (contents (ph_device p')) = Some j ∧ data_from_value j = Some (wr_data r).
Proof.
  unfold init_registration, on_device. destruct (fetch_registration nk random (ph_device p)) as [x r] eqn:Hf. intros Hr [Ho Hd]. injection Hr as <- <-.
  apply (fetch_registration_inv _ _ _ _ _ Hf Ho) in Hd as (Hd & Hnp & Hkeep & Hkm & Hv). cbn. split_and!; [done..|].
  intros w (v & -> & [= <-])%bind_Ok. specialize (Hv v eq_refl).
  assert (is_open (contents r) = true → ∀ t, open_tables (contents r) = Some t →
    stored_registration (contents r) = keyed_data t !! KEY (D:=RegistrationData)) as Hstored.
  { intros Hop t. unfold open_tables, stored_registration. rewrite Hop. destruct (db_file (contents r)) as [[k t']|]; [|done]. by intros [= ->]. }
  split.
  - split; unfold device; cbn; [done| |done|done|done]. intros rg. destruct v as [data|]; [|done]. cbn. intros [= <-]. cbn. split; [done|].
    destruct Hv as [(_ & [=] & _)|(Hop & t & Ht & j & Hj & Hdata)]. split; [done|]. exists j. by rewrite (Hstored Hop t Ht).
  - cbn. split_and!; [done..| |].
    + destruct v as [data|]; [done|]. intros _. destruct Hv as [(? & _)|(Hop & t & Ht & Hn)]; [by left|right]. by rewrite (Hstored Hop t Ht).
    + intros rg. destruct v as [data|]; [|done]. cbn. intros [= <-]. cbn. split; [done|].
      destruct Hv as [(_ & [=] & _)|(Hop & t & Ht & j & Hj & Hdata)]. exists j. by rewrite (Hstored Hop t Ht).
Qed.

Lemma started_inv hw p w : started hw p w → off p →
  wallet_ok w ∧ w_is_locked w = true ∧ w_issuance_session w = None ∧ w_disclosure_session w = None ∧
  account_log w = ph_account p ∧ ph_peer (w_phone w) = ph_peer p ∧
  ∀ key j data, hw = Some key → keys_match (contents (ph_device p)) →
    stored_registration (contents (ph_device p)) = Some j → data_from_value j = Some data →
    w_registration w = Some (mkWalletRegistration _ key data).
Proof.
  induction 1 as [nh nk random p w p' Hi|nh nk random p o p' w Hi Herr _ IH]; intros Hoff.
  - apply init_inv in Hi as (_ & Ha & Hp & Hkeep & Hw); [|done]. destruct (Hw w eq_refl) as (Hok & Hph & Hl & Hiss & Hdis & Hnone & Hsome).
    unfold account_log. rewrite Hph. split_and!; [done..|]. intros key j data -> (Hkm & Hst)%Hkeep Hj Hdata.
    destruct (w_registration w) as [[k dt]|] eqn:Hr.
    + destruct (Hsome _ eq_refl) as (Hk & j' & Hj' & Hdt). cbn in *. congruence.
    + destruct (Hnone eq_refl) as [Hdb|Hn]; [|congruence]. unfold stored_registration in Hj. by rewrite Hdb in Hj.
  - apply init_inv in Hi as (Hd & Ha & Hp & Hkeep & _); [|done]. destruct IH as (? & ? & ? & ? & Ha' & Hp' & Hreg); [by apply exit_off|].
    cbn in Ha', Hp', Hreg. rewrite Ha', Hp', Ha, Hp. split_and!; [done..|]. intros key j data Hk (Hkm & Hst)%Hkeep Hj Hdata.
    eapply Hreg; [done|exact Hkm| |done]. by rewrite <- Hj, <- Hst.
Qed.
End Wallets.
