(* ===== verification/WalletRuns.v ===== *)
(** * Runs of the wallet app

    The wallet as a transition system: its operations, and the end and start of
    its process.  The theorems say what holds in every reachable state, what a
    restart restores, and what a locked wallet does. *)
From stdpp Require Import base gmap strings list option relations.
From Stdlib Require Import ZArith Lia.
From S2P Require Import Prelude IndexMap SessionStore Crypto Jose Cbor Cose Engagement Mdoc MdocSigning Holder Document.
From S2P Require Import Protocol PresentationExchange OpenId4vp Verifier DisclosureSession Issuer PinPolicy Signed WalletUsers AccountServer.
From S2P Require Import AccountClient PinValidation WalletStorage WalletStorageFacts InstructionClient InstructionFacts IssuanceSession IssuanceSessionFacts WalletSessions.
From S2P Require Import WalletApp WalletFlows WalletFrames WalletAppFacts.

Section Runs.
Context `{!NaiveDateLib, !DigidSession, !Ecdsa, !X509Lib, !RegistrationLib, !Sqlite, !StorageCodec, !PlatformKeys, !Josekit}.
Context `{!PinKeyLib, !AccountProviderClient, !KeyedData InstructionData, !JwtLib InstructionChallengeRequestClaims}.
Context `{!SignedJson GenerateKey, !SignedJson Sign, !JwtLib (InstructionResultClaims GenerateKeyResult), !JwtLib (InstructionResultClaims SignResult)}.
Context `{!Coset, !Ciborium, !Sha256, !Chrono, !UrlLib, !MacLib, !Base64Std, !ResponseJson}.
Context `{!JwtLib VpAuthorizationRequest, !VerifierLib, !WalletUrlLib, !VpMessageClient}.
Context `{!Base64, !JwtLib DpopPayload, !JwtLib CredentialRequestProofJwtPayload, !VcMessageClient RemoteEcdsaKeyError}.
Context `{!JwtLib WalletCertificateClaims, !SignedJson Registration, !KeyedData RegistrationData}.
Context `{!SignedJson CheckPin, !JwtLib (InstructionResultClaims unit)}.
Variable prof : profile.
Variable config : WalletConfiguration.
Variable show : VpClientError → string.
Hypothesis KEY_different : KEY (D:=InstructionData) ≠ KEY (D:=RegistrationData).
Hypothesis H_previews : ∀ log url request dpop r,
  answer_token (EK:=RemoteEcdsaKeyError) log url request dpop = Ok r → valid_previews (attestation_previews r.1).
Implicit Types (w : Wallet) (p : Phone Peers) (d : Device).

(** ** Operations *)

(** The operations that need an unlocked wallet. *)
Inductive secured : ∀ {E A}, ST Wallet E A → Prop :=
  | sec_history : secured get_history
  | sec_history_for_card dt : secured (get_history_for_card dt)
  | sec_start_disclosure now rnd uri source : secured (start_disclosure config show now rnd uri source)
  | sec_has_disclosure : secured has_active_disclosure_session
  | sec_cancel_disclosure e : secured (cancel_disclosure e)
  | sec_accept_disclosure x pin : secured (accept_disclosure prof config x pin)
  | sec_create_pid_issuance random : secured (create_pid_issuance_auth_url random)
  | sec_has_issuance : secured has_active_pid_issuance_session
  | sec_cancel_pid_issuance random now : secured (cancel_pid_issuance random now)
  | sec_continue_pid_issuance random now time key uri : secured (continue_pid_issuance config random now time key uri)
  | sec_accept_pid_issuance x pin : secured (accept_pid_issuance prof config x pin).
(** Those that do not. *)
Inductive unsecured : ∀ {E A}, ST Wallet E A → Prop :=
  | uns_lock : unsecured (lock (E:=Empty_set))
  | uns_set_lock_callback c : unsecured (set_lock_callback (E:=Empty_set) c)
  | uns_clear_lock_callback : unsecured (clear_lock_callback (E:=Empty_set))
  | uns_set_documents_callback c : unsecured (set_documents_callback c)
  | uns_clear_documents_callback : unsecured (clear_documents_callback (E:=Empty_set))
  | uns_set_recent_history_callback now c : unsecured (set_recent_history_callback now c)
  | uns_clear_recent_history_callback : unsecured (clear_recent_history_callback (E:=Empty_set))
  | uns_reset : unsecured reset.
Inductive wallet_op : ∀ {E A}, ST Wallet E A → Prop :=
  | op_secured {E A} (m : ST Wallet E A) : secured m → wallet_op m
  | op_unsecured {E A} (m : ST Wallet E A) : unsecured m → wallet_op m
  | op_register x pin : wallet_op (register prof config x pin)
  | op_unlock clock pin : wallet_op (unlock prof config clock pin).

Inductive wallet_step : Wallet → Wallet → Prop :=
  | step_op {E A} (m : ST Wallet E A) w o w' : wallet_op m → m w = (o, w') → wallet_step w w'
  | step_restart_app w w' : started (w_hw_store w) (exit_process (w_phone w)) w' → wallet_step w w'.
Definition fresh_phone (fs : list bool) : Phone Peers := mkPhone (Prelude.Remote fresh_device fs) [] (mkPeers [] []).
Definition reachable (fs : list bool) w : Prop := ∃ w0, started None (fresh_phone fs) w0 ∧ rtc wallet_step w0 w.

Lemma secured_guarded {E A} (m : ST Wallet E A) : secured m → guarded frame_or_reset m.
Proof.
  assert (∀ F B (n : ST Wallet F B), guarded frame n → guarded frame_or_reset n) as Hf by (intros F B n; apply guarded_impl; by left).
  assert (∀ F B (n : ST Wallet F B), guarded calm n → guarded frame_or_reset n) as Hc by (intros F B n Hn; eapply Hf, guarded_impl, Hn; apply calm_frame).
  destruct 1.
  - apply Hc, get_history_guarded, quiet_same, fetch_events_quiet.
  - apply Hc, get_history_guarded, quiet_same, fetch_events_quiet.
  - apply Hf, start_disclosure_guarded.
  - apply Hc, has_active_disclosure_guarded.
  - apply Hf, cancel_disclosure_guarded.
  - by apply Hf, accept_disclosure_guarded.
  - apply Hf, create_pid_issuance_guarded.
  - apply Hc, has_active_issuance_guarded.
  - apply Hf, cancel_pid_issuance_guarded.
  - by apply Hf, continue_pid_issuance_guarded.
  - by apply accept_pid_issuance_guarded.
Qed.

Lemma callbacks_calm {E} f : (∀ w, calm w (f w)) → within calm (modify (E:=E) f).
Proof. apply within_modify. Qed.
Lemma unsecured_inv {E A} (m : ST Wallet E A) w o w' : unsecured m → m w = (o, w') →
  calm w w' ∨ w' = lock_state w ∨ ∃ x, reset w = (x, w').
Proof.
  assert (∀ F B (n : ST Wallet F B) v x v', within calm n → n v = (x, v') → calm v v' ∨ v' = lock_state v ∨ ∃ x, reset v = (x, v')) as Hcalm
    by (intros F B n v x v' Hn Hv; left; by eapply Hn).
  pose proof (emit_documents_calm). pose proof emit_recent_history_calm.
  destruct 1; intros Hw.
  - injection Hw as _ <-. auto.
  - eapply Hcalm, Hw. intros v x v' [= _ <-]. by split.
  - eapply Hcalm, Hw. intros v x v' [= _ <-]. by split.
  - eapply Hcalm, Hw. apply within_bind; [apply _|solve_within|intros v]. apply within_bind; [apply _|by apply callbacks_calm; split|].
    intros _. solve_within.
  - eapply Hcalm, Hw. intros v x v' [= _ <-]. by split.
  - eapply Hcalm, Hw. apply within_bind; [apply _|solve_within|intros v]. apply within_bind; [apply _|by apply callbacks_calm; split|].
    intros _. solve_within.
  - eapply Hcalm, Hw. intros v x v' [= _ <-]. by split.
  - eauto.
Qed.

Lemma wallet_op_ok {E A} (m : ST Wallet E A) w o w' : wallet_op m → m w = (o, w') → wallet_ok w → wallet_ok w'.
Proof.
  destruct 1 as [E A m Hm|E A m Hm|x pin|clock pin]; intros Hw Hok.
  - eapply guarded_reset_ok; [by apply secured_guarded|done..].
  - destruct (unsecured_inv _ _ _ _ Hm Hw) as [?|[-> |[x Hx]]]; [by eapply calm_ok|by apply lock_ok|by eapply reset_ok].
  - by eapply register_ok.
  - by eapply unlock_ok.
Qed.
Lemma wallet_step_ok w w' : wallet_step w w' → wallet_ok w → wallet_ok w'.
Proof.
  destruct 1 as [E A m w o w' Hm Hw|w w' Hs]; intros Hok; [by eapply wallet_op_ok|].
  eapply started_inv; [done|]. apply exit_off, Hok.
Qed.
Lemma reachable_ok fs w : reachable fs w → wallet_ok w.
Proof.
  intros (w0 & Hs & Hrun). assert (wallet_ok w0) as Hok.
  { eapply started_inv; [done|]. split; [done|]. by split. }
  clear Hs. induction Hrun as [|w0 w1 w2 Hstep _ IH]; [done|]. by eapply IH, wallet_step_ok.
Qed.

(** C14. Invariant of the wallet: in every state that it reaches - whatever its
    operations are called with, whatever the other parties answer, whichever
    calls on the device fail, and whenever the process ends and starts again -
    a wallet without registration is locked and has no session; the database of a
    registered wallet is open, can be opened again with the keys on the device
    and holds the registration, whose hardware key is in the key store; and the
    tables of the database are well-formed. *)
Theorem wallet_invariant fs w : reachable fs w →
  (w_registration w = None → w_is_locked w = true ∧ w_issuance_session w = None ∧ w_disclosure_session w = None) ∧
  (∀ r, w_registration w = Some r →
     w_hw_store w = Some (wr_hw_privkey r) ∧ is_open (device w) = true ∧ keys_match (device w) ∧
     ∃ j, stored_registration (device w) = Some j ∧ data_from_value j = Some (wr_data r)) ∧
  (∀ k t, db_file (device w) = Some (k, t) → tables_ok t).
Proof.
  intros [Hu Hr Hk [Hd _] _]%reachable_ok. split_and!; [done| |done]. intros r Hreg. destruct (Hr r Hreg) as (? & Ho & ?). auto.
Qed.

(** C37. Restarting: when the process of a registered wallet ends, at any point of
    any run, and the app is started again, after any number of starts that fail,
    then it is registered with the same key and data, locked, and without
    sessions; and a start during which the device does not fail succeeds. *)
Theorem restart_restores_registration fs w r : reachable fs w → w_registration w = Some r →
  (∀ w', started (w_hw_store w) (exit_process (w_phone w)) w' →
     w_registration w' = Some r ∧ w_is_locked w' = true ∧ w_issuance_session w' = None ∧ w_disclosure_session w' = None) ∧
  (faults (ph_device (w_phone w)) = [] → ∀ new_hw_key new_key random,
     is_ok (init_registration new_hw_key new_key random (exit_process (w_phone w)) (w_hw_store w)).1 = true).
Proof.
  intros Hok%reachable_ok Hr. destruct (wo_registered _ Hok _ Hr) as (Hhw & Ho & j & Hj & Hdata). pose proof (wo_keys _ Hok Ho) as Hkm. split.
  - intros w' Hs. apply started_inv in Hs as (_ & Hl & Hi & Hd & _ & _ & Hreg); [|apply exit_off, Hok].
    rewrite (Hreg (wr_hw_privkey r) j (wr_data r)); [by destruct r|done..].
  - intros Hf nh nk random. destruct Hkm as (ek & c & b & k & t & Hks & Hkf & Hdec & Hkey & Hdb).
    unfold stored_registration in Hj. rewrite Hdb in Hj. cbn in Hj.
    unfold init_registration, on_device, exit_process, fetch_registration, storage_state, storage_open, get_or_create_key_file, Database_open, fetch_data, database.
    unfold statement, round_trip, sbind, get_device, set_device, set_contents, st_lift, st_map_err, st_throw, sret. unfold device in *. cbn.
    rewrite Hf. cbn. rewrite Hdb. cbn. rewrite Hkf. cbn. rewrite Hks. cbn. rewrite Hdec. cbn. rewrite Hkey. cbn. rewrite Hdb. cbn. rewrite decide_True by done. cbn.
    rewrite Hj. cbn. by rewrite Hdata.
Qed.

(** ** The lock *)

Lemma with_number_Ok {X R} (f : Z → ST (Phone X) AccountError R) q a q' : with_sequence_number prof f q = (Ok a, q') →
  ∃ n q1, f n q1 = (Ok a, q').
Proof.
  unfold with_sequence_number. intros Hr. apply st_bind_inv in Hr as [(v & q1 & _ & Hr)|[(? & _ & [=])|[_ [=]]]].
  apply bind_lift_inv in Hr as [(n & _ & Hr)|[(? & _ & [=] & _)|(_ & [=] & _)]].
  apply st_bind_inv in Hr as [([] & q2 & _ & Hr)|[(? & _ & [=])|[_ [=]]]]. exists n, q2. unfold st_map_err in Hr.
  destruct (f n q2) as [x q3]. injection Hr as Hx ->. by apply map_err_Ok in Hx as ->.
Qed.

(** The account server confirmed an instruction that was signed with the PIN: its
    last message is the instruction, and its answer verifies. *)
Definition confirmed {I R} `{!InstructionEndpoint I R, !SignedJson I, !JwtLib (InstructionResultClaims R)}
    (clock : ClientClock) (c : InstructionClient) (i : I) (log : list AccountMessage) : Prop :=
  ∃ n challenge signed before answer claims,
    new_signed_with_pin i n (ic_hw_privkey c) (mkPinKey (ic_pin c) (pin_salt (ic_registration c))) challenge
      (wallet_certificate (ic_registration c)) = Ok signed ∧
    log = before ++ [MsgInstruction (ENDPOINT (I:=I) (R:=R)) signed] ∧
    answer_instruction before (ic_base_url c) (ENDPOINT (I:=I) (R:=R)) signed = Ok answer ∧
    Jwt_parse_and_verify_with_sub (C:=InstructionResultClaims R) (cc_result clock) answer (instruction_result_public_key c) = Ok claims.

Lemma send_confirmed {X I R} `{!InstructionEndpoint I R, !SignedJson I, !JwtLib (InstructionResultClaims R)} clock c (i : I) (q : Phone X) res q' :
  send (R:=R) prof clock c i q = (Ok res, q') → confirmed (R:=R) clock c i (ph_account q').
Proof.
  unfold send. intros Hr. apply st_bind_inv in Hr as [(ch & q1 & _ & Hr)|[(? & _ & [=])|[_ [=]]]].
  apply st_bind_inv in Hr as [(signed & q2 & Hs & Hr)|[(? & _ & [=])|[_ [=]]]].
  apply with_number_Ok in Hs as (n & q3 & Hs). apply hardware_inv in Hs as (_ & Ha & _ & [[=]|Hs]).
  unfold exchange, st_map_err in Hr. unfold sbind at 1 in Hr. destruct (answer_instruction _ _ _ _) as [answer|e|] eqn:Hans; [|done..]. cbn in Hr.
  destruct (Jwt_parse_and_verify_with_sub _ _ _) as [claims|e|] eqn:Hcl; [|done..]. cbn in Hr. injection Hr as _ <-. cbn.
  by exists n, ch, signed, (ph_account q2), answer, claims.
Qed.

(** How a wallet gets unlocked. *)
Inductive unlocked_by w w' : Prop :=
  | by_pin r clock pin : w_registration w = Some r → w_registration w' = Some r →
      confirmed (R:=unit) clock (instruction_client config r pin) mkCheckPin (account_log w') → unlocked_by w w'
  | by_registration r pin now claims : w_registration w = None → w_registration w' = Some r → validate_pin prof pin = Ok tt →
      Jwt_parse_and_verify_with_sub (C:=WalletCertificateClaims) now (wallet_certificate (wr_data r)) (cf_certificate_public_key config) = Ok claims →
      wc_hw_pubkey claims = verifying_key (wr_hw_privkey r) → unlocked_by w w'.

Lemma store_certificate_inv x key data w o w' : store_certificate x key data w = (o, w') → w_registration w = None →
  ph_peer (w_phone w') = ph_peer (w_phone w) ∧
  (w_is_locked w' = w_is_locked w ∨ w_registration w' = Some (mkWalletRegistration _ key data)).
Proof.
  intros Hr Hnone. unfold store_certificate in Hr. apply st_bind_inv in Hr as [([] & w1 & He & Hr)|[(e & He & _)|[He _]]];
    apply ensure_open_inv in He as (r1 & -> & _); [|by auto..].
  apply bind_on_storage in Hr as (y & r2 & _ & Hr). destruct y as [[]|e|]; [|by destruct Hr as [_ ->]; auto..].
  unfold modify in Hr. unfold sbind in Hr. injection Hr as _ <-.
  destruct (unlock_state_inv (set_registration (Some (mkWalletRegistration _ key data)) (set_storage r2 (set_storage r1 w)))) as (_ & Hf & -> & _).
  split; [done|]. right. by rewrite (fr_registration _ _ Hf).
Qed.

(** C15. A locked wallet: no operation on sessions or the history does anything but
    fail; the operations that need no unlocked wallet, apart from unlocking and
    registering, leave the database, the keys, the sessions and the registration as
    they are, unless they are the reset; whatever operation is called, neither a
    verifier nor an issuer hears of it; and it is unlocked only when the account server confirms
    an instruction that was signed with the PIN, or by a registration with a PIN
    that is valid and a verified certificate on the hardware key of the wallet. *)
Theorem locked_wallet {E A} (m : ST Wallet E A) w o w' : wallet_op m → m w = (o, w') → w_is_locked w = true →
  (secured m → w' = w ∧ ∃ e, o = Err e) ∧
  (unsecured m → calm w w' ∨ ∃ x, reset w = (x, w')) ∧
  ph_peer (w_phone w') = ph_peer (w_phone w) ∧
  (w_is_locked w' = false → unlocked_by w w').
Proof.
  intros Hop Hw Hl. split.
  { intros Hs. destruct (secured_guarded _ Hs _ _ _ Hw) as [?|(_ & ? & _)]; [done|congruence]. }
  split.
  { intros Hu. destruct (unsecured_inv _ _ _ _ Hu Hw) as [?|[-> |?]]; [by left| |by right]. left. unfold lock_state. by rewrite Hl. }
  destruct Hop as [E A m Hs|E A m Hu|x pin|clock pin].
  - destruct (secured_guarded _ Hs _ _ _ Hw) as [[-> _]|(_ & ? & _)]; [|congruence]. split; [done|congruence].
  - destruct (unsecured_inv _ _ _ _ Hu Hw) as [Hc|[-> |[x Hx]]].
    + split; [apply Hc|]. rewrite (cm_locked _ _ Hc). congruence.
    + unfold lock_state. rewrite Hl. split; [done|congruence].
    + unfold reset in Hx. apply st_bind_inv in Hx as Hx'.
      assert (∃ y, reset_to_initial_state (E:=ResetError) w = (y, w')) as [y Hy].
      { destruct Hx' as [(b & w1 & Hb & Hk)|[(e & ? & _)|[? _]]]; [|eauto..]. unfold st_lift in Hk. injection Hk as _ <-. eauto. }
      apply reset_inv in Hy as [(_ & -> & _)|(_ & _ & Hcl)]; [split; [done|congruence]|]. split; [apply Hcl|]. rewrite (cl_locked _ _ Hcl). done.
  - apply wallet_register_inv in Hw as [[-> _]|(Hnone & p & _ & Hpeer & Hr)]; [split; [done|congruence]|]. cbn zeta in Hr.
    destruct Hr as [[_ ->]|(certificate & claims & Hpin & Hcl & Hkey & Hs)]; [split; [done|cbn; congruence]|].
    apply store_certificate_inv in Hs as [Hp [Hloc|Hreg]]; [| |done]; cbn in Hp.
    + split; [congruence|]. rewrite Hloc. cbn. congruence.
    + split; [congruence|]. intros _. by eapply by_registration; [|exact Hreg|done..].
  - apply unlock_inv in Hw as [[-> _]|(r & x & p & Hr & _ & Hs & Hx)]; [split; [done|congruence]|].
    pose proof (send_sends KEY_different _ _ _ _ _ _ _ Hs) as [_ Hp].
    destruct x as [u|e|]; [|destruct Hx as [_ ->]; split; [done|cbn; congruence]..].
    destruct Hx as [_ ->]. destruct (unlock_state_inv (set_phone p w)) as (_ & Hf & Hph & _). rewrite Hph. split; [done|]. intros _.
    eapply by_pin; [done|by rewrite (fr_registration _ _ Hf)|]. unfold account_log. rewrite Hph. by eapply send_confirmed.
Qed.
End Runs.
