(* ===== verification/WalletDisclosureFacts.v ===== *)
(** * Disclosures by the wallet app

    What accepting a disclosure does to the database and which messages it sends,
    what is left of the wallet after a PIN timeout, and that the wallet as a source
    of mdocs keeps the contract that the disclosure session relies on. *)
From stdpp Require Import base gmap strings list option relations.
From Stdlib Require Import ZArith Lia.
From S2P Require Import Prelude IndexMap SessionStore Crypto Jose Cbor Cose Engagement Mdoc MdocSigning Holder Document.
From S2P Require Import Protocol PresentationExchange OpenId4vp Verifier DisclosureSession Issuer PinPolicy Signed WalletUsers AccountServer.
From S2P Require Import AccountClient PinValidation WalletStorage WalletStorageFacts WalletStorageQueries InstructionClient InstructionFacts.
From S2P Require Import IssuanceSession IssuanceSessionFacts WalletSessions WalletApp WalletFlows WalletFrames WalletAppFacts.

Section Disclosures.
Context `{!NaiveDateLib, !DigidSession, !Ecdsa, !X509Lib, !RegistrationLib, !Sqlite, !StorageCodec, !PlatformKeys, !Josekit}.
Context `{!PinKeyLib, !AccountProviderClient, !KeyedData InstructionData, !JwtLib InstructionChallengeRequestClaims}.
Context `{!SignedJson GenerateKey, !SignedJson Sign, !JwtLib (InstructionResultClaims GenerateKeyResult), !JwtLib (InstructionResultClaims SignResult)}.
Context `{!Coset, !Ciborium, !Sha256, !Chrono, !UrlLib, !MacLib, !Base64Std, !ResponseJson}.
Context `{!JwtLib VpAuthorizationRequest, !VerifierLib, !WalletUrlLib, !VpMessageClient}.
Context `{!Base64, !JwtLib DpopPayload, !JwtLib CredentialRequestProofJwtPayload, !VcMessageClient RemoteEcdsaKeyError}.
Context `{!JwtLib WalletCertificateClaims, !SignedJson Registration, !KeyedData RegistrationData}.
Context `{!SignedJson CheckPin, !JwtLib (InstructionResultClaims unit)}.
Variable prof : profile.
Variable config : WalletConfiguration.
Variable show : VpClientError → string.
Hypothesis KEY_different : KEY (D:=InstructionData) ≠ KEY (D:=RegistrationData).
Implicit Types (w : Wallet) (p : Phone Peers) (d : Device) (t : Tables).

Lemma logged_event_copies ids event t t' : logged_event ids event t = Ok t' →
  mdoc_copies t' = mdoc_copies t ∧ ∃ l, disclosure_events t' = disclosure_events t ++ l.
Proof.
  unfold logged_event. intros (model & _ & (t1 & Ht1 & (t2 & Ht2 & Ht')%bind_Ok)%bind_Ok)%bind_Ok.
  assert (mdoc_copies t1 = mdoc_copies t ∧ ∃ l, disclosure_events t1 = disclosure_events t ++ l) as [<- [l Hl]].
  { destruct model as [m|m]; apply bind_Ok in Ht1 as (rows & Hrows & [= <-]); cbn; (split; [done|]).
    - exists []. by rewrite app_nil_r.
    - apply insert_rows_Ok in Hrows as [-> _]. eauto. }
  assert (mdoc_copies t2 = mdoc_copies t1 ∧ disclosure_events t2 = disclosure_events t1) as [<- Hd2].
  { case_decide; [by injection Ht2 as <-|]. unfold insert_doc_types in Ht2. by apply bind_Ok in Ht2 as (? & _ & [= <-]). }
  rewrite <- Hd2 in Hl. destruct model; (case_decide; [injection Ht' as <-; eauto|apply bind_Ok in Ht' as (? & _ & [= <-]); eauto]).
Qed.

(** ** Messages and tables *)
Definition is_response (m : VpMessage) : bool := match m with SendAuthorizationResponse _ _ => true | _ => false end.
(** The copies stay as they are, disclosures are added to the history, and no
    response is sent. *)
Record no_response w w' : Prop := {
  nr_issuer : issuer_log w' = issuer_log w;
  nr_verifier : ∃ l, verifier_log w' = verifier_log w ++ l ∧ Forall (λ m, is_response m = false) l;
  nr_tables t : open_tables (device w) = Some t → ∃ t' l, open_tables (device w') = Some t' ∧
    mdoc_copies t' = mdoc_copies t ∧ disclosure_events t' = disclosure_events t ++ l
}.
#[global] Instance no_response_preorder : PreOrder no_response.
Proof.
  split.
  - intros w. split; [done|exists []; by rewrite app_nil_r|]. intros t Ht. exists t, []. by rewrite app_nil_r.
  - intros w1 w2 w3 [Hi1 (l1 & Hl1 & Hf1) Ht1] [Hi2 (l2 & Hl2 & Hf2) Ht2]. split; [congruence| |].
    + exists (l1 ++ l2). rewrite Hl2, Hl1, app_assoc. split; [done|]. by apply Forall_app.
    + intros t (t' & k1 & Ht' & Hc1 & Hd1)%Ht1. destruct (Ht2 _ Ht') as (t'' & k2 & Ht'' & Hc2 & Hd2). exists t'', (k1 ++ k2).
      rewrite Hd2, Hd1, app_assoc. split_and!; congruence.
Qed.
Lemma same_no_response w w' : ph_peer (w_phone w') = ph_peer (w_phone w) → device w' = device w → no_response w w'.
Proof.
  unfold verifier_log, issuer_log. intros Hp Hd. split; unfold verifier_log, issuer_log; rewrite ?Hp, ?Hd; [done|exists []; by rewrite app_nil_r|].
  intros t Ht. exists t, []. by rewrite app_nil_r.
Qed.
Lemma calm_no_response w w' : calm w w' → no_response w w'.
Proof. intros Hc. apply same_no_response; apply Hc. Qed.
Lemma storage_no_response {E} f (m : ST (remote Device) StorageError unit) (g : StorageError → E) : changes f m →
  (∀ t t', f t = Ok t' → mdoc_copies t' = mdoc_copies t ∧ ∃ l, disclosure_events t' = disclosure_events t ++ l) →
  within no_response (st_map_err g (on_storage m)).
Proof.
  intros Hch Hf. apply within_map_err. intros w o w' (r & Hr & ->)%on_storage_inv.
  apply Hch in Hr as [[Hc _]|(t0 & t1 & Ht0 & Hft & Hc & _)]; [by apply same_no_response|].
  split; [done|exists []; by rewrite app_nil_r|]. intros t Ht. unfold device in *. cbn. rewrite Hc. assert (t0 = t) as -> by congruence.
  destruct (Hf _ _ Hft) as [? [l ?]]. exists t1, l. split_and!; [by eapply open_with_tables|done..].
Qed.
Lemma store_event_no_response e event : within no_response (store_history_event e event).
Proof.
  apply within_bind; [apply _| |intros _; eapply within_impl, emit_recent_history_calm; apply calm_no_response].
  eapply storage_no_response; [apply log_wallet_event_changes|]. apply logged_event_copies.
Qed.
Lemma set_session_no_response {E} s : within no_response (modify (E:=E) (set_disclosure_session s)).
Proof. apply within_modify. intros w. by apply same_no_response. Qed.
Lemma lock_no_response {E} : within no_response (lock (E:=E)).
Proof. apply within_modify. intros w. destruct (lock_state_inv w) as (_ & Hp & _). apply same_no_response; unfold device; by rewrite Hp. Qed.
Lemma log_error_no_response {E F} (m : ST Wallet E unit) : within no_response m → within no_response (log_error (F:=F) m).
Proof. apply log_error_within. Qed.
Lemma terminate_no_response e s : within no_response (terminate_disclosure_session e s).
Proof.
  apply within_bind; [apply _| |intros _; apply within_map_err, store_event_no_response]. apply within_map_err.
  intros w o w'. unfold with_verifier, on_phone, on_part, session_terminate, client_terminate, send_error, st_map_err, sbind, sret. cbn.
  destruct (answer_error _ _ _); intros [= _ <-]; (split; [done| |intros t Ht; exists t, []; by rewrite app_nil_r]);
    eexists; (split; [done|by repeat constructor]).
Qed.
Hint Resolve store_event_no_response set_session_no_response lock_no_response log_error_no_response terminate_no_response : within.

(** Sessions, lock and registration stay as they are. *)
Definition steady w w' : Prop :=
  w_disclosure_session w' = w_disclosure_session w ∧ w_is_locked w' = w_is_locked w ∧ w_registration w' = w_registration w.
#[global] Instance steady_preorder : PreOrder steady.
Proof. unfold steady. split; [done|]. intros w1 w2 w3 (? & ? & ?) (? & ? & ?). split_and!; congruence. Qed.
Lemma on_phone_steady {E A} (m : ST (Phone Peers) E A) : within steady (on_phone m).
Proof. intros w o w'. unfold on_phone. destruct (m (w_phone w)). by intros [= _ <-]. Qed.
Lemma store_event_steady e event : within steady (store_history_event e event).
Proof.
  apply within_bind; [apply _|apply within_map_err, on_phone_steady|intros _]. eapply within_impl, emit_recent_history_calm.
  intros w w' Hc. split_and!; apply Hc.
Qed.

(** Signing uses instructions only; the response is sent last, if at all. *)
Lemma st_disclose_sends kd client random rnd (x : DisclosureProposal Uuid) p o p' :
  st_disclose (RemoteEcdsaKeyFactory prof kd client) random rnd x p = (o, p') →
  (sends p p' ∧ is_ok o = false) ∨
  ∃ p1 jwe, sends p p1 ∧ p' = set_part (part p1 ++ [SendAuthorizationResponse (iso_response_uri (cd_auth_request (dp_data x))) jwe]) p1 ∧
    ∀ e, o = Err e → ∃ e', disclosure_error e = PlainError e' ∧
      (data_shared e = true ∨ ∃ err, answer_response (part p1) (iso_response_uri (cd_auth_request (dp_data x))) jwe = Err (Http err) ∧ is_connect err = true).
Proof.
  unfold st_disclose. intros Hr.
  assert (within sends (st_map_err (λ e : KeyError RemoteEcdsaKeyError MdocError, before_sharing match e with
      | PlainError e => PlainError (CDeviceResponse e) | SigningError e => SigningError e end)
      (st_from_proposed_documents (RemoteEcdsaKeyFactory (X:=Peers) prof kd client) (proposed_documents x)))) as Hsign.
  { apply within_map_err. unfold st_from_proposed_documents. cbn [kf_sign_multiple_with_existing_keys RemoteEcdsaKeyFactory].
    apply within_bind; [apply _|solve_within|intros kcs]. apply within_bind; [apply _| |solve_within].
    apply within_map_err. unfold remote_sign_multiple. apply within_bind; [apply _| |solve_within]. by apply within_map_err, send_sends. }
  apply st_bind_inv in Hr as [(response & p1 & Hs & Hr)|[(e & Hs & ->)|[Hs ->]]]; [|by left; split; [by eapply Hsign|]..].
  apply Hsign in Hs. apply bind_lift_inv in Hr as [(jwe & _ & Hr)|[(e & _ & -> & ->)|(_ & -> & ->)]]; [|by left..].
  right. exists p1, jwe. split; [done|]. unfold st_map_err, on_part, send_authorization_response in Hr. injection Hr as <- <-.
  split; [done|]. intros e (e' & He & ->)%map_err_Err. eexists. split; [done|]. cbn. destruct e' as [err| |]; [|by left..].
  destruct (is_connect err) eqn:Hc; [right|by left]. by exists err.
Qed.

(** The outcome of storing an event. *)
Lemma store_event_Ok e event w w' : store_history_event e event w = (Ok tt, w') →
  ∀ t, open_tables (device w) = Some t → tables_ok t →
  ∃ t' model, open_tables (device w') = Some t' ∧ model_from_event event = Ok model ∧
    mdoc_copies t' = mdoc_copies t ∧
    match model with IssuanceModel m => issuance_events t' = issuance_events t ++ [m] | DisclosureModel m => disclosure_events t' = disclosure_events t ++ [m] end.
Proof.
  intros Hw t Ht Hok. apply bind_on_storage in Hw as (x & r & Hlog & Hx). destruct x as [[]|e0|]; [|by destruct Hx..].
  apply log_wallet_event_changes in Hlog as [[_ [[? [=]]|[[=] _]]]|(t0 & t' & Ht0 & Hl & Hc & _)].
  apply emit_recent_history_calm in Hx. assert (t0 = t) as -> by (unfold device in Ht; congruence).
  destruct (logged_event_copies _ _ _ _ Hl) as [Hcopies _]. destruct (logged_event_Ok _ _ _ _ Hok Hl) as (_ & _ & model & Hmodel & Hm).
  exists t', model. rewrite (cm_device _ _ Hx). unfold device. cbn. rewrite Hc. split_and!; [by eapply open_with_tables|done..|].
  destruct model; by destruct Hm as (_ & _ & ->).
Qed.

(** Documents that have been counted. *)
Definition counted (ids : list Uuid) t t' : Prop := mdoc_copies t' = increment_count ids <$> mdoc_copies t.

Lemma increment_inv ids w o w' t : on_storage (increment_mdoc_copies_usage_count ids) w = (o, w') → open_tables (device w) = Some t →
  w_phone w' = mkPhone (ph_device (w_phone w')) (account_log w) (ph_peer (w_phone w)) ∧ w' = set_phone (w_phone w') w ∧
  ((∃ e, o = Err e) ∧ device w' = device w ∨
   o = Ok tt ∧ open_tables (device w') = Some (set_copies (increment_count ids <$> mdoc_copies t) t)).
Proof.
  intros (r & Hr & ->)%on_storage_inv Ht. split; [done|]. split; [done|]. unfold device in *. cbn.
  apply execute_changes in Hr as [[Hc [He|[_ (? & _ & [=])]]]|(t0 & t' & Ht0 & [= <-] & Hc & ->)]; rewrite Hc; [by left|right].
  split; [done|]. assert (t0 = t) as -> by congruence. by eapply open_with_tables.
Qed.

Definition disclose_keys (x : AcceptDraws) r pin := RemoteEcdsaKeyFactory (X:=Peers) prof (ad_keys x) (instruction_client config r pin).
(** What follows on the attempt to disclose. *)
Definition finish_disclosure (x : AcceptDraws) (session : DisclosureSession Uuid) (proposal : DisclosureProposal Uuid)
    (result : outcome (DisclosureError (KeyError RemoteEcdsaKeyError VpClientError)) (option string)) : ST Wallet WalletDisclosureError (option string) :=
  let attributes := proposal_attributes proposal in
  let certificate := verifier_certificate session in
  match result with
  | Ok return_url =>
      let! _ := modify (set_disclosure_session None) in
      let! _ := st_map_err DEventStorage (store_history_event (ne_draws (ad_success x)) (success_event (ad_success x) attributes certificate)) in
      sret return_url
  | Err error =>
      let! _ := log_error (log_disclosure_error (ad_error x) attributes (data_shared error) certificate) in
      let error := disclosure_error_of (disclosure_error error) in
      let! _ := match error with
                | DInstruction e =>
                    if is_pin_timeout e then
                      let! _ := modify (set_disclosure_session None) in
                      let! _ := log_error (terminate_disclosure_session (ad_cancel x) session) in
                      lock
                    else sret tt
                | _ => sret tt
                end in
      st_throw error
  | Panic => st_lift Panic
  end.

(** Accepting is counting the copies, trying to disclose, and the rest. *)
Lemma accept_disclosure_inv x pin w o w' r proposal : accept_disclosure prof config x pin w = (o, w') →
  w_registration w = Some r → w_is_locked w = false → w_disclosure_session w = Some (SessionProposal proposal) →
  ∃ i w1, on_storage (increment_mdoc_copies_usage_count (proposed_source_identifiers proposal)) w = (i, w1) ∧
    match i with
    | Ok _ => ∃ y w2, on_phone (st_disclose (disclose_keys x r pin) (ad_random x) (ad_rnd x) proposal) w1 = (y, w2) ∧
        (y = Panic ∧ o = Panic ∧ w' = w2 ∨ finish_disclosure x (SessionProposal proposal) proposal y w2 = (o, w'))
    | Err e => (let! _ := log_error (log_disclosure_error (ad_error x) (proposal_attributes proposal) false (verifier_certificate (SessionProposal proposal))) in
                st_throw (DIncrementUsageCount e)) w1 = (o, w')
    | Panic => o = Panic ∧ w' = w1
    end.
Proof.
  intros Hw Hr Hl Hs. unfold accept_disclosure, st_get in Hw. unfold sbind at 1 in Hw. rewrite Hr, Hl, Hs in Hw.
  unfold st_lift in Hw. do 4 (unfold sbind at 1 in Hw; cbn [ok_or guard_err negb] in Hw).
  apply bind_try_inv in Hw as (i & w1 & Hi & Hw). exists i, w1. split; [done|].
  destruct Hw as [(-> & -> & ->)|[Hnp Hw]]; [done|]. destruct i as [[]|e|]; [|done..].
  cbn zeta in Hw. apply bind_try_inv in Hw as (y & w2 & Hy & Hw). exists y, w2. split; [done|].
  destruct Hw as [?|[Hnp' Hw]]; [by left|right]. by destruct y.
Qed.

Lemma finish_no_response x session proposal y : within no_response (finish_disclosure x session proposal y).
Proof. unfold finish_disclosure, log_disclosure_error. destruct y; solve_within. Qed.

(** The tables after the attempt to disclose, and what was sent. *)
Lemma attempt_inv keys random rnd (proposal : DisclosureProposal Uuid) kd client w y w' t : keys = RemoteEcdsaKeyFactory (X:=Peers) prof kd client →
  on_phone (st_disclose keys random rnd proposal) w = (y, w') → open_tables (device w) = Some t →
  ∃ kv l, open_tables (device w') = Some (set_keyed kv t) ∧ issuer_log w' = issuer_log w ∧ verifier_log w' = verifier_log w ++ l ∧
    w' = set_phone (w_phone w') w ∧
    (l = [] ∧ is_ok y = false ∨
     ∃ jwe, l = [SendAuthorizationResponse (iso_response_uri (cd_auth_request (dp_data proposal))) jwe] ∧
     ∀ e, y = Err e → ∃ e', disclosure_error e = PlainError e' ∧ (data_shared e = true ∨
       ∃ err, answer_response (verifier_log w) (iso_response_uri (cd_auth_request (dp_data proposal))) jwe = Err (Http err) ∧ is_connect err = true)).
Proof.
  intros -> Hw Ht. unfold on_phone in Hw. destruct (st_disclose _ _ _ _ (w_phone w)) as [z p'] eqn:Hs. injection Hw as <- <-.
  assert (∀ q, sends (w_phone w) q → ∃ kv, open_tables (contents (ph_device q)) = Some (set_keyed kv t) ∧ ph_peer q = ph_peer (w_phone w)) as Hq
    by (intros q [[_ Hk] Hp]; destruct (Hk _ Ht) as [kv ?]; eauto).
  unfold device, issuer_log, verifier_log. cbn [w_phone set_phone].
  apply st_disclose_sends in Hs as [[(kv & ? & ->)%Hq Hok]|(p1 & jwe & (kv & ? & Hp)%Hq & -> & Hplain)].
  - exists kv, []. rewrite app_nil_r. split_and!; auto.
  - exists kv. eexists. split_and!; [done|cbn; by rewrite Hp| |done|right; exists jwe; split; [done|]].
    + cbn. by rewrite Hp.
    + intros e (e' & He & Hs)%Hplain. exists e'. split; [done|]. unfold part in Hs. cbn in Hs. by rewrite Hp in Hs.
Qed.

(** A disclosure that was stored in the history. *)
Definition disclosure_stored (event : WalletEvent) t t' : Prop :=
  ∃ m, disclosure_events t' = disclosure_events t ++ [m] ∧ event_from_disclosure m = Ok event.
Lemma store_disclosure_Ok e id timestamp docs cert status dtype w w' t : let event := new_disclosure id timestamp docs cert status dtype in
  store_history_event e event w = (Ok tt, w') → open_tables (device w) = Some t → tables_ok t →
  ∃ t', open_tables (device w') = Some t' ∧ disclosure_stored event t t'.
Proof.
  intros event Hz Ht Hok. destruct (store_event_Ok _ _ _ _ Hz _ Ht Hok) as (t' & model & Ht' & Hmodel & _ & Hev). exists t'. split; [done|].
  pose proof (event_round_trip _ _ Hmodel) as Hrt. destruct model as [m|m]; [by apply bind_Ok in Hmodel as (? & _ & [=])|]. by exists m.
Qed.

(** An error after the response: the event is stored, if that is possible. *)
Lemma finish_error_inv x session proposal error e' w o w' : disclosure_error error = PlainError e' →
  finish_disclosure x session proposal (Err error) w = (o, w') →
  o = Panic ∨ o = Err (disclosure_error_of (disclosure_error error)) ∧
    ∃ z, store_history_event (ne_draws (ad_error x)) (error_event (ad_error x) (proposal_attributes proposal) (data_shared error) (verifier_certificate session)) w = (z, w').
Proof.
  intros He. cbn [finish_disclosure]. rewrite He. unfold log_error, log_disclosure_error, st_map_err, sbind, sret, st_throw. cbn [disclosure_error_of].
  destruct (store_history_event _ _ w) as [[[]|e|] w3]; cbn [map_err]; intros [= <- <-]; [right|right|by left]; (split; [done|by eexists]).
Qed.

Lemma responses_none l : Forall (λ m, is_response m = false) l → filter (λ m, is_response m = true) l = [].
Proof. induction 1 as [|m l Hm _ IH]; [done|]. rewrite filter_cons, decide_False by congruence. done. Qed.
Lemma response_elem uri jwe l l' : Forall (λ m, is_response m = false) l' → SendAuthorizationResponse uri jwe ∈ l ++ l' → SendAuthorizationResponse uri jwe ∈ l.
Proof. rewrite list.Forall_forall. intros Hf [?|Hin]%elem_of_app; [done|]. by apply Hf in Hin. Qed.

(** C17. Accepting a disclosure: at most one response is sent, to the address of the
    verified request, and only after the usage of the copies in it has been
    counted, exactly once.  When accepting succeeds, the response has been sent, the
    session is over and the history holds the event with the documents of the
    proposal and the certificate of the verifier.  When a response was sent and
    accepting fails, either the error is that this event could not be stored, or it
    is the error of the attempt to disclose: then the wallet has tried to store an
    event with that certificate and with the documents of the proposal - without
    them only when the response met a failure to connect - and the history holds
    it, if it could be stored. *)
Theorem disclosure_counted_and_logged x pin w o w' r proposal t :
  accept_disclosure prof config x pin w = (o, w') → w_registration w = Some r → w_is_locked w = false →
  w_disclosure_session w = Some (SessionProposal proposal) → open_tables (device w) = Some t → tables_ok t →
  let ids := proposed_source_identifiers proposal in
  let uri := iso_response_uri (cd_auth_request (dp_data proposal)) in
  let attributes := proposal_attributes proposal in
  let certificate := verifier_certificate (SessionProposal proposal) in
  ∃ t' msgs, open_tables (device w') = Some t' ∧ issuer_log w' = issuer_log w ∧ verifier_log w' = verifier_log w ++ msgs ∧
    (mdoc_copies t' = mdoc_copies t ∨ counted ids t t') ∧
    (filter (λ m, is_response m = true) msgs = [] ∨
     counted ids t t' ∧ ∃ jwe, filter (λ m, is_response m = true) msgs = [SendAuthorizationResponse uri jwe]) ∧
    (∀ url, o = Ok url → counted ids t t' ∧ w_disclosure_session w' = None ∧ (∃ jwe, SendAuthorizationResponse uri jwe ∈ msgs) ∧
       disclosure_stored (success_event (ad_success x) attributes certificate) t t') ∧
    ∀ e jwe, o = Err e → SendAuthorizationResponse uri jwe ∈ msgs →
      (∃ es, e = DEventStorage es) ∨
      ∃ w1 error w2 z, on_storage (increment_mdoc_copies_usage_count ids) w = (Ok tt, w1) ∧
        on_phone (st_disclose (disclose_keys x r pin) (ad_random x) (ad_rnd x) proposal) w1 = (Err error, w2) ∧
        e = disclosure_error_of (disclosure_error error) ∧
        (data_shared error = true ∨ ∃ err, answer_response (verifier_log w) uri jwe = Err (Http err) ∧ is_connect err = true) ∧
        store_history_event (ne_draws (ad_error x)) (error_event (ad_error x) attributes (data_shared error) certificate) w2 = (z, w') ∧
        (z = Ok tt → disclosure_stored (error_event (ad_error x) attributes (data_shared error) certificate) t t').
Proof.
  intros Hw Hr Hl Hs Ht Hok ids uri attributes certificate. apply (accept_disclosure_inv _ _ _ _ _ _ _ Hw Hr Hl) in Hs as (i & w1 & Hi & Hk). clear Hw.
  destruct (increment_inv _ _ _ _ _ Hi Ht) as (Hp1 & Hw1 & [[[e ->] Hd1]|[-> Ht1]]).
  - assert (within no_response (let! _ := log_error (log_disclosure_error (ad_error x) (proposal_attributes proposal) false (verifier_certificate (SessionProposal proposal))) in
      st_throw (A:=option string) (DIncrementUsageCount e))) as Hn by (unfold log_disclosure_error; solve_within).
    pose proof (Hn _ _ _ Hk) as [Hiss (l & Hv & Hf) Htab]. rewrite Hd1 in Htab. destruct (Htab _ Ht) as (t' & k & Ht' & Hc & _).
    exists t', l. unfold issuer_log, verifier_log in *. rewrite Hp1 in Hiss, Hv. split_and!; [done..|by left|left; by apply responses_none| |].
    + intros url ->. apply st_bind_inv in Hk as [(? & ? & _ & [=])|[(? & _ & [=])|[_ [=]]]].
    + intros e' jwe _ Hin. rewrite list.Forall_forall in Hf. by apply Hf in Hin.
  - destruct Hk as (y & w2 & Hy & Hk). pose proof (attempt_inv _ _ _ _ (ad_keys x) (instruction_client config r pin) _ _ _ _ eq_refl Hy Ht1) as (kv & l & Ht2 & Hi2 & Hv2 & _ & Hl2).
    assert (issuer_log w1 = issuer_log w ∧ verifier_log w1 = verifier_log w) as [Hi1 Hv1] by (unfold issuer_log, verifier_log; by rewrite Hp1).
    assert (tables_ok (set_keyed kv (set_copies (increment_count ids <$> mdoc_copies t) t))) as Hok2 by (by apply set_keyed_ok, increment_ok).
    assert (∃ t' l', open_tables (device w') = Some t' ∧ counted ids t t' ∧ issuer_log w' = issuer_log w ∧ verifier_log w' = verifier_log w ++ l ++ l' ∧
      Forall (λ m, is_response m = false) l') as (t' & l' & Ht' & Hc & Hi' & Hv' & Hf).
    { destruct Hk as [(_ & _ & ->)|Hk].
      - eexists _, []. rewrite app_nil_r, Hi2, Hv2, Hi1, Hv1. split_and!; [exact Ht2|done..].
      - destruct (finish_no_response _ _ _ _ _ _ _ Hk) as [Hiss (l' & Hv & Hf) Htab]. destruct (Htab _ Ht2) as (t' & k & Ht' & Hc & _).
        exists t', l'. rewrite Hiss, Hv, Hi2, Hv2, Hi1, Hv1, app_assoc. split_and!; try done. }
    exists t', (l ++ l'). split_and!; [done..|by right| | |].
    + rewrite filter_app, (responses_none l') by done. rewrite app_nil_r. destruct Hl2 as [[-> _]|(jwe & -> & _)]; [by left|right]. split; [done|]. by exists jwe.
    + intros url ->. destruct Hk as [(_ & [=] & _)|Hk]. destruct y as [u|error|]; [| |done].
      2:{ exfalso. cbn [finish_disclosure] in Hk. apply st_bind_inv in Hk as [(? & ? & _ & Hk)|[(? & _ & [=])|[_ [=]]]].
          apply st_bind_inv in Hk as [(? & ? & _ & [=])|[(? & _ & [=])|[_ [=]]]]. }
      destruct Hl2 as [[_ [=]]|(jwe & -> & _)]. split; [done|]. cbn [finish_disclosure] in Hk. unfold modify in Hk. unfold sbind at 1 in Hk.
      apply st_bind_inv in Hk as [([] & w3 & Hst & Hk)|[(? & _ & [=])|[_ [=]]]]. unfold sret in Hk. injection Hk as _ <-.
      unfold st_map_err in Hst. destruct (store_history_event _ _ _) as [z w4] eqn:Hz. injection Hst as Hst ->. apply map_err_Ok in Hst as ->.
      destruct (store_disclosure_Ok _ _ _ _ _ _ _ _ _ _ Hz Ht2 Hok2) as (t3 & Ht3 & Hst). assert (t3 = t') as -> by congruence.
      split_and!; [apply store_event_steady in Hz; by rewrite (proj1 Hz)|exists jwe; by left|done].
    + intros e jwe -> Hin%response_elem; [|done]. destruct Hk as [(_ & [=] & _)|Hk]. destruct Hl2 as [[-> _]|(jwe' & -> & Herr)]; [by apply not_elem_of_nil in Hin|].
      apply list_elem_of_singleton in Hin. injection Hin as <-. destruct y as [u|error|]; [left|right|done].
      * cbn [finish_disclosure] in Hk. unfold modify in Hk. unfold sbind at 1 in Hk. apply st_bind_inv in Hk as [(? & ? & _ & [=])|[(es & Hst & [=<-])|[_ [=]]]].
        unfold st_map_err in Hst. destruct (store_history_event _ _ _) as [z w4]. injection Hst as Hst _. apply map_err_Err in Hst as (es' & _ & ->). by exists es'.
      * destruct (Herr _ eq_refl) as (e' & He' & Hshared). rewrite Hv1 in Hshared.
        apply (finish_error_inv _ _ _ _ _ _ _ _ He') in Hk as [[=]|([= ->] & z & Hz)].
        exists w1, error, w2, z. split_and!; [done..|]. intros ->.
        destruct (store_disclosure_Ok _ _ _ _ _ _ _ _ _ _ Hz Ht2 Hok2) as (t3 & Ht3 & Hst). assert (t3 = t') as -> by congruence. done.
Qed.

(** ** PIN timeouts *)

Lemma accept_disclosure_started x pin w e w' : accept_disclosure prof config x pin w = (Err (DInstruction e), w') →
  ∃ r proposal, w_registration w = Some r ∧ w_is_locked w = false ∧ w_disclosure_session w = Some (SessionProposal proposal).
Proof.
  unfold accept_disclosure, st_get. unfold sbind at 1. intros Hw.
  apply bind_lift_inv in Hw as [(r & Hr%ok_or_Ok & Hw)|[(? & (_ & ->)%ok_or_Err & [=] & _)|(_ & [=] & _)]].
  apply bind_lift_inv in Hw as [([] & Hl%guard_err_Ok & Hw)|[(? & (_ & ->)%guard_err_Err & [=] & _)|(_ & [=] & _)]].
  apply bind_lift_inv in Hw as [(s & Hs%ok_or_Ok & Hw)|[(? & (_ & ->)%ok_or_Err & [=] & _)|(_ & [=] & _)]].
  apply bind_lift_inv in Hw as [(proposal & Hp & Hw)|[(e0 & He & [=<-] & _)|(_ & [=] & _)]]; [|by destruct s].
  destruct s as [|proposal']; [done|]. injection Hp as ->. exists r, proposal. by apply negb_true_iff in Hl.
Qed.

Lemma issuance_event_error ne mdocs e : issuance_event ne mdocs ≠ Err (PInstruction e).
Proof.
  unfold issuance_event. intros [Hm|(? & _ & Hm)]%bind_Err.
  - apply try_map_Err in Hm as (mdoc & _ & [(? & _ & [=])%map_err_Err|(c & _ & Hm)]%bind_Err). by destruct (IssuerRegistration_from_certificate c) as [[]| |].
  - by apply bind_Err in Hm as [(? & _ & [=])%map_err_Err|(? & _ & [=])].
Qed.

(** The end of an attempt that failed because of an instruction. *)
Lemma finish_timeout x session proposal error e w o w' :
  finish_disclosure x session proposal (Err error) w = (Err o, w') → o = DInstruction e →
  disclosure_error error = SigningError (RkInstruction e) ∧
  (if is_pin_timeout e then w_is_locked w' = true ∧ w_disclosure_session w' = None
   else w_is_locked w' = w_is_locked w ∧ w_disclosure_session w' = w_disclosure_session w).
Proof.
  intros Hw ->. cbn [finish_disclosure] in Hw. apply st_bind_inv in Hw as [([] & w1 & Hlog & Hw)|[(e0 & Hlog & [=])|[_ [=]]]].
  2:{ unfold log_error in Hlog. by destruct (log_disclosure_error _ _ _ _ w) as [[]]. }
  assert (steady w w1) as (Hs1 & Hl1 & _).
  { eapply (log_error_within steady), Hlog. unfold log_disclosure_error. apply within_map_err, store_event_steady. }
  assert (disclosure_error error = SigningError (RkInstruction e)) as He.
  { apply st_bind_inv in Hw as [(? & w2 & _ & Hw)|[(e0 & Hm & [=])|[_ [=]]]].
    - unfold st_throw in Hw. injection Hw as Hw _. destruct (disclosure_error error) as [|[]]; try done. cbn in Hw. by injection Hw as ->.
    - exfalso. subst e0. destruct (disclosure_error_of (disclosure_error error)); try done.
      destruct (is_pin_timeout _); [|done]. unfold modify in Hm. unfold sbind at 1 in Hm.
      apply st_bind_inv in Hm as [(? & ? & _ & [=])|[(e1 & Hm & [=])|[_ [=]]]]. unfold log_error in Hm.
      by destruct (terminate_disclosure_session _ _ _) as [[]]. }
  split; [done|]. rewrite He in Hw. cbn [disclosure_error_of] in Hw. destruct (is_pin_timeout e).
  - rewrite bind_assoc in Hw. unfold modify in Hw. unfold sbind at 1 in Hw. rewrite bind_assoc in Hw.
    apply st_bind_inv in Hw as [([] & w2 & Hm & Hw)|[(e0 & Hm & [=])|[_ [=]]]].
    + unfold lock, modify, st_throw, sbind in Hw. injection Hw as <-. destruct (lock_state_inv w2) as (? & _ & _ & _ & ->). split; [done|].
      assert (steady (set_disclosure_session None w1) w2) as (-> & _).
      { eapply (log_error_within steady), Hm. unfold terminate_disclosure_session. apply within_bind; [apply _|apply within_map_err, on_phone_steady|].
        intros _. apply within_map_err, store_event_steady. }
      done.
    + unfold log_error in Hm. by destruct (terminate_disclosure_session _ _ _) as [[]].
  - unfold sbind, sret, st_throw in Hw. injection Hw as <-. done.
Qed.

Lemma accept_pid_timeout x pin w e w' : accept_pid_issuance prof config x pin w = (Err (PInstruction e), w') → is_pin_timeout e = true →
  ∃ w1, frame w w1 ∧ cleared w1 w'.
Proof.
  intros Hw Htime. unfold accept_pid_issuance, st_get in Hw. unfold sbind at 1 in Hw.
  apply bind_lift_inv in Hw as [(r & Hr%ok_or_Ok & Hw)|[(? & (_ & ->)%ok_or_Err & [=] & _)|(_ & [=] & _)]].
  apply bind_lift_inv in Hw as [([] & Hl%guard_err_Ok & Hw)|[(? & (_ & ->)%guard_err_Err & [=] & _)|(_ & [=] & _)]].
  apply bind_lift_inv in Hw as [(s & Hs & Hw)|[(e0 & He & [= <-] & _)|(_ & [=] & _)]]; [|by destruct (w_issuance_session w) as [[]|]].
  apply bind_try_inv in Hw as (res & w1 & Hacc & [(_ & [=] & _)|[Hnp Hw]]). pose proof Hacc as Hframe. apply (within_map_err frame) in Hframe.
  2:{ apply on_phone_frame, accept_issuance_keeps, KEY_different. }
  exists w1. split; [done|]. destruct res as [mdocs|e0|]; [| |done].
  - exfalso. unfold sret, st_lift in Hw. unfold sbind at 1 in Hw. unfold sbind at 1 in Hw. unfold modify in Hw. unfold sbind at 1 in Hw.
    apply bind_lift_inv in Hw as [(event & _ & Hw)|[(e0 & He & [= <-] & _)|(_ & [=] & _)]]; [|by apply issuance_event_error in He].
    apply bind_on_storage in Hw as (y & r2 & _ & Hw). destruct y as [[]|e0|]; [|by destruct Hw..].
    apply st_bind_inv in Hw as [([] & w3 & _ & Hw)|[(e0 & Hw & [=])|[_ [=]]]]; unfold st_map_err in Hw.
    + by destruct (emit_documents w3) as [[]].
    + subst e0. by destruct (store_history_event _ _ _) as [[]].
  - assert (e0 = PInstruction e) as ->.
    { apply st_bind_inv in Hw as [([] & w3 & _ & Hw)|[(e1 & Hw & [=])|[_ [=]]]]; [by injection Hw as ->|]. subst e1.
      destruct e0; try done. destruct (is_pin_timeout _); [|done]. apply st_bind_inv in Hw as [(? & ? & _ & [=])|[(e1 & Hw & [=])|[_ [=]]]].
      by apply reset_inv in Hw as [(_ & _ & [=])|(_ & [=] & _)]. }
    rewrite Htime in Hw. rewrite bind_assoc in Hw. unfold sbind at 1 in Hw. destruct (reset_to_initial_state w1) as [y w2] eqn:Hreset.
    apply reset_inv in Hreset as [(Hno & _)|(_ & -> & Hcl)]; [by rewrite (fr_registration _ _ Hframe), Hr in Hno|].
    unfold sbind, sret, st_lift in Hw. by injection Hw as <-.
Qed.

(** Wrong PINs: when the account server refuses an instruction because of a
    timeout or a block, accepting a disclosure ends the session and locks the
    wallet, and accepting an issuance wipes it: registration, sessions and
    database are gone.  After any other refusal the session can be tried again.
    In no case has a response been sent to the verifier. *)
Theorem pin_timeout_ends_access :
  (∀ x pin w e w' t, accept_disclosure prof config x pin w = (Err (DInstruction e), w') → open_tables (device w) = Some t →
     (if is_pin_timeout e then w_is_locked w' = true ∧ w_disclosure_session w' = None
      else w_is_locked w' = false ∧ w_disclosure_session w' = w_disclosure_session w) ∧
     ∃ msgs, verifier_log w' = verifier_log w ++ msgs ∧ Forall (λ m, is_response m = false) msgs) ∧
  (∀ x pin w e w', accept_pid_issuance prof config x pin w = (Err (PInstruction e), w') → is_pin_timeout e = true →
     w_registration w' = None ∧ w_is_locked w' = true ∧ w_issuance_session w' = None ∧ w_disclosure_session w' = None ∧ is_open (device w') = false).
Proof.
  split.
  - intros x pin w e w' t Hw Ht. pose proof (accept_disclosure_started _ _ _ _ _ Hw) as (r & proposal & Hr & Hl & Hs).
    apply (accept_disclosure_inv _ _ _ _ _ _ _ Hw Hr Hl) in Hs as Hk. destruct Hk as (i & w1 & Hi & Hk).
    destruct (increment_inv _ _ _ _ _ Hi Ht) as (Hp1 & Hw1 & [[[e0 ->] _]|[-> Ht1]]).
    { apply st_bind_inv in Hk as [(? & ? & _ & [=])|[(e1 & Hk & [=])|[_ [=]]]]. unfold log_error in Hk. by destruct (log_disclosure_error _ _ _ _ _) as [[]]. }
    destruct Hk as (y & w2 & Hy & [(_ & [=] & _)|Hk]).
    destruct (attempt_inv _ _ _ _ (ad_keys x) (instruction_client config r pin) _ _ _ _ eq_refl Hy Ht1) as (_ & l & _ & _ & Hv2 & Hw2 & Hl2).
    assert (w_is_locked w2 = false ∧ w_disclosure_session w2 = w_disclosure_session w) as [Hlock2 Hs2] by (rewrite Hw2, Hw1; done).
    destruct y as [u|error|]; [|..|done].
    { exfalso. cbn [finish_disclosure] in Hk. unfold modify in Hk. unfold sbind at 1 in Hk.
      apply st_bind_inv in Hk as [([] & ? & _ & [=])|[(e0 & Hk & [=])|[_ [=]]]]. subst e0. unfold st_map_err in Hk.
      destruct (store_history_event _ _ _) as [[] ?]; done. }
    pose proof (finish_timeout _ _ _ _ _ _ _ _ Hk eq_refl) as [He Hend]. split; [destruct (is_pin_timeout e); [done|]; by rewrite Hlock2, Hs2 in Hend|].
    destruct (finish_no_response _ _ _ _ _ _ _ Hk) as [_ (l' & Hv & Hf) _]. exists l'. split; [|done].
    destruct Hl2 as [[-> _]|(jwe & _ & Hplain)]; [|destruct (Hplain _ eq_refl) as (? & ? & _); congruence].
    rewrite Hv, Hv2, app_nil_r. unfold verifier_log. by rewrite Hp1.
  - intros x pin w e w' Hw Htime. destruct (accept_pid_timeout _ _ _ _ _ Hw Htime) as (w1 & _ & [? [? ?] ? ? _ _ _]). done.
Qed.
End Disclosures.
