(* ===== verification/WalletSource.v ===== *)
(** * The wallet as a source of mdocs

    The mdocs that the database hands to a disclosure session, grouped by type:
    they keep the contract under which the matching of requests is verified, and
    are the copies that were used least. *)
From stdpp Require Import base gmap strings list option.
From Stdlib Require Import ZArith Lia.
From S2P Require Import Prelude IndexMap Crypto Cbor Cose Engagement Mdoc MdocSigning Holder HolderFacts Document WalletStorage WalletStorageFacts WalletStorageQueries.
From S2P Require Import Protocol PresentationExchange OpenId4vp Verifier DisclosureSession AccountClient InstructionClient IssuanceSession WalletSessions WalletApp WalletFlows.

Section Source.
Context `{!Sqlite, !StorageCodec, !PlatformKeys}.
Implicit Types (t : Tables) (groups : imap DocType (list (StoredMdoc Uuid))).

Definition stored_of (s : StoredMdocCopy) : StoredMdoc Uuid := mkStoredMdoc (mdoc_copy_id s) (smc_mdoc s).

(** Adding to a group *)
Lemma insert_join groups dt x :
  mjoin (im_insert dt (default [] (im_get groups dt) ++ [x]) groups).*2 ≡ₚ mjoin groups.*2 ++ [x].
Proof.
  induction groups as [|[dt' l] groups IH]; [done|]. cbn. case_decide as Heq; cbn.
  - subst. cbn. rewrite <- !app_assoc. f_equiv. apply Permutation_app_comm.
  - rewrite IH. by rewrite app_assoc.
Qed.
Record grouped (types : gset DocType) (seen : list StoredMdocCopy) groups : Prop := {
  gr_keys : NoDup groups.*1;
  gr_group dt l : (dt, l) ∈ groups → l ≠ [] ∧ dt ∈ types ∧ ∀ s, s ∈ l → stored_type s = dt;
  gr_all : mjoin groups.*2 ≡ₚ stored_of <$> seen
}.
Lemma grouped_nil types : grouped types [] [].
Proof. split; [constructor|by intros ? ? ?%elem_of_nil|done]. Qed.
Lemma grouped_insert types seen groups s : grouped types seen groups → m_doc_type (smc_mdoc s) ∈ types →
  ∃ groups', group_mdoc types groups s = Ok groups' ∧ grouped types (seen ++ [s]) groups'.
Proof.
  intros [Hk Hg Ha] Hs. unfold group_mdoc. rewrite bool_decide_eq_true_2 by done. cbn. eexists. split; [done|]. split.
  - by apply im_insert_NoDup.
  - set (dt := m_doc_type (smc_mdoc s)) in *. intros dt' l Hin. apply im_elem_get in Hin; [|by apply im_insert_NoDup].
    rewrite im_get_insert in Hin. case_decide as Heq.
    + subst dt'. injection Hin as <-. split_and!; [by destruct (default [] _)|done|]. intros x [Hx|Hx]%elem_of_app.
      * destruct (im_get groups dt) as [l|] eqn:Hgl; [|by apply elem_of_nil in Hx]. apply im_get_Some_elem in Hgl. by apply (Hg _ _ Hgl).
      * apply list_elem_of_singleton in Hx as ->. done.
    + apply im_get_Some_elem in Hin. by apply Hg.
  - rewrite insert_join, Ha, fmap_app. done.
Qed.
Lemma group_mdocs_spec types l : Forall (λ s, m_doc_type (smc_mdoc s) ∈ types) l →
  ∃ groups, group_mdocs types l = Ok groups.*2 ∧ grouped types l groups.
Proof.
  intros Hl. unfold group_mdocs.
  enough (∃ groups, foldl (λ r s, let* groups := r in group_mdoc types groups s) (Ok []) l = Ok groups ∧ grouped types l groups) as (groups & -> & ?)
    by (by exists groups).
  induction l as [|s l IH] using rev_ind; [exists []; split; [done|apply grouped_nil]|].
  apply list.Forall_app in Hl as [Hl Hs]. rewrite list.Forall_singleton in Hs. destruct (IH Hl) as (groups & Hf & Hg). rewrite foldl_app, Hf. cbn [foldl obind].
  exact (grouped_insert _ _ _ _ Hg Hs).
Qed.
Lemma grouped_ok types seen groups : grouped types seen groups → groups_ok types groups.*2.
Proof.
  intros [Hk Hg _]. split.
  - assert (base.omap group_type groups.*2 = groups.*1) as ->; [|done]. clear Hk. induction groups as [|[dt l] groups IH]; [done|].
    destruct (Hg dt l) as (Hne & _ & Hall); [by left|]. destruct l as [|s l]; [done|]. cbn. rewrite (Hall s) by (by left). f_equal. apply IH.
    intros dt' l' ?. apply Hg. by right.
  - apply list.Forall_forall. intros l ([dt l'] & -> & Hin)%list_elem_of_fmap. destruct (Hg _ _ Hin) as (Hne & Hty & Hall). cbn.
    apply list.Forall_forall. intros s Hs. rewrite (Hall s Hs). split; [done|]. destruct l' as [|s' l']; [done|]. cbn. by rewrite (Hall s') by (by left).
Qed.

(** The wallet as a source of mdocs: what it hands to a disclosure session are
    groups of mdocs of one type each, all of the requested types and of different
    types, as the matching of requests relies on; each mdoc is a copy that was
    disclosed least often among the copies of its attestation, and the copies
    belong to different attestations; reading them never panics, and without
    failures of the device it succeeds. *)
Theorem wallet_source_contract (r : remote Device) t types : device_ok (contents r) → open_tables (contents r) = Some t →
  (mdoc_by_doc_types types r).1 ≠ Panic ∧
  (∀ gs, wallet_data_source r types = Some gs → groups_ok types gs ∧
     ∃ l, mjoin gs ≡ₚ stored_of <$> l ∧ least_used t types l) ∧
  (faults r = [] → is_Some (wallet_data_source r types)).
Proof.
  intros Hd Ht. destruct (selected_least_used t types (device_ok_open _ _ Hd Ht)) as (l & Hl & Hu).
  assert (Forall (λ s, m_doc_type (smc_mdoc s) ∈ types) l) as Hty by (apply list.Forall_forall; intros s Hs; by apply Hu).
  destruct (group_mdocs_spec _ _ Hty) as (groups & Hgr & Hok).
  assert (mdoc_by_doc_types types r = (Ok groups.*2, r) ∧ faults r = [] ∨
    faults r ≠ [] ∧ ((mdoc_by_doc_types types r).1 = Ok groups.*2 ∨ ∃ e, (mdoc_by_doc_types types r).1 = Err e)) as Hcase.
  { unfold mdoc_by_doc_types, fetch_unique_mdocs_by_doctypes, query_unique_mdocs, database, get_device, statement, round_trip.
    unfold open_tables in Ht. unfold sbind, st_lift, st_throw. destruct (is_open (contents r)); [|done]. destruct (db_file (contents r)) as [[k t0]|]; [|done].
    injection Ht as ->. cbn. fold (selected t types). destruct (faults r) as [|[] fs]; [left|right|right]; rewrite ?Hl; cbn; rewrite ?Hgr; eauto. }
  unfold wallet_data_source. destruct (mdoc_by_doc_types types r) as [o r'] eqn:Hm. cbn in Hcase.
  assert (o = Ok groups.*2 ∨ ∃ e, o = Err e) as Ho by naive_solver. split_and!.
  - destruct Ho as [-> |[e ->]]; done.
  - intros gs Hgs. assert (gs = groups.*2) as -> by (destruct Ho as [-> |[e ->]]; naive_solver).
    split; [by eapply grouped_ok|]. exists l. split; [apply Hok|done].
  - intros Hf. destruct Hcase as [[[= -> _] _]|[? _]]; [done|]. by rewrite Hf in *.
Qed.
End Source.
