(* ===== verification/WalletWitness.v ===== *)
(** * A wallet on a concrete device

    Concrete instances of the interfaces of the wallet's storage and of its
    connection to the account server, and the theorems about them at a wallet that
    stores an mdoc, logs events and sends an instruction. *)
From stdpp Require Import base gmap strings list option sorting countable relations.
From Stdlib Require Import ZArith Lia Ascii.
From S2P Require Import Prelude IndexMap Crypto Cbor Cose Engagement Jose Mdoc MdocSigning MdocFacts DisclosureFacts Holder Concrete.
From S2P Require Import Document DocumentFacts PinPolicy Protocol Signed WalletUsers AccountServer AccountServerWitness.
From S2P Require Import AccountClient PinValidation WalletStorage WalletStorageFacts WalletStorageQueries InstructionClient InstructionFacts.
Import Crates.

#[export] Instance naive_date_lib : NaiveDateLib := {| NaiveDate := string; parse_naive_date s := if decide (s = "") then None else Some s |}.

(** ** The database *)
Definition least_first (l : list MdocCopyModel) : list MdocCopyModel :=
  sort_by (λ a b, disclosure_count a <=? disclosure_count b) l.
Lemma least_first_sorted l : StronglySorted (λ a b, Is_true (disclosure_count a <=? disclosure_count b)) (least_first l).
Proof.
  apply sort_by_sorted.
  - intros x y z ?%Z.leb_le ?%Z.leb_le. apply Z.leb_le. lia.
  - intros x y ?%Z.leb_gt. apply Z.leb_le. lia.
Qed.

#[export] Instance sqlite : Sqlite.
Proof.
  refine {|
    bare_row l := head (least_first l);
    group_order l := l;
    order_by_desc A f l := sort_by (λ a b, f b <=? f a) l;
    newer_than_31_days now t := bool_decide (now - 31 * 86400000000 < t);
    insert_no_rows_succeeds := true
  |}.
  - intros l c Hc. pose proof (least_first_sorted l) as Hs. pose proof (sort_by_perm (λ a b, disclosure_count a <=? disclosure_count b) l) as Hp.
    fold (least_first l) in Hp. destruct (least_first l) as [|x rest] eqn:Hl; [done|]. injection Hc as ->. split; [rewrite <- Hp; by left|].
    intros c'. rewrite <- Hp. intros [->|Hc']%elem_of_cons; [lia|]. inversion Hs as [|? ? _ Hall]; subst.
    rewrite Forall_forall in Hall. apply Hall, Is_true_eq_true, Z.leb_le in Hc'. lia.
  - intros l Hl. pose proof (sort_by_perm (λ a b, disclosure_count a <=? disclosure_count b) l) as Hp. fold (least_first l) in Hp.
    destruct (least_first l) as [|x rest]; [by apply Permutation_nil in Hp|]. by exists x.
  - done.
  - intros A f l. apply sort_by_perm.
  - intros A f l. apply (StronglySorted_weaken (λ a b, Is_true (f b <=? f a))).
    + intros a b ?%Is_true_eq_true%Z.leb_le. done.
    + apply sort_by_sorted; [intros x y z ?%Z.leb_le ?%Z.leb_le; apply Z.leb_le; lia|intros x y ?%Z.leb_gt; apply Z.leb_le; lia].
  - intros now t Ht. by apply bool_decide_eq_true.
  - intros now t Ht. apply bool_decide_eq_false. lia.
Defined.

(** ** Codecs: nested tuples, encoded through [Countable] *)
Definition label_repr (l : Label) : Z + string := match l with LInt n => inl n | LText s => inr s end.
Definition label_of (x : Z + string) : Label := match x with inl n => LInt n | inr s => LText s end.
Abbreviation header_tuple := (option (option Z) * list ((Z + string) * Value))%type (only parsing).
Definition header_repr (h : CoseHeader) : header_tuple :=
  ((λ a, match a with AlgES256 => None | AlgOther n => Some n end) <$> cose_alg h, (λ p : Label * Value, (label_repr p.1, p.2)) <$> rest h).
Definition header_of (x : header_tuple) : CoseHeader :=
  mkCoseHeader ((λ a : option Z, match a with None => AlgES256 | Some n => AlgOther n end) <$> x.1)
    ((λ p : (Z + string) * Value, (label_of p.1, p.2)) <$> x.2).
Lemma header_round h : header_of (header_repr h) = h.
Proof.
  destruct h as [a l]. unfold header_of, header_repr. cbn. f_equal; [by destruct a as [[]|]|].
  rewrite <- list_fmap_compose. rewrite <- (list_fmap_id l) at 2. apply list_fmap_ext. by intros _ [[] v] _.
Qed.

Abbreviation sign1_tuple := (string * option string * (option string * header_tuple) * header_tuple)%type (only parsing).
Definition sign1_repr (s : CoseSign1) : sign1_tuple :=
  (signature s, Cose.payload s, (original_data (protected s), header_repr (header (protected s))), header_repr (unprotected s)).
Definition sign1_of (x : sign1_tuple) : CoseSign1 :=
  mkSign1 x.1.1.1 x.1.1.2 (mkProtected x.1.2.1 (header_of x.1.2.2)) (header_of x.2).
Lemma sign1_round s : sign1_of (sign1_repr s) = s.
Proof. destruct s as [? ? [? ?] ?]. unfold sign1_of, sign1_repr. cbn. by rewrite !header_round. Qed.

Definition item_repr (i : IssuerSignedItemBytes) : Z * string * string * Value :=
  let i := untag i in (digest_id i, bytes (random i), element_identifier i, element_value i).
Definition item_of (x : Z * string * string * Value) : IssuerSignedItemBytes :=
  mkTagged (mkItem x.1.1.1 (mkByteBuf x.1.1.2) x.1.2 x.2).
Lemma item_round i : item_of (item_repr i) = i.
Proof. by destruct i as [[? [] ? ?]]. Qed.

Abbreviation mdoc_tuple := (string * string * (option (list (string * list (Z * string * string * Value))) * sign1_tuple) * bool)%type (only parsing).
Definition mdoc_repr (m : Mdoc) : mdoc_tuple :=
  (m_doc_type m, private_key_id m,
    ((λ ns : list (NameSpace * Attributes), (λ p : NameSpace * Attributes, (p.1, item_repr <$> p.2)) <$> ns) <$> name_spaces (m_issuer_signed m), sign1_repr (issuer_auth (m_issuer_signed m))),
    match key_type m with Software => true | MdocSigning.Remote => false end).
Definition mdoc_of (x : mdoc_tuple) : Mdoc :=
  mkMdoc x.1.1.1 x.1.1.2
    (mkIssuerSigned ((λ ns : list (string * list (Z * string * string * Value)), (λ p : string * list (Z * string * string * Value), (p.1, item_of <$> p.2)) <$> ns) <$> x.1.2.1) (sign1_of x.1.2.2))
    (if x.2 then Software else MdocSigning.Remote).
Lemma mdoc_round m : mdoc_of (mdoc_repr m) = m.
Proof.
  destruct m as [dt key [ns auth] kt]. unfold mdoc_of, mdoc_repr. cbn. rewrite sign1_round. f_equal; [|by destruct kt]. f_equal.
  destruct ns as [ns|]; [|done]. cbn. f_equal. rewrite <- list_fmap_compose. rewrite <- (list_fmap_id ns) at 2. apply list_fmap_ext.
  intros _ [n items] _. cbn. f_equal. rewrite <- list_fmap_compose. rewrite <- (list_fmap_id items) at 2. apply list_fmap_ext.
  intros _ i _. apply item_round.
Qed.

Abbreviation documents_tuple := (list (string * (string * list (string * list (string * Value))))) (only parsing).
Definition documents_repr (d : EventDocuments) : documents_tuple :=
  (λ p : DocType * EventAttributes, (p.1, (ea_issuer p.2, ea_attributes p.2))) <$> d.
Definition documents_of (x : documents_tuple) : EventDocuments :=
  (λ p : string * (string * list (string * list (string * Value))), (p.1, mkEventAttributes p.2.1 p.2.2)) <$> x.

#[export] Instance storage_codec : StorageCodec.
Proof.
  refine {|
    mdoc_to_cbor m := Some (to_bytes (mdoc_repr m));
    mdoc_from_cbor b := mdoc_of <$> of_bytes b;
    documents_to_value d := Some (to_bytes (documents_repr d));
    documents_from_value j := documents_of <$> of_bytes j
  |}.
  - intros m b [= <-]. rewrite of_to_bytes. cbn. by rewrite mdoc_round.
  - intros d j [= <-]. rewrite of_to_bytes. cbn. f_equal. unfold documents_of, documents_repr. rewrite <- list_fmap_compose.
    rewrite <- (list_fmap_id d) at 2. apply list_fmap_ext. by intros _ [? []] _.
Defined.

(** A key is a text that is put in front of what it encrypts. *)
#[export] Instance platform_keys : PlatformKeys.
Proof.
  refine {|
    EncryptionKey := string;
    key_encrypt k m := Some (to_bytes (k, m));
    key_decrypt k c := p ← (of_bytes c : option (string * string)); if decide (p.1 = k) then Some p.2 else None
  |}.
  intros k m c [= <-]. rewrite of_to_bytes. cbn. by rewrite decide_True.
Defined.

#[export] Instance instruction_data : KeyedData InstructionData.
Proof.
  refine {| KEY := "instructions"; data_to_value d := Some (to_bytes (id_sequence_number d)); data_from_value j := mkInstructionData <$> of_bytes j |}.
  intros [n] j [= <-]. by rewrite of_to_bytes.
Defined.
#[export] Instance registration_data : KeyedData RegistrationData.
Proof.
  refine {|
    KEY := "registration";
    data_to_value d := Some (to_bytes (pin_salt d, wallet_certificate d));
    data_from_value j := (λ p : string * string, mkRegistrationData p.1 p.2) <$> of_bytes j
  |}.
  intros [s c] j [= <-]. by rewrite of_to_bytes.
Defined.

(** ** The storage *)
Definition ex_random : string := "0123456789abcdef0123456789abcdef".
Definition w_mdoc : Mdoc := mkMdoc "com.example.pid" "key" example_signed Software.
Definition w_mdoc2 : Mdoc := mkMdoc "com.example.pid" "key2" example_signed Software.
Definition w_event : WalletEvent :=
  Disclosure "event" (Some [("com.example.pid", mkEventAttributes "issuer" [("com.example.pid", [("bsn", VText "123")])])])
    1000 "reader" StatusSuccess Login.
Definition d0 : remote Device := Prelude.Remote fresh_device [].
Definition d1 : remote Device := (storage_open "platform" ex_random d0).2.
Definition d2 : remote Device := (insert_mdocs (λ _, "mdoc") (λ _ n, to_digits n) [[w_mdoc; w_mdoc2]] d1).2.
Definition d3 : remote Device := (increment_mdoc_copies_usage_count [to_digits 0] d2).2.
Definition d4 : remote Device := (log_wallet_event (λ _, "type") w_event d3).2.

Lemma w_uniform : uniform [[w_mdoc; w_mdoc2]].
Proof. repeat constructor. intros m m' Hm Hm'. assert (∀ x, x ∈ [w_mdoc; w_mdoc2] → m_doc_type x = "com.example.pid") as Hx; [|by rewrite !Hx].
  intros x [->|[->|[]%elem_of_nil]%elem_of_cons]%elem_of_cons; done. Qed.
Lemma w_step1 : storage_step d0 d1.
Proof. eapply step_call; [apply call_open|apply surjective_pairing]. Qed.
Lemma w_step2 : storage_step d1 d2.
Proof. eapply step_call; [apply call_insert_mdocs, w_uniform|apply surjective_pairing]. Qed.
Lemma w_step3 : storage_step d2 d3.
Proof. eapply step_call; [apply call_increment|apply surjective_pairing]. Qed.
Lemma w_step4 : storage_step d3 d4.
Proof. eapply step_call; [apply call_log|apply surjective_pairing]. Qed.
Lemma d3_ok : device_ok (contents d3).
Proof. eapply storage_step_ok, storage_step_ok, storage_step_ok; [apply w_step3|apply w_step2|apply w_step1|by split]. Qed.

(** The rows of the database after each call. *)
Definition rows_of (r : remote Device) : option (list (string * Z) * nat * nat) :=
  (λ t, ((λ c, (mc_mdoc_id c, disclosure_count c)) <$> mdoc_copies t, length (mdocs t), length (disclosure_events t))) <$> open_tables (contents r).
Lemma d4_rows : rows_of d4 = Some ([("mdoc", 1); ("mdoc", 0)], 1%nat, 1%nat).
Proof. vm_compute. reflexivity. Qed.
Lemma d3_open : is_Some (open_tables (contents d3)).
Proof.
  assert (is_Some (rows_of d3)) as Hrows by (vm_compute; eauto). unfold rows_of in Hrows. by apply fmap_is_Some in Hrows.
Qed.

Lemma storage_invariant_witness : ∃ t, open_tables (contents d4) = Some t ∧ tables_ok t ∧ length (disclosure_events t) = 1%nat ∧
  (fetch_wallet_events d4).1 ≠ Panic.
Proof.
  destruct (storage_invariant [] d4) as [Ht Hnp].
  { eapply rtc_l; [apply w_step1|]. eapply rtc_l; [apply w_step2|]. eapply rtc_l; [apply w_step3|]. apply rtc_once, w_step4. }
  pose proof d4_rows as Hrows. unfold rows_of in Hrows. apply fmap_Some in Hrows as (t & Hopen & Hrows). exists t. split; [done|].
  split; [|split; [congruence|]].
  - unfold open_tables in Hopen. destruct (is_open _); [|done]. destruct (db_file (contents d4)) as [[k t']|] eqn:Hf; [|done].
    injection Hopen as <-. by eapply Ht.
  - eapply Hnp; [apply call_fetch_events|apply surjective_pairing].
Defined.

Lemma reliable_contents r : faults r = [] → reliable (contents r) = r.
Proof. destruct r. cbn. by intros ->. Qed.

(** What the rows say about the copies. *)
Lemma rows_unused r t x y n m : rows_of r = Some ([(x, y); (x, 0)], n, m) → open_tables (contents r) = Some t →
  ∀ c, c ∈ mdoc_copies t → ∃ c', c' ∈ mdoc_copies t ∧ mc_mdoc_id c' = mc_mdoc_id c ∧ disclosure_count c' = 0.
Proof.
  unfold rows_of. intros Hrows Ht c Hc. rewrite Ht in Hrows. injection Hrows as Hrows _ _.
  destruct (mdoc_copies t) as [|c1 [|c2 [|]]]; simplify_eq/=. exists c2.
  split_and!; [by right; left| |done]. by apply elem_of_cons in Hc as [->|[->|[]%elem_of_nil]%elem_of_cons].
Qed.
Lemma d3_rows : rows_of d3 = Some ([("mdoc", 1); ("mdoc", 0)], 1%nat, 0%nat).
Proof. vm_compute. reflexivity. Qed.
Lemma d3_fetch : omap length (fetch_unique_mdocs_by_doctypes {["com.example.pid"]} d3).1 = Ok 1%nat.
Proof. vm_compute. reflexivity. Qed.

Lemma least_used_copies_witness : ∃ t l, open_tables (contents d3) = Some t ∧
  fetch_unique_mdocs_by_doctypes {["com.example.pid"]} d3 = (Ok l, d3) ∧ length l = 1%nat ∧
  ∀ s, s ∈ l → ∃ c, row_of t s c ∧ disclosure_count c = 0.
Proof.
  destruct d3_open as [t Ht]. exists t. pose proof d3_rows as Hrows. pose proof d3_ok as Hok. pose proof d3_fetch as Hlen.
  assert (faults d3 = []) as Hf by (vm_compute; reflexivity). generalize dependent d3. intros r Ht Hrows Hok Hlen Hf.
  destruct (least_used_copies (contents r) t {["com.example.pid"]}) as (l & Hl & Hd & Hsel & Hs); [by eapply device_ok_open|done|].
  rewrite (reliable_contents r Hf) in Hl. exists l. rewrite Hl in Hlen. split_and!; [done..|by injection Hlen|].
  intros s Hin. destruct (Hs s Hin) as (_ & c & Hc & _ & Hzero). exists c. split; [done|]. apply Hzero.
  destruct Hc as (Hc & _ & <- & _). by eapply rows_unused.
Defined.

Lemma history_faithful_witness : ∃ after, fetch_wallet_events (reliable (contents d4)) = (Ok after, reliable (contents d4)) ∧
  after ≡ₚ [w_event] ∧ did_share_data_with_relying_party "reader" (reliable (contents d4)) = (Ok true, reliable (contents d4)).
Proof.
  destruct d3_open as [t Ht].
  destruct (history_faithful (λ _, "type") w_event d3 d4 t) as (before & after & Hb & Ha & Hp & _ & _ & Hshare); [|done| |].
  - by eapply device_ok_open; [apply d3_ok|].
  - unfold d4. rewrite (surjective_pairing (log_wallet_event _ _ d3)). f_equal; vm_compute; reflexivity.
  - assert (before = []) as ->.
    { assert ((fetch_wallet_events (reliable (contents d3))).1 = Ok []) as Hnil by (vm_compute; reflexivity). rewrite Hb in Hnil. by injection Hnil. }
    exists after. split; [done|]. split; [done|]. rewrite Hshare. by rewrite (existsb_perm _ _ _ Hp).
Defined.

Definition ex_attributes : imap NameSpace (list Entry) := [(ADDRESS_DOCTYPE, [mkEntry "resident_city" (VText "Delft")])].
Lemma document_conversion_spec_witness : ∃ r mapping,
  document_attributes_from_mdoc_attributes ADDRESS_DOCTYPE ex_attributes true = Ok r ∧ length r.2 = 1%nat ∧
  im_get MDOC_DOCUMENT_MAPPING ADDRESS_DOCTYPE = Some mapping ∧ r = (ADDRESS_DOCTYPE, base.omap (shown (flat_attributes ex_attributes)) mapping).
Proof.
  assert (omap (λ r : string * DocumentAttributes, length r.2) (document_attributes_from_mdoc_attributes ADDRESS_DOCTYPE ex_attributes true) = Ok 1%nat)
    as Hr by (vm_compute; reflexivity).
  destruct (document_attributes_from_mdoc_attributes ADDRESS_DOCTYPE ex_attributes true) as [r| |] eqn:He; [|discriminate Hr..].
  apply document_conversion_spec in He as (mapping & Hm & _ & _ & _ & _ & Hshown); [|apply (bool_decide_unpack _); by vm_compute].
  exists r, mapping. injection Hr as Hr. split_and!; [reflexivity|assumption..].
Defined.

(** ** The account server as the wallet sees it *)
#[export] Instance pin_key_lib : PinKeyLib.
Proof.
  refine {|
    pin_hkdf ikm salt info len := if decide (0 ≤ len) then Some (replicate (Z.to_nat len) (foldl Z.add 0 info mod 256)) else None;
    key_of_scalar z := (to_digits z : SigningKey);
    limb_width := 64
  |}; [|by right].
  intros ikm salt info len out. case_decide; [|done]. intros [= <-]. rewrite length_replicate.
  split; [lia|]. apply Forall_replicate. apply Z.mod_pos_bound. lia.
Defined.

#[export] Instance GenerateKey_eq_dec : EqDecision GenerateKey.
Proof. solve_decision. Defined.
#[export] Instance GenerateKey_countable : Countable GenerateKey.
Proof. refine (inj_countable' identifiers mkGenerateKey _). by intros []. Defined.
#[export] Instance Sign_eq_dec : EqDecision Sign.
Proof. solve_decision. Defined.
#[export] Instance Sign_countable : Countable Sign.
Proof. refine (inj_countable' messages_with_identifiers mkSign _). by intros []. Defined.
Definition key_result_repr (c : InstructionResultClaims GenerateKeyResult) : list (string * string) * string * Z :=
  (public_keys (ir_result c), ir_iss c, ir_iat c).
Definition sign_result_repr (c : InstructionResultClaims SignResult) : list (list (string * N)) * string * Z :=
  (signatures (ir_result c), ir_iss c, ir_iat c).
Lemma key_result_round c : mkResultClaims (mkGenerateKeyResult _ (key_result_repr c).1.1) (key_result_repr c).1.2 (key_result_repr c).2 = c.
Proof. by destruct c as [[] ? ?]. Qed.
Lemma sign_result_round c : mkResultClaims (mkSignResult _ (sign_result_repr c).1.1) (sign_result_repr c).1.2 (sign_result_repr c).2 = c.
Proof. by destruct c as [[] ? ?]. Qed.
#[export] Instance key_result_eq_dec : EqDecision (InstructionResultClaims GenerateKeyResult).
Proof. refine (λ a b, cast_if (decide (key_result_repr a = key_result_repr b))); [|congruence]. rewrite <- (key_result_round a), <- (key_result_round b). congruence. Defined.
#[export] Instance key_result_countable : Countable (InstructionResultClaims GenerateKeyResult) :=
  inj_countable' key_result_repr (λ c, mkResultClaims (mkGenerateKeyResult _ c.1.1) c.1.2 c.2) key_result_round.
#[export] Instance sign_result_eq_dec : EqDecision (InstructionResultClaims SignResult).
Proof. refine (λ a b, cast_if (decide (sign_result_repr a = sign_result_repr b))); [|congruence]. rewrite <- (sign_result_round a), <- (sign_result_round b). congruence. Defined.
#[export] Instance sign_result_countable : Countable (InstructionResultClaims SignResult) :=
  inj_countable' sign_result_repr (λ c, mkResultClaims (mkSignResult _ c.1.1) c.1.2 c.2) sign_result_round.

(** A server that hands out challenges and is out of order otherwise. *)
#[export] Instance ex_account_client : AccountProviderClient := {|
  answer_registration_challenge _ _ := Ok "challenge";
  answer_register _ _ _ := Err ProviderNetworking;
  answer_instruction_challenge _ _ _ := Ok "challenge";
  answer_instruction _ _ _ _ := Err ProviderNetworking
|}.

#[export] Instance error_body_json : ErrorBodyJson.
Proof.
  refine {|
    JsonMap := option (Z * bool) * option Z;
    empty_map := (None, None);
    pin_data_to_map d := (Some (ip_attempts_left_in_round d, ip_is_final_round d), None);
    timeout_data_to_map d := (None, Some (time_left_in_ms d));
    pin_data_from_map m := (λ p : Z * bool, mkIncorrectPinData p.1 p.2) <$> m.1;
    timeout_data_from_map m := mkPinTimeoutData <$> m.2;
    body_to_string b := String "{"%char (to_bytes (match eb_type b with
      | EtUnexpected => 0 | EtChallengeValidation => 1 | EtRegistrationParsing => 2 | EtIncorrectPin => 3 | EtPinTimeout => 4
      | EtAccountBlocked => 5 | EtInstructionValidation => 6 end, eb_title b, eb_status b, eb_detail b, eb_extra b));
    body_from_str s := match s with
      | String "{"%char s =>
          (λ x : Z * option string * option Z * option string * (option (Z * bool) * option Z),
            mkErrorBody (match x.1.1.1.1 with
              | 0 => EtUnexpected | 1 => EtChallengeValidation | 2 => EtRegistrationParsing | 3 => EtIncorrectPin | 4 => EtPinTimeout
              | 5 => EtAccountBlocked | _ => EtInstructionValidation end) x.1.1.1.2 x.1.1.2 x.1.2 x.2) <$> of_bytes s
      | _ => None
      end
  |}.
  - by intros [].
  - by intros [].
  - intros [t ti s d x]. cbn. rewrite of_to_bytes. by destruct t.
  - done.
Defined.

Definition ex_ic : InstructionClient := mkInstructionClient _ [49; 50; 50; 49; 50; 50] ("hw" : SigningKey)
  (mkRegistrationData "salt" "certificate") "https://wp.example.com" ("server" : VerifyingKey).
Definition ex_phone : Phone unit := mkPhone d1 [] tt.
Definition ex_phone1 : Phone unit :=
  (send (I:=CheckPin) (R:=unit) Release (mkClientClock 100 100) ex_ic mkCheckPin ex_phone).2.
Lemma ex_phone1_sent : length (ph_account ex_phone1) = 2%nat.
Proof. vm_compute. reflexivity. Qed.
Lemma ex_phone_number : device_number (contents (ph_device ex_phone)) 0.
Proof. vm_compute. reflexivity. Qed.

Lemma sequence_numbers_increase_witness : message_number (ic_hw_privkey ex_ic) 100 <$> ph_account ex_phone1 = [Some 1; Some 2] ∧
  ∃ ns last, message_number (ic_hw_privkey ex_ic) 100 <$> ph_account ex_phone1 = Some <$> ns ∧ StronglySorted Z.lt ns ∧ Forall (λ n, 1 ≤ n ≤ last) ns ∧
    device_number (contents (ph_device ex_phone1)) last.
Proof.
  split; [vm_compute; reflexivity|].
  destruct (λ Hv, sequence_numbers_increase Release (ic_hw_privkey ex_ic) 100 Hv 1 ex_phone ex_phone1) as (msgs & ns & last & Hm & Hf & Hs & Hr & Hl).
  - reflexivity.
  - apply nsteps_once. eapply (step_check_pin Release (ic_hw_privkey ex_ic) (mkClientClock 100 100) ex_ic); [reflexivity|]. apply surjective_pairing.
  - lia.
  - exact ex_phone_number.
  - cbn [ex_phone ph_account app] in Hm. rewrite Hm. exists ns, last. split_and!; assumption.
Defined.
