(* ===== verification/WalletAppWitness.v ===== *)
(** * A wallet app, evaluated

    A wallet on the device of [WalletWitness] registers with an account server, is
    locked, unlocked and restarted, accepts an mdoc from an issuer, discloses to a
    verifier and runs into a PIN timeout: the theorems about the wallet app at
    these runs. *)
From stdpp Require Import base gmap strings list option sorting countable relations.
From Stdlib Require Import ZArith Lia.
From S2P Require Import Prelude IndexMap SessionStore Crypto Cbor Cose Engagement Jose Mdoc MdocSigning MdocFacts Holder HolderFacts Concrete.
From S2P Require Import Document PinPolicy Protocol PresentationExchange OpenId4vp Verifier VerifierWitness DisclosureSession HolderWitness.
From S2P Require Import Issuer IssuerWitness Signed WalletUsers AccountServer AccountServerWitness.
From S2P Require Import AccountClient PinValidation WalletStorage WalletStorageFacts WalletStorageQueries InstructionClient WalletWitness.
From S2P Require Import IssuanceSession IssuanceSessionFacts WalletSessions WalletApp WalletFlows WalletFrames WalletAppFacts WalletRuns WalletDisclosureFacts WalletSource.
Import Crates.

(** ** An issuance *)
Definition wa_rng (ns : NameSpace) (i : Z) : string := "0123456789abcdef0123456789abcdef".
Definition wa_unsigned : UnsignedMdoc := {|
  u_doc_type := "com.example.pid"; u_valid_from := tdate_from (10 * 1000000); u_valid_until := tdate_from (1000 * 1000000);
  u_attributes := [("com.example.pid", [mkEntry "name" (VText "De Bruijn")])]; u_copy_count := 1 |}.
Definition wa_signed : IssuerSigned :=
  match IssuerSigned_sign 5 wa_rng wa_unsigned (new_ec2_pub_key "device" "y") example_issuer with Ok s => s | _ => example_signed end.
Definition wa_preview : AttestationPreview := PreviewMsoMdoc wa_unsigned (certificate example_issuer).
#[export] Instance wa_issuer {EK} : VcMessageClient EK := {|
  answer_metadata _ url := Ok (mkIssuerMetadata url None (Some "https://i/batch"));
  answer_oauth_metadata _ url := Ok "https://i/token";
  answer_token _ _ _ _ := Ok (mkTokenResponseWithPreviews (TokenResponse_new "access" "nonce") [wa_preview], Some "dpop");
  answer_credentials _ _ _ _ _ := Ok [ResponseMsoMdoc wa_signed];
  answer_reject _ _ _ _ := Ok tt
|}.
Definition wa_session : HttpIssuanceSession := mkIssuanceSession "access" "nonce" [wa_preview] "https://i/" ("dpop" : SigningKey) (Some "dpop").
Definition wa_keys : KeyFactoryOps Peers unit SigningKey := {|
  kf_generate_new_multiple count := sret (replicate (Z.to_nat count) ("device" : SigningKey));
  kf_generate_existing _ vk := (vk : SigningKey);
  kf_sign_multiple_with_existing_keys l := sret ((λ mk : string * list SigningKey, (λ k, ecdsa_sign k mk.1) <$> mk.2) <$> l);
  kf_verifying_key := verifying_key;
  kf_identifier k := k;
  kf_key_type := Software
|}.
Definition wa_accepted := accept_issuance "j" 30 7 example_anchors wa_keys "https://i/" wa_session (mkPeers [] []).
Lemma wa_accepted_ok : is_ok wa_accepted.1 = true.
Proof. vm_compute. reflexivity. Qed.

(** ** The account server *)
(** It confirms every PIN at its address, signs nothing when asked for no
    signatures, and reports a timeout at another address. *)
Definition wa_timeout : AccountProviderError := ProviderResponse (ResponseAccount (AePinTimeout (mkPinTimeoutData 60000)) None).
#[export] Instance wa_account : AccountProviderClient := {|
  answer_registration_challenge _ _ := Ok "challenge";
  answer_register _ _ _ := Ok ex_certificate;
  answer_instruction_challenge _ _ _ := Ok "challenge";
  answer_instruction _ base endpoint _ :=
    if decide (base = "https://wp/") then
      Ok (ok_value (if decide (endpoint = "sign") then
        Jwt_sign (mkResultClaims (mkSignResult _ []) "wp" 100) header_with_kid ex_server_key
      else Jwt_sign (mkResultClaims tt "wp" 100) header_with_kid ex_server_key))
    else Err wa_timeout
|}.
#[export] Instance wa_digid : DigidSession := {|
  Digid := unit; digid_start _ := Ok (tt, "https://digid/"); into_token_request _ _ := Ok (mkTokenRequest (GrantPreAuthorizedCode "code") None None None)
|}.

(** ** A registered wallet *)
Definition wa_config (base : string) : WalletConfiguration := {|
  cf_account_base_url := base; cf_certificate_public_key := verifying_key ex_server_key;
  cf_instruction_result_public_key := verifying_key ex_server_key; cf_rp_trust_anchors := rp_anchors; cf_mdoc_trust_anchors := example_anchors;
  cf_pid_issuer_url := "https://i/"; cf_disclosure_base_uri := "wallet://disclosure"; cf_issuance_base_uri := "wallet://issuance" |}.
Definition wa_pin : list Z := [49; 50; 50; 49; 50; 50].
Definition wa_draws : RegisterDraws := mkRegisterDraws ex_hw "salt" 120 ("platform" : EncryptionKey) ex_random.
Definition wa0 : Wallet := new_wallet ex_hw (fresh_phone []) None None.
Definition wa1 : Wallet := (register Release (wa_config "https://wp/") wa_draws wa_pin wa0).2.
Definition wa2 : Wallet := (lock (E:=Empty_set) wa1).2.
Definition wa3 : Wallet := (unlock Release (wa_config "https://wp/") (mkClientClock 130 130) wa_pin wa2).2.
Definition wa_summary (w : Wallet) : bool * bool * nat * nat :=
  (has_registration w, w_is_locked w, length (account_log w), length (verifier_log w)).
Lemma wa_summaries : (wa_summary wa0, wa_summary wa1, wa_summary wa2, wa_summary wa3) =
  ((false, true, 0%nat, 0%nat), (true, false, 2%nat, 0%nat), (true, true, 2%nat, 0%nat), (true, false, 4%nat, 0%nat)).
Proof. vm_compute. reflexivity. Qed.

(** ** Runs *)
Abbreviation wa_show := HolderWitness.ex_show.
Lemma wa_keys_differ : KEY (D:=InstructionData) ≠ KEY (D:=RegistrationData).
Proof. done. Qed.
Lemma wa_previews_ok log url request dpop r :
  answer_token (EK:=RemoteEcdsaKeyError) log url request dpop = Ok r → valid_previews (attestation_previews r.1).
Proof. intros [= <-]. by repeat constructor. Qed.
Lemma wa0_started : started None (fresh_phone []) wa0.
Proof. eapply (started_first None ex_hw (rd_encryption_key wa_draws) ex_random). reflexivity. Qed.
Abbreviation wa_step := (wallet_step Release (wa_config "https://wp/") wa_show).
Lemma wa_step1 : wa_step wa0 wa1.
Proof. eapply step_op; [apply (op_register _ _ _ wa_draws wa_pin)|apply surjective_pairing]. Qed.
Lemma wa_step2 : wa_step wa1 wa2.
Proof. eapply step_op; [apply op_unsecured, uns_lock|apply surjective_pairing]. Qed.
Lemma wa_step3 : wa_step wa2 wa3.
Proof. eapply step_op; [apply (op_unlock _ _ _ (mkClientClock 130 130) wa_pin)|apply surjective_pairing]. Qed.
Lemma wa3_reachable : reachable Release (wa_config "https://wp/") wa_show [] wa3.
Proof. exists wa0. split; [apply wa0_started|]. eapply rtc_l; [apply wa_step1|]. eapply rtc_l; [apply wa_step2|]. apply rtc_once, wa_step3. Qed.

Lemma summary_registered w a b c : wa_summary w = (true, a, b, c) → ∃ r, w_registration w = Some r.
Proof. intros [= Hr _ _ _]. unfold has_registration in Hr. apply bool_decide_eq_true in Hr as [r ?]. by exists r. Qed.
Lemma wa3_registered : ∃ r, w_registration wa3 = Some r.
Proof. apply (summary_registered wa3 false 4 0). vm_compute. reflexivity. Qed.

Lemma wallet_invariant_witness : ∃ r, w_registration wa3 = Some r ∧ w_hw_store wa3 = Some (wr_hw_privkey r) ∧ is_open (device wa3) = true ∧
  keys_match (device wa3).
Proof.
  destruct wa3_registered as [r Hr]. exists r.
  destruct (wallet_invariant Release (wa_config "https://wp/") wa_show wa_keys_differ wa_previews_ok [] wa3 wa3_reachable) as (_ & Hreg & _).
  destruct (Hreg r Hr) as (Hhw & Ho & Hk & _). split_and!; assumption.
Defined.

Definition wa4 : outcome StorageError Wallet :=
  (init_registration ex_hw (rd_encryption_key wa_draws) "other" (exit_process (w_phone wa3)) (w_hw_store wa3)).1.
Lemma wa3_no_faults : faults (ph_device (w_phone wa3)) = [].
Proof. vm_compute. reflexivity. Qed.
Lemma restart_restores_registration_witness : ∃ r w, w_registration wa3 = Some r ∧ wa4 = Ok w ∧ w_registration w = Some r ∧ w_is_locked w = true.
Proof.
  destruct wa3_registered as [r Hr].
  destruct (restart_restores_registration Release (wa_config "https://wp/") wa_show wa_keys_differ wa_previews_ok [] wa3 r wa3_reachable Hr) as [Hs Hok].
  specialize (Hok wa3_no_faults ex_hw (rd_encryption_key wa_draws) "other"). unfold wa4.
  destruct (init_registration _ _ _ _ _) as [[w|e|] p] eqn:Hi; [|discriminate Hok..]. exists r, w.
  destruct (Hs w) as (Hreg & Hl & _); [eapply started_first; exact Hi|]. split_and!; [exact Hr|reflexivity|exact Hreg|exact Hl].
Defined.

Lemma locked_wallet_witness : ph_peer (w_phone wa3) = ph_peer (w_phone wa2) ∧
  unlocked_by Release (wa_config "https://wp/") wa2 wa3.
Proof.
  destruct (locked_wallet Release (wa_config "https://wp/") wa_show wa_keys_differ wa_previews_ok
    (unlock Release (wa_config "https://wp/") (mkClientClock 130 130) wa_pin) wa2
    (unlock Release (wa_config "https://wp/") (mkClientClock 130 130) wa_pin wa2).1 wa3) as (_ & _ & Hp & Hu).
  - apply (op_unlock _ _ _ (mkClientClock 130 130) wa_pin).
  - apply surjective_pairing.
  - vm_compute. reflexivity.
  - split; [exact Hp|]. apply Hu. vm_compute. reflexivity.
Defined.

(** ** A disclosure *)
Definition wa_proposal : DisclosureProposal Uuid :=
  mkProposal (mkCommonData _ (certificate ex_rp) ex_reg ex_ar SameDevice) [] "mdoc_nonce".
Definition wa_disclosing : Wallet := set_disclosure_session (Some (SessionProposal wa_proposal)) wa3.
Definition wa_dr : DeviceResponse := match from_proposed_documents (I:=Uuid) [] with Ok d => d | _ => mkDeviceResponse None None 1 end.
Definition wa_response : VpAuthorizationResponse :=
  match VpAuthorizationResponse_new (E:=AuthResponseError) "random" wa_dr ex_ar with
  | Ok r => r | _ => mkVpResponse [] (mkSubmission "" "" []) None end.
#[export] Instance wa_response_json : ResponseJson.
Proof.
  refine {|
    response_to_value r := if decide (r = wa_response) then Some ("response" : JwtPayload) else None;
    response_from_value _ := Some wa_response
  |}.
  intros r p. destruct (decide (r = wa_response)) as [->|_]; [intros _; reflexivity|intros [=]].
Defined.
Definition wa_event (id : string) : NewEvent := mkNewEvent id 200 (mkEventDraws (λ _, id) 300).
Definition wa_accept : AcceptDraws :=
  mkAcceptDraws (mkKeyDraws (mkClientClock 140 140) (mkClientClock 150 150) (λ _, [])) "random" "rnd" (wa_event "e1") (wa_event "e2") (wa_event "e3").
Definition wa_disclosed (base : string) := accept_disclosure Release (wa_config base) wa_accept wa_pin wa_disclosing.
Definition response_of {E A} (r : outcome E A * Wallet) : bool * bool * nat * bool :=
  (is_ok r.1, bool_decide (is_Some (w_disclosure_session r.2)), length (verifier_log r.2), w_is_locked r.2).
Lemma wa_disclosed_ok : response_of (wa_disclosed "https://wp/") = (true, false, 1%nat, false).
Proof. vm_compute. reflexivity. Qed.
Lemma wa_disclosed_timeout : response_of (wa_disclosed "https://other/") = (false, false, 1%nat, true).
Proof. vm_compute. reflexivity. Qed.

Lemma wa3_tables : ∃ t, open_tables (device wa3) = Some t ∧ tables_ok t.
Proof.
  destruct wa3_registered as [r Hr]. pose proof (reachable_ok _ _ _ wa_keys_differ wa_previews_ok _ _ wa3_reachable) as Hok.
  destruct (wo_registered _ Hok _ Hr) as (_ & Ho & _). destruct (wo_keys _ Hok Ho) as (? & ? & ? & k & t & _ & _ & _ & _ & Hdb).
  exists t. assert (open_tables (device wa3) = Some t) as Ht by (unfold open_tables; by rewrite Ho, Hdb).
  split; [exact Ht|]. eapply device_ok_open; [apply Hok|exact Ht].
Qed.
Lemma response_value {E A} (r : outcome E A * Wallet) a b c : response_of r = (true, a, b, c) → ∃ v, r.1 = Ok v.
Proof. intros [= Hok _ _ _]. destruct r as [[v| |] w]; [by exists v|discriminate Hok..]. Qed.
Lemma disclosure_counted_and_logged_witness : ∃ t t', open_tables (device wa3) = Some t ∧
  open_tables (device (wa_disclosed "https://wp/").2) = Some t' ∧ length (disclosure_events t') = S (length (disclosure_events t)).
Proof.
  destruct wa3_registered as [r Hr]. destruct wa3_tables as (t & Ht & Hok).
  destruct (disclosure_counted_and_logged Release (wa_config "https://wp/") wa_keys_differ wa_accept wa_pin wa_disclosing
    (wa_disclosed "https://wp/").1 (wa_disclosed "https://wp/").2 r wa_proposal t) as (t' & msgs & Ht' & _ & _ & _ & _ & Hev & _).
  - apply surjective_pairing.
  - exact Hr.
  - vm_compute. reflexivity.
  - reflexivity.
  - exact Ht.
  - exact Hok.
  - destruct (response_value _ _ _ _ wa_disclosed_ok) as [url Hurl]. destruct (Hev url Hurl) as (_ & _ & _ & m & Hm & _).
    exists t, t'. split_and!; [exact Ht|exact Ht'|]. rewrite Hm, length_app. cbn. lia.
Defined.

Lemma wa_timed_out : (wa_disclosed "https://other/").1 = Err (DInstruction (WTimeout 60000)).
Proof. vm_compute. reflexivity. Qed.
Lemma pin_timeout_ends_access_witness : w_is_locked (wa_disclosed "https://other/").2 = true ∧
  w_disclosure_session (wa_disclosed "https://other/").2 = None.
Proof.
  destruct wa3_tables as (t & Ht & _).
  destruct (pin_timeout_ends_access Release (wa_config "https://other/") wa_keys_differ) as [Hd _].
  destruct (Hd wa_accept wa_pin wa_disclosing (WTimeout 60000) (wa_disclosed "https://other/").2 t) as [Hend _].
  - rewrite <- wa_timed_out. apply surjective_pairing.
  - exact Ht.
  - exact Hend.
Defined.

(** ** The mdocs of the wallet *)
Lemma wallet_source_contract_witness : ∃ t gs, open_tables (contents d3) = Some t ∧
  wallet_data_source d3 {["com.example.pid"]} = Some gs ∧ groups_ok {["com.example.pid"]} gs.
Proof.
  destruct d3_open as [t Ht].
  destruct (wallet_source_contract d3 t {["com.example.pid"]} d3_ok Ht) as (_ & Hgs & Hsome).
  destruct (Hsome eq_refl) as [gs Hg]. exists t, gs. split_and!; [exact Ht|exact Hg|]. apply (Hgs gs Hg).
Defined.
