(* ===== verification/PidWitness.v ===== *)
(** * A person of the personal records, logged in and shown in a wallet

    A concrete identity provider, personal records database and certificates: the
    two mdocs of a person as the wallet shows them, and the login with DigiD that
    they are offered for. *)
From stdpp Require Import base gmap strings list option pretty.
From Stdlib Require Import ZArith Lia Ascii.
From S2P Require Import Prelude IndexMap SessionStore Crypto Jose Cbor Cose Engagement Concrete Mdoc MdocSigning MdocFacts Holder Issuer.
From S2P Require Import Protocol Configuration VerifierWitness Document PidIssuer Digid WalletSessions WalletApp WalletFlows PidIssuerFacts.
Import Crates.

#[local] Instance pid_dates : NaiveDateLib := {| NaiveDate := string; parse_naive_date := Some |}.
#[local] Instance pid_formats : NaiveDateFormat := {| format_naive_date d := d; parse_format_naive_date d := eq_refl |}.
(** The certificates carry the registration of an issuer. *)
#[local] Instance pid_x509 : X509Lib := {|
  TrustAnchor := string;
  EndEntityCert := string;
  end_entity_from_der := Some;
  verify_for_usage c anchors _ _ eku := bool_decide (c ∈ anchors) && bool_decide (eku = EXTENDED_KEY_USAGE_MDL);
  x509_from_der s := Some {| public_key_raw := s; common_names := [Some s]; extended_key_usage := Some (Some [EXTENDED_KEY_USAGE_MDL]);
    extensions := [(OID_EXT_ISSUER_AUTH, s)]; subject_alternative_name := Some (Some [Some s]) |};
  from_public_key_der := Some
|}.
Definition pid_registration (name : string) : IssuerRegistration :=
  mkIssuerRegistration (mkOrganization [("nl", name)] [] [] [] None None None None None None None).
#[local] Instance pid_registrations : RegistrationLib := {|
  oid_from l := l; utf8_string_decode := Some;
  reader_registration_from_str _ := None;
  issuer_registration_from_str s := Some (pid_registration s)
|}.

Definition ex_person : BrpPerson :=
  mkBrpPerson "999991772" GenderV (mkBrpName (Some "Willeke Liselotte") (Some "de") "Bruijn") "1997-05-10" "Nederland" "Delft" 27
    (mkBrpAddress None (Some "Turfmarkt") 147 "2511 DP" "Den Haag" "Nederland") [mkBrpPartner Huwelijk (Some tt) None].
Definition ex_bsn (r : TokenRequest) : outcome string string :=
  if decide (TokenRequest_code r = "code") then Ok "999991772" else Err "invalid_grant".
Definition ex_brp (r : GetByBsnRequest) : outcome string (list BrpPerson) :=
  Ok (if decide (gb_bsn r = ["999991772"]) then [ex_person] else []).
Definition ex_certificates : imap string Certificate := [(MOCK_PID_DOCTYPE, "pid issuer"); (MOCK_ADDRESS_DOCTYPE, "address issuer")].
Definition ex_instants : PidInstants := mkInstants 1000000 1000001 1000002 1000003.
Definition ex_token_request : TokenRequest := mkTokenRequest (GrantPreAuthorizedCode "code") None None None.
Definition ex_session : SessionState Created := mkSessionState (mkCreated None) "token" 0.

Lemma pid_shown_to_user_witness : ∃ previews pid address,
  pid_attributes ex_bsn ex_brp ex_certificates ex_instants ex_session ex_token_request = Ok previews ∧
  try_map preview_document previews = Ok [pid; address] ∧
  shown_values pid = shown_pid ex_person "Willeke Liselotte" ∧
  shown_values address = [("resident_street", AString "Turfmarkt"); ("resident_house_number", AString "147");
    ("resident_postal_code", AString "2511 DP"); ("resident_city", AString "Den Haag"); ("resident_country", AString "Nederland")] ∧
  sd_issuer_registration address = pid_registration "address issuer".
Proof.
  destruct (pid_shown_to_user ex_bsn ex_brp ex_certificates ex_instants ex_session ex_token_request "999991772" ex_person []
    "pid issuer" "address issuer" (pid_registration "pid issuer") (pid_registration "address issuer"))
    as (previews & Hp & _ & pid & address & Ht & _ & Hs1 & _ & _ & Hs2 & Hr);
    [reflexivity|reflexivity|reflexivity|reflexivity|reflexivity|reflexivity|].
  exists previews, pid, address. split_and!; [exact Hp|exact Ht|exact Hs1|rewrite Hs2; reflexivity|exact Hr].
Defined.

(** * A login with DigiD *)
(** ** URLs and codecs *)
Fixpoint cut_query (s : string) : string * option string :=
  match s with
  | EmptyString => ("", None)
  | String a r => if decide (a = "?"%char) then ("", Some r) else let c := cut_query r in (String a c.1, c.2)
  end.
Lemma cut_query_append u q : (cut_query ((cut_query u).1 +:+ "?" +:+ q)).2 = Some q.
Proof.
  induction u as [|a u IH]; [done|]. cbn [cut_query]. case_decide as Ha; [done|]. cbn [fst].
  change (String a (cut_query u).1 +:+ "?" +:+ q) with (String a ((cut_query u).1 +:+ "?" +:+ q)). cbn [cut_query]. rewrite decide_False by done. exact IH.
Qed.
#[local] Instance digid_url_lib : OidcUrl := {|
  oidc_url_parse := Some;
  oidc_url_query u := (cut_query u).2;
  oidc_set_query u q := (cut_query u).1 +:+ "?" +:+ q;
  append_pair u k v := u +:+ "&" +:+ k +:+ "=" +:+ v;
  query_pairs u := match (cut_query u).2 with Some q => [("q", q)] | None => [] end;
  query_set_query := cut_query_append
|}.
#[local] Instance digid_joins : UrlJoin := {| url_path_is_dir _ := true; url_push_slash u := u; url_join base s := Some (base +:+ s) |}.
#[local] Instance digid_headers : HttpHeaders.
Proof. by refine {| header_byte _ := true; visible_byte _ := true |}. Defined.

Definition ex_rnd : OidcRandom := mkOidcRandom "s" "n" "verifier".
Definition ex_oidc : OidcConfig := mkOidcConfig "idp/" "idp/auth" "idp/token" (Some "idp/userinfo") "idp/jwks" None.
Definition ex_auth_request : AuthorizationRequest :=
  mkAuthorizationRequest [Code] "wallet" (Some "app://return") (Some (b64_encode "s")) None None
    (Some (S256 (b64_encode (sha256 "verifier")))) None (Some (b64_encode "n")) None.
#[local] Instance digid_codec : OidcCodec.
Proof.
  refine {|
    Jwks := string; TokenError := string; BearerError := string;
    oidc_config_from_json s := if decide (s = "metadata") then Some ex_oidc else None;
    jwks_from_json := Some;
    token_response_from_json s := Some (mkTokenResponse s Bearer None None None None None None);
    token_error_from_json := Some; bearer_error_from_json := Some;
    auth_request_to_string r := if decide (r = ex_auth_request) then Some "request" else None;
    auth_request_from_str s := if decide (s = "request") then Some ex_auth_request else None;
    auth_response_from_str s := if decide (s = "ok") then Some (mkAuthorizationResponse "code" (Some (b64_encode "s"))) else None;
    auth_error_from_str _ := None; saml_redirect_from_str _ := None; redirect_parameters_to_string _ := None;
    return_parameters_from_str _ := None; saml_return_to_string _ := None
  |}.
  intros r s. by case_decide as Hr; [intros [= <-]; rewrite Hr|].
Defined.
(** An encrypted token is its content, signed by the provider. *)
#[local] Instance digid_jose : JoseLib := {|
  DecryptionKey := string; UserInfoClaims := string; claims_bsn c := c;
  jwe_deserialize_compact s key := Some (s, Some A128CBC_HS256);
  decode_with_jwks s keys alg := if decide (keys = "keys") then Some s else None;
  registered_validate _ := true; jwk_from_json := Some; decrypter_from_jwk := Some
|}.

(** ** The identity provider *)
Definition ex_granted (code : AuthorizationCode) : option (AuthorizationRequest * string) :=
  if decide (code = "code") then Some (ex_auth_request, "999991772") else None.
Definition ex_token_of (token : AccessToken) : option string := if decide (token = "at") then Some "999991772" else None.
Definition ex_grants (tr : TokenRequest) : bool :=
  match grant_type tr with GrantAuthorizationCode c => bool_decide (c = "code") | _ => false end &&
  bool_decide (code_verifier tr = Some "verifier") && bool_decide (client_id tr = Some "wallet") && bool_decide (redirect_uri tr = Some "app://return").
Definition ex_idp : Network := {|
  net_get u := Ok (mkHttpReply 200 None (if decide (u = "idp/jwks") then "keys" else "metadata"));
  net_post_form u tr := Ok (if ex_grants tr then mkHttpReply 200 None "at" else mkHttpReply 400 None "invalid_grant");
  net_post_bearer u token := Ok match ex_token_of token with Some bsn => mkHttpReply 200 None bsn | None => mkHttpReply 401 None "" end
|}.
Definition ex_openid_client : OpenIdClient := mkOpenIdClient "idp/" "key".
Lemma ex_idp_checks : idp_checks_token_requests ex_idp ex_openid_client ex_granted ex_token_of.
Proof.
  intros c tr reply response _ [= <-]. destruct (ex_grants tr) eqn:Hg; [|done]. intros _ [= <-].
  unfold ex_grants in Hg. destruct tr as [[code|code] v cl ru]; [|done]. cbn [grant_type code_verifier client_id redirect_uri] in Hg |- *.
  apply andb_true_iff in Hg as [Hg Hru%bool_decide_eq_true]. apply andb_true_iff in Hg as [Hg Hcl%bool_decide_eq_true].
  apply andb_true_iff in Hg as [Hcode%bool_decide_eq_true Hv%bool_decide_eq_true]. subst.
  exists "code", ex_auth_request, "999991772", "verifier". by split_and!.
Qed.
Lemma ex_idp_signs : idp_signs_userinfo ex_idp ex_openid_client ex_token_of.
Proof.
  intros c jwks jws token claims endpoint reply _ _ _ [= <-]. destruct (ex_token_of token) as [bsn|]; [|done]. intros _ Hd. vm_compute in Hd. injection Hd as <-.
  unfold decode_with_jwks. cbn. case_decide; [|done]. by intros [= <-].
Qed.

(** ** A login in the browser *)
Definition ex_digid_config : PidIssuanceConfiguration := mkPidIssuanceConfiguration "issuer" "idp/" "wallet" [] None.
Definition ex_digid_session : HttpDigidSession S256PkcePair :=
  mkHttpDigidSession (mkHttpOidcClient ex_oidc (Some "keys") "wallet" "app://return" (pkce_generate "verifier") (b64_encode "s") (b64_encode "n")) None.
Definition ex_digid_tr : TokenRequest := mkTokenRequest (GrantPreAuthorizedCode "code") (Some "verifier") (Some "wallet") (Some "app://return").
Definition ex_digid_previews : list AttestationPreview :=
  match pid_attributes (OpenIdClient_bsn ex_idp ex_openid_client) ex_brp ex_certificates ex_instants ex_session ex_digid_tr with Ok l => l | _ => [] end.
Definition ex_digid : DigidSession := http_digid "app://" ex_idp (λ _, ex_rnd) ex_digid_config "app://return".
Lemma pid_of_logged_in_user_witness : ∃ request bsn,
  digid_start (DigidSession:=ex_digid) "random" = Ok (ex_digid_session, "idp/auth?request") ∧
  length ex_digid_previews = 2%nat ∧ ex_granted "code" = Some (request, bsn) ∧
  ar_code_challenge request = ar_code_challenge (auth_request (oidc_client ex_digid_session)).
Proof.
  destruct (pid_of_logged_in_user ex_idp ex_openid_client ex_granted ex_token_of ex_brp ex_certificates "app://" ex_idp (λ _, ex_rnd) ex_digid_config "app://return" "random"
    ex_digid_session "idp/auth?request" "app://return?ok" ex_digid_tr ex_instants ex_session ex_digid_previews)
    as (_ & _ & request & bsn & _ & _ & _ & _ & _ & _ & _ & Hg & Hc & _).
  - exact ex_idp_checks.
  - exact ex_idp_signs.
  - reflexivity.
  - reflexivity.
  - reflexivity.
  - exists request, bsn. split; [reflexivity|]. split; [reflexivity|]. split; [exact Hg|exact Hc].
Defined.
