(* ===== verification/HttpServer.v ===== *)
(** * The HTTP layer of the wallet server

    Models [openid4vc/src/errors.rs] (the error codes of the endpoints and the
    statuses that they are sent with), [wallet_server/src/errors.rs] and the part
    of [wallet_common/src/http_error.rs] that makes responses of errors,
    [wallet_server/src/verifier.rs] and [wallet_server/src/issuer.rs] (the routes
    and handlers of the endpoints), [wallet_server/src/server] (which listener
    serves which routes, and who may use them) and the settings that the servers
    are made of.

    A handler runs on the session store and gives a response; a handler that
    panics gives none, and its connection is closed.  The crate [axum] with its
    extractors, and the texts of JSON and of forms, are the classes [Axum] and
    [JsonText]; what a body says is known by what the extractor of the handler
    makes of it. *)
From stdpp Require Import base gmap strings list option.
From Stdlib Require Import ZArith Lia.
From S2P Require Import Prelude IndexMap SessionStore Crypto Jose Cbor Cose Engagement Mdoc MdocSigning Protocol.
From S2P Require Import PresentationExchange OpenId4vp Issuer Verifier DisclosureSession IssuanceSession.

(** ** Error codes ([openid4vc::errors]) *)

(** [ErrorStatusCode], with the name that [Serialize] writes for a code. *)
Class ErrorStatusCode (T : Type) := {
  status_code : T → Z;
  code_name : T → string
}.

Definition BAD_REQUEST : Z := 400.
Definition UNAUTHORIZED : Z := 401.
Definition FORBIDDEN : Z := 403.
Definition NOT_FOUND : Z := 404.
Definition METHOD_NOT_ALLOWED : Z := 405.
Definition INTERNAL_SERVER_ERROR : Z := 500.

Inductive CredentialErrorCode :=
  | CeInvalidCredentialRequest | CeUnsupportedCredentialType | CeUnsupportedCredentialFormat | CeInvalidProof
  | CeInvalidEncryptionParameters | CeInvalidRequest | CeInvalidToken | CeInsufficientScope | CeServerError.
(** [From<CredentialRequestError> for ErrorResponse<CredentialErrorCode>] *)
Definition credential_error_code (err : CredentialRequestError) : CredentialErrorCode :=
  match err with
  | CredentialIssuanceError (Issuer.SessionStoreFailed _) | CoseKeyConversion _ | MissingPrivateKey _ | AttestationSigning _ => CeServerError
  | CredentialIssuanceError _ | UseBatchIssuance => CeInvalidRequest
  | Unauthorized | MalformedToken => CeInvalidToken
  | PopUnsupportedJwtAlgorithm _ _ | PopMissingJwk | PopIncorrectNonce | PopJwtDecodingFailed | PopJwkConversion _
  | MissingCredentialRequestPoP => CeInvalidProof
  | DoctypeMismatch | DoctypeNotOffered _ => CeInvalidCredentialRequest
  | UnsupportedCredentialFormat _ => CeUnsupportedCredentialFormat
  end.
#[global] Instance credential_status_code : ErrorStatusCode CredentialErrorCode := {|
  status_code c := match c with
    | CeInvalidCredentialRequest | CeUnsupportedCredentialType | CeUnsupportedCredentialFormat | CeInvalidProof
    | CeInvalidEncryptionParameters | CeInvalidRequest => BAD_REQUEST
    | CeServerError => INTERNAL_SERVER_ERROR
    | CeInvalidToken => UNAUTHORIZED
    | CeInsufficientScope => FORBIDDEN
    end;
  code_name c := match c with
    | CeInvalidCredentialRequest => "invalid_credential_request"
    | CeUnsupportedCredentialType => "unsupported_credential_type"
    | CeUnsupportedCredentialFormat => "unsupported_credential_format"
    | CeInvalidProof => "invalid_proof"
    | CeInvalidEncryptionParameters => "invalid_encryption_parameters"
    | CeInvalidRequest => "invalid_request"
    | CeInvalidToken => "invalid_token"
    | CeInsufficientScope => "insufficient_scope"
    | CeServerError => "server_error"
    end
|}.

Inductive TokenErrorCode :=
  | TeInvalidRequest | TeInvalidClient | TeInvalidGrant | TeUnauthorizedClient | TeUnsupportedGrantType | TeInvalidScope
  | TeAuthorizationPending | TeSlowDown | TeServerError.
(** [From<TokenRequestError> for ErrorResponse<TokenErrorCode>] *)
Definition token_error_code (err : TokenRequestError) : TokenErrorCode :=
  match err with
  | TokenIssuanceError (Issuer.SessionStoreFailed _) | AttributeServiceFailed => TeServerError
  | TokenIssuanceError _ => TeInvalidRequest
  | UnsupportedTokenRequestType => TeUnsupportedGrantType
  end.
#[global] Instance token_status_code : ErrorStatusCode TokenErrorCode := {|
  status_code c := match c with
    | TeInvalidRequest | TeInvalidGrant | TeUnauthorizedClient | TeUnsupportedGrantType | TeInvalidScope
    | TeAuthorizationPending | TeSlowDown => BAD_REQUEST
    | TeInvalidClient => UNAUTHORIZED
    | TeServerError => INTERNAL_SERVER_ERROR
    end;
  code_name c := match c with
    | TeInvalidRequest => "invalid_request"
    | TeInvalidClient => "invalid_client"
    | TeInvalidGrant => "invalid_grant"
    | TeUnauthorizedClient => "unauthorized_client"
    | TeUnsupportedGrantType => "unsupported_grant_type"
    | TeInvalidScope => "invalid_scope"
    | TeAuthorizationPending => "authorization_pending"
    | TeSlowDown => "slow_down"
    | TeServerError => "server_error"
    end
|}.

Inductive GetRequestErrorCode := GrInvalidRequest | GrExpiredEphemeralId | GrExpiredSession | GrUnknownSession | GrServerError.
(** [From<GetAuthRequestError> for ErrorResponse<GetRequestErrorCode>] *)
Definition get_request_error_code (err : GetAuthRequestError) : GetRequestErrorCode :=
  match err with
  | ExpiredEphemeralId _ => GrExpiredEphemeralId
  | GSession SessionExpired => GrExpiredSession
  | GSession (Verifier.UnknownSession _) => GrUnknownSession
  | EncryptionKey | AuthRequest _ | GJwt _ | GReturnUrlConfigurationMismatch | GUnknownUseCase _
  | GSession (Verifier.SessionStoreFailed _) => GrServerError
  | QueryParametersMissing | QueryParametersDeserialization | InvalidEphemeralId _
  | GSession Verifier.UnexpectedState => GrInvalidRequest
  end.
#[global] Instance get_request_status_code : ErrorStatusCode GetRequestErrorCode := {|
  status_code c := match c with
    | GrServerError => INTERNAL_SERVER_ERROR
    | GrExpiredSession | GrUnknownSession => NOT_FOUND
    | GrInvalidRequest => BAD_REQUEST
    | GrExpiredEphemeralId => UNAUTHORIZED
    end;
  code_name c := match c with
    | GrInvalidRequest => "invalid_request"
    | GrExpiredEphemeralId => "expired_ephemeral_id"
    | GrExpiredSession => "expired_session"
    | GrUnknownSession => "unknown_session"
    | GrServerError => "server_error"
    end
|}.

Inductive PostAuthResponseErrorCode := PaInvalidRequest | PaExpiredSession | PaUnknownSession | PaServerError.
(** [From<PostAuthResponseError> for ErrorResponse<PostAuthResponseErrorCode>] *)
Definition post_auth_response_error_code (err : PostAuthResponseError) : PostAuthResponseErrorCode :=
  match err with
  | PSession SessionExpired => PaExpiredSession
  | PSession (Verifier.SessionStoreFailed _) => PaServerError
  | PSession (Verifier.UnknownSession _) => PaUnknownSession
  | AuthResponse _ | PSession Verifier.UnexpectedState => PaInvalidRequest
  end.
#[global] Instance post_auth_response_status_code : ErrorStatusCode PostAuthResponseErrorCode := {|
  status_code c := match c with
    | PaExpiredSession | PaUnknownSession => NOT_FOUND
    | PaServerError => INTERNAL_SERVER_ERROR
    | PaInvalidRequest => BAD_REQUEST
    end;
  code_name c := match c with
    | PaInvalidRequest => "invalid_request"
    | PaExpiredSession => "expired_session"
    | PaUnknownSession => "unknown_session"
    | PaServerError => "server_error"
    end
|}.

(** The codes for relying parties, which are sent as [HttpJsonErrorBody] *)
Inductive VerificationErrorCode := VeServerError | VeInvalidRequest | VeUnknownSession | VeNonce | VeSessionState.
(** [HttpJsonErrorType::title] *)
Definition verification_title (c : VerificationErrorCode) : string :=
  match c with
  | VeServerError => "Internal server error occurred"
  | VeInvalidRequest => "Invalid request"
  | VeUnknownSession => "Unknown session"
  | VeNonce => "Redirect URI nonce incorrect or missing"
  | VeSessionState => "Session is not in the required state"
  end.
#[global] Instance verification_status_code : ErrorStatusCode VerificationErrorCode := {|
  status_code c := match c with
    | VeServerError => INTERNAL_SERVER_ERROR
    | VeUnknownSession => NOT_FOUND
    | VeInvalidRequest | VeSessionState => BAD_REQUEST
    | VeNonce => UNAUTHORIZED
    end;
  code_name c := match c with
    | VeServerError => "server_error"
    | VeInvalidRequest => "invalid_request"
    | VeUnknownSession => "unknown_session"
    | VeNonce => "nonce"
    | VeSessionState => "session_state"
    end
|}.
(** [From<VerificationError> for VerificationErrorCode] *)
Definition verification_error_code (err : VerifierError) : VerificationErrorCode :=
  match err with
  | VSession SessionExpired | VSession Verifier.UnexpectedState | SessionNotDone => VeSessionState
  | VSession (Verifier.UnknownSession _) => VeUnknownSession
  | VSession (Verifier.SessionStoreFailed _) | UrlEncoding => VeServerError
  | UnknownUseCase _ | ReturnUrlConfigurationMismatch | NoItemsRequests | VMissingSAN | VCertificate _ => VeInvalidRequest
  | RedirectUriNonceMismatch _ | RedirectUriNonceMissing => VeNonce
  end.

(** [MetadataError] of the issuer *)
Inductive MetadataError := Metadata.
#[global] Instance metadata_status_code : ErrorStatusCode MetadataError := {|
  status_code _ := INTERNAL_SERVER_ERROR;
  code_name _ := "metadata"
|}.

(** The conversions wrap the code with the text of the error. *)
Definition into_error_response {E T} (code : E → T) (show : E → string) (err : E) : ErrorResponse T :=
  mkErrorResponse (code err) (Some (show err)) None.

(** ** Requests and responses *)

(** Methods; a [HEAD] request is answered like [GET] without the body, so it is not
    kept apart.  The values of a header; one that is not text is
    [None]. *)
Definition HeaderValues : Type := list (option string).
Inductive Method := MGet | MPost | MDelete | MOptions | MOther.
(** A body with its content type *)
Record Body := mkBody { content_type : option string; body_text : string }.
(** The path is the list of its decoded segments. *)
Record Request := mkRequest {
  rq_method : Method;
  rq_path : list string;
  rq_query : option string;
  rq_authorization : HeaderValues;
  rq_dpop : HeaderValues;
  rq_body : Body
}.
Record Response := mkResponse {
  rs_status : Z;
  rs_headers : list (string * string);
  rs_body : string
}.

(** [serde_json] on objects whose fields are texts or [null] *)
Definition flat (l : list (string * option string)) : Json := JObject (prod_map id (from_option JString JNull) <$> l).
Class JsonText := {
  json_to_string : Json → string;
  json_from_str : string → option Json;
  json_not_empty l : json_to_string (flat l) ≠ "";
  json_round_trip l : json_from_str (json_to_string (flat l)) = Some (flat l)
}.

Definition json_headers : list (string * string) := [("content-type", "application/json")].
Definition json_response `{!JsonText} (status : Z) (j : Json) : Response := mkResponse status json_headers (json_to_string j).

(** ** Errors as responses ([wallet_server::errors]) *)

(** [ErrorResponse] of the server, with [new] and [with_uri] *)
Record ServerErrorResponse (T : Type) := mkServerErrorResponse {
  er_error_response : ErrorResponse T;
  er_redirect_uri : option string
}.
Arguments mkServerErrorResponse {T}.
Arguments er_error_response {T}.
Arguments er_redirect_uri {T}.
Definition ErrorResponse_new {T} (err : ErrorResponse T) : ServerErrorResponse T := mkServerErrorResponse err None.
Definition ErrorResponse_with_uri {E T} (into : E → ErrorResponse T) (err : WithRedirectUri E) : ServerErrorResponse T :=
  mkServerErrorResponse (into (wr_error err)) (wr_redirect_uri err).

(** [Serialize]: the fields of the inner response, and those that are present *)
Definition present (k : string) (v : option string) : list (string * option string) :=
  match v with Some s => [(k, Some s)] | None => [] end.
Definition error_response_fields {T} `{!ErrorStatusCode T} (e : ServerErrorResponse T) : list (string * option string) :=
  [("error", Some (code_name (error (er_error_response e))))] ++
  present "error_description" (error_description _ (er_error_response e)) ++
  present "error_uri" (error_uri _ (er_error_response e)) ++
  present "redirect_uri" (er_redirect_uri e).

Section Responses.
Context `{!JsonText}.
(** [IntoResponse for ErrorResponse] *)
Definition error_into_response {T} `{!ErrorStatusCode T} (e : ServerErrorResponse T) : Response :=
  json_response (status_code (error (er_error_response e))) (flat (error_response_fields e)).

(** [From<VerificationError> for HttpJsonError<VerificationErrorCode>], which is
    [HttpJsonError::from_error], and its response *)
Definition verification_error_body (show : VerifierError → string) (err : VerifierError) : Json :=
  let code := verification_error_code err in
  JObject [("type", JString (code_name code)); ("title", JString (verification_title code));
           ("status", JNumber (status_code code)); ("detail", JString (show err))].
Definition verification_error_response (show : VerifierError → string) (err : VerifierError) : Response :=
  mkResponse (status_code (verification_error_code err)) [("content-type", "application/problem+json")]
    (json_to_string (verification_error_body show err)).
End Responses.

(** ** The framework *)

(** What the disclosure server takes as the body of [POST /disclosure/sessions] *)
Record StartDisclosureRequest := mkStartRequest {
  sd_usecase : string;
  sd_items_requests : list ItemsRequest;
  sd_return_url_template : option string
}.

(** The extractors of [axum]: the value of a body or a query, or the status of
    the rejection; a [Form] is read from the query of a request that is [GET] or
    [HEAD].  [scheme_matches] is the test of [headers::Authorization], [cors] what
    the layer for cross-origin requests adds, and [bearer_valid] the test of
    [ValidateRequestHeaderLayer::bearer]. *)
Class Axum := {
  rejection_text : Z → string;
  form_wallet_request : Body → Z + option string;
  query_wallet_request : option string → Z + option string;
  form_wallet_response : Body → Z + WalletAuthResponse;
  query_status_params : option string → Z + SessionType;
  json_start_request : Body → Z + StartDisclosureRequest;
  query_nonce_params : option string → Z + option string;
  form_token_request : Body → Z + TokenRequest;
  json_credential_request : Body → Z + CredentialRequest;
  json_credential_requests : Body → Z + list CredentialRequest;
  scheme_matches : string → string → bool;
  header_value_ok : string → bool;
  cors : Response → Response;
  cors_preflight : Response;
  bearer_valid : string → HeaderValues → bool
}.

Section Framework.
Context `{!Axum} {S : Type}.
Abbreviation Handler := (ST S Empty_set Response).

Definition rejected (status : Z) : Response :=
  mkResponse status [("content-type", "text/plain; charset=utf-8")] (rejection_text status).
Definition extracted {A} (x : Z + A) (k : A → Handler) : Handler :=
  match x with inl status => sret (rejected status) | inr a => k a end.
(** The end of a handler: the response to a value or to an error. *)
Definition respond_with {E A} (m : ST S E A) (ok : A → outcome Empty_set Response) (err : E → Response) : Handler := λ s,
  let '(o, s') := m s in
  (match o with Ok a => ok a | Err e => Ok (err e) | Panic => Panic end, s').
Definition status_only (status : Z) : Response := mkResponse status [] "".
End Framework.

(** [join_base_url] *)
Definition join_base_url `{!Ecdsa, !MacLib, !VerifierLib, !UrlJoin} {E} (base input : string) : outcome E string :=
  let* url := BaseUrl_join base input in base_url url.

(** ** The disclosure server ([wallet_server::verifier]) *)

(** What the clock and the random generators give while a request is handled. *)
Record DisclosureDraws `{!Josekit} := mkDisclosureDraws {
  dd_now : Z;
  dd_time : Z;
  dd_get : GetRandom;
  dd_token : SessionToken
}.
(** The texts of the errors *)
Record DisclosureTexts := mkDisclosureTexts {
  show_get : GetAuthRequestError → string;
  show_post : PostAuthResponseError → string;
  show_response : AuthResponseError → string;
  show_user : ErrorResponse VpAuthorizationErrorCode → string;
  show_verification : VerifierError → string
}.

(** [Serialize for StatusResponse] *)
Definition status_json (r : StatusResponse) : Json :=
  match r with
  | StatusCreated ul => JObject [("status", JString "CREATED"); ("ul", JString ul)]
  | StatusWaitingForResponse => JObject [("status", JString "WAITING_FOR_RESPONSE")]
  | StatusDone => JObject [("status", JString "DONE")]
  | StatusFailed => JObject [("status", JString "FAILED")]
  | StatusCancelled => JObject [("status", JString "CANCELLED")]
  | StatusExpired => JObject [("status", JString "EXPIRED")]
  end.

Section Disclosure.
Context `{!Ecdsa, !X509Lib, !Coset, !Ciborium, !Sha256, !Chrono, !UrlLib, !MacLib, !Base64Std, !Josekit, !ResponseJson}.
Context `{!JwtLib VpAuthorizationRequest, !VerifierLib, !UrlJoin, !JsonText, !Axum}.
Context {S : Type} `{!SessionStore DisclosureData S}.
Variable disclosed_to_json : DisclosedAttributes → Json.
Variable texts : DisclosureTexts.
Abbreviation Handler := (ST S Empty_set Response).

(** [ApplicationState] *)
Record ApplicationState := mkApplicationState {
  as_verifier : Verifier;
  as_public_url : string;
  as_universal_link_base_url : string
}.

(** [retrieve_request] *)
Definition wallet_request_of (req : Request) : Z + option string :=
  match rq_method req with MGet => query_wallet_request (rq_query req) | _ => form_wallet_request (rq_body req) end.
Definition retrieve_request (d : DisclosureDraws) (state : ApplicationState) (session_token : SessionToken) (req : Request)
    : Handler :=
  extracted (wallet_request_of req) (λ wallet_nonce,
    respond_with
      (let! response_uri := st_lift (join_base_url (as_public_url state) ("disclosure/" +:+ session_token +:+ "/response_uri")) in
       process_get_request (show_get texts) (dd_now d) (dd_get d) (as_verifier state) session_token response_uri
         (rq_query req) wallet_nonce)
      (λ jws, Ok (mkResponse 200 [("content-type", APPLICATION_OAUTH_AUTHZ_REQ_JWT)] jws))
      (λ e, error_into_response
              (ErrorResponse_with_uri (into_error_response get_request_error_code (show_get texts)) e))).

(** [post_response] *)
Definition vp_response_json (r : VpResponse) : Json := flat [("redirect_uri", vp_redirect_uri r)].
Definition post_response (d : DisclosureDraws) (state : ApplicationState) (session_token : SessionToken) (req : Request)
    : Handler :=
  extracted (form_wallet_response (rq_body req)) (λ wallet_response,
    respond_with
      (process_authorization_response (show_response texts) (show_user texts) (dd_now d) (as_verifier state) session_token
         wallet_response (dd_time d))
      (λ response, Ok (json_response 200 (vp_response_json response)))
      (λ e, error_into_response
              (ErrorResponse_with_uri (into_error_response post_auth_response_error_code (show_post texts)) e))).

(** [status] *)
Definition status (d : DisclosureDraws) (state : ApplicationState) (session_token : SessionToken) (req : Request) : Handler :=
  extracted (query_status_params (rq_query req)) (λ session_type,
    respond_with
      (let! ul_base := st_lift (join_base_url (as_universal_link_base_url state) "disclosure") in
       let! request_uri := st_lift (join_base_url (as_public_url state) ("disclosure/" +:+ session_token +:+ "/request_uri")) in
       status_response (as_verifier state) session_token session_type ul_base request_uri (dd_time d))
      (λ response, Ok (json_response 200 (status_json response)))
      (verification_error_response (show_verification texts))).

(** [start]; the answer is a [StartDisclosureResponse] *)
Definition start_endpoint (d : DisclosureDraws) (state : ApplicationState) (req : Request) : Handler :=
  extracted (json_start_request (rq_body req)) (λ start_request,
    respond_with
      (new_session (dd_now d) (dd_token d) (as_verifier state) (sd_items_requests start_request) (sd_usecase start_request)
         (sd_return_url_template start_request))
      (λ session_token, Ok (json_response 200 (flat [("session_token", Some session_token)])))
      (verification_error_response (show_verification texts))).

(** [disclosed_attributes] *)
Definition disclosed_attributes_endpoint (session_token : SessionToken) (req : Request) : Handler :=
  extracted (query_nonce_params (rq_query req)) (λ nonce,
    respond_with (verifier_disclosed_attributes session_token nonce)
      (λ attributes, Ok (json_response 200 (disclosed_to_json attributes)))
      (verification_error_response (show_verification texts))).

(** [create_routers] below the prefixes [/disclosure] and [/disclosure/sessions]
    of [verification_server::serve], with [health_router] *)
Inductive DisclosureRoute :=
  | RequestUriRoute (t : SessionToken) | ResponseUriRoute (t : SessionToken) | StatusRoute (t : SessionToken).
Inductive RequesterRoute := StartRoute | DisclosedAttributesRoute (t : SessionToken).
Definition wallet_route (path : list string) : option DisclosureRoute :=
  match path with
  | [prefix; t; endpoint] =>
      if decide (prefix = "disclosure") then
        if decide (endpoint = "request_uri") then Some (RequestUriRoute t)
        else if decide (endpoint = "response_uri") then Some (ResponseUriRoute t)
        else if decide (endpoint = "status") then Some (StatusRoute t)
        else None
      else None
  | _ => None
  end.
Definition requester_route (path : list string) : option RequesterRoute :=
  match path with
  | [a; b] => if decide (a = "disclosure" ∧ b = "sessions") then Some StartRoute else None
  | [a; b; t; endpoint] =>
      if decide (a = "disclosure" ∧ b = "sessions" ∧ endpoint = "disclosed_attributes") then Some (DisclosedAttributesRoute t)
      else None
  | _ => None
  end.
Definition health (req : Request) : option Response :=
  if decide (rq_path req = ["health"]) then
    Some (match rq_method req with MGet => status_only 200 | _ => status_only METHOD_NOT_ALLOWED end)
  else None.

(** A path that has no route and a method that a route does not have *)
Definition no_route (req : Request) : Response := default (status_only NOT_FOUND) (health req).
Definition wallet_router (d : DisclosureDraws) (state : ApplicationState) (req : Request) : Handler :=
  match wallet_route (rq_path req), rq_method req with
  | Some (RequestUriRoute t), (MGet | MPost) => retrieve_request d state t req
  | Some (ResponseUriRoute t), MPost => post_response d state t req
  | Some (StatusRoute t), MGet => λ s, let '(o, s') := status d state t req s in (omap cors o, s')
  | Some (StatusRoute t), MOptions => sret cors_preflight
  | Some _, _ => sret (status_only METHOD_NOT_ALLOWED)
  | None, _ => sret (no_route req)
  end.
Definition requester_router (d : DisclosureDraws) (state : ApplicationState) (req : Request) : Handler :=
  match requester_route (rq_path req), rq_method req with
  | Some StartRoute, MPost => start_endpoint d state req
  | Some (DisclosedAttributesRoute t), MGet => disclosed_attributes_endpoint t req
  | Some _, _ => sret (status_only METHOD_NOT_ALLOWED)
  | None, _ => sret (no_route req)
  end.

(** *** Listeners ([wallet_server::server]) *)
Record ServerAddress := mkServerAddress { ip : string; port : Z }.
Inductive Authentication := ApiKey (key : string).
Inductive RequesterAuth :=
  | RequesterAuthentication (authentication : Authentication)
  | ProtectedInternalEndpoint (authentication : Authentication) (server : ServerAddress)
  | InternalEndpoint (server : ServerAddress).

(** [secure_requester_router]; [decorate_router] adds the health route after it. *)
Definition api_key (auth : RequesterAuth) : option string :=
  match auth with
  | RequesterAuthentication (ApiKey key) | ProtectedInternalEndpoint (ApiKey key) _ => Some key
  | InternalEndpoint _ => None
  end.
Definition secure_requester_router (auth : RequesterAuth) (router : Request → Handler) (req : Request) : Handler :=
  match health req, api_key auth with
  | Some response, _ => sret response
  | None, Some key => if bearer_valid key (rq_authorization req) then router req else sret (status_only UNAUTHORIZED)
  | None, None => router req
  end.

(** [create_requester_listener]: whether there is a listener for requesters only *)
Definition requester_listener (auth : RequesterAuth) : option ServerAddress :=
  match auth with
  | RequesterAuthentication _ => None
  | ProtectedInternalEndpoint _ server | InternalEndpoint server => Some server
  end.

(** [listen]: what a request on a listener is answered with; without a listener
    for requesters their routes are merged into those for wallets. *)
Inductive Listener := WalletListener | RequesterListener.
Definition listen (auth : RequesterAuth) (d : DisclosureDraws) (state : ApplicationState) (l : Listener) (req : Request)
    : option Handler :=
  let requester := secure_requester_router auth (requester_router d state) in
  match requester_listener auth, l with
  | Some _, WalletListener => Some (wallet_router d state req)
  | Some _, RequesterListener => Some (requester req)
  | None, WalletListener =>
      Some (match requester_route (rq_path req) with Some _ => requester req | None => wallet_router d state req end)
  | None, RequesterListener => None
  end.
End Disclosure.

(** ** The issuance server ([wallet_server::issuer]) *)

(** What the attribute service gives: the attestations for a token request, and
    the metadata of the authorization server for the URL of the issuer. *)
Record AttributeService := mkAttributeService {
  as_attributes : SessionState Issuer.Created → TokenRequest → option (list AttestationPreview);
  as_oauth_metadata : string → outcome string string
}.
Record IssuanceDraws := mkIssuanceDraws {
  id_now : Z;
  id_token : TokenRandom;
  id_rng : Z → NameSpace → Z → string
}.
Record IssuanceTexts := mkIssuanceTexts {
  show_token : TokenRequestError → string;
  show_credential : CredentialRequestError → string
}.
Definition DPOP_HEADER_NAME : string := "DPoP".
Definition DPOP_NONCE_HEADER_NAME : string := "DPoP-Nonce".

(** [DpopHeader::decode] *)
Definition DpopHeader_decode (values : HeaderValues) : option string :=
  match values with [Some value] => Some value | _ => None end.
(** [DpopBearer::decode] and [encode]; slicing past the end panics. *)
Definition DpopBearer_decode (value : string) : outcome Empty_set string :=
  let n := S (String.length DPOP_HEADER_NAME) in
  let* _ := rust_assert (n <=? String.length value)%nat in
  Ok (String.substring n (String.length value - n) value).
Definition DpopBearer_encode (token : AccessToken) : string := DPOP_HEADER_NAME +:+ " " +:+ token.

(** [serde_json] on the values of the issuance protocol; the OAuth metadata is its
    token endpoint, as in [VcMessageClient]. *)
Class IssuanceJson := {
  metadata_to_string : IssuerMetadata → option string;
  oauth_metadata_to_string : string → option string;
  token_response_to_string : TokenResponseWithPreviews → option string;
  credential_response_to_string : CredentialResponse → option string;
  credential_responses_to_string : list CredentialResponse → option string
}.
(** [IntoResponse for Json]: a value that cannot be written is an internal error. *)
Definition json_or_error `{!Axum} (headers : list (string * string)) (text : option string) : Response :=
  match text with
  | Some text => mkResponse 200 (headers ++ json_headers) text
  | None => rejected INTERNAL_SERVER_ERROR
  end.

Section Issuance.
Context `{!Ecdsa, !Base64, !Sha256, !JwtLib DpopPayload, !JwtLib CredentialRequestProofJwtPayload}.
Context `{!Coset, !Ciborium, !X509Lib, !Chrono, !UrlLib, !MacLib, !UrlJoin, !VerifierLib, !JsonText, !Axum, !IssuanceJson}.
Context {S : Type} `{!SessionStore IssuanceData S}.
Variable texts : IssuanceTexts.
Abbreviation Handler := (ST S Empty_set Response).

(** [Issuer] with [Issuer::new], as far as the handlers use it *)
Record IssuerState := mkIssuerState {
  is_attr_service : AttributeService;
  is_issuer_data : IssuerData;
  is_metadata : IssuerMetadata
}.
Definition Issuer_new {E} (attr_service : AttributeService) (private_keys : DocType → option KeyPair) (server_url : string)
    (wallet_client_ids : list string) : outcome E IssuerState :=
  let* issuer_url := join_base_url server_url "issuance/" in
  let* batch_credential_endpoint := join_base_url issuer_url "/batch_credential" in
  Ok {|
    is_attr_service := attr_service;
    is_issuer_data := {|
      private_keys := private_keys; credential_issuer_identifier := issuer_url;
      accepted_wallet_client_ids := wallet_client_ids; Issuer.server_url := issuer_url
    |};
    is_metadata := mkIssuerMetadata issuer_url None (Some batch_credential_endpoint)
  |}.

(** The extractors of headers; a header that is missing or malformed is rejected. *)
Definition dpop_header (req : Request) : Z + string :=
  match DpopHeader_decode (rq_dpop req) with Some dpop => inr dpop | None => inl BAD_REQUEST end.
Definition authorization_header (req : Request) (k : AccessToken → Handler) : Handler :=
  match rq_authorization req with
  | Some value :: _ =>
      if scheme_matches DPOP_HEADER_NAME value
      then sbind (st_lift (DpopBearer_decode value)) k
      else sret (rejected BAD_REQUEST)
  | _ => sret (rejected BAD_REQUEST)
  end.

(** [oauth_metadata] and [metadata] *)
Definition oauth_metadata (state : IssuerState) : outcome Empty_set Response :=
  match as_oauth_metadata (is_attr_service state) (credential_issuer_identifier (is_issuer_data state)) with
  | Ok config => Ok (json_or_error [] (oauth_metadata_to_string config))
  | Err e => Ok (error_into_response (mkServerErrorResponse (mkErrorResponse Metadata (Some e) None) None))
  | Panic => Panic
  end.
Definition metadata (state : IssuerState) : Response := json_or_error [] (metadata_to_string (is_metadata state)).

(** [token]; a nonce that cannot be a header panics. *)
Definition token_response_of (r : TokenResponseWithPreviews * string) : outcome Empty_set Response :=
  let '(response, dpop_nonce) := r in
  let* _ := rust_assert (header_value_ok dpop_nonce) in
  Ok (json_or_error [(DPOP_NONCE_HEADER_NAME, dpop_nonce)] (token_response_to_string response)).
Definition token_endpoint (d : IssuanceDraws) (state : IssuerState) (req : Request) : Handler :=
  extracted (dpop_header req) (λ dpop, extracted (form_token_request (rq_body req)) (λ token_request,
    respond_with
      (process_token_request (as_attributes (is_attr_service state)) (show_token texts) (id_now d) (id_token d)
         (is_issuer_data state) token_request dpop)
      token_response_of
      (λ e, error_into_response (ErrorResponse_new (into_error_response token_error_code (show_token texts) e))))).

(** [credential], [batch_credential] and [reject_issuance] *)
Definition credential_error (e : CredentialRequestError) : Response :=
  error_into_response (ErrorResponse_new (into_error_response credential_error_code (show_credential texts) e)).
Definition credential_endpoint (d : IssuanceDraws) (state : IssuerState) (req : Request) : Handler :=
  authorization_header req (λ access_token, extracted (dpop_header req) (λ dpop,
    extracted (json_credential_request (rq_body req)) (λ credential_request,
      respond_with
        (process_credential (show_credential texts) (id_now d) (id_rng d 0) (is_issuer_data state) access_token dpop
           credential_request)
        (λ response, Ok (json_or_error [] (credential_response_to_string response)))
        credential_error))).
Definition batch_credential_endpoint (d : IssuanceDraws) (state : IssuerState) (req : Request) : Handler :=
  authorization_header req (λ access_token, extracted (dpop_header req) (λ dpop,
    extracted (json_credential_requests (rq_body req)) (λ credential_requests,
      respond_with
        (process_batch_credential (show_credential texts) (id_now d) (id_rng d) (is_issuer_data state) access_token dpop
           credential_requests)
        (λ responses, Ok (json_or_error [] (credential_responses_to_string responses)))
        credential_error))).
(** [uri_path] is the path below the prefix of the router, without its slash. *)
Definition reject_endpoint (d : IssuanceDraws) (state : IssuerState) (uri_path : string) (req : Request) : Handler :=
  authorization_header req (λ access_token, extracted (dpop_header req) (λ dpop,
    respond_with
      (process_reject_issuance (id_now d) (is_issuer_data state) access_token dpop uri_path)
      (λ _, Ok (status_only 204))
      credential_error)).

(** [create_issuance_router] below the prefix [/issuance] of [pid_issuer::serve] *)
Inductive IssuanceRoute := MetadataRoute | OauthMetadataRoute | TokenRoute | CredentialRoute | BatchCredentialRoute.
Definition issuance_route (path : list string) : option IssuanceRoute :=
  match path with
  | [prefix; endpoint] =>
      if decide (prefix = "issuance") then
        if decide (endpoint = "token") then Some TokenRoute
        else if decide (endpoint = "credential") then Some CredentialRoute
        else if decide (endpoint = "batch_credential") then Some BatchCredentialRoute
        else None
      else None
  | [prefix; known; document] =>
      if decide (prefix = "issuance" ∧ known = ".well-known") then
        if decide (document = "openid-credential-issuer") then Some MetadataRoute
        else if decide (document = "oauth-authorization-server") then Some OauthMetadataRoute
        else None
      else None
  | _ => None
  end.
Definition issuance_router (d : IssuanceDraws) (state : IssuerState) (req : Request) : Handler :=
  match issuance_route (rq_path req), rq_method req with
  | Some MetadataRoute, MGet => sret (metadata state)
  | Some OauthMetadataRoute, MGet => st_lift (oauth_metadata state)
  | Some TokenRoute, MPost => token_endpoint d state req
  | Some CredentialRoute, MPost => credential_endpoint d state req
  | Some CredentialRoute, MDelete => reject_endpoint d state "credential" req
  | Some BatchCredentialRoute, MPost => batch_credential_endpoint d state req
  | Some BatchCredentialRoute, MDelete => reject_endpoint d state "batch_credential" req
  | Some _, _ => sret (status_only METHOD_NOT_ALLOWED)
  | None, _ => sret (no_route req)
  end.
End Issuance.

(** ** Settings ([wallet_server::settings]) *)

(** [SigningKey::from_pkcs8_der] *)
Class SettingsLib `{!Ecdsa} := signing_key_from_pkcs8 : string → option SigningKey.
Record StorageSettings := mkStorageSettings {
  storage_url : string;
  expiration_minutes : Z;
  successful_deletion_minutes : Z;
  failed_deletion_minutes : Z
}.
(** [From<&Storage> for SessionStoreTimeouts]: minutes are [NonZeroU64], and so
    are the seconds that are computed of them. *)
Definition storage_timeouts {E} (prof : profile) (value : StorageSettings) : outcome E SessionStoreTimeouts :=
  let* expiration := arith prof 64 (60 * expiration_minutes value) in
  let* successful := arith prof 64 (60 * successful_deletion_minutes value) in
  let* failed := arith prof 64 (60 * failed_deletion_minutes value) in
  Ok {| expiration := seconds expiration; successful_deletion := seconds successful; failed_deletion := seconds failed |}.

(** [settings::KeyPair], and its conversion *)
Record SettingsKeyPair := mkSettingsKeyPair { kp_certificate : string; kp_private_key : string }.
Inductive SettingsError := KeyParsing | UseCaseInvalid (e : VerifierError).

Section Settings.
Context `{!Ecdsa, !X509Lib, !MacLib, !SettingsLib}.
Definition key_pair_of (value : SettingsKeyPair) : outcome SettingsError KeyPair :=
  let* key := ok_or KeyParsing (signing_key_from_pkcs8 (kp_private_key value)) in
  Ok (mkKeyPair key (kp_certificate value)).

(** [EhpemeralIdSecret]: its validation when the settings are read *)
Definition MIN_KEY_LENGTH_BYTES : nat := 16.
Definition ephemeral_id_secret_valid (v : string) : bool := (MIN_KEY_LENGTH_BYTES <=? String.length v)%nat.

(** [TryFrom<VerifierUseCases> for UseCases]; the map is converted in some order *)
Record VerifierUseCase := mkVerifierUseCase { vu_session_type_return_url : SessionTypeReturnUrl; vu_key_pair : SettingsKeyPair }.
Definition use_case_of (value : VerifierUseCase) : outcome SettingsError UseCase :=
  let* key := key_pair_of (vu_key_pair value) in
  map_err UseCaseInvalid (UseCase_new key (vu_session_type_return_url value)).
Definition try_convert {A B E} (f : A → outcome E B) (value : gmap string A) : outcome E (gmap string B) :=
  let* l := try_map (λ p : string * A, let* b := f p.2 in Ok (p.1, b)) (map_to_list value) in
  Ok (list_to_map l).
Definition use_cases_of (value : gmap string VerifierUseCase) : outcome SettingsError (gmap string UseCase) :=
  try_convert use_case_of value.

(** [create_application_state] of the disclosure server *)
Record VerifierSettings := mkVerifierSettings {
  vs_usecases : gmap string VerifierUseCase;
  vs_trust_anchors : list TrustAnchor;
  vs_ephemeral_id_secret : string
}.
Definition create_application_state (public_url universal_link_base_url : string) (verifier : VerifierSettings)
    : outcome SettingsError ApplicationState :=
  let* use_cases := use_cases_of (vs_usecases verifier) in
  Ok {|
    as_verifier := {|
      use_cases := use_cases; v_trust_anchors := vs_trust_anchors verifier;
      ephemeral_id_secret := hmac_key_new (vs_ephemeral_id_secret verifier)
    |};
    as_public_url := public_url;
    as_universal_link_base_url := universal_link_base_url
  |}.

(** [TryFrom<HashMap<String, settings::KeyPair>> for IssuerKeyRing], [KeyRing for
    IssuerKeyRing] and [settings::Issuer::certificates] *)
Definition IssuerKeyRing : Type := gmap string KeyPair.
Definition issuer_key_ring (private_keys : gmap string SettingsKeyPair) : outcome SettingsError IssuerKeyRing :=
  try_convert key_pair_of private_keys.
Definition ring_key_pair (ring : IssuerKeyRing) (id : string) : option KeyPair := ring !! id.
Definition contains_key_pair (ring : IssuerKeyRing) (id : string) : bool := bool_decide (is_Some (ring !! id)).
Definition settings_certificates (private_keys : gmap string SettingsKeyPair) : list (string * Certificate) :=
  prod_map id kp_certificate <$> map_to_list private_keys.

(** [create_issuance_router]: the state of the issuance server *)
Definition create_issuer_state `{!UrlJoin, !VerifierLib} (public_url : string) (private_keys : gmap string SettingsKeyPair)
    (wallet_client_ids : list string) (attr_service : AttributeService) : outcome SettingsError IssuerState :=
  let* ring := issuer_key_ring private_keys in
  Issuer_new attr_service (ring_key_pair ring) public_url wallet_client_ids.
End Settings.

(** ** What a client reads *)

(** [Deserialize] of a struct from an object: unknown fields are ignored, a field
    that occurs twice is an error, and an optional field may be [null].  The form
    of an array is left out: no server writes it. *)
Definition json_field (k : string) (l : list (string * Json)) : option (option Json) :=
  match filter (λ p, p.1 = k) l with
  | [] => Some None
  | [p] => Some (Some p.2)
  | _ => None
  end.
Definition optional_string (k : string) (l : list (string * Json)) : option (option string) :=
  v ← json_field k l;
  match v with
  | None | Some JNull => Some None
  | Some (JString s) => Some (Some s)
  | Some _ => None
  end.
Definition optional_url (read : string → option string) (k : string) (l : list (string * Json)) : option (option string) :=
  v ← optional_string k l;
  match v with
  | None => Some None
  | Some s => Some <$> read s
  end.
(** [Deserialize for ErrorResponse<String>] and [Deserialize for VpResponse]; [read_url]
    parses the text of a URL. *)
Definition read_error_response (read_url : string → option string) (j : Json) : option (ErrorResponse string) :=
  match j with
  | JObject l =>
      code ← json_field "error" l ≫= (λ v, v ≫= as_str);
      description ← optional_string "error_description" l;
      uri ← optional_url read_url "error_uri" l;
      Some (mkErrorResponse code description uri)
  | _ => None
  end.
Definition read_vp_response (read_url : string → option string) (j : Json) : option VpResponse :=
  match j with
  | JObject l => uri ← optional_url read_url "redirect_uri" l; Some (mkVpRedirect uri)
  | _ => None
  end.
