(* ===== verification/HttpServerFacts.v ===== *)
(** * What clients of the wallet server hear

    The wallet's HTTP clients of [DisclosureSession] and [IssuanceSession] connected
    to the servers of [HttpServer]: every result of a handler of the protocols
    arrives at the wallet as the result of its message, errors with their code and
    text.  And the routes for relying parties are served to those only who may use
    them.  At the end, the runs of [VerifierWitness] and [IssuerWitness] over HTTP. *)
From stdpp Require Import base gmap strings list option fin_maps countable.
From Stdlib Require Import ZArith Lia.
From S2P Require Import Prelude IndexMap SessionStore Crypto Jose Cbor Cose Engagement Mdoc MdocSigning Protocol.
From S2P Require Import PresentationExchange OpenId4vp Issuer Verifier DisclosureSession IssuanceSession HttpServer.

(** ** The client's side of a connection *)

(** The forms of the wallet arrive as the values that were sent ([serde_urlencoded]). *)
Class ClientForms `{!Axum} := {
  url_path : string → list string;
  form_body : FormBody → Body;
  no_body : Body;
  wallet_request_arrives n : form_wallet_request (form_body (WalletRequestForm n)) = inr n;
  vp_token_arrives jwe : form_wallet_response (form_body (VpTokenForm jwe)) = inr (WalletResponse (mkVpToken jwe));
  error_arrives e : form_wallet_response (form_body (ErrorForm e)) = inr (WalletError e)
}.

(** The error of a connection that is closed without a response *)
Definition connection_closed : ReqwestError := mkReqwestError false.

(** What a client makes of an error response *)
Definition heard_error {E T} `{!ErrorStatusCode T} (code : E → T) (show : E → string) (e : E) : ErrorResponse string :=
  mkErrorResponse (code_name (code e)) (Some (show e)) None.

(** ** Replaying messages *)
Section Replay.
Context {M S : Type}.
(** What a message does to a server, and what others do before a message *)
Variable answer : nat → M → S → S.
Variable meanwhile : nat → S → S.

(** The state in which the message after [log] arrives *)
Fixpoint replay (n : nat) (s : S) (log : list M) : S :=
  match log with
  | [] => meanwhile n s
  | m :: rest => replay (1 + n) (answer n m (meanwhile n s)) rest
  end.

Lemma replay_snoc n s log m :
  replay n s (log ++ [m]) = meanwhile (1 + (n + length log)) (answer (n + length log) m (replay n s log)).
Proof.
  revert n s. induction log as [|m' log IH]; intros n s; cbn [app replay length].
  - by rewrite Nat.add_0_r.
  - rewrite IH. do 2 f_equal; [lia|]. by rewrite <-Nat.add_succ_comm.
Qed.
End Replay.

(** ** Error responses *)
Section Errors.
Context `{!JsonText}.

Lemma read_error_fields read {T} `{!ErrorStatusCode T} (c : T) (text : string) uri :
  read_error_response read (flat (error_response_fields (mkServerErrorResponse (mkErrorResponse c (Some text) None) uri))) =
  Some (mkErrorResponse (code_name c) (Some text) None).
Proof. by destruct uri. Qed.

Lemma read_vp_fields read uri : (∀ u, uri = Some u → read u = Some u) →
  read_vp_response read (vp_response_json (mkVpRedirect uri)) = Some (mkVpRedirect uri).
Proof. intros Hr. destruct uri as [u|]; [|done].
  change ((uri ← Some <$> read u; Some (mkVpRedirect uri)) = Some (mkVpRedirect (Some u))). by rewrite (Hr u eq_refl). Qed.
End Errors.

(** Every error is sent with an error status. *)
Class ErrorStatuses (T : Type) `{!ErrorStatusCode T} := error_statuses : ∀ c : T, is_error_status (status_code c) = true.
#[export] Instance credential_statuses : ErrorStatuses CredentialErrorCode.
Proof. by intros []. Qed.
#[export] Instance token_statuses : ErrorStatuses TokenErrorCode.
Proof. by intros []. Qed.
#[export] Instance get_request_statuses : ErrorStatuses GetRequestErrorCode.
Proof. by intros []. Qed.
#[export] Instance post_auth_response_statuses : ErrorStatuses PostAuthResponseErrorCode.
Proof. by intros []. Qed.

(** A handler ends in the state of what it does. *)
Lemma respond_with_state {S E A} (m : ST S E A) ok err s : snd (respond_with m ok err s) = snd (m s).
Proof. unfold respond_with. by destruct (m s) as [[]]. Qed.

(** ** The disclosure server and the wallet *)
Section Disclosure.
Context `{!Ecdsa, !X509Lib, !Coset, !Ciborium, !Sha256, !Chrono, !UrlLib, !MacLib, !Base64Std, !Josekit, !ResponseJson}.
Context `{!JwtLib VpAuthorizationRequest, !VerifierLib, !UrlJoin, !WalletUrlLib, !JsonText, !Axum, !ClientForms}.
Context {S : Type} `{!SessionStore DisclosureData S}.
Variable disclosed_to_json : DisclosedAttributes → Json.
Variable texts : DisclosureTexts.
Variable auth : RequesterAuth.
Variable state : ApplicationState.
(** What the server draws at each message, the state that it starts in, and what
    relying parties, other wallets and the cleanup do to it before each message. *)
Variable draws : nat → DisclosureDraws.
Variable s0 : S.
Variable meanwhile : nat → S → S.
(** [Deserialize for BaseUrl] *)
Variable read_url : string → option string.

(** A request as it arrives *)
Definition arriving (r : HttpRequest) : Request := {|
  rq_method := match http_method r with GET => MGet | POST => MPost end;
  rq_path := url_path (http_url r);
  rq_query := url_query (http_url r);
  rq_authorization := [];
  rq_dpop := [];
  rq_body := from_option form_body no_body (http_form r)
|}.
Definition message_request (m : VpMessage) : HttpRequest :=
  match m with
  | GetAuthorizationRequest url wallet_nonce =>
      mkHttpRequest (match wallet_nonce with Some _ => POST | None => GET end) url (Some APPLICATION_OAUTH_AUTHZ_REQ_JWT)
        (match wallet_nonce with Some _ => Some (WalletRequestForm wallet_nonce) | None => None end)
  | SendAuthorizationResponse url jwe => mkHttpRequest POST url None (Some (VpTokenForm jwe))
  | SendError url error => mkHttpRequest POST url None (Some (ErrorForm error))
  end.
Definition answered (n : nat) (r : HttpRequest) : ST S Empty_set Response :=
  default (sret (status_only NOT_FOUND)) (listen disclosed_to_json texts auth (draws n) state WalletListener (arriving r)).

(** The state of the server in which the next message arrives *)
Definition served (log : list VpMessage) : S := replay (λ n m s, snd (answered n (message_request m) s)) meanwhile 0 s0 log.

(** The wallet's HTTP client, connected to the server *)
Definition connected : Reqwest := {|
  http_send log r :=
    match fst (answered (length log) r (served log)) with
    | Ok response => Ok (mkHttpResponse (rs_status response) (Ok (rs_body response)))
    | _ => Err connection_closed
    end;
  error_response_from_json text := json_from_str text ≫= read_error_response read_url;
  vp_response_from_json text := json_from_str text ≫= read_vp_response read_url
|}.

Lemma served_snoc log m :
  served (log ++ [m]) = meanwhile (1 + length log) (snd (answered (length log) (message_request m) (served log))).
Proof. exact (replay_snoc (λ n m s, snd (answered n (message_request m) s)) meanwhile 0 s0 log m). Qed.

(** What the wallet hears of the outcome of a handler *)
Definition heard {E A B} (error_of : E → VpMessageClientError) (f : A → B) (o : outcome E A) : outcome VpMessageClientError B :=
  match o with
  | Ok a => Ok (f a)
  | Err e => Err (error_of e)
  | Panic => Err (Http connection_closed)
  end.

Lemma answered_wallet n r route : wallet_route (url_path (http_url r)) = Some route →
  answered n r = wallet_router texts (draws n) state (arriving r).
Proof.
  intros Hr. unfold answered, listen. cbn [arriving rq_path].
  assert (requester_route (url_path (http_url r)) = None) as ->.
  { destruct (url_path (http_url r)) as [|? [|? [|? [|]]]]; done. }
  by destruct auth.
Qed.

Lemma error_heard {E T A} `{!ErrorStatusCode T, !ErrorStatuses T} (code : E → T) show (e : E) uri :
  error_of_response (H:=connected) (A:=A) (mkHttpResponse (status_code (code e)) (Ok (json_to_string
    (flat (error_response_fields (mkServerErrorResponse (into_error_response code show e) uri)))))) =
  Err (VpErrorResponse (heard_error code show e)).
Proof.
  unfold error_of_response. cbn [http_body map_err obind connected error_response_from_json]. rewrite json_round_trip.
  cbn [mbind option_bind]. unfold into_error_response. by rewrite read_error_fields.
Qed.

(** The outcomes of the handlers for the messages of a session, in the state in
    which a message arrives *)
Definition get_outcome (t : SessionToken) (log : list VpMessage) (response_uri url : string) (wallet_nonce : option string)
    : outcome (WithRedirectUri GetAuthRequestError) string * S :=
  process_get_request (show_get texts) (dd_now (draws (length log))) (dd_get (draws (length log))) (as_verifier state) t
    response_uri (url_query url) wallet_nonce (served log).
Definition post_outcome (t : SessionToken) (log : list VpMessage) (response : WalletAuthResponse)
    : outcome (WithRedirectUri PostAuthResponseError) VpResponse * S :=
  process_authorization_response (show_response texts) (show_user texts) (dd_now (draws (length log))) (as_verifier state) t
    response (dd_time (draws (length log))) (served log).

Section Session.
Variable t : SessionToken.
Variable log : list VpMessage.

Lemma answered_get url wallet_nonce response_uri : url_path url = ["disclosure"; t; "request_uri"] →
  (wallet_nonce = None → query_wallet_request (url_query url) = inr None) →
  join_base_url (E:=WithRedirectUri GetAuthRequestError) (as_public_url state) ("disclosure/" +:+ t +:+ "/response_uri") = Ok response_uri →
  answered (length log) (message_request (GetAuthorizationRequest url wallet_nonce)) (served log) =
  respond_with (λ _, get_outcome t log response_uri url wallet_nonce)
    (λ jws, Ok (mkResponse 200 [("content-type", APPLICATION_OAUTH_AUTHZ_REQ_JWT)] jws))
    (λ e, error_into_response (ErrorResponse_with_uri (into_error_response get_request_error_code (show_get texts)) e)) (served log).
Proof.
  intros Hp Hn Hu.
  rewrite (answered_wallet _ _ (RequestUriRoute t)); [|by cbn [message_request http_url]; rewrite Hp].
  set (req := arriving _). assert (rq_path req = ["disclosure"; t; "request_uri"]) as Hpath by exact Hp.
  unfold wallet_router. rewrite Hpath.
  change (wallet_route ["disclosure"; t; "request_uri"]) with (Some (RequestUriRoute t)).
  assert (wallet_request_of req = inr wallet_nonce) as Hw.
  { subst req. destruct wallet_nonce; [apply wallet_request_arrives|by apply Hn]. }
  assert (retrieve_request texts (draws (length log)) state t req (served log) =
    respond_with (λ _, get_outcome t log response_uri url wallet_nonce)
    (λ jws, Ok (mkResponse 200 [("content-type", APPLICATION_OAUTH_AUTHZ_REQ_JWT)] jws))
    (λ e, error_into_response (ErrorResponse_with_uri (into_error_response get_request_error_code (show_get texts)) e)) (served log)) as <-.
  { unfold retrieve_request, extracted. rewrite Hw. unfold respond_with, sbind, st_lift. by rewrite Hu. }
  by destruct wallet_nonce.
Qed.

Lemma answered_post url form response : url_path url = ["disclosure"; t; "response_uri"] →
  form_wallet_response (form_body form) = inr response →
  answered (length log) (mkHttpRequest POST url None (Some form)) (served log) =
  respond_with (λ _, post_outcome t log response)
    (λ response, Ok (json_response 200 (vp_response_json response)))
    (λ e, error_into_response (ErrorResponse_with_uri (into_error_response post_auth_response_error_code (show_post texts)) e)) (served log).
Proof.
  intros Hp Hf. rewrite (answered_wallet _ _ (ResponseUriRoute t)); [|by cbn [http_url]; rewrite Hp].
  set (req := arriving _). assert (rq_path req = ["disclosure"; t; "response_uri"]) as Hpath by exact Hp.
  unfold wallet_router. rewrite Hpath.
  change (wallet_route ["disclosure"; t; "response_uri"]) with (Some (ResponseUriRoute t)).
  change (rq_method req) with MPost. cbv iota beta. unfold post_response, extracted.
  change (rq_body req) with (form_body form). by rewrite Hf.
Qed.

Lemma deserialized r : (∀ u, vp_redirect_uri r = Some u → read_url u = Some u) →
  deserialize_vp_response (H:=connected) (mkHttpResponse 200 (Ok (json_to_string (vp_response_json r)))) = Ok (vp_redirect_uri r).
Proof.
  intros Hr. destruct r as [uri]. unfold deserialize_vp_response. cbn [http_body map_err obind connected vp_response_from_json].
  rewrite decide_False by apply json_not_empty. unfold vp_response_json at 1. rewrite json_round_trip.
  cbn [mbind option_bind]. fold (vp_response_json (mkVpRedirect uri)). by rewrite read_vp_fields.
Qed.
End Session.

(** The redirect URI of an answer is the text of a URL. *)
Definition redirect_readable (o : outcome (WithRedirectUri PostAuthResponseError) VpResponse) : Prop :=
  ∀ r u, o = Ok r → vp_redirect_uri r = Some u → read_url u = Some u.

Definition get_error_heard (e : WithRedirectUri GetAuthRequestError) : VpMessageClientError :=
  VpErrorResponse (heard_error get_request_error_code (show_get texts) (wr_error e)).
Definition post_error_heard (e : WithRedirectUri PostAuthResponseError) : VpMessageClientError :=
  VpErrorResponse (heard_error post_auth_response_error_code (show_post texts) (wr_error e)).

Lemma get_heard t log url wallet_nonce response_uri : url_path url = ["disclosure"; t; "request_uri"] →
  (wallet_nonce = None → query_wallet_request (url_query url) = inr None) →
  join_base_url (E:=WithRedirectUri GetAuthRequestError) (as_public_url state) ("disclosure/" +:+ t +:+ "/response_uri") = Ok response_uri →
  http_get_authorization_request (H:=connected) log url wallet_nonce =
  heard get_error_heard id (fst (get_outcome t log response_uri url wallet_nonce)).
Proof.
  intros Hp Hn Hu. unfold http_get_authorization_request. cbn [connected http_send].
  change (mkHttpRequest _ _ _ _) with (message_request (GetAuthorizationRequest url wallet_nonce)).
  rewrite (answered_get t log url wallet_nonce response_uri) by done. unfold respond_with.
  destruct (get_outcome _ _ _ _ _) as [[jws|e|] s']; [done| |done].
  cbn [fst error_into_response json_response rs_status rs_body map_err obind http_status].
  rewrite error_statuses. apply (error_heard get_request_error_code (show_get texts) (wr_error e) (wr_redirect_uri e)).
Qed.

Lemma post_heard t log url jwe : url_path url = ["disclosure"; t; "response_uri"] →
  redirect_readable (fst (post_outcome t log (WalletResponse (mkVpToken jwe)))) →
  http_send_authorization_response (H:=connected) log url jwe =
  heard post_error_heard vp_redirect_uri (fst (post_outcome t log (WalletResponse (mkVpToken jwe)))).
Proof.
  intros Hp Hr. unfold http_send_authorization_response. cbn [connected http_send].
  rewrite (answered_post t log url _ (WalletResponse (mkVpToken jwe))) by (done || apply vp_token_arrives). unfold respond_with.
  destruct (post_outcome _ _ _) as [[r|e|] s']; [| |done]; cbn [fst error_into_response json_response rs_status rs_body map_err obind http_status].
  - change (is_error_status 200) with false. cbn [heard]. apply deserialized. intros u. by apply (Hr r u).
  - rewrite error_statuses. apply (error_heard post_auth_response_error_code (show_post texts) (wr_error e) (wr_redirect_uri e)).
Qed.

Lemma error_sent_heard t log url error : url_path url = ["disclosure"; t; "response_uri"] →
  redirect_readable (fst (post_outcome t log (WalletError error))) →
  http_send_error (H:=connected) log url error =
  heard (λ _, Http status_error) vp_redirect_uri (fst (post_outcome t log (WalletError error))).
Proof.
  intros Hp Hr. unfold http_send_error. cbn [connected http_send].
  rewrite (answered_post t log url _ (WalletError error)) by (done || apply error_arrives). unfold respond_with.
  destruct (post_outcome _ _ _) as [[r|e|] s']; [| |done]; cbn [fst error_into_response json_response rs_status rs_body map_err obind http_status].
  - change (is_error_status 200) with false. cbn [heard guard_err negb obind]. apply deserialized. intros u. by apply (Hr r u).
  - by rewrite error_statuses.
Qed.

(** C29. A wallet that is connected over HTTP to the disclosure server hears the
    outcome of the handler of its message: for a request and a response that is the
    signed request, the redirect URI, or the error with its code and text; for the
    report of an error it is the redirect URI, or of any error only that the status
    was one of an error.  The state in which the server takes the next message is
    the one that the handler left, whatever others do in between. *)
Theorem verifier_heard_by_wallet t log :
  (∀ url wallet_nonce response_uri, url_path url = ["disclosure"; t; "request_uri"] →
    (wallet_nonce = None → query_wallet_request (url_query url) = inr None) →
    join_base_url (E:=WithRedirectUri GetAuthRequestError) (as_public_url state) ("disclosure/" +:+ t +:+ "/response_uri") = Ok response_uri →
    http_get_authorization_request (H:=connected) log url wallet_nonce =
      heard get_error_heard id (fst (get_outcome t log response_uri url wallet_nonce)) ∧
    served (log ++ [GetAuthorizationRequest url wallet_nonce]) =
      meanwhile (1 + length log) (snd (get_outcome t log response_uri url wallet_nonce))) ∧
  (∀ url jwe, url_path url = ["disclosure"; t; "response_uri"] →
    redirect_readable (fst (post_outcome t log (WalletResponse (mkVpToken jwe)))) →
    http_send_authorization_response (H:=connected) log url jwe =
      heard post_error_heard vp_redirect_uri (fst (post_outcome t log (WalletResponse (mkVpToken jwe)))) ∧
    served (log ++ [SendAuthorizationResponse url jwe]) =
      meanwhile (1 + length log) (snd (post_outcome t log (WalletResponse (mkVpToken jwe))))) ∧
  (∀ url error, url_path url = ["disclosure"; t; "response_uri"] →
    redirect_readable (fst (post_outcome t log (WalletError error))) →
    http_send_error (H:=connected) log url error =
      heard (λ _, Http status_error) vp_redirect_uri (fst (post_outcome t log (WalletError error))) ∧
    served (log ++ [SendError url error]) = meanwhile (1 + length log) (snd (post_outcome t log (WalletError error)))).
Proof.
  split_and!.
  - intros url wallet_nonce response_uri Hp Hn Hu. split; [by apply get_heard|].
    rewrite served_snoc, (answered_get t log url wallet_nonce response_uri) by done. by rewrite respond_with_state.
  - intros url jwe Hp Hr. split; [by apply post_heard|]. rewrite served_snoc. cbn [message_request].
    rewrite (answered_post t log url _ (WalletResponse (mkVpToken jwe))) by (done || apply vp_token_arrives). by rewrite respond_with_state.
  - intros url error Hp Hr. split; [by apply error_sent_heard|]. rewrite served_snoc. cbn [message_request].
    rewrite (answered_post t log url _ (WalletError error)) by (done || apply error_arrives). by rewrite respond_with_state.
Qed.

(** *** Who may use the routes for relying parties *)

(** As the settings have it: with an API key, or on the listener for requesters,
    or both *)
Definition may_request (l : Listener) (req : Request) : bool :=
  match auth, l with
  | RequesterAuthentication (ApiKey key), WalletListener => bearer_valid key (rq_authorization req)
  | ProtectedInternalEndpoint (ApiKey key) _, RequesterListener => bearer_valid key (rq_authorization req)
  | InternalEndpoint _, RequesterListener => true
  | _, _ => false
  end.
(** A refusal by the server that nothing was done for *)
Definition refuses (h : ST S Empty_set Response) : Prop :=
  ∀ s, ∃ status, h s = (Ok (status_only status), s) ∧ is_error_status status = true.

Lemma requester_not_wallet path route : requester_route path = Some route → wallet_route path = None ∧ path ≠ ["health"].
Proof. destruct path as [|a [|b [|? [|? []]]]]; done. Qed.

Lemma wallet_router_refuses d req route : requester_route (rq_path req) = Some route → refuses (wallet_router texts d state req).
Proof.
  intros (Hw & Hh)%requester_not_wallet s. unfold wallet_router. rewrite Hw. unfold no_route, health.
  rewrite decide_False by done. by exists NOT_FOUND.
Qed.

(** C23. A request for a route of relying parties - starting a session or fetching
    the attributes that were disclosed in one - is handled exactly when the settings
    allow it: with the API key where one is set, and not on the address that wallets
    use where there is another for requesters.  Otherwise it is refused with an error
    status and the sessions are not touched. *)
Theorem requester_routes_protected l d req h route :
  listen disclosed_to_json texts auth d state l req = Some h → requester_route (rq_path req) = Some route →
  if may_request l req then h = requester_router disclosed_to_json texts d state req else refuses h.
Proof.
  intros Hl Hr. pose proof (wallet_router_refuses d req route Hr) as Hw.
  destruct (requester_not_wallet _ _ Hr) as [_ Hh].
  assert (health req = None) as Hhealth by (unfold health; by rewrite decide_False).
  assert (refuses (sret (status_only UNAUTHORIZED))) as Hu by (intros s; by exists UNAUTHORIZED).
  unfold listen, secure_requester_router, may_request in *. rewrite Hr, Hhealth in Hl.
  destruct auth as [[key]|[key] addr|addr], l; simplify_eq/=; try done; by destruct (bearer_valid _ _).
Qed.
End Disclosure.

(** ** The issuance server and the wallet *)
Class IssuanceClient `{!Axum, !IssuanceJson} := {
  vc_path : string → list string;
  vc_base_join : string → string → string;
  token_form : TokenRequest → Body;
  batch_body : list CredentialRequest → Body;
  read_metadata : string → option IssuerMetadata;
  read_oauth_metadata : string → option string;
  read_token_response : string → option TokenResponseWithPreviews;
  read_credential_responses : string → option (list CredentialResponse);
  (** The requests of the wallet and the answers arrive as the values that were
      sent; lists of previews and of requests have a member. *)
  token_request_arrives r : form_token_request (token_form r) = inr r;
  batch_arrives rs : rs ≠ [] → json_credential_requests (batch_body rs) = inr rs;
  token_response_arrives r text : attestation_previews r ≠ [] →
    token_response_to_string r = Some text → read_token_response text = Some r;
  credential_responses_arrive rs text : credential_responses_to_string rs = Some text → read_credential_responses text = Some rs;
  (** [headers::Authorization] knows the scheme of the wallet *)
  dpop_scheme token : scheme_matches DPOP_HEADER_NAME (DpopBearer_encode token) = true
}.

(** [DpopBearer]: what the wallet writes is read back. *)
Lemma substring_app (a b : string) :
  String.substring (String.length a) (String.length (a +:+ b) - String.length a) (a +:+ b) = b.
Proof.
  induction a as [|c a IH]; [|exact IH]. cbn [String.length]. rewrite Nat.sub_0_r. change ("" +:+ b) with b.
  induction b as [|c b IHb]; [done|]. cbn. by rewrite IHb.
Qed.
Lemma DpopBearer_round_trip token : DpopBearer_decode (DpopBearer_encode token) = Ok token.
Proof.
  unfold DpopBearer_decode, DpopBearer_encode. change (DPOP_HEADER_NAME +:+ " " +:+ token) with ("DPoP " +:+ token).
  change (Datatypes.S (String.length DPOP_HEADER_NAME)) with (String.length "DPoP ").
  replace (String.length "DPoP " <=? String.length ("DPoP " +:+ token))%nat with true by done.
  cbn [rust_assert obind]. by rewrite (substring_app "DPoP " token).
Qed.

Section Issuance.
Context `{!Ecdsa, !Base64, !Sha256, !JwtLib DpopPayload, !JwtLib CredentialRequestProofJwtPayload}.
Context `{!Coset, !Ciborium, !X509Lib, !Chrono, !UrlLib, !MacLib, !UrlJoin, !VerifierLib, !JsonText, !Axum, !IssuanceJson, !IssuanceClient}.
Context {S EK : Type} `{!SessionStore IssuanceData S}.
Variable texts : IssuanceTexts.
Variable state : IssuerState.
Variable draws : nat → IssuanceDraws.
Variable s0 : S.
Variable meanwhile : nat → S → S.
Variable read_url : string → option string.

(** A message as it arrives.  Those that fetch metadata do not change the server. *)
Definition vc_request (m : VcMessage) : Request :=
  let no_body := mkBody None "" in
  match m with
  | DiscoverMetadata url | DiscoverOauthMetadata url => mkRequest MGet (vc_path url) None [] [] no_body
  | RequestToken url token_request dpop => mkRequest MPost (vc_path url) None [] [Some dpop] (token_form token_request)
  | RequestCredentials url requests dpop access_token =>
      mkRequest MPost (vc_path url) None [Some access_token] [Some dpop] (batch_body requests)
  | RejectIssuance url dpop access_token => mkRequest MDelete (vc_path url) None [Some access_token] [Some dpop] no_body
  end.
Definition vc_answered (n : nat) (m : VcMessage) : ST S Empty_set Response := issuance_router texts (draws n) state (vc_request m).
Definition vc_served (log : list VcMessage) : S := replay (λ n m s, snd (vc_answered n m s)) meanwhile 0 s0 log.

(** [response.headers().get(DPOP_NONCE_HEADER_NAME)] *)
Definition dpop_nonce_of (response : Response) : option (option string) :=
  match filter (λ h, h.1 = DPOP_NONCE_HEADER_NAME) (rs_headers response) with h :: _ => Some (Some h.2) | [] => None end.
Definition connected_issuer : VcHttp := {|
  vc_execute log m :=
    match fst (vc_answered (length log) m (vc_served log)) with
    | Ok response => Some (mkVcResponse (rs_status response) (dpop_nonce_of response) (rs_body response))
    | _ => None
    end;
  vc_join := vc_base_join;
  metadata_from_json := read_metadata;
  oauth_metadata_from_json := read_oauth_metadata;
  vc_error_from_json text := json_from_str text ≫= read_error_response read_url;
  token_response_from_json := read_token_response;
  credential_responses_from_json := read_credential_responses
|}.

Lemma vc_served_snoc log m : vc_served (log ++ [m]) = meanwhile (1 + length log) (snd (vc_answered (length log) m (vc_served log))).
Proof. exact (replay_snoc (λ n m s, snd (vc_answered n m s)) meanwhile 0 s0 log m). Qed.

(** What the wallet hears of an outcome, when its answer can be written *)
Definition vc_heard {E A B} (error_of : E → IssuanceSessionError EK) (f : A → outcome (IssuanceSessionError EK) B) (o : outcome E A)
    : outcome (IssuanceSessionError EK) B :=
  match o with
  | Ok a => f a
  | Err e => Err (error_of e)
  | Panic => Err SNetwork
  end.
Definition written {E A} (to_string : A → option string) (o : outcome E A) : Prop := ∀ a, o = Ok a → is_Some (to_string a).
Definition token_error_heard (e : TokenRequestError) : IssuanceSessionError EK :=
  STokenRequest (heard_error token_error_code (show_token texts) e).
Definition credential_error_heard (e : CredentialRequestError) : IssuanceSessionError EK :=
  SCredentialRequest (heard_error credential_error_code (show_credential texts) e).

(** The outcomes of the handlers in the state in which a message arrives *)
Definition token_outcome (log : list VcMessage) (token_request : TokenRequest) (dpop : string)
    : outcome TokenRequestError (TokenResponseWithPreviews * string) * S :=
  process_token_request (as_attributes (is_attr_service state)) (show_token texts) (id_now (draws (length log)))
    (id_token (draws (length log))) (is_issuer_data state) token_request dpop (vc_served log).
Definition batch_outcome (log : list VcMessage) (token : AccessToken) (dpop : string) (requests : list CredentialRequest)
    : outcome CredentialRequestError (list CredentialResponse) * S :=
  process_batch_credential (show_credential texts) (id_now (draws (length log))) (id_rng (draws (length log)))
    (is_issuer_data state) token dpop requests (vc_served log).
Definition reject_outcome (log : list VcMessage) (token : AccessToken) (dpop endpoint : string)
    : outcome CredentialRequestError unit * S :=
  process_reject_issuance (id_now (draws (length log))) (is_issuer_data state) token dpop endpoint (vc_served log).

Lemma vc_error_heard {E T} `{!ErrorStatusCode T, !ErrorStatuses T} (code : E → T) show (e : E) (on_error : ErrorResponse string → IssuanceSessionError EK) nonce :
  vc_check_status (H:=connected_issuer) on_error (mkVcResponse (status_code (code e)) nonce (json_to_string
    (flat (error_response_fields (mkServerErrorResponse (into_error_response code show e) None))))) =
  Err (on_error (heard_error code show e)).
Proof.
  unfold vc_check_status. cbn [vr_status vr_json connected_issuer vc_error_from_json].
  change (vc_error_status (status_code (code e))) with (is_error_status (status_code (code e))). rewrite error_statuses, json_round_trip.
  cbn [mbind option_bind]. unfold into_error_response. by rewrite read_error_fields.
Qed.

Lemma answered_token log url token_request dpop : vc_path url = ["issuance"; "token"] →
  vc_answered (length log) (RequestToken url token_request dpop) (vc_served log) =
  respond_with (λ _, token_outcome log token_request dpop) token_response_of
    (λ e, error_into_response (ErrorResponse_new (into_error_response token_error_code (show_token texts) e))) (vc_served log).
Proof.
  intros Hp. unfold vc_answered, issuance_router. cbn [vc_request rq_path rq_method]. rewrite Hp.
  change (issuance_route ["issuance"; "token"]) with (Some TokenRoute). cbv iota beta. unfold token_endpoint.
  change (dpop_header _) with (inr (A:=Z) dpop). cbn [extracted rq_body]. by rewrite token_request_arrives.
Qed.

(** The header with the access token is read before the rest of a request. *)
Lemma authorized req token (k : AccessToken → ST S Empty_set Response) : rq_authorization req = [Some (DpopBearer_encode token)] →
  authorization_header req k = k token.
Proof. intros Ha. unfold authorization_header. by rewrite Ha, dpop_scheme, DpopBearer_round_trip. Qed.

Lemma answered_batch log url requests dpop token : vc_path url = ["issuance"; "batch_credential"] → requests ≠ [] →
  vc_answered (length log) (RequestCredentials url requests dpop (DpopBearer_encode token)) (vc_served log) =
  respond_with (λ _, batch_outcome log token dpop requests)
    (λ responses, Ok (json_or_error [] (credential_responses_to_string responses))) (credential_error texts) (vc_served log).
Proof.
  intros Hp Hne. unfold vc_answered, issuance_router. cbn [vc_request rq_path rq_method]. rewrite Hp.
  change (issuance_route ["issuance"; "batch_credential"]) with (Some BatchCredentialRoute). cbv iota beta.
  unfold batch_credential_endpoint. rewrite (authorized _ token) by done.
  change (dpop_header _) with (inr (A:=Z) dpop). cbn [extracted rq_body]. by rewrite batch_arrives.
Qed.

Lemma answered_reject log url dpop token : vc_path url = ["issuance"; "batch_credential"] →
  vc_answered (length log) (RejectIssuance url dpop (DpopBearer_encode token)) (vc_served log) =
  respond_with (λ _, reject_outcome log token dpop "batch_credential") (λ _, Ok (status_only 204)) (credential_error texts) (vc_served log).
Proof.
  intros Hp. unfold vc_answered, issuance_router. cbn [vc_request rq_path rq_method]. rewrite Hp.
  change (issuance_route ["issuance"; "batch_credential"]) with (Some BatchCredentialRoute). cbv iota beta.
  unfold reject_endpoint. rewrite (authorized _ token) by done. by change (dpop_header _) with (inr (A:=Z) dpop).
Qed.

Lemma token_heard log url token_request dpop : vc_path url = ["issuance"; "token"] →
  written (token_response_to_string ∘ fst) (fst (token_outcome log token_request dpop)) →
  (∀ r n, fst (token_outcome log token_request dpop) = Ok (r, n) → attestation_previews r ≠ []) →
  http_request_token (H:=connected_issuer) log url token_request dpop =
  vc_heard token_error_heard (λ r, if header_value_ok r.2 then Ok (r.1, Some r.2) else Err SNetwork)
    (fst (token_outcome log token_request dpop)).
Proof.
  intros Hp Hw Hne. unfold http_request_token. cbn [connected_issuer vc_execute].
  rewrite answered_token by done. unfold respond_with.
  destruct (token_outcome log token_request dpop) as [[[r n]|e|] s']; [| |done]; cbn [fst vc_heard snd].
  - destruct (Hw (r, n) eq_refl) as [text Ht]. cbn [compose fst] in Ht. specialize (Hne r n eq_refl). unfold token_response_of, json_or_error.
    rewrite Ht. destruct (header_value_ok n); [|done]. cbn [rust_assert obind ok_or rs_status rs_body]. unfold vc_check_status.
    change (dpop_nonce_of _) with (Some (Some n)). cbn [vr_status vr_dpop_nonce vr_json]. change (vc_error_status 200) with false.
    cbn [obind connected_issuer token_response_from_json]. by rewrite (token_response_arrives r text).
  - cbn [ok_or obind error_into_response json_response rs_status rs_body]. unfold ErrorResponse_new.
    by rewrite (vc_error_heard token_error_code (show_token texts) e).
Qed.

Lemma batch_heard log url requests dpop token : vc_path url = ["issuance"; "batch_credential"] → requests ≠ [] →
  written credential_responses_to_string (fst (batch_outcome log token dpop requests)) →
  http_request_credentials (H:=connected_issuer) log url requests dpop (DpopBearer_encode token) =
  vc_heard credential_error_heard Ok (fst (batch_outcome log token dpop requests)).
Proof.
  intros Hp Hne Hw. unfold http_request_credentials. cbn [connected_issuer vc_execute].
  rewrite answered_batch by done. unfold respond_with.
  destruct (batch_outcome log token dpop requests) as [[r|e|] s']; [| |done]; cbn [fst vc_heard snd].
  - destruct (Hw r eq_refl) as [text Ht]. unfold json_or_error. rewrite Ht. cbn [ok_or obind rs_status rs_body]. unfold vc_check_status.
    cbn [vr_status vr_json]. change (vc_error_status 200) with false.
    cbn [obind connected_issuer credential_responses_from_json]. by rewrite (credential_responses_arrive r text).
  - unfold credential_error, ErrorResponse_new. cbn [ok_or obind error_into_response json_response rs_status rs_body].
    by rewrite (vc_error_heard credential_error_code (show_credential texts) e).
Qed.

Lemma reject_heard log url dpop token : vc_path url = ["issuance"; "batch_credential"] →
  http_reject (H:=connected_issuer) log url dpop (DpopBearer_encode token) =
  vc_heard credential_error_heard Ok (fst (reject_outcome log token dpop "batch_credential")).
Proof.
  intros Hp. unfold http_reject. cbn [connected_issuer vc_execute]. rewrite answered_reject by done. unfold respond_with.
  destruct (reject_outcome log token dpop "batch_credential") as [[[]|e|] s']; [done| |done].
  unfold credential_error, ErrorResponse_new. cbn [fst ok_or obind error_into_response json_response rs_status rs_body].
  by rewrite (vc_error_heard credential_error_code (show_credential texts) e).
Qed.

(** C30. A wallet that is connected over HTTP to the issuance server hears the
    outcome of the handler of its message: the attestations that are offered with
    the nonce for its next proof, the credentials, or the error with its code and
    text.  The access token that the server takes from the header is the one that
    the wallet wrote there, and the next message meets the state that the handler
    left. *)
Theorem issuer_heard_by_wallet log dpop :
  (∀ url token_request, vc_path url = ["issuance"; "token"] →
    written (token_response_to_string ∘ fst) (fst (token_outcome log token_request dpop)) →
    (∀ r n, fst (token_outcome log token_request dpop) = Ok (r, n) → attestation_previews r ≠ []) →
    http_request_token (H:=connected_issuer) log url token_request dpop =
      vc_heard token_error_heard (λ r, if header_value_ok r.2 then Ok (r.1, Some r.2) else Err SNetwork)
        (fst (token_outcome log token_request dpop)) ∧
    vc_served (log ++ [RequestToken url token_request dpop]) = meanwhile (1 + length log) (snd (token_outcome log token_request dpop))) ∧
  (∀ url requests token, vc_path url = ["issuance"; "batch_credential"] → requests ≠ [] →
    written credential_responses_to_string (fst (batch_outcome log token dpop requests)) →
    http_request_credentials (H:=connected_issuer) log url requests dpop (DpopBearer_encode token) =
      vc_heard credential_error_heard Ok (fst (batch_outcome log token dpop requests)) ∧
    vc_served (log ++ [RequestCredentials url requests dpop (DpopBearer_encode token)]) =
      meanwhile (1 + length log) (snd (batch_outcome log token dpop requests))) ∧
  (∀ url token, vc_path url = ["issuance"; "batch_credential"] →
    http_reject (H:=connected_issuer) log url dpop (DpopBearer_encode token) =
      vc_heard credential_error_heard Ok (fst (reject_outcome log token dpop "batch_credential")) ∧
    vc_served (log ++ [RejectIssuance url dpop (DpopBearer_encode token)]) =
      meanwhile (1 + length log) (snd (reject_outcome log token dpop "batch_credential"))).
Proof.
  split_and!.
  - intros url token_request Hp Hw Hne. split; [by apply token_heard|].
    rewrite vc_served_snoc, answered_token by done. by rewrite respond_with_state.
  - intros url requests token Hp Hne Hw. split; [by apply batch_heard|].
    rewrite vc_served_snoc, answered_batch by done. by rewrite respond_with_state.
  - intros url token Hp. split; [by apply reject_heard|].
    rewrite vc_served_snoc, answered_reject by done. by rewrite respond_with_state.
Qed.
End Issuance.

(** ** Starting with settings *)
Lemma try_convert_lookup {A B E} (f : A → outcome E B) (value : gmap string A) result k : try_convert f value = Ok result →
  match value !! k with Some a => ∃ b, f a = Ok b ∧ result !! k = Some b | None => result !! k = None end.
Proof.
  unfold try_convert. intros (l & Hl%try_map_Ok & [= <-])%bind_Ok.
  assert (l.*1 = (map_to_list value).*1) as Hk.
  { clear -Hl. induction Hl as [|[k a] p l l' (b & _ & [= <-])%bind_Ok _ IH]; [done|]. cbn. by rewrite IH. }
  assert (NoDup l.*1) as Hnd by (rewrite Hk; apply NoDup_fst_map_to_list).
  destruct (value !! k) as [a|] eqn:Ha.
  - apply elem_of_map_to_list in Ha. apply list_elem_of_lookup_1 in Ha as [i Hi].
    destruct (Forall2_lookup_l _ _ _ _ _ Hl Hi) as (p & Hp & (b & Hb & [= <-])%bind_Ok).
    exists b. split; [done|]. apply elem_of_list_to_map; [done|]. by eapply list_elem_of_lookup_2.
  - apply not_elem_of_list_to_map. rewrite Hk. intros ([? a] & -> & Hin%elem_of_map_to_list)%list_elem_of_fmap. cbn [fst] in Ha. by simplify_eq.
Qed.

Section Settings.
Context `{!Ecdsa, !X509Lib, !MacLib, !SettingsLib}.

(** A disclosure server starts only when every use case has a key and a certificate
    with a DNS name, and then serves exactly the use cases of its settings, each
    with its certificate and under that name. *)
Lemma started_use_cases public_url ul verifier state id : create_application_state public_url ul verifier = Ok state →
  match vs_usecases verifier !! id with
  | Some u => ∃ use_case, use_cases (as_verifier state) !! id = Some use_case ∧
      certificate (key_pair use_case) = kp_certificate (vu_key_pair u) ∧
      signing_key_from_pkcs8 (kp_private_key (vu_key_pair u)) = Some (private_key (key_pair use_case)) ∧
      session_type_return_url use_case = vu_session_type_return_url u ∧
      san_dns_name (kp_certificate (vu_key_pair u)) = Ok (Some (uc_client_id use_case))
  | None => use_cases (as_verifier state) !! id = None
  end.
Proof.
  unfold create_application_state. intros (ucs & Hu & [= <-])%bind_Ok. cbn [as_verifier use_cases].
  apply (try_convert_lookup _ _ _ id) in Hu. destruct (vs_usecases verifier !! id) as [u|]; [|done].
  destruct Hu as (uc & Hc & Hl). exists uc. split; [done|].
  unfold use_case_of, key_pair_of in Hc. apply bind_Ok in Hc as (key & (sk & Hk%ok_or_Ok & [= <-])%bind_Ok & Hc%map_err_Ok).
  unfold UseCase_new in Hc. apply bind_Ok in Hc as (san & Hs%map_err_Ok & (name & Hn%ok_or_Ok & [= <-])%bind_Ok).
  cbn [key_pair certificate private_key uc_client_id session_type_return_url] in *. by subst san.
Qed.

(** Timeouts in minutes are converted exactly, unless the seconds do not fit in 64
    bits. *)
Lemma storage_timeouts_exact {E} prof st : (∀ m, m ∈ [expiration_minutes st; successful_deletion_minutes st; failed_deletion_minutes st] →
    0 ≤ 60 * m < 2 ^ 64) →
  storage_timeouts (E:=E) prof st = Ok {|
    expiration := seconds (60 * expiration_minutes st);
    successful_deletion := seconds (60 * successful_deletion_minutes st);
    failed_deletion := seconds (60 * failed_deletion_minutes st) |}.
Proof.
  intros Hm. unfold storage_timeouts, arith.
  rewrite !(proj2 (in_range_spec 64 _)) by (apply Hm; set_solver). done.
Qed.
End Settings.

(** ** A wallet and the servers, evaluated *)
From S2P Require Import SessionStoreFacts Concrete MdocFacts IssuerFacts IssuerWitness VerifierWitness HolderWitness.
Import Crates.

(** *** Crates *)
Definition unflat (j : Json) : option (list (string * option string)) :=
  match j with
  | JObject l => mapM (λ p : string * Json,
      match p.2 with JString s => Some (p.1, Some s) | JNull => Some (p.1, None) | _ => None end) l
  | _ => None
  end.
Lemma unflat_flat l : unflat (flat l) = Some l.
Proof.
  unfold unflat, flat. apply mapM_Some. apply Forall2_fmap_l, Forall_Forall2_diag, list.Forall_true. by intros [k [v|]].
Qed.
#[local] Instance ex_json_text : JsonText.
Proof.
  refine {|
    json_to_string j := match unflat j with Some l => "{" +:+ to_bytes l | None => "?" end;
    json_from_str s := match s with String _ rest => flat <$> of_bytes rest | EmptyString => None end
  |}.
  - intros l. by rewrite unflat_flat.
  - intros l. rewrite unflat_flat. change (flat <$> of_bytes (to_bytes l) = Some (flat l)). by rewrite of_to_bytes.
Defined.

Definition codes : list VpAuthorizationErrorCode :=
  [VpFormatsNotSupported; InvalidPresentationDefinitionUri; InvalidPresentationDefinitionReference; InvalidRequestUriMethod] ++
  (AuthorizationError <$> [InvalidRequest; UnauthorizedClient; AccessDenied; UnsupportedResponseType; InvalidScope;
                           Protocol.ServerError; TemporarilyUnavailable]).
Definition code_index (c : VpAuthorizationErrorCode) : nat :=
  match c with
  | VpFormatsNotSupported => 0 | InvalidPresentationDefinitionUri => 1
  | InvalidPresentationDefinitionReference => 2 | InvalidRequestUriMethod => 3
  | AuthorizationError e => 4 + match e with
      | InvalidRequest => 0 | UnauthorizedClient => 1 | AccessDenied => 2 | UnsupportedResponseType => 3
      | InvalidScope => 4 | Protocol.ServerError => 5 | TemporarilyUnavailable => 6 end
  end.
Lemma code_index_spec c : codes !! code_index c = Some c.
Proof. by destruct c as [| | | |[]]. Qed.
Definition formats : list Format := [MsoMdoc; LdpVc; JwtVc; JwtVcJson; AcVc].
Definition format_index (f : Format) : nat := match f with MsoMdoc => 0 | LdpVc => 1 | JwtVc => 2 | JwtVcJson => 3 | AcVc => 4 end.
Lemma format_index_spec f : formats !! format_index f = Some f.
Proof. by destruct f. Qed.

Definition write_token_request (r : TokenRequest) : string :=
  to_bytes (match grant_type r with GrantAuthorizationCode c => (true, c) | GrantPreAuthorizedCode c => (false, c) end,
            code_verifier r, client_id r, redirect_uri r).
Definition read_token_request (s : string) : option TokenRequest :=
  (λ x : (bool * string) * option string * option string * option string,
    let '(g, v, c, u) := x in
    mkTokenRequest (if g.1 : bool then GrantAuthorizationCode g.2 else GrantPreAuthorizedCode g.2) v c u) <$> of_bytes s.
Definition write_requests (rs : list CredentialRequest) : string :=
  to_bytes ((λ r, (format_index (format r), doctype r, (λ p, let 'ProofJwt j := p in j) <$> proof r)) <$> rs).
Definition read_requests (s : string) : option (list CredentialRequest) :=
  (of_bytes s : option (list (nat * option string * option string))) ≫= mapM (λ x : nat * option string * option string,
    f ← formats !! x.1.1; Some (mkCredentialRequest f x.1.2 (ProofJwt <$> x.2))).
Lemma batch_requests_round_trip rs : read_requests (write_requests rs) = Some rs.
Proof.
  unfold read_requests, write_requests. rewrite of_to_bytes. cbn [mbind option_bind]. apply mapM_Some.
  apply Forall2_fmap_l, Forall_Forall2_diag, list.Forall_true. intros [f d p]. cbn [fst snd format doctype proof].
  by destruct f, p as [[]|].
Qed.
Definition or_reject {A} (o : option A) : Z + A := match o with Some a => inr a | None => inl BAD_REQUEST end.

#[local] Instance ex_axum : Axum := {|
  rejection_text _ := "rejected";
  form_wallet_request b := or_reject (of_bytes (body_text b));
  query_wallet_request _ := inr None;
  form_wallet_response b := or_reject (
    (of_bytes (body_text b) : option (string + nat * option string * option string)) ≫= λ x,
    match x with
    | inl jwe => Some (WalletResponse (mkVpToken jwe))
    | inr (c, d, u) => e ← codes !! c; Some (WalletError (mkErrorResponse e d u))
    end);
  query_status_params _ := inr SameDevice;
  json_start_request _ := inl BAD_REQUEST;
  query_nonce_params q := inr q;
  form_token_request b := or_reject (read_token_request (body_text b));
  json_credential_request _ := inl BAD_REQUEST;
  json_credential_requests b := or_reject (read_requests (body_text b));
  scheme_matches scheme value := String.prefix (scheme +:+ " ") value;
  header_value_ok _ := true;
  cors r := r;
  cors_preflight := status_only 200;
  bearer_valid key values := bool_decide (values = [Some ("Bearer " +:+ key)])
|}.

Definition ex_request_url : string := set_query "https://rp.example.com/disclosure/tok/request_uri" ex_link.
#[local] Instance ex_forms : ClientForms.
Proof.
  refine {|
    url_path u := ["disclosure"; "tok"; if decide (u = ex_uri) then "response_uri" else "request_uri"];
    no_body := mkBody None "";
    form_body f := mkBody (Some "application/x-www-form-urlencoded") (match f with
      | WalletRequestForm n => to_bytes n
      | VpTokenForm jwe => to_bytes (inl jwe : string + nat * option string * option string)
      | ErrorForm e => to_bytes (inr (code_index (error e), error_description _ e, error_uri _ e) : string + nat * option string * option string)
      end)
  |}.
  - intros n. cbn [form_wallet_request ex_axum body_text]. by rewrite of_to_bytes.
  - intros jwe. cbn [form_wallet_response ex_axum body_text]. by rewrite of_to_bytes.
  - intros [c d u]. cbn [form_wallet_response ex_axum body_text]. rewrite of_to_bytes. cbn [mbind option_bind error].
    by rewrite code_index_spec.
Defined.

(** *** The disclosure session of [VerifierWitness], over HTTP *)
Section DisclosureExample.
#[local] Instance ex_joins : UrlJoin := {| url_path_is_dir _ := true; url_push_slash u := u; url_join _ _ := Some ex_uri |}.
Definition ex_texts : DisclosureTexts :=
  mkDisclosureTexts ex_show_get (λ _, "post error") ex_show_post ex_show_user (λ _, "verification error").
Definition ex_state : ApplicationState := mkApplicationState ex_verifier "https://rp.example.com/" "walletdebuginteraction://".
Definition ex_draws (_ : nat) : DisclosureDraws := mkDisclosureDraws _ ex_now ex_now VerifierWitness.ex_rnd "new".
Abbreviation ex_connected :=
  (connected (λ _, JNull) ex_texts (InternalEndpoint (mkServerAddress "127.0.0.1" 3002)) ex_state ex_draws v1 (λ _ s, s) Some).
Abbreviation ex_log := [GetAuthorizationRequest ex_request_url (Some "wn")].

(** The wallet gets the request, sends its response and hears where to go; a second
    response is refused with a code. *)
Lemma verifier_heard_by_wallet_witness :
  http_get_authorization_request (H:=ex_connected) [] ex_request_url (Some "wn") = Ok ex_jws ∧
  http_send_authorization_response (H:=ex_connected) ex_log ex_uri ex_jwe = Ok (Some "https://rp.example.com/tok&nonce=rn") ∧
  http_send_authorization_response (H:=ex_connected) (ex_log ++ [SendAuthorizationResponse ex_uri ex_jwe]) ex_uri ex_jwe =
    Err (VpErrorResponse (mkErrorResponse "invalid_request" (Some "post error") None)).
Proof.
  destruct (verifier_heard_by_wallet (λ _, JNull) ex_texts (InternalEndpoint (mkServerAddress "127.0.0.1" 3002)) ex_state ex_draws
    v1 (λ _ s, s) Some "tok" []) as [Hget _].
  destruct (verifier_heard_by_wallet (λ _, JNull) ex_texts (InternalEndpoint (mkServerAddress "127.0.0.1" 3002)) ex_state ex_draws
    v1 (λ _ s, s) Some "tok" ex_log) as (_ & Hpost & _).
  destruct (verifier_heard_by_wallet (λ _, JNull) ex_texts (InternalEndpoint (mkServerAddress "127.0.0.1" 3002)) ex_state ex_draws
    v1 (λ _ s, s) Some "tok" (ex_log ++ [SendAuthorizationResponse ex_uri ex_jwe])) as (_ & Hagain & _).
  destruct (Hget ex_request_url (Some "wn") ex_uri) as [Hg _]; [vm_compute; reflexivity|intros [=]|reflexivity|].
  destruct (Hpost ex_uri ex_jwe) as [Hp _]; [vm_compute; reflexivity|by intros ???|].
  destruct (Hagain ex_uri ex_jwe) as [Ha _]; [vm_compute; reflexivity|by intros ???|].
  split_and!.
  - etransitivity; [exact Hg|vm_compute; reflexivity].
  - etransitivity; [exact Hp|vm_compute; reflexivity].
  - etransitivity; [exact Ha|vm_compute; reflexivity].
Defined.

(** With an API key: asking for attributes without it *)
Definition ex_unauthorized : Request := mkRequest MGet ["disclosure"; "sessions"; "tok"; "disclosed_attributes"] None [] [] (mkBody None "").
Lemma requester_routes_protected_witness : ∃ h,
  listen (λ _, JNull) ex_texts (RequesterAuthentication (ApiKey "key")) (ex_draws 0) ex_state WalletListener ex_unauthorized = Some h ∧
  ∃ status, h v3 = (Ok (status_only status), v3) ∧ is_error_status status = true.
Proof.
  eexists. split; [reflexivity|].
  exact (requester_routes_protected (λ _, JNull) ex_texts (RequesterAuthentication (ApiKey "key")) ex_state WalletListener (ex_draws 0)
    ex_unauthorized _ (DisclosedAttributesRoute "tok") eq_refl eq_refl v3).
Defined.
End DisclosureExample.

(** *** The issuance session of [IssuerWitness], over HTTP *)
#[local] Instance Entry_eq_dec : EqDecision Entry.
Proof. solve_decision. Defined.
#[local] Instance UnsignedMdoc_eq_dec : EqDecision UnsignedMdoc.
Proof. solve_decision. Defined.
#[local] Instance AttestationPreview_eq_dec : EqDecision AttestationPreview.
Proof. solve_decision. Defined.
#[local] Instance TokenType_eq_dec : EqDecision TokenType.
Proof. solve_decision. Defined.
#[local] Instance TokenResponse_eq_dec : EqDecision TokenResponse.
Proof. solve_decision. Defined.
#[local] Instance TokenResponseWithPreviews_eq_dec : EqDecision TokenResponseWithPreviews.
Proof. solve_decision. Defined.
#[local] Instance CredentialResponse_eq_dec : EqDecision CredentialResponse.
Proof. solve_decision. Defined.

(** Texts are known for one answer of each kind. *)
Definition ex_token_response : TokenResponseWithPreviews :=
  mkTokenResponseWithPreviews (TokenResponse_new ex_at "cn") [PreviewMsoMdoc example_unsigned "cert"].
#[local] Instance ex_issuance_json : IssuanceJson := {|
  metadata_to_string _ := None;
  oauth_metadata_to_string _ := None;
  token_response_to_string r := if decide (r = ex_token_response) then Some "token response" else None;
  credential_response_to_string _ := None;
  credential_responses_to_string rs := if decide (rs = ex_resps) then Some "responses" else None
|}.
#[local] Instance ex_issuance_client : IssuanceClient.
Proof.
  refine {|
    vc_path u := ["issuance"; if decide (u = "https://i/token") then "token" else "batch_credential"];
    vc_base_join u s := u +:+ s;
    token_form r := mkBody (Some "application/x-www-form-urlencoded") (write_token_request r);
    batch_body rs := mkBody (Some "application/json") (write_requests rs);
    read_metadata _ := None;
    read_oauth_metadata _ := None;
    read_token_response _ := Some ex_token_response;
    read_credential_responses _ := Some ex_resps
  |}.
  - intros [g v c u]. cbn [form_token_request ex_axum body_text]. unfold read_token_request, write_token_request.
    rewrite of_to_bytes. by destruct g.
  - intros rs _. cbn [json_credential_requests ex_axum body_text]. by rewrite batch_requests_round_trip.
  - intros r text _. cbn [token_response_to_string ex_issuance_json]. case_decide; [by subst|done].
  - intros rs text. cbn [credential_responses_to_string ex_issuance_json]. case_decide; [by subst|done].
  - intros token. by destruct token.
Defined.

Definition ex_issuance_texts : IssuanceTexts := mkIssuanceTexts ex_show_t ex_show_c.
Definition ex_issuer_state : IssuerState :=
  mkIssuerState (mkAttributeService ex_attributes (λ _, Err "no metadata")) ex_issuer (mkIssuerMetadata "https://i/" None None).
(** The token is requested at 20 seconds and the credentials at 30. *)
Definition ex_issuance_draws (n : nat) : IssuanceDraws :=
  mkIssuanceDraws (match n with O => 20 | S _ => 30 end) IssuerWitness.ex_rnd (λ _, example_rng).
Abbreviation ex_issuer_connected := (connected_issuer ex_issuance_texts ex_issuer_state ex_issuance_draws ex_store (λ _ s, s) Some).
Abbreviation ex_vc_log := [RequestToken "https://i/token" (requested "code") ex_dpop1].

(** The wallet gets the offer with the nonce, then the credentials; asking again
    is refused with a code. *)
Lemma issuer_heard_by_wallet_witness :
  http_request_token (EK:=unit) (H:=ex_issuer_connected) [] "https://i/token" (requested "code") ex_dpop1 = Ok (ex_token_response, Some "dn") ∧
  http_request_credentials (EK:=unit) (H:=ex_issuer_connected) ex_vc_log "https://i/batch_credential" ex_batch ex_dpop3 (DpopBearer_encode ex_at) =
    Ok ex_resps ∧
  http_request_token (EK:=unit) (H:=ex_issuer_connected) ex_vc_log "https://i/token" (requested "code") ex_dpop1 =
    Err (STokenRequest (mkErrorResponse "invalid_request" (Some "token error") None)).
Proof.
  destruct (issuer_heard_by_wallet (EK:=unit) ex_issuance_texts ex_issuer_state ex_issuance_draws ex_store (λ _ s, s) Some [] ex_dpop1)
    as [Htoken _].
  destruct (issuer_heard_by_wallet (EK:=unit) ex_issuance_texts ex_issuer_state ex_issuance_draws ex_store (λ _ s, s) Some ex_vc_log ex_dpop3)
    as (_ & Hbatch & _).
  destruct (issuer_heard_by_wallet (EK:=unit) ex_issuance_texts ex_issuer_state ex_issuance_draws ex_store (λ _ s, s) Some ex_vc_log ex_dpop1)
    as [Hagain _].
  destruct (Htoken "https://i/token" (requested "code")) as [Ht _].
  { reflexivity. }
  { intros a. vm_compute. intros [= <-]. eexists. reflexivity. }
  { intros r n. vm_compute. intros [= <- _]. discriminate. }
  destruct (Hbatch "https://i/batch_credential" ex_batch ex_at) as [Hb _].
  { reflexivity. }
  { discriminate. }
  { intros a. vm_compute. intros [= <-]. eexists. reflexivity. }
  destruct (Hagain "https://i/token" (requested "code")) as [Ha _].
  { reflexivity. }
  { intros a. vm_compute. discriminate. }
  { intros r n. vm_compute. discriminate. }
  split_and!.
  - etransitivity; [exact Ht|vm_compute; reflexivity].
  - etransitivity; [exact Hb|vm_compute; reflexivity].
  - etransitivity; [exact Ha|vm_compute; reflexivity].
Defined.
