(* ===== verification/Pkcs11.v ===== *)
(** * The HSM of the wallet provider

    Models [wallet_provider/service/src/hsm.rs]: how the operations that the account
    server has of an HSM ([wallet_provider/domain/src/model/hsm.rs]) are made of
    calls to a PKCS#11 token, with [keys.rs], the keys with which the account server
    signs.

    The token and the pool of sessions (the crates [cryptoki] and [r2d2_cryptoki])
    are the class [Cryptoki] over the state of the token; [CryptokiLaws] says what
    PKCS#11 documents of the calls, in terms of the objects that the token holds.  A
    call may fail at any time, and an object of a session may be gone with its
    session; objects of the token stay.

    The operations meet the interface [Hsm] of [AccountServer]: in every run of them
    what was encrypted is decrypted to the same key, a MAC is verified, and a
    signature with a wrapped key verifies under the public key that was given out for
    it, unless a call fails. *)
From stdpp Require Import base strings list option relations.
From Stdlib Require Import ZArith Lia.
From S2P Require Import Prelude IndexMap Crypto WalletUsers AccountServer.

(** ** The token *)
Inductive ObjectClass := SECRET_KEY | PRIVATE_KEY.
Inductive KeyType := GENERIC_SECRET | EC.
Inductive P11Attribute :=
  | AToken (b : bool) | APrivate (b : bool) | ASensitive (b : bool) | AExtractable (b : bool) | ADerive (b : bool)
  | ASign (b : bool) | AClass (c : ObjectClass) | AKeyType (k : KeyType) | AValueLen (n : Z) | ALabel (l : string)
  | AEcParams (oid : string) | AEcPoint (point : string) | AOther.
Inductive Mechanism :=
  | GenericSecretKeyGen | EccKeyPairGen | MEcdsa | MSha256Hmac | AesKeyWrapPad
  | AesGcm (iv aad : string) (tag_bits : Z).

(** Errors of the token: a signature that does not verify, and any other *)
Inductive Pkcs11Error := SignatureInvalid | DeviceError.
Inductive HsmFailure :=
  | HsmPkcs11 (e : Pkcs11Error)
  | R2d2
  | Sec1
  | NoInitializedSlotAvailable
  | P256
  | AttributeNotFound (attribute : string)
  | KeyNotFound (identifier : string).

Class Cryptoki (T : Type) `{!Ecdsa} := {
  ObjectHandle : Type;
  (** [Pool::get] *)
  pool_get : ST T unit unit;
  find_objects : list P11Attribute → ST T Pkcs11Error (list ObjectHandle);
  generate_key : Mechanism → list P11Attribute → ST T Pkcs11Error ObjectHandle;
  generate_key_pair : Mechanism → list P11Attribute → list P11Attribute → ST T Pkcs11Error (ObjectHandle * ObjectHandle);
  get_ec_point : ObjectHandle → ST T Pkcs11Error (list P11Attribute);
  p11_wrap_key : Mechanism → ObjectHandle → ObjectHandle → ST T Pkcs11Error string;
  p11_unwrap_key : Mechanism → ObjectHandle → string → list P11Attribute → ST T Pkcs11Error ObjectHandle;
  destroy_object : ObjectHandle → ST T Pkcs11Error unit;
  p11_sign : Mechanism → ObjectHandle → string → ST T Pkcs11Error string;
  p11_verify : Mechanism → ObjectHandle → string → string → ST T Pkcs11Error unit;
  generate_random_vec : Z → ST T Pkcs11Error string;
  p11_encrypt : Mechanism → ObjectHandle → string → ST T Pkcs11Error string;
  p11_decrypt : Mechanism → ObjectHandle → string → ST T Pkcs11Error string;
  (** [EcParameters::NamedCurve(NistP256::OID)], [OctetString::from_der] and the
      encoding of public keys *)
  nist_p256_params : option string;
  octet_string_from_der : string → option string;
  to_sec1_bytes : VerifyingKey → string;
  from_sec1_bytes : string → option VerifyingKey
}.

(** ** The operations *)
Section Operations.
Context {T : Type} `{!Ecdsa, !Sha256, !Cryptoki T}.
Abbreviation HS := (ST T HsmFailure).

Inductive HandleType := PublicHandle | PrivateHandle.
Inductive SigningMechanism := Ecdsa256 | Sha256Hmac.
Definition AES_AUTHENTICATION_TAG_BITS : Z := 128.

(** [Pkcs11Hsm], without its pool, which is part of the token here *)
Record Pkcs11Hsm := mkPkcs11Hsm { wrapping_key_identifier : string }.

(** A call in a session of the pool *)
Definition in_session {A} (m : ST T Pkcs11Error A) : HS A :=
  let! _ := st_map_err (λ _, R2d2) pool_get in st_map_err HsmPkcs11 m.

(** [Pkcs11Hsm::get_key_handle] *)
Definition get_key_handle (identifier : string) (handle_type : HandleType) : HS ObjectHandle :=
  let! object_handles := in_session (find_objects
    [APrivate (match handle_type with PrivateHandle => true | PublicHandle => false end); ALabel identifier]) in
  st_lift (ok_or (KeyNotFound identifier) (head object_handles)).

(** *** [Pkcs11Client] *)
Definition client_generate_generic_secret_key (identifier : string) : HS ObjectHandle :=
  in_session (generate_key GenericSecretKeyGen
    [AToken true; APrivate true; ASensitive true; ASign true; AClass SECRET_KEY; AKeyType GENERIC_SECRET; AValueLen 32;
     ALabel identifier]).
Definition generate_session_signing_key_pair : HS (ObjectHandle * ObjectHandle) :=
  let! _ := st_map_err (λ _, R2d2) pool_get in
  let! oid := st_lift (ok_or Sec1 nist_p256_params) in
  st_map_err HsmPkcs11 (generate_key_pair EccKeyPairGen [AEcParams oid]
    [AToken false; APrivate true; AExtractable true; ADerive false; ASign false]).
Definition generate_signing_key_pair (identifier : string) : HS (ObjectHandle * ObjectHandle) :=
  let! _ := st_map_err (λ _, R2d2) pool_get in
  let! oid := st_lift (ok_or Sec1 nist_p256_params) in
  st_map_err HsmPkcs11 (generate_key_pair EccKeyPairGen [AEcParams oid; ALabel identifier]
    [AToken true; APrivate true; ASensitive true; AExtractable false; ADerive false; ASign true; ALabel identifier]).
Definition get_private_key_handle (identifier : string) : HS ObjectHandle := get_key_handle identifier PrivateHandle.
Definition get_public_key_handle (identifier : string) : HS ObjectHandle := get_key_handle identifier PublicHandle.
Definition client_get_verifying_key (public_key_handle : ObjectHandle) : HS VerifyingKey :=
  let! attributes := in_session (get_ec_point public_key_handle) in
  let! attr := st_lift (ok_or (AttributeNotFound "EC_POINT") (head attributes)) in
  match attr with
  | AEcPoint ec_point =>
      let! octet_string := st_lift (ok_or Sec1 (octet_string_from_der ec_point)) in
      st_lift (ok_or P256 (from_sec1_bytes octet_string))
  | _ => st_throw (AttributeNotFound "EC_POINT")
  end.
Definition wrap_key (wrapping_key key : ObjectHandle) : HS WrappedKey := in_session (p11_wrap_key AesKeyWrapPad wrapping_key key).
Definition unwrap_signing_key (unwrapping_key : ObjectHandle) (wrapped_key : WrappedKey) : HS ObjectHandle :=
  in_session (p11_unwrap_key AesKeyWrapPad unwrapping_key wrapped_key
    [AKeyType EC; AToken false; APrivate true; AClass PRIVATE_KEY]).
Definition client_delete_key (private_key_handle : ObjectHandle) : HS unit := in_session (destroy_object private_key_handle).
Definition mechanism_of (m : SigningMechanism) : Mechanism := match m with Ecdsa256 => MEcdsa | Sha256Hmac => MSha256Hmac end.
Definition client_sign (private_key_handle : ObjectHandle) (mechanism : SigningMechanism) (data : string) : HS string :=
  in_session (p11_sign (mechanism_of mechanism) private_key_handle (sha256 data)).
Definition client_verify (private_key_handle : ObjectHandle) (mechanism : SigningMechanism) (data signature : string) : HS unit :=
  in_session (p11_verify (mechanism_of mechanism) private_key_handle (sha256 data) signature).
Definition random_bytes (length : Z) : HS string := in_session (generate_random_vec length).
Definition client_encrypt (key_handle : ObjectHandle) (iv data : string) : HS (string * string) :=
  let! encrypted_data := in_session (p11_encrypt (AesGcm iv "" AES_AUTHENTICATION_TAG_BITS) key_handle data) in
  sret (encrypted_data, iv).
Definition client_decrypt (key_handle : ObjectHandle) (iv encrypted_data : string) : HS string :=
  in_session (p11_decrypt (AesGcm iv "" AES_AUTHENTICATION_TAG_BITS) key_handle encrypted_data).

(** *** [Hsm] *)
Definition generate_generic_secret_key (identifier : string) : HS unit :=
  let! _ := client_generate_generic_secret_key identifier in sret tt.
Definition get_verifying_key (identifier : string) : HS VerifyingKey :=
  let! handle := get_public_key_handle identifier in client_get_verifying_key handle.
Definition delete_key (identifier : string) : HS unit :=
  let! handle := get_private_key_handle identifier in client_delete_key handle.
Definition signature_of (bytes : string) : HS Signature := st_lift (ok_or P256 (signature_from_bytes bytes)).
Definition sign_ecdsa (identifier data : string) : HS Signature :=
  let! handle := get_private_key_handle identifier in
  let! signature := client_sign handle Ecdsa256 data in
  signature_of signature.
Definition sign_hmac (identifier data : string) : HS string :=
  let! handle := get_private_key_handle identifier in client_sign handle Sha256Hmac data.
Definition verify_hmac (identifier data signature : string) : HS unit :=
  let! handle := get_private_key_handle identifier in client_verify handle Sha256Hmac data signature.
Definition hsm_encrypt_bytes (identifier data : string) : HS Encrypted :=
  let! iv := random_bytes 32 in
  let! handle := get_private_key_handle identifier in
  let! encrypted := client_encrypt handle iv data in
  sret (mkEncrypted encrypted.1 encrypted.2).
Definition hsm_decrypt_bytes (identifier : string) (encrypted : Encrypted) : HS string :=
  let! handle := get_private_key_handle identifier in client_decrypt handle (enc_iv encrypted) (enc_data encrypted).

(** *** [Encrypter<VerifyingKey>] and [Decrypter<VerifyingKey>] *)
Definition encrypt_key (key_identifier : string) (data : VerifyingKey) : HS Encrypted :=
  hsm_encrypt_bytes key_identifier (to_sec1_bytes data).
Definition decrypt_key (key_identifier : string) (encrypted : Encrypted) : HS VerifyingKey :=
  let! decrypted := hsm_decrypt_bytes key_identifier encrypted in
  st_lift (ok_or P256 (from_sec1_bytes decrypted)).

(** *** [WalletUserHsm] *)
Definition generate_wrapped_key (hsm : Pkcs11Hsm) : HS (VerifyingKey * WrappedKey) :=
  let! private_wrapping_handle := get_private_key_handle (wrapping_key_identifier hsm) in
  let! handles := generate_session_signing_key_pair in
  let '(public_handle, private_handle) := handles in
  let! wrapped := wrap_key private_wrapping_handle private_handle in
  let! verifying_key := client_get_verifying_key public_handle in
  sret (verifying_key, wrapped).
(** [hsm::key_identifier] *)
Definition wallet_key_identifier (prefix identifier : string) : string := prefix +:+ "_" +:+ identifier.
Definition generate_wallet_key (wallet_id identifier : string) : HS VerifyingKey :=
  let! handles := generate_signing_key_pair (wallet_key_identifier wallet_id identifier) in
  client_get_verifying_key handles.1.
Definition sign_wrapped (hsm : Pkcs11Hsm) (wrapped_key : WrappedKey) (data : string) : HS Signature :=
  let! private_wrapping_handle := get_private_key_handle (wrapping_key_identifier hsm) in
  let! private_handle := unwrap_signing_key private_wrapping_handle wrapped_key in
  let! signature := client_sign private_handle Ecdsa256 data in
  signature_of signature.
Definition wallet_sign (wallet_id identifier data : string) : HS Signature :=
  sign_ecdsa (wallet_key_identifier wallet_id identifier) data.

(** *** Keys of the wallet provider ([keys.rs]) *)
Record WalletProviderEcdsaKey := mkWalletProviderEcdsaKey { wp_identifier : string }.
Definition wp_verifying_key (k : WalletProviderEcdsaKey) : HS VerifyingKey := get_verifying_key (wp_identifier k).
Definition wp_try_sign (k : WalletProviderEcdsaKey) (msg : string) : HS Signature := sign_ecdsa (wp_identifier k) msg.
End Operations.

(** ** What PKCS#11 documents *)
Inductive Key `{!Ecdsa} := EcPrivate (sk : SigningKey) | EcPublic (vk : VerifyingKey) | SecretBytes (s : string).
(** An object: of the token or of a session, private or not, its label and key *)
Record Object `{!Ecdsa} := mkObject { ob_token : bool; ob_private : bool; ob_label : option string; ob_key : Key }.
Arguments mkObject {_}.
(** The object that a template describes *)
Definition described `{!Ecdsa} (template : list P11Attribute) (k : Key) : Object := {|
  ob_token := existsb (λ a, match a with AToken b => b | _ => false end) template;
  ob_private := existsb (λ a, match a with APrivate b => b | _ => false end) template;
  ob_label := head (base.omap (λ a, match a with ALabel l => Some l | _ => None end) template);
  ob_key := k
|}.

Class TokenView (T : Type) `{!Ecdsa, !Cryptoki T} := object : T → ObjectHandle → option Object.

Section View.
Context {T : Type} `{!Ecdsa, !Cryptoki T, !TokenView T}.
(** From [t] to [t'] only objects [news] are made, with handles that were free, and
    only objects of sessions are lost. *)
Definition makes (news : list ObjectHandle) (t t' : T) : Prop :=
  (∀ h o, object t h = Some o → ob_token o = true → object t' h = Some o) ∧
  (∀ h o, object t' h = Some o → h ∉ news → object t h = Some o) ∧
  (∀ h, h ∈ news → object t h = None).
Abbreviation keeps := (makes []).
(** The result of a call that makes nothing *)
Definition quiet {E A} (m : ST T E A) : Prop := ∀ t o t', m t = (o, t') → o ≠ Panic ∧ keeps t t'.
End View.
Abbreviation keeps := (makes []).

Class CryptokiLaws (T : Type) `{!Ecdsa, !Sha256, !Cryptoki T, !TokenView T} := {
  hmac : string → string → string;
  gcm_seal : string → string → string → string;
  gcm_open : string → string → string → option string;
  aes_wrap : string → SigningKey → string;
  aes_unwrap : string → string → option SigningKey;
  gcm_open_seal k iv d : gcm_open k iv (gcm_seal k iv d) = Some d;
  aes_unwrap_wrap k sk : aes_unwrap k (aes_wrap k sk) = Some sk;
  sec1_round_trip vk : from_sec1_bytes (to_sec1_bytes vk) = Some vk;
  p256_has_params : is_Some nist_p256_params;
  pool_get_quiet : quiet pool_get;
  random_quiet n : quiet (generate_random_vec n);
  (** Other errors than that of a signature are [DeviceError]. *)
  random_error n t e t' : generate_random_vec n t = (Err e, t') → e = DeviceError;
  find_objects_law template t o t' : find_objects template t = (o, t') →
    keeps t t' ∧ match o with
    | Ok hs => ∀ b l, template = [APrivate b; ALabel l] →
        ∀ h, h ∈ hs ↔ ∃ ob, object t' h = Some ob ∧ ob_private ob = b ∧ ob_label ob = Some l
    | Err e => e = DeviceError
    | Panic => False
    end;
  generate_key_pair_law pub priv t o t' : generate_key_pair EccKeyPairGen pub priv t = (o, t') →
    match o with
    | Ok (hp, hs) => hp ≠ hs ∧ makes [hp; hs] t t' ∧ ∃ sk,
        object t' hp = Some (described pub (EcPublic (verifying_key sk))) ∧ object t' hs = Some (described priv (EcPrivate sk))
    | Err e => e = DeviceError ∧ keeps t t'
    | Panic => False
    end;
  get_ec_point_law h t o t' : get_ec_point h t = (o, t') →
    keeps t t' ∧ match o with
    | Ok attributes => ∃ ob vk der, object t h = Some ob ∧ ob_key ob = EcPublic vk ∧ attributes = [AEcPoint der] ∧
        octet_string_from_der der = Some (to_sec1_bytes vk)
    | Err e => e = DeviceError
    | Panic => False
    end;
  wrap_key_law hw h t o t' : p11_wrap_key AesKeyWrapPad hw h t = (o, t') →
    keeps t t' ∧ match o with
    | Ok w => ∃ obw ob wk sk, object t hw = Some obw ∧ ob_key obw = SecretBytes wk ∧
        object t h = Some ob ∧ ob_key ob = EcPrivate sk ∧ w = aes_wrap wk sk
    | Err e => e = DeviceError
    | Panic => False
    end;
  unwrap_key_law hw w template t o t' : p11_unwrap_key AesKeyWrapPad hw w template t = (o, t') →
    match o with
    | Ok h => makes [h] t t' ∧ ∃ obw wk sk, object t hw = Some obw ∧ ob_key obw = SecretBytes wk ∧
        aes_unwrap wk w = Some sk ∧ object t' h = Some (described template (EcPrivate sk))
    | Err e => e = DeviceError ∧ keeps t t'
    | Panic => False
    end;
  (** ECDSA is applied to the hash of a message. *)
  sign_law mechanism h d t o t' : p11_sign mechanism h d t = (o, t') →
    keeps t t' ∧ match o with
    | Ok bytes => ∃ ob, object t h = Some ob ∧ match mechanism, ob_key ob with
        | MEcdsa, EcPrivate sk => ∀ m, d = sha256 m →
            ∃ sig, bytes = signature_to_bytes sig ∧ ecdsa_verify (verifying_key sk) m sig = true
        | MSha256Hmac, SecretBytes k => bytes = hmac k d
        | _, _ => False
        end
    | Err e => e = DeviceError
    | Panic => False
    end;
  verify_law h ob k d s t o t' : object t h = Some ob → ob_key ob = SecretBytes k → p11_verify MSha256Hmac h d s t = (o, t') →
    match o with Ok _ => s = hmac k d | Err SignatureInvalid => s ≠ hmac k d | Err DeviceError => True | Panic => False end;
  verify_quiet mechanism h d s : quiet (p11_verify mechanism h d s);
  encrypt_law iv h d t o t' : p11_encrypt (AesGcm iv "" AES_AUTHENTICATION_TAG_BITS) h d t = (o, t') →
    keeps t t' ∧ match o with
    | Ok c => ∃ ob k, object t h = Some ob ∧ ob_key ob = SecretBytes k ∧ c = gcm_seal k iv d
    | Err e => e = DeviceError
    | Panic => False
    end;
  decrypt_law iv h c t o t' : p11_decrypt (AesGcm iv "" AES_AUTHENTICATION_TAG_BITS) h c t = (o, t') →
    keeps t t' ∧ match o with
    | Ok d => ∃ ob k, object t h = Some ob ∧ ob_key ob = SecretBytes k ∧ gcm_open k iv c = Some d
    | Err e => e = DeviceError
    | Panic => False
    end
}.

(** ** Runs *)
Section Runs.
Context {T : Type} `{!Ecdsa, !Sha256, !Cryptoki T, !TokenView T, !CryptokiLaws T}.
Abbreviation HS := (ST T HsmFailure).

#[global] Instance keeps_preorder : PreOrder keeps.
Proof.
  split.
  - intros t. split_and!; [done|done|]. intros h Hh. by apply not_elem_of_nil in Hh.
  - intros t1 t2 t3 (Ha & Hb & _) (Hc & Hd & _). split_and!.
    + intros h o Ho Ht. apply Hc; [by apply Ha|done].
    + intros h o Ho Hn. by apply Hb; [apply Hd|].
    + intros h Hh. by apply not_elem_of_nil in Hh.
Qed.

(** The secret keys of the settings, by their labels *)
Variable secrets : string → option string.

(** What a token must be set up with: for every label a private object of the token,
    and every private object with that label has that key *)
Definition equipped (t : T) : Prop := ∀ id k, secrets id = Some k →
  (∃ h ob, object t h = Some ob ∧ ob_private ob = true ∧ ob_label ob = Some id ∧ ob_token ob = true) ∧
  (∀ h ob, object t h = Some ob → ob_private ob = true → ob_label ob = Some id → ob_token ob = true ∧ ob_key ob = SecretBytes k).

(** A failure of a call to the token or of the pool *)
Definition device_failure (e : HsmFailure) : Prop := e = R2d2 ∨ e = HsmPkcs11 DeviceError.
Definition unless_device {A} (P : A → Prop) (o : outcome HsmFailure A) : Prop :=
  match o with Ok a => P a | Err e => device_failure e | Panic => False end.

(** An operation that ends in [Q] or fails at the device *)
Definition call {A} (P : T → Prop) (m : HS A) (Q : A → T → Prop) : Prop :=
  ∀ t o t', P t → m t = (o, t') → unless_device (λ a, Q a t') o.
Definition stable (P : T → Prop) : Prop := ∀ t t', keeps t t' → P t → P t'.

Lemma call_bind {A B} P (m : HS A) Q (k : A → HS B) R : call P m Q → (∀ a, call (Q a) (k a) R) → call P (sbind m k) R.
Proof.
  intros Hm Hk t o t' Hp [(a & t1 & H1 & H2)|[(e & H1 & ->)|[H1 ->]]]%st_bind_inv.
  - by eapply Hk; [exact (Hm _ _ _ Hp H1)|].
  - exact (Hm _ _ _ Hp H1).
  - exact (Hm _ _ _ Hp H1).
Qed.
Lemma call_lift {A} P (m : outcome HsmFailure A) Q : (∀ t, P t → unless_device (λ a, Q a t) m) → call P (st_lift m) Q.
Proof. intros Hm t o t' Hp [= <- <-]. by apply Hm. Qed.
Lemma call_ret {A} (a : A) (Q : A → T → Prop) : call (Q a) (sret a) Q.
Proof. by intros t o t' Hp [= <- <-]. Qed.
Lemma call_pre {A} (P P' : T → Prop) (m : HS A) Q : (∀ t, P t → P' t) → call P' m Q → call P m Q.
Proof. intros Hi Hm t o t' Hp. apply Hm. by apply Hi. Qed.

Lemma call_pool P : stable P → call P (st_map_err (λ _, R2d2) pool_get) (λ _, P).
Proof.
  intros Hs t o t' Hp. unfold st_map_err. destruct (pool_get t) as [o' t1] eqn:Hg. intros [= <- <-].
  destruct (pool_get_quiet _ _ _ Hg) as [Hn Hk]. destruct o'; [by eapply Hs|by left|done].
Qed.
Lemma call_device {A} P (m : ST T Pkcs11Error A) Q :
  (∀ t o t', P t → m t = (o, t') → match o with Ok a => Q a t' | Err e => e = DeviceError | Panic => False end) →
  call P (st_map_err HsmPkcs11 m) Q.
Proof.
  intros Hm t o t' Hp. unfold st_map_err. destruct (m t) as [o' t1] eqn:He. intros [= <- <-].
  specialize (Hm _ _ _ Hp He). destruct o' as [a|e|]; [done| |done]. right. by subst e.
Qed.
Lemma call_session {A} P (m : ST T Pkcs11Error A) Q : stable P →
  (∀ t o t', P t → m t = (o, t') → match o with Ok a => Q a t' | Err e => e = DeviceError | Panic => False end) →
  call P (in_session m) Q.
Proof. intros Hs Hm. eapply call_bind; [by apply call_pool|]. intros u. by apply call_device. Qed.

(** *** Facts about tokens that last *)
Definition secret_at (h : ObjectHandle) (k : string) (t : T) : Prop :=
  ∃ ob, object t h = Some ob ∧ ob_token ob = true ∧ ob_key ob = SecretBytes k.
Definition key_at (h : ObjectHandle) (k : Key) (t : T) : Prop := ∀ ob, object t h = Some ob → ob_key ob = k.

Lemma secret_at_makes h k news t t' : makes news t t' → secret_at h k t → secret_at h k t'.
Proof. intros (Hm & _) (ob & Ho & Ht & Hk). exists ob. auto. Qed.
Lemma key_at_stable h k : stable (key_at h k).
Proof. intros t t' (_ & Hm & _) Hk ob Ho. apply Hk, Hm; [done|]. apply not_elem_of_nil. Qed.
Lemma equipped_makes news t t' : makes news t t' → (∀ h ob, h ∈ news → object t' h = Some ob → ob_label ob = None) → equipped t → equipped t'.
Proof.
  intros (Hm & Hn & _) Hl He id k Hs. destruct (He id k Hs) as [(h & ob & Ho & Hp & Hi & Ht) Hu]. split.
  - exists h, ob. auto.
  - intros h' ob' Ho' Hp' Hi'. apply (Hu h'); [|done..]. apply Hn; [done|]. intros Hin. by rewrite (Hl _ _ Hin Ho') in Hi'.
Qed.
Lemma equipped_stable : stable equipped.
Proof. intros t t' Hk. apply (equipped_makes [] t t' Hk). intros h ob Hh. by apply not_elem_of_nil in Hh. Qed.
Lemma secret_at_stable h k : stable (secret_at h k).
Proof. intros t t' Hk. by apply (secret_at_makes h k []). Qed.
Lemma stable_and P Q : stable P → stable Q → stable (λ t, P t ∧ Q t).
Proof. intros Hp Hq t t' Hk []. split; [by eapply Hp|by eapply Hq]. Qed.
Lemma stable_const (P : Prop) : stable (λ _, P).
Proof. by intros t t' _. Qed.
#[local] Hint Resolve equipped_stable secret_at_stable key_at_stable stable_and stable_const : core.

(** *** The operations on an equipped token *)
Section Labelled.
Variables (id k : string).
Hypothesis Hid : secrets id = Some k.

Lemma call_private_handle : call equipped (get_private_key_handle id) (λ h t, equipped t ∧ secret_at h k t).
Proof.
  eapply (call_bind _ _ (λ hs t, equipped t ∧ ∀ h, h ∈ hs ↔ ∃ ob, object t h = Some ob ∧ ob_private ob = true ∧ ob_label ob = Some id)).
  - apply call_session; [auto|]. intros t o t' He Hf. apply find_objects_law in Hf as [Hk Hf].
    destruct o as [hs|e|]; [|done|done]. split; [by eapply equipped_stable|by apply Hf].
  - intros hs. apply call_lift. intros t [He Hhs]. destruct (He id k Hid) as [(h & ob & Ho & Hp & Hl & _) Hu].
    destruct hs as [|h' hs]; [exfalso; eapply not_elem_of_nil, (proj2 (Hhs h)); eauto|]. split; [done|].
    destruct (proj1 (Hhs h')) as (ob' & Ho' & Hp' & Hl'); [apply list_elem_of_here|].
    exists ob'. by destruct (Hu h' ob').
Qed.

Lemma call_sign_hmac m : call equipped (sign_hmac id m) (λ s _, s = hmac k (sha256 m)).
Proof.
  eapply call_bind; [apply call_private_handle|]. intros h. apply call_session; [auto|].
  intros t o t' [_ (ob & Ho & _ & Hk)] Hs. apply sign_law in Hs as [_ Hs]. destruct o as [bytes|e|]; [|done|done].
  destruct Hs as (ob' & Ho' & Hs). simplify_eq. by rewrite Hk in Hs.
Qed.
Lemma call_verify_hmac m s : s = hmac k (sha256 m) → call equipped (verify_hmac id m s) (λ _ _, True).
Proof.
  intros Hs. eapply call_bind; [apply call_private_handle|]. intros h. apply call_session; [auto|].
  intros t o t' [_ (ob & Ho & _ & Hk)] Hv. apply (verify_law _ _ _ _ _ _ _ _ Ho Hk) in Hv. by destruct o as [|[]|].
Qed.

Lemma call_encrypt vk :
  call equipped (encrypt_key id vk) (λ e _, enc_data e = gcm_seal k (enc_iv e) (to_sec1_bytes vk)).
Proof.
  eapply (call_bind _ _ (λ _, equipped)).
  { apply call_session; [auto|]. intros t o t' He Hr. destruct (random_quiet _ _ _ _ Hr) as [Hn Hk].
    destruct o as [iv|e|]; [by eapply equipped_stable|by eapply random_error|done]. }
  intros iv. eapply call_bind; [apply call_private_handle|]. intros h.
  eapply (call_bind _ _ (λ c _, c.1 = gcm_seal k c.2 (to_sec1_bytes vk))); [|by intros c t o t' Hc [= <- <-]].
  eapply (call_bind _ _ (λ c _, c = gcm_seal k iv (to_sec1_bytes vk))); [|by intros c t o t' Hc [= <- <-]].
  apply call_session; [auto|]. intros t o t' [_ (ob & Ho & _ & Hk)] He. apply encrypt_law in He as [_ He].
  destruct o as [c|e|]; [|done|done]. destruct He as (ob' & k' & Ho' & Hk' & ->). congruence.
Qed.
Lemma call_decrypt vk e : enc_data e = gcm_seal k (enc_iv e) (to_sec1_bytes vk) → call equipped (decrypt_key id e) (λ vk' _, vk' = vk).
Proof.
  intros Hc. eapply (call_bind _ _ (λ d _, d = to_sec1_bytes vk)).
  - eapply call_bind; [apply call_private_handle|]. intros h. apply call_session; [auto|].
    intros t o t' [_ (ob & Ho & _ & Hk)] Hd. apply decrypt_law in Hd as [_ Hd]. destruct o as [d|e'|]; [|done|done].
    destruct Hd as (ob' & k' & Ho' & Hk' & Hd). assert (k' = k) as -> by congruence. rewrite Hc, gcm_open_seal in Hd. congruence.
  - intros d. apply call_lift. intros t ->. by rewrite sec1_round_trip.
Qed.

(** With [id] as the wrapping key *)
Variable hsm : Pkcs11Hsm.
Hypothesis Hhsm : wrapping_key_identifier hsm = id.

Lemma call_verifying_key h vk : call (key_at h (EcPublic vk)) (client_get_verifying_key h) (λ vk' _, vk' = vk).
Proof.
  eapply (call_bind _ _ (λ l _, ∃ der, l = [AEcPoint der] ∧ octet_string_from_der der = Some (to_sec1_bytes vk))).
  - apply call_session; [auto|]. intros t o t' Hk He. apply get_ec_point_law in He as [_ He]. destruct o as [l|e|]; [|done|done].
    destruct He as (ob & vk' & der & Ho & Hv & -> & Hd). rewrite (Hk ob Ho) in Hv. simplify_eq. eauto.
  - intros l t o t' (der & -> & Hd). unfold st_lift, sbind. cbn [head ok_or]. rewrite Hd. cbn [ok_or].
    rewrite sec1_round_trip. by intros [= <- <-].
Qed.

Lemma call_generate_wrapped : call equipped (generate_wrapped_key hsm) (λ r _, ∃ sk, r = (verifying_key sk, aes_wrap k sk)).
Proof.
  unfold generate_wrapped_key. rewrite Hhsm. eapply call_bind; [apply call_private_handle|]. intros hw.
  eapply (call_bind _ _ (λ hs t, ∃ sk, secret_at hw k t ∧ key_at hs.1 (EcPublic (verifying_key sk)) t ∧ key_at hs.2 (EcPrivate sk) t)).
  { eapply (call_bind _ _ (λ _ t, secret_at hw k t)); [eapply call_pre; [|apply call_pool, (secret_at_stable hw k)]; by intros t []|].
    intros u. destruct p256_has_params as [oid Hoid]. rewrite Hoid. eapply (call_bind _ _ (λ _ t, secret_at hw k t)); [by apply call_lift|].
    intros oid'. apply call_device. intros t o t' Hs Hg. apply generate_key_pair_law in Hg.
    destruct o as [[hp hs]|e|]; [|by destruct Hg|done]. destruct Hg as (_ & Hm & sk & Hp & Hh). exists sk. split_and!.
    - by eapply secret_at_makes.
    - intros ob Hob. cbn [fst] in Hob. by simplify_eq.
    - intros ob Hob. cbn [snd] in Hob. by simplify_eq. }
  intros [hp hs]. eapply (call_bind _ _ (λ w t, ∃ sk, key_at hp (EcPublic (verifying_key sk)) t ∧ w = aes_wrap k sk)).
  - intros t o t' (sk & Hsec & Hkp & Hks). revert t o t' Hsec Hkp Hks.
    assert (call (λ t, secret_at hw k t ∧ key_at hp (EcPublic (verifying_key sk)) t ∧ key_at hs (EcPrivate sk) t) (wrap_key hw hs)
      (λ w t, ∃ sk, key_at hp (EcPublic (verifying_key sk)) t ∧ w = aes_wrap k sk)) as Hc.
    { apply call_session; [auto|]. intros t o t' ((ob & Ho & _ & Hk) & Hp & Hs) Hw. apply wrap_key_law in Hw as [Hkeep Hw].
      destruct o as [w|e|]; [|done|done]. destruct Hw as (obw & ob' & wk & sk' & Ho1 & Hk1 & Ho2 & Hk2 & ->).
      rewrite (Hs ob' Ho2) in Hk2. assert (wk = k ∧ sk' = sk) as [-> ->] by (split; congruence). exists sk. split; [by eapply key_at_stable|done]. }
    intros t o t' Hsec Hkp Hks. by apply (Hc t o t').
  - intros w t o t' (sk & Hp & ->) Hr. revert t o t' Hp Hr.
    assert (call (key_at hp (EcPublic (verifying_key sk)))
      (let! verifying_key := client_get_verifying_key hp in sret (verifying_key, aes_wrap k sk)) (λ r _, ∃ sk, r = (verifying_key sk, aes_wrap k sk))) as Hc.
    { eapply call_bind; [apply call_verifying_key|]. intros vk. apply call_lift. intros t ->. by exists sk. }
    exact Hc.
Qed.

Lemma call_sign_wrapped sk m :
  call equipped (sign_wrapped hsm (aes_wrap k sk) m) (λ sig _, ecdsa_verify (verifying_key sk) m sig = true).
Proof.
  unfold sign_wrapped. rewrite Hhsm. eapply call_bind; [apply call_private_handle|]. intros hw.
  eapply (call_bind _ _ (λ h t, key_at h (EcPrivate sk) t)).
  { apply call_session; [auto|]. intros t o t' [_ (ob & Ho & _ & Hk)] Hu. apply unwrap_key_law in Hu.
    destruct o as [h|e|]; [|by destruct Hu|done]. destruct Hu as (_ & obw & wk & sk' & Ho' & Hk' & Hw & Hob).
    assert (wk = k) as -> by congruence. rewrite aes_unwrap_wrap in Hw. intros ob' Hob'. simplify_eq. done. }
  intros h. eapply (call_bind _ _ (λ bytes _, ∃ sig, bytes = signature_to_bytes sig ∧ ecdsa_verify (verifying_key sk) m sig = true)).
  - apply call_session; [auto|]. intros t o t' Hk Hs. apply sign_law in Hs as [_ Hs]. destruct o as [bytes|e|]; [|done|done].
    destruct Hs as (ob & Ho & Hs). cbn [mechanism_of] in Hs. rewrite (Hk ob Ho) in Hs. by apply Hs.
  - intros bytes. apply call_lift. intros t (sig & -> & Hv). by rewrite signature_from_to.
Qed.
End Labelled.

(** *** Every operation leaves the token equipped *)
Definition stays_equipped (t t' : T) : Prop := equipped t → equipped t'.
#[local] Instance stays_equipped_preorder : PreOrder stays_equipped.
Proof. split; [by intros t He|]. unfold stays_equipped. intros t1 t2 t3. auto. Qed.

Lemma within_keeps {E A} (m : ST T E A) : (∀ t o t', m t = (o, t') → keeps t t') → within stays_equipped m.
Proof. intros Hm t o t' Hr. exact (equipped_stable t t' (Hm t o t' Hr)). Qed.
Lemma within_session {A} (m : ST T Pkcs11Error A) : within stays_equipped m → within stays_equipped (in_session m).
Proof.
  intros Hm. apply within_bind; [typeclasses eauto| |].
  - apply within_map_err, within_keeps. intros t o t' Hr. by destruct (pool_get_quiet _ _ _ Hr).
  - intros u. by apply within_map_err.
Qed.
Lemma within_pool : within stays_equipped (pool_get (T:=T)).
Proof. apply within_keeps. intros t o t' Hr. by destruct (pool_get_quiet _ _ _ Hr). Qed.
Lemma within_find template : within stays_equipped (find_objects (T:=T) template).
Proof. apply within_keeps. intros t o t' Hr. by apply find_objects_law in Hr as [? _]. Qed.
Lemma within_ec_point h : within stays_equipped (get_ec_point (T:=T) h).
Proof. apply within_keeps. intros t o t' Hr. by apply get_ec_point_law in Hr as [? _]. Qed.
Lemma within_wrap hw h : within stays_equipped (p11_wrap_key (T:=T) AesKeyWrapPad hw h).
Proof. apply within_keeps. intros t o t' Hr. by apply wrap_key_law in Hr as [? _]. Qed.
Lemma within_sign m h d : within stays_equipped (p11_sign (T:=T) m h d).
Proof. apply within_keeps. intros t o t' Hr. by apply sign_law in Hr as [? _]. Qed.
Lemma within_verify m h d s : within stays_equipped (p11_verify (T:=T) m h d s).
Proof. apply within_keeps. intros t o t' Hr. by destruct (verify_quiet _ _ _ _ _ _ _ Hr). Qed.
Lemma within_random n : within stays_equipped (generate_random_vec (T:=T) n).
Proof. apply within_keeps. intros t o t' Hr. by destruct (random_quiet _ _ _ _ Hr). Qed.
Lemma within_encrypt iv h d : within stays_equipped (p11_encrypt (T:=T) (AesGcm iv "" AES_AUTHENTICATION_TAG_BITS) h d).
Proof. apply within_keeps. intros t o t' Hr. by apply encrypt_law in Hr as [? _]. Qed.
Lemma within_decrypt iv h c : within stays_equipped (p11_decrypt (T:=T) (AesGcm iv "" AES_AUTHENTICATION_TAG_BITS) h c).
Proof. apply within_keeps. intros t o t' Hr. by apply decrypt_law in Hr as [? _]. Qed.
(** Keys of sessions have no label. *)
Lemma within_pair pub priv : ob_label (described pub (SecretBytes "")) = None → ob_label (described priv (SecretBytes "")) = None →
  within stays_equipped (generate_key_pair (T:=T) EccKeyPairGen pub priv).
Proof.
  intros Hp Hs t o t' Hr. apply generate_key_pair_law in Hr. destruct o as [[hp hs]|e|]; [|exact (equipped_stable t t' (proj2 Hr))|done].
  destruct Hr as (_ & Hm & sk & Ho1 & Ho2). refine (equipped_makes _ _ _ Hm _).
  intros h ob [->|[->|[]%not_elem_of_nil]%elem_of_cons]%elem_of_cons Ho; by simplify_eq.
Qed.
Lemma within_unwrap hw w template : ob_label (described template (SecretBytes "")) = None →
  within stays_equipped (p11_unwrap_key (T:=T) AesKeyWrapPad hw w template).
Proof.
  intros Hl t o t' Hr. apply unwrap_key_law in Hr. destruct o as [h|e|]; [|exact (equipped_stable t t' (proj2 Hr))|done].
  destruct Hr as (Hm & _ & _ & sk & _ & _ & _ & Ho). refine (equipped_makes _ _ _ Hm _).
  intros h' ob [->|[]%not_elem_of_nil]%elem_of_cons Ho'. by simplify_eq.
Qed.
#[local] Hint Resolve within_session within_pool within_find within_ec_point within_wrap within_sign within_verify within_random
  within_encrypt within_decrypt : within.
#[local] Hint Extern 2 (within _ (generate_key_pair _ _ _)) => apply within_pair; reflexivity : within.
#[local] Hint Extern 2 (within _ (p11_unwrap_key _ _ _ _)) => apply within_unwrap; reflexivity : within.

(** An operation for the account server: whatever it returns, and also when it fails *)
Variable hsm : Pkcs11Hsm.
Inductive hsm_step (t t' : T) : Prop :=
  | step_encrypt id vk o : encrypt_key id vk t = (o, t') → hsm_step t t'
  | step_decrypt id e o : decrypt_key id e t = (o, t') → hsm_step t t'
  | step_sign_hmac id m o : sign_hmac id m t = (o, t') → hsm_step t t'
  | step_verify_hmac id m s o : verify_hmac id m s t = (o, t') → hsm_step t t'
  | step_generate_wrapped o : generate_wrapped_key hsm t = (o, t') → hsm_step t t'
  | step_sign_wrapped w m o : sign_wrapped hsm w m t = (o, t') → hsm_step t t'
  | step_provider_sign key m o : wp_try_sign key m t = (o, t') → hsm_step t t'
  | step_provider_key key o : wp_verifying_key key t = (o, t') → hsm_step t t'.

Lemma within_handle id ty : within stays_equipped (get_key_handle (T:=T) id ty).
Proof. unfold get_key_handle. solve_within. Qed.
#[local] Hint Resolve within_handle : within.
Lemma step_stays_equipped t t' : hsm_step t t' → stays_equipped t t'.
Proof.
  assert (∀ A (m : HS A) o, within stays_equipped m → m t = (o, t') → stays_equipped t t') as Hw by (intros A m o Hm Hr; by eapply Hm).
  intros [id vk o Hr|id e o Hr|id m o Hr|id m s o Hr|o Hr|w m o Hr|key m o Hr|key o Hr]; (eapply Hw; [|exact Hr]).
  - unfold encrypt_key, hsm_encrypt_bytes, random_bytes, get_private_key_handle, client_encrypt. solve_within.
  - unfold decrypt_key, hsm_decrypt_bytes, get_private_key_handle, client_decrypt. solve_within.
  - unfold sign_hmac, get_private_key_handle, client_sign. solve_within.
  - unfold verify_hmac, get_private_key_handle, client_verify. solve_within.
  - unfold generate_wrapped_key, get_private_key_handle, generate_session_signing_key_pair, wrap_key, client_get_verifying_key. solve_within.
  - unfold sign_wrapped, get_private_key_handle, unwrap_signing_key, client_sign, signature_of. solve_within.
  - unfold wp_try_sign, sign_ecdsa, get_private_key_handle, client_sign, signature_of. solve_within.
  - unfold wp_verifying_key, get_verifying_key, get_public_key_handle, client_get_verifying_key. solve_within.
Qed.

Lemma run_stays_equipped t t' : rtc hsm_step t t' → equipped t → equipped t'.
Proof. induction 1 as [|t1 t2 t3 Hs _ IH]; [done|]. intros He. apply IH. by apply (step_stays_equipped t1). Qed.

(** C35. The HSM of the wallet provider, over any run of operations in between and
    whatever failed in them: a key that was encrypted is decrypted to the same key; a
    MAC that was made is verified; and with a wrapped key a message is signed under the
    public key that was given out with it - unless a call to the device fails.  The
    token only has to hold the secret keys of the settings, each under a label that no
    other private object has; the operations keep it so. *)
Theorem hsm_keeps_promises t0 : equipped t0 →
  (∀ id k vk e t1 t2 o t3, secrets id = Some k →
    encrypt_key id vk t0 = (Ok e, t1) → rtc hsm_step t1 t2 → decrypt_key id e t2 = (o, t3) → unless_device (λ vk', vk' = vk) o) ∧
  (∀ id k m s t1 t2 o t3, secrets id = Some k →
    sign_hmac id m t0 = (Ok s, t1) → rtc hsm_step t1 t2 → verify_hmac id m s t2 = (o, t3) → unless_device (λ _, True) o) ∧
  (∀ k vk w m t1 t2 o t3, secrets (wrapping_key_identifier hsm) = Some k →
    generate_wrapped_key hsm t0 = (Ok (vk, w), t1) → rtc hsm_step t1 t2 → sign_wrapped hsm w m t2 = (o, t3) →
    unless_device (λ sig, ecdsa_verify vk m sig = true) o).
Proof.
  intros He. split_and!.
  - intros id k vk e t1 t2 o t3 Hs H1 Hr H2. pose proof (call_encrypt id k Hs vk _ _ _ He H1) as Hc.
    refine (call_decrypt id k Hs vk e Hc _ _ _ _ H2). eapply run_stays_equipped; [exact Hr|]. by eapply step_stays_equipped, He; econstructor.
  - intros id k m s t1 t2 o t3 Hs H1 Hr H2. pose proof (call_sign_hmac id k Hs m _ _ _ He H1) as Hc.
    refine (call_verify_hmac id k Hs m s Hc _ _ _ _ H2). eapply run_stays_equipped; [exact Hr|]. eapply step_stays_equipped, He. by eapply step_sign_hmac.
  - intros k vk w m t1 t2 o t3 Hs H1 Hr H2. destruct (call_generate_wrapped _ k Hs hsm eq_refl _ _ _ He H1) as [sk [= -> ->]].
    refine (call_sign_wrapped _ k Hs hsm eq_refl sk m _ _ _ _ H2). eapply run_stays_equipped; [exact Hr|]. eapply step_stays_equipped, He.
    by eapply step_generate_wrapped.
Qed.

(** *** The interface of the account server

    [iv], [new_key] and [signs] stand for what the token draws at random. *)
Section Interface.
Variables (iv : string) (new_key : string → SigningKey) (signs : SigningKey → string → Signature).
Definition token_hsm : Hsm.
Proof using T CryptokiLaws0 secrets hsm iv new_key signs.
  refine {|
    hsm_encrypt id vk := k ← secrets id; Some (mkEncrypted (gcm_seal k iv (to_sec1_bytes vk)) iv);
    hsm_decrypt id e := k ← secrets id; d ← gcm_open k (enc_iv e) (enc_data e); from_sec1_bytes d;
    hsm_sign_hmac id m := k ← secrets id; Some (hmac k (sha256 m));
    hsm_verify_hmac id m s := match secrets id with Some k => bool_decide (s = hmac k (sha256 m)) | None => false end;
    hsm_sign_wrapped w m := k ← secrets (wrapping_key_identifier hsm); sk ← aes_unwrap k w; Some (signs sk m);
    hsm_generate_wrapped_key r :=
      k ← secrets (wrapping_key_identifier hsm); Some (verifying_key (new_key r), aes_wrap k (new_key r))
  |}.
  - intros id vk e. destruct (secrets id) as [k|]; [|done]. cbn [mbind option_bind]. intros [= <-]. cbn [enc_iv enc_data].
    rewrite gcm_open_seal. cbn [mbind option_bind]. apply sec1_round_trip.
  - intros id m s. destruct (secrets id) as [k|]; [|done]. cbn [mbind option_bind]. intros [= <-]. by apply bool_decide_eq_true.
Defined.

(** The operations of the token that draw nothing answer as the interface does. *)
Lemma token_answers id k t : secrets id = Some k → equipped t →
  (∀ m o t', sign_hmac id m t = (o, t') → unless_device (λ s, hsm_sign_hmac (Hsm:=token_hsm) id m = Some s) o) ∧
  (∀ m s o t', hsm_verify_hmac (Hsm:=token_hsm) id m s = true → verify_hmac id m s t = (o, t') → unless_device (λ _, True) o) ∧
  (∀ vk o t', encrypt_key id vk t = (o, t') → unless_device (λ e, enc_iv e = iv → hsm_encrypt (Hsm:=token_hsm) id vk = Some e) o).
Proof.
  intros Hid He. cbn [hsm_sign_hmac hsm_verify_hmac hsm_encrypt token_hsm]. rewrite Hid. cbn [mbind option_bind]. split_and!.
  - intros m o t' Hr. pose proof (call_sign_hmac id k Hid m _ _ _ He Hr) as Hc. destruct o; cbn [unless_device] in *; [by subst|done..].
  - intros m s o t' Hs%bool_decide_eq_true Hr. exact (call_verify_hmac id k Hid m s Hs _ _ _ He Hr).
  - intros vk o t' Hr. pose proof (call_encrypt id k Hid vk _ _ _ He Hr) as Hc.
    destruct o as [[c i]|e|]; cbn [unless_device enc_iv enc_data] in *; [|done..]. intros ->. by rewrite Hc.
Qed.
End Interface.
End Runs.

(** ** A token, evaluated

    A list of objects, whose handles are their positions; the hash is the identity. *)
From stdpp Require Import countable.
From S2P Require Import Concrete.
Import Crates.
#[local] Instance plain_hash : Sha256 := λ s, s.

Definition satisfies (ob : Object) (a : P11Attribute) : bool :=
  match a with
  | APrivate b => Bool.eqb (ob_private ob) b
  | ALabel l => bool_decide (ob_label ob = Some l)
  | _ => true
  end.
Definition ex_find (template : list P11Attribute) (t : list Object) : list nat :=
  filter (λ h, from_option (λ ob, forallb (satisfies ob) template) false (t !! h) = true) (seq 0 (length t)).
Definition with_key {A} (t : list Object) (h : nat) (f : Key → option A) : outcome Pkcs11Error A * list Object :=
  (ok_or DeviceError (ob ← t !! h; f (ob_key ob)), t).
Definition secret_of (k : Key) : option string := match k with SecretBytes s => Some s | _ => None end.

Definition public_of (k : Key) : option string := match k with EcPublic vk => Some (vk : string) | _ => None end.
Definition private_of (k : Key) : option string := match k with EcPrivate sk => Some (sk : string) | _ => None end.
Definition ex_wrap (wk sk : string) : string := to_bytes (wk, sk).
Definition ex_unwrap (wk w : string) : option string :=
  match (of_bytes w : option (string * string)) with
  | Some (k, sk) => if decide (k = wk) then Some sk else None
  | None => None
  end.
Definition ex_seal (k iv d : string) : string := to_bytes (k, iv, d).
Definition ex_open (k iv c : string) : option string :=
  match (of_bytes c : option (string * string * string)) with
  | Some (k', iv', d) => if decide ((k', iv') = (k, iv)) then Some d else None
  | None => None
  end.

Definition ex_new : SigningKey := "new".

#[local] Instance ex_cryptoki : Cryptoki (list Object) := {|
  ObjectHandle := nat;
  pool_get t := (Ok tt, t);
  find_objects template t := (Ok (ex_find template t), t);
  generate_key _ template t := (Ok (length t), t ++ [described template (SecretBytes "new")]);
  generate_key_pair _ pub priv t :=
    (Ok (length t, S (length t)), t ++ [described pub (EcPublic (verifying_key ex_new)); described priv (EcPrivate ex_new)]);
  get_ec_point h t := with_key t h (λ k, (λ vk, [AEcPoint vk]) <$> public_of k);
  p11_wrap_key _ hw h t := with_key t hw (λ kw, match secret_of kw, t !! h with
    | Some wk, Some ob => ex_wrap wk <$> private_of (ob_key ob)
    | _, _ => None end);
  p11_unwrap_key _ hw w template t :=
    match with_key t hw (λ kw, match secret_of kw with Some wk => ex_unwrap wk w | None => None end) with
    | (Ok sk, _) => (Ok (length t), t ++ [described template (EcPrivate (sk : SigningKey))])
    | (Err e, _) => (Err e, t)
    | (Panic, _) => (Err DeviceError, t)
    end;
  destroy_object _ t := (Err DeviceError, t);
  p11_sign m h d t := with_key t h (λ k, match m, k with
    | MEcdsa, EcPrivate sk => Some (signature_to_bytes (ecdsa_sign sk d))
    | MSha256Hmac, SecretBytes s => Some (s +:+ d)
    | _, _ => None end);
  p11_verify m h d s t :=
    match m, match t !! h with Some ob => secret_of (ob_key ob) | None => None end with
    | MSha256Hmac, Some k => if decide (s = k +:+ d) then (Ok tt, t) else (Err SignatureInvalid, t)
    | _, _ => (Err DeviceError, t)
    end;
  generate_random_vec _ t := (Ok "iv", t);
  p11_encrypt m h d t := with_key t h (λ k, match m, secret_of k with AesGcm iv _ _, Some s => Some (ex_seal s iv d) | _, _ => None end);
  p11_decrypt m h c t := with_key t h (λ k, match m, secret_of k with AesGcm iv _ _, Some s => ex_open s iv c | _, _ => None end);
  nist_p256_params := Some "p256";
  octet_string_from_der := Some;
  to_sec1_bytes k := (k : string);
  from_sec1_bytes s := Some (s : VerifyingKey)
|}.
#[local] Instance ex_view : TokenView (list Object) := λ t h, t !! h.

Lemma ex_keeps (t : list Object) : keeps t t.
Proof. split_and!; [done|done|]. intros h Hh. by apply not_elem_of_nil in Hh. Qed.
Lemma ex_makes (t news : list Object) : makes (seq (length t) (length news)) t (t ++ news).
Proof.
  unfold makes, object, ex_view. split_and!.
  - intros h o Ho _. by apply lookup_app_l_Some.
  - intros h o Ho Hn. rewrite elem_of_seq in Hn. apply lookup_app_Some in Ho as [|[Hl Ho]]; [done|].
    apply lookup_lt_Some in Ho. cbn in *. lia.
  - intros h Hh. rewrite elem_of_seq in Hh. apply lookup_ge_None. lia.
Qed.
Lemma with_key_inv {A} t h (f : Key → option A) o t' : with_key t h f = (o, t') →
  t' = t ∧ match o with Ok a => ∃ ob, t !! h = Some ob ∧ f (ob_key ob) = Some a | Err e => e = DeviceError | Panic => False end.
Proof.
  unfold with_key. intros [= <- <-]. split; [done|]. destruct (t !! h) as [ob|]; [|done]. cbn [mbind option_bind].
  destruct (f (ob_key ob)) eqn:Hf; [|done]. cbn. eauto.
Qed.
Lemma ex_satisfies ob b l : forallb (satisfies ob) [APrivate b; ALabel l] = true ↔ ob_private ob = b ∧ ob_label ob = Some l.
Proof. unfold forallb. rewrite andb_true_r, andb_true_iff. cbn [satisfies]. by rewrite eqb_true_iff, bool_decide_eq_true. Qed.
#[local] Instance ex_laws : CryptokiLaws (list Object).
Proof.
  refine {|
    hmac k d := k +:+ d; gcm_seal := ex_seal; gcm_open := ex_open; aes_wrap wk sk := ex_wrap wk (sk : string);
    aes_unwrap wk w := (ex_unwrap wk w : option SigningKey)
  |}.
  - intros k iv d. unfold ex_open, ex_seal. rewrite of_to_bytes. by rewrite decide_True.
  - intros k sk. unfold ex_unwrap, ex_wrap. rewrite of_to_bytes. by rewrite decide_True.
  - done.
  - by exists "p256".
  - intros t o t' [= <- <-]. split; [done|apply ex_keeps].
  - intros n t o t' [= <- <-]. split; [done|apply ex_keeps].
  - by intros n t e t' [=].
  - intros template t o t' [= <- <-]. split; [apply ex_keeps|]. intros b l -> h. change (nat : Type) in h. unfold ex_find, object, ex_view.
    rewrite list_elem_of_filter, elem_of_seq. cbv beta. destruct (t !! h) as [ob|] eqn:Ho; cbn [from_option].
    + apply lookup_lt_Some in Ho as Hlt. rewrite ex_satisfies.
      split; [intros [[Hp Hl] _]; eauto|]. intros (ob' & Ho' & Hp & Hl). assert (ob' = ob) as -> by (change (t !! h = Some ob') in Ho'; congruence). split; [done|lia].
    + split; [by intros []|]. intros (ob & Hob & _). change (t !! h = Some ob) in Hob. congruence.
  - intros pub priv t o t' [= <- <-]. split; [lia|]. split; [apply (ex_makes t [_; _])|]. exists ex_new.
    unfold object, ex_view. split; (rewrite lookup_app_r by lia); [by rewrite Nat.sub_diag|]. by replace (S (length t) - length t)%nat with 1%nat by lia.
  - intros h t o t' [-> Ho]%with_key_inv. split; [apply ex_keeps|]. destruct o as [l|e|]; [|done|done].
    destruct Ho as (ob & Ho & Hk). destruct (ob_key ob) as [|vk|] eqn:Hv; simplify_eq/=. by exists ob, vk, vk.
  - intros hw h t o t'. change (nat : Type) in h. intros [-> Ho]%with_key_inv. split; [apply ex_keeps|]. destruct o as [w|e|]; [|done|done].
    destruct Ho as (obw & Ho & Hk). destruct (ob_key obw) as [| |wk] eqn:Hw; [done|done|]. cbn [secret_of] in Hk.
    destruct (t !! h) as [ob|] eqn:Hh; [|done]. destruct (ob_key ob) as [sk| |] eqn:Hs; simplify_eq/=. by exists obw, ob, wk, sk.
  - intros hw w template t o t'. cbn [p11_unwrap_key ex_cryptoki].
    destruct (with_key t hw _) as [o' t1] eqn:Hw. apply with_key_inv in Hw as [-> Hw]. destruct o' as [sk|e|]; [| |done].
    + intros [= <- <-]. split; [apply (ex_makes t [_])|]. destruct Hw as (obw & Ho & Hk).
      destruct (ob_key obw) as [| |wk] eqn:Hkw; [done|done|]. exists obw, wk, sk. unfold object, ex_view.
      rewrite lookup_app_r, Nat.sub_diag by lia. done.
    + intros [= <- <-]. split; [done|apply ex_keeps].
  - intros mechanism h d t o t' [-> Ho]%with_key_inv. split; [apply ex_keeps|]. destruct o as [bytes|e|]; [|done|done].
    destruct Ho as (ob & Ho & Hk). exists ob. split; [done|]. destruct mechanism, (ob_key ob) as [sk| |s]; simplify_eq/=; [|done].
    intros m ->. eexists. split; [reflexivity|]. by apply bool_decide_eq_true.
  - intros h ob k d s t o t' Ho Hk. change (nat : Type) in h. cbn [p11_verify ex_cryptoki]. change (t !! h = Some ob) in Ho.
    replace (match t !! h with Some ob => secret_of (ob_key ob) | None => None end) with (Some k) by (by rewrite Ho, Hk).
    case_decide; by intros [= <- <-].
  - intros mechanism h d s t o t'. change (nat : Type) in h. cbn [p11_verify ex_cryptoki].
    destruct mechanism; repeat case_match; intros [= <- <-]; (split; [done|apply ex_keeps]).
  - intros iv h d t o t' [-> Ho]%with_key_inv. split; [apply ex_keeps|]. destruct o as [c|e|]; [|done|done].
    destruct Ho as (ob & Ho & Hk). destruct (ob_key ob) as [| |s] eqn:Hs; simplify_eq/=. by exists ob, s.
  - intros iv h c t o t' [-> Ho]%with_key_inv. split; [apply ex_keeps|]. destruct o as [d|e|]; [|done|done].
    destruct Ho as (ob & Ho & Hk). destruct (ob_key ob) as [| |s] eqn:Hs; simplify_eq/=. by exists ob, s.
Defined.

Definition ex_token : list Object :=
  [mkObject true true (Some "pin") (SecretBytes "pin key"); mkObject true true (Some "wrapping") (SecretBytes "wrapping key")].
Definition ex_secrets (id : string) : option string :=
  if decide (id = "pin") then Some "pin key" else if decide (id = "wrapping") then Some "wrapping key" else None.
Definition ex_hsm : Pkcs11Hsm := mkPkcs11Hsm "wrapping".
Lemma ex_equipped : equipped ex_secrets ex_token.
Proof.
  intros id k. unfold ex_secrets, object, ex_view, ex_token. repeat case_decide; subst; intros [= <-]; split.
  - by exists 0%nat; eexists.
  - intros [|[|h]] ob; by intros [= <-] ?.
  - by exists 1%nat; eexists.
  - intros [|[|h]] ob; by intros [= <-] ?.
Qed.

(** A PIN key is encrypted, a key pair is made in between, and the PIN key comes
    back; and the new key signs. *)
Definition ex_pin : VerifyingKey := "pin public key".
Definition ex_encrypted : Encrypted := mkEncrypted (ex_seal "pin key" "iv" ex_pin) "iv".
Definition ex_wrapped : WrappedKey := ex_wrap "wrapping key" ex_new.
Definition ex_token1 : list Object := (generate_wrapped_key ex_hsm ex_token).2.
Lemma ex_encrypt_run : encrypt_key "pin" ex_pin ex_token = (Ok ex_encrypted, ex_token).
Proof. vm_cast_no_check (eq_refl (Ok (E:=HsmFailure) ex_encrypted, ex_token)). Qed.
Lemma ex_generate_run : generate_wrapped_key ex_hsm ex_token = (Ok (verifying_key ex_new, ex_wrapped), ex_token1).
Proof. vm_cast_no_check (eq_refl (Ok (E:=HsmFailure) (verifying_key ex_new, ex_wrapped), ex_token1)). Qed.
Lemma ex_pin_secret : ex_secrets "pin" = Some "pin key".
Proof. vm_compute. reflexivity. Qed.
Lemma ex_wrapping_secret : ex_secrets (wrapping_key_identifier ex_hsm) = Some "wrapping key".
Proof. vm_compute. reflexivity. Qed.
Lemma hsm_keeps_promises_witness :
  unless_device (λ vk, vk = ex_pin) (decrypt_key "pin" ex_encrypted ex_token1).1 ∧
  unless_device (λ sig, ecdsa_verify (verifying_key ex_new) "message" sig = true) (sign_wrapped ex_hsm ex_wrapped "message" ex_token1).1.
Proof.
  destruct (hsm_keeps_promises ex_secrets ex_hsm ex_token ex_equipped) as (Henc & _ & Hwrap). split.
  - refine (Henc "pin" "pin key" ex_pin ex_encrypted ex_token ex_token1 _ _ ex_pin_secret ex_encrypt_run _ (surjective_pairing _)).
    exact (rtc_once _ _ (step_generate_wrapped ex_hsm _ _ _ ex_generate_run)).
  - exact (Hwrap "wrapping key" (verifying_key ex_new) ex_wrapped "message" ex_token1 ex_token1 _ _ ex_wrapping_secret ex_generate_run
      (rtc_refl _ _) (surjective_pairing _)).
Defined.
